(* ===== verification/_CoqProject ===== *)
-Q . S2P
Prelude.v
CString.v
Kernel.v
Bmfs.v
BmfsIo.v
BmfsDir.v
BmfsInv.v
BmfsOps.v
BmfsTheorems.v
Heap.v
Pbuf.v
PbufChain.v
PbufOps.v
PbufTheorems.v
NetGlue.v
PbufClone.v
NetShim.v
NetInv.v
NetSafe.v
NetApi.v
NetTheorems.v
NetRx.v
Posix.v
PosixTheorems.v
Checksum.v
Timeouts.v
Ip4Addr.v
Crt0.v
Link.v
Etharp.v
EtharpInv.v
EtharpOps.v
EtharpSend.v
Ethernet.v
EthernetInv.v
EthernetRx.v
EtharpTheorems.v
EthernetTheorems.v
Ip4.v
Icmp.v
Ip4Input.v
Ip4Inv.v
IcmpInv.v
Ip4Rx.v
Ip4Hdr.v
Ip4Send.v
Ip4Theorems.v
Reass.v
ReassInv.v
ReassOps.v
ReassRun.v
ReassData.v
ReassTheorems.v
Udp.v
UdpInv.v
UdpRx.v
UdpSend.v
UdpTheorems.v
Netif.v
NetifInv.v
NetifTheorems.v
DhcpParse.v
DhcpOptions.v
Dhcp.v
DhcpMsg.v
DhcpSend.v
DhcpInv.v
DhcpOps.v
DhcpSafe.v
DhcpEvents.v
DhcpTheorems.v
NetStart.v
