(* ===== verification/Prelude.v ===== *)
(** * A verification library for BareMetal-AppPortKit

    The port kit runs C programs, linked against musl, as unikernels on the
    BareMetal exokernel.  musl's system-call entry is replaced by a function
    call into src/app/posix_shim.c, which serves every call from three parts:
    a bump-pointer heap (posix_shim.c), a flat file system on raw 4096-byte
    sectors (src/app/bmfs.c) and blocking TCP sockets (src/app/net_shim.c) on
    top of lwIP's raw API, driven by a polling loop over one NIC
    (src/app/net_glue.c).  This library models these parts, and the parts of
    lwIP and musl they lean on, as executable functions, and proves what makes
    each of them correct, alone and together.

    ** How the code is modelled

    A C function becomes a function on explicit state that returns a [res]:
    [Ret] with the result, [Undef] where the code would have undefined
    behaviour or fail an assertion (an index outside a table, a NULL or freed
    pointer, a signed overflow, LWIP_ASSERT), [NoFuel] where a loop is still
    running when its fuel is used up.  So "returns [Ret]" says at once that
    the call terminates and stays defined.  Integers are [Z] with the
    conversions [u8], [u16], [u32], [u64], [i32], [i64] written where the
    width matters; bytes are [Z] in 0..255; memory is a finite map from
    addresses to bytes; struct and enum become [Record] and [Inductive].  What
    is not in the repository is a parameter: the kernel's drive is the class
    [NVS] with its laws [NVSLaws] and a RAM-disk instance, the clock, the
    keyboard and the allocator are functions from the number of the question
    to the answer, lwIP's reaction to packets is the class [NetStack] or the
    environment [env].  Hypotheses on them are named and every theorem that
    has one is applied to a concrete instance.

    ** The files

    - Prelude: outcomes and their notation, machine integers, bytes, memory,
      tactics; the lemmas shared by all files.
    - CString: memchr, strnlen, strncmp, strlen, strchrnul and strchr of musl
      with their word-at-a-time loops, equal to their byte-wise meaning.
    - Kernel: the interface of libBareMetal.c.
    - Bmfs (bmfs.c: every function); BmfsIo (the sector loops refine reads and
      writes of one flat byte array); BmfsDir (the directory sector, names as
      C strings, directory scans); BmfsInv (the invariant [fs_inv]); BmfsOps
      (what each call returns and that it keeps the invariant); BmfsTheorems.
    - Heap: brk, mmap and munmap of posix_shim.c.
    - Pbuf (lwIP's pbuf.c over a heap of pbufs); PbufChain (chains and the
      bytes they carry); PbufOps; PbufTheorems.
    - NetGlue (net_glue.c: transmit, receive, poll, wait for DHCP).
    - NetShim (net_shim.c: the socket table, the lwIP callbacks, the socket
      calls); NetInv (the invariant [net_inv] between table and pcbs); NetSafe
      and NetApi (every callback and call keeps it and returns); NetTheorems;
      NetRx (the receive queue at the level of pbufs refines the byte queue
      NetShim uses).
    - Posix (posix_shim.c: the dispatcher and all handlers over the state of
      the whole machine); PosixTheorems (the invariants of all parts hold
      together after any sequence of system calls).
    - Checksum (inet_chksum.c against RFC 1071), Timeouts (timeouts.c, the
      timers that the polling loop runs), Ip4Addr (ip4_addr.c).
    - Crt0 (crt0.c from _start to __libc_start_main, and musl's __init_libc on
      the stack it fabricates).
    - PbufClone: pbuf_copy into one pbuf and pbuf_clone.
    - Link: what ARP needs of the packets, as the classes [LinkOps] and
      [LinkLaws]; Etharp (ipv4/etharp.c: every function this build has, over
      that interface); EtharpInv (the invariant [arp_ok] of the table, its
      sweep and recycling); EtharpOps and EtharpSend (what each operation does
      to the table and the packets); EtharpTheorems.
    - Ethernet (netif/ethernet.c on the pbuf heap and the driver of
      net_glue.c, and the implementation [nic_link] of [LinkOps]); EthernetInv
      (it keeps [LinkLaws]: reference counts, disjoint packets, framing);
      EthernetRx (every received frame is consumed); EthernetTheorems.
    - Ip4 (ipv4/ip4.c: routes, headers, sending), Icmp (ipv4/icmp.c) and
      Ip4Input (ip4_input), over ARP, Ethernet and the driver; Ip4Inv and
      IcmpInv (sending keeps the packets in order and always returns), Ip4Rx
      (so does receiving, against what the layers above promise, [upper_ok]),
      Ip4Hdr and Ip4Send (the headers and checksums that go on the wire);
      Ip4Theorems.
    - Reass (ipv4/ip4_frag.c: reassembly with its timer and its eviction);
      ReassInv (the invariant [reass_inv]: the fragments that wait are sorted,
      apart and in the frame, see below; giving datagrams up keeps it),
      ReassOps (a fragment finds its place), ReassRun (ip4_reass keeps the
      contract IP asks for), ReassData (the bytes of the packet that comes
      out); ReassTheorems.
    - Udp (udp.c: control blocks, ports, receiving, sending); UdpInv (the
      invariant [udp_ok] of the list of blocks, and what each call does),
      UdpRx (which block gets a datagram, against the definition [receiver];
      udp_input keeps the contract IP asks for), UdpSend (the datagram on the
      wire and its checksum); UdpTheorems (with the whole receive path from
      the frame to the callback of a block).
    - Netif (netif.c: adding and removing interfaces, addresses, up and down,
      reports, the default interface); NetifInv (the invariant of the list of
      interfaces over the whole stack; what each call does); NetifTheorems.
    - DhcpParse (ipv4/dhcp.c: the parser of replies over a chain of pbufs) and
      DhcpOptions (what it finds in a reply in one pbuf, against the list of
      its options); Dhcp (the rest of ipv4/dhcp.c: every function this build
      has, and the link changes of netif.c that call it); DhcpMsg and DhcpSend
      (the messages it sends and what sending does to the stack); DhcpInv (the
      invariant [dhcp_inv]: the widths of the fields of a client, the one UDP
      block all clients share, its reference count), DhcpOps, DhcpSafe and
      DhcpEvents (what each operation, timer and reply does, and that it keeps
      the invariant); DhcpTheorems.
    - NetStart: net_init of net_glue.c from netif_add to dhcp_start, and a run
      from there to a bound address through all layers.

    Packets that someone keeps, such as fragments that wait, are a frame
    ([Frame], EthernetInv): whatever ARP, IP and ICMP do to the packets they
    hold, the frame stays as it is.  Their lemmas hold for any frame, so
    reassembly can put a fragment into it and take it out again.

    ** What the theorems show

    - Safety: every system call from every reachable state returns, whatever
      the network does (PosixTheorems.syscall_reachable_safe, on top of
      BmfsTheorems.bmfs_reachable_safe, NetTheorems.net_reachable_safe and
      Heap.heap_brk_contract); the preconditions are those of the C code: a
      descriptor of the right table, buffers inside the address space.
    - Address resolution: no sequence of ARP operations, interleaved with
      other users of packets, fails or corrupts the table
      (EtharpTheorems.etharp_safe, proved against [LinkLaws] and applied to
      the pbuf heap); what is learned is used, what waits is sent, what is old
      goes, and the cache evicts by its policy; the frame on the wire is the
      header and the packet (EthernetTheorems.ethernet_output_frame).
    - IP: every received frame is consumed, whatever it holds
      (UdpTheorems.rx_frame_consumed, with ARP, ICMP, reassembly and UDP); what is
      not for us ([for_us], stated on addresses and not by the code's own test) is
      dropped without effect; what is sent is one frame with a
      header that verifies; a ping is answered with its own data.
    - Reassembly: fragments in any order give back the datagram they are
      pieces of; overlaps are refused; completeness is decided exactly; what
      stays incomplete is given up in time.
    - UDP: no sequence of calls breaks the list of blocks or binds two of them
      to the same datagrams; a port that is given out is free; a datagram
      reaches the block that is bound to it, or is answered or dropped for a
      stated reason; what is sent verifies at the receiver.
    - Interfaces: the numbers of the interfaces in the list stay different
      whatever is added and removed; netif_set_addr sets exactly the three
      addresses and reports the change.
    - DHCP: no sequence of calls, ticks, link changes and replies fails, leaks
      a packet, or drops the shared UDP block while a client needs it
      (DhcpTheorems.dhcp_events_safe); no client waits without a
      running timer; a reply changes the client only if
      it is addressed to it, and then as its kind and the state say
      (dhcp_reply_effect); an acknowledgement binds the interface to the
      address, mask and router in it (dhcp_ack_binds); the timers of a lease (dhcp_lease_timers); a lease that is not
      renewed is given up when its time is over (dhcp_lease_expires); the
      options of a reply are found also in overloaded fields
      (dhcp_options_roundtrip); after net_init the client is selecting and the
      one frame on the wire is its discover message, unless memory was short
      (dhcp_discover_frame, NetStart.net_up_starts).
    - Refinement: the sector loops refine a flat byte array, the pbuf queues
      refine byte streams, the checksums equal RFC 1071.
    - Round trips: write and read back, also across a reboot and through the
      system calls; pbuf_take and pbuf_copy_partial; address text.
    - Error behaviour: each errno of open, unlink, recv, send, accept.
    - Defects: theorems about concrete runs that show where the code breaks
      its own contract (unlinking an open file, brk and mmap handing out the
      same page, accept after a reset, writev with an empty first element, an
      ARP frame or an IP packet shorter than its header, a last fragment
      without data, a DHCP option that reaches over a whole pbuf, a lease time
      that wraps around).

    ** Fuel

    Loops over a fixed table need none.  [io_fuel] is the number of sectors a
    transfer touches plus one; a loop over a pbuf chain gets one unit per live
    pbuf and one more ([chain_fuel]); the blocking socket calls get as many
    rounds as the clock needs for the 30 s timeout, which is a hypothesis on
    the clock; string scans get the distance to the terminator; the search for
    a free UDP port gets one unit more than there are ports; the parser of
    DHCP replies gets 65537 steps, as an option takes at least one of at most
    65535 bytes; the search for an interface number gets 256 rounds, one for
    each number; the padding of a DHCP message at most 69.  The theorems
    prove [Ret], so the fuel is enough in every case covered.

    ** Not modelled

    The kernel and its drivers (not in the repository); lwIP's fragmentation
    of what is sent (a parameter with the contract [frag_ok]); what TCP does
    when an address of an interface changes (a parameter of Netif); lwip_init
    and the start of the timers in front of netif_add in net_init (their
    effect is the empty stack NetStart begins with); a DHCP reply in more than
    one pbuf is modelled, and the theorems on replies are for one pbuf but
    dhcp_split_reads_outside; other callbacks of UDP are functions with the
    contract [recv_ok]; a UDP packet without room
    for its header, whose chain shares pbufs with its owner while it is sent,
    is modelled but not covered by the theorem on sending; TCP segment
    processing, which is a parameter with the contract [takes_packet] for IP
    and behind the environment for the sockets (the
    environment of NetShim decides which segments arrive; what the socket
    layer sees of a pcb is modelled); the rest of musl and
    the lwIP modules this configuration does not build.  Instructions written
    in inline assembly (CPUID, RDRAND, RDTSC, the MSR accesses of arch_prctl)
    appear as what they deliver. *)
From Stdlib Require Export ZArith Lia.
From stdpp Require Export base numbers list list_numbers gmap.
#[global] Open Scope Z_scope.

(** ** Outcomes

    A C function either returns a value, runs into behaviour the language
    leaves undefined (an index outside an array, a null dereference, a signed
    overflow), or is still running when the fuel given to one of its loops is
    used up. *)
Inductive res (A : Type) : Type :=
  | Ret (a : A)
  | Undef
  | NoFuel.
Arguments Ret {A} a.
Arguments Undef {A}.
Arguments NoFuel {A}.

Definition res_bind {A B} (m : res A) (k : A -> res B) : res B :=
  match m with
  | Ret a => k a
  | Undef => Undef
  | NoFuel => NoFuel
  end.

Declare Scope res_scope.
Delimit Scope res_scope with res.
#[global] Open Scope res_scope.
Notation "'let*' p ':=' m 'in' k" := (res_bind m (fun p => k))
  (at level 10, p pattern, k at level 200) : res_scope.

Definition res_of_option {A} (o : option A) : res A :=
  match o with Some a => Ret a | None => Undef end.

Lemma res_bind_Ret {A B} (m : res A) (k : A -> res B) b :
  res_bind m k = Ret b -> exists a, m = Ret a /\ k a = Ret b.
Proof. destruct m; simpl; intros; try discriminate; eauto. Qed.

(** [arr[i]] for a C array of known contents: undefined outside it. *)
Definition arr_get {A} (l : list A) (i : Z) : res A :=
  if i <? 0 then Undef else res_of_option (l !! Z.to_nat i).

Lemma arr_get_Ret {A} (l : list A) i x :
  arr_get l i = Ret x <-> 0 <= i /\ l !! Z.to_nat i = Some x.
Proof.
  unfold arr_get. destruct (Z.ltb_spec i 0).
  - split; [discriminate|lia].
  - destruct (l !! Z.to_nat i); simpl; split; try (intros [? ?]; congruence); try discriminate.
    intros [= ->]. done.
Qed.

(** ** Machine integers

    C integers are modelled by [Z]; every place where the width matters
    applies one of these conversions explicitly. *)

Declare Scope c_scope.
Delimit Scope c_scope with c.

Definition u8 (x : Z) : Z := x mod 256.
Definition u16 (x : Z) : Z := x mod 65536.
Definition u32 (x : Z) : Z := x mod 4294967296.
Definition u64 (x : Z) : Z := x mod 18446744073709551616.
Definition i32 (x : Z) : Z := (x + 2147483648) mod 4294967296 - 2147483648.
Definition i64 (x : Z) : Z := (x + 9223372036854775808) mod 18446744073709551616 - 9223372036854775808.

(** C truth: a non-zero integer is true. *)
Definition truth (x : Z) : bool := negb (x =? 0).
(** [x & m] used as a condition. *)
Definition has_flag (x m : Z) : bool := truth (Z.land x m).
(** A C comparison or logical operator yields 0 or 1. *)
Definition b2z (b : bool) : Z := if b then 1 else 0.

Notation "x '!=?' y" := (negb (Z.eqb x y)) (at level 70, no associativity) : c_scope.
#[global] Open Scope c_scope.

(** ** Automation *)

Create HintDb cint.
Create Rewrite HintDb cint.

Ltac zbool :=
  repeat match goal with
  | H : (_ && _)%bool = true |- _ => apply andb_true_iff in H; destruct H
  | H : (_ || _)%bool = false |- _ => apply orb_false_iff in H; destruct H
  | H : negb _ = true |- _ => apply negb_true_iff in H
  | H : negb _ = false |- _ => apply negb_false_iff in H
  | H : (_ =? _) = true |- _ => apply Z.eqb_eq in H
  | H : (_ =? _) = false |- _ => apply Z.eqb_neq in H
  | H : (_ <? _) = true |- _ => apply Z.ltb_lt in H
  | H : (_ <? _) = false |- _ => apply Z.ltb_ge in H
  | H : (_ <=? _) = true |- _ => apply Z.leb_le in H
  | H : (_ <=? _) = false |- _ => apply Z.leb_gt in H
  | H : (_ >? _) = _ |- _ => rewrite Z.gtb_ltb in H
  | H : (_ >=? _) = _ |- _ => rewrite Z.geb_leb in H
  end.

(** Split on the next Z comparison that guards an [if]. *)
Ltac zcase_goal :=
  match goal with
  | |- context [if ?a <? ?b then _ else _] => destruct (Z.ltb_spec a b)
  | |- context [if ?a <=? ?b then _ else _] => destruct (Z.leb_spec a b)
  | |- context [if ?a =? ?b then _ else _] => destruct (Z.eqb_spec a b)
  | |- context [if ?a >? ?b then _ else _] => rewrite (Z.gtb_ltb a b)
  | |- context [if ?a >=? ?b then _ else _] => rewrite (Z.geb_leb a b)
  | |- context [if negb ?b then _ else _] => destruct b eqn:?
  | |- context [if ?b then _ else _] =>
      lazymatch type of b with bool => destruct b eqn:? end
  end.
Ltac zcases := repeat (zcase_goal; simpl; zbool).

Lemma u64_small x : 0 <= x < 18446744073709551616 -> u64 x = x.
Proof. apply Z.mod_small. Qed.
Lemma u64_range x : 0 <= u64 x < 18446744073709551616.
Proof. by apply Z.mod_pos_bound. Qed.
Lemma u64_idem x : u64 (u64 x) = u64 x.
Proof. apply u64_small, u64_range. Qed.
Lemma u64_i64 x : u64 (i64 x) = u64 x.
Proof. unfold u64, i64. Z.div_mod_to_equations; lia. Qed.
Lemma u32_small x : 0 <= x < 4294967296 -> u32 x = x.
Proof. apply Z.mod_small. Qed.
Lemma u32_range x : 0 <= u32 x < 4294967296.
Proof. by apply Z.mod_pos_bound. Qed.
Lemma u16_small x : 0 <= x < 65536 -> u16 x = x.
Proof. apply Z.mod_small. Qed.
Lemma u16_range x : 0 <= u16 x < 65536.
Proof. by apply Z.mod_pos_bound. Qed.
Lemma u8_small x : 0 <= x < 256 -> u8 x = x.
Proof. apply Z.mod_small. Qed.
Lemma u8_range x : 0 <= u8 x < 256.
Proof. by apply Z.mod_pos_bound. Qed.
Lemma i64_small x : -9223372036854775808 <= x < 9223372036854775808 -> i64 x = x.
Proof. intros H. unfold i64. rewrite Z.mod_small; lia. Qed.
Lemma i64_range x : -9223372036854775808 <= i64 x < 9223372036854775808.
Proof.
  unfold i64. pose proof (Z.mod_pos_bound (x + 9223372036854775808) 18446744073709551616).
  lia.
Qed.
Lemma i32_small x : -2147483648 <= x < 2147483648 -> i32 x = x.
Proof. intros H. unfold i32. rewrite Z.mod_small; lia. Qed.

#[export] Hint Rewrite u64_small u32_small u16_small u8_small i64_small i32_small
  using lia : cint.
#[export] Hint Resolve u64_range u32_range u16_range u8_range i64_range : cint.

(** ** Bytes *)

Definition is_byte (b : Z) : Prop := 0 <= b < 256.
#[export] Instance is_byte_dec b : Decision (is_byte b).
Proof. unfold is_byte. apply _. Defined.
Definition bytes (l : list Z) : Prop := Forall is_byte l.

Lemma u8_is_byte x : is_byte (u8 x).
Proof. apply u8_range. Qed.
#[export] Hint Resolve u8_is_byte : cint.

(** Little-endian encoding, the layout x86-64 gives integers in memory. *)
Fixpoint le_bytes (n : nat) (v : Z) : list Z :=
  match n with
  | O => []
  | S k => u8 v :: le_bytes k (v / 256)
  end.

Fixpoint le_val (l : list Z) : Z :=
  match l with
  | [] => 0
  | b :: r => b + 256 * le_val r
  end.

Lemma length_le_bytes n v : length (le_bytes n v) = n.
Proof. revert v; induction n; intros; simpl; auto. Qed.

Lemma le_bytes_bytes n v : bytes (le_bytes n v).
Proof.
  revert v; induction n as [|n IH]; intros v; constructor; [apply u8_is_byte|apply IH].
Qed.

Lemma le_val_bound l : bytes l -> 0 <= le_val l < 256 ^ Z.of_nat (length l).
Proof.
  induction 1 as [|b l Hb Hl IH]; [simpl; lia|].
  cbn [le_val length]. rewrite Nat2Z.inj_succ, Z.pow_succ_r by lia.
  unfold is_byte in Hb. lia.
Qed.

Lemma le_val_le_bytes n v : 0 <= v < 256 ^ Z.of_nat n -> le_val (le_bytes n v) = v.
Proof.
  revert v; induction n as [|n IH]; intros v Hv; [simpl in *; lia|].
  cbn [le_val le_bytes]. rewrite Nat2Z.inj_succ, Z.pow_succ_r in Hv by lia.
  rewrite IH.
  - unfold u8. pose proof (Z.div_mod v 256). lia.
  - split; [apply Z.div_pos; lia|]. apply Z.div_lt_upper_bound; lia.
Qed.

Lemma le_bytes_le_val l : bytes l -> le_bytes (length l) (le_val l) = l.
Proof.
  induction 1 as [|b l Hb Hl IH]; [done|]. unfold is_byte in Hb.
  cbn [length le_bytes le_val]. unfold u8.
  rewrite (Z.mul_comm 256), Z_mod_plus_full, Z.mod_small by lia.
  rewrite Z.div_add, (Z.div_small b) by lia. by rewrite Z.add_0_l, IH.
Qed.

(** ** Buffers

    A [const void *] argument of known meaning is a reader: the byte at each
    index.  [slice r o n] is the [n] bytes a [memcpy] from [r + o] copies. *)
Definition reader : Type := Z -> Z.

Definition slice (r : reader) (o n : Z) : list Z := (fun i => r (o + i)) <$> seqZ 0 n.

Definition list_reader (l : list Z) : reader :=
  fun i => if i <? 0 then 0 else default 0 (l !! Z.to_nat i).

(** [memcpy(dst + off, new, |new|)] on an array. *)
Definition memcpy_at (off : Z) (new : list Z) (dst : list Z) : list Z :=
  list_inserts (Z.to_nat off) new dst.

Lemma length_slice r o n : length (slice r o n) = Z.to_nat n.
Proof. unfold slice. by rewrite length_fmap, length_seqZ. Qed.

Lemma lookup_slice r o n (i : nat) :
  (Z.of_nat i < n) -> slice r o n !! i = Some (r (o + Z.of_nat i)).
Proof.
  intros H. unfold slice. rewrite list_lookup_fmap, lookup_seqZ_lt by lia.
  simpl. do 2 f_equal; lia.
Qed.

Lemma slice_app r o n m :
  0 <= n -> 0 <= m -> slice r o n ++ slice r (o + n) m = slice r o (n + m).
Proof.
  intros Hn Hm. unfold slice. rewrite (seqZ_app 0 n m) by lia.
  rewrite fmap_app. f_equal.
  apply list_eq; intros i. rewrite !list_lookup_fmap.
  destruct (decide (Z.of_nat i < m)).
  - rewrite !lookup_seqZ_lt by lia. simpl. do 2 f_equal; lia.
  - rewrite !lookup_seqZ_ge by lia. done.
Qed.

Lemma slice_nil r o n : n <= 0 -> slice r o n = [].
Proof. intros H. unfold slice. by rewrite seqZ_nil. Qed.

Lemma slice_ext r r' o o' n :
  (forall i, 0 <= i < n -> r (o + i) = r' (o' + i)) -> slice r o n = slice r' o' n.
Proof.
  intros H. apply list_eq; intros i.
  destruct (decide (Z.of_nat i < n)).
  - rewrite !lookup_slice by lia. by rewrite H by lia.
  - rewrite !lookup_ge_None_2; rewrite ?length_slice; auto; lia.
Qed.

Lemma slice_list_reader (l : list Z) : slice (list_reader l) 0 (Z.of_nat (length l)) = l.
Proof.
  apply list_eq; intros i. destruct (decide (i < length l)%nat).
  - rewrite lookup_slice by lia. unfold list_reader.
    destruct (Z.ltb_spec (0 + Z.of_nat i) 0); [lia|].
    destruct (lookup_lt_is_Some_2 l i) as [x Hx]; [done|].
    rewrite Z.add_0_l, Nat2Z.id, Hx. done.
  - rewrite !lookup_ge_None_2; rewrite ?length_slice; auto; lia.
Qed.

Lemma bytes_slice r o n : (forall i, is_byte (r i)) -> bytes (slice r o n).
Proof. intros H. unfold bytes, slice. rewrite Forall_fmap. by apply Forall_true; intros; simpl. Qed.

Lemma length_memcpy_at off new dst : length (memcpy_at off new dst) = length dst.
Proof. apply length_inserts. Qed.

(** ** Memory

    The application runs in ring 0 of one flat address space in which every
    address is mapped, so a load never faults: an address that was never
    stored to reads as 0. *)
Abbreviation memory := (gmap Z Z).

Definition mload (m : memory) (a : Z) : Z := default 0 (m !! u64 a).
Definition mstore (m : memory) (a b : Z) : memory := <[u64 a := u8 b]> m.

Fixpoint mem_write (m : memory) (a : Z) (bs : list Z) : memory :=
  match bs with
  | [] => m
  | b :: r => mem_write (mstore m a b) (a + 1) r
  end.

Definition mem_reader (m : memory) (a : Z) : reader := fun i => mload m (a + i).
Definition mem_read (m : memory) (a n : Z) : list Z := slice (mem_reader m a) 0 n.
Definition mem_read_u64 (m : memory) (a : Z) : Z := le_val (mem_read m a 8).
Definition mem_write_u64 (m : memory) (a v : Z) : memory := mem_write m a (le_bytes 8 v).

(** ** Reading arrays and patched arrays *)
Lemma list_reader_lookup (l : list Z) (i : nat) x :
  l !! i = Some x -> list_reader l (Z.of_nat i) = x.
Proof.
  intros H. unfold list_reader. destruct (Z.ltb_spec (Z.of_nat i) 0); [lia|].
  by rewrite Nat2Z.id, H.
Qed.

Lemma list_reader_byte (l : list Z) i : bytes l -> is_byte (list_reader l i).
Proof.
  intros H. unfold list_reader. destruct (Z.ltb_spec i 0); [done|].
  destruct (l !! Z.to_nat i) eqn:E; [|done]. by eapply (proj1 (Forall_lookup _ _) H).
Qed.

Lemma list_reader_memcpy_at off new dst i :
  0 <= off -> off + Z.of_nat (length new) <= Z.of_nat (length dst) ->
  list_reader (memcpy_at off new dst) i =
  if (off <=? i) && (i <? off + Z.of_nat (length new))
  then list_reader new (i - off) else list_reader dst i.
Proof.
  intros Ho Hlen. unfold list_reader, memcpy_at.
  destruct (Z.leb_spec off i), (Z.ltb_spec i (off + Z.of_nat (length new))), (Z.ltb_spec i 0),
    (Z.ltb_spec (i - off) 0); simpl; try lia; try done.
  - rewrite list_lookup_inserts by lia. f_equal. f_equal. lia.
  - by rewrite list_lookup_inserts_ge by lia.
  - by rewrite list_lookup_inserts_lt by lia.
Qed.

Lemma list_reader_slice r o n i :
  0 <= i < n -> list_reader (slice r o n) i = r (o + i).
Proof.
  intros H. unfold list_reader. destruct (Z.ltb_spec i 0); [lia|].
  by rewrite lookup_slice, Z2Nat.id by lia.
Qed.

Lemma list_reader_ext (l l' : list Z) :
  length l = length l' ->
  (forall i, 0 <= i < Z.of_nat (length l) -> list_reader l i = list_reader l' i) -> l = l'.
Proof.
  intros Hlen H. rewrite <- (slice_list_reader l), <- (slice_list_reader l'), <- Hlen.
  apply slice_ext. intros i Hi. rewrite Z.add_0_l. by apply H.
Qed.

Lemma take_drop_slice (l : list Z) o n :
  0 <= o -> 0 <= n -> o + n <= Z.of_nat (length l) ->
  take (Z.to_nat n) (drop (Z.to_nat o) l) = slice (list_reader l) o n.
Proof.
  intros Ho Hn Hl. apply list_reader_ext.
  - rewrite length_take, length_drop, length_slice. lia.
  - intros i Hi. rewrite length_take, length_drop in Hi.
    rewrite list_reader_slice by lia. unfold list_reader.
    destruct (Z.ltb_spec i 0), (Z.ltb_spec (o + i) 0); try lia.
    rewrite lookup_take_lt, lookup_drop by lia. do 2 f_equal. lia.
Qed.

Lemma bytes_memcpy_at off new dst : bytes new -> bytes dst -> bytes (memcpy_at off new dst).
Proof. intros Hn Hd. apply Forall_lookup. intros i x. unfold memcpy_at.
  rewrite list_lookup_inserts_Some. intros [[_ H]|(_ & _ & H)];
    [by eapply (proj1 (Forall_lookup _ _) Hd)|by eapply (proj1 (Forall_lookup _ _) Hn)].
Qed.

(** Quotient and remainder by a positive constant, for [lia]. *)
Ltac zdiv := Z.div_mod_to_equations; lia.

(** Joining bit fields: a shifted value and one below it. *)
Lemma lor_shift_add a b n : 0 <= n -> 0 <= b < 2 ^ n -> Z.lor (Z.shiftl a n) b = a * 2 ^ n + b.
Proof.
  intros Hn Hb. rewrite <- Z.shiftl_mul_pow2, <- Z.add_lor_land by lia.
  replace (Z.land (Z.shiftl a n) b) with 0; [by rewrite Z.add_0_r|].
  apply Z.bits_inj'. intros i Hi. rewrite Z.bits_0, Z.land_spec, Z.shiftl_spec by lia.
  destruct (Z.ltb_spec i n); [by rewrite Z.testbit_neg_r by lia|].
  rewrite <- (Z.mod_small b (2 ^ n)), Z.mod_pow2_bits_high by lia. by rewrite andb_false_r.
Qed.

(** One byte of a word, in place. *)
Lemma land_byte_field x k : 0 <= k ->
  Z.land x (Z.shiftl (Z.ones 8) k) = Z.shiftl ((x / 2 ^ k) mod 256) k.
Proof.
  intros Hk. change 256 with (2 ^ 8). rewrite <- Z.land_ones, <- Z.shiftr_div_pow2 by lia.
  apply Z.bits_inj'. intros i Hi. rewrite Z.land_spec, !Z.shiftl_spec by lia.
  destruct (Z.ltb_spec i k); [by rewrite !(Z.testbit_neg_r _ (i - k)), andb_false_r by lia|].
  rewrite Z.land_spec, Z.shiftr_spec by lia. do 2 f_equal. lia.
Qed.

(** ** First-match scans

    [for (i = 0; i < N; i++) if (p(a[i])) return i; return -1;] *)
Fixpoint find_from {A} (p : A -> bool) (i : Z) (l : list A) : Z :=
  match l with
  | [] => -1
  | x :: r => if p x then i else find_from p (i + 1) r
  end.

Inductive find_spec {A} (p : A -> bool) (i : Z) (l : list A) : Z -> Prop :=
  | find_none : (forall k x, l !! k = Some x -> p x = false) -> find_spec p i l (-1)
  | find_at k x : l !! k = Some x -> p x = true ->
      (forall j y, (j < k)%nat -> l !! j = Some y -> p y = false) ->
      find_spec p i l (i + Z.of_nat k).

Lemma find_from_spec {A} (p : A -> bool) i (l : list A) : find_spec p i l (find_from p i l).
Proof.
  revert i; induction l as [|x l IH]; intros i; simpl; [by constructor|].
  destruct (p x) eqn:E.
  - replace i with (i + Z.of_nat 0) at 2 by lia. eapply find_at; [done|done|lia].
  - destruct (IH (i + 1)) as [Hn|k y Hk Hy Hlt].
    + constructor. intros [|k] y Hy; simplify_eq/=; eauto.
    + replace (i + 1 + Z.of_nat k) with (i + Z.of_nat (S k)) by lia.
      eapply find_at; [exact Hk|done|]. intros [|j] z Hj Hz; simplify_eq/=; [done|].
      eapply Hlt; [|done]. lia.
Qed.

(** ** Reading memory back after a store *)
Definition addr_ok (a n : Z) : Prop := 0 <= a /\ 0 <= n /\ a + n <= 18446744073709551616.

Lemma mload_mstore m a b x :
  addr_ok a 1 -> addr_ok x 1 -> mload (mstore m a b) x = if x =? a then u8 b else mload m x.
Proof.
  intros (? & _ & ?) (? & _ & ?). unfold mload, mstore. rewrite !u64_small by lia.
  destruct (Z.eqb_spec x a) as [->|]; [by rewrite lookup_insert_eq|].
  by rewrite lookup_insert_ne by congruence.
Qed.

Lemma mload_mem_write m a bs x :
  addr_ok a (Z.of_nat (length bs)) -> addr_ok x 1 -> bytes bs ->
  mload (mem_write m a bs) x =
  if (a <=? x) && (x <? a + Z.of_nat (length bs)) then list_reader bs (x - a) else mload m x.
Proof.
  intros Ha Hx Hb. revert m a Ha. induction Hb as [|b bs Hb _ IH]; intros m a Ha.
  { cbn [length mem_write]. change (Z.of_nat 0) with 0. rewrite Z.add_0_r.
    destruct (Z.leb_spec a x), (Z.ltb_spec x a); simpl; try done; lia. }
  unfold addr_ok in *. cbn [length mem_write] in *. rewrite Nat2Z.inj_succ in *.
  rewrite IH by lia. rewrite mload_mstore by (unfold addr_ok; lia).
  unfold is_byte in Hb. rewrite (u8_small b) by lia. unfold list_reader.
  destruct (Z.leb_spec (a + 1) x), (Z.leb_spec a x), (Z.ltb_spec x (a + 1 + Z.of_nat (length bs))),
    (Z.ltb_spec x (a + Z.succ (Z.of_nat (length bs)))), (Z.eqb_spec x a),
    (Z.ltb_spec (x - (a + 1)) 0), (Z.ltb_spec (x - a) 0); simpl; try lia; try done.
  - replace (Z.to_nat (x - a)) with (S (Z.to_nat (x - (a + 1)))) by lia. done.
  - subst. by rewrite Z.sub_diag.
Qed.

Lemma mem_read_write_same m a bs :
  addr_ok a (Z.of_nat (length bs)) -> bytes bs ->
  mem_read (mem_write m a bs) a (Z.of_nat (length bs)) = bs.
Proof.
  intros Ha Hb. rewrite <- (slice_list_reader bs) at 3. apply slice_ext. intros i Hi.
  unfold mem_reader. unfold addr_ok in *. rewrite mload_mem_write by (unfold addr_ok; (done || lia)).
  destruct (Z.leb_spec a (a + (0 + i))), (Z.ltb_spec (a + (0 + i)) (a + Z.of_nat (length bs)));
    simpl; try lia. f_equal. lia.
Qed.

Lemma mem_read_write_other m a bs x n :
  addr_ok a (Z.of_nat (length bs)) -> addr_ok x n -> bytes bs ->
  a + Z.of_nat (length bs) <= x \/ x + n <= a ->
  mem_read (mem_write m a bs) x n = mem_read m x n.
Proof.
  intros Ha Hx Hb Hd. apply slice_ext. intros i Hi. unfold mem_reader, addr_ok in *.
  rewrite mload_mem_write by (unfold addr_ok; (done || lia)).
  destruct (Z.leb_spec a (x + (0 + i))), (Z.ltb_spec (x + (0 + i)) (a + Z.of_nat (length bs)));
    simpl; try done; lia.
Qed.

(** Outside the bytes stored, whatever they are. *)
Lemma mload_mem_write_out m a bs x :
  addr_ok a (Z.of_nat (length bs)) -> addr_ok x 1 -> x < a \/ a + Z.of_nat (length bs) <= x ->
  mload (mem_write m a bs) x = mload m x.
Proof.
  revert m a. induction bs as [|b bs IH]; intros m a Ha Hx Hd; [done|].
  unfold addr_ok in *. cbn [length mem_write] in *. rewrite Nat2Z.inj_succ in *.
  rewrite IH, mload_mstore by (unfold addr_ok; lia).
  destruct (Z.eqb_spec x a); [lia|done].
Qed.

Lemma mem_read_write_out m a bs x n :
  addr_ok a (Z.of_nat (length bs)) -> addr_ok x n ->
  a + Z.of_nat (length bs) <= x \/ x + n <= a ->
  mem_read (mem_write m a bs) x n = mem_read m x n.
Proof.
  intros Ha Hx Hd. apply slice_ext. intros i Hi. unfold mem_reader, addr_ok in *.
  apply mload_mem_write_out; unfold addr_ok; lia.
Qed.

(** Only the address modulo 2^64 matters: a pointer passed as a [long]. *)
Lemma mload_wrap m a : mload m (u64 a) = mload m a.
Proof. unfold mload. by rewrite u64_idem. Qed.

Lemma u64_add_l a b : u64 (u64 a + b) = u64 (a + b).
Proof. unfold u64. apply Zplus_mod_idemp_l. Qed.

Lemma mem_read_wrap m a n : mem_read m (u64 a) n = mem_read m a n.
Proof.
  apply slice_ext. intros i _. unfold mem_reader. rewrite <- mload_wrap, u64_add_l. apply mload_wrap.
Qed.

Lemma mem_write_wrap m a bs : mem_write m (u64 a) bs = mem_write m a bs.
Proof.
  assert (forall a a', u64 a = u64 a' -> mem_write m a bs = mem_write m a' bs) as H;
    [|by apply H, u64_idem].
  revert m. induction bs as [|b bs IH]; intros m x y E; [done|]. cbn [mem_write].
  unfold mstore. rewrite E. apply IH. by rewrite <- (u64_add_l x), <- (u64_add_l y), E.
Qed.

Lemma mem_read_u64_write m a v :
  addr_ok a 8 -> 0 <= v < 18446744073709551616 -> mem_read_u64 (mem_write_u64 m a v) a = v.
Proof.
  intros Ha Hv. unfold mem_read_u64, mem_write_u64.
  pose proof (mem_read_write_same m a (le_bytes 8 v)) as H. rewrite length_le_bytes in H.
  change 8 with (Z.of_nat 8). rewrite H; [by apply le_val_le_bytes|done|apply le_bytes_bytes].
Qed.

Lemma mem_read_write_u64_out m a v x n :
  addr_ok a 8 -> addr_ok x n -> a + 8 <= x \/ x + n <= a ->
  mem_read (mem_write_u64 m a v) x n = mem_read m x n.
Proof. intros Ha Hx Hd. apply mem_read_write_out; by rewrite ?length_le_bytes. Qed.

Lemma length_mem_read m a n : length (mem_read m a n) = Z.to_nat n.
Proof. apply length_slice. Qed.

(** Every cell of a memory holds a byte. *)
Definition mem_ok (m : memory) : Prop := forall a, is_byte (mload m a).

Lemma mem_ok_empty : mem_ok ∅.
Proof. intros a. unfold mload. by rewrite lookup_empty. Qed.

Lemma mem_ok_mstore m a b : mem_ok m -> mem_ok (mstore m a b).
Proof.
  intros H x. unfold mload, mstore. destruct (decide (u64 x = u64 a)) as [->|Hn].
  - rewrite lookup_insert_eq. apply u8_is_byte.
  - rewrite lookup_insert_ne by done. apply H.
Qed.

Lemma mem_ok_mem_write m a bs : mem_ok m -> mem_ok (mem_write m a bs).
Proof. revert m a. induction bs; intros m a' H; simpl; [done|]. by apply IHbs, mem_ok_mstore. Qed.

Lemma bytes_mem_read m a n : mem_ok m -> bytes (mem_read m a n).
Proof. intros H. apply bytes_slice. intros i. apply H. Qed.

#[export] Hint Resolve mem_ok_empty mem_ok_mstore mem_ok_mem_write bytes_mem_read : cint.
