(* ===== verification/CString.v ===== *)
(** * musl string routines used by the file system shim

    [memchr], [strnlen], [strncmp], [strlen], [strchrnul] and [strchr] of
    src/app/musl-1.2.6/src/string, with the word-at-a-time scanning loops the
    C code uses under GCC.  A pointer is an address and the address space is a
    [reader]; the unbounded loops take fuel.  Each routine is shown to agree
    with its byte-at-a-time meaning. *)
From S2P Require Import Prelude.

Definition ONES : Z := 18446744073709551615 / 255.
Definition HIGHS : Z := u64 (ONES * (255 / 2 + 1)).
(** [HASZERO(x)]: ((x)-ONES & ~(x) & HIGHS) on a 64-bit word. *)
Definition HASZERO (x : Z) : bool :=
  truth (Z.land (Z.land (u64 (x - ONES)) (u64 (Z.lnot x))) HIGHS).

(** The word stored at an address. *)
Definition word_at (r : reader) (w : Z) : Z := le_val (slice r w 8).

(** The loop up to the first word boundary (memchr.c, line 16). *)
Fixpoint memchr_align (fuel : nat) (r : reader) (s c n : Z) : Z * Z :=
  match fuel with
  | O => (s, n)
  | S k =>
      if truth (Z.land s 7) && truth n && (r s !=? c)
      then memchr_align k r (s + 1) c (n - 1) else (s, n)
  end.

(** The loop over whole words that do not contain [c] (memchr.c, line 21). *)
Fixpoint memchr_words (fuel : nat) (r : reader) (w k n : Z) : Z * Z :=
  match fuel with
  | O => (w, n)
  | S f =>
      if (n >=? 8) && negb (HASZERO (Z.lxor (word_at r w) k))
      then memchr_words f r (w + 8) k (n - 8) else (w, n)
  end.

(** The final byte loop (memchr.c, line 25). *)
Fixpoint memchr_bytes (fuel : nat) (r : reader) (s c n : Z) : Z * Z :=
  match fuel with
  | O => (s, n)
  | S k =>
      if truth n && (r s !=? c)
      then memchr_bytes k r (s + 1) c (n - 1) else (s, n)
  end.

Definition memchr (r : reader) (src c n : Z) : option Z :=
  let c := u8 c in
  let '(s, n) := memchr_align 8 r src c n in
  let '(s, n) :=
    if truth n && (r s !=? c)
    then memchr_words (Z.to_nat (n / 8 + 1)) r s (u64 (ONES * c)) n
    else (s, n) in
  let '(s, n) := memchr_bytes (Z.to_nat n + 1) r s c n in
  if truth n then Some s else None.

Definition strnlen (r : reader) (s n : Z) : Z :=
  match memchr r s 0 n with
  | Some p => p - s
  | None => n
  end.

(** The comparison loop and the final difference. *)
Fixpoint strncmp_loop (fuel : nat) (lr rr : reader) (l r n : Z) : Z :=
  match fuel with
  | O => lr l - rr r
  | S k =>
      if truth (lr l) && truth (rr r) && truth n && (lr l =? rr r)
      then strncmp_loop k lr rr (l + 1) (r + 1) (n - 1)
      else lr l - rr r
  end.

Definition strncmp (lr : reader) (l : Z) (rr : reader) (r n : Z) : Z :=
  if negb (truth n) then 0
  else strncmp_loop (Z.to_nat n) lr rr l r (n - 1).

(** Each loop of [strlen]; the boolean is the early return. *)
Fixpoint strlen_align (fuel : nat) (r : reader) (s : Z) : Z * bool :=
  match fuel with
  | O => (s, false)
  | S k =>
      if truth (s mod 8)
      then if negb (truth (r s)) then (s, true) else strlen_align k r (s + 1)
      else (s, false)
  end.

Fixpoint strlen_words (fuel : nat) (r : reader) (w : Z) : Z :=
  match fuel with
  | O => w
  | S k => if negb (HASZERO (word_at r w)) then strlen_words k r (w + 8) else w
  end.

Fixpoint strlen_bytes (fuel : nat) (r : reader) (s : Z) : Z :=
  match fuel with
  | O => s
  | S k => if truth (r s) then strlen_bytes k r (s + 1) else s
  end.

Definition strlen (fuel : nat) (r : reader) (a : Z) : Z :=
  match strlen_align 8 r a with
  | (s, true) => s - a
  | (s, false) => strlen_bytes 8 r (strlen_words fuel r s) - a
  end.

Fixpoint strchrnul_align (fuel : nat) (r : reader) (s c : Z) : Z * bool :=
  match fuel with
  | O => (s, false)
  | S k =>
      if truth (s mod 8)
      then if negb (truth (r s)) || (r s =? c) then (s, true)
           else strchrnul_align k r (s + 1) c
      else (s, false)
  end.

Fixpoint strchrnul_words (fuel : nat) (r : reader) (w k : Z) : Z :=
  match fuel with
  | O => w
  | S f =>
      if negb (HASZERO (word_at r w)) && negb (HASZERO (Z.lxor (word_at r w) k))
      then strchrnul_words f r (w + 8) k else w
  end.

Fixpoint strchrnul_bytes (fuel : nat) (r : reader) (s c : Z) : Z :=
  match fuel with
  | O => s
  | S k => if truth (r s) && (r s !=? c) then strchrnul_bytes k r (s + 1) c else s
  end.

Definition strchrnul (fuel : nat) (r : reader) (s c : Z) : Z :=
  let c := u8 c in
  if negb (truth c) then s + strlen fuel r s
  else
    match strchrnul_align 8 r s c with
    | (s, true) => s
    | (s, false) => strchrnul_bytes 8 r (strchrnul_words fuel r s (u64 (ONES * c))) c
    end.

Definition strchr (fuel : nat) (r : reader) (s c : Z) : option Z :=
  let p := strchrnul fuel r s c in
  if r p =? u8 c then Some p else None.

(** ** The zero-byte test

    [HASZERO] is true exactly when one of the eight bytes is zero. *)

Lemma testbit_shift8 c a i :
  0 <= c < 256 -> 0 <= i -> Z.testbit (c + 256 * a) (8 + i) = Z.testbit a i.
Proof.
  intros Hc Hi. rewrite (Z.add_comm 8 i), <- Z.shiftr_spec by lia.
  rewrite Z.shiftr_div_pow2 by lia. change (2 ^ 8) with 256.
  rewrite (Z.mul_comm 256), Z.div_add, Z.div_small by lia. done.
Qed.

Lemma testbit_low8 c a i :
  0 <= c < 256 -> 0 <= i < 8 -> Z.testbit (c + 256 * a) i = Z.testbit c i.
Proof.
  intros Hc Hi. rewrite <- (Z.mod_pow2_bits_low (c + 256 * a) 8 i) by lia.
  change (2 ^ 8) with 256. rewrite Z.mul_comm, Z_mod_plus_full, Z.mod_small by lia. done.
Qed.

Lemma testbit_le_val (l : list Z) (i : nat) j b :
  bytes l -> l !! i = Some b -> 0 <= j < 8 ->
  Z.testbit (le_val l) (8 * Z.of_nat i + j) = Z.testbit b j.
Proof.
  intros Hl. revert i. induction Hl as [|c l Hc Hl IH]; intros i Hi Hj; [done|].
  unfold is_byte in Hc.
  destruct i as [|i]; simplify_eq/=.
  - by rewrite testbit_low8.
  - rewrite <- (IH i) by done.
    replace (8 * Z.of_nat (S i) + j) with (8 + (8 * Z.of_nat i + j)) by lia.
    by rewrite testbit_shift8 by lia.
Qed.

Definition ones (n : nat) : Z := le_val (replicate n 1).

Lemma sub_ones_nonzero l :
  Forall (fun b => 1 <= b < 256) l -> le_val l - ones (length l) = le_val (Z.pred <$> l).
Proof.
  unfold ones. induction 1 as [|b l Hb Hl IH]; [done|].
  cbn [length replicate le_val fmap list_fmap]. rewrite <- IH. lia.
Qed.

Lemma sub_ones_zero p q :
  Forall (fun b => 1 <= b < 256) p ->
  Z.testbit (le_val (p ++ 0 :: q) - ones (length (p ++ 0 :: q)))
    (8 * Z.of_nat (length p) + 7) = true.
Proof.
  unfold ones. induction 1 as [|b p Hb Hp IH].
  - cbn [app length replicate le_val].
    match goal with |- context [0 + 256 * ?a - (1 + 256 * ?b)] =>
      replace (0 + 256 * a - (1 + 256 * b)) with (255 + 256 * (a - b - 1)) by lia
    end.
    rewrite testbit_low8 by lia. done.
  - cbn [app length replicate le_val].
    match goal with |- context [b + 256 * ?a - (1 + 256 * ?c)] =>
      replace (b + 256 * a - (1 + 256 * c)) with ((b - 1) + 256 * (a - c)) by lia
    end.
    replace (8 * Z.of_nat (S (length p)) + 7) with (8 + (8 * Z.of_nat (length p) + 7)) by lia.
    by rewrite testbit_shift8 by lia.
Qed.

Lemma first_zero (l : list Z) :
  bytes l ->
  Forall (fun b => 1 <= b < 256) l \/
  exists p q, l = p ++ 0 :: q /\ Forall (fun b => 1 <= b < 256) p.
Proof.
  induction 1 as [|b l Hb Hl IH]; [by left|]. unfold is_byte in Hb.
  destruct (decide (b = 0)) as [->|].
  - right. by exists [], l.
  - destruct IH as [IH|(p & q & -> & Hp)].
    + left. constructor; [lia|done].
    + right. exists (b :: p), q. split; [done|]. constructor; [lia|done].
Qed.

Lemma HIGHS_bit (i : nat) :
  (i < 8)%nat -> Z.testbit HIGHS (8 * Z.of_nat i + 7) = true.
Proof. intros H. do 8 (destruct i as [|i]; [done|]). lia. Qed.

Lemma HIGHS_le : HIGHS = le_val (replicate 8 128).
Proof. done. Qed.

(** Bits of the three operands of [HASZERO] at the top bit of a byte. *)
Lemma u64_testbit x i : 0 <= i < 64 -> Z.testbit (u64 x) i = Z.testbit x i.
Proof. intros H. apply (Z.mod_pow2_bits_low x 64). lia. Qed.

Lemma HASZERO_true_of_zero l :
  bytes l -> length l = 8%nat -> 0 ∈ l -> HASZERO (le_val l) = true.
Proof.
  intros Hl Hlen H0. destruct (first_zero l Hl) as [Hnz|(p & q & -> & Hp)].
  { rewrite Forall_forall in Hnz. specialize (Hnz 0 H0). simpl in Hnz. lia. }
  rewrite length_app in Hlen. simpl in Hlen.
  unfold HASZERO, truth. apply negb_true_iff, Z.eqb_neq. intros E.
  apply (f_equal (fun z => Z.testbit z (8 * Z.of_nat (length p) + 7))) in E.
  rewrite Z.bits_0, !Z.land_spec, HIGHS_bit, !u64_testbit, Z.lnot_spec in E by lia.
  rewrite (testbit_le_val _ (length p) 7 0) in E; [|done| |lia].
  2:{ rewrite lookup_app_r by lia. by rewrite Nat.sub_diag. }
  change ONES with (ones 8) in E.
  replace 8%nat with (length (p ++ 0 :: q)) in E by (rewrite length_app; simpl; lia).
  by rewrite sub_ones_zero in E.
Qed.

Lemma testbit_128 m : 0 <= m < 8 -> Z.testbit 128 m = true -> m = 7.
Proof.
  intros Hm H.
  assert (m = 0 \/ m = 1 \/ m = 2 \/ m = 3 \/ m = 4 \/ m = 5 \/ m = 6 \/ m = 7)
    as C by lia.
  repeat destruct C as [->|C]; try discriminate H; done.
Qed.

Lemma testbit_HIGHS i :
  0 <= i -> Z.testbit HIGHS i = true -> exists k : nat, (k < 8)%nat /\ i = 8 * Z.of_nat k + 7.
Proof.
  intros Hi H. rewrite HIGHS_le in H.
  destruct (decide (i < 64)) as [Hlt|Hge].
  - pose proof (Z.div_mod i 8 ltac:(lia)) as Hdm.
    pose proof (Z.mod_pos_bound i 8 ltac:(lia)) as Hm.
    assert (0 <= i / 8 < 8) as Hq by lia.
    exists (Z.to_nat (i / 8)). split; [lia|].
    rewrite Hdm, <- (Z2Nat.id (i / 8)) in H by lia.
    rewrite (testbit_le_val _ (Z.to_nat (i / 8)) (i mod 8) 128) in H.
    + apply testbit_128 in H; lia.
    + by repeat constructor.
    + apply lookup_replicate. split; [done|lia].
    + lia.
  - rewrite Z.bits_above_log2 in H; [done|vm_compute; discriminate|].
    change (Z.log2 (le_val (replicate 8 128))) with 63. lia.
Qed.

Lemma testbit7 b : 0 <= b < 256 -> Z.testbit b 7 = (128 <=? b).
Proof.
  intros H. rewrite Z.testbit_eqb by lia. change (2 ^ 7) with 128.
  destruct (Z.leb_spec 128 b).
  - by replace (b / 128) with 1 by (apply Z.div_unique with (b - 128); lia).
  - by rewrite Z.div_small by lia.
Qed.

Lemma nonzero_bytes l : Forall (fun b => 1 <= b < 256) l -> bytes l.
Proof. intros H. eapply Forall_impl; [exact H|]. unfold is_byte. simpl. lia. Qed.

Lemma pred_bytes l : Forall (fun b => 1 <= b < 256) l -> bytes (Z.pred <$> l).
Proof. intros H. apply Forall_fmap. eapply Forall_impl; [exact H|]. unfold is_byte. simpl. lia. Qed.

Lemma HASZERO_false_of_nonzero l :
  length l = 8%nat -> Forall (fun b => 1 <= b < 256) l -> HASZERO (le_val l) = false.
Proof.
  intros Hlen Hnz. pose proof (nonzero_bytes l Hnz) as Hl.
  unfold HASZERO, truth. apply negb_false_iff, Z.eqb_eq. apply Z.bits_inj'. intros i Hi.
  rewrite Z.bits_0. destruct (Z.testbit HIGHS i) eqn:Eh; [|by rewrite Z.land_spec, Eh, andb_false_r].
  destruct (testbit_HIGHS i Hi Eh) as (k & Hk & ->).
  rewrite !Z.land_spec, !u64_testbit, Z.lnot_spec, Eh, andb_true_r by lia.
  destruct (lookup_lt_is_Some_2 l k) as [b Hb]; [lia|].
  pose proof (proj1 (Forall_lookup _ _) Hnz k b Hb) as Hb1. simpl in Hb1.
  change ONES with (ones 8). rewrite <- Hlen, sub_ones_nonzero by done.
  rewrite (testbit_le_val l k 7 b) by (done || lia).
  rewrite (testbit_le_val (Z.pred <$> l) k 7 (Z.pred b)).
  - rewrite !testbit7 by lia.
    destruct (Z.leb_spec 128 (Z.pred b)), (Z.leb_spec 128 b); try done; lia.
  - by apply pred_bytes.
  - by rewrite list_lookup_fmap, Hb.
  - lia.
Qed.

(** [x ^ (ONES * c)] xors every byte with [c]. *)
Lemma lxor_byte b c : is_byte b -> is_byte c -> is_byte (Z.lxor b c).
Proof.
  unfold is_byte. intros Hb Hc. split; [apply Z.lxor_nonneg; lia|].
  destruct (decide (Z.lxor b c = 0)) as [->|Hne]; [lia|].
  apply (Z.log2_lt_pow2 _ 8); [pose proof (Z.lxor_nonneg b c); lia|].
  eapply Z.le_lt_trans; [apply Z.log2_lxor; lia|].
  apply Z.max_lub_lt; destruct (decide (b = 0)), (decide (c = 0)); subst; simpl; try lia;
    apply Z.log2_lt_pow2; lia.
Qed.

Lemma lxor_cons b c x y :
  is_byte b -> is_byte c -> Z.lxor (b + 256 * x) (c + 256 * y) = Z.lxor b c + 256 * Z.lxor x y.
Proof.
  intros Hb Hc. pose proof (lxor_byte b c Hb Hc) as Hbc. unfold is_byte in *.
  apply Z.bits_inj'. intros i Hi. rewrite Z.lxor_spec.
  destruct (decide (i < 8)).
  - rewrite !testbit_low8 by lia. by rewrite Z.lxor_spec.
  - replace i with (8 + (i - 8)) by lia. rewrite !testbit_shift8 by lia. by rewrite Z.lxor_spec.
Qed.

Lemma lxor_le_val l c :
  bytes l -> is_byte c ->
  Z.lxor (le_val l) (ones (length l) * c) = le_val ((fun b => Z.lxor b c) <$> l).
Proof.
  unfold ones. intros Hl Hc. induction Hl as [|b l Hb Hl IH]; [done|].
  cbn [length replicate le_val fmap list_fmap]. rewrite <- IH.
  rewrite <- lxor_cons by done. f_equal. lia.
Qed.

Lemma ONES_times c : is_byte c -> u64 (ONES * c) = ones 8 * c.
Proof. unfold is_byte. intros H. change (ones 8) with 72340172838076673. change ONES with 72340172838076673. apply u64_small. lia. Qed.

(** A word of eight bytes of the address space. *)
Lemma HASZERO_word r w :
  (forall i, is_byte (r i)) ->
  HASZERO (word_at r w) = false <-> (forall i, 0 <= i < 8 -> r (w + i) <> 0).
Proof.
  intros Hr. unfold word_at. pose proof (bytes_slice r w 8 Hr) as Hb.
  destruct (first_zero _ Hb) as [Hnz|(p & q & E & Hp)].
  - rewrite HASZERO_false_of_nonzero by (rewrite ?length_slice; done). split; [|done].
    intros _ i Hi E. rewrite Forall_lookup in Hnz.
    specialize (Hnz (Z.to_nat i) (r (w + i))). simpl in Hnz.
    rewrite lookup_slice, Z2Nat.id in Hnz by lia. specialize (Hnz eq_refl). lia.
  - rewrite HASZERO_true_of_zero; [|done|by rewrite length_slice|rewrite E; set_solver].
    split; [done|]. intros H.
    assert (slice r w 8 !! length p = Some 0) as Hl.
    { rewrite E, lookup_app_r, Nat.sub_diag by lia. done. }
    pose proof (lookup_lt_Some _ _ _ Hl) as Hlt. rewrite length_slice in Hlt.
    rewrite lookup_slice in Hl by lia. injection Hl as Hl. exfalso.
    apply (H (Z.of_nat (length p))); [lia|done].
Qed.

Lemma HASZERO_word_xor r w c :
  (forall i, is_byte (r i)) -> is_byte c ->
  HASZERO (Z.lxor (word_at r w) (u64 (ONES * c))) = false <->
  (forall i, 0 <= i < 8 -> r (w + i) <> c).
Proof.
  intros Hr Hc. rewrite ONES_times by done.
  assert (Z.lxor (word_at r w) (ones 8 * c) = word_at (fun a => Z.lxor (r a) c) w) as ->.
  { unfold word_at. replace 8%nat with (length (slice r w 8)) by (by rewrite length_slice).
    rewrite lxor_le_val; [|by apply bytes_slice|done]. done. }
  rewrite HASZERO_word by (intros; by apply lxor_byte).
  split; intros H i Hi E; apply (H i Hi); [by rewrite E, Z.lxor_nilpotent|by apply Z.lxor_eq].
Qed.

(** ** The scanning routines agree with their byte-at-a-time meaning *)

Section Scan.
Context (r : reader) (Hr : forall i, is_byte (r i)).

(** [scanned s n s' n' c]: the pointer moved from [s] to [s'] without passing
    a byte equal to [c], and [n] went down with it. *)
Definition scanned (c s n s' n' : Z) : Prop :=
  s <= s' /\ 0 <= n' /\ s' + n' = s + n /\ (forall q, s <= q < s' -> r q <> c).

Lemma scanned_refl c s n : 0 <= n -> scanned c s n s n.
Proof. unfold scanned. intros. repeat split; try lia. Qed.

Lemma scanned_trans c s n s1 n1 s2 n2 :
  scanned c s n s1 n1 -> scanned c s1 n1 s2 n2 -> scanned c s n s2 n2.
Proof.
  unfold scanned. intros (?&?&?&Ha) (?&?&?&Hb). repeat split; try lia.
  intros q Hq. destruct (decide (q < s1)); [apply Ha|apply Hb]; lia.
Qed.

Lemma scanned_step c s n : 0 < n -> r s <> c -> scanned c s n (s + 1) (n - 1).
Proof.
  unfold scanned. intros. repeat split; try lia.
  intros q Hq. by replace q with s by lia.
Qed.

Lemma memchr_align_scanned fuel c s n :
  0 <= n -> scanned c s n (memchr_align fuel r s c n).1 (memchr_align fuel r s c n).2.
Proof.
  revert s n; induction fuel as [|k IH]; intros s n Hn; simpl; [by apply scanned_refl|].
  destruct (truth (Z.land s 7) && truth n && negb (r s =? c)) eqn:E;
    [|by apply scanned_refl].
  unfold truth in E. zbool.
  eapply scanned_trans; [apply scanned_step; [lia|done]|apply IH; lia].
Qed.

Lemma memchr_words_scanned fuel c w n :
  0 <= n -> is_byte c ->
  scanned c w n (memchr_words fuel r w (u64 (ONES * c)) n).1
    (memchr_words fuel r w (u64 (ONES * c)) n).2.
Proof.
  intros Hn Hc. revert w n Hn; induction fuel as [|k IH]; intros w n Hn; simpl;
    [by apply scanned_refl|].
  destruct ((n >=? 8) && negb (HASZERO (Z.lxor (word_at r w) (u64 (ONES * c))))) eqn:E;
    [|by apply scanned_refl].
  zbool. rewrite HASZERO_word_xor in * by done.
  eapply scanned_trans; [|apply IH; lia].
  unfold scanned. repeat split; try lia.
  intros q Hq. replace q with (w + (q - w)) by lia. auto with lia.
Qed.

Lemma memchr_bytes_scanned fuel c s n :
  0 <= n -> scanned c s n (memchr_bytes fuel r s c n).1 (memchr_bytes fuel r s c n).2.
Proof.
  revert s n; induction fuel as [|k IH]; intros s n Hn; simpl; [by apply scanned_refl|].
  destruct (truth n && negb (r s =? c)) eqn:E; [|by apply scanned_refl].
  unfold truth in E. zbool.
  eapply scanned_trans; [apply scanned_step; [lia|done]|apply IH; lia].
Qed.

Lemma memchr_bytes_stop fuel c s n :
  0 <= n < Z.of_nat fuel ->
  (memchr_bytes fuel r s c n).2 = 0 \/ r (memchr_bytes fuel r s c n).1 = c.
Proof.
  revert s n; induction fuel as [|k IH]; intros s n Hn; simpl; [lia|].
  destruct (truth n && negb (r s =? c)) eqn:E.
  - unfold truth in E. zbool. apply IH. lia.
  - unfold truth in E. simpl.
    destruct (Z.eqb_spec n 0); [by left|]. destruct (Z.eqb_spec (r s) c); [by right|done].
Qed.

(** [memchr] finds the first of the [n] bytes equal to [c], and only that. *)
Definition memchr_post (s c n : Z) (o : option Z) : Prop :=
  match o with
  | Some p => s <= p < s + n /\ r p = c /\ forall q, s <= q < p -> r q <> c
  | None => forall q, s <= q < s + n -> r q <> c
  end.

Lemma memchr_spec s c n : 0 <= n -> memchr_post s (u8 c) n (memchr r s c n).
Proof.
  intros Hn. unfold memchr.
  pose proof (memchr_align_scanned 8 (u8 c) s n Hn) as H1.
  destruct (memchr_align 8 r s (u8 c) n) as [s1 n1]; simpl in H1.
  assert (exists s2 n2, (if truth n1 && negb (r s1 =? u8 c)
     then memchr_words (Z.to_nat (n1 / 8 + 1)) r s1 (u64 (ONES * u8 c)) n1 else (s1, n1))
     = (s2, n2) /\ scanned (u8 c) s1 n1 s2 n2) as (s2 & n2 & -> & H2).
  { destruct (truth n1 && negb (r s1 =? u8 c)).
    - eexists _, _. split; [apply surjective_pairing|].
      apply memchr_words_scanned; [unfold scanned in H1; lia|apply u8_is_byte].
    - eexists _, _. split; [done|]. apply scanned_refl. unfold scanned in H1. lia. }
  pose proof (scanned_trans _ _ _ _ _ _ _ H1 H2) as H12.
  assert (0 <= n2) as Hn2 by (unfold scanned in H12; lia).
  pose proof (memchr_bytes_scanned (Z.to_nat n2 + 1) (u8 c) s2 n2 Hn2) as H3.
  destruct (memchr_bytes_stop (Z.to_nat n2 + 1) (u8 c) s2 n2 ltac:(lia)) as [Hs|Hs];
    destruct (memchr_bytes (Z.to_nat n2 + 1) r s2 (u8 c) n2) as [s3 n3]; simpl in *;
    pose proof (scanned_trans _ _ _ _ _ _ _ H12 H3) as (?&?&?&Hq); unfold truth;
    destruct (Z.eqb_spec n3 0); simpl; try lia;
    first [intros q ?; apply Hq; lia|repeat split; try lia; done].
Qed.

Lemma strnlen_spec s n :
  0 <= n ->
  0 <= strnlen r s n <= n /\ (forall i, 0 <= i < strnlen r s n -> r (s + i) <> 0) /\
  (strnlen r s n < n -> r (s + strnlen r s n) = 0).
Proof.
  intros Hn. unfold strnlen. pose proof (memchr_spec s 0 n Hn) as H.
  destruct (memchr r s 0 n) as [p|]; simpl in H.
  - destruct H as (?&?&Hq). split; [lia|]. split.
    + intros i Hi. apply Hq. lia.
    + intros _. replace (s + (p - s)) with p by lia. done.
  - split; [lia|]. split; [|lia]. intros i Hi. apply H. lia.
Qed.
End Scan.

(** ** [strlen] and [strchr] under a known terminator *)

Section CStr.
Context (r : reader) (Hr : forall i, is_byte (r i)).

(** The unbounded loops stop at the first byte that satisfies a predicate;
    [stops P s e]: [e] is the first address from [s] on where [P] holds. *)
Definition stops (P : Z -> bool) (s e : Z) : Prop :=
  s <= e /\ P (r e) = true /\ forall q, s <= q < e -> P (r q) = false.

Lemma stops_step P s e : stops P s e -> P (r s) = false -> stops P (s + 1) e.
Proof.
  intros (Hle & He & Hq) Hs. assert (s <> e) by (intros ->; congruence).
  split; [lia|]. split; [done|]. intros q ?. apply Hq. lia.
Qed.

Lemma stops_here P s e : stops P s e -> P (r s) = true -> e = s.
Proof.
  intros (Hle & He & Hq) Hs. destruct (decide (s = e)); [done|].
  rewrite Hq in Hs by lia. done.
Qed.

Definition stop_at (c b : Z) : bool := negb (truth b) || (b =? c).

Lemma strchrnul_align_spec fuel s c e :
  stops (stop_at c) s e ->
  match strchrnul_align fuel r s c with
  | (s', true) => s' = e
  | (s', false) => stops (stop_at c) s' e /\ (s <= s')
  end.
Proof.
  revert s; induction fuel as [|k IH]; intros s Hst; simpl; [split; [done|lia]|].
  destruct (truth (s mod 8)); [|split; [done|lia]].
  destruct (negb (truth (r s)) || (r s =? c)) eqn:E.
  - symmetry. by eapply stops_here.
  - specialize (IH (s + 1) (stops_step _ _ _ Hst E)).
    destruct (strchrnul_align k r (s + 1) c) as [s' []]; [done|]. split; [apply IH|lia].
Qed.

Lemma strchrnul_words_spec fuel w c e :
  is_byte c -> stops (stop_at c) w e -> e - w < 8 * Z.of_nat fuel ->
  stops (stop_at c) (strchrnul_words fuel r w (u64 (ONES * c))) e /\
  e - strchrnul_words fuel r w (u64 (ONES * c)) < 8.
Proof.
  intros Hc. revert w; induction fuel as [|k IH]; intros w Hst Hf; simpl.
  { destruct Hst as (?&?&?). lia. }
  destruct (HASZERO (word_at r w)) eqn:E1; simpl.
  2: destruct (HASZERO (Z.lxor (word_at r w) (u64 (ONES * c)))) eqn:E2; simpl.
  3:{ rewrite HASZERO_word in E1 by done. rewrite HASZERO_word_xor in E2 by done.
      apply IH; [|lia]. destruct Hst as (Hle & He & Hq).
      assert (w + 8 <= e) as Hge.
      { destruct (decide (w + 8 <= e)); [done|]. exfalso.
        specialize (E1 (e - w) ltac:(lia)). specialize (E2 (e - w) ltac:(lia)).
        replace (w + (e - w)) with e in * by lia.
        unfold stop_at, truth in He. apply orb_true_iff in He as [He|He]; zbool; lia. }
      split; [lia|]. split; [done|]. intros q ?. apply Hq. lia. }
  - split; [done|]. apply not_false_iff_true in E1.
    rewrite HASZERO_word in E1 by done. destruct (decide (e - w < 8)); [done|].
    destruct E1. intros i Hi E. destruct Hst as (_ & _ & Hq).
    specialize (Hq (w + i) ltac:(lia)). unfold stop_at, truth in Hq.
    apply orb_false_iff in Hq as [Hq _]. rewrite E in Hq. done.
  - split; [done|]. apply not_false_iff_true in E2.
    rewrite HASZERO_word_xor in E2 by done. destruct (decide (e - w < 8)); [done|].
    destruct E2. intros i Hi E. destruct Hst as (_ & _ & Hq).
    specialize (Hq (w + i) ltac:(lia)). unfold stop_at, truth in Hq.
    apply orb_false_iff in Hq as [_ Hq]. zbool. done.
Qed.

Lemma strchrnul_bytes_spec fuel s c e :
  stops (stop_at c) s e -> e - s < Z.of_nat fuel -> strchrnul_bytes fuel r s c = e.
Proof.
  revert s; induction fuel as [|k IH]; intros s Hst Hf; simpl.
  { destruct Hst as (?&?&?). lia. }
  destruct (truth (r s) && negb (r s =? c)) eqn:E.
  - apply IH; [|lia]. apply stops_step; [done|]. unfold stop_at.
    apply andb_true_iff in E as [-> E]. by apply negb_true_iff in E as ->.
  - symmetry. eapply stops_here; [done|]. unfold stop_at.
    destruct (truth (r s)); [|done]. simpl in *. by apply negb_false_iff in E.
Qed.

(** [strchrnul] for a non-zero character returns the first address that
    holds it or the terminator. *)
Lemma strchrnul_spec fuel s c e :
  is_byte c -> c <> 0 -> stops (stop_at c) s e -> e - s < 8 * Z.of_nat fuel ->
  strchrnul fuel r s c = e.
Proof.
  intros Hc Hc0 Hst Hf. unfold strchrnul. rewrite (u8_small c) by (unfold is_byte in Hc; lia).
  unfold truth. destruct (Z.eqb_spec c 0); [done|]. simpl negb. cbn iota.
  pose proof (strchrnul_align_spec 8 s c e Hst) as Ha.
  destruct (strchrnul_align 8 r s c) as [s' []]; [done|]. destruct Ha as [Ha Hle].
  destruct (strchrnul_words_spec fuel s' c e Hc Ha ltac:(lia)) as [Hw Hlt].
  apply strchrnul_bytes_spec; [done|lia].
Qed.

(** Scanning [strchr(s, c)] over a terminated string finds [c] if and only if
    it occurs before the terminator, which is at [s + len]. *)
Lemma strchr_spec fuel s c len :
  is_byte c -> c <> 0 -> 0 <= len -> r (s + len) = 0 ->
  (forall i, 0 <= i < len -> r (s + i) <> 0) -> len < 8 * Z.of_nat fuel ->
  match strchr fuel r s c with
  | Some p => s <= p < s + len /\ r p = c /\ forall q, s <= q < p -> r q <> c
  | None => forall q, s <= q < s + len -> r q <> c
  end.
Proof.
  intros Hc Hc0 Hlen Hnul Hnz Hf.
  assert (exists e, stops (stop_at c) s e /\ e <= s + len) as (e & Hst & Hle).
  { clear Hf. assert (stop_at c (r (s + len)) = true) as Hend by (rewrite Hnul; done).
    revert Hend. clear Hnul Hnz. revert s.
    apply (natlike_ind (fun len => forall s, stop_at c (r (s + len)) = true ->
      exists e, stops (stop_at c) s e /\ e <= s + len)); [| |done].
    - intros s Hs. rewrite Z.add_0_r in Hs. exists s. split; [|lia]. split; [lia|].
      split; [done|lia].
    - intros n Hn IH s Hs. destruct (stop_at c (r s)) eqn:E.
      + exists s. split; [|lia]. split; [lia|]. split; [done|lia].
      + destruct (IH (s + 1)) as (e & (He1 & He2 & He3) & Hle).
        { by replace (s + 1 + n) with (s + Z.succ n) by lia. }
        exists e. split; [|lia]. split; [lia|]. split; [done|].
        intros q Hq. destruct (decide (q = s)) as [->|]; [done|]. apply He3. lia. }
  unfold strchr. rewrite (strchrnul_spec fuel s c e), (u8_small c) by
    (try done; unfold is_byte in *; lia).
  destruct Hst as (Hse & He & Hq).
  assert (forall q, s <= q < e -> r q <> c) as Hqc.
  { intros q Hqr E. specialize (Hq q Hqr). unfold stop_at in Hq.
    apply orb_false_iff in Hq as [_ Hq]. zbool. done. }
  destruct (Z.eqb_spec (r e) c) as [E|E].
  - split; [|done]. split; [done|]. destruct (decide (e = s + len)) as [->|]; [congruence|lia].
  - assert (e = s + len) as ->; [|done].
    destruct (decide (e = s + len)); [done|]. exfalso.
    apply (Hnz (e - s)); [lia|]. replace (s + (e - s)) with e by lia.
    unfold stop_at, truth in He. apply orb_true_iff in He as [He|He]; zbool; done.
Qed.
End CStr.

(** ** String comparison

    Two strings agree on their first [n] characters: position by position up
    to and including the first terminator. *)
Definition str_agree (lr : reader) (l : Z) (rr : reader) (r n : Z) : Prop :=
  forall i, 0 <= i < n -> (forall j, 0 <= j < i -> lr (l + j) <> 0) -> lr (l + i) = rr (r + i).

Lemma str_agree_step lr l rr r n :
  0 < n -> lr l = rr r -> lr l <> 0 ->
  str_agree lr l rr r n <-> str_agree lr (l + 1) rr (r + 1) (n - 1).
Proof.
  intros Hn Heq Hnz. unfold str_agree. split; intros H i Hi Hj.
  - replace (l + 1 + i) with (l + (i + 1)) by lia. replace (r + 1 + i) with (r + (i + 1)) by lia.
    apply H; [lia|]. intros j Hj'. destruct (decide (j = 0)) as [->|].
    + by rewrite Z.add_0_r.
    + replace (l + j) with (l + 1 + (j - 1)) by lia. apply Hj. lia.
  - destruct (decide (i = 0)) as [->|]; [by rewrite !Z.add_0_r|].
    replace (l + i) with (l + 1 + (i - 1)) by lia. replace (r + i) with (r + 1 + (i - 1)) by lia.
    apply H; [lia|]. intros j Hj'. replace (l + 1 + j) with (l + (j + 1)) by lia. apply Hj. lia.
Qed.

Lemma strncmp_loop_spec fuel lr l rr r n :
  0 <= n < Z.of_nat fuel ->
  strncmp_loop fuel lr rr l r n = 0 <-> str_agree lr l rr r (n + 1).
Proof.
  revert l r n; induction fuel as [|k IH]; intros l r n Hn; [lia|]. simpl.
  destruct (truth (lr l) && truth (rr r) && truth n && (lr l =? rr r)) eqn:E.
  - unfold truth in E. zbool. rewrite IH by lia. rewrite (str_agree_step lr l) by (done || lia).
    by replace (n - 1 + 1) with (n + 1 - 1) by lia.
  - split.
    + intros H0 i Hi Hj. destruct (decide (i = 0)) as [->|]; [rewrite !Z.add_0_r; lia|].
      exfalso. specialize (Hj 0 ltac:(lia)). rewrite Z.add_0_r in Hj.
      unfold truth in E. destruct (Z.eqb_spec (lr l) 0), (Z.eqb_spec (rr r) 0),
        (Z.eqb_spec n 0), (Z.eqb_spec (lr l) (rr r)); simpl in E; try done; lia.
    + intros H. specialize (H 0 ltac:(lia)). rewrite !Z.add_0_r in H. rewrite H; lia.
Qed.

Lemma strncmp_spec lr l rr r n :
  0 < n -> strncmp lr l rr r n = 0 <-> str_agree lr l rr r n.
Proof.
  intros Hn. unfold strncmp, truth. destruct (Z.eqb_spec n 0); [lia|]. simpl negb. cbn iota.
  rewrite strncmp_loop_spec by lia. by replace (n - 1 + 1) with n by lia.
Qed.
