(* ===== verification/Kernel.v ===== *)
(** * The exokernel interface the port is built on

    libBareMetal.c only loads registers and calls fixed kernel addresses, and
    the kernel itself is not part of this repository.  What the port relies on
    is stated here as interfaces: a 4096-byte-sector store, a serial console
    and a nanosecond counter, each with a concrete instance. *)
From S2P Require Import Prelude.

(** ** b_system function codes (libBareMetal.h) *)
Definition TIMECOUNTER : Z := 0x00.
Definition FREE_MEMORY : Z := 0x01.
Definition WALLCLOCK : Z := 0x02.
Definition NET_STATUS : Z := 0x30.
Definition SHUTDOWN : Z := 0x7F.

Definition SECTOR : Z := 4096.

(** ** Non-volatile storage

    [nvs_read d s] is what [b_nvs_read(mem, s, 1, 0)] puts in [mem], and
    [nvs_write d s bs] is the device after [b_nvs_write(bs, s, 1, 0)]. *)
Class NVS (D : Type) := {
  nvs_read : D -> Z -> list Z;
  nvs_write : D -> Z -> list Z -> D;
}.

Class NVSLaws (D : Type) {N : NVS D} := {
  nvs_read_length : forall d s, length (nvs_read d s) = 4096%nat;
  nvs_read_bytes : forall d s, bytes (nvs_read d s);
  nvs_read_write_eq : forall d s bs,
    length bs = 4096%nat -> bytes bs -> nvs_read (nvs_write d s bs) s = bs;
  nvs_read_write_ne : forall d s s' bs,
    s <> s' -> nvs_read (nvs_write d s bs) s' = nvs_read d s';
}.

(** A RAM disk: sectors never written read as zeros. *)
Definition zero_sector : list Z := replicate 4096 0.
Abbreviation ramdisk := (gmap Z (list Z)).

Definition sector_ok (bs : list Z) : bool :=
  (length bs =? 4096)%nat && forallb (fun b => (0 <=? b) && (b <? 256)) bs.
Definition sector_norm (bs : list Z) : list Z := if sector_ok bs then bs else zero_sector.

#[export] Instance ramdisk_nvs : NVS ramdisk := {|
  nvs_read d s := sector_norm (default zero_sector (d !! s));
  nvs_write d s bs := <[s := bs]> d;
|}.

Lemma sector_ok_spec bs : sector_ok bs = true <-> length bs = 4096%nat /\ bytes bs.
Proof.
  unfold sector_ok, bytes. rewrite andb_true_iff, Nat.eqb_eq, <- Is_true_true, forallb_True.
  assert (forall b, Is_true ((0 <=? b) && (b <? 256)) <-> is_byte b) as E.
  { intros b. rewrite Is_true_true, andb_true_iff, Z.leb_le, Z.ltb_lt. done. }
  by setoid_rewrite E.
Qed.

Lemma sector_norm_ok bs : length (sector_norm bs) = 4096%nat /\ bytes (sector_norm bs).
Proof.
  unfold sector_norm. destruct (sector_ok bs) eqn:E; [by apply sector_ok_spec|].
  apply sector_ok_spec. done.
Qed.

#[export] Instance ramdisk_laws : NVSLaws ramdisk.
Proof.
  split; intros; simpl; try apply sector_norm_ok.
  - rewrite lookup_insert_eq. simpl. unfold sector_norm.
    by rewrite (proj2 (sector_ok_spec bs)).
  - by rewrite lookup_insert_ne.
Qed.

(** ** Console and counter

    The console answers the [n]-th [b_input] with [kbd n] (0: nothing typed)
    and records what [b_output] prints; [tsc n] is the [n]-th value read from
    [b_system(TIMECOUNTER)]. *)
Record console := mkConsole {
  kbd : nat -> Z;
  kbd_pos : nat;
  screen : list Z;
}.

Definition b_input (c : console) : Z * console :=
  (u8 (kbd c (kbd_pos c)), mkConsole (kbd c) (S (kbd_pos c)) (screen c)).

Definition b_output (c : console) (str : list Z) : console :=
  mkConsole (kbd c) (kbd_pos c) (screen c ++ str).

Record clock := mkClock {
  tsc : nat -> Z;
  tsc_pos : nat;
}.

Definition b_timecounter (k : clock) : Z * clock :=
  (u64 (tsc k (tsc_pos k)), mkClock (tsc k) (S (tsc_pos k))).
