(* ===== verification/Bmfs.v ===== *)
(** * BMFS: the flat file system of src/app/bmfs.c

    The data and every operation of bmfs.c, over any sector store that
    implements [NVS].  The static variables of the C file are the fields of
    [bmfs]; a [const char *] argument is an address in the reader [m] of the
    address space; the contents an operation stores through an output pointer
    are returned to the caller, which writes them to memory. *)
From S2P Require Import Prelude CString Kernel.

(** ** Constants *)
Definition ENOENT : Z := 2.
Definition EEXIST : Z := 17.
Definition EINVAL : Z := 22.
Definition EMFILE : Z := 24.
Definition ENOSPC : Z := 28.

Definition O_CREAT : Z := 64.
Definition O_EXCL : Z := 128.
Definition O_TRUNC : Z := 512.
Definition O_APPEND : Z := 1024.

Definition S_IFREG : Z := 32768.

Definition BMFS_SECTOR_BYTES : Z := 4096.
Definition BMFS_BLOCK_SECTORS : Z := 512.
Definition BMFS_BLOCK_BYTES : Z := BMFS_BLOCK_SECTORS * BMFS_SECTOR_BYTES.
Definition BMFS_DIR_SECTOR : Z := 1.
Definition BMFS_DIR_ENTRIES : nat := 64.
Definition BMFS_FIRST_DATA_BLOCK : Z := 1.
Definition BMFS_DEFAULT_BLOCKS : Z := 1.
Definition BMFS_FD_BASE : Z := 3.
Definition BMFS_MAX_OPEN : nat := 8.
(** [sizeof(dir[0].name)] *)
Definition NAME_BYTES : Z := 32.
(** Enough words for [strchr] on a name that [strnlen] found to be shorter than
    [NAME_BYTES] (see [strchr_spec]). *)
Definition NAME_FUEL : nat := 8.

(** ** Data *)
Record bmfs_dirent := mkDirent {
  de_name : list Z;
  de_start_block : Z;
  de_reserved_blocks : Z;
  de_size : Z;
  de_unused : Z;
}.

Record bmfs_file := mkFile {
  f_used : bool;
  f_dirty : bool;
  f_append : bool;
  f_dir_index : Z;
  f_start_block : Z;
  f_reserved_blocks : Z;
  f_size : Z;
  f_pos : Z;
}.

(** [e->size = n] *)
Definition set_size (n : Z) (e : bmfs_dirent) : bmfs_dirent :=
  mkDirent (de_name e) (de_start_block e) (de_reserved_blocks e) n (de_unused e).

Definition zero_dirent : bmfs_dirent := mkDirent (replicate 32 0) 0 0 0 0.
Definition zero_file : bmfs_file := mkFile false false false 0 0 0 0 0.

(** The directory sector as the array [dir] overlays it: 64 entries of 64
    bytes, each a 32-byte name and four little-endian 64-bit words. *)
Definition encode_dirent (e : bmfs_dirent) : list Z :=
  de_name e ++ le_bytes 8 (de_start_block e) ++ le_bytes 8 (de_reserved_blocks e) ++
  le_bytes 8 (de_size e) ++ le_bytes 8 (de_unused e).

Definition decode_dirent (l : list Z) : bmfs_dirent :=
  mkDirent (take 32 l)
    (le_val (take 8 (drop 32 l))) (le_val (take 8 (drop 40 l)))
    (le_val (take 8 (drop 48 l))) (le_val (take 8 (drop 56 l))).

Definition encode_dir (d : list bmfs_dirent) : list Z := concat (encode_dirent <$> d).

Fixpoint decode_entries (n : nat) (l : list Z) : list bmfs_dirent :=
  match n with
  | O => []
  | S k => decode_dirent (take 64 l) :: decode_entries k (drop 64 l)
  end.
Definition decode_dir (l : list Z) : list bmfs_dirent := decode_entries BMFS_DIR_ENTRIES l.

(** [struct linux_kstat] / [struct stat]: the fields bmfs.c and posix_shim.c set;
    all others stay zero. *)
Record kstat := mkKstat {
  st_ino : Z;
  st_nlink : Z;
  st_mode : Z;
  st_size : Z;
  st_blksize : Z;
  st_blocks : Z;
}.

(** The static variables of bmfs.c, and the drive. *)
Record bmfs (D : Type) := mkBmfs {
  dir : list bmfs_dirent;
  dir_loaded : bool;
  files : list bmfs_file;
  scratch : list Z;
  disk : D;
}.
Arguments mkBmfs {D}.
Arguments dir {D}.
Arguments dir_loaded {D}.
Arguments files {D}.
Arguments scratch {D}.
Arguments disk {D}.

Section Bmfs.
Context {D : Type} `{!NVS D}.
Implicit Types st : bmfs D.

(** Static storage at program start. *)
Definition bmfs_boot (d : D) : bmfs D :=
  mkBmfs (replicate BMFS_DIR_ENTRIES zero_dirent) false
    (replicate BMFS_MAX_OPEN zero_file) (replicate 4096 0) d.

Definition set_dir (d : list bmfs_dirent) st : bmfs D :=
  mkBmfs d (dir_loaded st) (files st) (scratch st) (disk st).
Definition set_files (fs : list bmfs_file) st : bmfs D :=
  mkBmfs (dir st) (dir_loaded st) fs (scratch st) (disk st).
Definition set_io (sc : list Z) (d : D) st : bmfs D :=
  mkBmfs (dir st) (dir_loaded st) (files st) sc d.

Definition set_file (i : Z) (f : bmfs_file) st : bmfs D :=
  set_files (<[Z.to_nat i := f]> (files st)) st.
Definition set_dirent (i : Z) (e : bmfs_dirent) st : bmfs D :=
  set_dir (<[Z.to_nat i := e]> (dir st)) st.

(** ** The directory *)
Definition dir_load st : bmfs D :=
  if dir_loaded st then st
  else mkBmfs (decode_dir (nvs_read (disk st) BMFS_DIR_SECTOR)) true
         (files st) (scratch st) (disk st).

Definition dir_flush st : bmfs D :=
  mkBmfs (dir st) (dir_loaded st) (files st) (scratch st)
    (nvs_write (disk st) BMFS_DIR_SECTOR (encode_dir (dir st))).

Definition name0 (e : bmfs_dirent) : Z := list_reader (de_name e) 0.

Definition name_matches (m : reader) (name : Z) (e : bmfs_dirent) : bool :=
  truth (name0 e) && (strncmp (list_reader (de_name e)) 0 m name NAME_BYTES =? 0).

Definition dir_find st (m : reader) (name : Z) : Z :=
  find_from (name_matches m name) 0 (dir st).

Definition dir_find_free_slot st : Z := find_from (fun e => name0 e =? 0) 0 (dir st).

Fixpoint next_free_block (next : Z) (l : list bmfs_dirent) : Z :=
  match l with
  | [] => next
  | e :: r =>
      if negb (truth (name0 e)) then next_free_block next r
      else
        let e_end := u64 (de_start_block e + de_reserved_blocks e) in
        next_free_block (if e_end >? next then e_end else next) r
  end.
Definition dir_next_free_block st : Z := next_free_block BMFS_FIRST_DATA_BLOCK (dir st).

(** path -> BMFS filename: strip one leading '/'. *)
Definition bmfs_name (m : reader) (path : Z) : Z :=
  if m path =? 47 then path + 1 else path.

Definition bmfs_is_fd st (fd : Z) : bool :=
  (fd >=? BMFS_FD_BASE) && (fd <? BMFS_FD_BASE + Z.of_nat BMFS_MAX_OPEN) &&
  match files st !! Z.to_nat (fd - BMFS_FD_BASE) with
  | Some f => f_used f
  | None => false
  end.

(** ** open *)
Definition open_slot st : Z := find_from (fun f => negb (f_used f)) 0 (files st).

Definition name_ok (m : reader) (name : Z) : bool :=
  let len := strnlen m name NAME_BYTES in
  negb ((len =? 0) || (len >=? NAME_BYTES) ||
        match strchr NAME_FUEL m name 47 with Some _ => true | None => false end).

(** The new entry is zeroed, named, and only then given a block: the entry
    being filled takes part in the scan of [dir_next_free_block]. *)
Definition bmfs_create (m : reader) (name di : Z) st : bmfs D :=
  let len := strnlen m name NAME_BYTES in
  let named := mkDirent (memcpy_at 0 (slice m name len) (replicate 32 0)) 0 0 0 0 in
  let st := set_dirent di named st in
  let e := mkDirent (de_name named) (dir_next_free_block st) BMFS_DEFAULT_BLOCKS 0 0 in
  dir_flush (set_dirent di e st).

(** Lines 179-196: truncate if asked, fill the open-file slot. *)
Definition bmfs_open_entry (flags slot di : Z) st : res (Z * bmfs D) :=
  let* e := arr_get (dir st) di in
  let '(e, st) :=
    if has_flag flags O_TRUNC
    then (set_size 0 e, dir_flush (set_dirent di (set_size 0 e) st))
    else (e, st) in
  let app := has_flag flags O_APPEND in
  let f := mkFile true false app di (de_start_block e) (de_reserved_blocks e) (de_size e)
             (if app then de_size e else 0) in
  Ret (BMFS_FD_BASE + slot, set_file slot f st).

(** [bmfs_open] from line 148 on, with the directory loaded. *)
Definition bmfs_open_loaded st (m : reader) (name flags : Z) : res (Z * bmfs D) :=
  let slot := open_slot st in
  if slot <? 0 then Ret (- EMFILE, st)
  else
    let di := dir_find st m name in
    if di <? 0 then
      if negb (has_flag flags O_CREAT) then Ret (- ENOENT, st)
      else
        let di := dir_find_free_slot st in
        if di <? 0 then Ret (- ENOSPC, st)
        else bmfs_open_entry flags slot di (bmfs_create m name di st)
    else if has_flag flags O_CREAT && has_flag flags O_EXCL then Ret (- EEXIST, st)
    else bmfs_open_entry flags slot di st.

Definition bmfs_open st (m : reader) (path flags mode : Z) : res (Z * bmfs D) :=
  let name := bmfs_name m path in
  if negb (name_ok m name) then Ret (- ENOENT, st)
  else bmfs_open_loaded (dir_load st) m name flags.

(** ** pread / pwrite: one sector at a time through [scratch] *)
Fixpoint pread_loop (fuel : nat) (d : D) (base remaining : Z) (dst sc : list Z)
  : Z * list Z * list Z :=
  match fuel with
  | O => (remaining, dst, sc)
  | S k =>
      if remaining =? 0 then (remaining, dst, sc)
      else
        let sector := base / BMFS_SECTOR_BYTES in
        let sector_off := base mod BMFS_SECTOR_BYTES in
        let chunk := BMFS_SECTOR_BYTES - sector_off in
        let chunk := if chunk >? remaining then remaining else chunk in
        let sc := nvs_read d sector in
        pread_loop k d (u64 (base + chunk)) (remaining - chunk)
          (dst ++ take (Z.to_nat chunk) (drop (Z.to_nat sector_off) sc)) sc
  end.

(** Sectors touched by [len] bytes at any offset, plus one. *)
Definition io_fuel (len : Z) : nat := Z.to_nat (len / BMFS_SECTOR_BYTES + 3).

(** Returns the result, the bytes stored at [buf] and the new state. *)
Definition bmfs_pread st (f : bmfs_file) (len off : Z) : res (Z * list Z * bmfs D) :=
  if off >=? f_size f then Ret (0, [], st)
  else
    let len := if u64 (off + len) >? f_size f then u64 (f_size f - off) else len in
    let base := u64 (f_start_block f * BMFS_BLOCK_BYTES + off) in
    match pread_loop (io_fuel len) (disk st) base len [] (scratch st) with
    | (0, dst, sc) => Ret (i64 len, dst, set_io sc (disk st) st)
    | _ => NoFuel
    end.

Fixpoint pwrite_loop (fuel : nat) (src : reader) (pos : Z) (d : D) (base remaining : Z)
  (sc : list Z) : Z * list Z * D :=
  match fuel with
  | O => (remaining, sc, d)
  | S k =>
      if remaining =? 0 then (remaining, sc, d)
      else
        let sector := base / BMFS_SECTOR_BYTES in
        let sector_off := base mod BMFS_SECTOR_BYTES in
        let chunk := BMFS_SECTOR_BYTES - sector_off in
        let chunk := if chunk >? remaining then remaining else chunk in
        let sc := if chunk <? BMFS_SECTOR_BYTES then nvs_read d sector else sc in
        let sc := memcpy_at sector_off (slice src pos chunk) sc in
        pwrite_loop k src (pos + chunk) (nvs_write d sector sc)
          (u64 (base + chunk)) (remaining - chunk) sc
  end.

Definition bmfs_pwrite st (f : bmfs_file) (src : reader) (len off : Z)
  : res (Z * bmfs_file * bmfs D) :=
  let cap := u64 (f_reserved_blocks f * BMFS_BLOCK_BYTES) in
  if off >=? cap then Ret (- ENOSPC, f, st)
  else
    let len := if u64 (off + len) >? cap then u64 (cap - off) else len in
    if len =? 0 then Ret (- ENOSPC, f, st)
    else
      let base := u64 (f_start_block f * BMFS_BLOCK_BYTES + off) in
      match pwrite_loop (io_fuel len) src 0 (disk st) base len (scratch st) with
      | (0, sc, d) =>
          let f := if u64 (off + len) >? f_size f
                   then mkFile (f_used f) true (f_append f) (f_dir_index f)
                          (f_start_block f) (f_reserved_blocks f) (u64 (off + len)) (f_pos f)
                   else f in
          Ret (i64 len, f, set_io sc d st)
      | _ => NoFuel
      end.

Definition set_pos (p : Z) (f : bmfs_file) : bmfs_file :=
  mkFile (f_used f) (f_dirty f) (f_append f) (f_dir_index f) (f_start_block f)
    (f_reserved_blocks f) (f_size f) p.

Definition bmfs_read st (fd len : Z) : res (Z * list Z * bmfs D) :=
  let i := fd - BMFS_FD_BASE in
  let* f := arr_get (files st) i in
  let* (n, bs, st) := bmfs_pread st f len (f_pos f) in
  Ret (n, bs, if n >? 0 then set_file i (set_pos (u64 (f_pos f + n)) f) st else st).

Definition bmfs_write st (fd : Z) (src : reader) (len : Z) : res (Z * bmfs D) :=
  let i := fd - BMFS_FD_BASE in
  let* f := arr_get (files st) i in
  let f := if f_append f then set_pos (f_size f) f else f in
  let* (n, f, st) := bmfs_pwrite st f src len (f_pos f) in
  let f := if n >? 0 then set_pos (u64 (f_pos f + n)) f else f in
  Ret (n, set_file i f st).

(** ** close, lseek, stat, unlink *)
Definition bmfs_close st (fd : Z) : res (Z * bmfs D) :=
  let i := fd - BMFS_FD_BASE in
  let* f := arr_get (files st) i in
  let* st :=
    if f_dirty f then
      let* e := arr_get (dir st) (f_dir_index f) in
      Ret (dir_flush (set_dirent (f_dir_index f) (set_size (f_size f) e) st))
    else Ret st in
  let f := mkFile false (f_dirty f) (f_append f) (f_dir_index f) (f_start_block f)
             (f_reserved_blocks f) (f_size f) (f_pos f) in
  Ret (0, set_file i f st).

(** [base + offset] is a signed addition: its overflow is undefined. *)
Definition bmfs_lseek st (fd offset whence : Z) : res (Z * bmfs D) :=
  let i := fd - BMFS_FD_BASE in
  let* f := arr_get (files st) i in
  let seek base :=
    let np := base + offset in
    if np =? i64 np then
      if np <? 0 then Ret (- EINVAL, st)
      else Ret (np, set_file i (set_pos np f) st)
    else Undef in
  if whence =? 0 then seek 0
  else if whence =? 1 then seek (i64 (f_pos f))
  else if whence =? 2 then seek (i64 (f_size f))
  else Ret (- EINVAL, st).

Definition bmfs_fstat_fd st (fd : Z) : res (Z * kstat) :=
  let* f := arr_get (files st) (fd - BMFS_FD_BASE) in
  Ret (0, mkKstat 0 0 (Z.lor S_IFREG 420) (i64 (f_size f)) BMFS_SECTOR_BYTES
            (u64 (f_reserved_blocks f * BMFS_BLOCK_BYTES) / 512)).

Definition bmfs_fstatat st (m : reader) (path : Z) : res (Z * option kstat * bmfs D) :=
  let name := bmfs_name m path in
  let st := dir_load st in
  let di := dir_find st m name in
  if di <? 0 then Ret (- ENOENT, None, st)
  else
    let* e := arr_get (dir st) di in
    Ret (0, Some (mkKstat (di + 1) 1 (Z.lor S_IFREG 420) (i64 (de_size e)) BMFS_SECTOR_BYTES
                    (u64 (de_reserved_blocks e * BMFS_BLOCK_BYTES) / 512)), st).

Definition bmfs_unlink st (m : reader) (path : Z) : res (Z * bmfs D) :=
  let name := bmfs_name m path in
  let st := dir_load st in
  let di := dir_find st m name in
  if di <? 0 then Ret (- ENOENT, st)
  else Ret (0, dir_flush (set_dirent di zero_dirent st)).
End Bmfs.
