(* ===== verification/BmfsIo.v ===== *)
(** * BMFS data transfer

    The sector loops of [bmfs_pread] and [bmfs_pwrite] (bmfs.c, lines 203-269)
    refine reads and writes of a flat array of bytes. *)
From S2P Require Import Prelude CString Kernel Bmfs.

Section Io.
Context {D : Type} `{!NVS D} `{!NVSLaws D}.

(** The drive as one flat array of bytes. *)
Definition disk_byte (d : D) : reader :=
  fun a => list_reader (nvs_read d (a / BMFS_SECTOR_BYTES)) (a mod BMFS_SECTOR_BYTES).

Lemma disk_byte_byte d a : is_byte (disk_byte d a).
Proof. apply list_reader_byte, nvs_read_bytes. Qed.

(** The drive with [n] bytes of [src] stored from address [base] on. *)
Definition patched (r : reader) (base n : Z) (src : reader) : reader :=
  fun a => if (base <=? a) && (a <? base + n) then src (a - base) else r a.

Lemma nvs_read_ext d d' s :
  (forall a, a / BMFS_SECTOR_BYTES = s -> disk_byte d a = disk_byte d' a) ->
  nvs_read d s = nvs_read d' s.
Proof.
  intros H. apply list_reader_ext; [by rewrite !nvs_read_length|].
  rewrite nvs_read_length. intros i Hi.
  specialize (H (s * 4096 + i)). unfold disk_byte, BMFS_SECTOR_BYTES in H.
  replace ((s * 4096 + i) / 4096) with s in H by (apply Z.div_unique with i; lia).
  replace ((s * 4096 + i) mod 4096) with i in H by (apply Z.mod_unique with s; lia).
  by apply H.
Qed.

(** One iteration's chunk stays inside its sector and the request. *)
Definition io_chunk (base remaining : Z) : Z :=
  if BMFS_SECTOR_BYTES - base mod BMFS_SECTOR_BYTES >? remaining
  then remaining else BMFS_SECTOR_BYTES - base mod BMFS_SECTOR_BYTES.

Lemma io_chunk_bounds base remaining :
  0 < remaining ->
  0 < io_chunk base remaining <= remaining /\
  base mod 4096 + io_chunk base remaining <= 4096 /\
  (io_chunk base remaining = remaining \/
   base mod 4096 + io_chunk base remaining = 4096).
Proof.
  intros H. unfold io_chunk, BMFS_SECTOR_BYTES. rewrite Z.gtb_ltb.
  pose proof (Z.mod_pos_bound base 4096 ltac:(lia)).
  destruct (Z.ltb_spec remaining (4096 - base mod 4096)); lia.
Qed.

(** The fuel condition of both loops, and how one iteration discharges it. *)
Definition io_ok (fuel : nat) (base remaining : Z) : Prop :=
  0 <= base /\ 0 <= remaining /\ base + remaining <= 18446744073709551616 /\
  (remaining = 0 \/ remaining + base mod 4096 <= 4096 * Z.of_nat fuel).

Lemma io_ok_step k base remaining :
  0 < remaining -> io_ok (S k) base remaining ->
  io_ok k (u64 (base + io_chunk base remaining)) (remaining - io_chunk base remaining) /\
  (remaining - io_chunk base remaining = 0 \/
   u64 (base + io_chunk base remaining) = base + io_chunk base remaining).
Proof.
  intros Hr (Hb & Hr0 & Hov & Hf). destruct (io_chunk_bounds base remaining Hr) as (Hc & Hs & He).
  pose proof (u64_range (base + io_chunk base remaining)) as Hu.
  destruct (decide (io_chunk base remaining = remaining)) as [E|E].
  - rewrite E in *. split; [|left; lia]. repeat split; lia.
  - destruct He as [He|He]; [done|].
    assert (u64 (base + io_chunk base remaining) = base + io_chunk base remaining) as Eu
      by (apply u64_small; lia).
    split; [|by right]. rewrite Eu. repeat split; try lia.
    right. assert ((base + io_chunk base remaining) mod 4096 = 0) as ->; [|lia].
    revert He. generalize (io_chunk base remaining). intros c He. zdiv.
Qed.

Lemma io_ok_start len base :
  0 <= base -> 0 <= len -> base + len <= 18446744073709551616 -> io_ok (io_fuel len) base len.
Proof.
  intros Hb Hl Hov. repeat split; try done. right.
  unfold io_fuel, BMFS_SECTOR_BYTES. zdiv.
Qed.

Lemma pread_loop_step k d base remaining dst sc :
  0 < remaining ->
  pread_loop (S k) d base remaining dst sc =
  pread_loop k d (u64 (base + io_chunk base remaining)) (remaining - io_chunk base remaining)
    (dst ++ slice (disk_byte d) base (io_chunk base remaining))
    (nvs_read d (base / BMFS_SECTOR_BYTES)).
Proof.
  intros Hr. destruct (io_chunk_bounds base remaining Hr) as (Hc & Hs & _).
  cbn [pread_loop]. destruct (Z.eqb_spec remaining 0); [lia|].
  fold (io_chunk base remaining). f_equal. f_equal.
  pose proof (Z.mod_pos_bound base 4096 ltac:(lia)).
  unfold BMFS_SECTOR_BYTES in *.
  rewrite take_drop_slice by (rewrite ?nvs_read_length; lia).
  apply slice_ext. intros i Hi. unfold disk_byte, BMFS_SECTOR_BYTES.
  replace ((base + i) / 4096) with (base / 4096) by zdiv.
  f_equal. zdiv.
Qed.

(** The read loop returns the bytes of the drive, in order. *)
Lemma pread_loop_spec fuel d base remaining dst sc :
  io_ok fuel base remaining -> length sc = 4096%nat -> bytes sc ->
  exists sc', pread_loop fuel d base remaining dst sc =
    (0, dst ++ slice (disk_byte d) base remaining, sc') /\ length sc' = 4096%nat /\ bytes sc'.
Proof.
  revert base remaining dst sc.
  induction fuel as [|k IH]; intros base remaining dst sc Hok Hl Hb.
  { destruct Hok as (? & ? & ? & ?). exists sc. split; [|done]. simpl.
    pose proof (Z.mod_pos_bound base 4096 ltac:(lia)).
    rewrite (slice_nil _ _ remaining), app_nil_r by lia. do 2 f_equal. lia. }
  destruct (decide (remaining = 0)) as [->|Hne].
  { exists sc. simpl. by rewrite slice_nil, app_nil_r by lia. }
  assert (0 < remaining) as Hr by (destruct Hok; lia).
  rewrite pread_loop_step by done.
  destruct (io_ok_step k base remaining Hr Hok) as [Hok' Hu].
  destruct (IH _ _ (dst ++ slice (disk_byte d) base (io_chunk base remaining)) _ Hok'
    (nvs_read_length d (base / BMFS_SECTOR_BYTES)) (nvs_read_bytes d (base / BMFS_SECTOR_BYTES)))
    as (sc' & -> & Hsc).
  exists sc'. split; [|done]. do 2 f_equal. rewrite <- app_assoc. f_equal.
  destruct (io_chunk_bounds base remaining Hr) as (Hc & _ & _).
  destruct Hu as [Hu| ->].
  - rewrite Hu, (slice_nil _ _ 0), app_nil_r by lia. f_equal. lia.
  - rewrite slice_app by lia. f_equal. lia.
Qed.

(** ** The write loop *)

Lemma disk_byte_write d s bs a :
  length bs = 4096%nat -> bytes bs ->
  disk_byte (nvs_write d s bs) a =
  if a / 4096 =? s then list_reader bs (a mod 4096) else disk_byte d a.
Proof.
  intros Hl Hb. unfold disk_byte, BMFS_SECTOR_BYTES.
  destruct (Z.eqb_spec (a / 4096) s) as [->|Hne].
  - by rewrite nvs_read_write_eq.
  - by rewrite nvs_read_write_ne by done.
Qed.

(** The sector image one iteration writes back. *)
Definition io_image (d : D) (src : reader) (pos base remaining : Z) (sc : list Z) : list Z :=
  memcpy_at (base mod BMFS_SECTOR_BYTES) (slice src pos (io_chunk base remaining))
    (if io_chunk base remaining <? BMFS_SECTOR_BYTES
     then nvs_read d (base / BMFS_SECTOR_BYTES) else sc).

Lemma io_image_ok d src pos base remaining sc :
  (forall i, is_byte (src i)) -> length sc = 4096%nat -> bytes sc ->
  length (io_image d src pos base remaining sc) = 4096%nat /\
  bytes (io_image d src pos base remaining sc).
Proof.
  intros Hs Hl Hb. unfold io_image. rewrite length_memcpy_at.
  split; [|apply bytes_memcpy_at; [by apply bytes_slice|]];
    destruct (_ <? _); auto using nvs_read_length, nvs_read_bytes.
Qed.

Lemma io_write_step d src pos base remaining sc a :
  (forall i, is_byte (src i)) -> length sc = 4096%nat -> bytes sc -> 0 < remaining ->
  disk_byte (nvs_write d (base / BMFS_SECTOR_BYTES) (io_image d src pos base remaining sc)) a =
  patched (disk_byte d) base (io_chunk base remaining) (fun i => src (pos + i)) a.
Proof.
  intros Hs Hl Hb Hr. destruct (io_chunk_bounds base remaining Hr) as (Hc & Ho & _).
  destruct (io_image_ok d src pos base remaining sc Hs Hl Hb) as [Hli Hbi].
  rewrite disk_byte_write by done. unfold patched, io_image, BMFS_SECTOR_BYTES.
  pose proof (Z.mod_pos_bound base 4096 ltac:(lia)) as Hm.
  pose proof (Z.mod_pos_bound a 4096 ltac:(lia)) as Hma.
  pose proof (Z.div_mod base 4096 ltac:(lia)) as Hdb.
  pose proof (Z.div_mod a 4096 ltac:(lia)) as Hda.
  clear Hli Hbi. generalize dependent (io_chunk base remaining). intros c Hc Ho.
  destruct (Z.eqb_spec (a / 4096) (base / 4096)) as [E|E].
  - rewrite list_reader_memcpy_at; rewrite ?length_slice; [|lia|].
    2:{ destruct (c <? 4096); rewrite ?nvs_read_length, ?Hl; lia. }
    rewrite Z2Nat.id by lia.
    destruct (Z.leb_spec base a), (Z.ltb_spec a (base + c)),
      (Z.leb_spec (base mod 4096) (a mod 4096)),
      (Z.ltb_spec (a mod 4096) (base mod 4096 + c)); simpl; try lia.
    + rewrite list_reader_slice by lia. f_equal. lia.
    + destruct (Z.ltb_spec c 4096); [|lia]. unfold disk_byte, BMFS_SECTOR_BYTES. by rewrite E.
    + destruct (Z.ltb_spec c 4096); [|lia]. unfold disk_byte, BMFS_SECTOR_BYTES. by rewrite E.
  - destruct (Z.leb_spec base a), (Z.ltb_spec a (base + c)); simpl; try done. nia.
Qed.

Lemma pwrite_loop_step k src pos d base remaining sc :
  0 < remaining ->
  pwrite_loop (S k) src pos d base remaining sc =
  pwrite_loop k src (pos + io_chunk base remaining)
    (nvs_write d (base / BMFS_SECTOR_BYTES) (io_image d src pos base remaining sc))
    (u64 (base + io_chunk base remaining)) (remaining - io_chunk base remaining)
    (io_image d src pos base remaining sc).
Proof. intros Hr. cbn [pwrite_loop]. destruct (Z.eqb_spec remaining 0); [lia|]. done. Qed.

(** The write loop patches exactly the requested range of the flat array. *)
Lemma pwrite_loop_spec fuel src pos d base remaining sc :
  (forall i, is_byte (src i)) -> io_ok fuel base remaining ->
  length sc = 4096%nat -> bytes sc ->
  exists sc' d', pwrite_loop fuel src pos d base remaining sc = (0, sc', d') /\
    length sc' = 4096%nat /\ bytes sc' /\
    forall a, disk_byte d' a =
      patched (disk_byte d) base remaining (fun i => src (pos + i)) a.
Proof.
  intros Hs. revert pos d base remaining sc.
  induction fuel as [|k IH]; intros pos d base remaining sc Hok Hl Hb.
  { destruct Hok as (? & ? & ? & ?). exists sc, d.
    pose proof (Z.mod_pos_bound base 4096 ltac:(lia)).
    assert (remaining = 0) as -> by lia. repeat split; try done.
    intros a. unfold patched. destruct (Z.leb_spec base a), (Z.ltb_spec a (base + 0));
      simpl; try done; lia. }
  destruct (decide (remaining = 0)) as [->|Hne].
  { exists sc, d. repeat split; try done. intros a. unfold patched.
    destruct (Z.leb_spec base a), (Z.ltb_spec a (base + 0)); simpl; try done; lia. }
  assert (0 < remaining) as Hr by (destruct Hok; lia).
  rewrite pwrite_loop_step by done.
  destruct (io_ok_step k base remaining Hr Hok) as [Hok' Hu].
  destruct (io_image_ok d src pos base remaining sc Hs Hl Hb) as [Hli Hbi].
  destruct (IH (pos + io_chunk base remaining)
    (nvs_write d (base / BMFS_SECTOR_BYTES) (io_image d src pos base remaining sc))
    _ _ _ Hok' Hli Hbi)
    as (sc' & d' & -> & Hl' & Hb' & Hd').
  exists sc', d'. repeat split; try done. intros a. rewrite Hd'.
  destruct (io_chunk_bounds base remaining Hr) as (Hc & _ & _).
  unfold patched at 1. rewrite io_write_step by done. unfold patched.
  destruct Hu as [Hu| ->].
  - assert (io_chunk base remaining = remaining) as -> by lia. rewrite Z.sub_diag, Z.add_0_r.
    destruct (Z.leb_spec (u64 (base + remaining)) a),
      (Z.ltb_spec a (u64 (base + remaining))); simpl; try lia; done.
  - destruct (Z.leb_spec (base + io_chunk base remaining) a),
      (Z.ltb_spec a (base + io_chunk base remaining + (remaining - io_chunk base remaining))),
      (Z.leb_spec base a), (Z.ltb_spec a (base + io_chunk base remaining)),
      (Z.ltb_spec a (base + remaining)); simpl; try lia; try done; f_equal; lia.
Qed.
End Io.
