(* ===== verification/BmfsDir.v ===== *)
(** * The BMFS directory

    Layout of the directory sector (bmfs.c, lines 11-23 and 51-57), file names
    as C strings, and the three directory scans ([dir_find],
    [dir_find_free_slot], [dir_next_free_block]). *)
From S2P Require Import Prelude CString Kernel Bmfs BmfsIo.

#[local] Arguments le_bytes : simpl never.
#[local] Arguments le_val : simpl never.

Definition u64_ok (x : Z) : Prop := 0 <= x < 18446744073709551616.

Record wf_dirent (e : bmfs_dirent) : Prop := {
  wf_name_len : length (de_name e) = 32%nat;
  wf_name_bytes : bytes (de_name e);
  wf_start : u64_ok (de_start_block e);
  wf_reserved : u64_ok (de_reserved_blocks e);
  wf_size : u64_ok (de_size e);
  wf_unused : u64_ok (de_unused e);
}.

(** ** Encoding round trips *)

Lemma length_encode_dirent e : length (de_name e) = 32%nat -> length (encode_dirent e) = 64%nat.
Proof. intros H. unfold encode_dirent. rewrite !length_app, !length_le_bytes, H. done. Qed.

Lemma decode_encode_dirent e : wf_dirent e -> decode_dirent (encode_dirent e) = e.
Proof.
  intros [Hl _ H1 H2 H3 H4]. destruct e as [n a b c d]; simpl in *.
  unfold decode_dirent, encode_dirent; simpl.
  do 32 (destruct n as [|? n]; [discriminate Hl|]). destruct n; [|discriminate Hl].
  f_equal;
    [exact (le_val_le_bytes 8 a H1)|exact (le_val_le_bytes 8 b H2)
    |exact (le_val_le_bytes 8 c H3)|exact (le_val_le_bytes 8 d H4)].
Qed.

Lemma bytes_take_drop (l : list Z) n k : bytes l -> bytes (take n (drop k l)).
Proof. intros H. by apply Forall_take, Forall_drop. Qed.

Lemma encode_decode_dirent l : length l = 64%nat -> bytes l -> encode_dirent (decode_dirent l) = l.
Proof.
  intros Hl Hb. unfold encode_dirent, decode_dirent.
  cbn [de_name de_start_block de_reserved_blocks de_size de_unused].
  assert (forall k, (k + 8 <= 64)%nat ->
    le_bytes 8 (le_val (take 8 (drop k l))) = take 8 (drop k l)) as E.
  { intros k Hk. rewrite <- (le_bytes_le_val (take 8 (drop k l))) at 2 by by apply bytes_take_drop.
    f_equal. rewrite length_take, length_drop. lia. }
  rewrite (E 32%nat), (E 40%nat), (E 48%nat), (E 56%nat) by lia.
  clear E Hb. do 64 (destruct l as [|? l]; [discriminate Hl|]).
  destruct l; [reflexivity|discriminate Hl].
Qed.

Lemma decode_dirent_wf l : length l = 64%nat -> bytes l -> wf_dirent (decode_dirent l).
Proof.
  intros Hl Hb.
  assert (forall k, (k + 8 <= 64)%nat -> u64_ok (le_val (take 8 (drop k l)))) as E.
  { intros k Hk. pose proof (le_val_bound _ (bytes_take_drop l 8 k Hb)) as H.
    rewrite length_take, length_drop, Nat.min_l in H by lia. exact H. }
  split; simpl; try (apply E; lia).
  - rewrite length_take. lia.
  - by apply Forall_take.
Qed.

Lemma decode_encode_entries d rest :
  Forall wf_dirent d ->
  decode_entries (length d) (concat (encode_dirent <$> d) ++ rest) = d.
Proof.
  induction 1 as [|e d He Hd IH]; [done|]. rewrite fmap_cons. cbn [length decode_entries concat].
  pose proof (length_encode_dirent e (wf_name_len _ He)) as Hlen.
  rewrite <- app_assoc, take_app_length', drop_app_length' by done.
  by rewrite decode_encode_dirent, IH.
Qed.

Lemma decode_encode_dir d :
  length d = BMFS_DIR_ENTRIES -> Forall wf_dirent d -> decode_dir (encode_dir d) = d.
Proof.
  intros Hl Hd. unfold decode_dir, encode_dir. rewrite <- Hl.
  rewrite <- (app_nil_r (concat _)). by apply decode_encode_entries.
Qed.

Lemma encode_decode_entries n l :
  length l = (64 * n)%nat -> bytes l -> concat (encode_dirent <$> decode_entries n l) = l.
Proof.
  revert l; induction n as [|n IH]; intros l Hl Hb.
  - destruct l; [done|discriminate Hl].
  - cbn [decode_entries]. rewrite fmap_cons. cbn [concat].
    rewrite encode_decode_dirent; [|rewrite length_take; lia|by apply Forall_take].
    rewrite IH; [|rewrite length_drop; lia|by apply Forall_drop].
    apply take_drop.
Qed.

Lemma encode_decode_dir l : length l = 4096%nat -> bytes l -> encode_dir (decode_dir l) = l.
Proof. intros Hl Hb. by apply encode_decode_entries. Qed.

Lemma decode_entries_wf n l :
  length l = (64 * n)%nat -> bytes l ->
  length (decode_entries n l) = n /\ Forall wf_dirent (decode_entries n l).
Proof.
  revert l; induction n as [|n IH]; intros l Hl Hb; [by split|]. cbn [decode_entries length].
  destruct (IH (drop 64 l)) as [H1 H2]; [rewrite length_drop; lia|by apply Forall_drop|].
  rewrite H1. split; [done|]. constructor; [|done].
  apply decode_dirent_wf; [rewrite length_take; lia|by apply Forall_take].
Qed.

Lemma length_encode_dir d :
  Forall wf_dirent d -> length (encode_dir d) = (64 * length d)%nat.
Proof.
  unfold encode_dir. induction 1 as [|e d He Hd IH]; [done|]. rewrite fmap_cons. cbn [concat].
  rewrite length_app. rewrite IH, length_encode_dirent by apply He. simpl. lia.
Qed.

Lemma bytes_encode_dir d : Forall wf_dirent d -> bytes (encode_dir d).
Proof.
  unfold encode_dir. induction 1 as [|e d He Hd IH]; [constructor|].
  rewrite fmap_cons. cbn [concat]. apply Forall_app. split; [|done].
  unfold encode_dirent. repeat (apply Forall_app; split); try apply le_bytes_bytes. apply He.
Qed.

Lemma zero_dirent_wf : wf_dirent zero_dirent.
Proof. split; try done. by apply Forall_replicate. Qed.

(** ** Names

    [cname r p]: the name stored at [p], at most 32 characters. *)
Definition cname (r : reader) (p : Z) : list Z := slice r p (strnlen r p NAME_BYTES).
Definition fname (e : bmfs_dirent) : list Z := cname (list_reader (de_name e)) 0.

Section Names.
Context (lr rr : reader).
Context (Hl : forall i, is_byte (lr i)) (Hr : forall i, is_byte (rr i)).

Lemma strnlen_unique (r : reader) p n k :
  (forall i, is_byte (r i)) -> 0 <= k <= n ->
  (forall i, 0 <= i < k -> r (p + i) <> 0) -> (k < n -> r (p + k) = 0) ->
  strnlen r p n = k.
Proof.
  intros Hb Hk Hnz Hz. destruct (strnlen_spec r Hb p n ltac:(lia)) as (H1 & H2 & H3).
  destruct (decide (strnlen r p n < k)).
  - specialize (H3 ltac:(lia)). destruct (Hnz (strnlen r p n)); [lia|done].
  - destruct (decide (k < strnlen r p n)); [|lia].
    destruct (H2 k); [lia|]. apply Hz. lia.
Qed.

(** [strncmp(l, r, 32) == 0] is equality of names. *)
Lemma str_agree_cname l r :
  str_agree lr l rr r NAME_BYTES <-> cname lr l = cname rr r.
Proof.
  unfold cname, NAME_BYTES.
  destruct (strnlen_spec lr Hl l 32 ltac:(lia)) as (La & Lb & Lc).
  destruct (strnlen_spec rr Hr r 32 ltac:(lia)) as (Ra & Rb & Rc).
  split.
  - intros H.
    assert (strnlen rr r 32 = strnlen lr l 32) as E.
    { apply strnlen_unique; [done|done| |].
      - intros i Hi. rewrite <- (H i) by (lia || (intros; apply Lb; lia)). apply Lb. lia.
      - intros Hlt. rewrite <- (H (strnlen lr l 32)) by (lia || (intros; apply Lb; lia)).
        by apply Lc. }
    rewrite E. apply slice_ext. intros i Hi. apply H; [lia|]. intros j Hj. apply Lb. lia.
  - intros H i Hi Hj.
    assert (strnlen lr l 32 = strnlen rr r 32) as E.
    { apply (f_equal length) in H. rewrite !length_slice in H. lia. }
    assert (i <= strnlen lr l 32) as Hle.
    { destruct (decide (i <= strnlen lr l 32)); [done|]. destruct (Hj (strnlen lr l 32)); [lia|].
      apply Lc. lia. }
    destruct (decide (i = strnlen lr l 32)) as [->|].
    + rewrite Lc by lia. rewrite E, Rc by lia. done.
    + apply (f_equal (fun s => list_reader s i)) in H.
      rewrite !list_reader_slice in H by lia. done.
Qed.
End Names.

Lemma cname_nil_iff r p : (forall i, is_byte (r i)) -> cname r p = [] <-> r p = 0.
Proof.
  intros Hb. unfold cname, NAME_BYTES.
  destruct (strnlen_spec r Hb p 32 ltac:(lia)) as (Ha & Hn & Hz). split.
  - intros H. apply (f_equal length) in H. rewrite length_slice in H. simpl in H.
    assert (strnlen r p 32 = 0) as E by lia. rewrite E, Z.add_0_r in Hz. apply Hz. lia.
  - intros H. apply slice_nil. destruct (decide (0 < strnlen r p 32)); [|lia].
    destruct (Hn 0); [lia|]. by rewrite Z.add_0_r.
Qed.

Lemma fname_nil_iff e : wf_dirent e -> fname e = [] <-> name0 e = 0.
Proof. intros He. apply cname_nil_iff. intros i. apply list_reader_byte, He. Qed.

Lemma name_matches_iff m name e :
  (forall i, is_byte (m i)) -> wf_dirent e ->
  name_matches m name e = true <-> fname e <> [] /\ fname e = cname m name.
Proof.
  intros Hm He. unfold name_matches, truth.
  rewrite andb_true_iff, negb_true_iff, Z.eqb_neq, Z.eqb_eq, <- fname_nil_iff by done.
  rewrite strncmp_spec, str_agree_cname by (try done; intros; apply list_reader_byte, He). done.
Qed.
