(* ===== verification/BmfsInv.v ===== *)
(** * BMFS: the file-system invariant

    [fs_inv]: the directory on disk is well formed (unique names, disjoint
    extents outside block 0, sizes within the reservation), the directory in
    memory equals the one on disk, and every open file points at its entry. *)
From S2P Require Import Prelude CString Kernel Bmfs BmfsIo BmfsDir.

(** Blocks are numbered below 2^42, so byte addresses stay below 2^63. *)
Definition BLOCK_LIMIT : Z := 4398046511104.

Definition used_entry (e : bmfs_dirent) : Prop := fname e <> [].

Record entry_ok (e : bmfs_dirent) : Prop := {
  eo_start : 1 <= de_start_block e;
  eo_end : de_start_block e + de_reserved_blocks e <= BLOCK_LIMIT;
  eo_size : de_size e <= de_reserved_blocks e * BMFS_BLOCK_BYTES;
}.

Definition extents_disjoint (a b : bmfs_dirent) : Prop :=
  de_start_block a + de_reserved_blocks a <= de_start_block b \/
  de_start_block b + de_reserved_blocks b <= de_start_block a.

Record dir_ok (d : list bmfs_dirent) : Prop := {
  do_len : length d = BMFS_DIR_ENTRIES;
  do_wf : Forall wf_dirent d;
  do_entry : forall i e, d !! i = Some e -> used_entry e -> entry_ok e;
  do_names : forall i j a b, d !! i = Some a -> d !! j = Some b -> used_entry a ->
    fname a = fname b -> i = j;
  do_extents : forall i j a b, d !! i = Some a -> d !! j = Some b -> used_entry a ->
    used_entry b -> i <> j -> extents_disjoint a b;
}.

(** An open file is bound to a directory entry with the same extent. *)
Record bound (d : list bmfs_dirent) (f : bmfs_file) (e : bmfs_dirent) : Prop := {
  bo_entry : d !! Z.to_nat (f_dir_index f) = Some e;
  bo_index : 0 <= f_dir_index f;
  bo_used : used_entry e;
  bo_start : f_start_block f = de_start_block e;
  bo_reserved : f_reserved_blocks f = de_reserved_blocks e;
  bo_size : 0 <= f_size f <= de_reserved_blocks e * BMFS_BLOCK_BYTES;
  bo_pos : 0 <= f_pos f < 9223372036854775808;
}.
Definition file_ok (d : list bmfs_dirent) (f : bmfs_file) : Prop :=
  f_used f = true -> exists e, bound d f e.

Section Inv.
Context {D : Type} `{!NVS D} `{!NVSLaws D}.
Implicit Types st : bmfs D.

(** The directory as it is on the drive. *)
Definition disk_dir (d : D) : list bmfs_dirent := decode_dir (nvs_read d BMFS_DIR_SECTOR).

Record fs_inv st : Prop := {
  fi_dir : dir_ok (disk_dir (disk st));
  fi_sync : dir_loaded st = true -> dir st = disk_dir (disk st);
  fi_nfiles : length (files st) = BMFS_MAX_OPEN;
  fi_files : Forall (file_ok (disk_dir (disk st))) (files st);
  fi_idle : dir_loaded st = false -> Forall (fun f => f_used f = false) (files st);
  fi_scratch : length (scratch st) = 4096%nat;
  fi_scratch_bytes : bytes (scratch st);
}.

(** ** Loading and flushing *)
Lemma dir_load_loaded st : dir_loaded (dir_load st) = true.
Proof. unfold dir_load. destruct (dir_loaded st) eqn:E; done. Qed.

Lemma dir_load_disk st : disk (dir_load st) = disk st.
Proof. unfold dir_load. by destruct (dir_loaded st). Qed.
Lemma dir_load_files st : files (dir_load st) = files st.
Proof. unfold dir_load. by destruct (dir_loaded st). Qed.

Lemma dir_load_inv st : fs_inv st -> fs_inv (dir_load st).
Proof.
  intros [H1 H2 H3 H4 H5 H6 H7]. unfold dir_load.
  destruct (dir_loaded st) eqn:E; split; simpl; try done; by rewrite E.
Qed.

Lemma dir_load_dir st : fs_inv st -> dir (dir_load st) = disk_dir (disk st).
Proof.
  intros H. rewrite <- (dir_load_disk st). apply dir_load_inv in H.
  by apply fi_sync, dir_load_loaded.
Qed.

Lemma disk_dir_flush d' st :
  dir_ok d' -> disk_dir (disk (dir_flush (set_dir d' st))) = d'.
Proof.
  intros [Hl Hw _ _ _]. unfold dir_flush, set_dir, disk_dir; simpl.
  rewrite nvs_read_write_eq; [by apply decode_encode_dir| |by apply bytes_encode_dir].
  by rewrite length_encode_dir, Hl.
Qed.

Lemma flush_inv d' st :
  fs_inv st -> dir_loaded st = true -> dir_ok d' -> Forall (file_ok d') (files st) ->
  fs_inv (dir_flush (set_dir d' st)).
Proof.
  intros [H1 H2 H3 H4 H5 H6 H7] Hld Hd Hf.
  split; rewrite ?disk_dir_flush by done; done.
Qed.

Lemma set_file_inv i f st :
  fs_inv st -> dir_loaded st = true -> file_ok (disk_dir (disk st)) f -> fs_inv (set_file i f st).
Proof.
  intros [H1 H2 H3 H4 H5 H6 H7] Hld Hf.
  split; simpl; try done.
  - by rewrite length_insert.
  - by apply Forall_insert.
  - by rewrite Hld.
Qed.

Lemma set_io_inv sc d st :
  fs_inv st -> length sc = 4096%nat -> bytes sc ->
  nvs_read d BMFS_DIR_SECTOR = nvs_read (disk st) BMFS_DIR_SECTOR ->
  fs_inv (set_io sc d st).
Proof.
  intros [H1 H2 H3 H4 H5 H6 H7] Hl Hb Hs.
  assert (disk_dir d = disk_dir (disk st)) as E by (unfold disk_dir; by rewrite Hs).
  split; simpl; rewrite ?E; done.
Qed.

(** ** The scans *)
Lemma name_used m name e :
  wf_dirent e -> (forall i, is_byte (m i)) -> name_matches m name e = true -> used_entry e.
Proof. intros He Hm H. by apply name_matches_iff in H as [? _]. Qed.

Lemma free_entry_unused e : wf_dirent e -> (name0 e =? 0) = true -> ~ used_entry e.
Proof. intros He H. zbool. intros Hu. apply Hu. by apply fname_nil_iff. Qed.

Lemma next_free_block_ge next l :
  next <= next_free_block next l /\
  (forall e, e ∈ l -> truth (name0 e) = true ->
     u64 (de_start_block e + de_reserved_blocks e) <= next_free_block next l).
Proof.
  revert next; induction l as [|e l IH]; intros next; simpl; [split; [lia|set_solver]|].
  destruct (truth (name0 e)) eqn:E; simpl.
  - set (n' := if _ >? next then _ else next).
    assert (next <= n' /\ u64 (de_start_block e + de_reserved_blocks e) <= n') as [Ha Hb]
      by (unfold n'; rewrite Z.gtb_ltb; destruct (Z.ltb_spec next
           (u64 (de_start_block e + de_reserved_blocks e))); lia).
    destruct (IH n') as [H1 H2]. split; [lia|].
    intros x [->|Hx]%elem_of_cons Hn; [lia|]. by apply H2.
  - destruct (IH next) as [H1 H2]. split; [done|].
    intros x [->|Hx]%elem_of_cons Hn; [congruence|]. by apply H2.
Qed.

Lemma next_free_block_le next l b :
  next <= b ->
  (forall e, e ∈ l -> truth (name0 e) = true ->
     u64 (de_start_block e + de_reserved_blocks e) <= b) ->
  next_free_block next l <= b.
Proof.
  revert next; induction l as [|e l IH]; intros next Hn H; simpl; [done|].
  destruct (truth (name0 e)) eqn:E; simpl.
  - apply IH; [|set_solver]. specialize (H e ltac:(set_solver) E).
    rewrite Z.gtb_ltb. destruct (Z.ltb_spec next (u64 (de_start_block e + de_reserved_blocks e))); lia.
  - apply IH; [done|set_solver].
Qed.
End Inv.

(** ** Directory updates *)

Lemma file_ok_insert_ne d i x f :
  file_ok d f -> (f_used f = true -> Z.to_nat (f_dir_index f) <> i) -> file_ok (<[i := x]> d) f.
Proof.
  intros H Hne Hu. destruct (H Hu) as [e He]. exists e. destruct He. split; try done.
  rewrite list_lookup_insert_ne; [done|]. symmetry. by apply Hne.
Qed.

Lemma dir_ok_wf d i e : dir_ok d -> d !! i = Some e -> wf_dirent e.
Proof. intros H He. by eapply (proj1 (Forall_lookup _ _) (do_wf _ H)). Qed.

(** Inserting at [i] an entry that fits in with all the others. *)
Lemma dir_ok_insert d i e' :
  dir_ok d -> (i < length d)%nat -> wf_dirent e' -> (used_entry e' -> entry_ok e') ->
  (forall j b, j <> i -> d !! j = Some b -> used_entry e' -> used_entry b ->
     fname e' <> fname b /\ extents_disjoint e' b) ->
  dir_ok (<[i := e']> d).
Proof.
  intros [H1 H2 H3 H4 H5] Hi Hw He Hd.
  assert (forall j x, <[i := e']> d !! j = Some x -> j = i /\ x = e' \/ j <> i /\ d !! j = Some x)
    as Hlk.
  { intros j x. destruct (decide (j = i)) as [->|Hne].
    - rewrite list_lookup_insert_eq by done. intros [= <-]. by left.
    - rewrite list_lookup_insert_ne by done. by right. }
  split.
  - by rewrite length_insert.
  - by apply Forall_insert.
  - intros j e [[-> ->]|[_ Hj]]%Hlk; [done|by eapply H3].
  - intros j k a b [[-> ->]|[Hj Ha]]%Hlk [[-> ->]|[Hk Hb]]%Hlk Hu Hn; [done| | |by eapply H4].
    + destruct (Hd k b Hk Hb Hu) as [Hx _]; [unfold used_entry in *; congruence|done].
    + destruct (Hd j a Hj Ha) as [Hx _]; unfold used_entry in *; congruence.
  - intros j k a b [[-> ->]|[Hj Ha]]%Hlk [[-> ->]|[Hk Hb]]%Hlk Hua Hub Hjk;
      [done| | |by eapply H5].
    + by apply (Hd k b).
    + destruct (Hd j a Hj Ha Hub Hua) as [_ Hx]. unfold extents_disjoint in *. lia.
Qed.

Lemma set_size_fname n e : fname (set_size n e) = fname e.
Proof. done. Qed.

Lemma dir_ok_set_size d i e n :
  dir_ok d -> d !! i = Some e -> used_entry e ->
  0 <= n <= de_reserved_blocks e * BMFS_BLOCK_BYTES -> dir_ok (<[i := set_size n e]> d).
Proof.
  intros H Hi Hu Hn. pose proof (dir_ok_wf _ _ _ H Hi) as Hw.
  pose proof (do_entry _ H _ _ Hi Hu) as [E1 E2 E3].
  apply dir_ok_insert; try done.
  - by eapply lookup_lt_Some.
  - destruct Hw. split; try done. simpl.
    unfold u64_ok, BLOCK_LIMIT, BMFS_BLOCK_BYTES, BMFS_BLOCK_SECTORS, BMFS_SECTOR_BYTES in *. nia.
  - intros _. split; try done. simpl. lia.
  - intros j b Hj Hb _ Hub. split.
    + rewrite set_size_fname. intros Hf. destruct Hj. symmetry. by eapply (do_names _ H i j).
    + apply (do_extents _ H i j e b); done.
Qed.

Lemma file_ok_set_size d i e n f :
  d !! i = Some e -> file_ok d f -> file_ok (<[i := set_size n e]> d) f.
Proof.
  intros Hi Hf Hu. destruct (Hf Hu) as [e' [H1 H2 H3 H4 H5 H6 H7]].
  destruct (decide (Z.to_nat (f_dir_index f) = i)) as [E|E].
  - exists (set_size n e). rewrite E in H1. simplify_eq. split; try done.
    apply list_lookup_insert_eq. by eapply lookup_lt_Some.
  - exists e'. split; try done. by rewrite list_lookup_insert_ne.
Qed.

(** The entry [bmfs_create] writes. *)
Definition named_entry (nm : list Z) (start : Z) : bmfs_dirent :=
  mkDirent (memcpy_at 0 nm (replicate 32 0)) start BMFS_DEFAULT_BLOCKS 0 0.
Definition new_entry (m : reader) (name start : Z) : bmfs_dirent := named_entry (cname m name) start.

Lemma length_cname m name : (forall i, is_byte (m i)) -> Z.of_nat (length (cname m name)) <= 32.
Proof.
  intros Hm. unfold cname. rewrite length_slice.
  destruct (strnlen_spec m Hm name NAME_BYTES ltac:(done)) as (?&_&_). unfold NAME_BYTES in *. lia.
Qed.

Lemma new_entry_wf m name start :
  (forall i, is_byte (m i)) -> u64_ok start -> wf_dirent (new_entry m name start).
Proof.
  intros Hm Hs. split; unfold new_entry, named_entry; cbn [de_name de_start_block de_reserved_blocks de_size de_unused]; try done.
  - by rewrite length_memcpy_at.
  - apply bytes_memcpy_at; [by apply bytes_slice|by apply Forall_replicate].
Qed.

Lemma new_entry_fname m name start :
  (forall i, is_byte (m i)) -> strnlen m name NAME_BYTES < NAME_BYTES ->
  fname (new_entry m name start) = cname m name.
Proof.
  intros Hm Hlt. pose proof (length_cname m name Hm) as Hc.
  destruct (strnlen_spec m Hm name NAME_BYTES ltac:(done)) as (H1 & H2 & H3).
  assert (forall i, 0 <= i < 32 -> list_reader (de_name (new_entry m name start)) i =
    if i <? strnlen m name NAME_BYTES then m (name + i) else 0) as Hrd.
  { intros i Hi. unfold new_entry, named_entry. cbn [de_name]. rewrite list_reader_memcpy_at by (rewrite ?length_replicate; lia).
    unfold cname at 1. rewrite length_slice, Z2Nat.id by lia.
    destruct (Z.leb_spec 0 i), (Z.ltb_spec i (0 + strnlen m name NAME_BYTES)),
      (Z.ltb_spec i (strnlen m name NAME_BYTES)); cbn [andb]; try lia.
    - unfold cname. rewrite list_reader_slice by lia. f_equal. lia.
    - unfold list_reader. destruct (Z.ltb_spec i 0); [done|].
      rewrite lookup_replicate_2 by lia. done. }
  unfold fname, cname.
  assert (strnlen (list_reader (de_name (new_entry m name start))) 0 NAME_BYTES =
    strnlen m name NAME_BYTES) as ->.
  { apply strnlen_unique; [|done| |].
    - intros i. apply list_reader_byte, bytes_memcpy_at; [by apply bytes_slice|by apply Forall_replicate].
    - intros i Hi. unfold NAME_BYTES in *. rewrite Z.add_0_l, Hrd by lia.
      destruct (Z.ltb_spec i (strnlen m name 32)); [apply H2; lia|lia].
    - intros _. unfold NAME_BYTES in *. rewrite Z.add_0_l, Hrd by lia.
      by rewrite Z.ltb_irrefl. }
  apply slice_ext. intros i Hi. unfold NAME_BYTES in *. rewrite Z.add_0_l, Hrd by lia.
  destruct (Z.ltb_spec i (strnlen m name 32)); [done|lia].
Qed.

(** ** Operations *)

Inductive bmfs_op : Type :=
  | OpOpen (m : reader) (path flags mode : Z)
  | OpRead (fd len : Z)
  | OpWrite (fd : Z) (src : reader) (len : Z)
  | OpClose (fd : Z)
  | OpLseek (fd offset whence : Z)
  | OpFstat (fd : Z)
  | OpFstatat (m : reader) (path : Z)
  | OpUnlink (m : reader) (path : Z).

Section Ops.
Context {D : Type} `{!NVS D} `{!NVSLaws D}.
Implicit Types st : bmfs D.

(** What an operation returns, leaving out the data it copies to its caller. *)
Definition bmfs_exec (op : bmfs_op) st : res (Z * bmfs D) :=
  match op with
  | OpOpen m path flags mode => bmfs_open st m path flags mode
  | OpRead fd len => let* (n, _, st') := bmfs_read st fd len in Ret (n, st')
  | OpWrite fd src len => bmfs_write st fd src len
  | OpClose fd => bmfs_close st fd
  | OpLseek fd offset whence => bmfs_lseek st fd offset whence
  | OpFstat fd => let* (n, _) := bmfs_fstat_fd st fd in Ret (n, st)
  | OpFstatat m path => let* (n, _, st') := bmfs_fstatat st m path in Ret (n, st')
  | OpUnlink m path => bmfs_unlink st m path
  end.

(** The slot an fd names, as [bmfs_is_fd] checks it. *)
Definition fd_slot (fd : Z) : nat := Z.to_nat (fd - BMFS_FD_BASE).

(** No open file refers to the directory entry [di]. *)
Definition not_open st (di : Z) : Prop :=
  Forall (fun f => f_used f = true -> f_dir_index f <> di) (files st).

(** When an operation is used as posix_shim.c and a correct program use it:
    descriptors are open, lengths and offsets do not overflow a [long], the
    drive has fewer than [BLOCK_LIMIT] blocks, and a file is not unlinked
    while it is open. *)
Definition op_ok (op : bmfs_op) st : Prop :=
  match op with
  | OpOpen m _ _ _ =>
      (forall i, is_byte (m i)) /\
      next_free_block BMFS_FIRST_DATA_BLOCK (disk_dir (disk st)) < BLOCK_LIMIT
  | OpRead fd len => bmfs_is_fd st fd = true /\ 0 <= len < 9223372036854775808
  | OpWrite fd src len =>
      bmfs_is_fd st fd = true /\ 0 <= len < 9223372036854775808 /\ (forall i, is_byte (src i))
  | OpClose fd | OpFstat fd => bmfs_is_fd st fd = true
  | OpLseek fd offset _ =>
      bmfs_is_fd st fd = true /\ -9223372036854775808 <= offset /\
      forall f, files st !! fd_slot fd = Some f ->
        offset < 9223372036854775808 - f_pos f /\ offset < 9223372036854775808 - f_size f
  | OpFstatat m _ => forall i, is_byte (m i)
  | OpUnlink m path =>
      (forall i, is_byte (m i)) /\
      not_open st (dir_find (dir_load st) m (bmfs_name m path))
  end.

Lemma is_fd_slot st fd :
  bmfs_is_fd st fd = true ->
  exists f, arr_get (files st) (fd - BMFS_FD_BASE) = Ret f /\
    files st !! fd_slot fd = Some f /\ f_used f = true.
Proof.
  unfold bmfs_is_fd, BMFS_FD_BASE, fd_slot. intros H. zbool.
  destruct (files st !! Z.to_nat (fd - 3)) as [f|] eqn:E; [|done].
  exists f. split; [|done]. apply arr_get_Ret. split; [lia|done].
Qed.

Lemma open_loaded st f i : fs_inv st -> files st !! i = Some f -> f_used f = true ->
  dir_loaded st = true.
Proof.
  intros H Hf Hu. destruct (dir_loaded st) eqn:E; [done|].
  pose proof (proj1 (Forall_lookup _ _) (fi_idle _ H E) i f Hf). simpl in *. congruence.
Qed.

Lemma open_bound st f i : fs_inv st -> files st !! i = Some f -> f_used f = true ->
  exists e, bound (disk_dir (disk st)) f e /\ entry_ok e.
Proof.
  intros H Hf Hu.
  destruct (proj1 (Forall_lookup _ _) (fi_files _ H) i f Hf Hu) as [e He].
  exists e. split; [done|]. eapply do_entry; [apply H|apply He|apply He].
Qed.
End Ops.
