(* ===== verification/BmfsOps.v ===== *)
(** * BMFS operations: functional behaviour, safety and the invariant

    What each operation of bmfs.c returns and does to the drive, that every
    operation used within [op_ok] returns (no undefined behaviour, no
    non-termination) and keeps [fs_inv], and the end-to-end consequences:
    read-back, append, isolation between files, persistence across a restart. *)
From S2P Require Import Prelude CString Kernel Bmfs BmfsIo BmfsDir BmfsInv.

Ltac bmfs_consts :=
  unfold BLOCK_LIMIT, BMFS_BLOCK_BYTES, BMFS_BLOCK_SECTORS, BMFS_SECTOR_BYTES, u64_ok in *.

Section Ops.
Context {D : Type} `{!NVS D} `{!NVSLaws D}.
Implicit Types st : bmfs D.

Definition file_base (f : bmfs_file) : Z := f_start_block f * BMFS_BLOCK_BYTES.
Definition file_cap (f : bmfs_file) : Z := f_reserved_blocks f * BMFS_BLOCK_BYTES.

(** The facts about an open file the operations use. *)
Record fd_facts st (f : bmfs_file) : Prop := {
  ff_base : 2097152 <= file_base f;
  ff_cap0 : 0 <= file_cap f;
  ff_end : file_base f + file_cap f <= 9223372036854775808;
  ff_size : 0 <= f_size f <= file_cap f;
  ff_pos : 0 <= f_pos f < 9223372036854775808;
  ff_scratch : length (scratch st) = 4096%nat;
  ff_bytes : bytes (scratch st);
  ff_loaded : dir_loaded st = true;
}.

Lemma fd_facts_of st i f :
  fs_inv st -> files st !! i = Some f -> f_used f = true -> fd_facts st f.
Proof.
  intros H Hf Hu. destruct (open_bound st f i H Hf Hu) as (e & [B1 B2 B3 B4 B5 B6 B7] & [E1 E2 E3]).
  pose proof (dir_ok_wf _ _ _ (fi_dir _ H) B1) as [_ _ W1 W2 _ _].
  split; unfold file_base, file_cap; rewrite ?B4, ?B5; bmfs_consts; try lia.
  - apply H.
  - apply H.
  - by eapply open_loaded.
Qed.

(** ** read *)
Definition read_count (f : bmfs_file) (len : Z) : Z :=
  if f_pos f >=? f_size f then 0 else Z.min len (f_size f - f_pos f).

Lemma bmfs_pread_spec st f len :
  fd_facts st f -> 0 <= len < 9223372036854775808 ->
  exists sc, bmfs_pread st f len (f_pos f) =
    Ret (read_count f len,
         slice (disk_byte (disk st)) (file_base f + f_pos f) (read_count f len),
         set_io sc (disk st) st) /\ length sc = 4096%nat /\ bytes sc.
Proof.
  intros [F1 F0 F2 F3 F4 F5 F6 F7] Hlen. unfold bmfs_pread, read_count.
  rewrite Z.geb_leb, Z.gtb_ltb. destruct (Z.leb_spec (f_size f) (f_pos f)).
  { exists (scratch st). rewrite slice_nil by lia. by destruct st. }
  assert ((if f_size f <? u64 (f_pos f + len) then u64 (f_size f - f_pos f) else len) =
    Z.min len (f_size f - f_pos f)) as ->.
  { rewrite !u64_small by lia. destruct (Z.ltb_spec (f_size f) (f_pos f + len)); lia. }
  fold (file_base f). rewrite (u64_small (file_base f + f_pos f)) by lia.
  set (n := Z.min len (f_size f - f_pos f)).
  destruct (pread_loop_spec (io_fuel n) (disk st) (file_base f + f_pos f) n [] (scratch st))
    as (sc & -> & Hs); [apply io_ok_start; lia|done|done|].
  exists sc. rewrite i64_small by lia. done.
Qed.

Lemma bmfs_read_spec st fd f len :
  fs_inv st -> bmfs_is_fd st fd = true -> files st !! fd_slot fd = Some f ->
  0 <= len < 9223372036854775808 ->
  exists sc, bmfs_read st fd len =
    Ret (read_count f len,
         slice (disk_byte (disk st)) (file_base f + f_pos f) (read_count f len),
         set_file (fd - BMFS_FD_BASE) (set_pos (f_pos f + read_count f len) f)
           (set_io sc (disk st) st)) /\ length sc = 4096%nat /\ bytes sc.
Proof.
  intros Hi Hfd Hf Hlen. destruct (is_fd_slot st fd Hfd) as (f' & Ha & Hf' & Hu).
  rewrite Hf in Hf'. injection Hf' as <-.
  pose proof (fd_facts_of st _ f Hi Hf Hu) as FF.
  destruct (bmfs_pread_spec st f len FF Hlen) as (sc & E & Hs). destruct FF.
  exists sc. split; [|done]. unfold bmfs_read. rewrite Ha. simpl. rewrite E. simpl.
  rewrite Z.gtb_ltb. unfold read_count in *. rewrite Z.geb_leb.
  destruct (Z.leb_spec (f_size f) (f_pos f)).
  - simpl. rewrite Z.add_0_r. do 2 f_equal. destruct f. unfold set_pos. simpl in *.
    unfold set_file, set_files. simpl. unfold fd_slot in Hf. by rewrite list_insert_id.
  - destruct (Z.ltb_spec 0 (Z.min len (f_size f - f_pos f))) as [Hp|Hp].
    + by rewrite u64_small by lia.
    + assert (Z.min len (f_size f - f_pos f) = 0) as -> by lia. rewrite Z.add_0_r.
      do 2 f_equal. destruct f. unfold set_pos, set_file, set_files. simpl in *.
      unfold fd_slot in Hf. by rewrite list_insert_id.
Qed.

(** ** write *)
Definition write_pos (f : bmfs_file) : Z := if f_append f then f_size f else f_pos f.
Definition write_count (f : bmfs_file) (len : Z) : Z :=
  if (write_pos f >=? file_cap f) || (len =? 0) then - ENOSPC
  else Z.min len (file_cap f - write_pos f).

(** The open file after [n] bytes were written. *)
Definition written (f : bmfs_file) (n : Z) : bmfs_file :=
  if n >? 0 then
    let e := write_pos f + n in
    let grow := e >? f_size f in
    mkFile (f_used f) (grow || f_dirty f) (f_append f) (f_dir_index f) (f_start_block f)
      (f_reserved_blocks f) (if grow then e else f_size f) e
  else set_pos (write_pos f) f.

Lemma bmfs_pwrite_spec st f src len off :
  fd_facts st f -> 0 <= len < 9223372036854775808 -> (forall i, is_byte (src i)) ->
  0 <= off < 9223372036854775808 ->
  if (off >=? file_cap f) || (len =? 0)
  then bmfs_pwrite st f src len off = Ret (- ENOSPC, f, st)
  else
    let n := Z.min len (file_cap f - off) in
    exists sc d,
      bmfs_pwrite st f src len off =
        Ret (n, if off + n >? f_size f
                then mkFile (f_used f) true (f_append f) (f_dir_index f) (f_start_block f)
                       (f_reserved_blocks f) (off + n) (f_pos f)
                else f, set_io sc d st) /\
      length sc = 4096%nat /\ bytes sc /\
      forall a, disk_byte d a = patched (disk_byte (disk st)) (file_base f + off) n src a.
Proof.
  intros [F1 F0 F2 F3 F4 F5 F6 F7] Hlen Hsrc Hoff. unfold bmfs_pwrite.
  assert (u64 (f_reserved_blocks f * BMFS_BLOCK_BYTES) = file_cap f) as ->
    by (apply u64_small; unfold file_cap in *; lia).
  rewrite Z.geb_leb. destruct (Z.leb_spec (file_cap f) off); simpl; [done|].
  assert ((if u64 (off + len) >? file_cap f then u64 (file_cap f - off) else len) =
    Z.min len (file_cap f - off)) as ->.
  { rewrite Z.gtb_ltb, !u64_small by lia.
    destruct (Z.ltb_spec (file_cap f) (off + len)); lia. }
  destruct (Z.eqb_spec len 0) as [->|Hl0].
  { by rewrite Z.min_l by lia. }
  set (n := Z.min len (file_cap f - off)).
  assert (0 < n <= file_cap f - off) as Hn by lia.
  destruct (Z.eqb_spec n 0); [lia|].
  fold (file_base f). rewrite (u64_small (file_base f + off)) by lia.
  destruct (pwrite_loop_spec (io_fuel n) src 0 (disk st) (file_base f + off) n (scratch st))
    as (sc & d & -> & Hs1 & Hs2 & Hd); [done|apply io_ok_start; lia|done|done|].
  exists sc, d. rewrite i64_small, !(u64_small (off + n)) by lia.
  repeat split; done.
Qed.

Lemma bmfs_write_spec st fd f src len :
  fs_inv st -> bmfs_is_fd st fd = true -> files st !! fd_slot fd = Some f ->
  0 <= len < 9223372036854775808 -> (forall i, is_byte (src i)) ->
  exists sc d,
    bmfs_write st fd src len =
      Ret (write_count f len,
           set_file (fd - BMFS_FD_BASE) (written f (write_count f len)) (set_io sc d st)) /\
    length sc = 4096%nat /\ bytes sc /\
    forall a, disk_byte d a = patched (disk_byte (disk st)) (file_base f + write_pos f)
                                (Z.max 0 (write_count f len)) src a.
Proof.
  intros Hi Hfd Hf Hlen Hsrc. destruct (is_fd_slot st fd Hfd) as (f' & Ha & Hf' & Hu).
  rewrite Hf in Hf'. injection Hf' as <-.
  pose proof (fd_facts_of st _ f Hi Hf Hu) as FF. unfold bmfs_write. rewrite Ha. simpl.
  assert (exists g, (if f_append f then set_pos (f_size f) f else f) = g /\
    g = set_pos (write_pos f) f /\ fd_facts st g) as (g & -> & Hg & FG).
  { eexists. split; [done|]. unfold write_pos. destruct (f_append f) eqn:E.
    - split; [done|]. destruct FF. split; try done. simpl. lia.
    - split; [by destruct f|done]. }
  assert (f_pos g = write_pos f) as Ep by by subst.
  assert (file_cap g = file_cap f /\ file_base g = file_base f /\ f_size g = f_size f)
    as (Ec & Eb & Es) by by subst.
  rewrite Ep. destruct FG as [G1 G0 G2 G3 G4 G5 G6 G7].
  assert (0 <= write_pos f < 9223372036854775808) as Hwp by lia.
  pose proof (bmfs_pwrite_spec st g src len (write_pos f)
    ltac:(by split) Hlen Hsrc Hwp) as Hpw.
  rewrite Ec, Eb in Hpw. unfold write_count, written.
  destruct ((write_pos f >=? file_cap f) || (len =? 0)) eqn:Eg.
  - exists (scratch st), (disk st). rewrite Hpw. simpl. subst g.
    split; [by destruct st|]. split; [done|]. split; [done|]. intros a.
    rewrite Z.max_l by done. unfold patched.
    destruct (Z.leb_spec (file_base f + write_pos f) a),
      (Z.ltb_spec a (file_base f + write_pos f + 0)); simpl; try lia; done.
  - simpl in Hpw. destruct Hpw as (sc & d & -> & Hs1 & Hs2 & Hd). exists sc, d.
    apply orb_false_iff in Eg as [Eg1 Eg2]. rewrite Z.geb_leb in Eg1. zbool.
    set (n := Z.min len (file_cap f - write_pos f)) in *.
    assert (0 < n) as Hn by lia. simpl. rewrite !Z.gtb_ltb.
    destruct (Z.ltb_spec 0 n); [|lia]. rewrite Z.max_r by lia.
    split; [|done]. rewrite Es. subst g.
    destruct (Z.ltb_spec (f_size f) (write_pos f + n)); simpl;
      rewrite u64_small by (simpl in *; lia); done.
Qed.

(** ** Every operation keeps the invariant *)
Definition safe_step (op : bmfs_op) st : Prop :=
  exists r st', bmfs_exec op st = Ret (r, st') /\ fs_inv st'.

Lemma file_ok_repos d f p :
  file_ok d f -> 0 <= p < 9223372036854775808 -> file_ok d (set_pos p f).
Proof.
  intros H Hp Hu. destruct (H Hu) as [e He]. exists e. destruct He. by split.
Qed.

Lemma open_file_ok st i f : fs_inv st -> files st !! i = Some f ->
  file_ok (disk_dir (disk st)) f.
Proof. intros H Hf. by apply (proj1 (Forall_lookup _ _) (fi_files _ H) i). Qed.

Lemma read_safe fd len st : fs_inv st -> op_ok (OpRead fd len) st -> safe_step (OpRead fd len) st.
Proof.
  intros H [Hfd Hlen]. destruct (is_fd_slot st fd Hfd) as (f & _ & Hf & Hu).
  destruct (bmfs_read_spec st fd f len H Hfd Hf Hlen) as (sc & E & Hs1 & Hs2).
  eexists _, _. split; [simpl; by rewrite E|].
  pose proof (fd_facts_of st _ f H Hf Hu) as [].
  apply set_file_inv; [by apply set_io_inv|done|].
  apply file_ok_repos; [exact (open_file_ok st _ f H Hf)|].
  unfold read_count. rewrite Z.geb_leb. destruct (Z.leb_spec (f_size f) (f_pos f)); lia.
Qed.

(** Data is written outside the superblock and the directory. *)
Lemma data_write_keeps_dir st f d n off src :
  fd_facts st f -> 0 <= off -> 0 <= n ->
  (forall a, disk_byte d a = patched (disk_byte (disk st)) (file_base f + off) n src a) ->
  nvs_read d BMFS_DIR_SECTOR = nvs_read (disk st) BMFS_DIR_SECTOR.
Proof.
  intros [F1 _ _ _ _ _ _ _] Ho Hn Hd. apply nvs_read_ext. intros a Ha. rewrite Hd.
  unfold BMFS_DIR_SECTOR, BMFS_SECTOR_BYTES in Ha. unfold patched.
  destruct (Z.leb_spec (file_base f + off) a); [|done]. exfalso. zdiv.
Qed.

Lemma write_count_bounds st f len :
  fd_facts st f -> 0 <= len ->
  (write_count f len = - ENOSPC \/
   0 < write_count f len <= len /\ write_pos f + write_count f len <= file_cap f) /\
  0 <= write_pos f < 9223372036854775808.
Proof.
  intros [F1 F0 F2 F3 F4 F5 F6 F7] Hl. unfold write_count.
  assert (0 <= write_pos f < 9223372036854775808) as Hw
    by (unfold write_pos; destruct (f_append f); lia).
  split; [|done]. destruct ((write_pos f >=? file_cap f) || (len =? 0)) eqn:E; [by left|right].
  apply orb_false_iff in E as [E1 E2]. rewrite Z.geb_leb in E1. zbool. lia.
Qed.

Lemma written_ok st d f len :
  fd_facts st f -> 0 <= len -> file_ok d f -> file_ok d (written f (write_count f len)).
Proof.
  intros FF Hl Hf. destruct (write_count_bounds st f len FF Hl) as [Hc Hw].
  unfold written. rewrite !Z.gtb_ltb.
  destruct (Z.ltb_spec 0 (write_count f len)); [|by apply file_ok_repos].
  intros Hu. destruct (Hf Hu) as [e [B1 B2 B3 B4 B5 B6 B7]]. exists e.
  destruct FF as [F1 F0 F2 F3 F4 F5 F6 F7].
  assert (de_reserved_blocks e * BMFS_BLOCK_BYTES = file_cap f) as Ec
    by (unfold file_cap; by rewrite B5).
  unfold ENOSPC in *. split; simpl; rewrite ?Ec; try done; try lia.
  destruct (Z.ltb_spec (f_size f) (write_pos f + write_count f len)); lia.
Qed.

Lemma write_safe fd src len st :
  fs_inv st -> op_ok (OpWrite fd src len) st -> safe_step (OpWrite fd src len) st.
Proof.
  intros H (Hfd & Hlen & Hsrc). destruct (is_fd_slot st fd Hfd) as (f & _ & Hf & Hu).
  destruct (bmfs_write_spec st fd f src len H Hfd Hf Hlen Hsrc) as (sc & d & E & Hs1 & Hs2 & Hd).
  pose proof (fd_facts_of st _ f H Hf Hu) as FF.
  eexists _, _. split; [exact E|].
  assert (nvs_read d BMFS_DIR_SECTOR = nvs_read (disk st) BMFS_DIR_SECTOR) as Hdir.
  { eapply data_write_keeps_dir; [exact FF| | |exact Hd]; [|lia].
    apply (write_count_bounds st f len); [done|lia]. }
  apply set_file_inv; [by apply set_io_inv|apply FF|]. simpl.
  unfold disk_dir. rewrite Hdir.
  apply (written_ok st); [done|lia|]. exact (open_file_ok st _ f H Hf).
Qed.

Lemma file_ok_unused d f : f_used f = false -> file_ok d f.
Proof. intros E Hu. congruence. Qed.

Definition closed_dir (d : list bmfs_dirent) (f : bmfs_file) (e : bmfs_dirent)
  : list bmfs_dirent :=
  if f_dirty f then <[Z.to_nat (f_dir_index f) := set_size (f_size f) e]> d else d.

(** [close] writes the size back to the directory on disk if the file grew. *)
Lemma bmfs_close_spec fd st f :
  fs_inv st -> bmfs_is_fd st fd = true -> files st !! fd_slot fd = Some f ->
  exists st' e, bmfs_close st fd = Ret (0, st') /\ fs_inv st' /\
    bound (disk_dir (disk st)) f e /\
    disk_dir (disk st') = closed_dir (disk_dir (disk st)) f e /\
    bmfs_is_fd st' fd = false /\
    (forall s, s <> BMFS_DIR_SECTOR -> nvs_read (disk st') s = nvs_read (disk st) s).
Proof.
  intros H Hfd Hf. destruct (is_fd_slot st fd Hfd) as (f' & Ha & Hf' & Hu).
  rewrite Hf in Hf'. injection Hf' as <-.
  pose proof (open_loaded st f _ H Hf Hu) as Hld.
  destruct (open_bound st f _ H Hf Hu) as (e & Hb & _).
  assert (forall g st1, files st1 = files st -> f_used g = false ->
    bmfs_is_fd (set_file (fd - BMFS_FD_BASE) g st1) fd = false) as Hclosed.
  { intros g st1 Hst1 Hg. unfold bmfs_is_fd. simpl. rewrite Hst1.
    unfold fd_slot in Hf. rewrite list_lookup_insert_eq by by eapply lookup_lt_Some.
    by rewrite Hg, andb_false_r. }
  unfold bmfs_close. rewrite Ha. simpl. unfold closed_dir.
  destruct (f_dirty f).
  - pose proof Hb as [B1 B2 B3 B4 B5 B6 B7].
    assert (arr_get (dir st) (f_dir_index f) = Ret e) as ->.
    { apply arr_get_Ret. by rewrite (fi_sync _ H). }
    simpl. unfold set_dirent. rewrite (fi_sync _ H Hld).
    set (d' := <[Z.to_nat (f_dir_index f) := set_size (f_size f) e]> (disk_dir (disk st))).
    assert (dir_ok d') as Hd' by (by apply dir_ok_set_size; [apply H| | |]).
    assert (fs_inv (dir_flush (set_dir d' st))) as H'.
    { apply flush_inv; [done|done|done|].
      eapply Forall_impl; [apply H|]. intros g. by apply file_ok_set_size. }
    eexists _, e. split; [done|].
    split; [apply set_file_inv; [done|done|by apply file_ok_unused]|].
    split; [done|]. split; [by apply disk_dir_flush|]. split; [by apply Hclosed|].
    intros s Hs. simpl. by rewrite nvs_read_write_ne.
  - eexists _, e. split; [done|].
    split; [apply set_file_inv; [done|done|by apply file_ok_unused]|].
    split; [done|]. split; [done|]. split; [by apply Hclosed|done].
Qed.

Lemma close_safe fd st : fs_inv st -> op_ok (OpClose fd) st -> safe_step (OpClose fd) st.
Proof.
  intros H Hfd. destruct (is_fd_slot st fd Hfd) as (f & _ & Hf & _).
  destruct (bmfs_close_spec fd st f H Hfd Hf) as (st' & e & E & H' & _). by exists 0, st'.
Qed.

Lemma lseek_safe fd offset whence st :
  fs_inv st -> op_ok (OpLseek fd offset whence) st -> safe_step (OpLseek fd offset whence) st.
Proof.
  intros H (Hfd & Hlo & Hov). destruct (is_fd_slot st fd Hfd) as (f & Ha & Hf & Hu).
  specialize (Hov f Hf). pose proof (fd_facts_of st _ f H Hf Hu) as FF.
  unfold safe_step. simpl. unfold bmfs_lseek. rewrite Ha. simpl. clear Ha.
  assert (forall base, 0 <= base < 9223372036854775808 -> offset < 9223372036854775808 - base ->
    exists r st', (if base + offset =? i64 (base + offset)
      then if base + offset <? 0 then Ret (- EINVAL, st)
           else Ret (base + offset, set_file (fd - BMFS_FD_BASE) (set_pos (base + offset) f) st)
      else Undef) = Ret (r, st') /\ fs_inv st') as Hseek.
  { intros base Hb Ho. rewrite (i64_small (base + offset)), Z.eqb_refl by lia.
    destruct (Z.ltb_spec (base + offset) 0); [by eauto|]. eexists _, _. split; [done|].
    apply set_file_inv; [done|apply FF|]. apply file_ok_repos; [exact (open_file_ok st _ f H Hf)|lia]. }
  destruct FF as [F1 F0 F2 F3 F4 F5 F6 F7].
  destruct (whence =? 0); [apply Hseek; lia|].
  destruct (whence =? 1); [rewrite (i64_small (f_pos f)) by lia; apply Hseek; lia|].
  destruct (whence =? 2); [rewrite (i64_small (f_size f)) by lia; apply Hseek; lia|].
  by eauto.
Qed.

Lemma fstat_safe fd st : fs_inv st -> op_ok (OpFstat fd) st -> safe_step (OpFstat fd) st.
Proof.
  intros H Hfd. destruct (is_fd_slot st fd Hfd) as (f & Ha & _ & _).
  unfold safe_step. simpl. unfold bmfs_fstat_fd. rewrite Ha. simpl. by eauto.
Qed.

Lemma fstatat_safe m path st :
  fs_inv st -> op_ok (OpFstatat m path) st -> safe_step (OpFstatat m path) st.
Proof.
  intros H Hm. unfold safe_step. simpl. unfold bmfs_fstatat, dir_find.
  destruct (find_from_spec (name_matches m (bmfs_name m path)) 0 (dir (dir_load st)))
    as [Hn|k e Hk Hp Hlt].
  - simpl. eexists _, _. split; [done|]. by apply dir_load_inv.
  - rewrite Z.add_0_l. destruct (Z.ltb_spec (Z.of_nat k) 0); [lia|].
    assert (arr_get (dir (dir_load st)) (Z.of_nat k) = Ret e) as ->.
    { apply arr_get_Ret. rewrite Nat2Z.id. split; [lia|done]. }
    simpl. eexists _, _. split; [done|]. by apply dir_load_inv.
Qed.

(** ** open and unlink *)

(** The name check of [bmfs_open]: 1 to 31 characters, no '/'. *)
Lemma name_ok_spec m name :
  (forall i, is_byte (m i)) ->
  name_ok m name = true <->
  cname m name <> [] /\ strnlen m name NAME_BYTES < NAME_BYTES /\ 47 ∉ cname m name.
Proof.
  intros Hm. unfold name_ok. rewrite negb_true_iff, !orb_false_iff, Z.eqb_neq, Z.geb_leb, Z.leb_gt.
  destruct (strnlen_spec m Hm name NAME_BYTES ltac:(done)) as (H1 & H2 & H3).
  assert (strnlen m name NAME_BYTES <> 0 <-> cname m name <> []) as E.
  { unfold cname. split.
    - intros Hn E. apply (f_equal length) in E. rewrite length_slice in E. simpl in E. lia.
    - intros Hn E. apply Hn. rewrite E. done. }
  rewrite E. clear E. destruct (decide (strnlen m name NAME_BYTES < NAME_BYTES)) as [Hlt|]; [|tauto].
  pose proof (strchr_spec m Hm NAME_FUEL name 47 (strnlen m name NAME_BYTES) ltac:(done)
    ltac:(done) ltac:(lia) (H3 Hlt) H2 ltac:(unfold NAME_BYTES, NAME_FUEL in *; lia)) as Hc.
  assert (47 ∈ cname m name <->
    exists q, name <= q < name + strnlen m name NAME_BYTES /\ m q = 47) as Hin.
  { unfold cname, slice. rewrite list_elem_of_fmap. split.
    - intros (i & Hi & Hs). apply elem_of_seqZ in Hs. exists (name + i). split; [lia|done].
    - intros (q & Hq & Hv). exists (q - name). split.
      + rewrite <- Hv. f_equal. lia.
      + apply elem_of_seqZ. lia. }
  destruct (strchr NAME_FUEL m name 47) as [p|].
  - destruct Hc as (Hp & Hv & _). split; [intros [_ [=]]|].
    intros (_ & _ & Hni). destruct Hni. apply Hin. eauto.
  - rewrite Hin. split; [|tauto]. intros [[? ?] _]. repeat split; try done.
    intros (q & Hq & Hv). by apply (Hc q).
Qed.

(** The open-file record [bmfs_open] fills for entry [e]. *)
Definition opened (flags di : Z) (e : bmfs_dirent) : bmfs_file :=
  let app := has_flag flags O_APPEND in
  mkFile true false app di (de_start_block e) (de_reserved_blocks e) (de_size e)
    (if app then de_size e else 0).
Definition truncated (flags : Z) (e : bmfs_dirent) : bmfs_dirent :=
  if has_flag flags O_TRUNC then set_size 0 e else e.

Lemma open_entry_spec flags slot di e st :
  fs_inv st -> dir_loaded st = true -> 0 <= di ->
  disk_dir (disk st) !! Z.to_nat di = Some e -> used_entry e ->
  exists st', bmfs_open_entry flags slot di st = Ret (BMFS_FD_BASE + slot, st') /\ fs_inv st' /\
    dir_loaded st' = true /\
    disk_dir (disk st') = <[Z.to_nat di := truncated flags e]> (disk_dir (disk st)) /\
    files st' = <[Z.to_nat slot := opened flags di (truncated flags e)]> (files st) /\
    (forall s, s <> BMFS_DIR_SECTOR -> nvs_read (disk st') s = nvs_read (disk st) s).
Proof.
  intros H Hld Hdi He Hu. unfold bmfs_open_entry.
  assert (arr_get (dir st) di = Ret e) as ->.
  { apply arr_get_Ret. by rewrite (fi_sync _ H Hld). }
  simpl. pose proof (do_entry _ (fi_dir _ H) _ _ He Hu) as [E1 E2 E3].
  pose proof (dir_ok_wf _ _ _ (fi_dir _ H) He) as W.
  assert (0 <= de_size e /\ 0 <= de_reserved_blocks e) as [Hs Hr] by (destruct W; bmfs_consts; lia).
  assert (forall d' e', d' !! Z.to_nat di = Some e' -> used_entry e' ->
    0 <= de_size e' <= de_reserved_blocks e' * BMFS_BLOCK_BYTES ->
    de_reserved_blocks e' < BLOCK_LIMIT ->
    file_ok d' (opened flags di e')) as Hop.
  { intros d' e' Hd' Hu' Hs' Hr' _. exists e'. split; try done. simpl.
    destruct (has_flag flags O_APPEND); bmfs_consts; lia. }
  unfold truncated. destruct (has_flag flags O_TRUNC) eqn:Et.
  - set (d' := <[Z.to_nat di := set_size 0 e]> (disk_dir (disk st))).
    assert (dir_ok d') as Hd' by (apply dir_ok_set_size; [apply H|done|done|bmfs_consts; nia]).
    assert (set_dirent di (set_size 0 e) st = set_dir d' st) as ->
      by (unfold set_dirent, d'; by rewrite (fi_sync _ H Hld)).
    eexists. split; [done|].
    assert (disk_dir (disk (dir_flush (set_dir d' st))) = d') as Ed by by apply disk_dir_flush.
    assert (fs_inv (dir_flush (set_dir d' st))) as H'.
    { apply flush_inv; [done|done|done|]. eapply Forall_impl; [apply H|].
      intros g. by apply file_ok_set_size. }
    split; [|split; [done|split; [exact Ed|split; [done|]]]].
    + apply set_file_inv; [done|done|]. rewrite Ed. apply (Hop d' (set_size 0 e)); simpl; try done.
      * apply list_lookup_insert_eq. by eapply lookup_lt_Some.
      * bmfs_consts; nia.
      * bmfs_consts; lia.
    + intros s Hne. simpl. by rewrite nvs_read_write_ne.
  - eexists. split; [done|]. split; [|split; [done|split; [|done]]].
    + apply set_file_inv; [done|done|]. apply Hop; try done; bmfs_consts; lia.
    + simpl. by rewrite list_insert_id.
Qed.

Lemma next_free_block_named next d i e0 e1 :
  1 <= next -> d !! i = Some e0 -> name0 e0 = 0 ->
  de_start_block e1 + de_reserved_blocks e1 = 0 ->
  next_free_block next (<[i := e1]> d) = next_free_block next d.
Proof.
  intros Hn. revert i next Hn; induction d as [|e d IH]; intros i next Hn Hi H0 H1; [done|].
  destruct i as [|i]; simplify_eq/=.
  - rewrite H0, H1. simpl. change (u64 0) with 0. rewrite Z.gtb_ltb.
    destruct (Z.ltb_spec next 0); [lia|]. by destruct (truth (name0 e1)).
  - destruct (truth (name0 e)); simpl; apply IH; try done.
    rewrite Z.gtb_ltb. destruct (Z.ltb_spec next (u64 (de_start_block e + de_reserved_blocks e))); lia.
Qed.

(** A new entry gets a block past every extent in use. *)
Lemma next_free_block_fresh d :
  dir_ok d -> 1 <= next_free_block BMFS_FIRST_DATA_BLOCK d /\
  forall i e, d !! i = Some e -> used_entry e ->
    de_start_block e + de_reserved_blocks e <= next_free_block BMFS_FIRST_DATA_BLOCK d.
Proof.
  intros H. destruct (next_free_block_ge BMFS_FIRST_DATA_BLOCK d) as [H1 H2].
  split; [exact H1|]. intros i e He Hu.
  pose proof (do_entry _ H _ _ He Hu) as [E1 E2 E3].
  pose proof (dir_ok_wf _ _ _ H He) as W. specialize (H2 e).
  rewrite u64_small in H2 by (destruct W; bmfs_consts; lia).
  apply H2; [by eapply list_elem_of_lookup_2|].
  unfold truth. apply negb_true_iff, Z.eqb_neq. intros E0. apply Hu. by apply fname_nil_iff.
Qed.

Lemma create_spec m name di e0 st :
  fs_inv st -> dir_loaded st = true -> (forall i, is_byte (m i)) -> name_ok m name = true ->
  next_free_block BMFS_FIRST_DATA_BLOCK (disk_dir (disk st)) < BLOCK_LIMIT ->
  (forall i e, disk_dir (disk st) !! i = Some e -> name_matches m name e = false) ->
  0 <= di -> disk_dir (disk st) !! Z.to_nat di = Some e0 -> name0 e0 = 0 ->
  let e := new_entry m name (next_free_block BMFS_FIRST_DATA_BLOCK (disk_dir (disk st))) in
  fs_inv (bmfs_create m name di st) /\
  disk_dir (disk (bmfs_create m name di st)) = <[Z.to_nat di := e]> (disk_dir (disk st)) /\
  used_entry e /\ fname e = cname m name /\ files (bmfs_create m name di st) = files st /\
  dir_loaded (bmfs_create m name di st) = true /\
  (forall s, s <> BMFS_DIR_SECTOR ->
     nvs_read (disk (bmfs_create m name di st)) s = nvs_read (disk st) s).
Proof.
  intros H Hld Hm Hok Hlim Hnone Hdi He0 Hn0 e.
  apply name_ok_spec in Hok as (Hne & Hlt & _); [|done].
  destruct (next_free_block_fresh _ (fi_dir _ H)) as [Hf1 Hf2].
  set (nb := next_free_block BMFS_FIRST_DATA_BLOCK (disk_dir (disk st))) in *.
  assert (fname e = cname m name) as Hfe by by apply new_entry_fname.
  assert (wf_dirent e0) as W0 by by eapply dir_ok_wf; [apply H|].
  assert (~ used_entry e0) as Hu0 by (intros Hx; apply Hx; by apply fname_nil_iff).
  set (d' := <[Z.to_nat di := e]> (disk_dir (disk st))).
  assert (bmfs_create m name di st = dir_flush (set_dir d' st)) as ->.
  { unfold bmfs_create, set_dirent, set_dir. simpl. do 2 f_equal.
    unfold dir_next_free_block. simpl. rewrite (fi_sync _ H Hld), list_insert_insert_eq.
    rewrite next_free_block_named with (e0 := e0) by done. done. }
  assert (dir_ok d') as Hd'.
  { apply dir_ok_insert; [apply H|by eapply lookup_lt_Some| | |].
    - apply new_entry_wf; [done|]. bmfs_consts. lia.
    - intros _. split; simpl; bmfs_consts; unfold BMFS_DEFAULT_BLOCKS; lia.
    - intros j b Hj Hb _ Hub. split.
      + rewrite Hfe. intros E. specialize (Hnone j b Hb).
        apply not_true_iff_false in Hnone. apply Hnone.
        apply name_matches_iff; [done|by eapply dir_ok_wf; [apply H|]|done].
      + right. simpl. by eapply Hf2. }
  split; [apply flush_inv; try done|].
  { eapply Forall_impl; [apply H|]. intros g Hg. apply file_ok_insert_ne; [done|].
    intros Hgu E. destruct (Hg Hgu) as [e1 He1].
    destruct He1 as [B1 _ B3 _ _ _ _]. rewrite E in B1. rewrite He0 in B1. injection B1 as <-. done. }
  split; [by apply disk_dir_flush|]. split; [unfold used_entry; by rewrite Hfe|].
  split; [done|]. split; [done|]. split; [done|].
  intros s Hs. simpl. by rewrite nvs_read_write_ne.
Qed.

(** [no_entry d nm]: no file of the directory is called [nm]. *)
Definition no_entry (d : list bmfs_dirent) (nm : list Z) : Prop :=
  forall i e, d !! i = Some e -> used_entry e -> fname e <> nm.

(** A name of one to 31 bytes without a slash. *)
Definition good_name (nm : list Z) : Prop := nm <> [] /\ (length nm < 32)%nat /\ 47 ∉ nm.
(** [slot] is the first slot of the open-file table that is not in use. *)
Definition first_slot (fs : list bmfs_file) (slot : nat) : Prop :=
  (exists f, fs !! slot = Some f /\ f_used f = false) /\ forall j g, (j < slot)%nat -> fs !! j = Some g -> f_used g = true.
(** [i] is the first entry of the directory that is not in use. *)
Definition first_entry (d : list bmfs_dirent) (i : nat) : Prop :=
  (exists e, d !! i = Some e /\ ~ used_entry e) /\ forall j e, (j < i)%nat -> d !! j = Some e -> used_entry e.
(** [b] is the first data block that lies past every extent in use. *)
Definition free_block (d : list bmfs_dirent) (b : Z) : Prop :=
  BMFS_FIRST_DATA_BLOCK <= b /\ (forall i e, d !! i = Some e -> used_entry e -> de_start_block e + de_reserved_blocks e <= b) /\
  (b = BMFS_FIRST_DATA_BLOCK \/ exists i e, d !! i = Some e /\ used_entry e /\ de_start_block e + de_reserved_blocks e = b).

(** The contract of [open]: one constructor per outcome, no two of which apply
    to the same call.  [d] is the directory on disk, [fs] the open-file table
    before, [nm] the name. *)
Inductive open_post (d : list bmfs_dirent) (fs : list bmfs_file) (nm : list Z) (flags : Z)
  : Z -> list bmfs_dirent -> list bmfs_file -> Prop :=
  | open_bad_name :
      ~ good_name nm -> open_post d fs nm flags (- ENOENT) d fs
  | open_table_full :
      good_name nm -> Forall (fun f => f_used f = true) fs ->
      open_post d fs nm flags (- EMFILE) d fs
  | open_missing slot :
      good_name nm -> first_slot fs slot -> no_entry d nm -> has_flag flags O_CREAT = false ->
      open_post d fs nm flags (- ENOENT) d fs
  | open_dir_full slot :
      good_name nm -> first_slot fs slot -> no_entry d nm -> has_flag flags O_CREAT = true ->
      Forall used_entry d -> open_post d fs nm flags (- ENOSPC) d fs
  | open_exclusive slot i e :
      good_name nm -> first_slot fs slot -> d !! i = Some e -> fname e = nm ->
      has_flag flags O_CREAT = true -> has_flag flags O_EXCL = true ->
      open_post d fs nm flags (- EEXIST) d fs
  | open_existing slot i e :
      good_name nm -> first_slot fs slot -> d !! i = Some e -> fname e = nm ->
      has_flag flags O_CREAT && has_flag flags O_EXCL = false ->
      open_post d fs nm flags (BMFS_FD_BASE + Z.of_nat slot)
        (<[i := truncated flags e]> d)
        (<[slot := opened flags (Z.of_nat i) (truncated flags e)]> fs)
  | open_create slot i b :
      let e := named_entry nm b in
      good_name nm -> first_slot fs slot -> no_entry d nm -> has_flag flags O_CREAT = true ->
      first_entry d i -> free_block d b ->
      open_post d fs nm flags (BMFS_FD_BASE + Z.of_nat slot) (<[i := e]> d)
        (<[slot := opened flags (Z.of_nat i) e]> fs).

Lemma first_slot_free fs slot : first_slot fs slot -> ~ Forall (fun f => f_used f = true) fs.
Proof. intros [(f & Hf & Hu) _] H. pose proof (Forall_lookup_1 _ _ _ _ H Hf) as E. cbn in E. congruence. Qed.
Lemma first_slot_unique fs a b : first_slot fs a -> first_slot fs b -> a = b.
Proof.
  intros [(f & Hf & Uf) Ha] [(g & Hg & Ug) Hb]. destruct (lt_eq_lt_dec a b) as [[H|H]|H]; [|done|].
  - specialize (Hb a f H Hf). congruence.
  - specialize (Ha b g H Hg). congruence.
Qed.
Lemma first_entry_unique d a b : first_entry d a -> first_entry d b -> a = b.
Proof.
  intros [(f & Hf & Uf) Ha] [(g & Hg & Ug) Hb]. destruct (lt_eq_lt_dec a b) as [[H|H]|H]; [|done|].
  - exfalso. by apply Uf, (Hb a f).
  - exfalso. by apply Ug, (Ha b g).
Qed.
Lemma free_block_unique d a b : free_block d a -> free_block d b -> a = b.
Proof.
  intros (A1 & A2 & A3) (B1 & B2 & B3).
  assert (a <= b) by (destruct A3 as [->|(i & e & Hi & Hu & <-)]; eauto).
  assert (b <= a) by (destruct B3 as [->|(i & e & Hi & Hu & <-)]; eauto). lia.
Qed.
(** The contract determines the outcome: two outcomes of one call are the same. *)
Lemma open_post_det d fs nm flags r1 d1 fs1 r2 d2 fs2 : dir_ok d ->
  open_post d fs nm flags r1 d1 fs1 -> open_post d fs nm flags r2 d2 fs2 -> r1 = r2 /\ d1 = d2 /\ fs1 = fs2.
Proof.
  intros Hd P Q.
  assert (forall i e, d !! i = Some e -> fname e = nm -> good_name nm -> ~ no_entry d nm) as Hsome.
  { intros i e Hi Hf [Hn _] Hno. apply (Hno i e Hi); [|done]. unfold used_entry. congruence. }
  assert (forall i, first_entry d i -> ~ Forall used_entry d) as Hfe.
  { intros i [(e & He & Hu) _] Hall. by apply Hu, (Forall_lookup_1 _ _ _ _ Hall He). }
  assert (forall i j e e', d !! i = Some e -> d !! j = Some e' -> fname e = nm -> fname e' = nm -> good_name nm -> i = j) as Hone.
  { intros i j e e' Hi Hj E E' [Hn _]. apply (do_names _ Hd i j e e'); try done; [unfold used_entry|]; congruence. }
  destruct P; destruct Q; try done; try (exfalso; by eapply first_slot_free); try (exfalso; by eapply Hsome); try (exfalso; by eapply Hfe); try congruence;
    try match goal with H : has_flag flags O_CREAT = true, H' : has_flag flags O_EXCL = true, H'' : (_ && _)%bool = false |- _ => rewrite H, H' in H''; discriminate H'' end;
    repeat match goal with
    | H1 : first_slot fs ?a, H2 : first_slot fs ?b |- _ => rewrite (first_slot_unique fs a b H1 H2) in *; clear H1
    | H1 : first_entry d ?a, H2 : first_entry d ?b |- _ => rewrite (first_entry_unique d a b H1 H2) in *; clear H1
    end; try done.
  match goal with H1 : d !! ?i = Some ?e, H2 : d !! ?j = Some ?e' |- _ => assert (i = j) as -> by (by eapply (Hone i j e e')); naive_solver end.
  subst e e0. by rewrite (free_block_unique d b b0).
Qed.

(** The scan of [dir_next_free_block] finds that block. *)
Lemma next_free_block_max next l :
  next_free_block next l = next \/ exists e, e ∈ l /\ truth (name0 e) = true /\ u64 (de_start_block e + de_reserved_blocks e) = next_free_block next l.
Proof.
  revert next; induction l as [|e l IH]; intros next; simpl; [by left|]. destruct (truth (name0 e)) eqn:E; simpl.
  - set (n' := if _ >? next then _ else next). destruct (IH n') as [En|(x & Hx & Ex & Nx)]; [|right; exists x; split; [by right|done]].
    rewrite En. unfold n'. destruct (_ >? next); [|by left]. right. exists e. split; [by left|done].
  - destruct (IH next) as [En|(x & Hx & Ex & Nx)]; [by left|]. right. exists x. split; [by right|done].
Qed.
Lemma next_free_block_free d : dir_ok d -> free_block d (next_free_block BMFS_FIRST_DATA_BLOCK d).
Proof.
  intros H. split; [apply next_free_block_ge|]. split; [by apply next_free_block_fresh|].
  destruct (next_free_block_max BMFS_FIRST_DATA_BLOCK d) as [E|(e & (i & Hi)%list_elem_of_lookup & Hn & E)]; [by left|]. right.
  pose proof (dir_ok_wf _ _ _ H Hi) as W. assert (used_entry e) as Hu.
  { intros E0. apply fname_nil_iff in E0; [|done]. by rewrite E0 in Hn. }
  pose proof (do_entry _ H _ _ Hi Hu) as [E1 E2 E3]. exists i, e. split; [done|]. split; [done|].
  rewrite u64_small in E by (destruct W; bmfs_consts; lia). done.
Qed.
Lemma name_ok_good m name : (forall i, is_byte (m i)) -> name_ok m name = true <-> good_name (cname m name).
Proof.
  intros Hm. rewrite name_ok_spec by done. unfold good_name, cname. rewrite length_slice. unfold NAME_BYTES.
  destruct (strnlen_spec m Hm name 32 ltac:(done)) as (H1 & _). split; intros (? & ? & ?); split_and!; (done || lia).
Qed.

Lemma no_match_no_entry d m name :
  (forall i, is_byte (m i)) -> Forall wf_dirent d ->
  (forall i e, d !! i = Some e -> name_matches m name e = false) -> no_entry d (cname m name).
Proof.
  intros Hm Hw Hn i e He Hu E. specialize (Hn i e He). apply not_true_iff_false in Hn.
  apply Hn. apply name_matches_iff; [done| |done]. by eapply (proj1 (Forall_lookup _ _) Hw).
Qed.

Lemma truncated_new flags m name start :
  truncated flags (new_entry m name start) = new_entry m name start.
Proof. unfold truncated. by destruct (has_flag flags O_TRUNC). Qed.

Lemma open_loaded_spec st m name flags :
  fs_inv st -> dir_loaded st = true -> (forall i, is_byte (m i)) -> name_ok m name = true ->
  next_free_block BMFS_FIRST_DATA_BLOCK (disk_dir (disk st)) < BLOCK_LIMIT ->
  exists r st', bmfs_open_loaded st m name flags = Ret (r, st') /\ fs_inv st' /\
    open_post (disk_dir (disk st)) (files st) (cname m name) flags r (disk_dir (disk st')) (files st') /\
    (forall s, s <> BMFS_DIR_SECTOR -> nvs_read (disk st') s = nvs_read (disk st) s).
Proof.
  intros HL Hld Hm Hok Hlim. unfold bmfs_open_loaded. pose proof (proj1 (name_ok_good m name Hm) Hok) as Hgood.
  pose proof (fi_sync _ HL Hld) as Hsync.
  pose proof (do_wf _ (fi_dir _ HL)) as Hwf.
  unfold open_slot.
  destruct (find_from_spec (fun f => negb (f_used f)) 0 (files st)) as [Hfull|slot f Hs Hsu Hsl].
  { simpl. eexists _, _. split; [done|]. split; [done|]. split; [|done].
    apply open_table_full; [done|]. apply Forall_lookup. intros i g Hg.
    specialize (Hfull i g Hg). by apply negb_false_iff in Hfull. }
  rewrite Z.add_0_l. destruct (Z.ltb_spec (Z.of_nat slot) 0); [lia|].
  apply negb_true_iff in Hsu.
  assert (forall j g, (j < slot)%nat -> files st !! j = Some g -> f_used g = true) as Hsl'.
  { intros j g Hj Hg. specialize (Hsl j g Hj Hg). by apply negb_false_iff in Hsl. }
  assert (first_slot (files st) slot) as Hslot by (split; [by exists f|done]). clear Hsl Hsl'.
  unfold dir_find. rewrite Hsync.
  destruct (find_from_spec (name_matches m name) 0 (disk_dir (disk st))) as [Hnone|i e He Hme Hlt].
  - simpl. pose proof (no_match_no_entry _ m name Hm Hwf Hnone) as Hno.
    destruct (has_flag flags O_CREAT) eqn:Hcr; simpl.
    2:{ eexists _, _. split; [done|]. split; [done|]. split; [by eapply open_missing|done]. }
    unfold dir_find_free_slot. rewrite Hsync.
    destruct (find_from_spec (fun e => name0 e =? 0) 0 (disk_dir (disk st)))
      as [Hall|i e0 Hi Hn0 Hlt].
    + simpl. eexists _, _. split; [done|]. split; [done|]. split; [|done].
      eapply open_dir_full; try done. apply Forall_lookup. intros i e He.
      specialize (Hall i e He). zbool. intros E. apply Hall. apply fname_nil_iff; [|done].
      by eapply (proj1 (Forall_lookup _ _) Hwf).
    + rewrite Z.add_0_l. destruct (Z.ltb_spec (Z.of_nat i) 0); [lia|]. zbool.
      destruct (create_spec m name (Z.of_nat i) e0 st) as (C1 & C2 & C3 & C4 & C5 & C6 & C7);
        try done; [by rewrite Nat2Z.id|]. rewrite Nat2Z.id in C2.
      destruct (open_entry_spec flags (Z.of_nat slot) (Z.of_nat i)
        (new_entry m name (next_free_block BMFS_FIRST_DATA_BLOCK (disk_dir (disk st))))
        (bmfs_create m name (Z.of_nat i) st)) as (st' & E & O1 & O2 & O3 & O4 & O5);
        [done|done|lia| |done|].
      { rewrite C2, Nat2Z.id. apply list_lookup_insert_eq. by eapply lookup_lt_Some. }
      eexists _, st'. split; [exact E|]. split; [done|]. split.
      2:{ intros s Hs'. by rewrite O5, C7. }
      rewrite O3, O4, C2, C5, !Nat2Z.id, truncated_new, list_insert_insert_eq.
      apply open_create; try done; [|by apply next_free_block_free, HL]. split.
      * exists e0. split; [done|]. apply free_entry_unused; [by eapply (proj1 (Forall_lookup _ _) Hwf)|by apply Z.eqb_eq].
      * intros j e Hj He Hu. specialize (Hlt j e Hj He). zbool. apply Hlt, fname_nil_iff; [by eapply (proj1 (Forall_lookup _ _) Hwf)|done].
  - rewrite Z.add_0_l. destruct (Z.ltb_spec (Z.of_nat i) 0); [lia|].
    apply name_matches_iff in Hme as [Hue Hfe]; [|done|by eapply (proj1 (Forall_lookup _ _) Hwf)].
    destruct (has_flag flags O_CREAT && has_flag flags O_EXCL) eqn:Hex.
    { eexists _, _. split; [done|]. split; [done|]. split; [|done].
      apply andb_true_iff in Hex as [? ?]. by eapply open_exclusive. }
    destruct (open_entry_spec flags (Z.of_nat slot) (Z.of_nat i) e st)
      as (st' & E & O1 & O2 & O3 & O4 & O5); [done|done|lia|by rewrite Nat2Z.id|done|].
    eexists _, st'. split; [exact E|]. split; [done|]. split; [|done].
    rewrite O3, O4, !Nat2Z.id. by eapply open_existing.
Qed.

(** [bmfs_open] always returns, keeps the invariant and meets its contract;
    it writes no sector other than the directory. *)
Lemma bmfs_open_spec st m path flags mode :
  fs_inv st -> (forall i, is_byte (m i)) ->
  next_free_block BMFS_FIRST_DATA_BLOCK (disk_dir (disk st)) < BLOCK_LIMIT ->
  exists r st', bmfs_open st m path flags mode = Ret (r, st') /\ fs_inv st' /\
    open_post (disk_dir (disk st)) (files st) (cname m (bmfs_name m path)) flags
      r (disk_dir (disk st')) (files st') /\
    (forall s, s <> BMFS_DIR_SECTOR -> nvs_read (disk st') s = nvs_read (disk st) s).
Proof.
  intros H Hm Hlim. unfold bmfs_open. destruct (name_ok m (bmfs_name m path)) eqn:Hok; simpl.
  - rewrite <- (dir_load_disk st), <- (dir_load_files st).
    apply open_loaded_spec; [by apply dir_load_inv|apply dir_load_loaded|done|done|].
    by rewrite dir_load_disk.
  - eexists _, _. split; [done|]. split; [done|]. split; [|done]. apply open_bad_name.
    rewrite <- name_ok_good by done. congruence.
Qed.

Lemma open_safe m path flags mode st :
  fs_inv st -> op_ok (OpOpen m path flags mode) st -> safe_step (OpOpen m path flags mode) st.
Proof.
  intros H [Hm Hlim].
  destruct (bmfs_open_spec st m path flags mode H Hm Hlim) as (r & st' & E & H' & _).
  by exists r, st'.
Qed.

Lemma dir_ok_clear d i :
  dir_ok d -> (i < length d)%nat -> dir_ok (<[i := zero_dirent]> d).
Proof.
  intros H Hi. assert (~ used_entry zero_dirent) as Hz.
  { intros Hu. apply Hu. by apply fname_nil_iff; [apply zero_dirent_wf|]. }
  apply dir_ok_insert; try done. apply zero_dirent_wf.
Qed.

(** [bmfs_unlink] on a file that is not open: the entry is gone from the
    directory on disk, everything else stays. *)
Lemma bmfs_unlink_spec st m path :
  fs_inv st -> (forall i, is_byte (m i)) ->
  not_open st (dir_find (dir_load st) m (bmfs_name m path)) ->
  exists r st', bmfs_unlink st m path = Ret (r, st') /\ fs_inv st' /\ files st' = files st /\
    (r = - ENOENT /\ disk st' = disk st /\
       no_entry (disk_dir (disk st)) (cname m (bmfs_name m path)) \/
     r = 0 /\ exists i e, disk_dir (disk st) !! i = Some e /\
       fname e = cname m (bmfs_name m path) /\ used_entry e /\
       disk_dir (disk st') = <[i := zero_dirent]> (disk_dir (disk st))).
Proof.
  intros H Hm Hno. unfold bmfs_unlink. set (name := bmfs_name m path) in *.
  pose proof (dir_load_inv st H) as HL. pose proof (dir_load_loaded st) as Hld.
  pose proof (fi_sync _ HL Hld) as Hsync. rewrite dir_load_disk in Hsync.
  pose proof (do_wf _ (fi_dir _ H)) as Hwf. unfold dir_find in *. rewrite Hsync in *.
  destruct (find_from_spec (name_matches m name) 0 (disk_dir (disk st))) as [Hnone|i e He Hme Hlt].
  - simpl. eexists _, _. split; [done|]. split; [done|]. split; [apply dir_load_files|].
    left. split; [done|]. split; [apply dir_load_disk|]. by apply no_match_no_entry.
  - rewrite Z.add_0_l in *. destruct (Z.ltb_spec (Z.of_nat i) 0); [lia|].
    apply name_matches_iff in Hme as [Hue Hfe]; [|done|by eapply (proj1 (Forall_lookup _ _) Hwf)].
    set (d' := <[i := zero_dirent]> (disk_dir (disk st))).
    assert (set_dirent (Z.of_nat i) zero_dirent (dir_load st) = set_dir d' (dir_load st)) as ->.
    { unfold set_dirent, d'. by rewrite Nat2Z.id, Hsync. }
    assert (dir_ok d') as Hd' by (apply dir_ok_clear; [apply H|by eapply lookup_lt_Some]).
    eexists _, _. split; [done|]. split; [|split; [apply dir_load_files|right]].
    + apply flush_inv; try done. rewrite dir_load_files.
      apply Forall_lookup. intros k g Hg. apply file_ok_insert_ne.
      * by eapply (proj1 (Forall_lookup _ _) (fi_files _ H)).
      * intros Hgu E. pose proof (proj1 (Forall_lookup _ _) Hno k g Hg Hgu) as Hne. simpl in Hne.
        destruct (proj1 (Forall_lookup _ _) (fi_files _ H) k g Hg Hgu) as [e' He'].
        apply Hne. destruct He'. lia.
    + split; [done|]. exists i, e. repeat split; try done. by apply disk_dir_flush.
Qed.

Lemma unlink_safe m path st :
  fs_inv st -> op_ok (OpUnlink m path) st -> safe_step (OpUnlink m path) st.
Proof.
  intros H [Hm Hno].
  destruct (bmfs_unlink_spec st m path H Hm Hno) as (r & st' & E & H' & _). by exists r, st'.
Qed.

Lemma all_safe op st : fs_inv st -> op_ok op st -> safe_step op st.
Proof.
  intros H Ho. destruct op; [by apply open_safe|by apply read_safe|by apply write_safe|
    by apply close_safe|by apply lseek_safe|by apply fstat_safe|by apply fstatat_safe|
    by apply unlink_safe].
Qed.

(** The program starts with its static variables zeroed. *)
Lemma boot_inv d : dir_ok (disk_dir d) -> fs_inv (bmfs_boot d).
Proof.
  intros H. split; unfold bmfs_boot; cbn [disk dir_loaded dir files scratch]; try done.
  - by apply Forall_replicate.
  - intros _. by apply Forall_replicate.
  - by apply Forall_replicate.
Qed.

Lemma disk_byte_other d d' a :
  (forall s, s <> BMFS_DIR_SECTOR -> nvs_read d' s = nvs_read d s) -> 8192 <= a ->
  disk_byte d' a = disk_byte d a.
Proof.
  intros H Ha. unfold disk_byte. rewrite H; [done|].
  unfold BMFS_DIR_SECTOR, BMFS_SECTOR_BYTES. zdiv.
Qed.

Lemma is_fd_of_slot st (slot : nat) f :
  files st !! slot = Some f -> f_used f = true -> (slot < BMFS_MAX_OPEN)%nat ->
  bmfs_is_fd st (BMFS_FD_BASE + Z.of_nat slot) = true /\
  fd_slot (BMFS_FD_BASE + Z.of_nat slot) = slot.
Proof.
  intros Hf Hu Hlt. unfold fd_slot, bmfs_is_fd.
  replace (BMFS_FD_BASE + Z.of_nat slot - BMFS_FD_BASE) with (Z.of_nat slot) by lia.
  rewrite Nat2Z.id, Hf, Hu. split; [|done]. unfold BMFS_FD_BASE, BMFS_MAX_OPEN in *.
  rewrite Z.geb_leb. destruct (Z.leb_spec 3 (3 + Z.of_nat slot)); [|lia].
  by destruct (Z.ltb_spec (3 + Z.of_nat slot) (3 + Z.of_nat 8)); [|lia].
Qed.
End Ops.

(** A blank drive is a valid BMFS image. *)
Lemma blank_dir : disk_dir (∅ : ramdisk) = replicate 64 zero_dirent.
Proof. vm_compute. reflexivity. Qed.

Lemma zero_dirent_unused : ~ used_entry zero_dirent.
Proof. intros Hu. apply Hu. by apply fname_nil_iff; [apply zero_dirent_wf|]. Qed.

Lemma blank_dir_ok : dir_ok (disk_dir (∅ : ramdisk)).
Proof.
  rewrite blank_dir. pose proof zero_dirent_unused as Hz. split; try done.
  - apply Forall_replicate, zero_dirent_wf.
  - intros i e [-> _]%lookup_replicate Hu. done.
  - intros i j a b [-> _]%lookup_replicate _ Hu. done.
  - intros i j a b [-> _]%lookup_replicate _ Hu. done.
Qed.
