(* ===== verification/BmfsTheorems.v ===== *)
(** * BMFS: theorems

    The properties of the file system as a whole, each with a concrete
    instance on a blank RAM disk. *)
From S2P Require Import Prelude CString Kernel Bmfs BmfsIo BmfsDir BmfsInv BmfsOps.

(** States a program can reach: boot from a drive with a valid directory, then
    any operations used within [op_ok]. *)
Inductive reachable {D} `{!NVS D} : bmfs D -> Prop :=
  | reach_boot d : dir_ok (disk_dir d) -> reachable (bmfs_boot d)
  | reach_step st op r st' :
      reachable st -> op_ok op st -> bmfs_exec op st = Ret (r, st') -> reachable st'.

Lemma reachable_inv {D} `{!NVS D} `{!NVSLaws D} (st : bmfs D) : reachable st -> fs_inv st.
Proof.
  induction 1 as [d Hd|st op r st' _ IH Ho E]; [by apply boot_inv|].
  destruct (all_safe op st IH Ho) as (r' & st'' & E' & H'). rewrite E in E'.
  by injection E' as -> ->.
Qed.

(** ** A concrete session

    A blank drive, and the path string "/a" at address 100. *)
Definition demo_mem : reader :=
  fun a => if a =? 100 then 47 else if a =? 101 then 97 else 0.
Lemma demo_mem_bytes i : is_byte (demo_mem i).
Proof. unfold demo_mem. by destruct (i =? 100), (i =? 101). Qed.

Definition demo_data : reader := fun i => if i =? 0 then 72 else if i =? 1 then 105 else 33.
Lemma demo_data_bytes i : is_byte (demo_data i).
Proof. unfold demo_data. by destruct (i =? 0), (i =? 1). Qed.

Definition blank : bmfs ramdisk := bmfs_boot ∅.
Definition state_of {A} (dflt : A) (r : res (Z * A)) : A :=
  match r with Ret (_, st) => st | _ => dflt end.

(** The state after open("/a", O_CREAT), and after also writing "Hi!". *)
Definition demo_opened : bmfs ramdisk :=
  state_of blank (bmfs_open blank demo_mem 100 O_CREAT 0).
Definition demo_written : bmfs ramdisk :=
  state_of blank (bmfs_write demo_opened 3 demo_data 3).

Lemma blank_reachable : reachable blank.
Proof. apply reach_boot, blank_dir_ok. Qed.

Lemma demo_opened_reachable : reachable demo_opened.
Proof.
  eapply (reach_step blank (OpOpen demo_mem 100 O_CREAT 0) 3); [apply blank_reachable| |].
  - split; [apply demo_mem_bytes|vm_compute; reflexivity].
  - vm_compute. reflexivity.
Qed.

Lemma demo_written_reachable : reachable demo_written.
Proof.
  eapply (reach_step demo_opened (OpWrite 3 demo_data 3) 3); [apply demo_opened_reachable| |].
  - split; [vm_compute; reflexivity|]. split; [lia|apply demo_data_bytes].
  - vm_compute. reflexivity.
Qed.

Section Theorems.
Context {D : Type} `{!NVS D} `{!NVSLaws D}.
Implicit Types st : bmfs D.

(** C2. In every reachable state the file-system invariant holds (unique
    names, disjoint extents, in-memory directory equal to the one on disk,
    open files bound to their entries) and every operation used within its
    contract returns, without undefined behaviour or exhausted loop fuel, in
    a state that satisfies it again. *)
Theorem bmfs_reachable_safe st :
  reachable st ->
  fs_inv st /\ forall op, op_ok op st -> exists r st', bmfs_exec op st = Ret (r, st') /\ fs_inv st'.
Proof. intros H%reachable_inv. split; [done|]. intros op Ho. by apply all_safe. Qed.

(** C7. [bmfs_open] has one outcome, and it is the one its contract gives, as
    long as the extents in use end below block 2^42.  The first of these that
    applies: ENOENT for a name that is empty, has 32 bytes or more or a slash;
    EMFILE when all eight slots are in use; for a name that is not in the
    directory, ENOENT without O_CREAT and ENOSPC when the directory is full;
    EEXIST for one that is, under O_CREAT|O_EXCL.  Otherwise the lowest free descriptor, bound to the
    existing entry (truncated under O_TRUNC) or to the first free entry, which
    gets the first block past every extent in use; the directory is
    on disk when open returns, and no other sector has changed. *)
Theorem bmfs_open_contract st m path flags mode :
  reachable st -> (forall i, is_byte (m i)) ->
  (forall i e, disk_dir (disk st) !! i = Some e -> used_entry e -> de_start_block e + de_reserved_blocks e < BLOCK_LIMIT) ->
  exists r st', bmfs_open st m path flags mode = Ret (r, st') /\
    (forall r' d' fs', open_post (disk_dir (disk st)) (files st) (cname m (bmfs_name m path)) flags r' d' fs' <->
       r' = r /\ d' = disk_dir (disk st') /\ fs' = files st') /\
    (forall s, s <> BMFS_DIR_SECTOR -> nvs_read (disk st') s = nvs_read (disk st) s).
Proof.
  intros H%reachable_inv Hm Hl. pose proof (next_free_block_free _ (fi_dir _ H)) as (_ & _ & Hb).
  assert (next_free_block BMFS_FIRST_DATA_BLOCK (disk_dir (disk st)) < BLOCK_LIMIT) as Hlim.
  { destruct Hb as [->|(i & e & Hi & Hu & <-)]; [done|by eapply Hl]. }
  destruct (bmfs_open_spec st m path flags mode H Hm Hlim) as (r & st' & E & _ & P & F).
  exists r, st'. split; [done|]. split; [|done]. intros r' d' fs'. split; [|by intros (-> & -> & ->)].
  intros P'. by apply (open_post_det _ _ _ _ _ _ _ _ _ _ (fi_dir _ H) P').
Qed.

(** C5. A write through a descriptor stores exactly
    min(len, capacity - offset) bytes of the buffer at the file's offset (its
    end under O_APPEND) on the drive seen as one flat byte array, changes no
    other byte of the drive, and extends the size only when the data ends
    past it; past the reservation, or for an empty buffer, it returns
    -ENOSPC and changes nothing on the drive. *)
Theorem bmfs_write_refines st fd f src len :
  reachable st -> bmfs_is_fd st fd = true -> files st !! fd_slot fd = Some f ->
  0 <= len < 9223372036854775808 -> (forall i, is_byte (src i)) ->
  exists st', bmfs_write st fd src len = Ret (write_count f len, st') /\
    files st' = <[fd_slot fd := written f (write_count f len)]> (files st) /\
    dir st' = dir st /\
    forall a, disk_byte (disk st') a =
      patched (disk_byte (disk st)) (file_base f + write_pos f)
        (Z.max 0 (write_count f len)) src a.
Proof.
  intros H%reachable_inv Hfd Hf Hl Hs.
  destruct (bmfs_write_spec st fd f src len H Hfd Hf Hl Hs) as (sc & d & E & _ & _ & Hd).
  eexists. split; [exact E|]. done.
Qed.

(** C6. A read returns the min(len, size - offset) bytes the drive holds at
    the file's offset, in order, advances the offset by as many, and changes
    nothing on the drive; at or past the end it returns 0 bytes. *)
Theorem bmfs_read_refines st fd f len :
  reachable st -> bmfs_is_fd st fd = true -> files st !! fd_slot fd = Some f ->
  0 <= len < 9223372036854775808 ->
  exists st', bmfs_read st fd len =
      Ret (read_count f len,
           slice (disk_byte (disk st)) (file_base f + f_pos f) (read_count f len), st') /\
    files st' = <[fd_slot fd := set_pos (f_pos f + read_count f len) f]> (files st) /\
    disk st' = disk st /\ dir st' = dir st.
Proof.
  intros H%reachable_inv Hfd Hf Hl.
  destruct (bmfs_read_spec st fd f len H Hfd Hf Hl) as (sc & E & _).
  eexists. split; [exact E|]. done.
Qed.

Lemma lseek_set_spec st fd f off :
  bmfs_is_fd st fd = true -> files st !! fd_slot fd = Some f -> 0 <= off < 9223372036854775808 ->
  bmfs_lseek st fd off 0 = Ret (off, set_file (fd - BMFS_FD_BASE) (set_pos off f) st).
Proof.
  intros Hfd Hf Ho. destruct (is_fd_slot st fd Hfd) as (f' & Ha & Hf' & _).
  rewrite Hf in Hf'. injection Hf' as <-. unfold bmfs_lseek. rewrite Ha. cbn [res_bind Z.eqb].
  rewrite Z.add_0_l, (i64_small off), Z.eqb_refl by lia. destruct (Z.ltb_spec off 0); [lia|done].
Qed.

(** The descriptor stays open, bound to the updated record. *)
Lemma set_file_is_fd st fd f g :
  bmfs_is_fd st fd = true -> files st !! fd_slot fd = Some f -> f_used g = true ->
  bmfs_is_fd (set_file (fd - BMFS_FD_BASE) g st) fd = true /\
  files (set_file (fd - BMFS_FD_BASE) g st) !! fd_slot fd = Some g.
Proof.
  intros Hfd Hf Hg. unfold bmfs_is_fd, fd_slot in *. simpl.
  rewrite Hf in Hfd. rewrite list_lookup_insert_eq by by eapply lookup_lt_Some.
  rewrite Hg. zbool. split; [|done]. rewrite Z.geb_leb in *.
  apply andb_true_iff. split; [|done]. apply andb_true_iff.
  split; [by apply Z.leb_le|by apply Z.ltb_lt].
Qed.

Lemma written_pos f n : 0 < n -> f_size f >= 0 ->
  f_used (written f n) = f_used f /\ f_start_block (written f n) = f_start_block f /\
  f_reserved_blocks (written f n) = f_reserved_blocks f /\
  write_pos f + n <= f_size (written f n).
Proof.
  intros Hn Hs. unfold written. rewrite !Z.gtb_ltb. destruct (Z.ltb_spec 0 n); [|lia].
  simpl. repeat split. destruct (Z.ltb_spec (f_size f) (write_pos f + n)); lia.
Qed.

Lemma set_io_is_fd sc d st fd : bmfs_is_fd (set_io sc d st) fd = bmfs_is_fd st fd.
Proof. done. Qed.

(** Writing, seeking back and reading, step by step. *)
Lemma write_back_spec st fd f src len :
  fs_inv st -> bmfs_is_fd st fd = true -> files st !! fd_slot fd = Some f ->
  0 <= len < 9223372036854775808 -> (forall i, is_byte (src i)) ->
  0 < write_count f len ->
  exists st1 st2 st',
    bmfs_write st fd src len = Ret (write_count f len, st1) /\ bmfs_is_fd st1 fd = true /\
    bmfs_lseek st1 fd (write_pos f) 0 = Ret (write_pos f, st2) /\ bmfs_is_fd st2 fd = true /\
    bmfs_read st2 fd (write_count f len) =
      Ret (write_count f len, slice src 0 (write_count f len), st') /\
    0 <= write_pos f < 9223372036854775808 /\ write_count f len <= len.
Proof.
  intros H Hfd Hf Hl Hs Hn.
  destruct (is_fd_slot st fd Hfd) as (f' & _ & Hf' & Hu). rewrite Hf in Hf'. injection Hf' as <-.
  pose proof (fd_facts_of st _ f H Hf Hu) as FF.
  destruct (write_count_bounds st f len FF ltac:(lia)) as [Hc Hw].
  destruct (bmfs_write_spec st fd f src len H Hfd Hf Hl Hs) as (sc & d & E & _ & _ & Hd).
  set (st1 := set_file (fd - BMFS_FD_BASE) (written f (write_count f len)) (set_io sc d st)) in *.
  assert (fs_inv st1) as H1.
  { destruct (write_safe fd src len st H) as (r & st1' & Ex & H1'); [done|].
    cbn [bmfs_exec] in Ex. congruence. }
  destruct (written_pos f (write_count f len) Hn) as (W1 & W2 & W3 & W4);
    [destruct FF; lia|].
  destruct (set_file_is_fd (set_io sc d st) fd f (written f (write_count f len)))
    as [Hfd1 Hf1]; [done|done|congruence|]. fold st1 in Hfd1, Hf1.
  unfold ENOSPC in *.
  set (g := set_pos (write_pos f) (written f (write_count f len))).
  destruct (set_file_is_fd st1 fd _ g Hfd1 Hf1) as [Hfd2 Hf2]; [simpl; congruence|].
  assert (fs_inv (set_file (fd - BMFS_FD_BASE) g st1)) as H2.
  { apply set_file_inv; [done|apply FF|]. apply file_ok_repos; [|lia]. by eapply open_file_ok. }
  destruct (bmfs_read_spec _ fd g (write_count f len) H2 Hfd2 Hf2) as (sc2 & E2 & _); [lia|].
  eexists st1, (set_file (fd - BMFS_FD_BASE) g st1), _. split; [exact E|]. split; [done|].
  split; [apply (lseek_set_spec st1 fd _ _ Hfd1 Hf1); lia|]. split; [exact Hfd2|].
  assert (write_count f len <= len) as Hle by (unfold write_count in *; destruct (_ || _); lia).
  split; [|lia]. rewrite E2.
  assert (read_count g (write_count f len) = write_count f len) as ->.
  { unfold read_count, g. simpl. rewrite Z.geb_leb.
    destruct (Z.leb_spec (f_size (written f (write_count f len))) (write_pos f)); lia. }
  do 2 f_equal. f_equal. apply slice_ext. intros i Hi. cbn [disk set_file set_files st1 set_io].
  change (disk (set_file (fd - BMFS_FD_BASE) g st1)) with d. rewrite Hd.
  unfold patched, file_base, g. simpl. rewrite W2.
  destruct (Z.leb_spec (f_start_block f * BMFS_BLOCK_BYTES + write_pos f)
    (f_start_block f * BMFS_BLOCK_BYTES + write_pos f + i)),
    (Z.ltb_spec (f_start_block f * BMFS_BLOCK_BYTES + write_pos f + i)
      (f_start_block f * BMFS_BLOCK_BYTES + write_pos f + Z.max 0 (write_count f len)));
    simpl; try lia. f_equal. lia.
Qed.

(** Data written through a descriptor is read back unchanged: after a
    write of [n > 0] bytes at offset [p], seeking to [p] and reading [n]
    bytes returns [n] and the bytes written. *)
Theorem bmfs_write_read_back st fd f src len :
  reachable st -> bmfs_is_fd st fd = true -> files st !! fd_slot fd = Some f ->
  0 <= len < 9223372036854775808 -> (forall i, is_byte (src i)) ->
  0 < write_count f len ->
  exists st',
    (let* (n, st1) := bmfs_write st fd src len in
     let* (_, st2) := bmfs_lseek st1 fd (write_pos f) 0 in
     bmfs_read st2 fd n) = Ret (write_count f len, slice src 0 (write_count f len), st').
Proof.
  intros Hr Hfd Hf Hl Hs Hn.
  destruct (write_back_spec st fd f src len (reachable_inv _ Hr) Hfd Hf Hl Hs Hn)
    as (st1 & st2 & st' & E1 & _ & E2 & _ & E3 & _).
  exists st'. rewrite E1. cbn [res_bind]. rewrite E2. exact E3.
Qed.

(** The contents of a directory entry's file. *)
Definition contents (d : D) (e : bmfs_dirent) : list Z :=
  slice (disk_byte d) (de_start_block e * BMFS_BLOCK_BYTES) (de_size e).

(** Files are isolated: a write through a descriptor leaves the contents
    of every other file of the directory, and the directory itself,
    unchanged. *)
Theorem bmfs_write_isolated st fd f src len :
  reachable st -> bmfs_is_fd st fd = true -> files st !! fd_slot fd = Some f ->
  0 <= len < 9223372036854775808 -> (forall i, is_byte (src i)) ->
  exists n st', bmfs_write st fd src len = Ret (n, st') /\
    disk_dir (disk st') = disk_dir (disk st) /\
    forall j e, disk_dir (disk st) !! j = Some e -> used_entry e ->
      j <> Z.to_nat (f_dir_index f) -> contents (disk st') e = contents (disk st) e.
Proof.
  intros Hr Hfd Hf Hl Hs. pose proof (reachable_inv _ Hr) as H.
  destruct (is_fd_slot st fd Hfd) as (f' & _ & Hf' & Hu). rewrite Hf in Hf'. injection Hf' as <-.
  pose proof (fd_facts_of st _ f H Hf Hu) as FF.
  destruct (write_count_bounds st f len FF ltac:(lia)) as [Hc Hw].
  destruct (bmfs_write_spec st fd f src len H Hfd Hf Hl Hs) as (sc & d & E & _ & _ & Hd).
  eexists _, _. split; [exact E|]. simpl. split.
  { unfold disk_dir. f_equal. eapply data_write_keeps_dir; [exact FF| | |exact Hd]; lia. }
  intros j e He Hue Hj. apply slice_ext. intros i Hi. rewrite Hd. unfold patched.
  destruct (open_bound st f _ H Hf Hu) as (e0 & [B1 B2 B3 B4 B5 B6 B7] & _).
  pose proof (do_extents _ (fi_dir _ H) j _ e e0 He B1 Hue B3 Hj) as Hdis.
  pose proof (do_entry _ (fi_dir _ H) _ _ He Hue) as [E1 E2 E3].
  unfold extents_disjoint in Hdis. unfold file_base, file_cap, ENOSPC in *.
  rewrite B4, B5 in *. clear E Hd. bmfs_consts.
  match goal with |- context [(?x <=? ?y) && (?y <? ?z)] =>
    destruct (Z.leb_spec x y), (Z.ltb_spec y z); simpl; try done; exfalso; nia
  end.
Qed.

(** O_APPEND is honoured on every write: whatever offset a preceding
    lseek chose, the data lands at the end of the file, the old contents keep
    their bytes, and the size grows by the number of bytes written. *)
Theorem bmfs_append_always st fd f off src len :
  reachable st -> bmfs_is_fd st fd = true -> files st !! fd_slot fd = Some f ->
  f_append f = true -> 0 <= off < 9223372036854775808 ->
  0 < len < 9223372036854775808 -> (forall i, is_byte (src i)) ->
  f_size f + len <= file_cap f ->
  exists st' g,
    (let* (_, st1) := bmfs_lseek st fd off 0 in bmfs_write st1 fd src len) = Ret (len, st') /\
    files st' !! fd_slot fd = Some g /\ f_size g = f_size f + len /\
    slice (disk_byte (disk st')) (file_base f) (f_size f + len) =
    slice (disk_byte (disk st)) (file_base f) (f_size f) ++ slice src 0 len.
Proof.
  intros Hr Hfd Hf Ha Ho Hl Hs Hcap. pose proof (reachable_inv _ Hr) as H.
  destruct (is_fd_slot st fd Hfd) as (f' & _ & Hf' & Hu). rewrite Hf in Hf'. injection Hf' as <-.
  pose proof (fd_facts_of st _ f H Hf Hu) as FF.
  rewrite (lseek_set_spec st fd f off Hfd Hf Ho). simpl.
  set (st1 := set_file (fd - BMFS_FD_BASE) (set_pos off f) st).
  destruct (set_file_is_fd st fd f (set_pos off f) Hfd Hf Hu) as [Hfd1 Hf1]. fold st1 in Hfd1, Hf1.
  assert (fs_inv st1) as H1.
  { apply set_file_inv; [done|apply FF|]. apply file_ok_repos; [|done]. by eapply open_file_ok. }
  destruct (bmfs_write_spec st1 fd (set_pos off f) src len H1 Hfd1 Hf1 ltac:(lia) Hs)
    as (sc & d & E & _ & _ & Hd).
  assert (write_pos (set_pos off f) = f_size f) as Ew by (unfold write_pos; simpl; by rewrite Ha).
  assert (write_count (set_pos off f) len = len) as Ec.
  { unfold write_count. rewrite Ew. change (file_cap (set_pos off f)) with (file_cap f).
    rewrite Z.geb_leb. destruct (Z.leb_spec (file_cap f) (f_size f)), (Z.eqb_spec len 0);
      simpl; lia. }
  rewrite Ec in *. rewrite Ew in *. change (file_base (set_pos off f)) with (file_base f) in Hd.
  rewrite Z.max_r in Hd by lia.
  destruct FF as [F1 F0 F2 F3 F4 F5 F6 F7].
  eexists _, (written (set_pos off f) len). split; [exact E|]. split; [|split].
  - simpl. apply list_lookup_insert_eq. rewrite length_insert. by eapply lookup_lt_Some.
  - unfold written. rewrite Ew, !Z.gtb_ltb. destruct (Z.ltb_spec 0 len); [|lia]. simpl.
    destruct (Z.ltb_spec (f_size f) (f_size f + len)); lia.
  - cbn [disk set_file set_files set_io]. rewrite <- slice_app by lia. f_equal.
    + apply slice_ext. intros i Hi. rewrite Hd. unfold patched.
      destruct (Z.leb_spec (file_base f + f_size f) (file_base f + i)); [lia|done].
    + apply slice_ext. intros i Hi. rewrite Hd. unfold patched.
      destruct (Z.leb_spec (file_base f + f_size f) (file_base f + f_size f + i)),
        (Z.ltb_spec (file_base f + f_size f + i) (file_base f + f_size f + len)); simpl; try lia.
      f_equal. lia.
Qed.

(** A zero-length write to a file is answered with -ENOSPC, even when the
    file has room. *)
Theorem bmfs_write_empty_enospc st fd f src :
  reachable st -> bmfs_is_fd st fd = true -> files st !! fd_slot fd = Some f ->
  (forall i, is_byte (src i)) ->
  exists st', bmfs_write st fd src 0 = Ret (- ENOSPC, st').
Proof.
  intros H%reachable_inv Hfd Hf Hs.
  destruct (bmfs_write_spec st fd f src 0 H Hfd Hf ltac:(lia) Hs) as (sc & d & E & _).
  assert (write_count f 0 = - ENOSPC) as Ec by (unfold write_count; by rewrite orb_true_r).
  rewrite Ec in E. eauto.
Qed.

(** ** Persistence *)

(** Opening, for create, a name the directory does not have. *)
Lemma open_post_create d fs m name flags r d' fs' :
  open_post d fs (cname m name) flags r d' fs' -> (forall i, is_byte (m i)) -> dir_ok d ->
  name_ok m name = true -> no_entry d (cname m name) -> has_flag flags O_CREAT = true ->
  ~ Forall (fun f => f_used f = true) fs -> ~ Forall used_entry d ->
  exists slot i e0 f,
    let e := new_entry m name (next_free_block BMFS_FIRST_DATA_BLOCK d) in
    r = BMFS_FD_BASE + Z.of_nat slot /\ d !! i = Some e0 /\ fs !! slot = Some f /\
    d' = <[i := e]> d /\ fs' = <[slot := opened flags (Z.of_nat i) e]> fs.
Proof.
  intros P Hm Hdo Hok Hno Hcr Hfs Hd. apply name_ok_good in Hok; [|done].
  assert (forall i e, d !! i = Some e -> fname e = cname m name -> False) as Habs.
  { intros i e He Hfe. apply (Hno i e He); [|done]. destruct Hok as [Hok _]. unfold used_entry. congruence. }
  destruct P as [| | | | | |slot i b e _ [(f & Hf & _) _] _ _ [(e0 & He0 & _) _] Hb]; try congruence; try done; try (exfalso; by eapply Habs).
  subst e. rewrite (free_block_unique _ _ _ Hb (next_free_block_free _ Hdo)). by exists slot, i, e0, f.
Qed.

(** Opening an existing name read-only. *)
Lemma open_post_existing d fs m name i e r d' fs' :
  open_post d fs (cname m name) 0 r d' fs' -> (forall i, is_byte (m i)) -> dir_ok d ->
  name_ok m name = true -> d !! i = Some e -> fname e = cname m name ->
  ~ Forall (fun f => f_used f = true) fs ->
  exists slot f, r = BMFS_FD_BASE + Z.of_nat slot /\ fs !! slot = Some f /\
    d' = d /\ fs' = <[slot := opened 0 (Z.of_nat i) e]> fs.
Proof.
  intros P Hm Hd Hok Hi Hfe Hfs. apply name_ok_good in Hok; [|done].
  assert (used_entry e) as Hu by (destruct Hok as [Hok _]; unfold used_entry; congruence).
  destruct P as [| |slot Ho _ Hno Hc| |slot i' e' Ho _ Hi' He' Hc Hx|slot i' e' Ho [(f & Hs & _) _] Hi' He' Hc|];
    try congruence; try done.
  - exfalso. by apply (Hno i e).
  - assert (i' = i) as ->.
    { symmetry. eapply (do_names _ Hd i i' e e'); [done|done|done|congruence]. }
    rewrite Hi in Hi'. injection Hi' as <-. exists slot, f. unfold truncated. simpl.
    by rewrite list_insert_id.
Qed.

Lemma next_free_block_insert d i e :
  dir_ok d -> u64 (de_start_block e + de_reserved_blocks e) <=
    next_free_block BMFS_FIRST_DATA_BLOCK d + 1 ->
  next_free_block BMFS_FIRST_DATA_BLOCK (<[i := e]> d) <=
    next_free_block BMFS_FIRST_DATA_BLOCK d + 1.
Proof.
  intros Hd He. destruct (next_free_block_ge BMFS_FIRST_DATA_BLOCK d) as [H1 H2].
  apply next_free_block_le; [lia|].
  intros x Hx Hn. apply list_elem_of_lookup in Hx as [j Hj].
  apply list_lookup_insert_Some in Hj as [(_ & <- & _)|[_ Hj]]; [done|].
  etrans; [apply H2; [by eapply list_elem_of_lookup_2|done]|lia].
Qed.

Lemma boot_not_full (d : D) : ~ Forall (fun f => f_used f = true) (files (bmfs_boot d)).
Proof. intros H. unfold bmfs_boot in H. simpl in H. by inversion H. Qed.

(** A file that was just created, as it is after a write of at most a block. *)
Definition fresh_file (i b : Z) : bmfs_file := mkFile true false false i b 1 0 0.
Lemma opened_fresh i e : de_size e = 0 -> de_reserved_blocks e = 1 -> opened O_CREAT i e = fresh_file i (de_start_block e).
Proof. intros Hz Hr. unfold opened, fresh_file. by rewrite Hz, Hr. Qed.
Lemma fresh_written i b len : 0 < len <= BMFS_BLOCK_BYTES ->
  write_count (fresh_file i b) len = len /\ written (fresh_file i b) len = mkFile true true false i b 1 len len.
Proof.
  intros Hl. unfold write_count, written. change (write_pos (fresh_file i b)) with 0. change (file_cap (fresh_file i b)) with 2097152.
  change (f_size (fresh_file i b)) with 0. bmfs_consts. rewrite Z.add_0_l, !Z.gtb_ltb. split.
  - destruct (Z.eqb_spec len 0); [lia|]. cbn [Z.geb Z.compare orb]. lia.
  - destruct (Z.ltb_spec 0 len); [reflexivity|lia].
Qed.

(** Create and write a file on a fresh boot, then close it. *)
Lemma create_write_close (d : D) m path src len :
  dir_ok (disk_dir d) -> (forall i, is_byte (m i)) -> name_ok m (bmfs_name m path) = true ->
  no_entry (disk_dir d) (cname m (bmfs_name m path)) -> ~ Forall used_entry (disk_dir d) ->
  next_free_block BMFS_FIRST_DATA_BLOCK (disk_dir d) < BLOCK_LIMIT ->
  (forall i, is_byte (src i)) -> 0 < len <= BMFS_BLOCK_BYTES ->
  let e := set_size len
    (new_entry m (bmfs_name m path) (next_free_block BMFS_FIRST_DATA_BLOCK (disk_dir d))) in
  exists st i,
    (let* (fd, st1) := bmfs_open (bmfs_boot d) m path O_CREAT 0 in
     let* (n, st2) := bmfs_write st1 fd src len in
     let* (_, st3) := bmfs_close st2 fd in Ret (n, st3)) = Ret (len, st) /\
    fs_inv st /\ (i < length (disk_dir d))%nat /\
    disk_dir (disk st) = <[i := e]> (disk_dir d) /\ contents (disk st) e = slice src 0 len.
Proof.
  intros Hd Hm Hok Hno Hfree Hlim Hs Hl e. set (name := bmfs_name m path) in *.
  pose proof (boot_inv d Hd) as H0.
  destruct (bmfs_open_spec (bmfs_boot d) m path O_CREAT 0 H0 Hm Hlim) as (r & st1 & E1 & H1 & P & _).
  rewrite E1. fold name in P. apply open_post_create in P as (slot & i & e0 & f0 & -> & Hi & Hslot & Hd1 & Hf1);
    try done; [|apply boot_not_full].
  cbn [disk bmfs_boot] in Hd1, Hf1, Hi. unfold e. clear e.
  assert (de_size (new_entry m name (next_free_block BMFS_FIRST_DATA_BLOCK (disk_dir d))) = 0 /\
    de_reserved_blocks (new_entry m name
      (next_free_block BMFS_FIRST_DATA_BLOCK (disk_dir d))) = 1) as [Hz1 Hr1] by done.
  revert Hd1 Hf1 Hz1 Hr1.
  generalize (new_entry m name (next_free_block BMFS_FIRST_DATA_BLOCK (disk_dir d))).
  intros e1 Hd1 Hf1 Hz1 Hr1.
  rewrite (opened_fresh _ _ Hz1 Hr1) in *. set (f := fresh_file (Z.of_nat i) (de_start_block e1)) in *.
  assert (files st1 !! slot = Some f) as Hf.
  { rewrite Hf1. apply list_lookup_insert_eq. by eapply lookup_lt_Some. }
  assert (slot < BMFS_MAX_OPEN)%nat as Hsl.
  { rewrite <- (fi_nfiles _ H0). by eapply lookup_lt_Some. }
  destruct (is_fd_of_slot st1 slot f Hf eq_refl Hsl) as [Hfd Hsf].
  rewrite <- Hsf in Hf.
  pose proof (fd_facts_of st1 _ f H1 Hf eq_refl) as FF.
  destruct (fresh_written (Z.of_nat i) (de_start_block e1) len Hl) as [Ec Ew]. fold f in Ec, Ew.
  destruct (bmfs_write_spec st1 _ f src len H1 Hfd Hf) as (sc & dk & E2 & Hsc & Hscb & Hdk);
    [bmfs_consts; lia|done|].
  rewrite Ec, Z.max_r in * by lia.
  set (st2 := set_file _ (written f len) _) in E2.
  assert (fs_inv st2) as H2.
  { destruct (write_safe (BMFS_FD_BASE + Z.of_nat slot) src len st1 H1) as (r' & st' & E' & H').
    - split; [done|]. split; [bmfs_consts; lia|done].
    - simpl in E'. rewrite E2 in E'. by injection E' as _ <-. }
  destruct (set_file_is_fd (set_io sc dk st1) _ f (written f len) Hfd Hf) as [Hfd2 Hf2];
    [unfold written; rewrite Z.gtb_ltb; by destruct (0 <? len)|].
  fold st2 in Hfd2, Hf2.
  destruct (bmfs_close_spec _ st2 _ H2 Hfd2 Hf2) as (st3 & e3 & E3 & H3 & Hb & Hcd & _ & Hoth).
  assert (disk_dir (disk st2) = disk_dir (disk st1)) as Edd.
  { unfold disk_dir. f_equal. eapply data_write_keeps_dir; [exact FF| | |exact Hdk]; [done|lia]. }
  rewrite Edd, Hd1 in *.
  rewrite Ew in *. unfold closed_dir in Hcd. cbn [f_dirty f_dir_index f_size] in Hcd.
  rewrite Nat2Z.id in Hcd.
  assert (e3 = e1) as ->.
  { destruct Hb as [B1 _ _ _ _ _ _]. cbn [f_dir_index] in B1. rewrite Nat2Z.id in B1.
    rewrite list_lookup_insert_eq in B1 by by eapply lookup_lt_Some.
    apply (inj Some) in B1. exact (eq_sym B1). }
  rewrite list_insert_insert_eq in Hcd.
  exists st3, i. cbn [res_bind]. rewrite E2. cbn [res_bind]. rewrite E3. cbn [res_bind].
  split; [done|]. split; [done|]. split; [by eapply lookup_lt_Some|]. split; [done|].
  destruct FF as [F1 _ _ _ _ _ _ _]. unfold contents. apply slice_ext. cbn [de_size set_size].
  intros k Hk. change (de_start_block (set_size len e1) * BMFS_BLOCK_BYTES) with (file_base f).
  rewrite (disk_byte_other (disk st2) (disk st3)) by (done || lia).
  change (disk st2) with dk. rewrite Hdk. unfold patched.
  change (write_pos f) with 0. rewrite Z.add_0_r.
  destruct (Z.leb_spec (file_base f) (file_base f + k)),
    (Z.ltb_spec (file_base f + k) (file_base f + len)); cbn [andb]; try lia. f_equal. lia.
Qed.

(** C4. Files survive a restart: creating a file, writing up to 2 MiB and
    closing it succeeds, and a program that boots afterwards from the same
    drive opens the file by name and reads the same bytes back. *)
Theorem bmfs_persistent (d : D) m path src len len' :
  dir_ok (disk_dir d) -> (forall i, is_byte (m i)) -> name_ok m (bmfs_name m path) = true ->
  no_entry (disk_dir d) (cname m (bmfs_name m path)) -> ~ Forall used_entry (disk_dir d) ->
  next_free_block BMFS_FIRST_DATA_BLOCK (disk_dir d) + 1 < BLOCK_LIMIT ->
  (forall i, is_byte (src i)) -> 0 < len <= BMFS_BLOCK_BYTES ->
  len <= len' < 9223372036854775808 ->
  exists st st',
    (let* (fd, st1) := bmfs_open (bmfs_boot d) m path O_CREAT 0 in
     let* (n, st2) := bmfs_write st1 fd src len in
     let* (_, st3) := bmfs_close st2 fd in Ret (n, st3)) = Ret (len, st) /\
    (let* (fd, st4) := bmfs_open (bmfs_boot (disk st)) m path 0 0 in
     bmfs_read st4 fd len') = Ret (len, slice src 0 len, st').
Proof.
  intros Hd Hm Hok Hno Hfree Hlim Hs Hl Hl'.
  destruct (create_write_close d m path src len) as (st & i & E & H & Hi & Hdd & Hc);
    try done; [lia|].
  assert (fname (set_size len (new_entry m (bmfs_name m path)
    (next_free_block BMFS_FIRST_DATA_BLOCK (disk_dir d)))) = cname m (bmfs_name m path)) as Hfe.
  { rewrite set_size_fname. apply new_entry_fname; [done|].
    by apply name_ok_spec in Hok as (_ & ? & _). }
  assert (exists e, set_size len (new_entry m (bmfs_name m path)
    (next_free_block BMFS_FIRST_DATA_BLOCK (disk_dir d))) = e /\ de_size e = len /\
    de_start_block e = next_free_block BMFS_FIRST_DATA_BLOCK (disk_dir d) /\
    de_reserved_blocks e = 1) as (e & Ee & Hz & Hst & Hrv) by by eexists.
  rewrite Ee in *. clear Ee. set (name := bmfs_name m path) in *.
  pose proof (boot_inv (disk st) (fi_dir _ H)) as H0.
  destruct (bmfs_open_spec (bmfs_boot (disk st)) m path 0 0 H0 Hm) as (r & st4 & E4 & H4 & P & Hoth).
  { cbn [disk bmfs_boot]. rewrite Hdd.
    eapply Z.le_lt_trans; [apply next_free_block_insert; [done|]|done].
    destruct (next_free_block_ge BMFS_FIRST_DATA_BLOCK (disk_dir d)) as [? _].
    rewrite Hst, Hrv, u64_small by (bmfs_consts; unfold BMFS_FIRST_DATA_BLOCK in *; lia). lia. }
  cbn [disk bmfs_boot] in P, Hoth. fold name in P.
  apply (open_post_existing _ _ m _ i e) in P as (slot & f0 & -> & Hslot & Hd4 & Hf4); try done;
    [|apply H|rewrite Hdd; by apply list_lookup_insert_eq|apply boot_not_full].
  set (f := opened 0 (Z.of_nat i) e) in *.
  assert (files st4 !! slot = Some f) as Hf.
  { rewrite Hf4. apply list_lookup_insert_eq. by eapply lookup_lt_Some. }
  assert (slot < BMFS_MAX_OPEN)%nat as Hsl.
  { rewrite <- (fi_nfiles _ H0). by eapply lookup_lt_Some. }
  destruct (is_fd_of_slot st4 slot f Hf eq_refl Hsl) as [Hfd Hsf]. rewrite <- Hsf in Hf.
  destruct (bmfs_read_spec st4 _ f len' H4 Hfd Hf) as (sc & E5 & _); [lia|].
  eexists st, _. split; [done|]. rewrite E4. cbn [res_bind]. rewrite E5.
  assert (read_count f len' = len) as ->.
  { unfold read_count. change (f_pos f) with 0. change (f_size f) with (de_size e).
    rewrite Hz, Z.geb_leb. destruct (Z.leb_spec len 0); lia. }
  do 2 f_equal. f_equal. rewrite <- Hc. unfold contents. rewrite Hz.
  assert (file_base f + f_pos f = de_start_block e * BMFS_BLOCK_BYTES) as ->
    by (change (f_pos f) with 0; apply Z.add_0_r).
  pose proof (fd_facts_of st4 _ f H4 Hf eq_refl) as [F1 _ _ _ _ _ _ _].
  assert (file_base f = de_start_block e * BMFS_BLOCK_BYTES) as Eb by done. rewrite Eb in F1.
  apply slice_ext. intros k Hk. apply disk_byte_other; [done|]. lia.
Qed.

(** Unlinking a file that no descriptor has open either answers -ENOENT
    and leaves the drive alone, when no entry has the name, or returns 0
    after clearing exactly the entry of that name on the drive; the name is
    gone afterwards and the invariant holds again. *)
Theorem bmfs_unlink_contract st m path :
  reachable st -> (forall i, is_byte (m i)) ->
  not_open st (dir_find (dir_load st) m (bmfs_name m path)) ->
  exists r st', bmfs_unlink st m path = Ret (r, st') /\ fs_inv st' /\ files st' = files st /\
    no_entry (disk_dir (disk st')) (cname m (bmfs_name m path)) /\
    (r = - ENOENT /\ disk st' = disk st \/
     r = 0 /\ exists i e, disk_dir (disk st) !! i = Some e /\ used_entry e /\
       fname e = cname m (bmfs_name m path) /\
       disk_dir (disk st') = <[i := zero_dirent]> (disk_dir (disk st))).
Proof.
  intros H%reachable_inv Hm Hno.
  destruct (bmfs_unlink_spec st m path H Hm Hno) as (r & st' & E & H' & Hf & P).
  exists r, st'. split; [done|]. split; [done|]. split; [done|].
  destruct P as [(-> & Hd & Hn)|(-> & i & e & Hi & He & Hu & Hd)].
  - rewrite Hd. eauto.
  - split; [|right; split; [done|]; by exists i, e].
    rewrite Hd. intros j e' Hj Hu' Hn.
    apply list_lookup_insert_Some in Hj as [(_ & <- & _)|[Hne Hj]]; [by apply Hu'|].
    apply Hne. symmetry. eapply (do_names _ (fi_dir _ H) j i e' e Hj Hi Hu'). congruence.
Qed.
End Theorems.

(** ** Reusing the entry of an unlinked file

    The path "/b" at address 200, beside "/a" at 100. *)
Definition demo_mem2 : reader :=
  fun a => if a =? 200 then 47 else if a =? 201 then 98 else demo_mem a.

(** open a, write 3 bytes, unlink a, open b for create, close a, stat b. *)
Definition unlink_session : res (Z * option kstat * bmfs ramdisk) :=
  let* (fa, st) := bmfs_open blank demo_mem2 100 O_CREAT 0 in
  let* (_, st) := bmfs_write st fa demo_data 3 in
  let* (_, st) := bmfs_unlink st demo_mem2 100 in
  let* (_, st) := bmfs_open st demo_mem2 200 O_CREAT 0 in
  let* (_, st) := bmfs_close st fa in
  bmfs_fstatat st demo_mem2 200.

Definition session_size (r : res (Z * option kstat * bmfs ramdisk)) : option Z :=
  match r with Ret (_, Some k, _) => Some (st_size k) | _ => None end.

(** Unlinking a file that is still open is not safe: when another file is
      then created in the freed directory entry, closing the old descriptor
      stores the old file's size in the new file's entry, so a file nothing was
      written to is reported as 3 bytes long. *)
Theorem bmfs_unlink_open_corrupts : session_size unlink_session = Some 3.
Proof. vm_compute. reflexivity. Qed.

(** ** Instances on a blank RAM disk *)
Lemma demo_file :
  files demo_opened !! fd_slot 3 = Some (mkFile true false false 0 1 1 0 0).
Proof. vm_compute. reflexivity. Qed.

Lemma demo_file_written :
  files demo_written !! fd_slot 3 = Some (mkFile true true false 0 1 1 3 3).
Proof. vm_compute. reflexivity. Qed.

Definition demo_appended : bmfs ramdisk :=
  state_of blank (bmfs_open blank demo_mem 100 (Z.lor O_CREAT O_APPEND) 0).
Lemma demo_appended_reachable : reachable demo_appended.
Proof.
  eapply (reach_step blank (OpOpen demo_mem 100 (Z.lor O_CREAT O_APPEND) 0) 3);
    [apply blank_reachable| |].
  - split; [apply demo_mem_bytes|vm_compute; reflexivity].
  - vm_compute. reflexivity.
Qed.

Definition is_ret {A} (r : res A) : bool := match r with Ret _ => true | _ => false end.

Lemma bmfs_reachable_safe_witness :
  exists r st', bmfs_exec (OpRead 3 2) demo_written = Ret (r, st') /\ fs_inv st'.
Proof.
  apply (proj2 (bmfs_reachable_safe demo_written demo_written_reachable) (OpRead 3 2)).
  split; [vm_compute; reflexivity|lia].
Defined.

Lemma bmfs_open_contract_witness :
  exists r st', bmfs_open demo_written demo_mem 100 0 0 = Ret (r, st') /\
    open_post (disk_dir (disk demo_written)) (files demo_written) (cname demo_mem (bmfs_name demo_mem 100)) 0 r (disk_dir (disk st')) (files st').
Proof.
  destruct (bmfs_open_contract demo_written demo_mem 100 0 0 demo_written_reachable demo_mem_bytes) as (r & st' & E & P & _).
  - intros i e Hi _. revert i e Hi. apply (Forall_lookup (fun e => de_start_block e + de_reserved_blocks e < BLOCK_LIMIT)).
    apply (bool_decide_unpack _). vm_compute. exact I.
  - exists r, st'. split; [exact E|]. apply P. split_and!; reflexivity.
Defined.

Lemma bmfs_write_refines_witness :
  exists st', bmfs_write demo_opened 3 demo_data 3 = Ret (3, st').
Proof.
  destruct (bmfs_write_refines demo_opened 3 _ demo_data 3 demo_opened_reachable
    ltac:(vm_compute; reflexivity) demo_file ltac:(lia) demo_data_bytes) as (st' & E & _).
  exists st'. exact E.
Defined.

Lemma bmfs_read_refines_witness :
  exists st', bmfs_read demo_written 3 5 = Ret (0, [], st').
Proof.
  destruct (bmfs_read_refines demo_written 3 _ 5 demo_written_reachable
    ltac:(vm_compute; reflexivity) demo_file_written ltac:(lia)) as (st' & E & _).
  exists st'. exact E.
Defined.

Lemma bmfs_write_read_back_witness :
  exists st',
    (let* (n, st1) := bmfs_write demo_opened 3 demo_data 3 in
     let* (_, st2) := bmfs_lseek st1 3 0 0 in
     bmfs_read st2 3 n) = Ret (3, [72; 105; 33], st').
Proof.
  apply (bmfs_write_read_back demo_opened 3 _ demo_data 3 demo_opened_reachable
    ltac:(vm_compute; reflexivity) demo_file ltac:(lia) demo_data_bytes).
  vm_compute. reflexivity.
Defined.

Lemma bmfs_write_isolated_witness :
  exists n st', bmfs_write demo_opened 3 demo_data 3 = Ret (n, st') /\
    disk_dir (disk st') = disk_dir (disk demo_opened).
Proof.
  destruct (bmfs_write_isolated demo_opened 3 _ demo_data 3 demo_opened_reachable
    ltac:(vm_compute; reflexivity) demo_file ltac:(lia) demo_data_bytes) as (n & st' & E & Hd & _).
  exists n, st'. split; [exact E|exact Hd].
Defined.

Lemma bmfs_append_always_witness :
  exists st' g,
    (let* (_, st1) := bmfs_lseek demo_appended 3 1000 0 in bmfs_write st1 3 demo_data 3) =
      Ret (3, st') /\
    files st' !! fd_slot 3 = Some g /\ f_size g = 3.
Proof.
  destruct (bmfs_append_always demo_appended 3 (mkFile true false true 0 1 1 0 0) 1000 demo_data 3
    demo_appended_reachable ltac:(vm_compute; reflexivity) ltac:(vm_compute; reflexivity)
    eq_refl ltac:(lia) ltac:(lia) demo_data_bytes ltac:(vm_compute; discriminate))
    as (st' & g & E & Hg & Hz & _).
  exists st', g. split; [exact E|]. split; [exact Hg|exact Hz].
Defined.

Lemma bmfs_write_empty_enospc_witness :
  exists st', bmfs_write demo_opened 3 demo_data 0 = Ret (- ENOSPC, st').
Proof.
  apply (bmfs_write_empty_enospc demo_opened 3 _ demo_data demo_opened_reachable
    ltac:(vm_compute; reflexivity) demo_file demo_data_bytes).
Defined.

Lemma blank_no_entry nm : no_entry (disk_dir (∅ : ramdisk)) nm.
Proof.
  rewrite blank_dir. intros i e [-> _]%lookup_replicate Hu. by apply zero_dirent_unused in Hu.
Qed.

Lemma blank_has_room : ~ Forall used_entry (disk_dir (∅ : ramdisk)).
Proof.
  rewrite blank_dir. intros H. apply zero_dirent_unused.
  apply (Forall_lookup_1 _ _ 0%nat zero_dirent) in H; [done|]. by apply lookup_replicate_2; lia.
Qed.

Lemma bmfs_persistent_witness :
  exists st st',
    (let* (fd, st1) := bmfs_open blank demo_mem 100 O_CREAT 0 in
     let* (n, st2) := bmfs_write st1 fd demo_data 3 in
     let* (_, st3) := bmfs_close st2 fd in Ret (n, st3)) = Ret (3, st) /\
    (let* (fd, st4) := bmfs_open (bmfs_boot (disk st)) demo_mem 100 0 0 in
     bmfs_read st4 fd 10) = Ret (3, [72; 105; 33], st').
Proof.
  apply (bmfs_persistent (∅ : ramdisk) demo_mem 100 demo_data 3 10).
  - apply blank_dir_ok.
  - apply demo_mem_bytes.
  - vm_compute. reflexivity.
  - apply blank_no_entry.
  - apply blank_has_room.
  - vm_compute. reflexivity.
  - apply demo_data_bytes.
  - unfold BMFS_BLOCK_BYTES, BMFS_BLOCK_SECTORS, BMFS_SECTOR_BYTES. lia.
  - lia.
Defined.

Lemma bmfs_unlink_contract_witness :
  exists r st', bmfs_unlink blank demo_mem 100 = Ret (r, st') /\ fs_inv st'.
Proof.
  destruct (bmfs_unlink_contract blank demo_mem 100 blank_reachable demo_mem_bytes)
    as (r & st' & E & H & _).
  - apply Forall_replicate. intros Hu. discriminate Hu.
  - exists r, st'. split; [exact E|exact H].
Defined.
