(* ===== verification/Heap.v ===== *)
(** * The heap of src/app/posix_shim.c: brk and anonymous mmap

    One bump pointer serves both calls.  Pointers are 64-bit addresses and
    pointer arithmetic wraps; the addresses of the linker symbols and the size
    the kernel reports are the variables of the section. *)
From S2P Require Import Prelude.
From Stdlib Require Import Sorting.Sorted.

Definition ENOMEM : Z := 12.
Definition ENODEV : Z := 19.
Definition MAP_ANONYMOUS : Z := 32.

(** [heap_cur] and [heap_end]; a null [heap_cur] means not initialised yet. *)
Record heap := mkHeap {
  heap_cur : Z;
  heap_end : Z;
}.

Definition heap_boot : heap := mkHeap 0 0.

Section Heap.
(** [__bss_stop], [__image_base] and [b_system(FREE_MEMORY, 0, 0)]. *)
Variables bss_stop image_base app_ram_mib : Z.

Definition heap_init (h : heap) : heap :=
  if truth (heap_cur h) then h
  else mkHeap bss_stop (u64 (image_base + u64 (u64 (app_ram_mib * 1024) * 1024))).

Definition sys_brk (addr : Z) (h : heap) : Z * heap :=
  let h := heap_init h in
  let req := u64 addr in
  let h := if (req >=? bss_stop) && (req <=? heap_end h)
           then mkHeap req (heap_end h) else h in
  (i64 (heap_cur h), h).

Definition heap_alloc (n : Z) (h : heap) : Z * heap :=
  let h := heap_init h in
  let p := heap_cur h in
  if (u64 (p + n) >? heap_end h) || (u64 (p + n) <? p) then (0, h)
  else (p, mkHeap (u64 (p + n)) (heap_end h)).

(** [((size_t)len + 4095) & ~(size_t)4095] *)
Definition page_round (len : Z) : Z := Z.land (u64 (u64 len + 4095)) (u64 (Z.lnot 4095)).

Definition sys_mmap (addr len prot flags fd off : Z) (h : heap) : Z * heap :=
  if negb (has_flag flags MAP_ANONYMOUS) || (len <=? 0) then (- ENODEV, h)
  else
    let '(p, h) := heap_alloc (page_round len) h in
    if p =? 0 then (- ENOMEM, h) else (i64 p, h).

Definition sys_munmap (addr len : Z) (h : heap) : Z * heap := (0, h).

(** ** The arena *)

(** What the linker script and the kernel guarantee: .bss ends inside the
    mapped window, which does not reach the last page of the address space
    (c.ld puts the image at 0xFFFF800000000000). *)
Definition window_end : Z := image_base + app_ram_mib * 1048576.
Context (Hbss : 0 < bss_stop) (Himg : 0 <= image_base) (Hram : 0 <= app_ram_mib)
  (Hwin : bss_stop <= window_end <= 18446744073709547520).

Definition heap_ok (h : heap) : Prop :=
  h = heap_boot \/ bss_stop <= heap_cur h <= window_end /\ heap_end h = window_end.

Lemma heap_init_ok h : heap_ok h ->
  bss_stop <= heap_cur (heap_init h) <= window_end /\ heap_end (heap_init h) = window_end.
Proof.
  intros H. unfold heap_init, truth. destruct (Z.eqb_spec (heap_cur h) 0) as [E|E]; simpl.
  - unfold window_end in *. rewrite (u64_small (app_ram_mib * 1024)) by lia.
    rewrite (u64_small (app_ram_mib * 1024 * 1024)), u64_small by lia. lia.
  - destruct H as [->|H]; [done|lia].
Qed.

Lemma heap_init_cur h : heap_ok h ->
  heap_init h = mkHeap (heap_cur (heap_init h)) window_end.
Proof. intros H%heap_init_ok. destruct (heap_init h). simpl in *. f_equal. lia. Qed.

Lemma page_round_eq len : 0 <= len < 18446744073709551616 - 4095 ->
  page_round len = (len + 4095) / 4096 * 4096.
Proof.
  intros H. unfold page_round. rewrite (u64_small len), (u64_small (len + 4095)) by lia.
  replace (u64 (Z.lnot 4095)) with (Z.land (Z.ones 64) (Z.lnot (Z.ones 12))) by done.
  rewrite Z.land_assoc, Z.land_ones, Z.mod_small, <- Z.ldiff_land by lia.
  rewrite Z.ldiff_ones_r, Z.shiftl_mul_pow2, Z.shiftr_div_pow2 by lia. done.
Qed.

Lemma heap_alloc_spec n h : heap_ok h -> 0 <= n < 18446744073709551616 ->
  let cur := heap_cur (heap_init h) in
  heap_alloc n h =
    if cur + n <=? window_end then (cur, mkHeap (cur + n) window_end)
    else (0, mkHeap cur window_end).
Proof.
  intros H Hn. pose proof (heap_init_ok h H) as [Hc He].
  unfold heap_alloc. rewrite (heap_init_cur h H). cbn [heap_cur heap_end].
  rewrite Z.gtb_ltb. set (c := heap_cur (heap_init h)) in *.
  destruct (decide (c + n < 18446744073709551616)).
  - rewrite !(u64_small (c + n)) by lia.
    destruct (Z.ltb_spec window_end (c + n)), (Z.ltb_spec (c + n) c),
      (Z.leb_spec (c + n) window_end); simpl; try lia; done.
  - replace (u64 (c + n)) with (c + n - 18446744073709551616) by (unfold u64; zdiv).
    destruct (Z.ltb_spec (c + n - 18446744073709551616) c),
      (Z.leb_spec (c + n) window_end); rewrite ?orb_true_r; try lia; done.
Qed.

(** The bytes [mmap] takes for a request of [len]. *)
Definition pages (len : Z) : Z := (len + 4095) / 4096 * 4096.

Lemma pages_spec len : len <= pages len < len + 4096 /\ pages len mod 4096 = 0.
Proof. unfold pages. split; [zdiv|]. by rewrite Z_mod_mult. Qed.

Lemma sys_mmap_spec addr len prot flags fd off h : heap_ok h ->
  0 < len < 9223372036854775808 -> has_flag flags MAP_ANONYMOUS = true ->
  let cur := heap_cur (heap_init h) in
  sys_mmap addr len prot flags fd off h =
    if cur + pages len <=? window_end then (i64 cur, mkHeap (cur + pages len) window_end)
    else (- ENOMEM, mkHeap cur window_end).
Proof.
  intros H Hl Hf. pose proof (heap_init_ok h H) as [Hc He]. pose proof (pages_spec len) as [Hp _].
  unfold sys_mmap. rewrite Hf. destruct (Z.leb_spec len 0); [lia|]. simpl.
  rewrite page_round_eq by lia. fold (pages len). rewrite heap_alloc_spec by (done || lia).
  destruct (Z.leb_spec (heap_cur (heap_init h) + pages len) window_end); simpl; [|done].
  destruct (Z.eqb_spec (heap_cur (heap_init h)) 0); [lia|done].
Qed.

(** ** Operations and runs *)
Inductive heap_op : Type :=
  | HBrk (addr : Z)
  | HMmap (addr len prot flags fd off : Z)
  | HMunmap (addr len : Z).

Definition heap_exec (op : heap_op) (h : heap) : Z * heap :=
  match op with
  | HBrk a => sys_brk a h
  | HMmap a l p f fd o => sys_mmap a l p f fd o h
  | HMunmap a l => sys_munmap a l h
  end.

Lemma heap_alloc_ok n h : heap_ok h -> heap_ok (snd (heap_alloc n h)).
Proof.
  intros H. pose proof (heap_init_ok h H) as [Hc He]. right. unfold heap_alloc.
  rewrite Z.gtb_ltb. destruct (Z.ltb_spec (heap_end (heap_init h)) (u64 (heap_cur (heap_init h) + n))),
    (Z.ltb_spec (u64 (heap_cur (heap_init h) + n)) (heap_cur (heap_init h))); simpl; lia.
Qed.

Lemma heap_exec_ok op h : heap_ok h -> heap_ok (snd (heap_exec op h)).
Proof.
  intros H. destruct op as [a|a l p f fd o|a l]; simpl; [| |done].
  - pose proof (heap_init_ok h H) as [Hc He]. right. rewrite Z.geb_leb.
    destruct (Z.leb_spec bss_stop (u64 a)), (Z.leb_spec (u64 a) (heap_end (heap_init h)));
      simpl; lia.
  - unfold sys_mmap. destruct (negb _ || _); [done|].
    pose proof (heap_alloc_ok (page_round l) h H) as H'.
    destruct (heap_alloc _ h) as [q h']; simpl in *. by destruct (q =? 0).
Qed.

Definition heap_run (ops : list heap_op) : heap :=
  foldl (fun h op => snd (heap_exec op h)) heap_boot ops.

Lemma heap_run_ok ops : heap_ok (heap_run ops).
Proof.
  unfold heap_run. assert (heap_ok heap_boot) as H by by left. revert H.
  generalize heap_boot. induction ops as [|op ops IH]; simpl; intros h H; [done|].
  by apply IH, heap_exec_ok.
Qed.

(** C35. After any sequence of brk, mmap and munmap calls the break lies
    between the end of .bss and the end of the mapped window, and brk keeps
    the Linux contract: a request inside that range moves the break there
    and is returned, any other leaves the break alone and returns it. *)
Theorem heap_brk_contract ops addr :
  0 <= addr < 18446744073709551616 ->
  let h := heap_run ops in
  heap_ok h /\
  sys_brk addr h =
    if (bss_stop <=? addr) && (addr <=? window_end) then (i64 addr, mkHeap addr window_end)
    else (i64 (heap_cur (heap_init h)), mkHeap (heap_cur (heap_init h)) window_end).
Proof.
  intros Ha h. pose proof (heap_run_ok ops) as H. fold h in H.
  pose proof (heap_init_ok h H) as [Hc He]. split; [done|].
  unfold sys_brk. rewrite (heap_init_cur h H). cbn [heap_cur heap_end].
  rewrite (u64_small addr), Z.geb_leb by lia.
  by destruct (Z.leb_spec bss_stop addr), (Z.leb_spec addr window_end).
Qed.

(** [__syscall_ret]: a result in the last page is an error number. *)
Definition syscall_failed (r : Z) : bool := u64 r >? u64 (-4096).

Lemma address_not_failed c : bss_stop <= c <= window_end ->
  syscall_failed (i64 c) = false /\ u64 (i64 c) = c.
Proof.
  intros Hc. unfold syscall_failed. rewrite u64_i64, u64_small, Z.gtb_ltb by lia.
  change (u64 (-4096)) with 18446744073709547520.
  split; [|done]. apply Z.ltb_ge. lia.
Qed.

(** Anonymous mmap calls with a positive length, and munmap calls. *)
Definition map_op (op : heap_op) : Prop :=
  match op with
  | HMmap _ len _ flags _ _ => has_flag flags MAP_ANONYMOUS = true /\ 0 < len < 9223372036854775808
  | HMunmap _ _ => True
  | HBrk _ => False
  end.
(** The regions the successful mmap calls of a sequence hand out. *)
Fixpoint regions (ops : list heap_op) (h : heap) : list (Z * Z) :=
  match ops with
  | [] => []
  | op :: r =>
      let '(p, h') := heap_exec op h in
      match op with
      | HMmap _ len _ _ _ _ => if syscall_failed p then regions r h' else (u64 p, pages len) :: regions r h'
      | _ => regions r h'
      end
  end.

Definition before (a b : Z * Z) : Prop := a.1 + a.2 <= b.1.

Lemma regions_sorted ops h : heap_ok h -> Forall map_op ops ->
  Forall (fun r => heap_cur (heap_init h) <= r.1 /\ r.1 + r.2 <= window_end /\ r.2 mod 4096 = 0) (regions ops h) /\
  StronglySorted before (regions ops h).
Proof.
  intros H Hl. revert h H. induction Hl as [|op ops Hop _ IH]; intros h H;
    [by split; constructor|].
  destruct op as [|addr len prot flags fd off|]; [done| |by apply IH]. destruct Hop as [Hf Hlen].
  cbn [regions heap_exec]. rewrite sys_mmap_spec by done.
  pose proof (heap_init_ok h H) as [Hc He]. pose proof (pages_spec len) as [Hp Hp0].
  assert (forall c, bss_stop <= c <= window_end -> heap_ok (mkHeap c window_end) /\
    heap_cur (heap_init (mkHeap c window_end)) = c) as Hok.
  { intros c Hcc. split; [by right|]. unfold heap_init, truth. cbn [heap_cur].
    destruct (Z.eqb_spec c 0); [lia|done]. }
  destruct (Z.leb_spec (heap_cur (heap_init h) + pages len) window_end) as [Hle|Hgt].
  - destruct (address_not_failed (heap_cur (heap_init h))) as [-> ->]; [lia|].
    destruct (Hok (heap_cur (heap_init h) + pages len)) as [H' Hcur]; [lia|].
    destruct (IH _ H') as [IH1 IH2]. rewrite Hcur in IH1. split; constructor; simpl; try lia.
    + eapply Forall_impl; [exact IH1|]. simpl. lia.
    + done.
    + eapply Forall_impl; [exact IH1|]. unfold before. simpl. lia.
  - change (syscall_failed (- ENOMEM)) with true. cbn iota. destruct (Hok (heap_cur (heap_init h))) as [H' Hcur]; [lia|].
    destruct (IH _ H') as [IH1 IH2]. by rewrite Hcur in IH1.
Qed.

(** C34. Whatever happened before, the regions that a sequence of anonymous mmap
    calls, with munmap calls between them, hands out are whole
    numbers of pages, lie inside the mapped window above the current break,
    and are pairwise disjoint.  In every reachable state an anonymous mmap of
    a positive length returns the current break if the window has room for the rounded size and -ENOMEM if not,
    one that is not anonymous or has no length returns -ENODEV, and munmap
    returns 0 and gives nothing back. *)
Theorem heap_mmap_disjoint ops maps :
  Forall map_op maps ->
  let h := heap_run ops in
  let cur := heap_cur (heap_init h) in
  let rs := regions maps h in
  Forall (fun r => cur <= r.1 /\ r.1 + r.2 <= window_end /\ r.2 mod 4096 = 0) rs /\
  StronglySorted before rs /\
  (forall addr len prot flags fd off, len < 9223372036854775808 ->
    fst (sys_mmap addr len prot flags fd off h) =
      if decide (has_flag flags MAP_ANONYMOUS = true /\ 0 < len)
      then if decide (cur + pages len <= window_end) then i64 cur else - ENOMEM
      else - ENODEV) /\
  (forall addr len, sys_munmap addr len h = (0, h)).
Proof.
  intros Hl h cur rs. pose proof (heap_run_ok ops) as H. fold h in H.
  destruct (regions_sorted maps h H Hl) as [H1 H2].
  split; [done|]. split; [done|]. split; [|done]. intros addr len prot flags fd off Hlen. destruct (decide _) as [[Hf Hp]|Hn].
  - rewrite sys_mmap_spec by done. fold cur.
    destruct (Z.leb_spec (cur + pages len) window_end), (decide (cur + pages len <= window_end)); (done || lia).
  - unfold sys_mmap. destruct (has_flag flags MAP_ANONYMOUS) eqn:Hf; [|done]. destruct (Z.leb_spec len 0); [done|]. by destruct Hn.
Qed.
End Heap.

(** ** Instances: the image base of c.ld, 128 KiB of image, 4 MiB of RAM *)
Definition IMAGE_BASE : Z := 0xFFFF800000000000.
Definition BSS_STOP : Z := IMAGE_BASE + 131072.
Definition demo_maps : list heap_op := [HMmap 0 1 3 34 (-1) 0; HMunmap IMAGE_BASE 4096; HMmap 0 5000 3 34 (-1) 0; HMmap 0 200000 3 34 (-1) 0].

Lemma heap_brk_contract_witness :
  sys_brk BSS_STOP IMAGE_BASE 4 (BSS_STOP + 65536)
    (heap_run BSS_STOP IMAGE_BASE 4 [HMmap 0 4096 3 34 (-1) 0]) =
    (i64 (BSS_STOP + 65536), mkHeap (BSS_STOP + 65536) (IMAGE_BASE + 4194304)).
Proof.
  apply (heap_brk_contract BSS_STOP IMAGE_BASE 4); unfold window_end, BSS_STOP, IMAGE_BASE; lia.
Defined.

Lemma heap_mmap_disjoint_witness :
  StronglySorted before (regions BSS_STOP IMAGE_BASE 4 demo_maps (heap_run BSS_STOP IMAGE_BASE 4 [])).
Proof.
  apply (heap_mmap_disjoint BSS_STOP IMAGE_BASE 4 ltac:(unfold BSS_STOP, IMAGE_BASE; lia)
    ltac:(unfold IMAGE_BASE; lia) ltac:(lia)
    ltac:(unfold window_end, BSS_STOP, IMAGE_BASE; lia) [] demo_maps).
  unfold demo_maps. repeat constructor; lia.
Defined.

(** brk and mmap share one pointer, so brk can hand out mapped memory: a
    caller that remembers its break, maps a page and then extends its break by
    a page (as mallocng's [alloc_meta] does) is given, by brk, the very
    page the mmap returned. *)
Theorem heap_brk_mmap_overlap :
  let '(old, h1) := sys_brk BSS_STOP IMAGE_BASE 4 0 heap_boot in
  let '(page, h2) := sys_mmap BSS_STOP IMAGE_BASE 4 0 4096 3 34 (-1) 0 h1 in
  let '(brk', _) := sys_brk BSS_STOP IMAGE_BASE 4 (old + 4096) h2 in
  old <= page /\ page + 4096 <= brk' /\ brk' = old + 4096.
Proof. vm_compute. repeat split; discriminate. Qed.
