(* ===== verification/Pbuf.v ===== *)
(** * Packet buffers: lwip-2.2.0/src/core/pbuf.c

    The pbufs live in a heap indexed by address; payloads are addresses in the
    flat memory.  Dereferencing an address that holds no pbuf (NULL, or a pbuf
    that was freed) and failing an LWIP_ASSERT are [Undef].  A loop over a chain
    gets one unit of fuel per live pbuf and one more, and runs out only on a
    cyclic chain. *)
From S2P Require Import Prelude.

(** ** Constants *)
Definition ERR_OK : Z := 0.
Definition ERR_MEM : Z := -1.
Definition ERR_VAL : Z := -6.
Definition ERR_ARG : Z := -16.

(** pbuf_layer, with PBUF_LINK_HLEN = 14 and no encapsulation header *)
Definition PBUF_TRANSPORT : Z := 54.
Definition PBUF_IP : Z := 34.
Definition PBUF_LINK : Z := 14.
Definition PBUF_RAW : Z := 0.

Inductive pbuf_type := PBUF_RAM | PBUF_ROM | PBUF_REF | PBUF_POOL.
Definition pbuf_type_val (t : pbuf_type) : Z :=
  match t with PBUF_RAM => 0x280 | PBUF_ROM => 0x01 | PBUF_REF => 0x41 | PBUF_POOL => 0x182 end.
Definition PBUF_TYPE_FLAG_STRUCT_DATA_CONTIGUOUS : Z := 0x80.
Definition PBUF_TYPE_ALLOC_SRC_MASK : Z := 0x0F.
Definition PBUF_FLAG_IS_CUSTOM : Z := 0x02.
Definition PBUF_FLAG_TCP_FIN : Z := 0x20.

(** LWIP_MEM_ALIGN_SIZE and LWIP_MEM_ALIGN with MEM_ALIGNMENT = 4 *)
Definition MEM_ALIGN_SIZE (n : Z) : Z := Z.land (u32 (n + 3)) (u32 (Z.lnot 3)).
Definition MEM_ALIGN (a : Z) : Z := Z.land (u64 (a + 3)) (u64 (Z.lnot 3)).
(** [sizeof(struct pbuf)] on x86-64 *)
Definition SIZEOF_STRUCT_PBUF : Z := MEM_ALIGN_SIZE 24.
(** TCP_MSS + IP and TCP headers + link header, aligned *)
Definition PBUF_POOL_BUFSIZE_ALIGNED : Z := MEM_ALIGN_SIZE (1460 + 20 + 20 + 14).

(** ** Data *)
Record pbuf := mkPbuf {
  next : Z;
  payload : Z;
  p_tot_len : Z;
  p_len : Z;
  type_internal : Z;
  p_flags : Z;
  p_ref : Z;
  if_idx : Z;
}.

Definition set_next (v : Z) (b : pbuf) : pbuf :=
  mkPbuf v (payload b) (p_tot_len b) (p_len b) (type_internal b) (p_flags b) (p_ref b) (if_idx b).
Definition set_tot_len (v : Z) (b : pbuf) : pbuf :=
  mkPbuf (next b) (payload b) v (p_len b) (type_internal b) (p_flags b) (p_ref b) (if_idx b).
Definition set_ref (v : Z) (b : pbuf) : pbuf :=
  mkPbuf (next b) (payload b) (p_tot_len b) (p_len b) (type_internal b) (p_flags b) v (if_idx b).
(** [p->payload], [p->len] and [p->tot_len] together, as the header functions set them. *)
Definition set_data (pl len tot : Z) (b : pbuf) : pbuf :=
  mkPbuf (next b) pl tot len (type_internal b) (p_flags b) (p_ref b) (if_idx b).

Record pheap := mkPheap {
  pbufs : gmap Z pbuf;
  pmem : memory;
}.

Definition NULL : Z := 0.

Definition pget (h : pheap) (p : Z) : res pbuf :=
  if p =? NULL then Undef else res_of_option (pbufs h !! p).
Definition pset (p : Z) (b : pbuf) (h : pheap) : pheap := mkPheap (<[p := b]> (pbufs h)) (pmem h).
Definition pdel (p : Z) (h : pheap) : pheap := mkPheap (delete p (pbufs h)) (pmem h).
Definition set_pmem (m : memory) (h : pheap) : pheap := mkPheap (pbufs h) m.

Definition chain_fuel (h : pheap) : nat := S (size (pbufs h)).

(** [LWIP_ASSERT(e)]: prints and aborts. *)
Definition lwip_assert {A} (e : bool) (k : res A) : res A := if e then k else Undef.

Definition pbuf_init_alloced_pbuf (pl tot len : Z) (t : pbuf_type) (flags : Z) : pbuf :=
  mkPbuf NULL pl tot len (u8 (pbuf_type_val t)) flags 1 0.

Section Pbuf.
(** [pc->custom_free_function] of a custom pbuf (ip4_frag.c sets it). *)
Variable custom_free : Z -> pheap -> res pheap.

(** ** Reference counts *)
Fixpoint pbuf_free_loop (fuel : nat) (p count : Z) (h : pheap) : res (Z * pheap) :=
  match fuel with
  | O => NoFuel
  | S k =>
      if p =? NULL then Ret (count, h)
      else
        let* b := pget h p in
        lwip_assert (p_ref b >? 0) (
          let ref := p_ref b - 1 in
          let h := pset p (set_ref ref b) h in
          if ref =? 0 then
            let q := next b in
            let alloc_src := Z.land (type_internal b) PBUF_TYPE_ALLOC_SRC_MASK in
            let* h :=
              if has_flag (p_flags b) PBUF_FLAG_IS_CUSTOM then custom_free p h
              else lwip_assert ((alloc_src =? 2) || (alloc_src =? 1) || (alloc_src =? 0))
                     (Ret (pdel p h)) in
            pbuf_free_loop k q (u8 (count + 1)) h
          else Ret (count, h))
  end.

Definition pbuf_free (p : Z) (h : pheap) : res (Z * pheap) :=
  lwip_assert (negb (p =? NULL)) (pbuf_free_loop (chain_fuel h) p 0 h).

Definition pbuf_ref (p : Z) (h : pheap) : res pheap :=
  if p =? NULL then Ret h
  else
    let* b := pget h p in
    let r := u8 (p_ref b + 1) in
    lwip_assert (r >? 0) (Ret (pset p (set_ref r b) h)).

(** ** Allocation

    [addrs] is what the successive calls of malloc return (0: failure); what
    is left of it is returned. *)
Definition alloc_addr (addrs : list Z) : Z * list Z :=
  match addrs with [] => (NULL, []) | a :: r => (a, r) end.

Definition pbuf_alloc_reference (pl length : Z) (t : pbuf_type) (addrs : list Z) (h : pheap)
  : res (Z * list Z * pheap) :=
  lwip_assert (match t with PBUF_REF | PBUF_ROM => true | _ => false end) (
    let '(p, addrs) := alloc_addr addrs in
    if p =? NULL then Ret (NULL, addrs, h)
    else Ret (p, addrs, pset p (pbuf_init_alloced_pbuf pl length length t 0) h)).

(** The do-while of the PBUF_POOL case; [p] and [last] as in the source. *)
Fixpoint pbuf_alloc_pool (fuel : nat) (p last offset rem_len : Z) (addrs : list Z) (h : pheap)
  : res (Z * list Z * pheap) :=
  match fuel with
  | O => NoFuel
  | S k =>
      let '(q, addrs) := alloc_addr addrs in
      if q =? NULL then
        if negb (p =? NULL) then
          let* (_, h) := pbuf_free p h in Ret (NULL, addrs, h)
        else Ret (NULL, addrs, h)
      else
        let qlen := Z.min rem_len (u16 (PBUF_POOL_BUFSIZE_ALIGNED - MEM_ALIGN_SIZE offset)) in
        let pl := MEM_ALIGN (u64 (q + SIZEOF_STRUCT_PBUF + offset)) in
        let h := pset q (pbuf_init_alloced_pbuf pl rem_len qlen PBUF_POOL 0) h in
        lwip_assert (pl mod 4 =? 0) (
          lwip_assert (u32 (PBUF_POOL_BUFSIZE_ALIGNED - MEM_ALIGN_SIZE offset) >? 0) (
            let* h :=
              if p =? NULL then Ret h
              else let* b := pget h last in Ret (pset last (set_next q b) h) in
            let p := if p =? NULL then q else p in
            let rem_len := u16 (rem_len - qlen) in
            if rem_len >? 0 then pbuf_alloc_pool k p q 0 rem_len addrs h
            else Ret (p, addrs, h)))
  end.

Definition pbuf_alloc (layer length : Z) (t : pbuf_type) (addrs : list Z) (h : pheap)
  : res (Z * list Z * pheap) :=
  let offset := u16 layer in
  match t with
  | PBUF_REF | PBUF_ROM => pbuf_alloc_reference NULL length t addrs h
  | PBUF_POOL => pbuf_alloc_pool (S (Z.to_nat length)) NULL NULL offset length addrs h
  | PBUF_RAM =>
      let payload_len := u64 (MEM_ALIGN_SIZE offset + MEM_ALIGN_SIZE length) in
      let alloc_len := u64 (MEM_ALIGN_SIZE SIZEOF_STRUCT_PBUF + payload_len) in
      if (payload_len <? MEM_ALIGN_SIZE length) || (alloc_len <? MEM_ALIGN_SIZE length)
      then Ret (NULL, addrs, h)
      else
        let '(p, addrs) := alloc_addr addrs in
        if p =? NULL then Ret (NULL, addrs, h)
        else
          let pl := MEM_ALIGN (u64 (p + SIZEOF_STRUCT_PBUF + offset)) in
          lwip_assert (pl mod 4 =? 0)
            (Ret (p, addrs, pset p (pbuf_init_alloced_pbuf pl length length PBUF_RAM 0) h))
  end.

(** ** Trimming and headers *)
Fixpoint realloc_walk (fuel : nat) (q rem_len shrink : Z) (h : pheap) : res (Z * Z * pheap) :=
  match fuel with
  | O => NoFuel
  | S k =>
      let* b := pget h q in
      if rem_len >? p_len b then
        let h := pset q (set_tot_len (u16 (p_tot_len b - shrink)) b) h in
        lwip_assert (negb (next b =? NULL))
          (realloc_walk k (next b) (u16 (rem_len - p_len b)) shrink h)
      else Ret (q, rem_len, h)
  end.

(** [mem_trim] returns its argument under MEM_LIBC_MALLOC. *)
Definition pbuf_realloc (p new_len : Z) (h : pheap) : res pheap :=
  lwip_assert (negb (p =? NULL)) (
    let* b := pget h p in
    if new_len >=? p_tot_len b then Ret h
    else
      let shrink := u16 (p_tot_len b - new_len) in
      let* (q, rem_len, h) := realloc_walk (chain_fuel h) p new_len shrink h in
      let* b := pget h q in
      let b := set_data (payload b) rem_len rem_len b in
      let h := pset q b h in
      let* h :=
        if negb (next b =? NULL) then let* (_, h) := pbuf_free (next b) h in Ret h
        else Ret h in
      let* b := pget h q in
      Ret (pset q (set_next NULL b) h)).

Definition pbuf_add_header_impl (p inc : Z) (force : bool) (h : pheap) : res (Z * pheap) :=
  lwip_assert (negb (p =? NULL)) (
    if inc >? 0xFFFF then Ret (1, h)
    else if inc =? 0 then Ret (0, h)
    else
      let* b := pget h p in
      if u16 (inc + p_tot_len b) <? inc then Ret (1, h)
      else
        let pl := u64 (payload b - inc) in
        let grow := Ret (0, pset p (set_data pl (u16 (p_len b + inc)) (u16 (p_tot_len b + inc)) b) h) in
        if has_flag (type_internal b) PBUF_TYPE_FLAG_STRUCT_DATA_CONTIGUOUS then
          if pl <? u64 (p + SIZEOF_STRUCT_PBUF) then Ret (1, h) else grow
        else if force then grow else Ret (1, h)).

Definition pbuf_add_header (p inc : Z) (h : pheap) := pbuf_add_header_impl p inc false h.
Definition pbuf_add_header_force (p inc : Z) (h : pheap) := pbuf_add_header_impl p inc true h.

Definition pbuf_remove_header (p dec : Z) (h : pheap) : res (Z * pheap) :=
  lwip_assert (negb (p =? NULL)) (
    if dec >? 0xFFFF then Ret (1, h)
    else if dec =? 0 then Ret (0, h)
    else
      let* b := pget h p in
      if dec <=? p_len b then
        Ret (0, pset p (set_data (u64 (payload b + dec)) (u16 (p_len b - dec))
                          (u16 (p_tot_len b - dec)) b) h)
      else Ret (1, h)).

(** [inc] is an s16_t. *)
Definition pbuf_header_impl (p inc : Z) (force : bool) (h : pheap) : res (Z * pheap) :=
  if inc <? 0 then pbuf_remove_header p (- inc) h else pbuf_add_header_impl p inc force h.
Definition pbuf_header (p inc : Z) (h : pheap) := pbuf_header_impl p inc false h.

Fixpoint pbuf_free_header_loop (fuel : nat) (p free_left : Z) (h : pheap) : res (Z * pheap) :=
  match fuel with
  | O => NoFuel
  | S k =>
      if truth free_left && negb (p =? NULL) then
        let* b := pget h p in
        if free_left >=? p_len b then
          let h := pset p (set_next NULL b) h in
          let* (_, h) := pbuf_free p h in
          pbuf_free_header_loop k (next b) (u16 (free_left - p_len b)) h
        else
          let* (_, h) := pbuf_remove_header p free_left h in
          pbuf_free_header_loop k p 0 h
      else Ret (p, h)
  end.
Definition pbuf_free_header (q size : Z) (h : pheap) : res (Z * pheap) :=
  pbuf_free_header_loop (S (chain_fuel h)) q size h.

(** ** Chains *)
Fixpoint pbuf_clen_loop (fuel : nat) (p len : Z) (h : pheap) : res Z :=
  match fuel with
  | O => NoFuel
  | S k => if p =? NULL then Ret len
           else let* b := pget h p in pbuf_clen_loop k (next b) (u16 (len + 1)) h
  end.
Definition pbuf_clen (p : Z) (h : pheap) : res Z := pbuf_clen_loop (chain_fuel h) p 0 h.

(** The for loop of [pbuf_cat]; [t->tot_len] is re-read each time. *)
Fixpoint pbuf_cat_loop (fuel : nat) (p t : Z) (h : pheap) : res (Z * pheap) :=
  match fuel with
  | O => NoFuel
  | S k =>
      let* b := pget h p in
      if next b =? NULL then Ret (p, h)
      else
        let* tb := pget h t in
        pbuf_cat_loop k (next b) t (pset p (set_tot_len (u16 (p_tot_len b + p_tot_len tb)) b) h)
  end.

Definition pbuf_cat (hd t : Z) (h : pheap) : res pheap :=
  if (hd =? NULL) || (t =? NULL) then Ret h
  else
    let* (p, h) := pbuf_cat_loop (chain_fuel h) hd t h in
    let* b := pget h p in
    lwip_assert (p_tot_len b =? p_len b) (
      let* tb := pget h t in
      Ret (pset p (set_next t (set_tot_len (u16 (p_tot_len b + p_tot_len tb)) b)) h)).

Definition pbuf_chain (hd t : Z) (h : pheap) : res pheap :=
  let* h := pbuf_cat hd t h in pbuf_ref t h.

Definition pbuf_dechain (p : Z) (h : pheap) : res (Z * pheap) :=
  let* b := pget h p in
  let q := next b in
  let* (tail_gone, h) :=
    if negb (q =? NULL) then
      let* qb := pget h q in
      lwip_assert (p_tot_len qb =? p_tot_len b - p_len b) (
        let h := pset q (set_tot_len (u16 (p_tot_len b - p_len b)) qb) h in
        let h := pset p (set_tot_len (p_len b) (set_next NULL b)) h in
        pbuf_free q h)
    else Ret (1, h) in
  let* b := pget h p in
  lwip_assert (p_tot_len b =? p_len b) (Ret (if tail_gone >? 0 then NULL else q, h)).

(** ** Copying *)
Fixpoint copy_pbuf_loop (fuel : nat) (p_to p_from copy_len offset_to offset_from : Z) (h : pheap)
  : res (Z * pheap) :=
  match fuel with
  | O => NoFuel
  | S k =>
      let* bt := pget h p_to in
      let* bf := pget h p_from in
      let len := if u64 (p_len bt - offset_to) >=? u64 (p_len bf - offset_from)
                 then u64 (p_len bf - offset_from) else u64 (p_len bt - offset_to) in
      let len := Z.min copy_len len in
      let h := set_pmem (mem_write (pmem h) (payload bt + offset_to)
                           (mem_read (pmem h) (payload bf + offset_from) len)) h in
      let offset_to := u64 (offset_to + len) in
      let offset_from := u64 (offset_from + len) in
      let copy_len := u16 (copy_len - len) in
      lwip_assert (offset_to <=? p_len bt) (
      lwip_assert (offset_from <=? p_len bf) (
        let adv_from := offset_from >=? p_len bf in
        let p_from := if adv_from then next bf else p_from in
        let offset_from := if adv_from then 0 else offset_from in
        if adv_from && (p_from =? NULL) && truth copy_len then Ret (ERR_ARG, h)
        else
          let adv_to := offset_to =? p_len bt in
          let p_to := if adv_to then next bt else p_to in
          let offset_to := if adv_to then 0 else offset_to in
          if adv_to && (p_to =? NULL) && truth copy_len then Ret (ERR_ARG, h)
          else
            let* bad_from :=
              if p_from =? NULL then Ret false
              else let* b := pget h p_from in
                   Ret ((p_len b =? p_tot_len b) && negb (next b =? NULL)) in
            if (bad_from : bool) then Ret (ERR_VAL, h)
            else
              let* bad_to :=
                if p_to =? NULL then Ret false
                else let* b := pget h p_to in
                     Ret ((p_len b =? p_tot_len b) && negb (next b =? NULL)) in
              if (bad_to : bool) then Ret (ERR_VAL, h)
              else if truth copy_len
              then copy_pbuf_loop k p_to p_from copy_len offset_to offset_from h
              else Ret (ERR_OK, h)))
  end.

Definition pbuf_copy_partial_pbuf (p_to p_from copy_len offset : Z) (h : pheap)
  : res (Z * pheap) :=
  if p_from =? NULL then Ret (ERR_ARG, h)
  else
    let* bf := pget h p_from in
    if negb (p_tot_len bf >=? copy_len) || (p_to =? NULL) then Ret (ERR_ARG, h)
    else
      let* bt := pget h p_to in
      if negb (p_tot_len bt >=? offset + copy_len) then Ret (ERR_ARG, h)
      else copy_pbuf_loop (chain_fuel h + chain_fuel h) p_to p_from copy_len offset 0 h.

Definition pbuf_copy (p_to p_from : Z) (h : pheap) : res (Z * pheap) :=
  if p_from =? NULL then Ret (ERR_ARG, h)
  else let* b := pget h p_from in pbuf_copy_partial_pbuf p_to p_from (p_tot_len b) 0 h.

(** Returns the count and the bytes stored at [dataptr]. *)
Fixpoint copy_partial_loop (fuel : nat) (p len offset copied_total : Z) (out : list Z)
  (h : pheap) : res (Z * list Z) :=
  match fuel with
  | O => NoFuel
  | S k =>
      if truth len && negb (p =? NULL) then
        let* b := pget h p in
        if truth offset && (offset >=? p_len b)
        then copy_partial_loop k (next b) len (u16 (offset - p_len b)) copied_total out h
        else
          let n := u16 (p_len b - offset) in
          let n := if n >? len then len else n in
          copy_partial_loop k (next b) (u16 (len - n)) 0 (u16 (copied_total + n))
            (out ++ mem_read (pmem h) (payload b + offset) n) h
      else Ret (copied_total, out)
  end.
Definition pbuf_copy_partial (buf len offset : Z) (h : pheap) : res (Z * list Z) :=
  if buf =? NULL then Ret (0, []) else copy_partial_loop (chain_fuel h) buf len offset 0 [] h.

Fixpoint pbuf_skip_loop (fuel : nat) (q offset_left : Z) (h : pheap) : res (Z * Z) :=
  match fuel with
  | O => NoFuel
  | S k =>
      if q =? NULL then Ret (q, offset_left)
      else
        let* b := pget h q in
        if p_len b <=? offset_left
        then pbuf_skip_loop k (next b) (u16 (offset_left - p_len b)) h
        else Ret (q, offset_left)
  end.
(** The pbuf and the offset in it ([*out_offset]). *)
Definition pbuf_skip (p in_offset : Z) (h : pheap) : res (Z * Z) :=
  pbuf_skip_loop (chain_fuel h) p in_offset h.

(** The result: nothing, a pointer into a payload, or the bytes copied to [buffer]. *)
Inductive contiguous := CNone | CInPlace (a : Z) | CCopied (bs : list Z).
Definition pbuf_get_contiguous (p bufsize len offset : Z) (h : pheap) : res contiguous :=
  if (p =? NULL) || negb (bufsize >=? len) then Ret CNone
  else
    let* (q, out_offset) := pbuf_skip p offset h in
    if q =? NULL then Ret CNone
    else
      let* b := pget h q in
      if p_len b >=? out_offset + len then Ret (CInPlace (payload b + out_offset))
      else
        let* (n, bs) := pbuf_copy_partial q len out_offset h in
        if negb (n =? len) then Ret CNone else Ret (CCopied bs).

Fixpoint pbuf_take_loop (fuel : nat) (p : Z) (src : reader) (total copied : Z) (h : pheap)
  : res (Z * Z * pheap) :=
  match fuel with
  | O => NoFuel
  | S k =>
      if truth total then
        lwip_assert (negb (p =? NULL)) (
          let* b := pget h p in
          let n := if total >? p_len b then p_len b else total in
          let h := set_pmem (mem_write (pmem h) (payload b) (slice src copied n)) h in
          pbuf_take_loop k (next b) src (total - n) (copied + n) h)
      else Ret (total, copied, h)
  end.
Definition pbuf_take (buf : Z) (src : reader) (len : Z) (h : pheap) : res (Z * pheap) :=
  if buf =? NULL then Ret (ERR_ARG, h)
  else
    let* b := pget h buf in
    if negb (p_tot_len b >=? len) then Ret (ERR_MEM, h)
    else
      let* (total, copied, h) := pbuf_take_loop (S (chain_fuel h)) buf src len 0 h in
      lwip_assert ((total =? 0) && (copied =? len)) (Ret (ERR_OK, h)).

Definition pbuf_take_at (buf : Z) (src : reader) (len offset : Z) (h : pheap)
  : res (Z * pheap) :=
  let* (q, target) := pbuf_skip buf offset h in
  if q =? NULL then Ret (ERR_MEM, h)
  else
    let* b := pget h q in
    if p_tot_len b >=? target + len then
      lwip_assert (target <? p_len b) (
        let first := u16 (Z.min (p_len b - target) len) in
        let h := set_pmem (mem_write (pmem h) (payload b + target) (slice src 0 first)) h in
        let remaining := u16 (len - first) in
        if remaining >? 0 then pbuf_take (next b) (fun i => src (first + i)) remaining h
        else Ret (ERR_OK, h))
    else Ret (ERR_MEM, h).

Definition pbuf_clone (layer : Z) (t : pbuf_type) (p : Z) (addrs : list Z) (h : pheap)
  : res (Z * list Z * pheap) :=
  let* b := pget h p in
  let* (q, addrs, h) := pbuf_alloc layer (p_tot_len b) t addrs h in
  if q =? NULL then Ret (NULL, addrs, h)
  else
    let* (err, h) := pbuf_copy q p h in
    lwip_assert (err =? ERR_OK) (Ret (q, addrs, h)).

Definition pbuf_coalesce (p layer : Z) (addrs : list Z) (h : pheap) : res (Z * list Z * pheap) :=
  let* b := pget h p in
  if next b =? NULL then Ret (p, addrs, h)
  else
    let* (q, addrs, h) := pbuf_clone layer PBUF_RAM p addrs h in
    if q =? NULL then Ret (p, addrs, h)
    else let* (_, h) := pbuf_free p h in Ret (q, addrs, h).

(** ** Bytes and searches *)
Definition pbuf_try_get_at (p offset : Z) (h : pheap) : res Z :=
  let* (q, q_idx) := pbuf_skip p offset h in
  if q =? NULL then Ret (-1)
  else
    let* b := pget h q in
    if p_len b >? q_idx then Ret (mload (pmem h) (payload b + q_idx)) else Ret (-1).

Definition pbuf_get_at (p offset : Z) (h : pheap) : res Z :=
  let* ret := pbuf_try_get_at p offset h in
  if ret >=? 0 then Ret (u8 ret) else Ret 0.

Definition pbuf_put_at (p offset data : Z) (h : pheap) : res pheap :=
  let* (q, q_idx) := pbuf_skip p offset h in
  if q =? NULL then Ret h
  else
    let* b := pget h q in
    if p_len b >? q_idx then Ret (set_pmem (mstore (pmem h) (payload b + q_idx) data) h)
    else Ret h.

Fixpoint pbuf_memcmp_loop (left : nat) (q start i : Z) (s2 : reader) (h : pheap) : res Z :=
  match left with
  | O => Ret 0
  | S k =>
      let* a := pbuf_get_at q (u16 (start + i)) h in
      if negb (a =? s2 i) then Ret (u16 (Z.min (i + 1) 0xFFFF))
      else pbuf_memcmp_loop k q start (i + 1) s2 h
  end.
Definition pbuf_memcmp (p offset : Z) (s2 : reader) (n : Z) (h : pheap) : res Z :=
  let* b := pget h p in
  if p_tot_len b <? offset + n then Ret 0xffff
  else
    let* (q, start) := pbuf_skip p offset h in
    pbuf_memcmp_loop (Z.to_nat n) q start 0 s2 h.

Fixpoint pbuf_memfind_loop (fuel : nat) (p i max : Z) (mem : reader) (mem_len : Z) (h : pheap)
  : res Z :=
  match fuel with
  | O => NoFuel
  | S k =>
      if i <=? max then
        let* plus := pbuf_memcmp p i mem mem_len h in
        if plus =? 0 then Ret i else pbuf_memfind_loop k p (u16 (i + 1)) max mem mem_len h
      else Ret 0xFFFF
  end.
Definition pbuf_memfind (p : Z) (mem : reader) (mem_len start_offset : Z) (h : pheap) : res Z :=
  let* b := pget h p in
  let max_cmp_start := u16 (p_tot_len b - mem_len) in
  if p_tot_len b >=? mem_len + start_offset
  then pbuf_memfind_loop (Z.to_nat 65537) p start_offset max_cmp_start mem mem_len h
  else Ret 0xFFFF.
End Pbuf.
