(* ===== verification/PbufChain.v ===== *)
(** * Packet buffers: chains and their data

    The abstraction of a pbuf chain: the list of its pbufs and, through the
    memory, the bytes it carries; and the contract of every chain operation. *)
From S2P Require Import Prelude Pbuf.

(** [chain_at m p ps]: following [next] from [p] visits exactly [ps]. *)
Fixpoint chain_at (m : gmap Z pbuf) (p : Z) (ps : list (Z * pbuf)) : Prop :=
  match ps with
  | [] => p = NULL
  | (a, b) :: r => p = a /\ a <> NULL /\ m !! a = Some b /\ chain_at m (next b) r
  end.

Definition tot (ps : list (Z * pbuf)) : Z := foldr (fun x n => p_len x.2 + n) 0 ps.

(** The invariant struct pbuf documents: each [tot_len] is the length of the
    chain from there on. *)
Fixpoint wf_chain (ps : list (Z * pbuf)) : Prop :=
  match ps with
  | [] => True
  | (_, b) :: r => 0 <= p_len b /\ p_tot_len b = p_len b + tot r /\ p_tot_len b < 65536 /\ wf_chain r
  end.

(** The bytes of a chain. *)
Definition chain_data (m : memory) (ps : list (Z * pbuf)) : list Z :=
  concat ((fun x => mem_read m (payload x.2) (p_len x.2)) <$> ps).

(** Payloads lie in the address space and do not overlap. *)
Definition apart (a b : Z * pbuf) : Prop :=
  payload a.2 + p_len a.2 <= payload b.2 \/ payload b.2 + p_len b.2 <= payload a.2.
Fixpoint payloads_ok (ps : list (Z * pbuf)) : Prop :=
  match ps with
  | [] => True
  | x :: r => addr_ok (payload x.2) (p_len x.2) /\ Forall (apart x) r /\ payloads_ok r
  end.

(** ** Single pbufs *)
Lemma pget_lookup h p b : pget h p = Ret b <-> p <> NULL /\ pbufs h !! p = Some b.
Proof.
  unfold pget. destruct (Z.eqb_spec p NULL) as [->|Hp].
  - split; [done|]. by intros [? _].
  - destruct (pbufs h !! p); cbn; split; try done; [by intros [= ->]|by intros [_ [= ->]]|by intros [_ [=]]].
Qed.
Lemma pget_pset h p b : p <> NULL -> pget (pset p b h) p = Ret b.
Proof. intros Hp. apply pget_lookup. split; [done|]. cbn. apply lookup_insert_eq. Qed.
Lemma remove_header_gen p dec b h :
  pget h p = Ret b -> 0 < dec <= p_len b -> p_len b <= p_tot_len b < 65536 ->
  pbuf_remove_header p dec h = Ret (0, pset p (set_data (u64 (payload b + dec)) (p_len b - dec) (p_tot_len b - dec) b) h).
Proof.
  intros Hg Hd Ht. pose proof Hg as [Hp _]%pget_lookup. unfold pbuf_remove_header.
  rewrite (proj2 (Z.eqb_neq p NULL) Hp), Hg. cbn [negb lwip_assert]. rewrite Z.gtb_ltb, (proj2 (Z.ltb_ge 65535 dec)) by lia.
  rewrite (proj2 (Z.eqb_neq dec 0)) by lia. cbn [res_bind]. rewrite (proj2 (Z.leb_le dec _)) by lia.
  by rewrite !u16_small by lia.
Qed.

Lemma tot_nonneg ps : wf_chain ps -> 0 <= tot ps.
Proof.
  induction ps as [|[a b] ps IH]; [done|]. simpl. intros (? & ? & ? & ?%IH). lia.
Qed.

Lemma tot_bound ps : wf_chain ps -> 0 <= tot ps < 65536.
Proof.
  intros H. pose proof (tot_nonneg ps H). destruct ps as [|[a b] ps]; [simpl; lia|].
  simpl in *. lia.
Qed.

Lemma chain_data_cons m a b ps :
  chain_data m ((a, b) :: ps) = mem_read m (payload b) (p_len b) ++ chain_data m ps.
Proof. done. Qed.

Lemma length_chain_data m ps : wf_chain ps -> Z.of_nat (length (chain_data m ps)) = tot ps.
Proof.
  induction ps as [|[a b] ps IH]; [done|]. rewrite chain_data_cons. cbn [wf_chain tot foldr snd].
  intros (H1 & _ & _ & H). rewrite length_app, length_mem_read, Nat2Z.inj_add, IH by done.
  fold (tot ps). lia.
Qed.

Lemma chain_data_app m ps qs : chain_data m (ps ++ qs) = chain_data m ps ++ chain_data m qs.
Proof. unfold chain_data. by rewrite fmap_app, concat_app. Qed.

Lemma chain_null m ps : chain_at m NULL ps -> ps = [].
Proof. destruct ps as [|[a b] ps]; [done|]. simpl. intros (<- & ? & _). done. Qed.

(** A chain is determined by its head, so it cannot visit a pbuf twice. *)
Lemma chain_at_fun m p ps qs : chain_at m p ps -> chain_at m p qs -> ps = qs.
Proof.
  revert p qs. induction ps as [|[a b] ps IH]; intros p [|[c d] qs]; simpl; try done.
  - intros -> (<- & ? & _). done.
  - intros (-> & ? & _) ->. done.
  - intros (-> & Ha & Hb & Hr) (<- & _ & Hd & Hs). rewrite Hb in Hd. injection Hd as <-.
    f_equal. by eapply IH.
Qed.

Lemma chain_at_suffix m p ps qs : chain_at m p (ps ++ qs) -> exists q, chain_at m q qs.
Proof.
  revert p. induction ps as [|[a b] ps IH]; simpl; intros p H; [eauto|].
  destruct H as (_ & _ & _ & H). by eapply IH.
Qed.

Lemma chain_at_elem m p ps a b : chain_at m p ps -> (a, b) ∈ ps -> m !! a = Some b /\ a <> NULL.
Proof.
  revert p. induction ps as [|[c d] ps IH]; intros p; simpl; [by intros _ ?%not_elem_of_nil|].
  intros (-> & Hc & Hd & Hr) [[= -> ->]|He]%elem_of_cons; [done|]. by eapply IH.
Qed.

Lemma chain_not_in_tail m p a b ps : chain_at m p ((a, b) :: ps) -> a ∉ ps.*1.
Proof.
  intros H [[a' b'] [-> Hin]]%list_elem_of_fmap. simpl in *.
  apply list_elem_of_split in Hin as (l1 & l2 & ->).
  destruct H as (-> & Ha & Hb & Hr). destruct (chain_at_suffix _ _ _ _ Hr) as [q Hq].
  simpl in Hq. destruct Hq as (-> & _ & Hb' & Hq). rewrite Hb in Hb'. injection Hb' as <-.
  assert (l1 ++ (a', b) :: l2 = l2) as E by by eapply chain_at_fun.
  apply (f_equal length) in E. rewrite length_app in E. simpl in E. lia.
Qed.

Lemma chain_NoDup m p ps : chain_at m p ps -> NoDup (ps.*1).
Proof.
  revert p. induction ps as [|[a b] ps IH]; intros p H; [constructor|]. cbn. constructor.
  - by eapply chain_not_in_tail.
  - eapply (IH (next b)). apply H.
Qed.

(** Every live pbuf gives the loops a unit of fuel, which is enough. *)
Lemma chain_length_le h p ps : chain_at (pbufs h) p ps -> (length ps < chain_fuel h)%nat.
Proof.
  intros H. unfold chain_fuel. pose proof (chain_NoDup _ _ _ H) as Hnd.
  assert (length (ps.*1) <= size (pbufs h))%nat as Hle.
  { rewrite <- size_dom, <- (size_list_to_set (C:=gset Z)) by done.
    apply subseteq_size. intros a Ha%elem_of_list_to_set.
    apply list_elem_of_fmap in Ha as ([x b] & -> & Hin). apply elem_of_dom.
    exists b. by eapply chain_at_elem. }
  rewrite length_fmap in Hle. lia.
Qed.

(** A chain survives updates outside it. *)
Lemma chain_at_agree m m' p ps :
  chain_at m p ps -> (forall a b, (a, b) ∈ ps -> m' !! a = Some b) -> chain_at m' p ps.
Proof.
  revert p. induction ps as [|[a b] ps IH]; intros p; simpl; [done|].
  intros (-> & Ha & Hb & Hr) Hag. split; [done|]. split; [done|]. split.
  - apply Hag. constructor.
  - apply IH; [done|]. intros c d Hin. apply Hag. by constructor.
Qed.

Lemma chain_at_insert m p ps a b :
  a ∉ ps.*1 -> chain_at m p ps -> chain_at (<[a := b]> m) p ps.
Proof.
  intros Ha H. eapply chain_at_agree; [exact H|]. intros c d Hin.
  rewrite lookup_insert_ne; [by eapply chain_at_elem|]. intros ->. apply Ha.
  apply list_elem_of_fmap. by exists (c, d).
Qed.

Lemma chain_at_delete m p ps a : a ∉ ps.*1 -> chain_at m p ps -> chain_at (delete a m) p ps.
Proof.
  intros Ha H. eapply chain_at_agree; [exact H|]. intros c d Hin.
  rewrite lookup_delete_ne; [by eapply chain_at_elem|]. intros ->. apply Ha.
  apply list_elem_of_fmap. by exists (c, d).
Qed.

Lemma pget_chain h p a b ps : chain_at (pbufs h) p ((a, b) :: ps) -> pget h p = Ret b.
Proof.
  simpl. intros (-> & Ha & Hb & _). unfold pget. destruct (Z.eqb_spec a NULL); [done|].
  by rewrite Hb.
Qed.
