(* ===== verification/PbufOps.v ===== *)
(** * Packet buffers: the contract of each chain operation *)
From S2P Require Import Prelude Pbuf PbufChain.

Ltac chain_inv H :=
  let Ha := fresh "Ha" in let Hb := fresh "Hb" in let Hr := fresh "Hr" in
  destruct H as (-> & Ha & Hb & Hr).

(** ** Reading *)
Section Read.
Variable h : pheap.

(** The part of [pbuf_copy_partial]'s result that a chain contributes. *)
Definition window (len offset : Z) (l : list Z) : list Z :=
  take (Z.to_nat len) (drop (Z.to_nat offset) l).

Lemma window_skip len off (l r : list Z) :
  Z.of_nat (length l) <= off -> window len off (l ++ r) = window len (off - Z.of_nat (length l)) r.
Proof.
  intros H. unfold window. rewrite drop_app_ge by lia. do 2 f_equal. lia.
Qed.

Lemma window_split len off (l r : list Z) n :
  0 <= off <= Z.of_nat (length l) -> 0 <= len ->
  n = Z.min len (Z.of_nat (length l) - off) ->
  window len off (l ++ r) = window n off l ++ window (len - n) 0 r.
Proof.
  intros Ho Hl ->. unfold window. rewrite drop_app_le by lia. cbn [Z.to_nat drop].
  rewrite take_app, length_drop. f_equal.
  - destruct (decide (len <= Z.of_nat (length l) - off)).
    + by rewrite Z.min_l by lia.
    + rewrite Z.min_r by lia. rewrite !take_ge; rewrite ?length_drop; try done; lia.
  - f_equal. lia.
Qed.

Lemma window_mem_read m a n len off :
  0 <= off -> 0 <= len -> off + len <= n ->
  window len off (mem_read m a n) = mem_read m (a + off) len.
Proof.
  intros Ho Hl Hn. unfold window. unfold mem_read at 1.
  apply list_eq. intros i. destruct (decide (Z.of_nat i < len)).
  - rewrite lookup_take_lt, lookup_drop by lia. rewrite lookup_slice by lia.
    unfold mem_read. rewrite lookup_slice by lia. unfold mem_reader. do 2 f_equal. lia.
  - rewrite lookup_take_ge by lia. rewrite lookup_ge_None_2; [done|].
    rewrite length_mem_read. lia.
Qed.

Lemma window_nil len off : window len off [] = [].
Proof. unfold window. by rewrite drop_nil, take_nil. Qed.

Lemma copy_partial_loop_spec fuel p ps len offset copied out :
  chain_at (pbufs h) p ps -> wf_chain ps -> (length ps < fuel)%nat ->
  0 <= len < 65536 -> 0 <= offset < 65536 -> 0 <= copied -> copied + len < 65536 ->
  let bs := window len offset (chain_data (pmem h) ps) in
  copy_partial_loop fuel p len offset copied out h =
    Ret (copied + Z.of_nat (length bs), out ++ bs).
Proof.
  revert p ps len offset copied out.
  induction fuel as [|fuel IH]; intros p ps len offset copied out Hc Hw Hf Hl Ho Hcp Hs;
    [lia|]. cbn [copy_partial_loop]. unfold truth. destruct (Z.eqb_spec len 0) as [->|Hl0].
  { simpl. by rewrite Z.add_0_r, app_nil_r. }
  destruct ps as [|[a b] ps].
  { simpl in Hc. subst p. simpl. rewrite window_nil, app_nil_r. simpl. by rewrite Z.add_0_r. }
  rewrite (pget_chain _ _ _ _ _ Hc). destruct Hc as (-> & Ha & Hb & Hr).
  destruct (Z.eqb_spec a NULL); [done|]. cbn [negb andb res_bind].
  destruct Hw as (Hn & Ht & Hlt & Hw). pose proof (tot_bound _ Hw) as Hb'.
  assert (Z.of_nat (length (mem_read (pmem h) (payload b) (p_len b))) = p_len b) as Hlen
    by (rewrite length_mem_read; lia).
  rewrite chain_data_cons. simpl in Hf.
  destruct (negb (offset =? 0) && (offset >=? p_len b)) eqn:E.
  - zbool. rewrite u16_small by lia. rewrite (IH (next b) ps) by (done || lia).
    rewrite window_skip by lia. by rewrite Hlen.
  - assert (0 <= offset <= p_len b) as Hob.
    { apply andb_false_iff in E as [E|E]; zbool; lia. }
    rewrite (u16_small (p_len b - offset)), Z.gtb_ltb by lia.
    set (cnt := if len <? p_len b - offset then len else p_len b - offset).
    assert (cnt = Z.min len (p_len b - offset)) as En
      by (unfold cnt; destruct (Z.ltb_spec len (p_len b - offset)); lia).
    rewrite (window_split len offset _ _ cnt) by (rewrite ?Hlen; lia).
    rewrite (u16_small (len - cnt)), (u16_small (copied + cnt)) by lia.
    rewrite (IH (next b) ps) by (done || lia). rewrite window_mem_read by lia.
    rewrite length_app, length_mem_read, <- app_assoc. f_equal. f_equal. lia.
Qed.

Lemma pbuf_copy_partial_eq p ps len offset :
  chain_at (pbufs h) p ps -> wf_chain ps -> 0 <= len < 65536 -> 0 <= offset < 65536 ->
  let bs := window len offset (chain_data (pmem h) ps) in
  pbuf_copy_partial p len offset h = Ret (Z.of_nat (length bs), bs).
Proof.
  intros Hc Hw Hl Ho bs. unfold pbuf_copy_partial. destruct (Z.eqb_spec p NULL) as [->|].
  - apply chain_null in Hc as ->. unfold bs. by rewrite window_nil.
  - rewrite (copy_partial_loop_spec _ p ps); try done; [by eapply chain_length_le|lia].
Qed.

(** ** Locating an offset *)
Inductive skip_post (ps : list (Z * pbuf)) (off : Z) : Z -> Z -> Prop :=
  | skip_in ps1 q b ps2 :
      ps = ps1 ++ (q, b) :: ps2 -> 0 <= off - tot ps1 < p_len b -> q <> NULL ->
      skip_post ps off q (off - tot ps1)
  | skip_past : tot ps <= off -> skip_post ps off NULL (off - tot ps).

Lemma pbuf_skip_loop_spec fuel p ps off :
  chain_at (pbufs h) p ps -> wf_chain ps -> (length ps < fuel)%nat -> 0 <= off < 65536 ->
  exists q o, pbuf_skip_loop fuel p off h = Ret (q, o) /\ skip_post ps off q o.
Proof.
  revert p ps off. induction fuel as [|fuel IH]; intros p ps off Hc Hw Hf Ho; [lia|].
  cbn [pbuf_skip_loop]. destruct ps as [|[a b] ps].
  { simpl in Hc. subst. exists NULL, off. split; [done|].
    replace off with (off - tot []) at 2 by (simpl; lia). apply skip_past. simpl. lia. }
  rewrite (pget_chain _ _ _ _ _ Hc). destruct Hc as (-> & Ha & Hb & Hr).
  destruct (Z.eqb_spec a NULL); [done|]. cbn [res_bind].
  destruct Hw as (Hn & Ht & Hlt & Hw). pose proof (tot_bound _ Hw) as Hb'. simpl in Hf.
  destruct (Z.leb_spec (p_len b) off) as [Hle|Hlt'].
  - rewrite u16_small by lia.
    destruct (IH (next b) ps (off - p_len b) Hr Hw) as (q & o & E & P); [lia|lia|].
    exists q, o. split; [done|]. destruct P as [ps1 q b' ps2 -> Hq Hq0|Hq].
    + replace (off - p_len b - tot ps1) with (off - tot ((a, b) :: ps1)) by (simpl; lia).
      eapply (skip_in _ _ ((a, b) :: ps1)); [done|simpl; lia|done].
    + replace (off - p_len b - tot ps) with (off - tot ((a, b) :: ps)) by (simpl; lia).
      apply skip_past. simpl. lia.
  - exists a, off. split; [done|]. replace off with (off - tot []) at 2 by (simpl; lia).
    eapply (skip_in _ _ []); [done|simpl; lia|done].
Qed.

Lemma pbuf_skip_spec p ps off :
  chain_at (pbufs h) p ps -> wf_chain ps -> 0 <= off < 65536 ->
  exists q o, pbuf_skip p off h = Ret (q, o) /\ skip_post ps off q o.
Proof. intros Hc Hw Ho. eapply pbuf_skip_loop_spec; [done|done|by eapply chain_length_le|done]. Qed.

Lemma tot_cons x ps : tot (x :: ps) = p_len x.2 + tot ps.
Proof. done. Qed.

Lemma tot_app ps qs : tot (ps ++ qs) = tot ps + tot qs.
Proof. induction ps as [|[a b] ps IH]; [done|]. simpl. rewrite IH. lia. Qed.

Lemma wf_chain_app ps qs : wf_chain (ps ++ qs) -> wf_chain qs.
Proof. induction ps as [|[a b] ps IH]; [done|]. simpl. intros (_ & _ & _ & H). auto. Qed.

Lemma wf_chain_lens ps : wf_chain ps -> Forall (fun x => 0 <= p_len x.2) ps.
Proof. induction ps as [|[a b] ps IH]; simpl; intros H; constructor; simpl; [lia|]. apply IH. tauto. Qed.

Lemma length_chain_data_lens m ps :
  Forall (fun x => 0 <= p_len x.2) ps -> Z.of_nat (length (chain_data m ps)) = tot ps.
Proof.
  induction 1 as [|[a b] ps Hb _ IH]; [done|]. simpl in Hb.
  rewrite chain_data_cons, length_app, length_mem_read, Nat2Z.inj_add, IH. simpl. lia.
Qed.

(** The byte of a chain at an offset lies in the pbuf [pbuf_skip] finds. *)
Lemma chain_data_at m ps1 q b ps2 off :
  wf_chain (ps1 ++ (q, b) :: ps2) -> 0 <= off - tot ps1 < p_len b ->
  list_reader (chain_data m (ps1 ++ (q, b) :: ps2)) off = mload m (payload b + (off - tot ps1)).
Proof.
  intros Hw Ho. pose proof (wf_chain_lens _ Hw) as Hl. apply Forall_app in Hl as [Hl1 Hl2].
  pose proof (length_chain_data_lens m ps1 Hl1) as Hlen.
  assert (0 <= off) as Hoff by lia.
  rewrite chain_data_app, chain_data_cons. unfold list_reader.
  destruct (Z.ltb_spec off 0); [lia|].
  rewrite lookup_app_r by lia. rewrite lookup_app_l by (rewrite length_mem_read; lia).
  unfold mem_read. rewrite lookup_slice by lia. simpl. unfold mem_reader. f_equal. lia.
Qed.

Lemma pbuf_try_get_at_eq p ps off :
  chain_at (pbufs h) p ps -> wf_chain ps -> 0 <= off < 65536 ->
  pbuf_try_get_at p off h =
    Ret (if off <? tot ps then list_reader (chain_data (pmem h) ps) off else -1).
Proof.
  intros Hc Hw Ho. unfold pbuf_try_get_at.
  destruct (pbuf_skip_spec p ps off Hc Hw Ho) as (q & o & E & P). rewrite E. cbn [res_bind].
  destruct P as [ps1 q b ps2 -> Hq Hq0|Hq].
  - destruct (Z.eqb_spec q NULL); [done|].
    assert ((q, b) ∈ ps1 ++ (q, b) :: ps2) as Hin by (apply elem_of_app; right; constructor).
    destruct (chain_at_elem _ _ _ _ _ Hc Hin) as [Hb _].
    unfold pget. destruct (Z.eqb_spec q NULL); [done|]. rewrite Hb. cbn [res_of_option res_bind].
    rewrite Z.gtb_ltb. destruct (Z.ltb_spec (off - tot ps1) (p_len b)); [|lia].
    rewrite chain_data_at by done. rewrite tot_app. simpl.
    pose proof (tot_nonneg ps2) as H2. apply wf_chain_app in Hw as (_ & _ & _ & Hw).
    specialize (H2 Hw). destruct (Z.ltb_spec off (tot ps1 + (p_len b + tot ps2))); [done|lia].
  - simpl. destruct (Z.ltb_spec off (tot ps)); [lia|done].
Qed.
End Read.

(** ** Writing *)
Section Write.
(** [mem_write] over the front of a region. *)
Lemma mem_read_write_prefix m a bs n :
  addr_ok a n -> Z.of_nat (length bs) <= n -> bytes bs ->
  mem_read (mem_write m a bs) a n = bs ++ drop (length bs) (mem_read m a n).
Proof.
  intros Ha Hl Hb. set (k := Z.of_nat (length bs)) in *. unfold addr_ok in Ha.
  assert (forall m', mem_read m' a n = mem_read m' a k ++ mem_read m' (a + k) (n - k)) as Hs.
  { intros m'. replace n with (k + (n - k)) at 1 by lia. unfold mem_read.
    rewrite <- slice_app by lia. f_equal. apply slice_ext. intros i Hi.
    unfold mem_reader. f_equal. lia. }
  rewrite Hs. unfold k at 1. rewrite mem_read_write_same by (unfold addr_ok; (done || lia)). f_equal.
  rewrite mem_read_write_other by (unfold addr_ok; (done || lia)).
  rewrite (Hs m), drop_app_length'; [done|]. rewrite length_mem_read. lia.
Qed.

(** The region [x, x+n) touches no payload of the chain. *)
Definition clear_of (x n : Z) (ps : list (Z * pbuf)) : Prop :=
  Forall (fun y => x + n <= payload y.2 \/ payload y.2 + p_len y.2 <= x) ps.

Lemma chain_data_frame m m' ps :
  (forall a b, (a, b) ∈ ps -> mem_read m' (payload b) (p_len b) = mem_read m (payload b) (p_len b)) ->
  chain_data m' ps = chain_data m ps.
Proof.
  induction ps as [|[a b] ps IH]; intros H; [done|]. rewrite !chain_data_cons. f_equal.
  - apply (H a b). constructor.
  - apply IH. intros c d Hin. apply (H c d). by constructor.
Qed.

Lemma payloads_ok_elem ps a b : payloads_ok ps -> (a, b) ∈ ps -> addr_ok (payload b) (p_len b).
Proof.
  induction ps as [|[c d] ps IH]; simpl; [by intros _ ?%not_elem_of_nil|].
  intros (Hx & _ & Hr) [[= -> ->]|Hin]%elem_of_cons; auto.
Qed.

Lemma pbuf_take_loop_spec fuel p ps (src : reader) total copied h :
  chain_at (pbufs h) p ps -> wf_chain ps -> payloads_ok ps -> (forall i, is_byte (src i)) ->
  (length ps < fuel)%nat -> 0 <= total <= tot ps ->
  exists m', pbuf_take_loop fuel p src total copied h = Ret (0, copied + total, set_pmem m' h) /\
    chain_data m' ps = slice src copied total ++ drop (Z.to_nat total) (chain_data (pmem h) ps) /\
    (forall x n, addr_ok x n -> clear_of x n ps -> mem_read m' x n = mem_read (pmem h) x n).
Proof.
  intros Hc Hw Hp Hs. revert p ps total copied h Hc Hw Hp.
  induction fuel as [|fuel IH]; intros p ps total copied h Hc Hw Hp Hf Ht; [lia|].
  cbn [pbuf_take_loop]. unfold truth. destruct (Z.eqb_spec total 0) as [->|Ht0]; cbn [negb].
  { exists (pmem h). rewrite Z.add_0_r. destruct h; done. }
  destruct ps as [|[a b] ps]; [simpl in Ht; lia|].
  pose proof (pget_chain _ _ _ _ _ Hc) as Hg. destruct Hc as (-> & Ha & Hb & Hr).
  unfold lwip_assert. destruct (Z.eqb_spec a NULL); [done|]. cbn [negb]. rewrite Hg.
  cbn [res_bind]. destruct Hw as (Hn & Htl & Hlt & Hw). destruct Hp as (Hpa & Hap & Hp).
  simpl in Hf. rewrite Z.gtb_ltb.
  set (k := if p_len b <? total then p_len b else total).
  assert (k = Z.min total (p_len b)) as Ek
    by (unfold k; destruct (Z.ltb_spec (p_len b) total); lia).
  set (m1 := mem_write (pmem h) (payload b) (slice src copied k)).
  assert (Z.of_nat (length (slice src copied k)) = k) as Hlk by (rewrite length_slice; lia).
  assert (bytes (slice src copied k)) as Hbk by by apply bytes_slice.
  simpl in Hpa, Ht, Hap. pose proof (tot_nonneg _ Hw) as Htn.
  assert (addr_ok (payload b) (Z.of_nat (length (slice src copied k)))) as Hak
    by (unfold addr_ok in *; lia).
  destruct (IH (next b) ps (total - k) (copied + k) (set_pmem m1 h)) as (m' & E & D & F);
    [done..|lia|lia|].
  exists m'. split; [|split].
  - rewrite E. replace (copied + k + (total - k)) with (copied + total) by lia. done.
  - rewrite !chain_data_cons, D. rewrite (F (payload b) (p_len b)) by done.
    cbn [pmem set_pmem]. unfold m1 at 1. rewrite mem_read_write_prefix by (done || lia).
    rewrite (chain_data_frame (pmem h) m1 ps).
    2:{ intros c d Hin. pose proof (payloads_ok_elem _ _ _ Hp Hin) as Hok.
        apply (proj1 (Forall_forall _ _) Hap) in Hin. unfold apart in Hin. simpl in Hin.
        apply mem_read_write_other; [done|done|done|]. unfold addr_ok in *. lia. }
    rewrite length_slice. pose proof (length_mem_read (pmem h) (payload b) (p_len b)) as Hlr.
    destruct (decide (total <= p_len b)).
    + assert (k = total) as -> by lia. rewrite Z.sub_diag, (slice_nil src _ 0) by lia. cbn [Z.to_nat drop app].
      rewrite drop_app_le by lia. by rewrite <- app_assoc.
    + assert (k = p_len b) as -> by lia. rewrite drop_ge, app_nil_r by lia.
      rewrite app_assoc, slice_app by lia. rewrite drop_app_ge by lia. f_equal; [f_equal; lia|].
      f_equal. lia.
  - intros x w Hx Hcl. inversion Hcl as [|? ? H1 H2]. subst. rewrite (F x w Hx H2).
    apply mem_read_write_other; [done|done|done|]. simpl in H1. lia.
Qed.

Lemma pbuf_take_eq p ps (src : reader) len h :
  chain_at (pbufs h) p ps -> p <> NULL -> wf_chain ps -> payloads_ok ps ->
  (forall i, is_byte (src i)) -> 0 <= len ->
  if tot ps <? len then pbuf_take p src len h = Ret (ERR_MEM, h)
  else exists m', pbuf_take p src len h = Ret (ERR_OK, set_pmem m' h) /\
    chain_data m' ps = slice src 0 len ++ drop (Z.to_nat len) (chain_data (pmem h) ps) /\
    (forall x n, addr_ok x n -> clear_of x n ps -> mem_read m' x n = mem_read (pmem h) x n).
Proof.
  intros Hc Hp Hw Hpo Hs Hl. destruct ps as [|[a b] ps]; [done|].
  unfold pbuf_take. rewrite (pget_chain _ _ _ _ _ Hc).
  destruct (Z.eqb_spec p NULL); [done|]. cbn [res_bind].
  pose proof Hw as (Hn & Ht & Hlt & Hw'). rewrite Z.geb_leb.
  replace (tot ((a, b) :: ps)) with (p_tot_len b) by (rewrite Ht; done).
  destruct (Z.ltb_spec (p_tot_len b) len), (Z.leb_spec len (p_tot_len b)); try lia; [done|].
  pose proof (chain_length_le _ _ _ Hc) as Hf.
  destruct (pbuf_take_loop_spec (S (chain_fuel h)) p _ src len 0 h Hc Hw Hpo Hs)
    as (m' & E & D & F); [lia|simpl; lia|].
  exists m'. cbn [negb]. rewrite E. cbn [res_bind]. rewrite Z.add_0_l.
  unfold lwip_assert. by rewrite !Z.eqb_refl.
Qed.
End Write.

(** ** Concatenation *)
Section Cat.
Definition bump (n : Z) (x : Z * pbuf) : Z * pbuf := (x.1, set_tot_len (p_tot_len x.2 + n) x.2).

(** What the loop does to all but the last pbuf of the head chain. *)
Lemma pbuf_cat_loop_spec fuel p t tb ps h :
  chain_at (pbufs h) p ps -> ps <> [] -> wf_chain ps -> pbufs h !! t = Some tb ->
  t ∉ ps.*1 -> t <> NULL -> 0 <= p_tot_len tb -> tot ps + p_tot_len tb < 65536 ->
  (length ps <= fuel)%nat ->
  exists a b ps0 h', ps = ps0 ++ [(a, b)] /\ pbuf_cat_loop fuel p t h = Ret (a, h') /\
    pmem h' = pmem h /\ (forall x, x ∉ ps0.*1 -> pbufs h' !! x = pbufs h !! x) /\
    (forall M tail, (forall x, x ∈ ps0.*1 -> M !! x = pbufs h' !! x) ->
       chain_at M a tail -> chain_at M p ((bump (p_tot_len tb) <$> ps0) ++ tail)).
Proof.
  revert p ps h. induction fuel as [|fuel IH];
    intros p ps h Hc Hne Hw Ht Htn Ht0 Htp Hs Hf; [destruct ps; simpl in *; [done|lia]|].
  destruct ps as [|[a b] ps]; [done|]. cbn [pbuf_cat_loop].
  rewrite (pget_chain _ _ _ _ _ Hc). cbn [res_bind].
  pose proof (chain_not_in_tail _ _ _ _ _ Hc) as Hnt. destruct Hc as (-> & Ha & Hb & Hr).
  destruct (Z.eqb_spec (next b) NULL) as [E0|E0].
  { rewrite E0 in Hr. apply chain_null in Hr as ->.
    exists a, b, [], h. split; [done|]. split; [done|]. split; [done|].
    split; [done|]. by intros M tail _ Ht'. }
  unfold pget at 1. destruct (Z.eqb_spec t NULL); [done|]. rewrite Ht. cbn [res_of_option res_bind].
  destruct Hw as (Hn & Htl & Hlt & Hw). simpl in Hs, Hf.
  apply not_elem_of_cons in Htn as [Hta Htn].
  pose proof (tot_nonneg _ Hw) as Htot. rewrite u16_small by lia.
  set (b' := set_tot_len (p_tot_len b + p_tot_len tb) b).
  destruct (IH (next b) ps (pset a b' h)) as (a1 & b1 & ps0 & h' & -> & E & Hm & Hag & Hch).
  - by apply chain_at_insert.
  - intros ->. simpl in Hr. done.
  - done.
  - cbn. rewrite lookup_insert_ne by done. done.
  - done.
  - done.
  - done.
  - lia.
  - lia.
  - assert (a ∉ ps0.*1) as Hna.
    { intros Hin. apply Hnt. rewrite fmap_app. apply elem_of_app. by left. }
    exists a1, b1, ((a, b) :: ps0), h'. split; [done|]. split; [done|]. split; [done|]. split.
    + intros x Hx. apply not_elem_of_cons in Hx as [Hx1 Hx2]. rewrite Hag by done. cbn.
      by rewrite lookup_insert_ne.
    + intros M tail HM Htail. cbn. split; [done|]. split; [done|]. split.
      * rewrite HM by (cbn; constructor). rewrite Hag by done. cbn. by rewrite lookup_insert_eq.
      * apply Hch; [|done]. intros x Hx. apply HM. cbn. by constructor.
Qed.

Lemma bump_wf n ps a b :
  wf_chain (ps ++ [(a, b)]) -> 0 <= n -> tot (ps ++ [(a, b)]) + n < 65536 ->
  forall b' qs, p_len b' = p_len b -> p_tot_len b' = p_tot_len b + n -> tot qs = n ->
  wf_chain qs -> wf_chain ((bump n <$> ps) ++ (a, b') :: qs) /\
  tot ((bump n <$> ps) ++ (a, b') :: qs) = tot (ps ++ [(a, b)]) + n.
Proof.
  intros Hw Hn Ht b' qs Hl Htl Hq Hwq. induction ps as [|[c d] ps IH].
  - simpl in *. split; [|lia]. repeat split; try done; lia.
  - rewrite fmap_cons, <- !app_comm_cons in *. rewrite !tot_cons in *.
    destruct Hw as (H1 & H2 & H3 & Hw). cbn [snd] in Ht. destruct IH as [IH1 IH2]; [done|lia|].
    rewrite IH2. cbn. rewrite IH2. repeat split; try done; lia.
Qed.

(** Only the links and the total lengths differ. *)
Definition relinked (x y : Z * pbuf) : Prop :=
  exists nx tl, y = (x.1, set_next nx (set_tot_len tl x.2)).

Lemma bump_relinked n ps : Forall2 relinked ps (bump n <$> ps).
Proof.
  induction ps as [|[a b] ps IH]; [constructor|]. rewrite fmap_cons. constructor; [|done].
  exists (next b), (p_tot_len b + n). by destruct b.
Qed.

(** [pbuf_cat] appends the second chain to the first. *)
Lemma pbuf_cat_spec p ps t qs h :
  chain_at (pbufs h) p ps -> chain_at (pbufs h) t qs -> p <> NULL -> t <> NULL ->
  wf_chain ps -> wf_chain qs -> tot ps + tot qs < 65536 ->
  (forall x, x ∈ ps.*1 -> x ∉ qs.*1) ->
  exists ps' h', pbuf_cat p t h = Ret h' /\ pmem h' = pmem h /\
    chain_at (pbufs h') p (ps' ++ qs) /\ wf_chain (ps' ++ qs) /\
    ps'.*1 = ps.*1 /\ (forall m, chain_data m ps' = chain_data m ps) /\
    (forall x, x ∉ ps.*1 -> pbufs h' !! x = pbufs h !! x) /\ Forall2 relinked ps ps'.
Proof.
  intros Hc Hct Hp Ht Hw Hwq Hs Hdis. destruct qs as [|[t' tb] qs]; [done|].
  pose proof Hct as (<- & _ & Htb & Hrq). pose proof (tot_bound _ Hwq) as Hqb.
  pose proof Hwq as (Hq1 & Hq2 & Hq3 & Hq4).
  assert (p_tot_len tb = tot ((t, tb) :: qs)) as Htt by (rewrite Hq2; done).
  assert (t ∉ ps.*1) as Htn.
  { intros Hin. apply (Hdis t Hin). cbn. constructor. }
  destruct (pbuf_cat_loop_spec (chain_fuel h) p t tb ps h)
    as (a & b & ps0 & h1 & -> & E & Hm & Hag & Hch); try done; try lia.
  { by destruct ps. }
  { pose proof (chain_length_le _ _ _ Hc). lia. }
  assert (a ∉ ps0.*1) as Han.
  { pose proof (chain_NoDup _ _ _ Hc) as Hnd. rewrite fmap_app in Hnd.
    apply NoDup_app in Hnd as (_ & Hnd & _). intros Hin. apply (Hnd a Hin). constructor. }
  destruct (chain_at_elem _ _ _ a b Hc) as [Hb Ha0]; [apply elem_of_app; right; constructor|].
  pose proof (wf_chain_app _ _ Hw) as (Hb1 & Hb2 & Hb3 & _). simpl in Hb2.
  rewrite fmap_app in Htn. apply not_elem_of_app in Htn as [Htn1 Htn2].
  assert (t <> a) as Hta by (intros ->; apply Htn2; constructor).
  set (b' := set_next t (set_tot_len (u16 (p_tot_len b + p_tot_len tb)) b)).
  exists ((bump (p_tot_len tb) <$> ps0) ++ [(a, b')]), (pset a b' h1).
  rewrite tot_app in Hs. pose proof (tot_nonneg _ (proj2 (conj I Hwq))) as Htq.
  assert (0 <= tot ps0) as Ht0.
  { assert (Forall (fun x => 0 <= p_len x.2) ps0) as Hl.
    { apply wf_chain_lens in Hw. by apply Forall_app in Hw as [Hw _]. }
    rewrite <- (length_chain_data_lens ∅ ps0 Hl). lia. }
  simpl in Hs.
  split; [|split; [|split; [|split; [|split; [|split; [|split]]]]]].
  - unfold pbuf_cat. destruct (Z.eqb_spec p NULL), (Z.eqb_spec t NULL); try done.
    cbn [orb]. rewrite E. cbn [res_bind]. unfold pget. destruct (Z.eqb_spec a NULL); [done|].
    rewrite (Hag a Han), Hb. cbn [res_of_option res_bind]. unfold lwip_assert.
    destruct (Z.eqb_spec (p_tot_len b) (p_len b)); [|lia].
    destruct (Z.eqb_spec t NULL); [done|]. rewrite (Hag t Htn1), Htb. done.
  - done.
  - rewrite <- app_assoc. apply Hch.
    + intros x Hx. cbn. rewrite lookup_insert_ne; [done|]. by intros ->.
    + cbn. split; [done|]. split; [done|]. rewrite lookup_insert_eq. split; [done|].
      split; [done|]. split; [done|].
      assert (chain_at (<[a:=b']> (pbufs h1)) t ((t, tb) :: qs)) as Hgoal; [|exact (proj2 (proj2 Hgoal))].
      assert (a ∉ ((t, tb) :: qs).*1) as Haq.
      { apply Hdis. rewrite fmap_app. apply elem_of_app. right. constructor. }
      apply chain_at_insert; [done|]. eapply chain_at_agree; [exact Hct|]. intros c d Hin.
      rewrite Hag; [apply (chain_at_elem _ _ _ _ _ Hct Hin)|]. intros Hc0.
      apply (Hdis c); [rewrite fmap_app; apply elem_of_app; by left|].
      apply list_elem_of_fmap. by exists (c, d).
  - rewrite <- app_assoc.
    apply (bump_wf (p_tot_len tb) ps0 a b Hw); rewrite ?tot_app; simpl; try done; try lia.
    rewrite u16_small by lia. done.
  - rewrite !fmap_app. f_equal. rewrite <- list_fmap_compose. done.
  - intros m. rewrite !chain_data_app. f_equal. unfold chain_data.
    rewrite <- list_fmap_compose. done.
  - intros x Hx. cbn. rewrite fmap_app in Hx. apply not_elem_of_app in Hx as [Hx1 Hx2].
    rewrite lookup_insert_ne, Hag; [done|done|]. intros ->. apply Hx2. constructor.
  - apply Forall2_app; [apply bump_relinked|]. constructor; [|constructor]. by eexists _, _.
Qed.
End Cat.

(** ** Reference counts *)
Section Free.
Variable custom_free : Z -> pheap -> res pheap.

(** A pbuf [pbuf_free] can release itself: an ordinary one of a known source. *)
Definition plain (x : Z * pbuf) : Prop :=
  has_flag (p_flags x.2) PBUF_FLAG_IS_CUSTOM = false /\ 0 < p_ref x.2 /\
  0 <= Z.land (type_internal x.2) PBUF_TYPE_ALLOC_SRC_MASK <= 2.

(** The outcome of releasing a chain: the longest prefix of pbufs with a
    single reference is deallocated, the next pbuf loses one reference. *)
Inductive free_post (h : pheap) (ps : list (Z * pbuf)) : Z -> pheap -> Prop :=
  free_split pre rest h' :
    ps = pre ++ rest -> Forall (fun x => p_ref x.2 = 1) pre ->
    (match rest with [] => True | (a, b) :: _ =>
       1 < p_ref b /\ pbufs h' !! a = Some (set_ref (p_ref b - 1) b) end) ->
    (forall x, x ∈ pre.*1 -> pbufs h' !! x = None) ->
    (forall x, x ∉ pre.*1 -> (forall b r, rest <> (x, b) :: r) -> pbufs h' !! x = pbufs h !! x) ->
    pmem h' = pmem h -> free_post h ps (Z.of_nat (length pre)) h'.

Lemma free_nil h : free_post h [] 0 h.
Proof. apply (free_split h [] [] []); try done. by intros x Hx%not_elem_of_nil. Qed.

(** One more deallocated pbuf in front. *)
Lemma free_cons h a b ps n h' :
  pbufs h !! a = Some b -> p_ref b = 1 -> a ∉ ps.*1 ->
  free_post (pdel a (pset a (set_ref 0 b) h)) ps n h' -> free_post h ((a, b) :: ps) (n + 1) h'.
Proof.
  intros Hb Hr Ha [pre rest h1 -> Hpre Hrest Hgone Hsame Hm].
  replace (Z.of_nat (length pre) + 1) with (Z.of_nat (length ((a, b) :: pre))) by (simpl; lia).
  assert (forall x, x <> a -> pbufs (pdel a (pset a (set_ref 0 b) h)) !! x = pbufs h !! x) as Hne.
  { intros x Hx. cbn. by rewrite lookup_delete_ne, lookup_insert_ne. }
  rewrite fmap_app in Ha. apply not_elem_of_app in Ha as [Ha1 Ha2].
  apply (free_split h _ ((a, b) :: pre) rest); try done.
  - by constructor.
  - intros x [->|Hx]%elem_of_cons; [|by apply Hgone].
    rewrite Hsame; [cbn; apply lookup_delete_eq|done|]. intros b' r ->. apply Ha2. constructor.
  - intros x Hx Hnr. apply not_elem_of_cons in Hx as [Hx1 Hx2]. rewrite Hsame by done.
    by apply Hne.
Qed.

Lemma pbuf_free_loop_spec fuel p ps count h :
  chain_at (pbufs h) p ps -> Forall plain ps -> (length ps < fuel)%nat -> 0 <= count < 256 ->
  exists n h', pbuf_free_loop custom_free fuel p count h = Ret (u8 (count + n), h') /\
    free_post h ps n h'.
Proof.
  revert p ps count h. induction fuel as [|fuel IH]; intros p ps count h Hc Hp Hf Hcn; [lia|].
  cbn [pbuf_free_loop]. destruct ps as [|[a b] ps].
  { simpl in Hc. subst. exists 0, h. rewrite Z.add_0_r, (u8_small count) by lia.
    split; [done|apply free_nil]. }
  pose proof (chain_not_in_tail _ _ _ _ _ Hc) as Hnt.
  pose proof (pget_chain _ _ _ _ _ Hc) as Hg. destruct Hc as (-> & Ha & Hb & Hr).
  destruct (Z.eqb_spec a NULL); [done|]. rewrite Hg. cbn [res_bind].
  inversion Hp as [|? ? (P1 & P2 & P3) Hp']; subst. cbn [snd] in *.
  unfold lwip_assert. rewrite Z.gtb_ltb. destruct (Z.ltb_spec 0 (p_ref b)); [|lia].
  destruct (Z.eqb_spec (p_ref b - 1) 0) as [E|E].
  - rewrite P1. replace ((_ =? 2) || _ || _) with true.
    2:{ symmetry. destruct (Z.eqb_spec (Z.land (type_internal b) PBUF_TYPE_ALLOC_SRC_MASK) 2),
          (Z.eqb_spec (Z.land (type_internal b) PBUF_TYPE_ALLOC_SRC_MASK) 1),
          (Z.eqb_spec (Z.land (type_internal b) PBUF_TYPE_ALLOC_SRC_MASK) 0); try done; lia. }
    cbn [res_bind]. simpl in Hf. rewrite E.
    destruct (IH (next b) ps (u8 (count + 1)) (pdel a (pset a (set_ref 0 b) h)))
      as (n1 & h' & E1 & P); [|done|lia|apply u8_range|].
    { apply chain_at_delete; [done|]. by apply chain_at_insert. }
    exists (n1 + 1), h'. split; [|apply free_cons; (done || lia)].
    rewrite E1. do 2 f_equal. unfold u8. rewrite Zplus_mod_idemp_l. f_equal. lia.
  - exists 0, (pset a (set_ref (p_ref b - 1) b) h). rewrite Z.add_0_r, (u8_small count) by done.
    split; [done|]. apply (free_split h ((a, b) :: ps) [] ((a, b) :: ps)); try done.
    + split; [lia|]. cbn. by rewrite lookup_insert_eq.
    + intros x Hx. by apply not_elem_of_nil in Hx.
    + intros x _ Hx. cbn. rewrite lookup_insert_ne; [done|]. intros <-. by eapply Hx.
Qed.

Lemma pbuf_free_spec p ps h :
  chain_at (pbufs h) p ps -> p <> NULL -> Forall plain ps ->
  exists n h', pbuf_free custom_free p h = Ret (u8 n, h') /\ free_post h ps n h'.
Proof.
  intros Hc Hp Hpl. unfold pbuf_free, lwip_assert. destruct (Z.eqb_spec p NULL); [done|].
  cbn [negb]. destruct (pbuf_free_loop_spec (chain_fuel h) p ps 0 h) as (n1 & h' & E & P);
    [done|done|by eapply chain_length_le|done|]. eauto.
Qed.
End Free.

(** ** Comparing and searching *)
Section Find.
Variable h : pheap.
Hypothesis Hmem : mem_ok (pmem h).

Lemma chain_data_bytes ps : bytes (chain_data (pmem h) ps).
Proof.
  induction ps as [|[a b] ps IH]; [constructor|]. rewrite chain_data_cons.
  apply Forall_app. split; [by apply bytes_mem_read|done].
Qed.

Lemma pbuf_get_at_eq p ps off :
  chain_at (pbufs h) p ps -> wf_chain ps -> 0 <= off < 65536 ->
  pbuf_get_at p off h = Ret (list_reader (chain_data (pmem h) ps) off).
Proof.
  intros Hc Hw Ho. unfold pbuf_get_at. rewrite (pbuf_try_get_at_eq h p ps off) by done.
  cbn [res_bind]. pose proof (length_chain_data (pmem h) ps Hw) as Hl.
  destruct (Z.ltb_spec off (tot ps)).
  - pose proof (list_reader_byte _ off (chain_data_bytes ps)) as Hb. unfold is_byte in Hb.
    rewrite Z.geb_leb, u8_small by done.
    destruct (Z.leb_spec 0 (list_reader (chain_data (pmem h) ps) off)); [done|lia].
  - simpl. unfold list_reader. destruct (Z.ltb_spec off 0); [done|].
    by rewrite lookup_ge_None_2 by lia.
Qed.

(** Comparison result: 0, or one more than the index of the first difference. *)
Inductive cmp_post (l : list Z) (off : Z) (s2 : reader) (i n : Z) : Z -> Prop :=
  | cmp_eq : (forall j, i <= j < n -> list_reader l (off + j) = s2 j) -> cmp_post l off s2 i n 0
  | cmp_ne j : i <= j < n -> list_reader l (off + j) <> s2 j ->
      (forall k, i <= k < j -> list_reader l (off + k) = s2 k) -> cmp_post l off s2 i n (j + 1).

Lemma pbuf_memcmp_loop_spec left q qs start i s2 :
  chain_at (pbufs h) q qs -> wf_chain qs -> 0 <= start -> 0 <= i ->
  start + i + Z.of_nat left <= tot qs -> i + Z.of_nat left < 65536 ->
  exists r, pbuf_memcmp_loop left q start i s2 h = Ret r /\
    cmp_post (chain_data (pmem h) qs) start s2 i (i + Z.of_nat left) r.
Proof.
  intros Hc Hw Hs. pose proof (tot_bound _ Hw) as Ht. revert i.
  induction left as [|left IH]; intros i Hi Hb Hb2; cbn [pbuf_memcmp_loop].
  { exists 0. split; [done|]. constructor. lia. }
  rewrite u16_small by lia. rewrite (pbuf_get_at_eq q qs) by (done || lia). cbn [res_bind].
  destruct (Z.eqb_spec (list_reader (chain_data (pmem h) qs) (start + i)) (s2 i)) as [E|E].
  - destruct (IH (i + 1)) as (r & Er & P); [lia|lia|lia|]. exists r. cbn [negb].
    split; [done|]. replace (i + 1 + Z.of_nat left) with (i + Z.of_nat (S left)) in P by lia.
    destruct P as [Hall|j Hj Hne Hbef].
    + constructor. intros j Hj. destruct (decide (j = i)) as [->|]; [done|]. apply Hall. lia.
    + apply cmp_ne; [lia|done|]. intros k Hk. destruct (decide (k = i)) as [->|]; [done|].
      apply Hbef. lia.
  - exists (i + 1). cbn [negb]. rewrite Z.min_l, u16_small by lia. split; [done|].
    apply cmp_ne; [lia|done|lia].
Qed.

Lemma list_reader_suffix ps1 ps2 k : Forall (fun x => 0 <= p_len x.2) ps1 -> 0 <= k ->
  list_reader (chain_data (pmem h) (ps1 ++ ps2)) (tot ps1 + k) =
  list_reader (chain_data (pmem h) ps2) k.
Proof.
  intros Hl Hk. pose proof (length_chain_data_lens (pmem h) ps1 Hl) as Hlen.
  rewrite chain_data_app. unfold list_reader.
  destruct (Z.ltb_spec (tot ps1 + k) 0), (Z.ltb_spec k 0); try lia.
  rewrite lookup_app_r by lia. do 2 f_equal. lia.
Qed.

Lemma pbuf_memcmp_spec p ps off s2 n :
  chain_at (pbufs h) p ps -> p <> NULL -> wf_chain ps -> 0 <= off < 65536 -> 0 <= n < 65536 ->
  if tot ps <? off + n then pbuf_memcmp p off s2 n h = Ret 0xffff
  else exists r, pbuf_memcmp p off s2 n h = Ret r /\
         cmp_post (chain_data (pmem h) ps) off s2 0 n r.
Proof.
  intros Hc Hp Hw Ho Hn. destruct ps as [|[a b] ps0]; [done|]. set (ps := (a, b) :: ps0) in *.
  unfold pbuf_memcmp. rewrite (pget_chain _ _ _ _ _ Hc). cbn [res_bind].
  assert (p_tot_len b = tot ps) as -> by (apply Hw).
  destruct (Z.ltb_spec (tot ps) (off + n)) as [|Hle]; [done|].
  destruct (pbuf_skip_spec h p ps off Hc Hw Ho) as (q & o & E & P). rewrite E. cbn [res_bind].
  destruct P as [ps1 q bq ps2 Eps Hq Hq0|Hq].
  - rewrite Eps in *. destruct (chain_at_suffix _ _ _ _ Hc) as [q' Hq'].
    pose proof Hq' as (-> & _). pose proof (wf_chain_app _ _ Hw) as Hw2.
    pose proof (wf_chain_lens _ Hw) as [Hl1 _]%Forall_app.
    pose proof (length_chain_data_lens ∅ ps1 Hl1) as Hp1. rewrite tot_app in Hle.
    destruct (pbuf_memcmp_loop_spec (Z.to_nat n) q _ (off - tot ps1) 0 s2 Hq' Hw2)
      as (r & Er & Pr); [lia|lia|lia|lia|].
    exists r. split; [done|]. rewrite Z2Nat.id, Z.add_0_l in Pr by lia.
    assert (forall j, 0 <= j -> list_reader (chain_data (pmem h) (ps1 ++ (q, bq) :: ps2)) (off + j) =
      list_reader (chain_data (pmem h) ((q, bq) :: ps2)) (off - tot ps1 + j)) as Hsame.
    { intros j Hj. rewrite <- (list_reader_suffix ps1 ((q, bq) :: ps2)) by (done || lia).
      f_equal. lia. }
    destruct Pr as [Hall|j Hj Hne Hbef].
    + constructor. intros j Hj. rewrite Hsame by lia. by apply Hall.
    + apply cmp_ne; [done|rewrite Hsame by lia; done|]. intros k Hk. rewrite Hsame by lia.
      by apply Hbef.
  - assert (n = 0) as -> by lia. exists 0. split; [done|]. constructor. lia.
Qed.

(** [matches l mem len i]: the [len] bytes of [mem] occur in [l] at [i]. *)
Definition matches (l : list Z) (mem : reader) (len i : Z) : Prop :=
  forall j, 0 <= j < len -> list_reader l (i + j) = mem j.

Lemma pbuf_memfind_loop_spec fuel p ps i mem len :
  chain_at (pbufs h) p ps -> p <> NULL -> wf_chain ps -> tot ps < 65535 -> 0 <= len <= tot ps ->
  0 <= i <= tot ps - len + 1 -> tot ps - len + 1 - i < Z.of_nat fuel ->
  exists r, pbuf_memfind_loop fuel p i (tot ps - len) mem len h = Ret r /\
    (r = 0xFFFF /\ (forall k, i <= k <= tot ps - len -> ~ matches (chain_data (pmem h) ps) mem len k) \/
     i <= r <= tot ps - len /\ matches (chain_data (pmem h) ps) mem len r /\
       forall k, i <= k < r -> ~ matches (chain_data (pmem h) ps) mem len k).
Proof.
  intros Hc Hp Hw Ht Hl. revert i. induction fuel as [|fuel IH]; intros i Hi Hf; [lia|].
  cbn [pbuf_memfind_loop]. destruct (Z.leb_spec i (tot ps - len)) as [Hle|Hgt].
  2:{ exists 0xFFFF. split; [done|]. left. split; [done|]. intros k Hk. lia. }
  pose proof (pbuf_memcmp_spec p ps i mem len Hc Hp Hw) as Hcmp.
  destruct (Z.ltb_spec (tot ps) (i + len)); [lia|].
  destruct Hcmp as (r & Er & P); [lia|lia|]. rewrite Er. cbn [res_bind].
  destruct P as [Hall|j Hj Hne Hbef].
  - exists i. split; [done|]. right. split; [lia|]. split; [|lia]. intros j Hj. by apply Hall.
  - destruct (Z.eqb_spec (j + 1) 0); [lia|]. rewrite u16_small by lia.
    destruct (IH (i + 1)) as (r & E & Hpost); [lia|lia|]. exists r. split; [done|].
    assert (~ matches (chain_data (pmem h) ps) mem len i) as Hni.
    { intros Hm. apply Hne, Hm. lia. }
    destruct Hpost as [[-> Hno]|(Hr & Hm & Hfirst)].
    + left. split; [done|]. intros k Hk. destruct (decide (k = i)) as [->|]; [done|]. apply Hno. lia.
    + right. split; [lia|]. split; [done|]. intros k Hk.
      destruct (decide (k = i)) as [->|]; [done|]. apply Hfirst. lia.
Qed.
End Find.

(** ** Trimming *)
Section Realloc.
Variable custom_free : Z -> pheap -> res pheap.

Lemma realloc_walk_spec fuel p ps rem shrink h :
  chain_at (pbufs h) p ps -> wf_chain ps -> 0 <= rem < tot ps -> 0 <= shrink ->
  shrink = tot ps - rem -> (length ps < fuel)%nat ->
  exists ps1 q b ps2 h', ps = ps1 ++ (q, b) :: ps2 /\ 0 <= rem - tot ps1 <= p_len b /\
    (ps1 = [] \/ 0 < rem - tot ps1) /\
    realloc_walk fuel p rem shrink h = Ret (q, rem - tot ps1, h') /\
    pmem h' = pmem h /\ (forall x, x ∉ ps1.*1 -> pbufs h' !! x = pbufs h !! x) /\
    (forall M tail, (forall x, x ∈ ps1.*1 -> M !! x = pbufs h' !! x) ->
       chain_at M q tail -> chain_at M p ((bump (- shrink) <$> ps1) ++ tail)).
Proof.
  revert p ps rem h. induction fuel as [|fuel IH]; intros p ps rem h Hc Hw Hr Hs Es Hf; [lia|].
  destruct ps as [|[a b] ps]; [simpl in Hr; lia|]. cbn [realloc_walk].
  rewrite (pget_chain _ _ _ _ _ Hc). cbn [res_bind].
  pose proof (chain_not_in_tail _ _ _ _ _ Hc) as Hnt. destruct Hc as (-> & Ha & Hb & Hrest).
  destruct Hw as (Hn & Htl & Hlt & Hw). rewrite tot_cons in *. cbn [snd] in *.
  rewrite Z.gtb_ltb. destruct (Z.ltb_spec (p_len b) rem) as [Hgt|Hle].
  - unfold lwip_assert. destruct (Z.eqb_spec (next b) NULL) as [E0|E0].
    { rewrite E0 in Hrest. apply chain_null in Hrest as ->. simpl in Hr. lia. }
    cbn [negb]. simpl in Hf. rewrite (u16_small (p_tot_len b - shrink)), (u16_small (rem - p_len b)) by lia.
    set (b' := set_tot_len (p_tot_len b - shrink) b).
    destruct (IH (next b) ps (rem - p_len b) (pset a b' h))
      as (ps1 & q & bq & ps2 & h' & -> & Hq & Hpos & E & Hm & Hag & Hch); try done; try lia.
    { by apply chain_at_insert. }
    assert (a ∉ ps1.*1) as Hna.
    { intros Hin. apply Hnt. rewrite fmap_app. apply elem_of_app. by left. }
    exists ((a, b) :: ps1), q, bq, ps2, h'. rewrite tot_cons. cbn [snd].
    split; [done|]. split; [lia|].
    replace (rem - (p_len b + tot ps1)) with (rem - p_len b - tot ps1) by lia.
    split; [right; destruct Hpos as [->|]; cbn; lia|]. split; [done|]. split; [done|]. split.
    + intros x Hx. apply not_elem_of_cons in Hx as [Hx1 Hx2]. rewrite Hag by done. cbn.
      by rewrite lookup_insert_ne.
    + intros M tail HM Htail. cbn. split; [done|]. split; [done|]. split.
      * rewrite HM by (cbn; constructor). rewrite Hag by done. cbn.
        rewrite lookup_insert_eq. do 2 f_equal.
      * apply Hch; [|done]. intros x Hx. apply HM. cbn. by constructor.
  - exists [], a, b, ps, h. simpl. rewrite Z.sub_0_r. repeat split; try done; try lia. by left.
Qed.

Lemma shrink_wf k ps1 q b ps2 b' :
  wf_chain (ps1 ++ (q, b) :: ps2) -> k = p_len b' - tot ((q, b) :: ps2) -> k <= 0 ->
  0 <= p_len b' -> p_tot_len b' = p_len b' ->
  wf_chain ((bump k <$> ps1) ++ [(q, b')]) /\
  tot ((bump k <$> ps1) ++ [(q, b')]) = tot (ps1 ++ (q, b) :: ps2) + k.
Proof.
  intros Hw Hk Hk0 H0 Ht. induction ps1 as [|[c d] ps1 IH].
  - pose proof (tot_bound _ Hw) as Hb. rewrite tot_cons in *. simpl in *.
    repeat split; try done; lia.
  - rewrite fmap_cons, <- !app_comm_cons, !tot_cons in *. destruct Hw as (W1 & W2 & W3 & W4).
    destruct (IH W4) as [I1 I2]. cbn. rewrite I2. repeat split; try done; lia.
Qed.

Lemma chain_data_shrink m k ps1 q b b' ps2 :
  wf_chain (ps1 ++ (q, b) :: ps2) -> payload b' = payload b -> 0 <= p_len b' <= p_len b ->
  chain_data m ((bump k <$> ps1) ++ [(q, b')]) =
  take (Z.to_nat (tot ps1 + p_len b')) (chain_data m (ps1 ++ (q, b) :: ps2)).
Proof.
  intros Hw Hp Hl. pose proof (wf_chain_lens _ Hw) as [Hl1 _]%Forall_app.
  pose proof (length_chain_data_lens m ps1 Hl1) as Hlen.
  rewrite !chain_data_app, chain_data_cons. rewrite take_app_ge by lia. f_equal.
  { unfold chain_data. rewrite <- list_fmap_compose. done. }
  rewrite chain_data_cons, app_nil_r. rewrite take_app_le by (rewrite length_mem_read; lia).
  rewrite Hp. replace (Z.to_nat (tot ps1 + p_len b') - length (chain_data m ps1))%nat
    with (Z.to_nat (p_len b')) by lia.
  pose proof (window_mem_read m (payload b) (p_len b) (p_len b') 0) as Hwin.
  unfold window in Hwin. cbn [Z.to_nat drop] in Hwin. rewrite Z.add_0_r in Hwin.
  symmetry. apply Hwin; lia.
Qed.

(** The chain [ps] cut off after [n] bytes: the pbufs up to the one with the
    last byte, with their new lengths. *)
Definition cut_off (n : Z) (ps ps' : list (Z * pbuf)) : Prop :=
  exists ps1 q b ps2, let r := n - tot ps1 in ps = ps1 ++ (q, b) :: ps2 /\ 0 <= r <= p_len b /\ (ps1 = [] \/ 0 < r) /\
    ps' = (bump (- (tot ps - n)) <$> ps1) ++ [(q, set_next NULL (set_data (payload b) r r b))].

(** The pbufs behind the last one that is kept. *)
Lemma free_rest r ps h : chain_at (pbufs h) r ps -> Forall plain ps ->
  exists h', (if negb (r =? NULL) then let* (_, h) := pbuf_free custom_free r h in Ret h else Ret h) = Ret h' /\
    pmem h' = pmem h /\ (forall x, x ∉ ps.*1 -> pbufs h' !! x = pbufs h !! x).
Proof.
  intros Hc Hpl. destruct (Z.eqb_spec r NULL) as [E0|E0]; cbn [negb]; [by exists h|].
  destruct (pbuf_free_spec custom_free r ps h Hc E0 Hpl) as (n & h' & Ef & Hfp).
  revert Ef. destruct Hfp as [pre rest h3 -> _ _ _ Hsame Hm3]. intros ->. eexists. split; [reflexivity|]. split; [exact Hm3|].
  intros x Hx. rewrite fmap_app in Hx. apply not_elem_of_app in Hx as [Hx1 Hx2]. apply Hsame; [done|].
  intros d s ->. apply Hx2. constructor.
Qed.

(** [pbuf_realloc] keeps the first [new_len] bytes and releases the pbufs
    past them. *)
Lemma pbuf_realloc_spec p ps new_len h :
  chain_at (pbufs h) p ps -> wf_chain ps -> Forall plain ps -> 0 <= new_len < tot ps ->
  exists ps' h', pbuf_realloc custom_free p new_len h = Ret h' /\ pmem h' = pmem h /\
    chain_at (pbufs h') p ps' /\ wf_chain ps' /\ tot ps' = new_len /\
    (forall m, chain_data m ps' = take (Z.to_nat new_len) (chain_data m ps)) /\
    (forall x, x ∉ ps.*1 -> pbufs h' !! x = pbufs h !! x) /\ cut_off new_len ps ps'.
Proof.
  intros Hc Hw Hpl Hn.
  destruct (realloc_walk_spec (chain_fuel h) p ps new_len (tot ps - new_len) h)
    as (ps1 & q & b & ps2 & h1 & Eps & Hq & Hpos & E & Hm & Hag & Hch); try done; try lia.
  { by eapply chain_length_le. }
  pose proof (chain_NoDup _ _ _ Hc) as Hnd.
  assert (exists a0 b0 r, ps = (a0, b0) :: r) as (a0 & b0 & r & Eh).
  { destruct ps as [|[x y] r]; [by destruct ps1|eauto]. }
  assert (p <> NULL /\ pget h p = Ret b0 /\ p_tot_len b0 = tot ps) as (Hp & Hg & Ht0).
  { rewrite Eh in *. split; [destruct Hc as (-> & ? & _); done|].
    split; [by eapply pget_chain|apply Hw]. }
  assert (chain_at (pbufs h) q ((q, b) :: ps2)) as Hcq.
  { rewrite Eps in Hc. destruct (chain_at_suffix _ _ _ _ Hc) as [q' Hq']. by destruct (Hq') as (-> & _). }
  rewrite Eps, fmap_app in Hnd. apply NoDup_app in Hnd as (_ & Hnd1 & Hnd2).
  cbn in Hnd2. apply NoDup_cons in Hnd2 as [Hnq _].
  assert (q ∉ ps1.*1) as Hq1 by (intros Hin; apply (Hnd1 q Hin); constructor).
  pose proof Hcq as (_ & Hq0 & Hbq & Hc2).
  pose proof (tot_bound _ Hw) as Htb.
  set (rem := new_len - tot ps1) in *.
  set (b1 := set_data (payload b) rem rem b).
  assert (chain_at (pbufs (pset q b1 h1)) (next b) ps2) as Hc2'.
  { apply chain_at_insert; [done|]. eapply chain_at_agree; [exact Hc2|]. intros c d Hin.
    rewrite Hag; [apply (chain_at_elem _ _ _ _ _ Hc2 Hin)|].
    intros Hin1. apply (Hnd1 c Hin1). cbn. constructor. apply list_elem_of_fmap. by exists (c, d). }
  destruct (free_rest (next b1) ps2 (pset q b1 h1) Hc2') as (h2 & E2 & Hm2 & Hag2).
  { rewrite Eps in Hpl. apply Forall_app in Hpl as [_ Hpl]. by inversion Hpl. }
  set (b2 := set_next NULL b1).
  exists ((bump (- (tot ps - new_len)) <$> ps1) ++ [(q, b2)]), (pset q b2 h2).
  split; [|split; [|split]].
  - unfold pbuf_realloc, lwip_assert. destruct (Z.eqb_spec p NULL); [done|]. cbn [negb].
    rewrite Hg. cbn [res_bind]. rewrite Ht0, Z.geb_leb. destruct (Z.leb_spec (tot ps) new_len); [lia|].
    rewrite u16_small by lia. rewrite E. cbn [res_bind]. unfold pget at 1.
    destruct (Z.eqb_spec q NULL); [done|]. rewrite (Hag q Hq1), Hbq. cbn [res_of_option res_bind].
    fold b1. rewrite E2. cbn [res_bind]. unfold pget. destruct (Z.eqb_spec q NULL); [done|].
    rewrite (Hag2 q Hnq). cbn. by rewrite lookup_insert_eq.
  - cbn. by rewrite Hm2.
  - apply Hch.
    + intros x Hx. assert (x <> q) by (intros ->; done).
      cbn. rewrite lookup_insert_ne, Hag2 by (done || (intros Hin; apply (Hnd1 x Hx); by constructor)).
      cbn. by rewrite lookup_insert_ne.
    + cbn. rewrite lookup_insert_eq. done.
  - assert (forall a, a ∉ ps.*1 -> pbufs (pset q b2 h2) !! a = pbufs h !! a) as Hframe.
    { rewrite Eps, fmap_app. intros a [Ha1 Ha2]%not_elem_of_app. cbn in Ha2.
      apply not_elem_of_cons in Ha2 as [Ha2 Ha3]. cbn. rewrite lookup_insert_ne, Hag2 by done.
      cbn. by rewrite lookup_insert_ne, Hag. }
    destruct (shrink_wf (- (tot ps - new_len)) ps1 q b ps2 b2) as [S1 S2].
    { by rewrite <- Eps. }
    { rewrite Eps, tot_app. cbn. lia. }
    { lia. }
    { cbn. lia. }
    { done. }
    split; [done|]. split; [rewrite S2, <- Eps; lia|]. split; [|split; [done|by exists ps1, q, b, ps2]].
    intros m. rewrite Eps. replace new_len with (tot ps1 + p_len b2) at 2 by (cbn; lia).
    apply chain_data_shrink; [by rewrite <- Eps|done|]. cbn. lia.
Qed.
End Realloc.
