(* ===== verification/PbufTheorems.v ===== *)
(** * Packet buffers: theorems

    The properties the network code relies on, each with an instance on a
    two-pbuf chain. *)
From S2P Require Import Prelude Pbuf PbufChain PbufOps.

(** ** A demonstration heap: chain 1000 -> 2000 carrying 1,2,3 and 4,5; 3000
    carries 9 and stands alone. *)
Definition demo_b1 : pbuf := mkPbuf 2000 5000 5 3 0x80 0 1 0.
Definition demo_b2 : pbuf := mkPbuf 0 6000 2 2 0x80 0 1 0.
Definition demo_b3 : pbuf := mkPbuf 0 7000 1 1 0x80 0 1 0.
Definition demo_heap : pheap :=
  mkPheap (<[1000 := demo_b1]> (<[2000 := demo_b2]> (<[3000 := demo_b3]> ∅)))
    (mem_write (mem_write (mem_write ∅ 5000 [1; 2; 3]) 6000 [4; 5]) 7000 [9]).
Definition demo_chain : list (Z * pbuf) := [(1000, demo_b1); (2000, demo_b2)].
Definition demo_single : list (Z * pbuf) := [(3000, demo_b3)].

Lemma demo_chain_at : chain_at (pbufs demo_heap) 1000 demo_chain.
Proof. simpl. by repeat split. Qed.
Lemma demo_single_at : chain_at (pbufs demo_heap) 3000 demo_single.
Proof. simpl. by repeat split. Qed.
Lemma demo_chain_wf : wf_chain demo_chain.
Proof. simpl. by repeat split. Qed.
Lemma demo_single_wf : wf_chain demo_single.
Proof. simpl. by repeat split. Qed.
Lemma demo_payloads_ok : payloads_ok demo_chain.
Proof.
  simpl. unfold addr_ok, apart. simpl. repeat split; try lia; try constructor; simpl; try lia.
  constructor.
Qed.
Lemma demo_apart x : x ∈ demo_chain.*1 -> x ∉ demo_single.*1.
Proof. cbn. rewrite !elem_of_cons, !elem_of_nil. lia. Qed.
Lemma demo_plain : Forall plain demo_chain.
Proof. repeat constructor; by vm_compute. Qed.
Lemma demo_mem_ok : mem_ok (pmem demo_heap).
Proof. unfold demo_heap. cbn [pmem]. auto with cint. Qed.

(** Copying out of a pbuf chain returns exactly the bytes of the chain
    from [offset] on, at most [len] of them, however they are split over the
    pbufs, and their number. *)
Theorem pbuf_copy_partial_correct h p ps len offset :
  chain_at (pbufs h) p ps -> wf_chain ps -> 0 <= len < 65536 -> 0 <= offset < 65536 ->
  exists bs, pbuf_copy_partial p len offset h = Ret (Z.of_nat (length bs), bs) /\
    bs = take (Z.to_nat len) (drop (Z.to_nat offset) (chain_data (pmem h) ps)).
Proof. intros Hc Hw Hl Ho. eexists. split; [by apply pbuf_copy_partial_eq|done]. Qed.

Lemma pbuf_copy_partial_correct_witness :
  exists bs, pbuf_copy_partial 1000 3 1 demo_heap = Ret (Z.of_nat (length bs), bs) /\ bs = [2; 3; 4].
Proof.
  apply (pbuf_copy_partial_correct demo_heap 1000 demo_chain 3 1 demo_chain_at demo_chain_wf); lia.
Defined.

(** Filling a chain with [pbuf_take] and reading it back with
    [pbuf_copy_partial] returns the bytes that were put in; bytes of the chain
    past them, and all memory outside its payloads, keep their values.  A
    chain that is too short is left alone and ERR_MEM returned. *)
Theorem pbuf_take_roundtrip h p ps (src : reader) len :
  chain_at (pbufs h) p ps -> p <> NULL -> wf_chain ps -> payloads_ok ps ->
  (forall i, is_byte (src i)) -> 0 <= len < 65536 ->
  if tot ps <? len then pbuf_take p src len h = Ret (ERR_MEM, h)
  else exists h', pbuf_take p src len h = Ret (ERR_OK, h') /\
    pbuf_copy_partial p len 0 h' = Ret (len, slice src 0 len) /\ pbufs h' = pbufs h /\
    drop (Z.to_nat len) (chain_data (pmem h') ps) = drop (Z.to_nat len) (chain_data (pmem h) ps) /\
    forall x n, addr_ok x n -> clear_of x n ps -> mem_read (pmem h') x n = mem_read (pmem h) x n.
Proof.
  intros Hc Hp Hw Hpo Hs Hl. pose proof (pbuf_take_eq p ps src len h Hc Hp Hw Hpo Hs) as H.
  destruct (Z.ltb_spec (tot ps) len) as [|Hle]; [by apply H; lia|].
  destruct H as (m' & E & D & F); [lia|]. exists (set_pmem m' h).
  pose proof (length_slice src 0 len) as Hlen.
  split; [done|]. split; [|split; [done|split; [|done]]].
  - rewrite (pbuf_copy_partial_eq (set_pmem m' h) p ps) by (done || lia). unfold window.
    change (Z.to_nat 0) with 0%nat. rewrite drop_0. cbn [pmem set_pmem].
    rewrite D, take_app_length' by done.
    rewrite Hlen, Z2Nat.id by lia. done.
  - cbn [pmem set_pmem]. by rewrite D, drop_app_length'.
Qed.

Lemma pbuf_take_roundtrip_witness :
  exists h', pbuf_take 1000 (list_reader [7; 8; 9; 10]) 4 demo_heap = Ret (ERR_OK, h') /\
    pbuf_copy_partial 1000 4 0 h' = Ret (4, [7; 8; 9; 10]).
Proof.
  destruct (pbuf_take_roundtrip demo_heap 1000 demo_chain (list_reader [7; 8; 9; 10]) 4
    demo_chain_at ltac:(discriminate) demo_chain_wf demo_payloads_ok
    ltac:(intros i; apply list_reader_byte; repeat constructor; lia) ltac:(lia))
    as (h' & E & E' & _). exists h'. split; [exact E|exact E'].
Defined.

(** [pbuf_cat] appends: the chain from the head is afterwards the pbufs of
    both chains in order, carrying the bytes of the first and then those of
    the second, with every tot_len again the length of what follows; payload
    bytes and pbufs of other chains are not touched. *)
Theorem pbuf_cat_correct h p ps t qs :
  chain_at (pbufs h) p ps -> chain_at (pbufs h) t qs -> p <> NULL -> t <> NULL ->
  wf_chain ps -> wf_chain qs -> tot ps + tot qs < 65536 ->
  (forall x, x ∈ ps.*1 -> x ∉ qs.*1) ->
  exists h' rs, pbuf_cat p t h = Ret h' /\ chain_at (pbufs h') p rs /\ wf_chain rs /\
    rs.*1 = ps.*1 ++ qs.*1 /\ pmem h' = pmem h /\
    chain_data (pmem h') rs = chain_data (pmem h) ps ++ chain_data (pmem h) qs /\
    (forall x, x ∉ ps.*1 -> pbufs h' !! x = pbufs h !! x).
Proof.
  intros Hc Hct Hp Ht Hw Hwq Hs Hdis.
  destruct (pbuf_cat_spec p ps t qs h) as (ps' & h' & E & Hm & Hc' & Hw' & Hk & Hd & Hf & _); try done.
  exists h', (ps' ++ qs). split; [done|]. split; [done|]. split; [done|].
  split; [by rewrite fmap_app, Hk|]. split; [done|]. split; [|done].
  by rewrite chain_data_app, Hd, Hm.
Qed.

Lemma pbuf_cat_correct_witness :
  exists h' rs, pbuf_cat 1000 3000 demo_heap = Ret h' /\ chain_at (pbufs h') 1000 rs /\
    chain_data (pmem h') rs = [1; 2; 3; 4; 5; 9].
Proof.
  destruct (pbuf_cat_correct demo_heap 1000 demo_chain 3000 demo_single demo_chain_at
    demo_single_at ltac:(discriminate) ltac:(discriminate) demo_chain_wf demo_single_wf
    ltac:(vm_compute; reflexivity) demo_apart)
    as (h' & rs & E & Hc & _ & _ & _ & Hd & _).
  exists h', rs. split; [exact E|]. split; [exact Hc|exact Hd].
Defined.

(** [pbuf_free] releases the longest prefix of the chain whose pbufs have
    a single reference, takes one reference from the pbuf after it, returns
    how many were released (modulo 256, its u8_t), and leaves every other pbuf
    and all payload memory alone; a chain with all counts at one is gone
    completely. *)
Theorem pbuf_free_correct custom_free h p ps :
  chain_at (pbufs h) p ps -> p <> NULL -> Forall plain ps ->
  exists n h', pbuf_free custom_free p h = Ret (u8 n, h') /\ free_post h ps n h' /\
    (Forall (fun x => p_ref x.2 = 1) ps ->
       n = Z.of_nat (length ps) /\ forall x, x ∈ ps.*1 -> pbufs h' !! x = None).
Proof.
  intros Hc Hp Hpl. destruct (pbuf_free_spec custom_free p ps h Hc Hp Hpl) as (n & h' & E & P).
  exists n, h'. split; [done|]. split; [done|]. intros Hall.
  destruct P as [pre rest h' -> Hpre Hrest Hgone Hsame Hm].
  destruct rest as [|[a b] rest]; [by rewrite app_nil_r|].
  apply Forall_app in Hall as [_ Hall]. inversion Hall as [|? ? H1 _]; subst. simpl in H1. lia.
Qed.

Definition no_custom (p : Z) (h : pheap) : res pheap := Undef.
Lemma pbuf_free_correct_witness :
  exists n h', pbuf_free no_custom 1000 demo_heap = Ret (u8 n, h') /\ n = 2 /\
    forall x, x ∈ demo_chain.*1 -> pbufs h' !! x = None.
Proof.
  destruct (pbuf_free_correct no_custom demo_heap 1000 demo_chain demo_chain_at
    ltac:(discriminate) demo_plain) as (n & h' & E & _ & H).
  destruct H as [Hn Hg]; [repeat constructor|]. exists n, h'. by split.
Defined.

(** [pbuf_realloc] to a smaller length keeps exactly the first [new_len]
    bytes: the chain is again well formed with that total, its bytes are the
    prefix of the old ones, and only pbufs of this chain change. *)
Theorem pbuf_realloc_correct custom_free h p ps new_len :
  chain_at (pbufs h) p ps -> wf_chain ps -> Forall plain ps -> 0 <= new_len < tot ps ->
  exists ps' h', pbuf_realloc custom_free p new_len h = Ret h' /\
    chain_at (pbufs h') p ps' /\ wf_chain ps' /\ tot ps' = new_len /\
    chain_data (pmem h') ps' = take (Z.to_nat new_len) (chain_data (pmem h) ps) /\
    (forall x, x ∉ ps.*1 -> pbufs h' !! x = pbufs h !! x).
Proof.
  intros Hc Hw Hp Hn.
  destruct (pbuf_realloc_spec custom_free p ps new_len h Hc Hw Hp Hn)
    as (ps' & h' & E & Hm & Hc' & Hw' & Ht & Hd & Hf & _).
  exists ps', h'. rewrite Hm. by repeat split.
Qed.

Lemma pbuf_realloc_correct_witness :
  exists ps' h', pbuf_realloc no_custom 1000 2 demo_heap = Ret h' /\
    chain_data (pmem h') ps' = [1; 2].
Proof.
  destruct (pbuf_realloc_correct no_custom demo_heap 1000 demo_chain 2 demo_chain_at
    demo_chain_wf demo_plain ltac:(vm_compute; split; [discriminate|reflexivity]))
    as (ps' & h' & E & _ & _ & _ & Hd & _).
  exists ps', h'. split; [exact E|exact Hd].
Defined.

(** [pbuf_memfind] returns the lowest offset, at or after [start], at
    which the searched bytes occur in the chain (also across pbuf boundaries),
    and 0xFFFF exactly when there is none. *)
Theorem pbuf_memfind_correct h p ps (mem : reader) len start :
  mem_ok (pmem h) -> chain_at (pbufs h) p ps -> p <> NULL -> wf_chain ps -> tot ps < 65535 ->
  0 <= len < 65536 -> 0 <= start < 65536 ->
  exists r, pbuf_memfind p mem len start h = Ret r /\
    (r = 0xFFFF /\ (forall k, start <= k <= tot ps - len ->
                      ~ matches (chain_data (pmem h) ps) mem len k) \/
     start <= r <= tot ps - len /\ matches (chain_data (pmem h) ps) mem len r /\
       forall k, start <= k < r -> ~ matches (chain_data (pmem h) ps) mem len k).
Proof.
  intros Hm Hc Hp Hw Ht Hl Hs. destruct ps as [|[a b] ps0] eqn:Eps; [done|].
  unfold pbuf_memfind. rewrite (pget_chain _ _ _ _ _ Hc). cbn [res_bind]. rewrite <- Eps in *.
  assert (p_tot_len b = tot ps) as -> by (rewrite Eps in Hw |- *; apply Hw).
  pose proof (tot_bound _ Hw) as Htb. rewrite Z.geb_leb.
  destruct (Z.leb_spec (len + start) (tot ps)) as [Hle|Hgt].
  - rewrite (u16_small (tot ps - len)) by lia.
    apply pbuf_memfind_loop_spec; try done; try lia.
  - exists 0xFFFF. split; [done|]. left. split; [done|]. intros k Hk. lia.
Qed.

Lemma pbuf_memfind_correct_witness :
  exists r, pbuf_memfind 1000 (list_reader [3; 4]) 2 0 demo_heap = Ret r /\
    (r = 0xFFFF \/ 0 <= r <= 3 /\ matches [1; 2; 3; 4; 5] (list_reader [3; 4]) 2 r).
Proof.
  destruct (pbuf_memfind_correct demo_heap 1000 demo_chain (list_reader [3; 4]) 2 0 demo_mem_ok
    demo_chain_at ltac:(discriminate) demo_chain_wf ltac:(vm_compute; reflexivity)
    ltac:(lia) ltac:(lia)) as (r & E & [[H _]|(Hr & Hmt & _)]); exists r; (split; [exact E|]);
    [by left|right]. split; [exact Hr|exact Hmt].
Defined.

(** Hiding a header and revealing it again is the identity: for a pbuf
    whose payload follows its struct, [pbuf_remove_header] of up to [len]
    bytes succeeds, and [pbuf_add_header] of the same size then succeeds and
    restores the pbuf exactly. *)
Theorem pbuf_header_roundtrip h p b d :
  pbufs h !! p = Some b -> 0 < p -> p + SIZEOF_STRUCT_PBUF <= payload b ->
  addr_ok (payload b) (p_len b) -> payload b + p_len b < 18446744073709551616 ->
  0 <= p_len b <= p_tot_len b -> p_tot_len b < 65536 ->
  has_flag (type_internal b) PBUF_TYPE_FLAG_STRUCT_DATA_CONTIGUOUS = true ->
  0 < d <= p_len b ->
  exists h', pbuf_remove_header p d h = Ret (0, h') /\
    pbufs h' !! p = Some (set_data (payload b + d) (p_len b - d) (p_tot_len b - d) b) /\
    pbuf_add_header p d h' = Ret (0, h).
Proof.
  intros Hb Hp Hpl (Ha1 & Ha2 & Ha3) Hend Hl Ht Hf Hd.
  unfold SIZEOF_STRUCT_PBUF in *. change (MEM_ALIGN_SIZE 24) with 24 in *.
  assert (pget h p = Ret b) as Hg.
  { unfold pget, NULL. destruct (Z.eqb_spec p 0); [lia|]. by rewrite Hb. }
  set (b' := set_data (payload b + d) (p_len b - d) (p_tot_len b - d) b).
  exists (pset p b' h). split; [|split].
  - unfold pbuf_remove_header, lwip_assert, NULL. destruct (Z.eqb_spec p 0); [lia|]. cbn [negb].
    rewrite Z.gtb_ltb. destruct (Z.ltb_spec 0xFFFF d), (Z.eqb_spec d 0); try lia.
    rewrite Hg. cbn [res_bind]. destruct (Z.leb_spec d (p_len b)); [|lia].
    by rewrite u64_small, !u16_small by lia.
  - cbn. by rewrite lookup_insert_eq.
  - unfold pbuf_add_header, pbuf_add_header_impl, lwip_assert, NULL.
    destruct (Z.eqb_spec p 0); [lia|]. cbn [negb].
    rewrite Z.gtb_ltb. destruct (Z.ltb_spec 0xFFFF d), (Z.eqb_spec d 0); try lia.
    unfold pget, NULL. destruct (Z.eqb_spec p 0); [lia|]. cbn [pbufs pset]. rewrite lookup_insert_eq.
    cbn [res_of_option res_bind]. cbn [b' set_data payload p_len p_tot_len type_internal].
    rewrite (u16_small (d + (p_tot_len b - d))) by lia.
    destruct (Z.ltb_spec (d + (p_tot_len b - d)) d); [lia|]. rewrite Hf.
    replace (payload b + d - d) with (payload b) by lia.
    unfold SIZEOF_STRUCT_PBUF. change (MEM_ALIGN_SIZE 24) with 24.
    rewrite (u64_small (payload b)), (u64_small (p + 24)) by lia.
    destruct (Z.ltb_spec (payload b) (p + 24)); [lia|].
    rewrite !u16_small by lia. unfold pset. cbn [pbufs pmem]. rewrite insert_insert_eq.
    replace (p_len b - d + d) with (p_len b) by lia.
    replace (p_tot_len b - d + d) with (p_tot_len b) by lia.
    do 2 f_equal. destruct h as [hp hm]; cbn in *. f_equal. apply insert_id. by destruct b.
Qed.

Lemma pbuf_header_roundtrip_witness :
  exists h', pbuf_remove_header 1000 2 demo_heap = Ret (0, h') /\
    pbuf_add_header 1000 2 h' = Ret (0, demo_heap).
Proof.
  destruct (pbuf_header_roundtrip demo_heap 1000 demo_b1 2) as (h' & E & _ & E').
  - reflexivity.
  - lia.
  - vm_compute. discriminate.
  - unfold addr_ok. cbn. lia.
  - cbn. lia.
  - cbn. lia.
  - cbn. lia.
  - reflexivity.
  - cbn. lia.
  - exists h'. split; [exact E|exact E'].
Defined.
