(* ===== verification/NetGlue.v ===== *)
(** * src/app/net_glue.c: the NIC driver glue and the polling loop

    The NIC and the nanosecond counter belong to the kernel, the packets are
    pbufs of [Pbuf]; what lwIP does with a packet is the class [NetStack]. *)
From S2P Require Import Prelude Pbuf PbufChain PbufOps.

Definition ERR_BUF : Z := -2.

(** ** Time

    [sys_now] truncates the kernel's nanoseconds to a wrapping 32-bit count of
    milliseconds. *)
Definition sys_now (ns : Z) : Z := u32 (u64 ns / 1000000).

(** ** Output

    [txbuf] is static, so it keeps the bytes of earlier frames; the result is
    the frame handed to [b_net_tx], if any, and the new contents of [txbuf]. *)
Definition TXBUF : Z := 1522.
Definition low_level_output (p : Z) (txbuf : list Z) (h : pheap)
  : res (Z * option (list Z) * list Z) :=
  let* b := pget h p in
  if p_tot_len b >? TXBUF then Ret (ERR_BUF, None, txbuf)
  else
    let* (_, bs) := pbuf_copy_partial p (p_tot_len b) 0 h in
    let txbuf := memcpy_at 0 bs txbuf in
    Ret (ERR_OK, Some (take (Z.to_nat (p_tot_len b)) txbuf), txbuf).

(** ** Interface set-up *)
Definition NETIF_FLAG_BROADCAST : Z := 2.
Definition NETIF_FLAG_LINK_UP : Z := 4.
Definition NETIF_FLAG_ETHARP : Z := 8.

Record netif := mkNetif {
  nif_name : list Z;
  nif_mtu : Z;
  nif_hwaddr_len : Z;
  nif_flags : Z;
  nif_hwaddr : list Z;
}.

(** [mac] is what [b_system(NET_STATUS, 0, 0)] returns. *)
Definition bmos_netif_init (mac : Z) : netif :=
  mkNetif [101; 110] 1500 6
    (Z.lor (Z.lor NETIF_FLAG_BROADCAST NETIF_FLAG_ETHARP) NETIF_FLAG_LINK_UP)
    [Z.land (Z.shiftr mac 40) 255; Z.land (Z.shiftr mac 32) 255; Z.land (Z.shiftr mac 24) 255;
     Z.land (Z.shiftr mac 16) 255; Z.land (Z.shiftr mac 8) 255; Z.land mac 255].

(** ** Polling

    What lwIP promises to the polling loop: it takes packets ([input] answers
    ERR_OK when it keeps the pbuf), services its timers, and knows whether DHCP
    has supplied an address. *)
Class NetStack (T : Type) := {
  stack_input : Z -> pheap -> T -> res (Z * pheap * T);
  stack_timeouts : pheap -> T -> res (pheap * T);
  stack_dhcp_supplied : T -> bool;
}.

Section Poll.
Context {T : Type} `{!NetStack T}.
Variable custom_free : Z -> pheap -> res pheap.

(** [rx]: the frames [b_net_rx] has pending, of which one of length 0 ends
    the loop; [addrs]: what malloc returns to the successive pbuf_alloc calls. *)
Fixpoint net_drain (rx : list (list Z)) (addrs : list Z) (h : pheap) (st : T)
  : res (list Z * pheap * T) :=
  match rx with
  | [] => Ret (addrs, h, st)
  | buf :: r =>
      let len := Z.of_nat (length buf) in
      if len =? 0 then Ret (addrs, h, st)
      else
        let* (p, addrs, h) := pbuf_alloc custom_free PBUF_RAW (u16 len) PBUF_RAM addrs h in
        if negb (p =? NULL) then
          let* (_, h) := pbuf_take p (list_reader buf) (u16 len) h in
          let* (err, h, st) := stack_input p h st in
          if negb (err =? ERR_OK) then
            let* (_, h) := pbuf_free custom_free p h in net_drain r addrs h st
          else net_drain r addrs h st
        else net_drain r addrs h st
  end.

Definition net_poll (rx : list (list Z)) (addrs : list Z) (h : pheap) (st : T)
  : res (list Z * pheap * T) :=
  let* (addrs, h, st) := net_drain rx addrs h st in
  let* (h, st) := stack_timeouts h st in
  Ret (addrs, h, st).

Definition net_is_ready (st : T) : bool := stack_dhcp_supplied st.

(** The kernel's answers to the [k]-th round: the counter and the frames. *)
Fixpoint net_wait_loop (fuel : nat) (now : nat -> Z) (rx : nat -> list (list Z)) (k : nat)
  (start timeout_ms : Z) (addrs : list Z) (h : pheap) (st : T) : res (Z * list Z * pheap * T) :=
  match fuel with
  | O => NoFuel
  | S fuel =>
      if net_is_ready st then Ret (1, addrs, h, st)
      else
        let* (addrs, h, st) := net_poll (rx k) addrs h st in
        if u32 (sys_now (now k) - start) >=? timeout_ms then Ret (0, addrs, h, st)
        else net_wait_loop fuel now rx (S k) start timeout_ms addrs h st
  end.

Definition net_wait_ready (fuel : nat) (now : nat -> Z) (rx : nat -> list (list Z))
  (timeout_ms : Z) (addrs : list Z) (h : pheap) (st : T) : res (Z * list Z * pheap * T) :=
  net_wait_loop fuel now rx 1 (sys_now (now 0%nat)) timeout_ms addrs h st.
End Poll.

(** ** Properties *)
Lemma sys_now_range ns : 0 <= sys_now ns < 4294967296.
Proof. apply u32_range. Qed.

(** The 48-bit address the octets spell, most significant first. *)
Definition be_val (l : list Z) : Z := foldl (fun v b => v * 256 + b) 0 l.

(** The interface comes up with the MAC address the kernel reports: the
    six octets are bytes and, read most significant first, give bits 47-0 of
    the kernel's answer. *)
Theorem netif_init_mac mac :
  0 <= mac ->
  let n := bmos_netif_init mac in
  length (nif_hwaddr n) = 6%nat /\ bytes (nif_hwaddr n) /\
  be_val (nif_hwaddr n) = mac mod 281474976710656 /\ nif_flags n = 14.
Proof.
  intros Hm n. split; [done|].
  assert (forall k, 0 <= k -> Z.land (Z.shiftr mac k) 255 = mac / 2 ^ k mod 256) as E.
  { intros k Hk. rewrite Z.shiftr_div_pow2 by done. by apply (Z.land_ones _ 8). }
  assert (Z.land mac 255 = mac mod 256) as E0 by by apply (Z.land_ones _ 8).
  unfold n, bmos_netif_init, be_val. cbn [nif_hwaddr nif_flags foldl].
  rewrite !E, E0 by lia. split; [|split; [|done]].
  - repeat constructor; apply Z.mod_pos_bound; lia.
  - change (2 ^ 40) with 1099511627776. change (2 ^ 32) with 4294967296.
    change (2 ^ 24) with 16777216. change (2 ^ 16) with 65536. change (2 ^ 8) with 256. zdiv.
Qed.

Lemma netif_init_mac_witness : be_val (nif_hwaddr (bmos_netif_init 0x525400123456)) = 0x525400123456.
Proof. apply (netif_init_mac 0x525400123456). lia. Defined.

Lemma low_level_output_eq h p ps txbuf :
  chain_at (pbufs h) p ps -> p <> NULL -> wf_chain ps -> length txbuf = 1522%nat ->
  if tot ps <=? TXBUF
  then exists txbuf', low_level_output p txbuf h =
         Ret (ERR_OK, Some (chain_data (pmem h) ps), txbuf') /\ length txbuf' = 1522%nat
  else low_level_output p txbuf h = Ret (ERR_BUF, None, txbuf).
Proof.
  intros Hc Hp Hw Hl. destruct ps as [|[a b] ps0] eqn:Eps; [done|].
  unfold low_level_output. rewrite (pget_chain _ _ _ _ _ Hc). cbn [res_bind]. rewrite <- Eps in *.
  assert (p_tot_len b = tot ps) as -> by (rewrite Eps in Hw |- *; apply Hw).
  pose proof (tot_bound _ Hw) as Htb. pose proof (length_chain_data (pmem h) ps Hw) as Hlen.
  rewrite Z.gtb_ltb. unfold TXBUF.
  destruct (Z.leb_spec (tot ps) 1522), (Z.ltb_spec 1522 (tot ps)); try lia; [|done].
  rewrite (pbuf_copy_partial_eq h p ps) by (done || lia). cbn [res_bind]. unfold window.
  change (Z.to_nat 0) with 0%nat. rewrite drop_0, (take_ge (chain_data (pmem h) ps)) by lia.
  exists (memcpy_at 0 (chain_data (pmem h) ps) txbuf). rewrite length_memcpy_at. split; [|done].
  do 4 f_equal. apply list_reader_ext.
  - rewrite length_take, length_memcpy_at. lia.
  - intros i Hi. rewrite length_take, length_memcpy_at in Hi.
    transitivity (list_reader (memcpy_at 0 (chain_data (pmem h) ps) txbuf) i).
    + unfold list_reader. destruct (Z.ltb_spec i 0); [lia|]. by rewrite lookup_take_lt by lia.
    + rewrite list_reader_memcpy_at by lia.
      destruct (Z.leb_spec 0 i), (Z.ltb_spec i (0 + Z.of_nat (length (chain_data (pmem h) ps))));
        simpl; try lia. f_equal. lia.
Qed.

(** A packet is transmitted exactly when the chain's total length fits the
    1522-byte buffer; the frame handed to the NIC is then the bytes of the
    chain in order, whatever earlier frames left in the buffer, and a longer
    chain is refused with ERR_BUF and nothing is sent. *)
Theorem low_level_output_correct h p ps txbuf :
  chain_at (pbufs h) p ps -> p <> NULL -> wf_chain ps -> length txbuf = 1522%nat ->
  if tot ps <=? TXBUF
  then exists txbuf', low_level_output p txbuf h =
         Ret (ERR_OK, Some (chain_data (pmem h) ps), txbuf') /\ length txbuf' = 1522%nat
  else low_level_output p txbuf h = Ret (ERR_BUF, None, txbuf).
Proof. apply low_level_output_eq. Qed.

(** A packet of one pbuf holding a frame, as the receive path builds it. *)
Lemma MEM_ALIGN_spec a : 0 <= a < 18446744073709551616 - 3 ->
  a <= MEM_ALIGN a < a + 4 /\ MEM_ALIGN a mod 4 = 0.
Proof.
  intros Ha. unfold MEM_ALIGN. rewrite u64_small by lia.
  replace (u64 (Z.lnot 3)) with (Z.land (Z.ones 64) (Z.lnot (Z.ones 2))) by done.
  rewrite Z.land_assoc, Z.land_ones, Z.mod_small, <- Z.ldiff_land by lia.
  rewrite Z.ldiff_ones_r, Z.shiftl_mul_pow2, Z.shiftr_div_pow2 by lia.
  change (2 ^ 2) with 4. split; [zdiv|apply Z_mod_mult].
Qed.

Lemma MEM_ALIGN_SIZE_spec n : 0 <= n < 65536 + 3 ->
  n <= MEM_ALIGN_SIZE n < n + 4 /\ MEM_ALIGN_SIZE n mod 4 = 0.
Proof.
  intros Ha. unfold MEM_ALIGN_SIZE. rewrite u32_small by lia.
  replace (u32 (Z.lnot 3)) with (Z.land (Z.ones 32) (Z.lnot (Z.ones 2))) by done.
  rewrite Z.land_assoc, Z.land_ones, Z.mod_small, <- Z.ldiff_land by lia.
  rewrite Z.ldiff_ones_r, Z.shiftl_mul_pow2, Z.shiftr_div_pow2 by lia.
  change (2 ^ 2) with 4. split; [zdiv|apply Z_mod_mult].
Qed.

Section Rx.
Variable custom_free : Z -> pheap -> res pheap.

Lemma pbuf_alloc_ram_spec layer len a addrs h :
  0 <= layer < 65536 -> 0 <= len < 65536 -> 0 < a < 18446744073709551616 - 131072 ->
  exists b, pbuf_alloc custom_free layer len PBUF_RAM (a :: addrs) h = Ret (a, addrs, pset a b h) /\
    next b = NULL /\ p_len b = len /\ p_tot_len b = len /\ p_ref b = 1 /\
    a + 24 + layer <= payload b < a + 28 + layer /\ type_internal b = 0x80 /\ p_flags b = 0.
Proof.
  intros Hy Hl Ha. unfold pbuf_alloc. rewrite (u16_small layer) by lia.
  destruct (MEM_ALIGN_SIZE_spec layer) as [M1 _]; [lia|].
  destruct (MEM_ALIGN_SIZE_spec len) as [M2 _]; [lia|].
  change (MEM_ALIGN_SIZE SIZEOF_STRUCT_PBUF) with 24. change SIZEOF_STRUCT_PBUF with 24.
  rewrite (u64_small (MEM_ALIGN_SIZE layer + MEM_ALIGN_SIZE len)) by lia.
  rewrite (u64_small (24 + _)) by lia.
  destruct (Z.ltb_spec (MEM_ALIGN_SIZE layer + MEM_ALIGN_SIZE len) (MEM_ALIGN_SIZE len)),
    (Z.ltb_spec (24 + (MEM_ALIGN_SIZE layer + MEM_ALIGN_SIZE len)) (MEM_ALIGN_SIZE len)); try lia.
  cbn [orb alloc_addr]. unfold NULL. destruct (Z.eqb_spec a 0); [lia|].
  rewrite (u64_small (a + 24 + layer)) by lia.
  destruct (MEM_ALIGN_spec (a + 24 + layer)) as [M3 M4]; [lia|]. rewrite M4.
  eexists. split; [reflexivity|]. cbn. repeat split; lia.
Qed.

(** A received frame of up to 65535 bytes reaches lwIP intact: when
    malloc succeeds, [pbuf_alloc] and [pbuf_take] build a packet of one pbuf,
    well formed and holding exactly the frame's bytes, and no payload or
    pbuf elsewhere changes. *)
Theorem net_rx_packet h a addrs buf :
  bytes buf -> 0 < Z.of_nat (length buf) < 65536 -> 0 < a < 18446744073709551616 - 131072 ->
  pbufs h !! a = None ->
  exists b h1 m',
    pbuf_alloc custom_free PBUF_RAW (Z.of_nat (length buf)) PBUF_RAM (a :: addrs) h =
      Ret (a, addrs, h1) /\
    pbuf_take a (list_reader buf) (Z.of_nat (length buf)) h1 = Ret (ERR_OK, set_pmem m' h1) /\
    pbufs h1 = <[a := b]> (pbufs h) /\
    chain_at (pbufs h1) a [(a, b)] /\ wf_chain [(a, b)] /\ p_ref b = 1 /\
    chain_data m' [(a, b)] = buf /\
    (forall x n, addr_ok x n -> x + n <= a \/ a + 28 + Z.of_nat (length buf) <= x ->
       mem_read m' x n = mem_read (pmem h) x n).
Proof.
  intros Hb Hl Ha Hfresh.
  destruct (pbuf_alloc_ram_spec PBUF_RAW (Z.of_nat (length buf)) a addrs h)
    as (b & E & B1 & B2 & B3 & B4 & B5 & _); [done|lia|lia|].
  change PBUF_RAW with 0 in *. rewrite Z.add_0_r in B5.
  assert (chain_at (pbufs (pset a b h)) a [(a, b)]) as Hc.
  { cbn. rewrite lookup_insert_eq. unfold NULL. repeat split; [lia|done]. }
  assert (wf_chain [(a, b)]) as Hw by (simpl; lia).
  assert (payloads_ok [(a, b)]) as Hp by (simpl; unfold addr_ok; repeat split; [lia..|constructor]).
  pose proof (pbuf_take_eq a [(a, b)] (list_reader buf) (Z.of_nat (length buf)) (pset a b h) Hc)
    as H. replace (tot [(a, b)]) with (Z.of_nat (length buf)) in H by (simpl; lia).
  rewrite Z.ltb_irrefl in H.
  destruct H as (m' & E' & D & F); [unfold NULL; lia|done|done| |lia|].
  { intros i. by apply list_reader_byte. }
  exists b, (pset a b h), m'. split; [done|]. split; [done|]. split; [done|]. split; [done|].
  split; [done|]. split; [done|]. split.
  - rewrite D, slice_list_reader. rewrite drop_ge; [by rewrite app_nil_r|].
    rewrite chain_data_cons, app_nil_r, length_mem_read. lia.
  - intros x n Hx Ho. rewrite (F x n Hx); [done|]. constructor; [simpl; lia|constructor].
Qed.
End Rx.

(** ** Bounded waiting *)
Section Wait.
Context {T : Type} `{!NetStack T}.
Variable custom_free : Z -> pheap -> res pheap.
Variable rx : nat -> list (list Z).
(** The stack returns from every poll. *)
Hypothesis poll_returns : forall k addrs h (st : T),
  exists addrs' h' st', net_poll custom_free (rx k) addrs h st = Ret (addrs', h', st').

Lemma net_wait_loop_returns n now k start timeout addrs h (st : T) :
  timeout <= u32 (sys_now (now (k + n)%nat) - start) ->
  exists r addrs' h' st',
    net_wait_loop custom_free (S n) now rx k start timeout addrs h st = Ret (r, addrs', h', st') /\
    (r = 0 \/ r = 1 /\ net_is_ready st' = true).
Proof.
  revert k addrs h st. induction n as [|n IH]; intros k addrs h st Hn;
    cbn [net_wait_loop]; (destruct (net_is_ready st) eqn:Er;
      [exists 1, addrs, h, st; split; [done|by right]|]);
    destruct (poll_returns k addrs h st) as (addrs1 & h1 & st1 & ->); cbn [res_bind].
  - rewrite Nat.add_0_r in Hn. rewrite Z.geb_leb.
    destruct (Z.leb_spec timeout (u32 (sys_now (now k) - start))); [|lia].
    exists 0, addrs1, h1, st1. split; [done|by left].
  - destruct (_ >=? _); [exists 0, addrs1, h1, st1; split; [done|by left]|].
    apply IH. by replace (S k + n)%nat with (k + S n)%nat by lia.
Qed.

(** Waiting for DHCP is bounded by the clock: once some later reading of
    the millisecond counter is [timeout_ms] or more past the first one
    (modulo its 32-bit wrap), [net_wait_ready] has returned within that many
    rounds, with 1 only when an address was supplied. *)
Theorem net_wait_ready_bounded n now timeout addrs h (st : T) :
  timeout <= u32 (sys_now (now (S n)) - sys_now (now 0%nat)) ->
  exists r addrs' h' st',
    net_wait_ready custom_free (S n) now rx timeout addrs h st = Ret (r, addrs', h', st') /\
    (r = 0 \/ r = 1 /\ net_is_ready st' = true).
Proof. intros H. by apply net_wait_loop_returns. Qed.
End Wait.

(** ** Instances *)
(** A stack that drops every packet and never gets an address. *)
#[export] Instance sink_stack : NetStack unit := {|
  stack_input := fun _ h st => Ret (ERR_OK, h, st);
  stack_timeouts := fun h st => Ret (h, st);
  stack_dhcp_supplied := fun _ => false;
|}.

Definition no_custom_free (p : Z) (h : pheap) : res pheap := Undef.
Definition two_bytes : pheap :=
  mkPheap {[ 1000 := mkPbuf 0 5000 2 2 0x80 0 1 0 ]} (mem_write ∅ 5000 [7; 8]).

Lemma low_level_output_correct_witness :
  exists txbuf', low_level_output 1000 (replicate 1522 0) two_bytes = Ret (ERR_OK, Some [7; 8], txbuf').
Proof.
  destruct (low_level_output_correct two_bytes 1000 [(1000, mkPbuf 0 5000 2 2 0x80 0 1 0)]
    (replicate 1522 0)) as (t & E & _).
  - simpl. by repeat split.
  - discriminate.
  - cbn. lia.
  - apply length_replicate.
  - exists t. exact E.
Defined.

Lemma net_rx_packet_witness :
  exists b h1 m', pbuf_alloc no_custom_free PBUF_RAW 3 PBUF_RAM [4096] (mkPheap ∅ ∅) = Ret (4096, [], h1) /\
    pbuf_take 4096 (list_reader [1; 2; 3]) 3 h1 = Ret (ERR_OK, set_pmem m' h1) /\
    chain_data m' [(4096, b)] = [1; 2; 3].
Proof.
  destruct (net_rx_packet no_custom_free (mkPheap ∅ ∅) 4096 [] [1; 2; 3])
    as (b & h1 & m' & E1 & E2 & _ & _ & _ & _ & D & _).
  - repeat constructor; lia.
  - cbn. lia.
  - lia.
  - done.
  - exists b, h1, m'. split; [exact E1|]. split; [exact E2|exact D].
Defined.

Lemma net_wait_ready_bounded_witness :
  exists r addrs h st, net_wait_ready no_custom_free 3 (fun k => Z.of_nat k * 15000000000)
    (fun _ => []) 30000 [] (mkPheap ∅ ∅) tt = Ret (r, addrs, h, st) /\
    (r = 0 \/ r = 1 /\ net_is_ready st = true).
Proof.
  apply (net_wait_ready_bounded no_custom_free (fun _ => [])).
  - intros k addrs h st. by exists addrs, h, st.
  - vm_compute. discriminate.
Defined.
