(* ===== verification/PbufClone.v ===== *)
(** * Packet buffers: copying a packet into one new pbuf

    pbuf_copy from a chain into a single pbuf, and pbuf_clone with PBUF_RAM,
    the way the ARP queue copies packets that reference volatile data. *)
From S2P Require Import Prelude Pbuf PbufChain PbufOps NetGlue.

(** A chain that is one packet: a tail carries data, or there is none. *)
Definition one_packet (ps : list (Z * pbuf)) : Prop :=
  Forall (fun x => p_len x.2 = p_tot_len x.2 -> next x.2 = NULL) ps.

(** A store of [n] bytes at [x] leaves the ranges that it misses. *)
Definition unchanged_off (x n : Z) (m m' : memory) : Prop :=
  forall y k, addr_ok y k -> y + k <= x \/ x + n <= y -> mem_read m' y k = mem_read m y k.

Lemma mem_read_split m a n k : 0 <= n -> 0 <= k -> mem_read m a (n + k) = mem_read m a n ++ mem_read m (a + n) k.
Proof.
  intros Hn Hk. unfold mem_read. rewrite <- slice_app by lia. f_equal. apply slice_ext.
  intros i Hi. unfold mem_reader. f_equal. lia.
Qed.

Lemma mem_read_stored m a bs n :
  Z.of_nat (length bs) = n -> addr_ok a n -> bytes bs -> mem_read (mem_write m a bs) a n = bs.
Proof. intros <-. apply mem_read_write_same. Qed.

Section Copy.
Context (pt : Z) (bt : pbuf).
Context (pt_null : pt <> NULL) (bt_next : next bt = NULL) (bt_len : 0 <= p_len bt < 65536).

(** The check for packet queues in the loop passes on one packet. *)
Lemma no_queue m p ps : chain_at m p ps -> one_packet ps ->
  (if p =? NULL then Ret false
   else let* b := pget (mkPheap m ∅) p in Ret ((p_len b =? p_tot_len b) && negb (next b =? NULL))) = Ret false.
Proof.
  destruct ps as [|[a b] ps]; [by intros ->|]. intros Hc H1. pose proof (pget_chain (mkPheap m ∅) _ _ _ _ Hc) as Hg.
  destruct Hc as (-> & Ha & _). rewrite (proj2 (Z.eqb_neq a NULL) Ha), Hg. cbn [res_bind]. f_equal.
  inversion H1 as [|? ? O1 _]. subst. cbn in O1. destruct (Z.eqb_spec (p_len b) (p_tot_len b)) as [E|]; [|done].
  by rewrite O1.
Qed.

(** The first bytes of a chain are in its first pbuf. *)
Lemma chain_data_head m a b ps k : 0 <= k <= p_len b -> mem_read m (payload b) k = take (Z.to_nat k) (chain_data m ((a, b) :: ps)).
Proof.
  intros Hk. rewrite chain_data_cons, take_app_le by (rewrite length_mem_read; lia).
  pose proof (window_mem_read m (payload b) (p_len b) k 0) as Hwin. unfold window in Hwin.
  cbn [Z.to_nat drop] in Hwin. rewrite Z.add_0_r in Hwin. symmetry. apply Hwin; lia.
Qed.
(** A piece that is written into the target: it is there, and the rest is as before. *)
Lemma piece_written m bs off : bytes bs -> addr_ok (payload bt) (p_len bt) -> 0 <= off -> off + Z.of_nat (length bs) <= p_len bt ->
  mem_read (mem_write m (payload bt + off) bs) (payload bt + off) (Z.of_nat (length bs)) = bs /\
  forall y j, addr_ok y j -> y + j <= payload bt + off \/ payload bt + off + Z.of_nat (length bs) <= y ->
    mem_read (mem_write m (payload bt + off) bs) y j = mem_read m y j.
Proof.
  intros Hb Ha Ho Hl. split; [|intros y j Hy Hd].
  - apply mem_read_write_same; [unfold addr_ok in *; lia|done].
  - apply mem_read_write_out; [unfold addr_ok in *; lia|done|lia].
Qed.

Lemma copy_loop_spec fuel p ps off n h :
  pbufs h !! pt = Some bt -> mem_ok (pmem h) ->
  chain_at (pbufs h) p ps -> ps <> [] -> wf_chain ps -> one_packet ps -> (length ps <= fuel)%nat ->
  0 <= n <= tot ps -> 0 <= off -> off + n <= p_len bt ->
  exists m', copy_pbuf_loop fuel pt p n off 0 h = Ret (ERR_OK, set_pmem m' h) /\ mem_ok m' /\
    (addr_ok (payload bt) (p_len bt) -> unchanged_off (payload bt + off) n (pmem h) m' /\
     (payloads_ok ps -> clear_of (payload bt) (p_len bt) ps ->
      mem_read m' (payload bt + off) n = take (Z.to_nat n) (chain_data (pmem h) ps))).
Proof.
  revert p ps off n h. induction fuel as [|fuel IH]; intros p [|[a b] ps] off n h Hbt Hm Hc Hne Hw H1 Hf Hn Ho Ht; try done.
  { cbn in Hf. lia. }
  pose proof (pget_chain _ _ _ _ _ Hc) as Hg. assert (p = a) as -> by apply Hc.
  pose proof Hw as (W1 & W2 & W3 & W4). pose proof (tot_bound _ W4) as Htb. inversion H1 as [|? ? H1a H1b]. subst.
  rewrite tot_cons in *. cbn [snd] in *. set (k := Z.min n (p_len b)).
  cbn [copy_pbuf_loop]. unfold pget at 1. rewrite (proj2 (Z.eqb_neq pt NULL) pt_null), Hbt. cbn [res_of_option res_bind].
  rewrite Hg. cbn [res_bind]. rewrite (u64_small (p_len bt - off)), (u64_small (p_len b - 0)), Z.sub_0_r by lia.
  replace (Z.min n (if p_len bt - off >=? p_len b then p_len b else p_len bt - off)) with k.
  2:{ rewrite Z.geb_leb. unfold k. destruct (Z.leb_spec (p_len b) (p_len bt - off)); lia. }
  rewrite Z.add_0_r, Z.add_0_l, (u64_small (off + k)), (u64_small k), (u16_small (n - k)) by lia.
  rewrite (proj2 (Z.leb_le (off + k) (p_len bt))), (proj2 (Z.leb_le k (p_len b))) by lia. cbn [lwip_assert].
  rewrite Z.geb_leb. cbv zeta.
  set (bs := mem_read (pmem h) (payload b) k). set (m1 := mem_write (pmem h) (payload bt + off) bs).
  assert (Z.of_nat (length bs) = k) as Lbs by (unfold bs; rewrite length_mem_read; lia).
  assert (bytes bs) as Bbs by by apply bytes_mem_read.
  assert (mem_ok m1) as Hm1 by by apply mem_ok_mem_write.
  assert (forall q qs, chain_at (pbufs h) q qs -> one_packet qs ->
    (if q =? NULL then Ret false
     else let* b := pget (set_pmem m1 h) q in Ret ((p_len b =? p_tot_len b) && negb (next b =? NULL))) = Ret false) as Hnq.
  { intros q qs Hq Hq1. apply (no_queue _ _ _ Hq Hq1). }
  assert (chain_at (pbufs h) pt [(pt, bt)] /\ one_packet [(pt, bt)]) as [Hct H1t].
  { cbn. rewrite bt_next. repeat split; try done. by repeat constructor. }
  assert (bs = take (Z.to_nat k) (chain_data (pmem h) ((a, b) :: ps))) as Ebs by (apply chain_data_head; lia).
  assert (addr_ok (payload bt) (p_len bt) -> mem_read m1 (payload bt + off) k = bs /\
    forall y j, addr_ok y j -> y + j <= payload bt + off \/ payload bt + off + k <= y -> mem_read m1 y j = mem_read (pmem h) y j) as Hm1p.
  { intros Ha. rewrite <- Lbs. apply piece_written; try done. lia. }
  destruct (decide (n <= p_len b)) as [Hfin|Hmore].
  - assert (k = n) as Ek by lia. rewrite Ek, Z.sub_diag in *. change (truth 0) with false. rewrite !andb_false_r. cbn iota.
    destruct Hc as (_ & Ha0 & Hb & Hc).
    assert (exists q qs, (if p_len b <=? n then next b else a) = q /\ chain_at (pbufs h) q qs /\ one_packet qs)
      as (q & qs & -> & Hq & Hq1).
    { destruct (p_len b <=? n); [by exists (next b), ps|]. exists a, ((a, b) :: ps).
      split; [done|]. split; [cbn; by split_and!|done]. }
    rewrite (Hnq q qs Hq Hq1). cbn [res_bind].
    assert (exists q qs, (if off + n =? p_len bt then next bt else pt) = q /\ chain_at (pbufs h) q qs /\ one_packet qs)
      as (r & rs & -> & Hr & Hr1).
    { destruct (off + n =? p_len bt); [|by exists pt, [(pt, bt)]]. exists (next bt), [].
      split; [done|]. split; [exact bt_next|constructor]. }
    rewrite (Hnq r rs Hr Hr1). cbn [res_bind]. exists m1. split; [done|]. split; [done|]. intros Ha. destruct (Hm1p Ha) as [Hm1r Hm1u]. split.
    + intros y j Hy Hd. by apply Hm1u.
    + intros _ _. rewrite Hm1r. exact Ebs.
  - assert (k = p_len b) as Ek by lia. rewrite Ek in *. rewrite Z.leb_refl. cbn [andb].
    destruct Hc as (_ & Ha0 & Hb & Hc). destruct ps as [|[c d] ps]; [cbn in Hn; lia|].
    assert (next b <> NULL) as Hnn by (destruct Hc as (-> & Hc0 & _); done).
    rewrite (proj2 (Z.eqb_neq (next b) NULL) Hnn). cbn [andb].
    rewrite (proj2 (Z.eqb_neq (off + p_len b) (p_len bt))) by lia. cbn [andb].
    pose proof (Hnq _ _ Hc H1b) as Hq. rewrite (proj2 (Z.eqb_neq (next b) NULL) Hnn) in Hq. rewrite Hq. cbn [res_bind].
    rewrite (Hnq _ _ Hct H1t). cbn [res_bind].
    unfold truth. rewrite (proj2 (Z.eqb_neq (n - p_len b) 0)) by lia. cbn [negb].
    destruct (IH (next b) ((c, d) :: ps) (off + p_len b) (n - p_len b) (set_pmem m1 h)) as (m' & E & Hm' & HD);
      try done; [cbn in *; lia|lia|lia|lia|].
    exists m'. split; [rewrite E; by destruct h|]. split; [done|]. intros Ha. destruct (HD Ha) as [F D]. destruct (Hm1p Ha) as [Hm1r Hm1u]. clear HD.
    cbn [pmem set_pmem] in F, D. split.
    + intros y j Hy Hd. rewrite (F y j Hy) by lia. apply Hm1u; (done || lia).
    + intros Hp Hcl. inversion Hcl as [|? ? C1 C2]. subst. cbn [snd] in C1. destruct Hp as (P1 & P2 & P3). cbn [snd] in P1.
      replace n with (p_len b + (n - p_len b)) by lia. rewrite mem_read_split by lia.
      rewrite (F (payload bt + off) (p_len b)), Hm1r by (unfold addr_ok in *; (done || lia)).
      rewrite chain_data_cons, take_app_ge by (rewrite length_mem_read; lia).
      f_equal; [unfold bs; by rewrite Ek|]. rewrite <- Z.add_assoc, D by done. rewrite length_mem_read. f_equal; [lia|].
      apply chain_data_frame. intros x y Hxy. pose proof (payloads_ok_elem _ _ _ P3 Hxy) as Hok.
      unfold clear_of in C2. rewrite Forall_forall in C2. specialize (C2 _ Hxy). cbn in C2.
      apply Hm1u; [done|]. unfold addr_ok in *. lia.
Qed.
End Copy.

(** ** pbuf_clone *)
Section Clone.
Variable custom_free : Z -> pheap -> res pheap.

Lemma clone_ram_spec layer p ps a addrs h :
  chain_at (pbufs h) p ps -> p <> NULL -> wf_chain ps -> one_packet ps -> mem_ok (pmem h) ->
  0 <= layer <= PBUF_TRANSPORT -> 0 < a < 18446744073709551616 - 131072 -> pbufs h !! a = None ->
  exists b m', pbuf_clone custom_free layer PBUF_RAM p (a :: addrs) h = Ret (a, addrs, set_pmem m' (pset a b h)) /\
    mem_ok m' /\ next b = NULL /\ p_len b = tot ps /\ p_tot_len b = tot ps /\ p_ref b = 1 /\
    type_internal b = 0x80 /\ p_flags b = 0 /\ a + 24 + layer <= payload b < a + 28 + layer /\
    unchanged_off (payload b) (tot ps) (pmem h) m' /\
    (payloads_ok ps -> clear_of (a + 24) (4 + layer + tot ps) ps -> chain_data m' [(a, b)] = chain_data (pmem h) ps).
Proof.
  intros Hc Hp Hw H1 Hm Hy Ha Hfree. unfold PBUF_TRANSPORT in Hy. destruct ps as [|[c d] ps]; [done|].
  pose proof (pget_chain _ _ _ _ _ Hc) as Hg. pose proof (tot_bound _ Hw) as Ht.
  unfold pbuf_clone. rewrite Hg. cbn [res_bind]. set (qs := (c, d) :: ps) in *.
  assert (p_tot_len d = tot qs) as Et by apply Hw. rewrite Et.
  destruct (pbuf_alloc_ram_spec custom_free layer (tot qs) a addrs h ltac:(lia) Ht Ha)
    as (b & -> & B1 & B2 & B3 & B4 & B5 & B6 & B7). cbn [res_bind].
  assert (a <> NULL) as Ha0 by (unfold NULL; lia). rewrite (proj2 (Z.eqb_neq a NULL) Ha0).
  assert (chain_at (pbufs (pset a b h)) p qs) as Hc'.
  { apply chain_at_insert; [|done]. intros Hin. apply list_elem_of_fmap in Hin as ([x y] & -> & Hin).
    apply (chain_at_elem _ _ _ _ _ Hc) in Hin as [Hin _]. cbn in Hfree. congruence. }
  unfold pbuf_copy. rewrite (proj2 (Z.eqb_neq p NULL) Hp), (pget_chain _ _ _ _ _ Hc'). cbn [res_bind]. rewrite Et.
  unfold pbuf_copy_partial_pbuf. rewrite (proj2 (Z.eqb_neq p NULL) Hp), (pget_chain _ _ _ _ _ Hc'). cbn [res_bind]. rewrite Et.
  rewrite !Z.geb_leb, Z.leb_refl, (proj2 (Z.eqb_neq a NULL) Ha0). cbn [negb orb].
  unfold pget at 1. rewrite (proj2 (Z.eqb_neq a NULL) Ha0). cbn [pbufs pset]. rewrite lookup_insert_eq.
  cbn [res_of_option res_bind]. rewrite B3, Z.add_0_l, ?Z.geb_leb, Z.leb_refl. cbn [negb].
  pose proof (chain_length_le _ _ _ Hc') as Hf.
  destruct (copy_loop_spec a b Ha0 B1 ltac:(lia) (chain_fuel (pset a b h) + chain_fuel (pset a b h)) p qs 0 (tot qs) (pset a b h))
    as (m' & E & Hm' & HD); try done; try lia.
  { cbn. apply lookup_insert_eq. }
  rewrite E. cbn [res_bind]. change (ERR_OK =? ERR_OK) with true. cbn [lwip_assert]. exists b, m'.
  split; [done|]. destruct HD as [F D]; [unfold addr_ok; lia|]. rewrite Z.add_0_r in *. cbn [pmem pset] in *.
  split_and!; try done; try lia. intros Hpo Hcl. rewrite chain_data_cons. cbn [chain_data fmap list_fmap concat].
  rewrite app_nil_r, B2, D; [|done|].
  { apply take_ge. pose proof (length_chain_data (pmem h) qs Hw). lia. }
  eapply Forall_impl; [exact Hcl|]. intros x Hx. cbv beta in *. lia.
Qed.
End Clone.
