(* ===== verification/NetShim.v ===== *)
(** * src/app/net_shim.c: blocking sockets over lwIP's raw TCP API

    The socket table, the lwIP callbacks that fill it, and the socket calls.
    Of lwIP this file models what the table depends on: which pcbs exist, their
    states, and the callbacks registered on them (tcp.c, tcp_priv.h).  Which
    segments arrive, when memory runs out and what the clock reads is an [env],
    asked one numbered question at a time.

    A received pbuf chain is the list of its payloads; [NetRx] proves that the
    pointer-level code implements this view. *)
From S2P Require Import Prelude NetGlue.

Definition EAGAIN : Z := 11.
Definition ENOMEM : Z := 12.
Definition EINVAL : Z := 22.
Definition EMFILE : Z := 24.
Definition EAFNOSUPPORT : Z := 97.
Definition EADDRINUSE : Z := 98.
Definition ECONNRESET : Z := 104.
Definition ETIMEDOUT : Z := 110.
Definition ECONNREFUSED : Z := 111.
Definition AF_INET : Z := 2.
Definition SOCK_STREAM : Z := 1.

Definition ERR_OK : Z := 0.
Definition ERR_MEM : Z := -1.
Definition ERR_VAL : Z := -6.
Definition ERR_ISCONN : Z := -10.
Definition ERR_ABRT : Z := -13.
Definition ERR_ARG : Z := -16.

Definition SOCK_FD_BASE : Z := 100.
Definition SOCK_MAX : nat := 16.
Definition ACCEPTQ_MAX : Z := 8.
Definition NET_BLOCK_TIMEOUT_MS : Z := 30000.
Definition SIZEOF_SOCKADDR_IN : Z := 16.
Definition NULL : Z := 0.

(** ** Data *)
Abbreviation chain := (list (list Z)).

Inductive sk_state := SK_FREE | SK_CLOSED | SK_CONNECTING | SK_CONNECTED | SK_LISTENING | SK_ERROR.
#[export] Instance sk_state_eq_dec : EqDecision sk_state.
Proof. solve_decision. Defined.

Record bsock := mkSock {
  state : sk_state;
  pcb : Z;
  rx_head : chain;
  rx_off : Z;
  eof : bool;
  acceptq : list Z;
  acceptq_head : Z;
  acceptq_tail : Z;
  acceptq_count : Z;
}.

(** [memset(s, 0, sizeof *s)] *)
Definition zero_sock : bsock := mkSock SK_FREE NULL [] 0 false (replicate 8 0) 0 0 0.

Definition set_state (v : sk_state) (s : bsock) : bsock :=
  mkSock v (pcb s) (rx_head s) (rx_off s) (eof s) (acceptq s) (acceptq_head s) (acceptq_tail s)
    (acceptq_count s).
Definition set_pcb (v : Z) (s : bsock) : bsock :=
  mkSock (state s) v (rx_head s) (rx_off s) (eof s) (acceptq s) (acceptq_head s) (acceptq_tail s)
    (acceptq_count s).
Definition set_rx (c : chain) (off : Z) (s : bsock) : bsock :=
  mkSock (state s) (pcb s) c off (eof s) (acceptq s) (acceptq_head s) (acceptq_tail s)
    (acceptq_count s).
Definition set_eof (s : bsock) : bsock :=
  mkSock (state s) (pcb s) (rx_head s) (rx_off s) true (acceptq s) (acceptq_head s) (acceptq_tail s)
    (acceptq_count s).
Definition set_acceptq (q : list Z) (hd tl cnt : Z) (s : bsock) : bsock :=
  mkSock (state s) (pcb s) (rx_head s) (rx_off s) (eof s) q hd tl cnt.

(** enum tcp_state (tcpbase.h) *)
Inductive tcp_state := CLOSED | LISTEN | SYN_SENT | SYN_RCVD | ESTABLISHED | FIN_WAIT_1 | FIN_WAIT_2
  | CLOSE_WAIT | CLOSING | LAST_ACK | TIME_WAIT.
#[export] Instance tcp_state_eq_dec : EqDecision tcp_state.
Proof. solve_decision. Defined.

(** The accept callback of a listening pcb. *)
Inductive accept_fn := AcceptNone | AcceptNull | AcceptOn.

(** The fields of struct tcp_pcb and tcp_pcb_listen the table depends on.  A
    callback argument is a slot of the socket table; [cb_recv], [cb_err] and
    [cb_connected] tell whether on_recv, on_err and on_connected are set. *)
Record tcp_pcb := mkPcb {
  tstate : tcp_state;
  callback_arg : option nat;
  cb_recv : bool;
  cb_err : bool;
  cb_connected : bool;
  accept : accept_fn;
  listener : Z;
  rxclosed : bool;
  remote_ip : Z;
  remote_port : Z;
}.

(** [tcp_alloc]: zeroed, with lwIP's own recv callback. *)
Definition new_pcb : tcp_pcb := mkPcb CLOSED None false false false AcceptNone NULL false 0 0.

Definition set_tstate (v : tcp_state) (p : tcp_pcb) : tcp_pcb :=
  mkPcb v (callback_arg p) (cb_recv p) (cb_err p) (cb_connected p) (accept p) (listener p)
    (rxclosed p) (remote_ip p) (remote_port p).
Definition set_arg (v : option nat) (p : tcp_pcb) : tcp_pcb :=
  mkPcb (tstate p) v (cb_recv p) (cb_err p) (cb_connected p) (accept p) (listener p) (rxclosed p)
    (remote_ip p) (remote_port p).
Definition set_cbs (r e : bool) (p : tcp_pcb) : tcp_pcb :=
  mkPcb (tstate p) (callback_arg p) r e (cb_connected p) (accept p) (listener p) (rxclosed p)
    (remote_ip p) (remote_port p).
Definition set_accept (v : accept_fn) (p : tcp_pcb) : tcp_pcb :=
  mkPcb (tstate p) (callback_arg p) (cb_recv p) (cb_err p) (cb_connected p) v (listener p)
    (rxclosed p) (remote_ip p) (remote_port p).
Definition set_listener (v : Z) (p : tcp_pcb) : tcp_pcb :=
  mkPcb (tstate p) (callback_arg p) (cb_recv p) (cb_err p) (cb_connected p) (accept p) v
    (rxclosed p) (remote_ip p) (remote_port p).
Definition set_rxclosed (p : tcp_pcb) : tcp_pcb :=
  mkPcb (tstate p) (callback_arg p) (cb_recv p) (cb_err p) (cb_connected p) (accept p) (listener p)
    true (remote_ip p) (remote_port p).
Definition set_remote (ip port : Z) (conn : bool) (p : tcp_pcb) : tcp_pcb :=
  mkPcb (tstate p) (callback_arg p) (cb_recv p) (cb_err p) (cb_connected p || conn) (accept p)
    (listener p) (rxclosed p) ip port.

(** What incoming segments and timers can do to a pcb. *)
Inductive tcp_event :=
  | EvRecv (p : Z) (c : chain)          (** in-order data for [p] *)
  | EvFin (p : Z)                       (** the peer closed its side *)
  | EvConnected (p : Z)                 (** SYN|ACK for [p] in SYN_SENT *)
  | EvErr (p err : Z)                   (** reset, or given up by a timer *)
  | EvSyn (lp ip port : Z)              (** SYN for the listening [lp] *)
  | EvEstablished (p : Z)               (** ACK for [p] in SYN_RCVD *)
  | EvGone (p : Z).                     (** a pcb the application closed has finished *)

(** The answers of the world: the [n]-th question is asked with [n]; the
    readings of the clock are counted on their own. *)
Record env := mkEnv {
  e_now : nat -> Z;                     (** b_system(TIMECOUNTER) *)
  e_alloc : nat -> Z;                   (** address of a new pcb, or 0 *)
  e_err : nat -> Z;                     (** outcome of work inside lwIP *)
  e_unread : nat -> bool;               (** data not yet acknowledged at close *)
  e_sndbuf : nat -> Z;                  (** tcp_sndbuf *)
  e_ready : nat -> bool;                (** dhcp_supplied_address *)
  e_events : nat -> list tcp_event;     (** what a net_poll leads to *)
}.

Record ticks := mkTicks { asked : nat; clocked : nat }.

(** What the socket layer tells lwIP about a connection's data: bytes queued
    for sending, bytes taken by the application. *)
Inductive tcp_call := TcpWrite (p : Z) (bs : list Z) | TcpRecved (p n : Z).

(** The static variables of net_shim.c, the pcbs, the number of questions asked
    and a log of the calls of tcp_write and tcp_recved. *)
Record net := mkNet {
  socks : list bsock;
  net_ready : bool;
  pcbs : gmap Z tcp_pcb;
  tick : ticks;
  tcp_log : list tcp_call;
}.

Definition net_boot : net := mkNet (replicate SOCK_MAX zero_sock) false ∅ (mkTicks 0 0) [].

Definition set_socks (l : list bsock) (st : net) : net :=
  mkNet l (net_ready st) (pcbs st) (tick st) (tcp_log st).
Definition set_sock (i : nat) (s : bsock) (st : net) : net := set_socks (<[i := s]> (socks st)) st.
Definition set_pcbs (m : gmap Z tcp_pcb) (st : net) : net :=
  mkNet (socks st) (net_ready st) m (tick st) (tcp_log st).
Definition ask (st : net) : nat * net :=
  (asked (tick st), mkNet (socks st) (net_ready st) (pcbs st)
     (mkTicks (S (asked (tick st))) (clocked (tick st))) (tcp_log st)).

(** ** lwIP: pcbs and callback registration (tcp.c) *)

(** Dereferencing a pcb pointer: undefined when the pcb is gone. *)
Definition get_pcb (p : Z) (st : net) : res tcp_pcb := res_of_option (pcbs st !! p).
Definition put_pcb (p : Z) (b : tcp_pcb) (st : net) : net := set_pcbs (<[p := b]> (pcbs st)) st.
Definition tcp_free (p : Z) (st : net) : net := set_pcbs (delete p (pcbs st)) st.

(** memp_malloc hands out an address that is not in use. *)
Definition pcb_alloc (E : env) (st : net) : Z * net :=
  let '(n, st) := ask st in
  let p := e_alloc E n in
  match pcbs st !! p with Some _ => (NULL, st) | None => (p, st) end.

Definition tcp_new (E : env) (st : net) : Z * net :=
  let '(p, st) := pcb_alloc E st in
  if p =? NULL then (NULL, st) else (p, put_pcb p new_pcb st).

Definition tcp_arg (p : Z) (arg : option nat) (st : net) : res net :=
  if p =? NULL then Ret st
  else let* b := get_pcb p st in Ret (put_pcb p (set_arg arg b) st).

(** tcp_recv and tcp_err assert that the pcb is not listening. *)
Definition tcp_recv (p : Z) (on : bool) (st : net) : res net :=
  if p =? NULL then Ret st
  else
    let* b := get_pcb p st in
    if bool_decide (tstate b = LISTEN) then Undef
    else Ret (put_pcb p (set_cbs on (cb_err b) b) st).
Definition tcp_err (p : Z) (on : bool) (st : net) : res net :=
  if p =? NULL then Ret st
  else
    let* b := get_pcb p st in
    if bool_decide (tstate b = LISTEN) then Undef
    else Ret (put_pcb p (set_cbs (cb_recv b) on b) st).
Definition tcp_accept (p : Z) (f : accept_fn) (st : net) : res net :=
  if p =? NULL then Ret st
  else
    let* b := get_pcb p st in
    if bool_decide (tstate b = LISTEN) then Ret (put_pcb p (set_accept f b) st) else Ret st.

(** tcp_recved asserts that the pcb is not listening; the window it opens is
    lwIP's. *)
Definition tcp_recved (p len : Z) (st : net) : res net :=
  if p =? NULL then Ret st
  else
    let* b := get_pcb p st in
    if bool_decide (tstate b = LISTEN) then Undef
    else Ret (mkNet (socks st) (net_ready st) (pcbs st) (tick st) (tcp_log st ++ [TcpRecved p len])).

Definition tcp_bind (E : env) (p : Z) (st : net) : res (Z * net) :=
  if p =? NULL then Ret (ERR_ARG, st)
  else
    let* b := get_pcb p st in
    if negb (bool_decide (tstate b = CLOSED)) then Ret (ERR_VAL, st)
    else let '(n, st) := ask st in Ret (e_err E n, st).

Definition tcp_listen_with_backlog (E : env) (p : Z) (st : net) : res (Z * net) :=
  if p =? NULL then Ret (NULL, st)
  else
    let* b := get_pcb p st in
    if negb (bool_decide (tstate b = CLOSED)) then Ret (NULL, st)
    else
      let '(lp, st) := pcb_alloc E st in
      if lp =? NULL then Ret (NULL, st)
      else
        let lb := mkPcb LISTEN (callback_arg b) false false false AcceptNull NULL false 0 0 in
        Ret (lp, put_pcb lp lb (tcp_free p st)).

(** The route, the port and the SYN are decided by [e_err]; the callback is
    stored just before the SYN is queued, which can fail with ERR_MEM. *)
Definition tcp_connect (E : env) (p ip port : Z) (st : net) : res (Z * net) :=
  if p =? NULL then Ret (ERR_ARG, st)
  else
    let* b := get_pcb p st in
    if negb (bool_decide (tstate b = CLOSED)) then Ret (ERR_ISCONN, st)
    else
      let '(n, st) := ask st in
      let err := e_err E n in
      let b := set_remote ip port ((err =? ERR_OK) || (err =? ERR_MEM)) b in
      let b := if err =? ERR_OK then set_tstate SYN_SENT b else b in
      Ret (err, put_pcb p b st).

(** tcp_listen_closed: no pcb may keep a pointer to the closed listener. *)
Definition forget_listener (lp : Z) (m : gmap Z tcp_pcb) : gmap Z tcp_pcb :=
  (fun b => if listener b =? lp then set_listener NULL b else b) <$> m.

Definition tcp_close_shutdown_fin (E : env) (p : Z) (st : net) : res (Z * net) :=
  let* b := get_pcb p st in
  let send_fin next :=
    let '(n, st) := ask st in
    let err := e_err E n in
    if err =? ERR_OK then Ret (ERR_OK, put_pcb p (set_tstate next b) st)
    else if err =? ERR_MEM then Ret (ERR_OK, st)
    else Ret (err, st) in
  match tstate b with
  | SYN_RCVD | ESTABLISHED => send_fin FIN_WAIT_1
  | CLOSE_WAIT => send_fin LAST_ACK
  | _ => Ret (ERR_OK, st)
  end.

Definition tcp_close_shutdown (E : env) (p : Z) (st : net) : res (Z * net) :=
  let* b := get_pcb p st in
  let '(n, st) := ask st in
  if (bool_decide (tstate b = ESTABLISHED) || bool_decide (tstate b = CLOSE_WAIT)) && e_unread E n
  then Ret (ERR_OK, tcp_free p st)
  else
    match tstate b with
    | CLOSED | SYN_SENT => Ret (ERR_OK, tcp_free p st)
    | LISTEN => Ret (ERR_OK, tcp_free p (set_pcbs (forget_listener p (pcbs st)) st))
    | _ => tcp_close_shutdown_fin E p st
    end.

Definition tcp_close (E : env) (p : Z) (st : net) : res (Z * net) :=
  if p =? NULL then Ret (ERR_ARG, st)
  else
    let* b := get_pcb p st in
    let st := if bool_decide (tstate b = LISTEN) then st else put_pcb p (set_rxclosed b) st in
    tcp_close_shutdown E p st.

(** ** The callbacks of net_shim.c *)
Definition sock_at (i : nat) (st : net) : res bsock := res_of_option (socks st !! i).

Definition alloc_slot (st : net) : Z :=
  find_from (fun s => bool_decide (state s = SK_FREE)) 0 (socks st).

(** A callback argument is [&socks[i]], or NULL. *)
Definition arg_slot (arg : option nat) : res nat := res_of_option arg.

Definition on_recv (arg : option nat) (p : option chain) (err : Z) (st : net) : res (Z * net) :=
  let* i := arg_slot arg in
  let* s := sock_at i st in
  match p with
  | None => Ret (ERR_OK, set_sock i (set_eof s) st)
  | Some c =>
      if negb (err =? ERR_OK) then Ret (ERR_OK, st)
      else Ret (ERR_OK, set_sock i (set_rx (rx_head s ++ c) (rx_off s) s) st)
  end.

Definition on_err (arg : option nat) (err : Z) (st : net) : res net :=
  let* i := arg_slot arg in
  let* s := sock_at i st in
  Ret (set_sock i (set_state SK_ERROR (set_pcb NULL s)) st).

Definition on_connected (arg : option nat) (err : Z) (st : net) : res (Z * net) :=
  let* i := arg_slot arg in
  let* s := sock_at i st in
  Ret (ERR_OK, set_sock i (set_state (if err =? ERR_OK then SK_CONNECTED else SK_ERROR) s) st).

Definition on_accept (arg : option nat) (newpcb err : Z) (st : net) : res (Z * net) :=
  let* li := arg_slot arg in
  if negb (err =? ERR_OK) || (newpcb =? NULL) then Ret (ERR_VAL, st)
  else
    let* l := sock_at li st in
    if acceptq_count l >=? ACCEPTQ_MAX then Ret (ERR_MEM, st)
    else
      let slot := alloc_slot st in
      if slot <? 0 then Ret (ERR_MEM, st)
      else
        let i := Z.to_nat slot in
        let st := set_sock i (set_pcb newpcb (set_state SK_CONNECTED zero_sock)) st in
        let* st := tcp_arg newpcb (Some i) st in
        let* st := tcp_recv newpcb true st in
        let* st := tcp_err newpcb true st in
        let* l := sock_at li st in
        if (acceptq_tail l <? 0) || (acceptq_tail l >=? ACCEPTQ_MAX) then Undef
        else
          let q := <[Z.to_nat (acceptq_tail l) := slot]> (acceptq l) in
          let l := set_acceptq q (acceptq_head l) ((acceptq_tail l + 1) mod ACCEPTQ_MAX)
                     (acceptq_count l + 1) l in
          Ret (ERR_OK, set_sock li l st).

(** tcp_abandon: the pcb is freed, then its err callback is told. *)
Definition tcp_abandon (p : Z) (st : net) : res net :=
  if p =? NULL then Ret st
  else
    let* b := get_pcb p st in
    if bool_decide (tstate b = LISTEN) then Undef
    else if bool_decide (tstate b = TIME_WAIT) then Ret (tcp_free p st)
    else if cb_err b then on_err (callback_arg b) ERR_ABRT (tcp_free p st)
    else Ret (tcp_free p st).

(** ** Delivering an event (tcp_in.c, tcp.c: the TCP_EVENT_ macros)

    An event for a pcb that cannot produce it has no effect. *)
Definition call_accept (f : accept_fn) (arg : option nat) (newpcb err : Z) (st : net)
  : res (Z * net) :=
  match f with
  | AcceptNone => Ret (ERR_ARG, st)
  | AcceptNull => if newpcb =? NULL then Undef
                  else let* st := tcp_abandon newpcb st in Ret (ERR_ABRT, st)
  | AcceptOn => on_accept arg newpcb err st
  end.

Definition deliver (E : env) (ev : tcp_event) (st : net) : res net :=
  match ev with
  | EvRecv p c =>
      match pcbs st !! p with
      | Some b =>
          if bool_decide (tstate b = ESTABLISHED) || bool_decide (tstate b = FIN_WAIT_1) ||
             bool_decide (tstate b = FIN_WAIT_2) then
            if rxclosed b then tcp_abandon p st
            else if cb_recv b then
              let* (_, st) := on_recv (callback_arg b) (Some c) ERR_OK st in Ret st
            else Ret st
          else Ret st
      | None => Ret st
      end
  | EvFin p =>
      match pcbs st !! p with
      | Some b =>
          if bool_decide (tstate b = ESTABLISHED) then
            let st := put_pcb p (set_tstate CLOSE_WAIT b) st in
            if cb_recv b then
              let* (_, st) := on_recv (callback_arg b) None ERR_OK st in Ret st
            else Ret st
          else Ret st
      | None => Ret st
      end
  | EvConnected p =>
      match pcbs st !! p with
      | Some b =>
          if bool_decide (tstate b = SYN_SENT) then
            let st := put_pcb p (set_tstate ESTABLISHED b) st in
            if cb_connected b then
              let* (_, st) := on_connected (callback_arg b) ERR_OK st in Ret st
            else Ret st
          else Ret st
      | None => Ret st
      end
  | EvErr p err =>
      match pcbs st !! p with
      | Some b =>
          if bool_decide (tstate b = CLOSED) || bool_decide (tstate b = LISTEN) then Ret st
          else if cb_err b then on_err (callback_arg b) err (tcp_free p st)
          else Ret (tcp_free p st)
      | None => Ret st
      end
  | EvSyn lp ip port =>
      match pcbs st !! lp with
      | Some lb =>
          if bool_decide (tstate lb = LISTEN) then
            let '(p, st) := pcb_alloc E st in
            if p =? NULL then
              let* (_, st) := call_accept (accept lb) (callback_arg lb) NULL ERR_MEM st in Ret st
            else
              Ret (put_pcb p (mkPcb SYN_RCVD (callback_arg lb) false false false AcceptNone lp
                                false ip port) st)
          else Ret st
      | None => Ret st
      end
  | EvEstablished p =>
      match pcbs st !! p with
      | Some b =>
          if bool_decide (tstate b = SYN_RCVD) then
            let st := put_pcb p (set_tstate ESTABLISHED b) st in
            let* (err, st) :=
              if listener b =? NULL then Ret (ERR_VAL, st)
              else
                let* lb := get_pcb (listener b) st in
                call_accept (accept lb) (callback_arg b) p ERR_OK st in
            if (err =? ERR_OK) || (err =? ERR_ABRT) then Ret st else tcp_abandon p st
          else Ret st
      | None => Ret st
      end
  | EvGone p =>
      match pcbs st !! p with
      | Some b => if rxclosed b then Ret (tcp_free p st) else Ret st
      | None => Ret st
      end
  end.

Fixpoint deliver_all (E : env) (evs : list tcp_event) (st : net) : res net :=
  match evs with
  | [] => Ret st
  | ev :: r => let* st := deliver E ev st in deliver_all E r st
  end.

(** [net_poll] as the table sees it: the callbacks that the frames and timers
    of this round lead to, in order. *)
Definition net_poll (E : env) (st : net) : res net :=
  let '(n, st) := ask st in deliver_all E (e_events E n) st.

Definition read_now (E : env) (st : net) : Z * net :=
  (sys_now (e_now E (clocked (tick st))),
   mkNet (socks st) (net_ready st) (pcbs st) (mkTicks (asked (tick st)) (S (clocked (tick st))))
     (tcp_log st)).

(** ** Blocking

    Every blocking call tries, polls, and gives up after 30 s; [None] is the
    timeout. *)
Fixpoint block_loop {A} (E : env) (fuel : nat) (start : Z) (try : net -> res (option A * net))
  (st : net) : res (option A * net) :=
  match fuel with
  | O => NoFuel
  | S k =>
      let* (o, st) := try st in
      match o with
      | Some a => Ret (Some a, st)
      | None =>
          let* st := net_poll E st in
          let '(t, st) := read_now E st in
          if u32 (t - start) >=? NET_BLOCK_TIMEOUT_MS then Ret (None, st)
          else block_loop E k start try st
      end
  end.

Definition blocking {A} (E : env) (fuel : nat) (try : net -> res (option A * net)) (st : net)
  : res (option A * net) :=
  let '(start, st) := read_now E st in block_loop E fuel start try st.

(** ** The socket calls *)
Definition net_shim_is_fd (st : net) (fd : Z) : bool :=
  let i := fd - SOCK_FD_BASE in
  (i >=? 0) && (i <? Z.of_nat SOCK_MAX) &&
  match socks st !! Z.to_nat i with
  | Some s => negb (bool_decide (state s = SK_FREE))
  | None => false
  end.

(** [&socks[fd - SOCK_FD_BASE]] *)
Definition fd_sock (fd : Z) (st : net) : res (nat * bsock) :=
  let i := fd - SOCK_FD_BASE in
  let* s := arr_get (socks st) i in Ret (Z.to_nat i, s).

(** The test of net_wait_ready: has DHCP supplied an address? *)
Definition ready_try (E : env) (st : net) : res (option unit * net) :=
  let '(n, st) := ask st in Ret (if e_ready E n then Some tt else None, st).

(** The wait for DHCP is a blocking loop whose outcome is ignored. *)
Definition net_ensure_ready (E : env) (fuel : nat) (st : net) : res net :=
  if net_ready st then Ret st
  else
    let* (_, st) := blocking E fuel (ready_try E) st in
    Ret (mkNet (socks st) true (pcbs st) (tick st) (tcp_log st)).

Definition net_shim_socket (E : env) (fuel : nat) (domain type protocol : Z) (st : net)
  : res (Z * net) :=
  let* st := net_ensure_ready E fuel st in
  if negb (domain =? AF_INET) || negb (Z.land type 0xFF =? SOCK_STREAM)
  then Ret (- EAFNOSUPPORT, st)
  else
    let slot := alloc_slot st in
    if slot <? 0 then Ret (- EMFILE, st)
    else
      let i := Z.to_nat slot in
      let '(p, st) := tcp_new E (set_sock i zero_sock st) in
      if p =? NULL then Ret (- ENOMEM, set_sock i (set_pcb p zero_sock) st)
      else
        let st := set_sock i (set_state SK_CLOSED (set_pcb p zero_sock)) st in
        let* st := tcp_arg p (Some i) st in
        Ret (SOCK_FD_BASE + slot, st).

(** Fields of the struct sockaddr_in at [addr]. *)
Definition lwip_ntohs (x : Z) : Z := Z.lor (Z.shiftl (Z.land x 0xff) 8) (Z.shiftr (Z.land x 0xff00) 8).
Definition lwip_htons (x : Z) : Z := lwip_ntohs x.
Definition sin_port (m : reader) (addr : Z) : Z := le_val (slice m (addr + 2) 2).
Definition sin_addr (m : reader) (addr : Z) : Z := le_val (slice m (addr + 4) 4).

Definition net_shim_bind (E : env) (m : reader) (fd addr addrlen : Z) (st : net) : res (Z * net) :=
  let* (i, s) := fd_sock fd st in
  if u64 addrlen <? SIZEOF_SOCKADDR_IN then Ret (- EINVAL, st)
  else
    let* (err, st) := tcp_bind E (pcb s) st in
    Ret (if err =? ERR_OK then 0 else - EADDRINUSE, st).

Definition net_shim_listen (E : env) (fd backlog : Z) (st : net) : res (Z * net) :=
  let* (i, s) := fd_sock fd st in
  let* (lp, st) := tcp_listen_with_backlog E (pcb s) st in
  if lp =? NULL then Ret (- EADDRINUSE, st)
  else
    let st := set_sock i (set_state SK_LISTENING (set_pcb lp s)) st in
    let* st := tcp_arg lp (Some i) st in
    let* st := tcp_accept lp AcceptOn st in
    Ret (0, st).

(** One pass of accept's wait: a queued connection, or a bad state. *)
Definition accept_try (i : nat) (st : net) : res (option bool * net) :=
  let* s := sock_at i st in
  if negb (acceptq_count s =? 0) then Ret (Some true, st)
  else if negb (bool_decide (state s = SK_LISTENING)) then Ret (Some false, st)
  else Ret (None, st).

(** The struct sockaddr_in accept() reports. *)
Definition sockaddr_of (b : tcp_pcb) : list Z :=
  le_bytes 2 AF_INET ++ le_bytes 2 (lwip_htons (remote_port b)) ++ le_bytes 4 (remote_ip b) ++
  replicate 8 0.

(** [addr] tells whether the pointer is not NULL, [addrlen] is what
    [addrlenp] points to; the result carries the bytes stored at [addr]. *)
Definition net_shim_accept (E : env) (fuel : nat) (fd : Z) (addr : bool) (addrlen : option Z)
  (st : net) : res (Z * option (list Z) * net) :=
  let* (i, _) := fd_sock fd st in
  let* (o, st) := blocking E fuel (accept_try i) st in
  match o with
  | None => Ret (- EAGAIN, None, st)
  | Some false => Ret (- EINVAL, None, st)
  | Some true =>
      let* s := sock_at i st in
      let* slot := arr_get (acceptq s) (acceptq_head s) in
      let s := set_acceptq (acceptq s) ((acceptq_head s + 1) mod ACCEPTQ_MAX) (acceptq_tail s)
                 (acceptq_count s - 1) s in
      let st := set_sock i s st in
      let* ns := arr_get (socks st) slot in
      match addrlen with
      | Some n =>
          if addr && (n >=? SIZEOF_SOCKADDR_IN) then
            let* b := get_pcb (pcb ns) st in
            Ret (SOCK_FD_BASE + slot, Some (sockaddr_of b), st)
          else Ret (SOCK_FD_BASE + slot, None, st)
      | None => Ret (SOCK_FD_BASE + slot, None, st)
      end
  end.

Definition connect_try (i : nat) (st : net) : res (option unit * net) :=
  let* s := sock_at i st in
  if bool_decide (state s = SK_CONNECTING) then Ret (None, st) else Ret (Some tt, st).

Definition net_shim_connect (E : env) (fuel : nat) (m : reader) (fd addr addrlen : Z) (st : net)
  : res (Z * net) :=
  let* (i, s) := fd_sock fd st in
  if u64 addrlen <? SIZEOF_SOCKADDR_IN then Ret (- EINVAL, st)
  else
    let* st := tcp_arg (pcb s) (Some i) st in
    let* st := tcp_recv (pcb s) true st in
    let* st := tcp_err (pcb s) true st in
    let st := set_sock i (set_state SK_CONNECTING s) st in
    let* (err, st) := tcp_connect E (pcb s) (sin_addr m addr) (lwip_ntohs (sin_port m addr)) st in
    if negb (err =? ERR_OK) then
      Ret (- ECONNREFUSED, set_sock i (set_state SK_ERROR s) st)
    else
      let* (o, st) := blocking E fuel (connect_try i) st in
      match o with
      | None => Ret (- ETIMEDOUT, st)
      | Some _ =>
          let* s := sock_at i st in
          Ret (if bool_decide (state s = SK_CONNECTED) then 0 else - ECONNREFUSED, st)
      end.

(** The count, the bytes stored at [buf], and the socket afterwards; an empty
    chain is the null rx_head. *)
(** Lines 287-300: the count, the bytes copied, the socket. *)
Definition bsock_take (s : bsock) (len : Z) : res (Z * list Z * bsock) :=
  match rx_head s with
  | [] => Undef
  | p :: rest =>
      let plen := Z.of_nat (length p) in
      let avail := u64 (plen - rx_off s) in
      let n := if len <? avail then len else avail in
      let bs := slice (list_reader p) (rx_off s) n in
      let off := u16 (rx_off s + n) in
      let s := if off =? plen then set_rx rest 0 s else set_rx (p :: rest) off s in
      Ret (n, bs, s)
  end.

Definition bsock_read (i : nat) (s : bsock) (len : Z) (st : net) : res (Z * list Z * net) :=
  let* (n, bs, s) := bsock_take s len in
  let st := set_sock i s st in
  let* st := if negb (pcb s =? NULL) then tcp_recved (pcb s) (u16 n) st else Ret st in
  Ret (n, bs, st).

Definition recv_try (i : nat) (len : Z) (st : net) : res (option (Z * list Z) * net) :=
  let* s := sock_at i st in
  match rx_head s with
  | _ :: _ =>
      let* (n, bs, st) := bsock_read i s len st in Ret (Some (n, bs), st)
  | [] =>
      if eof s then Ret (Some (0, []), st)
      else if bool_decide (state s = SK_ERROR) then Ret (Some (- ECONNRESET, []), st)
      else Ret (None, st)
  end.

Definition net_shim_recv (E : env) (fuel : nat) (fd len flags : Z) (st : net)
  : res (Z * list Z * net) :=
  let* (i, _) := fd_sock fd st in
  if len =? 0 then Ret (0, [], st)
  else
    let* (o, st) := blocking E fuel (recv_try i len) st in
    match o with
    | None => Ret (- ETIMEDOUT, [], st)
    | Some (n, bs) => Ret (n, bs, st)
    end.

(** [tcp_sndbuf] reads a field a listening pcb does not have. *)
Definition bsock_write (E : env) (s : bsock) (src : reader) (len : Z) (st : net) : res (Z * net) :=
  if bool_decide (state s = SK_ERROR) || (pcb s =? NULL) then Ret (- ECONNRESET, st)
  else
    let* b := get_pcb (pcb s) st in
    if bool_decide (tstate b = LISTEN) then Undef
    else
      let '(q, st) := ask st in
      let sndbuf := u16 (e_sndbuf E q) in
      if sndbuf =? 0 then Ret (0, st)
      else
        let n := if len <? sndbuf then len else sndbuf in
        let n := if n >? 0xFFFF then 0xFFFF else n in
        let '(q, st) := ask st in
        let e := e_err E q in
        if negb (e =? ERR_OK) then Ret (if e =? ERR_MEM then 0 else - ECONNRESET, st)
        else
          Ret (n, mkNet (socks st) (net_ready st) (pcbs st) (tick st)
                    (tcp_log st ++ [TcpWrite (pcb s) (slice src 0 (u16 n))])).

Definition send_try (E : env) (i : nat) (src : reader) (len : Z) (st : net)
  : res (option Z * net) :=
  let* s := sock_at i st in
  let* (n, st) := bsock_write E s src len st in
  if negb (n =? 0) then Ret (Some n, st)
  else if bool_decide (state s = SK_ERROR) then Ret (Some (- ECONNRESET), st)
  else Ret (None, st).

Definition net_shim_send (E : env) (fuel : nat) (fd : Z) (src : reader) (len flags : Z) (st : net)
  : res (Z * net) :=
  let* (i, _) := fd_sock fd st in
  if len =? 0 then Ret (0, st)
  else
    let* (o, st) := blocking E fuel (send_try E i src len) st in
    Ret (match o with None => - ETIMEDOUT | Some n => n end, st).

Definition net_shim_close (E : env) (fd : Z) (st : net) : res (Z * net) :=
  let* (i, s) := fd_sock fd st in
  let* st :=
    if pcb s =? NULL then Ret st
    else
      let* st := tcp_arg (pcb s) None st in
      let* st :=
        if bool_decide (state s = SK_LISTENING) then tcp_accept (pcb s) AcceptNone st
        else let* st := tcp_recv (pcb s) false st in tcp_err (pcb s) false st in
      let* (err, st) := tcp_close E (pcb s) st in
      if negb (err =? ERR_OK) then tcp_abandon (pcb s) st else Ret st in
  let* s := sock_at i st in
  Ret (0, set_sock i (set_state SK_FREE (set_rx [] (rx_off s) s)) st).
