(* ===== verification/NetInv.v ===== *)
(** * The socket table: invariant

    What holds between the socket table and lwIP's pcbs: a live socket's pcb
    pointer never dangles, a registered callback argument never names a freed
    slot, listeners and listening pcbs correspond, the accept queues are sound
    rings of live slots, and no connection is queued twice. *)
From S2P Require Import Prelude NetGlue NetShim.

(** ** The accept queue as a ring buffer *)
Definition qlist (s : bsock) : list Z :=
  (fun k => list_reader (acceptq s) ((acceptq_head s + k) mod ACCEPTQ_MAX)) <$>
    seqZ 0 (acceptq_count s).

Record ring_ok (s : bsock) : Prop := {
  ro_len : length (acceptq s) = 8%nat;
  ro_head : 0 <= acceptq_head s < ACCEPTQ_MAX;
  ro_count : 0 <= acceptq_count s <= ACCEPTQ_MAX;
  ro_tail : acceptq_tail s = (acceptq_head s + acceptq_count s) mod ACCEPTQ_MAX;
}.

(** The socket after storing [x] at the tail, as [on_accept] does. *)
Definition q_push (x : Z) (s : bsock) : bsock :=
  set_acceptq (<[Z.to_nat (acceptq_tail s) := x]> (acceptq s)) (acceptq_head s)
    ((acceptq_tail s + 1) mod ACCEPTQ_MAX) (acceptq_count s + 1) s.
(** The socket after advancing the head, as accept does. *)
Definition q_pop (s : bsock) : bsock :=
  set_acceptq (acceptq s) ((acceptq_head s + 1) mod ACCEPTQ_MAX) (acceptq_tail s)
    (acceptq_count s - 1) s.

Lemma ring_ok_zero : ring_ok zero_sock.
Proof. by split. Qed.

(** The setters that leave the queue alone. *)
Create HintDb net.
Lemma ring_set_state v s : ring_ok s -> ring_ok (set_state v s).
Proof. by intros [? ? ? ?]; split. Qed.
Lemma ring_set_pcb v s : ring_ok s -> ring_ok (set_pcb v s).
Proof. by intros [? ? ? ?]; split. Qed.
Lemma ring_set_rx c o s : ring_ok s -> ring_ok (set_rx c o s).
Proof. by intros [? ? ? ?]; split. Qed.
Lemma ring_set_eof s : ring_ok s -> ring_ok (set_eof s).
Proof. by intros [? ? ? ?]; split. Qed.
#[export] Hint Resolve ring_ok_zero ring_set_state ring_set_pcb ring_set_rx ring_set_eof : net.

Lemma length_qlist s : length (qlist s) = Z.to_nat (acceptq_count s).
Proof. unfold qlist. by rewrite length_fmap, length_seqZ. Qed.

Lemma q_push_spec x s : ring_ok s -> acceptq_count s < ACCEPTQ_MAX ->
  ring_ok (q_push x s) /\ qlist (q_push x s) = qlist s ++ [x].
Proof.
  intros [R1 R2 R3 R4] Hc. unfold ACCEPTQ_MAX in *.
  assert (0 <= acceptq_tail s < 8) as Ht by (rewrite R4; apply Z.mod_pos_bound; lia).
  split.
  - split; simpl; unfold ACCEPTQ_MAX; [by rewrite length_insert|lia|lia|].
    rewrite R4, Zplus_mod_idemp_l. f_equal. lia.
  - apply list_eq. intros k. unfold qlist at 1. cbn [acceptq_count acceptq_head acceptq q_push set_acceptq].
    unfold ACCEPTQ_MAX.
    assert (forall j, 0 <= j < 8 -> list_reader (<[Z.to_nat (acceptq_tail s) := x]> (acceptq s)) j =
      if j =? acceptq_tail s then x else list_reader (acceptq s) j) as Hget.
    { intros j Hj. unfold list_reader. destruct (Z.ltb_spec j 0); [lia|].
      destruct (Z.eqb_spec j (acceptq_tail s)) as [->|Hne].
      - by rewrite list_lookup_insert_eq by lia.
      - by rewrite list_lookup_insert_ne by lia. }
    destruct (decide (Z.of_nat k < acceptq_count s + 1)) as [Hk|Hk].
    + rewrite list_lookup_fmap, lookup_seqZ_lt by lia. cbn [fmap option_fmap option_map].
      rewrite Hget by (apply Z.mod_pos_bound; lia). rewrite Z.add_0_l.
      destruct (decide (Z.of_nat k = acceptq_count s)) as [Ek|Ek].
      * rewrite Ek, <- R4, Z.eqb_refl. rewrite lookup_app_r by (rewrite length_qlist; lia).
        rewrite length_qlist. by replace (k - Z.to_nat (acceptq_count s))%nat with 0%nat by lia.
      * destruct (Z.eqb_spec ((acceptq_head s + Z.of_nat k) mod 8) (acceptq_tail s)) as [E|E].
        { exfalso. rewrite R4 in E. revert E. zdiv. }
        rewrite lookup_app_l by (rewrite length_qlist; lia). unfold qlist.
        rewrite list_lookup_fmap, lookup_seqZ_lt by lia. done.
    + rewrite !lookup_ge_None_2; [done| |].
      * rewrite length_app, length_qlist. simpl. lia.
      * rewrite length_fmap, length_seqZ. lia.
Qed.

Lemma q_pop_spec s : ring_ok s -> 0 < acceptq_count s ->
  ring_ok (q_pop s) /\ qlist s = list_reader (acceptq s) (acceptq_head s) :: qlist (q_pop s).
Proof.
  intros [R1 R2 R3 R4] Hc. unfold ACCEPTQ_MAX in *. split.
  - split; simpl; unfold ACCEPTQ_MAX; [done|apply Z.mod_pos_bound; lia|lia|].
    rewrite R4, Zplus_mod_idemp_l. f_equal. lia.
  - unfold qlist. cbn [acceptq_count acceptq_head acceptq q_pop set_acceptq]. unfold ACCEPTQ_MAX.
    rewrite (seqZ_cons 0) by lia. rewrite fmap_cons. f_equal.
    + f_equal. rewrite Z.add_0_r, Z.mod_small by lia. done.
    + apply list_eq. intros k. rewrite !list_lookup_fmap.
      replace (Z.pred (acceptq_count s)) with (acceptq_count s - 1) by lia.
      destruct (decide (Z.of_nat k < acceptq_count s - 1)).
      * rewrite !lookup_seqZ_lt by lia. cbn. do 2 f_equal. rewrite Zplus_mod_idemp_l. f_equal. lia.
      * rewrite !lookup_seqZ_ge by lia. done.
Qed.

(** ** The invariant *)
Definition live (st : net) (i : nat) : Prop :=
  exists s, socks st !! i = Some s /\ state s <> SK_FREE.

(** What a socket knows of the pcb it points to. *)
Record held (i : nat) (s : bsock) (b : tcp_pcb) : Prop := {
  he_arg : callback_arg b = Some i;
  he_open : rxclosed b = false;
  he_listen : state s = SK_LISTENING <-> tstate b = LISTEN;
  he_mine : tstate b <> SYN_RCVD;
  he_err : tstate b <> CLOSED -> tstate b <> LISTEN -> cb_err b = true;
  he_rx : tstate b = CLOSED \/ tstate b = LISTEN -> rx_head s = [];
}.

Definition rx_ok (s : bsock) : Prop :=
  Forall (fun p => p <> [] /\ Z.of_nat (length p) < 65536) (rx_head s) /\
  match rx_head s with
  | [] => rx_off s = 0
  | p :: _ => 0 <= rx_off s < Z.of_nat (length p)
  end.

Record sock_ok (st : net) (i : nat) (s : bsock) : Prop := {
  so_ring : ring_ok s;
  so_rx : rx_ok s;
  so_pcb : pcb s <> NULL -> exists b, pcbs st !! pcb s = Some b /\ held i s b;
  so_null : pcb s = NULL -> state s <> SK_LISTENING;
  so_queue : forall x, x ∈ qlist s -> 0 <= x /\ live st (Z.to_nat x);
  so_once : NoDup (qlist s);
}.

Record pcb_ok (st : net) (p : Z) (b : tcp_pcb) : Prop := {
  po_arg : forall i, callback_arg b = Some i -> tstate b <> SYN_RCVD ->
    exists s, socks st !! i = Some s /\ state s <> SK_FREE /\ pcb s = p;
  po_cb : callback_arg b = None ->
    cb_recv b = false /\ cb_err b = false /\ tstate b <> LISTEN /\ tstate b <> SYN_SENT;
  po_closed : rxclosed b = true -> callback_arg b = None;
  po_listen : tstate b = LISTEN -> accept b = AcceptOn;
  po_syn : tstate b = SYN_RCVD -> cb_recv b = false /\ cb_err b = false /\
    (listener b <> NULL -> exists lb, pcbs st !! listener b = Some lb /\ tstate lb = LISTEN /\
       callback_arg lb = callback_arg b);
}.

Record net_inv (st : net) : Prop := {
  ni_len : length (socks st) = SOCK_MAX;
  ni_null : pcbs st !! NULL = None;
  ni_sock : forall i s, socks st !! i = Some s -> state s <> SK_FREE -> sock_ok st i s;
  ni_pcb : forall p b, pcbs st !! p = Some b -> pcb_ok st p b;
  ni_queues : forall i j s t x, socks st !! i = Some s -> socks st !! j = Some t ->
    state s <> SK_FREE -> state t <> SK_FREE -> i <> j -> x ∈ qlist s -> x ∉ qlist t;
}.

Lemma net_boot_inv : net_inv net_boot.
Proof.
  split; cbn [socks pcbs net_boot]; try done.
  - intros i s [-> _]%lookup_replicate. done.
  - intros i j s t x [-> _]%lookup_replicate. done.
Qed.

(** ** One general preservation lemma

    A step replaces the socket at [i] and changes the pcbs of [C], each of
    which either belonged to that socket or to nobody. *)
Definition unheld (st : net) (q : Z) : Prop :=
  forall b, pcbs st !! q = Some b -> tstate b = SYN_RCVD \/ callback_arg b = None.

Section General.
Variables (st : net) (i : nat) (s s' : bsock) (m' : gmap Z tcp_pcb) (C : Z -> Prop).
Variables (ready : bool) (t : ticks) (snt : list tcp_call).
Let st' := mkNet (<[i := s']> (socks st)) ready m' t snt.

Context (Hinv : net_inv st) (Hs : socks st !! i = Some s).
Context (HCdec : forall q, C q \/ ~ C q).
Context (Hsame : forall q, ~ C q -> m' !! q = pcbs st !! q) (Hnull : m' !! NULL = None).
Context (HC : forall q, C q -> (state s <> SK_FREE /\ pcb s = q) \/ unheld st q).
(** A socket that keeps its unchanged pcb still points to it. *)
Context (Hkeep : state s <> SK_FREE -> pcb s <> NULL -> ~ C (pcb s) ->
  state s' <> SK_FREE /\ pcb s' = pcb s).
(** A listening pcb keeps listening, or nothing refers to it. *)
Context (Hlisten : forall q b p c, C q -> pcbs st !! q = Some b -> tstate b = LISTEN ->
  m' !! p = Some c -> tstate c = SYN_RCVD -> listener c = q -> q <> NULL ->
  exists b', m' !! q = Some b' /\ tstate b' = LISTEN /\ callback_arg b' = callback_arg b).
Context (Hnew : state s' <> SK_FREE -> ring_ok s' /\ rx_ok s' /\
  (pcb s' <> NULL -> exists b, m' !! pcb s' = Some b /\ held i s' b) /\
  (pcb s' = NULL -> state s' <> SK_LISTENING)).
Context (Hq : state s' <> SK_FREE -> qlist s' = [] \/ state s <> SK_FREE /\ qlist s' ⊆+ qlist s).
Context (Hpcb : forall q b, C q -> m' !! q = Some b -> pcb_ok st' q b).
Context (Hfree : state s <> SK_FREE -> state s' = SK_FREE ->
  forall j u, socks st !! j = Some u -> state u <> SK_FREE -> j <> i -> Z.of_nat i ∉ qlist u).

Lemma general_lookup j u : <[i := s']> (socks st) !! j = Some u ->
  (j = i /\ u = s') \/ (j <> i /\ socks st !! j = Some u).
Proof.
  intros [(-> & <- & _)|[Hne H]]%list_lookup_insert_Some; [by left|right; by split].
Qed.

Lemma general_live x : (state s <> SK_FREE -> state s' = SK_FREE -> x <> i) ->
  live st x -> live st' x.
Proof.
  intros Hx (u & Hu & Hl). unfold live. cbn [socks st'].
  destruct (decide (x = i)) as [->|Hne].
  - exists s'. rewrite list_lookup_insert_eq by by eapply lookup_lt_Some. split; [done|].
    rewrite Hs in Hu. injection Hu as <-. intros Hf. by apply Hx.
  - exists u. by rewrite list_lookup_insert_ne.
Qed.

Lemma general_qlist x : state s' <> SK_FREE -> x ∈ qlist s' -> state s <> SK_FREE /\ x ∈ qlist s.
Proof.
  intros Hl Hx. destruct (Hq Hl) as [E|[Hl' Hsub]].
  - rewrite E in Hx. by apply not_elem_of_nil in Hx.
  - split; [done|]. by eapply elem_of_submseteq.
Qed.

(** The pcb of another live socket is not among the changed ones. *)
Lemma general_other j u : socks st !! j = Some u -> state u <> SK_FREE -> j <> i ->
  pcb u <> NULL -> ~ C (pcb u).
Proof.
  intros Hu Hl Hne Hp Hcu. destruct (so_pcb _ _ _ (ni_sock _ Hinv j u Hu Hl) Hp) as (b & Hb & Hh).
  destruct (HC _ Hcu) as [[Hls Hps]|Hun].
  - destruct (so_pcb _ _ _ (ni_sock _ Hinv i s Hs Hls)) as (b' & Hb' & Hh'); [by rewrite Hps|].
    rewrite Hps, Hb in Hb'. injection Hb' as <-. apply Hne.
    apply (inj Some). by rewrite <- (he_arg _ _ _ Hh), <- (he_arg _ _ _ Hh').
  - destruct (Hun b Hb) as [E|E]; [by apply (he_mine _ _ _ Hh)|].
    by rewrite (he_arg _ _ _ Hh) in E.
Qed.

Lemma general_sock_ok j u : <[i := s']> (socks st) !! j = Some u -> state u <> SK_FREE ->
  sock_ok st' j u.
Proof.
  intros [[-> ->]|[Hne Hu]]%general_lookup Hl.
  - destruct (Hnew Hl) as (N1 & N2 & N3 & N4). split; try done.
    + intros x [Hls Hx]%general_qlist; [|done].
      destruct (so_queue _ _ _ (ni_sock _ Hinv i s Hs Hls) x Hx) as [H0 Hlx].
      split; [done|]. by apply general_live.
    + destruct (Hq Hl) as [->|[Hls Hsub]]; [constructor|].
      pose proof (so_once _ _ _ (ni_sock _ Hinv i s Hs Hls)) as Hnd.
      apply submseteq_Permutation in Hsub as [r Hr]. rewrite Hr in Hnd.
      by apply NoDup_app in Hnd as [Hnd _].
  - destruct (ni_sock _ Hinv j u Hu Hl) as [S1 S2 S3 S4 S5 S6]. split; try done.
    + intros Hp. cbn [pcbs st']. rewrite Hsame by by eapply general_other. by apply S3.
    + intros x Hx. destruct (S5 x Hx) as [H0 Hlx]. split; [done|]. apply general_live; [|done].
      intros Hls Hfs Ei. apply (Hfree Hls Hfs j u Hu Hl Hne).
      rewrite <- Ei, Z2Nat.id by done. done.
Qed.

Lemma general_pcb_ok q b : m' !! q = Some b -> pcb_ok st' q b.
Proof.
  intros Hb. destruct (HCdec q) as [Hc|Hc]; [by apply Hpcb|].
  pose proof Hb as Hb0. rewrite Hsame in Hb0 by done.
  destruct (ni_pcb _ Hinv q b Hb0) as [P1 P2 P3 P4 P5]. split; try done.
  - intros k Hk Hns. destruct (P1 k Hk Hns) as (u & Hu & Hl & Hp). cbn [socks st'].
    destruct (decide (k = i)) as [->|Hne].
    + rewrite Hs in Hu. injection Hu as <-. subst q.
      assert (pcb s <> NULL) as Hp0 by (intros E; rewrite E, (ni_null _ Hinv) in Hb0; done).
      destruct (Hkeep Hl Hp0 Hc) as [K1 K2]. exists s'.
      rewrite list_lookup_insert_eq by by eapply lookup_lt_Some. by split.
    + exists u. by rewrite list_lookup_insert_ne.
  - intros Hsy. destruct (P5 Hsy) as (Q1 & Q2 & Q3). split; [done|]. split; [done|].
    intros Hln. destruct (Q3 Hln) as (lb & Hlb & Hll & Hla). cbn [pcbs st'].
    destruct (HCdec (listener b)) as [Hcl|Hcl].
    + destruct (Hlisten (listener b) lb q b Hcl Hlb Hll Hb Hsy eq_refl Hln) as (b' & E1 & E2 & E3).
      exists b'. split; [done|]. split; [done|]. congruence.
    + rewrite Hsame by done. eauto.
Qed.

Lemma inv_general : net_inv st'.
Proof.
  split; cbn [socks pcbs st'].
  - rewrite length_insert. apply Hinv.
  - done.
  - apply general_sock_ok.
  - apply general_pcb_ok.
  - intros a c u v x Hu Hv Hlu Hlv Hne Hx Hx'.
    assert (forall a0 u0, <[i := s']> (socks st) !! a0 = Some u0 -> state u0 <> SK_FREE ->
      x ∈ qlist u0 -> exists w, socks st !! a0 = Some w /\ state w <> SK_FREE /\ x ∈ qlist w) as Hback.
    { intros a0 u0 [[-> ->]|[Hn0 H0]]%general_lookup Hl0 Hx0; [|by exists u0].
      apply general_qlist in Hx0 as [Hls Hx0]; [|done]. by exists s. }
    destruct (Hback a u Hu Hlu Hx) as (w1 & W1 & W2 & W3).
    destruct (Hback c v Hv Hlv Hx') as (w2 & V1 & V2 & V3).
    exact (ni_queues _ Hinv a c w1 w2 x W1 V1 W2 V2 Hne W3 V3).
Qed.
End General.

(** ** The kinds of step *)
Section Steps.
Variables (st : net) (ready : bool) (t : ticks) (snt : list tcp_call).
Context (Hinv : net_inv st).

Lemma inv_len_lookup i : (i < SOCK_MAX)%nat -> exists s, socks st !! i = Some s.
Proof. intros H. apply lookup_lt_is_Some_2. by rewrite (ni_len _ Hinv). Qed.

(** Data is only buffered for a pcb that has been connected. *)
Definition rx_kept (s s' : bsock) : Prop :=
  rx_head s' = [] \/ rx_head s <> [] \/
  forall b, pcbs st !! pcb s = Some b -> tstate b <> CLOSED /\ tstate b <> LISTEN.

Lemma rx_kept_same s s' : rx_head s' = rx_head s -> rx_kept s s'.
Proof. intros E. unfold rx_kept. rewrite E. destruct (rx_head s); [by left|by right; left]. Qed.

(** Only bookkeeping of a live socket changes. *)
Lemma inv_sock i s s' :
  socks st !! i = Some s -> state s <> SK_FREE -> state s' <> SK_FREE -> pcb s' = pcb s ->
  (state s' = SK_LISTENING <-> state s = SK_LISTENING) -> ring_ok s' -> rx_ok s' ->
  qlist s' ⊆+ qlist s -> rx_kept s s' ->
  net_inv (mkNet (<[i := s']> (socks st)) ready (pcbs st) t snt).
Proof.
  intros Hs Hl Hl' Hp Hli Hr Hx Hq Hk. pose proof (ni_sock _ Hinv i s Hs Hl) as [S1 S2 S3 S4 S5 S6].
  eapply (inv_general st i s s' (pcbs st) (fun _ => False)); try done.
  - intros q. right. intros [].
  - apply Hinv.
  - intros _. split; [done|]. split; [done|]. rewrite Hp. split.
    + intros Hn. destruct (S3 Hn) as (b & Hb & [A B C D F G]). exists b. split; [done|].
      split; try done; [by rewrite Hli|]. intros Hcl. destruct Hk as [Hk|[Hk|Hk]]; [done|by rewrite G in Hk|].
      destruct (Hk b Hb). tauto.
    + intros Hn. rewrite Hli. by apply S4.
  - intros _. by right.
Qed.

(** A live socket and the pcb it holds change together. *)
Lemma inv_own i s s' b b' :
  socks st !! i = Some s -> state s <> SK_FREE -> state s' <> SK_FREE -> pcb s <> NULL ->
  pcb s' = pcb s -> pcbs st !! pcb s = Some b -> held i s' b' ->
  (tstate b = LISTEN -> tstate b' = LISTEN) -> (tstate b' = LISTEN -> accept b' = AcceptOn) ->
  ring_ok s' -> rx_ok s' -> qlist s' ⊆+ qlist s ->
  net_inv (mkNet (<[i := s']> (socks st)) ready (<[pcb s := b']> (pcbs st)) t snt).
Proof.
  intros Hs Hl Hl' Hn Hp Hb Hh Hll Hla Hr Hx Hq.
  destruct (so_pcb _ _ _ (ni_sock _ Hinv i s Hs Hl) Hn) as (b0 & Hb0 & Hh0).
  rewrite Hb in Hb0. injection Hb0 as <-.
  eapply (inv_general st i s s' _ (fun q => q = pcb s)); try done.
  - intros q. destruct (decide (q = pcb s)); [by left|by right].
  - intros q Hq'. by rewrite lookup_insert_ne by congruence.
  - rewrite lookup_insert_ne by done. apply Hinv.
  - intros q ->. by left.
  - intros q c p d -> Hc Hcl _ _ _ _. rewrite Hb in Hc. injection Hc as <-.
    exists b'. rewrite lookup_insert_eq. split; [done|]. split; [by apply Hll|].
    by rewrite (he_arg _ _ _ Hh), (he_arg _ _ _ Hh0).
  - intros _. split; [done|]. split; [done|]. rewrite Hp. split; [|done].
    intros _. exists b'. by rewrite lookup_insert_eq.
  - intros _. by right.
  - intros q c -> Hc. rewrite lookup_insert_eq in Hc. injection Hc as <-.
    destruct Hh as [A B C D F G]. split; try done.
    + intros j Hj _. rewrite A in Hj. injection Hj as <-. exists s'. cbn [socks].
      by rewrite list_lookup_insert_eq by by eapply lookup_lt_Some.
    + by rewrite A.
    + by rewrite B.
Qed.

(** A live socket loses its pcb, which is gone. *)
Lemma inv_drop i s s' b :
  socks st !! i = Some s -> state s <> SK_FREE -> state s' <> SK_FREE -> pcb s <> NULL ->
  pcb s' = NULL -> pcbs st !! pcb s = Some b -> tstate b <> LISTEN ->
  state s' <> SK_LISTENING -> ring_ok s' -> rx_ok s' -> qlist s' ⊆+ qlist s ->
  net_inv (mkNet (<[i := s']> (socks st)) ready (delete (pcb s) (pcbs st)) t snt).
Proof.
  intros Hs Hl Hl' Hn Hp Hb Hnl Hsl Hr Hx Hq.
  eapply (inv_general st i s s' _ (fun q => q = pcb s)); try done.
  - intros q. destruct (decide (q = pcb s)); [by left|by right].
  - intros q Hq'. by rewrite lookup_delete_ne by congruence.
  - rewrite lookup_delete_ne by done. apply Hinv.
  - intros q ->. by left.
  - intros q c p d -> Hc Hcl. rewrite Hb in Hc. by injection Hc as <-.
  - intros _. by right.
  - intros q c -> Hc. by rewrite lookup_delete_eq in Hc.
Qed.

(** A pcb nobody holds changes or disappears. *)
Lemma inv_unheld p o :
  unheld st p -> p <> NULL -> (forall b, pcbs st !! p = Some b -> tstate b <> LISTEN) ->
  (forall b, o = Some b -> pcb_ok st p b) ->
  net_inv (mkNet (socks st) ready (partial_alter (fun _ => o) p (pcbs st)) t snt).
Proof.
  intros Hun Hp0 Hnl Ho. destruct (inv_len_lookup 0) as [s Hs]; [unfold SOCK_MAX; lia|].
  pose proof (list_insert_id _ _ _ Hs) as Eid. rewrite <- Eid.
  assert (forall q, state s <> SK_FREE -> pcb s = q -> q <> NULL -> q <> p) as Hnp.
  { intros q Hl <- Hn E0. destruct (so_pcb _ _ _ (ni_sock _ Hinv _ _ Hs Hl) Hn) as (b & Hb & Hh).
    rewrite E0 in Hb.
    destruct (Hun b Hb) as [E|E]; [by apply (he_mine _ _ _ Hh)|]. by rewrite (he_arg _ _ _ Hh) in E. }
  eapply (inv_general st 0%nat s s _ (fun q => q = p)); try done.
  - intros q. destruct (decide (q = p)); [by left|by right].
  - intros q Hq. by rewrite lookup_partial_alter_ne by congruence.
  - rewrite lookup_partial_alter_ne by done. apply Hinv.
  - intros q ->. by right.
  - intros q b c d -> Hb Hbl. by apply Hnl in Hb.
  - intros Hl. pose proof (ni_sock _ Hinv _ _ Hs Hl) as [S1 S2 S3 S4 S5 S6].
    split; [done|]. split; [done|]. split; [|done]. intros Hn.
    rewrite lookup_partial_alter_ne; [by apply S3|]. intros E. by eapply (Hnp p).
  - intros Hl. right. by split.
  - intros q b -> Hb. rewrite lookup_partial_alter_eq in Hb.
    destruct (Ho b Hb) as [P1 P2 P3 P4 P5]. split; try done.
    + cbn [socks]. by rewrite Eid.
    + intros Hsy. destruct (P5 Hsy) as (Q1 & Q2 & Q3). split; [done|]. split; [done|].
      intros Hn. destruct (Q3 Hn) as (lb & Hlb & Hll & Hla). exists lb. cbn [pcbs].
      rewrite lookup_partial_alter_ne; [done|]. intros E. rewrite <- E in Hlb.
      by apply Hnl in Hlb.
Qed.

(** A free slot becomes a socket holding a pcb that nobody held. *)
Lemma inv_open i s s' p b :
  socks st !! i = Some s -> state s = SK_FREE -> state s' <> SK_FREE -> pcb s' = p -> p <> NULL ->
  unheld st p -> (forall c, pcbs st !! p = Some c -> tstate c <> LISTEN) ->
  held i s' b -> tstate b <> LISTEN -> ring_ok s' -> rx_ok s' -> qlist s' = [] ->
  net_inv (mkNet (<[i := s']> (socks st)) ready (<[p := b]> (pcbs st)) t snt).
Proof.
  intros Hs Hf Hl Hp Hn Hun Hnl Hh Hbl Hr Hx Hq.
  eapply (inv_general st i s s' _ (fun q => q = p)); try done.
  - intros q. destruct (decide (q = p)); [by left|by right].
  - intros q Hq'. by rewrite lookup_insert_ne by congruence.
  - rewrite lookup_insert_ne by done. apply Hinv.
  - intros q ->. by right.
  - intros q c d e -> Hc Hcl. by apply Hnl in Hc.
  - intros _. split; [done|]. split; [done|]. rewrite Hp. split; [|done].
    intros _. exists b. by rewrite lookup_insert_eq.
  - intros _. by left.
  - intros q c -> Hc. rewrite lookup_insert_eq in Hc. injection Hc as <-.
    destruct Hh as [A B C D F G]. split; try done.
    + intros j Hj _. rewrite A in Hj. injection Hj as <-. exists s'. cbn [socks].
      by rewrite list_lookup_insert_eq by by eapply lookup_lt_Some.
    + by rewrite A.
    + by rewrite B.
Qed.

(** A socket goes back to the table; its pcb is gone or no longer calls back. *)
Lemma inv_close i s s' m' :
  socks st !! i = Some s -> state s <> SK_FREE -> state s' = SK_FREE ->
  (forall q, q <> pcb s -> m' !! q = pcbs st !! q) -> m' !! NULL = None ->
  (forall b, m' !! pcb s = Some b -> callback_arg b = None /\ cb_recv b = false /\
     cb_err b = false /\ tstate b <> LISTEN /\ tstate b <> SYN_SENT /\ tstate b <> SYN_RCVD) ->
  (forall p c, m' !! p = Some c -> tstate c = SYN_RCVD -> listener c <> NULL ->
     listener c <> pcb s) ->
  (forall j u, socks st !! j = Some u -> state u <> SK_FREE -> j <> i -> Z.of_nat i ∉ qlist u) ->
  net_inv (mkNet (<[i := s']> (socks st)) ready m' t snt).
Proof.
  intros Hs Hl Hf Hsame Hnull Hb Hlis Hq.
  eapply (inv_general st i s s' m' (fun q => q = pcb s)); try done.
  - intros q. destruct (decide (q = pcb s)); [by left|by right].
  - intros q ->. by left.
  - intros q b p c -> Hb0 Hb1 Hc Hc1 Hc2 Hc3. exfalso. eapply (Hlis p c); congruence.
  - intros q b -> Hb0. destruct (Hb b Hb0) as (B1 & B2 & B3 & B4 & B5 & B6).
    split; try done; by rewrite B1.
Qed.

(** A live slot that no queue has is appended to a listener's queue. *)
Lemma inv_push i l x :
  socks st !! i = Some l -> state l <> SK_FREE -> acceptq_count l < ACCEPTQ_MAX -> 0 <= x ->
  live st (Z.to_nat x) ->
  (forall j u, socks st !! j = Some u -> state u <> SK_FREE -> x ∉ qlist u) ->
  net_inv (mkNet (<[i := q_push x l]> (socks st)) ready (pcbs st) t snt).
Proof.
  intros Hs Hl Hc Hx Hlive Hnew. pose proof (ni_sock _ Hinv i l Hs Hl) as [S1 S2 S3 S4 S5 S6].
  destruct (q_push_spec x l S1 Hc) as [R Q].
  assert (forall j u, <[i := q_push x l]> (socks st) !! j = Some u ->
    (j = i /\ u = q_push x l) \/ (j <> i /\ socks st !! j = Some u)) as Hlk.
  { intros j u [(-> & <- & _)|[Hne H]]%list_lookup_insert_Some; [by left|right; by split]. }
  assert (forall y, live st y ->
    live (mkNet (<[i := q_push x l]> (socks st)) ready (pcbs st) t snt) y) as Hlv.
  { intros y (u & Hu & Hul). destruct (decide (y = i)) as [->|Hne].
    - exists (q_push x l). cbn [socks]. by rewrite list_lookup_insert_eq by by eapply lookup_lt_Some.
    - exists u. cbn [socks]. by rewrite list_lookup_insert_ne. }
  split; cbn [socks pcbs].
  - rewrite length_insert. apply Hinv.
  - apply Hinv.
  - intros j u [[-> ->]|[Hne Hu]]%Hlk Hul.
    + split; try done.
      * intros Hn. destruct (S3 Hn) as (b & Hb & [A B C D F]). exists b. split; [done|]. by split.
      * intros y Hy. rewrite Q in Hy. apply elem_of_app in Hy as [Hy|Hy].
        { destruct (S5 y Hy) as [? ?]. split; [done|]. by apply Hlv. }
        apply list_elem_of_singleton in Hy as ->. split; [done|]. by apply Hlv.
      * rewrite Q. apply NoDup_app. split; [done|]. split; [|apply NoDup_singleton].
        intros y Hy Hy'. apply list_elem_of_singleton in Hy' as ->. by eapply Hnew.
    + destruct (ni_sock _ Hinv j u Hu Hul) as [T1 T2 T3 T4 T5 T6]. split; try done.
      intros y Hy. destruct (T5 y Hy). split; [done|]. by apply Hlv.
  - intros p b Hb. destruct (ni_pcb _ Hinv p b Hb) as [P1 P2 P3 P4 P5]. split; try done.
    intros j Hj Hns. destruct (P1 j Hj Hns) as (u & Hu & Hul & Hup). cbn [socks].
    destruct (decide (j = i)) as [->|Hne].
    + rewrite Hs in Hu. injection Hu as <-. exists (q_push x l).
      by rewrite list_lookup_insert_eq by by eapply lookup_lt_Some.
    + exists u. by rewrite list_lookup_insert_ne.
  - intros a c u v y Hu Hv Hul Hvl Hne Hy Hy'.
    apply Hlk in Hu as [[-> ->]|[Hna Hu]], Hv as [[-> ->]|[Hnc Hv]]; try done.
    + rewrite Q in Hy. apply elem_of_app in Hy as [Hy|Hy].
      * by eapply (ni_queues _ Hinv i c l v y).
      * apply list_elem_of_singleton in Hy as ->. by eapply Hnew.
    + rewrite Q in Hy'. apply elem_of_app in Hy' as [Hy'|Hy'].
      * by eapply (ni_queues _ Hinv a i u l y).
      * apply list_elem_of_singleton in Hy' as ->. by eapply Hnew.
    + by eapply (ni_queues _ Hinv a c u v y).
Qed.

(** Forgetting a listener keeps everything else. *)
Lemma inv_forget lp :
  net_inv (mkNet (socks st) ready (forget_listener lp (pcbs st)) t snt).
Proof.
  assert (forall p b, forget_listener lp (pcbs st) !! p = Some b -> exists b0,
    pcbs st !! p = Some b0 /\ b = (if listener b0 =? lp then set_listener NULL b0 else b0)) as Hlk.
  { intros p b Hb. unfold forget_listener in Hb. rewrite lookup_fmap in Hb.
    destruct (pcbs st !! p) as [b0|] eqn:E; [|done]. injection Hb as <-. eauto. }
  assert (forall p b0, pcbs st !! p = Some b0 -> forget_listener lp (pcbs st) !! p =
    Some (if listener b0 =? lp then set_listener NULL b0 else b0)) as Hlk2.
  { intros p b0 H. unfold forget_listener. by rewrite lookup_fmap, H. }
  split; cbn [socks pcbs].
  - apply Hinv.
  - unfold forget_listener. by rewrite lookup_fmap, (ni_null _ Hinv).
  - intros i s Hs Hl. destruct (ni_sock _ Hinv i s Hs Hl) as [S1 S2 S3 S4 S5 S6]. split; try done.
    intros Hn. destruct (S3 Hn) as (b & Hb & [A B C D F]). apply Hlk2 in Hb. cbn [pcbs].
    eexists. split; [exact Hb|]. by destruct (listener b =? lp); split.
  - intros p b Hb. destruct (Hlk p b Hb) as (b0 & Hb0 & ->).
    destruct (ni_pcb _ Hinv p b0 Hb0) as [P1 P2 P3 P4 P5].
    destruct (Z.eqb_spec (listener b0) lp) as [El|El].
    + split; try done. intros Hsy. destruct (P5 Hsy) as (Q1 & Q2 & _). by split.
    + split; try done. intros Hsy. destruct (P5 Hsy) as (Q1 & Q2 & Q3). split; [done|].
      split; [done|]. intros Hn. destruct (Q3 Hn) as (lb & Hlb & Hll & Hla).
      apply Hlk2 in Hlb. cbn [pcbs]. eexists. split; [exact Hlb|].
      by destruct (listener lb =? lp).
  - apply Hinv.
Qed.
End Steps.
#[export] Hint Resolve rx_kept_same : net.
