(* ===== verification/NetSafe.v ===== *)
(** * The socket table: every operation is safe and keeps the invariant *)
From S2P Require Import Prelude NetGlue NetShim NetInv.

(** Data lwIP hands over comes in non-empty pbufs. *)
Definition event_ok (ev : tcp_event) : Prop :=
  match ev with
  | EvRecv _ c => Forall (fun p => p <> [] /\ Z.of_nat (length p) < 65536) c
  | _ => True
  end.
Definition env_ok (E : env) : Prop := forall n, Forall event_ok (e_events E n).

(** No live socket disappears or starts or stops listening. *)
Definition lives (st st' : net) : Prop :=
  forall i s, socks st !! i = Some s -> state s <> SK_FREE ->
    exists s', socks st' !! i = Some s' /\ state s' <> SK_FREE /\
      (state s' = SK_LISTENING <-> state s = SK_LISTENING).
(** Moreover, the clock is not read. *)
Definition keeps (st st' : net) : Prop := lives st st' /\ clocked (tick st') = clocked (tick st).

Lemma lives_refl st : lives st st.
Proof. intros i s Hs Hl. by exists s. Qed.
Lemma lives_trans a b c : lives a b -> lives b c -> lives a c.
Proof.
  intros H1 H2 i s Hs Hl. destruct (H1 i s Hs Hl) as (s1 & A1 & A2 & A3).
  destruct (H2 i s1 A1 A2) as (s2 & B1 & B2 & B3). exists s2. by rewrite B3, A3.
Qed.
Lemma lives_live st st' i : lives st st' -> live st i -> live st' i.
Proof. intros H (s & Hs & Hl). destruct (H i s Hs Hl) as (s' & A & B & _). by exists s'. Qed.

Lemma lives_same st st' : socks st' = socks st -> lives st st'.
Proof. intros E i s Hs Hl. exists s. by rewrite E. Qed.

Lemma lives_insert st i s s' r m t l :
  socks st !! i = Some s -> state s' <> SK_FREE ->
  (state s <> SK_FREE -> state s' = SK_LISTENING <-> state s = SK_LISTENING) ->
  lives st (mkNet (<[i := s']> (socks st)) r m t l).
Proof.
  intros Hs Hl' Hli j u Hu Hul. cbn [socks]. destruct (decide (j = i)) as [->|Hne].
  - rewrite Hs in Hu. injection Hu as <-. exists s'.
    rewrite list_lookup_insert_eq by by eapply lookup_lt_Some. split_and!; auto.
  - exists u. by rewrite list_lookup_insert_ne.
Qed.

Lemma keeps_refl st : keeps st st.
Proof. split; [apply lives_refl|done]. Qed.
Lemma keeps_trans a b c : keeps a b -> keeps b c -> keeps a c.
Proof. intros [H1 E1] [H2 E2]. split; [by eapply lives_trans|congruence]. Qed.

Lemma keeps_same st st' :
  socks st' = socks st -> clocked (tick st') = clocked (tick st) -> keeps st st'.
Proof. intros E Et. split; [by apply lives_same|done]. Qed.

Lemma keeps_insert st i s s' r m t l :
  socks st !! i = Some s -> state s' <> SK_FREE ->
  (state s <> SK_FREE -> state s' = SK_LISTENING <-> state s = SK_LISTENING) ->
  clocked t = clocked (tick st) -> keeps st (mkNet (<[i := s']> (socks st)) r m t l).
Proof. intros. split; [by eapply lives_insert|done]. Qed.

(** Asking a question changes nothing but the counter. *)
Lemma inv_tick st r t l : net_inv st -> net_inv (mkNet (socks st) r (pcbs st) t l).
Proof.
  intros [H1 H2 H3 H4 H5]. split; try done; cbn.
  - intros i s Hs Hl. by destruct (H3 i s Hs Hl); split.
  - intros p b Hb. by destruct (H4 p b Hb); split.
Qed.

Section Safe.
Variable E : env.
Implicit Types st : net.

(** The socket a registered callback is about. *)
Lemma callback_target st p b :
  net_inv st -> pcbs st !! p = Some b -> cb_recv b = true \/ cb_err b = true \/ tstate b = SYN_SENT ->
  exists i s, callback_arg b = Some i /\ socks st !! i = Some s /\ state s <> SK_FREE /\
    pcb s = p /\ p <> NULL /\ sock_ok st i s /\ held i s b.
Proof.
  intros H Hb Hcb. pose proof (ni_pcb _ H p b Hb) as [P1 P2 P3 P4 P5].
  assert (tstate b <> SYN_RCVD) as Hns.
  { intros Hsy. destruct (P5 Hsy) as (Q1 & Q2 & _). destruct Hcb as [?|[?|?]]; congruence. }
  destruct (callback_arg b) as [i|] eqn:Ea.
  2:{ destruct (P2 eq_refl) as (Q1 & Q2 & Q3 & Q4). destruct Hcb as [?|[?|?]]; congruence. }
  destruct (P1 i eq_refl Hns) as (s & Hs & Hl & Hp).
  assert (p <> NULL) as Hn by (intros ->; by rewrite (ni_null _ H) in Hb).
  pose proof (ni_sock _ H i s Hs Hl) as Hok.
  destruct (so_pcb _ _ _ Hok) as (b' & Hb' & Hh); [congruence|].
  rewrite Hp, Hb in Hb'. injection Hb' as <-. exists i, s. by split_and!.
Qed.

(** on_err for a pcb that has just been freed. *)
Lemma on_err_safe st p b err :
  net_inv st -> pcbs st !! p = Some b -> cb_err b = true -> tstate b <> LISTEN ->
  exists st', on_err (callback_arg b) err (tcp_free p st) = Ret st' /\ net_inv st' /\ keeps st st'.
Proof.
  intros H Hb Hcb Hnl.
  destruct (callback_target st p b H Hb) as (i & s & Ha & Hs & Hl & Hp & Hn & Hok & Hh); [tauto|].
  unfold on_err, arg_slot, sock_at. rewrite Ha. cbn [res_of_option res_bind tcp_free set_pcbs socks].
  rewrite Hs. cbn [res_of_option res_bind]. eexists. split; [reflexivity|]. destruct Hok. split.
  - subst p. eapply (inv_drop st _ _ _ H i s (set_state SK_ERROR (set_pcb NULL s)) b); auto with net.
  - apply (keeps_insert st i s); try done. intros _. cbn.
    split; [done|]. by rewrite (he_listen _ _ _ Hh).
Qed.

Lemma unheld_free st p b :
  net_inv st -> pcbs st !! p = Some b -> tstate b = SYN_RCVD \/ callback_arg b = None ->
  tstate b <> LISTEN -> net_inv (tcp_free p st).
Proof.
  intros H Hb Hu Hnl. apply (inv_unheld st _ _ _ H p None).
  - intros c Hc. rewrite Hb in Hc. by injection Hc as <-.
  - intros ->. by rewrite (ni_null _ H) in Hb.
  - intros c Hc. rewrite Hb in Hc. by injection Hc as <-.
  - done.
Qed.

Lemma recv_safe st p b c :
  net_inv st -> pcbs st !! p = Some b -> cb_recv b = true ->
  tstate b <> CLOSED -> tstate b <> LISTEN ->
  Forall (fun p => p <> [] /\ Z.of_nat (length p) < 65536) c ->
  exists st', on_recv (callback_arg b) (Some c) ERR_OK st = Ret (ERR_OK, st') /\ net_inv st' /\
    keeps st st'.
Proof.
  intros H Hb Hcb Hnc Hnl Hc.
  destruct (callback_target st p b H Hb) as (i & s & Ha & Hs & Hl & Hp & Hn & Hok & Hh); [tauto|].
  unfold on_recv, arg_slot, sock_at. rewrite Ha. cbn [res_of_option res_bind]. rewrite Hs.
  cbn [res_of_option res_bind]. eexists. split; [reflexivity|]. destruct Hok as [S1 [S2 S2'] S3 S4 S5 S6].
  split; [|by apply (keeps_insert st i s)].
  eapply (inv_sock st _ _ _ H i s); auto with net;
    [|right; right; intros c'; rewrite Hp, Hb; by intros [= <-]]. split.
  - cbn. by apply Forall_app.
  - cbn. destruct (rx_head s) as [|q r]; [|done]. cbn. destruct c as [|q r]; [done|].
    inversion Hc as [|? ? [Hq _] _]; subst. rewrite S2'. destruct q; [done|]. cbn. lia.
Qed.

(** lwIP moves a connected pcb to another connected state. *)
Lemma tstate_safe st p b v :
  net_inv st -> pcbs st !! p = Some b ->
  tstate b <> LISTEN -> tstate b <> CLOSED -> tstate b <> SYN_RCVD ->
  v <> LISTEN -> v <> SYN_RCVD -> v <> SYN_SENT -> v <> CLOSED ->
  net_inv (put_pcb p (set_tstate v b) st).
Proof.
  intros H Hb T1 T2 T3 V1 V2 V3 V4. pose proof (ni_pcb _ H p b Hb) as [P1 P2 P3 P4 P5].
  destruct (callback_arg b) as [i|] eqn:Ea.
  - destruct (P1 i eq_refl T3) as (s & Hs & Hl & Hp).
    assert (pcb s <> NULL) as Hn by (intros E0; rewrite <- Hp, E0, (ni_null _ H) in Hb; done).
    destruct (ni_sock _ H i s Hs Hl) as [S1 S2 S3 S4 S5 S6].
    destruct (S3 Hn) as (b' & Hb' & [A B C D F G]). rewrite Hp, Hb in Hb'. injection Hb' as <-.
    assert (net_inv (mkNet (<[i := s]> (socks st)) (net_ready st)
      (<[pcb s := set_tstate v b]> (pcbs st)) (tick st) (tcp_log st))) as Hgoal.
    { eapply (inv_own st _ _ _ H i s s b); try done; try congruence. split; cbn; try done.
      - rewrite C. split; congruence.
      - intros _ _. by apply F.
      - by intros [?|?]. }
    rewrite (list_insert_id _ _ _ Hs) in Hgoal. by rewrite Hp in Hgoal.
  - destruct (P2 eq_refl) as (Q1 & Q2 & Q3 & Q4).
    apply (inv_unheld st _ _ _ H p (Some (set_tstate v b))).
    + intros c Hc. rewrite Hb in Hc. injection Hc as <-. by right.
    + intros ->. by rewrite (ni_null _ H) in Hb.
    + intros c Hc. rewrite Hb in Hc. by injection Hc as <-.
    + intros c Hc. apply (inj Some) in Hc as <-. split; cbn; try done; by rewrite Ea.
Qed.

Lemma put_pcb_same st p b : put_pcb p b st = mkNet (socks st) (net_ready st)
  (<[p := b]> (pcbs st)) (tick st) (tcp_log st).
Proof. done. Qed.

Lemma fin_safe st p b :
  net_inv st -> pcbs st !! p = Some b -> tstate b = ESTABLISHED ->
  exists st', deliver E (EvFin p) st = Ret st' /\ net_inv st' /\ keeps st st'.
Proof.
  intros H Hb Ht. unfold deliver. rewrite Hb, bool_decide_true by done.
  assert (net_inv (put_pcb p (set_tstate CLOSE_WAIT b) st)) as H1
    by (apply tstate_safe; try done; by rewrite Ht).
  destruct (cb_recv b) eqn:Er; [|by eexists; split_and!; [|exact H1|apply keeps_same]].
  destruct (callback_target _ p (set_tstate CLOSE_WAIT b) H1)
    as (i & s & Ha & Hs & Hl & Hp & Hn & Hok & Hh); [cbn; apply lookup_insert_eq|by left|].
  cbn [callback_arg set_tstate] in Ha. unfold on_recv, arg_slot, sock_at. rewrite Ha.
  cbn [res_of_option res_bind]. rewrite Hs. cbn [res_of_option res_bind].
  eexists. split; [reflexivity|]. destruct Hok as [S1 S2 S3 S4 S5 S6]. split.
  - by eapply (inv_sock _ _ _ _ H1 i s (set_eof s)); auto with net.
  - by apply (keeps_insert st i s).
Qed.

Lemma connected_safe st p b :
  net_inv st -> pcbs st !! p = Some b -> tstate b = SYN_SENT ->
  exists st', deliver E (EvConnected p) st = Ret st' /\ net_inv st' /\ keeps st st'.
Proof.
  intros H Hb Ht. unfold deliver. rewrite Hb, bool_decide_true by done.
  assert (net_inv (put_pcb p (set_tstate ESTABLISHED b) st)) as H1
    by (apply tstate_safe; try done; by rewrite Ht).
  destruct (cb_connected b) eqn:Er; [|by eexists; split_and!; [|exact H1|apply keeps_same]].
  destruct (callback_target st p b H Hb) as (i & s & Ha & Hs & Hl & Hp & Hn & Hok & Hh); [tauto|].
  unfold on_connected, arg_slot, sock_at. rewrite Ha.
  cbn [res_of_option res_bind put_pcb set_pcbs socks]. rewrite Hs. cbn [res_of_option res_bind].
  eexists. split; [reflexivity|]. destruct Hok as [S1 S2 S3 S4 S5 S6]. split.
  - eapply (inv_sock _ _ _ _ H1 i s (set_state SK_CONNECTED s)); auto with net; try done.
    destruct Hh as [A B C D F G]. cbn. rewrite C, Ht. done.
  - apply (keeps_insert st i s); try done. intros _. cbn.
    by rewrite (he_listen _ _ _ Hh), Ht.
Qed.

Lemma err_safe st p b err :
  net_inv st -> pcbs st !! p = Some b -> tstate b <> CLOSED -> tstate b <> LISTEN ->
  exists st', (if cb_err b then on_err (callback_arg b) err (tcp_free p st)
               else Ret (tcp_free p st)) = Ret st' /\ net_inv st' /\ keeps st st'.
Proof.
  intros H Hb T1 T2. destruct (cb_err b) eqn:Ec; [by apply on_err_safe|].
  eexists. split; [reflexivity|]. split; [|by apply keeps_same].
  eapply unheld_free; [done|done| |done].
  destruct (callback_arg b) as [i|] eqn:Ea; [left|by right].
  destruct (decide (tstate b = SYN_RCVD)) as [|Hns]; [done|]. exfalso.
  destruct (po_arg _ _ _ (ni_pcb _ H p b Hb) i Ea Hns) as (s & Hs & Hl & Hp).
  destruct (so_pcb _ _ _ (ni_sock _ H i s Hs Hl)) as (b' & Hb' & Hh).
  { intros E0. rewrite <- Hp, E0, (ni_null _ H) in Hb. done. }
  rewrite Hp, Hb in Hb'. injection Hb' as <-. by rewrite (he_err _ _ _ Hh) in Ec.
Qed.

Lemma abandon_safe st p b :
  net_inv st -> pcbs st !! p = Some b -> tstate b <> CLOSED -> tstate b <> LISTEN ->
  (tstate b = TIME_WAIT -> callback_arg b = None) ->
  exists st', tcp_abandon p st = Ret st' /\ net_inv st' /\ keeps st st'.
Proof.
  intros H Hb T1 T2 T3. unfold tcp_abandon, get_pcb.
  destruct (Z.eqb_spec p NULL) as [->|Hn]; [by rewrite (ni_null _ H) in Hb|].
  rewrite Hb. cbn [res_of_option res_bind]. rewrite bool_decide_false by done.
  destruct (bool_decide_reflect (tstate b = TIME_WAIT)).
  - eexists. split; [reflexivity|]. split; [|by apply keeps_same].
    eapply unheld_free; try done. right. auto.
  - by apply (err_safe st p b ERR_ABRT).
Qed.

(** The freshly allocated address is not a pcb. *)
Lemma pcb_alloc_spec st : exists p, pcb_alloc E st = (p, (ask st).2) /\
  (p = NULL \/ pcbs st !! p = None).
Proof.
  unfold pcb_alloc, ask. cbn [snd pcbs].
  destruct (pcbs st !! e_alloc E (asked (tick st))) eqn:Ep; eauto.
Qed.

Lemma syn_safe st lp lb ip port :
  net_inv st -> pcbs st !! lp = Some lb -> tstate lb = LISTEN ->
  exists st', deliver E (EvSyn lp ip port) st = Ret st' /\ net_inv st' /\ keeps st st'.
Proof.
  intros H Hb Ht. unfold deliver. rewrite Hb, bool_decide_true by done.
  destruct (pcb_alloc_spec st) as (p & -> & Hp).
  assert (net_inv (ask st).2) as H1 by by apply inv_tick.
  pose proof (ni_pcb _ H lp lb Hb) as [P1 P2 P3 P4 P5].
  destruct (callback_arg lb) as [li|] eqn:Ea; [|by destruct (P2 eq_refl) as (_ & _ & Q & _)].
  destruct (Z.eqb_spec p NULL) as [->|Hn].
  - rewrite (P4 Ht). eexists. split; [reflexivity|]. split; [exact H1|by apply keeps_same].
  - destruct Hp as [|Hp]; [done|]. eexists. split; [reflexivity|]. split; [|by apply keeps_same].
    apply (inv_unheld _ _ _ _ H1 p (Some _)).
    + intros c Hc. cbn in Hc. congruence.
    + done.
    + intros c Hc. cbn in Hc. congruence.
    + intros c Hc. apply (inj Some) in Hc as <-. split; cbn; try done.
      intros _. split; [done|]. split; [done|]. intros _. exists lb. by rewrite Ea.
Qed.

(** The three registrations on_accept and connect make on a pcb. *)
Definition registered (i : nat) (b : tcp_pcb) : tcp_pcb := set_cbs true true (set_arg (Some i) b).

Lemma register_eq i p b st :
  p <> NULL -> pcbs st !! p = Some b -> tstate b <> LISTEN ->
  (let* st := tcp_arg p (Some i) st in
   let* st := tcp_recv p true st in tcp_err p true st) = Ret (put_pcb p (registered i b) st).
Proof.
  intros Hn Hb Ht. unfold tcp_arg, tcp_recv, tcp_err, get_pcb.
  destruct (Z.eqb_spec p NULL); [done|]. rewrite Hb. cbn [res_of_option res_bind put_pcb set_pcbs pcbs].
  rewrite lookup_insert_eq. cbn [res_of_option res_bind tstate set_arg].
  rewrite bool_decide_false by done. cbn [res_bind put_pcb set_pcbs pcbs].
  rewrite lookup_insert_eq. cbn [res_of_option res_bind tstate set_cbs set_arg].
  rewrite bool_decide_false by done. unfold put_pcb, set_pcbs. cbn. by rewrite !insert_insert_eq.
Qed.

Lemma alloc_slot_spec st : alloc_slot st = -1 \/
  exists i s, alloc_slot st = Z.of_nat i /\ socks st !! i = Some s /\ state s = SK_FREE.
Proof.
  unfold alloc_slot.
  destruct (find_from_spec (fun s => bool_decide (state s = SK_FREE)) 0 (socks st)) as [Hn|k x Hk Hx _].
  - by left.
  - right. exists k, x. split; [lia|]. split; [done|]. by apply bool_decide_eq_true in Hx.
Qed.

(** [on_accept] either refuses and changes nothing, or opens a slot for the
    connection and appends it to the listener's queue. *)
Lemma on_accept_spec st li l p b :
  ring_ok l -> socks st !! li = Some l -> state l <> SK_FREE -> p <> NULL ->
  pcbs st !! p = Some b -> tstate b <> LISTEN ->
  (exists e, on_accept (Some li) p ERR_OK st = Ret (e, st) /\ e <> ERR_OK /\ e <> ERR_ABRT) \/
  (exists i s, socks st !! i = Some s /\ state s = SK_FREE /\ i <> li /\
    acceptq_count l < ACCEPTQ_MAX /\
    on_accept (Some li) p ERR_OK st = Ret (ERR_OK,
      set_sock li (q_push (Z.of_nat i) l) (put_pcb p (registered i b)
        (set_sock i (set_pcb p (set_state SK_CONNECTED zero_sock)) st)))).
Proof.
  intros H Hl Hll Hn Hb Ht. unfold on_accept, arg_slot, sock_at.
  destruct (Z.eqb_spec p NULL); [done|]. cbn [res_of_option res_bind Z.eqb ERR_OK negb orb].
  rewrite Hl. cbn [res_of_option res_bind]. rewrite Z.geb_leb.
  destruct (Z.leb_spec ACCEPTQ_MAX (acceptq_count l)) as [|Hc]; [left; by exists ERR_MEM|].
  destruct (alloc_slot_spec st) as [->|(i & s & -> & Hs & Hf)]; [left; by exists ERR_MEM|].
  right. exists i, s. assert (i <> li) as Hne by congruence.
  destruct (Z.ltb_spec (Z.of_nat i) 0); [lia|]. rewrite Nat2Z.id.
  split; [done|]. split; [done|]. split; [done|]. split; [done|].
  set (st1 := set_sock i _ st).
  assert (forall A (k : net -> res A), (let* st := tcp_arg p (Some i) st1 in
    let* st := tcp_recv p true st in let* st := tcp_err p true st in k st) =
    k (put_pcb p (registered i b) st1)) as Hreg.
  { intros A k. pose proof (register_eq i p b st1 Hn Hb Ht) as E0.
    destruct (tcp_arg p (Some i) st1) as [a| |]; cbn [res_bind] in *; try done.
    destruct (tcp_recv p true a) as [c| |]; cbn [res_bind] in *; try done. by rewrite E0. }
  rewrite Hreg. cbn [put_pcb set_pcbs socks st1 set_sock set_socks].
  rewrite list_lookup_insert_ne, Hl by done. cbn [res_of_option res_bind].
  destruct H as [R1 R2 R3 R4].
  assert (0 <= acceptq_tail l < ACCEPTQ_MAX) as Htl.
  { rewrite R4. apply Z.mod_pos_bound. unfold ACCEPTQ_MAX. lia. }
  rewrite Z.geb_leb. destruct (Z.ltb_spec (acceptq_tail l) 0), (Z.leb_spec ACCEPTQ_MAX (acceptq_tail l));
    try lia. done.
Qed.

(** A refused connection is dropped. *)
Lemma refuse_safe st p b :
  net_inv st -> pcbs st !! p = Some b -> tstate b = SYN_RCVD ->
  exists st', tcp_abandon p (put_pcb p (set_tstate ESTABLISHED b) st) = Ret st' /\
    net_inv st' /\ keeps st st'.
Proof.
  intros H Hb Ht. destruct (po_syn _ _ _ (ni_pcb _ H p b Hb) Ht) as (_ & Hce & _).
  unfold tcp_abandon, get_pcb. destruct (Z.eqb_spec p NULL) as [->|Hn]; [by rewrite (ni_null _ H) in Hb|].
  cbn [put_pcb set_pcbs pcbs]. rewrite lookup_insert_eq. cbn [res_of_option res_bind tstate set_tstate].
  rewrite !bool_decide_false by done. cbn [cb_err set_tstate]. rewrite Hce.
  eexists. split; [reflexivity|]. split; [|by apply keeps_same].
  assert (tcp_free p (put_pcb p (set_tstate ESTABLISHED b) st) = tcp_free p st) as E0.
  { unfold tcp_free, put_pcb, set_pcbs. cbn. by rewrite delete_insert_eq. }
  assert (net_inv (tcp_free p (put_pcb p (set_tstate ESTABLISHED b) st))) as Hg; [|exact Hg].
  rewrite E0. eapply unheld_free; [done|done|by left|by rewrite Ht].
Qed.

Lemma established_safe st p b :
  net_inv st -> pcbs st !! p = Some b -> tstate b = SYN_RCVD ->
  exists st', deliver E (EvEstablished p) st = Ret st' /\ net_inv st' /\ keeps st st'.
Proof.
  intros H Hb Ht. unfold deliver. rewrite Hb, bool_decide_true by done.
  destruct (po_syn _ _ _ (ni_pcb _ H p b Hb) Ht) as (_ & Hce & Hli).
  destruct (Z.eqb_spec (listener b) NULL) as [El|El].
  { cbn [res_bind]. cbn [Z.eqb ERR_OK ERR_VAL ERR_ABRT orb]. by apply refuse_safe. }
  destruct (Hli El) as (lb & Hlb & Hll & Hla).
  assert (p <> listener b) as Hpl by (intros E0; rewrite <- E0, Hb in Hlb; congruence).
  assert (p <> NULL) as Hn by (intros ->; by rewrite (ni_null _ H) in Hb).
  unfold get_pcb. cbn [put_pcb set_pcbs pcbs]. rewrite lookup_insert_ne, Hlb by done.
  cbn [res_of_option res_bind]. pose proof (ni_pcb _ H _ lb Hlb) as [P1 P2 P3 P4 P5].
  rewrite (P4 Hll). cbn [call_accept].
  destruct (callback_arg lb) as [li|] eqn:Ea; [|by destruct (P2 eq_refl) as (_ & _ & Q & _)].
  rewrite <- Hla. destruct (P1 li eq_refl) as (l & Hl & Hlive & Hlp); [by rewrite Hll|].
  set (st1 := mkNet (socks st) (net_ready st) (<[p := set_tstate ESTABLISHED b]> (pcbs st)) (tick st) (tcp_log st)).
  change (put_pcb p (set_tstate ESTABLISHED b) st) with st1.
  pose proof (ni_sock _ H li l Hl Hlive) as Hok.
  destruct (on_accept_spec st1 li l p (set_tstate ESTABLISHED b))
    as [(e & -> & He1 & He2)|(i & s & Hs & Hf & Hne & Hc & ->)]; try done.
  - apply Hok.
  - cbn. apply lookup_insert_eq.
  - cbn [res_bind]. destruct (Z.eqb_spec e ERR_OK), (Z.eqb_spec e ERR_ABRT); try done.
    cbn [orb]. by apply refuse_safe.
  - cbn [res_bind Z.eqb ERR_OK orb]. eexists. split; [reflexivity|].
    change (socks st !! i = Some s) in Hs.
    set (s1 := set_pcb p (set_state SK_CONNECTED zero_sock)).
    set (b1 := registered i (set_tstate ESTABLISHED b)).
    assert (net_inv (mkNet (<[i := s1]> (socks st)) (net_ready st) (<[p := b1]> (pcbs st))
      (tick st) (tcp_log st))) as H2.
    { eapply (inv_open st _ _ _ H i s s1 p b1); try done.
      - intros c Hcb. left. congruence.
      - intros c Hcb. congruence.
      - split; cbn; try done. destruct (rxclosed b) eqn:Er; [|done].
        apply (po_closed _ _ _ (ni_pcb _ H p b Hb)) in Er. congruence. }
    set (st2 := mkNet (<[i := s1]> (socks st)) _ _ _ _) in H2.
    assert (set_sock li (q_push (Z.of_nat i) l) (put_pcb p b1 (set_sock i s1 st1)) =
      mkNet (<[li := q_push (Z.of_nat i) l]> (socks st2)) (net_ready st) (pcbs st2) (tick st) (tcp_log st)) as ->.
    { unfold set_sock, set_socks, put_pcb, set_pcbs, st1, st2. cbn. by rewrite insert_insert_eq. }
    assert (socks st2 !! li = Some l) as Hl2 by (cbn; by rewrite list_lookup_insert_ne).
    assert (i < length (socks st))%nat as Hil by by eapply lookup_lt_Some.
    split.
    + apply (inv_push st2); try done; [lia| |].
      * rewrite Nat2Z.id. exists s1. cbn. by rewrite list_lookup_insert_eq.
      * intros j u Hu Hul Hin. cbn [socks st2] in Hu.
        apply list_lookup_insert_Some in Hu as [(-> & <- & _)|[Hj Hu]].
        { cbn in Hin. by apply not_elem_of_nil in Hin. }
        destruct (so_queue _ _ _ (ni_sock _ H j u Hu Hul) _ Hin) as [_ (w & Hw & Hwl)].
        rewrite Nat2Z.id in Hw. congruence.
    + eapply keeps_trans; [by apply (keeps_insert st i s s1)|].
      by apply (keeps_insert st2 li l).
Qed.

Lemma deliver_safe st ev :
  net_inv st -> event_ok ev -> exists st', deliver E ev st = Ret st' /\ net_inv st' /\ keeps st st'.
Proof.
  intros H Hev.
  assert (exists st', Ret st = Ret st' /\ net_inv st' /\ keeps st st') as Hnop
    by (exists st; split_and!; [done..|apply keeps_refl]).
  destruct ev as [p c|p|p|p err|lp ip port|p|p]; unfold deliver;
    destruct (pcbs st !! _) as [b|] eqn:Hb; try done.
  - destruct (bool_decide (tstate b = ESTABLISHED) || bool_decide (tstate b = FIN_WAIT_1) ||
      bool_decide (tstate b = FIN_WAIT_2)) eqn:Es; [|done].
    assert (tstate b = ESTABLISHED \/ tstate b = FIN_WAIT_1 \/ tstate b = FIN_WAIT_2) as Hst.
    { apply orb_true_iff in Es as [Es|Es]; [apply orb_true_iff in Es as [Es|Es]|];
        apply bool_decide_eq_true in Es; tauto. }
    destruct (rxclosed b) eqn:Er.
    + eapply abandon_safe; try done; try (destruct Hst as [->|[->| ->]]; done).
    + destruct (cb_recv b) eqn:Ec; [|done].
      destruct (recv_safe st p b c H Hb Ec) as (st' & E1 & H1 & K1);
        [by destruct Hst as [->|[->| ->]]..|done|]. rewrite E1. by eexists.
  - destruct (bool_decide_reflect (tstate b = ESTABLISHED)); [|done].
    pose proof (fin_safe st p b H Hb) as F. unfold deliver in F.
    rewrite Hb, bool_decide_true in F by done. by apply F.
  - destruct (bool_decide_reflect (tstate b = SYN_SENT)); [|done].
    pose proof (connected_safe st p b H Hb) as F. unfold deliver in F.
    rewrite Hb, bool_decide_true in F by done. by apply F.
  - destruct (bool_decide_reflect (tstate b = CLOSED)), (bool_decide_reflect (tstate b = LISTEN));
      cbn [orb]; try done. by apply err_safe.
  - destruct (bool_decide_reflect (tstate b = LISTEN)); [|done].
    pose proof (syn_safe st lp b ip port H Hb) as F. unfold deliver in F.
    rewrite Hb, bool_decide_true in F by done. by apply F.
  - destruct (bool_decide_reflect (tstate b = SYN_RCVD)); [|done].
    pose proof (established_safe st p b H Hb) as F. unfold deliver in F.
    rewrite Hb, bool_decide_true in F by done. by apply F.
  - destruct (rxclosed b) eqn:Er; [|done]. eexists. split; [reflexivity|].
    split; [|by apply keeps_same].
    pose proof (po_closed _ _ _ (ni_pcb _ H p b Hb) Er) as Ea.
    eapply unheld_free; [done|done|by right|]. by apply (po_cb _ _ _ (ni_pcb _ H p b Hb)).
Qed.

Lemma deliver_all_safe evs st :
  net_inv st -> Forall event_ok evs ->
  exists st', deliver_all E evs st = Ret st' /\ net_inv st' /\ keeps st st'.
Proof.
  intros H Hev. revert st H. induction Hev as [|ev evs Hv _ IH]; intros st H.
  { exists st. split_and!; [done..|apply keeps_refl]. }
  destruct (deliver_safe st ev H Hv) as (st1 & E1 & H1 & K1). cbn [deliver_all]. rewrite E1.
  destruct (IH st1 H1) as (st2 & E2 & H2 & K2). exists st2. split_and!; [done..|].
  by eapply keeps_trans.
Qed.

Lemma net_poll_safe st : env_ok E -> net_inv st ->
  exists st', net_poll E st = Ret st' /\ net_inv st' /\ keeps st st'.
Proof.
  intros HE H. unfold net_poll, ask.
  destruct (deliver_all_safe (e_events E (asked (tick st))) (ask st).2) as (st' & E1 & H1 & K1);
    [by apply inv_tick|apply HE|]. exists st'. split_and!; [done..|].
  eapply keeps_trans; [by apply keeps_same|exact K1].
Qed.
End Safe.
