(* ===== verification/NetApi.v ===== *)
(** * The socket calls: safety, bounded blocking, preservation of the invariant *)
From S2P Require Import Prelude NetGlue NetShim NetInv NetSafe.

(** Some clock reading within [n] rounds is 30 s or more past the first. *)
Definition deadline (E : env) (st : net) (n : nat) : Prop :=
  NET_BLOCK_TIMEOUT_MS <=
    u32 (sys_now (e_now E (clocked (tick st) + S n)) - sys_now (e_now E (clocked (tick st)))).

(** The bytes received and not yet handed to the application. *)
Definition rx_data (s : bsock) : list Z := drop (Z.to_nat (rx_off s)) (concat (rx_head s)).

Section Api.
Variable E : env.
Context (HE : env_ok E).
Implicit Types st : net.

(** ** Blocking *)
Section Block.
Context {A : Type} (P : net -> Prop) (try : net -> res (option A * net)).
Context (Q : A -> net -> Prop).
Context (HP : forall st st', lives st st' -> P st -> P st').
Context (Htry : forall st, net_inv st -> P st ->
  exists o st', try st = Ret (o, st') /\ net_inv st' /\ keeps st st' /\
    forall a, o = Some a -> Q a st').

Lemma block_loop_spec n start st :
  net_inv st -> P st ->
  NET_BLOCK_TIMEOUT_MS <= u32 (sys_now (e_now E (clocked (tick st) + n)) - start) ->
  exists o st', block_loop E (S n) start try st = Ret (o, st') /\ net_inv st' /\ lives st st' /\
    forall a, o = Some a -> Q a st'.
Proof.
  revert st. induction n as [|n IH]; intros st H Hl Hd; cbn [block_loop];
    destruct (Htry st H Hl) as (o & st1 & E1 & H1 & [K1 C1] & Q1); rewrite E1; cbn [res_bind];
    (destruct o as [a|]; [exists (Some a), st1; by split_and!|]);
    destruct (net_poll_safe E st1 HE H1) as (st2 & E2 & H2 & K2 & C2); rewrite E2;
    cbn [res_bind read_now]; rewrite C2, C1;
    pose proof (lives_trans _ _ _ K1 K2) as K3.
  - rewrite Nat.add_0_r in Hd. rewrite Z.geb_leb.
    destruct (Z.leb_spec NET_BLOCK_TIMEOUT_MS (u32 (sys_now (e_now E (clocked (tick st))) - start)));
      [|lia].
    eexists None, _. split; [reflexivity|]. by split; [by apply inv_tick|].
  - destruct (_ >=? _).
    + eexists None, _. split; [reflexivity|]. by split; [by apply inv_tick|].
    + set (st3 := mkNet (socks st2) _ _ _ _).
      destruct (IH st3) as (o & st4 & E4 & H4 & L4 & Q4).
      * by apply inv_tick.
      * by apply (HP st).
      * cbn [tick clocked st3]. rewrite Nat.add_succ_l, <- Nat.add_succ_r. exact Hd.
      * exists o, st4. split_and!; try done. by eapply (lives_trans st st3).
Qed.

Lemma blocking_spec n st :
  net_inv st -> P st -> deadline E st n ->
  exists o st', blocking E (S n) try st = Ret (o, st') /\ net_inv st' /\ lives st st' /\
    forall a, o = Some a -> Q a st'.
Proof.
  intros H Hl Hd. unfold blocking, read_now.
  set (st1 := mkNet (socks st) _ _ _ _).
  destruct (block_loop_spec n (sys_now (e_now E (clocked (tick st)))) st1)
    as (o & st' & E1 & H1 & L1 & Q1); [by apply inv_tick|by apply (HP st), Hl; apply lives_same| |].
  - cbn [tick clocked st1]. rewrite Nat.add_succ_l, <- Nat.add_succ_r. exact Hd.
  - exists o, st'. by split_and!.
Qed.
End Block.

(** ** Descriptors *)
Definition fd_slot (fd : Z) : nat := Z.to_nat (fd - SOCK_FD_BASE).

Lemma is_fd_spec st fd : net_shim_is_fd st fd = true -> exists s,
  fd_sock fd st = Ret (fd_slot fd, s) /\ socks st !! fd_slot fd = Some s /\ state s <> SK_FREE /\
  0 <= fd - SOCK_FD_BASE.
Proof.
  unfold net_shim_is_fd, fd_sock, fd_slot. intros H. zbool.
  destruct (socks st !! Z.to_nat (fd - SOCK_FD_BASE)) as [s|] eqn:Es; [|done].
  exists s. apply negb_true_iff, bool_decide_eq_false in H0.
  rewrite (proj2 (arr_get_Ret _ _ _) (conj H Es)). by split_and!.
Qed.

Lemma is_fd_live st fd : net_shim_is_fd st fd = true -> live st (fd_slot fd).
Proof. intros (s & _ & Hs & Hl & _)%is_fd_spec. by exists s. Qed.

Lemma live_sock st i : live st i -> exists s, sock_at i st = Ret s /\ socks st !! i = Some s /\
  state s <> SK_FREE.
Proof. intros (s & Hs & Hl). exists s. unfold sock_at. by rewrite Hs. Qed.

(** ** bind *)
Lemma bind_safe m fd addr addrlen st :
  net_inv st -> net_shim_is_fd st fd = true ->
  exists r st', net_shim_bind E m fd addr addrlen st = Ret (r, st') /\ net_inv st' /\ lives st st'.
Proof.
  intros H Hfd. destruct (is_fd_spec st fd Hfd) as (s & Ef & Hs & Hl & _).
  unfold net_shim_bind. rewrite Ef. cbn [res_bind].
  destruct (u64 addrlen <? SIZEOF_SOCKADDR_IN).
  { eexists _, st. split_and!; [done..|apply lives_refl]. }
  unfold tcp_bind. destruct (Z.eqb_spec (pcb s) NULL) as [|Hn].
  { eexists _, st. split_and!; [done..|apply lives_refl]. }
  destruct (so_pcb _ _ _ (ni_sock _ H _ s Hs Hl) Hn) as (b & Hb & Hh).
  unfold get_pcb. rewrite Hb. cbn [res_of_option res_bind].
  destruct (negb _).
  { eexists _, st. split_and!; [done..|apply lives_refl]. }
  eexists _, _. split; [reflexivity|]. split; [by apply inv_tick|by apply lives_same].
Qed.

(** ** recv *)
Lemma bsock_take_spec s len :
  rx_ok s -> rx_head s <> [] -> 0 < len < 18446744073709551616 ->
  exists n bs s', bsock_take s len = Ret (n, bs, s') /\ 0 < n <= len /\
    Z.of_nat (length bs) = n /\ rx_data s = bs ++ rx_data s' /\ rx_ok s' /\
    n < 65536 /\ exists c o, s' = set_rx c o s.
Proof.
  intros [R1 R2] Hne Hlen. unfold bsock_take, rx_data.
  destruct (rx_head s) as [|p rest] eqn:Hrx; [done|].
  inversion R1 as [|? ? [Hp Hpl] R1']; subst.
  rewrite (u64_small (Z.of_nat (length p) - rx_off s)) by lia.
  set (n := if len <? Z.of_nat (length p) - rx_off s then len else Z.of_nat (length p) - rx_off s).
  assert (n = Z.min len (Z.of_nat (length p) - rx_off s)) as En
    by (unfold n; destruct (Z.ltb_spec len (Z.of_nat (length p) - rx_off s)); lia).
  rewrite (u16_small (rx_off s + n)) by lia.
  eexists n, _, _. split; [reflexivity|]. split; [lia|]. split; [rewrite length_slice; lia|].
  rewrite <- take_drop_slice by lia. cbn [concat]. rewrite drop_app_le by lia.
  destruct (Z.eqb_spec (rx_off s + n) (Z.of_nat (length p))) as [Eq|Eq].
  - cbn [rx_off rx_head set_rx]. rewrite drop_0. split; [|split; [|split; [lia|by eexists _, _]]].
    + f_equal. rewrite take_ge; [done|]. rewrite length_drop. lia.
    + split; cbn; [done|]. destruct rest as [|q rest]; [done|].
      inversion R1' as [|? ? [Hq _] _]; subst. destruct q; [done|]. cbn. lia.
  - cbn [rx_off rx_head set_rx concat]. split; [|split; [|split; [lia|by eexists _, _]]].
    + rewrite (drop_app_le p) by lia. rewrite app_assoc. f_equal.
      rewrite <- (take_drop (Z.to_nat n) (drop (Z.to_nat (rx_off s)) p)) at 1.
      rewrite drop_drop. do 2 f_equal. lia.
    + split; cbn; [done|]. lia.
Qed.

(** tcp_recved on a pcb that is there and not listening. *)
Lemma tcp_recved_spec st p n b :
  pcbs st !! p = Some b -> tstate b <> LISTEN ->
  tcp_recved p n st = Ret (mkNet (socks st) (net_ready st) (pcbs st) (tick st)
    (if p =? NULL then tcp_log st else tcp_log st ++ [TcpRecved p n])).
Proof.
  intros Hb Hl. unfold tcp_recved. destruct (Z.eqb_spec p NULL); [by destruct st|].
  unfold get_pcb. rewrite Hb. cbn [res_of_option res_bind]. by rewrite bool_decide_false.
Qed.

(** Where a socket's data may be acknowledged: no pcb any more, or one that is
    not listening. *)
Definition can_ack st (s : bsock) : Prop :=
  pcb s <> NULL -> exists b, pcbs st !! pcb s = Some b /\ tstate b <> LISTEN.

Lemma inv_can_ack st i s :
  net_inv st -> socks st !! i = Some s -> state s <> SK_FREE -> rx_head s <> [] -> can_ack st s.
Proof.
  intros H Hs Hl Hne Hp. destruct (so_pcb _ _ _ (ni_sock _ H i s Hs Hl) Hp) as (b & Hb & Hh).
  exists b. split; [done|]. intros El. apply Hne, (he_rx _ _ _ Hh). by right.
Qed.

(** The whole of bsock_read, in any state where the data may be acknowledged. *)
Lemma bsock_read_run st i s len n bs s' :
  can_ack st s -> bsock_take s len = Ret (n, bs, s') -> pcb s' = pcb s -> 0 <= n < 65536 ->
  bsock_read i s len st = Ret (n, bs, mkNet (<[i := s']> (socks st)) (net_ready st) (pcbs st) (tick st)
    (if pcb s =? NULL then tcp_log st else tcp_log st ++ [TcpRecved (pcb s) n])).
Proof.
  intros Hc Et Ep Hn. unfold bsock_read. rewrite Et. cbn [res_bind]. rewrite Ep.
  destruct (Z.eqb_spec (pcb s) NULL) as [Ez|Ez]; cbn [negb res_bind]; [done|].
  destruct (Hc Ez) as (b & Hb & Hl). rewrite (tcp_recved_spec _ _ _ b) by done.
  rewrite u16_small by done. cbn [res_bind set_sock set_socks socks net_ready pcbs tick tcp_log].
  by destruct (Z.eqb_spec (pcb s) NULL).
Qed.

Lemma bsock_read_spec st i s len :
  net_inv st -> socks st !! i = Some s -> state s <> SK_FREE -> rx_head s <> [] ->
  0 < len < 18446744073709551616 ->
  exists n bs s' l, let st' := mkNet (<[i := s']> (socks st)) (net_ready st) (pcbs st) (tick st) l in
    bsock_read i s len st = Ret (n, bs, st') /\ 0 < n <= len /\ Z.of_nat (length bs) = n /\
    rx_data s = bs ++ rx_data s' /\ net_inv st' /\ keeps st st'.
Proof.
  intros H Hs Hsl Hne Hlen. pose proof (ni_sock _ H i s Hs Hsl) as [S1 S2 S3 S4 S5 S6].
  destruct (bsock_take_spec s len S2 Hne Hlen) as (n & bs & s' & Et & Hn & Hbs & Hd & R & Hn16 & c & o & Es').
  assert (state s' = state s /\ pcb s' = pcb s /\ ring_ok s' /\ qlist s' = qlist s) as (A1 & A2 & A3 & A4).
  { subst s'. split_and!; auto with net. }
  eexists n, bs, s', _. split; [|split; [done|split; [done|split; [done|split]]]].
  - by rewrite (bsock_read_run st i s len n bs s' (inv_can_ack st i s H Hs Hsl Hne) Et A2) by lia.
  - eapply (inv_sock st _ _ _ H i s s'); try done; try congruence; [by rewrite A1|by rewrite A4|].
    by right; left.
  - apply (keeps_insert st i s); try done; [congruence|by rewrite A1].
Qed.

(** What one pass of recv yields: bytes from the front of the stream, end
    of file only when nothing is buffered, or a reset. *)
Definition recv_post (i : nat) (len : Z) (r : Z * list Z) (st' : net) : Prop :=
  (r = (0, []) \/ r = (- ECONNRESET, []) \/
   0 < r.1 <= len /\ Z.of_nat (length r.2) = r.1).

Lemma recv_try_spec i len st :
  0 < len < 18446744073709551616 -> net_inv st -> live st i ->
  exists o st', recv_try i len st = Ret (o, st') /\ net_inv st' /\ keeps st st' /\
    forall a, o = Some a -> recv_post i len a st'.
Proof.
  intros Hlen H Hl. destruct (live_sock st i Hl) as (s & Es & Hs & Hsl).
  pose proof (ni_sock _ H i s Hs Hsl) as [S1 S2 S3 S4 S5 S6].
  unfold recv_try. rewrite Es. cbn [res_bind]. destruct (rx_head s) as [|p rest] eqn:Erx.
  - destruct (eof s).
    { eexists _, st. split_and!; [done..|apply keeps_refl|]. intros a [= <-]. by left. }
    destruct (bool_decide _); eexists _, st; (split_and!; [done..|apply keeps_refl|]); [|done].
    intros a [= <-]. right. by left.
  - assert (rx_head s <> []) as Hne by by rewrite Erx.
    destruct (bsock_read_spec st i s len H Hs Hsl Hne Hlen) as (n & bs & s' & l & -> & Hn & Hbs & _ & H' & K).
    cbn [res_bind]. eexists _, _. split; [reflexivity|]. split_and!; [done..|].
    intros a [= <-]. right. by right.
Qed.

Lemma recv_safe_fd n fd len flags st :
  net_inv st -> net_shim_is_fd st fd = true -> 0 <= len < 18446744073709551616 ->
  deadline E st n ->
  exists r bs st', net_shim_recv E (S n) fd len flags st = Ret (r, bs, st') /\ net_inv st' /\
    lives st st' /\
    (r = 0 /\ bs = [] \/ r = - ECONNRESET /\ bs = [] \/ r = - ETIMEDOUT /\ bs = [] \/
     0 < r <= len /\ Z.of_nat (length bs) = r).
Proof.
  intros H Hfd Hlen Hd. destruct (is_fd_spec st fd Hfd) as (s & Ef & Hs & Hl & _).
  unfold net_shim_recv. rewrite Ef. cbn [res_bind]. destruct (Z.eqb_spec len 0).
  { eexists _, _, st. split_and!; [done..|apply lives_refl|by left]. }
  destruct (blocking_spec (fun st => live st (fd_slot fd)) (recv_try (fd_slot fd) len)
    (recv_post (fd_slot fd) len)) with (n := n) (st := st)
    as (o & st' & E1 & H1 & L1 & Q1); try done.
  - intros a b Hab. by apply lives_live.
  - intros st0 H0 Hl0. apply recv_try_spec; [lia|done|done].
  - by apply is_fd_live.
  - rewrite E1. cbn [res_bind]. destruct o as [[r bs]|]; eexists _, _, st'; split_and!; try done.
    + destruct (Q1 _ eq_refl) as [[= -> ->]|[[= -> ->]|Hr]]; tauto.
    + tauto.
Qed.

(** ** send *)
Definition sender (i : nat) st : Prop :=
  exists s, socks st !! i = Some s /\ state s <> SK_FREE /\ state s <> SK_LISTENING.

Lemma sender_lives i st st' : lives st st' -> sender i st -> sender i st'.
Proof.
  intros H (s & Hs & Hl & Hn). destruct (H i s Hs Hl) as (s' & A & B & C). exists s'.
  by rewrite C.
Qed.

(** A send either hands lwIP a non-empty prefix of the buffer, or an error. *)
Definition send_post (p len : Z) (src : reader) st (r : Z) st' : Prop :=
  r = 0 /\ tcp_log st' = tcp_log st \/ r = - ECONNRESET /\ tcp_log st' = tcp_log st \/
  0 < r <= len /\ r < 65536 /\ tcp_log st' = tcp_log st ++ [TcpWrite p (slice src 0 r)].

Lemma bsock_write_spec i s src len st :
  net_inv st -> socks st !! i = Some s -> state s <> SK_FREE -> state s <> SK_LISTENING ->
  0 < len ->
  exists r st', bsock_write E s src len st = Ret (r, st') /\ net_inv st' /\ keeps st st' /\
    send_post (pcb s) len src st r st'.
Proof.
  intros H Hs Hl Hli Hlen. unfold bsock_write.
  destruct (bool_decide (state s = SK_ERROR)).
  { eexists _, st. split_and!; [done..|apply keeps_refl|]. right. by left. }
  destruct (Z.eqb_spec (pcb s) NULL) as [|Hn].
  { eexists _, st. split_and!; [done..|apply keeps_refl|]. right. by left. }
  cbn [orb]. destruct (so_pcb _ _ _ (ni_sock _ H i s Hs Hl) Hn) as (b & Hb & Hh).
  unfold get_pcb. rewrite Hb. cbn [res_of_option res_bind].
  rewrite bool_decide_false by (rewrite <- (he_listen _ _ _ Hh); done). cbn [ask].
  set (sb := u16 _). assert (0 <= sb < 65536) as Hsb by apply u16_range.
  destruct (Z.eqb_spec sb 0).
  { eexists _, _. split; [reflexivity|]. split; [by apply (inv_tick st)|].
    split; [by apply keeps_same|]. by left. }
  rewrite !Z.gtb_ltb.
  set (k := if len <? sb then len else sb).
  assert (0 < k <= len /\ k < 65536) as Hk by (unfold k; destruct (Z.ltb_spec len sb); lia).
  destruct (Z.ltb_spec 0xFFFF k); [lia|].
  match goal with |- context [e_err E ?q =? ERR_OK] => destruct (Z.eqb_spec (e_err E q) ERR_OK) end;
    cbn [negb];
    eexists _, _; (split; [reflexivity|]); (split; [by apply (inv_tick st)|]);
    (split; [by apply keeps_same|]).
  - right. right. rewrite u16_small by lia. split_and!; try done; lia.
  - destruct (_ =? _); [by left|right; by left].
Qed.

(** The outcome of send: an error, or a non-empty prefix of the buffer that
    was the last thing handed to tcp_write. *)
Definition send_result (len : Z) (src : reader) (r : Z) st' : Prop :=
  r = - ECONNRESET \/
  0 < r <= len /\ r < 65536 /\ exists l p, tcp_log st' = l ++ [TcpWrite p (slice src 0 r)].

Lemma send_try_spec i src len st :
  0 < len -> net_inv st -> sender i st ->
  exists o st', send_try E i src len st = Ret (o, st') /\ net_inv st' /\ keeps st st' /\
    forall r, o = Some r -> send_result len src r st'.
Proof.
  intros Hlen H (s & Hs & Hl & Hn). unfold send_try, sock_at. rewrite Hs. cbn [res_of_option res_bind].
  destruct (bsock_write_spec i s src len st H Hs Hl Hn Hlen) as (r & st' & -> & H' & K' & P).
  cbn [res_bind]. destruct (Z.eqb_spec r 0); cbn [negb].
  - destruct (bool_decide _); eexists _, st'; split_and!; try done. intros r' [= <-]. by left.
  - eexists _, st'. split_and!; try done. intros r' [= <-].
    destruct P as [[-> _]|[[-> _]|(Hr & Hr2 & E0)]]; [done|by left|]. right. split_and!; try lia.
    by eexists _, _.
Qed.

Lemma send_safe_fd n fd src len flags st :
  net_inv st -> net_shim_is_fd st fd = true -> sender (fd_slot fd) st -> 0 <= len ->
  deadline E st n ->
  exists r st', net_shim_send E (S n) fd src len flags st = Ret (r, st') /\ net_inv st' /\
    lives st st' /\ (r = 0 /\ len = 0 \/ r = - ETIMEDOUT \/ send_result len src r st').
Proof.
  intros H Hfd Hsn Hlen Hd. destruct (is_fd_spec st fd Hfd) as (s & Ef & Hs & Hl & _).
  unfold net_shim_send. rewrite Ef. cbn [res_bind]. destruct (Z.eqb_spec len 0).
  { eexists _, st. split_and!; [done..|apply lives_refl|by left]. }
  destruct (blocking_spec (sender (fd_slot fd)) (send_try E (fd_slot fd) src len)
    (send_result len src)) with (n := n) (st := st) as (o & st' & E1 & H1 & L1 & Q1); try done.
  - apply sender_lives.
  - intros st0 H0 Hl0. apply send_try_spec; [lia|done|done].
  - rewrite E1. cbn [res_bind]. destruct o as [r|]; eexists _, st'; split_and!; try done.
    + right. right. by apply Q1.
    + right. by left.
Qed.

(** ** accept *)
Lemma accept_try_spec i st :
  net_inv st -> live st i ->
  exists o st', accept_try i st = Ret (o, st') /\ net_inv st' /\ keeps st st' /\
    forall a, o = Some a -> live st' i /\
      (a = true -> exists s, socks st' !! i = Some s /\ acceptq_count s <> 0).
Proof.
  intros H Hl. destruct (live_sock st i Hl) as (s & Es & Hs & Hsl). unfold accept_try. rewrite Es.
  cbn [res_bind]. destruct (Z.eqb_spec (acceptq_count s) 0); cbn [negb].
  - destruct (negb _); eexists _, st; (split_and!; [done..|apply keeps_refl|]); [|done].
    by intros a [= <-].
  - eexists _, st. split_and!; [done..|apply keeps_refl|]. intros a [= <-]. split; [done|]. eauto.
Qed.

Lemma accept_safe_fd n fd addr addrlen st :
  net_inv st -> net_shim_is_fd st fd = true -> deadline E st n ->
  addr = false \/ addrlen = None ->
  exists r st', net_shim_accept E (S n) fd addr addrlen st = Ret (r, None, st') /\ net_inv st' /\
    lives st st' /\
    (r = - EAGAIN \/ r = - EINVAL \/
     net_shim_is_fd st' r = true /\
     exists st0 s0 rest, lives st st0 /\ socks st0 !! fd_slot fd = Some s0 /\
       qlist s0 = (r - SOCK_FD_BASE) :: rest /\
       forall j u, socks st' !! j = Some u -> state u <> SK_FREE -> (r - SOCK_FD_BASE) ∉ qlist u).
Proof.
  intros H Hfd Hd Ha. destruct (is_fd_spec st fd Hfd) as (s & Ef & Hs & Hl & _).
  unfold net_shim_accept. rewrite Ef. cbn [res_bind]. set (i := fd_slot fd) in *.
  destruct (blocking_spec (fun st => live st i) (accept_try i)
    (fun a st' => live st' i /\
      (a = true -> exists s, socks st' !! i = Some s /\ acceptq_count s <> 0)))
    with (n := n) (st := st) as (o & st1 & E1 & H1 & L1 & Q1); try done.
  { intros a b Hab. by apply lives_live. }
  { apply accept_try_spec. }
  { by exists s. }
  rewrite E1. cbn [res_bind].
  destruct o as [[]|]; [|eexists _, st1; split_and!; try done; tauto..].
  destruct (Q1 true eq_refl) as [Hl1 Hq1]. destruct (Hq1 eq_refl) as (s1 & Hs1 & Hc1).
  destruct Hl1 as (s1' & Hs1' & Hsl1). rewrite Hs1 in Hs1'. injection Hs1' as <-.
  pose proof (ni_sock _ H1 i s1 Hs1 Hsl1) as [S1 S2 S3 S4 S5 S6].
  destruct (q_pop_spec s1 S1) as [R Q]; [destruct S1; lia|].
  set (slot := list_reader (acceptq s1) (acceptq_head s1)) in *.
  unfold sock_at. rewrite Hs1. cbn [res_of_option res_bind].
  assert (arr_get (acceptq s1) (acceptq_head s1) = Ret slot) as ->.
  { destruct S1 as [Rl Rh _ _]. unfold ACCEPTQ_MAX in Rh. apply arr_get_Ret. split; [lia|].
    unfold slot, list_reader. destruct (Z.ltb_spec (acceptq_head s1) 0); [lia|].
    destruct (lookup_lt_is_Some_2 (acceptq s1) (Z.to_nat (acceptq_head s1))) as [x Hx]; [lia|].
    by rewrite Hx. }
  cbn [res_bind]. fold (q_pop s1).
  destruct (S5 slot) as [Hslot Hlive]; [rewrite Q; constructor|].
  set (st2 := set_sock i (q_pop s1) st1).
  assert (net_inv st2) as H2.
  { eapply (inv_sock st1 _ _ _ H1 i s1 (q_pop s1)); try done; [|by apply rx_kept_same].
    rewrite Q. apply submseteq_cons. reflexivity. }
  assert (lives st1 st2) as L2 by (by apply (lives_insert st1 i s1)).
  destruct (lives_live _ _ _ L2 Hlive) as (ns & Hns & Hnl).
  rewrite (proj2 (arr_get_Ret (socks st2) slot ns) (conj Hslot Hns)). cbn [res_bind].
  exists (SOCK_FD_BASE + slot), st2. split.
  { destruct Ha as [-> | ->]; [by destruct addrlen|done]. }
  split; [done|]. split; [by eapply lives_trans|]. right. right. split.
  - unfold net_shim_is_fd. replace (SOCK_FD_BASE + slot - SOCK_FD_BASE) with slot by lia.
    rewrite Hns. apply lookup_lt_Some in Hns. rewrite (ni_len _ H2) in Hns.
    rewrite Z.geb_leb, bool_decide_false by done.
    destruct (Z.leb_spec 0 slot), (Z.ltb_spec slot (Z.of_nat SOCK_MAX)); try done; lia.
  - exists st1, s1, (qlist (q_pop s1)). replace (SOCK_FD_BASE + slot - SOCK_FD_BASE) with slot by lia.
    split; [done|]. split; [done|]. split; [done|].
    intros j u Hu Hul Hin. cbn [st2 set_sock set_socks socks] in Hu.
    apply list_lookup_insert_Some in Hu as [(-> & <- & _)|[Hj Hu]].
    + rewrite Q in S6. by apply NoDup_cons in S6 as [S6 _].
    + apply (ni_queues _ H1 i j s1 u slot Hs1 Hu Hsl1 Hul Hj); [rewrite Q; constructor|done].
Qed.

(** ** connect *)
Lemma connect_try_spec i st :
  net_inv st -> live st i ->
  exists o st', connect_try i st = Ret (o, st') /\ net_inv st' /\ keeps st st' /\
    forall a, o = Some a -> live st' i.
Proof.
  intros H Hl. destruct (live_sock st i Hl) as (s & Es & Hs & Hsl). unfold connect_try. rewrite Es.
  cbn [res_bind]. destruct (bool_decide _); eexists _, st; by split_and!; [..|apply keeps_refl|].
Qed.

(** Up to the wait: the callbacks are registered and the SYN is out, or the
    socket is in error. *)
Lemma connect_start i s p ip port st :
  net_inv st -> socks st !! i = Some s -> state s <> SK_FREE -> state s <> SK_LISTENING ->
  p = pcb s ->
  exists err st', (let* st := tcp_arg p (Some i) st in
    let* st := tcp_recv p true st in
    let* st := tcp_err p true st in
    let st := set_sock i (set_state SK_CONNECTING s) st in
    tcp_connect E p ip port st) = Ret (err, st') /\
    net_inv (if err =? ERR_OK then st' else set_sock i (set_state SK_ERROR s) st') /\
    lives st (if err =? ERR_OK then st' else set_sock i (set_state SK_ERROR s) st') /\
    clocked (tick st') = clocked (tick st).
Proof.
  intros H Hs Hl Hn ->. pose proof (ni_sock _ H i s Hs Hl) as [S1 S2 S3 S4 S5 S6].
  destruct (Z.eqb_spec (pcb s) NULL) as [E0|Hp].
  { unfold tcp_arg, tcp_recv, tcp_err, tcp_connect. rewrite E0. cbn [Z.eqb NULL res_bind].
    eexists _, _. split; [reflexivity|]. cbn [Z.eqb ERR_OK ERR_ARG].
    unfold set_sock, set_socks. cbn [socks net_ready pcbs tick tcp_log]. rewrite list_insert_insert_eq.
    split; [|split; [|done]].
    - eapply (inv_sock st _ _ _ H i s); auto with net; try done.
    - by apply (lives_insert st i s). }
  destruct (S3 Hp) as (b & Hb & [A B C D F G]).
  assert (tstate b <> LISTEN) as Hbl by by rewrite <- C.
  assert (forall X (k : net -> res X), (let* st := tcp_arg (pcb s) (Some i) st in
    let* st := tcp_recv (pcb s) true st in let* st := tcp_err (pcb s) true st in k st) =
    k (put_pcb (pcb s) (registered i b) st)) as Hreg.
  { intros X k. pose proof (register_eq i (pcb s) b st Hp Hb Hbl) as E0.
    destruct (tcp_arg (pcb s) (Some i) st) as [a| |]; cbn [res_bind] in *; try done.
    destruct (tcp_recv (pcb s) true a) as [c| |]; cbn [res_bind] in *; try done. by rewrite E0. }
  rewrite Hreg. unfold tcp_connect, get_pcb. destruct (Z.eqb_spec (pcb s) NULL); [done|].
  cbn [pcbs set_sock set_socks put_pcb set_pcbs]. rewrite lookup_insert_eq.
  cbn [res_of_option res_bind].
  assert (forall s' b' v r t l, s' = set_state v s -> v <> SK_FREE -> v <> SK_LISTENING ->
    held i s' b' -> tstate b' <> LISTEN ->
    net_inv (mkNet (<[i := s']> (socks st)) r (<[pcb s := b']> (pcbs st)) t l)) as Hfin.
  { intros s' b' v r t l -> V1 V2 Hh Hb'. eapply (inv_own st _ _ _ H i s _ b b'); auto with net; done. }
  assert (forall v b', v <> SK_LISTENING -> callback_arg b' = Some i -> rxclosed b' = false ->
    tstate b' <> LISTEN -> tstate b' <> SYN_RCVD -> cb_err b' = true ->
    (tstate b' = CLOSED -> tstate b = CLOSED) -> held i (set_state v s) b') as Hheld.
  { intros v b' V1 B1 B2 B3 B4 B5 B6. split; try done. intros [Hcl|Hcl]; [|done]. apply G. left. auto. }
  cbn [tstate registered set_cbs set_arg].
  destruct (bool_decide_reflect (tstate b = CLOSED)) as [Ec|Ec]; cbn [negb ask].
  - unfold set_sock, set_socks, put_pcb, set_pcbs. cbn [socks net_ready pcbs tick tcp_log].
    set (err := e_err E _). eexists err, _. split; [reflexivity|].
    destruct (Z.eqb_spec err ERR_OK); cbn [orb socks net_ready pcbs tick tcp_log];
      rewrite ?list_insert_insert_eq, ?insert_insert_eq.
    + split; [|split; [by apply (lives_insert st i s)|done]].
      eapply (Hfin _ _ SK_CONNECTING); try done; try by apply Hheld.
    + split; [|split; [by apply (lives_insert st i s)|done]].
      by eapply (Hfin _ _ SK_ERROR); try done; try apply Hheld.
  - eexists _, _. split; [reflexivity|]. cbn [Z.eqb ERR_OK ERR_ISCONN].
    unfold set_sock, set_socks, put_pcb, set_pcbs. cbn [socks net_ready pcbs tick tcp_log].
    rewrite list_insert_insert_eq. split; [|split; [by apply (lives_insert st i s)|done]].
    by eapply (Hfin _ _ SK_ERROR); try done; try apply Hheld.
Qed.

Lemma connect_safe_fd n m fd addr addrlen st :
  net_inv st -> net_shim_is_fd st fd = true -> sender (fd_slot fd) st -> deadline E st n ->
  exists r st', net_shim_connect E (S n) m fd addr addrlen st = Ret (r, st') /\ net_inv st' /\
    lives st st' /\
    (r = 0 /\ (exists s, socks st' !! fd_slot fd = Some s /\ state s = SK_CONNECTED) \/
     r = - EINVAL \/ r = - ECONNREFUSED \/ r = - ETIMEDOUT).
Proof.
  intros H Hfd Hsn Hd. destruct (is_fd_spec st fd Hfd) as (s & Ef & Hs & Hl & _).
  destruct Hsn as (s0 & Hs0 & _ & Hn). rewrite Hs in Hs0. injection Hs0 as <-.
  unfold net_shim_connect. rewrite Ef. cbn [res_bind].
  destruct (u64 addrlen <? SIZEOF_SOCKADDR_IN).
  { eexists _, st. split_and!; [done..|apply lives_refl|tauto]. }
  destruct (connect_start (fd_slot fd) s (pcb s) (sin_addr m addr) (lwip_ntohs (sin_port m addr)) st)
    as (err & st1 & E1 & H1 & L1 & C1); try done.
  assert (forall X (k : Z * net -> res X),
    (let* st := tcp_arg (pcb s) (Some (fd_slot fd)) st in
     let* st := tcp_recv (pcb s) true st in
     let* st := tcp_err (pcb s) true st in
     let st := set_sock (fd_slot fd) (set_state SK_CONNECTING s) st in
     let* x := tcp_connect E (pcb s) (sin_addr m addr) (lwip_ntohs (sin_port m addr)) st in k x) =
    k (err, st1)) as Hk.
  { intros X k. destruct (tcp_arg _ _ st) as [a| |]; cbn [res_bind] in *; try done.
    destruct (tcp_recv _ _ a) as [c| |]; cbn [res_bind] in *; try done.
    destruct (tcp_err _ _ c) as [d| |]; cbn [res_bind] in *; try done. by rewrite E1. }
  rewrite Hk. destruct (Z.eqb_spec err ERR_OK) as [Eo|Eo]; cbn [negb].
  2:{ eexists _, _. split; [reflexivity|]. split_and!; try done; tauto. }
  destruct (blocking_spec (fun st => live st (fd_slot fd)) (connect_try (fd_slot fd))
    (fun _ st' => live st' (fd_slot fd))) with (n := n) (st := st1)
    as (o & st2 & E2 & H2 & L2 & Q2); try done.
  - intros a b Hab. by apply lives_live.
  - apply connect_try_spec.
  - eapply lives_live; [exact L1|]. by exists s.
  - unfold deadline. by rewrite C1.
  - rewrite E2. cbn [res_bind]. pose proof (lives_trans _ _ _ L1 L2) as L3.
    destruct o as [[]|]; [|eexists _, st2; split_and!; try done; tauto].
    destruct (live_sock _ _ (Q2 tt eq_refl)) as (s2 & Es2 & Hs2 & Hl2). rewrite Es2. cbn [res_bind].
    eexists _, st2. split_and!; try done.
    destruct (bool_decide_reflect (state s2 = SK_CONNECTED)); [left; by eauto|tauto].
Qed.

(** ** listen *)
Lemma listen_safe_fd fd backlog st :
  net_inv st -> net_shim_is_fd st fd = true ->
  exists r st', net_shim_listen E fd backlog st = Ret (r, st') /\ net_inv st' /\
    (r = 0 /\ (exists s, socks st' !! fd_slot fd = Some s /\ state s = SK_LISTENING) \/
     r = - EADDRINUSE).
Proof.
  intros H Hfd. destruct (is_fd_spec st fd Hfd) as (s & Ef & Hs & Hl & _).
  pose proof (ni_sock _ H _ s Hs Hl) as [S1 S2 S3 S4 S5 S6]. set (i := fd_slot fd) in *.
  unfold net_shim_listen. rewrite Ef. cbn [res_bind].
  unfold tcp_listen_with_backlog. destruct (Z.eqb_spec (pcb s) NULL) as [|Hn].
  { eexists _, st. split_and!; [done..|tauto]. }
  destruct (S3 Hn) as (b & Hb & [A B C D F G]).
  unfold get_pcb at 1. rewrite Hb. cbn [res_of_option res_bind].
  destruct (bool_decide_reflect (tstate b = CLOSED)) as [Ec|]; cbn [negb];
    [|eexists _, st; split_and!; [done..|tauto]].
  destruct (pcb_alloc_spec E st) as (lp & -> & Hlp).
  destruct (Z.eqb_spec lp NULL) as [->|Hln].
  { eexists _, _. split; [reflexivity|]. split; [by apply (inv_tick st)|tauto]. }
  destruct Hlp as [|Hlp]; [done|]. cbn [res_bind]. destruct (Z.eqb_spec lp NULL); [done|].
  set (lb := mkPcb LISTEN (callback_arg b) false false false AcceptNull NULL false 0 0).
  set (s' := set_state SK_LISTENING (set_pcb lp s)).
  set (lb' := set_accept AcceptOn (set_arg (Some i) lb)).
  assert (lp <> pcb s) as Hne by congruence.
  unfold tcp_arg, tcp_accept, get_pcb. destruct (Z.eqb_spec lp NULL); [done|].
  cbn [pcbs set_sock set_socks put_pcb set_pcbs tcp_free ask snd]. rewrite lookup_insert_eq.
  cbn [res_of_option res_bind pcbs put_pcb set_pcbs]. rewrite lookup_insert_eq.
  cbn [res_of_option res_bind tstate lb set_arg].
  rewrite bool_decide_true by done.
  cbn [res_bind]. unfold put_pcb, set_sock, set_socks, tcp_free, set_pcbs.
  cbn [pcbs socks net_ready tick tcp_log]. rewrite !insert_insert_eq.
  eexists 0, _. split; [reflexivity|]. split.
  - eapply (inv_general st i s s' _ (fun q => q = pcb s \/ q = lp)); try done.
    + intros q. destruct (decide (q = pcb s)); [by left; left|].
      destruct (decide (q = lp)); [by left; right|]. right. tauto.
    + intros q Hq. rewrite lookup_insert_ne, lookup_delete_ne by (intros <-; apply Hq; tauto). done.
    + rewrite lookup_insert_ne, lookup_delete_ne by done. apply H.
    + intros q [-> | ->]; [by left|]. right. intros c Hc. congruence.
    + intros _ _ Hc. exfalso. apply Hc. by left.
    + intros q c p d [-> | ->] Hc; congruence.
    + intros _. split; [by apply ring_set_state, ring_set_pcb|]. split; [done|].
      split; [|done]. intros _. exists lb'. rewrite lookup_insert_eq. split; [done|].
      split; try done. intros _. by apply G; left.
    + intros _. right. by split.
    + intros q c [-> | ->] Hc.
      * by rewrite lookup_insert_ne, lookup_delete_eq in Hc by done.
      * rewrite lookup_insert_eq in Hc. injection Hc as <-. split; try done.
        intros j [= <-] _. exists s'. cbn [socks].
        by rewrite list_lookup_insert_eq by by eapply lookup_lt_Some.
  - left. split; [done|]. exists s'. cbn [socks].
    by rewrite list_lookup_insert_eq by by eapply lookup_lt_Some.
Qed.

(** ** socket *)
Lemma ensure_ready_safe n st :
  net_inv st -> deadline E st n ->
  exists st', net_ensure_ready E (S n) st = Ret st' /\ net_inv st' /\ lives st st'.
Proof.
  intros H Hd. unfold net_ensure_ready. destruct (net_ready st).
  { exists st. split_and!; [done..|apply lives_refl]. }
  destruct (blocking_spec (fun _ => True) (ready_try E) (fun (_ : unit) _ => True)) with (n := n) (st := st)
    as (o & st' & E1 & H1 & L1 & _); try done.
  - intros st0 H0 _. unfold ready_try. cbn [ask]. eexists _, _. split; [reflexivity|].
    split; [by apply (inv_tick st0)|]. split; [by apply keeps_same|done].
  - rewrite E1. cbn [res_bind]. eexists. split; [reflexivity|]. split; [by apply (inv_tick st')|].
    eapply lives_trans; [exact L1|by apply lives_same].
Qed.

(** Wiping a free slot. *)
Lemma inv_wipe st i s s' r t l :
  net_inv st -> socks st !! i = Some s -> state s = SK_FREE -> state s' = SK_FREE ->
  net_inv (mkNet (<[i := s']> (socks st)) r (pcbs st) t l).
Proof.
  intros H Hs Hf Hf'. eapply (inv_general st i s s' (pcbs st) (fun _ => False)); try done.
  - intros q. right. intros [].
  - apply H.
Qed.

Lemma socket_safe n domain type protocol st :
  net_inv st -> deadline E st n ->
  exists r st', net_shim_socket E (S n) domain type protocol st = Ret (r, st') /\ net_inv st' /\
    lives st st' /\
    (r = - EAFNOSUPPORT \/ r = - EMFILE \/ r = - ENOMEM \/
     exists s, net_shim_is_fd st' r = true /\ socks st' !! fd_slot r = Some s /\
       state s = SK_CLOSED /\ pcb s <> NULL /\ qlist s = [] /\ rx_data s = []).
Proof.
  intros H Hd. destruct (ensure_ready_safe n st H Hd) as (st1 & E1 & H1 & L1).
  unfold net_shim_socket. rewrite E1. cbn [res_bind].
  destruct (negb (domain =? AF_INET) || _); [eexists _, st1; split_and!; try done; tauto|].
  destruct (alloc_slot_spec st1) as [-> |(i & s & -> & Hs & Hf)];
    [eexists _, st1; split_and!; try done; tauto|].
  destruct (Z.ltb_spec (Z.of_nat i) 0); [lia|]. rewrite Nat2Z.id. unfold tcp_new.
  assert (i < length (socks st1))%nat as Hil by by eapply lookup_lt_Some.
  destruct (pcb_alloc_spec E (set_sock i zero_sock st1)) as (p & -> & Hp).
  assert (forall s' r m t l, lives st1 (mkNet (<[i := s']> (socks st1)) r m t l)) as Hlv.
  { intros s' r m t l j u Hu Hul. exists u. cbn [socks]. rewrite list_lookup_insert_ne; [done|].
    intros <-. congruence. }
  destruct (Z.eqb_spec p NULL) as [->|Hn].
  - cbn [Z.eqb NULL]. unfold set_sock, set_socks. cbn [ask snd socks net_ready pcbs tick tcp_log].
    rewrite list_insert_insert_eq. eexists _, _. split; [reflexivity|].
    split; [by eapply (inv_wipe st1 i s)|]. split; [by eapply lives_trans|tauto].
  - destruct Hp as [|Hp]; [done|]. destruct (Z.eqb_spec p NULL); [done|].
    unfold tcp_arg, get_pcb. destruct (Z.eqb_spec p NULL); [done|].
    unfold put_pcb, set_pcbs, set_sock, set_socks. cbn [ask snd socks net_ready pcbs tick tcp_log].
    rewrite lookup_insert_eq. cbn [res_of_option res_bind].
    rewrite list_insert_insert_eq, insert_insert_eq.
    set (s' := set_state SK_CLOSED (set_pcb p zero_sock)).
    eexists _, _. split; [reflexivity|]. split; [|split; [by eapply lives_trans|]].
    + eapply (inv_open st1 _ _ _ H1 i s s' p); try done.
      * intros c Hc. cbn in Hp. congruence.
      * intros c Hc. cbn in Hp. congruence.
    + right. right. right. exists s'. unfold net_shim_is_fd, fd_slot. cbn [socks].
      replace (SOCK_FD_BASE + Z.of_nat i - SOCK_FD_BASE) with (Z.of_nat i) by lia.
      rewrite Nat2Z.id, list_lookup_insert_eq by done. rewrite (ni_len _ H1) in Hil.
      split_and!; try done. rewrite Z.geb_leb.
      destruct (Z.leb_spec 0 (Z.of_nat i)), (Z.ltb_spec (Z.of_nat i) (Z.of_nat SOCK_MAX)); try done; lia.
Qed.

(** ** close *)

(** What tcp_close leaves of a connection pcb whose callbacks are cleared:
    nothing, or a pcb that will not call back. *)
Definition closes (p : Z) st st' : Prop :=
  socks st' = socks st /\ clocked (tick st') = clocked (tick st) /\
  (pcbs st' = delete p (pcbs st) \/
   exists b', pcbs st' = <[p := b']> (pcbs st) /\ callback_arg b' = None /\
     cb_recv b' = false /\ cb_err b' = false /\ tstate b' <> LISTEN /\ tstate b' <> SYN_SENT /\
     tstate b' <> SYN_RCVD).

Lemma tcp_close_spec p b st :
  p <> NULL -> pcbs st !! p = Some b -> tstate b <> LISTEN -> tstate b <> SYN_RCVD ->
  callback_arg b = None -> cb_recv b = false -> cb_err b = false ->
  exists st', (let* (err, st) := tcp_close E p st in
     if negb (err =? ERR_OK) then tcp_abandon p st else Ret st) = Ret st' /\ closes p st st'.
Proof.
  intros Hn Hb T1 T2 B1 B2 B3. unfold tcp_close, get_pcb. destruct (Z.eqb_spec p NULL); [done|].
  rewrite Hb. cbn [res_of_option res_bind]. rewrite bool_decide_false by done.
  unfold tcp_close_shutdown, get_pcb, put_pcb, set_pcbs. cbn [pcbs]. rewrite lookup_insert_eq.
  cbn [res_of_option res_bind ask socks net_ready pcbs tick tcp_log tstate set_rxclosed].
  destruct ((bool_decide (tstate b = ESTABLISHED) || bool_decide (tstate b = CLOSE_WAIT)) && _) eqn:Eu.
  { cbn [res_bind Z.eqb ERR_OK negb]. eexists. split; [reflexivity|].
    split_and!; try done. left. cbn. by rewrite delete_insert_eq. }
  unfold tcp_close_shutdown_fin, get_pcb. cbn [pcbs]. rewrite lookup_insert_eq.
  cbn [res_of_option res_bind ask socks net_ready pcbs tick tcp_log tstate set_rxclosed].
  assert (Hkeep : forall nx k, nx <> LISTEN -> nx <> SYN_SENT -> nx <> SYN_RCVD ->
    closes p st (mkNet (socks st) (net_ready st)
      (<[p := set_tstate nx (set_rxclosed b)]> (pcbs st)) (mkTicks k (clocked (tick st))) (tcp_log st))).
  { intros nx k N1 N2 N3. split_and!; try done. right. eexists. split; [done|]. by split_and!. }
  assert (Hstay : forall k, tstate b <> SYN_SENT ->
    closes p st (mkNet (socks st) (net_ready st) (<[p := set_rxclosed b]> (pcbs st))
      (mkTicks k (clocked (tick st))) (tcp_log st))).
  { intros k N1. split_and!; try done. right. eexists. split; [done|]. by split_and!. }
  assert (Hdel : forall k m, closes p st (mkNet (socks st) (net_ready st)
      (delete p (<[p := m]> (pcbs st))) (mkTicks k (clocked (tick st))) (tcp_log st))).
  { intros k m. split_and!; try done. left. cbn. by rewrite delete_insert_eq. }
  assert (Hab : forall t, tstate b <> TIME_WAIT -> tcp_abandon p (mkNet (socks st) (net_ready st)
      (<[p := set_rxclosed b]> (pcbs st)) t (tcp_log st)) =
    Ret (mkNet (socks st) (net_ready st) (delete p (<[p := set_rxclosed b]> (pcbs st))) t (tcp_log st))).
  { intros t N1. unfold tcp_abandon, get_pcb. destruct (Z.eqb_spec p NULL); [done|]. cbn [pcbs].
    rewrite lookup_insert_eq. cbn [res_of_option res_bind tstate set_rxclosed cb_err].
    by rewrite !bool_decide_false, B3 by done. }
  cbn [asked clocked]. set (err := e_err E (S (asked (tick st)))).
  destruct (tstate b) eqn:Eb; try done;
    try (destruct (Z.eqb_spec err ERR_OK) as [|Hne]; [|destruct (Z.eqb_spec err ERR_MEM)]);
    cbn [res_bind Z.eqb ERR_OK negb];
    try (rewrite (proj2 (Z.eqb_neq _ _) Hne); cbn [negb]; rewrite Hab by congruence);
    unfold put_pcb, set_pcbs; cbn [pcbs]; rewrite ?insert_insert_eq;
    eexists; (split; [reflexivity|]);
    first [by apply Hdel | by apply Hkeep | by apply Hstay].
Qed.

(** The slot [i] waits in nobody's accept queue. *)
Definition unqueued (i : nat) st : Prop :=
  forall j u, socks st !! j = Some u -> state u <> SK_FREE -> Z.of_nat i ∉ qlist u.

(** What close leaves: the slot is free, the other sockets are untouched. *)
Definition closed_post (i : nat) st st' : Prop :=
  net_inv st' /\ clocked (tick st') = clocked (tick st) /\
  (exists s, socks st' !! i = Some s /\ state s = SK_FREE) /\
  forall j, j <> i -> socks st' !! j = socks st !! j.

(** The common end of close: the queued data is dropped and the slot freed. *)
Lemma close_finish i s st st1 :
  net_inv st -> socks st !! i = Some s -> state s <> SK_FREE -> unqueued i st ->
  socks st1 = socks st -> clocked (tick st1) = clocked (tick st) ->
  (forall q, q <> pcb s -> pcbs st1 !! q = pcbs st !! q) -> pcbs st1 !! NULL = None ->
  (forall b, pcbs st1 !! pcb s = Some b -> callback_arg b = None /\ cb_recv b = false /\
     cb_err b = false /\ tstate b <> LISTEN /\ tstate b <> SYN_SENT /\ tstate b <> SYN_RCVD) ->
  (forall p c, pcbs st1 !! p = Some c -> tstate c = SYN_RCVD -> listener c <> NULL ->
     listener c <> pcb s) ->
  exists st', (let* s := sock_at i st1 in
      Ret (0, set_sock i (set_state SK_FREE (set_rx [] (rx_off s) s)) st1)) = Ret (0, st') /\
    closed_post i st st'.
Proof.
  intros H Hs Hl Hq Es Et H1 H2 H3 H4. unfold sock_at. rewrite Es, Hs. cbn [res_of_option res_bind].
  eexists. split; [reflexivity|]. unfold set_sock, set_socks. rewrite Es. split; [|split; [done|]].
  - eapply (inv_close st _ _ _ H i s); try done. intros j u Hu Hul _. by apply (Hq j).
  - split.
    + eexists. cbn [socks]. by rewrite list_lookup_insert_eq by by eapply lookup_lt_Some.
    + intros j Hj. cbn [socks]. by rewrite list_lookup_insert_ne.
Qed.

Lemma closes_lookup p st st' q : closes p st st' -> q <> p -> pcbs st' !! q = pcbs st !! q.
Proof.
  intros (_ & _ & [-> |(b & -> & _)]) Hq;
    [by rewrite lookup_delete_ne by congruence|by rewrite lookup_insert_ne by congruence].
Qed.

(** Nothing in SYN_RCVD refers to a pcb that is not listening. *)
Lemma no_listener st p b q c :
  net_inv st -> pcbs st !! p = Some b -> tstate b <> LISTEN -> pcbs st !! q = Some c ->
  tstate c = SYN_RCVD -> listener c <> NULL -> listener c <> p.
Proof.
  intros H Hb Hn Hc Hsy Hln E1. destruct (po_syn _ _ _ (ni_pcb _ H q c Hc) Hsy) as (_ & _ & Q).
  destruct (Q Hln) as (lb & Hlb & Hll & _). congruence.
Qed.

Lemma close_conn i s st :
  net_inv st -> socks st !! i = Some s -> state s <> SK_FREE -> state s <> SK_LISTENING ->
  pcb s <> NULL ->
  exists st1, (let* st := tcp_arg (pcb s) None st in
    let* st := (let* st := tcp_recv (pcb s) false st in tcp_err (pcb s) false st) in
    let* (err, st) := tcp_close E (pcb s) st in
    if negb (err =? ERR_OK) then tcp_abandon (pcb s) st else Ret st) = Ret st1 /\
    exists b0, closes (pcb s) (put_pcb (pcb s) b0 st) st1.
Proof.
  intros H Hs Hl Hli Hn. destruct (so_pcb _ _ _ (ni_sock _ H i s Hs Hl) Hn) as (b & Hb & Hh).
  assert (tstate b <> LISTEN) as Hnl by (rewrite <- (he_listen _ _ _ Hh); done).
  unfold tcp_arg, tcp_recv, tcp_err. destruct (Z.eqb_spec (pcb s) NULL); [done|].
  unfold get_pcb. rewrite Hb.
  cbn [res_of_option res_bind pcbs put_pcb set_pcbs]. rewrite lookup_insert_eq.
  cbn [res_of_option res_bind tstate set_arg]. rewrite bool_decide_false by done.
  cbn [res_bind pcbs put_pcb set_pcbs]. rewrite lookup_insert_eq.
  cbn [res_of_option res_bind tstate set_cbs]. rewrite bool_decide_false by done.
  cbn [res_bind]. unfold put_pcb, set_pcbs. cbn [socks net_ready pcbs tick tcp_log].
  rewrite !insert_insert_eq.
  match goal with |- context [<[pcb s := ?x]> (pcbs st)] => set (b3 := x) end.
  destruct (tcp_close_spec (pcb s) b3 (put_pcb (pcb s) b3 st)) as (st1 & E1 & C1); try done.
  - cbn. by rewrite lookup_insert_eq.
  - apply Hh.
  - exists st1. split; [exact E1|]. by exists b3.
Qed.
Lemma close_listener i s st :
  net_inv st -> socks st !! i = Some s -> state s = SK_LISTENING -> pcb s <> NULL ->
  exists k, (let* st := tcp_arg (pcb s) None st in
    let* st := tcp_accept (pcb s) AcceptNone st in
    let* (err, st) := tcp_close E (pcb s) st in
    if negb (err =? ERR_OK) then tcp_abandon (pcb s) st else Ret st) =
    Ret (mkNet (socks st) (net_ready st) (delete (pcb s) (forget_listener (pcb s) (pcbs st)))
           (mkTicks k (clocked (tick st))) (tcp_log st)).
Proof.
  intros H Hs Hl Hn.
  destruct (so_pcb _ _ _ (ni_sock _ H i s Hs ltac:(by rewrite Hl)) Hn) as (b & Hb & Hh).
  assert (tstate b = LISTEN) as Hbl by by apply (he_listen _ _ _ Hh).
  unfold tcp_arg, tcp_accept, tcp_close, tcp_close_shutdown.
  destruct (Z.eqb_spec (pcb s) NULL); [done|].
  unfold get_pcb. rewrite Hb.
  cbn [res_of_option res_bind pcbs put_pcb set_pcbs]. rewrite lookup_insert_eq.
  cbn [res_of_option res_bind tstate set_arg]. rewrite bool_decide_true by done.
  cbn [res_bind pcbs put_pcb set_pcbs]. rewrite lookup_insert_eq.
  cbn [res_of_option res_bind tstate set_accept set_arg]. rewrite bool_decide_true by done.
  cbn [res_bind pcbs put_pcb set_pcbs]. rewrite lookup_insert_eq.
  cbn [res_of_option res_bind tstate set_accept set_arg ask]. rewrite Hbl.
  rewrite !bool_decide_false by done.
  cbn [orb andb res_bind Z.eqb ERR_OK negb]. eexists. unfold tcp_free, put_pcb, set_pcbs.
  cbn [socks net_ready pcbs tick tcp_log asked clocked]. unfold forget_listener.
  by rewrite !fmap_insert, !delete_insert_eq.
Qed.

Lemma close_safe_fd fd st :
  net_inv st -> net_shim_is_fd st fd = true -> unqueued (fd_slot fd) st ->
  exists st', net_shim_close E fd st = Ret (0, st') /\ closed_post (fd_slot fd) st st'.
Proof.
  intros H Hfd Hq. destruct (is_fd_spec st fd Hfd) as (s & Ef & Hs & Hl & _).
  unfold net_shim_close. rewrite Ef. cbn [res_bind]. set (i := fd_slot fd) in *.
  destruct (Z.eqb_spec (pcb s) NULL) as [En|Hn].
  { cbn [res_bind]. eapply (close_finish i s st st); try done.
    - apply H.
    - intros b. by rewrite En, (ni_null _ H).
    - intros p c _ _ Hln. by rewrite En. }
  destruct (decide (state s = SK_LISTENING)) as [El|El].
  - rewrite bool_decide_true by done. destruct (close_listener i s st H Hs El Hn) as (k & ->).
    cbn [res_bind]. set (st1 := mkNet (socks st) (net_ready st) (forget_listener (pcb s) (pcbs st))
      (tick st) (tcp_log st)).
    eapply (close_finish i s st1); try done.
    + by apply inv_forget.
    + intros q Hne. cbn [pcbs st1]. by rewrite lookup_delete_ne by congruence.
    + cbn [pcbs]. rewrite lookup_delete_ne by done. unfold forget_listener.
      by rewrite lookup_fmap, (ni_null _ H).
    + intros b. cbn [pcbs]. by rewrite lookup_delete_eq.
    + intros p c Hc _ Hln E1. cbn [pcbs] in Hc. apply lookup_delete_Some in Hc as [_ Hc].
      unfold forget_listener in Hc. rewrite lookup_fmap in Hc.
      destruct (pcbs st !! p) as [b0|]; [|done]. injection Hc as <-.
      destruct (Z.eqb_spec (listener b0) (pcb s)); done.
  - rewrite bool_decide_false by done.
    destruct (close_conn i s st H Hs Hl El Hn) as (st1 & -> & b0 & C1). cbn [res_bind].
    destruct (so_pcb _ _ _ (ni_sock _ H i s Hs Hl) Hn) as (b & Hb & Hh).
    assert (tstate b <> LISTEN) as Hnl by (rewrite <- (he_listen _ _ _ Hh); done).
    assert (forall q, q <> pcb s -> pcbs st1 !! q = pcbs st !! q) as Hsame.
    { intros q Hne. rewrite (closes_lookup _ _ _ _ C1) by done. cbn.
      by rewrite lookup_insert_ne by congruence. }
    pose proof C1 as (C2 & C3 & C4).
    eapply (close_finish i s st st1); try done.
    + rewrite Hsame by congruence. apply H.
    + intros c Hc. destruct C4 as [E4|(b' & E4 & C5)]; rewrite E4 in Hc.
      * by rewrite lookup_delete_eq in Hc.
      * rewrite lookup_insert_eq in Hc. injection Hc as <-. done.
    + intros p c Hc Hsy Hln. destruct (decide (p = pcb s)) as [->|Hne].
      * destruct C4 as [E4|(b' & E4 & C5)]; rewrite E4 in Hc.
        { by rewrite lookup_delete_eq in Hc. }
        rewrite lookup_insert_eq in Hc. injection Hc as <-. by destruct C5 as (_ & _ & _ & _ & _ & ?).
      * rewrite Hsame in Hc by done. by eapply (no_listener st (pcb s) b p c).
Qed.
End Api.
