(* ===== verification/NetTheorems.v ===== *)
(** * The socket layer: theorems

    Safety of every reachable state of the socket table under any sequence of
    socket calls and network events, the contracts of the calls, and the runs
    that leave the defined behaviour. *)
From S2P Require Import Prelude NetGlue NetShim NetInv NetSafe NetApi.

(** ** Sequences of socket calls *)
Inductive net_op :=
  | OpSocket (domain type protocol : Z)
  | OpBind (m : reader) (fd addr addrlen : Z)
  | OpListen (fd backlog : Z)
  | OpAccept (fd : Z) (addr : bool) (addrlen : option Z)
  | OpConnect (m : reader) (fd addr addrlen : Z)
  | OpRecv (fd len flags : Z)
  | OpSend (fd : Z) (src : reader) (len flags : Z)
  | OpClose (fd : Z).

Definition net_exec (E : env) (fuel : nat) (op : net_op) (st : net) : res (Z * net) :=
  match op with
  | OpSocket d t p => net_shim_socket E fuel d t p st
  | OpBind m fd addr len => net_shim_bind E m fd addr len st
  | OpListen fd backlog => net_shim_listen E fd backlog st
  | OpAccept fd addr len => let* (r, _, st) := net_shim_accept E fuel fd addr len st in Ret (r, st)
  | OpConnect m fd addr len => net_shim_connect E fuel m fd addr len st
  | OpRecv fd len flags => let* (r, _, st) := net_shim_recv E fuel fd len flags st in Ret (r, st)
  | OpSend fd src len flags => net_shim_send E fuel fd src len flags st
  | OpClose fd => net_shim_close E fd st
  end.

(** What a call may be given: a descriptor of the table, for send and connect
    one that is not listening, for close one that accept has handed out, and
    for accept no address buffer. *)
Definition op_ok (st : net) (op : net_op) : Prop :=
  match op with
  | OpSocket _ _ _ => True
  | OpBind _ fd _ _ | OpListen fd _ => net_shim_is_fd st fd = true
  | OpAccept fd addr addrlen =>
      net_shim_is_fd st fd = true /\ (addr = false \/ addrlen = None)
  | OpConnect _ fd _ _ => net_shim_is_fd st fd = true /\ sender (fd_slot fd) st
  | OpRecv fd len _ => net_shim_is_fd st fd = true /\ 0 <= len < 18446744073709551616
  | OpSend fd _ len _ => net_shim_is_fd st fd = true /\ sender (fd_slot fd) st /\ 0 <= len
  | OpClose fd => net_shim_is_fd st fd = true /\ unqueued (fd_slot fd) st
  end.

(** Every [n + 1] readings of the clock, 30 s pass. *)
Definition clock_ok (E : env) (n : nat) : Prop :=
  forall k, NET_BLOCK_TIMEOUT_MS <= u32 (sys_now (e_now E (k + S n)) - sys_now (e_now E k)).

Inductive net_reach (E : env) (fuel : nat) : net -> Prop :=
  | NRBoot : net_reach E fuel net_boot
  | NRStep st op r st' : net_reach E fuel st -> op_ok st op ->
      net_exec E fuel op st = Ret (r, st') -> net_reach E fuel st'.

Lemma net_exec_safe E n op st :
  env_ok E -> clock_ok E n -> net_inv st -> op_ok st op ->
  exists r st', net_exec E (S n) op st = Ret (r, st') /\ net_inv st'.
Proof.
  intros HE Hc H Hop. pose proof (Hc (clocked (tick st))) as Hd. change (deadline E st n) in Hd.
  destruct op as [d t p|m fd a l|fd bl|fd a l|m fd a l|fd l f|fd src l f|fd]; cbn [net_exec op_ok] in *.
  - destruct (socket_safe E HE n d t p st H Hd) as (r & st' & E1 & H1 & _). by exists r, st'.
  - destruct (bind_safe E m fd a l st H Hop) as (r & st' & E1 & H1 & _). by exists r, st'.
  - destruct (listen_safe_fd E fd bl st H Hop) as (r & st' & E1 & H1 & _). by exists r, st'.
  - destruct Hop as [Hfd Ha].
    destruct (accept_safe_fd E HE n fd a l st H Hfd Hd Ha) as (r & st' & -> & H1 & _). by exists r, st'.
  - destruct Hop as [Hfd Hs].
    destruct (connect_safe_fd E HE n m fd a l st H Hfd Hs Hd) as (r & st' & E1 & H1 & _). by exists r, st'.
  - destruct Hop as [Hfd Hl].
    destruct (recv_safe_fd E HE n fd l f st H Hfd Hl Hd) as (r & bs & st' & -> & H1 & _). by exists r, st'.
  - destruct Hop as (Hfd & Hs & Hl).
    destruct (send_safe_fd E HE n fd src l f st H Hfd Hs Hl Hd) as (r & st' & E1 & H1 & _). by exists r, st'.
  - destruct Hop as [Hfd Hq].
    destruct (close_safe_fd E fd st H Hfd Hq) as (st' & E1 & H1 & _). by exists 0, st'.
Qed.

Lemma net_reach_inv E n st : env_ok E -> clock_ok E n -> net_reach E (S n) st -> net_inv st.
Proof.
  intros HE Hc. induction 1 as [|st op r st' _ IH Hop Hx]; [apply net_boot_inv|].
  destruct (net_exec_safe E n op st HE Hc IH Hop) as (r1 & st1 & E1 & H1). congruence.
Qed.

(** C3. After any sequence of the socket calls [op_ok] allows, and
    whatever segments, resets, timeouts and allocation failures occur in
    between, the socket table and lwIP's pcbs agree (no dangling pcb pointer,
    no callback into a freed slot, sound accept queues, no connection queued
    twice), and every further such call returns and leaves them so: it stays
    within the array bounds, never touches a freed pcb, lwIP's assertions
    hold, and if 30 s pass every [n + 1] clock readings it blocks for at most
    [n + 1] rounds.  [op_ok] allows socket always; on a descriptor of the
    table bind, listen and recv always; accept without an address buffer to
    fill; connect and send on a socket that is not listening; and close of a
    socket that does not wait in an accept queue.  Of the calls left out,
    accept with an address buffer and connect and send on a listening socket
    can be undefined (net_accept_reset_undef, net_listening_undef). *)
Theorem net_reachable_safe E n st op :
  env_ok E -> clock_ok E n -> net_reach E (S n) st -> op_ok st op ->
  net_inv st /\ exists r st', net_exec E (S n) op st = Ret (r, st') /\ net_inv st'.
Proof.
  intros HE Hc Hr Hop. pose proof (net_reach_inv E n st HE Hc Hr) as H.
  split; [done|]. by apply net_exec_safe.
Qed.

(** recv blocks for a bounded time and hands out at most [len] bytes: it
    returns a positive count with exactly that many bytes, 0 at end of file,
    -ECONNRESET after a reset or -ETIMEDOUT. *)
Theorem net_recv_contract E n fd len flags st :
  env_ok E -> net_inv st -> net_shim_is_fd st fd = true -> 0 <= len < 18446744073709551616 ->
  deadline E st n ->
  exists r bs st', net_shim_recv E (S n) fd len flags st = Ret (r, bs, st') /\ net_inv st' /\
    (r = 0 /\ bs = [] \/ r = - ECONNRESET /\ bs = [] \/ r = - ETIMEDOUT /\ bs = [] \/
     0 < r <= len /\ Z.of_nat (length bs) = r).
Proof.
  intros HE H Hfd Hl Hd. destruct (recv_safe_fd E HE n fd len flags st H Hfd Hl Hd)
    as (r & bs & st' & E1 & H1 & _ & P). by exists r, bs, st'.
Qed.

(** send on a socket that is not listening returns in bounded time with
    -ETIMEDOUT, -ECONNRESET, or a count [r] with 0 < r <= len such that the
    last thing handed to tcp_write is exactly the first [r] bytes of the
    caller's buffer (so the 16-bit length never truncates). *)
Theorem net_send_contract E n fd src len flags st :
  env_ok E -> net_inv st -> net_shim_is_fd st fd = true -> sender (fd_slot fd) st -> 0 < len ->
  deadline E st n ->
  exists r st', net_shim_send E (S n) fd src len flags st = Ret (r, st') /\ net_inv st' /\
    (r = - ETIMEDOUT \/ r = - ECONNRESET \/
     0 < r <= len /\ exists l p, tcp_log st' = l ++ [TcpWrite p (slice src 0 r)]).
Proof.
  intros HE H Hfd Hs Hl Hd. destruct (send_safe_fd E HE n fd src len flags st H Hfd Hs) as
    (r & st' & E1 & H1 & _ & P); [lia|done|]. exists r, st'. split_and!; try done.
  destruct P as [[_ ?]|[?|[?|(? & _ & ?)]]]; [lia|tauto..].
Qed.

(** accept takes connections in the order they were queued: with a queued
    connection it returns at once with the oldest one's descriptor and leaves
    the queue with the others in the same order, whatever the environment. *)
Theorem net_accept_fifo E n fd s x rest st :
  net_inv st -> net_shim_is_fd st fd = true -> socks st !! fd_slot fd = Some s ->
  qlist s = x :: rest ->
  exists s' st', net_shim_accept E (S n) fd false None st = Ret (SOCK_FD_BASE + x, None, st') /\
    socks st' = <[fd_slot fd := s']> (socks st) /\ pcbs st' = pcbs st /\ qlist s' = rest /\
    net_shim_is_fd st' (SOCK_FD_BASE + x) = true.
Proof.
  intros H Hfd Hs0 Hq. destruct (is_fd_spec st fd Hfd) as (s1 & Ef & Hs & Hl & _).
  rewrite Hs0 in Hs. injection Hs as <-. set (i := fd_slot fd) in *.
  pose proof (ni_sock _ H i s Hs0 Hl) as [S1 S2 S3 S4 S5 S6].
  assert (0 < acceptq_count s) as Hc.
  { pose proof (ro_count _ S1). assert (Z.to_nat (acceptq_count s) <> 0)%nat; [|lia].
    rewrite <- length_qlist, Hq. done. }
  destruct (q_pop_spec s S1 Hc) as [R Q]. rewrite Hq in Q. injection Q as Ex Er.
  destruct (S5 x) as [Hx0 (ns & Hns & Hnl)]; [rewrite Hq; constructor|].
  unfold net_shim_accept. rewrite Ef. cbn [res_bind]. unfold blocking. cbn [read_now block_loop].
  unfold accept_try, sock_at. cbn [socks]. rewrite Hs0. cbn [res_of_option res_bind].
  destruct (Z.eqb_spec (acceptq_count s) 0); [lia|]. cbn [negb res_bind socks].
  rewrite Hs0. cbn [res_of_option res_bind].
  rewrite (proj2 (arr_get_Ret (acceptq s) (acceptq_head s) x)).
  2:{ pose proof (ro_head _ S1) as Hh. pose proof (ro_len _ S1) as Hlen. unfold ACCEPTQ_MAX in Hh.
      split; [lia|]. rewrite Ex. unfold list_reader.
      destruct (Z.ltb_spec (acceptq_head s) 0); [lia|].
      destruct (lookup_lt_is_Some_2 (acceptq s) (Z.to_nat (acceptq_head s))) as [y ->]; [lia|done]. }
  cbn [res_bind]. fold (q_pop s). unfold set_sock, set_socks. cbn [socks].
  assert (exists u, <[i := q_pop s]> (socks st) !! Z.to_nat x = Some u /\ state u <> SK_FREE) as (u & Hu & Hul).
  { destruct (decide (Z.to_nat x = i)) as [->|Hne].
    - exists (q_pop s). by rewrite list_lookup_insert_eq by by eapply lookup_lt_Some.
    - exists ns. by rewrite list_lookup_insert_ne by congruence. }
  rewrite (proj2 (arr_get_Ret _ x u) (conj Hx0 Hu)). cbn [res_bind].
  eexists (q_pop s), _. split; [reflexivity|]. split_and!; try done.
  unfold net_shim_is_fd. replace (SOCK_FD_BASE + x - SOCK_FD_BASE) with x by lia. cbn [socks].
  rewrite Hu, bool_decide_false by done. apply lookup_lt_Some in Hns. rewrite (ni_len _ H) in Hns.
  rewrite Z.geb_leb. destruct (Z.leb_spec 0 x), (Z.ltb_spec x (Z.of_nat SOCK_MAX)); try done; lia.
Qed.

(** A connection that completes is queued behind the ones already waiting:
    either on_accept refuses it (queue of 8 full, or no free slot) and changes
    nothing, or a fresh slot becomes a connected socket holding the new pcb,
    registered for its callbacks, and the listener's queue grows by that slot
    at the end. *)
Theorem net_on_accept_queues st li l p b :
  net_inv st -> socks st !! li = Some l -> state l <> SK_FREE -> p <> NULL ->
  pcbs st !! p = Some b -> tstate b <> LISTEN ->
  (exists e, on_accept (Some li) p ERR_OK st = Ret (e, st) /\ e <> ERR_OK) \/
  (exists i st' l' ns, on_accept (Some li) p ERR_OK st = Ret (ERR_OK, st') /\
     (exists s, socks st !! i = Some s /\ state s = SK_FREE) /\ i <> li /\
     socks st' !! i = Some ns /\ state ns = SK_CONNECTED /\ pcb ns = p /\ rx_head ns = [] /\
     socks st' !! li = Some l' /\ qlist l' = qlist l ++ [Z.of_nat i] /\
     pcbs st' = <[p := registered i b]> (pcbs st)).
Proof.
  intros H Hl Hll Hp Hb Hnl. pose proof (so_ring _ _ _ (ni_sock _ H li l Hl Hll)) as R.
  destruct (on_accept_spec st li l p b R Hl Hll Hp Hb Hnl)
    as [(e & E1 & E2 & _)|(i & s & Hs & Hf & Hne & Hc & E1)]; [left; by exists e|right].
  destruct (q_push_spec (Z.of_nat i) l R Hc) as [_ Q].
  eexists i, _, (q_push (Z.of_nat i) l), _. split; [exact E1|]. split; [by exists s|].
  split; [done|]. unfold set_sock, set_socks, put_pcb, set_pcbs. cbn [socks pcbs].
  rewrite list_lookup_insert_ne, !list_lookup_insert_eq
    by (congruence || (rewrite ?length_insert; by eapply lookup_lt_Some)).
  by split_and!.
Qed.

(** close always succeeds and gives the slot back: the descriptor is no
    longer valid, no other socket changes, and the invariant holds, so no
    callback of the closed connection can reach the slot again. *)
Theorem net_close_contract E fd st :
  net_inv st -> net_shim_is_fd st fd = true -> unqueued (fd_slot fd) st ->
  exists st', net_shim_close E fd st = Ret (0, st') /\ net_inv st' /\
    net_shim_is_fd st' fd = false /\
    forall j, j <> fd_slot fd -> socks st' !! j = socks st !! j.
Proof.
  intros H Hfd Hq. destruct (close_safe_fd E fd st H Hfd Hq) as (st' & E1 & H1 & _ & (s & Hs & Hf) & Ho).
  exists st'. split_and!; try done. unfold net_shim_is_fd. unfold fd_slot in Hs.
  rewrite Hs, bool_decide_true by done. by rewrite andb_false_r.
Qed.

(** ** Concrete runs *)

(** The preconditions, decided. *)
Definition op_okb (st : net) (op : net_op) : bool :=
  let sends fd := match socks st !! fd_slot fd with
    | Some s => negb (bool_decide (state s = SK_FREE)) && negb (bool_decide (state s = SK_LISTENING))
    | None => false end in
  match op with
  | OpSocket _ _ _ => true
  | OpBind _ fd _ _ | OpListen fd _ => net_shim_is_fd st fd
  | OpAccept fd addr addrlen => net_shim_is_fd st fd && (negb addr || bool_decide (addrlen = None))
  | OpConnect _ fd _ _ => net_shim_is_fd st fd && sends fd
  | OpRecv fd len _ => net_shim_is_fd st fd && (0 <=? len) && (len <? 18446744073709551616)
  | OpSend fd _ len _ => net_shim_is_fd st fd && sends fd && (0 <=? len)
  | OpClose fd => net_shim_is_fd st fd && forallb (fun u => bool_decide (state u = SK_FREE) ||
      negb (bool_decide (Z.of_nat (fd_slot fd) ∈ qlist u))) (socks st)
  end.

Lemma op_okb_ok st op : op_okb st op = true -> op_ok st op.
Proof.
  assert (forall fd, match socks st !! fd_slot fd with
    | Some s => negb (bool_decide (state s = SK_FREE)) && negb (bool_decide (state s = SK_LISTENING))
    | None => false end = true -> sender (fd_slot fd) st) as Hs.
  { intros fd. destruct (socks st !! fd_slot fd) as [s|] eqn:Es; [|done]. intros [H1 H2]%andb_true_iff.
    exists s. split; [done|]. split; by eapply bool_decide_eq_false_1, negb_true_iff. }
  destruct op; cbn [op_okb op_ok]; rewrite ?andb_true_iff; try done.
  - intros [H1 H2]. split; [done|]. apply orb_true_iff in H2 as [H2|H2].
    + left. by apply negb_true_iff.
    + right. by apply bool_decide_eq_true in H2.
  - intros [H1 H2]. split; [done|by apply Hs].
  - intros [[H1 H2] H3]. split; [done|lia].
  - intros [[H1 H2] H3]. split; [done|]. split; [by apply Hs|lia].
  - intros [H1 H2]. split; [done|]. intros j u Hu Hl Hin. rewrite forallb_forall in H2.
    apply list_elem_of_lookup_2, list_elem_of_In in Hu. apply H2, orb_true_iff in Hu as [Hu|Hu].
    + by apply bool_decide_eq_true in Hu.
    + by apply negb_true_iff, bool_decide_eq_false in Hu.
Qed.

(** A sequence of permitted calls, with their results. *)
Fixpoint net_run (E : env) (fuel : nat) (ops : list net_op) (st : net) : res (list Z * net) :=
  match ops with
  | [] => Ret ([], st)
  | op :: ops =>
      if op_okb st op then
        let* (r, st) := net_exec E fuel op st in
        let* (rs, st) := net_run E fuel ops st in Ret (r :: rs, st)
      else Undef
  end.

Lemma net_run_reach E fuel ops st rs st' :
  net_reach E fuel st -> net_run E fuel ops st = Ret (rs, st') -> net_reach E fuel st'.
Proof.
  revert st rs. induction ops as [|op ops IH]; intros st rs Hr; cbn [net_run].
  - intros [= <- <-]. done.
  - destruct (op_okb st op) eqn:Eo; [|done]. apply op_okb_ok in Eo.
    destruct (net_exec E fuel op st) as [[r st1]| |] eqn:Ex; cbn [res_bind]; try done.
    destruct (net_run E fuel ops st1) as [[rs1 st2]| |] eqn:Er; cbn [res_bind]; try done.
    intros [= <- <-]. eapply IH; [|exact Er]. by eapply NRStep.
Qed.

(** A world where memory never runs out, 16.384 s pass between clock readings
    (the counter wrapping with sys_now's 32 bits), and the segments are given. *)
Definition demo_env (evs : nat -> list tcp_event) : env :=
  mkEnv (fun k => Z.of_nat k mod 262144 * 16384000000) (fun n => 1000 + Z.of_nat n) (fun _ => ERR_OK)
    (fun _ => false) (fun _ => 100) (fun _ => true) evs.

Lemma demo_clock evs : clock_ok (demo_env evs) 1.
Proof.
  intros k. cbn [e_now demo_env]. unfold sys_now, NET_BLOCK_TIMEOUT_MS.
  assert (forall j, u32 (u64 (j mod 262144 * 16384000000) / 1000000) = j mod 262144 * 16384) as Hms.
  { intros j. pose proof (Z.mod_pos_bound j 262144 ltac:(lia)).
    rewrite u64_small by lia. replace (j mod 262144 * 16384000000) with (j mod 262144 * 16384 * 1000000) by lia.
    rewrite Z.div_mul by lia. apply u32_small. lia. }
  rewrite !Hms. unfold u32. zdiv.
Qed.

(** A client that connects, sends two bytes and goes away. *)
Definition one_client (last : list tcp_event) : env :=
  demo_env (fun n => if (n =? 4)%nat then
    [EvSyn 1003 7 8; EvEstablished 1005] ++ last else []).
Definition client_data : env := one_client [EvRecv 1005 [[65; 66]]].
Definition client_reset : env := one_client [EvErr 1005 (-14)].
Definition no_bytes : reader := fun _ => 0.
Definition serve : list net_op :=
  [OpSocket AF_INET SOCK_STREAM 0; OpBind no_bytes 100 0 16; OpListen 100 5].
Definition run_state (E : env) (ops : list net_op) : net :=
  match net_run E 2 ops net_boot with Ret (_, st) => st | _ => net_boot end.

Lemma client_ok : env_ok client_data /\ env_ok client_reset.
Proof.
  split; intros n; cbn; (destruct (n =? 4)%nat; [|constructor]); repeat (constructor; try done).
Qed.

Lemma run_state_reach E ops rs :
  match net_run E 2 ops net_boot with Ret (r, _) => Some r | _ => None end = Some rs ->
  net_reach E 2 (run_state E ops).
Proof.
  unfold run_state. destruct (net_run E 2 ops net_boot) as [[r st]| |] eqn:Er; [|done..].
  intros _. eapply net_run_reach; [constructor|exact Er].
Qed.

Lemma serve_inv ops rs :
  match net_run client_data 2 ops net_boot with Ret (r, _) => Some r | _ => None end = Some rs ->
  net_inv (run_state client_data ops).
Proof.
  intros H. apply (net_reach_inv client_data 1); [apply client_ok|apply demo_clock|].
  by eapply run_state_reach.
Qed.

Lemma net_reachable_safe_witness : exists r st',
  net_exec client_data 2 (OpRecv 101 10 0)
    (run_state client_data (serve ++ [OpAccept 100 false None])) = Ret (r, st') /\ net_inv st'.
Proof.
  apply (net_reachable_safe client_data 1 (run_state client_data (serve ++ [OpAccept 100 false None]))
    (OpRecv 101 10 0)).
  - apply client_ok.
  - apply demo_clock.
  - apply (run_state_reach client_data _ [100; 0; 0; 101]). vm_compute. reflexivity.
  - apply op_okb_ok. vm_compute. reflexivity.
Defined.

Lemma net_recv_contract_witness : exists r bs st',
  net_shim_recv client_data 2 101 10 0
    (run_state client_data (serve ++ [OpAccept 100 false None])) = Ret (r, bs, st') /\ net_inv st' /\
  (r = 0 /\ bs = [] \/ r = - ECONNRESET /\ bs = [] \/ r = - ETIMEDOUT /\ bs = [] \/
   0 < r <= 10 /\ Z.of_nat (length bs) = r).
Proof.
  apply (net_recv_contract client_data 1).
  - apply client_ok.
  - apply (serve_inv _ [100; 0; 0; 101]). vm_compute. reflexivity.
  - vm_compute. reflexivity.
  - lia.
  - apply demo_clock.
Defined.

Lemma net_send_contract_witness : exists r st',
  net_shim_send client_data 2 101 no_bytes 300 0
    (run_state client_data (serve ++ [OpAccept 100 false None])) = Ret (r, st') /\ net_inv st' /\
  (r = - ETIMEDOUT \/ r = - ECONNRESET \/
   0 < r <= 300 /\ exists l p, tcp_log st' = l ++ [TcpWrite p (slice no_bytes 0 r)]).
Proof.
  apply (net_send_contract client_data 1).
  - apply client_ok.
  - apply (serve_inv _ [100; 0; 0; 101]). vm_compute. reflexivity.
  - vm_compute. reflexivity.
  - eexists. split; [vm_compute; reflexivity|]. split; vm_compute; discriminate.
  - lia.
  - apply demo_clock.
Defined.

(** The table once the client is queued: the listener after a poll. *)
Definition queued_client : net :=
  match net_poll client_data (run_state client_data serve) with Ret st => st | _ => net_boot end.

Lemma queued_client_inv : net_inv queued_client.
Proof.
  destruct (net_poll_safe client_data (run_state client_data serve)) as (st & E1 & H1 & _).
  - apply client_ok.
  - apply (serve_inv _ [100; 0; 0]). vm_compute. reflexivity.
  - unfold queued_client. rewrite E1. exact H1.
Qed.

Lemma net_accept_fifo_witness : exists s' st',
  net_shim_accept client_data 1 100 false None queued_client = Ret (101, None, st') /\
  socks st' = <[0%nat := s']> (socks queued_client) /\ pcbs st' = pcbs queued_client /\
  qlist s' = [] /\ net_shim_is_fd st' 101 = true.
Proof.
  refine (net_accept_fifo client_data 0 100 _ 1 [] queued_client queued_client_inv _ _ _).
  - vm_compute. reflexivity.
  - vm_compute. reflexivity.
  - vm_compute. reflexivity.
Defined.

Lemma net_on_accept_queues_witness :
  let st := put_pcb 2000 (set_tstate ESTABLISHED new_pcb) (run_state client_data serve) in
  exists e st', on_accept (Some 0%nat) 2000 ERR_OK st = Ret (e, st').
Proof.
  intros st. destruct (net_on_accept_queues st 0%nat
    (set_state SK_LISTENING (set_pcb 1003 zero_sock)) 2000 (set_tstate ESTABLISHED new_pcb))
    as [(e & E1 & _)|(i & st' & l' & ns & E1 & _)].
  - assert (net_inv (run_state client_data serve)) as H
      by (apply (serve_inv _ [100; 0; 0]); vm_compute; reflexivity).
    apply (inv_unheld _ _ _ _ H 2000 (Some (set_tstate ESTABLISHED new_pcb))); try done.
    intros b [= <-]. by split.
  - vm_compute. reflexivity.
  - discriminate.
  - discriminate.
  - vm_compute. reflexivity.
  - discriminate.
  - exists e, st. exact E1.
  - exists ERR_OK, st'. exact E1.
Defined.

Lemma net_close_contract_witness : exists st',
  net_shim_close client_data 101
    (run_state client_data (serve ++ [OpAccept 100 false None])) = Ret (0, st') /\ net_inv st' /\
  net_shim_is_fd st' 101 = false.
Proof.
  destruct (net_close_contract client_data 101
    (run_state client_data (serve ++ [OpAccept 100 false None]))) as (st' & E1 & H1 & H2 & _).
  - apply (serve_inv _ [100; 0; 0; 101]). vm_compute. reflexivity.
  - vm_compute. reflexivity.
  - apply (op_okb_ok _ (OpClose 101)). vm_compute. reflexivity.
  - exists st'. split; [exact E1|]. split; [exact H1|exact H2].
Defined.

(** ** Runs that leave the defined behaviour *)

(** accept with an address buffer dereferences the pcb of the connection
    it hands out; when the peer resets the connection while it is still
    queued, on_err has set that pointer to NULL, and accept reads through it. *)
Theorem net_accept_reset_undef :
  let st := run_state client_reset serve in
  net_reach client_reset 2 st /\ net_shim_is_fd st 100 = true /\
  net_shim_accept client_reset 2 100 true (Some 16) st = Undef.
Proof.
  split; [apply (run_state_reach client_reset _ [100; 0; 0]); vm_compute; reflexivity|].
  split; vm_compute; reflexivity.
Qed.

(** connect and send on a listening socket do not return an error:
    connect registers a receive callback, which lwIP's assertion forbids on a
    listening pcb, and send reads tcp_sndbuf, a field a listening pcb does not
    have. *)
Theorem net_listening_undef :
  let st := run_state client_data serve in
  net_reach client_data 2 st /\ net_shim_is_fd st 100 = true /\
  net_shim_connect client_data 2 no_bytes 100 0 16 st = Undef /\
  net_shim_send client_data 2 100 no_bytes 1 0 st = Undef.
Proof.
  split; [apply (run_state_reach client_data _ [100; 0; 0]); vm_compute; reflexivity|].
  split; [vm_compute; reflexivity|]. split; vm_compute; reflexivity.
Qed.

(** The socket calls do not check their descriptor: one that is not in
    100..115 (a file's, say) indexes outside the socket table. *)
Theorem net_bad_fd_undef E fuel fd st :
  net_inv st -> fd < 100 \/ 116 <= fd ->
  net_shim_listen E fd 1 st = Undef /\ net_shim_accept E fuel fd false None st = Undef /\
  net_shim_recv E fuel fd 1 0 st = Undef /\ net_shim_send E fuel fd no_bytes 1 0 st = Undef.
Proof.
  intros H Hfd. assert (fd_sock fd st = Undef) as Ef.
  { unfold fd_sock. replace (arr_get (socks st) (fd - SOCK_FD_BASE)) with (Undef (A := bsock)); [done|].
    unfold arr_get. pose proof (ni_len _ H) as Hl. unfold SOCK_FD_BASE, SOCK_MAX in *.
    destruct (Z.ltb_spec (fd - 100) 0); [done|]. by rewrite lookup_ge_None_2 by lia. }
  unfold net_shim_listen, net_shim_accept, net_shim_recv, net_shim_send. by rewrite Ef.
Qed.

Lemma net_bad_fd_undef_witness :
  net_shim_listen client_data 3 1 net_boot = Undef /\
  net_shim_accept client_data 1 3 false None net_boot = Undef /\
  net_shim_recv client_data 1 3 1 0 net_boot = Undef /\
  net_shim_send client_data 1 3 no_bytes 1 0 net_boot = Undef.
Proof. apply (net_bad_fd_undef client_data 1 3 net_boot net_boot_inv). lia. Defined.
