(* ===== verification/NetRx.v ===== *)
(** * net_shim.c: the receive queue on pbufs

    [on_recv], [bsock_read] and the loop of close that drops unread data, on
    the pbuf heap, and the theorem that they implement the queue of payloads
    that [NetShim] uses for [rx_head]. *)
From S2P Require Import Prelude Pbuf PbufChain PbufOps NetShim NetInv NetApi.

(** [rx_head] and [rx_off] as net_shim.c has them. *)
Record rxq := mkRxq { rq_head : Z; rq_off : Z }.

Section Rx.
Variable custom_free : Z -> pheap -> res pheap.

(** [on_recv] with a packet. *)
Definition rx_append (q : rxq) (p err : Z) (h : pheap) : res (rxq * pheap) :=
  if negb (err =? ERR_OK) then
    let* (_, h) := pbuf_free custom_free p h in Ret (q, h)
  else if negb (rq_head q =? NULL) then
    let* h := pbuf_cat (rq_head q) p h in Ret (q, h)
  else Ret (mkRxq p (rq_off q), h).

(** Detaching the first pbuf and freeing it alone. *)
Definition rx_detach (p : Z) (h : pheap) : res (Z * pheap) :=
  let* b := pget h p in
  let rest := next b in
  let* (_, h) := pbuf_free custom_free p (pset p (set_next NULL b) h) in
  Ret (rest, h).

(** [bsock_read]: the count, the bytes copied to the buffer, the queue. *)
Definition rx_read (q : rxq) (len : Z) (h : pheap) : res (Z * list Z * rxq * pheap) :=
  let* b := pget h (rq_head q) in
  let avail := u64 (p_len b - rq_off q) in
  let n := if len <? avail then len else avail in
  let bs := mem_read (pmem h) (payload b + rq_off q) n in
  let off := u16 (rq_off q + n) in
  if off =? p_len b then
    let* (rest, h) := rx_detach (rq_head q) h in
    Ret (n, bs, mkRxq rest 0, h)
  else Ret (n, bs, mkRxq (rq_head q) off, h).

(** The [while (s->rx_head)] of net_shim_close. *)
Fixpoint rx_drop (fuel : nat) (p : Z) (h : pheap) : res pheap :=
  match fuel with
  | O => NoFuel
  | S k =>
      if p =? NULL then Ret h
      else let* (rest, h) := rx_detach p h in rx_drop k rest h
  end.

(** ** The abstraction *)

(** A pbuf the queue owns alone. *)
Definition owned (x : Z * pbuf) : Prop := plain x /\ p_ref x.2 = 1.
Definition view (m : memory) (ps : list (Z * pbuf)) : list (list Z) :=
  (fun x => mem_read m (payload x.2) (p_len x.2)) <$> ps.

(** The chain [ps] at [p] carries the payloads [c]. *)
Record packet (h : pheap) (p : Z) (ps : list (Z * pbuf)) (c : list (list Z)) : Prop := {
  pk_chain : chain_at (pbufs h) p ps;
  pk_wf : wf_chain ps;
  pk_own : Forall owned ps;
  pk_data : c = view (pmem h) ps;
}.

Lemma view_relinked m ps ps' : Forall2 relinked ps ps' -> view m ps' = view m ps.
Proof.
  induction 1 as [|x y ps ps' (nx & tl & ->) _ IH]; [done|]. unfold view in *.
  by rewrite !fmap_cons, IH.
Qed.
Lemma owned_relinked ps ps' : Forall2 relinked ps ps' -> Forall owned ps -> Forall owned ps'.
Proof.
  induction 1 as [|x y ps ps' (nx & tl & ->) _ IH]; intros H; [constructor|].
  inversion H; subst. constructor; [done|by apply IH].
Qed.

Lemma packet_nil h p ps : packet h p ps [] -> p = NULL /\ ps = [].
Proof.
  intros [Hc _ _ Hd]. destruct ps as [|x ps]; [by split|discriminate].
Qed.

Lemma packet_cons h p ps x c : packet h p ps (x :: c) -> exists b r, ps = (p, b) :: r /\
  p <> NULL /\ pbufs h !! p = Some b /\ x = mem_read (pmem h) (payload b) (p_len b) /\
  0 <= p_len b < 65536 /\ owned (p, b) /\ packet h (next b) r c.
Proof.
  intros [Hc Hw Ho Hd]. destruct ps as [|[a b] r]; [discriminate|].
  destruct Hc as (-> & Ha & Hb & Hr). pose proof (tot_bound _ Hw) as Htb.
  destruct Hw as (W1 & W2 & W3 & W4).
  pose proof (tot_nonneg _ W4). cbn in Hd. injection Hd as -> ->.
  inversion Ho; subst. exists b, r. split_and!; try done. lia.
Qed.

(** Freeing the first pbuf leaves the rest of the chain. *)
Lemma rx_detach_spec h p ps x c : packet h p ps (x :: c) ->
  exists rest h', rx_detach p h = Ret (rest, h') /\ pmem h' = pmem h /\
    packet h' rest (tail ps) c /\ pbufs h' !! p = None /\
    (forall a, a <> p -> pbufs h' !! a = pbufs h !! a).
Proof.
  intros Hp. pose proof (pk_chain _ _ _ _ Hp) as Hc0.
  apply packet_cons in Hp as (b & r & -> & Hn & Hb & -> & _ & [Hpl Hr] & [Hc Hw Ho Hd]).
  pose proof (chain_not_in_tail _ _ _ _ _ Hc0) as Hnt.
  unfold rx_detach. rewrite (pget_chain _ _ _ _ _ Hc0). cbn [res_bind].
  destruct (pbuf_free_spec custom_free p [(p, set_next NULL b)] (pset p (set_next NULL b) h))
    as (n & h' & -> & F).
  - cbn. by rewrite lookup_insert_eq.
  - done.
  - by constructor.
  - cbn [res_bind]. exists (next b), h'. split; [done|].
    destruct F as [pre rest h' Heq Hpre Hrest Hgone Hsame Hm].
    assert (rest = [] /\ pre = [(p, set_next NULL b)]) as [-> ->].
    { destruct pre as [|y pre].
      - simpl in Heq. subst rest. destruct Hrest as [H1 _]. cbn in H1, Hr. lia.
      - injection Heq as <- Heq. symmetry in Heq. by apply app_nil in Heq as [-> ->]. }
    assert (forall a, a <> p -> pbufs h' !! a = pbufs h !! a) as Hother.
    { intros a Ha. rewrite Hsame; [|cbn; intros Hin%list_elem_of_singleton; done|done].
      cbn. by rewrite lookup_insert_ne by congruence. }
    split; [done|]. split; [|split; [|done]].
    + split; try done.
      * eapply chain_at_agree; [exact Hc|]. intros a d Hin. rewrite Hother.
        { by apply (chain_at_elem _ _ _ a d Hc). }
        intros ->. apply Hnt. apply list_elem_of_fmap. by exists (p, d).
      * by rewrite Hm.
    + apply Hgone. cbn. constructor.
Qed.

(** The pbuf code of the receive path implements a byte queue, part 1:
    on_recv appends.  With the queue holding the payloads [c] and an incoming
    packet holding [d] (disjoint, 65535 bytes in total at most), on_recv
    leaves a well-formed chain holding [c ++ d] and touches no other pbuf. *)
Theorem rx_append_refines h q p ps qs c d :
  packet h (rq_head q) ps c -> packet h p qs d -> p <> NULL -> tot ps + tot qs < 65536 ->
  (forall x, x ∈ ps.*1 -> x ∉ qs.*1) ->
  exists q' h' ps', rx_append q p ERR_OK h = Ret (q', h') /\ rq_off q' = rq_off q /\
    pmem h' = pmem h /\ packet h' (rq_head q') ps' (c ++ d) /\
    (forall x, x ∉ ps.*1 -> pbufs h' !! x = pbufs h !! x).
Proof.
  intros [Hc Hw Ho ->] Hq Hp Ht Hdis. unfold rx_append. cbn [Z.eqb ERR_OK negb].
  destruct (Z.eqb_spec (rq_head q) NULL) as [E|Hn]; cbn [negb].
  - rewrite E in Hc. apply chain_null in Hc as ->. by eexists _, h, qs.
  - destruct Hq as [Hcq Hwq Hoq ->].
    destruct (pbuf_cat_spec (rq_head q) ps p qs h) as
      (ps' & h' & -> & Hm & Hc' & Hw' & _ & _ & Hs & Hrel); try done.
    cbn [res_bind]. exists q, h', (ps' ++ qs). split_and!; try done. split; try done.
    + apply Forall_app. split; [by eapply owned_relinked|done].
    + unfold view. rewrite fmap_app, Hm. f_equal. symmetry. by apply view_relinked.
Qed.

(** C9. The pbuf code of the receive path implements a byte queue, part 2:
    bsock_read takes from the front.  It returns the same count and bytes as
    the model on payload lists, leaves a well-formed chain holding the same
    remaining payloads, frees the first pbuf exactly when it is used up, and
    touches no other pbuf. *)
Theorem rx_read_refines h q ps s len :
  packet h (rq_head q) ps (rx_head s) -> rq_off q = rx_off s -> rx_ok s -> rx_head s <> [] ->
  0 < len < 18446744073709551616 ->
  exists n bs s' q' h' ps', bsock_take s len = Ret (n, bs, s') /\
    rx_read q len h = Ret (n, bs, q', h') /\
    packet h' (rq_head q') ps' (rx_head s') /\ rq_off q' = rx_off s' /\
    (forall x, x <> rq_head q -> pbufs h' !! x = pbufs h !! x) /\
    (pbufs h' !! rq_head q = None <-> n = Z.of_nat (length (hd [] (rx_head s))) - rx_off s).
Proof.
  intros Hp Ho Hx Hne Hlen. destruct Hx as [Hf Hoff].
  unfold bsock_take. destruct (rx_head s) as [|x c] eqn:Erx; [done|].
  pose proof (packet_cons _ _ _ _ _ Hp) as (b & r & -> & Hn & Hb & Ex & Hpl & Hown & Hrest).
  assert (Z.of_nat (length x) = p_len b) as Hxl by (rewrite Ex, length_mem_read; lia).
  unfold rx_read. rewrite (pget_chain _ _ _ _ _ (pk_chain _ _ _ _ Hp)). cbn [res_bind hd].
  rewrite Ho, Hxl. rewrite Hxl in Hoff. rewrite (u64_small (p_len b - rx_off s)) by lia.
  set (n := if len <? p_len b - rx_off s then len else p_len b - rx_off s).
  assert (0 < n <= p_len b - rx_off s) as Hn0
    by (unfold n; destruct (Z.ltb_spec len (p_len b - rx_off s)); lia).
  rewrite (u16_small (rx_off s + n)) by lia.
  assert (mem_read (pmem h) (payload b + rx_off s) n = slice (list_reader x) (rx_off s) n) as ->.
  { rewrite Ex. apply slice_ext. intros i Hi. unfold mem_read. rewrite list_reader_slice by lia.
    unfold mem_reader. f_equal. lia. }
  destruct (Z.eqb_spec (rx_off s + n) (p_len b)) as [Eq|Eq].
  - destruct (rx_detach_spec h (rq_head q) _ x c Hp) as (rest & h' & -> & Hm & Hp' & Hg & Hs).
    cbn [res_bind]. eexists n, _, _, _, h', r. split; [done|]. split; [done|].
    split_and!; try done. split; [lia|done].
  - eexists n, _, _, _, h, _. split; [done|]. split; [done|]. split_and!; try done.
    + rewrite Hb. split; [done|lia].
Qed.

(** Closing a socket releases its unread data: the loop of
    net_shim_close terminates, every pbuf of the queue is freed, and no other
    pbuf and no payload byte changes. *)
Theorem rx_drop_frees h p ps c fuel :
  packet h p ps c -> (length ps < fuel)%nat ->
  exists h', rx_drop fuel p h = Ret h' /\ pmem h' = pmem h /\
    (forall x, x ∈ ps.*1 -> pbufs h' !! x = None) /\
    (forall x, x ∉ ps.*1 -> pbufs h' !! x = pbufs h !! x).
Proof.
  revert p ps c h. induction fuel as [|fuel IH]; intros p ps c h Hp Hf; [lia|]. cbn [rx_drop].
  destruct c as [|x c].
  { apply packet_nil in Hp as [-> ->]. exists h. split_and!; try done.
    by intros x Hx%not_elem_of_nil. }
  destruct (rx_detach_spec h p ps x c Hp) as (rest & h1 & E1 & Hm & Hp' & Hg & Hs).
  pose proof (pk_chain _ _ _ _ Hp) as Hc.
  pose proof (packet_cons _ _ _ _ _ Hp) as (b & r & -> & Hn & _).
  pose proof (chain_not_in_tail _ _ _ _ _ Hc) as Hnt. cbn [tail] in Hp'.
  destruct (Z.eqb_spec p NULL); [done|]. rewrite E1. cbn [res_bind].
  destruct (IH rest r c h1 Hp') as (h2 & E2 & Hm2 & Hg2 & Hs2); [cbn in Hf; lia|].
  exists h2. split; [done|]. split; [congruence|]. cbn [fmap list_fmap fst]. split.
  - intros y [-> |Hy]%elem_of_cons; [by rewrite Hs2|by apply Hg2].
  - intros y [Hy1 Hy2]%not_elem_of_cons. by rewrite Hs2, Hs.
Qed.
End Rx.

(** ** The stream as the application sees it *)

(** Data arriving on, and read attempts of, the socket in slot [i]. *)
Inductive stream_ev := SIn (c : list (list Z)) | SOut (len : Z).

Definition stream_ev_ok (ev : stream_ev) : Prop :=
  match ev with
  | SIn c => Forall (fun p => p <> [] /\ Z.of_nat (length p) < 65536) c
  | SOut len => 0 < len < 18446744073709551616
  end.

Fixpoint stream_run (i : nat) (evs : list stream_ev) (st : net) : res (list Z * net) :=
  match evs with
  | [] => Ret ([], st)
  | SIn c :: evs =>
      let* (_, st) := on_recv (Some i) (Some c) ERR_OK st in stream_run i evs st
  | SOut len :: evs =>
      let* (o, st) := recv_try i len st in
      let* (out, st) := stream_run i evs st in
      Ret (match o with Some (_, bs) => bs ++ out | None => out end, st)
  end.

Definition stream_in (evs : list stream_ev) : list Z :=
  concat ((fun ev => match ev with SIn c => concat c | SOut _ => [] end) <$> evs).

Lemma rx_ok_append s c :
  rx_ok s -> Forall (fun p => p <> [] /\ Z.of_nat (length p) < 65536) c ->
  rx_ok (set_rx (rx_head s ++ c) (rx_off s) s) /\
  rx_data (set_rx (rx_head s ++ c) (rx_off s) s) = rx_data s ++ concat c.
Proof.
  intros [H1 H2] Hc. split.
  - split; cbn; [by apply Forall_app|]. destruct (rx_head s) as [|p r]; [|done].
    rewrite H2. cbn. inversion Hc as [|p r [Hp _] _]; [done|]. destruct p; [done|]. cbn. lia.
  - unfold rx_data. cbn. rewrite concat_app. apply drop_app_le.
    destruct (rx_head s) as [|p r]; [cbn; lia|]. cbn. rewrite length_app. lia.
Qed.

(** The bytes of [p] that lwIP was told of through tcp_recved. *)
Definition acked (p : Z) (l : list tcp_call) : Z :=
  foldr (fun c n => match c with TcpRecved q k => if q =? p then k + n else n | _ => n end) 0 l.

Lemma acked_app p l r : acked p (l ++ r) = acked p l + acked p r.
Proof. unfold acked. induction l as [|[q bs|q k] l IH]; cbn; [done|done|]. destruct (q =? p); lia. Qed.

(** C8. A TCP connection is a byte stream: whatever the interleaving of
    arriving data and reads of any size, the bytes handed to the application
    followed by those still buffered are exactly the bytes buffered at first
    followed by those that arrived, in order: none is lost, repeated or
    reordered, and no step fails.  lwIP is told of exactly the bytes handed
    out, so the receive window reopens by as much as was taken. *)
Theorem net_stream_fifo i evs st s :
  socks st !! i = Some s -> rx_ok s -> can_ack st s -> Forall stream_ev_ok evs ->
  exists out st' s', stream_run i evs st = Ret (out, st') /\ socks st' !! i = Some s' /\
    rx_ok s' /\ out ++ rx_data s' = rx_data s ++ stream_in evs /\
    acked (pcb s) (tcp_log st') = acked (pcb s) (tcp_log st) + (if pcb s =? NULL then 0 else Z.of_nat (length out)).
Proof.
  revert st s. induction evs as [|ev evs IH]; intros st s Hs Hx Hc Hok.
  { exists [], st, s. split_and!; try done; [unfold stream_in; by rewrite app_nil_r|].
    destruct (pcb s =? NULL); cbn; lia. }
  inversion Hok as [|? ? Hev Hevs]; subst. pose proof (lookup_lt_Some _ _ _ Hs) as Hi.
  destruct ev as [c|len]; cbn [stream_run].
  - unfold on_recv, arg_slot, sock_at. cbn [res_of_option res_bind]. rewrite Hs.
    cbn [res_of_option res_bind Z.eqb ERR_OK negb].
    destruct (rx_ok_append s c Hx Hev) as [R D].
    destruct (IH (set_sock i (set_rx (rx_head s ++ c) (rx_off s) s) st) _
      ltac:(cbn; by apply list_lookup_insert_eq) R Hc Hevs) as (out & st' & s' & E & Hs' & R' & D' & K').
    exists out, st', s'. split_and!; try done. rewrite D', D, <- app_assoc. done.
  - unfold recv_try, sock_at. rewrite Hs. cbn [res_of_option res_bind].
    destruct (rx_head s) as [|p r] eqn:Erx.
    + destruct (IH st s Hs Hx Hc Hevs) as (out & st' & s' & E & Hs' & R' & D' & K').
      destruct (eof s); [|destruct (bool_decide _)]; cbn [res_bind]; rewrite E; cbn [res_bind];
        exists out, st', s'; by split_and!.
    + destruct (bsock_take_spec s len Hx) as (n & bs & s1 & Et & Hn & Hb & D & R & Hn16 & cc & oo & Es1);
        [by rewrite Erx|done|].
      assert (pcb s1 = pcb s) as Ep by by subst s1.
      rewrite (bsock_read_run st i s len n bs s1 Hc Et Ep) by lia. cbn [res_bind].
      set (st1 := mkNet (<[i := s1]> (socks st)) _ _ _ _).
      assert (can_ack st1 s1) as Hc1 by (unfold can_ack; by rewrite Ep).
      destruct (IH st1 s1 ltac:(cbn; by apply list_lookup_insert_eq) R Hc1 Hevs)
        as (out & st' & s' & E & Hs' & R' & D' & K').
      rewrite E. cbn [res_bind]. exists (bs ++ out), st', s'. split_and!; try done.
      * rewrite <- app_assoc, D', D, <- app_assoc. done.
      * rewrite Ep in K'. rewrite K', length_app. cbn [st1 tcp_log].
        destruct (Z.eqb_spec (pcb s) NULL); [lia|]. rewrite acked_app. cbn. rewrite Z.eqb_refl. lia.
Qed.

(** A connected socket in slot 0. *)
Definition rx_sock : bsock := set_pcb 7 (set_state SK_CONNECTED zero_sock).
Definition rx_net : net :=
  mkNet (<[0%nat := rx_sock]> (replicate SOCK_MAX zero_sock)) true {[7 := set_tstate ESTABLISHED new_pcb]}
    (mkTicks 0 0) [].
Definition rx_events : list stream_ev := [SIn [[1; 2]; [3]]; SOut 1; SIn [[4]]; SOut 9; SOut 9].

Lemma net_stream_fifo_witness : exists out st' s',
  stream_run 0 rx_events rx_net = Ret (out, st') /\
  socks st' !! 0%nat = Some s' /\ rx_ok s' /\ out ++ rx_data s' = [1; 2; 3; 4] /\
  acked 7 (tcp_log st') = Z.of_nat (length out).
Proof.
  apply (net_stream_fifo 0 rx_events rx_net rx_sock).
  - reflexivity.
  - split; constructor.
  - intros _. exists (set_tstate ESTABLISHED new_pcb). split; [reflexivity|discriminate].
  - repeat constructor; try discriminate; vm_compute; reflexivity.
Defined.

(** Two pbufs of one byte, and one of two bytes. *)
Definition rx_heap : pheap :=
  mkPheap {[ 1000 := mkPbuf 1100 5000 2 1 0x80 0 1 0; 1100 := mkPbuf 0 5001 1 1 0x80 0 1 0;
             1200 := mkPbuf 0 5002 2 2 0x80 0 1 0 ]} (mem_write ∅ 5000 [1; 2; 3; 4]).
Definition rx_first : list (Z * pbuf) :=
  [(1000, mkPbuf 1100 5000 2 1 0x80 0 1 0); (1100, mkPbuf 0 5001 1 1 0x80 0 1 0)].
Definition rx_second : list (Z * pbuf) := [(1200, mkPbuf 0 5002 2 2 0x80 0 1 0)].

Lemma rx_first_packet : packet rx_heap 1000 rx_first [[1]; [2]].
Proof. split; [by repeat split|cbn; lia|by repeat constructor|done]. Qed.
Lemma rx_second_packet : packet rx_heap 1200 rx_second [[3; 4]].
Proof. split; [by repeat split|cbn; lia|by repeat constructor|done]. Qed.

Lemma rx_append_refines_witness : exists q' h' ps',
  rx_append (fun _ _ => Undef) (mkRxq 1000 0) 1200 ERR_OK rx_heap = Ret (q', h') /\
  packet h' (rq_head q') ps' [[1]; [2]; [3; 4]].
Proof.
  destruct (rx_append_refines (fun _ _ => Undef) rx_heap (mkRxq 1000 0) 1200 rx_first rx_second
    [[1]; [2]] [[3; 4]]) as (q' & h' & ps' & E & _ & _ & P & _).
  - exact rx_first_packet.
  - exact rx_second_packet.
  - discriminate.
  - vm_compute. reflexivity.
  - intros x Hx Hy%list_elem_of_singleton. subst.
    apply elem_of_cons in Hx as [Hx|Hx%list_elem_of_singleton]; discriminate.
  - exists q', h', ps'. split; [exact E|exact P].
Defined.

Lemma rx_read_refines_witness : exists n bs q' h' ps',
  rx_read (fun _ _ => Undef) (mkRxq 1000 0) 9 rx_heap = Ret (n, bs, q', h') /\
  packet h' (rq_head q') ps' [[2]].
Proof.
  destruct (rx_read_refines (fun _ _ => Undef) rx_heap (mkRxq 1000 0) rx_first
    (set_rx [[1]; [2]] 0 zero_sock) 9) as (n & bs & s' & q' & h' & ps' & E1 & E2 & P & _).
  - exact rx_first_packet.
  - reflexivity.
  - split; cbn; [by repeat constructor|lia].
  - discriminate.
  - lia.
  - exists n, bs, q', h', ps'. split; [exact E2|]. vm_compute in E1. injection E1 as _ _ <-. exact P.
Defined.

Lemma rx_drop_frees_witness : exists h',
  rx_drop (fun _ _ => Undef) 3 1000 rx_heap = Ret h' /\ pmem h' = pmem rx_heap /\
  (forall x, x ∈ rx_first.*1 -> pbufs h' !! x = None) /\
  (forall x, x ∉ rx_first.*1 -> pbufs h' !! x = pbufs rx_heap !! x).
Proof.
  apply (rx_drop_frees (fun _ _ => Undef) rx_heap 1000 rx_first [[1]; [2]] 3).
  - exact rx_first_packet.
  - cbn. lia.
Defined.
