(* ===== verification/Posix.v ===== *)
(** * src/app/posix_shim.c: the system calls

    The dispatcher [__bmos_syscall] and the handlers behind it, over the state
    of the whole port: memory, file system, heap, sockets, console and the FS
    base register.  Buffers, paths, iovec arrays and result structures are
    read from and written to memory where the caller put them. *)
From S2P Require Import Prelude CString Kernel Bmfs Heap NetGlue NetShim.

Definition EBADF : Z := 9.
Definition EFAULT : Z := 14.
Definition ENOTTY : Z := 25.
Definition ESPIPE : Z := 29.
Definition ENOSYS : Z := 38.
Definition TIOCGWINSZ : Z := 0x5413.
Definition S_IFCHR : Z := 8192.
Definition S_IFSOCK : Z := 49152.
Definition ARCH_SET_FS : Z := 0x1002.
Definition ARCH_GET_FS : Z := 0x1003.

(** struct stat and struct linux_kstat: 144 bytes. *)
Definition encode_stat (k : kstat) : list Z :=
  le_bytes 8 0 ++ le_bytes 8 (st_ino k) ++ le_bytes 8 (st_nlink k) ++ le_bytes 4 (st_mode k) ++
  replicate 12 0 ++ le_bytes 8 0 ++ le_bytes 8 (st_size k) ++ le_bytes 8 (st_blksize k) ++
  le_bytes 8 (st_blocks k) ++ replicate 72 0.

(** The state of the port. *)
Record sys (D : Type) := mkSys {
  s_mem : memory;
  s_fs : bmfs D;
  s_heap : heap;
  s_net : net;
  s_con : console;
  s_fsbase : Z;
}.
Arguments mkSys {D}.
Arguments s_mem {D}.
Arguments s_fs {D}.
Arguments s_heap {D}.
Arguments s_net {D}.
Arguments s_con {D}.
Arguments s_fsbase {D}.

(** What the dispatcher calls, with the arguments it passes on. *)
Inductive call :=
  | CRead (fd buf len : Z) | CWrite (fd buf len : Z)
  | CReadv (fd iov cnt : Z) | CWritev (fd iov cnt : Z)
  | CClose (fd : Z) | CFstat (fd stbuf : Z) | CLseek (fd offset whence : Z)
  | CIoctl (fd req arg : Z) | COpen (path flags mode : Z) | CUnlink (path : Z)
  | CStat (path kstbuf : Z) | CFstatat (dirfd path kstbuf flags : Z)
  | CBrk (addr : Z) | CMmap (addr len prot flags fd off : Z) | CMunmap (addr len : Z)
  | CArchPrctl (code addr : Z) | CSetTidAddress (addr : Z) | CExit (code : Z)
  | CClockGettime (clk ts : Z)
  | CSocket (domain type protocol : Z) | CBind (fd addr addrlen : Z) | CListen (fd backlog : Z)
  | CAccept4 (fd addr addrlenp flags : Z) | CConnect (fd addr addrlen : Z)
  | CSendto (fd buf len flags addr addrlen : Z) | CRecvfrom (fd buf len flags addr addrlenp : Z)
  | CIgnored | CNosys.

(** The [switch], with the numbers of musl's x86-64 bits/syscall.h. *)
Definition decode_call (n a1 a2 a3 a4 a5 a6 : Z) : call :=
  match n with
  | 0 => CRead a1 a2 a3
  | 1 => CWrite a1 a2 a3
  | 19 => CReadv a1 a2 a3
  | 20 => CWritev a1 a2 a3
  | 3 => CClose a1
  | 5 => CFstat a1 a2
  | 8 => CLseek a1 a2 a3
  | 16 => CIoctl a1 a2 a3
  | 2 => COpen a1 a2 a3
  | 257 => COpen a2 a3 a4
  | 87 => CUnlink a1
  | 4 | 6 => CStat a1 a2
  | 262 => CFstatat a1 a2 a3 a4
  | 12 => CBrk a1
  | 9 => CMmap a1 a2 a3 a4 a5 a6
  | 11 => CMunmap a1 a2
  | 158 => CArchPrctl a1 a2
  | 218 => CSetTidAddress a1
  | 60 | 231 => CExit a1
  | 228 => CClockGettime a1 a2
  | 41 => CSocket a1 a2 a3
  | 49 => CBind a1 a2 a3
  | 50 => CListen a1 a2
  | 43 => CAccept4 a1 a2 a3 0
  | 288 => CAccept4 a1 a2 a3 a4
  | 42 => CConnect a1 a2 a3
  | 44 => CSendto a1 a2 a3 a4 a5 a6
  | 45 => CRecvfrom a1 a2 a3 a4 a5 a6
  | 54 | 55 | 72 | 13 | 14 | 131 | 273 => CIgnored
  | _ => CNosys
  end.

Section Posix.
Context {D : Type} `{!NVS D}.
(** The world: network and clock, wall clock, linker symbols and RAM size;
    [fuel] bounds the rounds of a blocking call. *)
Variables (E : env) (fuel : nat) (wallclock : nat -> Z).
Variables (bss_stop image_base app_ram_mib : Z).
Implicit Types st : sys D.

Definition set_mem (m : memory) st : sys D :=
  mkSys m (s_fs st) (s_heap st) (s_net st) (s_con st) (s_fsbase st).
Definition set_fs (f : bmfs D) st : sys D :=
  mkSys (s_mem st) f (s_heap st) (s_net st) (s_con st) (s_fsbase st).
Definition set_heap (h : heap) st : sys D :=
  mkSys (s_mem st) (s_fs st) h (s_net st) (s_con st) (s_fsbase st).
Definition set_net (n : net) st : sys D :=
  mkSys (s_mem st) (s_fs st) (s_heap st) n (s_con st) (s_fsbase st).
Definition set_con (c : console) st : sys D :=
  mkSys (s_mem st) (s_fs st) (s_heap st) (s_net st) c (s_fsbase st).
Definition set_fsbase (b : Z) st : sys D :=
  mkSys (s_mem st) (s_fs st) (s_heap st) (s_net st) (s_con st) b.

(** A store to the caller's memory. *)
Definition put (a : Z) (bs : list Z) st : sys D := set_mem (mem_write (s_mem st) a bs) st.
Definition mem_at st : reader := mload (s_mem st).

(** ** I/O *)
Definition sys_write (fd buf len : Z) st : res (Z * sys D) :=
  if bmfs_is_fd (s_fs st) fd then
    let* (n, f) := bmfs_write (s_fs st) fd (mem_reader (s_mem st) buf) (u64 len) in
    Ret (n, set_fs f st)
  else if net_shim_is_fd (s_net st) fd then
    let* (n, t) := net_shim_send E fuel fd (mem_reader (s_mem st) buf) (u64 len) 0 (s_net st) in
    Ret (n, set_net t st)
  else if negb (fd =? 1) && negb (fd =? 2) then Ret (- EBADF, st)
  else
    let st := if len >? 0 then set_con (b_output (s_con st) (mem_read (s_mem st) buf len)) st
              else st in
    Ret (len, st).

(** [do c = b_input(); while (!c);] *)
Fixpoint input_wait (k : nat) (c : console) : res (Z * console) :=
  match k with
  | O => NoFuel
  | S k => let '(ch, c) := b_input c in if ch =? 0 then input_wait k c else Ret (ch, c)
  end.

(** The greedy drain, at most [k] further bytes. *)
Fixpoint input_drain (k : nat) (c : console) : list Z * console :=
  match k with
  | O => ([], c)
  | S k =>
      let '(ch, c) := b_input c in
      if ch =? 0 then ([], c) else let '(r, c) := input_drain k c in (ch :: r, c)
  end.

Definition sys_read (fd buf len : Z) st : res (Z * sys D) :=
  if bmfs_is_fd (s_fs st) fd then
    let* (n, bs, f) := bmfs_read (s_fs st) fd (u64 len) in
    Ret (n, put buf bs (set_fs f st))
  else if net_shim_is_fd (s_net st) fd then
    let* (n, bs, t) := net_shim_recv E fuel fd (u64 len) 0 (s_net st) in
    Ret (n, put buf bs (set_net t st))
  else if negb (fd =? 0) then Ret (- EBADF, st)
  else if len <=? 0 then Ret (0, st)
  else
    let* (ch, c) := input_wait fuel (s_con st) in
    let '(r, c) := input_drain (Z.to_nat (len - 1)) c in
    Ret (1 + Z.of_nat (length r), put buf (ch :: r) (set_con c st)).

(** The loop of readv and writev; iov[i] is read from memory when it is
    used, and the length again after the transfer. *)
Fixpoint iov_loop (xfer : Z -> Z -> Z -> sys D -> res (Z * sys D)) (k : nat)
  (fd iov total : Z) st : res (Z * sys D) :=
  match k with
  | O => Ret (total, st)
  | S k =>
      let base := i64 (mem_read_u64 (s_mem st) iov) in
      let len := i64 (mem_read_u64 (s_mem st) (iov + 8)) in
      let* (n, st) := xfer fd base len st in
      if n <? 0 then Ret (if truth total then total else n, st)
      else if negb (total + n =? i64 (total + n)) then Undef
      else if u64 n <? mem_read_u64 (s_mem st) (iov + 8) then Ret (total + n, st)
      else iov_loop xfer k fd (iov + 16) (total + n) st
  end.
Definition sys_writev (fd iov cnt : Z) st : res (Z * sys D) :=
  iov_loop sys_write (Z.to_nat cnt) fd iov 0 st.
Definition sys_readv (fd iov cnt : Z) st : res (Z * sys D) :=
  iov_loop sys_read (Z.to_nat cnt) fd iov 0 st.

Definition sys_close (fd : Z) st : res (Z * sys D) :=
  if bmfs_is_fd (s_fs st) fd then
    let* (n, f) := bmfs_close (s_fs st) fd in Ret (n, set_fs f st)
  else if net_shim_is_fd (s_net st) fd then
    let* (n, t) := net_shim_close E fd (s_net st) in Ret (n, set_net t st)
  else if (fd =? 0) || (fd =? 1) || (fd =? 2) then Ret (0, st)
  else Ret (- EBADF, st).

Definition sys_fstat (fd stbuf : Z) st : res (Z * sys D) :=
  if bmfs_is_fd (s_fs st) fd then
    let* (n, k) := bmfs_fstat_fd (s_fs st) fd in Ret (n, put stbuf (encode_stat k) st)
  else if net_shim_is_fd (s_net st) fd then
    Ret (0, put stbuf (encode_stat (mkKstat 0 0 (Z.lor S_IFSOCK 0x1B6) 0 0 0)) st)
  else if negb (fd =? 0) && negb (fd =? 1) && negb (fd =? 2) then Ret (- EBADF, st)
  else Ret (0, put stbuf (encode_stat (mkKstat 0 0 (Z.lor S_IFCHR 0x190) 0 0 0)) st).

Definition sys_lseek (fd offset whence : Z) st : res (Z * sys D) :=
  if bmfs_is_fd (s_fs st) fd then
    let* (n, f) := bmfs_lseek (s_fs st) fd offset (i32 whence) in Ret (n, set_fs f st)
  else Ret (- ESPIPE, st).

Definition sys_open (path flags mode : Z) st : res (Z * sys D) :=
  let* (n, f) := bmfs_open (s_fs st) (mem_at st) path (i32 flags) (i32 mode) in
  Ret (n, set_fs f st).

Definition sys_unlink (path : Z) st : res (Z * sys D) :=
  let* (n, f) := bmfs_unlink (s_fs st) (mem_at st) path in Ret (n, set_fs f st).

Definition sys_stat (path kstbuf : Z) st : res (Z * sys D) :=
  let* (n, k, f) := bmfs_fstatat (s_fs st) (mem_at st) path in
  let st := set_fs f st in
  Ret (n, match k with Some k => put kstbuf (encode_stat k) st | None => st end).
Definition sys_fstatat (dirfd path kstbuf flags : Z) st : res (Z * sys D) :=
  sys_stat path kstbuf st.

Definition sys_ioctl (fd req arg : Z) st : res (Z * sys D) :=
  if ((fd =? 0) || (fd =? 1) || (fd =? 2)) && (req =? TIOCGWINSZ) then Ret (0, st)
  else Ret (- ENOTTY, st).

(** ** Sockets *)
Definition lift_net (r : res (Z * net)) st : res (Z * sys D) :=
  let* (n, t) := r in Ret (n, set_net t st).

Definition sys_socket (domain type protocol : Z) st : res (Z * sys D) :=
  lift_net (net_shim_socket E fuel domain type protocol (s_net st)) st.
Definition sys_bind (fd addr addrlen : Z) st : res (Z * sys D) :=
  lift_net (net_shim_bind E (mem_at st) fd addr addrlen (s_net st)) st.
Definition sys_listen (fd backlog : Z) st : res (Z * sys D) :=
  lift_net (net_shim_listen E fd backlog (s_net st)) st.
Definition sys_accept4 (fd addr addrlenp flags : Z) st : res (Z * sys D) :=
  let alen := if addrlenp =? 0 then None
              else Some (le_val (mem_read (s_mem st) addrlenp 4)) in
  let* (n, sa, t) := net_shim_accept E fuel fd (negb (addr =? 0)) alen (s_net st) in
  let st := set_net t st in
  Ret (n, match sa with
          | Some bs => put addrlenp (le_bytes 4 SIZEOF_SOCKADDR_IN) (put addr bs st)
          | None => st
          end).
Definition sys_connect (fd addr addrlen : Z) st : res (Z * sys D) :=
  lift_net (net_shim_connect E fuel (mem_at st) fd addr addrlen (s_net st)) st.
Definition sys_sendto (fd buf len flags addr addrlen : Z) st : res (Z * sys D) :=
  lift_net (net_shim_send E fuel fd (mem_reader (s_mem st) buf) (u64 len) flags (s_net st)) st.
Definition sys_recvfrom (fd buf len flags addr addrlenp : Z) st : res (Z * sys D) :=
  let* (n, bs, t) := net_shim_recv E fuel fd (u64 len) flags (s_net st) in
  Ret (n, put buf bs (set_net t st)).

(** ** Process, time *)
Definition sys_arch_prctl (code addr : Z) st : res (Z * sys D) :=
  if code =? ARCH_SET_FS then
    let lo := u32 addr in
    let hi := u32 (Z.shiftr (u64 addr) 32) in
    Ret (0, set_fsbase (Z.lor (Z.shiftl hi 32) lo) st)
  else if code =? ARCH_GET_FS then
    let lo := u32 (s_fsbase st) in
    let hi := u32 (Z.shiftr (s_fsbase st) 32) in
    Ret (0, put addr (le_bytes 8 (Z.lor (u64 (Z.shiftl hi 32)) lo)) st)
  else Ret (- EINVAL, st).

Definition sys_set_tid_address (addr : Z) st : res (Z * sys D) := Ret (1, st).

(** [b_system(TIMECOUNTER)], the counter sys_now divides. *)
Definition read_counter st : Z * sys D :=
  let t := s_net st in
  (u64 (e_now E (clocked (tick t))),
   set_net (mkNet (socks t) (net_ready t) (pcbs t)
     (mkTicks (asked (tick t)) (S (clocked (tick t)))) (tcp_log t)) st).
Definition read_wallclock st : Z * sys D :=
  let '(n, t) := ask (s_net st) in (u64 (wallclock n), set_net t st).

Definition sys_clock_gettime (clk ts : Z) st : res (Z * sys D) :=
  if ts =? 0 then Ret (- EFAULT, st)
  else if (clk =? 0) || (clk =? 5) then
    let '(s, st) := read_wallclock st in
    Ret (0, put (ts + 8) (le_bytes 8 0) (put ts (le_bytes 8 s) st))
  else if (clk =? 1) || (clk =? 4) || (clk =? 6) then
    let '(ns, st) := read_counter st in
    Ret (0, put (ts + 8) (le_bytes 8 (ns mod 1000000000))
              (put ts (le_bytes 8 (ns / 1000000000)) st))
  else Ret (- EINVAL, st).

(** ** The dispatcher

    [None] is a call that does not return because the machine is off. *)
Definition lift_heap (r : Z * heap) st : Z * sys D := (r.1, set_heap r.2 st).
Definition returns (r : res (Z * sys D)) : res (option Z * sys D) :=
  let* (n, st) := r in Ret (Some n, st).

Definition run_call (c : call) st : res (option Z * sys D) :=
  match c with
  | CRead fd buf len => returns (sys_read fd buf len st)
  | CWrite fd buf len => returns (sys_write fd buf len st)
  | CReadv fd iov cnt => returns (sys_readv fd iov cnt st)
  | CWritev fd iov cnt => returns (sys_writev fd iov cnt st)
  | CClose fd => returns (sys_close fd st)
  | CFstat fd stbuf => returns (sys_fstat fd stbuf st)
  | CLseek fd offset whence => returns (sys_lseek fd offset whence st)
  | CIoctl fd req arg => returns (sys_ioctl fd req arg st)
  | COpen path flags mode => returns (sys_open path flags mode st)
  | CUnlink path => returns (sys_unlink path st)
  | CStat path kstbuf => returns (sys_stat path kstbuf st)
  | CFstatat dirfd path kstbuf flags => returns (sys_fstatat dirfd path kstbuf flags st)
  | CBrk addr => returns (Ret (lift_heap (sys_brk bss_stop image_base app_ram_mib addr (s_heap st)) st))
  | CMmap addr len prot flags fd off =>
      returns (Ret (lift_heap
        (sys_mmap bss_stop image_base app_ram_mib addr len prot flags fd off (s_heap st)) st))
  | CMunmap addr len => returns (Ret (lift_heap (sys_munmap addr len (s_heap st)) st))
  | CArchPrctl code addr => returns (sys_arch_prctl code addr st)
  | CSetTidAddress addr => returns (sys_set_tid_address addr st)
  | CExit code => Ret (None, st)
  | CClockGettime clk ts => returns (sys_clock_gettime clk ts st)
  | CSocket domain type protocol => returns (sys_socket domain type protocol st)
  | CBind fd addr addrlen => returns (sys_bind fd addr addrlen st)
  | CListen fd backlog => returns (sys_listen fd backlog st)
  | CAccept4 fd addr addrlenp flags => returns (sys_accept4 fd addr addrlenp flags st)
  | CConnect fd addr addrlen => returns (sys_connect fd addr addrlen st)
  | CSendto fd buf len flags addr addrlen => returns (sys_sendto fd buf len flags addr addrlen st)
  | CRecvfrom fd buf len flags addr addrlenp =>
      returns (sys_recvfrom fd buf len flags addr addrlenp st)
  | CIgnored => Ret (Some 0, st)
  | CNosys => Ret (Some (- ENOSYS), st)
  end.

Definition bmos_syscall (n a1 a2 a3 a4 a5 a6 : Z) st : res (option Z * sys D) :=
  run_call (decode_call n a1 a2 a3 a4 a5 a6) st.

(** The state when the application starts. *)
Definition sys_boot (d : D) (keys : nat -> Z) : sys D :=
  mkSys ∅ (bmfs_boot d) heap_boot net_boot (mkConsole keys 0 []) 0.
End Posix.
