(* ===== verification/PosixTheorems.v ===== *)
(** * The system calls: theorems

    The invariants of memory, file system, heap and sockets hold together
    after every system call, and each call returns; what the calls do to the
    caller's memory and to the console. *)
From S2P Require Import Prelude CString Kernel Bmfs BmfsIo BmfsDir BmfsInv BmfsOps BmfsTheorems Heap.
From S2P Require Import NetGlue NetShim NetInv NetSafe NetApi NetTheorems Posix.

Abbreviation file_op_ok := BmfsInv.op_ok.

Section PosixSafe.
Context {D : Type} `{!NVS D} `{!NVSLaws D}.
Variables (E : env) (rounds : nat) (wallclock : nat -> Z).
Variables (bss_stop image_base app_ram_mib : Z).
Context (HE : env_ok E) (Hclock : clock_ok E rounds).
(** The memory map, as in [Heap]. *)
Context (Hbss : 0 < bss_stop) (Himg : 0 <= image_base) (Hram : 0 <= app_ram_mib)
  (Hwin : bss_stop <= window_end image_base app_ram_mib <= 18446744073709547520).
Implicit Types st : sys D.

Local Abbreviation fuel := (S rounds).
Local Abbreviation hok := (heap_ok bss_stop image_base app_ram_mib).

Record sys_inv st : Prop := {
  si_mem : mem_ok (s_mem st);
  si_fs : fs_inv (s_fs st);
  si_heap : hok (s_heap st);
  si_net : net_inv (s_net st);
}.

Lemma inv_set_fs f st : sys_inv st -> fs_inv f -> sys_inv (set_fs f st).
Proof. by intros [? ? ? ?] ?; split. Qed.
Lemma inv_set_net t st : sys_inv st -> net_inv t -> sys_inv (set_net t st).
Proof. by intros [? ? ? ?] ?; split. Qed.
Lemma inv_set_con c st : sys_inv st -> sys_inv (set_con c st).
Proof. by intros [? ? ? ?]; split. Qed.
Lemma inv_put a bs st : sys_inv st -> sys_inv (put a bs st).
Proof. intros [? ? ? ?]; split; try done. by apply mem_ok_mem_write. Qed.

(** What a transfer on [fd] needs: not a listening socket to send on, and a
    keyboard that keeps answering for the console. *)
Definition send_ok (fd : Z) st : Prop :=
  bmfs_is_fd (s_fs st) fd = false -> net_shim_is_fd (s_net st) fd = true ->
  sender (NetApi.fd_slot fd) (s_net st).
Definition typing (c : console) : Prop :=
  forall p, exists k, (k < fuel)%nat /\ u8 (kbd c (p + k)%nat) <> 0.

(** An iovec array at [a]: bases and lengths. *)
Fixpoint iov_at (m : memory) (a : Z) (l : list (Z * Z)) : Prop :=
  match l with
  | [] => True
  | (b, n) :: r => i64 (mem_read_u64 m a) = b /\ mem_read_u64 m (a + 8) = n /\
      0 <= n < 9223372036854775808 /\ iov_at m (a + 16) r
  end.
Definition iov_sum (l : list (Z * Z)) : Z := foldr (fun b n => b.2 + n) 0 l.

(** What each call may be given: open descriptors, lengths and offsets that
    fit a long, iovec arrays that readv's buffers do not overlap, no unlink
    of an open file, no address buffer for accept. *)
Definition call_ok (c : call) st : Prop :=
  match c with
  | CRead fd _ len => 0 <= len < 9223372036854775808 /\ (fd = 0 -> typing (s_con st))
  | CWrite fd _ len => 0 <= len < 9223372036854775808 /\ send_ok fd st
  | CReadv fd iov cnt => (fd = 0 -> typing (s_con st)) /\
      exists iovs, iov_at (s_mem st) iov iovs /\ cnt = Z.of_nat (length iovs) /\
        iov_sum iovs < 9223372036854775808 /\ addr_ok iov (16 * cnt) /\
        Forall (fun b => addr_ok (u64 b.1) b.2 /\
          (u64 b.1 + b.2 <= iov \/ iov + 16 * cnt <= u64 b.1)) iovs
  | CWritev fd iov cnt => send_ok fd st /\
      exists iovs, iov_at (s_mem st) iov iovs /\ cnt = Z.of_nat (length iovs) /\
        iov_sum iovs < 9223372036854775808
  | CClose fd => bmfs_is_fd (s_fs st) fd = false -> net_shim_is_fd (s_net st) fd = true ->
      unqueued (NetApi.fd_slot fd) (s_net st)
  | CLseek fd offset whence => bmfs_is_fd (s_fs st) fd = true ->
      file_op_ok (BmfsInv.OpLseek fd offset (i32 whence)) (s_fs st)
  | COpen path flags mode => file_op_ok (OpOpen (mem_at st) path (i32 flags) (i32 mode)) (s_fs st)
  | CUnlink path => file_op_ok (OpUnlink (mem_at st) path) (s_fs st)
  | CBind fd _ _ | CListen fd _ => net_shim_is_fd (s_net st) fd = true
  | CAccept4 fd addr addrlenp _ =>
      net_shim_is_fd (s_net st) fd = true /\ (addr = 0 \/ addrlenp = 0)
  | CConnect fd _ _ => net_shim_is_fd (s_net st) fd = true /\ sender (NetApi.fd_slot fd) (s_net st)
  | CSendto fd _ len _ _ _ =>
      net_shim_is_fd (s_net st) fd = true /\ sender (NetApi.fd_slot fd) (s_net st)
  | CRecvfrom fd _ len _ _ _ => net_shim_is_fd (s_net st) fd = true
  | _ => True
  end.

Lemma deadline_of (t : net) : deadline E t rounds.
Proof. apply Hclock. Qed.

(** *** Files *)
Lemma file_step op f : fs_inv f -> file_op_ok op f ->
  exists r f', bmfs_exec op f = Ret (r, f') /\ fs_inv f'.
Proof. apply all_safe. Qed.

Lemma file_read f fd len : fs_inv f -> bmfs_is_fd f fd = true -> 0 <= len < 9223372036854775808 ->
  exists n bs f', bmfs_read f fd len = Ret (n, bs, f') /\ fs_inv f' /\ bmfs_is_fd f' fd = true /\
    0 <= n <= len /\ Z.of_nat (length bs) = n.
Proof.
  intros H Hfd Hl. destruct (file_step (BmfsInv.OpRead fd len) f H (conj Hfd Hl)) as (r & f' & Ex & H').
  cbn [bmfs_exec] in Ex. destruct (is_fd_slot f fd Hfd) as (g & _ & Hg & Hu).
  destruct (bmfs_read_spec f fd g len H Hfd Hg Hl) as (sc & Er & _). rewrite Er in Ex.
  injection Ex as <- <-. eexists _, _, _. split; [exact Er|]. split; [exact H'|].
  pose proof (fd_facts_of f _ g H Hg Hu) as []. unfold read_count. split; [|split].
  - unfold bmfs_is_fd in *. apply andb_true_iff in Hfd as [-> _].
    unfold set_file, set_files, set_io. cbn [files]. fold (fd_slot fd).
    change (Z.to_nat (fd - BMFS_FD_BASE)) with (BmfsInv.fd_slot fd).
    by rewrite list_lookup_insert_eq by by eapply lookup_lt_Some.
  - rewrite Z.geb_leb. destruct (Z.leb_spec (f_size g) (f_pos g)); lia.
  - rewrite length_slice. rewrite Z.geb_leb. destruct (Z.leb_spec (f_size g) (f_pos g)); lia.
Qed.

Lemma file_write f fd src len : fs_inv f -> bmfs_is_fd f fd = true ->
  0 <= len < 9223372036854775808 -> (forall i, is_byte (src i)) ->
  exists n f', bmfs_write f fd src len = Ret (n, f') /\ fs_inv f' /\ bmfs_is_fd f' fd = true /\
    n <= len.
Proof.
  intros H Hfd Hl Hs.
  destruct (file_step (BmfsInv.OpWrite fd src len) f H (conj Hfd (conj Hl Hs))) as (r & f' & Ex & H').
  cbn [bmfs_exec] in Ex. destruct (is_fd_slot f fd Hfd) as (g & _ & Hg & Hu).
  destruct (bmfs_write_spec f fd g src len H Hfd Hg Hl Hs) as (sc & d & Er & _). rewrite Er in Ex.
  injection Ex as <- <-. eexists _, _. split; [exact Er|]. split; [exact H'|]. split.
  - unfold bmfs_is_fd in *. apply andb_true_iff in Hfd as [-> _].
    unfold set_file, set_files, set_io. cbn [files].
    change (Z.to_nat (fd - BMFS_FD_BASE)) with (BmfsInv.fd_slot fd).
    rewrite list_lookup_insert_eq by by eapply lookup_lt_Some. unfold written.
    by destruct (_ >? _).
  - unfold write_count, ENOSPC. destruct (_ || _); lia.
Qed.

(** *** Transfers *)
Lemma is_fd_lives fd (t t' : net) : net_inv t -> net_inv t' -> lives t t' ->
  net_shim_is_fd t fd = true -> net_shim_is_fd t' fd = true.
Proof.
  intros H H' L Hfd. destruct (is_fd_spec t fd Hfd) as (s & _ & Hs & Hl & _).
  destruct (L _ s Hs Hl) as (s' & Hs' & Hl' & _). unfold net_shim_is_fd in *.
  apply andb_true_iff in Hfd as [-> _]. unfold NetApi.fd_slot in Hs'. rewrite Hs'.
  by rewrite bool_decide_false.
Qed.

Lemma sys_write_safe fd buf len st :
  sys_inv st -> 0 <= len < 9223372036854775808 -> send_ok fd st ->
  exists n st', sys_write E fuel fd buf len st = Ret (n, st') /\ sys_inv st' /\
    send_ok fd st' /\ s_mem st' = s_mem st /\ n <= len.
Proof.
  intros H Hl Hs. unfold sys_write. rewrite (u64_small len) by lia.
  destruct (bmfs_is_fd (s_fs st) fd) eqn:Ef.
  - destruct (file_write (s_fs st) fd (mem_reader (s_mem st) buf) len (si_fs _ H) Ef Hl)
      as (n & f' & -> & H' & Ef' & Hn); [intros i; apply H|].
    eexists n, _. split; [done|]. split; [by apply inv_set_fs|]. split; [|done].
    intros E0. cbn in E0. congruence.
  - destruct (net_shim_is_fd (s_net st) fd) eqn:En.
    + destruct (send_safe_fd E HE rounds fd (mem_reader (s_mem st) buf) len 0 (s_net st)
        (si_net _ H) En (Hs Ef En)) as (n & t' & -> & H' & L' & P); [lia|apply deadline_of|].
      eexists n, _. split; [done|]. split; [by apply inv_set_net|]. split.
      * intros _ _. eapply sender_lives; [exact L'|]. by apply Hs.
      * split; [done|]. unfold ETIMEDOUT in P. destruct P as [[-> ->]|[-> |[-> |[? _]]]];
          unfold ECONNRESET; lia.
    + destruct (negb (fd =? 1) && negb (fd =? 2)).
      { eexists _, st. split; [done|]. split; [done|]. split; [done|]. split; [done|].
        unfold EBADF. lia. }
      eexists len, _. split; [done|]. destruct (len >? 0); split_and!; try done; try lia.
      by apply inv_set_con.
Qed.

Lemma input_wait_returns k c : (exists j, (j < k)%nat /\ u8 (kbd c (kbd_pos c + j)) <> 0) ->
  exists ch c', input_wait k c = Ret (ch, c') /\ ch <> 0 /\ is_byte ch /\ kbd c' = kbd c.
Proof.
  revert c. induction k as [|k IH]; intros c (j & Hj & Hn); [lia|]. cbn [input_wait b_input].
  destruct (Z.eqb_spec (u8 (kbd c (kbd_pos c))) 0) as [E0|E0].
  - destruct j as [|j]; [rewrite Nat.add_0_r in Hn; done|].
    destruct (IH (mkConsole (kbd c) (S (kbd_pos c)) (screen c))) as (ch & c' & Ex & ? & ? & ?).
    + exists j. split; [lia|]. cbn. by rewrite <- Nat.add_succ_r.
    + exists ch, c'. by split_and!.
  - eexists _, _. split; [done|]. split_and!; try done; apply u8_is_byte.
Qed.

Lemma input_drain_spec k c :
  let '(r, c') := input_drain k c in (length r <= k)%nat /\ bytes r /\ kbd c' = kbd c.
Proof.
  revert c. induction k as [|k IH]; intros c; cbn [input_drain]; [by split_and!; try constructor|].
  cbn [b_input]. destruct (_ =? 0); [split_and!; [cbn; lia|constructor|done]|].
  specialize (IH (mkConsole (kbd c) (S (kbd_pos c)) (screen c))).
  destruct (input_drain k _) as [r c'']. destruct IH as (H1 & H2 & H3). split_and!.
  - cbn. lia.
  - constructor; [apply u8_is_byte|done].
  - done.
Qed.

(** A read stores at most [len] bytes at [buf] and nothing else. *)
Lemma sys_read_safe fd buf len st :
  sys_inv st -> 0 <= len < 9223372036854775808 -> (fd = 0 -> typing (s_con st)) ->
  exists n st' bs, sys_read E fuel fd buf len st = Ret (n, st') /\ sys_inv st' /\
    (fd = 0 -> typing (s_con st')) /\ s_mem st' = mem_write (s_mem st) buf bs /\
    n <= len /\ Z.of_nat (length bs) = Z.max 0 n.
Proof.
  intros H Hl Ht. unfold sys_read. rewrite (u64_small len) by lia.
  destruct (bmfs_is_fd (s_fs st) fd) eqn:Ef.
  - destruct (file_read (s_fs st) fd len (si_fs _ H) Ef Hl) as (n & bs & f' & -> & H' & _ & Hn & Hb).
    eexists n, _, bs. split; [done|]. split; [by apply inv_put, inv_set_fs|]. split_and!; try done; lia.
  - destruct (net_shim_is_fd (s_net st) fd) eqn:En.
    + destruct (recv_safe_fd E HE rounds fd len 0 (s_net st) (si_net _ H) En)
        as (n & bs & t' & -> & H' & _ & P); [lia|apply deadline_of|].
      eexists n, _, bs. split; [done|]. split; [by apply inv_put, inv_set_net|]. split; [done|].
      split; [done|]. destruct P as [[-> ->]|[[-> ->]|[[-> ->]|[? ?]]]]; unfold ECONNRESET, ETIMEDOUT; cbn [length]; lia.
    + destruct (Z.eqb_spec fd 0) as [->|]; cbn [negb].
      2:{ eexists _, st, []. split_and!; try done; unfold EBADF; lia. }
      destruct (Z.leb_spec len 0).
      { eexists 0, st, []. split_and!; try done. lia. }
      destruct (Ht eq_refl (kbd_pos (s_con st))) as (k & Hk & Hn).
      destruct (input_wait_returns fuel (s_con st)) as (ch & c' & -> & _ & Hb & Hk'); [by exists k|].
      cbn [res_bind]. pose proof (input_drain_spec (Z.to_nat (len - 1)) c') as Hd.
      destruct (input_drain _ c') as [r c'']. destruct Hd as (D1 & D2 & D3).
      eexists _, _, (ch :: r). split; [done|]. split; [by apply inv_put, inv_set_con|].
      split; [|split; [done|cbn [length]; lia]].
      intros _ p. cbn. rewrite D3, Hk'. by apply Ht.
Qed.

(** *** Vectored transfers *)
Lemma iov_sum_nonneg m a l : iov_at m a l -> 0 <= iov_sum l.
Proof.
  revert a. induction l as [|[b n] l IH]; intros a; [done|]. cbn. intros (_ & _ & Hn & H).
  specialize (IH _ H). unfold iov_sum in IH. lia.
Qed.

Section Iov.
Context (xfer : Z -> Z -> Z -> sys D -> res (Z * sys D)) (fd iov : Z) (iovs : list (Z * Z)).
Context (P : sys D -> Prop).
Context (Hiov : forall st, P st -> iov_at (s_mem st) iov iovs).
Context (Hx : forall base len st, P st -> (base, len) ∈ iovs -> 0 <= len < 9223372036854775808 ->
  exists n st', xfer fd base len st = Ret (n, st') /\ P st' /\ n <= len).

Lemma iov_at_suffix m a pre suf :
  iov_at m a (pre ++ suf) -> iov_at m (a + 16 * Z.of_nat (length pre)) suf.
Proof.
  revert a. induction pre as [|[b n] pre IH]; intros a; cbn [app iov_at length].
  - by rewrite Z.mul_0_r, Z.add_0_r.
  - intros (_ & _ & _ & H). specialize (IH _ H).
    by replace (a + 16 * Z.of_nat (S (length pre))) with (a + 16 + 16 * Z.of_nat (length pre)) by lia.
Qed.

Lemma iov_loop_safe suf pre total st :
  P st -> iovs = pre ++ suf -> 0 <= total -> total + iov_sum suf < 9223372036854775808 ->
  exists r st', iov_loop xfer (length suf) fd (iov + 16 * Z.of_nat (length pre)) total st =
    Ret (r, st') /\ P st'.
Proof.
  revert pre total st. induction suf as [|[b n] suf IH]; intros pre total st HP Ei Ht Hs.
  { by exists total, st. }
  cbn [length iov_loop].
  assert (forall s, P s -> iov_at (s_mem s) (iov + 16 * Z.of_nat (length pre)) ((b, n) :: suf)) as Hat.
  { intros s Hs'. apply (iov_at_suffix _ _ pre). rewrite <- Ei. by apply Hiov. }
  pose proof (Hat st HP) as (Hb & Hn & Hn0 & Hr). rewrite Hb, Hn, (i64_small n) by lia.
  destruct (Hx b n st HP) as (k & st' & -> & HP' & Hk); [|done|].
  { rewrite Ei. apply elem_of_app. right. constructor. }
  cbn [res_bind]. destruct (Z.ltb_spec k 0); [by eexists _, st'|].
  pose proof (iov_sum_nonneg _ _ _ Hr) as Hsn. cbn [iov_sum foldr snd] in Hs. fold (iov_sum suf) in Hs.
  rewrite (i64_small (total + k)) by lia. rewrite Z.eqb_refl. cbn [negb].
  pose proof (Hat st' HP') as (_ & Hn' & _). rewrite Hn', (u64_small k) by lia.
  destruct (Z.ltb_spec k n); [by eexists _, st'|].
  destruct (IH (pre ++ [(b, n)]) (total + k) st' HP') as (r & st2 & Ex & HP2).
  - by rewrite <- app_assoc.
  - lia.
  - lia.
  - exists r, st2. split; [|done]. rewrite length_app in Ex. cbn [length] in Ex.
    by replace (iov + 16 * Z.of_nat (length pre) + 16)
      with (iov + 16 * Z.of_nat (length pre + 1)) by lia.
Qed.
End Iov.

Lemma sys_writev_safe fd iov cnt st :
  sys_inv st -> call_ok (CWritev fd iov cnt) st ->
  exists r st', sys_writev E fuel fd iov cnt st = Ret (r, st') /\ sys_inv st'.
Proof.
  intros H (Hs & iovs & Hi & -> & Hsum). unfold sys_writev. rewrite Nat2Z.id.
  destruct (iov_loop_safe (sys_write E fuel) fd iov iovs
    (fun st' => sys_inv st' /\ send_ok fd st' /\ s_mem st' = s_mem st)) with
    (suf := iovs) (pre := @nil (Z * Z)) (total := 0) (st := st) as (r & st' & Ex & H' & _); try done.
  - intros st' (_ & _ & ->). done.
  - intros b n st' (H1 & H2 & H3) _ Hn.
    destruct (sys_write_safe fd b n st' H1 Hn H2) as (k & st2 & Ex & ? & ? & E2 & ?).
    exists k, st2. split_and!; try done. congruence.
  - exists r, st'. split; [|done]. cbn [length] in Ex. rewrite Z.mul_0_r, Z.add_0_r in Ex. done.
Qed.

Lemma iov_at_agree m m' a l : addr_ok a (16 * Z.of_nat (length l)) ->
  (forall x n, addr_ok x n -> a <= x -> x + n <= a + 16 * Z.of_nat (length l) ->
     mem_read m' x n = mem_read m x n) -> iov_at m a l -> iov_at m' a l.
Proof.
  revert a. induction l as [|[b n] l IH]; intros a Ha Hm; [done|]. unfold addr_ok in *.
  cbn [iov_at length] in *. unfold mem_read_u64. rewrite !Hm by lia.
  intros (H1 & H2 & H3 & H4). split_and!; try done; try lia. apply IH; [lia| |done].
  intros x k Hx ? ?. apply Hm; lia.
Qed.

Lemma sys_readv_safe fd iov cnt st :
  sys_inv st -> call_ok (CReadv fd iov cnt) st ->
  exists r st', sys_readv E fuel fd iov cnt st = Ret (r, st') /\ sys_inv st'.
Proof.
  intros H (Ht & iovs & Hi & -> & Hsum & Ha & Hd). unfold sys_readv. rewrite Nat2Z.id.
  destruct (iov_loop_safe (sys_read E fuel) fd iov iovs
    (fun st' => sys_inv st' /\ (fd = 0 -> typing (s_con st')) /\ iov_at (s_mem st') iov iovs)) with
    (suf := iovs) (pre := @nil (Z * Z)) (total := 0) (st := st) as (r & st' & Ex & H' & _); try done.
  - by intros st' (_ & _ & ?).
  - intros b n st' (H1 & H2 & H3) Hin Hn.
    destruct (sys_read_safe fd b n st' H1 Hn H2) as (k & st2 & bs & Ex & ? & ? & E2 & ? & Hb).
    exists k, st2. split_and!; try done. rewrite E2.
    rewrite Forall_forall in Hd. destruct (Hd (b, n) Hin) as [Hab Hdis]. cbn [fst snd] in *.
    eapply iov_at_agree; [exact Ha| |exact H3]. intros x j Hx ? ?.
    rewrite <- mem_write_wrap. unfold addr_ok in *. apply mem_read_write_out; unfold addr_ok; lia.
  - exists r, st'. split; [|done]. cbn [length] in Ex. rewrite Z.mul_0_r, Z.add_0_r in Ex. done.
Qed.

(** *** The other calls *)
Lemma close_call_safe fd st : sys_inv st -> call_ok (CClose fd) st ->
  exists n st', sys_close E fd st = Ret (n, st') /\ sys_inv st'.
Proof.
  intros H Hq. unfold sys_close. destruct (bmfs_is_fd (s_fs st) fd) eqn:Ef.
  - destruct (file_step (BmfsInv.OpClose fd) (s_fs st) (si_fs _ H) Ef) as (n & f' & Ex & H').
    cbn [bmfs_exec] in Ex. rewrite Ex. eexists n, _. split; [done|by apply inv_set_fs].
  - destruct (net_shim_is_fd (s_net st) fd) eqn:En.
    + destruct (close_safe_fd E fd (s_net st) (si_net _ H) En (Hq Ef En)) as (t' & -> & H' & _).
      eexists 0, _. split; [done|by apply inv_set_net].
    + destruct (_ || _); by eexists _, st.
Qed.

Lemma fstat_call_safe fd stbuf st : sys_inv st ->
  exists n st', sys_fstat fd stbuf st = Ret (n, st') /\ sys_inv st'.
Proof.
  intros H. unfold sys_fstat. destruct (bmfs_is_fd (s_fs st) fd) eqn:Ef.
  - destruct (is_fd_slot (s_fs st) fd Ef) as (g & Hg & _). unfold bmfs_fstat_fd. rewrite Hg.
    eexists _, _. split; [done|by apply inv_put].
  - destruct (net_shim_is_fd (s_net st) fd); [eexists _, _; split; [done|by apply inv_put]|].
    destruct (_ && _); eexists _, _; (split; [done|]); [done|by apply inv_put].
Qed.

Lemma stat_call_safe path kstbuf st : sys_inv st ->
  exists n st', sys_stat path kstbuf st = Ret (n, st') /\ sys_inv st'.
Proof.
  intros H. destruct (file_step (OpFstatat (mem_at st) path) (s_fs st) (si_fs _ H))
    as (n & f' & Ex & H'); [intros i; apply H|]. cbn [bmfs_exec] in Ex.
  apply res_bind_Ret in Ex as ([[n0 k] f0] & Ex & [= <- <-]). unfold sys_stat. rewrite Ex.
  eexists _, _. split; [done|]. destruct k; [apply inv_put|]; by apply inv_set_fs.
Qed.

Lemma heap_call_safe r st : sys_inv st -> hok r.2 ->
  exists n st', Ret (lift_heap r st) = Ret (n, st') /\ sys_inv st'.
Proof. intros [? ? ? ?] ?. eexists _, _. split; [done|]. by split. Qed.

Lemma net_call_safe (r : res (Z * net)) st :
  sys_inv st -> (exists n t', r = Ret (n, t') /\ net_inv t') ->
  exists n st', lift_net r st = Ret (n, st') /\ sys_inv st'.
Proof.
  intros H (n & t' & -> & H'). eexists n, _. split; [done|by apply inv_set_net].
Qed.

Lemma accept_call_safe fd addr addrlenp flags st :
  sys_inv st -> call_ok (CAccept4 fd addr addrlenp flags) st ->
  exists n st', sys_accept4 E fuel fd addr addrlenp flags st = Ret (n, st') /\ sys_inv st'.
Proof.
  intros H [Hfd Ha]. unfold sys_accept4.
  destruct (accept_safe_fd E HE rounds fd (negb (addr =? 0))
    (if addrlenp =? 0 then None else Some (le_val (mem_read (s_mem st) addrlenp 4))) (s_net st)
    (si_net _ H) Hfd (deadline_of _)) as (n & t' & -> & H' & _).
  - destruct Ha as [-> | ->]; [by left|by right].
  - eexists n, _. split; [done|by apply inv_set_net].
Qed.

Lemma clock_call_safe clk ts st : sys_inv st ->
  exists n st', sys_clock_gettime E wallclock clk ts st = Ret (n, st') /\ sys_inv st'.
Proof.
  intros H. unfold sys_clock_gettime. destruct (ts =? 0); [by eexists _, st|].
  destruct (_ || _); [|destruct (_ || _)]; [..|by eexists _, st].
  - unfold read_wallclock. cbn [ask]. eexists _, _. split; [done|].
    apply inv_put, inv_put, inv_set_net; [done|]. by apply inv_tick, H.
  - unfold read_counter. eexists _, _. split; [done|].
    apply inv_put, inv_put, inv_set_net; [done|]. by apply inv_tick, H.
Qed.

Lemma run_call_safe c st : sys_inv st -> call_ok c st ->
  exists r st', run_call E fuel wallclock bss_stop image_base app_ram_mib c st = Ret (r, st') /\
    sys_inv st'.
Proof.
  intros H Hok.
  assert (forall m, (exists n st', m = Ret (n, st') /\ sys_inv st') ->
    exists r st', returns m = Ret (r, st') /\ sys_inv st') as Hret.
  { intros m (n & st' & -> & H'). by eexists _, st'. }
  pose proof (heap_exec_ok bss_stop image_base app_ram_mib Hbss Himg Hram Hwin) as Hh.
  destruct c; cbn [run_call]; try (apply Hret; clear Hret).
  - destruct Hok as [Hl Ht]. destruct (sys_read_safe fd buf len st H Hl Ht)
      as (n & st' & bs & Ex & ? & _). by exists n, st'.
  - destruct Hok as [Hl Hs]. destruct (sys_write_safe fd buf len st H Hl Hs)
      as (n & st' & Ex & ? & _). by exists n, st'.
  - by apply sys_readv_safe.
  - by apply sys_writev_safe.
  - by apply close_call_safe.
  - by apply fstat_call_safe.
  - unfold sys_lseek. destruct (bmfs_is_fd (s_fs st) fd) eqn:Ef; [|by eexists _, st].
    destruct (file_step _ (s_fs st) (si_fs _ H) (Hok Ef)) as (n & f' & Ex & H').
    cbn [bmfs_exec] in Ex. rewrite Ex. eexists n, _. split; [done|by apply inv_set_fs].
  - unfold sys_ioctl. destruct (_ && _); by eexists _, st.
  - unfold sys_open. destruct (file_step _ (s_fs st) (si_fs _ H) Hok) as (n & f' & Ex & H').
    cbn [bmfs_exec] in Ex. rewrite Ex. eexists n, _. split; [done|by apply inv_set_fs].
  - unfold sys_unlink. destruct (file_step _ (s_fs st) (si_fs _ H) Hok) as (n & f' & Ex & H').
    cbn [bmfs_exec] in Ex. rewrite Ex. eexists n, _. split; [done|by apply inv_set_fs].
  - by apply stat_call_safe.
  - by apply stat_call_safe.
  - apply heap_call_safe; [done|]. apply (Hh (HBrk addr)), H.
  - apply heap_call_safe; [done|]. apply (Hh (HMmap addr len prot flags fd off)), H.
  - apply heap_call_safe; [done|]. apply H.
  - unfold sys_arch_prctl. destruct (_ =? _); [|destruct (_ =? _)]; eexists _, _;
      (split; [done|]); [|by apply inv_put|done]. destruct H. by split.
  - by eexists _, st.
  - by eexists _, st.
  - by apply clock_call_safe.
  - apply net_call_safe; [done|].
    destruct (socket_safe E HE rounds domain type protocol _ (si_net _ H) (deadline_of _))
      as (n & t' & Ex & H' & _). by exists n, t'.
  - apply net_call_safe; [done|].
    destruct (bind_safe E (mem_at st) fd addr addrlen _ (si_net _ H) Hok) as (n & t' & Ex & H' & _).
    by exists n, t'.
  - apply net_call_safe; [done|].
    destruct (listen_safe_fd E fd backlog _ (si_net _ H) Hok) as (n & t' & Ex & H' & _).
    by exists n, t'.
  - by apply accept_call_safe.
  - apply net_call_safe; [done|]. destruct Hok as [Hfd Hs].
    destruct (connect_safe_fd E HE rounds (mem_at st) fd addr addrlen _ (si_net _ H) Hfd Hs
      (deadline_of _)) as (n & t' & Ex & H' & _). by exists n, t'.
  - apply net_call_safe; [done|]. destruct Hok as [Hfd Hs].
    destruct (send_safe_fd E HE rounds fd (mem_reader (s_mem st) buf) (u64 len) flags _
      (si_net _ H) Hfd Hs) as (n & t' & Ex & H' & _); [apply u64_range|apply deadline_of|].
    by exists n, t'.
  - unfold sys_recvfrom.
    destruct (recv_safe_fd E HE rounds fd (u64 len) flags _ (si_net _ H) Hok (u64_range _)
      (deadline_of _)) as (n & bs & t' & -> & H' & _).
    eexists n, _. split; [done|]. by apply inv_put, inv_set_net.
  - by eexists _, st.
  - by eexists _, st.
Qed.

(** ** Sessions

    An application computes in its own memory and makes system calls. *)
Inductive sys_reach : sys D -> Prop :=
  | SRBoot d keys : dir_ok (disk_dir d) -> sys_reach (sys_boot d keys)
  | SRMem st m : sys_reach st -> mem_ok m -> sys_reach (set_mem m st)
  | SRCall st n a1 a2 a3 a4 a5 a6 r st' :
      sys_reach st -> call_ok (decode_call n a1 a2 a3 a4 a5 a6) st ->
      bmos_syscall E fuel wallclock bss_stop image_base app_ram_mib n a1 a2 a3 a4 a5 a6 st =
        Ret (r, st') -> sys_reach st'.

Lemma sys_reach_inv st : sys_reach st -> sys_inv st.
Proof.
  induction 1 as [d keys Hd|st m _ IH Hm|st n a1 a2 a3 a4 a5 a6 r st' _ IH Hok Hx].
  - split; [apply mem_ok_empty|by apply boot_inv|by left|apply net_boot_inv].
  - destruct IH. by split.
  - destruct (run_call_safe _ st IH Hok) as (r1 & st1 & E1 & H1). unfold bmos_syscall in Hx. congruence.
Qed.

(** C1. However an application mixes file, socket, memory, time and process
    system calls with its own stores to memory, starting from a well-formed
    disk and whatever the network does, the invariants of all components
    hold together, and every further system call with admissible arguments
    returns (or switches the machine off): no table is indexed out of
    bounds, no loop runs away, and no component breaks another's state. *)
Theorem syscall_reachable_safe st n a1 a2 a3 a4 a5 a6 :
  sys_reach st -> call_ok (decode_call n a1 a2 a3 a4 a5 a6) st ->
  sys_inv st /\ exists r st',
    bmos_syscall E fuel wallclock bss_stop image_base app_ram_mib n a1 a2 a3 a4 a5 a6 st =
      Ret (r, st') /\ sys_inv st'.
Proof.
  intros Hr Hok. pose proof (sys_reach_inv st Hr) as H. split; [done|]. by apply run_call_safe.
Qed.

(** ** Descriptors and the console *)

Lemma console_fd (f : bmfs D) (t : net) fd : fd = 0 \/ fd = 1 \/ fd = 2 ->
  bmfs_is_fd f fd = false /\ net_shim_is_fd t fd = false.
Proof.
  unfold bmfs_is_fd, net_shim_is_fd. by intros [-> |[-> | ->]].
Qed.

(** The bytes an iovec array describes. *)
Definition iov_data (m : memory) (l : list (Z * Z)) : list Z :=
  concat ((fun b => mem_read m b.1 b.2) <$> l).

Lemma write_console fd buf len st : fd = 1 \/ fd = 2 -> 0 <= len < 9223372036854775808 ->
  sys_write E fuel fd buf len st =
    Ret (len, set_con (b_output (s_con st) (mem_read (s_mem st) buf len)) st).
Proof using Type.
  clear HE Hclock Hbss Himg Hram Hwin wallclock bss_stop image_base app_ram_mib.
  intros Hfd Hl. unfold sys_write.
  destruct (console_fd (s_fs st) (s_net st) fd) as [-> ->]; [tauto|].
  replace (negb (fd =? 1) && negb (fd =? 2)) with false by (by destruct Hfd as [-> | ->]).
  rewrite Z.gtb_ltb. destruct (Z.ltb_spec 0 len); [done|].
  assert (len = 0) as -> by lia. unfold b_output, mem_read. rewrite slice_nil by lia.
  rewrite app_nil_r. by destruct st as [? ? ? ? [] ?].
Qed.

(** writev to stdout or stderr prints the buffers of the array one after
    the other, all of them and nothing else, and returns their total
    length. *)
Theorem writev_console st fd iov iovs :
  fd = 1 \/ fd = 2 -> iov_at (s_mem st) iov iovs -> iov_sum iovs < 9223372036854775808 ->
  sys_writev E fuel fd iov (Z.of_nat (length iovs)) st =
    Ret (iov_sum iovs, set_con (b_output (s_con st) (iov_data (s_mem st) iovs)) st).
Proof using Type.
  clear HE Hclock Hbss Himg Hram Hwin wallclock bss_stop image_base app_ram_mib.
  intros Hfd. unfold sys_writev. rewrite Nat2Z.id.
  assert (forall total st, 0 <= total -> iov_at (s_mem st) iov iovs ->
    total + iov_sum iovs < 9223372036854775808 ->
    iov_loop (sys_write E fuel) (length iovs) fd iov total st =
    Ret (total + iov_sum iovs, set_con (b_output (s_con st) (iov_data (s_mem st) iovs)) st)) as Hgen;
    [|intros; by apply Hgen].
  revert iov. induction iovs as [|[b n] l IH]; intros iov total st0 Ht Hi Hs.
  { cbn. rewrite Z.add_0_r. unfold b_output, iov_data. cbn. rewrite app_nil_r.
    by destruct st0 as [? ? ? ? [] ?]. }
  destruct Hi as (Hb & Hn & Hn0 & Hr). pose proof (iov_sum_nonneg _ _ _ Hr) as Hsn.
  cbn [iov_sum foldr snd] in Hs |- *. fold (iov_sum l) in Hs |- *. cbn [length iov_loop].
  rewrite Hb, Hn, (i64_small n) by lia. rewrite write_console by done. cbn [res_bind].
  destruct (Z.ltb_spec n 0); [lia|].
  rewrite (i64_small (total + n)), Z.eqb_refl by lia. cbn [negb s_mem set_con].
  rewrite Hn, (u64_small n), Z.ltb_irrefl by lia.
  rewrite IH by (done || cbn [s_mem set_con]; lia).
  do 2 f_equal; [lia|]. unfold set_con, b_output, iov_data. cbn. by rewrite app_assoc.
Qed.

(** C40. A file behaves as memory that survives, through the system-call interface and the caller's
    memory: in every state that satisfies the invariant [sys_inv] and for every open file, when write(fd, buf, len) has room for
    [n > 0] bytes ([write_count]: [len], or what is left of the file's space), it returns
    [n]; lseek(fd, p, SEEK_SET) back to the offset [p] at which they were stored (the end of the file for O_APPEND) returns [p]; and
    read(fd, buf2, n) returns [n] and makes the [n] bytes at [buf2] equal to the [n] bytes that
    were at [buf], for a buffer [buf2] that does not wrap around the address space. *)
Theorem syscall_file_roundtrip st fd f buf buf2 len :
  sys_inv st -> bmfs_is_fd (s_fs st) fd = true -> files (s_fs st) !! BmfsInv.fd_slot fd = Some f ->
  0 <= len < 9223372036854775808 -> 0 < write_count f len -> addr_ok (u64 buf2) len ->
  let n := write_count f len in
  exists st1 st2 st3,
    sys_write E fuel fd buf len st = Ret (n, st1) /\
    sys_lseek fd (write_pos f) 0 st1 = Ret (write_pos f, st2) /\
    sys_read E fuel fd buf2 n st2 = Ret (n, st3) /\
    mem_read (s_mem st3) buf2 n = mem_read (s_mem st) buf n.
Proof.
  intros H Hfd Hf Hl Hn Ha n.
  destruct (write_back_spec (s_fs st) fd f (mem_reader (s_mem st) buf) len (si_fs _ H) Hfd Hf Hl)
    as (f1 & f2 & f3 & E1 & Hfd1 & E2 & Hfd2 & E3 & Hp & Hle); [intros i; apply H|done|].
  fold n in E1, E3, Hle, Hn.
  exists (set_fs f1 st), (set_fs f2 st), (put buf2 (slice (mem_reader (s_mem st) buf) 0 n) (set_fs f3 st)).
  unfold sys_write, sys_lseek, sys_read. cbn [s_fs set_fs]. rewrite Hfd, Hfd1, Hfd2.
  rewrite (u64_small len), (u64_small n) by lia. change (i32 0) with 0.
  rewrite E1, E2, E3. split; [done|]. split; [done|]. split; [done|]. cbn [s_mem put set_mem].
  set (bs := slice _ 0 n). assert (Z.of_nat (length bs) = n) as Hb by (unfold bs; rewrite length_slice; lia).
  rewrite <- mem_read_wrap, <- mem_write_wrap. rewrite <- Hb at 1. rewrite mem_read_write_same; [done|unfold addr_ok in *; lia|].
  apply (bytes_mem_read (s_mem st) buf n), H.
Qed.

(** ** Reading the keyboard *)
Lemma input_wait_first k c j :
  (j < k)%nat -> (forall i, (i < j)%nat -> u8 (kbd c (kbd_pos c + i)) = 0) ->
  u8 (kbd c (kbd_pos c + j)) <> 0 ->
  input_wait k c = Ret (u8 (kbd c (kbd_pos c + j)), mkConsole (kbd c) (kbd_pos c + S j) (screen c)).
Proof.
  revert c j. induction k as [|k IH]; intros c j Hj Hz Hn; [lia|]. cbn [input_wait b_input].
  destruct j as [|j].
  - rewrite Nat.add_0_r in *. destruct (Z.eqb_spec (u8 (kbd c (kbd_pos c))) 0); [done|].
    by rewrite Nat.add_1_r.
  - pose proof (Hz 0%nat ltac:(lia)) as H0. rewrite Nat.add_0_r in H0. rewrite H0. cbn [Z.eqb].
    rewrite (IH _ j); cbn [kbd kbd_pos screen].
    + by rewrite <- !Nat.add_succ_comm.
    + lia.
    + intros i Hi. rewrite Nat.add_succ_comm. apply Hz. lia.
    + by rewrite Nat.add_succ_comm.
Qed.

Lemma input_drain_keys k c :
  let '(r, c') := input_drain k c in
  r = (fun i => u8 (kbd c (kbd_pos c + i))) <$> seq 0 (length r) /\
  ((length r < k)%nat -> u8 (kbd c (kbd_pos c + length r)) = 0) /\
  Forall (fun b => b <> 0) r.
Proof.
  revert c. induction k as [|k IH]; intros c; cbn [input_drain]; [by split_and!; [|cbn; lia|constructor]|].
  cbn [b_input]. destruct (Z.eqb_spec (u8 (kbd c (kbd_pos c))) 0) as [E0|E0].
  { split_and!; [done| |constructor]. intros _. cbn. by rewrite Nat.add_0_r. }
  specialize (IH (mkConsole (kbd c) (S (kbd_pos c)) (screen c))).
  destruct (input_drain k _) as [r c'']. cbn [kbd kbd_pos] in IH. destruct IH as (H1 & H2 & H3).
  split_and!.
  - cbn [length seq fmap list_fmap]. rewrite Nat.add_0_r. f_equal. rewrite H1 at 1.
    rewrite <- fmap_S_seq, <- list_fmap_compose. apply list_fmap_ext. intros i x _. cbn.
    by rewrite Nat.add_succ_r.
  - cbn [length]. intros Hlt. rewrite Nat.add_succ_r. apply H2. lia.
  - by constructor.
Qed.

(** read(0, buf, len) with [len > 0] waits for the first key and then
    takes what is there: if the next key pressed is the [j]-th answer of
    b_input, the result [n] is between 1 and [len], the [n] bytes at [buf]
    are the answers [j], j+1, ... in order, none of them 0, and it stops
    before [len] only when the next answer is "no key". *)
Theorem read_console st buf len j :
  sys_inv st -> 0 < len < 9223372036854775808 -> addr_ok (u64 buf) len -> (j < fuel)%nat ->
  (forall i, (i < j)%nat -> u8 (kbd (s_con st) (kbd_pos (s_con st) + i)) = 0) ->
  u8 (kbd (s_con st) (kbd_pos (s_con st) + j)) <> 0 ->
  exists n st', sys_read E fuel 0 buf len st = Ret (Z.of_nat n, st') /\ 1 <= Z.of_nat n <= len /\
    let key i := u8 (kbd (s_con st) (kbd_pos (s_con st) + j + i)) in
    mem_read (s_mem st') buf (Z.of_nat n) = key <$> seq 0 n /\
    (forall i, (i < n)%nat -> key i <> 0) /\
    (Z.of_nat n < len -> key n = 0).
Proof.
  intros H Hl Ha Hj Hz Hn. unfold sys_read.
  destruct (console_fd (s_fs st) (s_net st) 0) as [-> ->]; [by left|]. cbn [Z.eqb negb].
  destruct (Z.leb_spec len 0); [lia|].
  rewrite (input_wait_first fuel (s_con st) j Hj Hz Hn). cbn [res_bind].
  set (c := mkConsole _ _ _). pose proof (input_drain_keys (Z.to_nat (len - 1)) c) as Hk.
  pose proof (input_drain_spec (Z.to_nat (len - 1)) c) as Hb.
  destruct (input_drain (Z.to_nat (len - 1)) c) as [r c']. destruct Hk as (K1 & K2 & K3).
  destruct Hb as (B1 & B2 & _). cbn [kbd kbd_pos c] in K1, K2.
  set (bs := u8 (kbd (s_con st) (kbd_pos (s_con st) + j)) :: r).
  exists (S (length r)), (put buf bs (set_con c' st)).
  split; [by rewrite Nat2Z.inj_succ, Z.add_comm|]. split; [lia|].
  set (key := fun i => u8 (kbd (s_con st) (kbd_pos (s_con st) + j + i))).
  assert (bs = key <$> seq 0 (S (length r))) as Ebs.
  { unfold bs. cbn [seq fmap list_fmap]. f_equal; [unfold key; by rewrite Nat.add_0_r|].
    rewrite K1 at 1. rewrite <- fmap_S_seq, <- list_fmap_compose. apply list_fmap_ext.
    intros i x _. cbn. unfold key. do 2 f_equal. lia. }
  split; [|split].
  - rewrite <- Ebs. cbn [s_mem put set_mem set_con]. change (S (length r)) with (length bs).
    rewrite <- mem_read_wrap, <- mem_write_wrap. apply mem_read_write_same.
    + unfold addr_ok, bs in *. cbn [length]. lia.
    + constructor; [apply u8_is_byte|done].
  - intros i Hi. assert (Forall (fun b => b <> 0) bs) as Hall by by constructor.
    rewrite Ebs in Hall. rewrite Forall_fmap, Forall_forall in Hall. apply Hall.
    by apply elem_of_seq; lia.
  - intros Hlt. unfold key. rewrite <- (K2 ltac:(lia)). do 2 f_equal. lia.
Qed.

(** ** Time and thread pointer *)

(** clock_gettime on a monotonic clock splits the nanosecond counter
    exactly: the two words stored at [ts] are seconds and nanoseconds with
    0 <= nanoseconds < 10^9 whose sum is the counter, and nothing else in
    memory changes. *)
Theorem clock_monotonic_exact st clk ts :
  clk = 1 \/ clk = 4 \/ clk = 6 -> ts <> 0 -> addr_ok ts 16 ->
  exists st', sys_clock_gettime E wallclock clk ts st = Ret (0, st') /\
    let sec := mem_read_u64 (s_mem st') ts in
    let nsec := mem_read_u64 (s_mem st') (ts + 8) in
    sec * 1000000000 + nsec = u64 (e_now E (clocked (tick (s_net st)))) /\
    0 <= nsec < 1000000000 /\
    (forall x n, addr_ok x n -> ts + 16 <= x \/ x + n <= ts ->
       mem_read (s_mem st') x n = mem_read (s_mem st) x n).
Proof using Type.
  clear HE Hclock Hbss Himg Hram Hwin rounds bss_stop image_base app_ram_mib.
  intros Hc Ht Ha. unfold sys_clock_gettime. destruct (Z.eqb_spec ts 0); [done|].
  replace ((clk =? 0) || (clk =? 5)) with false by (by destruct Hc as [-> |[-> | ->]]).
  replace ((clk =? 1) || (clk =? 4) || (clk =? 6)) with true by (by destruct Hc as [-> |[-> | ->]]).
  unfold read_counter. cbn beta iota zeta.
  set (ns := u64 (e_now E (clocked (tick (s_net st))))).
  assert (0 <= ns < 18446744073709551616) as Hns by apply u64_range.
  eexists. split; [reflexivity|]. cbn [s_mem put set_mem set_net].
  fold (mem_write_u64 (s_mem st) ts (ns / 1000000000)).
  fold (mem_write_u64 (mem_write_u64 (s_mem st) ts (ns / 1000000000)) (ts + 8) (ns mod 1000000000)).
  unfold addr_ok in Ha. rewrite mem_read_u64_write by (unfold addr_ok; zdiv).
  unfold mem_read_u64 at 1. rewrite mem_read_write_u64_out by (unfold addr_ok; lia).
  fold (mem_read_u64 (mem_write_u64 (s_mem st) ts (ns / 1000000000)) ts).
  rewrite mem_read_u64_write by (unfold addr_ok; zdiv). split; [zdiv|]. split; [zdiv|].
  intros x n0 Hx Hd. by rewrite !mem_read_write_u64_out by (unfold addr_ok in *; lia).
Qed.

(** The thread pointer round trip: arch_prctl(ARCH_SET_FS, v) followed
    by arch_prctl(ARCH_GET_FS, p) stores [v] at [p] for every 64-bit [v]: the
    two halves passed through edx:eax are reassembled exactly. *)
Theorem fs_base_roundtrip st v p :
  0 <= v < 18446744073709551616 -> addr_ok p 8 ->
  exists st1 st2, sys_arch_prctl ARCH_SET_FS v st = Ret (0, st1) /\
    sys_arch_prctl ARCH_GET_FS p st1 = Ret (0, st2) /\ mem_read_u64 (s_mem st2) p = v.
Proof using Type.
  clear HE Hclock Hbss Himg Hram Hwin E rounds wallclock bss_stop image_base app_ram_mib.
  intros Hv Hp. unfold sys_arch_prctl. cbn [Z.eqb ARCH_SET_FS ARCH_GET_FS Pos.eqb].
  assert (forall w, 0 <= w < 18446744073709551616 ->
    Z.lor (Z.shiftl (u32 (Z.shiftr w 32)) 32) (u32 w) = w) as Hj.
  { intros w Hw. rewrite Z.shiftr_div_pow2, (u32_small (w / 2 ^ 32)) by (lia || zdiv).
    unfold u32. change 4294967296 with (2 ^ 32). rewrite <- Z.land_ones by lia.
    rewrite <- Z.shiftr_div_pow2 by lia. apply Z.bits_inj'. intros i Hi.
    rewrite Z.lor_spec, Z.land_spec, Z.testbit_ones_nonneg, Z.shiftl_spec by lia.
    destruct (Z.ltb_spec i 32).
    - rewrite Z.testbit_neg_r by lia. by rewrite andb_true_r.
    - rewrite Z.shiftr_spec, andb_false_r, orb_false_r by lia. f_equal. lia. }
  eexists _, _. split; [reflexivity|]. split; [reflexivity|]. cbn [s_mem put set_mem s_fsbase set_fsbase].
  rewrite (u64_small v), Hj by lia.
  rewrite (u64_small (Z.shiftl _ _)), Hj by (done || (rewrite Z.shiftl_mul_pow2, Z.shiftr_div_pow2 by lia;
    rewrite u32_small by zdiv; zdiv)).
  by apply mem_read_u64_write.
Qed.

(** A system call the port does not know returns -ENOSYS and changes
    nothing. *)
Theorem syscall_unknown st n a1 a2 a3 a4 a5 a6 :
  n ∉ [0; 1; 2; 3; 4; 5; 6; 8; 9; 11; 12; 13; 14; 16; 19; 20; 41; 42; 43; 44; 45; 49; 50; 54; 55; 60;
       72; 87; 131; 158; 218; 228; 231; 257; 262; 273; 288] ->
  bmos_syscall E fuel wallclock bss_stop image_base app_ram_mib n a1 a2 a3 a4 a5 a6 st =
    Ret (Some (- ENOSYS), st).
Proof.
  intros Hn. unfold bmos_syscall.
  assert (decode_call n a1 a2 a3 a4 a5 a6 = CNosys) as ->; [|done].
  unfold decode_call. repeat case_match; try done; subst; exfalso; apply Hn;
    repeat (apply elem_of_cons; first [left; reflexivity|right]).
Qed.
End PosixSafe.

(** ** Concrete sessions *)

(** A fresh ramdisk, the name "/a" at 4096, the bytes 7, 8, 9 at 8192, an
    iovec array of one and two of them at 12288, and one with an empty first
    buffer at 16384; every other key is an 'x'. *)
Definition demo_ram : memory :=
  mem_write_u64 (mem_write_u64 (mem_write_u64 (mem_write_u64
    (mem_write_u64 (mem_write_u64 (mem_write_u64 (mem_write_u64
      (mem_write (mem_write ∅ 4096 [47; 97; 0]) 8192 [7; 8; 9])
      12288 8192) 12296 1) 12304 8193) 12312 2)
      16384 8192) 16392 0) 16400 8192) 16408 3.
Lemma demo_ram_ok : mem_ok demo_ram.
Proof. unfold demo_ram, mem_write_u64. repeat apply mem_ok_mem_write. apply mem_ok_empty. Qed.

Definition demo_keys (n : nat) : Z := if Nat.even n then 0 else 120.
Definition demo_sys : sys ramdisk := set_mem demo_ram (sys_boot ∅ demo_keys).
Definition no_wall (n : nat) : Z := 0.
Definition demo_call (n a1 a2 a3 : Z) (st : sys ramdisk) : res (option Z * sys ramdisk) :=
  bmos_syscall client_data 2 no_wall BSS_STOP IMAGE_BASE 64 n a1 a2 a3 0 0 0 st.
Definition call_state (r : res (option Z * sys ramdisk)) : sys ramdisk :=
  match r with Ret (_, st) => st | _ => demo_sys end.
Definition call_result (r : res (option Z * sys ramdisk)) : option Z :=
  match r with Ret (r, _) => r | _ => None end.
(** After open("/a", O_CREAT). *)
Definition demo_open : sys ramdisk := call_state (demo_call 2 4096 64 0 demo_sys).

Lemma demo_sys_reach : sys_reach client_data 1 no_wall BSS_STOP IMAGE_BASE 64 demo_sys.
Proof. apply SRMem; [apply SRBoot, blank_dir_ok|apply demo_ram_ok]. Qed.

Lemma demo_open_ok : call_ok 1 (COpen 4096 64 0) demo_sys.
Proof.
  split; [intros i; apply demo_ram_ok|]. cbn [disk bmfs_boot s_fs demo_sys set_mem sys_boot].
  rewrite blank_dir. vm_compute. reflexivity.
Qed.

Lemma syscall_reachable_safe_witness : exists r st',
  demo_call 2 4096 64 0 demo_sys = Ret (r, st') /\ sys_inv BSS_STOP IMAGE_BASE 64 st'.
Proof.
  refine (proj2 (syscall_reachable_safe client_data 1 no_wall BSS_STOP IMAGE_BASE 64
    (proj1 client_ok) (demo_clock _) _ _ _ _ demo_sys 2 4096 64 0 0 0 0 demo_sys_reach demo_open_ok)).
  - reflexivity.
  - vm_compute. discriminate.
  - lia.
  - vm_compute. split; discriminate.
Defined.

Lemma demo_sys_inv : sys_inv BSS_STOP IMAGE_BASE 64 demo_sys.
Proof.
  split; [apply demo_ram_ok|apply boot_inv, blank_dir_ok|by left|apply net_boot_inv].
Qed.

Lemma writev_console_witness : exists st',
  sys_writev client_data 2 1 12288 2 demo_sys = Ret (3, st') /\ screen (s_con st') = [7; 8; 9].
Proof.
  eexists. split.
  - apply (writev_console client_data 1 demo_sys 1 12288 [(8192, 1); (8193, 2)]).
    + left. reflexivity.
    + vm_compute. repeat split; discriminate.
    + reflexivity.
  - vm_compute. reflexivity.
Defined.

Lemma demo_open_inv : sys_inv BSS_STOP IMAGE_BASE 64 demo_open.
Proof.
  assert (0 < BSS_STOP /\ 0 <= IMAGE_BASE /\ 0 <= 64) as (H1 & H2 & H3)
    by (unfold BSS_STOP, IMAGE_BASE; lia).
  destruct (run_call_safe client_data 1 no_wall BSS_STOP IMAGE_BASE 64 (proj1 client_ok) (demo_clock _)
    H1 H2 H3 ltac:(vm_compute; split; discriminate) (COpen 4096 64 0) demo_sys
    demo_sys_inv demo_open_ok) as (r & st' & E1 & H).
  unfold demo_open, demo_call, bmos_syscall. cbn [decode_call]. rewrite E1. exact H.
Qed.

Definition demo_open_file : bmfs_file := mkFile true false false 0 1 1 0 0.
Lemma demo_open_lookup : bmfs_is_fd (s_fs demo_open) 3 = true /\
  files (s_fs demo_open) !! BmfsInv.fd_slot 3 = Some demo_open_file.
Proof. split; vm_compute; reflexivity. Qed.

Lemma syscall_file_roundtrip_witness : exists st1 st2 st3,
  sys_write client_data 2 3 8192 3 demo_open = Ret (3, st1) /\
  sys_lseek 3 0 0 st1 = Ret (0, st2) /\
  sys_read client_data 2 3 20480 3 st2 = Ret (3, st3) /\
  mem_read (s_mem st3) 20480 3 = mem_read (s_mem demo_open) 8192 3.
Proof.
  apply (syscall_file_roundtrip client_data 1 BSS_STOP IMAGE_BASE 64 demo_open 3 demo_open_file 8192 20480 3).
  - exact demo_open_inv.
  - exact (proj1 demo_open_lookup).
  - exact (proj2 demo_open_lookup).
  - lia.
  - vm_compute. reflexivity.
  - vm_compute. repeat split; discriminate.
Defined.

Lemma read_console_witness : exists n st',
  sys_read client_data 2 0 20480 10 demo_sys = Ret (Z.of_nat n, st') /\ 1 <= Z.of_nat n <= 10.
Proof.
  destruct (read_console client_data 1 BSS_STOP IMAGE_BASE 64 demo_sys 20480 10 1)
    as (n & st' & E1 & H1 & _).
  - exact demo_sys_inv.
  - lia.
  - vm_compute. repeat split; discriminate.
  - lia.
  - intros i Hi. replace i with 0%nat by lia. reflexivity.
  - discriminate.
  - exists n, st'. split; [exact E1|exact H1].
Defined.

Lemma clock_monotonic_exact_witness : exists st',
  sys_clock_gettime client_data no_wall 1 20480 demo_sys = Ret (0, st') /\
  0 <= mem_read_u64 (s_mem st') 20488 < 1000000000.
Proof.
  destruct (clock_monotonic_exact client_data no_wall demo_sys 1 20480) as (st' & E1 & _ & H1 & _).
  - left. reflexivity.
  - discriminate.
  - vm_compute. repeat split; discriminate.
  - exists st'. split; [exact E1|exact H1].
Defined.

Lemma fs_base_roundtrip_witness : exists st1 st2,
  sys_arch_prctl ARCH_SET_FS 18446744073709551615 demo_sys = Ret (0, st1) /\
  sys_arch_prctl ARCH_GET_FS 20480 st1 = Ret (0, st2) /\
  mem_read_u64 (s_mem st2) 20480 = 18446744073709551615.
Proof. apply (fs_base_roundtrip demo_sys); [lia|unfold addr_ok; lia]. Defined.

Lemma syscall_unknown_witness : demo_call 39 0 0 0 demo_sys = Ret (Some (- ENOSYS), demo_sys).
Proof.
  apply (syscall_unknown client_data 1 no_wall BSS_STOP IMAGE_BASE 64 demo_sys 39).
  intros H. repeat (apply elem_of_cons in H as [H|H]; [discriminate|]). by apply not_elem_of_nil in H.
Defined.

(** The buffered output of musl's stdio is lost when its buffer is empty:
    __stdio_write hands writev an array whose first element has length 0, and
    on a BMFS file that write fails with -ENOSPC, so the call fails although
    the file is empty and the second element holds the data; the same array
    printed to the console succeeds. *)
Theorem writev_empty_first_fails :
  call_result (demo_call 20 3 16384 2 demo_open) = Some (- ENOSPC) /\
  call_result (demo_call 20 1 16384 2 demo_open) = Some 3.
Proof. split; vm_compute; reflexivity. Qed.
