(* ===== verification/Checksum.v ===== *)
(** * lwip-2.2.0/src/core/inet_chksum.c: the Internet checksum

    The checksum routines as configured for this port (algorithm 2, IPv4), and
    the proof that each computes the ones'-complement sum of RFC 1071 over its
    bytes, whatever the alignment of the buffer and however a packet is split
    into pbufs. *)
From S2P Require Import Prelude Pbuf PbufChain PbufOps NetShim.

(** inet_chksum.h *)
Definition FOLD_U32T (u : Z) : Z := u32 (Z.shiftr u 16 + Z.land u 0x0000ffff).
Definition SWAP_BYTES_IN_WORD (w : Z) : Z :=
  Z.lor (Z.shiftl (Z.land w 0xff) 8) (Z.shiftr (Z.land w 0xff00) 8).

(** [while (len > 1) { sum += *ps++; len -= 2; }]: the sum, the pointer and the
    length left; [fuel] is the length. *)
Fixpoint chksum_words (fuel : nat) (m : reader) (ps len sum : Z) : Z * Z * Z :=
  match fuel with
  | O => (sum, ps, len)
  | S k =>
      if len >? 1 then chksum_words k m (ps + 2) (len - 2) (u32 (sum + (m ps + 256 * m (ps + 1))))
      else (sum, ps, len)
  end.

Definition lwip_standard_chksum (m : reader) (dataptr len : Z) : Z :=
  let odd := negb (Z.land dataptr 1 =? 0) in
  let '(t1, pb, len) :=
    if odd && (len >? 0) then (m dataptr, dataptr + 1, len - 1) else (0, dataptr, len) in
  let '(sum, ps, len) := chksum_words (Z.to_nat len) m pb len 0 in
  let t0 := if len >? 0 then m ps else 0 in
  let sum := u32 (sum + (t0 + 256 * t1)) in
  let sum := FOLD_U32T sum in
  let sum := FOLD_U32T sum in
  let sum := if odd then SWAP_BYTES_IN_WORD sum else sum in
  u16 sum.

Definition inet_chksum (m : reader) (dataptr len : Z) : Z :=
  u16 (Z.lnot (lwip_standard_chksum m dataptr len)).

Definition lwip_chksum_copy (m : memory) (dst src len : Z) : Z * memory :=
  let m' := mem_write m dst (mem_read m src len) in
  (lwip_standard_chksum (mload m') dst len, m').

(** The loop over a chain shared by the chain checksums: the accumulator and
    whether it is byte-swapped.  [None] for [limit] sums all of each pbuf, as
    inet_chksum_pbuf and the pseudo-header sum do. *)
Fixpoint chain_sum (fuel : nat) (p : Z) (acc : Z) (swapped : bool) (h : pheap) : res (Z * bool) :=
  match fuel with
  | O => NoFuel
  | S k =>
      if p =? NULL then Ret (acc, swapped)
      else
        let* q := pget h p in
        let acc := u32 (acc + lwip_standard_chksum (mload (pmem h)) (payload q) (p_len q)) in
        let acc := FOLD_U32T acc in
        let '(acc, swapped) :=
          if negb (p_len q mod 2 =? 0) then (SWAP_BYTES_IN_WORD acc, negb swapped)
          else (acc, swapped) in
        chain_sum k (next q) acc swapped h
  end.

Definition inet_chksum_pbuf (p : Z) (h : pheap) : res Z :=
  let* (acc, swapped) := chain_sum (chain_fuel h) p 0 false h in
  let acc := if swapped then SWAP_BYTES_IN_WORD acc else acc in
  Ret (u16 (Z.lnot (Z.land acc 0xffff))).

(** The end of the pseudo-header sums. *)
Definition pseudo_finish (proto proto_len acc : Z) (swapped : bool) : Z :=
  let acc := if swapped then SWAP_BYTES_IN_WORD acc else acc in
  let acc := u32 (acc + lwip_htons (u16 proto)) in
  let acc := u32 (acc + lwip_htons proto_len) in
  let acc := FOLD_U32T acc in
  let acc := FOLD_U32T acc in
  u16 (Z.lnot (Z.land acc 0xffff)).

Definition inet_cksum_pseudo_base (p proto proto_len acc : Z) (h : pheap) : res Z :=
  let* (acc, swapped) := chain_sum (chain_fuel h) p acc false h in
  Ret (pseudo_finish proto proto_len acc swapped).

(** The four halves of the two addresses, folded. *)
Definition pseudo_addrs (src dest : Z) : Z :=
  let acc := Z.land src 0xffff in
  let acc := u32 (acc + Z.land (Z.shiftr src 16) 0xffff) in
  let acc := u32 (acc + Z.land dest 0xffff) in
  let acc := u32 (acc + Z.land (Z.shiftr dest 16) 0xffff) in
  FOLD_U32T (FOLD_U32T acc).

Definition inet_chksum_pseudo (p proto proto_len src dest : Z) (h : pheap) : res Z :=
  inet_cksum_pseudo_base p proto proto_len (pseudo_addrs src dest) h.

(** The loop limited to [chksum_len] bytes, with its assertion. *)
Fixpoint chain_sum_partial (fuel : nat) (p chksum_len acc : Z) (swapped : bool) (h : pheap)
  : res (Z * bool) :=
  match fuel with
  | O => NoFuel
  | S k =>
      if (p =? NULL) || negb (chksum_len >? 0) then Ret (acc, swapped)
      else
        let* q := pget h p in
        let chklen := if p_len q >? chksum_len then chksum_len else p_len q in
        let acc := u32 (acc + lwip_standard_chksum (mload (pmem h)) (payload q) chklen) in
        let chksum_len := u16 (chksum_len - chklen) in
        lwip_assert (chksum_len <? 0x7fff) (
          let acc := FOLD_U32T acc in
          let '(acc, swapped) :=
            if negb (p_len q mod 2 =? 0) then (SWAP_BYTES_IN_WORD acc, negb swapped)
            else (acc, swapped) in
          chain_sum_partial k (next q) chksum_len acc swapped h)
  end.

Definition inet_cksum_pseudo_partial_base (p proto proto_len chksum_len acc : Z) (h : pheap) : res Z :=
  let* (acc, swapped) := chain_sum_partial (chain_fuel h) p chksum_len acc false h in
  Ret (pseudo_finish proto proto_len acc swapped).

Definition inet_chksum_pseudo_partial (p proto proto_len chksum_len src dest : Z) (h : pheap) : res Z :=
  inet_cksum_pseudo_partial_base p proto proto_len chksum_len (pseudo_addrs src dest) h.

(** With LWIP_IPV6 off, the generic names are the IPv4 ones. *)
Definition ip_chksum_pseudo := inet_chksum_pseudo.
Definition ip_chksum_pseudo_partial := inet_chksum_pseudo_partial.

(** ** The reference: RFC 1071 *)

(** The sum of the 16-bit words of a byte string, low byte first; with [hi]
    the first byte is the high byte of a word. *)
Fixpoint wsum (hi : bool) (l : list Z) : Z :=
  match l with
  | [] => 0
  | b :: r => (if hi then 256 * b else b) + wsum (negb hi) r
  end.

(** The ones'-complement 16-bit value of a sum: end-around carry until it
    fits, so 0 only for the sum 0. *)
Definition ones16 (x : Z) : Z := if x =? 0 then 0 else (x - 1) mod 65535 + 1.

(** The checksum of RFC 1071 over a byte string, in the byte order in which
    the bytes are summed. *)
Definition rfc1071 (l : list Z) : Z := 65535 - ones16 (wsum false l).

(** [c] is the 16-bit ones'-complement value of [x]. *)
Definition oc (c x : Z) : Prop :=
  0 <= c <= 65535 /\ 0 <= x /\ (exists q, x = c + 65535 * q) /\ (c = 0 <-> x = 0).

Lemma oc_unique c x : oc c x -> c = ones16 x.
Proof.
  intros (Hc & Hx & [q Hq] & H0). unfold ones16. destruct (Z.eqb_spec x 0); [lia|].
  subst x. zdiv.
Qed.

Lemma oc_lnot c : 0 <= c <= 65535 -> u16 (Z.lnot c) = 65535 - c.
Proof. intros H. unfold Z.lnot, u16. zdiv. Qed.

Lemma land16 x : 0 <= x -> Z.land x 0xffff = x mod 65536.
Proof. intros H. by apply (Z.land_ones x 16). Qed.

Lemma fold_eq x : 0 <= x < 4294967296 -> FOLD_U32T x = x / 65536 + x mod 65536.
Proof.
  intros H. unfold FOLD_U32T. rewrite land16, Z.shiftr_div_pow2 by lia. change (2 ^ 16) with 65536.
  apply u32_small. zdiv.
Qed.

Lemma fold_small x y : 0 <= x <= 131070 -> x = y -> oc (FOLD_U32T x) y.
Proof.
  intros H <-. rewrite fold_eq by lia. split; [zdiv|]. split; [lia|].
  split; [exists (x / 65536); zdiv|zdiv].
Qed.

Lemma fold_twice x : 0 <= x < 4294967296 -> oc (FOLD_U32T (FOLD_U32T x)) x.
Proof.
  intros H. assert (0 <= FOLD_U32T x <= 131070 /\ (FOLD_U32T x = 0 <-> x = 0) /\
    exists q, x = FOLD_U32T x + 65535 * q) as (H1 & H2 & q & Hq).
  { rewrite fold_eq by lia. split; [zdiv|]. split; [zdiv|]. exists (x / 65536). zdiv. }
  destruct (fold_small _ _ H1 eq_refl) as (A & B & [r Hr] & C).
  split; [done|]. split; [lia|]. split; [exists (q + r); lia|lia].
Qed.

Lemma swap_eq c : 0 <= c <= 65535 -> SWAP_BYTES_IN_WORD c = 256 * (c mod 256) + c / 256.
Proof.
  intros H. unfold SWAP_BYTES_IN_WORD.
  rewrite Z.shiftr_land. change (Z.shiftr 0xff00 8) with (Z.ones 8). change 0xff with (Z.ones 8).
  rewrite !Z.land_ones, Z.shiftr_div_pow2 by lia. change (2 ^ 8) with 256.
  rewrite lor_shift_add by (change (2 ^ 8) with 256; zdiv). change (2 ^ 8) with 256. zdiv.
Qed.

(** Swapping the bytes multiplies by 256 modulo 65535. *)
Lemma swap_oc c x y : oc c x -> 0 <= y -> (y = 0 <-> x = 0) -> (exists k, y = 256 * x + 65535 * k) ->
  oc (SWAP_BYTES_IN_WORD c) y.
Proof.
  intros (Hc & Hx & [q Hq] & H0) Hy Hyx [k Hk]. rewrite swap_eq by lia.
  assert (0 <= 256 * (c mod 256) + c / 256 <= 65535) as Hr by zdiv.
  split; [done|]. split; [done|]. split.
  - exists (c / 256 + 256 * q + k). subst x y. zdiv.
  - rewrite Hyx, <- H0. zdiv.
Qed.

(** ** Sums of words *)
Lemma wsum_nonneg hi l : bytes l -> 0 <= wsum hi l.
Proof.
  intros H. revert hi. induction H as [|b l Hb _ IH]; intros hi; cbn; [lia|].
  unfold is_byte in Hb. specialize (IH (negb hi)). destruct hi; lia.
Qed.

Lemma wsum_app hi l r : wsum hi (l ++ r) = wsum hi l + wsum (xorb hi (Nat.odd (length l))) r.
Proof.
  revert hi. induction l as [|b l IH]; intros hi; cbn [app wsum length].
  - by destruct hi.
  - rewrite IH, Nat.odd_succ, <- Nat.negb_odd. destruct hi, (Nat.odd (length l)); cbn; lia.
Qed.

Lemma wsum_swap hi l : exists k, wsum (negb hi) l = 256 * wsum hi l + 65535 * k.
Proof.
  revert hi. induction l as [|b l IH]; intros hi; cbn; [by exists 0|].
  destruct (IH (negb hi)) as [k Hk]. rewrite negb_involutive in *. destruct hi; cbn in *.
  - exists (k - b). lia.
  - exists k. lia.
Qed.

Lemma wsum_zero hi l : bytes l -> wsum hi l = 0 <-> Forall (fun b => b = 0) l.
Proof.
  intros H. revert hi. induction H as [|b l Hb Hl IH]; intros hi; cbn; [done|].
  unfold is_byte in Hb. pose proof (wsum_nonneg (negb hi) l Hl). rewrite Forall_cons, <- (IH (negb hi)).
  destruct hi; lia.
Qed.

Lemma wsum_bound hi l q : bytes l -> Z.of_nat (length l) <= 2 * q -> wsum hi l <= 65535 * q.
Proof.
  remember (length l) as n eqn:En. revert l q hi En.
  induction n as [n IH] using lt_wf_ind. intros l q hi En H Hq. unfold bytes, is_byte in *.
  destruct H as [|b l Hb H]; [cbn in *; subst; cbn in *; lia|].
  destruct H as [|c l Hc H]; [cbn in *; subst; destruct hi; cbn in *; lia|].
  cbn [length] in En. specialize (IH (length l) ltac:(lia) l (q - 1) hi eq_refl H ltac:(lia)).
  cbn [wsum]. rewrite negb_involutive. destruct hi; cbn [negb]; lia.
Qed.

(** ** The routines compute the reference *)
Lemma chksum_words_spec fuel m ps len sum :
  (forall i, is_byte (m i)) -> 0 <= len <= Z.of_nat fuel -> 0 <= sum ->
  sum + 65535 * (len / 2) < 4294967296 ->
  chksum_words fuel m ps len sum =
    (sum + wsum false (slice m ps (2 * (len / 2))), ps + 2 * (len / 2), len mod 2).
Proof.
  intros Hm. revert ps len sum. induction fuel as [|fuel IH]; intros ps len sum Hl Hs Hb.
  { assert (len = 0) as -> by lia. change (0 / 2) with 0. rewrite slice_nil by lia.
    cbn [wsum chksum_words]. by rewrite !Z.mul_0_r, !Z.add_0_r. }
  cbn [chksum_words]. rewrite Z.gtb_ltb. destruct (Z.ltb_spec 1 len).
  - pose proof (Hm ps) as H1. pose proof (Hm (ps + 1)) as H2. unfold is_byte in *.
    assert (len / 2 = (len - 2) / 2 + 1) as Eh by zdiv.
    rewrite u32_small by zdiv. rewrite IH by zdiv.
    replace (len mod 2) with ((len - 2) mod 2) by zdiv. rewrite Eh.
    replace (2 * ((len - 2) / 2 + 1)) with (2 + 2 * ((len - 2) / 2)) by lia.
    rewrite <- (slice_app m ps 2 (2 * ((len - 2) / 2))) by zdiv.
    f_equal; f_equal; [|lia]. rewrite wsum_app.
    change (slice m ps 2) with [m (ps + 0); m (ps + 1)]. rewrite Z.add_0_r.
    change (xorb false (Nat.odd (length [m ps; m (ps + 1)]))) with false. cbn [wsum negb]. lia.
  - assert (len / 2 = 0) as -> by zdiv. rewrite slice_nil by lia. cbn [wsum].
    replace (len mod 2) with len by zdiv. by rewrite !Z.mul_0_r, !Z.add_0_r.
Qed.

Lemma land1 a : (Z.land a 1 =? 0) = negb (Z.odd a).
Proof.
  change 1 with (Z.ones 1). rewrite Z.land_ones by lia. change (2 ^ 1) with 2.
  rewrite Zmod_odd. by destruct (Z.odd a).
Qed.

Lemma slice_cons m a n : 0 < n -> slice m a n = m a :: slice m (a + 1) (n - 1).
Proof.
  intros H. replace n with (1 + (n - 1)) at 1 by lia. rewrite <- (slice_app m a 1 (n - 1)) by lia.
  change (slice m a 1) with [m (a + 0)]. by rewrite Z.add_0_r.
Qed.

(** The words and the left-over byte from [a] on. *)
Lemma chksum_tail m a len : (forall i, is_byte (m i)) -> 0 <= len -> 65535 * (len / 2) < 4294967296 ->
  exists s ps l, chksum_words (Z.to_nat len) m a len 0 = (s, ps, l) /\
    s + (if l >? 0 then m ps else 0) = wsum false (slice m a len) /\ 0 <= s <= 65535 * (len / 2).
Proof.
  intros Hm Hl Hb. rewrite chksum_words_spec by (done || lia). eexists _, _, _. split; [done|].
  assert (bytes (slice m a (2 * (len / 2)))) as Hby by by apply bytes_slice.
  split.
  - rewrite Z.add_0_l. replace (slice m a len) with (slice m a (2 * (len / 2) + len mod 2)) by (f_equal; zdiv).
    rewrite <- slice_app by zdiv. rewrite wsum_app, length_slice.
    replace (Z.to_nat (2 * (len / 2))) with (2 * Z.to_nat (len / 2))%nat by zdiv.
    rewrite Nat.odd_mul. cbn [Nat.odd andb xorb negb]. f_equal.
    assert (len mod 2 = 0 \/ len mod 2 = 1) as [-> | ->] by zdiv; [by rewrite slice_nil|].
    rewrite slice_cons, slice_nil by lia. cbn. lia.
  - pose proof (wsum_nonneg false _ Hby). split; [lia|]. rewrite Z.add_0_l.
    apply wsum_bound; [done|]. rewrite length_slice. zdiv.
Qed.

(** [lwip_standard_chksum] is the ones'-complement sum, at any alignment. *)
Lemma lwip_standard_chksum_oc m a len :
  (forall i, is_byte (m i)) -> 0 <= len <= 0x1ffff ->
  oc (lwip_standard_chksum m a len) (wsum false (slice m a len)).
Proof.
  intros Hm Hl. unfold lwip_standard_chksum. rewrite land1, negb_involutive.
  pose proof (wsum_nonneg false (slice m a len) (bytes_slice _ _ _ Hm)) as Hn.
  assert (forall c x, oc c x -> oc (u16 c) x) as Hu.
  { intros c x H. by rewrite u16_small by (destruct H as [? _]; lia). }
  destruct (Z.odd a) eqn:Eo; cbn [andb].
  - rewrite Z.gtb_ltb. destruct (Z.ltb_spec 0 len) as [Hp|Hp].
    + destruct (chksum_tail m (a + 1) (len - 1) Hm) as (s & ps & l & -> & Hs & Hb); [lia|zdiv|].
      apply Hu. pose proof (Hm a) as Ha. unfold is_byte in Ha.
      set (t0 := if l >? 0 then m ps else 0) in *.
      assert (s + (t0 + 256 * m a) = wsum true (slice m a len)) as Et.
      { rewrite (slice_cons m a len) by lia. cbn [wsum negb]. lia. }
      pose proof (wsum_nonneg true (slice m a len) (bytes_slice _ _ _ Hm)) as Hn'.
      assert (wsum true (slice m a len) <= 65535 * 65536) as Hle.
      { apply wsum_bound; [by apply bytes_slice|]. rewrite length_slice. lia. }
      rewrite Et, u32_small by lia.
      eapply swap_oc; [apply fold_twice; lia|done| |].
      * rewrite !wsum_zero by by apply bytes_slice. done.
      * apply (wsum_swap true).
    + assert (len = 0) as -> by lia. vm_compute. repeat split; try discriminate; try done. by exists 0.
  - destruct (chksum_tail m a len Hm) as (s & ps & l & -> & Hs & Hb); [lia|zdiv|].
    apply Hu. rewrite Z.mul_0_r, Z.add_0_r, Hs.
    assert (wsum false (slice m a len) <= 65535 * 65536) as Hle.
    { apply wsum_bound; [by apply bytes_slice|]. rewrite length_slice. lia. }
    rewrite u32_small by lia. apply fold_twice. lia.
Qed.

Lemma odd_to_nat n : 0 <= n -> Nat.odd (Z.to_nat n) = negb (n mod 2 =? 0).
Proof.
  intros H. destruct (Nat.odd (Z.to_nat n)) eqn:E.
  - apply Nat.odd_spec in E as [k Hk]. destruct (Z.eqb_spec (n mod 2) 0); [zdiv|done].
  - rewrite <- Nat.negb_even in E. apply negb_false_iff, Nat.even_spec in E as [k Hk].
    destruct (Z.eqb_spec (n mod 2) 0); [done|zdiv].
Qed.

(** *** Chains

    [acc] stands for [x], byte-swapped when [sw]. *)
Definition stands (acc x : Z) (sw : bool) : Prop :=
  0 <= x /\ exists y, oc acc y /\ (y = 0 <-> x = 0) /\
    exists k, y = (if sw then 256 else 1) * x + 65535 * k.

Lemma stands_add acc x sw c l :
  stands acc x sw -> bytes l -> oc c (wsum false l) ->
  stands (FOLD_U32T (u32 (acc + c))) (x + wsum sw l) sw.
Proof.
  intros (Hx & y & Hy & H0 & [k Hk]) Hl Hc.
  pose proof (wsum_nonneg false l Hl) as Hn. pose proof (wsum_nonneg sw l Hl) as Hn'.
  pose proof (wsum_zero false l Hl) as Z1. pose proof (wsum_zero sw l Hl) as Z2.
  destruct Hy as (Y1 & Y2 & [q Hq] & Y3), Hc as (C1 & C2 & [r Hr] & C3).
  rewrite u32_small by lia. split; [lia|]. exists (y + wsum false l). split; [|split].
  - destruct (fold_small (acc + c) (acc + c) ltac:(lia) eq_refl) as (A & B & [s Hs] & C).
    split; [done|]. split; [lia|]. split; [exists (q + r + s); lia|lia].
  - rewrite <- Z1 in Z2. clear Z1. clear Hk Hq Hr. lia.
  - destruct sw; [|exists k; lia]. destruct (wsum_swap true l) as [j Hj]. cbn [negb] in Hj.
    exists (k + j). lia.
Qed.

Lemma stands_swap acc x sw : stands acc x sw -> stands (SWAP_BYTES_IN_WORD acc) x (negb sw).
Proof.
  intros (Hx & y & Hy & H0 & [k Hk]). split; [done|]. exists (256 * y). split; [|split].
  - apply (swap_oc acc y); [done|destruct Hy; lia|lia|exists 0; lia].
  - lia.
  - destruct sw; cbn [negb]; [exists (x + 256 * k); lia|exists (256 * k); lia].
Qed.

Lemma stands_finish acc x sw : stands acc x sw ->
  oc (if sw then SWAP_BYTES_IN_WORD acc else acc) x.
Proof.
  intros H. assert (stands (if sw then SWAP_BYTES_IN_WORD acc else acc) x false) as (Hx & y & Hy & H0 & [k Hk]).
  { destruct sw; [by apply (stands_swap acc x true)|done]. }
  destruct Hy as (Y1 & Y2 & [q Hq] & Y3). split; [done|]. split; [done|].
  split; [exists (q - k); lia|lia].
Qed.

Lemma chain_sum_spec fuel p ps acc x sw h :
  chain_at (pbufs h) p ps -> wf_chain ps -> mem_ok (pmem h) -> (length ps < fuel)%nat ->
  stands acc x sw ->
  exists acc' sw', chain_sum fuel p acc sw h = Ret (acc', sw') /\
    stands acc' (x + wsum sw (chain_data (pmem h) ps)) sw'.
Proof.
  intros Hc Hw Hm. revert p ps acc x sw Hc Hw. induction fuel as [|fuel IH];
    intros p ps acc x sw Hc Hw Hf Hs; [lia|]. cbn [chain_sum]. destruct ps as [|[a b] ps].
  { cbn in Hc. subst p. exists acc, sw. split; [done|]. by rewrite Z.add_0_r. }
  pose proof (pget_chain _ _ _ _ _ Hc) as Hg. destruct Hc as (-> & Ha & Hb & Hr).
  pose proof (tot_bound _ Hw) as Htb. destruct Hw as (W1 & W2 & W3 & W4).
  pose proof (tot_nonneg _ W4) as Htn. destruct (Z.eqb_spec a NULL) as [|_]; [done|].
  rewrite Hg. cbn [res_bind]. set (l := mem_read (pmem h) (payload b) (p_len b)).
  assert (bytes l) as Hl by by apply bytes_mem_read.
  assert (oc (lwip_standard_chksum (mload (pmem h)) (payload b) (p_len b)) (wsum false l)) as Hoc.
  { replace l with (slice (mload (pmem h)) (payload b) (p_len b)).
    - apply lwip_standard_chksum_oc; [done|lia].
    - apply slice_ext. intros i _. done. }
  pose proof (stands_add _ _ _ _ _ Hs Hl Hoc) as Hs1.
  rewrite chain_data_cons. fold l. rewrite wsum_app, Z.add_assoc.
  assert (Nat.odd (length l) = negb (p_len b mod 2 =? 0)) as Eo.
  { unfold l. rewrite length_mem_read. by apply odd_to_nat. }
  rewrite Eo. destruct (p_len b mod 2 =? 0); cbn [negb].
  - rewrite xorb_false_r. apply IH; [done|done|cbn in Hf; lia|done].
  - rewrite xorb_true_r. apply IH; [done|done|cbn in Hf; lia|by apply stands_swap].
Qed.

Lemma chksum_standard_eq m a len :
  (forall i, is_byte (m i)) -> 0 <= len <= 0x1ffff ->
  lwip_standard_chksum m a len = ones16 (wsum false (slice m a len)) /\
  inet_chksum m a len = rfc1071 (slice m a len).
Proof.
  intros Hm Hl. pose proof (lwip_standard_chksum_oc m a len Hm Hl) as H.
  pose proof (oc_unique _ _ H) as E. split; [done|]. unfold inet_chksum, rfc1071.
  rewrite oc_lnot by apply H. by rewrite E.
Qed.

Lemma chksum_pbuf_eq h p ps :
  chain_at (pbufs h) p ps -> wf_chain ps -> mem_ok (pmem h) ->
  inet_chksum_pbuf p h = Ret (rfc1071 (chain_data (pmem h) ps)).
Proof.
  intros Hc Hw Hm.
  destruct (chain_sum_spec (chain_fuel h) p ps 0 0 false h Hc Hw Hm) as (acc & sw & E & Hs).
  - by apply chain_length_le with (p := p).
  - split; [done|]. exists 0. split; [|split; [done|by exists 0]]. split; [lia|]. split; [lia|].
    split; [by exists 0|done].
  - unfold inet_chksum_pbuf. rewrite E. cbn [res_bind]. apply stands_finish in Hs. rewrite Z.add_0_l in Hs.
    rewrite land16, Z.mod_small, oc_lnot by (destruct Hs as [? _]; lia).
    unfold rfc1071. by rewrite (oc_unique _ _ Hs).
Qed.

(** ** Theorems *)

(** C36. lwip_standard_chksum (two bytes at a time, with the fix-ups for an odd
    start and an odd length) is the RFC 1071 sum of its bytes, at every
    alignment, for up to 0x1ffff bytes; inet_chksum is its complement. *)
Theorem chksum_standard_correct m a len :
  (forall i, is_byte (m i)) -> 0 <= len <= 0x1ffff ->
  lwip_standard_chksum m a len = ones16 (wsum false (slice m a len)) /\
  inet_chksum m a len = rfc1071 (slice m a len).
Proof. apply chksum_standard_eq. Qed.

(** C39. The checksum of a pbuf chain does not depend on how the packet is split
    or aligned: for every well-formed chain (lengths and total lengths agree, [wf_chain]) over
    byte memory, with pbufs of odd lengths and at odd addresses too,
    inet_chksum_pbuf is the RFC 1071 checksum of the concatenated bytes of the chain. *)
Theorem chksum_pbuf_correct h p ps :
  chain_at (pbufs h) p ps -> wf_chain ps -> mem_ok (pmem h) ->
  inet_chksum_pbuf p h = Ret (rfc1071 (chain_data (pmem h) ps)).
Proof. apply chksum_pbuf_eq. Qed.

(** The 16-bit words of the pseudo header, as stored. *)
Definition pseudo_words (proto proto_len src dest : Z) : Z :=
  src mod 65536 + src / 65536 + (dest mod 65536 + dest / 65536) +
  lwip_htons proto + lwip_htons proto_len.

Lemma pseudo_addrs_oc src dest : 0 <= src < 4294967296 -> 0 <= dest < 4294967296 ->
  oc (pseudo_addrs src dest) (src mod 65536 + src / 65536 + (dest mod 65536 + dest / 65536)).
Proof.
  intros Hs Hd. unfold pseudo_addrs.
  assert (forall a, 0 <= a < 4294967296 -> Z.land (Z.shiftr a 16) 65535 = a / 65536) as Hhi.
  { intros a Ha. rewrite Z.shiftr_div_pow2 by lia. change (2 ^ 16) with 65536.
    rewrite land16 by zdiv. apply Z.mod_small. zdiv. }
  rewrite !Hhi, !land16 by lia. rewrite (u32_small (src mod 65536 + src / 65536)) by zdiv.
  rewrite (u32_small (_ + dest mod 65536)), (u32_small (_ + dest / 65536)) by zdiv.
  rewrite (Z.add_assoc (src mod 65536 + src / 65536)). apply fold_twice. zdiv.
Qed.

Lemma htons_range x : 0 <= x < 65536 -> 0 <= lwip_htons x <= 65535.
Proof.
  intros H. change (lwip_htons x) with (SWAP_BYTES_IN_WORD x). rewrite swap_eq by lia. zdiv.
Qed.

(** The TCP/UDP checksum over the IPv4 pseudo header and a pbuf chain is
    the complement of the ones'-complement sum of the addresses, protocol,
    length and all data bytes of the chain, whatever its split. *)
Lemma chksum_pseudo_correct h p ps proto proto_len src dest :
  chain_at (pbufs h) p ps -> wf_chain ps -> mem_ok (pmem h) ->
  0 <= proto < 256 -> 0 <= proto_len < 65536 ->
  0 <= src < 4294967296 -> 0 <= dest < 4294967296 ->
  inet_chksum_pseudo p proto proto_len src dest h =
    Ret (65535 - ones16 (pseudo_words proto proto_len src dest + wsum false (chain_data (pmem h) ps))).
Proof.
  intros Hc Hw Hm Hp Hl Hs Hd. set (A := src mod 65536 + src / 65536 + (dest mod 65536 + dest / 65536)).
  pose proof (pseudo_addrs_oc src dest Hs Hd) as HA. fold A in HA.
  destruct (chain_sum_spec (chain_fuel h) p ps (pseudo_addrs src dest) A false h Hc Hw Hm)
    as (acc & sw & E & Hst).
  - by apply chain_length_le with (p := p).
  - split; [apply HA|]. exists A. split; [done|]. split; [done|exists 0; lia].
  - unfold inet_chksum_pseudo, inet_cksum_pseudo_base. rewrite E. cbn [res_bind]. f_equal.
    apply stands_finish in Hst. unfold pseudo_finish, pseudo_words. fold A.
    set (acc' := if sw then _ else acc) in *. set (d := wsum false _) in *.
    pose proof (htons_range (u16 proto) ltac:(rewrite u16_small; lia)) as H1.
    pose proof (htons_range proto_len Hl) as H2. rewrite (u16_small proto) in * by lia.
    destruct Hst as (B1 & B2 & [q Hq] & B3).
    rewrite (u32_small (acc' + lwip_htons proto)), (u32_small (_ + lwip_htons proto_len)) by lia.
    destruct (fold_twice (acc' + lwip_htons proto + lwip_htons proto_len) ltac:(lia)) as (F1 & F2 & [r Hr] & F3).
    rewrite land16, Z.mod_small, oc_lnot by lia. f_equal. apply oc_unique.
    split; [done|]. split; [lia|]. split; [exists (q + r); lia|lia].
Qed.

Lemma wsum_insert l i c : bytes l -> 0 <= c <= 65535 ->
  (2 * i + 2 <= length l)%nat -> l !! (2 * i)%nat = Some 0 -> l !! (2 * i + 1)%nat = Some 0 ->
  wsum false (<[(2 * i)%nat := c mod 256]> (<[(2 * i + 1)%nat := c / 256]> l)) = wsum false l + c.
Proof.
  intros Hb Hc. revert l Hb. induction i as [|i IH]; intros l Hb Hl H0 H1.
  - destruct l as [|x [|y l]]; cbn in *; try lia. injection H0 as ->. injection H1 as ->. zdiv.
  - destruct l as [|x [|y l]]; cbn [length] in *; try lia.
    replace (2 * S i)%nat with (S (S (2 * i))) in * by lia.
    replace (S (S (2 * i)) + 1)%nat with (S (S (2 * i + 1))) in * by lia. cbn in H0, H1.
    unfold bytes in Hb. inversion Hb as [|? ? _ Hb']; subst. inversion Hb'; subst.
    change (wsum false (x :: y :: <[(2 * i)%nat := c mod 256]> (<[(2 * i + 1)%nat := c / 256]> l)) =
      wsum false (x :: y :: l) + c).
    cbn [wsum negb]. rewrite (IH l) by (done || lia). lia.
Qed.

(** A checksum verifies: storing inet_chksum of a header whose checksum
    field (two bytes at an even offset) is zero into that field makes
    inet_chksum of the header 0, which is what ip4_input and icmp_input test. *)
Theorem chksum_verifies m m' a len i :
  (forall x, is_byte (m x)) -> (forall x, is_byte (m' x)) -> 0 <= len <= 0x1ffff ->
  2 * Z.of_nat i + 2 <= len -> m (a + 2 * Z.of_nat i) = 0 -> m (a + 2 * Z.of_nat i + 1) = 0 ->
  slice m' a len = <[(2 * i)%nat := inet_chksum m a len mod 256]>
    (<[(2 * i + 1)%nat := inet_chksum m a len / 256]> (slice m a len)) ->
  inet_chksum m' a len = 0.
Proof.
  intros Hm Hm' Hl Hi H0 H1 Hs.
  pose proof (lwip_standard_chksum_oc m a len Hm Hl) as (C1 & C2 & [q Hq] & C3).
  pose proof (lwip_standard_chksum_oc m' a len Hm' Hl) as (D1 & D2 & [r Hr] & D3).
  unfold inet_chksum in *. rewrite oc_lnot in * by lia.
  set (c := 65535 - lwip_standard_chksum m a len) in *.
  assert (wsum false (slice m' a len) = wsum false (slice m a len) + c) as E.
  { rewrite Hs. apply wsum_insert.
    - by apply bytes_slice.
    - lia.
    - rewrite length_slice. lia.
    - rewrite lookup_slice by lia. f_equal. rewrite <- H0. f_equal. lia.
    - rewrite lookup_slice by lia. f_equal. rewrite <- H1. f_equal. lia. }
  rewrite E in D2, Hr, D3. clear E Hs. lia.
Qed.

Definition odd_bytes : reader := fun a => a mod 7 + 200.
Lemma odd_bytes_ok i : is_byte (odd_bytes i).
Proof. unfold odd_bytes, is_byte. zdiv. Qed.

Lemma chksum_standard_correct_witness :
  lwip_standard_chksum odd_bytes 3 5 = ones16 (wsum false (slice odd_bytes 3 5)) /\
  inet_chksum odd_bytes 3 5 = rfc1071 (slice odd_bytes 3 5).
Proof. apply (chksum_standard_correct odd_bytes 3 5 odd_bytes_ok). lia. Defined.

(** Three bytes in two pbufs, the first of odd length. *)
Definition sum_heap : pheap :=
  mkPheap {[ 1000 := mkPbuf 1100 5000 3 1 0x80 0 1 0; 1100 := mkPbuf 0 6001 2 2 0x80 0 1 0 ]}
    (mem_write (mem_write ∅ 5000 [255]) 6001 [1; 2]).
Definition sum_chain : list (Z * pbuf) :=
  [(1000, mkPbuf 1100 5000 3 1 0x80 0 1 0); (1100, mkPbuf 0 6001 2 2 0x80 0 1 0)].
Lemma sum_chain_ok :
  chain_at (pbufs sum_heap) 1000 sum_chain /\ wf_chain sum_chain /\ mem_ok (pmem sum_heap).
Proof.
  split; [by repeat split|]. split; [cbn; lia|]. apply mem_ok_mem_write, mem_ok_mem_write, mem_ok_empty.
Qed.

Lemma chksum_pbuf_correct_witness : inet_chksum_pbuf 1000 sum_heap = Ret (rfc1071 [255; 1; 2]).
Proof.
  destruct sum_chain_ok as (H1 & H2 & H3). exact (chksum_pbuf_correct sum_heap 1000 sum_chain H1 H2 H3).
Defined.

Lemma chksum_pseudo_correct_witness :
  inet_chksum_pseudo 1000 6 3 0x0100007f 0x0200007f sum_heap =
    Ret (65535 - ones16 (pseudo_words 6 3 0x0100007f 0x0200007f + wsum false [255; 1; 2])).
Proof.
  destruct sum_chain_ok as (H1 & H2 & H3).
  exact (chksum_pseudo_correct sum_heap 1000 sum_chain 6 3 0x0100007f 0x0200007f H1 H2 H3
    ltac:(lia) ltac:(lia) ltac:(lia) ltac:(lia)).
Defined.

Definition hdr_sum : Z := inet_chksum (list_reader [69; 0; 1; 2; 0; 0]) 0 6.
Definition hdr_bytes (c : Z) : list Z := [69; 0; 1; 2; c mod 256; c / 256].
Lemma chksum_verifies_witness : inet_chksum (list_reader (hdr_bytes hdr_sum)) 0 6 = 0.
Proof.
  apply (chksum_verifies (list_reader [69; 0; 1; 2; 0; 0]) _ 0 6 2).
  - intros x. apply list_reader_byte. repeat constructor; discriminate.
  - intros x. apply list_reader_byte. vm_compute. repeat constructor; discriminate.
  - lia.
  - lia.
  - reflexivity.
  - reflexivity.
  - vm_compute. reflexivity.
Defined.
