(* ===== verification/Timeouts.v ===== *)
(** * lwip-2.2.0/src/core/timeouts.c: the timers net_poll drives

    The list of one-shot timeouts, ordered by due time on the 32-bit
    millisecond clock, and the cyclic protocol timers that re-arm themselves.
    The linked list is modelled by the list of its nodes; what a protocol's
    timer handler does to the protocol's state is a variable (none of them
    touches the timeout list). *)
From S2P Require Import Prelude.
From Stdlib Require Import Sorting.Sorted.

Definition LWIP_MAX_TIMEOUT : Z := 0x7fffffff.
Definition SYS_TIMEOUTS_SLEEPTIME_INFINITE : Z := 0xFFFFFFFF.
Definition TCP_TMR_INTERVAL : Z := 250.
Definition IP_TMR_INTERVAL : Z := 1000.
Definition ARP_TMR_INTERVAL : Z := 1000.
Definition DHCP_COARSE_TIMER_MSECS : Z := 60000.
Definition DHCP_FINE_TIMER_MSECS : Z := 500.

Definition TIME_LESS_THAN (t compare_to : Z) : bool := u32 (t - compare_to) >? LWIP_MAX_TIMEOUT.

(** lwip_cyclic_timers for this configuration: the intervals of tcp_tmr,
    ip_reass_tmr, etharp_tmr, dhcp_coarse_tmr and dhcp_fine_tmr. *)
Definition lwip_cyclic_timers : list Z :=
  [TCP_TMR_INTERVAL; IP_TMR_INTERVAL; ARP_TMR_INTERVAL; DHCP_COARSE_TIMER_MSECS; DHCP_FINE_TIMER_MSECS].

(** A callback and its argument: tcpip_tcp_timer, or lwip_cyclic_timer with
    [&lwip_cyclic_timers[i]]. *)
Inductive timer_fn := FTcp | FCyclic (i : nat).
#[export] Instance timer_fn_eq_dec : EqDecision timer_fn.
Proof. solve_decision. Defined.

(** struct sys_timeo *)
Record sys_timeo := mkTimeo { to_time : Z; to_fn : timer_fn }.

(** The static variables, the number of clock readings so far, and the state
    the protocol handlers work on. *)
Record timers (W : Type) := mkTimers {
  next_timeout : list sys_timeo;
  current_timeout_due_time : Z;
  tcpip_tcp_timer_active : bool;
  reading : nat;
  protos : W;
}.
Arguments mkTimers {W}.
Arguments next_timeout {W}.
Arguments current_timeout_due_time {W}.
Arguments tcpip_tcp_timer_active {W}.
Arguments reading {W}.
Arguments protos {W}.

(** The loop of sys_timeout_abs: the node goes in front of the first later
    one. *)
Fixpoint timeout_insert (x : sys_timeo) (l : list sys_timeo) : list sys_timeo :=
  match l with
  | [] => [x]
  | y :: r => if TIME_LESS_THAN (to_time x) (to_time y) then x :: y :: r else y :: timeout_insert x r
  end.

(** The loop of sys_untimeout. *)
Fixpoint timeout_remove (f : timer_fn) (l : list sys_timeo) : list sys_timeo :=
  match l with
  | [] => []
  | y :: r => if bool_decide (to_fn y = f) then r else y :: timeout_remove f r
  end.

Section Timeouts.
Context {W : Type}.
(** sys_now() at the n-th reading; the handler of the i-th cyclic timer;
    whether tcp_active_pcbs or tcp_tw_pcbs is not empty; whether memp_malloc
    finds memory for a node after the n-th reading of the clock (every
    allocation follows a reading of its own). *)
Variables (now : nat -> Z) (memp_ok : nat -> bool) (tmr : nat -> W -> W) (tcp_busy : W -> bool).
Implicit Types st : timers W.

Definition set_list (l : list sys_timeo) st : timers W :=
  mkTimers l (current_timeout_due_time st) (tcpip_tcp_timer_active st) (reading st) (protos st).
Definition read_clock st : Z * timers W :=
  (u32 (now (reading st)), mkTimers (next_timeout st) (current_timeout_due_time st)
     (tcpip_tcp_timer_active st) (S (reading st)) (protos st)).
Definition set_tcp (b : bool) st : timers W :=
  mkTimers (next_timeout st) (current_timeout_due_time st) b (reading st) (protos st).
Definition run_proto (i : nat) st : timers W :=
  mkTimers (next_timeout st) (current_timeout_due_time st) (tcpip_tcp_timer_active st) (reading st)
    (tmr i (protos st)).

(** Out of memory, the assertion aborts the program. *)
Definition sys_timeout_abs (abs_time : Z) (f : timer_fn) st : res (timers W) :=
  if memp_ok (reading st)
  then Ret (set_list (timeout_insert (mkTimeo abs_time f) (next_timeout st)) st)
  else Undef.

(** The assertion bounds the delay. *)
Definition sys_timeout (msecs : Z) (f : timer_fn) st : res (timers W) :=
  if msecs <=? 0xFFFFFFFF / 4 then
    let '(t, st) := read_clock st in sys_timeout_abs (u32 (t + msecs)) f st
  else Undef.

Definition sys_untimeout (f : timer_fn) st : timers W :=
  set_list (timeout_remove f (next_timeout st)) st.

Definition tcpip_tcp_timer st : res (timers W) :=
  let st := run_proto 0 st in
  if tcp_busy (protos st) then sys_timeout TCP_TMR_INTERVAL FTcp st else Ret (set_tcp false st).

Definition tcp_timer_needed st : res (timers W) :=
  if negb (tcpip_tcp_timer_active st) && tcp_busy (protos st)
  then sys_timeout TCP_TMR_INTERVAL FTcp (set_tcp true st)
  else Ret st.

Definition lwip_cyclic_timer (i : nat) st : res (timers W) :=
  let* interval := res_of_option (lwip_cyclic_timers !! i) in
  let st := run_proto i st in
  let '(t, st) := read_clock st in
  let next_timeout_time := u32 (current_timeout_due_time st + interval) in
  if TIME_LESS_THAN next_timeout_time t
  then sys_timeout_abs (u32 (t + interval)) (FCyclic i) st
  else sys_timeout_abs next_timeout_time (FCyclic i) st.

Definition call_timer (f : timer_fn) st : res (timers W) :=
  match f with FTcp => tcpip_tcp_timer st | FCyclic i => lwip_cyclic_timer i st end.

Fixpoint start_timers (l : list nat) st : res (timers W) :=
  match l with
  | [] => Ret st
  | i :: r =>
      let* interval := res_of_option (lwip_cyclic_timers !! i) in
      let* st := sys_timeout interval (FCyclic i) st in start_timers r st
  end.
Definition sys_timeouts_init st : res (timers W) :=
  start_timers (seq 1 (length lwip_cyclic_timers - 1)) st.

(** The loop of sys_check_timeouts; [t] is the time when it was entered. *)
Fixpoint check_loop (fuel : nat) (t : Z) st : res (timers W) :=
  match fuel with
  | O => NoFuel
  | S k =>
      match next_timeout st with
      | [] => Ret st
      | x :: r =>
          if TIME_LESS_THAN t (to_time x) then Ret st
          else
            let* st := call_timer (to_fn x)
              (mkTimers r (to_time x) (tcpip_tcp_timer_active st) (reading st) (protos st)) in
            check_loop k t st
      end
  end.
Definition sys_check_timeouts (fuel : nat) st : res (timers W) :=
  let '(t, st) := read_clock st in check_loop fuel t st.

Definition rebase (base t : Z) (x : sys_timeo) : sys_timeo :=
  mkTimeo (u32 (u32 (to_time x - base) + t)) (to_fn x).
Definition sys_restart_timeouts st : timers W :=
  match next_timeout st with
  | [] => st
  | x :: _ =>
      let '(t, st) := read_clock st in
      set_list (rebase (to_time x) t <$> next_timeout st) st
  end.

Definition sys_timeouts_sleeptime st : res (Z * timers W) :=
  match next_timeout st with
  | [] => Ret (SYS_TIMEOUTS_SLEEPTIME_INFINITE, st)
  | x :: _ =>
      let '(t, st) := read_clock st in
      if TIME_LESS_THAN (to_time x) t then Ret (0, st)
      else
        let ret := u32 (to_time x - t) in
        if ret <=? LWIP_MAX_TIMEOUT then Ret (ret, st) else Undef
  end.
End Timeouts.

(** ** Time on a 32-bit clock

    Times are compared by their distance from a base less than 2^31 ms (24.8
    days) in the past. *)
Definition since (base t : Z) : Z := u32 (t - base).
Definition HORIZON : Z := 2147483648.

Lemma since_range base t : 0 <= since base t < 4294967296.
Proof. apply u32_range. Qed.

Lemma time_less_spec base t c : since base t < HORIZON -> since base c < HORIZON ->
  TIME_LESS_THAN t c = (since base t <? since base c).
Proof.
  unfold since, HORIZON, TIME_LESS_THAN, LWIP_MAX_TIMEOUT. rewrite Z.gtb_ltb. unfold u32. intros H1 H2.
  destruct (Z.ltb_spec 2147483647 ((t - c) mod 4294967296)),
    (Z.ltb_spec ((t - base) mod 4294967296) ((c - base) mod 4294967296)); try done; zdiv.
Qed.

Lemma since_add base t d : since base t + d < 4294967296 -> 0 <= d ->
  since base (u32 (t + d)) = since base t + d.
Proof. unfold since, u32. intros H1 H2. zdiv. Qed.

(** ** The list is sorted *)
Definition due (base : Z) (x : sys_timeo) : Z := since base (to_time x).
Definition sorted (base : Z) (l : list sys_timeo) : Prop :=
  Forall (fun x => due base x < HORIZON) l /\ StronglySorted (fun x y => due base x <= due base y) l.

Lemma timeout_insert_elem x l y : y ∈ timeout_insert x l <-> y = x \/ y ∈ l.
Proof.
  induction l as [|z l IH]; cbn [timeout_insert].
  - rewrite list_elem_of_singleton. split; [by left|]. by intros [?|?%not_elem_of_nil].
  - destruct (TIME_LESS_THAN _ _); rewrite !elem_of_cons, ?IH; tauto.
Qed.

Lemma timeout_insert_perm x l : timeout_insert x l ≡ₚ x :: l.
Proof.
  induction l as [|z l IH]; cbn [timeout_insert]; [done|].
  destruct (TIME_LESS_THAN _ _); [done|]. rewrite IH. apply Permutation_swap.
Qed.

Lemma timeout_insert_sorted base x l : due base x < HORIZON -> sorted base l ->
  sorted base (timeout_insert x l).
Proof.
  intros Hx [Hl Hs]. split.
  - rewrite timeout_insert_perm. by constructor.
  - induction Hs as [|y l Hs IH Hy]; cbn [timeout_insert]; [repeat constructor|].
    inversion Hl as [|? ? Hyl Hll]; subst.
    rewrite (time_less_spec base) by done. fold (due base x) (due base y).
    destruct (Z.ltb_spec (due base x) (due base y)).
    + constructor; [by constructor|]. constructor; [lia|].
      eapply Forall_impl; [exact Hy|]. cbn. lia.
    + constructor; [by apply IH|]. rewrite timeout_insert_perm. by constructor.
Qed.

(** ** Checking the timeouts *)
Section Check.
Context {W : Type}.
Variables (now : nat -> Z) (memp_ok : nat -> bool) (tmr : nat -> W -> W) (tcp_busy : W -> bool).
Implicit Types st : timers W.

(** There is memory for the nodes, the clock does not go back, and no timer or reading is more than 2^31 ms
    minus the longest interval from the base. *)
Variables (base : Z).
Definition LIMIT : Z := HORIZON - 60000.
Context (Hmem : forall n, memp_ok n = true).
Context (Hmono : forall m n, (m <= n)%nat -> since base (now m) <= since base (now n)).
Context (Hfar : forall n, since base (now n) < LIMIT).

Lemma since_u32 t : since base (u32 t) = since base t.
Proof. unfold since, u32. zdiv. Qed.

(** The pending timers: in order, no callback twice, no unknown timer. *)
Definition fns (l : list sys_timeo) : list timer_fn := to_fn <$> l.
Record list_ok (l : list sys_timeo) : Prop := {
  lo_sorted : sorted base l;
  lo_known : forall i, FCyclic i ∈ fns l -> (i < 5)%nat;
  lo_once : NoDup (fns l);
}.

(** How often a timer can still fire in a round entered at [t0]. *)
Definition weight (t0 : Z) (x : sys_timeo) : nat :=
  if due base x <? t0 then 2 else if due base x =? t0 then 1 else 0.
Definition weights (t0 : Z) (l : list sys_timeo) : nat := sum_list_with (weight t0) l.

Lemma weights_bound t0 l : (weights t0 l <= 2 * length l)%nat.
Proof.
  unfold weights. induction l as [|x l IH]; cbn; [lia|]. unfold weight at 1.
  destruct (_ <? _); [lia|]. destruct (_ =? _); lia.
Qed.

Lemma list_ok_insert x l : due base x < HORIZON -> list_ok l -> to_fn x ∉ fns l ->
  (forall i, to_fn x = FCyclic i -> (i < 5)%nat) -> list_ok (timeout_insert x l).
Proof.
  intros Hx [H1 H2 H3] Hn Hk. split.
  - by apply timeout_insert_sorted.
  - intros i. unfold fns. rewrite timeout_insert_perm. intros [E|Hi]%elem_of_cons; [by apply Hk|by apply H2].
  - unfold fns. rewrite timeout_insert_perm. by constructor.
Qed.

Lemma list_ok_tail x l : list_ok (x :: l) -> list_ok l /\ to_fn x ∉ fns l.
Proof.
  intros [[H1 H1'] H2 H3]. inversion H1; subst. inversion H1'; subst. unfold fns in *.
  apply NoDup_cons in H3 as [H3 H3']. split; [|done]. split; [done| |done].
  intros i Hi. apply H2. by constructor.
Qed.

Lemma interval_of i : (i < 5)%nat -> exists n, lwip_cyclic_timers !! i = Some n /\ 0 < n <= 60000.
Proof.
  intros Hi. do 5 (destruct i as [|i]; [eexists; split; [reflexivity|done]|]). lia.
Qed.

(** An expired timer that is put back for a later time: the list stays in
    order, no callback is lost, and less is due. *)
Lemma rearm_spec x r u T : list_ok (x :: r) -> since base u < HORIZON ->
  due base x <= T -> due base x < since base u -> T <= since base u ->
  list_ok (timeout_insert (mkTimeo u (to_fn x)) r) /\
  (weights T (timeout_insert (mkTimeo u (to_fn x)) r) < weights T (x :: r))%nat /\
  (forall i, FCyclic i ∈ fns (x :: r) -> FCyclic i ∈ fns (timeout_insert (mkTimeo u (to_fn x)) r)).
Proof.
  intros H Hu Hx Hxu HT. destruct (list_ok_tail _ _ H) as [Hr Hn]. split; [|split].
  - apply list_ok_insert; [done..|]. intros i Ei. apply (lo_known _ H). cbn in Ei. unfold fns. rewrite fmap_cons, Ei. constructor.
  - unfold weights. rewrite timeout_insert_perm. cbn. unfold weight at 1 3. change (due base (mkTimeo u (to_fn x))) with (since base u).
    destruct (Z.ltb_spec (since base u) T), (Z.eqb_spec (since base u) T), (Z.ltb_spec (due base x) T), (Z.eqb_spec (due base x) T); lia.
  - intros i. unfold fns. by rewrite timeout_insert_perm.
Qed.

(** Firing an expired timer: the list stays in order and the round gets
    closer to its end. *)
Lemma call_timer_spec x r t0 st :
  list_ok (x :: r) -> due base x <= since base (now t0) -> (t0 < reading st)%nat ->
  let st0 := mkTimers r (to_time x) (tcpip_tcp_timer_active st) (reading st) (protos st) in
  exists st', call_timer now memp_ok tmr tcp_busy (to_fn x) st0 = Ret st' /\ list_ok (next_timeout st') /\
    (weights (since base (now t0)) (next_timeout st') < weights (since base (now t0)) (x :: r))%nat /\
    (t0 < reading st')%nat /\
    (forall i, FCyclic i ∈ fns (x :: r) -> FCyclic i ∈ fns (next_timeout st')).
Proof.
  intros H Hd Ht st0. destruct (list_ok_tail _ _ H) as [Hr Hx].
  set (T := since base (now t0)) in *.
  assert (T <= since base (now (reading st))) as Hn by (apply Hmono; lia).
  pose proof (Hfar (reading st)) as Hf. pose proof (Hfar t0) as Hf0. fold T in Hf0.
  pose proof (since_range base (to_time x)) as Hr0. fold (due base x) in Hr0. unfold LIMIT in *.
  assert (forall u st', since base u < HORIZON -> due base x < since base u -> T <= since base u -> (t0 < reading st')%nat ->
    next_timeout st' = timeout_insert (mkTimeo u (to_fn x)) r ->
    list_ok (next_timeout st') /\ (weights T (next_timeout st') < weights T (x :: r))%nat /\ (t0 < reading st')%nat /\
    (forall i, FCyclic i ∈ fns (x :: r) -> FCyclic i ∈ fns (next_timeout st'))) as Hput.
  { intros u st' Hu Hxu HT Hrd ->. destruct (rearm_spec x r u T H Hu Hd Hxu HT) as (P1 & P2 & P3). by split_and!. }
  unfold HORIZON in *. destruct (to_fn x) as [|i] eqn:Ef; cbn [call_timer].
  - unfold tcpip_tcp_timer. destruct (tcp_busy _).
    + unfold sys_timeout. cbn [Z.leb TCP_TMR_INTERVAL]. change (250 <=? 4294967295 / 4) with true.
      cbn iota. cbn [read_clock]. unfold sys_timeout_abs. rewrite Hmem. cbn [reading run_proto st0].
      set (u := u32 (u32 (now (reading st)) + 250)).
      assert (since base u = since base (now (reading st)) + 250) as Eu.
      { unfold u. rewrite since_add by (rewrite ?since_u32; lia). by rewrite since_u32. }
      eexists. split; [reflexivity|]. apply (Hput u); [lia..|cbn; lia|done].
    + eexists. split; [reflexivity|]. cbn [next_timeout reading set_tcp run_proto st0].
      split; [done|]. split; [|split; [done|]].
      * unfold weights. cbn. unfold weight at 2. destruct (Z.ltb_spec (due base x) T), (Z.eqb_spec (due base x) T); lia.
      * intros j Hj. unfold fns in *. rewrite fmap_cons, Ef in Hj. by apply elem_of_cons in Hj as [?|?].
  - destruct (interval_of i) as (n & En & Hn0).
    { apply (lo_known _ H). unfold fns. rewrite fmap_cons, Ef. constructor. }
    unfold lwip_cyclic_timer. rewrite En. cbn [res_of_option res_bind read_clock reading run_proto st0 current_timeout_due_time].
    set (t' := u32 (now (reading st))).
    assert (since base t' = since base (now (reading st))) as Et' by apply since_u32.
    assert (since base (u32 (to_time x + n)) = due base x + n) as Ea by (apply since_add; unfold due in *; lia).
    assert (since base (u32 (t' + n)) = since base (now (reading st)) + n) as Eb by (rewrite since_add; lia).
    rewrite (time_less_spec base) by (unfold HORIZON; lia). rewrite Ea, Et'. unfold sys_timeout_abs. rewrite Hmem.
    destruct (Z.ltb_spec (due base x + n) (since base (now (reading st)))) as [Hlt|Hge]; (eexists; split; [reflexivity|]).
    + apply (Hput (u32 (t' + n))); [lia..|cbn; lia|done].
    + apply (Hput (u32 (to_time x + n))); [lia..|cbn; lia|done].
Qed.

Lemma check_loop_spec fuel t0 st :
  list_ok (next_timeout st) -> (t0 < reading st)%nat ->
  (weights (since base (now t0)) (next_timeout st) < fuel)%nat ->
  exists st', check_loop now memp_ok tmr tcp_busy fuel (u32 (now t0)) st = Ret st' /\
    list_ok (next_timeout st') /\
    Forall (fun x => since base (now t0) < due base x) (next_timeout st') /\
    (forall i, FCyclic i ∈ fns (next_timeout st) -> FCyclic i ∈ fns (next_timeout st')).
Proof.
  revert st. induction fuel as [|fuel IH]; intros st H Ht Hf; [lia|]. cbn [check_loop].
  destruct (next_timeout st) as [|x r] eqn:El.
  { exists st. rewrite El. by split_and!; [..|constructor|]. }
  pose proof (lo_sorted _ H) as [Hh Hs]. inversion Hh as [|? ? Hxh _]; subst.
  inversion Hs as [|? ? _ Hxr]; subst. pose proof (Hfar t0) as Hf0. unfold LIMIT, HORIZON in *.
  rewrite (time_less_spec base) by (rewrite ?since_u32; unfold HORIZON; fold (due base x); lia).
  rewrite since_u32. fold (due base x).
  destruct (Z.ltb_spec (since base (now t0)) (due base x)) as [Hlt|Hge].
  - exists st. rewrite El. split_and!; try done. constructor; [done|].
    eapply Forall_impl; [exact Hxr|]. cbn. lia.
  - destruct (call_timer_spec x r t0 st H Hge Ht) as (st1 & -> & H1 & Hw & Hr & Hk). cbn [res_bind].
    destruct (IH st1 H1 Hr) as (st' & E' & H' & Hall & Hk'); [lia|].
    exists st'. split_and!; try done. intros i Hi. apply Hk', Hk, Hi.
Qed.

(** C37. sys_check_timeouts ends and leaves nothing overdue: from any list of
    pending timers in order, after at most two calls per timer it returns;
    every timer still pending is due strictly after the time at which it was
    entered, the list is in order again, no callback is queued twice, and
    every cyclic timer that was pending still is.  (The clock may wrap; it
    must not run backwards, nothing may lie more than 2^31 ms apart, and
    memory must not run out.) *)
Theorem check_timeouts_terminates st :
  list_ok (next_timeout st) ->
  exists st', sys_check_timeouts now memp_ok tmr tcp_busy (S (2 * length (next_timeout st))) st = Ret st' /\
    list_ok (next_timeout st') /\
    Forall (fun x => since base (now (reading st)) < due base x) (next_timeout st') /\
    (forall i, FCyclic i ∈ fns (next_timeout st) -> FCyclic i ∈ fns (next_timeout st')).
Proof.
  intros H. unfold sys_check_timeouts, read_clock.
  apply (check_loop_spec _ (reading st) (mkTimers (next_timeout st) _ _ (S (reading st)) _)); [done|cbn; lia|].
  cbn [next_timeout]. pose proof (weights_bound (since base (now (reading st))) (next_timeout st)). lia.
Qed.
End Check.

(** ** Arming and cancelling *)
Section Arm.
Context {W : Type}.
Variables (now : nat -> Z) (memp_ok : nat -> bool) (base : Z).
Implicit Types st : timers W.

(** sys_timeout keeps the list in order on the wrapping clock: the new
    timer is due exactly [msecs] after now, the pending timers are the old
    ones and the new one, and it stands behind every timer that is due no
    later (so timers due together fire in the order they were armed). *)
Theorem timeout_armed st msecs f :
  sorted base (next_timeout st) -> 0 <= msecs <= 0xFFFFFFFF / 4 ->
  since base (now (reading st)) + msecs < HORIZON -> memp_ok (S (reading st)) = true ->
  exists st' x pre post, sys_timeout now memp_ok msecs f st = Ret st' /\
    next_timeout st = pre ++ post /\ next_timeout st' = pre ++ x :: post /\
    to_fn x = f /\ due base x = since base (now (reading st)) + msecs /\
    Forall (fun y => due base y <= due base x) pre /\ Forall (fun y => due base x < due base y) post /\
    sorted base (next_timeout st').
Proof.
  intros Hs Hm Hh Hmem. unfold sys_timeout. destruct (Z.leb_spec msecs (4294967295 / 4)); [|lia].
  cbn [read_clock]. unfold sys_timeout_abs. cbn [reading next_timeout]. rewrite Hmem. set (u := u32 (u32 (now (reading st)) + msecs)).
  assert (since base u = since base (now (reading st)) + msecs) as Eu.
  { unfold u. rewrite since_add by (rewrite ?since_u32; unfold HORIZON in *; lia). by rewrite since_u32. }
  set (x := mkTimeo u f). assert (due base x = since base (now (reading st)) + msecs) as Ex by done.
  assert (due base x < HORIZON) as Hxd by lia.
  assert (exists pre post, next_timeout st = pre ++ post /\
    timeout_insert x (next_timeout st) = pre ++ x :: post /\
    Forall (fun y => due base y <= due base x) pre /\ Forall (fun y => due base x < due base y) post)
    as (pre & post & E1 & E2 & F1 & F2).
  { destruct Hs as [Hh' Hs]. induction Hs as [|y l Hs IH Hy]; [by exists [], []|].
    inversion Hh' as [|? ? Hyh Hl]; subst. cbn [timeout_insert].
    rewrite (time_less_spec base); [|exact Hxd|exact Hyh].
    fold (due base x) (due base y). destruct (Z.ltb_spec (due base x) (due base y)).
    - exists [], (y :: l). split_and!; try done. constructor; [done|].
      eapply Forall_impl; [exact Hy|]. cbn. lia.
    - destruct (IH Hl) as (pre & post & -> & E2 & F1 & F2). exists (y :: pre), post.
      rewrite E2. split_and!; try done. by constructor. }
  eexists _, x, pre, post. split; [reflexivity|]. split; [exact E1|]. split; [exact E2|].
  split_and!; try done. exact (timeout_insert_sorted base x _ Hxd Hs).
Qed.

(** sys_untimeout removes the first timer with the given callback and
    only that one; an unknown callback changes nothing. *)
Theorem timeout_cancelled st f :
  ((f ∉ fns (next_timeout st)) /\ next_timeout (sys_untimeout f st) = next_timeout st) \/
  (exists pre x post, next_timeout st = pre ++ x :: post /\ to_fn x = f /\ (f ∉ fns pre) /\
     next_timeout (sys_untimeout f st) = pre ++ post).
Proof.
  unfold sys_untimeout, set_list. cbn [next_timeout].
  induction (next_timeout st) as [|y l IH]; cbn [timeout_remove].
  { left. split; [apply not_elem_of_nil|done]. }
  destruct (bool_decide_reflect (to_fn y = f)) as [E|E].
  - right. exists [], y, l. split_and!; try done. apply not_elem_of_nil.
  - destruct IH as [[H1 H2]|(pre & x & post & -> & H2 & H3 & H4)].
    + left. split; [|by rewrite H2]. unfold fns in *. rewrite fmap_cons, not_elem_of_cons. by split.
    + right. exists (y :: pre), x, post. split_and!; try done.
      * unfold fns in *. rewrite fmap_cons, not_elem_of_cons. by split.
      * by rewrite H4.
Qed.
End Arm.

(** ** Instances: a clock about to wrap *)
Definition demo_now (n : nat) : Z := 4294967000.
Definition demo_timers : timers nat :=
  mkTimers [mkTimeo 4294966000 (FCyclic 1); mkTimeo 100 (FCyclic 2)] 0 false 0 0%nat.

Lemma demo_timers_ok : list_ok 4294966000 (next_timeout demo_timers).
Proof.
  split.
  - split; [repeat constructor|]. repeat constructor. vm_compute. discriminate.
  - intros i. cbn. intros [[= ->]|[[= ->]|Hi%not_elem_of_nil]%elem_of_cons]%elem_of_cons; [lia|lia|done].
  - repeat constructor; [|apply not_elem_of_nil]. by intros H%list_elem_of_singleton.
Qed.

Lemma check_timeouts_terminates_witness : exists st',
  sys_check_timeouts demo_now (fun _ => true) (fun _ n => S n) (fun _ => false) 5 demo_timers = Ret st' /\
  Forall (fun x => since 4294966000 4294967000 < due 4294966000 x) (next_timeout st').
Proof.
  destruct (check_timeouts_terminates demo_now (fun _ => true) (fun _ n => S n) (fun _ => false) 4294966000
    (fun _ => eq_refl) (fun _ _ _ => Z.le_refl _) (fun _ => eq_refl) demo_timers demo_timers_ok) as (st' & E & _ & F & _).
  exists st'. split; [exact E|exact F].
Defined.

Lemma timeout_armed_witness : exists st' x pre post,
  sys_timeout demo_now (fun _ => true) 700 FTcp demo_timers = Ret st' /\
  next_timeout demo_timers = pre ++ post /\ next_timeout st' = pre ++ x :: post /\
  due 4294966000 x = 1700.
Proof.
  destruct (timeout_armed demo_now (fun _ => true) 4294966000 demo_timers 700 FTcp)
    as (st' & x & pre & post & E & E1 & E2 & _ & Ed & _).
  - apply (lo_sorted _ _ demo_timers_ok).
  - vm_compute. split; discriminate.
  - vm_compute. reflexivity.
  - reflexivity.
  - exists st', x, pre, post. split; [exact E|]. split; [exact E1|]. split; [exact E2|exact Ed].
Defined.
