(* ===== verification/Ip4Addr.v ===== *)
(** * lwip-2.2.0/src/core/ipv4/ip4_addr.c: IPv4 addresses

    Broadcast and netmask tests, and the conversions between addresses and
    their text form.  An address is the 32-bit value as it lies in memory
    (network byte order read by a little-endian machine); strings are read from
    and written to memory. *)
From S2P Require Import Prelude.

Definition IPADDR_ANY : Z := 0.
Definition IPADDR_BROADCAST : Z := 0xffffffff.
Definition IPADDR_NONE : Z := 0xffffffff.
Definition IP4ADDR_STRLEN_MAX : Z := 16.
Definition NETIF_BROADCAST : Z := 0x02.

(** PP_HTONL (def.h) *)
Definition lwip_htonl (x : Z) : Z :=
  Z.lor (Z.lor (Z.lor (Z.shiftl (Z.land x 0x000000ff) 24) (Z.shiftl (Z.land x 0x0000ff00) 8))
    (Z.shiftr (Z.land x 0x00ff0000) 8)) (Z.shiftr (Z.land x 0xff000000) 24).

Definition ip4_addr_net_eq (a b mask : Z) : bool := Z.land a mask =? Z.land b mask.

(** [flags], [ip] and [netmask] are the interface's. *)
Definition ip4_addr_isbroadcast_u32 (addr flags ip netmask : Z) : bool :=
  if (u32 (Z.lnot addr) =? IPADDR_ANY) || (addr =? IPADDR_ANY) then true
  else if Z.land flags NETIF_BROADCAST =? 0 then false
  else if addr =? ip then false
  else if ip4_addr_net_eq addr ip netmask &&
          (Z.land addr (u32 (Z.lnot netmask)) =? Z.land IPADDR_BROADCAST (u32 (Z.lnot netmask)))
  then true
  else false.

(** The two loops of ip4_addr_netmask_valid; 32 shifts empty the mask. *)
Fixpoint first_zero (fuel : nat) (nm mask : Z) : Z :=
  match fuel with
  | O => mask
  | S k => if mask =? 0 then mask else if Z.land nm mask =? 0 then mask else first_zero k nm (Z.shiftr mask 1)
  end.
Fixpoint no_more_ones (fuel : nat) (nm mask : Z) : bool :=
  match fuel with
  | O => true
  | S k =>
      if mask =? 0 then true
      else if negb (Z.land nm mask =? 0) then false else no_more_ones k nm (Z.shiftr mask 1)
  end.
Definition ip4_addr_netmask_valid (netmask : Z) : bool :=
  let nm_hostorder := lwip_htonl netmask in
  let mask := first_zero 32 nm_hostorder (Z.shiftl 1 31) in
  no_more_ones 32 nm_hostorder mask.

(** ** Text to address *)
Definition lwip_isdigit (c : Z) : bool := (48 <=? c) && (c <=? 57).
Definition lwip_isxdigit (c : Z) : bool :=
  lwip_isdigit c || ((97 <=? c) && (c <=? 102)) || ((65 <=? c) && (c <=? 70)).
Definition lwip_islower (c : Z) : bool := (97 <=? c) && (c <=? 122).
Definition lwip_isspace (c : Z) : bool := (c =? 32) || ((9 <=? c) && (c <=? 13)).

(** The digits of one number: the character that ends it, its address and the
    value, which wraps at 32 bits. *)
Fixpoint aton_digits (fuel : nat) (m : reader) (cp c base val : Z) : res (Z * Z * Z) :=
  match fuel with
  | O => NoFuel
  | S k =>
      if lwip_isdigit c then
        if (base =? 8) && (u32 (c - 48) >=? 8) then Ret (c, cp, val)
        else aton_digits k m (cp + 1) (m (cp + 1)) base (u32 (val * base + (c - 48)))
      else if (base =? 16) && lwip_isxdigit c then
        aton_digits k m (cp + 1) (m (cp + 1)) base
          (Z.lor (u32 (Z.shiftl val 4)) (u32 (c + 10 - (if lwip_islower c then 97 else 65))))
      else Ret (c, cp, val)
  end.

(** The base prefix, then the digits. *)
Definition aton_number (fuel : nat) (m : reader) (cp : Z) : res (Z * Z * Z) :=
  let c := m cp in
  if c =? 48 then
    let c := m (cp + 1) in
    if (c =? 120) || (c =? 88) then aton_digits fuel m (cp + 2) (m (cp + 2)) 16 0
    else aton_digits fuel m (cp + 1) c 8 0
  else aton_digits fuel m cp c 10 0.

(** The outer loop: the last value, the character after it and [parts]. *)
Fixpoint aton_parts (fuel : nat) (m : reader) (cp : Z) (parts : list Z) : res (option (Z * Z * list Z)) :=
  match fuel with
  | O => NoFuel
  | S k =>
      if negb (lwip_isdigit (m cp)) then Ret None
      else
        let* (c, cp, val) := aton_number fuel m cp in
        if c =? 46 then
          if (3 <=? length parts)%nat then Ret None
          else aton_parts k m (cp + 1) (parts ++ [val])
        else Ret (Some (val, c, parts))
  end.

(** The [switch] over the number of parts. *)
Definition aton_concoct (val : Z) (parts : list Z) : res (option Z) :=
  match parts with
  | [] => Ret (Some val)
  | [a] =>
      if val >? 0xffffff then Ret None
      else if a >? 0xff then Ret None
      else Ret (Some (Z.lor val (u32 (Z.shiftl a 24))))
  | [a; b] =>
      if val >? 0xffff then Ret None
      else if (a >? 0xff) || (b >? 0xff) then Ret None
      else Ret (Some (Z.lor val (Z.lor (u32 (Z.shiftl a 24)) (u32 (Z.shiftl b 16)))))
  | [a; b; c] =>
      if val >? 0xff then Ret None
      else if (a >? 0xff) || (b >? 0xff) || (c >? 0xff) then Ret None
      else Ret (Some (Z.lor val (Z.lor (Z.lor (u32 (Z.shiftl a 24)) (u32 (Z.shiftl b 16)))
                               (u32 (Z.shiftl c 8)))))
  | _ => Undef
  end.

(** [None] is the return value 0, [Some a] is 1 with [a] stored at [addr]. *)
Definition ip4addr_aton (fuel : nat) (m : reader) (cp : Z) : res (option Z) :=
  let* o := aton_parts fuel m cp [] in
  match o with
  | None => Ret None
  | Some (val, c, parts) =>
      if negb (c =? 0) && negb (lwip_isspace c) then Ret None
      else
        let* v := aton_concoct val parts in
        Ret (lwip_htonl <$> v)
  end.

Definition ipaddr_addr (fuel : nat) (m : reader) (cp : Z) : res Z :=
  let* v := ip4addr_aton fuel m cp in Ret (default IPADDR_NONE v).

(** ** Address to text *)

(** [do { ... } while ( *ap)]: the digits, last one first, into inv[3]. *)
Fixpoint ntoa_digits (fuel : nat) (ap : Z) (inv : list Z) : res (list Z) :=
  match fuel with
  | O => Undef
  | S k =>
      let rem := ap mod 10 in
      let ap := ap / 10 in
      let inv := (48 + rem) :: inv in
      if ap =? 0 then Ret inv else ntoa_digits k ap inv
  end.

(** Appending characters while they fit; [None] when they do not. *)
Fixpoint ntoa_put (cs : list Z) (buflen len : Z) (out : list Z) : option (list Z * Z) :=
  match cs with
  | [] => Some (out, len)
  | c :: r => if len >=? buflen then None else ntoa_put r buflen (len + 1) (out ++ [c])
  end.

Fixpoint ntoa_octets (aps : list Z) (buflen len : Z) (out : list Z) : res (option (list Z)) :=
  match aps with
  | [] => Ret (Some out)
  | ap :: r =>
      let* inv := ntoa_digits 3 ap [] in
      match ntoa_put (inv ++ [46]) buflen len out with
      | None => Ret None
      | Some (out, len) => ntoa_octets r buflen len out
      end
  end.

(** The characters stored at [buf], the last dot replaced by the terminator. *)
Definition ip4addr_ntoa_r (addr buflen : Z) : res (option (list Z)) :=
  let* o := ntoa_octets (le_bytes 4 addr) buflen 0 [] in
  Ret ((fun out => take (length out - 1) out ++ [0]) <$> o).

Definition ip4addr_ntoa (addr : Z) : res (option (list Z)) := ip4addr_ntoa_r addr IP4ADDR_STRLEN_MAX.

(** ** Byte order *)
Lemma lor_bytes a b c d : is_byte a -> is_byte b -> is_byte c -> is_byte d ->
  Z.lor (Z.lor (Z.lor (Z.shiftl a 24) (Z.shiftl b 16)) (Z.shiftl c 8)) d =
  d + 256 * c + 65536 * b + 16777216 * a.
Proof.
  unfold is_byte. intros Ha Hb Hc Hd.
  rewrite (lor_shift_add a (Z.shiftl b 16) 24) by (rewrite ?Z.shiftl_mul_pow2; lia).
  replace (a * 2 ^ 24 + Z.shiftl b 16) with (Z.shiftl (a * 256 + b) 16)
    by (rewrite !Z.shiftl_mul_pow2 by lia; lia).
  rewrite (lor_shift_add (a * 256 + b) (Z.shiftl c 8) 16) by (rewrite ?Z.shiftl_mul_pow2; lia).
  replace ((a * 256 + b) * 2 ^ 16 + Z.shiftl c 8) with (Z.shiftl ((a * 256 + b) * 256 + c) 8)
    by (rewrite !Z.shiftl_mul_pow2 by lia; lia).
  rewrite (lor_shift_add _ d 8) by lia. lia.
Qed.

Lemma htonl_bytes a b c d : is_byte a -> is_byte b -> is_byte c -> is_byte d ->
  lwip_htonl (a + 256 * b + 65536 * c + 16777216 * d) = d + 256 * c + 65536 * b + 16777216 * a.
Proof.
  unfold is_byte. intros Ha Hb Hc Hd. set (x := a + 256 * b + 65536 * c + 16777216 * d). unfold lwip_htonl.
  change 0xff with (Z.shiftl (Z.ones 8) 0). change 0xff00 with (Z.shiftl (Z.ones 8) 8).
  change 0xff0000 with (Z.shiftl (Z.ones 8) 16). change 0xff000000 with (Z.shiftl (Z.ones 8) 24).
  rewrite !land_byte_field by lia.
  replace (x / 2 ^ 0 mod 256) with a by (unfold x; change (2 ^ 0) with 1; zdiv).
  replace (x / 2 ^ 8 mod 256) with b by (unfold x; change (2 ^ 8) with 256; zdiv).
  replace (x / 2 ^ 16 mod 256) with c.
  2:{ replace (x / 2 ^ 16) with (c + 256 * d); [zdiv|].
      apply (Z.div_unique x (2 ^ 16) (c + 256 * d) (a + 256 * b)); unfold x; lia. }
  replace (x / 2 ^ 24 mod 256) with d by (unfold x; change (2 ^ 24) with 16777216; zdiv).
  rewrite !Z.shiftl_shiftl by lia. rewrite !Z.shiftr_shiftl_l by lia.
  change (0 + 24) with 24. change (8 + 8) with 16. change (16 - 8) with 8. change (24 - 24) with 0.
  rewrite Z.shiftl_0_r.
  apply lor_bytes; done.
Qed.

Lemma word_bytes x : 0 <= x < 4294967296 -> exists a b c d, is_byte a /\ is_byte b /\ is_byte c /\
  is_byte d /\ x = a + 256 * b + 65536 * c + 16777216 * d /\ le_bytes 4 x = [a; b; c; d].
Proof.
  intros H. exists (x mod 256), (x / 256 mod 256), (x / 65536 mod 256), (x / 16777216).
  unfold is_byte. split_and!; try zdiv. cbn [le_bytes]. unfold u8.
  rewrite !Z.div_div by lia. change (256 * (256 * 256)) with 16777216. change (256 * 256) with 65536.
  do 4 f_equal. apply Z.mod_small. zdiv.
Qed.

(** ** Parsing what was printed *)

(** The bytes [l] are at [cp]. *)
Fixpoint str_at (m : reader) (cp : Z) (l : list Z) : Prop :=
  match l with [] => True | c :: r => m cp = c /\ str_at m (cp + 1) r end.

Lemma str_at_app m cp l r : str_at m cp (l ++ r) -> str_at m cp l /\ str_at m (cp + Z.of_nat (length l)) r.
Proof.
  revert cp. induction l as [|c l IH]; intros cp; cbn [app str_at length].
  - intros H. by rewrite Z.add_0_r.
  - intros [H1 H2]. destruct (IH _ H2) as [H3 H4]. split; [done|].
    by replace (cp + Z.of_nat (S (length l))) with (cp + 1 + Z.of_nat (length l)) by lia.
Qed.

Definition digit (c : Z) : Prop := 48 <= c <= 57.
Lemma isdigit_spec c : lwip_isdigit c = true <-> digit c.
Proof. unfold lwip_isdigit, digit. rewrite andb_true_iff, !Z.leb_le. done. Qed.

Lemma isdigit_no c : ~ digit c -> lwip_isdigit c = false.
Proof. intros H. apply not_true_iff_false. by rewrite isdigit_spec. Qed.

(** Decimal digits up to a character that is none. *)
Lemma aton_digits_spec fuel m cp ds e v :
  str_at m cp (ds ++ [e]) -> Forall digit ds -> ~ digit e -> (length ds < fuel)%nat ->
  aton_digits fuel m cp (m cp) 10 v =
    Ret (e, cp + Z.of_nat (length ds), foldl (fun v c => u32 (v * 10 + (c - 48))) v ds).
Proof.
  revert cp ds v. induction fuel as [|fuel IH]; intros cp ds v Hs Hd He Hf; [lia|].
  cbn [aton_digits]. destruct Hd as [|c ds Hc Hd]; destruct Hs as [-> Hs].
  - rewrite (isdigit_no _ He). cbn. by rewrite Z.add_0_r.
  - rewrite (proj2 (isdigit_spec c) Hc). cbn [Z.eqb andb].
    rewrite (IH (cp + 1) ds) by (done || (cbn in Hf; lia)). cbn [length foldl].
    do 3 f_equal. lia.
Qed.

(** The decimal numeral of an octet. *)
Definition dec (n : Z) : list Z :=
  if n <? 10 then [48 + n]
  else if n <? 100 then [48 + n / 10; 48 + n mod 10]
  else [48 + n / 100; 48 + n / 10 mod 10; 48 + n mod 10].

(** Facts that hold for all 256 octets. *)
Lemma for_octets (P : Z -> bool) n : forallb P (seqZ 0 256) = true -> is_byte n -> P n = true.
Proof.
  intros H Hn. rewrite forallb_forall in H. apply H, list_elem_of_In, elem_of_seqZ.
  unfold is_byte in Hn. lia.
Qed.

Definition dec_okb (n : Z) : bool :=
  match ntoa_digits 3 n [] with Ret l => bool_decide (l = dec n) | _ => false end &&
  (foldl (fun v c => u32 (v * 10 + (c - 48))) 0 (dec n) =? n) && forallb lwip_isdigit (dec n) &&
  (length (dec n) <=? 3)%nat && bool_decide (dec n <> []) &&
  (negb (hd 0 (dec n) =? 48) || bool_decide (dec n = [48])).

Lemma dec_facts n : is_byte n ->
  ntoa_digits 3 n [] = Ret (dec n) /\ foldl (fun v c => u32 (v * 10 + (c - 48))) 0 (dec n) = n /\
  Forall digit (dec n) /\ (length (dec n) <= 3)%nat /\ dec n <> [] /\
  (hd 0 (dec n) = 48 -> dec n = [48]).
Proof.
  intros Hn. assert (dec_okb n = true) as H by (apply for_octets; [by vm_compute|done]). unfold dec_okb in H.
  rewrite !andb_true_iff in H. destruct H as (((((H1 & H2) & H3) & H4) & H5) & H6). split_and!.
  - destruct (ntoa_digits 3 n []); try done. f_equal. by apply bool_decide_eq_true in H1.
  - by apply Z.eqb_eq.
  - apply Forall_forall. intros c Hc. apply isdigit_spec. rewrite forallb_forall in H3.
    by apply H3, list_elem_of_In.
  - by apply Nat.leb_le.
  - by apply bool_decide_eq_true in H5.
  - intros E. apply orb_true_iff in H6 as [H6|H6]; [|by apply bool_decide_eq_true in H6].
    by rewrite E in H6.
Qed.

(** One octet, up to a dot or the terminator. *)
Lemma aton_number_dec fuel m cp n e :
  is_byte n -> str_at m cp (dec n ++ [e]) -> e = 46 \/ e = 0 -> (3 < fuel)%nat ->
  lwip_isdigit (m cp) = true /\
  aton_number fuel m cp = Ret (e, cp + Z.of_nat (length (dec n)), n).
Proof.
  intros Hn Hs He Hf. destruct (dec_facts n Hn) as (_ & H2 & H3 & H4 & H5 & H6).
  assert (~ digit e) as Hd by (unfold digit; lia).
  assert (m cp = hd 0 (dec n)) as Ehd by (destruct (dec n); [done|by destruct Hs]).
  assert (digit (m cp)) as Hdc by (rewrite Ehd; destruct H3; [done|done]).
  split; [by apply isdigit_spec|]. unfold aton_number.
  destruct (Z.eqb_spec (m cp) 48) as [E|E].
  - rewrite <- Ehd in H6. rewrite (H6 E) in *. destruct Hs as [_ [Hs _]]. rewrite Hs. cbn [length].
    assert ((e =? 120) || (e =? 88) = false) as -> by (by destruct He as [-> | ->]).
    destruct fuel; [lia|]. cbn [aton_digits].
    rewrite (isdigit_no _ Hd). cbn [Z.eqb andb]. cbn in H2. by rewrite <- H2.
  - rewrite (aton_digits_spec fuel m cp (dec n) e 0) by (done || lia). by rewrite H2.
Qed.


(** Printing: while there is room every character is stored. *)
Lemma ntoa_put_fits cs buflen len out : len + Z.of_nat (length cs) <= buflen ->
  ntoa_put cs buflen len out = Some (out ++ cs, len + Z.of_nat (length cs)).
Proof.
  revert len out. induction cs as [|c cs IH]; intros len out Hl; cbn [ntoa_put length].
  - by rewrite app_nil_r, Z.add_0_r.
  - rewrite Z.geb_leb. destruct (Z.leb_spec buflen len); [cbn in Hl; lia|].
    rewrite IH by (cbn in Hl; lia). rewrite <- app_assoc. cbn [app]. do 2 f_equal. lia.
Qed.

Definition dotted (ns : list Z) : list Z := concat (map (fun n => dec n ++ [46]) ns).

Lemma ntoa_octets_fits ns buflen len out :
  Forall is_byte ns -> len + 4 * Z.of_nat (length ns) <= buflen ->
  ntoa_octets ns buflen len out = Ret (Some (out ++ dotted ns)).
Proof.
  revert len out. induction ns as [|n ns IH]; intros len out Hb Hl; cbn [ntoa_octets].
  - unfold dotted. cbn. by rewrite app_nil_r.
  - inversion Hb as [|? ? Hn Hns]; subst. destruct (dec_facts n Hn) as (-> & _ & _ & L & _).
    cbn [res_bind]. rewrite ntoa_put_fits by (rewrite length_app; cbn in *; lia).
    rewrite IH by (done || (rewrite length_app; cbn in *; lia)).
    unfold dotted. cbn [map concat]. by rewrite <- app_assoc.
Qed.

(** Parsing: one octet and the dot after it. *)
Lemma aton_parts_dot fuel m cp n rest parts :
  is_byte n -> (length parts < 3)%nat -> (3 < S fuel)%nat -> str_at m cp (dec n ++ 46 :: rest) ->
  aton_parts (S fuel) m cp parts =
    aton_parts fuel m (cp + Z.of_nat (length (dec n)) + 1) (parts ++ [n]) /\
  str_at m (cp + Z.of_nat (length (dec n)) + 1) rest.
Proof.
  intros Hn Hp Hf Hs. change (46 :: rest) with ([46] ++ rest) in Hs. rewrite app_assoc in Hs.
  apply str_at_app in Hs as [Hs1 Hs2]. rewrite length_app in Hs2. cbn [length] in Hs2.
  destruct (aton_number_dec (S fuel) m cp n 46 Hn Hs1 (or_introl eq_refl) Hf) as [E1 E2].
  cbn [aton_parts]. rewrite E1, E2. cbn [negb res_bind Z.eqb Pos.eqb].
  destruct (Nat.leb_spec 3 (length parts)); [lia|]. split; [done|].
  by replace (cp + Z.of_nat (length (dec n)) + 1) with (cp + Z.of_nat (length (dec n) + 1)) by lia.
Qed.

Lemma aton_parts_end fuel m cp n parts :
  is_byte n -> (3 < fuel)%nat -> str_at m cp (dec n ++ [0]) ->
  aton_parts fuel m cp parts = Ret (Some (n, 0, parts)).
Proof.
  intros Hn Hf Hs. destruct (aton_number_dec fuel m cp n 0 Hn Hs (or_intror eq_refl) Hf) as [E1 E2].
  destruct fuel as [|fuel]; [lia|]. cbn [aton_parts]. by rewrite E1, E2.
Qed.

Lemma concoct_bytes a b c d : is_byte a -> is_byte b -> is_byte c -> is_byte d ->
  aton_concoct d [a; b; c] = Ret (Some (d + 256 * c + 65536 * b + 16777216 * a)).
Proof.
  unfold is_byte, aton_concoct. intros Ha Hb Hc Hd.
  rewrite !Z.gtb_ltb, !(proj2 (Z.ltb_ge 255 _)) by lia. cbn [orb].
  rewrite !u32_small by (rewrite Z.shiftl_mul_pow2; lia). rewrite (Z.lor_comm d).
  do 2 f_equal. by apply lor_bytes.
Qed.

(** Addresses survive printing and parsing: for every 32-bit address,
    ip4addr_ntoa fits its 16-byte buffer, and ip4addr_aton of the text it
    produces, wherever it is stored, is that address again. *)
Theorem ip4_text_roundtrip a m cp :
  0 <= a < 4294967296 ->
  exists str, ip4addr_ntoa a = Ret (Some str) /\ Z.of_nat (length str) <= IP4ADDR_STRLEN_MAX /\
    (str_at m cp str -> ip4addr_aton 16 m cp = Ret (Some a)).
Proof.
  intros Ha. destruct (word_bytes a Ha) as (b0 & b1 & b2 & b3 & B0 & B1 & B2 & B3 & E & Eb).
  unfold ip4addr_ntoa, ip4addr_ntoa_r. rewrite Eb, ntoa_octets_fits; [|by rewrite !Forall_cons, Forall_nil|done].
  cbn [res_bind fmap option_fmap option_map app]. eexists. split; [reflexivity|].
  set (s := dec b0 ++ 46 :: dec b1 ++ 46 :: dec b2 ++ 46 :: dec b3).
  assert (dotted [b0; b1; b2; b3] = s ++ [46]) as Es
    by (unfold s, dotted; cbn [map concat]; rewrite app_nil_r; repeat (rewrite <- app_assoc; cbn [app]); done).
  rewrite Es. replace (length (s ++ [46%Z]) - 1)%nat with (length s) by (rewrite length_app; cbn; lia).
  rewrite take_app_length. destruct (dec_facts b0 B0) as (_ & _ & _ & L0 & _), (dec_facts b1 B1) as (_ & _ & _ & L1 & _),
    (dec_facts b2 B2) as (_ & _ & _ & L2 & _), (dec_facts b3 B3) as (_ & _ & _ & L3 & _).
  unfold IP4ADDR_STRLEN_MAX. split.
  { unfold s. rewrite !length_app. cbn [length]. rewrite !length_app. cbn [length].
    rewrite !length_app. cbn [length]. rewrite ?length_app. lia. }
  unfold s. rewrite <- app_assoc. cbn [app]. rewrite <- app_assoc. cbn [app]. rewrite <- app_assoc. cbn [app].
  intros Hs. unfold ip4addr_aton.
  apply (aton_parts_dot 15 m cp b0 _ []) in Hs as [-> Hs]; [|done|cbn; lia|lia]. cbn [app].
  apply (aton_parts_dot 14 m _ b1 _ [b0]) in Hs as [-> Hs]; [|done|cbn; lia|lia]. cbn [app].
  apply (aton_parts_dot 13 m _ b2 _ [b0; b1]) in Hs as [-> Hs]; [|done|cbn; lia|lia]. cbn [app].
  rewrite (aton_parts_end _ m _ b3) by (done || lia). cbn [res_bind Z.eqb negb andb app].
  rewrite concoct_bytes by done. cbn [res_bind fmap option_fmap option_map].
  rewrite htonl_bytes by done. by rewrite E.
Qed.

Definition demo_text : list Z := [49; 57; 50; 46; 49; 54; 56; 46; 48; 46; 49; 0].
Definition demo_reader : reader := fun i => nth (Z.to_nat i) demo_text 0.
Lemma ip4_text_roundtrip_witness :
  ip4addr_ntoa 0x0100a8c0 = Ret (Some demo_text) /\ str_at demo_reader 0 demo_text /\
  ip4addr_aton 16 demo_reader 0 = Ret (Some 0x0100a8c0).
Proof.
  assert (str_at demo_reader 0 demo_text) as Hs by (vm_compute; tauto).
  destruct (ip4_text_roundtrip 0x0100a8c0 demo_reader 0 ltac:(lia)) as (str & E & _ & H).
  assert (ip4addr_ntoa 0x0100a8c0 = Ret (Some demo_text)) as E' by reflexivity.
  rewrite E' in E. injection E as <-. exact (conj E' (conj Hs (H Hs))).
Defined.

(** ** Netmasks *)

(** The mask with [n] bits at and below it: 2^(n-1), or 0 when none is left. *)
Definition probe (n : nat) : Z := 2 ^ Z.of_nat n / 2.

Lemma probe_S n : probe (S n) = 2 ^ Z.of_nat n.
Proof. unfold probe. rewrite Nat2Z.inj_succ, Z.pow_succ_r, Z.mul_comm, Z.div_mul by lia. done. Qed.
Lemma probe_shift n : Z.shiftr (probe (S n)) 1 = probe n.
Proof. by rewrite probe_S, Z.shiftr_div_pow2 by lia. Qed.
Lemma probe_bit nm n : (Z.land nm (probe (S n)) =? 0) = negb (Z.testbit nm (Z.of_nat n)).
Proof.
  rewrite probe_S. set (i := Z.of_nat n). assert (0 <= i) as Hi by lia.
  destruct (Z.testbit nm i) eqn:E; cbn [negb]; [apply Z.eqb_neq|apply Z.eqb_eq].
  - intros H. assert (Z.testbit (Z.land nm (2 ^ i)) i = true) as H1
      by by rewrite Z.land_spec, E, Z.pow2_bits_true.
    by rewrite H, Z.bits_0 in H1.
  - apply Z.bits_inj'. intros k Hk. rewrite Z.land_spec, Z.bits_0.
    destruct (Z.eq_dec i k) as [<-|Hne]; [by rewrite E|by rewrite Z.pow2_bits_false, andb_false_r].
Qed.
Lemma mod_pow2_S nm n : nm mod 2 ^ Z.of_nat (S n) =
  nm mod 2 ^ Z.of_nat n + (if Z.testbit nm (Z.of_nat n) then 2 ^ Z.of_nat n else 0).
Proof.
  rewrite Nat2Z.inj_succ, Z.pow_succ_r, Z.mul_comm, Z.rem_mul_r by lia.
  pose proof (Z.testbit_spec' nm (Z.of_nat n) ltac:(lia)) as H.
  rewrite <- H. destruct (Z.testbit nm (Z.of_nat n)); cbn; lia.
Qed.

(** No bit below the probe. *)
Lemma no_more_ones_spec fuel nm n : (n <= fuel)%nat ->
  no_more_ones fuel nm (probe n) = true <-> nm mod 2 ^ Z.of_nat n = 0.
Proof.
  revert n. induction fuel as [|fuel IH]; intros [|n] Hf; try lia; cbn [no_more_ones].
  - by rewrite Z.mod_1_r.
  - by rewrite Z.mod_1_r.
  - destruct (Z.eqb_spec (probe (S n)) 0) as [E|_]; [rewrite probe_S in E; lia|].
    rewrite probe_bit, negb_involutive, probe_shift, mod_pow2_S.
    pose proof (Z.mod_pos_bound nm (2 ^ Z.of_nat n) ltac:(lia)).
    destruct (Z.testbit nm (Z.of_nat n)); [split; [done|lia]|]. rewrite Z.add_0_r. apply IH. lia.
Qed.

(** The two loops together: ones, then zeros. *)
Lemma netmask_loops nm n : (n <= 32)%nat ->
  no_more_ones 32 nm (first_zero n nm (probe n)) = true <->
  exists j, (j <= n)%nat /\ nm mod 2 ^ Z.of_nat n = 2 ^ Z.of_nat n - 2 ^ Z.of_nat j.
Proof.
  induction n as [|n IH]; intros Hn.
  - split; [|done]. intros _. exists 0%nat. split; [lia|]. by rewrite Z.mod_1_r.
  - cbn [first_zero]. destruct (Z.eqb_spec (probe (S n)) 0) as [E|_]; [rewrite probe_S in E; lia|].
    pose proof (Z.mod_pos_bound nm (2 ^ Z.of_nat n) ltac:(lia)) as Hb.
    assert (2 ^ Z.of_nat (S n) = 2 * 2 ^ Z.of_nat n) as E2 by (by rewrite Nat2Z.inj_succ, Z.pow_succ_r by lia).
    rewrite probe_bit, probe_shift. destruct (Z.testbit nm (Z.of_nat n)) eqn:Eb; cbn [negb].
    + rewrite IH by lia. rewrite mod_pow2_S, Eb, E2. split; intros (j & Hj & H).
      * exists j. split; lia.
      * destruct (decide (j = S n)) as [->|]; [rewrite E2 in H; lia|]. exists j. split; lia.
    + rewrite no_more_ones_spec by lia. split.
      * intros H. exists (S n). split; lia.
      * intros (j & Hj & H). destruct (decide (j = S n)) as [->|]; [lia|].
        rewrite mod_pow2_S, Eb in H.
        assert (2 ^ Z.of_nat j <= 2 ^ Z.of_nat n) by (apply Z.pow_le_mono_r; lia). lia.
Qed.

(** A netmask is accepted exactly when, in host byte order, it is some
    ones followed by zeros only: 2^32 - 2^j for a j up to 32. *)
Theorem netmask_valid_iff a b c d : is_byte a -> is_byte b -> is_byte c -> is_byte d ->
  ip4_addr_netmask_valid (a + 256 * b + 65536 * c + 16777216 * d) = true <->
  exists j, (j <= 32)%nat /\ d + 256 * c + 65536 * b + 16777216 * a = 2 ^ 32 - 2 ^ Z.of_nat j.
Proof.
  intros Ha Hb Hc Hd. unfold ip4_addr_netmask_valid. rewrite htonl_bytes by done.
  change (Z.shiftl 1 31) with (probe 32). rewrite netmask_loops by lia.
  change (2 ^ Z.of_nat 32) with (2 ^ 32). unfold is_byte in *. rewrite Z.mod_small by lia. done.
Qed.

Lemma netmask_valid_iff_witness :
  is_byte 255 /\ ip4_addr_netmask_valid (255 + 256 * 255 + 65536 * 252 + 16777216 * 0) = true.
Proof.
  assert (is_byte 255) as H by (unfold is_byte; lia). split; [exact H|].
  apply (netmask_valid_iff 255 255 252 0); try exact H; try (unfold is_byte; lia).
  exists 10%nat. split; [lia|reflexivity].
Defined.
