(* ===== verification/Crt0.v ===== *)
(** * src/app/crt0.c: program start, and what musl makes of it

    _start_c clears .bss, fills the 16 random bytes and calls
    __libc_start_main with an initial stack of its own making; musl's
    __init_libc (src/env/__libc_start_main.c) takes that stack apart.  The
    instructions CPUID, RDRAND and RDTSC are functions from the number of the
    execution to what they deliver. *)
From S2P Require Import Prelude.

Definition AT_NULL : Z := 0.
Definition AT_PAGESZ : Z := 6.
Definition AT_UID : Z := 11.
Definition AT_EUID : Z := 12.
Definition AT_GID : Z := 13.
Definition AT_EGID : Z := 14.
Definition AT_HWCAP : Z := 16.
Definition AT_SECURE : Z := 23.
Definition AT_RANDOM : Z := 25.
Definition AT_EXECFN : Z := 31.
Definition AT_SYSINFO : Z := 32.
Definition AUX_CNT : Z := 38.

(** [RDRAND]: the value, the carry flag, and the upper 24 bits of the register
    that holds [ok], of which SETC writes the low byte only. *)
Record rdrand_out := mkRdrand { rd_value : Z; rd_carry : bool; rd_upper : Z }.

Section Crt0.
Variables (bss_start bss_stop randbuf init_stack : Z).
(** CPUID leaf 1: ecx. *)
Variable cpuid_ecx : Z.
Variable rdrand : nat -> rdrand_out.
(** RDTSC: edx and eax. *)
Variable rdtsc : nat -> Z * Z.

(** ** _start: the stack pointer at the call of _start_c, and on return *)
Definition start_call_rsp (rsp : Z) : Z := Z.land (u64 (rsp - 8)) (u64 (-16)).
Definition start_ret_rsp (rsp : Z) : Z := u64 (u64 (rsp - 8) + 8).

Fixpoint zero_bss_loop (fuel : nat) (c : Z) (m : memory) : res memory :=
  match fuel with
  | O => NoFuel
  | S k => if c <? bss_stop then zero_bss_loop k (c + 1) (mstore m c 0) else Ret m
  end.
Definition zero_bss (m : memory) : res memory :=
  zero_bss_loop (S (Z.to_nat (bss_stop - bss_start))) bss_start m.

Definition has_rdrand : Z := Z.land (Z.shiftr (u32 cpuid_ecx) 30) 1.

(** Up to [tries] executions, the first being the [k]-th of the program;
    returns v, ok and the number of executions so far. *)
Fixpoint rdrand_try (tries k : nat) (v ok : Z) : Z * Z * nat :=
  match tries with
  | O => (v, ok, k)
  | S t =>
      if truth ok then (v, ok, k)
      else rdrand_try t (S k) (u64 (rd_value (rdrand k)))
             (i32 (rd_upper (rdrand k) * 256 + b2z (rd_carry (rdrand k))))
  end.

Definition fallback (i : nat) (k : nat) : Z :=
  let '(hi, lo) := rdtsc k in
  Z.lxor (Z.lxor (Z.lor (u64 (Z.shiftl (u32 hi) 32)) (u32 lo)) (u64 randbuf)) (Z.of_nat i).

(** One turn of the loop: executions of RDRAND so far, RDTSC so far. *)
Definition random_word (i : nat) (k t : nat) : Z * nat * nat :=
  let '(v, ok, k) := if truth has_rdrand then rdrand_try 10 k 0 0 else (0, 0, k) in
  if truth ok then (v, k, t) else (fallback i t, k, S t).

Definition fill_random (m : memory) : memory :=
  let '(v0, k, t) := random_word 0 0 0 in
  let m := mem_write_u64 m randbuf v0 in
  let '(v1, _, _) := random_word 1 k t in
  mem_write_u64 m (randbuf + 8) v1.

(** [static long init_stack[]], as the image is loaded. *)
Definition init_stack_words : list Z := [0; 0; AT_PAGESZ; 4096; AT_RANDOM; u64 randbuf; AT_NULL; 0].

(** The memory and the argc and argv that __libc_start_main gets. *)
Definition start_c (m : memory) : res (memory * Z * Z) :=
  let* m := zero_bss m in
  Ret (fill_random m, 0, init_stack).
End Crt0.

(** ** musl: __init_libc, up to the check for a set-uid program *)
Record libc_state := mkLibc {
  l_environ : Z;
  l_auxv : Z;
  l_hwcap : Z;
  l_sysinfo : Z;
  l_page_size : Z;
  l_progname : Z;
  l_progname_full : Z;
  (** the arguments of __init_tls and __init_ssp *)
  l_aux : list Z;
  l_random : Z;
}.

Section InitLibc.
Variable m : memory.
(** The address of the string constant [""]. *)
Variable empty_string : Z.

Definition word_at (a i : Z) : Z := mem_read_u64 m (a + 8 * i).

Fixpoint count_words (fuel : nat) (a i : Z) : res Z :=
  match fuel with
  | O => NoFuel
  | S k => if truth (word_at a i) then count_words k a (i + 1) else Ret i
  end.

Fixpoint aux_scan (fuel : nat) (auxv i : Z) (aux : list Z) : res (list Z) :=
  match fuel with
  | O => NoFuel
  | S k =>
      let key := word_at auxv i in
      if truth key then
        aux_scan k auxv (i + 2)
          (if key <? AUX_CNT then <[Z.to_nat key := word_at auxv (i + 1)]> aux else aux)
      else Ret aux
  end.

Fixpoint name_scan (fuel : nat) (pn i progname : Z) : res Z :=
  match fuel with
  | O => NoFuel
  | S k =>
      let c := mload m (pn + i) in
      if truth c then name_scan k pn (i + 1) (if c =? 47 then pn + i + 1 else progname)
      else Ret progname
  end.

(** Returns the state and whether the early return was taken. *)
Definition init_libc (fuel : nat) (envp pn sysinfo : Z) : res (libc_state * bool) :=
  let* n := count_words fuel envp 0 in
  let auxv := envp + 8 * (n + 1) in
  let* aux := aux_scan fuel auxv 0 (replicate 38 0) in
  let aux_at k := nth (Z.to_nat k) aux 0 in
  let sysinfo := if truth (aux_at AT_SYSINFO) then aux_at AT_SYSINFO else sysinfo in
  let pn := if truth pn then pn else aux_at AT_EXECFN in
  let pn := if truth pn then pn else empty_string in
  let* progname := name_scan fuel pn 0 pn in
  Ret (mkLibc envp auxv (aux_at AT_HWCAP) sysinfo (aux_at AT_PAGESZ) progname pn aux (aux_at AT_RANDOM),
       (aux_at AT_UID =? aux_at AT_EUID) && (aux_at AT_GID =? aux_at AT_EGID) && negb (truth (aux_at AT_SECURE))).

(** __libc_start_main up to its call of libc_start_main_stage2. *)
Definition libc_start_main (fuel : nat) (argc argv sysinfo : Z) : res (libc_state * bool) :=
  let envp := argv + 8 * argc + 8 in
  init_libc fuel envp (word_at argv 0) sysinfo.
End InitLibc.

(** ** Properties *)
Section Facts.
Variables (bss_start bss_stop randbuf init_stack cpuid_ecx : Z).
Variable rdrand : nat -> rdrand_out.
Variable rdtsc : nat -> Z * Z.

(** The layout the linker script gives: .bss lies in the address space and
    holds randbuf; init_stack is initialised data outside it. *)
Record layout (m : memory) : Prop := {
  ly_bss : 0 <= bss_start <= bss_stop /\ bss_stop <= 18446744073709551616;
  ly_rand : bss_start <= randbuf /\ randbuf + 16 <= bss_stop;
  ly_stack : addr_ok init_stack 64 /\ (init_stack + 64 <= bss_start \/ bss_stop <= init_stack);
  ly_words : forall i w, init_stack_words randbuf !! i = Some w -> word_at m init_stack (Z.of_nat i) = w;
}.

Lemma zero_bss_loop_spec fuel c m :
  0 <= c -> bss_stop <= 18446744073709551616 -> (Z.to_nat (bss_stop - c) < fuel)%nat ->
  exists m', zero_bss_loop bss_stop fuel c m = Ret m' /\
    forall x, 0 <= x < 18446744073709551616 -> mload m' x = if (c <=? x) && (x <? bss_stop) then 0 else mload m x.
Proof.
  revert c m. induction fuel as [|fuel IH]; intros c m Hc Hb Hf; [lia|]. cbn [zero_bss_loop].
  destruct (Z.ltb_spec c bss_stop) as [Hlt|Hge].
  - destruct (IH (c + 1) (mstore m c 0)) as (m' & E & H); [lia|lia|lia|]. exists m'. split; [done|].
    intros x Hx. rewrite (H x Hx), mload_mstore by (unfold addr_ok; lia).
    destruct (Z.leb_spec (c + 1) x), (Z.leb_spec c x), (Z.ltb_spec x bss_stop), (Z.eqb_spec x c); simpl; try done; lia.
  - exists m. split; [done|]. intros x Hx.
    destruct (Z.leb_spec c x), (Z.ltb_spec x bss_stop); simpl; try done; lia.
Qed.

Lemma zero_bss_spec m : 0 <= bss_start -> bss_stop <= 18446744073709551616 ->
  exists m', zero_bss bss_start bss_stop m = Ret m' /\
    forall x, 0 <= x < 18446744073709551616 ->
      mload m' x = if (bss_start <=? x) && (x <? bss_stop) then 0 else mload m x.
Proof. intros H1 H2. apply zero_bss_loop_spec; lia. Qed.

Lemma land_ones_id n a : 0 <= n -> 0 <= a < 2 ^ n -> a = Z.land a (Z.ones n).
Proof. intros Hn Ha. by rewrite Z.land_ones, Z.mod_small by lia. Qed.
Lemma lxor_range n a b : 0 <= n -> 0 <= a < 2 ^ n -> 0 <= b < 2 ^ n -> 0 <= Z.lxor a b < 2 ^ n.
Proof.
  intros Hn Ha Hb. rewrite (land_ones_id n a), (land_ones_id n b) by done.
  assert (Z.lxor (Z.land a (Z.ones n)) (Z.land b (Z.ones n)) = Z.land (Z.lxor a b) (Z.ones n)) as ->.
  { apply Z.bits_inj'. intros i _. rewrite !Z.land_spec, !Z.lxor_spec, !Z.land_spec.
    by destruct (Z.testbit a i), (Z.testbit b i), (Z.testbit (Z.ones n) i). }
  rewrite Z.land_ones by done. apply Z.mod_pos_bound. lia.
Qed.
Lemma lor_range n a b : 0 <= n -> 0 <= a < 2 ^ n -> 0 <= b < 2 ^ n -> 0 <= Z.lor a b < 2 ^ n.
Proof.
  intros Hn Ha Hb. rewrite (land_ones_id n a), (land_ones_id n b) by done.
  rewrite <- Z.land_lor_distr_l, Z.land_ones by done. apply Z.mod_pos_bound. lia.
Qed.

Lemma fallback_range i k : (i < 2)%nat -> 0 <= fallback randbuf rdtsc i k < 18446744073709551616.
Proof.
  intros Hi. unfold fallback. destruct (rdtsc k) as [hi lo]. change 18446744073709551616 with (2 ^ 64).
  pose proof (u64_range (Z.shiftl (u32 hi) 32)). pose proof (u32_range lo). pose proof (u64_range randbuf).
  apply lxor_range; [lia| |change (2 ^ 64) with 18446744073709551616; lia].
  apply lxor_range; [lia| |change (2 ^ 64) with 18446744073709551616; lia].
  apply lor_range; change (2 ^ 64) with 18446744073709551616; lia.
Qed.

(** _start_c is called on a 16-byte boundary below what is saved, and the
    stack pointer is restored. *)
Lemma start_rsp_ok rsp : 32 <= rsp < 18446744073709551616 ->
  start_call_rsp rsp mod 16 = 0 /\ rsp - 24 < start_call_rsp rsp <= rsp - 8 /\ start_ret_rsp rsp = rsp.
Proof.
  intros H. unfold start_call_rsp, start_ret_rsp. rewrite (u64_small (rsp - 8)), (u64_small (rsp - 8 + 8)) by lia.
  replace (u64 (-16)) with (Z.land (Z.ones 64) (Z.lnot (Z.ones 4))) by done.
  rewrite Z.land_assoc, Z.land_ones, (Z.mod_small (rsp - 8)), <- Z.ldiff_land by lia.
  rewrite Z.ldiff_ones_r, Z.shiftl_mul_pow2, Z.shiftr_div_pow2 by lia. change (2 ^ 4) with 16.
  split; [apply Z_mod_mult|]. split; [zdiv|lia].
Qed.

(** ** Random bytes *)

(** The word comes from RDRAND, or from the time-stamp counter when the
    processor has no RDRAND or ten attempts failed. *)
Lemma rdrand_try_spec tries k v ok : 0 <= v < 18446744073709551616 ->
  let '(v', ok', k') := rdrand_try rdrand tries k v ok in
  (k <= k' <= k + tries)%nat /\ 0 <= v' < 18446744073709551616 /\
  (truth ok' = false -> k' = (k + tries)%nat) /\
  ((k' = k /\ v' = v /\ ok' = ok) \/
   ((k < k')%nat /\ v' = u64 (rd_value (rdrand (k' - 1))) /\
    ok' = i32 (rd_upper (rdrand (k' - 1)) * 256 + b2z (rd_carry (rdrand (k' - 1)))))).
Proof.
  revert k v ok. induction tries as [|t IH]; intros k v ok Hv; cbn [rdrand_try].
  { split; [lia|]. split; [done|]. split; [lia|]. by left. }
  destruct (truth ok) eqn:Eo; [split; [lia|]; split; [done|]; split; [congruence|by left]|].
  specialize (IH (S k) (u64 (rd_value (rdrand k))) (i32 (rd_upper (rdrand k) * 256 + b2z (rd_carry (rdrand k)))) (u64_range _)).
  destruct (rdrand_try rdrand t (S k) _ _) as [[v' ok'] k']. destruct IH as (H1 & H2 & H3 & H4).
  split; [lia|]. split; [done|]. split; [intros E; specialize (H3 E); lia|]. right.
  destruct H4 as [(-> & -> & ->)|(H4 & H5 & H6)]; [|split; [lia|by split]].
  replace (S k - 1)%nat with k by lia. split; [lia|by split].
Qed.

Lemma random_word_range i k t : (i < 2)%nat ->
  0 <= fst (fst (random_word randbuf cpuid_ecx rdrand rdtsc i k t)) < 18446744073709551616.
Proof.
  intros Hi. unfold random_word. destruct (truth (has_rdrand cpuid_ecx)).
  - pose proof (rdrand_try_spec 10 k 0 0 ltac:(lia)) as H. destruct (rdrand_try rdrand 10 k 0 0) as [[v ok] k'].
    destruct (truth ok); [apply H|by apply fallback_range].
  - change (truth 0) with false. by apply fallback_range.
Qed.

(** The 16 bytes written. *)
Definition random_bytes : list Z :=
  let '(v0, k, t) := random_word randbuf cpuid_ecx rdrand rdtsc 0 0 0 in
  let '(v1, _, _) := random_word randbuf cpuid_ecx rdrand rdtsc 1 k t in le_bytes 8 v0 ++ le_bytes 8 v1.

Lemma fill_random_spec m : addr_ok randbuf 16 ->
  let m' := fill_random randbuf cpuid_ecx rdrand rdtsc m in
  mem_read m' randbuf 16 = random_bytes /\
  (forall x n, addr_ok x n -> x + n <= randbuf \/ randbuf + 16 <= x -> mem_read m' x n = mem_read m x n).
Proof.
  intros Ha. unfold fill_random, random_bytes. destruct (random_word _ _ _ _ 0 0 0) as [[v0 k] t].
  destruct (random_word _ _ _ _ 1 k t) as [[v1 k'] t']. unfold addr_ok in Ha. cbv zeta. split.
  - replace 16 with (8 + 8) by lia. unfold mem_read at 1. rewrite <- slice_app by lia. f_equal.
    + change (mem_read (mem_write_u64 (mem_write_u64 m randbuf v0) (randbuf + 8) v1) randbuf 8 = le_bytes 8 v0).
      rewrite mem_read_write_u64_out by (unfold addr_ok; lia). unfold mem_write_u64.
      pose proof (mem_read_write_same m randbuf (le_bytes 8 v0)) as H. rewrite length_le_bytes in H.
      apply H; [unfold addr_ok; lia|apply le_bytes_bytes].
    + transitivity (mem_read (mem_write_u64 (mem_write_u64 m randbuf v0) (randbuf + 8) v1) (randbuf + 8) 8).
      { apply slice_ext. intros i Hi. unfold mem_reader. f_equal. lia. }
      unfold mem_write_u64 at 1. pose proof (mem_read_write_same (mem_write_u64 m randbuf v0) (randbuf + 8) (le_bytes 8 v1)) as H.
      rewrite length_le_bytes in H. apply H; [unfold addr_ok; lia|apply le_bytes_bytes].
  - intros x n Hx Hd. rewrite !mem_read_write_u64_out; try done; unfold addr_ok; lia.
Qed.

(** ** Start-up *)
Lemma start_c_spec m : layout m ->
  exists m', start_c bss_start bss_stop randbuf init_stack cpuid_ecx rdrand rdtsc m = Ret (m', 0, init_stack) /\
    (forall x, bss_start <= x < bss_stop -> x < randbuf \/ randbuf + 16 <= x -> mload m' x = 0) /\
    (forall x, 0 <= x < 18446744073709551616 -> x < bss_start \/ bss_stop <= x -> mload m' x = mload m x) /\
    mem_read m' randbuf 16 = random_bytes.
Proof.
  intros [Hb Hr _ _]. destruct (zero_bss_spec m) as (m1 & E & H1); [lia|lia|].
  destruct (fill_random_spec m1) as [F1 F2]; [unfold addr_ok; lia|].
  exists (fill_random randbuf cpuid_ecx rdrand rdtsc m1). unfold start_c. rewrite E. cbn [res_bind].
  assert (forall x, 0 <= x < 18446744073709551616 -> x < randbuf \/ randbuf + 16 <= x ->
    mload (fill_random randbuf cpuid_ecx rdrand rdtsc m1) x = mload m1 x) as Hl.
  { intros x Hx Hd. pose proof (F2 x 1 ltac:(unfold addr_ok; lia) ltac:(lia)) as H. unfold mem_read, slice in H.
    cbn in H. injection H as H. unfold mem_reader in H. by rewrite !Z.add_0_r in H. }
  split; [done|]. split; [|split; [|done]].
  - intros x Hx Hd. rewrite Hl, H1 by lia. destruct (Z.leb_spec bss_start x), (Z.ltb_spec x bss_stop); simpl; try done; lia.
  - intros x Hx Hd. rewrite Hl, H1 by lia. destruct (Z.leb_spec bss_start x), (Z.ltb_spec x bss_stop); simpl; try done; lia.
Qed.

Lemma stack_word m m' i w : layout m ->
  (forall x, 0 <= x < 18446744073709551616 -> x < bss_start \/ bss_stop <= x -> mload m' x = mload m x) ->
  init_stack_words randbuf !! i = Some w -> word_at m' init_stack (Z.of_nat i) = w.
Proof.
  intros [_ _ [Ha Hd] Hw] Hm Hi. rewrite <- (Hw i w Hi). apply lookup_lt_Some in Hi. cbn in Hi.
  unfold word_at, mem_read_u64, mem_read. f_equal. apply slice_ext. intros j Hj. unfold mem_reader, addr_ok in *.
  apply Hm; lia.
Qed.

(** The auxiliary vector musl ends up with. *)
Definition start_aux : list Z := <[25%nat := u64 randbuf]> (<[6%nat := 4096]> (replicate 38 0)).

Lemma word_shift m a i j : word_at m (a + 8 * i) j = word_at m a (i + j).
Proof. unfold word_at. f_equal. lia. Qed.

Lemma aux_scan_stack m' fuel : (3 <= fuel)%nat ->
  (forall i w, init_stack_words randbuf !! i = Some w -> word_at m' init_stack (Z.of_nat i) = w) ->
  aux_scan m' fuel (init_stack + 8 * 2) 0 (replicate 38 0) = Ret start_aux.
Proof.
  intros Hf Hw. destruct fuel as [|[|[|fuel]]]; try lia. unfold init_stack_words in Hw.
  do 3 (cbn [aux_scan]; rewrite ?word_shift; change (2 + 0) with (Z.of_nat 2); change (2 + (0 + 1)) with (Z.of_nat 3);
    change (2 + (0 + 2)) with (Z.of_nat 4); change (2 + (0 + 2 + 1)) with (Z.of_nat 5);
    change (2 + (0 + 2 + 2)) with (Z.of_nat 6)).
  rewrite (Hw 2%nat AT_PAGESZ eq_refl), (Hw 3%nat 4096 eq_refl), (Hw 4%nat AT_RANDOM eq_refl), (Hw 5%nat (u64 randbuf) eq_refl),
    (Hw 6%nat AT_NULL eq_refl). done.
Qed.
End Facts.

(** C38. The fabricated stack starts musl correctly: _start_c returns with .bss
    zero except for the 16 random bytes, nothing else in memory changed, and
    __libc_start_main finds in the stack it is given an empty environment, a
    page size of 4096, the address of the random bytes, no program name, and
    no sign of a set-uid program, so that it neither polls nor opens
    descriptors. *)
Theorem crt0_starts_libc bss_start bss_stop randbuf init_stack cpuid_ecx rdrand rdtsc m empty sysinfo fuel :
  layout bss_start bss_stop randbuf init_stack m -> (3 <= fuel)%nat ->
  0 < empty < 18446744073709551616 -> empty < bss_start \/ bss_stop <= empty -> mload m empty = 0 ->
  exists m', start_c bss_start bss_stop randbuf init_stack cpuid_ecx rdrand rdtsc m = Ret (m', 0, init_stack) /\
    (forall x, bss_start <= x < bss_stop -> x < randbuf \/ randbuf + 16 <= x -> mload m' x = 0) /\
    (forall x, 0 <= x < 18446744073709551616 -> x < bss_start \/ bss_stop <= x -> mload m' x = mload m x) /\
    mem_read m' randbuf 16 = random_bytes randbuf cpuid_ecx rdrand rdtsc /\
    libc_start_main m' empty fuel 0 init_stack sysinfo =
      Ret (mkLibc (init_stack + 8) (init_stack + 16) 0 sysinfo 4096 empty empty (start_aux randbuf) (u64 randbuf), true).
Proof.
  intros Hl Hf He Heo Hez.
  destruct (start_c_spec bss_start bss_stop randbuf init_stack cpuid_ecx rdrand rdtsc m Hl) as (m' & E & H1 & H2 & H3).
  exists m'. split; [done|]. split; [done|]. split; [done|]. split; [done|].
  pose proof (fun i w => stack_word bss_start bss_stop randbuf init_stack m m' i w Hl H2) as Hw.
  unfold libc_start_main, init_libc. pose proof (aux_scan_stack randbuf init_stack m' fuel Hf Hw) as Ha.
  destruct fuel as [|fuel]; [lia|]. cbn [count_words].
  rewrite (Hw 0%nat 0 eq_refl : word_at m' init_stack 0 = 0).
  replace (init_stack + 8 * 0 + 8) with (init_stack + 8 * 1) by lia. rewrite word_shift.
  rewrite (Hw 1%nat 0 eq_refl : word_at m' init_stack (1 + 0) = 0). change (truth 0) with false. cbn [res_bind].
  replace (init_stack + 8 * 1 + 8 * (0 + 1)) with (init_stack + 8 * 2) by lia. rewrite Ha. cbn [res_bind]. cbv zeta.
  change (nth (Z.to_nat AT_EXECFN) (start_aux randbuf) 0) with 0. change (truth 0) with false. cbn iota.
  cbn [name_scan]. rewrite Z.add_0_r, (H2 empty), Hez by lia. change (truth 0) with false. cbn [res_bind].
  by do 2 f_equal.
Qed.

Definition crt_words : list Z := init_stack_words 5000.
Definition crt_mem : memory := mem_write ∅ 8000 (concat (le_bytes 8 <$> crt_words)).
Definition no_rdrand (k : nat) : rdrand_out := mkRdrand 0 false 0.
Definition fixed_tsc (k : nat) : Z * Z := (1, 2).

Lemma crt_layout : layout 4096 6000 5000 8000 crt_mem.
Proof.
  split; [lia|lia|unfold addr_ok; lia|].
  intros i w Hi. pose proof (lookup_lt_Some _ _ _ Hi) as Hlt. cbn in Hlt.
  do 8 (destruct i as [|i]; [injection Hi as <-; vm_compute; reflexivity|]). lia.
Qed.

Lemma crt0_starts_libc_witness : exists m', start_c 4096 6000 5000 8000 0 no_rdrand fixed_tsc crt_mem = Ret (m', 0, 8000) /\
  exists l, libc_start_main m' 9000 3 0 8000 0 = Ret (l, true) /\ l_page_size l = 4096.
Proof.
  destruct (crt0_starts_libc 4096 6000 5000 8000 0 no_rdrand fixed_tsc crt_mem 9000 0 3 crt_layout) as (m' & E & _ & _ & _ & El).
  - lia.
  - lia.
  - lia.
  - reflexivity.
  - exists m'. split; [exact E|]. eexists. split; [exact El|]. reflexivity.
Defined.

(** A failed RDRAND can be taken for a success: the asm statement declares
    [ok] as an output of which SETC writes the low byte only, so when the
    register's upper bytes are not zero (after conversion to int) the first
    RDRAND ends the retries even though it reported failure, and its result,
    which the processor sets to zero, becomes the random word. *)
Theorem crt0_rdrand_upper_bytes randbuf rdrand rdtsc i k t up :
  rdrand k = mkRdrand 0 false up -> i32 (up * 256) <> 0 ->
  random_word randbuf 0x40000000 rdrand rdtsc i k t = (0, S k, t).
Proof.
  intros Hk Hu. unfold random_word. change (truth (has_rdrand 0x40000000)) with true. cbn iota.
  assert (truth (i32 (rd_upper (rdrand k) * 256 + b2z (rd_carry (rdrand k)))) = true) as Ht.
  { rewrite Hk. cbn [rd_upper rd_carry b2z]. rewrite Z.add_0_r. unfold truth. by rewrite (proj2 (Z.eqb_neq _ 0) Hu). }
  cbn [rdrand_try]. change (truth 0) with false. cbn iota. rewrite Ht. cbn iota. rewrite Ht. by rewrite Hk.
Qed.
Lemma crt0_rdrand_upper_bytes_witness :
  random_word 5000 0x40000000 (fun _ => mkRdrand 0 false 1) fixed_tsc 0 0 0 = (0, 1%nat, 0%nat).
Proof. apply (crt0_rdrand_upper_bytes 5000 (fun _ => mkRdrand 0 false 1) fixed_tsc 0 0 0 1); [reflexivity|vm_compute; discriminate]. Defined.
