(* ===== verification/Link.v ===== *)
(** * The link layer as the ARP module uses it

    What etharp.c needs of pbuf.c and ethernet.c, as an interface: packets are
    named by their first pbuf, every use of a packet is a call, and the laws
    say that a packet one holds a reference to can be used and freed.  The
    implementation on the pbuf heap is in [Ethernet]. *)
From S2P Require Import Prelude.

Class LinkOps (W : Type) := {
  (** pbuf_alloc(PBUF_LINK, len, PBUF_RAM); 0 when there is no memory *)
  lk_alloc : Z -> W -> res (Z * W);
  (** storing and reading the first bytes of p->payload; past p->len this is
      an access outside the packet *)
  lk_store : Z -> list Z -> W -> res W;
  lk_load : Z -> Z -> W -> res (list Z);
  (** pbuf_free *)
  lk_free : Z -> W -> res W;
  (** another reference to the packet, or to a copy of it; 0 when there is no
      memory for the copy.  The reference count of a pbuf is 8 bits wide. *)
  lk_keep : Z -> W -> res (Z * W);
  (** ethernet_output(p, src, dst, type) *)
  lk_output : Z -> list Z -> list Z -> Z -> W -> res (Z * W);
}.

(** [owns w l]: the references in [l] are held; [room w p] is p->len. *)
Class LinkLaws (W : Type) {L : LinkOps W} := {
  owns : W -> list Z -> Prop;
  room : W -> Z -> Z;
  owns_perm : forall w l l', l ≡ₚ l' -> owns w l -> owns w l';
  owns_null : forall w p l, owns w (p :: l) -> p <> 0;
  alloc_ok : forall w l n, owns w l -> 0 <= n <= 1500 ->
    exists p w', lk_alloc n w = Ret (p, w') /\
      (p = 0 /\ owns w' l \/ owns w' (p :: l) /\ n <= room w' p);
  store_ok : forall w p l bs, owns w (p :: l) -> Z.of_nat (length bs) <= room w p ->
    exists w', lk_store p bs w = Ret w' /\ owns w' (p :: l);
  load_ok : forall w p l n, owns w (p :: l) -> 0 <= n <= room w p ->
    exists bs, lk_load p n w = Ret bs /\ Z.of_nat (length bs) = n /\ bytes bs;
  free_ok : forall w p l, owns w (p :: l) -> exists w', lk_free p w = Ret w' /\ owns w' l;
  keep_ok : forall w p l, owns w (p :: l) -> (count_occ Z.eq_dec l p <= 200)%nat ->
    exists r w', lk_keep p w = Ret (r, w') /\
      (r = 0 /\ owns w' (p :: l) \/ r <> 0 /\ owns w' (r :: p :: l));
  output_ok : forall w p l src dst ty, owns w (p :: l) -> length src = 6%nat -> length dst = 6%nat ->
    exists e w', lk_output p src dst ty w = Ret (e, w') /\ owns w' (p :: l);
}.
