(* ===== verification/Etharp.v ===== *)
(** * lwip-2.2.0/src/core/ipv4/etharp.c: the ARP cache

    The table that maps IPv4 to Ethernet addresses, its ageing, the packets
    waiting for an answer, and the ARP messages, for this configuration: one
    queued packet per entry, no static entries, entries matched by interface.
    Packets are handled through the interface [LinkOps]. *)
From S2P Require Import Prelude Pbuf NetGlue NetShim Ip4Addr Link.

Definition ARP_TABLE_SIZE : Z := 10.
Definition ARP_MAXAGE : Z := 300.
Definition ARP_MAXPENDING : Z := 5.
Definition ARP_AGE_REREQUEST_USED_UNICAST : Z := ARP_MAXAGE - 30.
Definition ARP_AGE_REREQUEST_USED_BROADCAST : Z := ARP_MAXAGE - 15.
Definition ETHARP_FLAG_TRY_HARD : Z := 1.
Definition ETHARP_FLAG_FIND_ONLY : Z := 2.
Definition ETH_HWADDR_LEN : Z := 6.
Definition SIZEOF_ETHARP_HDR : Z := 28.
Definition ARP_REQUEST : Z := 1.
Definition ARP_REPLY : Z := 2.
Definition ETHTYPE_IP : Z := 0x0800.
Definition ETHTYPE_ARP : Z := 0x0806.
Definition ERR_RTE : Z := -4.
Definition ethbroadcast : list Z := [255; 255; 255; 255; 255; 255].
Definition ethzero : list Z := [0; 0; 0; 0; 0; 0].

Inductive etharp_state :=
  | ETHARP_STATE_EMPTY
  | ETHARP_STATE_PENDING
  | ETHARP_STATE_STABLE
  | ETHARP_STATE_STABLE_REREQUESTING_1
  | ETHARP_STATE_STABLE_REREQUESTING_2.
#[export] Instance etharp_state_eq_dec : EqDecision etharp_state.
Proof. solve_decision. Defined.

(** [state >= ETHARP_STATE_STABLE] *)
Definition is_stable (s : etharp_state) : bool :=
  match s with ETHARP_STATE_EMPTY | ETHARP_STATE_PENDING => false | _ => true end.
Definition is_empty (s : etharp_state) : bool :=
  match s with ETHARP_STATE_EMPTY => true | _ => false end.
Definition is_pending (s : etharp_state) : bool :=
  match s with ETHARP_STATE_PENDING => true | _ => false end.

(** Pointers to packets and interfaces are addresses, 0 is NULL. *)
Record etharp_entry := mkEntry {
  e_q : Z;
  e_ipaddr : Z;
  e_netif : Z;
  e_ethaddr : list Z;
  e_ctime : Z;
  e_state : etharp_state;
}.

Definition set_e_q (v : Z) (e : etharp_entry) : etharp_entry :=
  mkEntry v (e_ipaddr e) (e_netif e) (e_ethaddr e) (e_ctime e) (e_state e).
Definition set_e_key (ip netif : Z) (e : etharp_entry) : etharp_entry :=
  mkEntry (e_q e) ip netif (e_ethaddr e) 0 (e_state e).
Definition set_e_netif (v : Z) (e : etharp_entry) : etharp_entry :=
  mkEntry (e_q e) (e_ipaddr e) v (e_ethaddr e) (e_ctime e) (e_state e).
Definition set_e_ethaddr (v : list Z) (e : etharp_entry) : etharp_entry :=
  mkEntry (e_q e) (e_ipaddr e) (e_netif e) v (e_ctime e) (e_state e).
Definition set_e_ctime (v : Z) (e : etharp_entry) : etharp_entry :=
  mkEntry (e_q e) (e_ipaddr e) (e_netif e) (e_ethaddr e) v (e_state e).
Definition set_e_state (v : etharp_state) (e : etharp_entry) : etharp_entry :=
  mkEntry (e_q e) (e_ipaddr e) (e_netif e) (e_ethaddr e) (e_ctime e) v.

(** The fields of struct netif that ARP, Ethernet and IP read. *)
Record nif := mkNif {
  if_ip : Z;
  if_netmask : Z;
  if_gw : Z;
  if_mtu : Z;
  if_hwaddr : list Z;
  if_hwaddr_len : Z;
  if_flags : Z;
  if_num : Z;
}.

Definition ip4_addr_ismulticast (a : Z) : bool :=
  Z.land a (lwip_htonl 0xf0000000) =? lwip_htonl 0xe0000000.
Definition ip4_addr_islinklocal (a : Z) : bool :=
  Z.land a (lwip_htonl 0xffff0000) =? lwip_htonl 0xa9fe0000.
Definition ip4_addr_isbroadcast (a : Z) (n : nif) : bool :=
  ip4_addr_isbroadcast_u32 a (if_flags n) (if_ip n) (if_netmask n).
Definition ip4_addr_byte (a : Z) (i : nat) : Z := nth i (le_bytes 4 a) 0.

(** The static variables, and the packets. *)
Record arp (W : Type) := mkArp {
  arp_table : list etharp_entry;
  etharp_cached_entry : Z;
  lk : W;
}.
Arguments mkArp {W}.
Arguments arp_table {W}.
Arguments etharp_cached_entry {W}.
Arguments lk {W}.

Definition zero_entry : etharp_entry := mkEntry 0 0 0 ethzero 0 ETHARP_STATE_EMPTY.
Definition arp_boot {W} (w : W) : arp W := mkArp (replicate 10 zero_entry) 0 w.

(** ** Searching the table *)

(** The candidates of etharp_find_entry; the index ARP_TABLE_SIZE is none. *)
Record cands := mkCands {
  c_empty : Z;
  c_old_pending : Z;
  c_age_pending : Z;
  c_old_queue : Z;
  c_age_queue : Z;
  c_old_stable : Z;
  c_age_stable : Z;
}.
Definition no_cands : cands :=
  mkCands ARP_TABLE_SIZE ARP_TABLE_SIZE 0 ARP_TABLE_SIZE 0 ARP_TABLE_SIZE 0.

(** An entry that is not empty and does not match. *)
Definition note_entry (i : Z) (e : etharp_entry) (c : cands) : cands :=
  if is_pending (e_state e) then
    if negb (e_q e =? 0) then
      if e_ctime e >=? c_age_queue c
      then mkCands (c_empty c) (c_old_pending c) (c_age_pending c) i (e_ctime e) (c_old_stable c) (c_age_stable c)
      else c
    else if e_ctime e >=? c_age_pending c
      then mkCands (c_empty c) i (e_ctime e) (c_old_queue c) (c_age_queue c) (c_old_stable c) (c_age_stable c)
      else c
  else if is_stable (e_state e) then
    if e_ctime e >=? c_age_stable c
    then mkCands (c_empty c) (c_old_pending c) (c_age_pending c) (c_old_queue c) (c_age_queue c) i (e_ctime e)
    else c
  else c.

Definition note_empty (i : Z) (c : cands) : cands :=
  mkCands i (c_old_pending c) (c_age_pending c) (c_old_queue c) (c_age_queue c) (c_old_stable c) (c_age_stable c).

(** Does entry [e] hold the address [ipaddr] ([None]: none given) of [netif]? *)
Definition entry_matches (ipaddr : option Z) (netif : Z) (e : etharp_entry) : bool :=
  match ipaddr with
  | None => false
  | Some a => (a =? e_ipaddr e) && ((netif =? 0) || (netif =? e_netif e))
  end.

(** The sweep: the index of a match, or the candidates. *)
Fixpoint find_sweep (ipaddr : option Z) (netif i : Z) (l : list etharp_entry) (c : cands) : Z + cands :=
  match l with
  | [] => inr c
  | e :: r =>
      if (c_empty c =? ARP_TABLE_SIZE) && is_empty (e_state e)
      then find_sweep ipaddr netif (i + 1) r (note_empty i c)
      else if negb (is_empty (e_state e)) then
        if entry_matches ipaddr netif e then inl i
        else find_sweep ipaddr netif (i + 1) r (note_entry i e c)
      else find_sweep ipaddr netif (i + 1) r c
  end.

(** struct etharp_hdr as it is read. *)
Definition hdr_field (hdr : list Z) (a len : nat) : Z := le_val (take len (drop a hdr)).
Definition hdr_hwtype (hdr : list Z) : Z := hdr_field hdr 0 2.
Definition hdr_proto (hdr : list Z) : Z := hdr_field hdr 2 2.
Definition hdr_hwlen (hdr : list Z) : Z := hdr_field hdr 4 1.
Definition hdr_protolen (hdr : list Z) : Z := hdr_field hdr 5 1.
Definition hdr_opcode (hdr : list Z) : Z := hdr_field hdr 6 2.
Definition hdr_shwaddr (hdr : list Z) : list Z := take 6 (drop 8 hdr).
Definition hdr_sipaddr (hdr : list Z) : Z := hdr_field hdr 14 4.
Definition hdr_dipaddr (hdr : list Z) : Z := hdr_field hdr 24 4.

Section Etharp.
Context {W : Type} `{!LinkOps W}.
(** The interfaces by address, as they are configured at the time of the call. *)
Implicit Types (N : Z -> option nif) (st : arp W).

Definition set_table (t : list etharp_entry) st : arp W := mkArp t (etharp_cached_entry st) (lk st).
Definition set_lk (w : W) st : arp W := mkArp (arp_table st) (etharp_cached_entry st) w.
Definition ETHARP_SET_ADDRHINT (i : Z) st : arp W := mkArp (arp_table st) i (lk st).
Definition entry (i : Z) st : res etharp_entry := arr_get (arp_table st) i.
Definition set_entry (i : Z) (e : etharp_entry) st : arp W :=
  set_table (<[Z.to_nat i := e]> (arp_table st)) st.
Definition upd_entry (i : Z) (f : etharp_entry -> etharp_entry) st : res (arp W) :=
  let* e := entry i st in Ret (set_entry i (f e) st).

Definition etharp_free_entry (i : Z) st : res (arp W) :=
  let* e := entry i st in
  let* st :=
    if negb (e_q e =? 0) then
      let* w := lk_free (e_q e) (lk st) in Ret (set_entry i (set_e_q 0 e) (set_lk w st))
    else Ret st in
  upd_entry i (set_e_state ETHARP_STATE_EMPTY) st.

(** The choice of an entry to recycle when none is empty. *)
Definition recycle (c : cands) st : res Z :=
  if c_old_stable c <? ARP_TABLE_SIZE then
    let* e := entry (c_old_stable c) st in
    lwip_assert (e_q e =? 0) (Ret (c_old_stable c))
  else if c_old_pending c <? ARP_TABLE_SIZE then Ret (c_old_pending c)
  else if c_old_queue c <? ARP_TABLE_SIZE then Ret (c_old_queue c)
  else Ret ERR_MEM.

Definition etharp_find_entry (ipaddr : option Z) (flags netif : Z) st : res (Z * arp W) :=
  match find_sweep ipaddr netif 0 (arp_table st) no_cands with
  | inl i => Ret (i, st)
  | inr c =>
      if has_flag flags ETHARP_FLAG_FIND_ONLY ||
         ((c_empty c =? ARP_TABLE_SIZE) && negb (has_flag flags ETHARP_FLAG_TRY_HARD))
      then Ret (ERR_MEM, st)
      else
        let* (i, st) :=
          if c_empty c <? ARP_TABLE_SIZE then Ret (c_empty c, st)
          else
            let* i := recycle c st in
            if i <? 0 then Ret (ERR_MEM, st)
            else lwip_assert (i <? ARP_TABLE_SIZE) (let* st := etharp_free_entry i st in Ret (i, st)) in
        if i <? 0 then Ret (ERR_MEM, st)
        else
          lwip_assert (i <? ARP_TABLE_SIZE) (
            let* e := entry i st in
            lwip_assert (is_empty (e_state e))
              (Ret (i, set_entry i (set_e_key (default (e_ipaddr e) ipaddr) netif e) st)))
  end.

(** ** Messages *)

(** struct etharp_hdr; the addresses are words in network order. *)
Definition etharp_hdr (opcode : Z) (shw : list Z) (sip : Z) (dhw : list Z) (dip : Z) : list Z :=
  le_bytes 2 (lwip_htons 1) ++ le_bytes 2 (lwip_htons ETHTYPE_IP) ++ [6; 4] ++
  le_bytes 2 (lwip_htons opcode) ++ shw ++ le_bytes 4 sip ++ dhw ++ le_bytes 4 dip.

Definition etharp_raw (n : nif) (ethsrc ethdst hwsrc : list Z) (ipsrc : Z) (hwdst : list Z)
  (ipdst opcode : Z) st : res (Z * arp W) :=
  let* (p, w) := lk_alloc SIZEOF_ETHARP_HDR (lk st) in
  if p =? 0 then Ret (ERR_MEM, set_lk w st)
  else
    lwip_assert (if_hwaddr_len n =? ETH_HWADDR_LEN) (
      let* w := lk_store p (etharp_hdr opcode hwsrc ipsrc hwdst ipdst) w in
      let* (_, w) := lk_output p ethsrc ethdst ETHTYPE_ARP w in
      let* w := lk_free p w in
      Ret (ERR_OK, set_lk w st)).

Definition etharp_request_dst (n : nif) (ipaddr : Z) (hw_dst : list Z) st : res (Z * arp W) :=
  etharp_raw n (if_hwaddr n) hw_dst (if_hwaddr n) (if_ip n) ethzero ipaddr ARP_REQUEST st.
Definition etharp_request (n : nif) (ipaddr : Z) st : res (Z * arp W) :=
  etharp_request_dst n ipaddr ethbroadcast st.

(** ** Ageing *)
Definition tmr_entry N (i : Z) st : res (arp W) :=
  let* e := entry i st in
  if is_empty (e_state e) then Ret st
  else
    let e := set_e_ctime (u16 (e_ctime e + 1)) e in
    let st := set_entry i e st in
    if (e_ctime e >=? ARP_MAXAGE) || (is_pending (e_state e) && (e_ctime e >=? ARP_MAXPENDING))
    then etharp_free_entry i st
    else
      match e_state e with
      | ETHARP_STATE_STABLE_REREQUESTING_1 =>
          Ret (set_entry i (set_e_state ETHARP_STATE_STABLE_REREQUESTING_2 e) st)
      | ETHARP_STATE_STABLE_REREQUESTING_2 => Ret (set_entry i (set_e_state ETHARP_STATE_STABLE e) st)
      | ETHARP_STATE_PENDING =>
          let* n := res_of_option (N (e_netif e)) in
          let* (_, st) := etharp_request n (e_ipaddr e) st in Ret st
      | _ => Ret st
      end.

Fixpoint for_entries (f : Z -> arp W -> res (arp W)) (ix : list Z) st : res (arp W) :=
  match ix with
  | [] => Ret st
  | i :: r => let* st := f i st in for_entries f r st
  end.

Definition etharp_tmr N st : res (arp W) := for_entries (tmr_entry N) (seqZ 0 ARP_TABLE_SIZE) st.

Definition cleanup_entry (netif i : Z) st : res (arp W) :=
  let* e := entry i st in
  if negb (is_empty (e_state e)) && (e_netif e =? netif) then etharp_free_entry i st else Ret st.
Definition etharp_cleanup_netif (netif : Z) st : res (arp W) :=
  for_entries (cleanup_entry netif) (seqZ 0 ARP_TABLE_SIZE) st.

(** ** Learning and looking up *)
Definition etharp_update_arp_entry N (netif ipaddr : Z) (ethaddr : list Z) (flags : Z) st
  : res (Z * arp W) :=
  let* n := res_of_option (N netif) in
  lwip_assert (if_hwaddr_len n =? ETH_HWADDR_LEN) (
    if (ipaddr =? IPADDR_ANY) || ip4_addr_isbroadcast ipaddr n || ip4_addr_ismulticast ipaddr
    then Ret (ERR_ARG, st)
    else
      let* (i, st) := etharp_find_entry (Some ipaddr) flags netif st in
      if i <? 0 then Ret (i, st)
      else
        let* e := entry i st in
        let e := set_e_ctime 0 (set_e_ethaddr ethaddr (set_e_netif netif (set_e_state ETHARP_STATE_STABLE e))) in
        let st := set_entry i e st in
        if negb (e_q e =? 0) then
          let p := e_q e in
          let st := set_entry i (set_e_q 0 e) st in
          let* (_, w) := lk_output p (if_hwaddr n) ethaddr ETHTYPE_IP (lk st) in
          let* w := lk_free p w in
          Ret (ERR_OK, set_lk w st)
        else Ret (ERR_OK, st)).

(** The index and the addresses found. *)
Definition etharp_find_addr (netif ipaddr : Z) st : res (Z * option (list Z * Z) * arp W) :=
  let* (i, st) := etharp_find_entry (Some ipaddr) ETHARP_FLAG_FIND_ONLY netif st in
  if i >=? 0 then
    let* e := entry i st in
    if is_stable (e_state e) then Ret (i, Some (e_ethaddr e, e_ipaddr e), st) else Ret (-1, None, st)
  else Ret (-1, None, st).

Definition etharp_get_entry (i : Z) st : option (Z * Z * list Z) :=
  if i <? ARP_TABLE_SIZE then
    match arp_table st !! Z.to_nat i with
    | Some e => if is_stable (e_state e) then Some (e_ipaddr e, e_netif e, e_ethaddr e) else None
    | None => None
    end
  else None.

(** ** Sending *)
Definition etharp_output_to_arp_index N (netif q arp_idx : Z) st : res (Z * arp W) :=
  let* n := res_of_option (N netif) in
  let* e := entry arp_idx st in
  lwip_assert (is_stable (e_state e)) (
    let* st :=
      if bool_decide (e_state e = ETHARP_STATE_STABLE) then
        if e_ctime e >=? ARP_AGE_REREQUEST_USED_BROADCAST then
          let* (r, st) := etharp_request n (e_ipaddr e) st in
          if r =? ERR_OK then upd_entry arp_idx (set_e_state ETHARP_STATE_STABLE_REREQUESTING_1) st else Ret st
        else if e_ctime e >=? ARP_AGE_REREQUEST_USED_UNICAST then
          let* (r, st) := etharp_request_dst n (e_ipaddr e) (e_ethaddr e) st in
          if r =? ERR_OK then upd_entry arp_idx (set_e_state ETHARP_STATE_STABLE_REREQUESTING_1) st else Ret st
        else Ret st
      else Ret st in
    let* (r, w) := lk_output q (if_hwaddr n) (e_ethaddr e) ETHTYPE_IP (lk st) in
    Ret (r, set_lk w st)).

(** The end of etharp_query: the packet [q] (0: none) is sent or waits at entry [i]. *)
Definition query_packet (n : nif) (i q result : Z) st : res (Z * arp W) :=
  if q =? 0 then Ret (result, st)
  else
    let* e := entry i st in
    if is_stable (e_state e) then
      let st := ETHARP_SET_ADDRHINT i st in
      let* (r, w) := lk_output q (if_hwaddr n) (e_ethaddr e) ETHTYPE_IP (lk st) in
      Ret (r, set_lk w st)
    else if is_pending (e_state e) then
      let* (p, w) := lk_keep q (lk st) in
      let st := set_lk w st in
      if negb (p =? 0) then
        let* st :=
          if negb (e_q e =? 0) then let* w := lk_free (e_q e) (lk st) in Ret (set_lk w st) else Ret st in
        Ret (ERR_OK, set_entry i (set_e_q p e) st)
      else Ret (ERR_MEM, st)
    else Ret (result, st).

(** [q] is 0 when no packet is given. *)
Definition etharp_query N (netif ipaddr q : Z) st : res (Z * arp W) :=
  let* n := res_of_option (N netif) in
  if ip4_addr_isbroadcast ipaddr n || ip4_addr_ismulticast ipaddr || (ipaddr =? IPADDR_ANY)
  then Ret (ERR_ARG, st)
  else
    let* (i, st) := etharp_find_entry (Some ipaddr) ETHARP_FLAG_TRY_HARD netif st in
    if i <? 0 then Ret (i, st)
    else
      let* e := entry i st in
      let is_new_entry := is_empty (e_state e) in
      let st := if is_new_entry
                then set_entry i (set_e_netif netif (set_e_state ETHARP_STATE_PENDING e)) st else st in
      let* (result, st) :=
        if is_new_entry || (q =? 0) then
          let* (r, st) := etharp_request n ipaddr st in
          let* e := entry i st in
          let st := if (r =? ERR_OK) && is_pending (e_state e) && negb is_new_entry
                    then set_entry i (set_e_ctime 0 e) st else st in
          Ret (r, st)
        else Ret (ERR_MEM, st) in
      query_packet n i q result st.

(** The first stable entry for [ipaddr], from index [i] on. *)
Fixpoint find_stable (netif ipaddr i : Z) (l : list etharp_entry) : option Z :=
  match l with
  | [] => None
  | e :: r =>
      if is_stable (e_state e) && (e_netif e =? netif) && (ipaddr =? e_ipaddr e) then Some i
      else find_stable netif ipaddr (i + 1) r
  end.

(** The address asked for: the destination or the gateway to it. *)
Definition next_hop (n : nif) (ipaddr : Z) : option Z :=
  if negb (ip4_addr_net_eq ipaddr (if_ip n) (if_netmask n)) && negb (ip4_addr_islinklocal ipaddr) then
    if negb (if_gw n =? IPADDR_ANY) then Some (if_gw n) else None
  else Some ipaddr.

Definition multicast_mac (ipaddr : Z) : list Z :=
  [0x01; 0x00; 0x5e; Z.land (ip4_addr_byte ipaddr 1) 0x7f; ip4_addr_byte ipaddr 2; ip4_addr_byte ipaddr 3].

Definition etharp_output N (netif q ipaddr : Z) st : res (Z * arp W) :=
  let* n := res_of_option (N netif) in
  let send dest :=
    let* (r, w) := lk_output q (if_hwaddr n) dest ETHTYPE_IP (lk st) in Ret (r, set_lk w st) in
  lwip_assert (negb (q =? 0)) (
    if ip4_addr_isbroadcast ipaddr n then send ethbroadcast
    else if ip4_addr_ismulticast ipaddr then send (multicast_mac ipaddr)
    else
      match next_hop n ipaddr with
      | None => Ret (ERR_RTE, st)
      | Some dst_addr =>
          let* c := entry (etharp_cached_entry st) st in
          if is_stable (e_state c) && (e_netif c =? netif) && (dst_addr =? e_ipaddr c)
          then etharp_output_to_arp_index N netif q (etharp_cached_entry st) st
          else
            match find_stable netif dst_addr 0 (arp_table st) with
            | Some i => etharp_output_to_arp_index N netif q i (ETHARP_SET_ADDRHINT i st)
            | None => etharp_query N netif dst_addr q st
            end
      end).

(** ** Receiving *)
Definition etharp_input N (p netif : Z) st : res (arp W) :=
  if netif =? 0 then Ret st else
  let* n := res_of_option (N netif) in
  let* hdr := lk_load p SIZEOF_ETHARP_HDR (lk st) in
  if negb (hdr_hwtype hdr =? lwip_htons 1) || negb (hdr_hwlen hdr =? ETH_HWADDR_LEN) ||
     negb (hdr_protolen hdr =? 4) || negb (hdr_proto hdr =? lwip_htons ETHTYPE_IP)
  then let* w := lk_free p (lk st) in Ret (set_lk w st)
  else
    let sipaddr := hdr_sipaddr hdr in
    let dipaddr := hdr_dipaddr hdr in
    let shwaddr := hdr_shwaddr hdr in
    let configured := negb (if_ip n =? IPADDR_ANY) in
    let for_us := configured && (dipaddr =? if_ip n) in
    let from_us := configured && (sipaddr =? if_ip n) in
    let* (_, st) := etharp_update_arp_entry N netif sipaddr shwaddr
                      (if for_us then ETHARP_FLAG_TRY_HARD else ETHARP_FLAG_FIND_ONLY) st in
    let* st :=
      if (hdr_opcode hdr =? lwip_htons ARP_REQUEST) && for_us && negb from_us then
        let* (_, st) := etharp_raw n (if_hwaddr n) shwaddr (if_hwaddr n) (if_ip n) shwaddr sipaddr ARP_REPLY st in
        Ret st
      else Ret st in
    let* w := lk_free p (lk st) in
    Ret (set_lk w st).
End Etharp.
