(* ===== verification/EtharpInv.v ===== *)
(** * The ARP cache: invariant

    The table stays well formed (no address twice, packets only on pending
    entries, ages below their limits), every queued packet is a reference the
    module holds, and every operation keeps this and returns. *)
From S2P Require Import Prelude Pbuf NetGlue NetShim Ip4Addr Link Etharp.

Definition busy (e : etharp_entry) : Prop := e_state e <> ETHARP_STATE_EMPTY.
Definition same_key (e f : etharp_entry) : Prop := e_ipaddr e = e_ipaddr f /\ e_netif e = e_netif f.

(** The reference an entry holds, and those of the table. *)
Definition qref (e : etharp_entry) : list Z := if e_q e =? 0 then [] else [e_q e].
Definition queue_refs (t : list etharp_entry) : list Z := concat (qref <$> t).

Lemma queue_refs_split t i e : t !! i = Some e ->
  exists rest, queue_refs t ≡ₚ qref e ++ rest /\ forall e', queue_refs (<[i := e']> t) ≡ₚ qref e' ++ rest.
Proof.
  intros H. pose proof (take_drop_middle t i e H) as Ht.
  exists (queue_refs (take i t) ++ queue_refs (drop (S i) t)).
  assert (forall e', queue_refs (take i t ++ e' :: drop (S i) t) ≡ₚ
    qref e' ++ queue_refs (take i t) ++ queue_refs (drop (S i) t)) as HP.
  { intros e'. unfold queue_refs. rewrite fmap_app, fmap_cons, concat_app. cbn [concat].
    rewrite !app_assoc. apply Permutation_app_tail, Permutation_app_comm. }
  split; [rewrite <- Ht at 1; apply HP|]. intros e'.
  rewrite (insert_take_drop t i e') by by eapply lookup_lt_Some. apply HP.
Qed.

Lemma length_queue_refs t : (length (queue_refs t) <= length t)%nat.
Proof.
  unfold queue_refs. induction t as [|e t IH]; cbn; [lia|]. rewrite length_app. unfold qref at 1.
  destruct (e_q e =? 0); cbn; lia.
Qed.

Section Inv.
Context {W : Type} {L : LinkOps W} {LL : LinkLaws W}.
(** The interfaces that exist. *)
Variable known : Z -> Prop.
Implicit Types (N : Z -> option nif) (st : arp W).

Record entry_ok (e : etharp_entry) : Prop := {
  eo_queue : e_q e <> 0 -> e_state e = ETHARP_STATE_PENDING;
  eo_mac : length (e_ethaddr e) = 6%nat;
  eo_netif : busy e -> known (e_netif e);
  eo_age : busy e -> 0 <= e_ctime e < ARP_MAXAGE;
  eo_pending : e_state e = ETHARP_STATE_PENDING -> e_ctime e < ARP_MAXPENDING;
}.

(** [x] are the references of the callers. *)
Record arp_ok (x : list Z) st : Prop := {
  ao_len : length (arp_table st) = 10%nat;
  ao_cached : 0 <= etharp_cached_entry st < 10;
  ao_entry : forall i e, arp_table st !! i = Some e -> entry_ok e;
  ao_uniq : forall i j e f, arp_table st !! i = Some e -> arp_table st !! j = Some f ->
    busy e -> busy f -> same_key e f -> i = j;
  ao_owns : owns (lk st) (x ++ queue_refs (arp_table st));
}.

(** How the interfaces are configured. *)
Definition cfg_ok N : Prop := forall a, known a -> exists n, N a = Some n /\
  if_hwaddr_len n = 6 /\ length (if_hwaddr n) = 6%nat.
Context (known_null : ~ known 0).

Lemma arp_ok_insert x x' st i e e' c w :
  arp_ok x st -> arp_table st !! i = Some e -> entry_ok e' ->
  (busy e' -> forall j f, j <> i -> arp_table st !! j = Some f -> busy f -> ~ same_key e' f) ->
  owns w (x' ++ queue_refs (<[i := e']> (arp_table st))) -> 0 <= c < 10 ->
  arp_ok x' (mkArp (<[i := e']> (arp_table st)) c w).
Proof.
  intros [H1 H2 H3 H4 H5] Hi He Hu Ho Hc. pose proof (lookup_lt_Some _ _ _ Hi) as Hlt.
  split; cbn; [by rewrite length_insert|done| | |done].
  - intros j f [(-> & -> & _)|[_ Hj]]%list_lookup_insert_Some; [done|by eapply H3].
  - intros j k f g Hj Hk Hf Hg Hs.
    apply list_lookup_insert_Some in Hj as [(-> & -> & _)|[Hji Hj]];
      apply list_lookup_insert_Some in Hk as [(-> & -> & _)|[Hki Hk]]; [done| | |by eapply H4].
    + exfalso. eapply (Hu Hf k g); done.
    + exfalso. eapply (Hu Hg j f); try done. destruct Hs. by split.
Qed.

(** Fields other than the key change; the queued packet stays. *)
Lemma arp_ok_same_key x st i e e' c :
  arp_ok x st -> arp_table st !! i = Some e -> entry_ok e' -> e_q e' = e_q e ->
  (busy e' -> busy e) -> same_key e' e -> 0 <= c < 10 ->
  arp_ok x (mkArp (<[i := e']> (arp_table st)) c (lk st)).
Proof.
  intros H Hi He Hq Hb Hk Hc. eapply arp_ok_insert; try done.
  - intros Hb' j f Hj Hf Hfb Hs. apply Hj. symmetry. eapply (ao_uniq _ _ H i j e f); try done; [by apply Hb|].
    destruct Hk, Hs. split; congruence.
  - destruct (queue_refs_split _ _ _ Hi) as (rest & E1 & E2).
    eapply owns_perm; [|apply (ao_owns _ _ H)]. rewrite E1, (E2 e'). unfold qref. by rewrite Hq.
Qed.

Lemma arp_ok_lk x x' st w : arp_ok x st -> owns w (x' ++ queue_refs (arp_table st)) -> arp_ok x' (set_lk w st).
Proof. intros [H1 H2 H3 H4 H5] Ho. by split. Qed.
Lemma arp_ok_hint x st i : arp_ok x st -> 0 <= i < 10 -> arp_ok x (ETHARP_SET_ADDRHINT i st).
Proof. intros [H1 H2 H3 H4 H5] Ho. by split. Qed.
Lemma entry_lookup x st i : arp_ok x st -> 0 <= i < 10 -> exists e, arp_table st !! Z.to_nat i = Some e /\
  entry i st = Ret e.
Proof.
  intros H Hi. destruct (lookup_lt_is_Some_2 (arp_table st) (Z.to_nat i)) as [e He].
  { rewrite (ao_len _ _ H). lia. }
  exists e. split; [done|]. unfold entry. apply arr_get_Ret. split; [lia|done].
Qed.
Lemma entry_some st i e : arp_table st !! i = Some e -> entry (Z.of_nat i) st = Ret e.
Proof. intros H. unfold entry. apply arr_get_Ret. split; [lia|]. by rewrite Nat2Z.id. Qed.

Lemma set_entry_nat st i e :
  set_entry (Z.of_nat i) e st = mkArp (<[i := e]> (arp_table st)) (etharp_cached_entry st) (lk st).
Proof. unfold set_entry, set_table. by rewrite Nat2Z.id. Qed.

(** ** Freeing an entry *)
Definition cleared (e : etharp_entry) : etharp_entry := set_e_state ETHARP_STATE_EMPTY (set_e_q 0 e).

Lemma cleared_ok e : length (e_ethaddr e) = 6%nat -> entry_ok (cleared e).
Proof. intros E. by split. Qed.

(** Also right after a change to the entry that keeps the packet. *)
Lemma free_entry_after x st i e e1 :
  arp_ok x st -> arp_table st !! i = Some e -> e_q e1 = e_q e -> length (e_ethaddr e1) = 6%nat ->
  exists w, etharp_free_entry (Z.of_nat i) (set_table (<[i := e1]> (arp_table st)) st) =
    Ret (mkArp (<[i := cleared e1]> (arp_table st)) (etharp_cached_entry st) w) /\
    arp_ok x (mkArp (<[i := cleared e1]> (arp_table st)) (etharp_cached_entry st) w).
Proof.
  intros H Hi Hq1 Hm. pose proof (lookup_lt_Some _ _ _ Hi) as Hlt.
  set (st1 := set_table (<[i := e1]> (arp_table st)) st).
  assert (arp_table st1 !! i = Some e1) as Hi1 by by apply list_lookup_insert_eq.
  destruct (queue_refs_split _ _ _ Hi) as (rest & E1 & E2). pose proof (ao_owns _ _ H) as Ho.
  unfold etharp_free_entry. rewrite (entry_some st1 i e1 Hi1). cbn [res_bind].
  assert (forall w, owns w (x ++ rest) ->
    arp_ok x (mkArp (<[i := cleared e1]> (arp_table st)) (etharp_cached_entry st) w)) as Hfin.
  { intros w Hw. apply (arp_ok_insert x x st i e); [done|done|by apply cleared_ok|by intros []; done| |apply H].
    eapply owns_perm; [|exact Hw]. by rewrite (E2 (cleared e1)). }
  unfold qref in E1. rewrite <- Hq1 in E1. destruct (Z.eqb_spec (e_q e1) 0) as [Eq|Eq]; cbn [negb].
  - exists (lk st). cbn [res_bind]. unfold upd_entry. rewrite (entry_some st1 i e1 Hi1). cbn [res_bind].
    unfold set_entry, set_table, st1. rewrite Nat2Z.id. cbn [arp_table etharp_cached_entry lk set_table].
    rewrite list_insert_insert_eq. replace (set_e_state ETHARP_STATE_EMPTY e1) with (cleared e1)
      by (destruct e1; cbn in *; by rewrite Eq).
    split; [done|]. apply Hfin. eapply owns_perm; [|exact Ho]. by rewrite E1.
  - destruct (free_ok (lk st) (e_q e1) (x ++ rest)) as (w & Ew & Hw).
    { eapply owns_perm; [|exact Ho]. rewrite E1. cbn. by rewrite Permutation_middle. }
    exists w. cbn [st1 lk set_table]. rewrite Ew. cbn [res_bind].
    unfold upd_entry, set_entry, set_lk, entry, st1, set_table. rewrite Nat2Z.id.
    cbn [arp_table etharp_cached_entry lk]. rewrite list_insert_insert_eq.
    rewrite (proj2 (arr_get_Ret _ (Z.of_nat i) (set_e_q 0 e1)))
      by (split; [lia|]; rewrite Nat2Z.id; by apply list_lookup_insert_eq).
    cbn [res_bind arp_table etharp_cached_entry lk]. rewrite list_insert_insert_eq. by split; [|apply Hfin].
Qed.

Lemma free_entry_spec x st i e :
  arp_ok x st -> arp_table st !! i = Some e ->
  exists w, etharp_free_entry (Z.of_nat i) st =
    Ret (mkArp (<[i := cleared e]> (arp_table st)) (etharp_cached_entry st) w) /\
    arp_ok x (mkArp (<[i := cleared e]> (arp_table st)) (etharp_cached_entry st) w).
Proof.
  intros H Hi. destruct (free_entry_after x st i e e H Hi eq_refl (eo_mac _ (ao_entry _ _ H i e Hi))) as (w & E & Hw).
  rewrite (list_insert_id _ _ _ Hi) in E. exists w. by destruct st.
Qed.

(** ** The sweep *)

(** The kinds of entry the sweep remembers the oldest of. *)
Definition stable_entry (e : etharp_entry) : Prop := is_stable (e_state e) = true.
Definition idle_entry (e : etharp_entry) : Prop := e_state e = ETHARP_STATE_PENDING /\ e_q e = 0.
Definition queue_entry (e : etharp_entry) : Prop := e_state e = ETHARP_STATE_PENDING /\ e_q e <> 0.

(** [old] is the oldest entry of its kind in the prefix swept, 10 if none. *)
Definition oldest (P : etharp_entry -> Prop) (pre : list etharp_entry) (old age : Z) : Prop :=
  (old = 10 /\ age = 0 /\ Forall (fun e => ~ P e) pre) \/
  (exists k e, old = Z.of_nat k /\ pre !! k = Some e /\ P e /\ age = e_ctime e /\
     Forall (fun f => P f -> e_ctime f <= age) pre).

Lemma oldest_skip P pre e old age : ~ P e -> oldest P pre old age -> oldest P (pre ++ [e]) old age.
Proof.
  intros He [(E1 & E2 & Hf)|(k & e' & E1 & Hk & HP & E2 & Hf)].
  - left. split_and!; try done. apply Forall_app. by repeat constructor.
  - right. exists k, e'. split_and!; try done; [by apply lookup_app_l_Some|].
    apply Forall_app. split; [done|]. by repeat constructor.
Qed.
Lemma oldest_note P pre e old age : P e -> 0 <= e_ctime e -> oldest P pre old age ->
  oldest P (pre ++ [e]) (if e_ctime e >=? age then Z.of_nat (length pre) else old)
    (if e_ctime e >=? age then e_ctime e else age).
Proof.
  intros He Hc Ho. rewrite Z.geb_leb. destruct (Z.leb_spec age (e_ctime e)) as [Hle|Hgt].
  - right. exists (length pre), e. split_and!; try done; [by apply list_lookup_middle|].
    apply Forall_app. split; [|by repeat constructor].
    destruct Ho as [(_ & _ & Hf)|(k & e' & _ & _ & _ & _ & Hf)]; (eapply Forall_impl; [exact Hf|]); cbn; intros f Hf'.
    + done.
    + intros HP. specialize (Hf' HP). lia.
  - destruct Ho as [(_ & -> & _)|(k & e' & E1 & Hk & HP & E2 & Hf)]; [lia|].
    right. exists k, e'. split_and!; try done; [by apply lookup_app_l_Some|].
    apply Forall_app. split; [done|]. repeat constructor. lia.
Qed.

(** [old] of the first empty entry. *)
Definition first_empty (pre : list etharp_entry) (i : Z) : Prop :=
  (i = 10 /\ Forall busy pre) \/
  (exists k e, i = Z.of_nat k /\ pre !! k = Some e /\ e_state e = ETHARP_STATE_EMPTY /\ Forall busy (take k pre)).

Record cands_ok (pre : list etharp_entry) (c : cands) : Prop := {
  co_empty : first_empty pre (c_empty c);
  co_pending : oldest idle_entry pre (c_old_pending c) (c_age_pending c);
  co_queue : oldest queue_entry pre (c_old_queue c) (c_age_queue c);
  co_stable : oldest stable_entry pre (c_old_stable c) (c_age_stable c);
}.

Lemma no_cands_ok : cands_ok [] no_cands.
Proof. split; left; by repeat constructor. Qed.

Lemma first_empty_app pre e i : first_empty pre i -> i <> 10 \/ busy e -> first_empty (pre ++ [e]) i.
Proof.
  intros [[-> Hf]|(k & e' & -> & Hk & He & Hf)] Hc.
  - destruct Hc as [|Hb]; [done|]. left. split; [done|]. apply Forall_app. by repeat constructor.
  - right. exists k, e'. split_and!; try done; [by apply lookup_app_l_Some|].
    rewrite take_app_le; [done|]. apply lookup_lt_Some in Hk. lia.
Qed.

Lemma cands_note_empty pre e c : cands_ok pre c -> (length pre < 10)%nat -> c_empty c = 10 -> e_state e = ETHARP_STATE_EMPTY ->
  cands_ok (pre ++ [e]) (note_empty (Z.of_nat (length pre)) c).
Proof.
  intros [H1 H2 H3 H4] Hl Hc He.
  assert (~ idle_entry e /\ ~ queue_entry e /\ ~ stable_entry e) as (N1 & N2 & N3).
  { unfold idle_entry, queue_entry, stable_entry. rewrite He. split_and!; try (by intros [? _]); done. }
  split; cbn; try by apply oldest_skip.
  right. exists (length pre), e. split_and!; try done; [by apply list_lookup_middle|].
  rewrite take_app_length. destruct H1 as [[_ Hf]|(k & e' & E & Hk & _)]; [done|].
  apply lookup_lt_Some in Hk. lia.
Qed.

Lemma cands_skip_empty pre e c : cands_ok pre c -> c_empty c <> 10 -> e_state e = ETHARP_STATE_EMPTY ->
  cands_ok (pre ++ [e]) c.
Proof.
  intros [H1 H2 H3 H4] Hc He. split; [apply first_empty_app; tauto|apply oldest_skip; [|done]..];
    unfold idle_entry, queue_entry, stable_entry; rewrite He; try (by intros [? _]); done.
Qed.

Lemma stable_of e v : e_state e = v -> is_stable v = true -> stable_entry e.
Proof. unfold stable_entry. by intros ->. Qed.

(** An entry is of one kind only, so it is no candidate of another kind. *)
Local Ltac other_kinds Es :=
  split; cbn; try done; apply oldest_skip; try done;
  unfold idle_entry, queue_entry, stable_entry; rewrite Es; try (by intros [? ?]); done.

Lemma cands_note_entry pre e c : cands_ok pre c -> busy e -> 0 <= e_ctime e ->
  cands_ok (pre ++ [e]) (note_entry (Z.of_nat (length pre)) e c).
Proof.
  intros [H1 H2 H3 H4] Hb Hc. pose proof (first_empty_app _ e _ H1 (or_intror Hb)) as He.
  unfold note_entry. destruct (e_state e) eqn:Es; cbn [is_pending is_stable]; [by destruct Hb| | | |];
    [destruct (Z.eqb_spec (e_q e) 0) as [Eq|Eq]; cbn [negb]|..].
  - pose proof (oldest_note idle_entry pre e _ _ (conj Es Eq) Hc H2) as Hn.
    destruct (e_ctime e >=? c_age_pending c); other_kinds Es.
  - pose proof (oldest_note queue_entry pre e _ _ (conj Es Eq) Hc H3) as Hn.
    destruct (e_ctime e >=? c_age_queue c); other_kinds Es.
  - pose proof (oldest_note stable_entry pre e _ _ (stable_of _ _ Es eq_refl) Hc H4) as Hn.
    destruct (e_ctime e >=? c_age_stable c); other_kinds Es.
  - pose proof (oldest_note stable_entry pre e _ _ (stable_of _ _ Es eq_refl) Hc H4) as Hn.
    destruct (e_ctime e >=? c_age_stable c); other_kinds Es.
  - pose proof (oldest_note stable_entry pre e _ _ (stable_of _ _ Es eq_refl) Hc H4) as Hn.
    destruct (e_ctime e >=? c_age_stable c); other_kinds Es.
Qed.

(** The sweep finds the busy entry that matches, or there is none. *)
Lemma find_sweep_spec ipaddr netif pre l c :
  cands_ok pre c -> Forall entry_ok (pre ++ l) -> length (pre ++ l) = 10%nat ->
  match find_sweep ipaddr netif (Z.of_nat (length pre)) l c with
  | inl i => exists e, l !! (Z.to_nat i - length pre)%nat = Some e /\ Z.of_nat (length pre) <= i < 10 /\
      busy e /\ entry_matches ipaddr netif e = true
  | inr c' => cands_ok (pre ++ l) c' /\ Forall (fun e => busy e -> entry_matches ipaddr netif e = false) l
  end.
Proof.
  revert pre c. induction l as [|e l IH]; intros pre c Hc Hok Hlen; cbn [find_sweep].
  { rewrite app_nil_r. by split. }
  assert (length pre < 10)%nat as Hl by (rewrite length_app in Hlen; cbn in Hlen; lia).
  assert (entry_ok e) as He by (apply Forall_app in Hok as [_ Hok]; by inversion Hok).
  assert (forall c', cands_ok (pre ++ [e]) c' ->
    (busy e -> entry_matches ipaddr netif e = false) ->
    match find_sweep ipaddr netif (Z.of_nat (length pre) + 1) l c' with
    | inl i => exists e', (e :: l) !! (Z.to_nat i - length pre)%nat = Some e' /\ Z.of_nat (length pre) <= i < 10 /\
        busy e' /\ entry_matches ipaddr netif e' = true
    | inr c'' => cands_ok (pre ++ e :: l) c'' /\
        Forall (fun e => busy e -> entry_matches ipaddr netif e = false) (e :: l)
    end) as Hstep.
  { intros c' Hc' Hm. specialize (IH (pre ++ [e]) c' Hc').
    rewrite <- !app_assoc, !length_app in IH. cbn [app length] in IH. rewrite length_app in Hlen. cbn in Hlen.
    replace (Z.of_nat (length pre + 1)) with (Z.of_nat (length pre) + 1) in IH by lia.
    specialize (IH Hok ltac:(lia)). destruct (find_sweep _ _ _ _ _) as [i|c''].
    - destruct IH as (e' & Hi & Hr & Hb & Hm'). exists e'. split_and!; try done; [|lia..].
      replace (Z.to_nat i - length pre)%nat with (S (Z.to_nat i - (length pre + 1))) by lia. done.
    - destruct IH as [Hc'' Hf]. split; [done|]. by constructor. }
  destruct (is_empty (e_state e)) eqn:Ee.
  - assert (e_state e = ETHARP_STATE_EMPTY) as Es by (by destruct (e_state e)).
    rewrite andb_true_r. cbn [negb].
    destruct (Z.eqb_spec (c_empty c) ARP_TABLE_SIZE) as [E|E]; apply Hstep; try (by intros []).
    + by apply cands_note_empty.
    + by apply cands_skip_empty.
  - assert (busy e) as Hb by (intros E; by rewrite E in Ee). rewrite andb_false_r. cbn [negb].
    destruct (entry_matches ipaddr netif e) eqn:Em.
    + exists e. rewrite Nat2Z.id, Nat.sub_diag. split_and!; try done; lia.
    + apply Hstep; [|done]. apply cands_note_entry; [done|done|]. by apply He.
Qed.

(** ** Finding or making an entry *)
Definition oldest_of (P : etharp_entry -> Prop) (t : list etharp_entry) (e : etharp_entry) : Prop :=
  P e /\ Forall (fun f => P f -> e_ctime f <= e_ctime e) t.

(** The entry a new address gets: the first empty one; when all are in use,
    the oldest stable one, else the oldest pending one without a packet, else
    the oldest pending one. *)
Definition victim (t : list etharp_entry) (i : nat) (e : etharp_entry) : Prop :=
  e_state e = ETHARP_STATE_EMPTY /\ Forall busy (take i t) \/
  Forall busy t /\
  (oldest_of stable_entry t e \/ Forall (fun f => ~ stable_entry f) t /\
   (oldest_of idle_entry t e \/ Forall (fun f => ~ idle_entry f) t /\ oldest_of queue_entry t e)).

Lemma oldest_pick P t old age : length t = 10%nat -> oldest P t old age ->
  (old = 10 /\ Forall (fun e => ~ P e) t) \/
  (old < 10 /\ exists k e, old = Z.of_nat k /\ t !! k = Some e /\ oldest_of P t e).
Proof.
  intros Hl [(-> & _ & H)|(k & e & -> & Hk & HP & -> & H)]; [by left|]. right.
  pose proof (lookup_lt_Some _ _ _ Hk). split; [lia|]. by exists k, e.
Qed.

Lemma busy_kinds e : busy e -> stable_entry e \/ idle_entry e \/ queue_entry e.
Proof.
  unfold busy, stable_entry, idle_entry, queue_entry. destruct (e_state e) eqn:E; try tauto.
  intros _. destruct (decide (e_q e = 0)); tauto.
Qed.

(** With no empty entry there is always one to recycle. *)
Lemma recycle_spec x st c :
  arp_ok x st -> cands_ok (arp_table st) c -> Forall busy (arp_table st) ->
  exists i e, recycle c st = Ret (Z.of_nat i) /\ arp_table st !! i = Some e /\ victim (arp_table st) i e.
Proof.
  intros H [_ C2 C3 C4] Hb. pose proof (ao_len _ _ H) as Hl. unfold recycle, ARP_TABLE_SIZE.
  destruct (oldest_pick _ _ _ _ Hl C4) as [[-> Hns]|(Hlt & k & e & Ek & Hk & Ho)].
  2:{ rewrite (proj2 (Z.ltb_lt _ _) Hlt), Ek, (entry_some st k e Hk). cbn [res_bind].
      exists k, e. split_and!; try done; [|right; tauto]. destruct Ho as [Hst _].
      destruct (Z.eqb_spec (e_q e) 0) as [|Hq]; [done|]. exfalso.
      apply (eo_queue _ (ao_entry _ _ H k e Hk)) in Hq. unfold stable_entry in Hst. by rewrite Hq in Hst. }
  cbn [Z.ltb Z.compare Pos.compare]. destruct (oldest_pick _ _ _ _ Hl C2) as [[-> Hni]|(Hlt & k & e & Ek & Hk & Ho)].
  2:{ rewrite (proj2 (Z.ltb_lt _ _) Hlt), Ek. exists k, e. split_and!; try done. right. tauto. }
  change (10 <? 10) with false. cbn iota.
  destruct (oldest_pick _ _ _ _ Hl C3) as [[-> Hnq]|(Hlt & k & e & Ek & Hk & Ho)].
  2:{ rewrite (proj2 (Z.ltb_lt _ _) Hlt), Ek. exists k, e. split_and!; try done. right. tauto. }
  exfalso. destruct (lookup_lt_is_Some_2 (arp_table st) 0) as [e He]; [lia|].
  rewrite !Forall_forall in *. apply list_elem_of_lookup_2 in He.
  destruct (busy_kinds e (Hb e He)) as [?|[?|?]]; [by apply (Hns e)|by apply (Hni e)|by apply (Hnq e)].
Qed.

Definition fresh (ip netif : Z) (e : etharp_entry) : etharp_entry := set_e_key ip netif (cleared e).

(** The outcomes of etharp_find_entry for an address of [netif]. *)
Definition found st (ip flags netif : Z) (x : list Z) (r : res (Z * arp W)) : Prop :=
  (exists i e, arp_table st !! i = Some e /\ busy e /\ e_ipaddr e = ip /\ e_netif e = netif /\
     r = Ret (Z.of_nat i, st)) \/
  Forall (fun e => busy e -> ~ (e_ipaddr e = ip /\ e_netif e = netif)) (arp_table st) /\
  ((has_flag flags ETHARP_FLAG_FIND_ONLY = true \/
    Forall busy (arp_table st) /\ has_flag flags ETHARP_FLAG_TRY_HARD = false) /\ r = Ret (ERR_MEM, st) \/
   has_flag flags ETHARP_FLAG_FIND_ONLY = false /\
   exists i e w, arp_table st !! i = Some e /\ victim (arp_table st) i e /\
     let st' := mkArp (<[i := fresh ip netif e]> (arp_table st)) (etharp_cached_entry st) w in
     r = Ret (Z.of_nat i, st') /\ arp_ok x st').

Lemma fresh_spec x st i e ip netif w :
  let t := <[i := cleared e]> (arp_table st) in
  arp_table st !! i = Some e -> arp_ok x (mkArp t (etharp_cached_entry st) w) ->
  let st' := mkArp (<[i := fresh ip netif e]> (arp_table st)) (etharp_cached_entry st) w in
  (let* e' := entry (Z.of_nat i) (mkArp t (etharp_cached_entry st) w) in
   lwip_assert (is_empty (e_state e')) (Ret (Z.of_nat i,
     set_entry (Z.of_nat i) (set_e_key (default (e_ipaddr e') (Some ip)) netif e') (mkArp t (etharp_cached_entry st) w)))) =
    Ret (Z.of_nat i, st') /\ arp_ok x st'.
Proof.
  intros t Hi H st'. pose proof (lookup_lt_Some _ _ _ Hi) as Hlt.
  assert (t !! i = Some (cleared e)) as Ht by by apply list_lookup_insert_eq.
  rewrite (entry_some (mkArp t _ _) i (cleared e)) by done. cbn [res_bind lwip_assert cleared e_state set_e_state is_empty].
  unfold set_entry, set_table. rewrite Nat2Z.id. cbn [arp_table etharp_cached_entry lk default]. split.
  - unfold t, st', fresh. by rewrite list_insert_insert_eq.
  - replace st' with (mkArp (<[i := fresh ip netif e]> t) (etharp_cached_entry st) w)
      by (unfold t, st'; by rewrite list_insert_insert_eq).
    pose proof (ao_entry _ _ H i _ Ht) as [E1 E2 E3 E4 E5].
    apply (arp_ok_insert x x (mkArp t (etharp_cached_entry st) w) i (cleared e)); [done|done| |by intros []; done| |apply H].
    + by split.
    + destruct (queue_refs_split t i _ Ht) as (rest & P1 & P2). cbn [arp_table].
      eapply owns_perm; [|apply (ao_owns _ _ H)]. cbn [arp_table]. by rewrite P1, (P2 (fresh ip netif e)).
Qed.

Lemma find_entry_spec x st ip flags netif :
  arp_ok x st -> netif <> 0 -> found st ip flags netif x (etharp_find_entry (Some ip) flags netif st).
Proof.
  intros H Hn. pose proof (ao_len _ _ H) as Hl. unfold etharp_find_entry.
  pose proof (find_sweep_spec (Some ip) netif [] (arp_table st) no_cands no_cands_ok) as Hs.
  cbn [app length Z.of_nat] in Hs. specialize (Hs ltac:(apply Forall_lookup; apply H) Hl).
  destruct (find_sweep _ _ _ _ _) as [i|c].
  { destruct Hs as (e & Hi & Hr & Hb & Hm). rewrite Nat.sub_0_r in Hi. left. exists (Z.to_nat i), e.
    unfold entry_matches in Hm. apply andb_true_iff in Hm as [Hm1 Hm2]. apply Z.eqb_eq in Hm1.
    apply orb_true_iff in Hm2 as [Hm2%Z.eqb_eq|Hm2%Z.eqb_eq]; [done|].
    rewrite Z2Nat.id by lia. split_and!; by auto. }
  destruct Hs as [Hc Hf]. right. split.
  { eapply Forall_impl; [exact Hf|]. cbn. intros e He Hb [<- <-]. specialize (He Hb).
    rewrite !Z.eqb_refl, orb_true_r in He. done. }
  destruct (has_flag flags ETHARP_FLAG_FIND_ONLY) eqn:Efo; cbn [orb]; [left; tauto|].
  pose proof (co_empty _ _ Hc) as [[Ec Hb]|(k & e & Ec & Hk & Es & Hb)]; rewrite Ec.
  - change (10 =? ARP_TABLE_SIZE) with true. change (10 <? ARP_TABLE_SIZE) with false. cbn [andb].
    destruct (has_flag flags ETHARP_FLAG_TRY_HARD) eqn:Eth; cbn [negb]; [|left; tauto]. right. split; [done|].
    destruct (recycle_spec x st c H Hc Hb) as (i & e & -> & Hi & Hv). cbn [res_bind].
    pose proof (lookup_lt_Some _ _ _ Hi) as Hlt. destruct (free_entry_spec x st i e H Hi) as (w & -> & Hw).
    rewrite (proj2 (Z.ltb_ge (Z.of_nat i) 0)), (proj2 (Z.ltb_lt (Z.of_nat i) ARP_TABLE_SIZE))
      by (unfold ARP_TABLE_SIZE; lia). cbn [lwip_assert res_bind].
    rewrite (proj2 (Z.ltb_ge (Z.of_nat i) 0)), (proj2 (Z.ltb_lt (Z.of_nat i) ARP_TABLE_SIZE))
      by (unfold ARP_TABLE_SIZE; lia). cbn [lwip_assert].
    exists i, e, w. split; [done|]. split; [done|]. by apply fresh_spec.
  - pose proof (lookup_lt_Some _ _ _ Hk) as Hlt.
    rewrite (proj2 (Z.eqb_neq (Z.of_nat k) ARP_TABLE_SIZE)), (proj2 (Z.ltb_lt (Z.of_nat k) ARP_TABLE_SIZE))
      by (unfold ARP_TABLE_SIZE; lia). cbn [andb res_bind].
    rewrite (proj2 (Z.ltb_ge (Z.of_nat k) 0)), (proj2 (Z.ltb_lt (Z.of_nat k) ARP_TABLE_SIZE))
      by (unfold ARP_TABLE_SIZE; lia). cbn [lwip_assert]. right. split; [done|].
    assert (cleared e = e) as Ecl.
    { pose proof (ao_entry _ _ H k e Hk) as [E1 _ _ _ _]. destruct e. cbn in *. subst e_state.
      destruct (Z.eq_dec e_q 0) as [->|Hq]; [done|]. by apply E1 in Hq. }
    exists k, e, (lk st). split; [done|]. split; [left; by split|].
    assert (st = mkArp (<[k := cleared e]> (arp_table st)) (etharp_cached_entry st) (lk st)) as Est.
    { rewrite Ecl, list_insert_id by done. by destruct st. }
    pose proof (fresh_spec x st k e ip netif (lk st) Hk) as Hfr. cbv zeta in Hfr. rewrite <- Est in Hfr.
    by apply Hfr.
Qed.
End Inv.
