(* ===== verification/EtharpOps.v ===== *)
(** * The ARP cache: every operation returns and keeps the invariant *)
From S2P Require Import Prelude Pbuf NetGlue NetShim Ip4Addr Link Etharp EtharpInv.

Section Ops.
Context {W : Type} {L : LinkOps W} {LL : LinkLaws W}.
Variable known : Z -> Prop.
Context (known_null : ~ known 0).
Implicit Types (N : Z -> option nif) (st : arp W).
Abbreviation ok := (arp_ok known).

(** ** Messages *)
Lemma length_etharp_hdr op shw sip dhw dip : length shw = 6%nat -> length dhw = 6%nat ->
  length (etharp_hdr op shw sip dhw dip) = 28%nat.
Proof. intros H1 H2. unfold etharp_hdr. rewrite !length_app, !length_le_bytes, H1, H2. done. Qed.

Lemma raw_spec x st n es ed hs ips hd ipd op :
  ok x st -> if_hwaddr_len n = 6 -> length es = 6%nat -> length ed = 6%nat -> length hs = 6%nat ->
  length hd = 6%nat ->
  exists r w, etharp_raw n es ed hs ips hd ipd op st = Ret (r, set_lk w st) /\ ok x (set_lk w st) /\
    (r = ERR_OK \/ r = ERR_MEM).
Proof.
  intros H Hn L1 L2 L3 L4. unfold etharp_raw.
  destruct (alloc_ok (lk st) _ SIZEOF_ETHARP_HDR (ao_owns _ _ _ H)) as (p & w & -> & Hp); [done|].
  cbn [res_bind]. destruct (Z.eqb_spec p 0) as [->|Hp0].
  - exists ERR_MEM, w. split_and!; try done; [|tauto].
    destruct Hp as [[_ Hp]|[Hp _]]; [by eapply arp_ok_lk|]. by apply owns_null in Hp.
  - destruct Hp as [[? _]|[Hp Hr]]; [done|]. rewrite Hn. cbn [Z.eqb Pos.eqb ETH_HWADDR_LEN lwip_assert].
    destruct (store_ok w p _ (etharp_hdr op hs ips hd ipd) Hp) as (w1 & -> & H1).
    { by rewrite length_etharp_hdr. }
    cbn [res_bind]. destruct (output_ok w1 p _ es ed ETHTYPE_ARP H1 L1 L2) as (e & w2 & -> & H2).
    cbn [res_bind]. destruct (free_ok w2 p _ H2) as (w3 & -> & H3). cbn [res_bind].
    exists ERR_OK, w3. split_and!; try done; [by eapply arp_ok_lk|tauto].
Qed.

Lemma request_dst_spec x st n ip hw :
  ok x st -> if_hwaddr_len n = 6 -> length (if_hwaddr n) = 6%nat -> length hw = 6%nat ->
  exists r w, etharp_request_dst n ip hw st = Ret (r, set_lk w st) /\ ok x (set_lk w st) /\
    (r = ERR_OK \/ r = ERR_MEM).
Proof. intros H H1 H2 H3. by apply raw_spec. Qed.

(** ** Ageing *)

(** One second for one entry. *)
Definition tick (e : etharp_entry) : etharp_entry :=
  if is_empty (e_state e) then e
  else
    let e := set_e_ctime (e_ctime e + 1) e in
    if (e_ctime e >=? ARP_MAXAGE) || (is_pending (e_state e) && (e_ctime e >=? ARP_MAXPENDING)) then cleared e
    else
      match e_state e with
      | ETHARP_STATE_STABLE_REREQUESTING_1 => set_e_state ETHARP_STATE_STABLE_REREQUESTING_2 e
      | ETHARP_STATE_STABLE_REREQUESTING_2 => set_e_state ETHARP_STATE_STABLE e
      | _ => e
      end.

Lemma tmr_entry_spec N x st i e :
  ok x st -> cfg_ok known N -> arp_table st !! i = Some e ->
  exists w, let st' := mkArp (<[i := tick e]> (arp_table st)) (etharp_cached_entry st) w in
    tmr_entry N (Z.of_nat i) st = Ret st' /\ ok x st'.
Proof.
  intros H HN Hi. pose proof (lookup_lt_Some _ _ _ Hi) as Hlt. pose proof (ao_entry _ _ _ H i e Hi) as He.
  unfold tmr_entry, tick. rewrite (entry_some st i e Hi). cbn [res_bind].
  destruct (is_empty (e_state e)) eqn:Ee.
  { exists (lk st). rewrite list_insert_id by done. by destruct st. }
  assert (busy e) as Hb by (intros E; by rewrite E in Ee). pose proof (eo_age _ _ He Hb) as Ha.
  rewrite u16_small by (unfold ARP_MAXAGE in Ha; lia).
  set (e1 := set_e_ctime (e_ctime e + 1) e). cbn zeta. change (e_state e1) with (e_state e).
  rewrite !set_entry_nat. cbn [arp_table etharp_cached_entry lk].
  rewrite ?list_insert_insert_eq. destruct ((_ >=? _) || _) eqn:Eold.
  { destruct (free_entry_after known x st i e e1 H Hi eq_refl (eo_mac _ _ He)) as (w & E & Hw).
    by exists w. }
  apply orb_false_iff in Eold as [Eo1 Eo2]. rewrite Z.geb_leb in Eo1, Eo2. apply Z.leb_gt in Eo1.
  destruct He as [Q1 Q2 Q3 Q4 Q5]. cbn in Eo1.
  assert (forall e2, e_q e2 = e_q e -> e_ethaddr e2 = e_ethaddr e -> e_netif e2 = e_netif e ->
    e_ipaddr e2 = e_ipaddr e -> e_ctime e2 = e_ctime e + 1 ->
    (e_state e2 = ETHARP_STATE_PENDING <-> e_state e = ETHARP_STATE_PENDING) ->
    ok x (mkArp (<[i := e2]> (arp_table st)) (etharp_cached_entry st) (lk st))) as Hst.
  { intros e2 F1 F2 F3 F4 F5 F6. eapply arp_ok_same_key; try done; [|apply H]. split.
    - rewrite F1, F6. exact Q1.
    - by rewrite F2.
    - rewrite F3. intros _. by apply Q3.
    - rewrite F5. intros _. lia.
    - rewrite F5, F6. intros Hp. rewrite Hp in Eo2. cbn in Eo2. apply Z.leb_gt in Eo2. done. }
  destruct (e_state e) eqn:Es; [done| | | |].
  - pose proof (Hst e1 eq_refl eq_refl eq_refl eq_refl eq_refl) as H1. cbn in H1. rewrite Es in H1.
    specialize (H1 ltac:(done)). destruct (HN (e_netif e) (Q3 Hb)) as (n & En & N1 & N2).
    change (e_netif e1) with (e_netif e). change (e_ipaddr e1) with (e_ipaddr e).
    rewrite En. cbn [res_of_option res_bind]. unfold etharp_request.
    destruct (request_dst_spec x _ n (e_ipaddr e) ethbroadcast H1 N1 N2) as (r & w & E & H2 & _); [done|].
    rewrite E. exists w. by split.
  - exists (lk st). split; [done|]. apply Hst; try done. cbn. by rewrite Es.
  - exists (lk st). split; [done|]. by apply Hst.
  - exists (lk st). split; [done|]. by apply Hst.
Qed.

(** A loop over the table that changes one entry at a time. *)
Lemma for_entries_spec (f : Z -> arp W -> res (arp W)) (g : etharp_entry -> etharp_entry) x :
  (forall st i e, ok x st -> arp_table st !! i = Some e ->
     exists w, let st' := mkArp (<[i := g e]> (arp_table st)) (etharp_cached_entry st) w in
       f (Z.of_nat i) st = Ret st' /\ ok x st') ->
  forall st, ok x st -> exists w, let st' := mkArp (g <$> arp_table st) (etharp_cached_entry st) w in
    for_entries f (seqZ 0 ARP_TABLE_SIZE) st = Ret st' /\ ok x st'.
Proof.
  intros Hf. assert (forall n pre post st, ok x st -> arp_table st = pre ++ post -> length post = n ->
    exists w, let st' := mkArp (pre ++ (g <$> post)) (etharp_cached_entry st) w in
      for_entries f (seqZ (Z.of_nat (length pre)) (Z.of_nat n)) st = Ret st' /\ ok x st') as Hgen.
  { induction n as [|n IH]; intros pre [|e post] st H Et Hl; try done.
    { exists (lk st). cbn. rewrite app_nil_r in Et. rewrite app_nil_r, <- Et. by destruct st. }
    rewrite seqZ_cons by lia. cbn [for_entries].
    destruct (Hf st (length pre) e H) as (w & -> & H1); [rewrite Et; by apply list_lookup_middle|].
    cbn [res_bind]. rewrite Et in *. rewrite insert_app_r_alt, Nat.sub_diag in * by lia. cbn [list_insert insert] in *.
    destruct (IH (pre ++ [g e]) post _ H1) as (w' & E2 & H2).
    - cbn. by rewrite <- app_assoc.
    - cbn in Hl. lia.
    - exists w'. rewrite length_app in E2. cbn [length] in E2.
      replace (Z.of_nat (length pre + 1)) with (Z.succ (Z.of_nat (length pre))) in E2 by lia.
      replace (Z.pred (Z.of_nat (S n))) with (Z.of_nat n) by lia. rewrite E2. cbn [etharp_cached_entry fmap list_fmap] in *.
      rewrite <- app_assoc in *. by split. }
  intros st H. destruct (Hgen 10%nat [] (arp_table st) st H eq_refl (ao_len _ _ _ H)) as (w & E & H').
  exists w. by split.
Qed.

(** etharp_tmr ages every entry by one second. *)
Lemma tmr_spec N x st :
  ok x st -> cfg_ok known N ->
  exists w, let st' := mkArp (tick <$> arp_table st) (etharp_cached_entry st) w in
    etharp_tmr N st = Ret st' /\ ok x st'.
Proof. intros H HN. apply for_entries_spec; [|done]. intros. by apply tmr_entry_spec. Qed.

Definition evict (netif : Z) (e : etharp_entry) : etharp_entry :=
  if negb (is_empty (e_state e)) && (e_netif e =? netif) then cleared e else e.

Lemma cleanup_spec netif x st :
  ok x st -> exists w, let st' := mkArp (evict netif <$> arp_table st) (etharp_cached_entry st) w in
    etharp_cleanup_netif netif st = Ret st' /\ ok x st'.
Proof.
  intros H. apply for_entries_spec; [|done]. intros st0 i e H0 Hi. unfold cleanup_entry, evict.
  rewrite (entry_some st0 i e Hi). cbn [res_bind]. destruct (negb _ && _); [by eapply free_entry_spec|].
  exists (lk st0). rewrite list_insert_id by done. by destruct st0.
Qed.

(** ** Learning an address *)
Definition learned (ip netif : Z) (mac : list Z) : etharp_entry :=
  mkEntry 0 ip netif mac 0 ETHARP_STATE_STABLE.

(** No busy entry other than [i] has the key. *)
Definition sole (t : list etharp_entry) (i : nat) (ip netif : Z) : Prop :=
  forall j f, j <> i -> t !! j = Some f -> busy f -> ~ (e_ipaddr f = ip /\ e_netif f = netif).

Lemma sole_match x st i e : ok x st -> arp_table st !! i = Some e -> busy e ->
  sole (arp_table st) i (e_ipaddr e) (e_netif e).
Proof.
  intros H Hi Hb j f Hj Hf Hfb [E1 E2]. apply Hj. eapply (ao_uniq _ _ _ H j i f e); try done.
Qed.
Lemma sole_fresh t i e ip netif :
  Forall (fun e => busy e -> ~ (e_ipaddr e = ip /\ e_netif e = netif)) t -> sole (<[i := e]> t) i ip netif.
Proof.
  intros Hf j f Hj Hl Hb. rewrite list_lookup_insert_ne in Hl by done.
  rewrite Forall_lookup in Hf. by eapply Hf.
Qed.

(** The packet that waited is sent to the address and given up. *)
Definition flushed (n : nif) (q : Z) (mac : list Z) (w w' : W) : Prop :=
  if q =? 0 then w' = w
  else exists r w1, lk_output q (if_hwaddr n) mac ETHTYPE_IP w = Ret (r, w1) /\ lk_free q w1 = Ret w'.

Lemma learn_spec x st n i e netif mac :
  ok x st -> arp_table st !! i = Some e -> known netif -> length mac = 6%nat -> length (if_hwaddr n) = 6%nat ->
  sole (arp_table st) i (e_ipaddr e) netif ->
  exists w, let st' := mkArp (<[i := learned (e_ipaddr e) netif mac]> (arp_table st)) (etharp_cached_entry st) w in
  (let* e := entry (Z.of_nat i) st in
   let e := set_e_ctime 0 (set_e_ethaddr mac (set_e_netif netif (set_e_state ETHARP_STATE_STABLE e))) in
   let st := set_entry (Z.of_nat i) e st in
   if negb (e_q e =? 0) then
     let p := e_q e in
     let st := set_entry (Z.of_nat i) (set_e_q 0 e) st in
     let* (_, w) := lk_output p (if_hwaddr n) mac ETHTYPE_IP (lk st) in
     let* w := lk_free p w in
     Ret (ERR_OK, set_lk w st)
   else Ret (ERR_OK, st)) = Ret (ERR_OK, st') /\ ok x st' /\ flushed n (e_q e) mac (lk st) w.
Proof.
  intros H Hi Hk Hm Hh Hs. rewrite (entry_some st i e Hi). cbn [res_bind]. cbv zeta.
  set (e2 := set_e_ctime 0 _). change (e_q e2) with (e_q e).
  rewrite !set_entry_nat. cbn [arp_table etharp_cached_entry lk]. rewrite list_insert_insert_eq.
  destruct (queue_refs_split _ _ _ Hi) as (rest & E1 & E2). pose proof (ao_owns _ _ _ H) as Ho.
  assert (forall w, owns w (x ++ rest) -> ok x (mkArp (<[i := learned (e_ipaddr e) netif mac]> (arp_table st))
    (etharp_cached_entry st) w)) as Hfin.
  { intros w Hw. apply (arp_ok_insert known x x st i e); [done|done|by split| | |apply H].
    - intros _ j f Hj Hf Hb [K1 K2]. by apply (Hs j f Hj Hf Hb).
    - eapply owns_perm; [|exact Hw]. by rewrite (E2 (learned _ _ _)). }
  unfold qref in E1. unfold flushed. destruct (Z.eqb_spec (e_q e) 0) as [Eq|Eq]; cbn [negb].
  - exists (lk st). replace e2 with (learned (e_ipaddr e) netif mac) by (unfold e2; destruct e; cbn in *; by rewrite Eq).
    split; [done|]. split; [|done]. apply Hfin. eapply owns_perm; [|exact Ho]. by rewrite E1.
  - assert (owns (lk st) (e_q e :: x ++ rest)) as Ho1.
    { eapply owns_perm; [|exact Ho]. rewrite E1. cbn. by rewrite Permutation_middle. }
    destruct (output_ok (lk st) (e_q e) _ (if_hwaddr n) mac ETHTYPE_IP Ho1 Hh Hm) as (r & w1 & Eo & H1).
    rewrite Eo. cbn [res_bind]. destruct (free_ok w1 (e_q e) _ H1) as (w2 & Ef & H2). rewrite Ef. cbn [res_bind].
    exists w2. split; [done|]. split; [by apply Hfin|]. by exists r, w1.
Qed.

Definition unicast (ip : Z) (n : nif) : bool :=
  negb ((ip =? IPADDR_ANY) || ip4_addr_isbroadcast ip n || ip4_addr_ismulticast ip).

(** The entry that takes a new address: its own one, or the victim. *)
Definition slot_for (t : list etharp_entry) (ip netif : Z) (i : nat) : Prop :=
  (exists e, t !! i = Some e /\ busy e /\ e_ipaddr e = ip /\ e_netif e = netif) \/
  Forall (fun e => busy e -> ~ (e_ipaddr e = ip /\ e_netif e = netif)) t /\
  exists e, t !! i = Some e /\ victim t i e.

Lemma update_spec N n x st netif ip mac flags :
  ok x st -> N netif = Some n -> if_hwaddr_len n = 6 -> length (if_hwaddr n) = 6%nat -> known netif ->
  length mac = 6%nat ->
  (unicast ip n = false /\ etharp_update_arp_entry N netif ip mac flags st = Ret (ERR_ARG, st)) \/
  unicast ip n = true /\
  ((Forall (fun e => busy e -> ~ (e_ipaddr e = ip /\ e_netif e = netif)) (arp_table st) /\
    (has_flag flags ETHARP_FLAG_FIND_ONLY = true \/
     Forall busy (arp_table st) /\ has_flag flags ETHARP_FLAG_TRY_HARD = false) /\
    etharp_update_arp_entry N netif ip mac flags st = Ret (ERR_MEM, st)) \/
   exists i w, slot_for (arp_table st) ip netif i /\
     let st' := mkArp (<[i := learned ip netif mac]> (arp_table st)) (etharp_cached_entry st) w in
     etharp_update_arp_entry N netif ip mac flags st = Ret (ERR_OK, st') /\ ok x st' /\
     (forall e, arp_table st !! i = Some e -> busy e -> e_ipaddr e = ip -> e_netif e = netif ->
        flushed n (e_q e) mac (lk st) w)).
Proof.
  intros H HN N1 N2 Hk Hm. unfold etharp_update_arp_entry. rewrite HN. cbn [res_of_option res_bind]. rewrite N1.
  cbn [Z.eqb Pos.eqb ETH_HWADDR_LEN lwip_assert]. unfold unicast. destruct (_ || _ || _); cbn [negb]; [by left|]. right.
  split; [done|]. assert (netif <> 0) as Hn0 by (intros ->; done).
  destruct (find_entry_spec known x st ip flags netif H Hn0)
    as [(i & e & Hi & Hb & Ei & En & ->)|(Hnone & [[Hc ->]|(Hfo & i & e & w & Hi & Hv & -> & H1)])].
  - right. cbn [res_bind]. rewrite (proj2 (Z.ltb_ge (Z.of_nat i) 0)) by lia.
    destruct (learn_spec x st n i e netif mac H Hi Hk Hm N2) as (w & E & H1 & Hfl).
    { rewrite <- En. by eapply sole_match. }
    rewrite Ei in *. exists i, w. split; [left; by exists e|]. split; [done|]. split; [done|].
    intros e' He' _ _ _. congruence.
  - left. by split_and!.
  - right. cbn [res_bind]. rewrite (proj2 (Z.ltb_ge (Z.of_nat i) 0)) by lia.
    pose proof (lookup_lt_Some _ _ _ Hi) as Hlt.
    destruct (learn_spec x _ n i (fresh ip netif e) netif mac H1) as (w' & E & H2 & _); try done.
    + cbn. by apply list_lookup_insert_eq.
    + cbn [arp_table]. by apply sole_fresh.
    + cbn [arp_table etharp_cached_entry] in E, H2. rewrite list_insert_insert_eq in E, H2. exists i, w'.
      split; [right; split; [done|]; by exists e|]. split; [done|]. split; [done|].
      intros e' He' Hb K1 K2. rewrite Forall_lookup in Hnone. by destruct (Hnone i e' He' Hb).
Qed.

(** ** Sending *)

(** The packet [q] went out to [mac] with result [r], leaving the packets of [st]. *)
Definition sent (n : nif) (q : Z) (mac : list Z) (r : Z) st : Prop :=
  exists w, lk_output q (if_hwaddr n) mac ETHTYPE_IP w = Ret (r, lk st).

Lemma send_spec x st n q mac :
  ok (q :: x) st -> length (if_hwaddr n) = 6%nat -> length mac = 6%nat ->
  exists r w, lk_output q (if_hwaddr n) mac ETHTYPE_IP (lk st) = Ret (r, w) /\ ok (q :: x) (set_lk w st) /\
    sent n q mac r (set_lk w st).
Proof.
  intros H Hh Hm. destruct (output_ok (lk st) q _ (if_hwaddr n) mac ETHTYPE_IP (ao_owns _ _ _ H) Hh Hm) as (r & w & E & Ho).
  exists r, w. split_and!; [done|by eapply arp_ok_lk|by exists (lk st)].
Qed.

(** Table [t'] is [t] but for entry [i], which is now [e]. *)
Definition entry_now (t t' : list etharp_entry) (i : nat) (e : etharp_entry) : Prop :=
  (i < length t)%nat /\ t' = <[i := e]> t.

Lemma entry_now_lookup t t' i e : entry_now t t' i e -> t' !! i = Some e.
Proof. intros [Hi ->]. by apply list_lookup_insert_eq. Qed.
Lemma entry_now_id t i e : t !! i = Some e -> entry_now t t i e.
Proof. intros H. split; [by eapply lookup_lt_Some|]. by rewrite list_insert_id. Qed.
Lemma entry_now_insert t t' i e e' : entry_now t t' i e -> entry_now t (<[i := e']> t') i e'.
Proof. intros [Hi ->]. split; [done|]. by rewrite list_insert_insert_eq. Qed.
Lemma entry_now_trans t t1 t2 i e e' : entry_now t t1 i e -> entry_now t1 t2 i e' -> entry_now t t2 i e'.
Proof. intros H [_ ->]. by eapply entry_now_insert. Qed.

Definition reasked (e e' : etharp_entry) : Prop :=
  e' = e \/ e_state e = ETHARP_STATE_STABLE /\ ARP_AGE_REREQUEST_USED_UNICAST <= e_ctime e /\
            e' = set_e_state ETHARP_STATE_STABLE_REREQUESTING_1 e.

Lemma reask_spec x st n i e hw :
  ok x st -> if_hwaddr_len n = 6 -> length (if_hwaddr n) = 6%nat -> length hw = 6%nat ->
  arp_table st !! i = Some e -> e_state e = ETHARP_STATE_STABLE -> ARP_AGE_REREQUEST_USED_UNICAST <= e_ctime e ->
  exists st' e', (let* (r, st) := etharp_request_dst n (e_ipaddr e) hw st in
     if r =? ERR_OK then upd_entry (Z.of_nat i) (set_e_state ETHARP_STATE_STABLE_REREQUESTING_1) st else Ret st) = Ret st' /\
    ok x st' /\ entry_now (arp_table st) (arp_table st') i e' /\ reasked e e'.
Proof.
  intros H N1 N2 Hh Hi Hs Ha. destruct (request_dst_spec x st n (e_ipaddr e) hw H N1 N2 Hh) as (r & w & -> & H1 & _).
  cbn [res_bind]. destruct (r =? ERR_OK).
  - unfold upd_entry. rewrite (entry_some (set_lk w st) i e Hi). cbn [res_bind]. rewrite set_entry_nat.
    assert (busy e) as Hb by (unfold busy; by rewrite Hs).
    pose proof (ao_entry _ _ _ H i e Hi) as [Q1 Q2 Q3 Q4 Q5]. eexists _, _. split; [done|]. split; [|split].
    + eapply arp_ok_same_key; [exact H1|exact Hi| |done..|apply H]. split; try done.
      * intros Hq. apply Q1 in Hq. congruence.
      * intros _. by apply Q3.
      * intros _. by apply Q4.
    + eapply entry_now_insert, entry_now_id, Hi.
    + by right.
  - exists (set_lk w st), e. split_and!; [done|done|by apply entry_now_id|by left].
Qed.

Lemma output_to_index_spec N n x st netif q i e :
  ok (q :: x) st -> N netif = Some n -> if_hwaddr_len n = 6 -> length (if_hwaddr n) = 6%nat ->
  arp_table st !! i = Some e -> is_stable (e_state e) = true ->
  exists r st' e', etharp_output_to_arp_index N netif q (Z.of_nat i) st = Ret (r, st') /\ ok (q :: x) st' /\
    sent n q (e_ethaddr e) r st' /\ entry_now (arp_table st) (arp_table st') i e' /\ reasked e e'.
Proof.
  intros H HN N1 N2 Hi Hs. unfold etharp_output_to_arp_index. rewrite HN. cbn [res_of_option res_bind].
  rewrite (entry_some st i e Hi). cbn [res_bind]. rewrite Hs. cbn [lwip_assert].
  pose proof (eo_mac _ _ (ao_entry _ _ _ H i e Hi)) as Hm.
  assert (forall (m : res (arp W)) st1 e', m = Ret st1 -> ok (q :: x) st1 ->
    entry_now (arp_table st) (arp_table st1) i e' -> reasked e e' ->
    exists r st' e', (let* st := m in let* (r, w) := lk_output q (if_hwaddr n) (e_ethaddr e) ETHTYPE_IP (lk st) in
      Ret (r, set_lk w st)) = Ret (r, st') /\ ok (q :: x) st' /\
      sent n q (e_ethaddr e) r st' /\ entry_now (arp_table st) (arp_table st') i e' /\ reasked e e') as Hfin.
  { intros m st1 e' -> H1 He Hr. cbn [res_bind]. destruct (send_spec x st1 n q (e_ethaddr e) H1 N2 Hm) as (r & w & -> & H2 & Hsn).
    cbn [res_bind]. by exists r, (set_lk w st1), e'. }
  pose proof (entry_now_id _ _ _ Hi) as Hid. case_bool_decide as Est; [|eapply Hfin; [done|done|done|by left]].
  rewrite !Z.geb_leb. destruct (Z.leb_spec ARP_AGE_REREQUEST_USED_BROADCAST (e_ctime e)) as [Hb|Hb];
    [|destruct (Z.leb_spec ARP_AGE_REREQUEST_USED_UNICAST (e_ctime e)) as [Hu|Hu]].
  - destruct (reask_spec (q :: x) st n i e ethbroadcast H N1 N2) as (st1 & e' & E1 & H1 & He & Hr); try done.
    { unfold ARP_AGE_REREQUEST_USED_BROADCAST, ARP_AGE_REREQUEST_USED_UNICAST, ARP_MAXAGE in *. lia. }
    by eapply Hfin.
  - destruct (reask_spec (q :: x) st n i e (e_ethaddr e) H N1 N2) as (st1 & e' & E1 & H1 & He & Hr); try done.
    by eapply Hfin.
  - eapply Hfin; [done|done|done|by left].
Qed.
End Ops.
