(* ===== verification/EtharpSend.v ===== *)
(** * The ARP cache: queueing, sending and receiving *)
From S2P Require Import Prelude Pbuf NetGlue NetShim Ip4Addr Link Etharp EtharpInv EtharpOps.

Section Send.
Context {W : Type} {L : LinkOps W} {LL : LinkLaws W}.
Variable known : Z -> Prop.
Context (known_null : ~ known 0).
Implicit Types (N : Z -> option nif) (st : arp W).
Abbreviation ok := (arp_ok known).

(** ** etharp_query *)

(** The packet [q] takes the place of the one entry [i] waits with. *)
Definition enqueued (t t' : list etharp_entry) (i : nat) (e : etharp_entry) (r : Z) : Prop :=
  (r = ERR_OK /\ exists p, p <> 0 /\ entry_now t t' i (set_e_q p e)) \/ (r = ERR_MEM /\ t' = t).

Lemma enqueue_spec x st q i e :
  ok (q :: x) st -> (count_occ Z.eq_dec x q <= 150)%nat -> arp_table st !! i = Some e -> e_state e = ETHARP_STATE_PENDING ->
  exists r st', (let* (p, w) := lk_keep q (lk st) in
    let st := set_lk w st in
    if negb (p =? 0) then
      let* st :=
        if negb (e_q e =? 0) then let* w := lk_free (e_q e) (lk st) in Ret (set_lk w st) else Ret st in
      Ret (ERR_OK, set_entry (Z.of_nat i) (set_e_q p e) st)
    else Ret (ERR_MEM, st)) = Ret (r, st') /\ ok (q :: x) st' /\
    enqueued (arp_table st) (arp_table st') i e r.
Proof.
  intros H Hx Hi Hp. pose proof (ao_owns _ _ _ H) as Ho.
  destruct (keep_ok (lk st) q (x ++ queue_refs (arp_table st)) Ho) as (p & w & -> & Hk).
  { rewrite count_occ_app. pose proof (length_queue_refs (arp_table st)) as Hlq. rewrite (ao_len _ _ _ H) in Hlq.
    pose proof (count_occ_bound Z.eq_dec q (queue_refs (arp_table st))). lia. }
  cbn [res_bind]. cbv zeta. destruct Hk as [[-> Hk]|[Hp0 Hk]].
  { exists ERR_MEM, (set_lk w st). split; [done|]. split; [by eapply arp_ok_lk|by right]. }
  rewrite (proj2 (Z.eqb_neq p 0) Hp0). cbn [negb].
  destruct (queue_refs_split _ _ _ Hi) as (rest & E1 & E2).
  assert (forall w', owns w' (p :: q :: x ++ rest) ->
    ok (q :: x) (mkArp (<[i := set_e_q p e]> (arp_table st)) (etharp_cached_entry st) w')) as Hfin.
  { intros w' Hw. pose proof (ao_entry _ _ _ H i e Hi) as [Q1 Q2 Q3 Q4 Q5].
    apply (arp_ok_insert known (q :: x) (q :: x) st i e); [done|done|by split| | |apply H].
    - intros Hb j f Hj Hf Hbf [K1 K2]. apply Hj. by apply (ao_uniq _ _ _ H j i f e).
    - eapply owns_perm; [|exact Hw]. rewrite (E2 (set_e_q p e)). unfold qref. cbn [e_q set_e_q].
      rewrite (proj2 (Z.eqb_neq p 0) Hp0). cbn [app].
      rewrite <- Permutation_middle. apply perm_swap. }
  assert (enqueued (arp_table st) (<[i := set_e_q p e]> (arp_table st)) i e ERR_OK) as Henq.
  { left. split; [done|]. exists p. split; [done|]. by eapply entry_now_insert, entry_now_id. }
  unfold qref in E1. destruct (Z.eqb_spec (e_q e) 0) as [Eq|Eq]; cbn [negb res_bind].
  - eexists ERR_OK, _. rewrite set_entry_nat. split; [done|]. split; [|done]. apply Hfin.
    eapply owns_perm; [|exact Hk]. by rewrite E1.
  - destruct (free_ok w (e_q e) (p :: q :: x ++ rest)) as (w' & E & Hw').
    { eapply owns_perm; [|exact Hk]. rewrite E1. cbn [app].
      rewrite <- Permutation_middle, (perm_swap (e_q e) q). by rewrite (perm_swap (e_q e) p). }
    cbn [lk set_lk]. rewrite E. cbn [res_bind]. eexists ERR_OK, _. rewrite set_entry_nat. split; [done|]. split; [|done].
    by apply Hfin.
Qed.

(** The first half of etharp_query: an entry that is pending or stable. *)
Definition now_busy (netif : Z) (e : etharp_entry) : etharp_entry :=
  if is_empty (e_state e) then set_e_netif netif (set_e_state ETHARP_STATE_PENDING e) else e.

Lemma query_entry_spec x st ip netif :
  ok x st -> known netif ->
  exists i e st1, etharp_find_entry (Some ip) ETHARP_FLAG_TRY_HARD netif st = Ret (Z.of_nat i, st1) /\
    arp_table st1 !! i = Some e /\ e_ipaddr e = ip /\ e_netif e = netif /\
    slot_for (arp_table st) ip netif i /\
    let st2 := if is_empty (e_state e) then set_entry (Z.of_nat i) (now_busy netif e) st1 else st1 in
    ok x st2 /\ entry_now (arp_table st) (arp_table st2) i (now_busy netif e).
Proof.
  intros H Hk. assert (netif <> 0) as Hn0 by (intros ->; done).
  destruct (find_entry_spec known x st ip ETHARP_FLAG_TRY_HARD netif H Hn0)
    as [(i & e & Hi & Hb & Ei & En & E)|(Hnone & [[[Hc|[_ Hc]] _]|(Hfo & i & e & w & Hi & Hv & E & H1)])]; try done.
  - exists i, e, st. assert (is_empty (e_state e) = false) as Ee by (destruct (e_state e) eqn:Es; try done; by destruct Hb).
    unfold now_busy. rewrite Ee. split_and!; try done; [left; by exists e|by apply entry_now_id].
  - pose proof (lookup_lt_Some _ _ _ Hi) as Hlt. eexists i, (fresh ip netif e), _. split; [exact E|].
    split; [by apply list_lookup_insert_eq|]. split; [done|]. split; [done|].
    split; [right; split; [done|]; by exists e|].
    unfold now_busy. cbn [fresh set_e_key cleared set_e_state set_e_q e_state is_empty].
    rewrite set_entry_nat. cbn [arp_table etharp_cached_entry lk].
    pose proof (list_lookup_insert_eq (arp_table st) i (fresh ip netif e) Hlt) as Hfi.
    pose proof (ao_entry _ _ _ H1 i _ Hfi) as [Q1 Q2 Q3 Q4 Q5].
    split; [|eapply entry_now_insert, entry_now_insert, entry_now_id, Hi].
    eapply (arp_ok_insert known x x _ i (fresh ip netif e) _ _ _ H1); [done|by split| | |apply H1].
    + intros _ j f Hj Hf Hbf [K1 K2]. cbn [arp_table] in Hf. rewrite list_lookup_insert_ne in Hf by done.
      rewrite Forall_lookup in Hnone. by apply (Hnone j f Hf Hbf).
    + destruct (queue_refs_split _ _ _ Hfi) as (rest & P1 & P2). cbn [arp_table].
      eapply owns_perm; [|apply (ao_owns _ _ _ H1)]. cbn [arp_table]. by rewrite P1, P2.
Qed.

(** The request that may be sent: only the age of a pending entry changes. *)
Definition asked (e e' : etharp_entry) : Prop :=
  e' = e \/ e_state e = ETHARP_STATE_PENDING /\ e' = set_e_ctime 0 e.

Lemma query_request_spec y st n i e ip q (new : bool) :
  ok y st -> if_hwaddr_len n = 6 -> length (if_hwaddr n) = 6%nat -> arp_table st !! i = Some e ->
  exists r st' e', (if new || (q =? 0) then
      let* (r, st) := etharp_request n ip st in
      let* e := entry (Z.of_nat i) st in
      let st := if (r =? ERR_OK) && is_pending (e_state e) && negb new
                then set_entry (Z.of_nat i) (set_e_ctime 0 e) st else st in
      Ret (r, st)
    else Ret (ERR_MEM, st)) = Ret (r, st') /\ (r = ERR_OK \/ r = ERR_MEM) /\ ok y st' /\
    entry_now (arp_table st) (arp_table st') i e' /\ asked e e'.
Proof.
  intros H N1 N2 Hi. pose proof (entry_now_id _ _ _ Hi) as Hid.
  destruct (new || (q =? 0)); [|exists ERR_MEM, st, e; split_and!; try done; [by right|by left]].
  destruct (request_dst_spec known y st n ip ethbroadcast H N1 N2) as (r & w & E & H1 & Hr); [done|].
  unfold etharp_request. rewrite E. cbn [res_bind]. rewrite (entry_some (set_lk w st) i e Hi). cbn [res_bind]. cbv zeta.
  destruct ((r =? ERR_OK) && is_pending (e_state e) && negb new) eqn:Ec;
    [|exists r, (set_lk w st), e; split_and!; try done; by left].
  apply andb_true_iff in Ec as [[_ Ec]%andb_true_iff _].
  assert (e_state e = ETHARP_STATE_PENDING) as Hp by by destruct (e_state e).
  pose proof (ao_entry _ _ _ H i e Hi) as [Q1 Q2 Q3 Q4 Q5].
  rewrite set_entry_nat. eexists r, _, _. split; [done|]. split; [done|]. split; [|split].
  - eapply arp_ok_same_key; [exact H1|exact Hi| |done..|apply H]. by split.
  - by eapply entry_now_insert.
  - by right.
Qed.

(** What became of the packet given to etharp_query. *)
Definition queried (n : nif) (q : Z) (t : list etharp_entry) (i : nat) (r : Z) st : Prop :=
  exists e, entry_now t (arp_table st) i e /\ busy e /\
  (is_stable (e_state e) = true /\ sent n q (e_ethaddr e) r st \/
   e_state e = ETHARP_STATE_PENDING /\ (r = ERR_OK /\ e_q e <> 0 \/ r = ERR_MEM)).

Definition has_key (ip netif : Z) (t : list etharp_entry) (i : nat) : Prop :=
  exists e, t !! i = Some e /\ e_ipaddr e = ip /\ e_netif e = netif.

Lemma unicast_query ip n :
  ip4_addr_isbroadcast ip n || ip4_addr_ismulticast ip || (ip =? IPADDR_ANY) = negb (unicast ip n).
Proof. unfold unicast. rewrite negb_involutive. by destruct (ip =? _), (ip4_addr_isbroadcast _ _), (ip4_addr_ismulticast _). Qed.

(** The entry is made, the request sent; what is left is the packet. *)
Lemma query_prefix N n y st netif ip q :
  ok y st -> known netif -> N netif = Some n ->
  if_hwaddr_len n = 6 -> length (if_hwaddr n) = 6%nat -> unicast ip n = true ->
  exists i r st' e, etharp_query N netif ip q st = query_packet n (Z.of_nat i) q r st' /\
    (r = ERR_OK \/ r = ERR_MEM) /\ ok y st' /\
    slot_for (arp_table st) ip netif i /\ entry_now (arp_table st) (arp_table st') i e /\
    busy e /\ e_ipaddr e = ip /\ e_netif e = netif.
Proof.
  intros H Hk HN N1 N2 Hu. unfold etharp_query. rewrite HN. cbn [res_of_option res_bind].
  rewrite unicast_query, Hu. cbn [negb].
  destruct (query_entry_spec y st ip netif H Hk) as (i & e & st1 & -> & Hi & Ei & En & Hsl & H2). cbn [res_bind].
  rewrite (proj2 (Z.ltb_ge (Z.of_nat i) 0)) by lia. rewrite (entry_some st1 i e Hi). cbn [res_bind]. cbv zeta.
  cbv zeta in H2. set (st2 := if is_empty _ then _ else _) in H2. destruct H2 as [H2 Hnow].
  replace (if is_empty (e_state e) then set_entry (Z.of_nat i) (set_e_netif netif (set_e_state ETHARP_STATE_PENDING e)) st1 else st1)
    with st2 by (unfold st2, now_busy; by destruct (is_empty (e_state e))).
  set (e2 := now_busy netif e) in *.
  assert (busy e2 /\ e_ipaddr e2 = ip /\ e_netif e2 = netif) as (B2 & I2 & F2).
  { unfold e2, now_busy, busy. destruct (e_state e) eqn:Es; cbn; try rewrite Es; done. }
  destruct (query_request_spec y st2 n i e2 ip q (is_empty (e_state e)) H2 N1 N2 (entry_now_lookup _ _ _ _ Hnow))
    as (r & st3 & e3 & E3 & Hr & H3 & Hnow3 & Ha). cbv zeta in E3. rewrite E3. cbn [res_bind].
  exists i, r, st3, e3. split; [done|]. split; [done|]. split; [done|]. split; [done|].
  split; [by eapply entry_now_trans|]. destruct Ha as [->|[_ ->]]; by split_and!.
Qed.

Lemma query_spec N n x st netif ip q :
  ok (q :: x) st -> (count_occ Z.eq_dec x q <= 150)%nat -> q <> 0 -> known netif -> N netif = Some n ->
  if_hwaddr_len n = 6 -> length (if_hwaddr n) = 6%nat -> unicast ip n = true ->
  exists r st' i, etharp_query N netif ip q st = Ret (r, st') /\ ok (q :: x) st' /\
    slot_for (arp_table st) ip netif i /\ has_key ip netif (arp_table st') i /\
    queried n q (arp_table st) i r st'.
Proof.
  intros H Hx Hq Hk HN N1 N2 Hu.
  destruct (query_prefix N n (q :: x) st netif ip q H Hk HN N1 N2 Hu)
    as (i & r0 & st3 & e3 & -> & _ & H3 & Hsl & Hn3 & B3 & I3 & F3).
  unfold query_packet. pose proof (entry_now_lookup _ _ _ _ Hn3) as Hi3.
  rewrite (proj2 (Z.eqb_neq q 0) Hq). rewrite (entry_some st3 i e3 Hi3). cbn [res_bind].
  destruct (is_stable (e_state e3)) eqn:Est.
  - assert (ok (q :: x) (ETHARP_SET_ADDRHINT (Z.of_nat i) st3)) as H4.
    { apply arp_ok_hint; [done|]. apply lookup_lt_Some in Hi3. rewrite (ao_len _ _ _ H3) in Hi3. lia. }
    destruct (send_spec known x _ n q (e_ethaddr e3) H4 N2) as (r' & w & -> & H5 & Hs).
    { by eapply eo_mac, (ao_entry _ _ _ H3). }
    cbn [res_bind]. eexists r', _, i. split; [done|]. split; [done|]. split; [done|].
    split; [by exists e3|]. exists e3. split_and!; try done. by left.
  - assert (e_state e3 = ETHARP_STATE_PENDING) as Hp by (destruct (e_state e3) eqn:Es3; try done; by destruct B3).
    rewrite Hp. cbn [is_pending].
    destruct (enqueue_spec x st3 q i e3 H3 Hx Hi3 Hp) as (r' & st4 & E4 & H4 & [[-> (p & Hp0 & Hn4)]|[-> Et]]);
      cbv zeta in E4; rewrite E4.
    + pose proof (entry_now_trans _ _ _ _ _ _ Hn3 Hn4) as Hn5. eexists ERR_OK, _, i. split; [done|]. split; [done|]. split; [done|].
      split; [exists (set_e_q p e3); split_and!; try done; by eapply entry_now_lookup|].
      exists (set_e_q p e3). split_and!; try done. right. split; [done|]. by left.
    + eexists ERR_MEM, _, i. split; [done|]. split; [done|]. split; [done|]. rewrite Et.
      split; [by exists e3|]. exists e3. rewrite Et. split_and!; try done. right. split; [done|]. by right.
Qed.

(** Without a packet, the address is asked for. *)
Lemma query_null_spec N n x st netif ip :
  ok x st -> known netif -> N netif = Some n ->
  if_hwaddr_len n = 6 -> length (if_hwaddr n) = 6%nat -> unicast ip n = true ->
  exists r st' i, etharp_query N netif ip 0 st = Ret (r, st') /\ ok x st' /\ (r = ERR_OK \/ r = ERR_MEM) /\
    slot_for (arp_table st) ip netif i /\ has_key ip netif (arp_table st') i.
Proof.
  intros H Hk HN N1 N2 Hu. destruct (query_prefix N n x st netif ip 0 H Hk HN N1 N2 Hu)
    as (i & r & st3 & e3 & -> & Hr & H3 & Hsl & Hn3 & B3 & I3 & F3).
  exists r, st3, i. split_and!; try done. exists e3. split_and!; try done. by eapply entry_now_lookup.
Qed.

Lemma query_not_unicast N n st netif ip q :
  N netif = Some n -> unicast ip n = false -> etharp_query N netif ip q st = Ret (ERR_ARG, st).
Proof. intros HN Hu. unfold etharp_query. rewrite HN. cbn [res_of_option res_bind]. by rewrite unicast_query, Hu. Qed.

(** ** etharp_output *)
Lemma find_stable_spec netif ip t k :
  match find_stable netif ip k t with
  | Some j => exists i e, j = k + Z.of_nat i /\ t !! i = Some e /\ is_stable (e_state e) = true /\
      e_netif e = netif /\ e_ipaddr e = ip
  | None => Forall (fun e => is_stable (e_state e) = true -> ~ (e_ipaddr e = ip /\ e_netif e = netif)) t
  end.
Proof.
  revert k. induction t as [|e t IH]; intros k; cbn [find_stable]; [constructor|].
  destruct (is_stable (e_state e)) eqn:Es; [destruct (Z.eqb_spec (e_netif e) netif) as [En|En];
    [destruct (Z.eqb_spec ip (e_ipaddr e)) as [Ei|Ei]|]|]; cbn [andb].
  { exists 0%nat, e. split_and!; try done; lia. }
  all: specialize (IH (k + 1)); destruct (find_stable _ _ _ _) as [j|];
    [destruct IH as (i & f & -> & Hf); exists (S i), f; split; [lia|exact Hf]
    |constructor; [intros Hs [K1 K2]; congruence|exact IH]].
Qed.

(** What etharp_output does with a packet for [ip]. *)
Definition routed (n : nif) (netif q ip : Z) st (r : Z) st' : Prop :=
  if ip4_addr_isbroadcast ip n then sent n q ethbroadcast r st' /\ arp_table st' = arp_table st
  else if ip4_addr_ismulticast ip then sent n q (multicast_mac ip) r st' /\ arp_table st' = arp_table st
  else match next_hop n ip with
  | None => r = ERR_RTE /\ st' = st
  | Some d =>
      (exists i e e', arp_table st !! i = Some e /\ is_stable (e_state e) = true /\ e_ipaddr e = d /\
         e_netif e = netif /\ sent n q (e_ethaddr e) r st' /\
         entry_now (arp_table st) (arp_table st') i e' /\ reasked e e') \/
      Forall (fun e => is_stable (e_state e) = true -> ~ (e_ipaddr e = d /\ e_netif e = netif)) (arp_table st) /\
      (unicast d n = false /\ r = ERR_ARG /\ st' = st \/
       unicast d n = true /\ exists i, slot_for (arp_table st) d netif i /\ has_key d netif (arp_table st') i /\
         queried n q (arp_table st) i r st')
  end.

Lemma output_spec N n x st netif ip q :
  ok (q :: x) st -> (count_occ Z.eq_dec x q <= 150)%nat -> known netif -> N netif = Some n ->
  if_hwaddr_len n = 6 -> length (if_hwaddr n) = 6%nat ->
  exists r st', etharp_output N netif q ip st = Ret (r, st') /\ ok (q :: x) st' /\ routed n netif q ip st r st'.
Proof.
  intros H Hx Hk HN N1 N2. assert (q <> 0) as Hq by exact (owns_null _ _ _ (ao_owns _ _ _ H)).
  unfold etharp_output, routed. rewrite HN. cbn [res_of_option res_bind]. cbv zeta.
  rewrite (proj2 (Z.eqb_neq q 0) Hq). cbn [negb lwip_assert].
  destruct (ip4_addr_isbroadcast ip n).
  { destruct (send_spec known x st n q ethbroadcast H N2) as (r & w & -> & H1 & Hs); [done|]. by exists r, (set_lk w st). }
  destruct (ip4_addr_ismulticast ip).
  { destruct (send_spec known x st n q (multicast_mac ip) H N2) as (r & w & -> & H1 & Hs); [done|]. by exists r, (set_lk w st). }
  destruct (next_hop n ip) as [d|]; [|by exists ERR_RTE, st].
  pose proof (ao_cached _ _ _ H) as Hc. destruct (entry_lookup known _ st (etharp_cached_entry st) H Hc) as (c & Hc1 & ->).
  cbn [res_bind]. destruct (is_stable (e_state c) && (e_netif c =? netif) && (d =? e_ipaddr c)) eqn:Ehit.
  { apply andb_true_iff in Ehit as [[Es En%Z.eqb_eq]%andb_true_iff Ei%Z.eqb_eq].
    destruct (output_to_index_spec known N n x st netif q _ c H HN N1 N2 Hc1 Es) as (r & st' & e' & E & H1 & Hs & Hn & Hr).
    rewrite Z2Nat.id in E by lia. exists r, st'. split; [done|]. split; [done|]. left. eexists _, c, e'. by split_and!. }
  clear Ehit. pose proof (find_stable_spec netif d (arp_table st) 0) as Hf. destruct (find_stable _ _ _ _) as [j|].
  { destruct Hf as (i & e & -> & Hi & Es & En & Ei). rewrite Z.add_0_l.
    pose proof (lookup_lt_Some _ _ _ Hi) as Hlt. rewrite (ao_len _ _ _ H) in Hlt.
    destruct (output_to_index_spec known N n x (ETHARP_SET_ADDRHINT (Z.of_nat i) st) netif q i e) as (r & st' & e' & E & H1 & Hs & Hn & Hr);
      try done; [apply arp_ok_hint; [done|lia]|].
    exists r, st'. split; [done|]. split; [done|]. left. by exists i, e, e'. }
  destruct (unicast d n) eqn:Eu.
  - destruct (query_spec N n x st netif d q H Hx Hq Hk HN N1 N2 Eu) as (r & st' & i & E & H1 & Hq1).
    exists r, st'. split; [done|]. split; [done|]. right. split; [done|]. right. split; [done|]. by exists i.
  - exists ERR_ARG, st. rewrite (query_not_unicast N n st netif d q HN Eu). split; [done|]. split; [done|]. right. by split; [|left].
Qed.

(** An entry that is not due for another request. *)
Definition quiet (e : etharp_entry) : Prop :=
  is_stable (e_state e) = true /\ (e_state e = ETHARP_STATE_STABLE -> e_ctime e < ARP_AGE_REREQUEST_USED_UNICAST).

Lemma to_index_quiet N n st netif q i e r w : N netif = Some n -> arp_table st !! i = Some e -> quiet e ->
  lk_output q (if_hwaddr n) (e_ethaddr e) ETHTYPE_IP (lk st) = Ret (r, w) ->
  etharp_output_to_arp_index N netif q (Z.of_nat i) st = Ret (r, set_lk w st).
Proof.
  intros HN Hi [Hs Hq] E. unfold etharp_output_to_arp_index. rewrite HN. cbn [res_of_option res_bind].
  rewrite (entry_some st i e Hi). cbn [res_bind]. rewrite Hs. cbn [lwip_assert].
  case_bool_decide as Est; cbn [res_bind]; [|by rewrite E]. specialize (Hq Est).
  unfold ARP_AGE_REREQUEST_USED_BROADCAST, ARP_AGE_REREQUEST_USED_UNICAST, ARP_MAXAGE in *.
  rewrite !Z.geb_leb, !(proj2 (Z.leb_gt _ (e_ctime e))) by lia. cbn [res_bind]. by rewrite E.
Qed.

(** A packet whose next hop is known goes out at once, to that address. *)
Lemma output_hit N n x st netif ip q d i e r w :
  ok (q :: x) st -> N netif = Some n -> ip4_addr_isbroadcast ip n = false -> ip4_addr_ismulticast ip = false ->
  next_hop n ip = Some d -> arp_table st !! i = Some e -> quiet e -> e_ipaddr e = d -> e_netif e = netif ->
  lk_output q (if_hwaddr n) (e_ethaddr e) ETHTYPE_IP (lk st) = Ret (r, w) ->
  exists c, etharp_output N netif q ip st = Ret (r, mkArp (arp_table st) c w).
Proof.
  intros H HN Hb Hm Hd Hi Hq Ha Hn E. assert (q <> 0) as Hq0 by exact (owns_null _ _ _ (ao_owns _ _ _ H)).
  assert (busy e) as Hbe by (destruct Hq as [Hs _]; unfold busy; intros Ee; by rewrite Ee in Hs).
  assert (forall j f, arp_table st !! j = Some f -> is_stable (e_state f) = true -> e_ipaddr f = d -> e_netif f = netif -> j = i) as Huniq.
  { intros j f Hj Hs K1 K2. eapply (ao_uniq _ _ _ H j i f e); try done; [|split; congruence].
    unfold busy. intros Ee. by rewrite Ee in Hs. }
  unfold etharp_output. rewrite HN. cbn [res_of_option res_bind]. cbv zeta.
  rewrite (proj2 (Z.eqb_neq q 0) Hq0). cbn [negb lwip_assert]. rewrite Hb, Hm, Hd.
  pose proof (ao_cached _ _ _ H) as Hc. destruct (entry_lookup known _ st (etharp_cached_entry st) H Hc) as (c & Hc1 & ->).
  cbn [res_bind]. destruct (is_stable (e_state c) && (e_netif c =? netif) && (d =? e_ipaddr c)) eqn:Ehit.
  { apply andb_true_iff in Ehit as [[Es En%Z.eqb_eq]%andb_true_iff Ei%Z.eqb_eq].
    pose proof (Huniq _ _ Hc1 Es (eq_sym Ei) En) as Ej.
    replace (etharp_cached_entry st) with (Z.of_nat i) by lia. rewrite (to_index_quiet N n st netif q i e r w) by done. by eexists. }
  clear Ehit. pose proof (find_stable_spec netif d (arp_table st) 0) as Hf. destruct (find_stable _ _ _ _) as [j|].
  - destruct Hf as (i' & f & -> & Hi' & Es & En & Ei). rewrite (Huniq i' f Hi' Es Ei En), Z.add_0_l.
    rewrite (to_index_quiet N n (ETHARP_SET_ADDRHINT (Z.of_nat i) st) netif q i e r w) by done. by eexists.
  - exfalso. rewrite Forall_lookup in Hf. destruct Hq as [Hs _]. by apply (Hf i e Hi Hs).
Qed.

(** ** etharp_input *)

(** A message the module reads, and its being for this interface. *)
Definition arp_ipv4 (hdr : list Z) : bool :=
  negb (negb (hdr_hwtype hdr =? lwip_htons 1) || negb (hdr_hwlen hdr =? ETH_HWADDR_LEN) ||
        negb (hdr_protolen hdr =? 4) || negb (hdr_proto hdr =? lwip_htons ETHTYPE_IP)).
Definition arp_for_us (n : nif) (hdr : list Z) : bool :=
  negb (if_ip n =? IPADDR_ANY) && (hdr_dipaddr hdr =? if_ip n).

Lemma length_shwaddr hdr : Z.of_nat (length hdr) = SIZEOF_ETHARP_HDR -> length (hdr_shwaddr hdr) = 6%nat.
Proof. unfold SIZEOF_ETHARP_HDR, hdr_shwaddr. intros H. rewrite length_take, length_drop. lia. Qed.

(** The table after a message: its sender is learned when there is an entry
    for it already, or when the message is for this interface. *)
Definition heard (n : nif) (netif : Z) (hdr : list Z) (t t' : list etharp_entry) : Prop :=
  (t' = t /\ (arp_ipv4 hdr = true -> unicast (hdr_sipaddr hdr) n = true -> arp_for_us n hdr = false)) \/
  (arp_ipv4 hdr = true /\ unicast (hdr_sipaddr hdr) n = true /\
   exists i, slot_for t (hdr_sipaddr hdr) netif i /\
     entry_now t t' i (learned (hdr_sipaddr hdr) netif (hdr_shwaddr hdr))).

Lemma slot_for_lt t ip netif i : slot_for t ip netif i -> (i < length t)%nat.
Proof. intros [(e & H & _)|(_ & e & H & _)]; by eapply lookup_lt_Some. Qed.

Lemma input_update_spec N n x st netif hdr :
  ok x st -> N netif = Some n -> if_hwaddr_len n = 6 -> length (if_hwaddr n) = 6%nat -> known netif ->
  Z.of_nat (length hdr) = SIZEOF_ETHARP_HDR -> arp_ipv4 hdr = true ->
  exists r st', etharp_update_arp_entry N netif (hdr_sipaddr hdr) (hdr_shwaddr hdr)
      (if arp_for_us n hdr then ETHARP_FLAG_TRY_HARD else ETHARP_FLAG_FIND_ONLY) st = Ret (r, st') /\
    ok x st' /\ heard n netif hdr (arp_table st) (arp_table st').
Proof.
  intros H HN N1 N2 Hk Hl Hv.
  destruct (update_spec known known_null N n x st netif (hdr_sipaddr hdr) (hdr_shwaddr hdr)
    (if arp_for_us n hdr then ETHARP_FLAG_TRY_HARD else ETHARP_FLAG_FIND_ONLY) H HN N1 N2 Hk (length_shwaddr _ Hl))
    as [[Hu ->]|(Hu & [(Hn & Hf & ->)|(i & w & Hs & E & H1 & _)])].
  - exists ERR_ARG, st. split; [done|]. split; [done|]. left. split; [done|]. congruence.
  - exists ERR_MEM, st. split; [done|]. split; [done|]. left. split; [done|]. intros _ _.
    destruct (arp_for_us n hdr); [|done]. destruct Hf as [Hf|[_ Hf]]; done.
  - eexists ERR_OK, _. split; [exact E|]. split; [exact H1|]. right. split; [done|]. split; [done|].
    exists i. split; [done|]. split; [by eapply slot_for_lt|done].
Qed.

Lemma input_spec N n x st netif p :
  ok (p :: x) st -> known netif -> N netif = Some n -> if_hwaddr_len n = 6 -> length (if_hwaddr n) = 6%nat ->
  SIZEOF_ETHARP_HDR <= room (lk st) p ->
  exists hdr st', lk_load p SIZEOF_ETHARP_HDR (lk st) = Ret hdr /\
    etharp_input N p netif st = Ret st' /\ ok x st' /\ heard n netif hdr (arp_table st) (arp_table st').
Proof.
  intros H Hk HN N1 N2 Hroom.
  destruct (load_ok (lk st) p _ SIZEOF_ETHARP_HDR (ao_owns _ _ _ H)) as (hdr & El & Hlen & _); [done|].
  exists hdr. assert (forall st0 st1, ok (p :: x) st1 -> arp_table st1 = arp_table st0 -> exists st',
    (let* w := lk_free p (lk st1) in Ret (set_lk w st1)) = Ret st' /\ ok x st' /\ arp_table st' = arp_table st0) as Hend.
  { intros st0 st1 H1 Et. destruct (free_ok (lk st1) p _ (ao_owns _ _ _ H1)) as (w & -> & Hw).
    exists (set_lk w st1). split_and!; try done. by eapply arp_ok_lk. }
  unfold etharp_input. assert (netif <> 0) as Hn0 by (intros ->; done).
  rewrite (proj2 (Z.eqb_neq netif 0) Hn0), HN. cbn [res_of_option res_bind]. rewrite El. cbn [res_bind]. cbv zeta.
  destruct (_ || _ || _ || _) eqn:Ev.
  { destruct (Hend st st H eq_refl) as (st' & E & H1 & Et). exists st'. split_and!; try done.
    left. split; [done|]. unfold arp_ipv4. by rewrite Ev. }
  assert (arp_ipv4 hdr = true) as Hv by (unfold arp_ipv4; by rewrite Ev). clear Ev.
  fold (arp_for_us n hdr).
  destruct (input_update_spec N n (p :: x) st netif hdr H HN N1 N2 Hk Hlen Hv) as (r & st1 & -> & H1 & Hh).
  cbn [res_bind]. destruct (_ && _ && _).
  - destruct (raw_spec known (p :: x) st1 n (if_hwaddr n) (hdr_shwaddr hdr) (if_hwaddr n) (if_ip n) (hdr_shwaddr hdr)
      (hdr_sipaddr hdr) ARP_REPLY H1 N1 N2) as (r2 & w & -> & H2 & _); try done; try by apply length_shwaddr.
    cbn [res_bind]. destruct (Hend st1 _ H2 eq_refl) as (st' & E & H3 & Et). exists st'. rewrite Et. by split_and!.
  - cbn [res_bind]. destruct (Hend st1 st1 H1 eq_refl) as (st' & E & H3 & Et). exists st'. rewrite Et. by split_and!.
Qed.
End Send.
