(* ===== verification/Ethernet.v ===== *)
(** * lwip-2.2.0/src/netif/ethernet.c: Ethernet framing

    The Ethernet header in front of a packet, the transmission through the
    driver of net_glue.c, the dispatch of received frames, and the link layer
    of [Link] on the pbuf heap. *)
From S2P Require Import Prelude NetShim Ip4Addr Link Etharp Pbuf NetGlue.

Definition SIZEOF_ETH_HDR : Z := 14.
Definition LL_IP4_MULTICAST_ADDR_0 : Z := 0x01.
Definition LL_IP4_MULTICAST_ADDR_1 : Z := 0x00.
Definition LL_IP4_MULTICAST_ADDR_2 : Z := 0x5e.
Definition PBUF_FLAG_LLBCAST : Z := 0x08.
Definition PBUF_FLAG_LLMCAST : Z := 0x10.
Definition PBUF_TYPE_FLAG_DATA_VOLATILE : Z := 0x40.
Definition PBUF_NEEDS_COPY (b : pbuf) : bool := has_flag (type_internal b) PBUF_TYPE_FLAG_DATA_VOLATILE.
Definition NETIF_NO_INDEX : Z := 0.
Definition netif_get_index (n : nif) : Z := u8 (if_num n + 1).

Definition set_flags (v : Z) (b : pbuf) : pbuf :=
  mkPbuf (next b) (payload b) (p_tot_len b) (p_len b) (type_internal b) v (p_ref b) (if_idx b).
Definition set_if_idx (v : Z) (b : pbuf) : pbuf :=
  mkPbuf (next b) (payload b) (p_tot_len b) (p_len b) (type_internal b) (p_flags b) (p_ref b) v.

(** The packets, the number of calls of malloc so far, the driver's buffer and
    the frames handed to b_net_tx. *)
Record nic := mkNic {
  nic_heap : pheap;
  nic_mallocs : nat;
  nic_txbuf : list Z;
  nic_tx : list (list Z);
}.
Definition set_nic_heap (h : pheap) (w : nic) : nic := mkNic h (nic_mallocs w) (nic_txbuf w) (nic_tx w).

Section Ethernet.
Variable custom_free : Z -> pheap -> res pheap.
(** What the [k]-th call of malloc returns when these pbufs are live; 0: failure. *)
Variable malloc : nat -> gmap Z pbuf -> Z.

(** An allocation with one call of malloc. *)
Definition with_malloc (f : list Z -> pheap -> res (Z * list Z * pheap)) (w : nic) : res (Z * nic) :=
  let* (p, _, h) := f [malloc (nic_mallocs w) (pbufs (nic_heap w))] (nic_heap w) in
  Ret (p, mkNic h (S (nic_mallocs w)) (nic_txbuf w) (nic_tx w)).

Definition nic_store (p : Z) (bs : list Z) (w : nic) : res nic :=
  let* b := pget (nic_heap w) p in
  lwip_assert (Z.of_nat (length bs) <=? p_len b)
    (Ret (set_nic_heap (set_pmem (mem_write (pmem (nic_heap w)) (payload b) bs) (nic_heap w)) w)).
Definition nic_load (p n : Z) (w : nic) : res (list Z) :=
  let* b := pget (nic_heap w) p in
  lwip_assert (n <=? p_len b) (Ret (mem_read (pmem (nic_heap w)) (payload b) n)).
Definition nic_free (p : Z) (w : nic) : res nic :=
  let* (_, h) := pbuf_free custom_free p (nic_heap w) in Ret (set_nic_heap h w).

(** etharp_query: must the packet be copied to be kept? *)
Fixpoint copy_needed (fuel : nat) (p : Z) (h : pheap) : res bool :=
  match fuel with
  | O => NoFuel
  | S k =>
      if p =? NULL then Ret false
      else
        let* b := pget h p in
        lwip_assert (negb (p_len b =? p_tot_len b) || (next b =? NULL))
          (if PBUF_NEEDS_COPY b then Ret true else copy_needed k (next b) h)
  end.
Definition keep_packet (q : Z) (w : nic) : res (Z * nic) :=
  let* copy := copy_needed (chain_fuel (nic_heap w)) q (nic_heap w) in
  if (copy : bool) then with_malloc (pbuf_clone custom_free PBUF_LINK PBUF_RAM q) w
  else let* h := pbuf_ref q (nic_heap w) in Ret (q, set_nic_heap h w).

(** netif->linkoutput: the driver of net_glue.c. *)
Definition linkoutput (p : Z) (w : nic) : res (Z * nic) :=
  let* (r, frame, txbuf) := low_level_output p (nic_txbuf w) (nic_heap w) in
  Ret (r, mkNic (nic_heap w) (nic_mallocs w) txbuf (nic_tx w ++ option_list frame)).

Definition ethernet_output (hwaddr_len p : Z) (src dst : list Z) (eth_type : Z) (w : nic) : res (Z * nic) :=
  let* (failed, h) := pbuf_add_header p SIZEOF_ETH_HDR (nic_heap w) in
  if negb (failed =? 0) then Ret (ERR_BUF, set_nic_heap h w)
  else
    let* b := pget h p in
    let m := mem_write (pmem h) (payload b + 12) (le_bytes 2 (lwip_htons eth_type)) in
    let m := mem_write m (payload b) (take 6 dst) in
    let m := mem_write m (payload b + 6) (take 6 src) in
    lwip_assert (hwaddr_len =? ETH_HWADDR_LEN) (linkoutput p (set_nic_heap (set_pmem m h) w)).

(** The link layer below the one interface of net_glue.c. *)
Definition nic_link (n : netif) : LinkOps nic := {|
  lk_alloc len := with_malloc (pbuf_alloc custom_free PBUF_LINK len PBUF_RAM);
  lk_store := nic_store;
  lk_load := nic_load;
  lk_free := nic_free;
  lk_keep := keep_packet;
  lk_output := ethernet_output (nif_hwaddr_len n);
|}.

(** ** Receiving *)
Section Input.
(** The state of the layers above, and ip4_input. *)
Context {T : Type}.
Variable ip4_input : Z -> Z -> arp nic -> T -> res (arp nic * T).
Variable bmos : netif.

Definition set_heap (h : pheap) (st : arp nic) : arp nic := set_lk (set_nic_heap h (lk st)) st.

(** The marks for link-layer multicast and broadcast. *)
Definition mark_dest (dest : list Z) (b : pbuf) : pbuf :=
  if has_flag (nth 0 dest 0) 1 then
    if nth 0 dest 0 =? LL_IP4_MULTICAST_ADDR_0 then
      if (nth 1 dest 0 =? LL_IP4_MULTICAST_ADDR_1) && (nth 2 dest 0 =? LL_IP4_MULTICAST_ADDR_2)
      then set_flags (Z.lor (p_flags b) PBUF_FLAG_LLMCAST) b else b
    else if bool_decide (dest = ethbroadcast) then set_flags (Z.lor (p_flags b) PBUF_FLAG_LLBCAST) b
    else b
  else b.

Definition ethernet_input (N : Z -> option nif) (p netif : Z) (st : arp nic) (s : T) : res (Z * arp nic * T) :=
  let* n := res_of_option (N netif) in
  let free_and_return st := let* w := nic_free p (lk st) in Ret (ERR_OK, set_lk w st, s) in
  let* b := pget (nic_heap (lk st)) p in
  if p_len b <=? SIZEOF_ETH_HDR then free_and_return st
  else
    let* hdr := nic_load p SIZEOF_ETH_HDR (lk st) in
    let type := le_val (drop 12 hdr) in
    let b := if if_idx b =? NETIF_NO_INDEX then set_if_idx (netif_get_index n) b else b in
    let b := mark_dest (take 6 hdr) b in
    let st := set_heap (pset p b (nic_heap (lk st))) st in
    (* skip the Ethernet header and go on with [k] *)
    let skip_header k :=
      if negb (has_flag (if_flags n) NETIF_FLAG_ETHARP) then free_and_return st
      else
        let* (failed, h) := pbuf_remove_header p SIZEOF_ETH_HDR (nic_heap (lk st)) in
        let st := set_heap h st in
        if negb (failed =? 0) then free_and_return st
        else let* (st, s) := k st in Ret (ERR_OK, st, s) in
    if type =? lwip_htons ETHTYPE_IP then skip_header (fun st => ip4_input p netif st s)
    else if type =? lwip_htons ETHTYPE_ARP then
      skip_header (fun st => let* st := etharp_input (LinkOps0 := nic_link bmos) N p netif st in Ret (st, s))
    else free_and_return st.
End Input.
End Ethernet.
