(* ===== verification/EthernetInv.v ===== *)
(** * The link layer on the pbuf heap keeps the laws of [Link]

    The packets that are held: each is a chain of its own, its first pbuf
    counts the references, and no two chains share a pbuf. *)
From S2P Require Import Prelude NetShim Ip4Addr Link Etharp Ethernet Pbuf PbufChain PbufOps NetGlue PbufClone.

Abbreviation refs_to l p := (count_occ Z.eq_dec l p).

(** [p] is a packet of the pbufs [ps] with [n] references. *)
Record packet (h : pheap) (p : Z) (ps : list (Z * pbuf)) (n : nat) : Prop := {
  pk_chain : chain_at (pbufs h) p ps;
  pk_head : p <> NULL;
  pk_wf : wf_chain ps;
  pk_one : one_packet ps;
  pk_plain : Forall plain ps;
  pk_refs : exists b r, ps = (p, b) :: r /\ p_ref b = Z.of_nat n /\ Forall (fun x => p_ref x.2 = 1) r;
}.

(** Pbufs that belong to someone else: whatever happens to the packets that
    are held, these stay as they are.  The frame is an argument of everything
    below, so that each law also says what it leaves alone. *)
Class Frame := frame : gmap Z pbuf.
Definition no_frame : Frame := (∅ : gmap Z pbuf).
Lemma no_frame_sub (m : gmap Z pbuf) : @frame no_frame ⊆ m.
Proof. apply map_subseteq_spec. intros x b H. unfold frame, no_frame in H. by rewrite lookup_empty in H. Qed.

Section Held.
Context {F : Frame}.

(** The references [l] are all there are to their packets [C], which are apart
    from the frame. *)
Record held (h : pheap) (C : Z -> list (Z * pbuf)) (l : list Z) : Prop := {
  hd_packet : forall p, p ∈ l -> packet h p (C p) (refs_to l p);
  hd_apart : forall p q x, p ∈ l -> q ∈ l -> p <> q -> x ∈ (C p).*1 -> x ∉ (C q).*1;
  hd_frame : frame ⊆ pbufs h;
  hd_off : forall p x, p ∈ l -> x ∈ (C p).*1 -> frame !! x = None;
}.

(** A heap that agrees with another one on the frame. *)
Lemma frame_agree (m m' : gmap Z pbuf) : frame ⊆ m -> (forall x b, frame !! x = Some b -> m' !! x = m !! x) -> frame ⊆ m'.
Proof. intros H Hs. apply map_subseteq_spec. intros x b Hx. rewrite (Hs x b Hx). by eapply lookup_weaken. Qed.

Lemma packet_frame h h' p ps n :
  packet h p ps n -> (forall x, x ∈ ps.*1 -> pbufs h' !! x = pbufs h !! x) -> packet h' p ps n.
Proof.
  intros [P1 P2 P3 P4 P5 P6] Hf. split; try done. eapply chain_at_agree; [exact P1|].
  intros a b Hin. rewrite Hf; [by eapply chain_at_elem|]. apply list_elem_of_fmap. by exists (a, b).
Qed.

Lemma packet_in h p ps n : packet h p ps n -> p ∈ ps.*1.
Proof. intros [_ _ _ _ _ (b & r & -> & _)]. cbn. by left. Qed.

Lemma packet_live h p ps n x : packet h p ps n -> x ∈ ps.*1 -> is_Some (pbufs h !! x).
Proof.
  intros H ([a b] & -> & Hin)%list_elem_of_fmap. apply (chain_at_elem _ _ _ _ _ (pk_chain _ _ _ _ H)) in Hin as [Hb _].
  by exists b.
Qed.

Lemma refs_in l p : p ∈ l -> (0 < refs_to l p)%nat.
Proof. intros H. apply count_occ_In, list_elem_of_In, H. Qed.

(** One packet [p] changes, the others do not. *)
Lemma held_update h h' C l l' p ps :
  held h C l ->
  (forall q, q ∈ l' -> q <> p -> q ∈ l /\ refs_to l' q = refs_to l q) ->
  (p ∈ l' -> packet h' p ps (refs_to l' p)) ->
  (forall q x, q ∈ l' -> q <> p -> x ∈ (C q).*1 -> pbufs h' !! x = pbufs h !! x /\ (p ∈ l' -> x ∉ ps.*1)) ->
  (forall x b, frame !! x = Some b -> pbufs h' !! x = pbufs h !! x) -> (p ∈ l' -> forall x, x ∈ ps.*1 -> frame !! x = None) ->
  held h' (fun q => if decide (q = p) then ps else C q) l'.
Proof.
  intros [H1 H2 H3 H4] Hl Hp Hf Hfr Hoff. split.
  - intros q Hq. case_decide as E; [subst; by apply Hp|]. destruct (Hl q Hq E) as [Hq' ->].
    eapply packet_frame; [by apply H1|]. intros x Hx. by apply (Hf q x).
  - intros q r x Hq Hr Hqr Hx. repeat case_decide; subst; try done.
    + intros Hx'. by apply (Hf r x).
    + by apply (Hf q x).
    + apply (H2 q r x); try done; by apply Hl.
  - by eapply frame_agree.
  - intros q x Hq. case_decide as E; [subst; by apply Hoff|]. apply H4. by apply Hl.
Qed.

Lemma held_mem h C l m : held h C l -> held (set_pmem m h) C l.
Proof. intros [H1 H2 H3 H4]. split; try done. intros p Hp. by eapply packet_frame; [apply H1|]. Qed.

Lemma held_perm h C l l' : l ≡ₚ l' -> held h C l -> held h C l'.
Proof.
  intros Hp [H1 H2 H3 H4]. assert (forall p, refs_to l' p = refs_to l p) as Hc.
  { intros p. symmetry. by apply (Permutation_count_occ Z.eq_dec). }
  split.
  - intros p Hin. rewrite Hc. apply H1. by rewrite Hp.
  - intros p q x. rewrite <- Hp. apply H2.
  - done.
  - intros p x. rewrite <- Hp. apply H4.
Qed.

(** The references to another packet. *)
Lemma refs_cons_ne l p q : q <> p -> refs_to (p :: l) q = refs_to l q.
Proof. intros H. apply count_occ_cons_neq. congruence. Qed.
Lemma refs_cons_eq l p : refs_to (p :: l) p = S (refs_to l p).
Proof. by apply count_occ_cons_eq. Qed.

(** Only the first pbuf of a packet changes. *)
Lemma held_head h C l l' p b b' m :
  held h C (p :: l) ->
  (forall q, q ∈ l' -> q <> p -> q ∈ l /\ refs_to l' q = refs_to l q) ->
  (exists r, C p = (p, b) :: r) -> next b' = next b -> type_internal b' = type_internal b ->
  has_flag (p_flags b') PBUF_FLAG_IS_CUSTOM = has_flag (p_flags b) PBUF_FLAG_IS_CUSTOM ->
  0 <= p_len b' -> p_tot_len b' - p_len b' = p_tot_len b - p_len b -> p_tot_len b' < 65536 ->
  (p ∈ l' -> p_ref b' = Z.of_nat (refs_to l' p)) ->
  exists C', held (mkPheap (<[p := b']> (pbufs h)) m) C' l' /\ (p ∈ l' -> exists r, C' p = (p, b') :: r).
Proof.
  intros H Hl [r Er] B1 B2 B3 B4 B5 B6 B7. eexists. split.
  - apply (held_update h _ C (p :: l) l' p ((p, b') :: r) H).
    + intros q Hq Hne. destruct (Hl q Hq Hne) as [Hin ->]. split; [by right|]. by rewrite refs_cons_ne.
    + intros Hin. specialize (B7 Hin). pose proof (hd_packet _ _ _ H p ltac:(by left)) as Hp. rewrite Er in Hp.
      destruct Hp as [P1 P2 P3 P4 P5 P6]. pose proof (chain_not_in_tail _ _ _ _ _ P1) as Hnt.
      destruct P1 as (_ & _ & P1 & P1'). destruct P3 as (W1 & W2 & W3 & W4). inversion P4 as [|? ? O1 O2].
      inversion P5 as [|? ? (Q1 & Q2 & Q3) Q4]. subst. cbn [snd] in *. split; try done.
      * cbn. rewrite lookup_insert_eq, B1. split_and!; try done. by apply chain_at_insert.
      * cbn. split_and!; try done; lia.
      * constructor; [|done]. cbn [snd]. rewrite B1. intros E. apply O1. lia.
      * constructor; [|done]. unfold plain. cbn [snd]. rewrite B2, B3, B7. split_and!; try done; [|lia..].
        pose proof (refs_in _ _ Hin). lia.
      * exists b', r. split_and!; try done. destruct P6 as (b0 & r0 & [= <- <-] & _ & Hr). done.
    + intros q x Hq Hne Hx. destruct (Hl q Hq Hne) as [Hin _].
      pose proof (hd_apart _ _ _ H q p x ltac:(by right) ltac:(by left) Hne Hx) as Hnx. rewrite Er in Hnx.
      apply not_elem_of_cons in Hnx as [Hx1 Hx2]. cbn in Hx1. split.
      * cbn. by rewrite lookup_insert_ne.
      * intros _. cbn. rewrite not_elem_of_cons. by split.
    + intros x d Hx. cbn. rewrite lookup_insert_ne; [done|]. intros <-.
      rewrite (hd_off _ _ _ H p p ltac:(by left)) in Hx; [done|]. rewrite Er. by left.
    + intros _ x Hx. apply (hd_off _ _ _ H p x ltac:(by left)). by rewrite Er.
  - intros _. exists r. cbv beta. by rewrite decide_True.
Qed.

Lemma held_packet h C p l : held h C (p :: l) -> exists b r, C p = (p, b) :: r /\
  packet h p ((p, b) :: r) (S (refs_to l p)) /\ pget h p = Ret b /\ p_ref b = Z.of_nat (S (refs_to l p)).
Proof.
  intros H. pose proof (hd_packet _ _ _ H p ltac:(by left)) as Hp. rewrite refs_cons_eq in Hp.
  destruct (pk_refs _ _ _ _ Hp) as (b & r & E & Hr & _). rewrite E in Hp. exists b, r. split_and!; try done.
  by eapply pget_chain, Hp.
Qed.

(** Allocated pbufs are new packets. *)
Lemma held_new h C l a b m :
  held h C l -> pbufs h !! a = None -> a <> NULL -> next b = NULL -> 0 <= p_len b < 65536 -> p_tot_len b = p_len b ->
  p_ref b = 1 -> type_internal b = 0x80 -> p_flags b = 0 ->
  held (mkPheap (<[a := b]> (pbufs h)) m) (fun q => if decide (q = a) then [(a, b)] else C q) (a :: l).
Proof.
  intros H Ha Ha0 B1 B2 B3 B4 B5 B6.
  assert (forall q x, q ∈ l -> x ∈ (C q).*1 -> x <> a) as Hne.
  { intros q x Hq Hx ->. destruct (packet_live _ _ _ _ _ (hd_packet _ _ _ H q Hq) Hx) as [? E]. congruence. }
  assert (a ∉ l) as Hal.
  { intros Hin. eapply (Hne a a Hin); [|done]. eapply packet_in, (hd_packet _ _ _ H), Hin. }
  assert (refs_to (a :: l) a = 1%nat) as Hr.
  { rewrite refs_cons_eq. f_equal. apply count_occ_not_In. by rewrite <- list_elem_of_In. }
  apply (held_update h _ C l (a :: l) a [(a, b)] H).
  - intros q [->|Hq]%elem_of_cons Hqa; [done|]. split; [done|]. by apply refs_cons_ne.
  - intros _. rewrite Hr. split.
    + cbn. rewrite lookup_insert_eq, B1. by split_and!.
    + done.
    + cbn. rewrite B3. split_and!; [lia..|done].
    + constructor; [|done]. cbn. by rewrite B1.
    + constructor; [|done]. unfold plain. cbn [snd]. rewrite B4, B5, B6. by split_and!.
    + exists b, []. rewrite B4. split_and!; done.
  - intros q x [->|Hq]%elem_of_cons Hqa Hx; [done|]. pose proof (Hne q x Hq Hx) as Hxa. split.
    + cbn. by rewrite lookup_insert_ne.
    + intros _. cbn. rewrite list_elem_of_singleton. done.
  - intros x d Hx. cbn. rewrite lookup_insert_ne; [done|]. intros <-.
    pose proof (lookup_weaken _ _ _ _ Hx (hd_frame _ _ _ H)). congruence.
  - intros _ x ->%list_elem_of_singleton. by eapply lookup_weaken_None, H.
Qed.

(** A reference is given up. *)
Lemma held_free custom_free h C p l :
  held h C (p :: l) -> exists n h' C', pbuf_free custom_free p h = Ret (n, h') /\ held h' C' l /\ pmem h' = pmem h /\
    (forall q, q ∈ l -> q <> p -> pbufs h' !! q = pbufs h !! q).
Proof.
  intros H. destruct (held_packet _ _ _ _ H) as (b & r & Er & Hp & _ & Hb).
  destruct (pbuf_free_spec custom_free p ((p, b) :: r) h) as (n & h' & E & Hfree); [apply Hp..|].
  exists (u8 n), h'. destruct Hfree as [pre rest h' Eps Hpre Hrest Hgone Hsame Hm].
  assert (forall q, q ∈ l -> q <> p -> q ∈ p :: l /\ refs_to l q = refs_to (p :: l) q) as Hl.
  { intros q Hq Hne. split; [by right|]. by rewrite refs_cons_ne. }
  assert (forall q x, q ∈ l -> q <> p -> x ∈ (C q).*1 -> x ∉ ((p, b) :: r).*1) as Hap.
  { intros q x Hq Hne Hx. rewrite <- Er. apply (hd_apart _ _ _ H q p x); [by right|by left|done..]. }
  assert (forall q, q ∈ l -> q <> p -> q ∉ ((p, b) :: r).*1) as Hfr.
  { intros q Hq Hne. apply (Hap q q Hq Hne). eapply packet_in, (hd_packet _ _ _ H). by right. }
  destruct pre as [|[a0 b0] pre]; cbn [app] in Eps.
  - subst rest. destruct Hrest as [Hr1 Hr2]. set (b' := set_ref (p_ref b - 1) b) in *.
    assert (pbufs h' = <[p := b']> (pbufs h)) as Eh.
    { apply map_eq. intros x. destruct (decide (x = p)) as [->|Hx]; [by rewrite lookup_insert_eq|].
      rewrite lookup_insert_ne by done. apply Hsame; [apply not_elem_of_nil|]. intros b1 r1 [=]. congruence. }
    destruct (held_head h C l l p b b' (pmem h) H) as (C' & HC & _); try done.
    + by exists r.
    + apply (pk_wf _ _ _ _ Hp).
    + apply (pk_wf _ _ _ _ Hp).
    + intros _. cbn. lia.
    + exists C'. split; [done|]. split; [|split; [done|]]; [destruct h' as [m1 m2]; cbn in *; by subst|].
      intros q Hq Hne. rewrite Eh, lookup_insert_ne; done.
  - injection Eps as <- <- ->. inversion Hpre as [|? ? Hp1 _]. subst. cbn in Hp1.
    assert (p ∉ l) as Hpl by (rewrite list_elem_of_In, (count_occ_not_In Z.eq_dec); lia).
    assert (rest = []) as ->.
    { destruct rest as [|[a1 b1] rest]; [done|]. exfalso. destruct Hrest as [Hr1 _].
      destruct (pk_refs _ _ _ _ Hp) as (b2 & r2 & [= <- <-] & _ & Hone).
      rewrite Forall_app in Hone. destruct Hone as [_ Hone]. inversion Hone. subst. cbn in *. lia. }
    rewrite app_nil_r in *. eexists. split; [done|]. split; [|split; [done|]; intros q Hq Hne; apply Hsame; [by apply Hfr|done]].
    apply (held_update h h' C (p :: l) l p [] H); [done|done| | |done].
    + intros q x Hq Hne Hx. split; [|done]. apply Hsame; [by apply (Hap q x)|done].
    + intros x d Hx. apply Hsame; [|done]. intros Hin. change ((p, b) :: pre) with ([(p, b)] ++ pre) in *.
      rewrite (hd_off _ _ _ H p x ltac:(by left)) in Hx; [done|]. by rewrite Er.
Qed.
End Held.

(** ** The laws *)
Section Laws.
Context {F : Frame}.
Variable custom_free : Z -> pheap -> res pheap.
Variable malloc : nat -> gmap Z pbuf -> Z.

(** malloc fails or returns a block that is not in use, below the top of the
    address space. *)
Definition malloc_ok : Prop := forall k m,
  malloc k m = NULL \/ 0 < malloc k m < 18446744073709551616 - 131072 /\ m !! malloc k m = None.
Context (Hmalloc : malloc_ok).

Definition nic_owns (w : nic) (l : list Z) : Prop :=
  mem_ok (pmem (nic_heap w)) /\ length (nic_txbuf w) = 1522%nat /\ exists C, held (nic_heap w) C l.
Definition nic_room (w : nic) (p : Z) : Z :=
  match pbufs (nic_heap w) !! p with Some b => p_len b | None => 0 end.

Lemma nic_owns_head w p l : nic_owns w (p :: l) -> exists C b r, held (nic_heap w) C (p :: l) /\
  C p = (p, b) :: r /\ packet (nic_heap w) p ((p, b) :: r) (S (refs_to l p)) /\
  pget (nic_heap w) p = Ret b /\ p_ref b = Z.of_nat (S (refs_to l p)) /\ nic_room w p = p_len b.
Proof.
  intros (_ & _ & C & H). destruct (held_packet _ _ _ _ H) as (b & r & E & Hp & Hg & Hr).
  exists C, b, r. split_and!; try done. unfold nic_room. destruct (pk_chain _ _ _ _ Hp) as (_ & _ & -> & _). done.
Qed.

Lemma alloc_ram_null layer n h :
  exists addrs, pbuf_alloc custom_free layer n PBUF_RAM [NULL] h = Ret (NULL, addrs, h).
Proof. unfold pbuf_alloc. destruct (_ || _); eexists; reflexivity. Qed.

Lemma nic_alloc_ok w l n : nic_owns w l -> 0 <= n <= 1500 ->
  exists p w', with_malloc malloc (pbuf_alloc custom_free PBUF_LINK n PBUF_RAM) w = Ret (p, w') /\
    (p = 0 /\ nic_owns w' l \/ nic_owns w' (p :: l) /\ n <= nic_room w' p).
Proof.
  intros (Hm & Ht & C & H) Hn. unfold with_malloc.
  destruct (Hmalloc (nic_mallocs w) (pbufs (nic_heap w))) as [->|[Ha Hfree]].
  - destruct (alloc_ram_null PBUF_LINK n (nic_heap w)) as (addrs & ->). cbn [res_bind].
    eexists 0, _. split; [done|]. left. split; [done|]. split_and!; [exact Hm|exact Ht|by exists C].
  - set (a := malloc _ _) in *. destruct (pbuf_alloc_ram_spec custom_free PBUF_LINK n a [] (nic_heap w))
      as (b & -> & B1 & B2 & B3 & B4 & B5 & B6 & B7); [done|lia|done|]. cbn [res_bind].
    assert (a <> NULL) as Ha0 by (unfold NULL; lia).
    eexists a, _. split; [done|]. right. split.
    + split_and!; cbn; try done. eexists. apply held_new; try done; lia.
    + unfold nic_room. cbn. rewrite lookup_insert_eq. lia.
Qed.

Lemma nic_store_ok w p l bs : nic_owns w (p :: l) -> Z.of_nat (length bs) <= nic_room w p ->
  exists w', nic_store p bs w = Ret w' /\ nic_owns w' (p :: l).
Proof.
  intros Ho Hl. destruct (nic_owns_head _ _ _ Ho) as (C & b & r & H & Er & _ & Hg & _ & Hroom). destruct Ho as (Hm & Ht & _).
  unfold nic_store. rewrite Hg. cbn [res_bind]. rewrite Hroom in Hl. rewrite (proj2 (Z.leb_le _ _) Hl). cbn [lwip_assert].
  eexists. split; [done|]. split_and!; cbn; [by apply mem_ok_mem_write|done|]. exists C. by apply held_mem.
Qed.

Lemma nic_load_ok w p l n : nic_owns w (p :: l) -> 0 <= n <= nic_room w p ->
  exists bs, nic_load p n w = Ret bs /\ Z.of_nat (length bs) = n /\ bytes bs.
Proof.
  intros Ho Hl. destruct (nic_owns_head _ _ _ Ho) as (C & b & r & H & Er & _ & Hg & _ & Hroom). destruct Ho as (Hm & Ht & _).
  unfold nic_load. rewrite Hg. cbn [res_bind]. rewrite Hroom in Hl. rewrite (proj2 (Z.leb_le n _)) by lia. cbn [lwip_assert].
  eexists. split; [done|]. split; [rewrite length_mem_read; lia|by apply bytes_mem_read].
Qed.

Lemma nic_free_ok w p l : nic_owns w (p :: l) -> exists w', nic_free custom_free p w = Ret w' /\ nic_owns w' l.
Proof.
  intros (Hm & Ht & C & H). unfold nic_free. destruct (held_free custom_free _ _ _ _ H) as (n & h' & C' & -> & H' & Em & _).
  cbn [res_bind]. eexists. split; [done|]. split_and!; cbn; [by rewrite Em|done|by exists C'].
Qed.

Lemma copy_needed_spec fuel p ps h : chain_at (pbufs h) p ps -> one_packet ps -> (length ps < fuel)%nat ->
  exists c, copy_needed fuel p h = Ret c.
Proof.
  revert p ps. induction fuel as [|fuel IH]; intros p ps Hc H1 Hf; [lia|]. cbn [copy_needed].
  destruct ps as [|[a b] ps]; [cbn in Hc; subst; by exists false|]. pose proof (pget_chain _ _ _ _ _ Hc) as Hg.
  destruct Hc as (-> & Ha & _ & Hc). rewrite (proj2 (Z.eqb_neq a NULL) Ha), Hg. cbn [res_bind].
  inversion H1 as [|? ? O1 O2]. subst. cbn in O1.
  replace (negb (p_len b =? p_tot_len b) || (next b =? NULL)) with true.
  2:{ destruct (Z.eqb_spec (p_len b) (p_tot_len b)) as [E|]; [|done]. by rewrite O1. }
  cbn [lwip_assert]. destruct (PBUF_NEEDS_COPY b); [by exists true|]. apply (IH _ ps); try done. cbn in Hf. lia.
Qed.

Lemma nic_keep_ok w p l : nic_owns w (p :: l) -> (refs_to l p <= 200)%nat ->
  exists r w', keep_packet custom_free malloc p w = Ret (r, w') /\
    (r = 0 /\ nic_owns w' (p :: l) \/ r <> 0 /\ nic_owns w' (r :: p :: l)).
Proof.
  intros Ho Hl. destruct (nic_owns_head _ _ _ Ho) as (C & b & r & H & Er & Hp & Hg & Hb & _). destruct Ho as (Hm & Ht & _).
  unfold keep_packet. destruct (copy_needed_spec (chain_fuel (nic_heap w)) p ((p, b) :: r) (nic_heap w)) as ([] & ->);
    [apply Hp..|by eapply chain_length_le, Hp| |]; cbn [res_bind].
  - unfold with_malloc. destruct (Hmalloc (nic_mallocs w) (pbufs (nic_heap w))) as [->|[Ha Hfree]].
    + unfold pbuf_clone. rewrite Hg. cbn [res_bind].
      destruct (alloc_ram_null PBUF_LINK (p_tot_len b) (nic_heap w)) as (addrs & ->). cbn [res_bind].
      eexists 0, _. split; [done|]. left. split; [done|]. split_and!; [exact Hm|exact Ht|by exists C].
    + set (a := malloc _ _) in *. destruct (clone_ram_spec custom_free PBUF_LINK p ((p, b) :: r) a [] (nic_heap w))
        as (b1 & m' & -> & Hm' & B1 & B2 & B3 & B4 & B5 & B6 & B7); try done; try apply Hp.
      cbn [res_bind]. assert (a <> NULL) as Ha0 by (unfold NULL; lia). pose proof (tot_bound _ (pk_wf _ _ _ _ Hp)) as Htb.
      eexists a, _. split; [done|]. right. split; [done|]. split_and!; cbn; try done.
      eexists. apply held_new; try done; lia.
  - pose proof (pk_head _ _ _ _ Hp) as Hp0. unfold pbuf_ref. rewrite (proj2 (Z.eqb_neq p NULL) Hp0), Hg. cbn [res_bind].
    rewrite Hb, u8_small by lia.
    rewrite Z.gtb_ltb, (proj2 (Z.ltb_lt 0 _)) by lia. cbn [lwip_assert res_bind].
    eexists p, _. split; [done|]. right. split; [done|]. split_and!; cbn; try done.
    pose proof (pk_wf _ _ _ _ Hp) as (W1 & W2 & W3 & _).
    destruct (held_head (nic_heap w) C l (p :: p :: l) p b (set_ref (Z.of_nat (S (refs_to l p)) + 1) b) (pmem (nic_heap w)) H)
      as (C' & HC & _); try done.
    + intros q [->|[->|Hq]%elem_of_cons]%elem_of_cons Hne; try done. split; [done|]. by rewrite !refs_cons_ne.
    + by exists r.
    + intros _. rewrite !refs_cons_eq. cbn. lia.
    + by exists C'.
Qed.

(** ** Transmission *)
Lemma add_header_spec p b h :
  p <> NULL -> pget h p = Ret b -> 0 <= p_len b <= p_tot_len b -> p_tot_len b < 65536 ->
  pbuf_add_header p SIZEOF_ETH_HDR h = Ret (1, h) \/
  p_tot_len b + 14 < 65536 /\
  pbuf_add_header p SIZEOF_ETH_HDR h =
    Ret (0, pset p (set_data (u64 (payload b - 14)) (p_len b + 14) (p_tot_len b + 14) b) h).
Proof.
  intros Hp Hg Hl Ht. unfold pbuf_add_header, pbuf_add_header_impl, SIZEOF_ETH_HDR.
  rewrite (proj2 (Z.eqb_neq p NULL) Hp), Hg. cbn [negb lwip_assert Z.gtb Z.compare Pos.compare Pos.compare_cont Z.eqb res_bind].
  destruct (Z.ltb_spec (u16 (14 + p_tot_len b)) 14) as [|Hge]; [by left|].
  assert (p_tot_len b + 14 < 65536) as Hb by (unfold u16 in Hge; zdiv). rewrite !u16_small by lia.
  destruct (has_flag _ _); [destruct (_ <? _)|]; try (by left). by right.
Qed.

(** The header is in front of the packet's bytes. *)
Definition eth_hdr (src dst : list Z) (eth_type : Z) : list Z := dst ++ src ++ le_bytes 2 (lwip_htons eth_type).

Lemma write_hdr m a src dst ty :
  addr_ok a 14 -> length src = 6%nat -> length dst = 6%nat -> bytes src -> bytes dst ->
  let m' := mem_write (mem_write (mem_write m (a + 12) (le_bytes 2 ty)) a (take 6 dst)) (a + 6) (take 6 src) in
  mem_read m' a 14 = dst ++ src ++ le_bytes 2 ty /\ unchanged_off a 14 m m'.
Proof.
  intros Ha L1 L2 B1 B2 m'. unfold m'. rewrite !take_ge by lia. pose proof (le_bytes_bytes 2 ty) as B3.
  pose proof (length_le_bytes 2 ty) as L3. unfold addr_ok in Ha. split.
  - change 14 with (6 + (6 + 2)). rewrite !mem_read_split by lia. f_equal; [|f_equal].
    + rewrite mem_read_write_out by (rewrite ?L1; unfold addr_ok; lia).
      apply mem_read_stored; [lia|unfold addr_ok; lia|done].
    + apply mem_read_stored; [lia|unfold addr_ok; lia|done].
    + rewrite mem_read_write_out by (rewrite ?L1; unfold addr_ok; lia).
      rewrite mem_read_write_out by (rewrite ?L2; unfold addr_ok; lia).
      replace (a + 6 + 6) with (a + 12) by lia. apply mem_read_stored; [lia|unfold addr_ok; lia|done].
  - intros y k Hy Hd. rewrite !mem_read_write_out; try done; rewrite ?L1, ?L2, ?L3; unfold addr_ok; lia.
Qed.

Lemma linkoutput_spec w p ps :
  chain_at (pbufs (nic_heap w)) p ps -> p <> NULL -> wf_chain ps -> length (nic_txbuf w) = 1522%nat ->
  exists r tx fs, linkoutput p w = Ret (r, mkNic (nic_heap w) (nic_mallocs w) tx (nic_tx w ++ fs)) /\
    length tx = 1522%nat /\
    (if tot ps <=? TXBUF then r = ERR_OK /\ fs = [chain_data (pmem (nic_heap w)) ps] else r = ERR_BUF /\ fs = []).
Proof.
  intros Hc Hp Hw Ht. unfold linkoutput. pose proof (low_level_output_eq (nic_heap w) p ps (nic_txbuf w) Hc Hp Hw Ht) as E.
  destruct (tot ps <=? TXBUF); [destruct E as (tx & -> & Htx)|rewrite E]; cbn [res_bind option_list];
    eexists _, _, _; by split_and!.
Qed.

Lemma nic_output_ok w p l src dst ty : nic_owns w (p :: l) -> length src = 6%nat -> length dst = 6%nat ->
  exists e w', ethernet_output ETH_HWADDR_LEN p src dst ty w = Ret (e, w') /\ nic_owns w' (p :: l).
Proof.
  intros Ho L1 L2. destruct (nic_owns_head _ _ _ Ho) as (C & b & r & H & Er & Hp & Hg & Hb & _).
  destruct Ho as (Hm & Ht & _). unfold ethernet_output.
  pose proof (pk_wf _ _ _ _ Hp) as (W1 & W2 & W3 & W4). pose proof (tot_nonneg _ W4) as Htn.
  destruct (add_header_spec p b (nic_heap w) (pk_head _ _ _ _ Hp) Hg ltac:(lia) W3) as [->|[Hb2 ->]]; cbn [res_bind Z.eqb negb].
  { eexists _, _. split; [done|]. split_and!; cbn; try done. by exists C. }
  set (b' := set_data _ _ _ b). unfold pget at 1. rewrite (proj2 (Z.eqb_neq p NULL) (pk_head _ _ _ _ Hp)).
  cbn [pbufs pset]. rewrite lookup_insert_eq. cbn [res_of_option res_bind]. cbv zeta.
  change (ETH_HWADDR_LEN =? ETH_HWADDR_LEN) with true. cbn [lwip_assert].
  set (m3 := mem_write _ (payload b' + 6) _).
  destruct (held_head (nic_heap w) C l (p :: l) p b b' m3 H) as (C' & HC & HC2); try done.
  { intros q [->|Hq]%elem_of_cons Hne; [done|]. split; [done|]. by rewrite refs_cons_ne. }
  { by exists r. }
  { cbn. lia. }
  { cbn. lia. }
  { intros _. cbn [p_ref set_data b']. by rewrite refs_cons_eq. }
  destruct (HC2 ltac:(by left)) as [r' Er']. pose proof (hd_packet _ _ _ HC p ltac:(by left)) as HpC.
  destruct (linkoutput_spec (set_nic_heap (set_pmem m3 (pset p b' (nic_heap w))) w) p (C' p)) as (e & tx & fs & -> & Htx & _);
    [apply HpC..|done|].
  eexists _, _. split; [done|]. split_and!; cbn; [by repeat apply mem_ok_mem_write|done|by exists C'].
Qed.

(** One frame: the header in front of the packet's bytes. *)
Lemma frame_out w p b r src dst ty :
  chain_at (pbufs (nic_heap w)) p ((p, b) :: r) -> wf_chain ((p, b) :: r) -> payloads_ok ((p, b) :: r) ->
  0 < p -> p + SIZEOF_STRUCT_PBUF <= payload b - SIZEOF_ETH_HDR -> clear_of (payload b - SIZEOF_ETH_HDR) SIZEOF_ETH_HDR r ->
  has_flag (type_internal b) PBUF_TYPE_FLAG_STRUCT_DATA_CONTIGUOUS = true ->
  p_tot_len b + SIZEOF_ETH_HDR <= TXBUF -> length (nic_txbuf w) = 1522%nat ->
  length src = 6%nat -> length dst = 6%nat -> bytes src -> bytes dst ->
  exists w', ethernet_output ETH_HWADDR_LEN p src dst ty w = Ret (ERR_OK, w') /\
    nic_tx w' = nic_tx w ++ [dst ++ src ++ le_bytes 2 (lwip_htons ty) ++ chain_data (pmem (nic_heap w)) ((p, b) :: r)].
Proof.
  intros Hc Hw (A1 & A2 & A3) Hp Hroom Hcl Hf Ht Htx L1 L2 B1 B2. pose proof (pget_chain _ _ _ _ _ Hc) as Hg.
  pose proof (chain_not_in_tail _ _ _ _ _ Hc) as Hnt. pose proof Hw as (W1 & W2 & W3 & W4). pose proof (tot_nonneg _ W4) as Htn.
  unfold SIZEOF_ETH_HDR, TXBUF, SIZEOF_STRUCT_PBUF in *. change (MEM_ALIGN_SIZE 24) with 24 in *. cbn [snd] in A1.
  unfold addr_ok in A1. assert (p <> NULL) as Hp0 by (unfold NULL; lia).
  assert (pbuf_add_header p 14 (nic_heap w) =
    Ret (0, pset p (set_data (payload b - 14) (p_len b + 14) (p_tot_len b + 14) b) (nic_heap w))) as Eadd.
  { unfold pbuf_add_header, pbuf_add_header_impl. rewrite (proj2 (Z.eqb_neq p NULL) Hp0), Hg.
    cbn [negb lwip_assert Z.gtb Z.compare Pos.compare Pos.compare_cont Z.eqb res_bind].
    unfold SIZEOF_STRUCT_PBUF. change (MEM_ALIGN_SIZE 24) with 24.
    rewrite (u16_small (14 + _)), (u64_small (payload b - 14)), (u64_small (p + 24)), !u16_small, Hf by lia.
    rewrite (proj2 (Z.ltb_ge (14 + p_tot_len b) 14)), (proj2 (Z.ltb_ge (payload b - 14) (p + 24))) by lia. done. }
  set (b' := set_data _ _ _ b) in Eadd. unfold ethernet_output, SIZEOF_ETH_HDR. rewrite Eadd. cbn [res_bind Z.eqb negb].
  unfold pget at 1. rewrite (proj2 (Z.eqb_neq p NULL) Hp0). cbn [pbufs pset]. rewrite lookup_insert_eq. cbn [res_of_option res_bind].
  cbv zeta. cbn [pmem pset]. change (ETH_HWADDR_LEN =? ETH_HWADDR_LEN) with true. cbn [lwip_assert].
  change (payload b') with (payload b - 14).
  destruct (write_hdr (pmem (nic_heap w)) (payload b - 14) src dst (lwip_htons ty)) as [R1 R2]; try done; [unfold addr_ok; lia|].
  set (m3 := mem_write _ (payload b - 14 + 6) _) in *.
  destruct Hc as (_ & _ & Hb & Hc).
  destruct (linkoutput_spec (set_nic_heap (set_pmem m3 (pset p b' (nic_heap w))) w) p ((p, b') :: r)) as (e & tx & fs & -> & _ & Hfs); try done.
  { cbn. rewrite lookup_insert_eq. split_and!; try done. by apply chain_at_insert. }
  { cbn. split_and!; try done; lia. }
  rewrite tot_cons in Hfs. cbn [snd b' set_data p_len] in Hfs. rewrite (proj2 (Z.leb_le _ TXBUF)) in Hfs by (unfold TXBUF; lia).
  destruct Hfs as [-> ->]. eexists. split; [done|]. cbn [nic_tx set_nic_heap nic_heap pmem set_pmem]. do 2 f_equal.
  rewrite !chain_data_cons. change (payload b') with (payload b - 14). change (p_len b') with (p_len b + 14).
  rewrite (Z.add_comm (p_len b) 14), mem_read_split by lia. rewrite R1. replace (payload b - 14 + 14) with (payload b) by lia.
  rewrite (R2 (payload b) (p_len b)) by (unfold addr_ok; lia). rewrite <- !app_assoc. do 4 f_equal.
  apply chain_data_frame. intros c d Hin. apply R2; [by eapply payloads_ok_elem|].
  unfold clear_of in Hcl. rewrite Forall_forall in Hcl. specialize (Hcl _ Hin). cbn in Hcl. lia.
Qed.

(** The link layer of the program. *)
Definition nic_laws (n : netif) (Hn : nif_hwaddr_len n = ETH_HWADDR_LEN) : @LinkLaws nic (nic_link custom_free malloc n).
Proof.
  refine (Build_LinkLaws nic (nic_link custom_free malloc n) nic_owns nic_room _ _ nic_alloc_ok nic_store_ok nic_load_ok
    nic_free_ok nic_keep_ok _).
  - intros w l l' Hp (Hm & Ht & C & H). split_and!; [done|done|]. exists C. by eapply held_perm.
  - intros w p l Ho. destruct (nic_owns_head _ _ _ Ho) as (C & b & r & _ & _ & Hp & _). apply Hp.
  - cbn. rewrite Hn. exact nic_output_ok.
Defined.
End Laws.
