(* ===== verification/EthernetRx.v ===== *)
(** * Receiving Ethernet frames: every frame is consumed *)
From S2P Require Import Prelude NetShim Ip4Addr Link Etharp EtharpInv EtharpOps EtharpSend Ethernet Pbuf PbufChain PbufOps NetGlue PbufClone EthernetInv.

Lemma has_flag_lor x f m : Z.land f m = 0 -> has_flag (Z.lor x f) m = has_flag x m.
Proof. intros H. unfold has_flag. by rewrite Z.land_lor_distr_l, H, Z.lor_0_r. Qed.

(** What the receive path changes of a pbuf it does not own. *)
Record same_links (b b' : pbuf) : Prop := {
  sl_next : next b' = next b;
  sl_type : type_internal b' = type_internal b;
  sl_custom : has_flag (p_flags b') PBUF_FLAG_IS_CUSTOM = has_flag (p_flags b) PBUF_FLAG_IS_CUSTOM;
  sl_ref : p_ref b' = p_ref b;
}.
#[export] Instance same_links_preorder : PreOrder same_links.
Proof. split; [by intros b|]. intros b c d [H1 H2 H3 H4] [K1 K2 K3 K4]. split; congruence. Qed.

Lemma mark_dest_spec dest b : same_links b (mark_dest dest b) /\ payload (mark_dest dest b) = payload b /\
  p_len (mark_dest dest b) = p_len b /\ p_tot_len (mark_dest dest b) = p_tot_len b.
Proof.
  unfold mark_dest. repeat case_match; split_and!; try done; split; try done; cbn [p_flags set_flags];
    by apply has_flag_lor.
Qed.

Section Rx.
Context {F : Frame}.
Variable custom_free : Z -> pheap -> res pheap.
Variable malloc : nat -> gmap Z pbuf -> Z.
Context (Hmalloc : malloc_ok malloc).
Variable bmos : netif.
Context (Hbmos : nif_hwaddr_len bmos = ETH_HWADDR_LEN).
#[local] Instance link_ops : LinkOps nic := nic_link custom_free malloc bmos.
#[local] Instance link_laws : LinkLaws nic := nic_laws custom_free malloc Hmalloc bmos Hbmos.

Variable known : Z -> Prop.
Context (known_null : ~ known 0).
Abbreviation ok := (arp_ok known).

Lemma nic_owns_pset w p l b b' :
  nic_owns w (p :: l) -> pget (nic_heap w) p = Ret b -> same_links b b' -> 0 <= p_len b' ->
  p_tot_len b' - p_len b' = p_tot_len b - p_len b -> p_tot_len b' < 65536 ->
  nic_owns (set_nic_heap (pset p b' (nic_heap w)) w) (p :: l).
Proof.
  intros Ho Hg [S1 S2 S3 S4] Hl Ht Hlt. destruct (nic_owns_head _ _ _ Ho) as (C & b0 & r & H & Er & Hp & Hg0 & Hb & _).
  rewrite Hg in Hg0. injection Hg0 as <-. destruct Ho as (Hm & Htx & _). split_and!; cbn; [done|done|].
  destruct (held_head (nic_heap w) C l (p :: l) p b b' (pmem (nic_heap w)) H) as (C' & HC & _); try done.
  - intros q [->|Hq]%elem_of_cons Hne; [done|]. split; [done|]. by rewrite refs_cons_ne.
  - by exists r.
  - intros _. rewrite S4, Hb. by rewrite refs_cons_eq.
  - by exists C'.
Qed.

Lemma ok_pset st p x b b' :
  ok (p :: x) st -> pget (nic_heap (lk st)) p = Ret b -> same_links b b' -> 0 <= p_len b' ->
  p_tot_len b' - p_len b' = p_tot_len b - p_len b -> p_tot_len b' < 65536 ->
  ok (p :: x) (set_heap (pset p b' (nic_heap (lk st))) st).
Proof. intros H Hg Hs Hl Ht Hlt. eapply arp_ok_lk; [exact H|]. eapply nic_owns_pset; try done. apply (ao_owns _ _ _ H). Qed.

(** The pbuf of a frame. *)
Lemma ok_head st p x : ok (p :: x) st -> exists b, pget (nic_heap (lk st)) p = Ret b /\ p <> NULL /\
  0 <= p_len b <= p_tot_len b /\ p_tot_len b < 65536 /\ nic_room (lk st) p = p_len b.
Proof.
  intros H. destruct (nic_owns_head _ _ _ (ao_owns _ _ _ H)) as (C & b & r & _ & _ & Hp & Hg & _ & Hr).
  exists b. pose proof (pk_wf _ _ _ _ Hp) as (W1 & W2 & W3 & W4). pose proof (tot_nonneg _ W4).
  split_and!; try done; [apply Hp|lia].
Qed.

Lemma free_spec st p x : ok (p :: x) st -> exists w, nic_free custom_free p (lk st) = Ret w /\ ok x (set_lk w st).
Proof.
  intros H. destruct (nic_free_ok custom_free (lk st) p _ (ao_owns _ _ _ H)) as (w & E & Hw).
  exists w. split; [done|]. by eapply arp_ok_lk.
Qed.

(** The layers above, with the state [T]: ip4_input takes a packet that is
    [ready] and returns.  What they keep is a frame for everyone else
    ([keeps]); they may hold other packets afterwards. *)
Context {T : Type}.
Variable keeps : Frame -> T -> Prop.
Abbreviation okF F0 := (@arp_ok nic link_ops (@nic_laws F0 custom_free malloc Hmalloc bmos Hbmos) known).
Variable ip4_input : Z -> Z -> arp nic -> T -> res (arp nic * T).
Variable ready : Z -> memory -> pbuf -> Prop.
Variable N : Z -> option nif.
Definition ip4_takes : Prop := forall F0 p netif b st s x,
  keeps F0 s -> okF F0 (p :: x) st -> is_Some (N netif) -> pget (nic_heap (lk st)) p = Ret b -> ready p (pmem (nic_heap (lk st))) b ->
  exists st' s' x' F', ip4_input p netif st s = Ret (st', s') /\ keeps F' s' /\ okF F' x' st'.
Context (Hip4 : ip4_takes).

(** The pbuf without the Ethernet header. *)
Definition body_of (b b' : pbuf) : Prop :=
  same_links b b' /\ payload b' = u64 (payload b + SIZEOF_ETH_HDR) /\ p_len b' = p_len b - SIZEOF_ETH_HDR /\
  p_tot_len b' = p_tot_len b - SIZEOF_ETH_HDR.

(** The bytes of the frame that decide. *)
Definition frame_type (st : arp nic) (p : Z) : Z :=
  match pbufs (nic_heap (lk st)) !! p with
  | Some b => le_val (drop 12 (mem_read (pmem (nic_heap (lk st))) (payload b) SIZEOF_ETH_HDR))
  | None => 0
  end.
(** What comes after the Ethernet header of the first pbuf. *)
Definition frame_body (st : arp nic) (p n : Z) : list Z :=
  match pbufs (nic_heap (lk st)) !! p with
  | Some b => mem_read (pmem (nic_heap (lk st))) (payload b + SIZEOF_ETH_HDR) n
  | None => []
  end.
Definition is_arp (st : arp nic) (p : Z) : bool :=
  (SIZEOF_ETH_HDR <? nic_room (lk st) p) && (frame_type st p =? lwip_htons ETHTYPE_ARP).

Definition is_ip (st : arp nic) (p : Z) : bool :=
  (SIZEOF_ETH_HDR <? nic_room (lk st) p) && (frame_type st p =? lwip_htons ETHTYPE_IP).
(** The packet in a frame is [ready]. *)
Definition carries_ready (st : arp nic) (p : Z) : Prop :=
  forall b b', pget (nic_heap (lk st)) p = Ret b -> body_of b b' -> ready p (pmem (nic_heap (lk st))) b'.

Lemma ethernet_input_spec n p netif x st s :
  keeps F s -> ok (p :: x) st -> known netif -> N netif = Some n -> if_hwaddr_len n = 6 -> length (if_hwaddr n) = 6%nat ->
  (is_arp st p = true -> SIZEOF_ETH_HDR + SIZEOF_ETHARP_HDR <= nic_room (lk st) p) ->
  (is_ip st p = true -> carries_ready st p) ->
  exists st' s' x' F', ethernet_input custom_free malloc ip4_input bmos N p netif st s = Ret (ERR_OK, st', s') /\
    keeps F' s' /\ okF F' x' st' /\
    (is_arp st p = true -> has_flag (if_flags n) NETIF_FLAG_ETHARP = true ->
     x' = x /\ s' = s /\ F' = F /\ heard n netif (frame_body st p SIZEOF_ETHARP_HDR) (arp_table st) (arp_table st')).
Proof.
  intros Hkeep H Hk HN N1 N2 Hlen Hready. destruct (ok_head _ _ _ H) as (b & Hg & Hp0 & Hl1 & Hl2 & Hr).
  assert (pbufs (nic_heap (lk st)) !! p = Some b) as Hb.
  { by apply pget_lookup in Hg as [_ ?]. }
  unfold ethernet_input. rewrite HN. cbn [res_of_option res_bind]. cbv zeta. rewrite Hg. cbn [res_bind].
  unfold is_arp, is_ip, frame_type, frame_body in *. rewrite Hb in *. rewrite Hr in *.
  destruct (Z.leb_spec (p_len b) SIZEOF_ETH_HDR) as [Hs|Hs].
  { destruct (free_spec st p x H) as (w & -> & Hw). cbn [res_bind]. exists (set_lk w st), s, x, F.
    do 3 (split; [done|]). rewrite (proj2 (Z.ltb_ge _ _) Hs). done. }
  rewrite (proj2 (Z.ltb_lt _ _) Hs) in *. cbn [andb] in *.
  unfold nic_load. rewrite Hg. cbn [res_bind]. rewrite (proj2 (Z.leb_le SIZEOF_ETH_HDR (p_len b))) by lia. cbn [lwip_assert res_bind].
  set (hdr := mem_read _ _ SIZEOF_ETH_HDR) in *.
  set (b1 := mark_dest _ _). assert (same_links b b1 /\ payload b1 = payload b /\ p_len b1 = p_len b /\ p_tot_len b1 = p_tot_len b) as (S1 & S2 & S3 & S4).
  { unfold b1. destruct (mark_dest_spec (take 6 hdr) (if if_idx b =? NETIF_NO_INDEX then set_if_idx (netif_get_index n) b else b))
      as (Q1 & Q2 & Q3 & Q4). rewrite Q2, Q3, Q4. split; [etrans; [|exact Q1]|]; destruct (if_idx b =? NETIF_NO_INDEX); by repeat split. }
  assert (ok (p :: x) (set_heap (pset p b1 (nic_heap (lk st))) st)) as H1 by (apply (ok_pset st p x b b1); (done || lia)).
  set (st1 := set_heap _ st) in *.
  assert (exists st' s' x' F', (let* w := nic_free custom_free p (lk st1) in Ret (ERR_OK, set_lk w st1, s)) = Ret (ERR_OK, st', s') /\
    keeps F' s' /\ okF F' x' st') as Hfree.
  { destruct (free_spec st1 p x H1) as (w & -> & Hw). by exists (set_lk w st1), s, x, F. }
  assert (pget (nic_heap (lk st1)) p = Ret b1) as Hg1 by (unfold st1; by apply pget_pset).
  pose proof (remove_header_gen p SIZEOF_ETH_HDR b1 (nic_heap (lk st1)) Hg1 ltac:(unfold SIZEOF_ETH_HDR in *; lia) ltac:(lia)) as Erm.
  change SIZEOF_ETH_HDR with 14 in Erm at 2 3 4. rewrite S2, S3, S4 in Erm.
  set (b2 := set_data _ _ _ b1) in Erm.
  assert (ok (p :: x) (set_heap (pset p b2 (nic_heap (lk st1))) st1)) as H2.
  { apply (ok_pset st1 p x b1 b2); try done; cbn [b2 set_data p_len p_tot_len]; try (unfold SIZEOF_ETH_HDR in Hs; lia). }
  destruct (le_val (drop 12 hdr) =? lwip_htons ETHTYPE_IP) eqn:Eip.
  { specialize (Hready eq_refl b b2 Hg). apply Z.eqb_eq in Eip. rewrite Eip. change (lwip_htons ETHTYPE_IP =? lwip_htons ETHTYPE_ARP) with false.
    destruct (has_flag _ _); cbn [negb].
    - rewrite Erm. cbn [res_bind Z.eqb negb]. destruct (Hip4 F p netif b2 _ s x Hkeep H2 ltac:(by exists n)) as (st' & s' & x' & F' & -> & H3).
      { by apply pget_pset. }
      { apply Hready. split; [|by split_and!]. etrans; [exact S1|done]. }
      cbn [res_bind].
      exists st', s', x', F'. split_and!; try done; apply H3.
    - destruct Hfree as (st' & s' & x' & F' & E & H3). exists st', s', x', F'. split_and!; try done; apply H3. }
  destruct (le_val (drop 12 hdr) =? lwip_htons ETHTYPE_ARP) eqn:Earp.
  - destruct (has_flag _ _); cbn [negb].
    + rewrite Erm. cbn [res_bind Z.eqb negb]. specialize (Hlen eq_refl).
      destruct (input_spec known known_null N n x _ netif p H2 Hk HN N1 N2) as (hd & st' & El & E & H3 & Hh).
      { cbn [room link_laws nic_laws]. unfold nic_room. cbn. rewrite lookup_insert_eq. cbn [b2 set_data p_len].
        unfold SIZEOF_ETH_HDR, SIZEOF_ETHARP_HDR in *. lia. }
      unfold link_ops in E. rewrite E. cbn [res_bind]. exists st', s, x, F. do 3 (split; [done|]). intros _ _. do 3 (split; [done|]).
      assert (hd = mem_read (pmem (nic_heap (lk st))) (payload b + SIZEOF_ETH_HDR) SIZEOF_ETHARP_HDR) as <-; [|done].
      cbn [lk_load link_ops nic_link] in El. unfold nic_load, pget in El. rewrite (proj2 (Z.eqb_neq p NULL) Hp0) in El.
      cbn [nic_heap lk st1 set_heap set_lk set_nic_heap pbufs pset pmem] in El. rewrite lookup_insert_eq in El.
      cbn [res_of_option res_bind b2 set_data p_len payload] in El.
      rewrite (proj2 (Z.leb_le SIZEOF_ETHARP_HDR (p_len b - 14))) in El by (unfold SIZEOF_ETH_HDR, SIZEOF_ETHARP_HDR in *; lia).
      cbn [lwip_assert] in El. injection El as <-. apply mem_read_wrap.
    + destruct Hfree as (st' & s' & x' & F' & E & H3). exists st', s', x', F'. split_and!; try done; apply H3.
  - destruct Hfree as (st' & s' & x' & F' & E & H3). exists st', s', x', F'. split_and!; try done; apply H3.
Qed.
End Rx.
