(* ===== verification/EtharpTheorems.v ===== *)
(** * The ARP cache: its contract

    Whatever the order of its operations, the module never fails and its table
    stays well formed; addresses are learned, used, aged and recycled as the
    protocol asks. *)
From S2P Require Import Prelude NetShim Ip4Addr Link Etharp EtharpInv EtharpOps EtharpSend Ethernet Pbuf PbufChain PbufOps NetGlue PbufClone EthernetInv.

Section Contract.
Context {W : Type} {L : LinkOps W} {LL : LinkLaws W}.
Variable known : Z -> Prop.
Context (known_null : ~ known 0).
Implicit Types (N : Z -> option nif) (st : arp W).
Abbreviation ok := (arp_ok known).

(** ** Runs *)
Inductive arp_op :=
  | OTmr
  | OCleanup (netif : Z)
  | OQuery (netif ip q : Z)
  | OOutput (netif q ip : Z)
  | OInput (p netif : Z)
  | OFind (netif ip : Z).

Definition arp_exec N (op : arp_op) st : res (arp W) :=
  match op with
  | OTmr => etharp_tmr N st
  | OCleanup netif => etharp_cleanup_netif netif st
  | OQuery netif ip q => let* (_, st) := etharp_query N netif ip q st in Ret st
  | OOutput netif q ip => let* (_, st) := etharp_output N netif q ip st in Ret st
  | OInput p netif => etharp_input N p netif st
  | OFind netif ip => let* (_, _, st) := etharp_find_addr netif ip st in Ret st
  end.

(** The references [x] of the caller allow the call and are [y] after it: a
    packet given to etharp_input is consumed and holds a whole header; a packet
    to send has fewer than 150 other references. *)
Definition may_call (op : arp_op) (x : list Z) st (y : list Z) : Prop :=
  match op with
  | OTmr | OCleanup _ => y = x
  | OQuery netif _ q => known netif /\ y = x /\
      (q = 0 \/ q <> 0 /\ exists r, x = q :: r /\ (count_occ Z.eq_dec r q <= 150)%nat)
  | OOutput netif q _ => known netif /\ y = x /\ exists r, x = q :: r /\ (count_occ Z.eq_dec r q <= 150)%nat
  | OInput p netif => known netif /\ x = p :: y /\ SIZEOF_ETHARP_HDR <= room (lk st) p
  | OFind netif _ => known netif /\ y = x
  end.

Inductive arp_reach : list Z -> arp W -> Prop :=
  | reach_boot x w : owns w x -> arp_reach x (arp_boot w)
  | reach_others x x' st w : arp_reach x st -> owns w (x' ++ queue_refs (arp_table st)) -> arp_reach x' (set_lk w st)
  | reach_call N op x st y st' : arp_reach x st -> cfg_ok known N -> may_call op x st y ->
      arp_exec N op st = Ret st' -> arp_reach y st'.

Lemma boot_ok x w : owns w x -> ok x (arp_boot w).
Proof.
  intros Ho. assert (forall i e, arp_table (arp_boot w) !! i = Some e -> e = zero_entry) as Hz.
  { intros i e H. by apply lookup_replicate in H as [-> _]. }
  split; cbn [arp_table arp_boot etharp_cached_entry lk]; try done.
  - intros i e ->%Hz. by split.
  - intros i j e f ->%Hz _ Hb. by destruct Hb.
  - cbn. by rewrite app_nil_r.
Qed.

Lemma find_addr_spec x st netif ip : ok x st -> netif <> 0 ->
  (exists i e, arp_table st !! i = Some e /\ is_stable (e_state e) = true /\ e_ipaddr e = ip /\ e_netif e = netif /\
     etharp_find_addr netif ip st = Ret (Z.of_nat i, Some (e_ethaddr e, ip), st)) \/
  Forall (fun e => is_stable (e_state e) = true -> ~ (e_ipaddr e = ip /\ e_netif e = netif)) (arp_table st) /\
  etharp_find_addr netif ip st = Ret (-1, None, st).
Proof.
  intros H Hn. unfold etharp_find_addr.
  destruct (find_entry_spec known x st ip ETHARP_FLAG_FIND_ONLY netif H Hn)
    as [(i & e & Hi & Hb & Ei & En & ->)|(Hnone & [[_ ->]|(Hfo & _)])]; [| |done]; cbn [res_bind].
  - rewrite Z.geb_leb, (proj2 (Z.leb_le 0 (Z.of_nat i))) by lia. rewrite (entry_some st i e Hi). cbn [res_bind].
    destruct (is_stable (e_state e)) eqn:Es; [left; exists i, e; by rewrite <- Ei|]. right. split; [|done].
    apply Forall_lookup. intros j f Hj Hs [K1 K2]. assert (busy f) as Hbf by (intros E; by rewrite E in Hs).
    assert (i = j) as <- by (eapply (ao_uniq _ _ _ H i j e f); try done; split; congruence). congruence.
  - right. split; [|done]. eapply Forall_impl; [exact Hnone|]. cbn. intros e He Hs. apply He. intros E. by rewrite E in Hs.
Qed.

Lemma exec_ok N op x st y : ok x st -> cfg_ok known N -> may_call op x st y ->
  exists st', arp_exec N op st = Ret st' /\ ok y st'.
Proof.
  intros H HN. destruct op as [|netif|netif ip q|netif q ip|p netif|netif ip]; cbn [may_call arp_exec].
  - intros ->. destruct (tmr_spec known N x st H HN) as (w & E & H1). eauto.
  - intros ->. destruct (cleanup_spec known netif x st H) as (w & E & H1). eauto.
  - intros (Hk & -> & Hq). destruct (HN netif Hk) as (n & En & N1 & N2). destruct (unicast ip n) eqn:Eu.
    2:{ rewrite (query_not_unicast N n st netif ip q En Eu). eauto. }
    destruct Hq as [->|(Hq & r & -> & Hr)].
    + destruct (query_null_spec known known_null N n x st netif ip H Hk En N1 N2 Eu) as (r & st' & i & -> & H1 & _). eauto.
    + destruct (query_spec known known_null N n r st netif ip q H Hr Hq Hk En N1 N2 Eu) as (r' & st' & i & -> & H1 & _). eauto.
  - intros (Hk & -> & r & -> & Hr). destruct (HN netif Hk) as (n & En & N1 & N2).
    destruct (output_spec known known_null N n r st netif ip q H Hr Hk En N1 N2) as (r' & st' & -> & H1 & _). eauto.
  - intros (Hk & -> & Hr). destruct (HN netif Hk) as (n & En & N1 & N2).
    destruct (input_spec known known_null N n y st netif p H Hk En N1 N2 Hr) as (hdr & st' & _ & E & H1 & _). eauto.
  - intros (Hk & ->). assert (netif <> 0) as Hn0 by (intros ->; done).
    destruct (find_addr_spec x st netif ip H Hn0) as [(i & e & _ & _ & _ & _ & ->)|[_ ->]]; eauto.
Qed.

Lemma reach_ok x st : arp_reach x st -> ok x st.
Proof.
  induction 1 as [x w Ho|x x' st w _ IH Ho|N op x st y st' _ IH HN Hm E].
  - by apply boot_ok.
  - by eapply arp_ok_lk.
  - destruct (exec_ok N op x st y IH HN Hm) as (st'' & E' & H). congruence.
Qed.

(** C10. The ARP module is safe in every reachable state: after any sequence of
    timer ticks, clean-ups, queries, packets sent and messages received,
    interleaved with other code that uses packets, every operation that
    [may_call] allows returns (no packet is used after it was freed or freed
    twice, no table index is out of range), and the table keeps its
    invariant: one entry per address and interface, packets queued only on
    pending entries and all of them held, ages below their limits.
    [may_call] allows every operation on a known interface (its hardware
    address has 6 bytes), if the caller holds the packet, a message for
    etharp_input has the 28 bytes of an ARP header in its first buffer, and a
    packet to send has at most 150 other references.  The packets are those
    of any link layer with the laws [LinkLaws], which say that a packet can
    be kept or copied for later: the assertion in etharp_query against queues
    of packets is thus assumed, not shown. *)
Theorem etharp_safe N op x st y :
  arp_reach x st -> cfg_ok known N -> may_call op x st y ->
  exists st', arp_exec N op st = Ret st' /\ ok y st'.
Proof. intros H. apply exec_ok. by apply reach_ok. Qed.

(** ** Resolution *)

(** A destination is looked up under its next hop. *)
Definition routes_to (n : nif) (ip d : Z) : Prop :=
  ip4_addr_isbroadcast ip n = false /\ ip4_addr_ismulticast ip = false /\ next_hop n ip = Some d.

Lemma stable_sends N n x st netif q ip d i e :
  ok (q :: x) st -> (count_occ Z.eq_dec x q <= 150)%nat -> known netif -> N netif = Some n ->
  if_hwaddr_len n = 6 -> length (if_hwaddr n) = 6%nat -> routes_to n ip d ->
  arp_table st !! i = Some e -> is_stable (e_state e) = true -> e_ipaddr e = d -> e_netif e = netif ->
  exists r st', etharp_output N netif q ip st = Ret (r, st') /\ ok (q :: x) st' /\ sent n q (e_ethaddr e) r st'.
Proof.
  intros H Hc Hk HN N1 N2 (R1 & R2 & R3) Hi Hs Ei En.
  destruct (output_spec known known_null N n x st netif ip q H Hc Hk HN N1 N2) as (r & st' & E & H1 & Hr).
  unfold routed in Hr. rewrite R1, R2, R3 in Hr. exists r, st'. split; [done|]. split; [done|].
  assert (forall f, is_stable (e_state f) = true -> busy f) as Hsb by (intros f Hf E'; by rewrite E' in Hf).
  destruct Hr as [(j & f & f' & Hj & Hf & F1 & F2 & Hsn & _)|[Hnone _]].
  - assert (i = j) as <- by (eapply (ao_uniq _ _ _ H i j e f); eauto; split; congruence). congruence.
  - rewrite Forall_lookup in Hnone. by destruct (Hnone i e Hi Hs).
Qed.

(** C11. An address is learned and then used: when a message for this interface
    arrives from a host with a unicast address, etharp_input consumes it, and
    from then on a packet routed to that host is handed to the link with the
    hardware address the message carried, whatever the other packets in the
    system did in the meantime. *)
Theorem etharp_resolves N n x st p netif hdr :
  ok (p :: x) st -> known netif -> N netif = Some n -> if_hwaddr_len n = 6 -> length (if_hwaddr n) = 6%nat ->
  SIZEOF_ETHARP_HDR <= room (lk st) p -> lk_load p SIZEOF_ETHARP_HDR (lk st) = Ret hdr ->
  arp_ipv4 hdr = true -> arp_for_us n hdr = true -> unicast (hdr_sipaddr hdr) n = true ->
  exists st1, etharp_input N p netif st = Ret st1 /\ ok x st1 /\
    forall w q y ip, owns w (q :: y ++ queue_refs (arp_table st1)) -> (count_occ Z.eq_dec y q <= 150)%nat ->
      routes_to n ip (hdr_sipaddr hdr) ->
      exists r st2, etharp_output N netif q ip (set_lk w st1) = Ret (r, st2) /\ sent n q (hdr_shwaddr hdr) r st2.
Proof.
  intros H Hk HN N1 N2 Hroom El Hv Hu Huc.
  destruct (input_spec known known_null N n x st netif p H Hk HN N1 N2 Hroom) as (hdr' & st1 & El' & E & H1 & Hh).
  rewrite El in El'. injection El' as <-. exists st1. split; [done|]. split; [done|].
  destruct Hh as [[_ Hn]|(_ & _ & i & _ & Hnow)]; [by rewrite Hn in Hu|].
  intros w q y ip Hw Hc Hrt.
  assert (ok (q :: y) (set_lk w st1)) as H2 by by eapply arp_ok_lk.
  destruct (stable_sends N n y (set_lk w st1) netif q ip (hdr_sipaddr hdr) i (learned (hdr_sipaddr hdr) netif (hdr_shwaddr hdr)))
    as (r & st2 & E2 & _ & Hs); try done; [by eapply entry_now_lookup|]. by exists r, st2.
Qed.

(** A packet that waits for an address goes out when the address is learned:
    etharp_update_arp_entry for the address of an entry with a queued packet
    hands that packet, and not another, to the link with the new hardware
    address, gives up its reference, and leaves the entry stable and empty of
    packets; the other entries do not change. *)
Theorem etharp_flushes_queue N n x st netif i e mac flags :
  ok x st -> N netif = Some n -> if_hwaddr_len n = 6 -> length (if_hwaddr n) = 6%nat -> known netif ->
  length mac = 6%nat -> arp_table st !! i = Some e -> e_q e <> 0 -> e_netif e = netif -> unicast (e_ipaddr e) n = true ->
  exists r w1 w2, lk_output (e_q e) (if_hwaddr n) mac ETHTYPE_IP (lk st) = Ret (r, w1) /\ lk_free (e_q e) w1 = Ret w2 /\
    etharp_update_arp_entry N netif (e_ipaddr e) mac flags st =
      Ret (ERR_OK, mkArp (<[i := learned (e_ipaddr e) netif mac]> (arp_table st)) (etharp_cached_entry st) w2).
Proof.
  intros H HN N1 N2 Hk Hm Hi Hq En Hu.
  assert (busy e) as Hb by (unfold busy; by rewrite (eo_queue _ _ (ao_entry _ _ _ H i e Hi) Hq)).
  destruct (update_spec known known_null N n x st netif (e_ipaddr e) mac flags H HN N1 N2 Hk Hm)
    as [[Hf _]|(_ & [(Hn & _)|(j & w & Hs & E & _ & Hfl)])]; [congruence| |].
  - rewrite Forall_lookup in Hn. by destruct (Hn i e Hi Hb).
  - assert (j = i) as ->.
    { destruct Hs as [(f & Hj & Hbf & F1 & F2)|[Hn _]].
      - eapply (ao_uniq _ _ _ H j i f e); try done. split; congruence.
      - rewrite Forall_lookup in Hn. by destruct (Hn i e Hi Hb). }
    specialize (Hfl e Hi Hb eq_refl En). unfold flushed in Hfl. rewrite (proj2 (Z.eqb_neq _ _) Hq) in Hfl.
    destruct Hfl as (r & w1 & Eo & Ef). by exists r, w1, w.
Qed.

(** ** Ageing *)
Fixpoint etharp_ticks (Ns : list (Z -> option nif)) st : res (arp W) :=
  match Ns with
  | [] => Ret st
  | N :: r => let* st := etharp_tmr N st in etharp_ticks r st
  end.

Lemma ticks_spec Ns x st : ok x st -> Forall (cfg_ok known) Ns ->
  exists w, let st' := mkArp (Nat.iter (length Ns) tick <$> arp_table st) (etharp_cached_entry st) w in
    etharp_ticks Ns st = Ret st' /\ ok x st'.
Proof.
  intros H HN. revert st H. induction HN as [|N Ns HN _ IH]; intros st H; cbn [etharp_ticks length].
  { exists (lk st). rewrite list_fmap_id. by destruct st. }
  destruct (tmr_spec known N x st H HN) as (w & -> & H1). cbn [res_bind].
  destruct (IH _ H1) as (w' & E & H2). exists w'. cbn [arp_table etharp_cached_entry] in E, H2. rewrite <- list_fmap_compose in E, H2.
  assert ((Nat.iter (length Ns) tick ∘ tick) <$> arp_table st = Nat.iter (S (length Ns)) tick <$> arp_table st) as Ef.
  { apply list_fmap_ext. intros i e _. cbn [compose]. by rewrite Nat.iter_succ_r. }
  rewrite Ef in E, H2. by split.
Qed.

(** The entry an entry becomes after [k] ticks. *)
Definition aged (e : etharp_entry) (k : nat) (f : etharp_entry) : Prop :=
  e_state f = ETHARP_STATE_EMPTY \/
  e_ctime f = e_ctime e + Z.of_nat k /\ e_ctime f < ARP_MAXAGE /\
  (e_state f = ETHARP_STATE_PENDING -> e_ctime f < ARP_MAXPENDING).

Lemma tick_aged e k f : aged e k f -> aged e (S k) (tick f).
Proof.
  intros [He|(H1 & H2 & H3)]; unfold tick; [rewrite He; by left|]. destruct (is_empty (e_state f)) eqn:Es; [left; by destruct (e_state f)|].
  cbn zeta. set (f1 := set_e_ctime _ f). change (e_state f1) with (e_state f). change (e_ctime f1) with (e_ctime f + 1).
  destruct (_ || _) eqn:Eo; [by left|]. apply orb_false_iff in Eo as [E1 E2].
  rewrite !Z.geb_leb in *. apply Z.leb_gt in E1.
  right. assert (e_ctime f + 1 = e_ctime e + Z.of_nat (S k)) as Ec by lia. unfold f1, set_e_ctime in *.
  destruct (e_state f) eqn:Ef; [done| | | |]; cbn [e_ctime e_state set_e_state]; split_and!; try done.
  intros _. cbn [is_pending andb] in E2. by apply Z.leb_gt in E2.
Qed.

Lemma iter_aged e k : entry_ok known e -> aged e k (Nat.iter k tick e).
Proof.
  intros [_ _ _ Ha Hp]. induction k as [|k IH]; [|by apply tick_aged]. change (Nat.iter 0 tick e) with e.
  destruct (decide (e_state e = ETHARP_STATE_EMPTY)) as [E|E]; [by left|]. right. specialize (Ha E).
  split_and!; [lia|lia|done].
Qed.

Lemma iter_empty e k : e_state e = ETHARP_STATE_EMPTY -> e_state (Nat.iter k tick e) = ETHARP_STATE_EMPTY.
Proof.
  intros E. induction k as [|k IH]; [done|].
  change (Nat.iter (S k) tick e) with (tick (Nat.iter k tick e)). unfold tick at 1. by rewrite IH.
Qed.

(** A stable entry keeps its addresses while it is young enough. *)
Lemma tick_stable f : is_stable (e_state f) = true -> e_ctime f + 1 < ARP_MAXAGE ->
  is_stable (e_state (tick f)) = true /\ same_key (tick f) f /\ e_ethaddr (tick f) = e_ethaddr f /\ e_ctime (tick f) = e_ctime f + 1.
Proof.
  intros Hs Hc. unfold tick. destruct (e_state f) eqn:Es; try done; cbn [is_empty]; cbn zeta;
    change (e_ctime (set_e_ctime (e_ctime f + 1) f)) with (e_ctime f + 1);
    change (e_state (set_e_ctime (e_ctime f + 1) f)) with (e_state f); rewrite Es; cbn [is_pending andb];
    rewrite Z.geb_leb, (proj2 (Z.leb_gt _ _) Hc); cbn [orb]; split_and!; try done; cbn; by rewrite ?Es.
Qed.
Lemma iter_stable e k : is_stable (e_state e) = true -> e_ctime e + Z.of_nat k < ARP_MAXAGE ->
  let f := Nat.iter k tick e in
  is_stable (e_state f) = true /\ same_key f e /\ e_ethaddr f = e_ethaddr e /\ e_ctime f = e_ctime e + Z.of_nat k.
Proof.
  intros Hs. induction k as [|k IH]; intros Hk; cbn zeta;
    [change (Nat.iter 0 tick e) with e; split_and!; try done; lia|change (Nat.iter (S k) tick e) with (tick (Nat.iter k tick e))].
  destruct IH as (I1 & [I2 I2'] & I3 & I4); [lia|]. destruct (tick_stable _ I1) as (T1 & [T2 T2'] & T3 & T4); [lia|].
  split_and!; [done|split; congruence|congruence|lia].
Qed.

(** C12. Entries age out: over [k] timer ticks in which nothing is learned, the
    module returns every time; a stable entry keeps its addresses until its
    age reaches 300 seconds; after five ticks no entry is pending any more,
    and after 300 ticks every entry is empty and no packet is held. *)
Theorem etharp_expires Ns x st :
  ok x st -> Forall (cfg_ok known) Ns ->
  exists st', etharp_ticks Ns st = Ret st' /\ ok x st' /\
    (forall i e, arp_table st !! i = Some e -> is_stable (e_state e) = true ->
       e_ctime e + Z.of_nat (length Ns) < ARP_MAXAGE ->
       exists f, arp_table st' !! i = Some f /\ is_stable (e_state f) = true /\ same_key f e /\ e_ethaddr f = e_ethaddr e) /\
    ((5 <= length Ns)%nat -> Forall (fun e => e_state e <> ETHARP_STATE_PENDING) (arp_table st')) /\
    ((300 <= length Ns)%nat -> Forall (fun e => e_state e = ETHARP_STATE_EMPTY) (arp_table st') /\
       queue_refs (arp_table st') = []).
Proof.
  intros H HN. destruct (ticks_spec Ns x st H HN) as (w & E & H1). eexists. split; [exact E|]. split; [exact H1|].
  cbn [arp_table] in *.
  assert (forall i f, (Nat.iter (length Ns) tick <$> arp_table st) !! i = Some f ->
    exists e, arp_table st !! i = Some e /\ entry_ok known e /\ aged e (length Ns) f) as Hag.
  { intros i f (e & -> & Hi)%list_lookup_fmap_Some. exists e. pose proof (ao_entry _ _ _ H i e Hi). split_and!; try done.
    by apply iter_aged. }
  assert (forall e, entry_ok known e -> e_state e <> ETHARP_STATE_EMPTY -> 0 <= e_ctime e) as Hpos.
  { intros e He Hb. by apply (eo_age _ _ He Hb). }
  assert ((300 <= length Ns)%nat -> Forall (fun e => e_state e = ETHARP_STATE_EMPTY) (Nat.iter (length Ns) tick <$> arp_table st)) as Hall.
  { intros Hk. apply Forall_lookup. intros i f Hf. destruct (Hag i f Hf) as (e & Hi & He & [|(A1 & A2 & _)]); [done|].
    destruct (decide (e_state e = ETHARP_STATE_EMPTY)) as [Ee|Ee].
    - apply list_lookup_fmap_Some in Hf as (e' & -> & Hi'). rewrite Hi in Hi'. injection Hi' as <-.
      by apply iter_empty.
    - specialize (Hpos e He Ee). unfold ARP_MAXAGE in *. lia. }
  split_and!.
  - intros i e Hi Hs Ha. destruct (iter_stable e (length Ns) Hs Ha) as (I1 & I2 & I3 & _).
    eexists. split; [by rewrite list_lookup_fmap, Hi|]. by split_and!.
  - intros Hk. apply Forall_lookup. intros i f Hf Hp. destruct (Hag i f Hf) as (e & Hi & He & [A|(A1 & A2 & A3)]); [congruence|].
    specialize (A3 Hp). destruct (decide (e_state e = ETHARP_STATE_EMPTY)) as [Ee|Ee].
    + apply list_lookup_fmap_Some in Hf as (e' & -> & Hi'). rewrite Hi in Hi'. injection Hi' as <-.
      rewrite (iter_empty e) in Hp by done. done.
    + specialize (Hpos e He Ee). unfold ARP_MAXPENDING in *. lia.
  - intros Hk. split; [by apply Hall|]. specialize (Hall Hk). clear E.
    assert (forall t, Forall (entry_ok known) t -> Forall (fun e => e_state e = ETHARP_STATE_EMPTY) t -> queue_refs t = []) as Hq.
    { intros t Ht. unfold queue_refs. induction Ht as [|e t He _ IH]; intros Ha; [done|]. inversion Ha as [|? ? A1 A2]. subst.
      cbn. rewrite IH by done. unfold qref. destruct (Z.eqb_spec (e_q e) 0) as [|Hq]; [done|].
      apply (eo_queue _ _ He) in Hq. congruence. }
    apply Hq; [|done]. apply Forall_lookup. apply (ao_entry _ _ _ H1).
Qed.

(** ** Recycling *)

(** The cache makes room by a fixed policy: etharp_find_entry for an address
    returns its entry when there is one; otherwise it fails, changing nothing,
    only when asked not to create one (or not to evict and the table is full),
    and else empties and returns the first free entry, or when all ten are
    used the oldest stable one, failing that the oldest pending one without a
    packet, and only then the oldest one with a packet, which it gives up. *)
Theorem etharp_find_entry_policy x st ip flags netif :
  ok x st -> netif <> 0 -> found known st ip flags netif x (etharp_find_entry (Some ip) flags netif st).
Proof. apply find_entry_spec. Qed.

(** ** Sending *)

(** Every packet given to etharp_output has one of the fates IP asks for: to
    a broadcast or multicast address it is sent at once with the hardware
    address that stands for it; with no route it is refused; to a host whose
    next hop is known it is sent there (asking again for an address close to
    its end); otherwise exactly one entry for the next hop is created or
    reused and the packet waits there, or ERR_MEM is returned. *)
Theorem etharp_output_routes N n x st netif ip q :
  ok (q :: x) st -> (count_occ Z.eq_dec x q <= 150)%nat -> known netif -> N netif = Some n ->
  if_hwaddr_len n = 6 -> length (if_hwaddr n) = 6%nat ->
  exists r st', etharp_output N netif q ip st = Ret (r, st') /\ ok (q :: x) st' /\ routed n netif q ip st r st'.
Proof. by apply output_spec. Qed.
End Contract.

(** ** A concrete interface and packets *)
Section Demo.
(** malloc hands out blocks of 4096 bytes. *)
Definition demo_malloc (k : nat) (m : gmap Z pbuf) : Z :=
  let a := 65536 + 4096 * Z.of_nat k in
  if (a <? 1099511627776) && bool_decide (m !! a = None) then a else NULL.
Definition demo_custom (p : Z) (h : pheap) : res pheap := Undef.
Definition demo_bmos : netif := bmos_netif_init 0x525400123456.

Lemma demo_malloc_ok : malloc_ok demo_malloc.
Proof.
  intros k m. unfold demo_malloc. cbv zeta. destruct (Z.ltb_spec (65536 + 4096 * Z.of_nat k) 1099511627776); cbn [andb]; [|by left].
  case_bool_decide; [right|by left]. split; [lia|done].
Qed.
#[local] Existing Instance no_frame.
#[local] Instance demo_ops : LinkOps nic := nic_link demo_custom demo_malloc demo_bmos.
#[local] Instance demo_laws : LinkLaws nic := nic_laws demo_custom demo_malloc demo_malloc_ok demo_bmos eq_refl.

(** The interface 10.0.2.15/24 behind the gateway 10.0.2.2, at address 7. *)
Definition demo_known (a : Z) : Prop := a = 7.
Definition ip4 (a b c d : Z) : Z := le_val [a; b; c; d].
Definition demo_nif : nif :=
  mkNif (ip4 10 0 2 15) (ip4 255 255 255 0) (ip4 10 0 2 2) 1500 [0x52; 0x54; 0; 0x12; 0x34; 0x56] 6 14 0.
Definition demo_N (a : Z) : option nif := if a =? 7 then Some demo_nif else None.
Lemma demo_cfg : cfg_ok demo_known demo_N.
Proof. intros a ->. by exists demo_nif. Qed.

(** A reply of 10.0.2.2 in the pbuf at 4096, and a packet at 8192. *)
Definition gw_mac : list Z := [0x52; 0x55; 10; 0; 2; 2].
Definition demo_reply : list Z :=
  etharp_hdr ARP_REPLY gw_mac (ip4 10 0 2 2) (if_hwaddr demo_nif) (if_ip demo_nif).
Definition demo_rx : pbuf := mkPbuf NULL 4160 28 28 0x80 0 1 1.
Definition demo_out : pbuf := mkPbuf NULL 8256 40 40 0x80 0 1 0.
Definition demo_mem : memory := mem_write ∅ 4160 demo_reply.
Definition demo_link : nic :=
  mkNic (mkPheap {[ 4096 := demo_rx; 8192 := demo_out ]} demo_mem) 0 (replicate 1522 0) [].

Lemma demo_packet p b l : pbufs (nic_heap demo_link) !! p = Some b -> (p = 4096 \/ p = 8192) -> refs_to l p = 1%nat ->
  packet (nic_heap demo_link) p [(p, b)] (refs_to l p).
Proof.
  intros Hb Hp ->. assert (b = demo_rx \/ b = demo_out) as Hbb.
  { destruct Hp as [-> | ->]; vm_compute in Hb; injection Hb as <-; tauto. }
  split.
  - cbn. unfold NULL. split_and!; try done; [lia|]. destruct Hbb as [-> | ->]; done.
  - unfold NULL. lia.
  - destruct Hbb as [-> | ->]; cbn; lia.
  - constructor; [|done]. destruct Hbb as [-> | ->]; done.
  - constructor; [|done]. unfold plain. destruct Hbb as [-> | ->]; cbn; split_and!; (done || lia).
  - exists b, []. destruct Hbb as [-> | ->]; by split_and!.
Qed.

Lemma demo_owns : owns demo_link [4096; 8192].
Proof.
  cbn [owns demo_laws nic_laws]. split_and!; [apply mem_ok_mem_write, mem_ok_empty|apply length_replicate|].
  exists (fun p => if p =? 4096 then [(4096, demo_rx)] else [(8192, demo_out)]). split.
  - intros p [-> |[-> |[]%not_elem_of_nil]%elem_of_cons]%elem_of_cons; cbn [Z.eqb Pos.eqb];
      (apply demo_packet; [done|tauto|done]).
  - intros p q x [-> |[-> |[]%not_elem_of_nil]%elem_of_cons]%elem_of_cons
      [-> |[-> |[]%not_elem_of_nil]%elem_of_cons]%elem_of_cons; cbn [Z.eqb Pos.eqb]; try done;
      intros _ ->%list_elem_of_singleton H%list_elem_of_singleton; done.
  - apply no_frame_sub.
  - done.
Qed.
Definition demo_arp : arp nic := arp_boot demo_link.
Lemma demo_ok : arp_ok demo_known [4096; 8192] demo_arp.
Proof. apply boot_ok, demo_owns. Qed.
Lemma demo_null : ~ demo_known 0.
Proof. by unfold demo_known. Qed.

Lemma etharp_safe_witness : exists st', arp_exec demo_N (OInput 4096 7) demo_arp = Ret st' /\ arp_ok demo_known [8192] st'.
Proof.
  apply (etharp_safe demo_known demo_null demo_N (OInput 4096 7) [4096; 8192] demo_arp [8192]).
  - apply reach_boot, demo_owns.
  - apply demo_cfg.
  - split; [done|]. split; [done|]. vm_compute. discriminate.
Defined.

Lemma demo_load : lk_load 4096 SIZEOF_ETHARP_HDR (lk demo_arp) = Ret demo_reply.
Proof. vm_compute. reflexivity. Qed.

Lemma etharp_resolves_witness : exists st1 r st2, etharp_input demo_N 4096 7 demo_arp = Ret st1 /\
  etharp_output demo_N 7 8192 (ip4 8 8 8 8) st1 = Ret (r, st2) /\ sent demo_nif 8192 gw_mac r st2.
Proof.
  destruct (etharp_resolves demo_known demo_null demo_N demo_nif [8192] demo_arp 4096 7 demo_reply demo_ok eq_refl eq_refl
    eq_refl eq_refl ltac:(vm_compute; discriminate) demo_load eq_refl eq_refl eq_refl) as (st1 & E1 & H1 & Hs).
  destruct (Hs (lk st1) 8192 [] (ip4 8 8 8 8)) as (r & st2 & E2 & Hr).
  - apply (ao_owns _ _ _ H1).
  - cbn. lia.
  - vm_compute. repeat split.
  - exists st1, r, st2. split; [exact E1|]. split; [|exact Hr]. destruct st1. exact E2.
Defined.

(** The packet at 8192 waits for the gateway. *)
Definition demo_entry : etharp_entry := mkEntry 8192 (ip4 10 0 2 2) 7 ethzero 0 ETHARP_STATE_PENDING.
Definition demo_waiting : arp nic := mkArp (<[0%nat := demo_entry]> (replicate 10 zero_entry)) 0 demo_link.

Lemma demo_waiting_ok : arp_ok demo_known [4096] demo_waiting.
Proof.
  apply (arp_ok_insert demo_known [4096; 8192] [4096] demo_arp 0 zero_entry demo_entry 0 demo_link demo_ok); try done.
  - intros _ j f Hj Hf Hb. apply lookup_replicate in Hf as [-> _]. by destruct Hb.
  - exact demo_owns.
Qed.

Lemma etharp_flushes_queue_witness : exists w, etharp_update_arp_entry demo_N 7 (ip4 10 0 2 2) gw_mac ETHARP_FLAG_FIND_ONLY demo_waiting =
  Ret (ERR_OK, mkArp (<[0%nat := learned (ip4 10 0 2 2) 7 gw_mac]> (arp_table demo_waiting)) 0 w).
Proof.
  destruct (etharp_flushes_queue demo_known demo_null demo_N demo_nif [4096] demo_waiting 7 0 demo_entry gw_mac
    ETHARP_FLAG_FIND_ONLY demo_waiting_ok eq_refl eq_refl eq_refl eq_refl eq_refl eq_refl ltac:(discriminate) eq_refl eq_refl)
    as (r & w1 & w2 & _ & _ & E). exists w2. exact E.
Defined.

Lemma etharp_expires_witness : exists st', etharp_ticks (replicate 300 demo_N) demo_waiting = Ret st' /\ queue_refs (arp_table st') = [].
Proof.
  destruct (etharp_expires demo_known (replicate 300 demo_N) [4096] demo_waiting demo_waiting_ok) as (st' & E & _ & _ & _ & H).
  - apply Forall_replicate, demo_cfg.
  - exists st'. split; [exact E|]. apply H. rewrite length_replicate. lia.
Defined.

Lemma etharp_find_entry_policy_witness :
  found demo_known demo_waiting (ip4 10 0 2 9) ETHARP_FLAG_TRY_HARD 7 [4096]
    (etharp_find_entry (Some (ip4 10 0 2 9)) ETHARP_FLAG_TRY_HARD 7 demo_waiting).
Proof. apply (etharp_find_entry_policy demo_known [4096] demo_waiting); [apply demo_waiting_ok|lia]. Defined.

Lemma etharp_output_routes_witness : exists r st', etharp_output demo_N 7 4096 (ip4 10 0 2 9) demo_arp = Ret (r, st') /\
  routed demo_nif 7 4096 (ip4 10 0 2 9) demo_arp r st'.
Proof.
  destruct (etharp_output_routes demo_known demo_null demo_N demo_nif [8192] demo_arp 7 (ip4 10 0 2 9) 4096 demo_ok)
    as (r & st' & E & _ & H); [cbn; lia|reflexivity..|]. exists r, st'. split; [exact E|exact H].
Defined.
End Demo.
