(* ===== verification/EthernetTheorems.v ===== *)
(** * Ethernet: what goes on the wire and what comes off it *)
From S2P Require Import Prelude NetShim Ip4Addr Link Etharp EtharpInv EtharpOps EtharpSend Ethernet Pbuf PbufChain PbufOps NetGlue PbufClone EthernetInv EthernetRx EtharpTheorems.

(** The frame is the header and the packet: ethernet_output on a packet with
    room for the header puts, in one frame, the destination, the source and
    the type in network order in front of the packet's bytes, unchanged,
    provided the frame fits the driver's 1522 bytes. *)
Theorem ethernet_output_frame w p b r src dst ty :
  chain_at (pbufs (nic_heap w)) p ((p, b) :: r) -> wf_chain ((p, b) :: r) -> payloads_ok ((p, b) :: r) ->
  0 < p -> p + SIZEOF_STRUCT_PBUF <= payload b - SIZEOF_ETH_HDR -> clear_of (payload b - SIZEOF_ETH_HDR) SIZEOF_ETH_HDR r ->
  has_flag (type_internal b) PBUF_TYPE_FLAG_STRUCT_DATA_CONTIGUOUS = true ->
  p_tot_len b + SIZEOF_ETH_HDR <= TXBUF -> length (nic_txbuf w) = 1522%nat ->
  length src = 6%nat -> length dst = 6%nat -> bytes src -> bytes dst ->
  exists w', ethernet_output ETH_HWADDR_LEN p src dst ty w = Ret (ERR_OK, w') /\
    nic_tx w' = nic_tx w ++ [dst ++ src ++ le_bytes 2 (lwip_htons ty) ++ chain_data (pmem (nic_heap w)) ((p, b) :: r)].
Proof. apply frame_out. Qed.

Lemma ethernet_output_frame_witness :
  exists w', ethernet_output ETH_HWADDR_LEN 4096 (if_hwaddr demo_nif) ethbroadcast ETHTYPE_ARP demo_link = Ret (ERR_OK, w') /\
    nic_tx w' = [ethbroadcast ++ if_hwaddr demo_nif ++ [8; 6] ++ demo_reply].
Proof.
  destruct (ethernet_output_frame demo_link 4096 demo_rx [] (if_hwaddr demo_nif) ethbroadcast ETHTYPE_ARP) as (w' & E & Ht).
  - vm_compute. repeat split; try reflexivity. discriminate.
  - cbn. lia.
  - cbn. unfold addr_ok. repeat split; try constructor; cbn; lia.
  - lia.
  - vm_compute. discriminate.
  - constructor.
  - reflexivity.
  - vm_compute. discriminate.
  - apply length_replicate.
  - reflexivity.
  - reflexivity.
  - repeat constructor; lia.
  - repeat constructor; lia.
  - exists w'. split; [exact E|]. rewrite Ht. vm_compute. reflexivity.
Defined.

(** A clone is a packet of its own with the same bytes: when malloc gives a
    block apart from the packet's payloads, pbuf_clone builds one new pbuf
    that holds a single reference and the bytes of the whole chain, and
    neither the chain nor any memory outside the block changes. *)
Theorem pbuf_clone_correct custom_free layer p ps a addrs h :
  chain_at (pbufs h) p ps -> p <> NULL -> wf_chain ps -> one_packet ps -> mem_ok (pmem h) -> payloads_ok ps ->
  0 <= layer <= PBUF_TRANSPORT -> 0 < a < 18446744073709551616 - 131072 -> pbufs h !! a = None ->
  clear_of (a + 24) (4 + layer + tot ps) ps ->
  exists b h', pbuf_clone custom_free layer PBUF_RAM p (a :: addrs) h = Ret (a, addrs, h') /\
    pbufs h' = <[a := b]> (pbufs h) /\ chain_at (pbufs h') a [(a, b)] /\ wf_chain [(a, b)] /\ p_ref b = 1 /\
    chain_data (pmem h') [(a, b)] = chain_data (pmem h) ps /\ chain_data (pmem h') ps = chain_data (pmem h) ps.
Proof.
  intros Hc Hp Hw H1 Hm Hpo Hy Ha Hfree Hcl. pose proof (tot_bound _ Hw) as Ht.
  destruct (clone_ram_spec custom_free layer p ps a addrs h Hc Hp Hw H1 Hm Hy Ha Hfree)
    as (b & m' & E & _ & B1 & B2 & B3 & B4 & B5 & B6 & B7 & Hun & Hd).
  eexists b, _. split; [exact E|]. cbn [pbufs pmem set_pmem pset]. split; [done|]. split.
  { cbn. rewrite lookup_insert_eq. unfold NULL in *. split_and!; try done. lia. }
  split; [cbn; split_and!; try done; lia|]. split; [done|]. split; [by apply Hd|].
  apply chain_data_frame. intros c d Hin. apply Hun; [by eapply payloads_ok_elem|].
  unfold clear_of in Hcl. rewrite Forall_forall in Hcl. specialize (Hcl _ Hin). cbn in Hcl. lia.
Qed.

Lemma pbuf_clone_correct_witness : exists b h',
  pbuf_clone demo_custom PBUF_LINK PBUF_RAM 4096 [65536] (nic_heap demo_link) = Ret (65536, [], h') /\
  chain_data (pmem h') [(65536, b)] = demo_reply.
Proof.
  destruct (pbuf_clone_correct demo_custom PBUF_LINK 4096 [(4096, demo_rx)] 65536 [] (nic_heap demo_link))
    as (b & h' & E & _ & _ & _ & _ & D & _).
  - vm_compute. repeat split; try reflexivity. discriminate.
  - discriminate.
  - cbn. lia.
  - repeat constructor.
  - apply mem_ok_mem_write, mem_ok_empty.
  - cbn. unfold addr_ok. repeat split; try constructor; cbn; lia.
  - unfold PBUF_LINK, PBUF_TRANSPORT. lia.
  - lia.
  - vm_compute. reflexivity.
  - constructor; [|constructor]. cbn. lia.
  - exists b, h'. split; [exact E|]. rewrite D. vm_compute. reflexivity.
Defined.

(** ** Receiving *)
Section Input.
Context {F : Frame}.
Context {T : Type}.
Variables (custom_free : Z -> pheap -> res pheap) (malloc : nat -> gmap Z pbuf -> Z).
Context (Hmalloc : malloc_ok malloc).
Variable bmos : netif.
Context (Hbmos : nif_hwaddr_len bmos = ETH_HWADDR_LEN).
Variables (known : Z -> Prop) (ip4_input : Z -> Z -> arp nic -> T -> res (arp nic * T)).
Abbreviation nic_arp_ok := (@arp_ok nic (nic_link custom_free malloc bmos) (nic_laws custom_free malloc Hmalloc bmos Hbmos) known).

(** The length of an ARP frame is not checked: ethernet_input only asks for
    more than an Ethernet header, and etharp_input reads the 28 bytes of the
    ARP header without looking at p->len, so any ARP frame whose first pbuf is
    shorter than 42 bytes is read past its end. *)
Theorem etharp_short_frame N n p netif st (s : T) b :
  N netif = Some n -> has_flag (if_flags n) NETIF_FLAG_ETHARP = true -> netif <> 0 -> p <> NULL ->
  pbufs (nic_heap (lk st)) !! p = Some b -> p_len b <= p_tot_len b < 65536 ->
  SIZEOF_ETH_HDR < p_len b < SIZEOF_ETH_HDR + SIZEOF_ETHARP_HDR -> frame_type st p = lwip_htons ETHTYPE_ARP ->
  ethernet_input custom_free malloc ip4_input bmos N p netif st s = Undef.
Proof.
  intros HN Hf Hn Hp Hb Ht Hl Hty. unfold ethernet_input. rewrite HN. cbn [res_of_option res_bind]. cbv zeta.
  unfold frame_type in Hty. rewrite Hb in Hty. unfold SIZEOF_ETH_HDR, SIZEOF_ETHARP_HDR in *.
  unfold nic_load, pget at 1 2. rewrite (proj2 (Z.eqb_neq p NULL) Hp), Hb. cbn [res_of_option res_bind].
  rewrite (proj2 (Z.leb_gt (p_len b) 14)), (proj2 (Z.leb_le 14 (p_len b))) by lia. cbn [lwip_assert res_bind]. rewrite Hty.
  change (lwip_htons ETHTYPE_ARP =? lwip_htons ETHTYPE_IP) with false.
  change (lwip_htons ETHTYPE_ARP =? lwip_htons ETHTYPE_ARP) with true. rewrite Hf. cbn [negb].
  set (b1 := mark_dest _ _). assert (p_len b1 = p_len b /\ p_tot_len b1 = p_tot_len b) as [S1 S2].
  { unfold b1. destruct (mark_dest_spec (take 6 (mem_read (pmem (nic_heap (lk st))) (payload b) 14))
      (if if_idx b =? NETIF_NO_INDEX then set_if_idx (netif_get_index n) b else b)) as (_ & _ & Q3 & Q4).
    rewrite Q3, Q4. by destruct (if_idx b =? NETIF_NO_INDEX). }
  unfold pbuf_remove_header. rewrite (proj2 (Z.eqb_neq p NULL) Hp). cbn [negb lwip_assert Z.gtb Z.compare Pos.compare Pos.compare_cont Z.eqb].
  unfold pget at 1. rewrite (proj2 (Z.eqb_neq p NULL) Hp). cbn [nic_heap lk set_heap set_lk set_nic_heap pbufs pset].
  rewrite lookup_insert_eq. cbn [res_of_option res_bind]. rewrite S1, S2, (proj2 (Z.leb_le 14 (p_len b))) by lia.
  rewrite !u16_small by lia. cbn [res_bind Z.eqb negb]. unfold etharp_input. rewrite (proj2 (Z.eqb_neq netif 0) Hn), HN.
  cbn [res_of_option res_bind lk_load nic_link]. unfold nic_load, pget. rewrite (proj2 (Z.eqb_neq p NULL) Hp).
  cbn [nic_heap lk set_heap set_lk set_nic_heap pbufs pset]. rewrite lookup_insert_eq. cbn [res_of_option res_bind set_data p_len].
  unfold SIZEOF_ETHARP_HDR. rewrite (proj2 (Z.leb_gt 28 (p_len b - 14))) by lia. done.
Qed.
End Input.

(** ** A frame on the wire *)
#[local] Existing Instance no_frame.
Definition demo_frame : list Z := if_hwaddr demo_nif ++ gw_mac ++ [8; 6] ++ demo_reply.
Definition framed (n : Z) : arp nic := arp_boot
  (mkNic (mkPheap {[ 4096 := mkPbuf NULL 4160 n n 0x80 0 1 0 ]} (mem_write ∅ 4160 demo_frame)) 0 (replicate 1522 0) []).
Definition drop_ip4 (p netif : Z) (st : arp nic) (s : unit) : res (arp nic * unit) :=
  let* w := nic_free demo_custom p (lk st) in Ret (set_lk w st, s).

Lemma framed_ok n : 0 <= n < 65536 -> @arp_ok nic _ (nic_laws demo_custom demo_malloc demo_malloc_ok demo_bmos eq_refl)
  demo_known [4096] (framed n).
Proof.
  intros Hn. apply boot_ok. cbn [owns nic_laws]. split_and!; [apply mem_ok_mem_write, mem_ok_empty|apply length_replicate|].
  exists (fun _ => [(4096, mkPbuf NULL 4160 n n 0x80 0 1 0)]). split.
  - intros p ->%list_elem_of_singleton. split.
    + cbn. unfold NULL. split_and!; (done || lia).
    + done.
    + cbn. lia.
    + by repeat constructor.
    + by repeat constructor.
    + eexists _, []. by split_and!.
  - by intros p q x ->%list_elem_of_singleton ->%list_elem_of_singleton.
  - apply no_frame_sub.
  - done.
Qed.

Lemma etharp_short_frame_witness :
  ethernet_input demo_custom demo_malloc drop_ip4 demo_bmos demo_N 4096 7 (framed 20) tt = Undef.
Proof.
  apply (etharp_short_frame demo_custom demo_malloc demo_bmos drop_ip4 demo_N demo_nif 4096 7 (framed 20) tt
    (mkPbuf NULL 4160 20 20 0x80 0 1 0)).
  - reflexivity.
  - reflexivity.
  - lia.
  - discriminate.
  - reflexivity.
  - cbn. lia.
  - vm_compute. repeat split.
  - vm_compute. reflexivity.
Defined.
