(* ===== verification/Ip4.v ===== *)
(** * lwip-2.2.0/src/core/ipv4/ip4.c: routing and sending

    Route selection and the construction of the IPv4 header, on the ARP layer
    of [Etharp] over the pbuf heap and the driver of [Ethernet]. *)
From S2P Require Import Prelude NetShim Ip4Addr Link Etharp Checksum Pbuf NetGlue Ethernet.

Definition IP_HLEN : Z := 20.
Definition IP_MF : Z := 0x2000.
Definition IP_OFFMASK : Z := 0x1fff.
Definition IP_PROTO_ICMP : Z := 1.
Definition IP_PROTO_TCP : Z := 6.
Definition IP_PROTO_UDP : Z := 17.
Definition NETIF_FLAG_UP : Z := 0x01.

(** An access to the first [n] of [room] bytes: undefined when they are not
    all there. *)
Definition within {A} (n room : Z) (k : res A) : res A := if n <=? room then k else Undef.

(** ** struct ip_hdr, as it is read at address [a] *)
Definition field (m : memory) (a o n : Z) : Z := le_val (mem_read m (a + o) n).
Definition IPH_V (m : memory) (a : Z) : Z := Z.shiftr (field m a 0 1) 4.
Definition IPH_HL (m : memory) (a : Z) : Z := Z.land (field m a 0 1) 0x0f.
Definition IPH_HL_BYTES (m : memory) (a : Z) : Z := u8 (IPH_HL m a * 4).
Definition IPH_LEN (m : memory) (a : Z) : Z := field m a 2 2.
Definition IPH_OFFSET (m : memory) (a : Z) : Z := field m a 6 2.
Definition IPH_PROTO (m : memory) (a : Z) : Z := field m a 9 1.
Definition iph_src (m : memory) (a : Z) : Z := field m a 12 4.
Definition iph_dest (m : memory) (a : Z) : Z := field m a 16 4.

(** ** Interfaces *)

(** Pointers to interfaces are addresses, 0 is NULL. *)
Record netifs := mkNetifs {
  nf_at : Z -> option nif;
  netif_list : list Z;
  netif_default : Z;
}.
Definition netif_is_up (n : nif) : bool := has_flag (if_flags n) NETIF_FLAG_UP.
Definition netif_is_link_up (n : nif) : bool := has_flag (if_flags n) NETIF_FLAG_LINK_UP.
Definition ip4_addr_isloopback (a : Z) : bool := Z.land a (lwip_htonl 0xff000000) =? lwip_htonl (Z.shiftl 127 24).

(** The first interface of the list that reaches [dest]; 0 when there is none. *)
Fixpoint route_list (at_ : Z -> option nif) (l : list Z) (dest : Z) : res Z :=
  match l with
  | [] => Ret 0
  | netif :: r =>
      let* n := res_of_option (at_ netif) in
      if netif_is_up n && netif_is_link_up n && negb (if_ip n =? IPADDR_ANY) then
        if ip4_addr_net_eq dest (if_ip n) (if_netmask n) then Ret netif
        else if negb (has_flag (if_flags n) NETIF_FLAG_BROADCAST) && (dest =? if_gw n) then Ret netif
        else route_list at_ r dest
      else route_list at_ r dest
  end.

Definition ip4_route (nf : netifs) (dest : Z) : res Z :=
  let* netif := route_list (nf_at nf) (netif_list nf) dest in
  if negb (netif =? 0) then Ret netif
  else if netif_default nf =? 0 then Ret 0
  else
    let* n := res_of_option (nf_at nf (netif_default nf)) in
    if negb (netif_is_up n) || negb (netif_is_link_up n) || (if_ip n =? IPADDR_ANY) || ip4_addr_isloopback dest
    then Ret 0 else Ret (netif_default nf).

Definition ip4_input_accept (n : nif) (dest : Z) : bool :=
  netif_is_up n && negb (if_ip n =? IPADDR_ANY) && ((dest =? if_ip n) || ip4_addr_isbroadcast dest n).

(** ** Sending *)

(** The packets with the ARP table, and the static variable ip_id. *)
Record ipst := mkIpst {
  ip_arp : arp nic;
  ip_id : Z;
}.
Definition ip_heap (st : ipst) : pheap := nic_heap (lk (ip_arp st)).
Definition set_ip_arp (a : arp nic) (st : ipst) : ipst := mkIpst a (ip_id st).
Definition set_ip_nic (w : nic) (st : ipst) : ipst := set_ip_arp (set_lk w (ip_arp st)) st.
Definition set_ip_heap (h : pheap) (st : ipst) : ipst := set_ip_arp (set_heap h (ip_arp st)) st.
Definition set_ip_mem (m : memory) (st : ipst) : ipst := set_ip_heap (set_pmem m (ip_heap st)) st.

(** The sum of the header's words while the header is written, and the header
    checksum made of it (CHECKSUM_GEN_IP_INLINE). *)
Definition inline_sum (proto ttl dest tos v_hl len id src : Z) : Z :=
  let chk_sum := u32 (0 + lwip_ntohs (Z.lor proto (Z.shiftl ttl 8))) in
  let chk_sum := u32 (chk_sum + Z.land dest 0xFFFF) in
  let chk_sum := u32 (chk_sum + Z.shiftr dest 16) in
  let chk_sum := u32 (chk_sum + lwip_ntohs (Z.lor tos (Z.shiftl v_hl 8))) in
  let chk_sum := u32 (chk_sum + len) in
  let chk_sum := u32 (chk_sum + id) in
  let chk_sum := u32 (chk_sum + Z.land src 0xFFFF) in
  let chk_sum := u32 (chk_sum + Z.shiftr src 16) in
  let chk_sum := u32 (Z.shiftr chk_sum 16 + Z.land chk_sum 0xFFFF) in
  let chk_sum := u32 (Z.shiftr chk_sum 16 + chk_sum) in
  u16 (u32 (Z.lnot chk_sum)).

(** The stores of ip4_output_if_src into the header at [a]. *)
Definition write_iphdr (m : memory) (a tot_len id src dest ttl tos proto : Z) : memory :=
  let v_hl := u8 (Z.lor (Z.shiftl 4 4) (IP_HLEN / 4)) in
  let m := mem_write m (a + 8) (le_bytes 1 (u8 ttl)) in
  let m := mem_write m (a + 9) (le_bytes 1 (u8 proto)) in
  let m := mem_write m (a + 16) (le_bytes 4 dest) in
  let m := mem_write m a (le_bytes 1 v_hl) in
  let m := mem_write m (a + 1) (le_bytes 1 tos) in
  let m := mem_write m (a + 2) (le_bytes 2 (lwip_htons tot_len)) in
  let m := mem_write m (a + 6) (le_bytes 2 0) in
  let m := mem_write m (a + 4) (le_bytes 2 (lwip_htons id)) in
  let m := mem_write m (a + 12) (le_bytes 4 src) in
  mem_write m (a + 10)
    (le_bytes 2 (inline_sum proto ttl dest tos v_hl (lwip_htons tot_len) (lwip_htons id) src)).

Section Ip4.
Variable custom_free : Z -> pheap -> res pheap.
Variable malloc : nat -> gmap Z pbuf -> Z.
Variable bmos : netif.
Variable nf : netifs.
(** ip4_frag.c: sends a packet that is larger than the interface's MTU. *)
Variable ip4_frag : Z -> Z -> Z -> ipst -> res (Z * ipst).
#[local] Instance ip_link : LinkOps nic := nic_link custom_free malloc bmos.

Definition ip_free (p : Z) (st : ipst) : res ipst :=
  let* w := nic_free custom_free p (lk (ip_arp st)) in Ret (set_ip_nic w st).

(** LWIP_IP_CHECK_PBUF_REF_COUNT_FOR_TX *)
Definition check_ref {A} (b : pbuf) (k : res A) : res A := lwip_assert (p_ref b =? 1) k.

(** The end of ip4_output_if_src: [netif->output] is etharp_output. *)
Definition ip4_transmit (p dest netif : Z) (st : ipst) : res (Z * ipst) :=
  let* b := pget (ip_heap st) p in
  let* n := res_of_option (nf_at nf netif) in
  if truth (if_mtu n) && (p_tot_len b >? if_mtu n) then ip4_frag p netif dest st
  else let* (r, a) := etharp_output (nf_at nf) netif p dest (ip_arp st) in Ret (r, set_ip_arp a st).

(** [src]: [None] is NULL; [dest]: [None] is LWIP_IP_HDRINCL. *)
Definition ip4_output_if_src (p : Z) (src dest : option Z) (ttl tos proto netif : Z) (st : ipst) : res (Z * ipst) :=
  let* b := pget (ip_heap st) p in
  check_ref b (
    match dest with
    | Some dest =>
        let* (failed, h) := pbuf_add_header p IP_HLEN (ip_heap st) in
        let st := set_ip_heap h st in
        if negb (failed =? 0) then Ret (ERR_BUF, st)
        else
          let* b := pget h p in
          lwip_assert (p_len b >=? IP_HLEN) (
            let m := write_iphdr (pmem h) (payload b) (p_tot_len b) (ip_id st) (default IPADDR_ANY src) dest ttl tos proto in
            let st := mkIpst (ip_arp (set_ip_mem m st)) (u16 (ip_id st + 1)) in
            ip4_transmit p dest netif st)
    | None =>
        if p_len b <? IP_HLEN then Ret (ERR_BUF, st)
        else ip4_transmit p (iph_dest (pmem (ip_heap st)) (payload b)) netif st
    end).

Definition ip4_output_if (p : Z) (src dest : option Z) (ttl tos proto netif : Z) (st : ipst) : res (Z * ipst) :=
  let* src_used :=
    match dest with
    | Some _ =>
        if default IPADDR_ANY src =? IPADDR_ANY
        then let* n := res_of_option (nf_at nf netif) in Ret (Some (if_ip n)) else Ret src
    | None => Ret src
    end in
  ip4_output_if_src p src_used dest ttl tos proto netif st.

Definition ip4_output (p : Z) (src : option Z) (dest ttl tos proto : Z) (st : ipst) : res (Z * ipst) :=
  let* b := pget (ip_heap st) p in
  check_ref b (
    let* netif := ip4_route nf dest in
    if netif =? 0 then Ret (ERR_RTE, st)
    else ip4_output_if p src (Some dest) ttl tos proto netif st).
End Ip4.
