(* ===== verification/Icmp.v ===== *)
(** * lwip-2.2.0/src/core/ipv4/icmp.c: ICMP *)
From S2P Require Import Prelude NetShim Ip4Addr Link Etharp Checksum Pbuf NetGlue Ethernet Ip4.

Definition ICMP_ER : Z := 0.
Definition ICMP_DUR : Z := 3.
Definition ICMP_ECHO : Z := 8.
Definition ICMP_TE : Z := 11.
Definition ICMP_DUR_PROTO : Z := 2.
Definition ICMP_DUR_PORT : Z := 3.
Definition ICMP_TE_FRAG : Z := 1.
Definition ICMP_TTL : Z := 255.
Definition ICMP_DEST_UNREACH_DATASIZE : Z := 8.
(** [sizeof(struct icmp_hdr)], [sizeof(struct icmp_echo_hdr)] *)
Definition SIZEOF_ICMP_HDR : Z := 8.
(** PBUF_LINK_HLEN + PBUF_LINK_ENCAPSULATION_HLEN *)
Definition LINK_HLEN : Z := 14.

(** The members of struct ip_globals ip_data. *)
Record ip_globals := mkIpData {
  current_netif : Z;
  current_input_netif : Z;
  current_ip4_header : Z;
  current_ip_header_tot_len : Z;
  current_iphdr_src : Z;
  current_iphdr_dest : Z;
}.

(** The adjustment of the checksum when the type changes from 8 to 0. *)
Definition adjust_chksum (chksum : Z) : Z :=
  if chksum >? lwip_htons (0xffff - Z.shiftl ICMP_ECHO 8)
  then u16 (chksum + lwip_htons (u16 (Z.shiftl ICMP_ECHO 8)) + 1)
  else u16 (chksum + lwip_htons (Z.shiftl ICMP_ECHO 8)).

(** The stores that turn the request at [a] with its ICMP header at [ie] into
    the reply. *)
Definition write_reply (m : memory) (a ie hlen src dest : Z) : memory :=
  let m := mem_write m (a + 12) (le_bytes 4 src) in
  let m := mem_write m (a + 16) (le_bytes 4 dest) in
  let m := mem_write m ie (le_bytes 1 ICMP_ER) in
  let m := mem_write m (ie + 2) (le_bytes 2 (adjust_chksum (field m ie 2 2))) in
  let m := mem_write m (a + 8) (le_bytes 1 ICMP_TTL) in
  let m := mem_write m (a + 10) (le_bytes 2 0) in
  mem_write m (a + 10) (le_bytes 2 (inet_chksum (mload m) a hlen)).

Section Icmp.
Variable custom_free : Z -> pheap -> res pheap.
Variable malloc : nat -> gmap Z pbuf -> Z.
Variable bmos : netif.
Variable nf : netifs.
Variable ip4_frag : Z -> Z -> Z -> ipst -> res (Z * ipst).
Abbreviation ip_free := (ip_free custom_free).
Abbreviation ip4_output_if := (ip4_output_if custom_free malloc bmos nf ip4_frag).

(** pbuf_alloc(layer, len, PBUF_RAM) *)
Definition ip_alloc (layer len : Z) (st : ipst) : res (Z * ipst) :=
  let* (p, w) := with_malloc malloc (pbuf_alloc custom_free layer len PBUF_RAM) (lk (ip_arp st)) in
  Ret (p, set_ip_nic w st).

(** The copy of an echo request that has no room for the link header: the new
    packet, or 0. *)
Definition echo_copy (p hlen iphdr_in : Z) (st : ipst) : res (Z * ipst) :=
  let* b := pget (ip_heap st) p in
  let alloc_len := u16 (p_tot_len b + hlen) in
  if alloc_len <? p_tot_len b then Ret (0, st)
  else
    let* (r, st) := ip_alloc PBUF_LINK alloc_len st in
    if r =? NULL then Ret (0, st)
    else
      let* rb := pget (ip_heap st) r in
      if p_len rb <? hlen + SIZEOF_ICMP_HDR then let* st := ip_free r st in Ret (0, st)
      else
        let m := pmem (ip_heap st) in
        let st := set_ip_mem (mem_write m (payload rb) (mem_read m iphdr_in hlen)) st in
        let* (failed, h) := pbuf_remove_header r hlen (ip_heap st) in
        lwip_assert (failed =? 0) (
          let* (err, h) := pbuf_copy r p h in
          let st := set_ip_heap h st in
          if negb (err =? ERR_OK) then let* st := ip_free r st in Ret (0, st)
          else let* st := ip_free p st in Ret (r, st)).

(** The packet that will carry the reply, the request itself or its copy; 0
    when there is none (the request is not freed then). *)
Definition echo_packet (p hlen iphdr_in : Z) (st : ipst) : res (Z * ipst) :=
  let* (failed, h) := pbuf_add_header p (hlen + LINK_HLEN) (ip_heap st) in
  let st := set_ip_heap h st in
  if negb (failed =? 0) then echo_copy p hlen iphdr_in st
  else
    let* (failed, h) := pbuf_remove_header p (hlen + LINK_HLEN) (ip_heap st) in
    lwip_assert (failed =? 0) (Ret (p, set_ip_heap h st)).

(** The answer, from "At this point, all checks are OK." *)
Definition echo_reply (p hlen inp : Z) (d : ip_globals) (st : ipst) : res ipst :=
  let* b := pget (ip_heap st) p in
  let iecho := payload b in
  let* (failed, h) := pbuf_add_header p hlen (ip_heap st) in
  let st := set_ip_heap h st in
  if negb (failed =? 0) then Ret st
  else
    let* b := pget h p in
    within (hlen + 4) (p_len b) (
      let src := current_iphdr_dest d in
      let st := set_ip_mem (write_reply (pmem h) (payload b) iecho hlen src (current_iphdr_src d)) st in
      let* (_, st) := ip4_output_if p (Some src) None ICMP_TTL 0 IP_PROTO_ICMP inp st in
      Ret st).

Definition icmp_input (p inp : Z) (d : ip_globals) (st : ipst) : res ipst :=
  let m := pmem (ip_heap st) in
  let iphdr_in := current_ip4_header d in
  let hlen := IPH_HL_BYTES m iphdr_in in
  if hlen <? IP_HLEN then ip_free p st
  else
    let* b := pget (ip_heap st) p in
    if p_len b <? 4 then ip_free p st
    else
      let type := field m (payload b) 0 1 in
      if negb (type =? ICMP_ECHO) then ip_free p st
      else if ip4_addr_ismulticast (current_iphdr_dest d) then ip_free p st
      else
        let* n := res_of_option (nf_at nf (current_netif d)) in
        if ip4_addr_isbroadcast (current_iphdr_dest d) n then ip_free p st
        else if p_tot_len b <? SIZEOF_ICMP_HDR then ip_free p st
        else
          let* sum := inet_chksum_pbuf p (ip_heap st) in
          if negb (sum =? 0) then ip_free p st
          else
            let* (q, st) := echo_packet p hlen iphdr_in st in
            if q =? 0 then ip_free p st
            else let* st := echo_reply q hlen inp d st in ip_free q st.

(** ** Error messages *)
Definition icmp_send_response (p type code : Z) (st : ipst) : res ipst :=
  let* b := pget (ip_heap st) p in
  let response_pkt_len := IP_HLEN + ICMP_DEST_UNREACH_DATASIZE in
  let response_pkt_len := if p_tot_len b <? response_pkt_len then p_tot_len b else response_pkt_len in
  let* (q, st) := ip_alloc PBUF_IP (SIZEOF_ICMP_HDR + response_pkt_len) st in
  if q =? NULL then Ret st
  else
    let* qb := pget (ip_heap st) q in
    lwip_assert (p_len qb >=? SIZEOF_ICMP_HDR + response_pkt_len) (
      let icmphdr := payload qb in
      let m := mem_write (pmem (ip_heap st)) icmphdr (le_bytes 1 type) in
      let m := mem_write m (icmphdr + 1) (le_bytes 1 code) in
      let m := mem_write m (icmphdr + 4) (le_bytes 4 0) in
      let* (_, h) := pbuf_copy_partial_pbuf q p response_pkt_len SIZEOF_ICMP_HDR (set_pmem m (ip_heap st)) in
      let st := set_ip_heap h st in
      let* iphdr_src := within 16 (p_len b) (Ret (iph_src (pmem h) (payload b))) in
      let* netif := ip4_route nf iphdr_src in
      let* st :=
        if negb (netif =? 0) then
          let m := mem_write (pmem h) (icmphdr + 2) (le_bytes 2 0) in
          let m := mem_write m (icmphdr + 2) (le_bytes 2 (inet_chksum (mload m) icmphdr (p_len qb))) in
          let* (_, st) := ip4_output_if q None (Some iphdr_src) ICMP_TTL 0 IP_PROTO_ICMP netif (set_ip_mem m st) in
          Ret st
        else Ret st in
      ip_free q st).

Definition icmp_dest_unreach (p t : Z) (st : ipst) : res ipst := icmp_send_response p ICMP_DUR t st.
Definition icmp_time_exceeded (p t : Z) (st : ipst) : res ipst := icmp_send_response p ICMP_TE t st.
End Icmp.
