(* ===== verification/Ip4Input.v ===== *)
(** * lwip-2.2.0/src/core/ipv4/ip4.c: ip4_input *)
From S2P Require Import Prelude NetShim Ip4Addr Link Etharp Checksum Pbuf NetGlue Ethernet Ip4 Icmp.

Definition LWIP_IANA_PORT_DHCP_CLIENT : Z := 68.

Definition pbuf_header_force (p inc : Z) (h : pheap) : res (Z * pheap) := pbuf_header_impl p inc true h.

Section Ip4Input.
Variable custom_free : Z -> pheap -> res pheap.
Variable malloc : nat -> gmap Z pbuf -> Z.
Variable bmos : netif.
Variable nf : netifs.
Variable ip4_frag : Z -> Z -> Z -> ipst -> res (Z * ipst).
(** The state of reassembly and of the transport protocols.  ip4_reass returns
    the complete packet, or 0. *)
Context {T : Type}.
Variable ip4_reass : Z -> ipst -> T -> res (Z * ipst * T).
Variables udp_input tcp_input : Z -> Z -> ip_globals -> ipst -> T -> res (ipst * T).

(** The loop over the other interfaces. *)
Fixpoint accept_list (l : list Z) (inp dest : Z) : res Z :=
  match l with
  | [] => Ret 0
  | netif :: r =>
      if netif =? inp then accept_list r inp dest
      else
        let* n := res_of_option (nf_at nf netif) in
        if ip4_input_accept n dest then Ret netif else accept_list r inp dest
  end.

(** "match packet against an interface, i.e. is this packet for us?" *)
Definition match_netif (inp dest : Z) : res Z :=
  let* n := res_of_option (nf_at nf inp) in
  if ip4_addr_ismulticast dest then
    Ret (if netif_is_up n && negb (if_ip n =? IPADDR_ANY) then inp else 0)
  else if ip4_input_accept n dest then Ret inp
  else if negb (ip4_addr_isloopback dest) then accept_list (netif_list nf) inp dest
  else Ret 0.

(** "Pass DHCP messages regardless of destination address": the interface and
    check_ip_src.  The first [room] bytes of the packet at [iphdr] were
    received. *)
Definition match_dhcp (m : memory) (iphdr hlen room inp netif : Z) : res (Z * bool) :=
  if (netif =? 0) && (IPH_PROTO m iphdr =? IP_PROTO_UDP) then
    within (hlen + 4) room
      (if field m (iphdr + hlen) 2 2 =? lwip_htons LWIP_IANA_PORT_DHCP_CLIENT then Ret (inp, false) else Ret (netif, true))
  else Ret (netif, true).

(** The upper layers, from "send to upper layers" on. *)
Definition ip4_deliver (p iphdr hlen netif inp src dest : Z) (st : ipst) (s : T) : res (ipst * T) :=
  let m := pmem (ip_heap st) in
  let d := mkIpData netif inp iphdr (IPH_HL_BYTES m iphdr) src dest in
  let* (_, h) := pbuf_remove_header p hlen (ip_heap st) in
  let st := set_ip_heap h st in
  let proto := IPH_PROTO m iphdr in
  if proto =? IP_PROTO_UDP then udp_input p inp d st s
  else if proto =? IP_PROTO_TCP then tcp_input p inp d st s
  else if proto =? IP_PROTO_ICMP then
    let* st := icmp_input custom_free malloc bmos nf ip4_frag p inp d st in Ret (st, s)
  else
    let* n := res_of_option (nf_at nf netif) in
    let* st :=
      if negb (ip4_addr_isbroadcast dest n) && negb (ip4_addr_ismulticast dest) then
        let* (_, h) := pbuf_header_force p hlen (ip_heap st) in
        icmp_dest_unreach custom_free malloc bmos nf ip4_frag p ICMP_DUR_PROTO (set_ip_heap h st)
      else Ret st in
    let* st := ip_free custom_free p st in Ret (st, s).

Definition ip4_input (p inp : Z) (st : ipst) (s : T) : res (Z * ipst * T) :=
  let drop st := let* st := ip_free custom_free p st in Ret (ERR_OK, st, s) in
  let* b := pget (ip_heap st) p in
  let m := pmem (ip_heap st) in
  let iphdr := payload b in
  let room := p_len b in
  within 1 room (
  if negb (IPH_V m iphdr =? 4) then drop st
  else
    let hlen := IPH_HL_BYTES m iphdr in
    within 4 room (
    let len := lwip_ntohs (IPH_LEN m iphdr) in
    let* st :=
      if len <? p_tot_len b then let* h := pbuf_realloc custom_free p len (ip_heap st) in Ret (set_ip_heap h st)
      else Ret st in
    let* b := pget (ip_heap st) p in
    if (hlen >? p_len b) || (len >? p_tot_len b) || (hlen <? IP_HLEN) then drop st
    else if negb (inet_chksum (mload m) iphdr hlen =? 0) then drop st
    else
      let dest := iph_dest m iphdr in
      let src := iph_src m iphdr in
      let* netif := match_netif inp dest in
      let* (netif, check_ip_src) := match_dhcp m iphdr hlen room inp netif in
      let* n := res_of_option (nf_at nf inp) in
      if (check_ip_src : bool) && negb (src =? IPADDR_ANY) && (ip4_addr_isbroadcast src n || ip4_addr_ismulticast src)
      then drop st
      else if netif =? 0 then drop st
      else
        let* (p, iphdr, st, s) :=
          if truth (Z.land (IPH_OFFSET m iphdr) (lwip_htons (Z.lor IP_OFFMASK IP_MF))) then
            let* (p, st, s) := ip4_reass p st s in
            if p =? NULL then Ret (NULL, NULL, st, s)
            else let* b := pget (ip_heap st) p in Ret (p, payload b, st, s)
          else Ret (p, iphdr, st, s) in
        if p =? NULL then Ret (ERR_OK, st, s)
        else
          let* (st, s) := ip4_deliver p iphdr hlen netif inp src dest st s in
          Ret (ERR_OK, st, s))).

(** As ethernet_input calls it. *)
Definition ip4_rx (p inp : Z) (a : arp nic) (s : Z * T) : res (arp nic * (Z * T)) :=
  let* (_, st, t) := ip4_input p inp (mkIpst a s.1) s.2 in
  Ret (ip_arp st, (ip_id st, t)).
End Ip4Input.
