(* ===== verification/Ip4Inv.v ===== *)
(** * IPv4: every operation returns and keeps the packets in order

    The lemmas on packets that IP needs beyond those of ARP (headers of any
    length, trimming, allocation), and the safety of sending. *)
From S2P Require Import Prelude NetShim Ip4Addr Link Etharp EtharpInv EtharpOps EtharpSend Checksum Pbuf PbufChain PbufOps NetGlue PbufClone Ethernet EthernetInv EthernetRx Ip4.

(** ** Headers *)
(** The header in front of a packet fits in its first pbuf. *)
Definition headroom (p inc : Z) (b : pbuf) : Prop :=
  has_flag (type_internal b) PBUF_TYPE_FLAG_STRUCT_DATA_CONTIGUOUS = true /\ p + 24 <= payload b - inc /\ 0 <= p /\
  payload b <= 18446744073709551616.

Lemma add_header_gen p inc b h :
  pget h p = Ret b -> 0 < inc <= 0xffff -> 0 <= p_len b <= p_tot_len b -> p_tot_len b < 65536 ->
  pbuf_add_header p inc h = Ret (1, h) /\ ~ (headroom p inc b /\ p_tot_len b + inc < 65536) \/
  p_tot_len b + inc < 65536 /\
  pbuf_add_header p inc h = Ret (0, pset p (set_data (u64 (payload b - inc)) (p_len b + inc) (p_tot_len b + inc) b) h).
Proof.
  intros Hg Hi Hl Ht. pose proof Hg as [Hp _]%pget_lookup. unfold pbuf_add_header, pbuf_add_header_impl, headroom.
  rewrite (proj2 (Z.eqb_neq p NULL) Hp), Hg. cbn [negb lwip_assert]. rewrite Z.gtb_ltb, (proj2 (Z.ltb_ge 65535 inc)) by lia.
  rewrite (proj2 (Z.eqb_neq inc 0)) by lia. cbn [res_bind].
  destruct (Z.ltb_spec (u16 (inc + p_tot_len b)) inc) as [Hlt|Hge].
  { left. split; [done|]. intros [_ Hb]. rewrite u16_small in Hlt by lia. lia. }
  assert (p_tot_len b + inc < 65536) as Hb by (unfold u16 in Hge; zdiv). rewrite !u16_small by lia.
  change SIZEOF_STRUCT_PBUF with 24.
  destruct (has_flag _ _) eqn:Ef; [|left; split; [done|]; by intros [[? _] _]].
  destruct (Z.ltb_spec (u64 (payload b - inc)) (u64 (p + 24))) as [Hlt|_]; [|by right].
  left. split; [done|]. intros [(_ & H1 & H2 & H3) _]. rewrite !u64_small in Hlt by lia. lia.
Qed.

(** ** Trimming a packet *)
Lemma tot_lens ps : Forall (fun x => 0 <= p_len x.2) ps -> 0 <= tot ps.
Proof. induction 1 as [|x l H _ IH]; [done|]. rewrite tot_cons. lia. Qed.

Lemma one_packet_end ps q b : wf_chain (ps ++ [(q, b)]) -> next b = NULL -> 0 < p_len b ->
  one_packet (ps ++ [(q, b)]) /\ 0 < tot (ps ++ [(q, b)]).
Proof.
  intros Hw Hn Hb. induction ps as [|[c d] ps IH]; cbn [app] in *.
  - split; [by repeat constructor|cbn; lia].
  - destruct Hw as (W1 & W2 & W3 & W4). destruct (IH W4) as [I1 I2]. rewrite tot_cons. cbn [snd]. split; [|lia].
    constructor; [|done]. cbn [snd]. lia.
Qed.

Lemma cut_off_packet h' p ps ps' n m :
  cut_off n ps ps' -> 0 <= n -> chain_at (pbufs h') p ps' -> wf_chain ps' -> p <> NULL -> wf_chain ps -> one_packet ps ->
  Forall plain ps -> (exists b r, ps = (p, b) :: r /\ p_ref b = Z.of_nat m /\ Forall (fun x => p_ref x.2 = 1) r) ->
  packet h' p ps' m /\ (forall x, x ∈ ps'.*1 -> x ∈ ps.*1) /\
  exists b b' r r', ps = (p, b) :: r /\ ps' = (p, b') :: r' /\ payload b' = payload b /\ p_ref b' = p_ref b /\
    type_internal b' = type_internal b /\ p_len b' = Z.min (p_len b) n.
Proof.
  intros (ps1 & q & b & ps2 & Eps & Hr & Hpos & ->) Hn Hc Hw' Hp Hw H1 Hpl (b0 & r0 & E0 & Hb0 & Hr0).
  set (r := n - tot ps1) in *. set (b' := set_next NULL _) in *. set (k := - (tot ps - n)) in *.
  assert (forall x, x ∈ ((bump k <$> ps1) ++ [(q, b')]).*1 -> x ∈ ps.*1) as Hsub.
  { intros x. rewrite Eps, !fmap_app, <- list_fmap_compose. intros [Hx|Hx]%elem_of_app; apply elem_of_app; [by left|right].
    cbn in *. apply list_elem_of_singleton in Hx as ->. by left. }
  assert (Forall plain ((bump k <$> ps1) ++ [(q, b')])) as Hpl'.
  { rewrite Eps in Hpl. apply Forall_app in Hpl as [P1 P2]. inversion P2 as [|? ? P3 _]. subst. apply Forall_app. split.
    - apply Forall_fmap. eapply Forall_impl; [exact P1|]. by intros [].
    - constructor; [exact P3|constructor]. }
  assert (one_packet ((bump k <$> ps1) ++ [(q, b')])) as H1'.
  { destruct Hpos as [->|Hpos]; [by repeat constructor|]. by apply one_packet_end. }
  assert (exists bb rr, (bump k <$> ps1) ++ [(q, b')] = (p, bb) :: rr /\ payload bb = payload b0 /\ p_ref bb = p_ref b0 /\
    type_internal bb = type_internal b0 /\ p_len bb = Z.min (p_len b0) n /\ Forall (fun x => p_ref x.2 = 1) rr)
    as (bb & rr & Ebb & B1 & B2 & B3 & B4 & B5).
  { rewrite E0 in Eps. destruct ps1 as [|[c d] ps1]; cbn [app fmap list_fmap] in *.
    - injection Eps as -> -> ->. exists b', []. cbn in *. split_and!; try done. lia.
    - injection Eps as -> -> ->. exists (set_tot_len (p_tot_len d + k) d), ((bump k <$> ps1) ++ [(q, b')]).
      split_and!; try done.
      + destruct Hpos as [|Hpos]; [done|]. unfold r in Hpos. rewrite tot_cons in Hpos. cbn [snd] in *.
        pose proof (wf_chain_lens _ Hw) as L. rewrite E0, app_comm_cons, Forall_app in L.
        destruct L as [L _]. inversion L as [|? ? _ L2%tot_lens]. cbn. lia.
      + rewrite Forall_app in Hr0 |- *. destruct Hr0 as [R1 R2]. inversion R2. subst. split; [|by repeat constructor].
        apply Forall_fmap. eapply Forall_impl; [exact R1|]. by intros []. }
  split; [|split; [done|]].
  - split; try done. exists bb, rr. split_and!; try done. congruence.
  - exists b0, bb, r0, rr. by split_and!.
Qed.

Lemma held_realloc {F : Frame} custom_free h C p l n b :
  held h C (p :: l) -> pget h p = Ret b -> 0 <= n < p_tot_len b ->
  exists h' C' b', pbuf_realloc custom_free p n h = Ret h' /\ held h' C' (p :: l) /\ pmem h' = pmem h /\ pget h' p = Ret b' /\
    p_tot_len b' = n /\ p_len b' = Z.min (p_len b) n /\ payload b' = payload b /\ p_ref b' = p_ref b /\
    type_internal b' = type_internal b /\ (next b = NULL -> next b' = NULL).
Proof.
  intros H Hg Hn. destruct (held_packet _ _ _ _ H) as (b0 & r & Er & Hp & Hg0 & Hb).
  rewrite Hg in Hg0. injection Hg0 as <-. pose proof Hp as [P1 P2 P3 P4 P5 P6].
  assert (p_tot_len b = tot ((p, b) :: r)) as Et by apply P3.
  destruct (pbuf_realloc_spec custom_free p ((p, b) :: r) n h P1 P3 P5 ltac:(lia)) as (ps' & h' & E & Em & R1 & R2 & R3 & _ & R4 & R5).
  destruct (cut_off_packet h' p _ ps' n _ R5 ltac:(lia) R1 R2 P2 P3 P4 P5 P6) as (Hp' & Hsub & b1 & b' & r1 & r' & [= <- <-] & -> & B1 & B2 & B3 & B4).
  exists h', (fun q => if decide (q = p) then (p, b') :: r' else C q), b'. split_and!; try done.
  - apply (held_update h h' C (p :: l) (p :: l) p ((p, b') :: r') H); [done| | | |].
    + intros _. by rewrite refs_cons_eq.
    + intros q x Hq Hne Hx.
      assert (x ∉ ((p, b) :: r).*1) as Hnx by (rewrite <- Er; eapply (hd_apart _ _ _ H q p x); [done|by left|done..]).
      split; [by apply R4|]. intros _ Hin. by apply Hnx, Hsub.
    + intros x d Hx. apply R4. rewrite <- Er. intros Hin. by rewrite (hd_off _ _ _ H p x ltac:(by left) Hin) in Hx.
    + intros _ x Hx. apply (hd_off _ _ _ H p x ltac:(by left)). rewrite Er. by apply Hsub.
  - by eapply pget_chain.
  - rewrite <- R3. apply R2.
  - intros Hnx. destruct P1 as (_ & _ & _ & P1). rewrite Hnx in P1. destruct r as [|[c d] r]; [|by destruct P1 as (<- & [] & _)].
    destruct r' as [|[c d] r']; [by destruct R1 as (_ & _ & _ & ?)|]. destruct (chain_not_in_tail _ _ _ _ _ R1).
    assert (c ∈ [(p, b)].*1) as Hc by (apply Hsub; cbn; right; by left). apply list_elem_of_singleton in Hc as ->. cbn. by left.
Qed.

(** ** Sending *)
Section Send.
Context {F : Frame}.
Variable custom_free : Z -> pheap -> res pheap.
Variable malloc : nat -> gmap Z pbuf -> Z.
Context (Hmalloc : malloc_ok malloc).
Variable bmos : netif.
Context (Hbmos : nif_hwaddr_len bmos = ETH_HWADDR_LEN).
#[local] Instance ip_ops : LinkOps nic := nic_link custom_free malloc bmos.
#[local] Instance ip_laws : LinkLaws nic := nic_laws custom_free malloc Hmalloc bmos Hbmos.

Variable known : Z -> Prop.
Context (known_null : ~ known 0).
Abbreviation ok x st := (arp_ok known x (ip_arp st)).

(** The interfaces are Ethernet interfaces that ARP knows. *)
Record netifs_ok (nf : netifs) : Prop := {
  no_nif : forall a n, nf_at nf a = Some n -> known a /\ if_hwaddr_len n = 6 /\ length (if_hwaddr n) = 6%nat;
  no_list : forall a, a ∈ netif_list nf -> is_Some (nf_at nf a);
  no_default : netif_default nf = 0 \/ is_Some (nf_at nf (netif_default nf));
}.
Variable nf : netifs.
Context (Hnf : netifs_ok nf).

(** A packet that no one else refers to. *)
Definition sole (p : Z) (st : ipst) : Prop := exists b, pget (ip_heap st) p = Ret b /\ p_ref b = 1.

(** ip4_frag sends and returns, leaving the packet with the caller. *)
Variable ip4_frag : Z -> Z -> Z -> ipst -> res (Z * ipst).
Definition frag_ok : Prop := forall p netif dest st x n, ok (p :: x) st -> sole p st -> nf_at nf netif = Some n ->
  exists r st', ip4_frag p netif dest st = Ret (r, st') /\ ok (p :: x) st'.
Context (Hfrag : frag_ok).

Lemma ok_mem st x m : ok x st -> mem_ok m -> ok x (set_ip_mem m st).
Proof.
  intros H Hm. eapply arp_ok_lk; [exact H|]. destruct (ao_owns _ _ _ H) as (_ & Ht & C & HC).
  split_and!; [exact Hm|exact Ht|]. exists C. by apply held_mem.
Qed.

Lemma ok_mem_ok st x : ok x st -> mem_ok (pmem (ip_heap st)).
Proof. intros H. apply (ao_owns _ _ _ H). Qed.

(** The first pbuf of a packet changes. *)
Lemma ok_head_pset st p x b b' :
  ok (p :: x) st -> pget (ip_heap st) p = Ret b -> same_links b b' -> 0 <= p_len b' ->
  p_tot_len b' - p_len b' = p_tot_len b - p_len b -> p_tot_len b' < 65536 -> ok (p :: x) (set_ip_heap (pset p b' (ip_heap st)) st).
Proof. intros. by eapply (ok_pset custom_free malloc Hmalloc bmos Hbmos known (ip_arp st) p x b b'). Qed.

Lemma ok_pget st p x : ok (p :: x) st -> exists b, pget (ip_heap st) p = Ret b /\ p <> NULL /\
  0 <= p_len b <= p_tot_len b /\ p_tot_len b < 65536.
Proof.
  intros H. destruct (ok_head custom_free malloc Hmalloc bmos Hbmos known (ip_arp st) p x H) as (b & H1 & H2 & H3 & H4 & _).
  by exists b.
Qed.

Lemma sole_refs st p x : ok (p :: x) st -> sole p st -> refs_to x p = 0%nat.
Proof.
  intros H (b & Hg & Hr). destruct (nic_owns_head _ _ _ (ao_owns _ _ _ H)) as (C & b0 & r & _ & _ & _ & Hg0 & Hb & _).
  unfold ip_heap in Hg. rewrite Hg in Hg0. injection Hg0 as <-. rewrite Hr, count_occ_app in Hb. lia.
Qed.

(** The other packets stay as they are. *)
Lemma ip_free_spec st p x : ok (p :: x) st -> exists st', ip_free custom_free p st = Ret st' /\ ok x st' /\ ip_id st' = ip_id st /\
  pmem (ip_heap st') = pmem (ip_heap st) /\ (forall q, q ∈ x -> q <> p -> pget (ip_heap st') q = pget (ip_heap st) q) /\
  arp_table (ip_arp st') = arp_table (ip_arp st) /\ nic_tx (lk (ip_arp st')) = nic_tx (lk (ip_arp st)).
Proof.
  intros H. destruct (ao_owns _ _ _ H) as (Hm & Ht & C & HC). unfold ip_free, nic_free.
  destruct (held_free custom_free _ _ _ _ HC) as (n & h' & C' & -> & H' & Em & Hf). cbn [res_bind].
  eexists. split; [done|]. split; [|split; [done|]; split; [exact Em|]; split; [|done]].
  - eapply arp_ok_lk; [exact H|]. split_and!; cbn; [by rewrite Em|done|by exists C'].
  - intros q Hq Hne. unfold pget. cbn. rewrite Hf; [done| |done]. apply elem_of_app. by left.
Qed.

Lemma ok_swap st p q x : ok (p :: q :: x) st -> ok (q :: p :: x) st.
Proof.
  intros H. pose proof (ao_owns _ _ _ H) as Ho.
  assert (q :: p :: x ++ queue_refs (arp_table (ip_arp st)) ≡ₚ (p :: q :: x) ++ queue_refs (arp_table (ip_arp st))) as Hp
    by (cbn; constructor).
  destruct H as [H1 H2 H3 H4 _]. split; try done. eapply owns_perm; [symmetry; exact Hp|exact Ho].
Qed.

Lemma transmit_spec p dest netif n x st :
  ok (p :: x) st -> sole p st -> nf_at nf netif = Some n ->
  exists r st', ip4_transmit custom_free malloc bmos nf ip4_frag p dest netif st = Ret (r, st') /\ ok (p :: x) st'.
Proof.
  intros H Hs Hn. destruct (ok_pget st p x H) as (b & Hg & _). unfold ip4_transmit. rewrite Hg. cbn [res_bind].
  rewrite Hn. cbn [res_of_option res_bind]. destruct (truth _ && _); [by eapply Hfrag|].
  destruct (no_nif _ Hnf _ _ Hn) as (Hk & N1 & N2). pose proof (sole_refs _ _ _ H Hs) as Hr.
  destruct (output_spec known known_null (nf_at nf) n x (ip_arp st) netif dest p H ltac:(lia) Hk Hn N1 N2) as (r & a & E & Ha & _).
  unfold ip_ops in E. unfold ip_link. rewrite E. cbn [res_bind]. by exists r, (set_ip_arp a st).
Qed.

Lemma mem_ok_write_iphdr m a t id src dest ttl tos proto : mem_ok m -> mem_ok (write_iphdr m a t id src dest ttl tos proto).
Proof. intros Hm. unfold write_iphdr. cbv zeta. by repeat apply mem_ok_mem_write. Qed.

(** The state in which ip4_output_if_src hands over the packet: the header is
    in front, the identification is used up. *)
Definition with_iphdr (st : ipst) (p : Z) (b : pbuf) (src dest ttl tos proto : Z) : ipst :=
  let b' := set_data (u64 (payload b - IP_HLEN)) (p_len b + IP_HLEN) (p_tot_len b + IP_HLEN) b in
  let h := pset p b' (ip_heap st) in
  let m := write_iphdr (pmem h) (payload b') (p_tot_len b') (ip_id st) src dest ttl tos proto in
  mkIpst (set_heap (set_pmem m h) (ip_arp st)) (u16 (ip_id st + 1)).

Lemma with_iphdr_ok st p x b src dest ttl tos proto :
  ok (p :: x) st -> pget (ip_heap st) p = Ret b -> p_tot_len b + IP_HLEN < 65536 -> p_ref b = 1 ->
  ok (p :: x) (with_iphdr st p b src dest ttl tos proto) /\ sole p (with_iphdr st p b src dest ttl tos proto).
Proof.
  intros H Hg Ht Hr. destruct (ok_pget st p x H) as (b0 & Hg0 & Hp & Hl & _). rewrite Hg in Hg0. injection Hg0 as <-.
  unfold with_iphdr, IP_HLEN in *. set (b' := set_data _ _ _ b). split.
  - eapply (ok_mem (set_ip_heap (pset p b' (ip_heap st)) st)); [|apply mem_ok_write_iphdr; by eapply ok_mem_ok].
    eapply ok_head_pset; try done; cbn; lia.
  - exists b'. split; [|done]. apply pget_lookup. split; [done|]. cbn. apply lookup_insert_eq.
Qed.

Lemma output_if_src_some p src dest ttl tos proto netif b x st :
  ok (p :: x) st -> pget (ip_heap st) p = Ret b -> p_ref b = 1 ->
  let run := ip4_output_if_src custom_free malloc bmos nf ip4_frag p src (Some dest) ttl tos proto netif st in
  run = Ret (ERR_BUF, st) /\ ~ (headroom p IP_HLEN b /\ p_tot_len b + IP_HLEN < 65536) \/
  p_tot_len b + IP_HLEN < 65536 /\
  run = ip4_transmit custom_free malloc bmos nf ip4_frag p dest netif
          (with_iphdr st p b (default IPADDR_ANY src) dest ttl tos proto).
Proof.
  intros H Hg Hr run. destruct (ok_pget st p x H) as (b0 & Hg0 & Hp & Hl & Ht). rewrite Hg in Hg0. injection Hg0 as <-.
  unfold run, ip4_output_if_src, check_ref. rewrite Hg. cbn [res_bind]. rewrite Hr. cbn [Z.eqb Pos.eqb lwip_assert].
  destruct (add_header_gen p IP_HLEN b (ip_heap st) Hg) as [[-> Hno]|[Hb ->]]; [unfold IP_HLEN; lia|done..| |]; cbn [res_bind Z.eqb negb].
  - left. split; [|done]. unfold set_ip_heap, set_heap, ip_heap. destruct st as [[t c w] id]. cbn. do 2 f_equal. by destruct w.
  - right. split; [done|]. rewrite (pget_pset _ _ _ Hp). cbn [res_bind]. cbn [p_len set_data].
    rewrite Z.geb_leb, (proj2 (Z.leb_le IP_HLEN _)) by (unfold IP_HLEN in *; lia). done.
Qed.

Lemma output_if_src_spec p src dest ttl tos proto netif n x st :
  ok (p :: x) st -> sole p st -> nf_at nf netif = Some n ->
  exists r st', ip4_output_if_src custom_free malloc bmos nf ip4_frag p src dest ttl tos proto netif st = Ret (r, st') /\
    ok (p :: x) st'.
Proof.
  intros H Hs Hn. pose proof Hs as (b & Hg & Hr). destruct dest as [dest|].
  - destruct (output_if_src_some p src dest ttl tos proto netif b x st H Hg Hr) as [[-> _]|[Hb ->]].
    + by exists ERR_BUF, st.
    + destruct (with_iphdr_ok st p x b (default IPADDR_ANY src) dest ttl tos proto H Hg Hb Hr) as [H1 Hs1].
      by eapply transmit_spec.
  - unfold ip4_output_if_src, check_ref. rewrite Hg. cbn [res_bind]. rewrite Hr. cbn [Z.eqb Pos.eqb lwip_assert].
    destruct (p_len b <? IP_HLEN); [by exists ERR_BUF, st|]. by eapply transmit_spec.
Qed.

Lemma output_if_spec p src dest ttl tos proto netif n x st :
  ok (p :: x) st -> sole p st -> nf_at nf netif = Some n ->
  exists r st', ip4_output_if custom_free malloc bmos nf ip4_frag p src dest ttl tos proto netif st = Ret (r, st') /\
    ok (p :: x) st'.
Proof.
  intros H Hs Hn. unfold ip4_output_if. rewrite Hn. cbn [res_of_option res_bind].
  destruct dest as [dest|]; [destruct (_ =? _)|]; cbn [res_bind]; by eapply output_if_src_spec.
Qed.

(** ** Routing *)
Lemma route_list_spec l dest : (forall a, a ∈ l -> is_Some (nf_at nf a)) ->
  exists netif, route_list (nf_at nf) l dest = Ret netif /\ (netif <> 0 -> netif ∈ l).
Proof.
  induction l as [|a l IH]; intros Hl; [by exists 0|]. cbn [route_list].
  destruct (Hl a ltac:(by left)) as [n ->]. cbn [res_of_option res_bind].
  destruct IH as (i & -> & Hi); [intros; apply Hl; by right|].
  destruct (_ && _ && _); [destruct (ip4_addr_net_eq _ _ _); [|destruct (_ && _)]|];
    eexists; (split; [done|]); intros Hne; ((by left) || (right; by apply Hi)).
Qed.

Lemma route_spec dest : exists netif, ip4_route nf dest = Ret netif /\ (netif <> 0 -> is_Some (nf_at nf netif)).
Proof.
  unfold ip4_route. destruct (route_list_spec (netif_list nf) dest (no_list _ Hnf)) as (i & -> & Hi). cbn [res_bind].
  destruct (Z.eqb_spec i 0) as [->|Hne]; cbn [negb].
  - destruct (Z.eqb_spec (netif_default nf) 0) as [E|E]; [by exists 0|].
    destruct (no_default _ Hnf) as [?|[n Hn]]; [done|]. rewrite Hn. cbn [res_of_option res_bind].
    destruct (_ || _); eexists; (split; [done|]); [done|]. intros _. by exists n.
  - exists i. split; [done|]. intros _. apply (no_list _ Hnf). by apply Hi.
Qed.

Lemma ip4_output_safe p src dest ttl tos proto x st : ok (p :: x) st -> sole p st ->
  exists r st', ip4_output custom_free malloc bmos nf ip4_frag p src dest ttl tos proto st = Ret (r, st') /\ ok (p :: x) st'.
Proof.
  intros H Hs. pose proof Hs as (b & Hg & Hr). unfold ip4_output, check_ref. rewrite Hg. cbn [res_bind]. rewrite Hr.
  cbn [Z.eqb Pos.eqb lwip_assert]. destruct (route_spec dest) as (i & -> & Hi). cbn [res_bind].
  destruct (Z.eqb_spec i 0) as [_|Hne]; [by exists ERR_RTE, st|]. destruct (Hi Hne) as [n Hn]. by eapply output_if_spec.
Qed.
End Send.
