(* ===== verification/IcmpInv.v ===== *)
(** * ICMP: every operation returns and keeps the packets in order *)
From S2P Require Import Prelude NetShim Ip4Addr Link Etharp EtharpInv Checksum Pbuf PbufChain PbufOps NetGlue PbufClone Ethernet EthernetInv EthernetRx Ip4 Icmp Ip4Inv.

Section Icmp.
Context {F : Frame}.
Variable custom_free : Z -> pheap -> res pheap.
Variable malloc : nat -> gmap Z pbuf -> Z.
Context (Hmalloc : malloc_ok malloc).
Variable bmos : netif.
Context (Hbmos : nif_hwaddr_len bmos = ETH_HWADDR_LEN).
#[local] Instance icmp_ops : LinkOps nic := nic_link custom_free malloc bmos.
#[local] Instance icmp_laws : LinkLaws nic := nic_laws custom_free malloc Hmalloc bmos Hbmos.
Variable known : Z -> Prop.
Context (known_null : ~ known 0).
Variable nf : netifs.
Context (Hnf : netifs_ok known nf).
Variable ip4_frag : Z -> Z -> Z -> ipst -> res (Z * ipst).
Abbreviation ok x st := (arp_ok known x (ip_arp st)).
Context (Hfrag : frag_ok custom_free malloc Hmalloc bmos Hbmos known nf ip4_frag).

(** A new pbuf for [len] bytes with [layer] bytes in front. *)
Record new_pbuf (q layer len : Z) (b : pbuf) : Prop := {
  nb_addr : 0 < q < 18446744073709551616 - 131072;
  nb_next : next b = NULL;
  nb_len : p_len b = len;
  nb_tot : p_tot_len b = len;
  nb_ref : p_ref b = 1;
  nb_payload : q + 24 + layer <= payload b < q + 28 + layer;
  nb_type : type_internal b = 0x80;
}.

Lemma ip_alloc_spec layer len x st : ok x st -> 0 <= layer < 65536 -> 0 <= len < 65536 ->
  exists q st', ip_alloc custom_free malloc layer len st = Ret (q, st') /\ ip_id st' = ip_id st /\
    (q = NULL /\ ok x st' \/
     q <> NULL /\ ok (q :: x) st' /\ exists b, ip_heap st' = pset q b (ip_heap st) /\ pbufs (ip_heap st) !! q = None /\
       new_pbuf q layer len b).
Proof.
  intros H Hy Hn. unfold ip_alloc, with_malloc. destruct (ao_owns _ _ _ H) as (Hm & Ht & C & HC).
  set (w := lk (ip_arp st)) in *.
  destruct (Hmalloc (nic_mallocs w) (pbufs (nic_heap w))) as [->|[Ha Hfree]].
  - destruct (alloc_ram_null custom_free layer len (nic_heap w)) as (addrs & ->). cbn [res_bind].
    eexists NULL, _. split; [done|]. split; [done|]. left. split; [done|]. eapply arp_ok_lk; [exact H|].
    split_and!; [exact Hm|exact Ht|by exists C].
  - set (a := malloc _ _) in *. destruct (pbuf_alloc_ram_spec custom_free layer len a [] (nic_heap w))
      as (b & -> & B1 & B2 & B3 & B4 & B5 & B6 & B7); [done..|]. cbn [res_bind].
    assert (a <> NULL) as Ha0 by (unfold NULL; lia).
    eexists a, _. split; [done|]. split; [done|]. right. split; [done|]. split.
    + eapply arp_ok_lk; [exact H|]. split_and!; cbn; [exact Hm|exact Ht|]. eexists. apply held_new; try done; lia.
    + exists b. by split_and!.
Qed.

(** A packet that can be read, whoever holds it. *)
Definition source (h : pheap) (p : Z) (b : pbuf) : Prop :=
  exists r, chain_at (pbufs h) p ((p, b) :: r) /\ wf_chain ((p, b) :: r) /\ one_packet ((p, b) :: r).
Lemma source_pget h p b : source h p b -> p <> NULL /\ pget h p = Ret b /\ 0 <= p_len b <= p_tot_len b /\ p_tot_len b < 65536.
Proof.
  intros (r & Hc & (W1 & W2 & W3 & W4) & _). pose proof (tot_nonneg _ W4). split_and!; try lia; [by destruct Hc as (_ & ? & _)|by eapply pget_chain].
Qed.
Lemma source_new h p b q bq : source h p b -> pbufs h !! q = None -> source (pset q bq h) p b.
Proof.
  intros (r & Hc & Hw) Hq. exists r. split; [|done]. apply chain_at_insert; [|done].
  intros ([c d] & -> & [Hin _]%(chain_at_elem _ _ _ _ _ Hc))%list_elem_of_fmap. cbn in Hq. congruence.
Qed.
Lemma ok_source p b x st : ok (p :: x) st -> pget (ip_heap st) p = Ret b -> source (ip_heap st) p b.
Proof.
  intros H Hg. destruct (nic_owns_head _ _ _ (ao_owns _ _ _ H)) as (C & b0 & r & _ & _ & Hp & Hg0 & _).
  fold (ip_heap st) in Hg0. rewrite Hg in Hg0. injection Hg0 as <-. exists r. split_and!; apply Hp.
Qed.

(** Copying from packet [p] into the pbuf [q]. *)
Lemma copy_into_spec q p n off bt bp x st :
  ok (q :: x) st -> source (ip_heap st) p bp -> pget (ip_heap st) q = Ret bt -> next bt = NULL -> p_len bt = p_tot_len bt ->
  0 <= n <= p_tot_len bp -> 0 <= off -> off + n <= p_len bt ->
  exists m', pbuf_copy_partial_pbuf q p n off (ip_heap st) = Ret (ERR_OK, set_pmem m' (ip_heap st)) /\ mem_ok m' /\
    (addr_ok (payload bt) (p_len bt) -> unchanged_off (payload bt + off) n (pmem (ip_heap st)) m').
Proof.
  intros H Hs Hgq Hnx Hlt Hn Ho Hb. destruct (ao_owns _ _ _ H) as (Hm & _). fold (ip_heap st) in *.
  destruct (source_pget _ _ _ Hs) as (P2 & Hgp & Hlp). destruct Hs as (r & P1 & P3 & P4).
  apply pget_lookup in Hgq as Hq. destruct Hq as [Hq0 Hq].
  destruct (ok_pget _ _ _ _ _ _ _ _ _ H) as (b1 & Hg1 & _ & Hl1 & Ht1). rewrite Hgq in Hg1. injection Hg1 as <-.
  assert (p_tot_len bp = tot ((p, bp) :: r)) as Et by apply P3.
  unfold pbuf_copy_partial_pbuf. rewrite (proj2 (Z.eqb_neq p NULL) P2), Hgp. cbn [res_bind].
  rewrite (proj2 (Z.eqb_neq q NULL) Hq0), !Z.geb_leb, (proj2 (Z.leb_le n _)) by lia. cbn [negb orb].
  rewrite Hgq. cbn [res_bind]. rewrite Z.geb_leb, (proj2 (Z.leb_le (off + n) _)) by lia. cbn [negb].
  destruct (copy_loop_spec q bt Hq0 Hnx ltac:(lia) (chain_fuel (ip_heap st) + chain_fuel (ip_heap st)) p ((p, bp) :: r) off n (ip_heap st))
    as (m' & E & Hm' & HD); try done; [|lia|].
  { pose proof (chain_length_le _ _ _ P1). lia. }
  exists m'. split; [done|]. split; [done|]. intros Ha. by apply HD.
Qed.

(** ** Error messages *)
Lemma pget_other h q p b bp : pget h p = Ret bp -> pbufs h !! q = None -> pget (pset q b h) p = Ret bp.
Proof.
  intros [Hp Hl]%pget_lookup Hq. apply pget_lookup. split; [done|]. cbn. rewrite lookup_insert_ne; [done|]. congruence.
Qed.

Lemma sole_mem p m st : sole p st -> sole p (set_ip_mem m st).
Proof. intros (b & Hg & Hr). exists b. split; [|done]. apply pget_lookup in Hg. by apply pget_lookup. Qed.

Lemma within_true {A} n room (k : res A) : n <= room -> within n room k = k.
Proof. intros H. unfold within. by rewrite (proj2 (Z.leb_le _ _) H). Qed.

Lemma send_response_spec p type code b x st :
  ok x st -> source (ip_heap st) p b -> 16 <= p_len b ->
  exists st', icmp_send_response custom_free malloc bmos nf ip4_frag p type code st = Ret st' /\ ok x st'.
Proof.
  intros H Hs Hl. destruct (source_pget _ _ _ Hs) as (Hp & Hg & Hl0).
  unfold icmp_send_response. rewrite Hg. cbn [res_bind]. change (IP_HLEN + ICMP_DEST_UNREACH_DATASIZE) with 28.
  set (n := if p_tot_len b <? 28 then p_tot_len b else 28).
  assert (0 <= n <= p_tot_len b /\ n <= 28) as Hn by (unfold n; destruct (Z.ltb_spec (p_tot_len b) 28); lia).
  destruct (ip_alloc_spec PBUF_IP (SIZEOF_ICMP_HDR + n) x st H) as (q & st1 & -> & _ & [[-> H1]|(Hq & H1 & qb & Eh & Hfree & Hnb)]).
  { unfold PBUF_IP. lia. }
  { unfold SIZEOF_ICMP_HDR. lia. }
  { cbn [res_bind]. by exists st1. }
  cbn [res_bind]. rewrite (proj2 (Z.eqb_neq q NULL) Hq).
  assert (pget (ip_heap st1) q = Ret qb) as Hgq by (rewrite Eh; by apply pget_pset).
  assert (source (ip_heap st1) p b) as Hs1 by (rewrite Eh; by apply source_new).
  pose proof Hnb as [Q1 Q2 Q3 Q4 Q5 Q6 Q7]. rewrite Hgq. cbn [res_bind]. rewrite Z.geb_leb, Q3, Z.leb_refl. cbn [lwip_assert].
  set (m1 := mem_write (mem_write (mem_write _ _ _) _ _) _ _).
  assert (mem_ok m1) as Hm1 by (unfold m1; repeat apply mem_ok_mem_write; by eapply ok_mem_ok).
  pose proof (ok_mem _ _ _ _ _ _ _ _ m1 H1 Hm1) as H2.
  destruct (copy_into_spec q p n SIZEOF_ICMP_HDR qb b x (set_ip_mem m1 st1) H2 Hs1) as (m2 & E2 & Hm2 & _); try done; try (unfold SIZEOF_ICMP_HDR in *; lia).
  cbn [ip_heap set_ip_mem set_ip_heap set_ip_arp ip_arp set_heap set_lk lk set_nic_heap nic_heap] in E2.
  fold (ip_heap st1) in E2. rewrite E2. cbn [res_bind]. rewrite within_true by lia. cbn [res_bind pmem set_pmem].
  pose proof (ok_mem _ _ _ _ _ _ _ _ m2 H1 Hm2) as H3.
  assert (sole q (set_ip_mem m2 st1)) as Hs3 by (apply sole_mem; by exists qb).
  destruct (route_spec known nf Hnf (iph_src m2 (payload b))) as (netif & -> & Hr). cbn [res_bind].
  destruct (Z.eqb_spec netif 0) as [_|Hne]; cbn [negb].
  - destruct (ip_free_spec _ _ _ _ _ _ _ _ _ H3) as (st' & E & H4 & _). exists st'. by split.
  - destruct (Hr Hne) as [nn Hnn]. set (m3 := mem_write _ _ (le_bytes 2 (inet_chksum _ _ _))).
    assert (mem_ok m3) as Hm3 by (unfold m3; by repeat apply mem_ok_mem_write).
    pose proof (ok_mem _ _ _ _ _ _ _ _ m3 H3 Hm3) as H4.
    destruct (output_if_spec custom_free malloc Hmalloc bmos Hbmos known known_null nf Hnf ip4_frag Hfrag q None
      (Some (iph_src m2 (payload b))) ICMP_TTL 0 IP_PROTO_ICMP netif nn _ _ H4 ltac:(by apply sole_mem) Hnn) as (r & st4 & E4 & H5).
    change (set_ip_mem m3 (set_ip_heap (set_pmem m2 (set_pmem m1 (ip_heap st1))) st1)) with (set_ip_mem m3 (set_ip_mem m2 st1)).
    rewrite E4. cbn [res_bind]. destruct (ip_free_spec _ _ _ _ _ _ _ _ _ H5) as (st' & -> & H6 & _). by exists st'.
Qed.

(** ** Echo *)

(** The packet [q] took the place of [p], or there is none. *)
Definition replaced (p q : Z) (x : list Z) (st st' : ipst) : Prop :=
  q = 0 /\ ok (p :: x) st' \/
  q <> 0 /\ ok (q :: x) st' /\ sole q st' /\ exists b, pget (ip_heap st') q = Ret b /\ 4 <= p_len b.

Lemma echo_copy_spec p hlen hdr b x st :
  ok (p :: x) st -> pget (ip_heap st) p = Ret b -> 8 <= p_tot_len b -> 0 < hlen <= 60 ->
  exists q st', echo_copy custom_free malloc p hlen hdr st = Ret (q, st') /\ replaced p q x st st'.
Proof.
  intros H Hg Ht Hh. destruct (ok_pget _ _ _ _ _ _ _ _ _ H) as (b0 & Hg0 & Hp & Hl0 & Ht0). rewrite Hg in Hg0. injection Hg0 as <-.
  unfold echo_copy. rewrite Hg. cbn [res_bind].
  destruct (Z.ltb_spec (u16 (p_tot_len b + hlen)) (p_tot_len b)) as [|Hge]; [exists 0, st; split; [done|by left]|].
  assert (p_tot_len b + hlen < 65536) as Hb by (unfold u16 in Hge; zdiv). rewrite (u16_small (_ + _)) by lia.
  destruct (ip_alloc_spec PBUF_LINK (p_tot_len b + hlen) (p :: x) st H) as (r & st1 & -> & _ & [[-> H1]|(Hr & H1 & rb & Eh & Hfree & Hnb)]).
  { unfold PBUF_LINK. lia. }
  { lia. }
  { cbn [res_bind]. exists 0, st1. split; [done|by left]. }
  cbn [res_bind]. rewrite (proj2 (Z.eqb_neq r NULL) Hr).
  assert (pget (ip_heap st1) r = Ret rb) as Hgr by (rewrite Eh; by apply pget_pset).
  assert (pget (ip_heap st1) p = Ret b) as Hgp by (rewrite Eh; by apply pget_other).
  pose proof Hnb as [Q1 Q2 Q3 Q4 Q5 Q6 Q7]. rewrite Hgr. cbn [res_bind].
  rewrite (proj2 (Z.ltb_ge (p_len rb) _)) by (unfold SIZEOF_ICMP_HDR; lia). set (m1 := mem_write _ _ _).
  assert (mem_ok m1) as Hm1 by (apply mem_ok_mem_write; by eapply ok_mem_ok).
  pose proof (ok_mem _ _ _ _ _ _ _ _ m1 H1 Hm1) as H2.
  rewrite (remove_header_gen r hlen rb) by (done || lia). cbn [res_bind Z.eqb lwip_assert].
  set (rb' := set_data _ _ _ rb). set (st2 := set_ip_mem m1 st1) in *.
  assert (ok (r :: p :: x) (set_ip_heap (pset r rb' (ip_heap st2)) st2)) as H3 by (eapply ok_head_pset; try done; cbn; lia).
  set (st3 := set_ip_heap _ st2) in *. change (pset r rb' (ip_heap st2)) with (ip_heap st3).
  assert (pget (ip_heap st3) r = Ret rb') as Hgr3 by by apply pget_pset.
  assert (pget (ip_heap st3) p = Ret b) as Hgp3.
  { apply pget_lookup in Hgp as [_ Hgp]. apply pget_lookup. split; [done|]. cbn. rewrite lookup_insert_ne; [done|].
    intros <-. apply pget_lookup in Hg as [_ Hg]. congruence. }
  destruct (copy_into_spec r p (p_tot_len b) 0 rb' b (p :: x) st3 H3) as (m3 & E3 & Hm3 & _); try done; try (cbn; lia).
  { eapply ok_source; [|exact Hgp3]. by eapply ok_swap. }
  unfold pbuf_copy. rewrite (proj2 (Z.eqb_neq p NULL) Hp), Hgp3. cbn [res_bind]. rewrite E3. cbn [res_bind].
  change (ERR_OK =? ERR_OK) with true. cbn [negb]. pose proof (ok_mem _ _ _ _ _ _ _ _ m3 H3 Hm3) as H4.
  change (set_ip_heap (set_pmem m3 (ip_heap st3)) st2) with (set_ip_mem m3 st3).
  pose proof (ok_swap _ _ _ _ _ _ _ _ _ _ H4) as H5.
  destruct (ip_free_spec _ _ _ _ _ _ _ _ _ H5) as (st' & -> & H6 & _ & _ & Hf & _). cbn [res_bind].
  assert (pget (ip_heap st') r = Ret rb') as Hgr'.
  { rewrite Hf; [done|by left|]. intros ->. rewrite Hgp3 in Hgr3. injection Hgr3 as E. apply (f_equal p_len) in E. cbn in E.
    apply pget_lookup in Hg as [_ Hg]. congruence. }
  exists r, st'. split; [done|]. right. split; [done|]. split; [done|]. split; [by exists rb'|]. exists rb'. split; [done|]. cbn. lia.
Qed.

Lemma echo_packet_spec p hlen hdr b x st :
  ok (p :: x) st -> sole p st -> pget (ip_heap st) p = Ret b -> 4 <= p_len b -> 8 <= p_tot_len b -> 0 < hlen <= 60 ->
  exists q st', echo_packet custom_free malloc p hlen hdr st = Ret (q, st') /\ replaced p q x st st'.
Proof.
  intros H Hs Hg Hl Ht Hh. destruct (ok_pget _ _ _ _ _ _ _ _ _ H) as (b0 & Hg0 & Hp & Hl0 & Ht0).
  rewrite Hg in Hg0. injection Hg0 as <-. unfold echo_packet.
  destruct (add_header_gen p (hlen + LINK_HLEN) b (ip_heap st) Hg) as [[-> _]|[Hb ->]]; [unfold LINK_HLEN; lia|done..| |]; cbn [res_bind Z.eqb negb].
  { replace (set_ip_heap (ip_heap st) st) with st by (by destruct st as [[? ? []] ?]). by eapply echo_copy_spec. }
  unfold LINK_HLEN in *. set (b1 := set_data _ _ _ b).
  pose proof (pget_pset (ip_heap st) p b1 Hp) as Hg1.
  rewrite (remove_header_gen p _ b1 (pset p b1 (ip_heap st)) Hg1) by (cbn; lia). cbn [res_bind Z.eqb lwip_assert].
  set (b2 := set_data _ _ _ b1).
  assert (ok (p :: x) (set_ip_heap (pset p b1 (ip_heap st)) st)) as H1 by (eapply ok_head_pset; try done; cbn; lia).
  assert (ok (p :: x) (set_ip_heap (pset p b2 (pset p b1 (ip_heap st))) st)) as H2.
  { change (set_ip_heap (pset p b2 (pset p b1 (ip_heap st))) st) with
      (set_ip_heap (pset p b2 (ip_heap (set_ip_heap (pset p b1 (ip_heap st)) st))) (set_ip_heap (pset p b1 (ip_heap st)) st)).
    eapply ok_head_pset; try done; cbn; lia. }
  eexists p, _. split; [done|]. right. split; [done|]. split; [exact H2|].
  pose proof (pget_pset (pset p b1 (ip_heap st)) p b2 Hp) as Hg2. split; exists b2; (split; [exact Hg2|]).
  - destruct Hs as (b3 & Hg3 & Hr). rewrite Hg in Hg3. by injection Hg3 as <-.
  - cbn. lia.
Qed.

Lemma mem_ok_write_reply m a ie hlen src dest : mem_ok m -> mem_ok (write_reply m a ie hlen src dest).
Proof. intros Hm. unfold write_reply. cbv zeta. by repeat apply mem_ok_mem_write. Qed.

Lemma echo_reply_spec p hlen inp n d b x st :
  ok (p :: x) st -> sole p st -> pget (ip_heap st) p = Ret b -> 4 <= p_len b -> 0 < hlen <= 60 -> nf_at nf inp = Some n ->
  exists st', echo_reply custom_free malloc bmos nf ip4_frag p hlen inp d st = Ret st' /\ ok (p :: x) st'.
Proof.
  intros H Hs Hg Hl Hh Hn. destruct (ok_pget _ _ _ _ _ _ _ _ _ H) as (b0 & Hg0 & Hp & Hl0 & Ht0).
  rewrite Hg in Hg0. injection Hg0 as <-. unfold echo_reply. rewrite Hg. cbn [res_bind].
  destruct (add_header_gen p hlen b (ip_heap st) Hg) as [[-> _]|[Hb ->]]; [lia|done..| |]; cbn [res_bind Z.eqb negb].
  { exists st. split; [|done]. f_equal. by destruct st as [[? ? []] ?]. }
  set (b1 := set_data _ _ _ b). rewrite (pget_pset (ip_heap st) p b1 Hp). cbn [res_bind]. rewrite within_true by (cbn; lia).
  set (st1 := set_ip_heap (pset p b1 (ip_heap st)) st).
  assert (ok (p :: x) st1) as H1 by (eapply ok_head_pset; try done; cbn; lia).
  set (m := write_reply _ _ _ _ _ _). assert (mem_ok m) as Hm by (apply mem_ok_write_reply; by eapply ok_mem_ok).
  pose proof (ok_mem _ _ _ _ _ _ _ _ m H1 Hm) as H2.
  assert (sole p (set_ip_mem m st1)) as Hs2.
  { apply sole_mem. exists b1. split; [by apply pget_pset|]. destruct Hs as (b3 & Hg3 & Hr). rewrite Hg in Hg3. by injection Hg3 as <-. }
  destruct (output_if_spec custom_free malloc Hmalloc bmos Hbmos known known_null nf Hnf ip4_frag Hfrag p (Some (current_iphdr_dest d))
    None ICMP_TTL 0 IP_PROTO_ICMP inp n x _ H2 Hs2 Hn) as (r & st' & -> & H3). cbn [res_bind]. by exists st'.
Qed.

Lemma chksum_pbuf_ret p x st : ok (p :: x) st -> exists c, inet_chksum_pbuf p (ip_heap st) = Ret c.
Proof.
  intros H. destruct (nic_owns_head _ _ _ (ao_owns _ _ _ H)) as (C & b & r & _ & _ & Hp & _).
  destruct (ao_owns _ _ _ H) as (Hm & _). eexists. eapply chksum_pbuf_eq; [apply Hp..|done].
Qed.

Lemma hl_bytes_range m a : 0 <= IPH_HL_BYTES m a <= 60.
Proof.
  unfold IPH_HL_BYTES, IPH_HL. change 15 with (Z.ones 4). rewrite Z.land_ones by lia.
  pose proof (Z.mod_pos_bound (field m a 0 1) (2 ^ 4) ltac:(lia)) as H. change (2 ^ 4) with 16 in *.
  rewrite u8_small; lia.
Qed.

Lemma icmp_input_spec p inp n d x st :
  ok (p :: x) st -> sole p st -> nf_at nf inp = Some n -> is_Some (nf_at nf (current_netif d)) ->
  exists st', icmp_input custom_free malloc bmos nf ip4_frag p inp d st = Ret st' /\ ok x st'.
Proof.
  intros H Hs Hn [nn Hnn]. unfold icmp_input. set (hlen := IPH_HL_BYTES _ _). pose proof (hl_bytes_range _ _ : 0 <= hlen <= 60) as Hh.
  assert (exists st', ip_free custom_free p st = Ret st' /\ ok x st') as Hfree.
  { destruct (ip_free_spec _ _ _ _ _ _ _ _ _ H) as (st' & E & H1 & _). by exists st'. }
  destruct (Z.ltb_spec hlen IP_HLEN) as [|Hlo]; [done|]. unfold IP_HLEN in Hlo.
  destruct (ok_pget _ _ _ _ _ _ _ _ _ H) as (b & Hg & Hp & Hl & Ht). rewrite Hg. cbn [res_bind].
  destruct (Z.ltb_spec (p_len b) 4) as [|Hl4]; [done|]. destruct (_ =? ICMP_ECHO); cbn [negb]; [|done].
  destruct (ip4_addr_ismulticast _); [done|]. rewrite Hnn. cbn [res_of_option res_bind].
  destruct (ip4_addr_isbroadcast _ _); [done|].
  destruct (Z.ltb_spec (p_tot_len b) SIZEOF_ICMP_HDR) as [|Ht8]; [done|]. unfold SIZEOF_ICMP_HDR in Ht8.
  destruct (chksum_pbuf_ret p x st H) as (c & ->). cbn [res_bind]. destruct (c =? 0); cbn [negb]; [|done].
  destruct (echo_packet_spec p hlen (current_ip4_header d) b x st H Hs Hg ltac:(lia) ltac:(lia) ltac:(lia))
    as (q & st1 & -> & [[-> H1]|(Hq & H1 & Hs1 & b1 & Hg1 & Hl1)]); cbn [res_bind].
  - destruct (ip_free_spec _ _ _ _ _ _ _ _ _ H1) as (st' & E & H2 & _). by exists st'.
  - rewrite (proj2 (Z.eqb_neq q 0) Hq). destruct (echo_reply_spec q hlen inp n d b1 x st1 H1 Hs1 Hg1 ltac:(lia) ltac:(lia) Hn) as (st2 & -> & H2).
    cbn [res_bind]. destruct (ip_free_spec _ _ _ _ _ _ _ _ _ H2) as (st' & E & H3 & _). by exists st'.
Qed.
End Icmp.
