(* ===== verification/Ip4Rx.v ===== *)
(** * Receiving IPv4 packets: every packet is consumed

    ip4_input returns from every state and keeps the packets in order, given
    what reassembly and the transport protocols promise ([upper_ok]). *)
From S2P Require Import Prelude NetShim Ip4Addr Link Etharp EtharpInv Checksum Pbuf PbufChain PbufOps NetGlue PbufClone Ethernet EthernetInv EthernetRx Ip4 Icmp Ip4Input Ip4Inv IcmpInv.

(** The payload of the first pbuf lies behind its header in the address space. *)
Definition placed (p : Z) (b : pbuf) : Prop :=
  0 <= p /\ 0 <= payload b /\ payload b + p_len b < 18446744073709551616 /\
  (has_flag (type_internal b) PBUF_TYPE_FLAG_STRUCT_DATA_CONTIGUOUS = true -> p + 24 <= payload b).

(** A packet as the driver makes it: in place and with one reference. *)
Definition received (p : Z) (st : ipst) : Prop := exists b, pget (ip_heap st) p = Ret b /\ p_ref b = 1 /\ placed p b.

(** The bytes that ip4_input reads before it has compared lengths. *)
Definition readable (m : memory) (b : pbuf) : Prop :=
  4 <= p_len b /\ (IPH_PROTO m (payload b) = IP_PROTO_UDP -> IPH_HL_BYTES m (payload b) + 4 <= p_len b).

(** A fragment of a larger packet; one that brings data, in a single pbuf of the
    size of a frame at most. *)
Definition is_fragment (m : memory) (a : Z) : bool := truth (Z.land (IPH_OFFSET m a) (lwip_htons (Z.lor IP_OFFMASK IP_MF))).
Definition brings_data (m : memory) (b : pbuf) : Prop := is_fragment m (payload b) = true ->
  IPH_HL_BYTES m (payload b) < lwip_ntohs (IPH_LEN m (payload b)) /\ p_tot_len b <= TXBUF /\ next b = NULL.

(** The packet [b] without its first [k] bytes. *)
Definition advance (k : Z) (b : pbuf) : pbuf := set_data (payload b + k) (p_len b - k) (p_tot_len b - k) b.

Lemma header_force_back p dec b h :
  pget h p = Ret b -> placed p b -> 0 < dec <= p_len b -> p_len b <= p_tot_len b < 65536 ->
  exists b1 b2, pbuf_remove_header p dec h = Ret (0, pset p b1 h) /\ pbuf_header_force p dec (pset p b1 h) = Ret (0, pset p b2 (pset p b1 h)) /\
    same_links b b1 /\ p_len b1 = p_len b - dec /\ p_tot_len b1 = p_tot_len b - dec /\ payload b1 = payload b + dec /\ b2 = b /\ b1 = advance dec b.
Proof.
  intros Hg (Hp & Hpl & Hpe & Hc) Hd Ht. pose proof Hg as [Hp0 _]%pget_lookup.
  rewrite (remove_header_gen p dec b h Hg Hd Ht). set (b1 := set_data _ _ _ b).
  assert (payload b1 = payload b + dec) as E1 by (cbn; apply u64_small; lia).
  exists b1, b. split; [done|]. split; [|repeat split; try done; unfold b1, advance; by rewrite u64_small by lia].
  unfold pbuf_header_force, pbuf_header_impl, pbuf_add_header_impl. rewrite (proj2 (Z.ltb_ge dec 0)) by lia.
  rewrite (proj2 (Z.eqb_neq p NULL) Hp0), (pget_pset _ _ _ Hp0). cbn [negb lwip_assert].
  rewrite Z.gtb_ltb, (proj2 (Z.ltb_ge 65535 dec)), (proj2 (Z.eqb_neq dec 0)) by lia. cbn [res_bind]. rewrite E1.
  cbn [p_tot_len p_len b1 set_data type_internal]. rewrite (u16_small (dec + _)), !u16_small by lia.
  rewrite (proj2 (Z.ltb_ge (dec + _) dec)) by lia. change SIZEOF_STRUCT_PBUF with 24.
  replace (payload b + dec - dec) with (payload b) by lia. rewrite (u64_small (payload b)) by lia.
  replace (set_data (payload b) (p_len b - dec + dec) (p_tot_len b - dec + dec) b1) with b.
  2:{ destruct b. unfold b1, set_data. cbn. f_equal; lia. }
  destruct (has_flag _ _) eqn:Ef; [|done]. specialize (Hc eq_refl). rewrite (u64_small (p + 24)) by lia.
  by rewrite (proj2 (Z.ltb_ge (payload b) (p + 24))) by lia.
Qed.

(** A packet as a transport protocol gets it: behind its IP header, which is
    still there. *)
Record delivered (p : Z) (d : ip_globals) (st : ipst) (b : pbuf) : Prop := {
  dl_pget : pget (ip_heap st) p = Ret (advance (current_ip_header_tot_len d) b);
  dl_ref : p_ref b = 1;
  dl_placed : placed p b;
  dl_hlen : 20 <= current_ip_header_tot_len d <= 60;
  dl_len : current_ip_header_tot_len d <= p_len b;
  dl_tot : p_len b <= p_tot_len b < 65536;
  dl_src : 0 <= current_iphdr_src d < 4294967296;
  dl_dest : 0 <= current_iphdr_dest d < 4294967296;
}.
Lemma delivered_sole p d st b : delivered p d st b -> sole p st.
Proof. intros [H1 H2 _ _ _ _ _ _]. by exists (advance (current_ip_header_tot_len d) b). Qed.

Lemma word_field m a o : mem_ok m -> 0 <= field m a o 4 < 4294967296.
Proof.
  intros Hm. unfold field. pose proof (le_val_bound (mem_read m (a + o) 4) (bytes_mem_read _ _ _ Hm)) as H.
  by rewrite length_mem_read in H.
Qed.

(** ** Whom a packet is for

    Addresses are in network order: the first octet is the lowest byte. *)
Definition multicast (a : Z) : Prop := 224 <= a mod 256 < 240.
Definition loopback (a : Z) : Prop := a mod 256 = 127.
(** A broadcast on the network of the interface: the two addresses that are one
    everywhere, or an address of the network, not the interface's own, whose host bits are all ones. *)
Definition broadcast_on (n : nif) (a : Z) : Prop :=
  a = 0 \/ a = 0xffffffff \/
  has_flag (if_flags n) NETIF_FLAG_BROADCAST = true /\ a <> if_ip n /\ Z.land a (if_netmask n) = Z.land (if_ip n) (if_netmask n) /\
  forall i, 0 <= i < 32 -> Z.testbit (if_netmask n) i = false -> Z.testbit a i = true.
(** The interface is up, and configured with an address. *)
Definition configured (n : nif) : Prop := netif_is_up n = true /\ if_ip n <> 0.
Definition addressed_to (n : nif) (a : Z) : Prop := configured n /\ (a = if_ip n \/ broadcast_on n a).
(** For this host: a multicast address while the interface it arrived on is
    configured (there is no IGMP that would tell the groups apart); an address
    of that interface; or, unless it is a loopback address, of another one. *)
Definition for_us (nf : netifs) (inp : Z) (dest : Z) : Prop :=
  exists n, nf_at nf inp = Some n /\
  (multicast dest /\ configured n \/
   ~ multicast dest /\ (addressed_to n dest \/
     ~ loopback dest /\ exists a n', a ∈ netif_list nf /\ nf_at nf a = Some n' /\ addressed_to n' dest)).

Lemma land_byte a k : Z.land 255 k = k -> Z.land a k = Z.land (a mod 256) k.
Proof. intros E. rewrite <- E at 1. rewrite Z.land_assoc. change 255 with (Z.ones 8). by rewrite Z.land_ones by lia. Qed.
Lemma for_bytes (P : Z -> bool) : forallb P (seqZ 0 256) = true -> forall x, 0 <= x < 256 -> P x = true.
Proof. intros H x Hx. apply (proj1 (forallb_forall _ _) H), list_elem_of_In, elem_of_seqZ. lia. Qed.
Lemma ismulticast_spec a : ip4_addr_ismulticast a = true <-> multicast a.
Proof.
  unfold ip4_addr_ismulticast, multicast. change (lwip_htonl 0xf0000000) with 240. change (lwip_htonl 0xe0000000) with 224.
  rewrite land_byte by done. pose proof (Z.mod_pos_bound a 256 ltac:(done)) as Hb. revert Hb. generalize (a mod 256). intros x Hx.
  pose proof (for_bytes (fun x => Bool.eqb (Z.land x 240 =? 224) ((224 <=? x) && (x <? 240))) ltac:(by vm_compute) x Hx) as E.
  apply Bool.eqb_prop in E. rewrite E, andb_true_iff, Z.leb_le, Z.ltb_lt. lia.
Qed.
Lemma isloopback_spec a : ip4_addr_isloopback a = true <-> loopback a.
Proof.
  unfold ip4_addr_isloopback, loopback. change (lwip_htonl 0xff000000) with (Z.ones 8). change (lwip_htonl (Z.shiftl 127 24)) with 127.
  rewrite Z.land_ones, Z.eqb_eq by lia. done.
Qed.
Lemma host_bits a mask : Z.land a (u32 (Z.lnot mask)) = Z.land 0xffffffff (u32 (Z.lnot mask)) <->
  forall i, 0 <= i < 32 -> Z.testbit mask i = false -> Z.testbit a i = true.
Proof.
  unfold u32. change 4294967296 with (2 ^ 32). change 0xffffffff with (Z.ones 32). split.
  - intros E i Hi Hm. apply (f_equal (fun z => Z.testbit z i)) in E.
    rewrite !Z.land_spec, Z.mod_pow2_bits_low, Z.lnot_spec, Hm, Z.ones_spec_low in E by lia. by rewrite andb_true_r in E.
  - intros H. apply Z.bits_inj'. intros i Hi. rewrite !Z.land_spec. destruct (Z.ltb_spec i 32).
    + rewrite Z.mod_pow2_bits_low, Z.lnot_spec, Z.ones_spec_low by lia. destruct (Z.testbit mask i) eqn:Em; cbn; [by rewrite !andb_false_r|].
      by rewrite (H i).
    + by rewrite Z.mod_pow2_bits_high, !andb_false_r by lia.
Qed.
Lemma isbroadcast_spec a n : 0 <= a < 4294967296 -> ip4_addr_isbroadcast a n = true <-> broadcast_on n a.
Proof.
  intros Ha. unfold ip4_addr_isbroadcast, ip4_addr_isbroadcast_u32, broadcast_on, ip4_addr_net_eq. unfold has_flag, truth.
  change NETIF_BROADCAST with NETIF_FLAG_BROADCAST. change IPADDR_ANY with 0. change IPADDR_BROADCAST with 0xffffffff.
  assert (u32 (Z.lnot a) = 0 <-> a = 0xffffffff) as E.
  { unfold u32, Z.lnot. split; [|by intros ->]. intros H. zdiv. }
  destruct (Z.eqb_spec (u32 (Z.lnot a)) 0) as [E1|E1]; cbn [orb]; [split; [|done]; intros _; right; left; by apply E|].
  destruct (Z.eqb_spec a 0) as [E0|E0]; [split; [by left|done]|].
  assert (a <> 0xffffffff) as En by (by rewrite <- E).
  destruct (Z.eqb_spec (Z.land (if_flags n) NETIF_FLAG_BROADCAST) 0) as [Ef|Ef]; cbn [negb].
  { split; [done|]. by intros [?|[?|[? _]]]. }
  destruct (Z.eqb_spec a (if_ip n)) as [Ei|Ei]; [split; [done|]; by intros [?|[?|(_ & ? & _)]]|].
  rewrite <- host_bits. destruct (_ && _) eqn:Eb.
  - apply andb_true_iff in Eb as [B1%Z.eqb_eq B2%Z.eqb_eq]. split; [|done]. intros _. by do 2 right.
  - split; [done|]. intros [?|[?|(_ & _ & B1 & B2)]]; [done..|]. by rewrite B1, B2, !Z.eqb_refl in Eb.
Qed.
Lemma accept_spec n a : 0 <= a < 4294967296 -> ip4_input_accept n a = true <-> addressed_to n a.
Proof.
  intros Ha. unfold ip4_input_accept, addressed_to, configured. rewrite !andb_true_iff, negb_true_iff, Z.eqb_neq, orb_true_iff, Z.eqb_eq, isbroadcast_spec by done.
  done.
Qed.

Section Rx.
Context {F : Frame}.
Variable custom_free : Z -> pheap -> res pheap.
Variable malloc : nat -> gmap Z pbuf -> Z.
Context (Hmalloc : malloc_ok malloc).
Variable bmos : netif.
Context (Hbmos : nif_hwaddr_len bmos = ETH_HWADDR_LEN).
#[local] Instance rx_ops : LinkOps nic := nic_link custom_free malloc bmos.
#[local] Instance rx_laws : LinkLaws nic := nic_laws custom_free malloc Hmalloc bmos Hbmos.
Variable known : Z -> Prop.
Context (known_null : ~ known 0).
Variable nf : netifs.
Context (Hnf : netifs_ok known nf).
Variable ip4_frag : Z -> Z -> Z -> ipst -> res (Z * ipst).
Abbreviation ok x st := (arp_ok known x (ip_arp st)).
Context (Hfrag : forall F0, @frag_ok F0 custom_free malloc Hmalloc bmos Hbmos known nf ip4_frag).
Context {T : Type}.
Variable ip4_reass : Z -> ipst -> T -> res (Z * ipst * T).
Variables udp_input tcp_input : Z -> Z -> ip_globals -> ipst -> T -> res (ipst * T).

(** Reassembly takes the fragment and keeps it, drops it, or returns a packet
    with a header as long as the fragment's; a transport protocol takes the
    packet.  What they keep is out of the reach of everyone else. *)
Variable keeps : Frame -> T -> Prop.
Abbreviation okF F0 x st := (@arp_ok nic rx_ops (@nic_laws F0 custom_free malloc Hmalloc bmos Hbmos) known x (ip_arp st)).
Definition transport_ok (input : Z -> Z -> ip_globals -> ipst -> T -> res (ipst * T)) : Prop :=
  forall F0 p inp d st s x, keeps F0 s -> okF F0 (p :: x) st -> (exists b, delivered p d st b) -> current_input_netif d = inp ->
  is_Some (nf_at nf inp) -> is_Some (nf_at nf (current_netif d)) ->
  exists st' s' x' F', input p inp d st s = Ret (st', s') /\ keeps F' s' /\ okF F' x' st'.
Definition reass_ok : Prop := forall F0 p b st s x,
  keeps F0 s -> okF F0 (p :: x) st -> received p st -> pget (ip_heap st) p = Ret b ->
  let m := pmem (ip_heap st) in
  let hlen := IPH_HL_BYTES m (payload b) in
  20 <= hlen <= p_len b -> p_tot_len b = lwip_ntohs (IPH_LEN m (payload b)) -> hlen < p_tot_len b <= TXBUF ->
  is_fragment m (payload b) = true -> next b = NULL ->
  exists q st' s' x' F', ip4_reass p st s = Ret (q, st', s') /\ keeps F' s' /\
    (q = 0 /\ okF F' x' st' \/
     q <> 0 /\ okF F' (q :: x') st' /\ received q st' /\ 
       exists b', pget (ip_heap st') q = Ret b' /\ hlen <= p_len b' /\ IPH_HL_BYTES (pmem (ip_heap st')) (payload b') = hlen).
Record upper_ok : Prop := {
  uo_reass : reass_ok;
  uo_udp : transport_ok udp_input;
  uo_tcp : transport_ok tcp_input;
}.
Context (Hup : upper_ok).

Lemma received_sole p st : received p st -> sole p st.
Proof. intros (b & Hg & Hr & _). by exists b. Qed.

Lemma accept_list_spec l inp dest : (forall a, a ∈ l -> is_Some (nf_at nf a)) ->
  exists netif, accept_list nf l inp dest = Ret netif /\ (netif = 0 \/ is_Some (nf_at nf netif)).
Proof.
  induction l as [|a l IH]; intros Hl; [exists 0; by split; [|left]|]. cbn [accept_list].
  destruct IH as (i & E & Hi); [intros; apply Hl; by right|]. destruct (a =? inp); [by exists i|].
  destruct (Hl a ltac:(by left)) as [n Hn]. rewrite Hn. cbn [res_of_option res_bind].
  destruct (ip4_input_accept n dest); [|by exists i]. exists a. split; [done|]. right. by exists n.
Qed.

Lemma match_netif_spec inp dest n : nf_at nf inp = Some n ->
  exists netif, match_netif nf inp dest = Ret netif /\ (netif = 0 \/ is_Some (nf_at nf netif)).
Proof.
  intros Hn. unfold match_netif. rewrite Hn. cbn [res_of_option res_bind].
  assert (is_Some (nf_at nf inp)) as Hs by by exists n.
  destruct (ip4_addr_ismulticast dest); [|destruct (ip4_input_accept n dest); [|destruct (ip4_addr_isloopback dest)]].
  - eexists. split; [done|]. destruct (_ && _); [by right|by left].
  - exists inp. by split; [|right].
  - exists 0. by split; [|left].
  - cbn [negb]. apply accept_list_spec, Hnf.
Qed.

Lemma accept_list_none l inp dest : 0 <= dest < 4294967296 -> (forall a, a ∈ l -> is_Some (nf_at nf a)) ->
  (forall n, nf_at nf inp = Some n -> ~ addressed_to n dest) ->
  accept_list nf l inp dest = Ret 0 <-> ~ exists a n, a ∈ l /\ nf_at nf a = Some n /\ addressed_to n dest.
Proof.
  intros Hd Hl Hinp. induction l as [|a l IH]; [split; [intros _ (? & ? & Hin & _); by apply elem_of_nil in Hin|done]|].
  cbn [accept_list]. destruct (Hl a ltac:(by left)) as [n Hn]. destruct (Z.eqb_spec a inp) as [->|Hne].
  - rewrite IH by (intros; apply Hl; by right). split; intros H (c & n' & Hin & Hc & Ha); apply H; exists c, n'; [|by split; [right|]].
    apply elem_of_cons in Hin as [->|Hin]; [by destruct (Hinp n' Hc)|done].
  - rewrite Hn. cbn [res_of_option res_bind]. destruct (ip4_input_accept n dest) eqn:E.
    + apply accept_spec in E; [|done]. split; [|intros H; destruct H; exists a, n; by split; [left|]].
      intros [= ->]. exfalso. by apply known_null, (no_nif _ _ Hnf 0 n).
    + rewrite IH by (intros; apply Hl; by right). split; intros H (c & n' & Hin & Hc & Ha); apply H; exists c, n'; [|by split; [right|]].
      apply elem_of_cons in Hin as [->|Hin]; [|done]. rewrite Hn in Hc. injection Hc as <-. apply accept_spec in Ha; [congruence|done].
Qed.
Lemma match_netif_for_us inp dest n : 0 <= dest < 4294967296 -> nf_at nf inp = Some n -> match_netif nf inp dest = Ret 0 <-> ~ for_us nf inp dest.
Proof.
  intros Hd Hn. assert (inp <> 0) as Hi by (intros ->; by apply known_null, (no_nif _ _ Hnf 0 n)).
  assert (for_us nf inp dest <-> multicast dest /\ configured n \/ ~ multicast dest /\ (addressed_to n dest \/
     ~ loopback dest /\ exists a n', a ∈ netif_list nf /\ nf_at nf a = Some n' /\ addressed_to n' dest)) as ->.
  { unfold for_us. rewrite Hn. split; [by intros (? & [= <-] & ?)|]. intros H. by exists n. }
  unfold match_netif. rewrite Hn. cbn [res_of_option res_bind]. destruct (ip4_addr_ismulticast dest) eqn:Em.
  - apply ismulticast_spec in Em. assert (netif_is_up n && negb (if_ip n =? IPADDR_ANY) = true <-> configured n) as Ec.
    { unfold configured. by rewrite andb_true_iff, negb_true_iff, Z.eqb_neq. }
    destruct (_ && _); split.
    + by intros [= ->].
    + intros H. destruct H. left. split; [done|by apply Ec].
    + intros _ [[_ Hc]|[? _]]; [|done]. by apply Ec in Hc.
    + done.
  - assert (~ multicast dest) as Hm by (rewrite <- ismulticast_spec; congruence). destruct (ip4_input_accept n dest) eqn:Ea.
    { apply accept_spec in Ea; [|done]. split; [by intros [= ->]|]. intros H. destruct H. right. split; [done|by left]. }
    assert (~ addressed_to n dest) as Hna by (rewrite <- accept_spec by done; congruence).
    destruct (ip4_addr_isloopback dest) eqn:El; cbn [negb].
    { apply isloopback_spec in El. split; [|done]. intros _ [[? _]|[_ [?|[? _]]]]; done. }
    assert (~ loopback dest) as Hl by (rewrite <- isloopback_spec; congruence).
    rewrite accept_list_none; [|done|apply Hnf|by intros n' Hn'; rewrite Hn in Hn'; injection Hn' as <-].
    split; intros H H'; apply H; [|right; split; [done|by right]]. by destruct H' as [[? _]|[_ [?|[_ ?]]]].
Qed.

(** ** Delivery *)
Lemma deliver_spec p b hlen netif inp src dest x st s :
  keeps F s -> ok (p :: x) st -> received p st -> pget (ip_heap st) p = Ret b -> 20 <= hlen <= p_len b -> hlen <= 60 ->
  IPH_HL_BYTES (pmem (ip_heap st)) (payload b) = hlen -> 0 <= src < 4294967296 -> 0 <= dest < 4294967296 ->
  is_Some (nf_at nf inp) -> is_Some (nf_at nf netif) ->
  exists st' s' x' F', ip4_deliver custom_free malloc bmos nf ip4_frag udp_input tcp_input p (payload b) hlen netif inp src dest st s
    = Ret (st', s') /\ keeps F' s' /\ okF F' x' st'.
Proof.
  intros Hkeep H Hrc Hg Hh Hh60 Ehl Rs Rd Hinp Hnetif. destruct (ok_pget _ _ _ _ _ _ _ _ _ H) as (b0 & Hg0 & Hp & Hl & Ht).
  rewrite Hg in Hg0. injection Hg0 as <-. destruct Hrc as (b0 & Hg0 & Hr & Hpl). rewrite Hg in Hg0. injection Hg0 as <-.
  unfold ip4_deliver. destruct (header_force_back p hlen b (ip_heap st) Hg Hpl ltac:(lia) ltac:(lia)) as (b1 & b2 & E1 & E2 & B1 & B2 & B3 & B4 & -> & Eb1).
  rewrite E1, Ehl. cbn [res_bind]. set (st1 := set_ip_heap (pset p b1 (ip_heap st)) st).
  assert (ok (p :: x) st1) as H1 by (eapply ok_head_pset; try done; lia).
  pose proof (pget_pset (ip_heap st) p b1 Hp) as Hg1.
  assert (sole p st1) as Hs1 by (exists b1; split; [done|]; rewrite (sl_ref _ _ B1); done).
  assert (exists b', delivered p (mkIpData netif inp (payload b) hlen src dest) st1 b') as Hdl.
  { exists b. split; cbn [current_ip_header_tot_len current_iphdr_src current_iphdr_dest]; try done; try lia.
    etrans; [exact Hg1|]. by rewrite Eb1. }
  destruct (_ =? IP_PROTO_UDP); [by eapply (uo_udp Hup)|]. destruct (_ =? IP_PROTO_TCP); [by eapply (uo_tcp Hup)|].
  destruct (_ =? IP_PROTO_ICMP).
  { destruct Hinp as [n Hn]. destruct (icmp_input_spec custom_free malloc Hmalloc bmos Hbmos known known_null nf Hnf ip4_frag (Hfrag F)
      p inp n (mkIpData netif inp (payload b) hlen src dest) x st1 H1 Hs1 Hn Hnetif) as (st' & -> & H2).
    cbn [res_bind]. by exists st', s, x, F. }
  destruct Hnetif as [nn Hnn]. rewrite Hnn. cbn [res_of_option res_bind].
  assert (exists st2, (if negb (ip4_addr_isbroadcast dest nn) && negb (ip4_addr_ismulticast dest) then
      let* (_, h) := pbuf_header_force p hlen (ip_heap st1) in
      icmp_dest_unreach custom_free malloc bmos nf ip4_frag p ICMP_DUR_PROTO (set_ip_heap h st1) else Ret st1) = Ret st2 /\ ok (p :: x) st2)
    as (st2 & -> & H2).
  { destruct (_ && _); [|by exists st1]. change (ip_heap st1) with (pset p b1 (ip_heap st)). rewrite E2. cbn [res_bind].
    set (st2 := set_ip_heap (pset p b (pset p b1 (ip_heap st))) st1).
    assert (ok (p :: x) st2) as H2.
    { eapply (ok_head_pset custom_free malloc Hmalloc bmos Hbmos known st1 p x b1 b); try done; try lia. by destruct B1. }
    apply (send_response_spec custom_free malloc Hmalloc bmos Hbmos known known_null nf Hnf ip4_frag (Hfrag F) p ICMP_DUR ICMP_DUR_PROTO b (p :: x) st2 H2); [|lia].
    eapply ok_source; [exact H2|]. apply pget_pset, Hp. }
  cbn [res_bind]. destruct (ip_free_spec _ _ _ _ _ _ _ _ _ H2) as (st' & -> & H3 & _). cbn [res_bind]. by exists st', s, x, F.
Qed.

(** ** ip4_input *)

(** Trimming to the length in the header. *)
Lemma trim_spec p b len x st : ok (p :: x) st -> received p st -> pget (ip_heap st) p = Ret b -> 0 <= len ->
  exists st1 b1, (if len <? p_tot_len b then let* h := pbuf_realloc custom_free p len (ip_heap st) in Ret (set_ip_heap h st) else Ret st)
      = Ret st1 /\ ok (p :: x) st1 /\ received p st1 /\ pget (ip_heap st1) p = Ret b1 /\ payload b1 = payload b /\
    p_len b1 <= p_len b /\ p_tot_len b1 = Z.min len (p_tot_len b) /\ p_len b1 = Z.min (p_len b) (p_tot_len b1) /\
    pmem (ip_heap st1) = pmem (ip_heap st) /\ ip_id st1 = ip_id st /\ nic_tx (lk (ip_arp st1)) = nic_tx (lk (ip_arp st)) /\
    arp_table (ip_arp st1) = arp_table (ip_arp st) /\ (next b = NULL -> next b1 = NULL).
Proof.
  intros H Hrc Hg Hlen. destruct (ok_pget _ _ _ _ _ _ _ _ _ H) as (b0 & Hg0 & Hp & Hl & Ht). rewrite Hg in Hg0. injection Hg0 as <-.
  destruct (Z.ltb_spec len (p_tot_len b)) as [Hlt|Hge].
  - destruct (ao_owns _ _ _ H) as (Hm & Htx & C & HC).
    destruct (held_realloc custom_free (ip_heap st) C p _ len b HC Hg ltac:(lia))
      as (h' & C' & b' & -> & HC' & Em & Hg' & R1 & R2 & R3 & R4 & R5 & R6). cbn [res_bind].
    exists (set_ip_heap h' st), b'. split; [done|]. split.
    { eapply arp_ok_lk; [exact H|]. split_and!; cbn; [by rewrite Em|done|by exists C']. }
    split; [|split_and!; try done; lia]. destruct Hrc as (b0 & Hg0 & Hr & (L1 & L2 & L3 & L4)). rewrite Hg in Hg0. injection Hg0 as <-.
    exists b'. split; [done|]. split; [congruence|]. unfold placed. rewrite R3, R5. split_and!; try done. lia.
  - exists st, b. split_and!; try done; lia.
Qed.

Lemma u16_field m a o : mem_ok m -> 0 <= field m a o 2 < 65536.
Proof.
  intros Hm. unfold field. pose proof (le_val_bound (mem_read m (a + o) 2) (bytes_mem_read _ _ _ Hm)) as H.
  by rewrite length_mem_read in H.
Qed.
Lemma u32_field m a o : mem_ok m -> 0 <= field m a o 4 < 4294967296.
Proof.
  intros Hm. unfold field. pose proof (le_val_bound (mem_read m (a + o) 4) (bytes_mem_read _ _ _ Hm)) as H.
  by rewrite length_mem_read in H.
Qed.
Lemma ntohs_range x : 0 <= x < 65536 -> 0 <= lwip_ntohs x <= 65535.
Proof. apply htons_range. Qed.

End Rx.

Section Input.
Context {F : Frame}.
Variable custom_free : Z -> pheap -> res pheap.
Variable malloc : nat -> gmap Z pbuf -> Z.
Context (Hmalloc : malloc_ok malloc).
Variable bmos : netif.
Context (Hbmos : nif_hwaddr_len bmos = ETH_HWADDR_LEN).
#[local] Instance in_ops : LinkOps nic := nic_link custom_free malloc bmos.
#[local] Instance in_laws : LinkLaws nic := nic_laws custom_free malloc Hmalloc bmos Hbmos.
Variable known : Z -> Prop.
Context (known_null : ~ known 0).
Variable nf : netifs.
Context (Hnf : netifs_ok known nf).
Variable ip4_frag : Z -> Z -> Z -> ipst -> res (Z * ipst).
Abbreviation ok x st := (arp_ok known x (ip_arp st)).
Context (Hfrag : forall F0, @frag_ok F0 custom_free malloc Hmalloc bmos Hbmos known nf ip4_frag).
Context {T : Type}.
Variable ip4_reass : Z -> ipst -> T -> res (Z * ipst * T).
Variables udp_input tcp_input : Z -> Z -> ip_globals -> ipst -> T -> res (ipst * T).

Variable keeps : Frame -> T -> Prop.
Abbreviation okF F0 x st := (@arp_ok nic in_ops (@nic_laws F0 custom_free malloc Hmalloc bmos Hbmos) known x (ip_arp st)).
Context (Hup : upper_ok custom_free malloc Hmalloc bmos Hbmos known nf ip4_reass udp_input tcp_input keeps).

Lemma ip4_input_spec p inp n b x st s :
  keeps F s -> ok (p :: x) st -> received p st -> pget (ip_heap st) p = Ret b -> readable (pmem (ip_heap st)) b ->
  brings_data (pmem (ip_heap st)) b -> nf_at nf inp = Some n ->
  exists st' s' x' F', ip4_input custom_free malloc bmos nf ip4_frag ip4_reass udp_input tcp_input p inp st s = Ret (ERR_OK, st', s') /\
    keeps F' s' /\ okF F' x' st'.
Proof.
  intros Hkeep H Hrc Hg (Hl4 & Hudp) Hfr Hn. pose proof (ok_mem_ok _ _ _ _ _ _ _ _ H) as Hm.
  unfold ip4_input. rewrite Hg. cbn [res_bind]. rewrite !within_true by lia.
  assert (forall st1, ok (p :: x) st1 -> exists st' s' x' F', (let* st := ip_free custom_free p st1 in Ret (ERR_OK, st, s)) = Ret (ERR_OK, st', s') /\
    keeps F' s' /\ okF F' x' st') as Hdrop.
  { intros st1 H1. destruct (ip_free_spec _ _ _ _ _ _ _ _ _ H1) as (st' & -> & H2 & _). cbn [res_bind]. by exists st', s, x, F. }
  destruct (negb (_ =? 4)); [by apply Hdrop|].
  set (hlen := IPH_HL_BYTES _ _) in *. set (len := lwip_ntohs _).
  assert (0 <= len) as Hlen by (apply ntohs_range, u16_field, Hm). pose proof (hl_bytes_range _ _ : 0 <= hlen <= 60) as Hh.
  destruct (trim_spec custom_free malloc Hmalloc bmos Hbmos known p b len x st H Hrc Hg Hlen) as (st1 & b1 & -> & H1 & Hrc1 & Hg1 & Epl & Hle & Et & _ & Em1 & _ & _ & _ & Enx). cbn [res_bind].
  rewrite Hg1. cbn [res_bind]. rewrite !Z.gtb_ltb.
  destruct (Z.ltb_spec (p_len b1) hlen) as [|Hh1]; [by apply Hdrop|]. destruct (Z.ltb_spec (p_tot_len b1) len) as [|Htl]; [by apply Hdrop|].
  destruct (Z.ltb_spec hlen IP_HLEN) as [|Hh2]; [by apply Hdrop|]. cbn [orb]. unfold IP_HLEN in Hh2.
  destruct (negb (inet_chksum _ _ _ =? 0)); [by apply Hdrop|].
  destruct (match_netif_spec known nf Hnf inp (iph_dest (pmem (ip_heap st)) (payload b)) n Hn) as (netif & -> & Hnetif). cbn [res_bind].
  assert (exists netif' c, match_dhcp (pmem (ip_heap st)) (payload b) hlen (p_len b) inp netif = Ret (netif', c) /\
    (netif' = 0 \/ is_Some (nf_at nf netif'))) as (netif' & c & -> & Hnetif').
  { unfold match_dhcp. destruct (_ && (IPH_PROTO _ _ =? IP_PROTO_UDP)) eqn:Eu; [|by exists netif, true].
    apply andb_true_iff in Eu as [_ Eu%Z.eqb_eq]. rewrite within_true by (by apply Hudp).
    destruct (_ =? _); [exists inp, false|exists netif, true]; (split; [done|]); [right; by exists n|done]. }
  cbn [res_bind]. rewrite Hn. cbn [res_of_option res_bind]. destruct (_ && _ && _); [by apply Hdrop|].
  destruct (Z.eqb_spec netif' 0) as [|Hne]; [by apply Hdrop|]. destruct Hnetif' as [?|Hnetif']; [done|].
  assert (is_Some (nf_at nf inp)) as Hinp by by exists n.
  assert (forall F2 q bq st2 s2 y, keeps F2 s2 -> okF F2 (q :: y) st2 -> received q st2 -> pget (ip_heap st2) q = Ret bq -> hlen <= p_len bq ->
    IPH_HL_BYTES (pmem (ip_heap st2)) (payload bq) = hlen ->
    exists st' s' x' F', (let* (st, s) := ip4_deliver custom_free malloc bmos nf ip4_frag udp_input tcp_input q (payload bq) hlen netif' inp
        (iph_src (pmem (ip_heap st)) (payload b)) (iph_dest (pmem (ip_heap st)) (payload b)) st2 s2 in Ret (ERR_OK, st, s))
      = Ret (ERR_OK, st', s') /\ keeps F' s' /\ okF F' x' st') as Hdel.
  { intros F2 q bq st2 s2 y K2 H2 Hr2 Hg2 Hl2 Ehl2. destruct (deliver_spec (F := F2) custom_free malloc Hmalloc bmos Hbmos known known_null nf Hnf ip4_frag
      Hfrag ip4_reass udp_input tcp_input keeps Hup q bq hlen netif' inp (iph_src (pmem (ip_heap st)) (payload b))
      (iph_dest (pmem (ip_heap st)) (payload b)) y st2 s2 K2 H2 Hr2 Hg2 ltac:(lia) ltac:(lia) Ehl2
      (word_field _ _ _ Hm) (word_field _ _ _ Hm) Hinp Hnetif') as (st' & s' & x' & F' & -> & H3).
    cbn [res_bind]. by exists st', s', x', F'. }
  fold (is_fragment (pmem (ip_heap st)) (payload b)). unfold brings_data in Hfr.
  destruct (is_fragment (pmem (ip_heap st)) (payload b)) eqn:Ef.
  - fold hlen len in Hfr. destruct Hfr as (Hd & Htx & Hnx); [done|].
    destruct (uo_reass _ _ _ _ _ _ _ _ _ _ _ Hup F p b1 st1 s x Hkeep H1 Hrc1 Hg1) as (q & st2 & s2 & y & F2 & -> & K2 & Hq); rewrite ?Em1, ?Epl; fold hlen len; try done; try lia; try (by apply Enx).
    cbn [res_bind]. destruct Hq as [[-> H2]|(Hq & H2 & Hr2 & bq & Hg2 & Hl2 & Ehl2)].
    + cbn. by exists st2, s2, y, F2.
    + rewrite (proj2 (Z.eqb_neq q NULL) Hq), Hg2. cbn [res_bind]. rewrite (proj2 (Z.eqb_neq q NULL) Hq).
      rewrite Em1, Epl in Hl2, Ehl2. by apply (Hdel F2 q bq st2 s2 y).
  - cbn [res_bind]. destruct (ok_pget _ _ _ _ _ _ _ _ _ H) as (_ & _ & Hp & _). rewrite (proj2 (Z.eqb_neq p NULL) Hp).
    pose proof (Hdel F p b1 st1 s x Hkeep H1 Hrc1 Hg1 Hh1 ltac:(by rewrite Em1, Epl)) as Hd. rewrite Epl in Hd. exact Hd.
Qed.

(** ** Packets that are not accepted *)

(** The header can be used: version, lengths and checksum. *)
Definition hdr_valid (m : memory) (b : pbuf) : bool :=
  let a := payload b in
  let hlen := IPH_HL_BYTES m a in
  let len := lwip_ntohs (IPH_LEN m a) in
  (IPH_V m a =? 4) && (IP_HLEN <=? hlen) && (hlen <=? Z.min (p_len b) len) && (len <=? p_tot_len b) &&
  (inet_chksum (mload m) a hlen =? 0).
(** The source is an address that no host has. *)
Definition bad_source (a : Z) (n : nif) : Prop := a <> 0 /\ (broadcast_on n a \/ multicast a).
(** A message to the DHCP client, which is accepted whatever its destination. *)
Definition to_dhcp (m : memory) (a : Z) : bool :=
  (IPH_PROTO m a =? IP_PROTO_UDP) && (field m (a + IPH_HL_BYTES m a) 2 2 =? lwip_htons LWIP_IANA_PORT_DHCP_CLIENT).
Definition refused (m : memory) (b : pbuf) (inp : Z) (n : nif) : Prop :=
  hdr_valid m b = false \/
  ~ for_us nf inp (iph_dest m (payload b)) /\ to_dhcp m (payload b) = false \/
  for_us nf inp (iph_dest m (payload b)) /\ bad_source (iph_src m (payload b)) n.

(** Nothing was sent and nothing learned. *)
Definition silent (st st' : ipst) : Prop :=
  nic_tx (lk (ip_arp st')) = nic_tx (lk (ip_arp st)) /\ arp_table (ip_arp st') = arp_table (ip_arp st) /\ ip_id st' = ip_id st.

Lemma ip4_refuse_spec p inp n b x st s :
  ok (p :: x) st -> received p st -> pget (ip_heap st) p = Ret b -> readable (pmem (ip_heap st)) b -> nf_at nf inp = Some n ->
  refused (pmem (ip_heap st)) b inp n ->
  exists st', ip4_input custom_free malloc bmos nf ip4_frag ip4_reass udp_input tcp_input p inp st s = Ret (ERR_OK, st', s) /\
    ok x st' /\ silent st st'.
Proof.
  intros H Hrc Hg (Hl4 & Hudp) Hn Href. pose proof (ok_mem_ok _ _ _ _ _ _ _ _ H) as Hm. set (m := pmem (ip_heap st)) in *.
  unfold ip4_input. rewrite Hg. cbn [res_bind]. rewrite !within_true by lia. fold m.
  assert (forall st1, ok (p :: x) st1 -> silent st st1 ->
    exists st', (let* st := ip_free custom_free p st1 in Ret (ERR_OK, st, s)) = Ret (ERR_OK, st', s) /\ ok x st' /\ silent st st') as Hdrop.
  { intros st1 H1 (S1 & S2 & S3). destruct (ip_free_spec _ _ _ _ _ _ _ _ _ H1) as (st' & -> & H2 & Ei & _ & _ & Et & Ex).
    cbn [res_bind]. exists st'. split; [done|]. split; [done|]. unfold silent. split_and!; congruence. }
  unfold refused, hdr_valid in Href. cbv zeta in Href.
  destruct (IPH_V m (payload b) =? 4); cbn [negb andb] in *; [|by apply Hdrop].
  set (hlen := IPH_HL_BYTES m (payload b)) in *. set (len := lwip_ntohs _) in *.
  assert (0 <= len) as Hlen by (apply ntohs_range, u16_field, Hm).
  destruct (trim_spec custom_free malloc Hmalloc bmos Hbmos known p b len x st H Hrc Hg Hlen) as (st1 & b1 & -> & H1 & Hrc1 & Hg1 & Epl & Hle & Et1 & El1 & Em1 & Q1 & Q2 & Q3 & _). cbn [res_bind].
  assert (silent st st1) as Hs1 by by split_and!. specialize (Hdrop st1 H1 Hs1).
  rewrite Hg1. cbn [res_bind]. rewrite !Z.gtb_ltb.
  destruct (ok_pget _ _ _ _ _ _ _ _ _ H) as (b0 & Hg0 & _ & Hl0 & _). rewrite Hg in Hg0. injection Hg0 as <-.
  destruct (Z.ltb_spec (p_len b1) hlen) as [|Hh1]; [done|]. destruct (Z.ltb_spec (p_tot_len b1) len) as [|Hh3]; [done|].
  destruct (Z.ltb_spec hlen IP_HLEN) as [|Hh2]; [done|]. cbn [orb].
  rewrite (proj2 (Z.leb_le IP_HLEN hlen)), (proj2 (Z.leb_le hlen _)), (proj2 (Z.leb_le len _)) in Href by lia. cbn [andb] in Href.
  destruct (inet_chksum _ _ _ =? 0); cbn [negb]; [|done]. destruct Href as [?|Href]; [done|].
  destruct (match_netif_spec known nf Hnf inp (iph_dest m (payload b)) n Hn) as (netif & E & Hnetif). rewrite E in *. cbn [res_bind].
  assert (forall i, 0 <= field m (payload b) i 4 < 4294967296) as Hf by (intros; by apply u32_field).
  pose proof (match_netif_for_us known known_null nf Hnf inp (iph_dest m (payload b)) n (Hf 16) Hn) as Hfor. rewrite E in Hfor.
  unfold match_dhcp, bad_source, to_dhcp in *. fold hlen in Href. destruct Href as [[Hno Hd]|[Hyes (Hb0 & Hb1)]].
  - apply Hfor in Hno. injection Hno as ->. cbn [Z.eqb]. destruct (Z.eqb_spec (IPH_PROTO m (payload b)) IP_PROTO_UDP) as [Eu|_]; cbn [andb] in *.
    + rewrite within_true by (by apply Hudp). rewrite Hd. cbn [res_bind]. rewrite Hn. cbn [res_of_option res_bind].
      by destruct (_ && _).
    + cbn [res_bind]. rewrite Hn. cbn [res_of_option res_bind]. by destruct (_ && _).
  - assert (netif <> 0) as Hn0 by (intros ->; by apply Hfor). rewrite (proj2 (Z.eqb_neq netif 0) Hn0). cbn [andb res_bind]. rewrite Hn.
    cbn [res_of_option res_bind andb]. rewrite (proj2 (Z.eqb_neq _ IPADDR_ANY) Hb0). cbn [negb andb].
    assert (ip4_addr_isbroadcast (iph_src m (payload b)) n || ip4_addr_ismulticast (iph_src m (payload b)) = true) as ->; [|done].
    apply orb_true_iff. rewrite isbroadcast_spec, ismulticast_spec by apply (Hf 12). done.
Qed.
End Input.
