(* ===== verification/Ip4Hdr.v ===== *)
(** * The bytes of IPv4 and ICMP headers

    What the stores of ip4_output_if_src and icmp_input leave in memory, and
    that the checksums they compute on the way are the RFC 1071 ones. *)
From S2P Require Import Prelude NetShim Checksum Pbuf PbufChain PbufOps PbufClone Ip4 Icmp.

Lemma mem_read_splice m a o bs n :
  addr_ok a n -> 0 <= o -> o + Z.of_nat (length bs) <= n -> bytes bs ->
  mem_read (mem_write m (a + o) bs) a n =
  take (Z.to_nat o) (mem_read m a n) ++ bs ++ drop (Z.to_nat o + length bs) (mem_read m a n).
Proof.
  intros Ha Ho Hn Hb. unfold addr_ok in Ha. set (k := Z.of_nat (length bs)) in *.
  replace n with (o + (k + (n - o - k))) by lia. rewrite !mem_read_split by lia.
  rewrite take_app_length' by (rewrite length_mem_read; lia). f_equal.
  { apply mem_read_write_out; unfold addr_ok; lia. }
  rewrite app_assoc, drop_app_length' by (rewrite length_app, !length_mem_read; lia). f_equal.
  - apply mem_read_stored; [lia|unfold addr_ok; lia|done].
  - apply mem_read_write_out; unfold addr_ok; lia.
Qed.

(** ** The IPv4 header *)
Definition be16 (x : Z) : list Z := [x / 256; x mod 256].

Lemma htons_bytes x : 0 <= x < 65536 -> le_bytes 2 (lwip_htons x) = be16 x.
Proof.
  intros H. change (lwip_htons x) with (SWAP_BYTES_IN_WORD x). rewrite swap_eq by lia. unfold be16.
  assert (0 <= x / 256 < 256 /\ 0 <= x mod 256 < 256) as [Hq Hr] by zdiv.
  generalize dependent (x / 256). generalize dependent (x mod 256). intros r Hr q Hq. cbn [le_bytes]. unfold u8.
  f_equal; [|f_equal]; zdiv.
Qed.

(** An IPv4 header without options; addresses are words as they are stored,
    [c] is the checksum field. *)
Definition iphdr (tot_len id src dest ttl tos proto c : Z) : list Z :=
  [0x45; tos] ++ be16 tot_len ++ be16 id ++ [0; 0; ttl; proto] ++ le_bytes 2 c ++ le_bytes 4 src ++ le_bytes 4 dest.

Lemma le_bytes_1 x : is_byte x -> le_bytes 1 x = [x].
Proof. unfold is_byte. intros H. cbn. by rewrite u8_small. Qed.

(** A list with twenty elements spelt out. *)
Ltac spell l H := do 20 (destruct l as [|? l]; [discriminate H|]); destruct l; [clear H|discriminate H].

(** From [E : mem_read m a n = l] to the memory after a store at offset [o]. *)
Ltac splice E Ha m a o bs :=
  let E' := fresh "E" in
  pose proof (mem_read_splice m a o bs _ Ha ltac:(lia) ltac:(cbn; lia) ltac:(first [apply le_bytes_bytes | repeat constructor; (done || unfold is_byte in *; zdiv)])) as E';
  rewrite E in E'; clear E; rename E' into E; cbn [Z.to_nat Pos.to_nat Pos.iter_op Nat.add take drop app le_bytes length be16] in E.

Lemma write_iphdr_read m a tot_len id src dest ttl tos proto :
  addr_ok a 20 -> 0 <= tot_len < 65536 -> 0 <= id < 65536 -> is_byte ttl -> is_byte tos -> is_byte proto ->
  mem_read (write_iphdr m a tot_len id src dest ttl tos proto) a 20 =
  iphdr tot_len id src dest ttl tos proto (inline_sum proto ttl dest tos 69 (lwip_htons tot_len) (lwip_htons id) src).
Proof.
  intros Ha Ht Hi B1 B2 B3. unfold write_iphdr. cbv zeta. change (u8 (Z.lor (Z.shiftl 4 4) (IP_HLEN / 4))) with 69.
  set (c := inline_sum _ _ _ _ _ _ _ _).
  rewrite !htons_bytes by lia. rewrite !u8_small by done. rewrite !le_bytes_1 by (done || (unfold is_byte; lia)).
  pose proof (length_mem_read m a 20) as HL. destruct (mem_read m a 20) as [|x0 l] eqn:E; [discriminate|].
  pose proof I as K. remember (x0 :: l) as L eqn:EL. clear EL x0 l K. spell L HL.
  splice E Ha m a 8 [ttl]. set (m1 := mem_write m _ _) in *.
  splice E Ha m1 a 9 [proto]. set (m2 := mem_write m1 _ _) in *.
  splice E Ha m2 a 16 (le_bytes 4 dest). set (m3 := mem_write m2 _ _) in *.
  splice E Ha m3 a 0 [69]. rewrite Z.add_0_r in E. set (m4 := mem_write m3 _ _) in *.
  splice E Ha m4 a 1 [tos]. set (m5 := mem_write m4 _ _) in *.
  splice E Ha m5 a 2 (be16 tot_len). set (m6 := mem_write m5 _ _) in *.
  splice E Ha m6 a 6 (le_bytes 2 0). set (m7 := mem_write m6 _ _) in *.
  splice E Ha m7 a 4 (be16 id). set (m8 := mem_write m7 _ _) in *.
  splice E Ha m8 a 12 (le_bytes 4 src). set (m9 := mem_write m8 _ _) in *.
  splice E Ha m9 a 10 (le_bytes 2 c). exact E.
Qed.

(** ** Checksums *)
Lemma ones16_range x : 0 <= x -> 0 <= ones16 x <= 65535.
Proof. intros H. unfold ones16. destruct (Z.eqb_spec x 0); [lia|]. zdiv. Qed.

Lemma rfc1071_range l : bytes l -> 0 <= rfc1071 l <= 65535.
Proof. intros H. unfold rfc1071. pose proof (ones16_range _ (wsum_nonneg false l H)). lia. Qed.

Lemma rfc1071_zero l : bytes l -> rfc1071 l = 0 <-> 0 < wsum false l /\ wsum false l mod 65535 = 0.
Proof.
  intros H. pose proof (wsum_nonneg false l H) as Hn. unfold rfc1071, ones16. destruct (Z.eqb_spec (wsum false l) 0) as [->|Hne].
  - split; [lia|]. intros [? _]. lia.
  - split; [intros; split; zdiv|intros [_ ?]; zdiv].
Qed.

(** Adding the checksum to the sum makes it verify. *)
Lemma rfc1071_verifies l l' : bytes l -> bytes l' -> wsum false l' = wsum false l + rfc1071 l -> rfc1071 l' = 0.
Proof.
  intros Hb Hb' E. apply rfc1071_zero; [done|]. rewrite E. pose proof (wsum_nonneg false l Hb) as Hn. unfold rfc1071, ones16.
  destruct (Z.eqb_spec (wsum false l) 0) as [->|Hne]; [done|]. split; zdiv.
Qed.

Lemma word_sum x : 0 <= x < 4294967296 ->
  u8 x + 256 * u8 (x / 256) + (u8 (x / 256 / 256) + 256 * u8 (x / 256 / 256 / 256)) = x mod 65536 + x / 65536.
Proof. intros H. unfold u8. zdiv. Qed.

Lemma half_sum c : 0 <= c <= 65535 -> u8 c + 256 * u8 (c / 256) = c.
Proof. intros H. unfold u8. zdiv. Qed.

Lemma htons_eq x : 0 <= x < 65536 -> lwip_htons x = x / 256 + 256 * (x mod 256).
Proof. intros H. change (lwip_htons x) with (SWAP_BYTES_IN_WORD x). rewrite swap_eq by lia. zdiv. Qed.

Lemma iphdr_sum tot_len id src dest ttl tos proto c :
  0 <= src < 4294967296 -> 0 <= dest < 4294967296 -> 0 <= c <= 65535 ->
  wsum false (iphdr tot_len id src dest ttl tos proto c) =
  0x45 + 256 * tos + (tot_len / 256 + 256 * (tot_len mod 256)) + (id / 256 + 256 * (id mod 256)) + (ttl + 256 * proto) + c +
  (src mod 65536 + src / 65536) + (dest mod 65536 + dest / 65536).
Proof.
  intros Hs Hd Hc. unfold iphdr, be16. cbn [app le_bytes wsum negb]. rewrite <- (word_sum src), <- (word_sum dest) by done.
  pose proof (half_sum c Hc). lia.
Qed.

Lemma bytes_iphdr tot_len id src dest ttl tos proto c :
  0 <= tot_len < 65536 -> 0 <= id < 65536 -> is_byte ttl -> is_byte tos -> is_byte proto ->
  bytes (iphdr tot_len id src dest ttl tos proto c).
Proof.
  intros Ht Hi B1 B2 B3. unfold iphdr, be16. cbn [app le_bytes].
  repeat (constructor; [first [apply u8_is_byte | done | unfold is_byte; zdiv]|]). constructor.
Qed.

Lemma swap_two lo hi : is_byte lo -> is_byte hi -> lwip_ntohs (Z.lor lo (Z.shiftl hi 8)) = hi + 256 * lo.
Proof.
  unfold is_byte. intros H1 H2. rewrite Z.lor_comm, lor_shift_add by (change (2 ^ 8) with 256; lia). change (2 ^ 8) with 256.
  change (lwip_ntohs (hi * 256 + lo)) with (lwip_htons (hi * 256 + lo)). rewrite htons_eq by lia. zdiv.
Qed.

Lemma u32_add_l a b : u32 (u32 a + b) = u32 (a + b).
Proof. apply Zplus_mod_idemp_l. Qed.

(** The folding at the end of the inline checksum. *)
Lemma inline_fold s : 0 < s < 16777216 -> let c := u32 (s / 65536 + s mod 65536) in
  u16 (u32 (Z.lnot (u32 (c / 65536 + c)))) = 65535 - ones16 s.
Proof.
  intros Hs c. assert (c = s / 65536 + s mod 65536 /\ 0 < c < 131072) as [Ec Hc].
  { unfold c. rewrite u32_small by zdiv. split; [done|zdiv]. }
  unfold ones16. rewrite (proj2 (Z.eqb_neq s 0)) by lia. rewrite (u32_small (c / 65536 + c)) by zdiv.
  unfold Z.lnot, u16, u32. rewrite <- (Z.mod_mod_divide _ 4294967296 65536) by (by exists 65536). clearbody c. zdiv.
Qed.

Lemma inline_sum_eq tot_len id src dest ttl tos proto :
  0 <= src < 4294967296 -> 0 <= dest < 4294967296 -> 0 <= tot_len < 65536 -> 0 <= id < 65536 ->
  is_byte ttl -> is_byte tos -> is_byte proto ->
  inline_sum proto ttl dest tos 69 (lwip_htons tot_len) (lwip_htons id) src =
  rfc1071 (iphdr tot_len id src dest ttl tos proto 0).
Proof.
  intros Hs Hd Ht Hi B1 B2 B3. unfold inline_sum. cbv zeta. rewrite !swap_two by (done || (unfold is_byte; lia)).
  rewrite !htons_eq by done. rewrite !u32_add_l, !land16, !Z.shiftr_div_pow2 by (lia || apply u32_range).
  change (2 ^ 16) with 65536. unfold rfc1071. rewrite iphdr_sum by lia. unfold is_byte in *.
  assert (0 <= tot_len / 256 < 256 /\ 0 <= tot_len mod 256 < 256 /\ 0 <= id / 256 < 256 /\ 0 <= id mod 256 < 256 /\
    0 <= src mod 65536 < 65536 /\ 0 <= src / 65536 < 65536 /\ 0 <= dest mod 65536 < 65536 /\ 0 <= dest / 65536 < 65536) as Hr by zdiv.
  match goal with |- _ = 65535 - ones16 ?x => set (S := x) end.
  repeat (rewrite u32_add_l || rewrite <- Z.add_assoc).
  match goal with |- context [u32 (0 + ?x)] => replace (u32 (0 + x)) with S by (rewrite u32_small; unfold S; lia) end.
  apply inline_fold. unfold S. lia.
Qed.

(** The header that was written verifies. *)
Lemma iphdr_verifies tot_len id src dest ttl tos proto :
  0 <= src < 4294967296 -> 0 <= dest < 4294967296 -> 0 <= tot_len < 65536 -> 0 <= id < 65536 ->
  is_byte ttl -> is_byte tos -> is_byte proto ->
  rfc1071 (iphdr tot_len id src dest ttl tos proto (rfc1071 (iphdr tot_len id src dest ttl tos proto 0))) = 0.
Proof.
  intros Hs Hd Ht Hi B1 B2 B3.
  assert (forall c, bytes (iphdr tot_len id src dest ttl tos proto c)) as Hb by (intros; by apply bytes_iphdr).
  apply (rfc1071_verifies (iphdr tot_len id src dest ttl tos proto 0)); [done..|].
  rewrite !iphdr_sum by (done || lia || apply rfc1071_range, Hb). lia.
Qed.

(** ** Stores within a range *)
Lemma unchanged_write a n m0 m o bs : addr_ok a n -> 0 <= o -> o + Z.of_nat (length bs) <= n ->
  unchanged_off a n m0 m -> unchanged_off a n m0 (mem_write m (a + o) bs).
Proof.
  intros Ha Ho Hn H y k Hy Hd. unfold addr_ok in *. rewrite mem_read_write_out; [by apply H|unfold addr_ok; lia..].
Qed.
Lemma unchanged_refl a n m : unchanged_off a n m m.
Proof. by intros y k _ _. Qed.

Lemma write_iphdr_off m a tot_len id src dest ttl tos proto :
  addr_ok a 20 -> unchanged_off a 20 m (write_iphdr m a tot_len id src dest ttl tos proto).
Proof.
  intros Ha. unfold write_iphdr. cbv zeta.
  assert (forall m bs, mem_write m a bs = mem_write m (a + 0) bs) as E0 by (intros; by rewrite Z.add_0_r).
  rewrite (E0 _ (le_bytes 1 (u8 _))). repeat (apply unchanged_write; [done|lia|rewrite length_le_bytes; lia|]). apply unchanged_refl.
Qed.

(** ** The echo reply *)

(** The header [H] of the request with new addresses, time to live and checksum. *)
Definition reply_hdr (H : list Z) (src dest c : Z) : list Z :=
  take 8 H ++ [ICMP_TTL] ++ take 1 (drop 9 H) ++ le_bytes 2 c ++ le_bytes 4 src ++ le_bytes 4 dest ++ drop 20 H.
(** The message with type 0 and the adjusted checksum. *)
Definition reply_body (B : list Z) : list Z :=
  [ICMP_ER] ++ take 1 (drop 1 B) ++ le_bytes 2 (adjust_chksum (le_val (take 2 (drop 2 B)))) ++ drop 4 B.

Lemma inet_chksum_mem m a n : mem_ok m -> 0 <= n <= 0x1ffff -> inet_chksum (mload m) a n = rfc1071 (mem_read m a n).
Proof. intros Hm Hn. destruct (chksum_standard_eq (mload m) a n Hm Hn) as [_ ->]. done. Qed.

Lemma write_reply_hdr m a hlen src dest :
  mem_ok m -> addr_ok a (hlen + 4) -> 20 <= hlen <= 60 -> let H := mem_read m a hlen in
  mem_read (write_reply m a (a + hlen) hlen src dest) a hlen = reply_hdr H src dest (rfc1071 (reply_hdr H src dest 0)).
Proof.
  intros Hm Ha4 Hh H. assert (addr_ok a hlen) as Ha by (unfold addr_ok in *; lia).
  unfold write_reply. cbv zeta. set (c := adjust_chksum _).
  assert (exists l, length l = Z.to_nat hlen /\ mem_read m a hlen = l) as (L & HL & E) by (exists H; split; [apply length_mem_read|done]).
  unfold H. rewrite E. clear H. destruct (le_lt_dec 20 (length L)) as [HL2|?]; [|lia]. clear HL.
  do 20 (destruct L as [|? L]; [cbn in HL2; lia|]). clear HL2.
  splice E Ha m a 12 (le_bytes 4 src). set (m1 := mem_write m _ _) in *.
  splice E Ha m1 a 16 (le_bytes 4 dest). set (m2 := mem_write m1 _ _) in *.
  assert (mem_read (mem_write m2 (a + hlen) (le_bytes 1 ICMP_ER)) a hlen = mem_read m2 a hlen) as E3.
  { apply mem_read_write_out; unfold addr_ok in *; cbn [length le_bytes]; lia. }
  rewrite E in E3. clear E. rename E3 into E. set (m3 := mem_write m2 _ _) in *.
  assert (mem_read (mem_write m3 (a + hlen + 2) (le_bytes 2 c)) a hlen = mem_read m3 a hlen) as E3.
  { apply mem_read_write_out; unfold addr_ok in *; cbn [length le_bytes]; lia. }
  rewrite E in E3. clear E. rename E3 into E. set (m4 := mem_write m3 _ _) in *.
  splice E Ha m4 a 8 (le_bytes 1 ICMP_TTL). set (m5 := mem_write m4 _ _) in *.
  splice E Ha m5 a 10 (le_bytes 2 0). set (m6 := mem_write m5 _ _) in *.
  assert (mem_ok m6) as Hm6 by (unfold m6, m5, m4, m3, m2, m1; by repeat apply mem_ok_mem_write).
  rewrite (inet_chksum_mem m6 a hlen Hm6), E by lia. set (k := rfc1071 _).
  splice E Ha m6 a 10 (le_bytes 2 k). exact E.
Qed.

Lemma write_reply_body m a hlen src dest n :
  addr_ok a (hlen + n) -> 20 <= hlen <= 60 -> 4 <= n ->
  mem_read (write_reply m a (a + hlen) hlen src dest) (a + hlen) n = reply_body (mem_read m (a + hlen) n).
Proof.
  intros Ha Hh Hn. assert (addr_ok (a + hlen) n) as Hi by (unfold addr_ok in *; lia).
  unfold write_reply. cbv zeta. set (ie := a + hlen) in *.
  assert (forall m o bs, 0 <= o -> o + Z.of_nat (length bs) <= 20 -> mem_read (mem_write m (a + o) bs) ie n = mem_read m ie n) as Hout.
  { intros m' o bs Ho Hb. apply mem_read_write_out; unfold addr_ok in *; lia. }
  set (m2 := mem_write (mem_write m _ _) _ _).
  assert (mem_read m2 ie n = mem_read m ie n) as E by (unfold m2; by rewrite !Hout by (rewrite ?length_le_bytes; lia)).
  rewrite !Hout by (rewrite ?length_le_bytes; lia).
  assert (exists l, (4 <= length l)%nat /\ mem_read m ie n = l) as (L & HL & EL) by (eexists; split; [|done]; rewrite length_mem_read; lia).
  rewrite EL in E |- *. clear EL. do 4 (destruct L as [|? L]; [cbn in HL; lia|]). clear HL.
  splice E Hi m2 ie 0 (le_bytes 1 ICMP_ER). rewrite Z.add_0_r in E.
  set (m3 := mem_write m2 _ _) in *. change (mem_read m3 ie n = u8 ICMP_ER :: z0 :: z1 :: z2 :: L) in E.
  assert (field m3 ie 2 2 = le_val [z1; z2]) as ->.
  { unfold field. change [z1; z2] with (take 2 (drop 2 (u8 ICMP_ER :: z0 :: z1 :: z2 :: L))). rewrite <- E. f_equal.
    pose proof (window_mem_read m3 ie n 2 2) as Hw. unfold window in Hw. symmetry. apply Hw; lia. }
  set (k := adjust_chksum _). splice E Hi m3 ie 2 (le_bytes 2 k). exact E.
Qed.

Lemma write_reply_off m a hlen src dest : addr_ok a (hlen + 4) -> 20 <= hlen <= 60 ->
  unchanged_off a (hlen + 4) m (write_reply m a (a + hlen) hlen src dest).
Proof.
  intros Ha Hh. unfold write_reply. cbv zeta. rewrite <- (Z.add_assoc a hlen 2).
  repeat (apply unchanged_write; [done|lia|rewrite length_le_bytes; lia|]). apply unchanged_refl.
Qed.

(** ** The reply verifies *)
Lemma adjust_chksum_eq c : 0 <= c < 65536 -> 0 < adjust_chksum c < 65536 /\ exists k, adjust_chksum c = c + 8 - 65535 * k.
Proof.
  intros Hc. unfold adjust_chksum. change (lwip_htons (0xffff - Z.shiftl ICMP_ECHO 8)) with 0xfff7.
  change (lwip_htons (u16 (Z.shiftl ICMP_ECHO 8))) with 8. change (lwip_htons (Z.shiftl ICMP_ECHO 8)) with 8.
  rewrite Z.gtb_ltb. destruct (Z.ltb_spec 65527 c) as [Hlt|Hge].
  - unfold u16. split; [zdiv|]. exists 1. zdiv.
  - rewrite u16_small by lia. split; [lia|]. exists 0. lia.
Qed.

Lemma reply_body_verifies code c0 c1 R : is_byte code -> is_byte c0 -> is_byte c1 -> bytes R ->
  rfc1071 (ICMP_ECHO :: code :: c0 :: c1 :: R) = 0 -> rfc1071 (reply_body (ICMP_ECHO :: code :: c0 :: c1 :: R)) = 0.
Proof.
  intros B1 B2 B3 HR. assert (bytes (ICMP_ECHO :: code :: c0 :: c1 :: R)) as Hb by (repeat (constructor; [done|]); done).
  set (c := le_val [c0; c1]). assert (c = c0 + 256 * c1) as Ec by (unfold c; cbn; lia). unfold is_byte in *.
  destruct (adjust_chksum_eq c ltac:(lia)) as [Hr [k Hk]].
  unfold reply_body. cbn [take drop app]. rewrite take_0, drop_0. fold c. set (c' := adjust_chksum c) in *. cbn [le_bytes app].
  intros E%rfc1071_zero; [|done]. apply rfc1071_zero.
  { repeat (constructor; [first [apply u8_is_byte | done]|]). done. }
  pose proof (half_sum c' ltac:(lia)) as Hc'. pose proof (wsum_nonneg false R HR) as Hn.
  cbn [wsum negb] in *. unfold ICMP_ECHO, ICMP_ER in *. destruct E as [E1 E2]. split; [lia|].
  replace (0 + (256 * code + (u8 c' + (256 * u8 (c' / 256) + wsum false R)))) with
    (8 + (256 * code + (c0 + (256 * c1 + wsum false R))) + (- k) * 65535) by lia.
  by rewrite Z.mod_add.
Qed.

(** Storing the checksum of a header with a zero checksum field makes it verify. *)
Lemma reply_hdr_verifies H src dest : bytes H -> (20 <= length H)%nat ->
  rfc1071 (reply_hdr H src dest (rfc1071 (reply_hdr H src dest 0))) = 0.
Proof.
  intros Hb HL. do 20 (destruct H as [|? H]; [cbn in HL; lia|]). clear HL.
  assert (forall c, bytes (reply_hdr (z :: z0 :: z1 :: z2 :: z3 :: z4 :: z5 :: z6 :: z7 :: z8 :: z9 :: z10 :: z11 :: z12 :: z13 :: z14 :: z15 ::
    z16 :: z17 :: z18 :: H) src dest c)) as Hbr.
  { intros c. unfold bytes in Hb. repeat match goal with H : Forall _ (_ :: _) |- _ => inversion H; clear H; subst end.
    cbn. repeat (constructor; [first [apply u8_is_byte | done | unfold is_byte, ICMP_TTL; lia]|]). done. }
  eapply rfc1071_verifies; [apply (Hbr 0)|apply Hbr|]. pose proof (rfc1071_range _ (Hbr 0)) as Hr. set (k := rfc1071 _) in *.
  unfold reply_hdr. cbn [take drop app le_bytes wsum negb]. pose proof (half_sum k Hr). change (u8 0) with 0. change (0 / 256) with 0.
  change (u8 0) with 0. lia.
Qed.
