(* ===== verification/Ip4Send.v ===== *)
(** * Sending IPv4 packets: what goes on the wire *)
From S2P Require Import Prelude NetShim Ip4Addr Link Etharp EtharpInv EtharpOps EtharpSend Checksum Pbuf PbufChain PbufOps NetGlue PbufClone Ethernet EthernetInv EthernetRx Ip4 Icmp Ip4Inv IcmpInv Ip4Hdr.

(** A packet of the pbufs [(p, b) :: r], with one reference and with room for
    [k] bytes of headers in its first pbuf. *)
Record sendable (h : pheap) (p : Z) (b : pbuf) (r : list (Z * pbuf)) (k : Z) : Prop := {
  sd_chain : chain_at (pbufs h) p ((p, b) :: r);
  sd_wf : wf_chain ((p, b) :: r);
  sd_payloads : payloads_ok ((p, b) :: r);
  sd_addr : 0 < p;
  sd_room : p + 24 <= payload b - k;
  sd_clear : clear_of (payload b - k) (k + p_len b) r;
  sd_type : has_flag (type_internal b) PBUF_TYPE_FLAG_STRUCT_DATA_CONTIGUOUS = true;
  sd_ref : p_ref b = 1;
}.

Lemma sendable_pget h p b r k : sendable h p b r k -> pget h p = Ret b.
Proof. intros H. by eapply pget_chain, H. Qed.

(** A header in front of a packet: it is still sendable, with less room. *)
Lemma push_sendable h p b r k inc m :
  sendable h p b r (k + inc) -> 0 <= k -> 0 < inc -> p_tot_len b + inc < 65536 ->
  let b' := set_data (payload b - inc) (p_len b + inc) (p_tot_len b + inc) b in
  sendable (mkPheap (<[p := b']> (pbufs h)) m) p b' r k.
Proof.
  intros [C W P A R L F Rf] Hk Hi Ht b'. pose proof (chain_not_in_tail _ _ _ _ _ C) as Hnt.
  destruct C as (_ & C0 & Cb & Cr), W as (W1 & W2 & W3 & W4), P as (P1 & P2 & P3). cbn [snd] in *. unfold addr_ok in P1.
  pose proof (tot_nonneg _ W4) as Htn. unfold clear_of in L. rewrite Forall_forall in L. split; try done.
  - cbn. rewrite lookup_insert_eq. split_and!; try done. by apply chain_at_insert.
  - cbn. split_and!; try done; lia.
  - cbn. unfold addr_ok, apart. cbn. split_and!; try done; try lia. apply Forall_forall. intros [c d] Hin.
    rewrite Forall_forall in P2. specialize (P2 _ Hin). specialize (L _ Hin). unfold apart in P2. cbn in *. lia.
  - cbn. lia.
  - unfold clear_of. apply Forall_forall. intros [c d] Hin. specialize (L _ Hin). cbn in *. lia.
Qed.

(** The pbufs behind the first are not touched by stores in front of its end. *)
Lemma tail_data h p b r k x n m : sendable h p b r k -> 0 <= k -> payload b - k <= x -> x + n <= payload b + p_len b ->
  unchanged_off x n (pmem h) m -> chain_data m r = chain_data (pmem h) r.
Proof.
  intros [C W P A R L F Rf] Hk Hx Hn Hu. destruct P as (_ & _ & P3). unfold clear_of in L. rewrite Forall_forall in L.
  apply chain_data_frame. intros c d Hin. apply Hu; [by eapply payloads_ok_elem|]. specialize (L _ Hin). cbn in L. lia.
Qed.

Lemma push_data h p b r k inc m :
  sendable h p b r (k + inc) -> 0 <= k -> 0 < inc ->
  let b' := set_data (payload b - inc) (p_len b + inc) (p_tot_len b + inc) b in
  unchanged_off (payload b - inc) inc (pmem h) m ->
  chain_data m ((p, b') :: r) = mem_read m (payload b - inc) inc ++ chain_data (pmem h) ((p, b) :: r).
Proof.
  intros Hs Hk Hi b' Hu. pose proof Hs as [C W P A R L F Rf].
  destruct W as (W1 & W2 & W3 & W4), P as (P1 & P2 & P3). cbn [snd] in *. unfold addr_ok in P1.
  rewrite !chain_data_cons. change (payload b') with (payload b - inc). change (p_len b') with (p_len b + inc).
  rewrite (Z.add_comm (p_len b) inc), mem_read_split, <- app_assoc by lia. f_equal.
  replace (payload b - inc + inc) with (payload b) by lia. rewrite (Hu (payload b) (p_len b)) by (unfold addr_ok; lia). f_equal.
  apply (tail_data h p b r (k + inc) (payload b - inc) inc); try done; lia.
Qed.

(** Going through ARP to the station [mac]: a broadcast goes to all stations,
    and for others the next hop towards [dest] is in the table. *)
Variant hop (t : list etharp_entry) (n : nif) (netif dest : Z) (mac : list Z) : Prop :=
  | hop_broadcast : ip4_addr_isbroadcast dest n = true -> mac = ethbroadcast -> hop t n netif dest mac
  | hop_station d i e : ip4_addr_isbroadcast dest n = false -> ip4_addr_ismulticast dest = false -> bytes mac ->
      next_hop n dest = Some d -> t !! i = Some e -> quiet e -> e_ipaddr e = d -> e_netif e = netif -> e_ethaddr e = mac ->
      hop t n netif dest mac.

Section Send.
Context {Fr : Frame}.
Variable custom_free : Z -> pheap -> res pheap.
Variable malloc : nat -> gmap Z pbuf -> Z.
Context (Hmalloc : malloc_ok malloc).
Variable bmos : netif.
Context (Hbmos : nif_hwaddr_len bmos = ETH_HWADDR_LEN).
#[local] Instance send_ops : LinkOps nic := nic_link custom_free malloc bmos.
#[local] Instance send_laws : LinkLaws nic := nic_laws custom_free malloc Hmalloc bmos Hbmos.
Variable known : Z -> Prop.
Context (known_null : ~ known 0).
Abbreviation ok x st := (arp_ok known x (ip_arp st)).
Variable nf : netifs.
Context (Hnf : netifs_ok known nf).
Variable ip4_frag : Z -> Z -> Z -> ipst -> res (Z * ipst).
Context (Hfrag : frag_ok custom_free malloc Hmalloc bmos Hbmos known nf ip4_frag).

(** The frame on the wire: [packet] in an Ethernet frame from [n] to [mac]. *)
Definition frame_of (n : nif) (mac packet : list Z) : list Z := mac ++ if_hwaddr n ++ be16 ETHTYPE_IP ++ packet.

(** One frame went out, with [packet]; the table is as before. *)
Definition framed_out (n : nif) (mac packet : list Z) (st st' : ipst) : Prop :=
  nic_tx (lk (ip_arp st')) = nic_tx (lk (ip_arp st)) ++ [frame_of n mac packet] /\
  arp_table (ip_arp st') = arp_table (ip_arp st) /\ ip_id st' = ip_id st.

Lemma transmit_frame p dest netif n b r mac x st :
  ok (p :: x) st -> sendable (ip_heap st) p b r 14 -> nf_at nf netif = Some n -> bytes (if_hwaddr n) ->
  hop (arp_table (ip_arp st)) n netif dest mac -> p_tot_len b <= if_mtu n -> p_tot_len b <= 1508 ->
  exists st', ip4_transmit custom_free malloc bmos nf ip4_frag p dest netif st = Ret (ERR_OK, st') /\ ok (p :: x) st' /\
    framed_out n mac (chain_data (pmem (ip_heap st)) ((p, b) :: r)) st st'.
Proof.
  intros H Hs Hn Bh Hhop Hmtu Htx.
  destruct (no_nif _ _ Hnf _ _ Hn) as (Hk & N1 & N2). pose proof (sendable_pget _ _ _ _ _ Hs) as Hg.
  assert (length mac = 6%nat /\ bytes mac) as [Lm Bm].
  { destruct Hhop as [_ -> |d i e _ _ Bm _ Hi _ _ _ Emac]; [by split; [|repeat constructor; unfold is_byte; lia]|].
    pose proof (eo_mac _ _ (ao_entry _ _ _ H i e Hi)) as Lm. by rewrite Emac in Lm. }
  destruct (frame_out (lk (ip_arp st)) p b r (if_hwaddr n) mac ETHTYPE_IP) as (w & E & Hw); try done; try (by destruct Hs).
  { unfold SIZEOF_ETH_HDR. eapply Forall_impl; [exact (sd_clear _ _ _ _ _ Hs)|]. intros [c0 d0]. cbn. pose proof (sd_wf _ _ _ _ _ Hs) as [? _]. lia. }
  { unfold SIZEOF_ETH_HDR, TXBUF. lia. }
  { apply (ao_owns _ _ _ H). }
  assert (lk_output p (if_hwaddr n) mac ETHTYPE_IP (lk (ip_arp st)) = Ret (ERR_OK, w)) as E'.
  { cbn [lk_output nic_link send_ops]. rewrite Hbmos. exact E. }
  assert (exists c, etharp_output (nf_at nf) netif p dest (ip_arp st) = Ret (ERR_OK, mkArp (arp_table (ip_arp st)) c w)) as (c & Eo).
  { destruct Hhop as [Hb -> |d i e Hb Hm _ Hd Hi Hq Hip Hnet Emac].
    - exists (etharp_cached_entry (ip_arp st)). unfold etharp_output. rewrite Hn. cbn [res_of_option res_bind].
      rewrite (proj2 (Z.eqb_neq p 0)) by exact (owns_null _ _ _ (ao_owns _ _ _ H)). cbn [negb lwip_assert]. by rewrite Hb, E'.
    - subst mac. by eapply (output_hit known (nf_at nf) n x (ip_arp st) netif dest p d i e ERR_OK w). }
  assert (sole p st) as Hsole by (exists b; split; [done|apply Hs]).
  destruct (transmit_spec custom_free malloc Hmalloc bmos Hbmos known known_null nf Hnf ip4_frag Hfrag p dest netif n x st H Hsole Hn)
    as (r' & st' & Et & H').
  exists st'. assert (Ret (r', st') = Ret (ERR_OK, set_ip_arp (mkArp (arp_table (ip_arp st)) c w) st)) as E2.
  { rewrite <- Et. unfold ip4_transmit. rewrite Hg. cbn [res_bind]. rewrite Hn. cbn [res_of_option res_bind].
    rewrite Z.gtb_ltb, (proj2 (Z.ltb_ge (if_mtu n) _)), andb_false_r by lia. unfold ip_link. unfold send_ops in Eo.
    rewrite Eo. done. }
  injection E2 as -> ->. split; [done|]. split; [done|]. split; [|done]. cbn. rewrite Hw. do 2 f_equal.
Qed.

(** ** ip4_output *)
Lemma output_frame p src dest ttl tos proto netif n b r mac x st :
  ok (p :: x) st -> sendable (ip_heap st) p b r 34 -> nf_at nf netif = Some n -> bytes (if_hwaddr n) ->
  hop (arp_table (ip_arp st)) n netif dest mac -> p_tot_len b + 20 <= if_mtu n -> p_tot_len b <= 1488 ->
  0 <= src < 4294967296 -> 0 <= dest < 4294967296 -> 0 <= ip_id st < 65536 -> is_byte ttl -> is_byte tos -> is_byte proto ->
  let hdr := iphdr (p_tot_len b + 20) (ip_id st) src dest ttl tos proto in
  exists st', ip4_output_if_src custom_free malloc bmos nf ip4_frag p (Some src) (Some dest) ttl tos proto netif st = Ret (ERR_OK, st') /\
    ok (p :: x) st' /\ ip_id st' = u16 (ip_id st + 1) /\ arp_table (ip_arp st') = arp_table (ip_arp st) /\
    nic_tx (lk (ip_arp st')) = nic_tx (lk (ip_arp st)) ++
      [frame_of n mac (hdr (rfc1071 (hdr 0)) ++ chain_data (pmem (ip_heap st)) ((p, b) :: r))].
Proof.
  intros H Hs Hn Bh Hhop Hmtu Htx Rs Rd Ri B1 B2 B3 hdr. pose proof (sendable_pget _ _ _ _ _ Hs) as Hg.
  pose proof Hs as [C W P A R L F Rf].
  pose proof W as (W1 & W2 & W3 & W4). pose proof (tot_nonneg _ W4) as Htn. destruct P as (P1 & P2 & P3). cbn [snd] in P1. unfold addr_ok in P1.
  destruct (output_if_src_some custom_free malloc Hmalloc bmos Hbmos known nf ip4_frag p (Some src) dest ttl tos proto netif b x st H Hg Rf)
    as [[_ Hno]|[_ ->]].
  { exfalso. apply Hno. unfold headroom, IP_HLEN. split_and!; try done; lia. }
  cbn [default]. set (st1 := with_iphdr st p b src dest ttl tos proto).
  destruct (with_iphdr_ok custom_free malloc Hmalloc bmos Hbmos known st p x b src dest ttl tos proto H Hg ltac:(unfold IP_HLEN; lia) Rf) as [H1 _].
  fold st1 in H1. set (b' := set_data (payload b - 20) (p_len b + 20) (p_tot_len b + 20) b).
  assert (ip_heap st1 = mkPheap (<[p := b']> (pbufs (ip_heap st)))
    (write_iphdr (pmem (ip_heap st)) (payload b - 20) (p_tot_len b + 20) (ip_id st) src dest ttl tos proto)) as Eh.
  { unfold st1, with_iphdr, IP_HLEN. cbv zeta. rewrite (u64_small (payload b - 20)) by lia. done. }
  assert (addr_ok (payload b - 20) 20) as Ha by (unfold addr_ok; lia).
  pose proof (push_sendable (ip_heap st) p b r 14 20 (pmem (ip_heap st1)) Hs ltac:(lia) ltac:(lia) ltac:(lia)) as Hs1.
  pose proof (push_data (ip_heap st) p b r 14 20 _ Hs ltac:(lia) ltac:(lia)
    (write_iphdr_off (pmem (ip_heap st)) (payload b - 20) (p_tot_len b + 20) (ip_id st) src dest ttl tos proto Ha)) as Hd1.
  fold b' in Hs1, Hd1. rewrite Eh in Hs1. cbn [pmem] in Hs1. rewrite <- Eh in Hs1.
  destruct (transmit_frame p dest netif n b' r mac x st1 H1 Hs1 Hn Bh Hhop) as (st' & E & H' & F1 & F2 & F3); [cbn; lia..|].
  exists st'. split; [done|]. split; [done|]. split; [done|]. split; [done|]. rewrite F1, Eh. cbn [pmem]. rewrite Hd1.
  rewrite write_iphdr_read by (done || lia). rewrite inline_sum_eq by (done || lia). done.
Qed.

(** ** icmp_input: echo *)
Lemma reply_body_app B R : (4 <= length B)%nat -> reply_body (B ++ R) = reply_body B ++ R.
Proof. intros H. do 4 (destruct B as [|? B]; [cbn in H; lia|]). reflexivity. Qed.

Lemma length_reply_hdr H src dest c : (20 <= length H)%nat -> length (reply_hdr H src dest c) = length H.
Proof.
  intros HL. unfold reply_hdr. rewrite !length_app, !length_take, !length_drop, !length_le_bytes. cbn [length]. lia.
Qed.

(** A packet with room for all headers is used for the reply as it is. *)
Lemma echo_in_place p hlen hdr b r st :
  sendable (ip_heap st) p b r (hlen + LINK_HLEN) -> 20 <= hlen <= 60 -> p_tot_len b + (hlen + LINK_HLEN) < 65536 -> 0 < p_len b ->
  echo_packet custom_free malloc p hlen hdr st = Ret (p, st).
Proof.
  intros Hs Hh Ht H0. pose proof (sendable_pget _ _ _ _ _ Hs) as Hg. pose proof Hs as [C W P A R L F Rf]. pose proof W as (W1 & W2 & W3 & W4).
  pose proof (tot_nonneg _ W4) as Htn. destruct P as (P1 & _). cbn [snd] in P1. unfold addr_ok in P1. unfold LINK_HLEN in *.
  unfold echo_packet. destruct (add_header_gen p (hlen + LINK_HLEN) b (ip_heap st) Hg) as [[_ Hno]|[_ ->]]; try (unfold LINK_HLEN; lia).
  { exfalso. apply Hno. unfold headroom, LINK_HLEN. split_and!; try done; lia. }
  cbn [res_bind Z.eqb negb]. unfold LINK_HLEN. set (b1 := set_data _ _ _ b). assert (p <> NULL) as Hp by (unfold NULL; lia).
  rewrite (remove_header_gen p _ b1 (pset p b1 (ip_heap st)) (pget_pset _ _ _ Hp)) by (cbn; lia). cbn [res_bind Z.eqb lwip_assert].
  assert (set_data (u64 (payload b1 + (hlen + 14))) (p_len b1 - (hlen + 14)) (p_tot_len b1 - (hlen + 14)) b1 = b) as ->.
  { unfold b1. cbn. rewrite u64_add_l. replace (payload b - (hlen + 14) + (hlen + 14)) with (payload b) by lia.
    destruct b. unfold set_data. cbn in *. rewrite u64_small by lia. f_equal; lia. }
  do 2 f_equal. destruct C as (_ & _ & Cb & _). destruct st as [[t c [[hp hm] k tb tx]] id].
  unfold ip_heap, set_ip_heap, set_ip_arp, set_heap, set_lk, set_nic_heap, pset in *. cbn in *. rewrite insert_insert_eq, insert_id; done.
Qed.

Lemma reply_hdr_dest H src dest c : (20 <= length H)%nat -> 0 <= dest < 4294967296 ->
  le_val (take 4 (drop 16 (reply_hdr H src dest c))) = dest.
Proof.
  intros HL Hd. do 20 (destruct H as [|? H]; [cbn in HL; lia|]). change (le_val (le_bytes 4 dest) = dest).
  by apply le_val_le_bytes.
Qed.

Lemma echo_reply_frame p hlen inp n d b r mac x st :
  ok (p :: x) st -> sendable (ip_heap st) p b r (hlen + LINK_HLEN) -> nf_at nf inp = Some n -> bytes (if_hwaddr n) ->
  20 <= hlen <= 60 -> 4 <= p_len b -> 0 <= current_iphdr_src d < 4294967296 ->
  hop (arp_table (ip_arp st)) n inp (current_iphdr_src d) mac -> p_tot_len b + hlen <= if_mtu n -> p_tot_len b + hlen <= 1508 ->
  let m := pmem (ip_heap st) in
  let hdr := reply_hdr (mem_read m (payload b - hlen) hlen) (current_iphdr_dest d) (current_iphdr_src d) in
  exists st', echo_reply custom_free malloc bmos nf ip4_frag p hlen inp d st = Ret st' /\ ok (p :: x) st' /\
    framed_out n mac (hdr (rfc1071 (hdr 0)) ++ reply_body (mem_read m (payload b) (p_len b)) ++ chain_data m r) st st'.
Proof.
  intros H Hs Hn Bh Hh Hl4 Rs Hhop Hmtu Htx m hdr. pose proof (sendable_pget _ _ _ _ _ Hs) as Hg.
  pose proof Hs as [C W P A Rm L F Rf]. pose proof W as (W1 & W2 & W3 & W4). pose proof (tot_nonneg _ W4) as Htn.
  destruct P as (P1 & P2 & P3). cbn [snd] in P1. unfold addr_ok in P1. unfold LINK_HLEN in *.
  pose proof (ok_mem_ok _ _ _ _ _ _ _ _ H) as Hm. assert (p <> NULL) as Hp by (unfold NULL; lia).
  unfold echo_reply. rewrite Hg. cbn [res_bind].
  destruct (add_header_gen p hlen b (ip_heap st) Hg) as [[_ Hno]|[_ ->]]; try lia.
  { exfalso. apply Hno. unfold headroom. split_and!; try done; lia. }
  cbn [res_bind Z.eqb negb]. rewrite (u64_small (payload b - hlen)) by lia. set (b' := set_data _ _ _ b).
  rewrite (pget_pset _ _ _ Hp). cbn [res_bind]. rewrite within_true by (cbn; lia). change (pmem (pset p b' (ip_heap st))) with m.
  change (payload b') with (payload b - hlen). set (a := payload b - hlen). set (m' := write_reply _ _ _ _ _ _).
  assert (m' = write_reply m a (a + hlen) hlen (current_iphdr_dest d) (current_iphdr_src d)) as Em'.
  { unfold m'. f_equal. unfold a. lia. }
  clearbody m'. subst m'. set (m' := write_reply _ _ _ _ _ _).
  pose proof (write_reply_hdr m a hlen (current_iphdr_dest d) (current_iphdr_src d) Hm ltac:(unfold addr_ok; lia) Hh) as E1.
  pose proof (write_reply_body m a hlen (current_iphdr_dest d) (current_iphdr_src d) (p_len b) ltac:(unfold addr_ok; lia) Hh Hl4) as E2.
  pose proof (write_reply_off m a hlen (current_iphdr_dest d) (current_iphdr_src d) ltac:(unfold addr_ok; lia) Hh) as E3.
  cbv zeta in E1. fold m' in E1, E2, E3. replace (a + hlen) with (payload b) in E2 by lia.
  set (st1 := set_ip_mem m' _).
  assert (ip_heap st1 = mkPheap (<[p := b']> (pbufs (ip_heap st))) m') as Eh by done.
  assert (ok (p :: x) st1) as H1.
  { apply ok_mem; [|by apply mem_ok_write_reply]. eapply ok_head_pset; try done; cbn; lia. }
  assert (sendable (ip_heap st1) p b' r 14) as Hs1.
  { rewrite Eh. apply push_sendable; try lia. by replace (14 + hlen) with (hlen + 14) by lia. }
  assert (chain_data m' ((p, b') :: r) = hdr (rfc1071 (hdr 0)) ++ reply_body (mem_read m (payload b) (p_len b)) ++ chain_data m r) as Ed.
  { rewrite chain_data_cons. change (payload b') with a. change (p_len b') with (p_len b + hlen).
    rewrite (Z.add_comm (p_len b) hlen), mem_read_split, <- app_assoc by lia. replace (a + hlen) with (payload b) by lia.
    rewrite E1, E2. do 2 f_equal. apply (tail_data (ip_heap st) p b r (hlen + 14) a (hlen + 4)); try done; lia. }
  assert (iph_dest m' a = current_iphdr_src d) as Edest.
  { unfold iph_dest, field. pose proof (window_mem_read m' a hlen 4 16) as Hw. unfold window in Hw. rewrite <- Hw by lia.
    rewrite E1. apply reply_hdr_dest; [rewrite length_mem_read; lia|done]. }
  destruct (transmit_frame p (current_iphdr_src d) inp n b' r mac x st1 H1 Hs1 Hn Bh Hhop) as (st' & E & H' & F1); [cbn; lia..|].
  exists st'. split; [|split; [done|]].
  - unfold ip4_output_if. cbn [res_bind]. unfold ip4_output_if_src, check_ref. rewrite (sendable_pget _ _ _ _ _ Hs1). cbn [res_bind].
    change (p_ref b') with (p_ref b). rewrite Rf. cbn [Z.eqb Pos.eqb lwip_assert].
    rewrite (proj2 (Z.ltb_ge (p_len b') IP_HLEN)) by (unfold IP_HLEN; cbn; lia). rewrite Eh. cbn [pmem]. change (payload b') with a.
    rewrite Edest, E. done.
  - rewrite Eh in F1. cbn [pmem] in F1. rewrite Ed in F1. exact F1.
Qed.

Lemma echo_frame p hlen inp n nn d b r code c0 c1 R mac x st :
  ok (p :: x) st -> sendable (ip_heap st) p b r (hlen + LINK_HLEN) -> nf_at nf inp = Some n -> bytes (if_hwaddr n) ->
  nf_at nf (current_netif d) = Some nn -> current_ip4_header d = payload b - hlen ->
  IPH_HL_BYTES (pmem (ip_heap st)) (payload b - hlen) = hlen -> 20 <= hlen -> 4 <= p_len b -> 8 <= p_tot_len b ->
  chain_data (pmem (ip_heap st)) ((p, b) :: r) = ICMP_ECHO :: code :: c0 :: c1 :: R ->
  rfc1071 (chain_data (pmem (ip_heap st)) ((p, b) :: r)) = 0 ->
  ip4_addr_ismulticast (current_iphdr_dest d) = false -> ip4_addr_isbroadcast (current_iphdr_dest d) nn = false ->
  0 <= current_iphdr_src d < 4294967296 -> hop (arp_table (ip_arp st)) n inp (current_iphdr_src d) mac ->
  p_tot_len b + hlen <= if_mtu n -> p_tot_len b + hlen <= 1508 ->
  let H := mem_read (pmem (ip_heap st)) (payload b - hlen) hlen in
  let hdr := reply_hdr H (current_iphdr_dest d) (current_iphdr_src d) in
  exists st', icmp_input custom_free malloc bmos nf ip4_frag p inp d st = Ret st' /\ ok x st' /\
    framed_out n mac (hdr (rfc1071 (hdr 0)) ++ reply_body (ICMP_ECHO :: code :: c0 :: c1 :: R)) st st'.
Proof.
  intros H Hs Hn Bh Hnn Ed Ehl Hlo Hl4 Ht8 Eb Hsum Hmc Hbc Rs Hhop Hmtu Htx HH hdr.
  pose proof (hl_bytes_range (pmem (ip_heap st)) (payload b - hlen)) as Hhi. rewrite Ehl in Hhi.
  pose proof (sendable_pget _ _ _ _ _ Hs) as Hg. pose proof Hs as [C W P A Rm L F Rf]. pose proof W as (W1 & W2 & W3 & W4).
  pose proof (tot_nonneg _ W4) as Htn. destruct P as (P1 & P2 & P3). cbn [snd] in P1. unfold addr_ok in P1.
  pose proof (ok_mem_ok _ _ _ _ _ _ _ _ H) as Hm. assert (p <> NULL) as Hp by (unfold NULL; lia).
  unfold LINK_HLEN in *. rewrite chain_data_cons in Eb. set (m := pmem (ip_heap st)) in *.
  assert (exists R1, mem_read m (payload b) (p_len b) = ICMP_ECHO :: code :: c0 :: c1 :: R1 /\ R = R1 ++ chain_data m r) as (R1 & Eb1 & ER).
  { pose proof (length_mem_read m (payload b) (p_len b)) as HL. destruct (mem_read m (payload b) (p_len b)) as [|y0 [|y1 [|y2 [|y3 l]]]];
      cbn [length] in HL; try lia. injection Eb as -> -> -> -> <-. by exists l. }
  unfold icmp_input. fold m. rewrite Ed, Ehl. rewrite (proj2 (Z.ltb_ge hlen IP_HLEN)) by (unfold IP_HLEN; lia). rewrite Hg. cbn [res_bind].
  rewrite (proj2 (Z.ltb_ge (p_len b) 4)) by lia.
  assert (field m (payload b) 0 1 = ICMP_ECHO) as ->.
  { unfold field. rewrite Z.add_0_r. pose proof (window_mem_read m (payload b) (p_len b) 1 0) as Hw. unfold window in Hw.
    cbn [Z.to_nat drop] in Hw. rewrite Z.add_0_r in Hw. rewrite <- Hw, Eb1 by lia. reflexivity. }
  change (ICMP_ECHO =? ICMP_ECHO) with true. cbn [negb]. rewrite Hmc, Hnn. cbn [res_of_option res_bind]. rewrite Hbc.
  rewrite (proj2 (Z.ltb_ge (p_tot_len b) SIZEOF_ICMP_HDR)) by (unfold SIZEOF_ICMP_HDR; lia).
  rewrite (chksum_pbuf_eq (ip_heap st) p ((p, b) :: r) C W Hm). fold m. rewrite Hsum. cbn [res_bind Z.eqb negb].
  rewrite (echo_in_place p hlen (payload b - hlen) b r st) by (done || unfold LINK_HLEN; lia). cbn [res_bind].
  rewrite (proj2 (Z.eqb_neq p 0) Hp).
  destruct (echo_reply_frame p hlen inp n d b r mac x st H Hs Hn Bh ltac:(lia) Hl4 Rs Hhop Hmtu Htx) as (st1 & -> & H1 & F1 & F2 & F3).
  cbn [res_bind]. destruct (ip_free_spec _ _ _ _ _ _ _ _ _ H1) as (st' & E & H2 & Ei & _ & _ & Et & Ex).
  assert (reply_body (mem_read m (payload b) (p_len b)) ++ chain_data m r = reply_body (ICMP_ECHO :: code :: c0 :: c1 :: R)) as Er.
  { rewrite Eb1, ER, <- reply_body_app by (cbn; lia). done. }
  fold m in F1. rewrite Er in F1. exists st'. split; [done|]. split; [done|]. split; [by rewrite Ex|split; congruence].
Qed.
End Send.
