(* ===== verification/Ip4Theorems.v ===== *)
(** * IPv4 and ICMP: theorems *)
From S2P Require Import Prelude NetShim Ip4Addr Link Etharp EtharpInv EtharpOps EtharpSend EtharpTheorems Checksum Pbuf PbufChain PbufOps NetGlue PbufClone Ethernet EthernetInv EthernetRx EthernetTheorems Ip4 Icmp Ip4Input Ip4Inv IcmpInv Ip4Rx Ip4Hdr Ip4Send.

Section Ip4.
Context {Fr : Frame}.
Variable custom_free : Z -> pheap -> res pheap.
Variable malloc : nat -> gmap Z pbuf -> Z.
Context (Hmalloc : malloc_ok malloc).
Variable bmos : netif.
Context (Hbmos : nif_hwaddr_len bmos = ETH_HWADDR_LEN).
#[local] Instance top_ops : LinkOps nic := nic_link custom_free malloc bmos.
#[local] Instance top_laws : LinkLaws nic := nic_laws custom_free malloc Hmalloc bmos Hbmos.
Variable known : Z -> Prop.
Context (known_null : ~ known 0).
Variable nf : netifs.
Context (Hnf : netifs_ok known nf).
Variable ip4_frag : Z -> Z -> Z -> ipst -> res (Z * ipst).
Abbreviation ok := (arp_ok known).
Context (Hfrag : forall F0, @frag_ok F0 custom_free malloc Hmalloc bmos Hbmos known nf ip4_frag).
Context {T : Type}.
Variable ip4_reass : Z -> ipst -> T -> res (Z * ipst * T).
Variables udp_input tcp_input : Z -> Z -> ip_globals -> ipst -> T -> res (ipst * T).
Variable keeps : Frame -> T -> Prop.
Context (Hup : upper_ok custom_free malloc Hmalloc bmos Hbmos known nf ip4_reass udp_input tcp_input keeps).
Abbreviation okF F0 := (@arp_ok nic top_ops (@nic_laws F0 custom_free malloc Hmalloc bmos Hbmos) known).
Abbreviation ip_rx := (ip4_rx custom_free malloc bmos nf ip4_frag ip4_reass udp_input tcp_input).
Abbreviation ip_input := (ip4_input custom_free malloc bmos nf ip4_frag ip4_reass udp_input tcp_input).

(** What IP asks of a packet. *)
Definition ip_ready (p : Z) (m : memory) (b : pbuf) : Prop := p_ref b = 1 /\ placed p b /\ readable m b /\ brings_data m b.

Lemma ip_takes : ip4_takes custom_free malloc Hmalloc bmos Hbmos known (fun F s => keeps F s.2) ip_rx ip_ready (nf_at nf).
Proof.
  intros F p netif b st [id t] x K H [n Hn] Hg (Hr & Hp & Hrd & Hbd). unfold ip4_rx. cbn [fst snd].
  destruct (ip4_input_spec (F := F) custom_free malloc Hmalloc bmos Hbmos known known_null nf Hnf ip4_frag Hfrag ip4_reass udp_input tcp_input keeps Hup
    p netif n b x (mkIpst st id) t K H ltac:(by exists b) Hg Hrd Hbd Hn) as (st' & t' & x' & F' & -> & K' & H').
  cbn [res_bind]. by exists (ip_arp st'), (ip_id st', t'), x', F'.
Qed.

(** The IP packet in a frame. *)
Definition frame_packet (b : pbuf) : pbuf := set_data (payload b + SIZEOF_ETH_HDR) (p_len b - SIZEOF_ETH_HDR) (p_tot_len b - SIZEOF_ETH_HDR) b.

(** Every received frame is consumed, whatever the layers above IP are, as long
    as they keep their contract. *)
Lemma rx_consumed p netif n b x st id t :
  keeps Fr t -> ok (p :: x) st -> nf_at nf netif = Some n -> pget (nic_heap (lk st)) p = Ret b -> p_ref b = 1 -> placed p b ->
  (is_arp st p = true -> SIZEOF_ETH_HDR + SIZEOF_ETHARP_HDR <= nic_room (lk st) p) ->
  (is_ip st p = true -> readable (pmem (nic_heap (lk st))) (frame_packet b) /\ brings_data (pmem (nic_heap (lk st))) (frame_packet b)) ->
  exists st' s' x' F', ethernet_input custom_free malloc ip_rx bmos (nf_at nf) p netif st (id, t) = Ret (ERR_OK, st', s') /\
    keeps F' s'.2 /\ okF F' x' st' /\
    (is_arp st p = true -> has_flag (if_flags n) NETIF_FLAG_ETHARP = true ->
     x' = x /\ s' = (id, t) /\ F' = Fr /\ heard n netif (frame_body st p SIZEOF_ETHARP_HDR) (arp_table st) (arp_table st')).
Proof.
  intros K H Hn Hg Hr Hpl Harp Hip. destruct (no_nif _ _ Hnf _ _ Hn) as (Hk & N1 & N2).
  apply (ethernet_input_spec custom_free malloc Hmalloc bmos Hbmos known known_null (fun F s => keeps F s.2) ip_rx ip_ready (nf_at nf) ip_takes); try done.
  intros Hi b0 b' Hg0 (S & B1 & B2 & B3). rewrite Hg in Hg0. injection Hg0 as <-. specialize (Hip Hi).
  assert (SIZEOF_ETH_HDR < p_len b) as Hlen.
  { unfold is_ip in Hi. apply andb_true_iff in Hi as [Hi%Z.ltb_lt _]. apply pget_lookup in Hg as [_ Hg].
    unfold nic_room in Hi. by rewrite Hg in Hi. }
  destruct Hpl as (L1 & L2 & L3 & L4). unfold SIZEOF_ETH_HDR in *. rewrite u64_small in B1 by lia.
  split; [rewrite (sl_ref _ _ S); done|]. split.
  - unfold placed. rewrite B1, B2, (sl_type _ _ S). split_and!; try lia. intros F. specialize (L4 F). lia.
  - unfold readable, brings_data, frame_packet in *. cbn [payload p_len p_tot_len next set_data] in *. rewrite B1, B2, B3, (sl_next _ _ S). done.
Qed.

(** C31. What goes on the wire: ip4_output of a packet that has 34 bytes of room
    for its headers and no other reference and that fits unfragmented (with its IP header within the
    MTU, and at most 1488 bytes), with a route to the destination, which is a
    broadcast address or one whose next hop has a stable ARP entry not due for another request
    (when one of 270 s or more is used, ARP sends a request as well), puts exactly one frame on the wire, with a correct
    IPv4 header (version 4, no options, the total length, the next
    identification, not fragmented, the protocol and addresses asked for, the
    interface's address when no source is given, and a header checksum that
    equals the one of RFC 1071 and verifies) in front of the unchanged bytes
    of the packet.  ip4_frag, which such a packet does not reach, is any function with the contract [frag_ok]. *)
Theorem ip4_output_frame p src dest ttl tos proto netif n b r mac x st :
  ok (p :: x) (ip_arp st) -> sendable (ip_heap st) p b r (IP_HLEN + SIZEOF_ETH_HDR) ->
  ip4_route nf dest = Ret netif -> netif <> 0 -> nf_at nf netif = Some n -> bytes (if_hwaddr n) ->
  hop (arp_table (ip_arp st)) n netif dest mac -> p_tot_len b + IP_HLEN <= if_mtu n -> p_tot_len b <= 1488 ->
  let from := if default IPADDR_ANY src =? IPADDR_ANY then if_ip n else default IPADDR_ANY src in
  0 <= from < 4294967296 -> 0 <= dest < 4294967296 -> 0 <= ip_id st < 65536 -> is_byte ttl -> is_byte tos -> is_byte proto ->
  let hdr := iphdr (p_tot_len b + IP_HLEN) (ip_id st) from dest ttl tos proto in
  exists st', ip4_output custom_free malloc bmos nf ip4_frag p src dest ttl tos proto st = Ret (ERR_OK, st') /\
    ok (p :: x) (ip_arp st') /\ ip_id st' = u16 (ip_id st + 1) /\ arp_table (ip_arp st') = arp_table (ip_arp st) /\
    nic_tx (lk (ip_arp st')) = nic_tx (lk (ip_arp st)) ++
      [frame_of n mac (hdr (rfc1071 (hdr 0)) ++ chain_data (pmem (ip_heap st)) ((p, b) :: r))] /\
    rfc1071 (hdr (rfc1071 (hdr 0))) = 0.
Proof.
  intros H Hs Hr Hne Hn Bh Hhop Hmtu Htx from R1 R2 R3 B1 B2 B3 hdr. pose proof (sendable_pget _ _ _ _ _ Hs) as Hg.
  unfold IP_HLEN, SIZEOF_ETH_HDR in *. pose proof (sd_wf _ _ _ _ _ Hs) as (W1 & W2 & _ & W4). pose proof (tot_nonneg _ W4).
  destruct (output_frame custom_free malloc Hmalloc bmos Hbmos known known_null nf Hnf ip4_frag (Hfrag Fr) p from dest ttl tos proto netif n b r mac x st
    H Hs Hn Bh Hhop Hmtu Htx R1 R2 R3 B1 B2 B3) as (st' & E & H' & Q1 & Q2 & Q3).
  exists st'. split_and!; try done; [|apply iphdr_verifies; (done || lia)].
  unfold ip4_output, check_ref. rewrite Hg. cbn [res_bind]. rewrite (sd_ref _ _ _ _ _ Hs). cbn [Z.eqb Pos.eqb lwip_assert].
  rewrite Hr. cbn [res_bind]. rewrite (proj2 (Z.eqb_neq netif 0) Hne). unfold ip4_output_if. rewrite Hn. cbn [res_of_option res_bind].
  unfold from in E. destruct (default IPADDR_ANY src =? IPADDR_ANY) eqn:Es; cbn [res_bind]; [exact E|].
  destruct src as [src|]; [exact E|]. done.
Qed.



(** Two reads of ip4_input come before the length they need is known: the
    total length in the header (bytes 2 and 3) is read from any frame that has
    one byte of IP, and the UDP destination port is read from a packet that
    ends right behind its IP header; both read past the end of what was
    received. *)
Theorem ip4_input_short p inp n b x st t :
  ok (p :: x) (ip_arp st) -> received p st -> pget (ip_heap st) p = Ret b -> nf_at nf inp = Some n ->
  let m := pmem (ip_heap st) in
  1 <= p_len b < 4 /\ IPH_V m (payload b) = 4 \/
  4 <= p_len b < IPH_HL_BYTES m (payload b) + 4 /\ hdr_valid m b = true /\ IPH_PROTO m (payload b) = IP_PROTO_UDP /\
    match_netif nf inp (iph_dest m (payload b)) = Ret 0 ->
  ip_input p inp st t = Undef.
Proof.
  intros H Hrc Hg Hn m Hc. pose proof (ok_mem_ok _ _ _ _ _ _ _ _ H) as Hm. unfold ip4_input. rewrite Hg. cbn [res_bind].
  destruct Hc as [[Hl Hv]|(Hl & Hv & Hu & Hd)].
  { rewrite within_true by lia. fold m. rewrite Hv. cbn [Z.eqb Pos.eqb negb]. unfold within. by rewrite (proj2 (Z.leb_gt 4 _)) by lia. }
  rewrite !within_true by lia. fold m. unfold hdr_valid in Hv. cbv zeta in Hv.
  apply andb_true_iff in Hv as [[[[Hv%Z.eqb_eq H20%Z.leb_le]%andb_true_iff Hh%Z.leb_le]%andb_true_iff Ht%Z.leb_le]%andb_true_iff Hsum%Z.eqb_eq].
  rewrite Hv. cbn [Z.eqb Pos.eqb negb]. set (hlen := IPH_HL_BYTES m (payload b)) in *. set (len := lwip_ntohs _) in *.
  assert (0 <= len) as Hlen by (apply ntohs_range, u16_field, Hm).
  destruct (trim_spec custom_free malloc Hmalloc bmos Hbmos known p b len x st H Hrc Hg Hlen)
    as (st1 & b1 & -> & _ & _ & Hg1 & _ & _ & Et & El & _). cbn [res_bind]. rewrite Hg1. cbn [res_bind]. rewrite !Z.gtb_ltb.
  rewrite (proj2 (Z.ltb_ge (p_len b1) hlen)), (proj2 (Z.ltb_ge (p_tot_len b1) len)), (proj2 (Z.ltb_ge hlen IP_HLEN)) by lia. cbn [orb].
  rewrite Hsum. cbn [Z.eqb negb]. rewrite Hd. cbn [res_bind]. unfold match_dhcp. rewrite Hu. cbn [Z.eqb Pos.eqb andb IP_PROTO_UDP].
  unfold within. by rewrite (proj2 (Z.leb_gt (hlen + 4) _)) by lia.
Qed.

(** An interface that can send, and one that reaches [dest] directly. *)
Definition usable (n : nif) : bool := netif_is_up n && netif_is_link_up n && negb (if_ip n =? IPADDR_ANY).
Definition reaches (dest netif : Z) : Prop := exists n, nf_at nf netif = Some n /\ usable n = true /\
  (ip4_addr_net_eq dest (if_ip n) (if_netmask n) = true \/
   has_flag (if_flags n) NETIF_FLAG_BROADCAST = false /\ dest = if_gw n).

Lemma route_list_first l dest : (forall a, a ∈ l -> is_Some (nf_at nf a)) ->
  exists netif, route_list (nf_at nf) l dest = Ret netif /\
    (netif = 0 /\ Forall (fun a => ~ reaches dest a) l \/
     exists l1 l2, l = l1 ++ netif :: l2 /\ Forall (fun a => ~ reaches dest a) l1 /\ reaches dest netif).
Proof.
  induction l as [|a l IH]; intros Hl; [exists 0; split; [done|by left]|]. cbn [route_list].
  destruct (Hl a ltac:(by left)) as [n Hn]. rewrite Hn. cbn [res_of_option res_bind]. fold (usable n).
  assert (~ reaches dest a -> exists netif, route_list (nf_at nf) l dest = Ret netif /\
    (netif = 0 /\ Forall (fun a => ~ reaches dest a) (a :: l) \/
     exists l1 l2, a :: l = l1 ++ netif :: l2 /\ Forall (fun a => ~ reaches dest a) l1 /\ reaches dest netif)) as Hskip.
  { intros Hno. destruct IH as (i & -> & [[-> Hf]|(l1 & l2 & -> & Hf & Hr)]); [intros; apply Hl; by right| |].
    - exists 0. split; [done|]. left. split; [done|]. by constructor.
    - exists i. split; [done|]. right. exists (a :: l1), l2. split; [done|]. split; [by constructor|done]. }
  destruct (usable n) eqn:Eu; [|apply Hskip; intros (n' & Hn' & Hu & _); congruence].
  destruct (ip4_addr_net_eq dest (if_ip n) (if_netmask n)) eqn:Ee.
  { exists a. split; [done|]. right. exists [], l. split; [done|]. split; [done|]. exists n. split_and!; try done. by left. }
  destruct (has_flag (if_flags n) NETIF_FLAG_BROADCAST) eqn:Ef; cbn [negb andb].
  { apply Hskip. intros (n' & Hn' & _ & [?|[? _]]); congruence. }
  destruct (Z.eqb_spec dest (if_gw n)) as [Eg|Eg].
  - exists a. split; [done|]. right. exists [], l. split; [done|]. split; [done|]. exists n. split_and!; try done. by right.
  - apply Hskip. intros (n' & Hn' & _ & [?|[_ ?]]); congruence.
Qed.

(** Routing: ip4_route returns the first interface of the list that is up,
    has a link and an address, and reaches the destination directly; when
    there is none, the default interface if it is up, has a link and an
    address and the destination is not a loopback address; otherwise none. *)
Theorem ip4_route_choice dest : exists netif, ip4_route nf dest = Ret netif /\
  ((exists l1 l2, netif_list nf = l1 ++ netif :: l2 /\ Forall (fun a => ~ reaches dest a) l1 /\ reaches dest netif) \/
   Forall (fun a => ~ reaches dest a) (netif_list nf) /\
   (netif = netif_default nf /\ ip4_addr_isloopback dest = false /\ (exists n, nf_at nf netif = Some n /\ usable n = true) \/
    netif = 0 /\ (netif_default nf = 0 \/ ip4_addr_isloopback dest = true \/
                  exists n, nf_at nf (netif_default nf) = Some n /\ usable n = false))).
Proof.
  unfold ip4_route. destruct (route_list_first (netif_list nf) dest (no_list _ _ Hnf)) as (i & -> & Hi). cbn [res_bind].
  destruct Hi as [[-> Hf]|(l1 & l2 & El & Hf & Hr)].
  - cbn [Z.eqb negb]. destruct (Z.eqb_spec (netif_default nf) 0) as [E|E].
    { exists 0. split; [done|]. right. split; [done|]. right. split; [done|by left]. }
    destruct (no_default _ _ Hnf) as [?|[n Hn]]; [done|]. rewrite Hn. cbn [res_of_option res_bind].
    destruct (usable n) eqn:Eu.
    + unfold usable in Eu. apply andb_true_iff in Eu as [[U1 U2]%andb_true_iff U3]. apply negb_true_iff in U3. rewrite U1, U2, U3. cbn [negb orb].
      destruct (ip4_addr_isloopback dest) eqn:Elo; eexists; (split; [done|]); right; (split; [done|]).
      * right. split; [done|]. right. by left.
      * left. split_and!; try done. exists n. split; [done|]. unfold usable. by rewrite U1, U2, U3.
    + exists 0. split.
      * unfold usable in Eu. destruct (netif_is_up n), (netif_is_link_up n), (if_ip n =? IPADDR_ANY); done.
      * right. split; [done|]. right. split; [done|]. right. right. by exists n.
  - assert (i <> 0) as Hi0.
    { destruct Hr as (n & Hn & _). intros ->. by apply known_null, (no_nif _ _ Hnf 0 n). }
    rewrite (proj2 (Z.eqb_neq i 0) Hi0). cbn [negb]. exists i. split; [done|]. left. by exists l1, l2.
Qed.
End Ip4.

(** ** A ping on the wire

    The interface 10.0.2.15/24 is up and ARP knows the gateway 10.0.2.2; the
    pbuf at 4096 holds an echo request of the gateway. *)
#[local] Existing Instance no_frame.
Definition ip_nif : nif := mkNif (if_ip demo_nif) (if_netmask demo_nif) (if_gw demo_nif) 1500 (if_hwaddr demo_nif) 6 15 0.
Definition ip_nf : netifs := mkNetifs (fun a => if a =? 7 then Some ip_nif else None) [7] 7.
Definition ping_hdr : list Z :=
  let h := iphdr 32 77 (ip4 10 0 2 2) (if_ip ip_nif) 64 0 IP_PROTO_ICMP in h (rfc1071 (h 0)).
Definition ping_msg : list Z :=
  let h c := [8; 0] ++ le_bytes 2 c ++ [0; 1; 0; 2; 97; 98; 99; 100] in h (rfc1071 (h 0)).
Definition ping_frame : list Z := if_hwaddr ip_nif ++ gw_mac ++ [8; 0] ++ ping_hdr ++ ping_msg.
(** The pbuf after [off] bytes of the frame were taken off, with [n] bytes left. *)
Definition ping_pbuf (off n : Z) : pbuf := mkPbuf NULL (4160 + off) n n 0x80 0 1 0.
Definition ping_nic (off n : Z) : nic :=
  mkNic (mkPheap {[ 4096 := ping_pbuf off n ]} (mem_write ∅ 4160 ping_frame)) 0 (replicate 1522 0) [].
Definition ping_arp (off n : Z) : arp nic :=
  mkArp (<[0%nat := learned (ip4 10 0 2 2) 7 gw_mac]> (replicate 10 zero_entry)) 0 (ping_nic off n).
Definition ping_st (off n : Z) : ipst := mkIpst (ping_arp off n) 5.

Abbreviation demo_ip_ok := (@arp_ok nic (nic_link demo_custom demo_malloc demo_bmos) (nic_laws demo_custom demo_malloc demo_malloc_ok demo_bmos eq_refl) demo_known).

Lemma ping_owns off n : 0 <= n < 65536 ->
  @owns nic _ (nic_laws demo_custom demo_malloc demo_malloc_ok demo_bmos eq_refl) (ping_nic off n) [4096].
Proof.
  intros Hn. cbn [owns nic_laws]. split_and!; [apply mem_ok_mem_write, mem_ok_empty|apply length_replicate|].
  exists (fun _ => [(4096, ping_pbuf off n)]). split.
  - intros p ->%list_elem_of_singleton. split.
    + cbn. unfold NULL. split_and!; (done || lia).
    + done.
    + cbn. lia.
    + by repeat constructor.
    + by repeat constructor.
    + eexists _, []. by split_and!.
  - by intros p q x ->%list_elem_of_singleton ->%list_elem_of_singleton.
  - apply no_frame_sub.
  - done.
Qed.

Lemma ping_ok off n : 0 <= n < 65536 -> demo_ip_ok [4096] (ping_arp off n).
Proof.
  intros Hn. pose proof (boot_ok (L := nic_link demo_custom demo_malloc demo_bmos)
    (LL := nic_laws demo_custom demo_malloc demo_malloc_ok demo_bmos eq_refl) demo_known [4096] _ (ping_owns off n Hn)) as H.
  apply (arp_ok_insert demo_known [4096] [4096] _ 0 zero_entry _ 0 (ping_nic off n) H); try done.
  - intros _ j f Hj Hf Hb. apply lookup_replicate in Hf as [-> _]. by destruct Hb.
  - by apply ping_owns.
Qed.

Lemma ip_nf_ok : netifs_ok demo_known ip_nf.
Proof.
  split.
  - intros a n. cbn. destruct (Z.eqb_spec a 7) as [->|]; [|done]. intros [= <-]. done.
  - intros a ->%list_elem_of_singleton. by exists ip_nif.
  - right. by exists ip_nif.
Qed.

(** Layers above and beside that drop what they get. *)
Definition demo_frag (p netif dest : Z) (st : ipst) : res (Z * ipst) := Ret (ERR_RTE, st).
Definition demo_reass (p : Z) (st : ipst) (t : unit) : res (Z * ipst * unit) := let* st := ip_free demo_custom p st in Ret (0, st, t).
Definition demo_input (p inp : Z) (d : ip_globals) (st : ipst) (t : unit) : res (ipst * unit) := let* st := ip_free demo_custom p st in Ret (st, t).
Lemma demo_frag_ok F : @frag_ok F demo_custom demo_malloc demo_malloc_ok demo_bmos eq_refl demo_known ip_nf demo_frag.
Proof. intros p netif dest st x n H _ _. by exists ERR_RTE, st. Qed.
Lemma ping_sendable k off n : 0 <= k <= off -> 0 <= n < 65536 -> off < 1000 -> sendable (ip_heap (ping_st off n)) 4096 (ping_pbuf off n) [] k.
Proof.
  intros Ho Hn Hh. split.
  - cbn. unfold NULL. by split_and!.
  - cbn. lia.
  - cbn. unfold addr_ok. repeat split; try constructor; cbn; lia.
  - lia.
  - cbn. lia.
  - constructor.
  - reflexivity.
  - reflexivity.
Qed.

Lemma ping_placed off n : 0 <= off < 1000 -> 0 <= n < 65536 -> placed 4096 (ping_pbuf off n).
Proof. intros Ho Hn. unfold placed. cbn. split_and!; [lia..|]. intros _. lia. Qed.

Lemma ping_hop off n : hop (arp_table (ip_arp (ping_st off n))) ip_nif 7 (ip4 10 0 2 2) gw_mac.
Proof.
  eapply (hop_station _ _ _ _ _ (ip4 10 0 2 2) 0%nat (learned (ip4 10 0 2 2) 7 gw_mac)); try reflexivity; [by repeat constructor|done].
Qed.

Lemma ip4_output_frame_witness : exists st',
  ip4_output demo_custom demo_malloc demo_bmos ip_nf demo_frag 4096 None (ip4 10 0 2 2) 64 0 IP_PROTO_UDP (ping_st 34 12) = Ret (ERR_OK, st') /\
  ip_id st' = 6.
Proof.
  destruct (ip4_output_frame demo_custom demo_malloc demo_malloc_ok demo_bmos eq_refl demo_known demo_null ip_nf ip_nf_ok demo_frag
    demo_frag_ok 4096 None (ip4 10 0 2 2) 64 0 IP_PROTO_UDP 7 ip_nif (ping_pbuf 34 12) [] gw_mac [] (ping_st 34 12))
    as (st' & E & _ & Ei & _).
  - apply ping_ok. lia.
  - apply (ping_sendable 34); lia.
  - vm_compute. reflexivity.
  - lia.
  - reflexivity.
  - by repeat constructor.
  - apply ping_hop.
  - cbn. unfold IP_HLEN. lia.
  - cbn. lia.
  - vm_compute. split; congruence.
  - vm_compute. split; congruence.
  - cbn. lia.
  - by unfold is_byte.
  - by unfold is_byte.
  - by unfold is_byte.
  - exists st'. split; [exact E|exact Ei].
Defined.

(** The request as ip4_input gives it to icmp_input. *)
Definition ping_data : ip_globals := mkIpData 7 7 4174 20 (ip4 10 0 2 2) (if_ip ip_nif).


(** The same request with its checksum damaged, and one cut after three bytes. *)
Definition damaged : ipst := set_ip_mem (mem_write ∅ 4174 (<[10%nat := 0]> ping_hdr)) (ping_st 14 32).


Lemma ip4_input_short_witness :
  ip4_input demo_custom demo_malloc demo_bmos ip_nf demo_frag demo_reass demo_input demo_input 4096 7 (ping_st 14 3) tt = Undef.
Proof.
  apply (ip4_input_short demo_custom demo_malloc demo_malloc_ok demo_bmos eq_refl demo_known ip_nf demo_frag demo_reass
    demo_input demo_input 4096 7 ip_nif (ping_pbuf 14 3) [] (ping_st 14 3) tt).
  - apply ping_ok. lia.
  - exists (ping_pbuf 14 3). split; [reflexivity|]. split; [reflexivity|]. apply ping_placed; lia.
  - reflexivity.
  - reflexivity.
  - left. split; [cbn; lia|]. vm_compute. reflexivity.
Defined.

Lemma ip4_route_choice_witness : exists netif, ip4_route ip_nf (ip4 8 8 8 8) = Ret netif /\ netif = 7.
Proof.
  destruct (ip4_route_choice demo_known demo_null ip_nf ip_nf_ok (ip4 8 8 8 8)) as (netif & E & _).
  exists netif. split; [exact E|]. vm_compute in E. by injection E.
Defined.
