(* ===== verification/Reass.v ===== *)
(** * lwip-2.2.0/src/core/ipv4/ip4_frag.c: reassembly

    The fragments of a datagram are linked through helper structs that replace
    their IP headers (struct ip_reass_helper: next_pbuf, start, end).  Here the
    helpers of a datagram are a list in the order of next_pbuf; the stores of
    the code into the fragments are made as well, so that the headers really
    are gone.  The datagrams are the list behind reassdatagrams, so a datagram
    is named by its place in it.  The header of the new fragment is read once,
    when the fragment arrives: until its helper replaces it, the code writes
    only to packets it allocates itself. *)
From S2P Require Import Prelude NetShim Ip4Addr Link Etharp Checksum Pbuf NetGlue Ethernet Ip4 Icmp.

Definition IP_REASS_MAXAGE : Z := 15.
Definition IP_REASS_MAX_PBUFS : Z := 10.
Definition IP_REASS_FLAG_LASTFRAG : Z := 0x01.
Definition IP_REASS_VALIDATE_TELEGRAM_FINISHED : Z := 1.
Definition IP_REASS_VALIDATE_PBUF_QUEUED : Z := 0.
Definition IP_REASS_VALIDATE_PBUF_DROPPED : Z := -1.
Definition SIZEOF_IP_REASS_HELPER : Z := 12.

(** A header of 20 bytes: IPH_HL_BYTES, the length in host order, IPH_OFFSET,
    IPH_OFFSET_BYTES. *)
Definition hdr_get (hdr : list Z) (o n : nat) : Z := le_val (take n (drop o hdr)).
Definition hdr_hl_bytes (hdr : list Z) : Z := u8 (Z.land (hdr_get hdr 0 1) 0x0f * 4).
Definition hdr_len (hdr : list Z) : Z := lwip_ntohs (hdr_get hdr 2 2).
Definition hdr_offset (hdr : list Z) : Z := hdr_get hdr 6 2.
Definition IPH_OFFSET_BYTES (hdr : list Z) : Z := u16 (Z.land (lwip_ntohs (hdr_offset hdr)) IP_OFFMASK * 8).

(** ** Data *)

(** A fragment and its helper. *)
Record ip_reass_helper := mkHelper {
  fr_p : Z;
  fr_start : Z;
  fr_end : Z;
}.

Record ip_reassdata := mkReassdata {
  rd_p : list ip_reass_helper;
  rd_iphdr : list Z;
  rd_datagram_len : Z;
  rd_flags : Z;
  rd_timer : Z;
}.

(** The static variables, and the number of calls of memp_malloc so far. *)
Record reass := mkReass {
  reassdatagrams : list ip_reassdata;
  ip_reass_pbufcount : Z;
  rs_allocs : nat;
}.
Definition reass_boot : reass := mkReass [] 0 0.
Definition set_datagrams (l : list ip_reassdata) (r : reass) : reass := mkReass l (ip_reass_pbufcount r) (rs_allocs r).
Definition set_count (n : Z) (r : reass) : reass := mkReass (reassdatagrams r) n (rs_allocs r).

Definition IP_ADDRESSES_AND_ID_MATCH (A B : list Z) : bool :=
  (hdr_get A 12 4 =? hdr_get B 12 4) && (hdr_get A 16 4 =? hdr_get B 16 4) && (hdr_get A 4 2 =? hdr_get B 4 2).

Section Reass.
Variable custom_free : Z -> pheap -> res pheap.
Variable malloc : nat -> gmap Z pbuf -> Z.
Variable bmos : netif.
Variable nf : netifs.
Variable ip4_frag : Z -> Z -> Z -> ipst -> res (Z * ipst).
(** memp_malloc(MEMP_REASSDATA): does the n-th call succeed? *)
Variable memp : nat -> bool.
Abbreviation ip_free := (ip_free custom_free).
Implicit Types (r : reass) (st : ipst).

(** ** Removal *)
Definition ip_reass_dequeue_datagram (i : nat) r : reass := set_datagrams (delete i (reassdatagrams r)) r.

(** The loop that frees the fragments. *)
Fixpoint free_frags (l : list ip_reass_helper) (pbufs_freed : Z) st : res (Z * ipst) :=
  match l with
  | [] => Ret (pbufs_freed, st)
  | f :: l =>
      let* clen := pbuf_clen (fr_p f) (ip_heap st) in
      lwip_assert (pbufs_freed + clen <=? 0xffff) (
        let* st := ip_free (fr_p f) st in
        free_frags l (u16 (pbufs_freed + clen)) st)
  end.

(** The message about a datagram whose first fragment is there: the fragments
    that are left and the number of pbufs freed. *)
Definition time_exceeded (d : ip_reassdata) (f : ip_reass_helper) (l : list ip_reass_helper) st :
  res (list ip_reass_helper * Z * ipst) :=
  let* b := pget (ip_heap st) (fr_p f) in
  if fr_start f =? 0 then
    within IP_HLEN (p_len b) (
      let st := set_ip_mem (mem_write (pmem (ip_heap st)) (payload b) (rd_iphdr d)) st in
      let* st := icmp_time_exceeded custom_free malloc bmos nf ip4_frag (fr_p f) ICMP_TE_FRAG st in
      let* clen := pbuf_clen (fr_p f) (ip_heap st) in
      lwip_assert (0 + clen <=? 0xffff) (
        let* st := ip_free (fr_p f) st in
        Ret (l, u16 (0 + clen), st)))
  else Ret (f :: l, 0, st).

Definition ip_reass_free_complete_datagram (i : nat) r st : res (Z * reass * ipst) :=
  let* d := res_of_option (reassdatagrams r !! i) in
  match rd_p d with
  | [] => Undef
  | f :: l =>
      let* (l, pbufs_freed, st) := time_exceeded d f l st in
      let* (pbufs_freed, st) := free_frags l pbufs_freed st in
      let r := ip_reass_dequeue_datagram i r in
      lwip_assert (ip_reass_pbufcount r >=? pbufs_freed)
        (Ret (pbufs_freed, set_count (u16 (ip_reass_pbufcount r - pbufs_freed)) r, st))
  end.

(** The oldest datagram other than that of the header [hdr], and how many such
    datagrams there are. *)
Fixpoint find_oldest (i : nat) (hdr : list Z) (l : list ip_reassdata) (oldest : option (nat * Z)) (other_datagrams : Z) :
  option (nat * Z) * Z :=
  match l with
  | [] => (oldest, other_datagrams)
  | d :: l =>
      if negb (IP_ADDRESSES_AND_ID_MATCH (rd_iphdr d) hdr) then
        let oldest :=
          match oldest with
          | None => Some (i, rd_timer d)
          | Some (_, timer) => if rd_timer d <=? timer then Some (i, rd_timer d) else oldest
          end in
        find_oldest (S i) hdr l oldest (other_datagrams + 1)
      else find_oldest (S i) hdr l oldest other_datagrams
  end.

Fixpoint remove_oldest (fuel : nat) (hdr : list Z) (pbufs_needed pbufs_freed : Z) r st : res (Z * reass * ipst) :=
  match fuel with
  | O => NoFuel
  | S fuel =>
      let (oldest, other_datagrams) := find_oldest 0 hdr (reassdatagrams r) None 0 in
      let* (pbufs_freed, r, st) :=
        match oldest with
        | Some (i, _) =>
            let* (n, r, st) := ip_reass_free_complete_datagram i r st in Ret (pbufs_freed + n, r, st)
        | None => Ret (pbufs_freed, r, st)
        end in
      if (pbufs_freed <? pbufs_needed) && (other_datagrams >? 1)
      then remove_oldest fuel hdr pbufs_needed pbufs_freed r st
      else Ret (pbufs_freed, r, st)
  end.
Definition ip_reass_remove_oldest_datagram (hdr : list Z) (pbufs_needed : Z) r st : res (Z * reass * ipst) :=
  remove_oldest (S (length (reassdatagrams r))) hdr pbufs_needed 0 r st.

(** ** A new datagram *)
Definition memp_malloc r : bool * reass :=
  (memp (rs_allocs r), mkReass (reassdatagrams r) (ip_reass_pbufcount r) (S (rs_allocs r))).

(** Returns whether there is one now; it is the first of the list. *)
Definition ip_reass_enqueue_new_datagram (hdr : list Z) (clen : Z) r st : res (bool * reass * ipst) :=
  let (ok, r) := memp_malloc r in
  let* (ok, r, st) :=
    if ok then Ret (true, r, st)
    else
      let* (n, r, st) := ip_reass_remove_oldest_datagram hdr clen r st in
      if n >=? clen then let (ok, r) := memp_malloc r in Ret (ok, r, st) else Ret (false, r, st) in
  if ok then
    let d := mkReassdata [] hdr 0 0 IP_REASS_MAXAGE in
    Ret (true, set_datagrams (d :: reassdatagrams r) r, st)
  else Ret (false, r, st).

(** ** A new fragment *)
Definition set_next_pbuf (f : ip_reass_helper) (q : Z) st : res ipst :=
  let* b := pget (ip_heap st) (fr_p f) in
  Ret (set_ip_mem (mem_write (pmem (ip_heap st)) (payload b) (le_bytes 8 q)) st).

(** "Iterate through until we either get to the end of the list (append), or
    we find one with a larger offset (insert)": the list with the new
    fragment, what follows it there, and whether there was no hole up to it;
    [None] when the fragment overlaps another one. *)
Fixpoint insert_frag (new : ip_reass_helper) (prev : option ip_reass_helper) (valid : bool) (l : list ip_reass_helper) st :
  res (option (list ip_reass_helper * list ip_reass_helper * bool) * ipst) :=
  match l with
  | [] =>
      match prev with
      | Some pv =>
          lwip_assert (fr_end pv <=? fr_start new) (
            let* st := set_next_pbuf pv (fr_p new) st in
            Ret (Some ([new], [], valid && (fr_end pv =? fr_start new)), st))
      | None => Ret (Some ([new], [], valid), st)
      end
  | tmp :: l =>
      let* _ := pget (ip_heap st) (fr_p tmp) in
      if fr_start new <? fr_start tmp then
        let* st := set_next_pbuf new (fr_p tmp) st in
        match prev with
        | Some pv =>
            if (fr_start new <? fr_end pv) || (fr_end new >? fr_start tmp) then Ret (None, st)
            else
              let* st := set_next_pbuf pv (fr_p new) st in
              Ret (Some (new :: tmp :: l, tmp :: l, valid && (fr_end pv =? fr_start new)), st)
        | None =>
            if fr_end new >? fr_start tmp then Ret (None, st) else Ret (Some (new :: tmp :: l, tmp :: l, valid), st)
        end
      else if fr_start new =? fr_start tmp then Ret (None, st)
      else if fr_start new <? fr_end tmp then Ret (None, st)
      else
        let valid := match prev with Some pv => valid && (fr_end pv =? fr_start tmp) | None => valid end in
        let* (o, st) := insert_frag new (Some tmp) valid l st in
        Ret (match o with Some (l', rest, v) => Some (tmp :: l', rest, v) | None => None end, st)
  end.

(** "check that there are no holes after this datagram": the answer, and the
    fragment the scan ended with. *)
Fixpoint check_rest (prev : ip_reass_helper) (l : list ip_reass_helper) (h : pheap) : res (bool * ip_reass_helper) :=
  match l with
  | [] => Ret (true, prev)
  | q :: l =>
      let* _ := pget h (fr_p q) in
      if negb (fr_end prev =? fr_start q) then Ret (false, q) else check_rest q l h
  end.

(** "the validation part" *)
Definition validate (d : ip_reassdata) (new : ip_reass_helper) (rest : list ip_reass_helper) (is_last valid : bool) (h : pheap) : res Z :=
  if is_last || has_flag (rd_flags d) IP_REASS_FLAG_LASTFRAG then
    let* valid :=
      if (valid : bool) then
        match rd_p d with
        | [] => Ret false
        | first :: _ =>
            let* _ := pget h (fr_p first) in
            if negb (fr_start first =? 0) then Ret false
            else
              let* (valid, last) := check_rest new rest h in
              if (valid : bool) then lwip_assert (negb (fr_p first =? fr_p last)) (Ret true) else Ret false
        end
      else Ret false in
    Ret (if (valid : bool) then IP_REASS_VALIDATE_TELEGRAM_FINISHED else IP_REASS_VALIDATE_PBUF_QUEUED)
  else Ret IP_REASS_VALIDATE_PBUF_QUEUED.

Definition set_rd_p (l : list ip_reass_helper) (d : ip_reassdata) : ip_reassdata :=
  mkReassdata l (rd_iphdr d) (rd_datagram_len d) (rd_flags d) (rd_timer d).

Definition ip_reass_chain_frag_into_datagram_and_validate (d : ip_reassdata) (new_p : Z) (hdr : list Z) (is_last : bool) st :
  res (Z * ip_reassdata * ipst) :=
  let* b := pget (ip_heap st) new_p in
  let len := hdr_len hdr in
  let hlen := hdr_hl_bytes hdr in
  if hlen >? len then Ret (IP_REASS_VALIDATE_PBUF_DROPPED, d, st)
  else
    let len := u16 (len - hlen) in
    let offset := IPH_OFFSET_BYTES hdr in
    lwip_assert (SIZEOF_IP_REASS_HELPER <=? IP_HLEN) (
      let new := mkHelper new_p offset (u16 (offset + len)) in
      let m := mem_write (pmem (ip_heap st)) (payload b) (le_bytes 8 NULL ++ le_bytes 2 (fr_start new) ++ le_bytes 2 (fr_end new)) in
      let st := set_ip_mem m st in
      if fr_end new <? offset then Ret (IP_REASS_VALIDATE_PBUF_DROPPED, d, st)
      else
        let* (o, st) := insert_frag new None true (rd_p d) st in
        match o with
        | None => Ret (IP_REASS_VALIDATE_PBUF_DROPPED, d, st)
        | Some (l, rest, valid) =>
            let d := set_rd_p l d in
            let* result := validate d new rest is_last valid (ip_heap st) in
            Ret (result, d, st)
        end).

(** ** ip4_reass *)

(** The datagram of a header. *)
Fixpoint find_datagram (i : nat) (hdr : list Z) (l : list ip_reassdata) : option nat :=
  match l with
  | [] => None
  | d :: l => if IP_ADDRESSES_AND_ID_MATCH (rd_iphdr d) hdr then Some i else find_datagram (S i) hdr l
  end.

(** "copy the original ip header back to the first pbuf" *)
Definition restore_hdr (m : memory) (a : Z) (hdr : list Z) (datagram_len : Z) : memory :=
  let m := mem_write m a hdr in
  let m := mem_write m (a + 2) (le_bytes 2 (lwip_htons datagram_len)) in
  let m := mem_write m (a + 6) (le_bytes 2 0) in
  let m := mem_write m (a + 10) (le_bytes 2 0) in
  mem_write m (a + 10) (le_bytes 2 (inet_chksum (mload m) a IP_HLEN)).

(** "chain together the pbufs contained within the reass_data list." *)
Fixpoint chain_frags (p : Z) (l : list ip_reass_helper) (h : pheap) : res pheap :=
  match l with
  | [] => Ret h
  | f :: l =>
      let* (_, h) := pbuf_remove_header (fr_p f) IP_HLEN h in
      let* h := pbuf_cat p (fr_p f) h in
      chain_frags p l h
  end.

(** All fragments are there. *)
Definition finish_datagram (i : nat) (d : ip_reassdata) r st : res (Z * ipst * reass) :=
  match rd_p d with
  | [] => Undef
  | f :: l =>
      let datagram_len := u16 (rd_datagram_len d + IP_HLEN) in
      let p := fr_p f in
      let* b := pget (ip_heap st) p in
      within IP_HLEN (p_len b) (
        let h := set_pmem (restore_hdr (pmem (ip_heap st)) (payload b) (rd_iphdr d) datagram_len) (ip_heap st) in
        let* h := chain_frags p l h in
        let r := ip_reass_dequeue_datagram i r in
        let* clen := pbuf_clen p h in
        lwip_assert (ip_reass_pbufcount r >=? clen)
          (Ret (p, set_ip_heap h st, set_count (u16 (ip_reass_pbufcount r - clen)) r)))
  end.

Definition set_last (datagram_len : Z) (d : ip_reassdata) : ip_reassdata :=
  mkReassdata (rd_p d) (rd_iphdr d) datagram_len (Z.lor (rd_flags d) IP_REASS_FLAG_LASTFRAG) (rd_timer d).
Definition set_iphdr (hdr : list Z) (d : ip_reassdata) : ip_reassdata :=
  mkReassdata (rd_p d) hdr (rd_datagram_len d) (rd_flags d) (rd_timer d).

(** From "At this point, we have either created a new entry or pointing to an
    existing one" on; [i] is its place. *)
Definition reass_into (i : nat) (p : Z) (hdr : list Z) (offset len clen : Z) r st : res (Z * ipst * reass) :=
  let* d := res_of_option (reassdatagrams r !! i) in
  let is_last := Z.land (hdr_offset hdr) (lwip_ntohs IP_MF) =? 0 in
  let nullreturn_ipr r st :=
    let* r := match rd_p d with
              | [] => lwip_assert (Nat.eqb i 0) (Ret (ip_reass_dequeue_datagram i r))
              | _ => Ret r
              end in
    let* st := ip_free p st in Ret (NULL, st, r) in
  let datagram_len := u16 (offset + len) in
  if is_last && ((datagram_len <? offset) || (datagram_len >? 0xFFFF - IP_HLEN)) then nullreturn_ipr r st
  else
    let* (valid, d, st) := ip_reass_chain_frag_into_datagram_and_validate d p hdr is_last st in
    if valid =? IP_REASS_VALIDATE_PBUF_DROPPED then nullreturn_ipr r st
    else
      let d := if is_last then set_last datagram_len d else d in
      let r := set_count (u16 (ip_reass_pbufcount r + clen)) (set_datagrams (<[i := d]> (reassdatagrams r)) r) in
      if valid =? IP_REASS_VALIDATE_TELEGRAM_FINISHED then finish_datagram i d r st
      else Ret (NULL, st, r).

(** Room for [clen] more pbufs, made by giving up other datagrams if need be. *)
Definition make_room (hdr : list Z) (clen : Z) r st : res (bool * reass * ipst) :=
  if ip_reass_pbufcount r + clen >? IP_REASS_MAX_PBUFS then
    let* (n, r, st) := ip_reass_remove_oldest_datagram hdr clen r st in
    Ret (negb ((n =? 0) || (ip_reass_pbufcount r + clen >? IP_REASS_MAX_PBUFS)), r, st)
  else Ret (true, r, st).

Definition ip4_reass (p : Z) st r : res (Z * ipst * reass) :=
  let nullreturn r st := let* st := ip_free p st in Ret (NULL, st, r) in
  let* b := pget (ip_heap st) p in
  within IP_HLEN (p_len b) (
    let hdr := mem_read (pmem (ip_heap st)) (payload b) IP_HLEN in
    let hlen := hdr_hl_bytes hdr in
    if negb (hlen =? IP_HLEN) then nullreturn r st
    else
      let offset := IPH_OFFSET_BYTES hdr in
      let len := hdr_len hdr in
      if hlen >? len then nullreturn r st
      else
        let len := u16 (len - hlen) in
        let* clen := pbuf_clen p (ip_heap st) in
        let* (room, r, st) := make_room hdr clen r st in
        if negb room then nullreturn r st
        else
          match find_datagram 0 hdr (reassdatagrams r) with
          | None =>
              let* (ok, r, st) := ip_reass_enqueue_new_datagram hdr clen r st in
              if negb ok then nullreturn r st else reass_into 0 p hdr offset len clen r st
          | Some i =>
              let* d := res_of_option (reassdatagrams r !! i) in
              let d := if (IPH_OFFSET_BYTES hdr =? 0) && negb (IPH_OFFSET_BYTES (rd_iphdr d) =? 0) then set_iphdr hdr d else d in
              reass_into i p hdr offset len clen (set_datagrams (<[i := d]> (reassdatagrams r)) r) st
          end).

(** ** ip_reass_tmr *)
Definition set_timer (n : Z) (d : ip_reassdata) : ip_reassdata :=
  mkReassdata (rd_p d) (rd_iphdr d) (rd_datagram_len d) (rd_flags d) n.

Fixpoint tmr_loop (fuel i : nat) r st : res (reass * ipst) :=
  match fuel with
  | O => NoFuel
  | S fuel =>
      match reassdatagrams r !! i with
      | None => Ret (r, st)
      | Some d =>
          if rd_timer d >? 0
          then tmr_loop fuel (S i) (set_datagrams (<[i := set_timer (u8 (rd_timer d - 1)) d]> (reassdatagrams r)) r) st
          else let* (_, r, st) := ip_reass_free_complete_datagram i r st in tmr_loop fuel i r st
      end
  end.
Definition ip_reass_tmr r st : res (reass * ipst) := tmr_loop (S (length (reassdatagrams r))) 0 r st.
End Reass.
