(* ===== verification/ReassInv.v ===== *)
(** * Reassembly: the invariant

    The fragments that wait are packets of their own.  They are the frame of
    whatever else happens, and a fragment that is used is taken out of it. *)
From S2P Require Import Prelude NetShim Ip4Addr Link Etharp EtharpInv Checksum Pbuf PbufChain PbufOps NetGlue PbufClone Ethernet EthernetInv EthernetRx Ip4 Icmp Ip4Input Ip4Inv IcmpInv Ip4Rx Reass.

(** ** Packets move between the frame and those who hold them *)

(** A fragment that waits: one pbuf with a header and data. *)
Record frag_pbuf (p : Z) (b : pbuf) : Prop := {
  fp_null : p <> NULL;
  fp_next : next b = NULL;
  fp_tot : p_tot_len b = p_len b;
  fp_len : 20 < p_len b <= TXBUF;
  fp_ref : p_ref b = 1;
  fp_plain : plain (p, b);
  fp_placed : placed p b;
}.

Definition thawed (p : Z) (F : Frame) : Frame := delete p (@frame F).
Definition frozen (p : Z) (b : pbuf) (F : Frame) : Frame := <[p := b]> (@frame F).

Lemma held_thaw (F : Frame) h C l p b :
  @held F h C l -> @frame F !! p = Some b -> frag_pbuf p b ->
  @held (thawed p F) h (fun q => if decide (q = p) then [(p, b)] else C q) (p :: l).
Proof.
  intros [H1 H2 H3 H4] Hp [P1 P2 P3 P4 P5 P6 _]. 
  assert (forall q x, q ∈ l -> x ∈ (C q).*1 -> x <> p) as Hx.
  { intros q x Hq Hin ->. rewrite (H4 q p Hq Hin) in Hp. done. }
  assert (p ∉ l) as Hpl by (intros Hin; by eapply (Hx p p Hin), eq_refl; eapply packet_in, H1, Hin).
  assert (pbufs h !! p = Some b) as Hb by by eapply lookup_weaken.
  split; unfold frame, thawed, frozen; fold (@frame F).
  - intros q Hq. case_decide as E; [subst q|].
    + rewrite refs_cons_eq, (proj1 (count_occ_not_In _ _ _)) by (by rewrite <- list_elem_of_In). split.
      * cbn. by rewrite P2.
      * done.
      * cbn. unfold TXBUF in P4. lia.
      * constructor; [|done]. cbn. by rewrite P2.
      * by constructor.
      * by exists b, [].
    + rewrite refs_cons_ne by done. apply H1. by apply elem_of_cons in Hq as [->|].
  - intros q s x Hq Hs Hne Hin. repeat case_decide; subst; try done.
    + apply list_elem_of_singleton in Hin as ->. cbn. intros Hin. apply elem_of_cons in Hs as [->|Hs]; [done|]. by eapply Hx.
    + cbn. rewrite list_elem_of_singleton. apply elem_of_cons in Hq as [->|Hq]; [done|]. by apply (Hx q).
    + apply (H2 q s x); try done; [by apply elem_of_cons in Hq as [->|]|by apply elem_of_cons in Hs as [->|]].
  - etrans; [apply delete_subseteq|done].
  - intros q x Hq. case_decide as E; [subst|].
    + intros ->%list_elem_of_singleton. apply lookup_delete_eq.
    + intros Hin. rewrite lookup_delete_ne; [|by apply not_eq_sym, (Hx q); [apply elem_of_cons in Hq as [->|]|]].
      apply (H4 q); [by apply elem_of_cons in Hq as [->|]|done].
Qed.

Lemma held_freeze (F : Frame) h C l p b :
  @held F h C (p :: l) -> pget h p = Ret b -> next b = NULL -> p_ref b = 1 ->
  @held (frozen p b F) h C l /\ packet h p [(p, b)] 1 /\ @frame F !! p = None.
Proof.
  intros H Hg Hn Hr. destruct (held_packet _ _ _ _ H) as (b0 & r & Er & Hp & Hg0 & Hb). rewrite Hg in Hg0. injection Hg0 as <-.
  assert (r = []) as ->.
  { destruct (pk_chain _ _ _ _ Hp) as (_ & _ & _ & Hc). rewrite Hn in Hc. destruct r as [|[c d] r]; [done|]. by destruct Hc as (<- & [] & _). }
  assert (refs_to l p = 0%nat) as H0 by lia. rewrite H0 in Hp.
  assert (p ∉ l) as Hpl by (rewrite list_elem_of_In; by apply (count_occ_not_In Z.eq_dec)).
  assert (@frame F !! p = None) as HF by (apply (hd_off _ _ _ H p); [by left|]; rewrite Er; by left).
  pose proof H as [H1 H2 H3 H4].  split; [|done]. split; unfold frame, thawed, frozen; fold (@frame F).
  - intros q Hq. assert (q <> p) as Hne by (by intros ->). rewrite <- (refs_cons_ne l p q Hne). apply H1. by right.
  - intros q s x Hq Hs. apply H2; by right.
  - apply insert_subseteq_l; [|done]. by apply pget_lookup in Hg as [_ Hg].
  - intros q x Hq Hx. rewrite lookup_insert_ne; [by apply (H4 q); [right|]|]. intros <-.
    apply (H2 q p p); [by right|by left|by intros ->|done|]. rewrite Er. by left.
Qed.

(** ** The invariant *)

(** Sorted, apart, and each with data. *)
Fixpoint spaced (l : list ip_reass_helper) : Prop :=
  match l with
  | [] => True
  | f :: l => 0 <= fr_start f < fr_end f /\ Forall (fun g => fr_end f <= fr_start g) l /\ spaced l
  end.

Record data_ok (d : ip_reassdata) : Prop := {
  do_some : rd_p d <> [];
  do_spaced : spaced (rd_p d);
  do_hdr : length (rd_iphdr d) = 20%nat;
  do_bytes : bytes (rd_iphdr d);
  do_hl : hdr_hl_bytes (rd_iphdr d) = 20;
  do_timer : 0 <= rd_timer d <= IP_REASS_MAXAGE;
}.

Definition all_frags (l : list ip_reassdata) : list ip_reass_helper := concat (rd_p <$> l).
Definition frags (r : reass) : list ip_reass_helper := all_frags (reassdatagrams r).

(** The fragments [l] are in the frame. *)
Definition waiting (F : Frame) (l : list ip_reass_helper) : Prop :=
  NoDup (fr_p <$> l) /\ forall f, f ∈ l -> exists b, @frame F !! fr_p f = Some b /\ frag_pbuf (fr_p f) b.

Record reass_inv (F : Frame) (r : reass) : Prop := {
  ri_waiting : waiting F (frags r);
  ri_count : ip_reass_pbufcount r = Z.of_nat (length (frags r));
  ri_max : ip_reass_pbufcount r <= IP_REASS_MAX_PBUFS;
  ri_data : Forall data_ok (reassdatagrams r);
}.

Lemma waiting_perm F l l' : l ≡ₚ l' -> waiting F l -> waiting F l'.
Proof. intros Hp [H1 H2]. split; [by rewrite <- Hp|]. intros f. rewrite <- Hp. apply H2. Qed.
Lemma waiting_app F l l' : waiting F (l ++ l') -> waiting F l /\ waiting F l' /\ forall f, f ∈ l -> fr_p f ∉ fr_p <$> l'.
Proof.
  intros [H1 H2]. rewrite fmap_app in H1. apply NoDup_app in H1 as (N1 & N2 & N3). split_and!.
  - split; [done|]. intros f Hf. apply H2, elem_of_app. by left.
  - split; [done|]. intros f Hf. apply H2, elem_of_app. by right.
  - intros f Hf. apply N2, list_elem_of_fmap. by exists f.
Qed.
Lemma waiting_agree F F' l : waiting F l -> (forall q, q ∈ fr_p <$> l -> @frame F' !! q = @frame F !! q) -> waiting F' l.
Proof.
  intros [H1 H2] Ha. split; [done|]. intros f Hf. rewrite Ha; [by apply H2|]. apply list_elem_of_fmap. by exists f.
Qed.
Lemma waiting_cons F f l b : waiting F l -> @frame F !! fr_p f = Some b -> frag_pbuf (fr_p f) b -> fr_p f ∉ fr_p <$> l -> waiting F (f :: l).
Proof.
  intros [H1 H2] Hb Hp Hn. split; [by constructor|]. intros g [->|Hg]%elem_of_cons; [by exists b|by apply H2].
Qed.

Lemma all_frags_cons d l : all_frags (d :: l) = rd_p d ++ all_frags l.
Proof. done. Qed.
Lemma all_frags_delete l i d : l !! i = Some d -> all_frags l ≡ₚ rd_p d ++ all_frags (delete i l).
Proof.
  revert i. induction l as [|e l IH]; intros [|i] Hi; try done; cbn [lookup list_lookup] in Hi.
  - injection Hi as ->. done.
  - cbn [delete list_delete]. rewrite !all_frags_cons, (IH i Hi), !app_assoc. apply Permutation_app; [apply Permutation_app_comm|done].
Qed.
Lemma all_frags_insert l i d d' : l !! i = Some d -> all_frags (<[i := d']> l) ≡ₚ rd_p d' ++ all_frags (delete i l).
Proof.
  intros Hi. rewrite (all_frags_delete (<[i := d']> l) i d').
  - f_equiv. revert i Hi. induction l as [|e l IH]; intros [|i] Hi; try done; cbn [lookup list_lookup] in Hi.
    cbn [insert list_insert delete list_delete]. rewrite !all_frags_cons. f_equiv. by apply IH.
  - apply list_lookup_insert_eq. by eapply lookup_lt_Some.
Qed.
Lemma data_delete l i : Forall data_ok l -> Forall data_ok (delete i l).
Proof. intros H. rewrite delete_take_drop. apply Forall_app. split; [by apply Forall_take|by apply Forall_drop]. Qed.

Lemma clen_one p b h : pget h p = Ret b -> next b = NULL -> pbuf_clen p h = Ret 1.
Proof.
  intros Hg Hn. pose proof Hg as [Hp Hl]%pget_lookup.
  assert (chain_at (pbufs h) p [(p, b)]) as Hc by (cbn; rewrite Hn; by split_and!).
  pose proof (chain_length_le _ _ _ Hc) as Hf. unfold pbuf_clen. cbn [length] in Hf.
  destruct (chain_fuel h) as [|[|k]]; [lia|lia|]. cbn [pbuf_clen_loop]. rewrite (proj2 (Z.eqb_neq p NULL) Hp), Hg. cbn [res_bind].
  by rewrite Hn.
Qed.

Section Inv.
Variable custom_free : Z -> pheap -> res pheap.
Variable malloc : nat -> gmap Z pbuf -> Z.
Context (Hmalloc : malloc_ok malloc).
Variable bmos : netif.
Context (Hbmos : nif_hwaddr_len bmos = ETH_HWADDR_LEN).
#[local] Instance inv_ops : LinkOps nic := nic_link custom_free malloc bmos.
Variable known : Z -> Prop.
Context (known_null : ~ known 0).
Variable nf : netifs.
Context (Hnf : netifs_ok known nf).
Variable ip4_frag : Z -> Z -> Z -> ipst -> res (Z * ipst).
Context (Hfrag : forall F0, @frag_ok F0 custom_free malloc Hmalloc bmos Hbmos known nf ip4_frag).
Variable memp : nat -> bool.
Abbreviation okF F0 x st := (@arp_ok nic inv_ops (@nic_laws F0 custom_free malloc Hmalloc bmos Hbmos) known x (ip_arp st)).
Implicit Types (F : Frame) (r : reass) (st : ipst).

Lemma okF_owns F F' x x' st : okF F x st ->
  @nic_owns F' (lk (ip_arp st)) (x' ++ queue_refs (arp_table (ip_arp st))) -> okF F' x' st.
Proof. intros [H1 H2 H3 H4 H5] Ho. by split. Qed.

Lemma ok_thaw F x st p b : okF F x st -> @frame F !! p = Some b -> frag_pbuf p b ->
  okF (thawed p F) (p :: x) st.
Proof.
  intros H Hp Hb. eapply okF_owns; [exact H|]. destruct (ao_owns _ _ _ H) as (Hm & Ht & C & HC).
  split_and!; try done. eexists. by apply held_thaw.
Qed.

Lemma ok_freeze F x st p b : okF F (p :: x) st -> pget (ip_heap st) p = Ret b -> next b = NULL -> p_ref b = 1 ->
  okF (frozen p b F) x st /\ packet (ip_heap st) p [(p, b)] 1 /\ @frame F !! p = None.
Proof.
  intros H Hg Hn Hr. destruct (ao_owns _ _ _ H) as (Hm & Ht & C & HC).
  destruct (held_freeze F _ _ _ _ _ HC Hg Hn Hr) as (HC' & Hp & HF). split; [|done]. eapply okF_owns; [exact H|].
  split_and!; try done. by exists C.
Qed.

Lemma ok_frame F x st p b : okF F x st -> @frame F !! p = Some b -> frag_pbuf p b -> pget (ip_heap st) p = Ret b.
Proof.
  intros H Hp Hb. destruct (ao_owns _ _ _ H) as (_ & _ & C & HC). apply pget_lookup. split; [apply Hb|].
  eapply lookup_weaken; [exact Hp|]. apply HC.
Qed.

Lemma ok_source_frame F x st p b : okF F x st -> @frame F !! p = Some b -> frag_pbuf p b -> source (ip_heap st) p b.
Proof.
  intros H Hp Hb. pose proof (ok_frame _ _ _ _ _ H Hp Hb) as [H0 Hl]%pget_lookup. destruct Hb as [B1 B2 B3 B4 B5 B6 B7].
  exists []. split_and!.
  - cbn. rewrite B2. by split_and!.
  - cbn. unfold TXBUF in *. lia.
  - by repeat constructor.
Qed.

(** ** Giving up a datagram *)

(** Only the fragments [l] left the frame. *)
Definition kept F F' (l : list ip_reass_helper) : Prop := forall q, q ∉ fr_p <$> l -> @frame F' !! q = @frame F !! q.

Lemma kept_trans F F1 F2 l l1 : kept F F1 l -> kept F1 F2 l1 -> (forall q, q ∈ fr_p <$> l1 -> q ∈ fr_p <$> l) -> kept F F2 l.
Proof. intros H1 H2 Hs q Hq. rewrite H2; [by apply H1|]. intros Hin. by apply Hq, Hs. Qed.

(** Freeing one fragment. *)
Lemma free_one F x st f l : okF F x st -> waiting F (f :: l) ->
  pbuf_clen (fr_p f) (ip_heap st) = Ret 1 /\
  exists st', ip_free custom_free (fr_p f) st = Ret st' /\ okF (thawed (fr_p f) F) x st' /\ waiting (thawed (fr_p f) F) l /\
    kept F (thawed (fr_p f) F) [f] /\ nic_tx (lk (ip_arp st')) = nic_tx (lk (ip_arp st)).
Proof.
  intros H Hw. destruct (waiting_app F [f] l Hw) as ([_ W1] & W2 & W3). destruct (W1 f ltac:(by left)) as (b & Hb & Hf).
  pose proof (ok_frame _ _ _ _ _ H Hb Hf) as Hg. split; [eapply clen_one; [exact Hg|apply Hf]|].
  destruct (ip_free_spec (F := thawed (fr_p f) F) custom_free malloc Hmalloc bmos Hbmos known st (fr_p f) x (ok_thaw _ _ _ _ _ H Hb Hf))
    as (st' & E & H' & _ & _ & _ & _ & Ex).
  assert (kept F (thawed (fr_p f) F) [f]) as Hk.
  { intros q Hq. unfold frame, thawed. rewrite lookup_delete_ne; [done|]. intros <-. apply Hq. by left. }
  exists st'. split_and!; try done. apply (waiting_agree F _ _ W2). intros q Hq. apply Hk.
  intros ->%list_elem_of_singleton. apply (W3 f); [by left|done].
Qed.

Lemma free_frags_spec l : forall F n x st, okF F x st -> waiting F l -> 0 <= n -> n + Z.of_nat (length l) <= 65535 ->
  exists st' F', free_frags custom_free l n st = Ret (n + Z.of_nat (length l), st') /\ okF F' x st' /\ kept F F' l /\
    nic_tx (lk (ip_arp st')) = nic_tx (lk (ip_arp st)).
Proof.
  induction l as [|f l IH]; intros F n x st H Hw Hn Hl.
  - exists st, F. cbn. rewrite Z.add_0_r. by split_and!.
  - cbn [length] in *. cbn [free_frags]. destruct (free_one F x st f l H Hw) as (-> & st1 & E1 & H1 & W1 & K1 & X1). cbn [res_bind].
    rewrite (proj2 (Z.leb_le _ _)) by lia. cbn [lwip_assert]. rewrite E1. cbn [res_bind]. rewrite (u16_small (n + 1)) by lia.
    destruct (IH _ (n + 1) x st1 H1 W1) as (st' & F' & -> & H' & K' & X'); [lia..|]. exists st', F'.
    split; [do 2 f_equal; lia|]. split; [done|]. split; [|congruence]. intros q Hq. rewrite fmap_cons in Hq. apply not_elem_of_cons in Hq as [Hq1 Hq2].
    rewrite K', K1; [done| |done]. cbn. by rewrite list_elem_of_singleton.
Qed.

Lemma time_exceeded_spec F d f l x st : okF F x st -> waiting F (f :: l) -> data_ok d ->
  exists l' n st' F', time_exceeded custom_free malloc bmos nf ip4_frag d f l st = Ret (l', n, st') /\ okF F' x st' /\ waiting F' l' /\
    n + Z.of_nat (length l') = Z.of_nat (S (length l)) /\ 0 <= n /\ kept F F' (f :: l) /\ (forall q, q ∈ fr_p <$> l' -> q ∈ fr_p <$> f :: l) /\
    (fr_start f <> 0 -> nic_tx (lk (ip_arp st')) = nic_tx (lk (ip_arp st))).
Proof.
  intros H Hw Hd. destruct (proj2 Hw f ltac:(by left)) as (b & Hb & Hf). pose proof (ok_frame _ _ _ _ _ H Hb Hf) as Hg.
  unfold time_exceeded. rewrite Hg. cbn [res_bind]. destruct (Z.eqb_spec (fr_start f) 0) as [E0|E0].
  2:{ exists (f :: l), 0, st, F. split_and!; done. }
  pose proof (fp_len _ _ Hf) as Hl. rewrite within_true by (unfold IP_HLEN; lia).
  set (st1 := set_ip_mem _ st). assert (okF F x st1) as H1.
  { apply ok_mem; [done|]. apply mem_ok_mem_write. by eapply ok_mem_ok. }
  destruct (send_response_spec (F := F) custom_free malloc Hmalloc bmos Hbmos known known_null nf Hnf ip4_frag (Hfrag F) (fr_p f) ICMP_TE
    ICMP_TE_FRAG b x st1 H1) as (st2 & E2 & H2); [by eapply ok_source_frame|lia|].
  unfold icmp_time_exceeded. rewrite E2. cbn [res_bind].
  destruct (free_one F x st2 f l H2 Hw) as (-> & st3 & E3 & H3 & W3 & K3 & _). cbn [res_bind Z.add]. change (1 <=? 65535) with true.
  cbn [lwip_assert]. rewrite E3. cbn [res_bind]. exists l, 1, st3, (thawed (fr_p f) F). split_and!; try done; try lia.
  - intros q Hq. apply K3. intros Hin. apply Hq. cbn in *. apply list_elem_of_singleton in Hin as ->. by left.
  - intros q Hq. by right.
Qed.

Lemma max_frags F r : reass_inv F r -> Z.of_nat (length (frags r)) <= 10.
Proof. intros H. rewrite <- (ri_count _ _ H). apply H. Qed.

Lemma free_complete_spec F i d r x st : reass_inv F r -> okF F x st -> reassdatagrams r !! i = Some d ->
  exists r' st' F', ip_reass_free_complete_datagram custom_free malloc bmos nf ip4_frag i r st = Ret (Z.of_nat (length (rd_p d)), r', st') /\
    reassdatagrams r' = delete i (reassdatagrams r) /\ rs_allocs r' = rs_allocs r /\ reass_inv F' r' /\ okF F' x st' /\ kept F F' (rd_p d) /\
    (Forall (fun f => fr_start f <> 0) (rd_p d) -> nic_tx (lk (ip_arp st')) = nic_tx (lk (ip_arp st))).
Proof.
  intros Hi H Hd. pose proof Hi as [W Hc Hmx Hdat]. pose proof (max_frags _ _ Hi) as Hmax.
  pose proof (proj1 (Forall_lookup _ _) Hdat i d Hd) as Dd. unfold frags in W, Hc, Hmax. pose proof (all_frags_delete _ _ _ Hd) as Hperm.
  apply (waiting_perm _ _ _ Hperm) in W as (W1 & W2 & W3)%waiting_app. rewrite Hperm, length_app in Hc, Hmax.
  unfold ip_reass_free_complete_datagram. rewrite Hd. cbn [res_of_option res_bind]. pose proof (do_some _ Dd) as Hne.
  destruct (rd_p d) as [|f l]; [done|].
  destruct (time_exceeded_spec F d f l x st H W1 Dd) as (l' & n & st1 & F1 & -> & H1 & Wl & En & Hn0 & K1 & Sub & Xt). cbn [res_bind].
  cbn [length] in *. destruct (free_frags_spec l' F1 n x st1 H1 Wl Hn0) as (st2 & F2 & -> & H2 & K2 & X2); [lia|]. cbn [res_bind].
  assert (kept F F2 (f :: l)) as K by exact (kept_trans _ _ _ _ _ K1 K2 Sub).
  cbn [ip_reass_pbufcount ip_reass_dequeue_datagram set_datagrams]. rewrite Hc, Z.geb_leb, (proj2 (Z.leb_le _ _)) by lia. cbn [lwip_assert].
  rewrite En. eexists _, st2, F2. split; [done|]. split; [done|]. split; [done|]. split; [|split; [done|split; [done|]]].
  - split; unfold frags; cbn [set_count reassdatagrams ip_reass_dequeue_datagram set_datagrams ip_reass_pbufcount].
    + apply (waiting_agree F F2 _ W2). intros q Hq. apply K. intros (g & -> & Hg)%list_elem_of_fmap. by apply (W3 g).
    + rewrite u16_small by lia. lia.
    + rewrite u16_small by lia. unfold IP_REASS_MAX_PBUFS. lia.
    + by apply data_delete.
  - intros Hs. inversion Hs as [|? ? Hs1 _]. subst. rewrite X2. by apply Xt.
Qed.

(** ** Making room *)

(** What may have been given up: only fragments of [r]. *)
Record given_up F r F' r' : Prop := {
  gu_inv : reass_inv F' r';
  gu_kept : kept F F' (frags r);
  gu_sub : forall f, f ∈ frags r' -> f ∈ frags r;
}.

Lemma given_up_refl F r : reass_inv F r -> given_up F r F r.
Proof. intros H. by split. Qed.
Lemma given_up_trans F r F1 r1 F2 r2 : given_up F r F1 r1 -> given_up F1 r1 F2 r2 -> given_up F r F2 r2.
Proof.
  intros [A1 A2 A3] [B1 B2 B3]. split; [done| |intros f Hf; by apply A3, B3]. apply (kept_trans F F1 F2 _ _ A2 B2).
  intros q (f & -> & Hf)%list_elem_of_fmap. apply list_elem_of_fmap. exists f. split; [done|by apply A3].
Qed.

Lemma given_up_count F r F' r' : given_up F r F' r' -> reass_inv F r -> ip_reass_pbufcount r' <= ip_reass_pbufcount r.
Proof.
  intros [[W C _ _] _ S] [W' C' _ _]. rewrite C, C'. apply inj_le, submseteq_length, NoDup_submseteq; [|done]. eapply NoDup_fmap_1, W.
Qed.

Lemma find_oldest_spec hdr l : forall i old n o n', find_oldest i hdr l old n = (o, n') ->
  n <= n' <= n + Z.of_nat (length l) /\
  (o = old \/ exists k d, o = Some ((i + k)%nat, rd_timer d) /\ l !! k = Some d /\ IP_ADDRESSES_AND_ID_MATCH (rd_iphdr d) hdr = false) /\
  (o = None -> old = None /\ n' = n) /\
  (forall j t, o = Some (j, t) -> Forall (fun e => IP_ADDRESSES_AND_ID_MATCH (rd_iphdr e) hdr = false -> t <= rd_timer e) l /\
     forall j0 t0, old = Some (j0, t0) -> t <= t0).
Proof.
  induction l as [|d l IH]; intros i old n o n' E; cbn [find_oldest] in E.
  { injection E as <- <-. cbn. split_and!; try lia; [by left|done|]. intros j t ->. split; [done|]. intros ? ? [= -> ->]. lia. }
  destruct (IP_ADDRESSES_AND_ID_MATCH (rd_iphdr d) hdr) eqn:Em; cbn [negb] in E.
  - apply IH in E as (B & [->|(k & e & -> & Hk & Hm)] & D & T); cbn [length].
    + split_and!; try lia; [by left|done|]. intros j t Ej. destruct (T j t Ej) as [T1 T2]. split; [constructor; [congruence|done]|done].
    + split_and!; try lia; [right; exists (S k), e; by rewrite Nat.add_succ_r|done|].
      intros j t Ej. destruct (T j t Ej) as [T1 T2]. split; [constructor; [congruence|done]|done].
  - set (old' := match old with None => _ | Some _ => _ end) in E.
    assert (exists j0 t0, old' = Some (j0, t0) /\ t0 <= rd_timer d /\ (forall j1 t1, old = Some (j1, t1) -> t0 <= t1) /\
      (old' = old \/ j0 = i /\ t0 = rd_timer d)) as (j0 & t0 & E0 & T0 & T1 & C0).
    { unfold old'. destruct old as [[j1 t1]|].
      - destruct (Z.leb_spec (rd_timer d) t1); eexists _, _; (split; [done|]); split; try lia; (split; [intros ? ? [= <- <-]; lia|]); [by right|by left].
      - eexists _, _. split; [done|]. split; [lia|]. split; [done|]. by right. }
    apply IH in E as (B & C & D & T); cbn [length]. split_and!; try lia.
    + destruct C as [->|(k & e & -> & Hk & Hm)].
      * destruct C0 as [->|[-> ->]]; [by left|]. right. exists 0%nat, d. rewrite Nat.add_0_r. by split_and!.
      * right. exists (S k), e. by rewrite Nat.add_succ_r.
    + intros Eo. destruct (D Eo). congruence.
    + intros j t Ej. destruct (T j t Ej) as [T2 T3]. specialize (T3 j0 t0 E0). split; [constructor; [lia|done]|].
      intros j1 t1 E1. specialize (T1 j1 t1 E1). lia.
Qed.

Lemma remove_oldest_spec hdr needed fuel : forall F freed r x st, reass_inv F r -> okF F x st ->
  (length (reassdatagrams r) < fuel)%nat -> 0 <= freed ->
  exists n r' st' F', remove_oldest custom_free malloc bmos nf ip4_frag fuel hdr needed freed r st = Ret (n, r', st') /\
    freed <= n /\ given_up F r F' r' /\ okF F' x st'.
Proof.
  induction fuel as [|fuel IH]; intros F freed r x st Hi H Hf Hn; [lia|]. cbn [remove_oldest].
  destruct (find_oldest 0 hdr (reassdatagrams r) None 0) as [o others] eqn:Eo.
  destruct (find_oldest_spec hdr _ _ _ _ _ _ Eo) as (_ & C & D & _).
  destruct C as [->|(k & d & -> & Hk & _)].
  - destruct (D eq_refl) as [_ ->]. cbn [res_bind]. rewrite andb_false_r. exists freed, r, st, F. split_and!; try done; by apply given_up_refl.
  - cbn [Nat.add]. destruct (free_complete_spec F k d r x st Hi H Hk) as (r1 & st1 & F1 & -> & E1 & _ & I1 & H1 & K1 & _). cbn [res_bind].
    pose proof (all_frags_delete _ _ _ Hk) as Hperm. assert (given_up F r F1 r1) as G1.
    { split; [done| |].
      - intros q Hq. apply K1. intros Hin. apply Hq. unfold frags. rewrite Hperm, fmap_app. apply elem_of_app. by left.
      - intros f Hin. unfold frags in *. rewrite E1 in Hin. rewrite Hperm. apply elem_of_app. by right. }
    destruct (_ && _).
    + destruct (IH F1 (freed + Z.of_nat (length (rd_p d))) r1 x st1 I1 H1) as (n & r' & st' & F' & -> & Hge & G' & H').
      { rewrite E1, length_delete by (by exists d). apply lookup_lt_Some in Hk. lia. }
      { lia. }
      exists n, r', st', F'. split; [done|]. split; [lia|]. split; [exact (given_up_trans _ _ _ _ _ _ G1 G')|done].
    + eexists _, r1, st1, F1. split; [done|]. split; [lia|]. done.
Qed.

Lemma make_room_spec F hdr clen r x st : reass_inv F r -> okF F x st ->
  exists ok r' st' F', make_room custom_free malloc bmos nf ip4_frag hdr clen r st = Ret (ok, r', st') /\
    given_up F r F' r' /\ okF F' x st' /\ (ok = true -> ip_reass_pbufcount r' + clen <= IP_REASS_MAX_PBUFS).
Proof.
  intros Hi H. unfold make_room. rewrite Z.gtb_ltb.
  destruct (Z.ltb_spec IP_REASS_MAX_PBUFS (ip_reass_pbufcount r + clen)) as [Hlt|Hge].
  - destruct (remove_oldest_spec hdr clen (S (length (reassdatagrams r))) F 0 r x st Hi H) as (n & r' & st' & F' & E & _ & G & H'); [lia..|].
    unfold ip_reass_remove_oldest_datagram. rewrite E. cbn [res_bind]. eexists _, r', st', F'. split; [done|]. split; [done|]. split; [done|].
    intros [_ Hok]%negb_true_iff%orb_false_iff. rewrite Z.gtb_ltb in Hok. by apply Z.ltb_ge.
  - exists true, r, st, F. split_and!; try done; by apply given_up_refl.
Qed.

(** A datagram without a fragment yet. *)
Lemma new_datagram_spec F hdr clen r x st : reass_inv F r -> okF F x st ->
  exists ok r' st' F', ip_reass_enqueue_new_datagram custom_free malloc bmos nf ip4_frag memp hdr clen r st = Ret (ok, r', st') /\
    okF F' x st' /\
    if (ok : bool) then exists r1, given_up F r F' r1 /\
      reassdatagrams r' = mkReassdata [] hdr 0 0 IP_REASS_MAXAGE :: reassdatagrams r1 /\ ip_reass_pbufcount r' = ip_reass_pbufcount r1
    else given_up F r F' r'.
Proof.
  intros Hi H. unfold ip_reass_enqueue_new_datagram, memp_malloc. set (r0 := mkReass _ _ _).
  assert (reass_inv F r0) as H0 by (by destruct Hi; split).
  assert (given_up F r F r0) as G0 by (by split).
  destruct (memp (rs_allocs r)).
  { cbn [res_bind]. eexists true, _, st, F. split; [done|]. split; [done|]. by exists r0. }
  destruct (remove_oldest_spec hdr clen (S (length (reassdatagrams r0))) F 0 r0 x st H0 H) as (n & r1 & st1 & F1 & E & _ & G1 & H1); [lia..|].
  unfold ip_reass_remove_oldest_datagram. rewrite E. cbn [res_bind]. pose proof (given_up_trans _ _ _ _ _ _ G0 G1) as G2.
  destruct (n >=? clen); cbn [res_bind]; [|by exists false, r1, st1, F1].
  set (r2 := mkReass (reassdatagrams r1) _ _). assert (given_up F r F1 r2) as G3.
  { destruct G2 as [[] ? ?]. by split; [split|..]. }
  destruct (memp (rs_allocs r1)); cbn [res_bind].
  - eexists true, _, st1, F1. split; [done|]. split; [done|]. by exists r2.
  - by exists false, r2, st1, F1.
Qed.
End Inv.
