(* ===== verification/ReassOps.v ===== *)
(** * Reassembly: a fragment is put in its place *)
From S2P Require Import Prelude NetShim Ip4Addr Link Etharp EtharpInv Checksum Pbuf PbufChain PbufOps NetGlue PbufClone Ethernet EthernetInv EthernetRx Ip4 Icmp Ip4Input Ip4Inv IcmpInv Ip4Rx Reass ReassInv.

(** ** Intervals *)

(** No holes. *)
Fixpoint joined (l : list ip_reass_helper) : bool :=
  match l with
  | f :: ((g :: _) as r) => (fr_end f =? fr_start g) && joined r
  | _ => true
  end.
Definition overlap (f g : ip_reass_helper) : Prop := fr_start f < fr_end g /\ fr_start g < fr_end f.

Lemma joined_app l f r : joined (l ++ [f]) && joined (f :: r) = joined (l ++ f :: r).
Proof.
  induction l as [|g l IH]; [done|]. destruct l as [|g' l].
  - cbn [app joined]. by rewrite andb_true_r.
  - cbn [app] in *. cbn [joined]. cbn [joined] in IH. rewrite <- andb_assoc. f_equal. exact IH.
Qed.

Lemma spaced_app l r : spaced (l ++ r) <-> spaced l /\ spaced r /\ Forall (fun f => Forall (fun g => fr_end f <= fr_start g) r) l.
Proof.
  induction l as [|f l IH]; cbn [app spaced]; [by split; [intros; split_and!|intros (_ & ? & _)]|].
  rewrite Forall_app, IH, Forall_cons. tauto.
Qed.

(** Where the new fragment goes, or whom it overlaps. *)
Definition inserted (new : ip_reass_helper) (prev : option ip_reass_helper) (valid : bool) (l : list ip_reass_helper)
  (o : option (list ip_reass_helper * list ip_reass_helper * bool)) : Prop :=
  match o with
  | None => exists t, t ∈ l /\ overlap new t
  | Some (l', rest, v) => exists before, l = before ++ rest /\ l' = before ++ new :: rest /\
      v = valid && joined (option_list prev ++ before ++ [new]) /\
      Forall (fun t => fr_end t <= fr_start new) before /\ Forall (fun t => fr_end new <= fr_start t) rest
  end.

Lemma inserted_spaced new valid l l' rest v : spaced l -> 0 <= fr_start new < fr_end new ->
  inserted new None valid l (Some (l', rest, v)) -> spaced l' /\ l' ≡ₚ new :: l.
Proof.
  intros Hs Hn (before & -> & -> & _ & H1 & H2). apply spaced_app in Hs as (S1 & S2 & S3). split.
  - apply spaced_app. split_and!; try done. apply Forall_forall. intros f Hf. rewrite Forall_forall in H1, S3.
    constructor; [by apply H1|by apply S3].
  - symmetry. apply Permutation_middle.
Qed.

(** Stores that only touch the first 20 bytes of the fragments [l]. *)
Definition off_headers (F : Frame) (l : list ip_reass_helper) (m m' : memory) : Prop :=
  forall a n, addr_ok a n -> (forall f b, f ∈ l -> @frame F !! fr_p f = Some b -> a + n <= payload b \/ payload b + 20 <= a) ->
  mem_read m' a n = mem_read m a n.

Lemma off_headers_trans F l m m1 m2 : off_headers F l m m1 -> off_headers F l m1 m2 -> off_headers F l m m2.
Proof. intros H1 H2 a n Ha Hd. rewrite H2, H1; done. Qed.
Lemma off_headers_write F l m f b bs : f ∈ l -> @frame F !! fr_p f = Some b -> frag_pbuf (fr_p f) b -> (length bs <= 20)%nat ->
  off_headers F l m (mem_write m (payload b) bs).
Proof.
  intros Hf Hb [_ _ _ B _ _ (_ & P1 & P2 & _)] Hl a n Ha Hd. destruct (Hd f b Hf Hb) as [D|D];
    apply mem_read_write_out; try done; unfold addr_ok in *; lia.
Qed.

Section Insert.
Variable custom_free : Z -> pheap -> res pheap.
Variable malloc : nat -> gmap Z pbuf -> Z.
Context (Hmalloc : malloc_ok malloc).
Variable bmos : netif.
Context (Hbmos : nif_hwaddr_len bmos = ETH_HWADDR_LEN).
#[local] Instance ins_ops : LinkOps nic := nic_link custom_free malloc bmos.
Variable known : Z -> Prop.
Abbreviation okF F0 x st := (@arp_ok nic ins_ops (@nic_laws F0 custom_free malloc Hmalloc bmos Hbmos) known x (ip_arp st)).
Implicit Types (F : Frame) (r : reass) (st : ipst).

(** The state after stores into the headers of [l]. *)
Definition stored F (l : list ip_reass_helper) st st' : Prop :=
  exists m', st' = set_ip_mem m' st /\ mem_ok m' /\ off_headers F l (pmem (ip_heap st)) m'.

Lemma stored_refl F l x st : okF F x st -> stored F l st st.
Proof.
  intros H. exists (pmem (ip_heap st)). split; [|split; [by eapply ok_mem_ok|by intros a n]].
  destruct st as [[t c [[hp hm] k tb tx]] id]. done.
Qed.
Lemma stored_trans F l st st1 st2 : stored F l st st1 -> stored F l st1 st2 -> stored F l st st2.
Proof.
  intros (m1 & -> & M1 & O1) (m2 & -> & M2 & O2). exists m2. split; [done|]. split; [done|]. by eapply off_headers_trans.
Qed.
Lemma stored_ok F F0 l x st st' : okF F x st -> stored F0 l st st' -> okF F x st'.
Proof. intros H (m & -> & Hm & _). by apply ok_mem. Qed.
Lemma stored_mem F l st st' : stored F l st st' -> mem_ok (pmem (ip_heap st')).
Proof. by intros (m & -> & Hm & _). Qed.
Lemma stored_pget F l st st' p : stored F l st st' -> pget (ip_heap st') p = pget (ip_heap st) p.
Proof. by intros (m & -> & _). Qed.

Lemma set_next_spec F l x st f q : okF F x st -> waiting F l -> f ∈ l ->
  exists st', set_next_pbuf f q st = Ret st' /\ stored F l st st'.
Proof.
  intros H [_ Hw] Hf. destruct (Hw f Hf) as (b & Hb & Hp). unfold set_next_pbuf.
  rewrite (ok_frame custom_free malloc Hmalloc bmos Hbmos known F x st _ b H Hb Hp). cbn [res_bind].
  eexists. split; [done|]. eexists. split; [done|]. split; [apply mem_ok_mem_write; by eapply ok_mem_ok|].
  apply (off_headers_write F l _ f b); try done. rewrite length_le_bytes. lia.
Qed.

Lemma waiting_pget F l x st f : okF F x st -> waiting F l -> f ∈ l -> exists b, pget (ip_heap st) (fr_p f) = Ret b.
Proof.
  intros H [_ Hw] Hf. destruct (Hw f Hf) as (b & Hb & Hp). exists b.
  by apply (ok_frame custom_free malloc Hmalloc bmos Hbmos known F x).
Qed.

Lemma insert_frag_spec F new l x : forall prev valid all st,
  okF F x st -> waiting F all -> new ∈ all -> (forall pv, prev = Some pv -> pv ∈ all /\ fr_end pv <= fr_start new) ->
  (forall f, f ∈ l -> f ∈ all) -> spaced l -> fr_start new < fr_end new ->
  exists o st', insert_frag new prev valid l st = Ret (o, st') /\ stored F all st st' /\ inserted new prev valid l o.
Proof.
  induction l as [|t l IH]; intros prev valid all st H Hw Hnew Hpv Hl Hs Hlt; cbn [insert_frag].
  - destruct prev as [pv|].
    + destruct (Hpv pv eq_refl) as [P1 P2]. rewrite (proj2 (Z.leb_le _ _) P2). cbn [lwip_assert].
      destruct (set_next_spec F all x st pv (fr_p new) H Hw P1) as (st' & -> & S). cbn [res_bind]. eexists _, st'. split; [done|]. split; [done|].
      exists []. cbn. by rewrite andb_true_r.
    + eexists _, st. split; [done|]. split; [by eapply stored_refl|]. exists []. cbn. by rewrite andb_true_r.
  - destruct (waiting_pget F all x st t H Hw ltac:(apply Hl; by left)) as [bt ->]. cbn [res_bind].
    destruct Hs as (S1 & S2 & S3). destruct (Z.ltb_spec (fr_start new) (fr_start t)) as [Hb|Hb].
    + destruct (set_next_spec F all x st new (fr_p t) H Hw Hnew) as (st1 & -> & T1). cbn [res_bind].
      assert (fr_end new <= fr_start t -> Forall (fun g => fr_end new <= fr_start g) (t :: l)) as Hrest.
      { intros E. constructor; [done|]. eapply Forall_impl; [exact S2|]. cbn. lia. }
      assert (fr_start t < fr_end new -> exists g, g ∈ t :: l /\ overlap new g) as Hov.
      { intros E. exists t. split; [by left|]. unfold overlap. lia. }
      destruct prev as [pv|].
      * destruct (Hpv pv eq_refl) as [P1 P2]. rewrite (proj2 (Z.ltb_ge _ _) P2), Z.gtb_ltb. cbn [orb].
        destruct (Z.ltb_spec (fr_start t) (fr_end new)) as [He|He]; [eexists None, st1; split; [done|]; split; [done|by apply Hov]|].
        destruct (set_next_spec F all x st1 pv (fr_p new) ltac:(by eapply stored_ok) Hw P1) as (st2 & -> & T2). cbn [res_bind].
        eexists _, st2. split; [done|]. split; [by eapply stored_trans|]. exists []. cbn. rewrite andb_true_r. split_and!; try done. by apply Hrest.
      * rewrite Z.gtb_ltb. destruct (Z.ltb_spec (fr_start t) (fr_end new)) as [He|He].
        { eexists None, st1. split; [done|]. split; [done|by apply Hov]. }
        eexists _, st1. split; [done|]. split; [done|]. exists []. cbn. rewrite andb_true_r. split_and!; try done. by apply Hrest.
    + destruct (Z.eqb_spec (fr_start new) (fr_start t)) as [Ee|Ee].
      { eexists None, st. split; [done|]. split; [by eapply stored_refl|]. exists t. split; [by left|]. unfold overlap. lia. }
      destruct (Z.ltb_spec (fr_start new) (fr_end t)) as [He|He].
      { eexists None, st. split; [done|]. split; [by eapply stored_refl|]. exists t. split; [by left|]. unfold overlap. lia. }
      set (valid' := match prev with Some _ => _ | None => _ end).
      destruct (IH (Some t) valid' all st H Hw Hnew) as (o & st' & -> & T & HI); try done.
      { intros pv [= <-]. split; [apply Hl; by left|done]. }
      { intros f Hf. apply Hl. by right. }
      cbn [res_bind]. eexists _, st'. split; [done|]. split; [done|]. destruct o as [[[l' rest] v]|].
      * destruct HI as (before & -> & -> & -> & B1 & B2). exists (t :: before). split_and!; try done; [|by constructor].
        unfold valid'. destruct prev as [pv|]; [by rewrite <- andb_assoc|done].
      * destruct HI as (g & Hg & Ho). exists g. split; [by right|done].
Qed.

Lemma check_rest_spec F all x st l : okF F x st -> waiting F all -> (forall f, f ∈ l -> f ∈ all) ->
  forall prev, exists last, check_rest prev l (ip_heap st) = Ret (joined (prev :: l), last) /\
    (joined (prev :: l) = true -> exists k, prev :: l = k ++ [last]).
Proof.
  intros H Hw. induction l as [|q l IH]; intros Hl prev; cbn [check_rest]; [exists prev; split; [done|]; by exists []|].
  destruct (waiting_pget F all x st q H Hw ltac:(apply Hl; by left)) as [b ->]. cbn [res_bind].
  change (joined (prev :: q :: l)) with ((fr_end prev =? fr_start q) && joined (q :: l)).
  destruct (fr_end prev =? fr_start q); cbn [negb andb]; [|by exists q].
  destruct (IH ltac:(intros; apply Hl; by right) q) as (last & -> & Hj). exists last. split; [done|].
  intros J. destruct (Hj J) as [k ->]. by exists (prev :: k).
Qed.

Definition starts_at_0 (l : list ip_reass_helper) : bool := match l with f :: _ => fr_start f =? 0 | [] => false end.

(** All fragments are there: the end was seen, and there is no hole. *)
Definition finished (seen_last : bool) (l : list ip_reass_helper) : bool := seen_last && joined l && starts_at_0 l.

Lemma ends_differ before new rest k last (first : ip_reass_helper) tl :
  NoDup (fr_p <$> before ++ new :: rest) -> before ++ new :: rest = first :: tl -> new :: rest = k ++ [last] ->
  (before ++ rest = [] -> fr_start new <> 0) -> fr_start first = 0 -> fr_p first <> fr_p last.
Proof.
  intros Hnd E1 E2 Hone H0 Heq. rewrite E1 in Hnd. destruct (decide (tl = [])) as [->|Hne].
  - destruct before as [|g before]; [|cbn in E1; injection E1 as _ E1; by destruct before]. injection E1 as -> ->. by apply Hone.
  - rewrite E2, app_assoc in E1. destruct (exists_last Hne) as (tl' & last' & ->).
    rewrite (app_comm_cons tl' [last'] first) in E1. apply app_inj_tail in E1 as [_ <-].
    rewrite fmap_cons, fmap_app in Hnd. apply NoDup_cons in Hnd as [Hn _]. apply Hn, elem_of_app. right. rewrite Heq. by left.
Qed.

Lemma validate_spec F x st d before new rest is_last : okF F x st -> waiting F (rd_p d) -> rd_p d = before ++ new :: rest ->
  let seen := is_last || has_flag (rd_flags d) IP_REASS_FLAG_LASTFRAG in
  (before ++ rest = [] -> seen = true -> fr_start new <> 0) ->
  validate d new rest is_last (joined (before ++ [new])) (ip_heap st) = Ret (if finished seen (rd_p d) then 1 else 0).
Proof.
  intros H Hw El seen Hone. unfold validate, finished. fold seen. destruct seen; [|done]. cbn [andb].
  rewrite El, <- (joined_app before new rest). destruct (joined (before ++ [new])); cbn [andb res_bind]; [|done].
  assert (exists first tl, before ++ new :: rest = first :: tl) as (first & tl & Ef).
  { destruct before as [|g before]; [by exists new, rest|by exists g, (before ++ new :: rest)]. }
  rewrite Ef. destruct (waiting_pget F _ x st first H Hw) as [b Hb]; [rewrite El, Ef; by left|]. rewrite Hb. cbn [res_bind starts_at_0].
  destruct (Z.eqb_spec (fr_start first) 0) as [H0|H0]; cbn [negb]; [|by rewrite andb_false_r].
  destruct (check_rest_spec F _ x st rest H Hw) with (prev := new) as (last & -> & Hj).
  { intros f Hf. rewrite El. apply elem_of_app. right. by right. }
  cbn [res_bind]. destruct (joined (new :: rest)); cbn [andb res_bind]; [|done]. destruct (Hj eq_refl) as [k Ek].
  assert (fr_p first <> fr_p last) as Hd.
  { eapply (ends_differ before new rest k last first tl); try done; [rewrite <- El; apply Hw|]. intros E. by apply Hone. }
  by rewrite (proj2 (Z.eqb_neq _ _) Hd).
Qed.

(** The new fragment with the values of its header. *)
Definition new_frag (p : Z) (hdr : list Z) : ip_reass_helper :=
  mkHelper p (IPH_OFFSET_BYTES hdr) (u16 (IPH_OFFSET_BYTES hdr + u16 (hdr_len hdr - hdr_hl_bytes hdr))).

Lemma chain_frag_spec F x st d p hdr is_last :
  okF F x st -> waiting F (new_frag p hdr :: rd_p d) -> spaced (rd_p d) -> hdr_hl_bytes hdr = 20 -> 20 < hdr_len hdr <= 65535 ->
  let new := new_frag p hdr in
  let seen := is_last || has_flag (rd_flags d) IP_REASS_FLAG_LASTFRAG in
  (rd_p d = [] -> seen = true -> IPH_OFFSET_BYTES hdr <> 0) ->
  exists st', stored F (new :: rd_p d) st st' /\
    (ip_reass_chain_frag_into_datagram_and_validate d p hdr is_last st = Ret (IP_REASS_VALIDATE_PBUF_DROPPED, d, st') /\
     (fr_end new < fr_start new \/ exists t, t ∈ rd_p d /\ overlap new t) \/
     exists l, ip_reass_chain_frag_into_datagram_and_validate d p hdr is_last st =
         Ret (if finished seen l then IP_REASS_VALIDATE_TELEGRAM_FINISHED else IP_REASS_VALIDATE_PBUF_QUEUED, set_rd_p l d, st') /\
       l ≡ₚ new :: rd_p d /\ spaced l /\ fr_end new = fr_start new + (hdr_len hdr - 20) /\ fr_end new <= 65535 /\
       (forall t, t ∈ rd_p d -> ~ overlap new t)).
Proof.
  intros H Hw Hs Hh Hl new seen Hone. destruct (proj2 Hw new ltac:(by left)) as (b & Hb & Hp). change (fr_p new) with p in *.
  unfold ip_reass_chain_frag_into_datagram_and_validate. rewrite (ok_frame custom_free malloc Hmalloc bmos Hbmos known F x st p b H Hb Hp).
  cbn [res_bind]. rewrite Hh, Z.gtb_ltb, (proj2 (Z.ltb_ge (hdr_len hdr) 20)) by lia. change (SIZEOF_IP_REASS_HELPER <=? IP_HLEN) with true.
  cbn [lwip_assert].
  assert (mkHelper p (IPH_OFFSET_BYTES hdr) (u16 (IPH_OFFSET_BYTES hdr + u16 (hdr_len hdr - 20))) = new) as -> by (unfold new, new_frag; by rewrite Hh).
  set (st1 := set_ip_mem _ st). assert (stored F (new :: rd_p d) st st1) as T1.
  { eexists. split; [done|]. split; [apply mem_ok_mem_write; by eapply ok_mem_ok|].
    apply (off_headers_write F _ _ new b); try done; [by left|]. rewrite !length_app, !length_le_bytes. lia. }
  assert (0 <= fr_start new <= 65535 /\ fr_end new = u16 (fr_start new + (hdr_len hdr - 20))) as [Ro Re].
  { cbn [fr_start fr_end new new_frag]. split; [unfold IPH_OFFSET_BYTES, u16; zdiv|].
    rewrite Hh. do 2 f_equal. apply u16_small. lia. }
  change (IPH_OFFSET_BYTES hdr) with (fr_start new). destruct (Z.ltb_spec (fr_end new) (fr_start new)) as [Hw1|Hw1].
  { exists st1. split; [done|]. left. split; [done|by left]. }
  assert (fr_end new = fr_start new + (hdr_len hdr - 20) /\ fr_end new <= 65535) as [Ee Ee2] by (rewrite Re in *; unfold u16 in *; zdiv).
  assert (okF F x st1) as H1 by (by eapply stored_ok).
  destruct (insert_frag_spec F new (rd_p d) x None true (new :: rd_p d) st1 H1 Hw ltac:(by left)) as (o & st2 & -> & T2 & HI); try done; try lia.
  { intros f Hf. by right. }
  cbn [res_bind]. pose proof (stored_trans _ _ _ _ _ T1 T2) as T. exists st2. split; [done|].
  destruct o as [[[l' rest] v]|]; [right|left; split; [done|by right]].
  destruct (inserted_spaced new true (rd_p d) l' rest v Hs ltac:(lia) HI) as [Sl Pl]. destruct HI as (before & E1 & E2 & -> & N1 & N2).
  exists l'. split.
  2:{ split_and!; try done. intros t. rewrite E1, elem_of_app. rewrite Forall_forall in N1, N2. intros [Ht|Ht] [O1 O2]; [specialize (N1 t Ht)|specialize (N2 t Ht)]; lia. }
  change (true && joined (option_list None ++ before ++ [new])) with (joined (before ++ [new])). assert (okF F x st2) as H2 by (by eapply stored_ok).
  rewrite (validate_spec F x st2 (set_rd_p l' d) before new rest is_last H2); cbn [rd_p set_rd_p rd_flags].
  - fold seen. cbn [res_bind]. by destruct (finished seen l').
  - eapply waiting_perm; [symmetry; exact Pl|done].
  - done.
  - rewrite <- E1. done.
Qed.
End Insert.
