(* ===== verification/ReassRun.v ===== *)
(** * Reassembly: ip4_reass and its timer return and keep the invariant *)
From S2P Require Import Prelude NetShim Ip4Addr Link Etharp EtharpInv Checksum Pbuf PbufChain PbufOps NetGlue PbufClone Ethernet EthernetInv EthernetRx Ip4 Icmp Ip4Input Ip4Inv IcmpInv Ip4Rx Ip4Hdr Reass ReassInv ReassOps.

(** ** Chaining packets *)
Lemma clen_loop_spec h ps : forall p n fuel, chain_at (pbufs h) p ps -> (length ps < fuel)%nat -> 0 <= n -> n + Z.of_nat (length ps) < 65536 ->
  pbuf_clen_loop fuel p n h = Ret (n + Z.of_nat (length ps)).
Proof.
  induction ps as [|[a b] ps IH]; intros p n [|fuel] Hc Hf Hn Hl; cbn [length] in *; try lia; cbn [pbuf_clen_loop].
  - cbn in Hc. subst. cbn. f_equal. lia.
  - pose proof (pget_chain _ _ _ _ _ Hc) as Hg. destruct Hc as (-> & Ha & _ & Hc). rewrite (proj2 (Z.eqb_neq a NULL) Ha), Hg. cbn [res_bind].
    rewrite u16_small by lia. rewrite (IH _ (n + 1) fuel Hc) by lia. f_equal. lia.
Qed.
Lemma pbuf_clen_spec h p ps : chain_at (pbufs h) p ps -> Z.of_nat (length ps) < 65536 -> pbuf_clen p h = Ret (Z.of_nat (length ps)).
Proof. intros Hc Hl. unfold pbuf_clen. rewrite (clen_loop_spec h ps p 0); try done; try lia. by eapply chain_length_le. Qed.

Lemma relinked_forall (P : Z * pbuf -> Prop) ps ps' : (forall x nx tl, P x -> P (x.1, set_next nx (set_tot_len tl x.2))) ->
  Forall2 relinked ps ps' -> Forall P ps -> Forall P ps'.
Proof. intros HP H. induction H as [|x y l l' (nx & tl & ->) _ IH]; [done|]. intros HF. inversion HF. subst. constructor; [by apply HP|by apply IH]. Qed.

Lemma cat_one_packet ps qs : wf_chain (ps ++ qs) -> 0 < tot qs -> one_packet qs -> one_packet (ps ++ qs).
Proof.
  intros Hw Ht Ho. induction ps as [|[a b] ps IH]; [done|]. destruct Hw as (W1 & W2 & W3 & W4). constructor; [|by apply IH].
  cbn [snd]. intros E. rewrite tot_app in W2. pose proof (wf_chain_lens _ W4) as [L _]%Forall_app. apply tot_lens in L. lia.
Qed.

(** Two packets become one. *)
Lemma held_cat {F : Frame} h C p q l : held h C (p :: q :: l) -> p ∉ q :: l -> q ∉ l -> tot (C p) + tot (C q) < 65536 -> 0 < tot (C q) ->
  exists h' C' ps', pbuf_cat p q h = Ret h' /\ pmem h' = pmem h /\ held h' C' (p :: l) /\ C' p = ps' ++ C q /\ Forall2 relinked (C p) ps' /\
    packet h' p (ps' ++ C q) 1.
Proof.
  intros H Hp Hq Ht Ht0.
  assert (forall z k, z ∉ k -> refs_to (z :: k) z = 1%nat) as R1.
  { intros z k Hz. rewrite refs_cons_eq. f_equal. apply count_occ_not_In. by rewrite <- list_elem_of_In. }
  apply not_elem_of_cons in Hp as [Hpq Hpl]. pose proof (hd_packet _ _ _ H p ltac:(by left)) as Pp.
  pose proof (hd_packet _ _ _ H q ltac:(right; by left)) as Pq. rewrite R1 in Pp by (by apply not_elem_of_cons).
  rewrite (refs_cons_ne _ p q), R1 in Pq by done. pose proof Pp as [A1 A2 A3 A4 A5 A6]. pose proof Pq as [B1 B2 B3 B4 B5 B6].
  destruct (pbuf_cat_spec p (C p) q (C q) h A1 B1 A2 B2 A3 B3 Ht) as (ps' & h' & E & Em & Hc & Hw & Hk & Hd & Hs & Hr).
  { intros x Hx. apply (hd_apart _ _ _ H p q x); [by left|right; by left|done|done]. }
  assert (packet h' p (ps' ++ C q) 1) as Pn.
  { split; try done.
    - by apply cat_one_packet.
    - apply Forall_app. split; [|done]. eapply relinked_forall; [|exact Hr|exact A5]. intros [a b] nx tl Hpl'. exact Hpl'.
    - destruct A6 as (b & r & Ep & Hb & Hone). rewrite Ep in Hr. inversion Hr as [|? y ? r' (nx & tl & ->) Hr' E1 E2]. subst.
      eexists _, (r' ++ C q). split; [done|]. split; [done|]. apply Forall_app. split.
      + eapply relinked_forall; [|exact Hr'|exact Hone]. done.
      + destruct B6 as (bq & rq & -> & Hbq & Honeq). constructor; [cbn; lia|done]. }
  exists h', (fun z => if decide (z = p) then ps' ++ C q else C z), ps'. split_and!; try done; [|by rewrite decide_True].
  apply (held_update h h' C (p :: q :: l) (p :: l) p (ps' ++ C q) H).
  - intros z [->|Hz]%elem_of_cons Hne; [done|]. assert (z <> q) by (by intros ->). split; [right; by right|]. by rewrite !refs_cons_ne.
  - intros _. by rewrite R1.
  - intros z x [->|Hz]%elem_of_cons Hne Hx; [done|]. assert (z <> q) as Hzq by (by intros ->).
    assert (x ∉ (C p).*1) as X1 by (apply (hd_apart _ _ _ H z p x); [right; by right|by left|done|done]).
    assert (x ∉ (C q).*1) as X2 by (apply (hd_apart _ _ _ H z q x); [right; by right|right; by left|done|done]).
    split; [by apply Hs|]. intros _. rewrite fmap_app, Hk. by rewrite not_elem_of_app.
  - intros x b Hx. apply Hs. intros Hin. by rewrite (hd_off _ _ _ H p x ltac:(by left) Hin) in Hx.
  - intros _ x. rewrite fmap_app, Hk. intros [Hx|Hx]%elem_of_app; [by apply (hd_off _ _ _ H p); [left|]|].
    by apply (hd_off _ _ _ H q); [right; left|].
Qed.

(** The data of a fragment, behind its header. *)
Definition frag_data (F : Frame) (m : memory) (f : ip_reass_helper) : list Z :=
  match @frame F !! fr_p f with Some b => mem_read m (payload b + 20) (p_len b - 20) | None => [] end.
Definition frag_len (F : Frame) (f : ip_reass_helper) : Z :=
  match @frame F !! fr_p f with Some b => p_len b - 20 | None => 0 end.

Lemma frag_placed p b : frag_pbuf p b -> addr_ok (payload b) 20 /\ addr_ok (payload b + 20) (p_len b - 20).
Proof. intros [_ _ _ B4 _ _ (_ & L2 & L3 & _)]. unfold addr_ok. lia. Qed.

(** Only the links and total lengths of the first pbuf changed. *)
Definition same_head (ps ps' : list (Z * pbuf)) : Prop :=
  exists p b r b' r', ps = (p, b) :: r /\ ps' = (p, b') :: r' /\ relinked (p, b) (p, b').

Lemma relinked_trans x y z : relinked x y -> relinked y z -> relinked x z.
Proof. intros (n1 & t1 & ->) (n2 & t2 & ->). by exists n2, t2. Qed.

(** ** The fields of a header *)
Lemma hdr_get_field m a (o n : nat) : (o + n <= 20)%nat -> hdr_get (mem_read m a IP_HLEN) o n = field m a (Z.of_nat o) (Z.of_nat n).
Proof.
  intros H. unfold hdr_get, field. pose proof (window_mem_read m a IP_HLEN (Z.of_nat n) (Z.of_nat o)) as Hw. unfold window, IP_HLEN in *.
  rewrite !Nat2Z.id in Hw. by rewrite Hw by lia.
Qed.

(** All numbers from [z] on. *)
Fixpoint all_from (n : nat) (z : Z) (P : Z -> bool) : bool :=
  match n with O => true | S n => P z && all_from n (z + 1) P end.
Lemma all_from_spec P n : forall z, all_from n z P = true -> forall o, z <= o < z + Z.of_nat n -> P o = true.
Proof.
  induction n as [|n IH]; intros z Ha o Ho; [lia|]. cbn [all_from] in Ha. apply andb_true_iff in Ha as [H1 H2].
  destruct (decide (o = z)) as [->|]; [done|]. apply (IH (z + 1) H2). lia.
Qed.

(** A fragment without the flag MF does not start at 0. *)
Lemma last_offset o : 0 <= o < 65536 -> truth (Z.land o (lwip_htons (Z.lor IP_OFFMASK IP_MF))) = true ->
  (Z.land o (lwip_ntohs IP_MF) =? 0) = true -> u16 (Z.land (lwip_ntohs o) IP_OFFMASK * 8) <> 0.
Proof.
  intros Ho H1 H2 H3. assert (all_from (Z.to_nat 65536) 0 (fun o => negb (truth (Z.land o (lwip_htons (Z.lor IP_OFFMASK IP_MF)))) ||
    negb (Z.land o (lwip_ntohs IP_MF) =? 0) || negb (u16 (Z.land (lwip_ntohs o) IP_OFFMASK * 8) =? 0)) = true) as Hall by (vm_compute; reflexivity).
  pose proof (all_from_spec _ _ _ Hall o) as E. rewrite Z2Nat.id in E by lia. specialize (E ltac:(lia)). cbv beta in E.
  rewrite H1, H2, H3 in E. discriminate E.
Qed.

(** ** The header of the complete datagram *)

(** The header that goes back in front. *)
Definition reass_hdr (hdr : list Z) (datagram_len c : Z) : list Z :=
  take 2 hdr ++ be16 datagram_len ++ take 2 (drop 4 hdr) ++ [0; 0] ++ take 2 (drop 8 hdr) ++ le_bytes 2 c ++ drop 12 hdr.

Lemma restore_hdr_read m a hdr n : mem_ok m -> addr_ok a 20 -> length hdr = 20%nat -> bytes hdr -> 0 <= n < 65536 ->
  mem_read (restore_hdr m a hdr n) a 20 = reass_hdr hdr n (rfc1071 (reass_hdr hdr n 0)).
Proof.
  intros Hm Ha HL Hb Hn. unfold restore_hdr. cbv zeta. rewrite (htons_bytes n Hn).
  assert (mem_read (mem_write m a hdr) a 20 = hdr) as E by (apply mem_read_stored; [lia|done|done]).
  set (m1 := mem_write m a hdr) in *. assert (mem_ok m1) as Hm1 by by apply mem_ok_mem_write. clearbody m1.
  assert (bytes (be16 n)) as Bn by (repeat constructor; unfold is_byte; zdiv).
  destruct (le_lt_dec 20 (length hdr)) as [HL2|?]; [|lia]. 
  do 20 (destruct hdr as [|? hdr]; [cbn in HL2; lia|]). destruct hdr; [|cbn in HL; lia]. clear HL HL2.
  splice E Ha m1 a 2 (be16 n). set (m2 := mem_write m1 _ _) in *.
  splice E Ha m2 a 6 (le_bytes 2 0). set (m3 := mem_write m2 _ _) in *.
  splice E Ha m3 a 10 (le_bytes 2 0). set (m4 := mem_write m3 _ _) in *.
  assert (mem_ok m4) as Hm4 by (unfold m4, m3, m2; by repeat apply mem_ok_mem_write).
  rewrite (inet_chksum_mem m4 a IP_HLEN Hm4) by (unfold IP_HLEN; lia). unfold IP_HLEN. rewrite E. set (k := rfc1071 _).
  splice E Ha m4 a 10 (le_bytes 2 k). exact E.
Qed.

Lemma reass_hdr_verifies hdr n : length hdr = 20%nat -> bytes hdr -> 0 <= n < 65536 ->
  rfc1071 (reass_hdr hdr n (rfc1071 (reass_hdr hdr n 0))) = 0.
Proof.
  intros HL Hb Hn. do 20 (destruct hdr as [|? hdr]; [cbn in HL; lia|]). destruct hdr; [|cbn in HL; lia]. clear HL.
  match goal with |- context [reass_hdr ?h n 0] => set (H := h) in * end.
  assert (forall c, bytes (reass_hdr H n c)) as Hbr.
  { intros c. unfold bytes, H in Hb. repeat match goal with H : Forall _ (_ :: _) |- _ => inversion H; clear H; subst end.
    unfold reass_hdr, H, be16. cbn. repeat (constructor; [first [apply u8_is_byte | done | unfold is_byte; zdiv]|]). done. }
  eapply rfc1071_verifies; [apply (Hbr 0)|apply Hbr|]. pose proof (rfc1071_range _ (Hbr 0)) as Hr. set (k := rfc1071 _) in *.
  unfold reass_hdr, H, be16. cbn [take drop app le_bytes wsum negb]. pose proof (half_sum k Hr). change (u8 0) with 0. change (0 / 256) with 0.
  change (u8 0) with 0. lia.
Qed.

Lemma restore_hdr_off m a hdr n : addr_ok a 20 -> length hdr = 20%nat -> unchanged_off a 20 m (restore_hdr m a hdr n).
Proof.
  intros Ha HL. unfold restore_hdr. cbv zeta.
  assert (forall m bs, mem_write m a bs = mem_write m (a + 0) bs) as E0 by (intros; by rewrite Z.add_0_r). rewrite (E0 m hdr).
  repeat (apply unchanged_write; [done|lia|rewrite ?length_le_bytes; lia|]). apply unchanged_refl.
Qed.

Lemma restore_hdr_hl m a hdr n : mem_ok m -> addr_ok a 20 -> length hdr = 20%nat -> bytes hdr -> 0 <= n < 65536 ->
  IPH_HL_BYTES (restore_hdr m a hdr n) a = hdr_hl_bytes hdr.
Proof.
  intros Hm Ha HL Hb Hn. unfold IPH_HL_BYTES, IPH_HL, hdr_hl_bytes, hdr_get, field. do 4 f_equal. rewrite Z.add_0_r.
  pose proof (window_mem_read (restore_hdr m a hdr n) a 20 1 0 ltac:(lia) ltac:(lia) ltac:(lia)) as Hw. rewrite Z.add_0_r in Hw. rewrite <- Hw.
  rewrite restore_hdr_read by done. unfold window. rewrite !drop_0. destruct hdr as [|z0 [|z1 hdr]]; [done|cbn in HL; lia|done].
Qed.

Section Run.
Variable custom_free : Z -> pheap -> res pheap.
Variable malloc : nat -> gmap Z pbuf -> Z.
Context (Hmalloc : malloc_ok malloc).
Variable bmos : netif.
Context (Hbmos : nif_hwaddr_len bmos = ETH_HWADDR_LEN).
#[local] Instance run_ops : LinkOps nic := nic_link custom_free malloc bmos.
Variable known : Z -> Prop.
Context (known_null : ~ known 0).
Variable nf : netifs.
Context (Hnf : netifs_ok known nf).
Variable ip4_frag : Z -> Z -> Z -> ipst -> res (Z * ipst).
Context (Hfrag : forall F0, @frag_ok F0 custom_free malloc Hmalloc bmos Hbmos known nf ip4_frag).
Variable memp : nat -> bool.
Abbreviation okF F0 x st := (@arp_ok nic run_ops (@nic_laws F0 custom_free malloc Hmalloc bmos Hbmos) known x (ip_arp st)).
Implicit Types (F : Frame) (r : reass) (st : ipst).

(** One more fragment at the end of the packet [p]. *)
Lemma append_frag F x st p ps f l : okF F (p :: x) st -> packet (ip_heap st) p ps 1 -> waiting F (f :: l) ->
  tot ps + TXBUF < 65536 ->
  exists h1 h' ps', pbuf_remove_header (fr_p f) IP_HLEN (ip_heap st) = Ret (0, h1) /\ pbuf_cat p (fr_p f) h1 = Ret h' /\
    pmem h' = pmem (ip_heap st) /\ okF (thawed (fr_p f) F) (p :: x) (set_ip_heap h' st) /\ packet h' p ps' 1 /\
    length ps' = S (length ps) /\ tot ps' = tot ps + frag_len F f /\ 0 < frag_len F f <= TXBUF /\ same_head ps ps' /\
    (forall m, chain_data m ps' = chain_data m ps ++ frag_data F m f).
Proof.
  intros H Pp Hw Ht. destruct (proj2 Hw f ltac:(by left)) as (b & Hb & Hf). unfold frag_len, frag_data. rewrite Hb.
  pose proof Hf as [B1 B2 B3 B4 B5 B6 (L1 & L2 & L3 & L4)]. set (q := fr_p f) in *.
  pose proof (ok_thaw custom_free malloc Hmalloc bmos Hbmos known F (p :: x) st q b H Hb Hf) as H1.
  pose proof (ok_frame custom_free malloc Hmalloc bmos Hbmos known F (p :: x) st q b H Hb Hf) as Hg.
  unfold TXBUF in *. rewrite (remove_header_gen q IP_HLEN b (ip_heap st) Hg) by (unfold IP_HLEN; lia). unfold IP_HLEN.
  set (b1 := set_data _ _ _ b). set (h1 := pset q b1 (ip_heap st)).
  assert (okF (thawed q F) (q :: p :: x) (set_ip_heap h1 st)) as H2.
  { eapply (ok_head_pset (F := thawed q F) custom_free malloc Hmalloc bmos Hbmos known st q (p :: x) b b1); try done; cbn; lia. }
  pose proof (ok_swap (F := thawed q F) _ _ _ _ _ _ _ _ _ _ H2) as H3. destruct (ao_owns _ _ _ H3) as (Hm & Htx & C & HC).
  change (nic_heap (lk (ip_arp (set_ip_heap h1 st)))) with h1 in *. cbn [app] in HC.
  set (l' := x ++ queue_refs _) in HC.
  assert (q <> p /\ q ∉ ps.*1) as [Hqp Hqps].
  { destruct (ao_owns _ _ _ H) as (_ & _ & C0 & HC0). pose proof (hd_packet _ _ _ HC0 p ltac:(by left)) as P0.
    pose proof (chain_at_fun _ _ _ _ (pk_chain _ _ _ _ Pp) (pk_chain _ _ _ _ P0)) as Eps.
    assert (q ∉ ps.*1) as Hn by (intros Hin; rewrite Eps in Hin; rewrite (hd_off _ _ _ HC0 p q ltac:(by left) Hin) in Hb; done).
    split; [|done]. intros E. apply Hn. rewrite E. by eapply packet_in. }
  assert (packet h1 p ps 1) as Pp1.
  { eapply packet_frame; [exact Pp|]. intros z Hz. cbn. rewrite lookup_insert_ne; [done|]. intros <-. done. }
  pose proof (hd_packet _ _ _ HC p ltac:(by left)) as Pp2. pose proof (hd_packet _ _ _ HC q ltac:(right; by left)) as Pq2.
  pose proof (chain_at_fun _ _ _ _ (pk_chain _ _ _ _ Pp1) (pk_chain _ _ _ _ Pp2)) as Eps.
  assert (chain_at (pbufs h1) q [(q, b1)]) as Cq by (cbn; rewrite lookup_insert_eq, B2; by split_and!).
  pose proof (chain_at_fun _ _ _ _ Cq (pk_chain _ _ _ _ Pq2)) as Eqs.
  assert (refs_to (p :: q :: l') p = 1%nat) as Rp.
  { destruct (pk_refs _ _ _ _ Pp1) as (bp & rp & Ep & Hr & _). destruct (pk_refs _ _ _ _ Pp2) as (bp2 & rp2 & Ep2 & Hr2 & _).
    rewrite <- Eps, Ep in Ep2. injection Ep2 as <- <-. lia. }
  assert (refs_to (p :: q :: l') q = 1%nat) as Rq.
  { destruct (pk_refs _ _ _ _ Pq2) as (bq & rq & Eq & Hr & _). rewrite <- Eqs in Eq. injection Eq as <- <-. change (p_ref b1) with (p_ref b) in Hr. lia. }
  destruct (held_cat (F := thawed q F) h1 C p q l' HC) as (h' & C' & ps' & E & Em & HC' & EC & Hrel & Pn).
  { rewrite refs_cons_eq in Rp. rewrite list_elem_of_In. apply (count_occ_not_In Z.eq_dec). lia. }
  { rewrite (refs_cons_ne _ p q), refs_cons_eq in Rq by done. rewrite list_elem_of_In. apply (count_occ_not_In Z.eq_dec). lia. }
  { rewrite <- Eps, <- Eqs. cbn. lia. }
  { rewrite <- Eqs. cbn. lia. }
  exists h1, h', (ps' ++ C q). rewrite <- Eps in Hrel. rewrite <- Eqs in *. pose proof (Forall2_length _ _ _ Hrel) as HL. split_and!; try done; try lia.
  - eapply arp_ok_lk; [exact H1|]. split_and!; cbn; [by rewrite Em|done|by exists C'].
  - rewrite length_app. cbn. lia.
  - rewrite tot_app. cbn. assert (tot ps' = tot ps) as ->; [|lia].
    clear -Hrel. induction Hrel as [|y z k k' (nx & tl & ->) _ IH]; [done|]. by rewrite !tot_cons, IH.
  - destruct (pk_refs _ _ _ _ Pp1) as (bp & rp & Ep & _). rewrite Ep in Hrel |- *. inversion Hrel as [|? y ? k' (nx & tl & ->) Hk' E1 E2]. subst.
    eexists p, bp, rp, _, (k' ++ _). split; [done|]. split; [done|]. by exists nx, tl.
  - intros m. rewrite chain_data_app. f_equal.
    + clear -Hrel. induction Hrel as [|y z k k' (nx & tl & ->) _ IH]; [done|]. unfold chain_data in *. cbn. by rewrite IH.
    + unfold chain_data. cbn. rewrite app_nil_r. by rewrite u64_small by lia.
Qed.

Lemma waiting_thaw F f l : waiting F (f :: l) ->
  waiting (thawed (fr_p f) F) l /\ kept F (thawed (fr_p f) F) [f] /\
  forall m, frag_data (thawed (fr_p f) F) m <$> l = frag_data F m <$> l.
Proof.
  intros Hw. destruct (waiting_app F [f] l Hw) as (_ & W2 & W3).
  assert (kept F (thawed (fr_p f) F) [f]) as Hk.
  { intros q Hq. unfold frame, thawed. rewrite lookup_delete_ne; [done|]. intros <-. apply Hq. by left. }
  assert (forall g, g ∈ l -> @frame (thawed (fr_p f) F) !! fr_p g = @frame F !! fr_p g) as Hg.
  { intros g Hg. apply Hk. cbn. intros E%list_elem_of_singleton. apply (W3 f); [by left|]. rewrite <- E. apply list_elem_of_fmap. by exists g. }
  split; [|split; [done|]].
  - apply (waiting_agree F _ _ W2). intros q (g & -> & Hin)%list_elem_of_fmap. by apply Hg.
  - intros m. apply list_fmap_ext. intros i g Hi. unfold frag_data. rewrite Hg; [done|]. by eapply list_elem_of_lookup_2.
Qed.

Lemma chain_frags_spec l : forall F x st p ps, okF F (p :: x) st -> packet (ip_heap st) p ps 1 -> waiting F l ->
  tot ps + Z.of_nat (length l) * TXBUF < 65536 ->
  exists h' F' ps', chain_frags p l (ip_heap st) = Ret h' /\ pmem h' = pmem (ip_heap st) /\ okF F' (p :: x) (set_ip_heap h' st) /\
    packet h' p ps' 1 /\ length ps' = (length ps + length l)%nat /\ kept F F' l /\ same_head ps ps' /\
    (forall m, chain_data m ps' = chain_data m ps ++ concat (frag_data F m <$> l)).
Proof.
  induction l as [|f l IH]; intros F x st p ps H Pp Hw Ht; cbn [chain_frags length] in *.
  - exists (ip_heap st), F, ps. split; [done|]. split; [done|]. split; [|split; [done|]; split; [lia|]; split; [done|]; split].
    + by destruct st as [[t c [[hp hm] k tb tx]] id].
    + destruct (pk_refs _ _ _ _ Pp) as (b & rr & -> & _). exists p, b, rr, b, rr. split_and!; try done. exists (next b), (p_tot_len b). by destruct b.
    + intros m. cbn. by rewrite app_nil_r.
  - unfold TXBUF in *. destruct (append_frag F x st p ps f l H Pp Hw ltac:(unfold TXBUF; lia))
      as (h1 & h2 & ps1 & -> & E2 & Em & H1 & P1 & L1 & T1 & R1 & S1 & D1). unfold TXBUF in R1. cbn [res_bind]. rewrite E2. cbn [res_bind].
    destruct (waiting_thaw F f l Hw) as (W2 & K2 & D2).
    destruct (IH (thawed (fr_p f) F) x (set_ip_heap h2 st) p ps1 H1 P1 W2) as (h' & F' & ps' & E' & Em' & H' & P' & L' & K' & S' & D'); [lia|].
    exists h', F', ps'. split; [exact E'|]. split; [cbn in Em'; congruence|]. split; [exact H'|]. split; [done|]. split; [lia|]. split; [|split].
    + intros q Hq. rewrite fmap_cons in Hq. apply not_elem_of_cons in Hq as [Hq1 Hq2]. rewrite K', K2; [done| |done]. cbn. by rewrite list_elem_of_singleton.
    + destruct S1 as (p1 & b & r1 & b1 & r1' & -> & -> & Hr1), S' as (p2 & b2 & r2 & b2' & r2' & [= <- <- <-] & -> & Hr2).
      exists p1, b, r1, b2', r2'. split_and!; try done. by eapply relinked_trans.
    + intros m. rewrite D', D1, D2. cbn. by rewrite app_assoc.
Qed.

(** ** The complete datagram *)

Lemma mem_ok_restore m a hdr n : mem_ok m -> mem_ok (restore_hdr m a hdr n).
Proof. intros H. unfold restore_hdr. by repeat apply mem_ok_mem_write. Qed.

Lemma received_relinked p b b' : relinked (p, b) (p, b') -> placed p b -> placed p b' /\ p_len b' = p_len b /\ payload b' = payload b /\ p_ref b' = p_ref b.
Proof. by intros (nx & tl & [= ->]). Qed.

Lemma finish_spec F i d r x st : reassdatagrams r !! i = Some d -> okF F x st -> waiting F (frags r) ->
  ip_reass_pbufcount r = Z.of_nat (length (frags r)) -> ip_reass_pbufcount r <= IP_REASS_MAX_PBUFS ->
  Forall data_ok (delete i (reassdatagrams r)) -> rd_p d <> [] ->
  exists f l st' r' F', rd_p d = f :: l /\ finish_datagram i d r st = Ret (fr_p f, st', r') /\ okF F' (fr_p f :: x) st' /\ reass_inv F' r' /\
    reassdatagrams r' = delete i (reassdatagrams r) /\ kept F F' (rd_p d) /\ received (fr_p f) st' /\
    exists b b' rr', @frame F !! fr_p f = Some b /\ pget (ip_heap st') (fr_p f) = Ret b' /\ p_len b' = p_len b /\ payload b' = payload b /\
      packet (ip_heap st') (fr_p f) ((fr_p f, b') :: rr') 1 /\
      pmem (ip_heap st') = restore_hdr (pmem (ip_heap st)) (payload b) (rd_iphdr d) (u16 (rd_datagram_len d + IP_HLEN)) /\
      forall m, chain_data m ((fr_p f, b') :: rr') = mem_read m (payload b) (p_len b) ++ concat (frag_data F m <$> l).
Proof.
  intros Hd H W Hc Hmx Hdat Hne. pose proof (all_frags_delete _ _ _ Hd) as Hperm. unfold frags in *.
  apply (waiting_perm _ _ _ Hperm) in W as (W1 & W2 & W3)%waiting_app. rewrite Hperm, length_app in Hc.
  unfold finish_datagram. destruct (rd_p d) as [|f l]; [done|]. cbn [length] in Hc. set (p := fr_p f).
  destruct (proj2 W1 f ltac:(by left)) as (b & Hb & Hf). fold p in Hb, Hf.
  pose proof (ok_frame custom_free malloc Hmalloc bmos Hbmos known F x st p b H Hb Hf) as Hg. rewrite Hg. cbn [res_bind].
  pose proof Hf as [B1 B2 B3 B4 B5 B6 B7]. rewrite within_true by (unfold IP_HLEN; lia).
  set (m1 := restore_hdr _ _ _ _). set (st1 := set_ip_mem m1 st).
  assert (okF (thawed p F) (p :: x) st1) as H1.
  { apply (ok_mem (F := thawed p F)); [by eapply ok_thaw|]. apply mem_ok_restore. by eapply ok_mem_ok. }
  destruct (waiting_thaw F f l W1) as (Wl & Kf & Dl). fold p in Wl, Kf, Dl.
  assert (packet (ip_heap st1) p [(p, b)] 1) as Pp.
  { destruct (ao_owns _ _ _ H1) as (_ & _ & C & HC). pose proof (hd_packet _ _ _ HC p ltac:(by left)) as P0.
    assert (chain_at (pbufs (ip_heap st1)) p [(p, b)]) as Cp.
    { apply pget_lookup in Hg as [_ Hg]. cbn. rewrite B2. by split_and!. }
    pose proof (chain_at_fun _ _ _ _ Cp (pk_chain _ _ _ _ P0)) as E. rewrite <- E in P0.
    destruct (pk_refs _ _ _ _ P0) as (b0 & r0 & [= <- <-] & Hr & _). rewrite B5 in Hr.
    assert (refs_to ((p :: x) ++ queue_refs (arp_table (ip_arp st1))) p = 1%nat) as E1 by lia. by rewrite E1 in P0. }
  unfold IP_REASS_MAX_PBUFS in *. unfold TXBUF in B4.
  destruct (chain_frags_spec l (thawed p F) x st1 p [(p, b)] H1 Pp Wl) as (h' & F' & ps' & E' & Em' & H' & P' & L' & K' & S' & D').
  { unfold TXBUF. cbn. lia. }
  change (set_pmem m1 (ip_heap st)) with (ip_heap st1). rewrite E'. cbn [res_bind length] in *.
  rewrite (pbuf_clen_spec h' p ps' (pk_chain _ _ _ _ P')), L' by lia. cbn [res_bind].
  cbn [ip_reass_pbufcount ip_reass_dequeue_datagram set_datagrams]. rewrite Z.geb_leb, (proj2 (Z.leb_le _ _)) by lia. cbn [lwip_assert].
  assert (kept F F' (f :: l)) as K.
  { intros q Hq. rewrite fmap_cons in Hq. apply not_elem_of_cons in Hq as [Hq1 Hq2]. rewrite K', Kf; [done| |done]. cbn. by rewrite list_elem_of_singleton. }
  destruct S' as (p1 & b1 & r1 & b' & rr' & [= <- <- <-] & -> & Hrel). destruct (received_relinked _ _ _ Hrel B7) as (Q1 & Q2 & Q3 & Q4).
  pose proof (pget_chain _ _ _ _ _ (pk_chain _ _ _ _ P')) as Hg'.
  eexists f, l, (set_ip_heap h' st), _, F'. split; [done|]. split; [done|]. split; [exact H'|]. split; [|split; [done|]; split; [done|]; split].
  - split; unfold frags; cbn [set_count reassdatagrams ip_reass_dequeue_datagram set_datagrams ip_reass_pbufcount].
    + apply (waiting_agree F F' _ W2). intros q Hq. apply K. intros (g & -> & Hgin)%list_elem_of_fmap. by apply (W3 g).
    + rewrite u16_small by lia. lia.
    + rewrite u16_small by lia. unfold IP_REASS_MAX_PBUFS. lia.
    + done.
  - exists b'. split; [done|]. split; [congruence|done].
  - exists b, b', rr'. split_and!; try done. intros m. rewrite D', Dl. unfold chain_data at 1. cbn. by rewrite app_nil_r.
Qed.

(** ** A fragment arrives *)

(** The new fragment [p] is in the frame, next to those that wait. *)
Definition arrived F r p b : Prop := @frame F !! p = Some b /\ frag_pbuf p b /\ p ∉ fr_p <$> frags r.

Lemma arrived_given_up F r F' r' p b : arrived F r p b -> given_up F r F' r' -> arrived F' r' p b.
Proof.
  intros (A1 & A2 & A3) [_ K S]. split; [by rewrite K|]. split; [done|].
  intros (f & -> & Hf)%list_elem_of_fmap. apply A3, list_elem_of_fmap. exists f. split; [done|by apply S].
Qed.

Lemma drop_spec F r x st p b : okF F x st -> arrived F r p b -> reass_inv F r ->
  exists st', ip_free custom_free p st = Ret st' /\ okF (thawed p F) x st' /\ reass_inv (thawed p F) r /\
    pmem (ip_heap st') = pmem (ip_heap st).
Proof.
  intros H (Hb & Hf & Hn) [R1 R2 R3 R4].
  destruct (ip_free_spec (F := thawed p F) custom_free malloc Hmalloc bmos Hbmos known st p x) as (st' & E & H' & _ & Em & _); [by eapply ok_thaw|].
  exists st'. split; [done|]. split; [done|]. split; [|done]. split; try done. apply (waiting_agree F _ _ R1). intros q Hq.
  unfold frame, thawed. rewrite lookup_delete_ne; [done|]. by intros ->.
Qed.

(** The outcome: nothing yet, or a packet. *)
Definition outcome F q x st : Prop :=
  q = 0 /\ okF F x st \/ q <> 0 /\ okF F (q :: x) st /\ received q st /\ 
    exists b, pget (ip_heap st) q = Ret b /\ 20 <= p_len b /\ IPH_HL_BYTES (pmem (ip_heap st)) (payload b) = 20.

Record slot_ok F r i d : Prop := {
  so_at : reassdatagrams r !! i = Some d;
  so_waiting : waiting F (frags r);
  so_count : ip_reass_pbufcount r = Z.of_nat (length (frags r));
  so_max : ip_reass_pbufcount r + 1 <= IP_REASS_MAX_PBUFS;
  so_others : Forall data_ok (delete i (reassdatagrams r));
  so_spaced : spaced (rd_p d);
  so_hdr : length (rd_iphdr d) = 20%nat;
  so_bytes : bytes (rd_iphdr d);
  so_hl : hdr_hl_bytes (rd_iphdr d) = 20;
  so_timer : 0 <= rd_timer d <= IP_REASS_MAXAGE;
  so_new : rd_p d = [] -> i = 0%nat /\ rd_flags d = 0;
}.

(** The end of the data of a fragment that claims to be the last. *)
Definition is_last_frag (hdr : list Z) : bool := Z.land (hdr_offset hdr) (lwip_ntohs IP_MF) =? 0.

Lemma data_others l i d : l !! i = Some d -> Forall data_ok (delete i l) -> data_ok d -> Forall data_ok l.
Proof.
  intros Hi Hd H. rewrite delete_take_drop in Hd. rewrite <- (take_drop_middle _ _ _ Hi). apply Forall_app in Hd as [D1 D2].
  apply Forall_app. split; [done|]. by constructor.
Qed.

Lemma slot_drop F r i d : slot_ok F r i d -> exists r', 
  match rd_p d with [] => lwip_assert (Nat.eqb i 0) (Ret (ip_reass_dequeue_datagram i r)) | _ => Ret r end = Ret r' /\ reass_inv F r' /\
  (forall f, f ∈ frags r' -> f ∈ frags r) /\ (rd_p d <> [] -> r' = r).
Proof.
  intros [S1 S2 S3 S4 S5 S6 S7 S8 Shl S9 S10]. pose proof (all_frags_delete _ _ _ S1) as Hperm. destruct (rd_p d) as [|f l] eqn:Ed.
  - destruct (S10 eq_refl) as [-> _]. cbn. eexists. split; [done|]. cbn [app] in Hperm.
    split; [|split; [intros f Hf; unfold frags in *; by rewrite Hperm|done]].
    split; unfold frags in *; cbn [reassdatagrams ip_reass_dequeue_datagram set_datagrams ip_reass_pbufcount]; try done.
    + by eapply waiting_perm.
    + rewrite S3. by rewrite Hperm.
    + lia.
  - exists r. split; [done|]. split; [|by split]. split; try done; [lia|]. apply (data_others _ i d); try done. split; rewrite ?Ed; done.
Qed.

(** The datagram with the new fragment. *)
Definition with_frag (hdr : list Z) (l : list ip_reass_helper) (d : ip_reassdata) : ip_reassdata :=
  if is_last_frag hdr then set_last (fr_end (new_frag NULL hdr)) (set_rd_p l d) else set_rd_p l d.

(** What became of the fragment: dropped, queued, or the last one missing. *)
Definition dropped F r d p hdr st1 q st' r' F' : Prop :=
  q = 0 /\ F' = thawed p F /\ pmem (ip_heap st') = pmem (ip_heap st1) /\ (rd_p d <> [] -> r' = r) /\
  (fr_end (new_frag p hdr) < fr_start (new_frag p hdr) \/ is_last_frag hdr = true /\ 65515 < fr_end (new_frag p hdr) \/
   exists t, t ∈ rd_p d /\ overlap (new_frag p hdr) t).
Definition queued F r i d hdr l st1 q st' r' F' : Prop :=
  q = 0 /\ F' = F /\ st' = st1 /\ reassdatagrams r' = <[i := with_frag hdr l d]> (reassdatagrams r).
Definition completed F r i d hdr l st1 q st' r' F' : Prop :=
  exists f k b b' rr, l = f :: k /\ q = fr_p f /\ reassdatagrams r' = delete i (reassdatagrams r) /\ kept F F' l /\
    @frame F !! fr_p f = Some b /\ packet (ip_heap st') q ((q, b') :: rr) 1 /\
    pmem (ip_heap st') = restore_hdr (pmem (ip_heap st1)) (payload b) (rd_iphdr d) (u16 (rd_datagram_len (with_frag hdr l d) + IP_HLEN)) /\
    forall m, chain_data m ((q, b') :: rr) = mem_read m (payload b) (p_len b) ++ concat (frag_data F m <$> k).
Definition into F r i d p hdr st q st' r' F' : Prop :=
  exists st1, stored F (new_frag p hdr :: rd_p d) st st1 /\
  (dropped F r d p hdr st1 q st' r' F' \/
   exists l, l ≡ₚ new_frag p hdr :: rd_p d /\ spaced l /\ (forall t, t ∈ rd_p d -> ~ overlap (new_frag p hdr) t) /\
     if finished (is_last_frag hdr || has_flag (rd_flags d) IP_REASS_FLAG_LASTFRAG) l
     then completed F r i d hdr l st1 q st' r' F' else queued F r i d hdr l st1 q st' r' F').

(** A fragment that is dropped; its datagram goes with it if it is the first. *)
Lemma into_drop F r i d p b hdr x st st1 : slot_ok F r i d -> okF F x st -> arrived F r p b -> stored F (new_frag p hdr :: rd_p d) st st1 ->
  fr_end (new_frag p hdr) < fr_start (new_frag p hdr) \/ is_last_frag hdr = true /\ 65515 < fr_end (new_frag p hdr) \/
  (exists t, t ∈ rd_p d /\ overlap (new_frag p hdr) t) -> exists q st' r' F',
  (let* r := match rd_p d with [] => lwip_assert (Nat.eqb i 0) (Ret (ip_reass_dequeue_datagram i r)) | _ => Ret r end in
   let* st := ip_free custom_free p st1 in Ret (NULL, st, r)) = Ret (q, st', r') /\ reass_inv F' r' /\ outcome F' q x st' /\
   into F r i d p hdr st q st' r' F'.
Proof.
  intros HS H Ha T1 Why. pose proof (stored_ok custom_free malloc Hmalloc bmos Hbmos known F F _ x st st1 H T1) as H1.
  destruct (slot_drop F r i d HS) as (r' & -> & I' & Sub & Er). cbn [res_bind].
  destruct (drop_spec F r' x st1 p b H1) as (st' & -> & H' & R' & Em); [|done|].
  { destruct Ha as (A1 & A2 & A3). split_and!; try done. intros (f & -> & Hf)%list_elem_of_fmap. apply A3, list_elem_of_fmap. exists f. split; [done|by apply Sub]. }
  cbn [res_bind]. exists NULL, st', r', (thawed p F). split; [done|]. split; [done|]. split; [by left|]. exists st1. split; [done|]. by left.
Qed.

Lemma reass_into_spec F r i d p b hdr x st : slot_ok F r i d -> okF F x st -> arrived F r p b ->
  hdr_hl_bytes hdr = 20 -> 20 < hdr_len hdr <= 65535 -> (is_last_frag hdr = true -> IPH_OFFSET_BYTES hdr <> 0) ->
  exists q st' r' F', reass_into custom_free i p hdr (IPH_OFFSET_BYTES hdr) (u16 (hdr_len hdr - hdr_hl_bytes hdr)) 1 r st = Ret (q, st', r') /\
    reass_inv F' r' /\ outcome F' q x st' /\ into F r i d p hdr st q st' r' F'.
Proof.
  intros HS H Ha Hh Hl Hlast. unfold reass_into. rewrite (so_at _ _ _ _ HS). cbn [res_of_option res_bind]. fold (is_last_frag hdr).
  set (dlen := u16 (IPH_OFFSET_BYTES hdr + _)).
  pose proof (fun st1 => into_drop F r i d p b hdr x st st1 HS H Ha) as Hdrop.
  destruct (is_last_frag hdr && _) eqn:Eov.
  { apply Hdrop; [by eapply stored_refl|]. apply andb_true_iff in Eov as [El [Eo%Z.ltb_lt|Eo]%orb_true_iff]; [by left|].
    right. left. split; [done|]. rewrite Z.gtb_ltb in Eo. by apply Z.ltb_lt in Eo. } pose proof HS as [S1 S2 S3 S4 S5 S6 S7 S8 Shl S9 S10].
  pose proof (all_frags_delete _ _ _ S1) as Hperm. destruct Ha as (A1 & A2 & A3). pose proof S2 as S2'. unfold frags in S2', A3.
  apply (waiting_perm _ _ _ Hperm) in S2' as (W1 & W2 & W3)%waiting_app.
  assert (fr_p (new_frag p hdr) ∉ fr_p <$> rd_p d) as Hnp.
  { intros Hin. apply A3. rewrite Hperm, fmap_app. apply elem_of_app. by left. }
  assert (waiting F (new_frag p hdr :: rd_p d)) as Wn by (by eapply waiting_cons).
  destruct (chain_frag_spec custom_free malloc Hmalloc bmos Hbmos known F x st d p hdr (is_last_frag hdr) H Wn S6 Hh Hl)
    as (st1 & T & [[-> Why]|(l & -> & Pl & Sl & Ee & Ee2 & Nov)]).
  { intros E. destruct (S10 E) as [_ ->]. cbn. rewrite orb_false_r. exact Hlast. }
  { cbn [res_bind]. change (IP_REASS_VALIDATE_PBUF_DROPPED =? IP_REASS_VALIDATE_PBUF_DROPPED) with true. apply Hdrop; [done|].
    destruct Why; [by left|by right; right]. }
  cbn [res_bind]. pose proof (stored_ok custom_free malloc Hmalloc bmos Hbmos known F F _ x st st1 H T) as H1.
  set (seen := is_last_frag hdr || _). set (d1 := if is_last_frag hdr then _ else _).
  assert (d1 = with_frag hdr l d) as Ed1 by done. assert (rd_p d1 = l /\ rd_iphdr d1 = rd_iphdr d /\ rd_timer d1 = rd_timer d) as (D1 & D2 & D3) by (unfold d1; by destruct (is_last_frag hdr)).
  set (r1 := set_count _ (set_datagrams _ r)). pose proof (all_frags_insert _ _ _ d1 S1) as Hperm1. rewrite D1 in Hperm1.
  assert (l <> []) as Hne by (intros ->; by apply Permutation_nil_cons in Pl).
  assert (waiting F (frags r1)) as Wr1.
  { unfold frags, r1. cbn. eapply waiting_perm; [symmetry; exact Hperm1|]. eapply waiting_perm; [by rewrite Pl|]. cbn [app].
    eapply (waiting_cons F _ _ b); try done; [eapply waiting_perm; [exact Hperm|done]|by rewrite <- Hperm]. }
  unfold frags in S3. rewrite Hperm, length_app in S3. unfold IP_REASS_MAX_PBUFS in S4.
  assert (ip_reass_pbufcount r1 = Z.of_nat (length (frags r1)) /\ ip_reass_pbufcount r1 <= IP_REASS_MAX_PBUFS) as [Cr1 Mr1].
  { unfold frags, r1, IP_REASS_MAX_PBUFS. cbn [ip_reass_pbufcount set_count reassdatagrams set_datagrams]. rewrite Hperm1, length_app, Pl. cbn [length].
    rewrite u16_small by lia. split; lia. }
  assert (reassdatagrams r1 !! i = Some d1) as Hd1 by (cbn; apply list_lookup_insert_eq; by eapply lookup_lt_Some).
  assert (delete i (reassdatagrams r1) = delete i (reassdatagrams r)) as Edel.
  { cbn. rewrite !delete_take_drop. f_equal; [apply take_insert_ge; lia|apply drop_insert_lt; lia]. }
  destruct (finished seen l) eqn:Efin.
  - change (IP_REASS_VALIDATE_TELEGRAM_FINISHED =? IP_REASS_VALIDATE_PBUF_DROPPED) with false. change (IP_REASS_VALIDATE_TELEGRAM_FINISHED =? IP_REASS_VALIDATE_TELEGRAM_FINISHED) with true.
    destruct (finish_spec F i d1 r1 x st1 Hd1 H1 Wr1 Cr1 Mr1) as (f & k & st2 & r2 & F2 & Ef & -> & H2 & I2 & Edl & Kd & Hrc & b0 & b' & rr & Hb0 & Hg' & Hl' & Hpl' & Pk & Em & Dt).
    { by rewrite Edel. }
    { by rewrite D1. }
    exists (fr_p f), st2, r2, F2. split; [done|]. split; [done|]. split.
    2:{ exists st1. split; [done|]. right. exists l. split_and!; try done. fold seen. rewrite Efin. rewrite D1 in *. exists f, k, b0, b', rr.
        split_and!; try done; [by rewrite Edl, Edel|]. by rewrite Em, D2, Ed1. }
    right.
    destruct (proj2 Wr1 f) as (b1 & Hb1 & Hf1). { unfold frags, r1. cbn. rewrite Hperm1, <- D1, Ef. by left. }
    split; [apply Hf1|]. split; [done|]. split; [done|]. exists b'. split; [done|]. rewrite Hl', Hb0 in *. injection Hb1 as ->. pose proof (fp_len _ _ Hf1). split; [lia|].
    rewrite Em, Hpl', restore_hdr_hl; rewrite ?D2; try done.
    + exact (stored_mem F _ _ _ T).
    + by eapply frag_placed.
    + apply u16_range.
  - change (IP_REASS_VALIDATE_PBUF_QUEUED =? IP_REASS_VALIDATE_PBUF_DROPPED) with false. change (IP_REASS_VALIDATE_PBUF_QUEUED =? IP_REASS_VALIDATE_TELEGRAM_FINISHED) with false.
    exists NULL, st1, r1, F. split; [done|]. split; [|split; [by left|]].
    2:{ exists st1. split; [done|]. right. exists l. split_and!; try done. fold seen. by rewrite Efin. }
    split; try done.
    apply (data_others _ i d1 Hd1); [by rewrite Edel|]. split; rewrite ?D1, ?D2, ?D3; done.
Qed.

Lemma find_datagram_spec hdr l : forall i,
  match find_datagram i hdr l with
  | Some j => exists k d, j = (i + k)%nat /\ l !! k = Some d /\ IP_ADDRESSES_AND_ID_MATCH (rd_iphdr d) hdr = true
  | None => Forall (fun d => IP_ADDRESSES_AND_ID_MATCH (rd_iphdr d) hdr = false) l
  end.
Proof.
  induction l as [|d l IH]; intros i; [constructor|]. cbn [find_datagram]. destruct (IP_ADDRESSES_AND_ID_MATCH (rd_iphdr d) hdr) eqn:Em.
  - exists 0%nat, d. by rewrite Nat.add_0_r.
  - specialize (IH (S i)). destruct (find_datagram (S i) hdr l) as [j|]; [|by constructor].
    destruct IH as (k & e & -> & Hk & He). exists (S k), e. split; [lia|done].
Qed.

(** The slot of a datagram that exists, with the header it should keep. *)
Lemma slot_known F r i d p b hdr : reass_inv F r -> arrived F r p b -> ip_reass_pbufcount r + 1 <= IP_REASS_MAX_PBUFS ->
  reassdatagrams r !! i = Some d -> length hdr = 20%nat -> bytes hdr -> hdr_hl_bytes hdr = 20 ->
  let d1 := if (IPH_OFFSET_BYTES hdr =? 0) && negb (IPH_OFFSET_BYTES (rd_iphdr d) =? 0) then set_iphdr hdr d else d in
  let r1 := set_datagrams (<[i := d1]> (reassdatagrams r)) r in
  slot_ok F r1 i d1 /\ arrived F r1 p b.
Proof.
  intros Hi Ha Hc Hd Lh Bh Hh d1 r1. pose proof Hi as [R1 R2 R3 R4]. pose proof (proj1 (Forall_lookup _ _) R4 i d Hd) as [D1 D2 D3 D4 Dhl D5].
  assert (rd_p d1 = rd_p d /\ rd_timer d1 = rd_timer d /\ length (rd_iphdr d1) = 20%nat /\ bytes (rd_iphdr d1) /\ hdr_hl_bytes (rd_iphdr d1) = 20) as (E1 & E2 & E3 & E4 & E5).
  { unfold d1. by destruct (_ && _). }
  assert (frags r1 = frags r) as Ef.
  { unfold frags, r1, all_frags. cbn [reassdatagrams set_datagrams]. f_equal. rewrite list_fmap_insert, E1.
    apply list_insert_id. by rewrite list_lookup_fmap, Hd. }
  split; [|destruct Ha as (A1 & A2 & A3); split_and!; [done..|by rewrite Ef]].
  split; rewrite ?Ef, ?E1, ?E2, ?E3; try done.
  - cbn. apply list_lookup_insert_eq. by eapply lookup_lt_Some.
  - cbn. rewrite delete_take_drop, take_insert_ge, drop_insert_lt by lia. rewrite <- delete_take_drop. by apply data_delete.
Qed.

Lemma slot_fresh F F1 r r1 r2 p b hdr : given_up F r F1 r1 -> arrived F r p b -> ip_reass_pbufcount r1 + 1 <= IP_REASS_MAX_PBUFS ->
  reassdatagrams r2 = mkReassdata [] hdr 0 0 IP_REASS_MAXAGE :: reassdatagrams r1 -> ip_reass_pbufcount r2 = ip_reass_pbufcount r1 ->
  length hdr = 20%nat -> bytes hdr -> hdr_hl_bytes hdr = 20 ->
  slot_ok F1 r2 0 (mkReassdata [] hdr 0 0 IP_REASS_MAXAGE) /\ arrived F1 r2 p b.
Proof.
  intros G Ha Hc Ed Ec Lh Bh Hh. pose proof (arrived_given_up _ _ _ _ _ _ Ha G) as (A1 & A2 & A3). pose proof (gu_inv _ _ _ _ G) as [R1 R2 R3 R4].
  assert (frags r2 = frags r1) as Ef by (unfold frags; by rewrite Ed). split; [|split_and!; [done..|by rewrite Ef]].
  split; rewrite ?Ef, ?Ec; try done; rewrite ?Ed; done.
Qed.

(** The packet joins the frame. *)
Lemma arrive F0 p b r x st : reass_inv F0 r -> okF F0 (p :: x) st -> received p st -> pget (ip_heap st) p = Ret b -> next b = NULL ->
  20 < p_len b <= TXBUF -> let F := frozen p b F0 in okF F x st /\ arrived F r p b /\ reass_inv F r.
Proof.
  intros [K1 K2 K3 K4] H0 (b0 & Hg0 & Hr & Hpl) Hg Hnx Hl F. rewrite Hg in Hg0. injection Hg0 as <-.
  destruct (ok_freeze custom_free malloc Hmalloc bmos Hbmos known F0 x st p b H0 Hg Hnx Hr) as (H & Pp & HF0). split; [done|].
  assert (frag_pbuf p b) as Hf.
  { destruct Pp as [P1 P2 (W1 & W2 & W3 & _) P4 P5 P6]. inversion P5. subst. cbn in W2. split; try done; lia. }
  assert (p ∉ fr_p <$> frags r) as Hn.
  { intros (f & -> & Hin)%list_elem_of_fmap. destruct (proj2 K1 f Hin) as (bf & Hbf & _). congruence. }
  split; [split_and!; try done; unfold frame, F, frozen; apply lookup_insert_eq|]. split; try done.
  apply (waiting_agree F0 F _ K1). intros q Hq. unfold frame, F, frozen. rewrite lookup_insert_ne; [done|]. by intros ->.
Qed.

(** The fields of the header that arrives. *)
Lemma arrived_hdr m b hdr : hdr = mem_read m (payload b) IP_HLEN -> mem_ok m -> is_fragment m (payload b) = true ->
  length hdr = 20%nat /\ bytes hdr /\ hdr_hl_bytes hdr = IPH_HL_BYTES m (payload b) /\ hdr_len hdr = lwip_ntohs (IPH_LEN m (payload b)) /\
  (is_last_frag hdr = true -> IPH_OFFSET_BYTES hdr <> 0).
Proof.
  intros -> Hm Hfr. split; [apply length_mem_read|]. split; [by apply bytes_mem_read|]. unfold hdr_hl_bytes, hdr_len, is_last_frag, IPH_OFFSET_BYTES, hdr_offset.
  rewrite !hdr_get_field by lia. split; [done|]. split; [done|]. apply last_offset; [by apply u16_field|exact Hfr].
Qed.

Lemma ip4_reass_spec : reass_ok custom_free malloc Hmalloc bmos Hbmos known (ip4_reass custom_free malloc bmos nf ip4_frag memp) reass_inv.
Proof.
  intros F0 p b st r x K H0 Hrc Hg m hlen Hh Et Hl Hfr Hnx.
  assert (p_tot_len b = p_len b) as Etl.
  { destruct (ao_owns _ _ _ H0) as (_ & _ & C & HC). destruct (held_packet _ _ _ _ HC) as (b0 & rr & Er & Pp & Hg0 & _).
    assert (b0 = b) as -> by (assert (Ret b0 = Ret b) as E by (by rewrite <- Hg, <- Hg0); by injection E). pose proof (pk_chain _ _ _ _ Pp) as (_ & _ & _ & Hc). rewrite Hnx in Hc. apply chain_null in Hc. subst rr.
    pose proof (pk_wf _ _ _ _ Pp) as (_ & W & _). cbn in W. lia. }
  destruct (arrive F0 p b r x st K H0 Hrc Hg Hnx) as (H & Ha & Hi); [lia|].
  pose proof (ok_mem_ok _ _ _ _ _ _ _ _ H) as Hm. fold m in Hm.
  unfold ip4_reass. rewrite Hg. cbn [res_bind]. rewrite within_true by (unfold IP_HLEN; lia). fold m. set (hdr := mem_read m (payload b) IP_HLEN).
  destruct (arrived_hdr m b hdr eq_refl Hm Hfr) as (Lh & Bh & Ehl & El & Elast). fold hlen in Ehl. rewrite <- Et in El.
  set (F := frozen p b F0) in *.
  assert (forall F1 r1 st1, given_up F r F1 r1 -> okF F1 x st1 -> exists q st' s' x' F', 
    (let* st := ip_free custom_free p st1 in Ret (NULL, st, r1)) = Ret (q, st', s') /\ reass_inv F' s' /\
    (q = 0 /\ okF F' x' st' \/ q <> 0 /\ okF F' (q :: x') st' /\ received q st' /\ exists b', pget (ip_heap st') q = Ret b' /\ hlen <= p_len b' /\
      IPH_HL_BYTES (pmem (ip_heap st')) (payload b') = hlen)) as Hdrop.
  { intros F1 r1 st1 G1 H1. destruct (drop_spec F1 r1 x st1 p b H1) as (st' & -> & H' & I' & _); [exact (arrived_given_up F r F1 r1 p b Ha G1)|apply G1|]. cbn [res_bind].
    exists NULL, st', r1, x, (thawed p F1). split; [done|]. split; [done|by left]. }
  rewrite Ehl. destruct (Z.eqb_spec hlen IP_HLEN) as [Eh|Eh]; cbn [negb]; [|apply (Hdrop F r st); [by apply given_up_refl|done]].
  unfold IP_HLEN in Eh. rewrite El, Z.gtb_ltb, (proj2 (Z.ltb_ge (p_tot_len b) hlen)) by lia. rewrite (clen_one p b _ Hg Hnx). cbn [res_bind].
  destruct (make_room_spec custom_free malloc Hmalloc bmos Hbmos known known_null nf Hnf ip4_frag Hfrag F hdr 1 r x st Hi H)
    as (room & r1 & st1 & F1 & -> & G1 & H1 & Hroom). cbn [res_bind]. destruct room; cbn [negb]; [|by apply (Hdrop F1)]. specialize (Hroom eq_refl).
  assert (forall F2 r2 i d st2, slot_ok F2 r2 i d -> arrived F2 r2 p b -> okF F2 x st2 -> exists q st' s' x' F',
    reass_into custom_free i p hdr (IPH_OFFSET_BYTES hdr) (u16 (p_tot_len b - hlen)) 1 r2 st2 = Ret (q, st', s') /\ reass_inv F' s' /\
    (q = 0 /\ okF F' x' st' \/ q <> 0 /\ okF F' (q :: x') st' /\ received q st' /\ exists b', pget (ip_heap st') q = Ret b' /\ hlen <= p_len b' /\
      IPH_HL_BYTES (pmem (ip_heap st')) (payload b') = hlen)) as Hinto.
  { intros F2 r2 i d st2 HS2 Ha2 H2. unfold TXBUF in Hl.
    destruct (reass_into_spec F2 r2 i d p b hdr x st2 HS2 H2 Ha2 ltac:(congruence) ltac:(lia)) as (q & st' & r' & F' & E & I' & O & _).
    { done. }
    rewrite El, Ehl in E. exists q, st', r', x, F'. split; [done|]. split; [done|].
    destruct O as [O|(O1 & O2 & O3 & b' & O4 & O5 & O6)]; [by left|right]. split_and!; try done. exists b'. split; [done|]. rewrite O6. lia. }
  pose proof (find_datagram_spec hdr (reassdatagrams r1) 0) as Hfd. destruct (find_datagram 0 hdr (reassdatagrams r1)) as [i|].
  - destruct Hfd as (k & d & -> & Hk & _). cbn [Nat.add]. rewrite Hk. cbn [res_of_option res_bind].
    destruct (slot_known F1 r1 k d p b hdr (gu_inv _ _ _ _ G1)) as [HS2 Ha2]; try done; try congruence; [exact (arrived_given_up F r F1 r1 p b Ha G1)|]. by eapply (Hinto F1).
  - destruct (new_datagram_spec custom_free malloc Hmalloc bmos Hbmos known known_null nf Hnf ip4_frag Hfrag memp F1 hdr 1 r1 x st1 (gu_inv _ _ _ _ G1) H1)
      as (ok & r2 & st2 & F2 & -> & H2 & Hok). cbn [res_bind]. destruct ok; cbn [negb].
    + destruct Hok as (r3 & G3 & Ed & Ec). 
      destruct (slot_fresh F1 F2 r1 r3 r2 p b hdr G3) as [HS2 Ha2]; try done; try congruence; [exact (arrived_given_up F r F1 r1 p b Ha G1)| |by eapply (Hinto F2)].
      pose proof (given_up_count _ _ _ _ G3 (gu_inv _ _ _ _ G1)). lia.
    + apply (Hdrop F2); [|done]. exact (given_up_trans _ _ _ _ _ _ G1 Hok).
Qed.

(** With room for the fragment and for its datagram, none is given up. *)
Definition entered r (hdr : list Z) (i : nat) d r2 : Prop :=
  match find_datagram 0 hdr (reassdatagrams r) with
  | Some k => i = k /\ exists d0, reassdatagrams r !! k = Some d0 /\ reassdatagrams r2 = <[k := d]> (reassdatagrams r) /\
      d = if (IPH_OFFSET_BYTES hdr =? 0) && negb (IPH_OFFSET_BYTES (rd_iphdr d0) =? 0) then set_iphdr hdr d0 else d0
  | None => i = 0%nat /\ d = mkReassdata [] hdr 0 0 IP_REASS_MAXAGE /\ reassdatagrams r2 = d :: reassdatagrams r
  end.

Lemma ip4_reass_room F p b r x st : let m := pmem (ip_heap st) in let hdr := mem_read m (payload b) IP_HLEN in
  okF F x st -> arrived F r p b -> reass_inv F r -> length hdr = 20%nat -> bytes hdr -> hdr_hl_bytes hdr = 20 -> 20 <= hdr_len hdr ->
  ip_reass_pbufcount r < IP_REASS_MAX_PBUFS -> memp (rs_allocs r) = true ->
  exists i d r2, ip4_reass custom_free malloc bmos nf ip4_frag memp p st r =
      reass_into custom_free i p hdr (IPH_OFFSET_BYTES hdr) (u16 (hdr_len hdr - hdr_hl_bytes hdr)) 1 r2 st /\
    slot_ok F r2 i d /\ arrived F r2 p b /\ entered r hdr i d r2.
Proof.
  intros m hdr H Ha Hi Lh Bh Hh Hl Hc Hmp. pose proof Ha as (A1 & A2 & A3).
  pose proof (ok_frame custom_free malloc Hmalloc bmos Hbmos known F x st p b H A1 A2) as Hg. pose proof (fp_len _ _ A2) as Hlen.
  unfold ip4_reass, entered. rewrite Hg. cbn [res_bind]. rewrite within_true by (unfold IP_HLEN; lia). fold m. fold hdr. rewrite Hh. unfold IP_HLEN at 1.
  cbn [Z.eqb Pos.eqb negb]. rewrite Z.gtb_ltb, (proj2 (Z.ltb_ge (hdr_len hdr) 20)) by lia. rewrite (clen_one p b _ Hg (fp_next _ _ A2)). cbn [res_bind].
  unfold make_room. rewrite Z.gtb_ltb, (proj2 (Z.ltb_ge IP_REASS_MAX_PBUFS _)) by lia. cbn [res_bind negb].
  pose proof (find_datagram_spec hdr (reassdatagrams r) 0) as Hfd. destruct (find_datagram 0 hdr (reassdatagrams r)) as [k|].
  - destruct Hfd as (j & d0 & -> & Hd & _). cbn [Nat.add] in *. rewrite Hd. cbn [res_of_option res_bind].
    destruct (slot_known F r j d0 p b hdr Hi Ha ltac:(lia) Hd Lh Bh Hh) as [S1 S2]. eexists j, _, _. split; [done|]. split; [exact S1|]. split; [exact S2|].
    split; [done|]. by exists d0.
  - unfold ip_reass_enqueue_new_datagram, memp_malloc. rewrite Hmp. cbn [res_bind negb]. set (r1 := mkReass _ _ _).
    assert (given_up F r F r1) as G by (destruct Hi; by split).
    eexists 0%nat, _, _. split; [done|].
    destruct (slot_fresh F F r r1 (set_datagrams (mkReassdata [] hdr 0 0 IP_REASS_MAXAGE :: reassdatagrams r1) r1) p b hdr G Ha) as [S1 S2];
      try done; cbn [r1 ip_reass_pbufcount]; lia.
Qed.
End Run.
