(* ===== verification/ReassData.v ===== *)
(** * Reassembly: the bytes

    What is in the packet that ip4_reass returns: a header that verifies, and
    the data of the datagram whose pieces arrived. *)
From S2P Require Import Prelude NetShim Ip4Addr Link Etharp EtharpInv Checksum Pbuf PbufChain PbufOps NetGlue PbufClone Ethernet EthernetInv EthernetRx Ip4 Icmp Ip4Input Ip4Inv IcmpInv Ip4Rx Ip4Hdr Reass ReassInv ReassOps ReassRun.

(** ** Fragments apart in memory *)
Definition separate (F : Frame) (l : list ip_reass_helper) : Prop := forall f g bf bg, f ∈ l -> g ∈ l -> fr_p f <> fr_p g ->
  @frame F !! fr_p f = Some bf -> @frame F !! fr_p g = Some bg ->
  payload bf + p_len bf <= payload bg \/ payload bg + p_len bg <= payload bf.

(** Stores into headers leave the data. *)
Lemma frag_data_off F l m m' f : off_headers F l m m' -> waiting F l -> separate F l -> f ∈ l -> frag_data F m' f = frag_data F m f.
Proof.
  intros Ho [_ Hw] Hs Hf. unfold frag_data. destruct (Hw f Hf) as (b & Hb & Hp). rewrite Hb. destruct (frag_placed _ _ Hp) as [_ Ha].
  apply Ho; [done|]. intros g bg Hg Hbg. destruct (decide (fr_p f = fr_p g)) as [E|Hne]; [rewrite E, Hbg in Hb; injection Hb as ->; lia|].
  destruct (Hw g Hg) as (bg' & Hbg' & Hpg). rewrite Hbg in Hbg'. injection Hbg' as <-. pose proof (fp_len _ _ Hpg). pose proof (fp_len _ _ Hp).
  destruct (Hs f g b bg Hf Hg Hne Hb Hbg); lia.
Qed.
Lemma frag_data_restore F l m f g bf hdr n : waiting F l -> separate F l -> f ∈ l -> g ∈ l -> fr_p g <> fr_p f -> @frame F !! fr_p f = Some bf ->
  length hdr = 20%nat -> frag_data F (restore_hdr m (payload bf) hdr n) g = frag_data F m g.
Proof.
  intros [_ Hw] Hs Hf Hg Hne Hbf HL. unfold frag_data. destruct (Hw g Hg) as (bg & Hbg & Hpg), (Hw f Hf) as (b & Hb & Hpf). rewrite Hbg.
  rewrite Hbf in Hb. injection Hb as <-. pose proof (fp_len _ _ Hpg). pose proof (fp_len _ _ Hpf).
  apply restore_hdr_off; [by eapply frag_placed|done|by eapply frag_placed|]. destruct (Hs g f bg bf Hg Hf Hne Hbg Hbf); lia.
Qed.

(** ** Pieces of a whole *)

(** The bytes from [a] up to [e] of [D]. *)
Abbreviation piece D a e := (window (e - a) a D).

Lemma piece_app (D : list Z) a e g : 0 <= a <= e -> e <= g -> piece D a e ++ piece D e g = piece D a g.
Proof.
  intros Ha He. unfold window. rewrite <- (take_drop (Z.to_nat (e - a)) (take (Z.to_nat (g - a)) _)). rewrite take_take, Nat.min_l by lia. f_equal.
  rewrite skipn_firstn_comm, drop_drop. f_equal; [lia|]. f_equal. lia.
Qed.

Lemma joined_data (g : ip_reass_helper -> list Z) D l : forall f, spaced (f :: l) -> joined (f :: l) = true ->
  (forall h, h ∈ f :: l -> g h = piece D (fr_start h) (fr_end h)) ->
  exists e, e ∈ fr_end <$> f :: l /\ (forall h, h ∈ f :: l -> fr_end h <= e) /\ concat (g <$> f :: l) = piece D (fr_start f) e.
Proof.
  induction l as [|h l IH]; intros f Hs Hj Hg; pose proof Hs as (H1 & H2 & H3).
  - exists (fr_end f). split; [by left|]. split; [intros h ->%list_elem_of_singleton; lia|]. cbn. rewrite app_nil_r. apply Hg. by left.
  - change (joined (f :: h :: l)) with ((fr_end f =? fr_start h) && joined (h :: l)) in Hj. apply andb_true_iff in Hj as [E%Z.eqb_eq Hj].
    destruct (IH h H3 Hj) as (e & He & Hmax & Ec); [intros k Hk; apply Hg; by right|]. exists e. split; [by right|].
    pose proof (Hmax h ltac:(by left)) as Hh. destruct H3 as (S1 & _). split.
    + intros k [->|Hk]%elem_of_cons; [lia|by apply Hmax].
    + cbn [fmap list_fmap concat] in *. rewrite Ec, (Hg f) by (by left). rewrite E. apply piece_app; lia.
Qed.

Lemma has_last_flag x : has_flag (Z.lor x IP_REASS_FLAG_LASTFRAG) IP_REASS_FLAG_LASTFRAG = true.
Proof.
  unfold has_flag, IP_REASS_FLAG_LASTFRAG. rewrite Z.land_lor_distr_l. change (Z.land 1 1) with 1.
  change 1 with (Z.ones 1) at 1. rewrite Z.land_ones by lia. change (2 ^ 1) with 2. pose proof (Z.mod_pos_bound x 2 ltac:(lia)).
  assert (x mod 2 = 0 \/ x mod 2 = 1) as [-> | ->] by lia; done.
Qed.

(** ** What the fragments cover *)

(** Byte [o] of the datagram is there; the end of the data that is there. *)
Definition covers (l : list ip_reass_helper) (o : Z) : Prop := exists f, f ∈ l /\ fr_start f <= o < fr_end f.
Definition reach (l : list ip_reass_helper) : Z := foldr (fun f n => Z.max (fr_end f) n) 0 l.

Lemma covers_cons f l o : covers (f :: l) o <-> fr_start f <= o < fr_end f \/ covers l o.
Proof.
  split.
  - intros (g & [->|Hg]%elem_of_cons & H); [by left|right; by exists g].
  - intros [H|(g & Hg & H)]; [exists f; split; [by left|done]|exists g; split; [by right|done]].
Qed.

Lemma reach_le l g : g ∈ l -> fr_end g <= reach l.
Proof.
  induction l as [|a l IH]; intros Hg; [by apply elem_of_nil in Hg|]. change (reach (a :: l)) with (Z.max (fr_end a) (reach l)).
  apply elem_of_cons in Hg as [->|Hg]; [lia|]. specialize (IH Hg). lia.
Qed.
Lemma spaced_in l f : spaced l -> f ∈ l -> 0 <= fr_start f < fr_end f.
Proof. induction l as [|a l IH]; [by intros _ ?%elem_of_nil|]. intros (H1 & _ & H3) [->|Hf]%elem_of_cons; [done|by apply IH]. Qed.
Lemma reach_in l : spaced l -> l <> [] -> exists f, f ∈ l /\ fr_end f = reach l.
Proof.
  induction l as [|a l IH]; [done|]. intros (H1 & H2 & H3) _. change (reach (a :: l)) with (Z.max (fr_end a) (reach l)).
  destruct (decide (l = [])) as [->|Hne]; [exists a; split; [by left|cbn; lia]|].
  destruct (IH H3 Hne) as (f & Hf & E). rewrite Forall_forall in H2. specialize (H2 f Hf). pose proof (spaced_in l f H3 Hf).
  exists f. split; [by right|lia].
Qed.
Lemma reach_spaced f l : spaced (f :: l) -> fr_end f <= reach (f :: l) /\
  (l <> [] -> reach (f :: l) = reach l).
Proof.
  intros (H1 & H2 & H3). split; [apply reach_le; by left|]. destruct l as [|a l]; [done|]. intros _.
  change (reach (f :: a :: l)) with (Z.max (fr_end f) (Z.max (fr_end a) (reach l))). change (reach (a :: l)) with (Z.max (fr_end a) (reach l)).
  inversion H2 as [|? ? Ha _]. destruct H3 as (A & _). subst. lia.
Qed.

(** Without holes is the same as covered. *)
Lemma joined_covers l : forall f, spaced (f :: l) ->
  joined (f :: l) = true <-> forall o, fr_start f <= o < reach (f :: l) -> covers (f :: l) o.
Proof.
  induction l as [|g l IH]; intros f Hs; pose proof Hs as (H1 & H2 & H3).
  - split; [|done]. intros _ o. cbn. intros Ho. apply covers_cons. left. lia.
  - destruct (reach_spaced f (g :: l) Hs) as (_ & Er). rewrite Er by done. inversion H2 as [|? ? Hg _]. subst.
    change (joined (f :: g :: l)) with ((fr_end f =? fr_start g) && joined (g :: l)). rewrite andb_true_iff, Z.eqb_eq, IH by done.
    destruct (reach_spaced g l H3) as (Rg & _). split.
    + intros [E Hc] o Ho. apply covers_cons. destruct (Z.lt_ge_cases o (fr_end f)); [left; lia|]. right. apply Hc. lia.
    + intros Hc. assert (forall o, fr_end f <= o < reach (g :: l) -> covers (g :: l) o) as Hc'.
      { intros o Ho. destruct (proj1 (covers_cons _ _ _) (Hc o ltac:(lia))) as [?|?]; [lia|done]. }
      destruct H3 as (G1 & G2 & _). assert (fr_end f = fr_start g) as E.
      { destruct (Hc' (fr_end f)) as (a & [->|Ha]%elem_of_cons & Hb); [lia|lia|]. rewrite Forall_forall in G2. specialize (G2 a Ha). lia. }
      split; [done|]. intros o Ho. apply Hc'. lia.
Qed.

Lemma finished_covers seen l : spaced l -> l <> [] ->
  finished seen l = true <-> seen = true /\ forall o, 0 <= o < reach l -> covers l o.
Proof.
  intros Hs Hne. unfold finished. rewrite !andb_true_iff. destruct l as [|f l]; [done|]. cbn [starts_at_0]. pose proof Hs as (H1 & H2 & H3).
  rewrite Z.eqb_eq, joined_covers by done. destruct (reach_spaced f l Hs) as (R1 & _). split.
  - intros [[? Hc] E]. split; [done|]. intros o Ho. apply Hc. lia.
  - intros [? Hc]. assert (fr_start f = 0) as E; [|split_and!; try done; intros o Ho; apply Hc; lia].
    destruct (Hc 0) as (g & [->|Hg]%elem_of_cons & Hb); [lia|lia|]. rewrite Forall_forall in H2. specialize (H2 g Hg). lia.
Qed.

(** ** The datagram of a header *)
Lemma match_iff A B : IP_ADDRESSES_AND_ID_MATCH A B = true <->
  hdr_get A 12 4 = hdr_get B 12 4 /\ hdr_get A 16 4 = hdr_get B 16 4 /\ hdr_get A 4 2 = hdr_get B 4 2.
Proof. unfold IP_ADDRESSES_AND_ID_MATCH. rewrite !andb_true_iff, !Z.eqb_eq. tauto. Qed.
Lemma match_same A B C : IP_ADDRESSES_AND_ID_MATCH B C = true -> IP_ADDRESSES_AND_ID_MATCH A B = IP_ADDRESSES_AND_ID_MATCH A C.
Proof. intros (E1 & E2 & E3)%match_iff. unfold IP_ADDRESSES_AND_ID_MATCH. by rewrite E1, E2, E3. Qed.
Lemma match_same_l A B C : IP_ADDRESSES_AND_ID_MATCH A B = true -> IP_ADDRESSES_AND_ID_MATCH A C = IP_ADDRESSES_AND_ID_MATCH B C.
Proof. intros (E1 & E2 & E3)%match_iff. unfold IP_ADDRESSES_AND_ID_MATCH. by rewrite E1, E2, E3. Qed.

Lemma find_same A B l : IP_ADDRESSES_AND_ID_MATCH A B = true -> forall i, find_datagram i A l = find_datagram i B l.
Proof. intros E. induction l as [|d l IH]; intros i; [done|]. cbn [find_datagram]. by rewrite IH, (match_same _ A B E). Qed.
Lemma find_insert A l k d d' : l !! k = Some d -> IP_ADDRESSES_AND_ID_MATCH (rd_iphdr d') A = IP_ADDRESSES_AND_ID_MATCH (rd_iphdr d) A ->
  forall i, find_datagram i A (<[k := d']> l) = find_datagram i A l.
Proof.
  intros Hk E. revert k Hk. induction l as [|e l IH]; intros [|k] Hk i; try done; cbn [lookup list_lookup] in Hk.
  - injection Hk as ->. cbn. by rewrite E.
  - cbn [insert list_insert find_datagram]. by rewrite IH.
Qed.

Section Data.
Variable D : list Z.
Variable H1 : list Z.
Abbreviation whole := (Z.of_nat (length D)).
Implicit Types (F : Frame) (r : reass) (st : ipst).

(** The fragments of [d] are pieces of the data [D]; the header kept is [H1],
    once the first fragment was seen; the last one was seen if it is there. *)
Record collects F m d : Prop := {
  co_data : forall f, f ∈ rd_p d -> frag_data F m f = piece D (fr_start f) (fr_end f) /\ fr_end f <= whole;
  co_hdr : IPH_OFFSET_BYTES (rd_iphdr d) = 0 -> rd_iphdr d = H1;
  co_first : forall f, f ∈ rd_p d -> fr_start f = 0 -> IPH_OFFSET_BYTES (rd_iphdr d) = 0;
  co_last : has_flag (rd_flags d) IP_REASS_FLAG_LASTFRAG = true <-> whole ∈ fr_end <$> rd_p d;
  co_len : has_flag (rd_flags d) IP_REASS_FLAG_LASTFRAG = true -> rd_datagram_len d = whole;
}.

(** The packet [b] with the header [hdr] is such a piece. *)
Record is_piece (m : memory) (b : pbuf) (hdr : list Z) : Prop := {
  ip_hl : hdr_hl_bytes hdr = 20;
  ip_len : hdr_len hdr = p_len b;
  ip_end : IPH_OFFSET_BYTES hdr + (p_len b - 20) <= whole <= 65515;
  ip_data : mem_read m (payload b + 20) (p_len b - 20) = piece D (IPH_OFFSET_BYTES hdr) (IPH_OFFSET_BYTES hdr + (p_len b - 20));
  ip_last : is_last_frag hdr = true <-> IPH_OFFSET_BYTES hdr + (p_len b - 20) = whole;
  ip_first : IPH_OFFSET_BYTES hdr = 0 -> hdr = H1;
}.

Lemma offset_range hdr : 0 <= IPH_OFFSET_BYTES hdr < 65536.
Proof. unfold IPH_OFFSET_BYTES, u16. zdiv. Qed.

Lemma piece_end m p b hdr : is_piece m b hdr -> frag_pbuf p b ->
  0 <= fr_start (new_frag p hdr) < fr_end (new_frag p hdr) /\ fr_end (new_frag p hdr) = IPH_OFFSET_BYTES hdr + (p_len b - 20).
Proof.
  intros [P1 P2 P3 _ _ _] [_ _ _ B4 _ _ _]. pose proof (offset_range hdr) as R. cbn [fr_start fr_end new_frag]. unfold TXBUF in B4.
  rewrite P1, P2, (u16_small (p_len b - 20)), u16_small by lia. lia.
Qed.

Lemma collects_add F m l d p b hdr : collects F m d -> is_piece m b hdr -> @frame F !! p = Some b -> frag_pbuf p b ->
  l ≡ₚ new_frag p hdr :: rd_p d -> (IPH_OFFSET_BYTES hdr = 0 -> IPH_OFFSET_BYTES (rd_iphdr d) = 0) ->
  collects F m (with_frag hdr l d).
Proof.
  intros [C1 C2 C3 C4 C5] P Hb Hp Pl Hfst. destruct (piece_end m p b hdr P Hp) as [R E]. pose proof P as [P1 P2 P3 P4 P5 P6].
  assert (rd_p (with_frag hdr l d) = l /\ rd_iphdr (with_frag hdr l d) = rd_iphdr d) as [E1 E2] by (unfold with_frag; by destruct (is_last_frag hdr)).
  assert (has_flag (rd_flags (with_frag hdr l d)) IP_REASS_FLAG_LASTFRAG = true <->
    is_last_frag hdr = true \/ has_flag (rd_flags d) IP_REASS_FLAG_LASTFRAG = true) as E3.
  { unfold with_frag. destruct (is_last_frag hdr); cbn [set_last set_rd_p rd_flags].
    - split; [by left|]. intros _. apply has_last_flag.
    - split; [by right|by intros [?|?]]. }
  split; rewrite ?E1, ?E2, ?E3.
  - intros f. rewrite Pl. intros [->|Hf]%elem_of_cons; [|by apply C1]. split; [|lia]. unfold frag_data. cbn [fr_p new_frag]. rewrite Hb, P4, E. done.
  - done.
  - intros f. rewrite Pl. intros [->|Hf]%elem_of_cons; [done|by apply C3].
  - rewrite Pl, fmap_cons, elem_of_cons, C4. rewrite P5, <- E. split; (intros [?|?]; [left; lia|by right]).
  - intros Hs. unfold with_frag. destruct (is_last_frag hdr) eqn:El; cbn [set_last set_rd_p rd_datagram_len].
    + change (fr_end (new_frag NULL hdr)) with (fr_end (new_frag p hdr)). rewrite E. by apply P5.
    + destruct Hs as [?|?]; [done|]. by apply C5.
Qed.

(** Every byte is there. *)
Definition complete (l : list ip_reass_helper) : Prop := forall o, 0 <= o < whole -> covers l o.

Lemma finished_complete F m d l : collects F m d -> spaced l -> l ≡ₚ rd_p d -> l <> [] ->
  finished (has_flag (rd_flags d) IP_REASS_FLAG_LASTFRAG) l = true <-> complete l.
Proof.
  intros [C1 _ _ C4 _] Hs Hp Hne. rewrite finished_covers, C4 by done.
  assert (reach l <= whole) as Hr.
  { destruct (reach_in l Hs Hne) as (f & Hf & <-). apply C1. by rewrite <- Hp. }
  split.
  - intros [(f & E & Hf)%list_elem_of_fmap Hc] o Ho. apply Hc. pose proof (reach_le l f ltac:(by rewrite Hp)). lia.
  - intros Hc. destruct (reach_in l Hs Hne) as (f & Hf & Ef). assert (whole = reach l) as Ew.
    { destruct (Z.eq_dec whole (reach l)) as [|Hn]; [done|]. destruct (Hc (reach l)) as (g & Hg & Hb).
      - split; [|lia]. rewrite <- Ef. destruct (spaced_in l f Hs Hf). lia.
      - pose proof (reach_le l g Hg). lia. }
    split; [|intros o Ho; apply Hc; lia]. apply list_elem_of_fmap. exists f. split; [congruence|by rewrite <- Hp].
Qed.

Lemma collects_agree F F' m m' d : collects F m d -> (forall f, f ∈ rd_p d -> frag_data F' m' f = frag_data F m f) -> collects F' m' d.
Proof. intros [C1 C2 C3 C4 C5] Ha. split; try done. intros f Hf. rewrite Ha by done. by apply C1. Qed.

Lemma complete_perm l l' : l ≡ₚ l' -> complete l -> complete l'.
Proof. intros Hp Hc o Ho. destruct (Hc o Ho) as (f & Hf & Hb). exists f. by rewrite <- Hp. Qed.

(** The whole packet: the first header with its new length, offset and
    checksum, and the data. *)
Definition packet_of (hdr : list Z) : list Z :=
  let h := reass_hdr hdr (whole + 20) in h (rfc1071 (h 0)) ++ D.

Lemma completed_data F r i d d1 hdr l st1 q st' r' F' :
  completed F r i d hdr l st1 q st' r' F' -> waiting F l -> separate F l -> mem_ok (pmem (ip_heap st1)) ->
  collects F (pmem (ip_heap st1)) d1 -> d1 = with_frag hdr l d -> spaced l -> joined l = true -> starts_at_0 l = true ->
  length (rd_iphdr d) = 20%nat -> bytes (rd_iphdr d) -> whole <= 65515 -> has_flag (rd_flags d1) IP_REASS_FLAG_LASTFRAG = true ->
  exists ps, packet (ip_heap st') q ps 1 /\ chain_data (pmem (ip_heap st')) ps = packet_of H1 /\ length H1 = 20%nat /\ bytes H1.
Proof.
  intros (f & k & b & b' & rr & -> & -> & _ & _ & Hb & Pk & Em & Hd) Hw Hsep Hm [C1 C2 C3 C4 C5] Ed Hs Hj H0 HL Hby Hmax Hlast.
  assert (rd_p d1 = f :: k /\ rd_iphdr d1 = rd_iphdr d) as [E1 E2] by (rewrite Ed; unfold with_frag; by destruct (is_last_frag hdr)).
  cbn [starts_at_0] in H0. apply Z.eqb_eq in H0. rewrite E1, E2 in *. specialize (C2 (C3 f ltac:(by left) H0)). specialize (C5 Hlast).
  exists ((fr_p f, b') :: rr). split; [done|]. rewrite <- C2. split; [|done]. rewrite Em, Hd.
  destruct (proj2 Hw f ltac:(by left)) as (b0 & Hb0 & Hp). rewrite Hb in Hb0. injection Hb0 as <-. destruct (frag_placed _ _ Hp) as [A1 A2].
  rewrite <- Ed, C5, u16_small by (unfold IP_HLEN; lia). unfold IP_HLEN. set (m' := restore_hdr _ _ _ _). pose proof (fp_len _ _ Hp) as Hlen.
  replace (p_len b) with (20 + (p_len b - 20)) at 1 by lia. rewrite mem_read_split by lia. unfold m' at 1.
  rewrite restore_hdr_read by (done || lia). unfold packet_of. cbv zeta. rewrite <- app_assoc. f_equal.
  assert (forall g, g ∈ f :: k -> frag_data F m' g = piece D (fr_start g) (fr_end g)) as Hg.
  { intros g Hin. rewrite <- (proj1 (C1 g Hin)). destruct (decide (fr_p g = fr_p f)) as [E|Hne].
    - unfold frag_data. rewrite E, Hb. apply restore_hdr_off; [done|done|done|]. lia.
    - apply (frag_data_restore F (f :: k) _ f); try done. by left. }
  destruct (joined_data (frag_data F m') D k f Hs Hj Hg) as (e & (h & Ee & Hh)%list_elem_of_fmap & Hmx & Ec). cbn [fmap list_fmap concat] in Ec.
  assert (frag_data F m' f = mem_read m' (payload b + 20) (p_len b - 20)) as Ef by (unfold frag_data; by rewrite Hb).
  rewrite <- Ef. rewrite Ec, H0. assert (e = whole) as ->.
  { assert (e <= whole) by (rewrite Ee; by apply C1). apply C4 in Hlast as (g & Eg & Hg')%list_elem_of_fmap. specialize (Hmx g Hg'). lia. }
  unfold window. rewrite Z.sub_0_r, Nat2Z.id, drop_0. by apply take_ge.
Qed.

(** One more piece: it overlaps what is there and is dropped; it is kept; or it
    was the last one missing. *)
Definition progress F' r i d new q st' r' : Prop :=
  (exists t, t ∈ rd_p d /\ overlap new t) /\ q = 0 /\ r' = r /\ collects F' (pmem (ip_heap st')) d \/
  (forall t, t ∈ rd_p d -> ~ overlap new t) /\ ~ complete (new :: rd_p d) /\ q = 0 /\
    (exists d', reassdatagrams r' = <[i := d']> (reassdatagrams r) /\ rd_iphdr d' = rd_iphdr d /\ rd_p d' ≡ₚ new :: rd_p d /\
       collects F' (pmem (ip_heap st')) d') \/
  (forall t, t ∈ rd_p d -> ~ overlap new t) /\ complete (new :: rd_p d) /\ q <> 0 /\ reassdatagrams r' = delete i (reassdatagrams r) /\
    (exists ps, packet (ip_heap st') q ps 1 /\ chain_data (pmem (ip_heap st')) ps = packet_of H1 /\ length H1 = 20%nat /\ bytes H1).

Lemma into_progress F r i d p b hdr st q st' r' F' :
  slot_ok F r i d -> arrived F r p b -> mem_ok (pmem (ip_heap st)) -> collects F (pmem (ip_heap st)) d -> is_piece (pmem (ip_heap st)) b hdr ->
  (IPH_OFFSET_BYTES hdr = 0 -> IPH_OFFSET_BYTES (rd_iphdr d) = 0) -> separate F (new_frag p hdr :: rd_p d) ->
  into F r i d p hdr st q st' r' F' -> progress F' r i d (new_frag p hdr) q st' r'.
Proof.
  intros HS (A1 & A2 & A3) Hm Hc Hp Hf Hsep (st1 & T & Hcase). set (new := new_frag p hdr) in *.
  destruct (piece_end _ p b hdr Hp A2) as [Re Ee]. fold new in Re, Ee. pose proof (ip_end _ _ _ Hp) as Hend.
  assert (waiting F (new :: rd_p d)) as Hw.
  { pose proof (all_frags_delete _ _ _ (so_at _ _ _ _ HS)) as Hperm. pose proof (so_waiting _ _ _ _ HS) as W. unfold frags in W, A3.
    apply (waiting_perm _ _ _ Hperm) in W as (W & _ & _)%waiting_app. apply (waiting_cons F new (rd_p d) b W A1 A2).
    intros Hin. apply A3. rewrite Hperm, fmap_app. apply elem_of_app. by left. }
  destruct T as (m1 & -> & Hm1 & Hoff).
  assert (forall f, f ∈ new :: rd_p d -> frag_data F m1 f = frag_data F (pmem (ip_heap st)) f) as Hd1.
  { intros f Hin. by apply (frag_data_off F (new :: rd_p d)). }
  destruct Hcase as [(-> & -> & Em & Er & [Why|[[_ Why]|Why]])|(l & Pl & Sl & Nov & Hres)]; try fold new in Why; [lia|lia| |].
  { left. split; [done|]. split; [done|]. split; [apply Er; by destruct Why as (t & Ht & _); destruct (rd_p d); [apply elem_of_nil in Ht|]|].
    apply (collects_agree F _ (pmem (ip_heap st)) _ _ Hc). intros f Hin. rewrite Em. cbn [ip_heap]. etrans; [|apply Hd1; by right].
    unfold frag_data, frame, thawed. rewrite lookup_delete_ne; [done|]. intros Heq. destruct Hw as [Nd _]. rewrite fmap_cons in Nd.
    apply NoDup_cons in Nd as [Nd _]. apply Nd, list_elem_of_fmap. by exists f. }
  pose proof (collects_add F _ l d p b hdr Hc Hp A1 A2 Pl Hf) as Hc1. set (d1 := with_frag hdr l d) in *.
  assert (rd_p d1 = l /\ rd_iphdr d1 = rd_iphdr d) as [E1 E2] by (unfold d1, with_frag; by destruct (is_last_frag hdr)).
  assert (collects F m1 d1) as Hc2.
  { apply (collects_agree F F _ m1 _ Hc1). intros f. rewrite E1, Pl. apply Hd1. }
  assert (l <> []) as Hne by (intros ->; by apply Permutation_nil_cons in Pl).
  pose proof (finished_complete F m1 d1 l Hc2 Sl ltac:(by rewrite E1) Hne) as Hfin.
  assert (has_flag (rd_flags d1) IP_REASS_FLAG_LASTFRAG = is_last_frag hdr || has_flag (rd_flags d) IP_REASS_FLAG_LASTFRAG) as Efl.
  { unfold d1, with_frag. destruct (is_last_frag hdr); [apply has_last_flag|done]. }
  rewrite <- Efl in Hres. destruct (finished _ l) eqn:Ef.
  - right. right. unfold finished in Ef. apply andb_true_iff in Ef as [[Ef1 Ef2]%andb_true_iff Ef3].
    split; [done|]. split; [by apply (complete_perm _ _ Pl), Hfin|]. split.
    { destruct Hres as (f & k & b1 & _ & _ & -> & -> & _ & _ & Hb1 & _). destruct (proj2 Hw f) as (b2 & _ & Hp2); [rewrite <- Pl; by left|]. apply Hp2. }
    split; [by destruct Hres as (? & ? & ? & ? & ? & _ & _ & -> & _)|].
    apply (completed_data F r i d d1 hdr l (set_ip_mem m1 st) q st' r' F' Hres); try done; [|intros f g bf bg|apply HS|apply HS|lia].
    + by eapply waiting_perm; [symmetry; exact Pl|].
    + rewrite !Pl. apply Hsep.
  - right. left. destruct Hres as (-> & -> & -> & Er). split; [done|]. split.
    { intros Hcm. apply (complete_perm _ _ (symmetry Pl)) in Hcm. apply Hfin in Hcm. done. }
    split; [done|]. exists d1. split; [done|]. split; [done|]. split; [by rewrite E1|done].
Qed.

(** The fragments of the datagram with the header [H1], and that they are
    pieces of [D]. *)
Definition got r : list ip_reass_helper :=
  match find_datagram 0 H1 (reassdatagrams r) with
  | Some i => match reassdatagrams r !! i with Some d => rd_p d | None => [] end
  | None => []
  end.
Definition gathering F m r : Prop := forall i d, find_datagram 0 H1 (reassdatagrams r) = Some i -> reassdatagrams r !! i = Some d -> collects F m d.

(** The other datagrams. *)
Definition others r : list ip_reassdata :=
  match find_datagram 0 H1 (reassdatagrams r) with Some i => delete i (reassdatagrams r) | None => reassdatagrams r end.
Lemma entered_others r hdr i d r2 : entered r hdr i d r2 -> IP_ADDRESSES_AND_ID_MATCH hdr H1 = true -> delete i (reassdatagrams r2) = others r.
Proof.
  intros He Hm. unfold entered, others in *. rewrite (find_same hdr H1 _ Hm) in He. destruct (find_datagram 0 H1 (reassdatagrams r)) as [k|].
  - destruct He as (-> & d0 & _ & -> & _). rewrite !delete_take_drop, take_insert_ge, drop_insert_lt by lia. done.
  - by destruct He as (-> & _ & ->).
Qed.

(** The place the fragment goes to holds pieces, too. *)
Lemma entered_collects F m b hdr r i d r2 : entered r hdr i d r2 -> IP_ADDRESSES_AND_ID_MATCH hdr H1 = true -> is_piece m b hdr -> gathering F m r ->
  collects F m d /\ (IPH_OFFSET_BYTES hdr = 0 -> IPH_OFFSET_BYTES (rd_iphdr d) = 0) /\ rd_p d = got r /\ reassdatagrams r2 !! i = Some d /\
  find_datagram 0 H1 (reassdatagrams r2) = Some i /\ IP_ADDRESSES_AND_ID_MATCH (rd_iphdr d) H1 = true /\ got r2 = got r.
Proof.
  intros He Hm Hp Hg. unfold entered, got, gathering in *. rewrite (find_same hdr H1 _ Hm) in He.
  pose proof (find_datagram_spec H1 (reassdatagrams r) 0) as Hs. destruct (find_datagram 0 H1 (reassdatagrams r)) as [k|] eqn:Ef.
  - destruct Hs as (j & e & -> & Hj & Em). cbn [Nat.add] in *. destruct He as (-> & d0 & Hd0 & E2 & Ed). rewrite Hj in Hd0. injection Hd0 as <-.
    specialize (Hg j e eq_refl Hj). rewrite Hj.
    assert (collects F m d /\ (IPH_OFFSET_BYTES hdr = 0 -> IPH_OFFSET_BYTES (rd_iphdr d) = 0) /\ rd_p d = rd_p e /\
      IP_ADDRESSES_AND_ID_MATCH (rd_iphdr d) H1 = true) as (C1 & C2 & C3 & C4).
    { subst d. destruct Hg as [G1 G2 G3 G4 G5]. destruct (Z.eqb_spec (IPH_OFFSET_BYTES hdr) 0) as [E0|E0]; cbn [andb].
      - destruct (Z.eqb_spec (IPH_OFFSET_BYTES (rd_iphdr e)) 0) as [E1|E1]; cbn [negb]; [by split_and!|]. split_and!; try done.
        split; cbn; try done. intros _. by apply (ip_first _ _ _ Hp).
      - by split_and!. }
    assert (<[j := d]> (reassdatagrams r) !! j = Some d) as Hl by (apply list_lookup_insert_eq; by eapply lookup_lt_Some).
    rewrite E2, (find_insert H1 _ j e d Hj), Ef by congruence. rewrite Hl. by split_and!.
  - destruct He as (-> & -> & E2). rewrite E2. cbn [rd_iphdr rd_p find_datagram]. rewrite Hm. split; [|by split_and!].
    split; cbn; try done; [by intros ? ?%elem_of_nil|apply (ip_first _ _ _ Hp)|by intros ? ?%elem_of_nil|]. split; [done|by intros ?%elem_of_nil].
Qed.
End Data.
