(* ===== verification/ReassTheorems.v ===== *)
(** * Reassembly: theorems *)
From S2P Require Import Prelude NetShim Ip4Addr Link Etharp EtharpInv EtharpOps EtharpSend EtharpTheorems Checksum Pbuf PbufChain PbufOps NetGlue PbufClone Ethernet EthernetInv EthernetRx EthernetTheorems Ip4 Icmp Ip4Input Ip4Inv IcmpInv Ip4Rx Ip4Hdr Ip4Send Ip4Theorems Reass ReassInv ReassOps ReassRun ReassData.

(** ** The timer *)

(** The datagrams after [k] ticks: those whose time is not over. *)
Definition aged (k : Z) (l : list ip_reassdata) : list ip_reassdata :=
  (fun d => set_timer (rd_timer d - k) d) <$> filter (fun d => k <= rd_timer d) l.

Lemma aged_cons k d l : aged k (d :: l) = if decide (k <= rd_timer d) then set_timer (rd_timer d - k) d :: aged k l else aged k l.
Proof. unfold aged. rewrite filter_cons. by case_decide. Qed.
Lemma aged_0 l : Forall data_ok l -> aged 0 l = l.
Proof.
  induction 1 as [|d l Hd _ IH]; [done|]. rewrite aged_cons, IH. pose proof (do_timer _ Hd). rewrite decide_True by lia.
  by destruct d as [? ? ? ? t]; cbn; rewrite Z.sub_0_r.
Qed.
Lemma aged_aged j k l : 0 <= j -> 0 <= k -> aged j (aged k l) = aged (k + j) l.
Proof.
  intros Hj Hk. induction l as [|d l IH]; [done|]. rewrite !aged_cons. case_decide; rewrite ?aged_cons, IH.
  - cbn [rd_timer set_timer]. repeat case_decide; try lia; [|done]. f_equal. destruct d; unfold set_timer; cbn. f_equal. lia.
  - by rewrite decide_False by lia.
Qed.

Section Reassembly.
Variable custom_free : Z -> pheap -> res pheap.
Variable malloc : nat -> gmap Z pbuf -> Z.
Context (Hmalloc : malloc_ok malloc).
Variable bmos : netif.
Context (Hbmos : nif_hwaddr_len bmos = ETH_HWADDR_LEN).
#[local] Instance re_ops : LinkOps nic := nic_link custom_free malloc bmos.
Variable known : Z -> Prop.
Context (known_null : ~ known 0).
Variable nf : netifs.
Context (Hnf : netifs_ok known nf).
Variable ip4_frag : Z -> Z -> Z -> ipst -> res (Z * ipst).
Context (Hfrag : forall F0, @frag_ok F0 custom_free malloc Hmalloc bmos Hbmos known nf ip4_frag).
Variable memp : nat -> bool.
Abbreviation okF F0 x st := (@arp_ok nic re_ops (@nic_laws F0 custom_free malloc Hmalloc bmos Hbmos) known x (ip_arp st)).
Implicit Types (F : Frame) (r : reass) (st : ipst).

(** A datagram that ends without its first fragment ends without a message. *)
Definition headless (d : ip_reassdata) : Prop := Forall (fun f => fr_start f <> 0) (rd_p d).

Lemma timer_kept F r i d n : reass_inv F r -> reassdatagrams r !! i = Some d -> 0 <= n <= IP_REASS_MAXAGE ->
  reass_inv F (set_datagrams (<[i := set_timer n d]> (reassdatagrams r)) r).
Proof.
  intros [R1 R2 R3 R4] Hd Hn.
  assert (all_frags (<[i := set_timer n d]> (reassdatagrams r)) = frags r) as Ef.
  { unfold frags, all_frags. f_equal. rewrite list_fmap_insert. apply list_insert_id. by rewrite list_lookup_fmap, Hd. }
  split; unfold frags; cbn [reassdatagrams set_datagrams ip_reass_pbufcount]; rewrite ?Ef; try done.
  apply Forall_insert; [done|]. destruct (proj1 (Forall_lookup _ _) R4 i d Hd) as [D1 D2 D3 D4 D5 D6]. by split.
Qed.

Lemma tmr_loop_spec fuel : forall F i r x st, reass_inv F r -> okF F x st ->
  (i <= length (reassdatagrams r) < fuel + i)%nat ->
  exists r' st' F', tmr_loop custom_free malloc bmos nf ip4_frag fuel i r st = Ret (r', st') /\ reass_inv F' r' /\ okF F' x st' /\
    reassdatagrams r' = take i (reassdatagrams r) ++ aged 1 (drop i (reassdatagrams r)) /\ kept F F' (frags r) /\
    (Forall (fun d => rd_timer d = 0 -> headless d) (drop i (reassdatagrams r)) -> nic_tx (lk (ip_arp st')) = nic_tx (lk (ip_arp st))).
Proof.
  induction fuel as [|fuel IH]; intros F i r x st Hi H Hf; cbn [tmr_loop].
  { lia. }
  destruct (reassdatagrams r !! i) as [d|] eqn:Ed.
  2:{ apply lookup_ge_None in Ed. exists r, st, F. rewrite take_ge, drop_ge by lia. cbn. rewrite app_nil_r. by split_and!. }
  pose proof (proj1 (Forall_lookup _ _) (ri_data _ _ Hi) i d Ed) as Dd. pose proof (do_timer _ Dd) as Ht. unfold IP_REASS_MAXAGE in Ht.
  pose proof (lookup_lt_Some _ _ _ Ed) as Hlt. rewrite (drop_S _ _ _ Ed), aged_cons. rewrite Z.gtb_ltb. destruct (Z.ltb_spec 0 (rd_timer d)) as [Hp|Hz].
  - rewrite u8_small, decide_True by lia. set (r1 := set_datagrams _ r).
    assert (reass_inv F r1) as I1 by (apply timer_kept; try done; unfold IP_REASS_MAXAGE; lia).
    destruct (IH F (S i) r1 x st I1 H) as (r' & st' & F' & -> & I' & H' & Er & K & X).
    { cbn. rewrite length_insert. lia. }
    exists r', st', F'. split; [done|]. split; [done|]. split; [done|]. split; [|split].
    + rewrite Er. cbn [reassdatagrams r1 set_datagrams]. rewrite drop_insert_lt by lia.
      rewrite (take_S_r _ _ (set_timer (rd_timer d - 1) d)) by (by apply list_lookup_insert_eq).
      rewrite take_insert_ge by lia. by rewrite <- app_assoc.
    + intros q Hq. apply K. intros Hin. apply Hq. revert Hin. unfold frags, all_frags. cbn.
      rewrite list_fmap_insert, list_insert_id; [done|]. by rewrite list_lookup_fmap, Ed.
    + intros Hs. apply X. cbn. rewrite drop_insert_lt by lia. by inversion Hs.
  - rewrite decide_False by lia.
    destruct (free_complete_spec custom_free malloc Hmalloc bmos Hbmos known known_null nf Hnf ip4_frag Hfrag F i d r x st Hi H Ed)
      as (r1 & st1 & F1 & -> & E1 & _ & I1 & H1 & K1 & X1). cbn [res_bind].
    destruct (IH F1 i r1 x st1 I1 H1) as (r' & st' & F' & -> & I' & H' & Er & K & X).
    { rewrite E1, length_delete by (by exists d). lia. }
    exists r', st', F'. split; [done|]. split; [done|]. split; [done|]. split; [|split].
    + rewrite Er, E1, delete_take_drop. rewrite take_app_le, drop_app_ge by (rewrite length_take; lia).
      rewrite length_take, Nat.min_l, Nat.sub_diag, drop_0 by lia. by rewrite take_take, Nat.min_id.
    + pose proof (all_frags_delete _ _ _ Ed) as Hperm. intros q Hq. unfold frags in Hq. rewrite Hperm, fmap_app in Hq.
      apply not_elem_of_app in Hq as [Q1 Q2]. rewrite K, K1; [done..|]. unfold frags. by rewrite E1.
    + intros Hs. rewrite X.
      * apply X1. inversion Hs as [|? ? Hd _]. apply Hd. lia.
      * rewrite E1, delete_take_drop. rewrite drop_app_ge by (rewrite length_take; lia).
        rewrite length_take, Nat.min_l, Nat.sub_diag, drop_0 by lia. by inversion Hs.
Qed.

Lemma ip_reass_tmr_spec F r x st : reass_inv F r -> okF F x st ->
  exists r' st' F', ip_reass_tmr custom_free malloc bmos nf ip4_frag r st = Ret (r', st') /\ reass_inv F' r' /\ okF F' x st' /\
    reassdatagrams r' = aged 1 (reassdatagrams r) /\ kept F F' (frags r) /\
    (Forall (fun d => rd_timer d < 1 -> headless d) (reassdatagrams r) -> nic_tx (lk (ip_arp st')) = nic_tx (lk (ip_arp st))).
Proof.
  intros Hi H. destruct (tmr_loop_spec (S (length (reassdatagrams r))) F 0 r x st Hi H ltac:(lia)) as (r' & st' & F' & E & I' & H' & Er & K & X).
  exists r', st', F'. rewrite drop_0 in *. split_and!; try done. intros Hs. apply X. eapply Forall_impl; [exact Hs|]. intros d Hd E0. apply Hd. lia.
Qed.

Fixpoint ticks (k : nat) r st : res (reass * ipst) :=
  match k with
  | O => Ret (r, st)
  | S k => let* (r, st) := ip_reass_tmr custom_free malloc bmos nf ip4_frag r st in ticks k r st
  end.

Lemma aged_frags k l f : f ∈ all_frags (aged k l) -> f ∈ all_frags l.
Proof.
  induction l as [|d l IH]; [done|]. rewrite aged_cons, all_frags_cons, elem_of_app. case_decide; [|by right; apply IH].
  rewrite all_frags_cons, elem_of_app. intros [Hf|Hf]; [by left|right; by apply IH].
Qed.


(** C28. Reassembly rebuilds the datagram, whatever the order of its fragments:
    let [D] be the data of a datagram of at most 65515 bytes and [H1] the header
    of its first fragment, and let the fragments that wait under that header be
    pieces of [D] (their bytes are those of [D] at their offsets; initially
    there are none).  When another piece arrives and there is room for it,
    - if it overlaps a piece that is there, it is dropped and nothing changes;
    - if bytes are still missing, it is kept, and all that waits are pieces
      of [D] again;
    - if it was the last one missing (every byte of [D] is covered now), the
      result is one packet: [H1] with the total length, offset 0, no
      flags and a checksum that verifies, followed by exactly [D]; the datagram
      is no longer kept and the others are untouched. *)
Theorem reass_rebuilds D H1 F r p b x st :
  reass_inv F r -> okF F (p :: x) st -> received p st -> pget (ip_heap st) p = Ret b -> next b = NULL -> 20 < p_len b <= TXBUF ->
  let m := pmem (ip_heap st) in
  let hdr := mem_read m (payload b) IP_HLEN in
  let new := new_frag p hdr in
  is_fragment m (payload b) = true -> IP_ADDRESSES_AND_ID_MATCH hdr H1 = true -> is_piece D H1 m b hdr ->
  ip_reass_pbufcount r < IP_REASS_MAX_PBUFS -> memp (rs_allocs r) = true ->
  gathering D H1 F m r -> separate (frozen p b F) (new :: got H1 r) ->
  exists q st' r' F', ip4_reass custom_free malloc bmos nf ip4_frag memp p st r = Ret (q, st', r') /\ reass_inv F' r' /\
    (q = 0 /\ okF F' x st' \/ q <> 0 /\ okF F' (q :: x) st') /\
    ((exists t, t ∈ got H1 r /\ overlap new t) /\ q = 0 /\ got H1 r' = got H1 r /\ gathering D H1 F' (pmem (ip_heap st')) r' \/
     (forall t, t ∈ got H1 r -> ~ overlap new t) /\ ~ complete D (new :: got H1 r) /\
       q = 0 /\ got H1 r' ≡ₚ new :: got H1 r /\ gathering D H1 F' (pmem (ip_heap st')) r' \/
     (forall t, t ∈ got H1 r -> ~ overlap new t) /\ complete D (new :: got H1 r) /\
       q <> 0 /\ reassdatagrams r' = others H1 r /\
       exists ps, packet (ip_heap st') q ps 1 /\ chain_data (pmem (ip_heap st')) ps = packet_of D H1 /\ rfc1071 (take 20 (packet_of D H1)) = 0).
Proof.
  intros Hi0 H0 Hrc Hg Hnx Hl m hdr new Hfr Hmt Hp Hc Hmp Hga Hsep. set (F1 := frozen p b F) in *.
  destruct (arrive custom_free malloc Hmalloc bmos Hbmos known F p b r x st Hi0 H0 Hrc Hg Hnx Hl) as (H & Ha & Hi). fold F1 in H, Ha, Hi.
  pose proof (ok_mem_ok _ _ _ _ _ _ _ _ H) as Hm. fold m in Hm.
  destruct (arrived_hdr m b hdr eq_refl Hm Hfr) as (Lh & Bh & _ & _ & Elast). pose proof Hp as [P1 P2 P3 _ _ _].
  destruct (ip4_reass_room custom_free malloc Hmalloc bmos Hbmos known nf ip4_frag memp F1 p b r x st H Ha Hi Lh Bh P1 ltac:(change (20 <= hdr_len hdr); lia) Hc Hmp)
    as (i & d & r2 & -> & HS & Ha2 & He).
  assert (gathering D H1 F1 m r) as Hga1.
  { intros j e Hj He1. apply (collects_agree D H1 F F1 m m e (Hga j e Hj He1)). intros f Hf. unfold frag_data, frame, F1, frozen.
    rewrite lookup_insert_ne; [done|]. intros E. destruct Ha as (_ & _ & Hn). apply Hn. unfold frags. rewrite (all_frags_delete _ _ _ He1), fmap_app, E.
    apply elem_of_app. left. apply list_elem_of_fmap. by exists f. }
  destruct (entered_collects D H1 F1 m b hdr r i d r2 He Hmt Hp Hga1) as (C & Cf & Eg & Ed & Efd & Em & Eg2).
  unfold TXBUF in Hl.
  destruct (reass_into_spec custom_free malloc Hmalloc bmos Hbmos known F1 r2 i d p b hdr x st HS H Ha2 P1 ltac:(lia) Elast)
    as (q & st' & r' & F' & E & I' & O & Hin).
  exists q, st', r', F'. split; [done|]. split; [done|]. split; [destruct O as [O|(O1 & O2 & _)]; [by left|by right]|].
  rewrite <- Eg in Hsep |- *. fold new in Hsep.
  destruct (into_progress D H1 F1 r2 i d p b hdr st q st' r' F' HS Ha2 Hm C Hp Cf Hsep Hin)
    as [(Q1 & Q2 & -> & Q3)|[(Q1 & Q2 & Q3 & d' & Q4 & Q5 & Q6 & Q7)|(Q1 & Q2 & Q3 & Q4 & ps & Q5 & Q6 & Q7)]].
  - left. split; [done|]. split; [done|]. split; [by rewrite Eg2|]. intros j e Hj Hje. rewrite Efd in Hj. injection Hj as <-.
    rewrite Ed in Hje. by injection Hje as <-.
  - right. left. split; [done|]. split; [done|]. split; [done|].
    assert (find_datagram 0 H1 (reassdatagrams r') = Some i) as Ef' by (by rewrite Q4, (find_insert H1 _ i d d' Ed), Efd by congruence).
    assert (reassdatagrams r' !! i = Some d') as Ed' by (rewrite Q4; apply list_lookup_insert_eq; by eapply lookup_lt_Some).
    split; [unfold got; by rewrite Ef', Ed'|]. intros j e Hj Hje. rewrite Ef' in Hj. injection Hj as <-. rewrite Ed' in Hje. by injection Hje as <-.
  - right. right. split; [done|]. split; [done|]. split; [done|]. split; [rewrite Q4; by eapply entered_others|]. destruct Q7 as [Q7 Q8].
    exists ps. split; [done|]. split; [done|]. unfold packet_of. cbv zeta. set (h := reass_hdr _ _ _).
    rewrite take_app_length' by (unfold h, reass_hdr; rewrite !length_app, !length_take, !length_drop, length_le_bytes, Q7; done).
    apply reass_hdr_verifies; try done. lia.
Qed.

(** C29. Fragments are kept sorted and apart, and completeness is decided exactly,
    for every fragment that brings data (a total length above the 20 bytes of
    its header, which has no options) and that is not a lone last
    fragment at offset 0, which is no fragment: it is refused when its end overflows or when it
    overlaps one that is there, and only then; otherwise it is put in its
    place, and the datagram is reported complete if and only if the end was
    seen and every byte from 0 to the furthest end is covered.  Fragments
    without data are outside this theorem. *)
Theorem reass_accepts F x st d p hdr is_last :
  okF F x st -> waiting F (new_frag p hdr :: rd_p d) -> spaced (rd_p d) -> hdr_hl_bytes hdr = 20 -> 20 < hdr_len hdr <= 65535 ->
  let new := new_frag p hdr in
  let seen := is_last || has_flag (rd_flags d) IP_REASS_FLAG_LASTFRAG in
  (rd_p d = [] -> seen = true -> IPH_OFFSET_BYTES hdr <> 0) ->
  exists result d' st', ip_reass_chain_frag_into_datagram_and_validate d p hdr is_last st = Ret (result, d', st') /\ okF F x st' /\
    ((fr_end new < fr_start new \/ exists t, t ∈ rd_p d /\ overlap new t) /\ result = IP_REASS_VALIDATE_PBUF_DROPPED /\ d' = d \/
     (fr_start new < fr_end new /\ forall t, t ∈ rd_p d -> ~ overlap new t) /\
       rd_p d' ≡ₚ new :: rd_p d /\ spaced (rd_p d') /\
       (result = IP_REASS_VALIDATE_TELEGRAM_FINISHED /\ seen = true /\ (forall o, 0 <= o < reach (rd_p d') -> covers (rd_p d') o) \/
        result = IP_REASS_VALIDATE_PBUF_QUEUED /\ ~ (seen = true /\ forall o, 0 <= o < reach (rd_p d') -> covers (rd_p d') o))).
Proof.
  intros H Hw Hs Hh Hl new seen Hone.
  destruct (chain_frag_spec custom_free malloc Hmalloc bmos Hbmos known F x st d p hdr is_last H Hw Hs Hh Hl Hone)
    as (st' & T & [[E Why]|(l & E & Pl & Sl & Ee & _ & Nov)]).
  - eexists _, _, st'. split; [exact E|]. split; [by eapply (stored_ok custom_free malloc Hmalloc bmos Hbmos known F F)|]. by left.
  - eexists _, _, st'. split; [exact E|]. split; [by eapply (stored_ok custom_free malloc Hmalloc bmos Hbmos known F F)|]. right.
    split; [split; [unfold new; lia|done]|]. cbn [rd_p set_rd_p]. split; [done|]. split; [done|].
    assert (l <> []) as Hne by (intros ->; by apply Permutation_nil_cons in Pl). fold seen. pose proof (finished_covers seen l Sl Hne) as Hf.
    destruct (finished seen l); [left; split; [done|by apply Hf]|right; split; [done|]]. intros Hc. by apply Hf in Hc.
Qed.

(** ** The whole receive path *)
Context {U : Type}.
Variables udp_input tcp_input : Z -> Z -> ip_globals -> ipst -> U -> res (ipst * U).
(** A transport protocol takes the packet and touches no fragment; [good] is its
    own invariant. *)
Variable good : U -> Prop.
Definition takes_packet (input : Z -> Z -> ip_globals -> ipst -> U -> res (ipst * U)) : Prop :=
  forall F p inp d st u x, good u -> okF F (p :: x) st -> (exists b, delivered p d st b) -> current_input_netif d = inp ->
  is_Some (nf_at nf inp) -> is_Some (nf_at nf (current_netif d)) ->
  exists st' u' x', input p inp d st u = Ret (st', u') /\ good u' /\ okF F x' st'.
Context (Hudp : takes_packet udp_input) (Htcp : takes_packet tcp_input).

(** The layers above IP: reassembly, UDP and TCP, each with its state. *)
Definition reass_layer (p : Z) st (s : reass * U) : res (Z * ipst * (reass * U)) :=
  let* (q, st, r) := ip4_reass custom_free malloc bmos nf ip4_frag memp p st s.1 in Ret (q, st, (r, s.2)).
Definition transport_layer (input : Z -> Z -> ip_globals -> ipst -> U -> res (ipst * U)) (p inp : Z) (d : ip_globals) st (s : reass * U) :
  res (ipst * (reass * U)) :=
  let* (st, u) := input p inp d st s.2 in Ret (st, (s.1, u)).

Lemma layers_ok : upper_ok custom_free malloc Hmalloc bmos Hbmos known nf reass_layer (transport_layer udp_input) (transport_layer tcp_input)
  (fun F s => reass_inv F s.1 /\ good s.2).
Proof.
  assert (forall input, takes_packet input -> transport_ok custom_free malloc Hmalloc bmos Hbmos known nf (fun F s => reass_inv F s.1 /\ good s.2) (transport_layer input)) as Ht.
  { intros input Hin F0 p inp d st [r u] x [K G] H Hs Ei N1 N2. unfold transport_layer. cbn [fst snd] in *.
    destruct (Hin F0 p inp d st u x G H Hs Ei N1 N2) as (st' & u' & x' & -> & G' & H'). cbn [res_bind]. by exists st', (r, u'), x', F0. }
  split; [|by apply Ht..]. intros F0 p b st [r u] x [K G] H Hrc Hg m hlen Hh Et Hl Hfr Hnx. unfold reass_layer. cbn [fst snd] in *.
  destruct (ip4_reass_spec custom_free malloc Hmalloc bmos Hbmos known known_null nf Hnf ip4_frag Hfrag memp F0 p b st r x K H Hrc Hg Hh Et Hl Hfr Hnx)
    as (q & st' & r' & x' & F' & -> & K' & O). cbn [res_bind]. by exists q, st', (r', u), x', F'.
Qed.

(** A received frame, with any protocols above IP that keep the contract. *)
Lemma rx_frame_taken F p netif n b x (st : arp nic) id r u :
  reass_inv F r -> good u -> @arp_ok nic re_ops (@nic_laws F custom_free malloc Hmalloc bmos Hbmos) known (p :: x) st ->
  nf_at nf netif = Some n -> pget (nic_heap (lk st)) p = Ret b -> p_ref b = 1 -> placed p b ->
  (is_arp st p = true -> SIZEOF_ETH_HDR + SIZEOF_ETHARP_HDR <= nic_room (lk st) p) ->
  (is_ip st p = true -> readable (pmem (nic_heap (lk st))) (frame_packet b) /\ brings_data (pmem (nic_heap (lk st))) (frame_packet b)) ->
  exists (st' : arp nic) id' r' u' x' F',
    ethernet_input custom_free malloc (ip4_rx custom_free malloc bmos nf ip4_frag reass_layer (transport_layer udp_input) (transport_layer tcp_input))
      bmos (nf_at nf) p netif st (id, (r, u)) = Ret (ERR_OK, st', (id', (r', u'))) /\
    reass_inv F' r' /\ good u' /\ @arp_ok nic re_ops (@nic_laws F' custom_free malloc Hmalloc bmos Hbmos) known x' st' /\
    (is_arp st p = true -> has_flag (if_flags n) NETIF_FLAG_ETHARP = true ->
     x' = x /\ F' = F /\ r' = r /\ u' = u /\ heard n netif (frame_body st p SIZEOF_ETHARP_HDR) (arp_table st) (arp_table st')).
Proof.
  intros K G H Hn Hg Hr Hpl Harp Hip.
  destruct (rx_consumed (Fr := F) custom_free malloc Hmalloc bmos Hbmos known known_null nf Hnf ip4_frag Hfrag reass_layer
    (transport_layer udp_input) (transport_layer tcp_input) (fun F s => reass_inv F s.1 /\ good s.2) layers_ok p netif n b x st id (r, u) (conj K G) H Hn Hg Hr Hpl Harp Hip)
    as (st' & [id' [r' u']] & x' & F' & E & [K' G'] & H' & Ha).
  exists st', id', r', u', x', F'. split; [done|]. split; [done|]. split; [done|]. split; [done|].
  intros A1 A2. destruct (Ha A1 A2) as (-> & [= _ -> ->] & -> & Hh). by split_and!.
Qed.
End Reassembly.

(** ** Fragments on the wire

    An echo request of the gateway in two fragments: the first one, 8 bytes of
    the message, waits in the pbuf at 4096 (its header replaced); the second one
    has just come, in the pbuf at 8192. *)
Definition frag_hdr (src len f0 f1 : Z) : list Z :=
  let h c := <[6%nat := f0]> (<[7%nat := f1]> (iphdr len 77 src (if_ip ip_nif) 64 0 IP_PROTO_ICMP c)) in h (rfc1071 (h 0)).
Definition gw : Z := ip4 10 0 2 2.
Definition echo_msg : list Z :=
  let h c := [8; 0] ++ le_bytes 2 c ++ [0; 1; 0; 2; 97; 98; 99; 100; 101; 102; 103; 104] in h (rfc1071 (h 0)).
Definition first_hdr : list Z := frag_hdr gw 28 32 0.
Definition frag1_pbuf : pbuf := mkPbuf NULL 4174 28 28 0x80 0 1 0.
Definition frag2_pbuf : pbuf := mkPbuf NULL 8270 28 28 0x80 0 1 0.
Definition frag_mem : memory :=
  mem_write (mem_write ∅ 4194 (take 8 echo_msg)) 8270 (frag_hdr gw 28 0 1 ++ drop 8 echo_msg).
Definition frag_nic : nic := mkNic (mkPheap {[ 4096 := frag1_pbuf; 8192 := frag2_pbuf ]} frag_mem) 0 (replicate 1522 0) [].
Definition frag_st : ipst := mkIpst (mkArp (replicate 10 zero_entry) 0 frag_nic) 5.
Definition frag_reass : reass := mkReass [mkReassdata [mkHelper 4096 0 8] first_hdr 0 0 15] 1 1.
Definition frag_frame : Frame := ({[ 4096 := frag1_pbuf ]} : gmap Z pbuf).
Abbreviation demo_okF F x st := (@arp_ok nic (nic_link demo_custom demo_malloc demo_bmos) (@nic_laws F demo_custom demo_malloc demo_malloc_ok demo_bmos eq_refl) demo_known x (ip_arp st)).

Lemma frag_placed_demo p : p = 4096 \/ p = 8192 -> frag_pbuf p (mkPbuf NULL (p + 78) 28 28 0x80 0 1 0).
Proof. intros [-> | ->]; split; cbn; unfold TXBUF, plain, placed; cbn; split_and?; (done || lia). Qed.

Lemma frag_owns : @nic_owns frag_frame frag_nic [8192].
Proof.
  split_and!; [repeat apply mem_ok_mem_write; apply mem_ok_empty|apply length_replicate|].
  exists (fun _ => [(8192, frag2_pbuf)]). split.
  - intros p ->%list_elem_of_singleton. split.
    + cbn. unfold NULL. split_and!; (done || lia).
    + done.
    + cbn. lia.
    + by repeat constructor.
    + by repeat constructor.
    + eexists _, []. by split_and!.
  - by intros p q x ->%list_elem_of_singleton ->%list_elem_of_singleton.
  - apply map_singleton_subseteq_l. reflexivity.
  - intros p x ->%list_elem_of_singleton ->%list_elem_of_singleton. reflexivity.
Qed.

Lemma frag_ok_demo : demo_okF frag_frame [8192] frag_st.
Proof.
  apply (boot_ok (L := nic_link demo_custom demo_malloc demo_bmos)
    (LL := @nic_laws frag_frame demo_custom demo_malloc demo_malloc_ok demo_bmos eq_refl) demo_known [8192] frag_nic frag_owns).
Qed.

Lemma first_hdr_bytes : bytes first_hdr.
Proof. let l := eval vm_compute in first_hdr in change first_hdr with l. repeat (apply Forall_cons_2; [unfold is_byte; lia|]). constructor. Qed.

Lemma frag_inv_demo : reass_inv frag_frame frag_reass.
Proof.
  split.
  - split; [by repeat constructor; intros ?%elem_of_nil|]. intros f ->%list_elem_of_singleton. exists frag1_pbuf. split; [reflexivity|].
    apply (frag_placed_demo 4096). by left.
  - reflexivity.
  - cbn. unfold IP_REASS_MAX_PBUFS. lia.
  - constructor; [|constructor]. split; cbn [rd_p rd_iphdr rd_timer]; [done|cbn; split_and!; (lia || done)|done|exact first_hdr_bytes|vm_compute; reflexivity|unfold IP_REASS_MAXAGE; lia].
Qed.


Lemma frag_received : received 8192 frag_st.
Proof. exists frag2_pbuf. split; [reflexivity|]. split; [reflexivity|]. apply (frag_placed_demo 8192). by right. Qed.

(** With the second fragment in the frame. *)
Lemma frag_arrived : let F := frozen 8192 frag2_pbuf frag_frame in
  demo_okF F [] frag_st /\ arrived F frag_reass 8192 frag2_pbuf /\ reass_inv F frag_reass.
Proof.
  apply (arrive demo_custom demo_malloc demo_malloc_ok demo_bmos eq_refl demo_known); try done.
  - exact frag_inv_demo.
  - exact frag_ok_demo.
  - exact frag_received.
Qed.

Lemma frag_complete : complete echo_msg [mkHelper 8192 8 16; mkHelper 4096 0 8].
Proof.
  intros o Ho. change (Z.of_nat (length echo_msg)) with 16 in Ho. destruct (Z.lt_ge_cases o 8).
  - exists (mkHelper 4096 0 8). split; [right; by left|cbn; lia].
  - exists (mkHelper 8192 8 16). split; [by left|cbn; lia].
Qed.

Lemma frag_gathering : gathering echo_msg first_hdr frag_frame frag_mem frag_reass.
Proof.
  intros i d Hi Hd. vm_compute in Hi. injection Hi as <-. injection Hd as <-. split.
  - intros f ->%list_elem_of_singleton. split; [vm_compute; reflexivity|cbn; lia].
  - done.
  - intros f ->%list_elem_of_singleton _. vm_compute. reflexivity.
  - split; [intros H; vm_compute in H; discriminate H|]. intros H%list_elem_of_singleton. vm_compute in H. discriminate H.
  - intros H. vm_compute in H. discriminate H.
Qed.

Lemma frag_piece : is_piece echo_msg first_hdr frag_mem frag2_pbuf (mem_read frag_mem 8270 IP_HLEN).
Proof.
  split.
  - vm_compute. reflexivity.
  - vm_compute. reflexivity.
  - vm_compute. split; discriminate.
  - vm_compute. reflexivity.
  - split; intros _; vm_compute; reflexivity.
  - intros H. vm_compute in H. discriminate H.
Qed.

Lemma frag_got : got first_hdr frag_reass = [mkHelper 4096 0 8].
Proof. vm_compute. reflexivity. Qed.
Lemma frag_new : new_frag 8192 (mem_read frag_mem 8270 IP_HLEN) = mkHelper 8192 8 16.
Proof. vm_compute. reflexivity. Qed.
Lemma frag_separate : separate (frozen 8192 frag2_pbuf frag_frame) [mkHelper 8192 8 16; mkHelper 4096 0 8].
Proof.
  intros f g bf bg [-> | ->%list_elem_of_singleton]%elem_of_cons [-> | ->%list_elem_of_singleton]%elem_of_cons Hne Hf Hg; try done;
    vm_compute in Hf, Hg; injection Hf as <-; injection Hg as <-; cbn; lia.
Qed.

Lemma reass_rebuilds_witness : exists q st' r' ps,
  ip4_reass demo_custom demo_malloc demo_bmos ip_nf demo_frag (fun _ => true) 8192 frag_st frag_reass = Ret (q, st', r') /\
  packet (ip_heap st') q ps 1 /\ chain_data (pmem (ip_heap st')) ps = packet_of echo_msg first_hdr.
Proof.
  destruct (reass_rebuilds demo_custom demo_malloc demo_malloc_ok demo_bmos eq_refl demo_known ip_nf demo_frag (fun _ => true)
    echo_msg first_hdr frag_frame frag_reass 8192 frag2_pbuf [] frag_st) as (q & st' & r' & F' & E & _ & _ & C).
  - exact frag_inv_demo.
  - exact frag_ok_demo.
  - exact frag_received.
  - reflexivity.
  - reflexivity.
  - cbn. unfold TXBUF. lia.
  - vm_compute. reflexivity.
  - vm_compute. reflexivity.
  - exact frag_piece.
  - cbn. unfold IP_REASS_MAX_PBUFS. lia.
  - reflexivity.
  - exact frag_gathering.
  - change (pmem (ip_heap frag_st)) with frag_mem. change (payload frag2_pbuf) with 8270. rewrite frag_new, frag_got. exact frag_separate.
  - change (pmem (ip_heap frag_st)) with frag_mem in C. change (payload frag2_pbuf) with 8270 in C. rewrite frag_new, frag_got in C.
    destruct C as [((t & ->%list_elem_of_singleton & [C _]) & _)|[(_ & C & _)|(_ & _ & _ & _ & ps & P1 & P2 & _)]].
    + cbn in C. lia.
    + destruct C. exact frag_complete.
    + exists q, st', r', ps. split; [exact E|]. split; [exact P1|exact P2].
Defined.

Lemma reass_accepts_witness : exists result d' st',
  ip_reass_chain_frag_into_datagram_and_validate (mkReassdata [mkHelper 4096 0 8] first_hdr 0 0 15) 8192 (frag_hdr gw 28 0 1) true frag_st = Ret (result, d', st') /\
  result = IP_REASS_VALIDATE_TELEGRAM_FINISHED.
Proof.
  destruct frag_arrived as (H & (A1 & A2 & A3) & [W _ _ _]).
  destruct (reass_accepts demo_custom demo_malloc demo_malloc_ok demo_bmos eq_refl demo_known (frozen 8192 frag2_pbuf frag_frame) [] frag_st
    (mkReassdata [mkHelper 4096 0 8] first_hdr 0 0 15) 8192 (frag_hdr gw 28 0 1) true) as (result & d' & st' & E & _).
  - exact H.
  - apply (waiting_cons _ _ _ frag2_pbuf W); [exact A1|exact A2|exact A3].
  - cbn. split_and!; (lia || done).
  - vm_compute. reflexivity.
  - vm_compute. split; [reflexivity|discriminate].
  - intros Hd. discriminate Hd.
  - exists result, d', st'. split; [exact E|]. vm_compute in E. injection E as <- _ _. reflexivity.
Defined.

Lemma reass_boot_inv F : reass_inv F reass_boot.
Proof. split; cbn; [split; [constructor|by intros f ?%elem_of_nil]|done|done|constructor]. Qed.
Definition demo_rx := ip4_rx demo_custom demo_malloc demo_bmos ip_nf demo_frag
  (reass_layer demo_custom demo_malloc demo_bmos ip_nf demo_frag (fun _ => true)) (transport_layer demo_input) (transport_layer demo_input).

(** ** Two frames in a row

    The frames of a host that ARP does not know, in the pbufs at 4096 and
    8192. *)
Definition host : Z := ip4 10 0 2 9.
Definition eth_frame (packet : list Z) : list Z := if_hwaddr ip_nif ++ gw_mac ++ [8; 0] ++ packet.
Definition rx_pbuf (a n : Z) : pbuf := mkPbuf NULL (a + 64) n n 0x80 0 1 0.
Definition frames_arp (l : list (Z * list Z)) : arp nic :=
  mkArp (replicate 10 zero_entry) 0 (mkNic (mkPheap (list_to_map ((fun f => (f.1, rx_pbuf f.1 (Z.of_nat (length f.2)))) <$> l))
    (foldr (fun f m => mem_write m (f.1 + 64) f.2) ∅ l)) 0 (replicate 1522 0) []).
Definition rx_input (p : Z) (st : arp nic) (s : Z * (reass * unit)) : res (Z * arp nic * (Z * (reass * unit))) :=
  ethernet_input demo_custom demo_malloc demo_rx demo_bmos (nf_at ip_nf) p 7 st s.

Definition short_echo : list Z := let h c := [8; 0] ++ le_bytes 2 c ++ [0; 1; 0; 2] in h (rfc1071 (h 0)).
Definition empty_last : arp nic :=
  frames_arp [(4096, eth_frame (frag_hdr host 28 32 0 ++ short_echo)); (8192, eth_frame (frag_hdr host 20 0 1))].

Definition with_host (st : arp nic) : arp nic := mkArp (<[0%nat := learned host 7 gw_mac]> (arp_table st)) (etharp_cached_entry st) (lk st).
(** A longer request, with its data in two fragments of 8 and 4 bytes. *)
Definition full_last : arp nic :=
  frames_arp [(4096, eth_frame (frag_hdr host 28 32 0 ++ take 8 ping_msg)); (8192, eth_frame (frag_hdr host 24 0 1 ++ drop 8 ping_msg))].
Definition two_frames (st : arp nic) : res (arp nic) :=
  let* (_, st, s) := rx_input 4096 st (5, (reass_boot, tt)) in
  let* (_, st, _) := rx_input 8192 st s in Ret st.

(** Three runs about a last fragment without data.  An echo request whose
    data is all in its first fragment, followed by an empty last fragment, from
    a local address that ARP does not know: the first frame is taken, the
    second has no defined outcome.  (The empty fragment is accepted and
    chained, so the packet has its whole length in its first pbuf and yet a
    second one; the reply has to wait for ARP, and etharp_query takes it for a
    queue of packets: its assertion fails.)  The same two frames, with the
    sender in the ARP table, are taken, and one frame is sent; and so are two
    fragments of a longer request, from the unknown sender, when the last one
    brings data. *)
Theorem reass_empty_fragment_aborts :
  (exists st s, rx_input 4096 empty_last (5, (reass_boot, tt)) = Ret (ERR_OK, st, s) /\ rx_input 8192 st s = Undef) /\
  (exists st, two_frames (with_host empty_last) = Ret st /\ length (nic_tx (lk st)) = 1%nat) /\
  (exists st, two_frames full_last = Ret st /\ length (nic_tx (lk st)) = 1%nat).
Proof.
  split_and!.
  - eexists _, _. split; [vm_compute; reflexivity|]. vm_compute. reflexivity.
  - eexists _. split; [vm_compute; reflexivity|]. vm_compute. reflexivity.
  - eexists _. split; [vm_compute; reflexivity|]. vm_compute. reflexivity.
Qed.

(** ** Data behind the end

    The last fragment (bytes 8 to 16) comes first, then one with bytes 16 to
    24, then the first one. *)
Definition past_end : arp nic := frames_arp
  [(4096, frag_hdr host 28 0 1 ++ replicate 8 1); (8192, frag_hdr host 28 32 2 ++ replicate 8 2); (16384, frag_hdr host 28 32 0 ++ replicate 8 3)].
Definition reass_all (l : list Z) (st : ipst) (r : reass) : res (Z * ipst * reass) :=
  foldl (fun s p => let* (_, st, r) := s in ip4_reass demo_custom demo_malloc demo_bmos ip_nf demo_frag (fun _ => true) p st r) (Ret (0, st, r)) l.

(** A fragment behind the last one is accepted: the packet that is returned has
    44 bytes, but the length in its header, taken from the last fragment, is
    36. *)
Theorem reass_past_the_end : exists st r b, reass_all [4096; 8192; 16384] (mkIpst past_end 5) reass_boot = Ret (16384, st, r) /\
  pget (ip_heap st) 16384 = Ret b /\ p_tot_len b = 44 /\ lwip_ntohs (IPH_LEN (pmem (ip_heap st)) (payload b)) = 36.
Proof. eexists _, _, _. split; [vm_compute; reflexivity|]. split; [vm_compute; reflexivity|]. split; vm_compute; reflexivity. Qed.
