(* ===== verification/Udp.v ===== *)
(** * lwip-2.2.0/src/core/udp.c: UDP

    The control blocks and their list, ports, the choice of the receiver of a
    datagram, sending.  The build has IPv4 only, no UDP-Lite, no SO_REUSE and
    no multicast options.  A callback is named by a number (0 is NULL), the
    functions themselves are the parameter [recv]. *)
From S2P Require Import Prelude NetShim Ip4Addr Link Etharp Checksum Pbuf NetGlue Ethernet Ip4 Icmp Ip4Input.

Definition UDP_HLEN : Z := 8.
Definition UDP_LOCAL_PORT_RANGE_START : Z := 0xc000.
Definition UDP_LOCAL_PORT_RANGE_END : Z := 0xffff.
Definition UDP_ENSURE_LOCAL_PORT_RANGE (port : Z) : Z :=
  u16 (Z.land port (u16 (Z.lnot UDP_LOCAL_PORT_RANGE_START)) + UDP_LOCAL_PORT_RANGE_START).
Definition UDP_FLAGS_NOCHKSUM : Z := 0x01.
Definition UDP_FLAGS_CONNECTED : Z := 0x04.
Definition UDP_TTL : Z := 255.
Definition ERR_USE : Z := -8.

(** ** Control blocks *)
Record udp_pcb := mkUdpPcb {
  u_local_ip : Z;
  u_remote_ip : Z;
  u_netif_idx : Z;
  u_tos : Z;
  u_ttl : Z;
  u_flags : Z;
  u_local_port : Z;
  u_remote_port : Z;
  u_recv : Z;
  u_recv_arg : Z;
}.
Definition set_local (ip port : Z) (c : udp_pcb) : udp_pcb :=
  mkUdpPcb ip (u_remote_ip c) (u_netif_idx c) (u_tos c) (u_ttl c) (u_flags c) port (u_remote_port c) (u_recv c) (u_recv_arg c).
Definition set_remote (ip port : Z) (c : udp_pcb) : udp_pcb :=
  mkUdpPcb (u_local_ip c) ip (u_netif_idx c) (u_tos c) (u_ttl c) (u_flags c) (u_local_port c) port (u_recv c) (u_recv_arg c).
Definition set_netif_idx (i : Z) (c : udp_pcb) : udp_pcb :=
  mkUdpPcb (u_local_ip c) (u_remote_ip c) i (u_tos c) (u_ttl c) (u_flags c) (u_local_port c) (u_remote_port c) (u_recv c) (u_recv_arg c).
Definition set_uflags (f : Z) (c : udp_pcb) : udp_pcb :=
  mkUdpPcb (u_local_ip c) (u_remote_ip c) (u_netif_idx c) (u_tos c) (u_ttl c) f (u_local_port c) (u_remote_port c) (u_recv c) (u_recv_arg c).
Definition set_recv (f a : Z) (c : udp_pcb) : udp_pcb :=
  mkUdpPcb (u_local_ip c) (u_remote_ip c) (u_netif_idx c) (u_tos c) (u_ttl c) (u_flags c) (u_local_port c) (u_remote_port c) f a.

(** The blocks that are allocated, the list behind udp_pcbs, udp_port, and the
    number of calls of memp_malloc so far. *)
Record udp := mkUdp {
  u_pcbs : gmap Z udp_pcb;
  udp_pcbs : list Z;
  udp_port : Z;
  u_allocs : nat;
}.
Definition udp_boot : udp := mkUdp ∅ [] UDP_LOCAL_PORT_RANGE_START 0.
Definition uget (u : udp) (pcb : Z) : res udp_pcb := if pcb =? NULL then Undef else res_of_option (u_pcbs u !! pcb).
Definition uset (pcb : Z) (c : udp_pcb) (u : udp) : udp := mkUdp (<[pcb := c]> (u_pcbs u)) (udp_pcbs u) (udp_port u) (u_allocs u).
Definition set_udp_pcbs (l : list Z) (u : udp) : udp := mkUdp (u_pcbs u) l (udp_port u) (u_allocs u).
Definition set_udp_port (n : Z) (u : udp) : udp := mkUdp (u_pcbs u) (udp_pcbs u) n (u_allocs u).

Definition udp_init (rand : Z) (u : udp) : udp := set_udp_port (UDP_ENSURE_LOCAL_PORT_RANGE rand) u.

(** ** Ports *)

(** Is a block of the list [l] bound to the port? *)
Fixpoint port_used (u : udp) (port : Z) (l : list Z) : res bool :=
  match l with
  | [] => Ret false
  | a :: l => let* c := uget u a in if u_local_port c =? port then Ret true else port_used u port l
  end.

(** From "again" on; [n] is the number of ports found in use. *)
Fixpoint new_port_loop (fuel : nat) (n : Z) (u : udp) : res (Z * udp) :=
  match fuel with
  | O => NoFuel
  | S fuel =>
      let u := set_udp_port (if udp_port u =? UDP_LOCAL_PORT_RANGE_END then UDP_LOCAL_PORT_RANGE_START else u16 (udp_port u + 1)) u in
      let* used := port_used u (udp_port u) (udp_pcbs u) in
      if (used : bool) then
        let n := u16 (n + 1) in
        if n >? UDP_LOCAL_PORT_RANGE_END - UDP_LOCAL_PORT_RANGE_START then Ret (0, u) else new_port_loop fuel n u
      else Ret (udp_port u, u)
  end.
(** One more than there are ports. *)
Definition udp_new_port (u : udp) : res (Z * udp) := new_port_loop (Z.to_nat 16385) 0 u.

(** "By default, we don't allow to bind to a port that any other udp PCB is
    already bound to" *)
Fixpoint bind_clash (u : udp) (pcb ipaddr port : Z) (l : list Z) : res bool :=
  match l with
  | [] => Ret false
  | a :: l =>
      if negb (pcb =? a) then
        let* c := uget u a in
        if (u_local_port c =? port) && ((u_local_ip c =? ipaddr) || (ipaddr =? IPADDR_ANY) || (u_local_ip c =? IPADDR_ANY))
        then Ret true else bind_clash u pcb ipaddr port l
      else bind_clash u pcb ipaddr port l
  end.

(** [ipaddr]: [None] is NULL. *)
Definition udp_bind (pcb : Z) (ipaddr : option Z) (port : Z) (u : udp) : res (Z * udp) :=
  let ipaddr := default IPADDR_ANY ipaddr in
  if pcb =? NULL then Ret (ERR_ARG, u)
  else
    let rebind := existsb (Z.eqb pcb) (udp_pcbs u) in
    let* (err, port, u) :=
      if port =? 0 then
        let* (port, u) := udp_new_port u in
        Ret (if port =? 0 then ERR_USE else ERR_OK, port, u)
      else
        let* clash := bind_clash u pcb ipaddr port (udp_pcbs u) in
        Ret (if (clash : bool) then ERR_USE else ERR_OK, port, u) in
    if negb (err =? ERR_OK) then Ret (err, u)
    else
      let* c := uget u pcb in
      let u := uset pcb (set_local ipaddr port c) u in
      Ret (ERR_OK, if rebind then u else set_udp_pcbs (pcb :: udp_pcbs u) u).

(** [index]: [None] is a NULL netif. *)
Definition udp_bind_netif (pcb : Z) (n : option nif) (u : udp) : res udp :=
  let* c := uget u pcb in
  Ret (uset pcb (set_netif_idx (match n with Some n => netif_get_index n | None => NETIF_NO_INDEX end) c) u).

Definition udp_connect (pcb ipaddr port : Z) (u : udp) : res (Z * udp) :=
  if pcb =? NULL then Ret (ERR_ARG, u)
  else
    let* c := uget u pcb in
    let* (err, u) := if u_local_port c =? 0 then udp_bind pcb (Some (u_local_ip c)) (u_local_port c) u else Ret (ERR_OK, u) in
    if negb (err =? ERR_OK) then Ret (err, u)
    else
      let* c := uget u pcb in
      let u := uset pcb (set_uflags (Z.lor (u_flags c) UDP_FLAGS_CONNECTED) (set_remote ipaddr port c)) u in
      Ret (ERR_OK, if existsb (Z.eqb pcb) (udp_pcbs u) then u else set_udp_pcbs (pcb :: udp_pcbs u) u).

Definition udp_disconnect (pcb : Z) (u : udp) : res udp :=
  if pcb =? NULL then Ret u
  else
    let* c := uget u pcb in
    let c := set_netif_idx NETIF_NO_INDEX (set_remote IPADDR_ANY 0 c) in
    Ret (uset pcb (set_uflags (u8 (Z.land (u_flags c) (u8 (Z.land (Z.lnot UDP_FLAGS_CONNECTED) 0xff)))) c) u).

Definition udp_recv (pcb recv recv_arg : Z) (u : udp) : res udp :=
  if pcb =? NULL then Ret u
  else let* c := uget u pcb in Ret (uset pcb (set_recv recv recv_arg c) u).

(** The list without [pcb]: its first occurrence goes. *)
Fixpoint remove_pcb (pcb : Z) (l : list Z) : list Z :=
  match l with
  | [] => []
  | a :: l => if a =? pcb then l else a :: remove_pcb pcb l
  end.
Definition udp_remove (pcb : Z) (u : udp) : res udp :=
  if pcb =? NULL then Ret u
  else
    let* _ := uget u pcb in
    Ret (mkUdp (delete pcb (u_pcbs u)) (remove_pcb pcb (udp_pcbs u)) (udp_port u) (u_allocs u)).

(** memp_malloc(MEMP_UDP_PCB): what the n-th call returns; 0 is failure. *)
Definition udp_new (pcb_malloc : nat -> gmap Z udp_pcb -> Z) (u : udp) : Z * udp :=
  let pcb := pcb_malloc (u_allocs u) (u_pcbs u) in
  let u := mkUdp (u_pcbs u) (udp_pcbs u) (udp_port u) (S (u_allocs u)) in
  if pcb =? NULL then (NULL, u) else (pcb, uset pcb (mkUdpPcb 0 0 0 0 UDP_TTL 0 0 0 NULL NULL) u).

(** The loop over the blocks when the address of an interface changes. *)
Fixpoint move_pcbs (old_addr new_addr : Z) (l : list Z) (u : udp) : res udp :=
  match l with
  | [] => Ret u
  | a :: l =>
      let* c := uget u a in
      let u := if u_local_ip c =? old_addr then uset a (set_local new_addr (u_local_port c) c) u else u in
      move_pcbs old_addr new_addr l u
  end.
Definition udp_netif_ip_addr_changed (old_addr new_addr : Z) (u : udp) : res udp :=
  if negb (old_addr =? IPADDR_ANY) && negb (new_addr =? IPADDR_ANY) then move_pcbs old_addr new_addr (udp_pcbs u) u else Ret u.

(** ** Receiving *)

(** struct udp_hdr at address [a]; the ports in host order. *)
Definition udph_src (m : memory) (a : Z) : Z := lwip_ntohs (field m a 0 2).
Definition udph_dest (m : memory) (a : Z) : Z := lwip_ntohs (field m a 2 2).
Definition udph_chksum (m : memory) (a : Z) : Z := field m a 6 2.

Section Udp.
Variable custom_free : Z -> pheap -> res pheap.
Variable malloc : nat -> gmap Z pbuf -> Z.
Variable bmos : netif.
Variable nf : netifs.
Variable ip4_frag : Z -> Z -> Z -> ipst -> res (Z * ipst).
Abbreviation ip_free := (ip_free custom_free).

(** Does the block accept the datagram?  [cn] is the current input interface,
    [n] the one that received the datagram. *)
Definition udp_input_local_match (c : udp_pcb) (cn n : nif) (dest : Z) (broadcast : bool) : bool :=
  if negb (u_netif_idx c =? NETIF_NO_INDEX) && negb (u_netif_idx c =? netif_get_index cn) then false
  else if broadcast then
    (u_local_ip c =? IPADDR_ANY) || (dest =? IPADDR_BROADCAST) || ip4_addr_net_eq (u_local_ip c) dest (if_netmask n)
  else (u_local_ip c =? IPADDR_ANY) || (u_local_ip c =? dest).

(** The first unconnected block so far, after the block [a]. *)
Definition note_uncon (u : udp) (a : Z) (c : udp_pcb) (n : nif) (dest : Z) (broadcast : bool) (uncon : Z) : res Z :=
  if negb (has_flag (u_flags c) UDP_FLAGS_CONNECTED) then
    if uncon =? NULL then Ret a
    else if broadcast && (dest =? IPADDR_BROADCAST) then
      let* uc := uget u uncon in
      Ret (if negb (u_local_ip uc =? if_ip n) && (u_local_ip c =? if_ip n) then a else uncon)
    else Ret uncon
  else Ret uncon.

(** "Iterate through the UDP pcb list for a matching pcb": a block that matches
    fully (NULL: none), the first unconnected one, and the list, with the
    full match in front. *)
Fixpoint udp_scan (u : udp) (cn n : nif) (src_ip src dest_ip dest : Z) (broadcast : bool) (before l : list Z) (uncon : Z) :
  res (Z * Z * list Z) :=
  match l with
  | [] => Ret (NULL, uncon, before)
  | a :: l =>
      let* c := uget u a in
      if (u_local_port c =? dest) && udp_input_local_match c cn n dest_ip broadcast then
        let* uncon := note_uncon u a c n dest_ip broadcast uncon in
        if (u_remote_port c =? src) && ((u_remote_ip c =? IPADDR_ANY) || (u_remote_ip c =? src_ip))
        then Ret (a, uncon, a :: before ++ l)
        else udp_scan u cn n src_ip src dest_ip dest broadcast (before ++ [a]) l uncon
      else udp_scan u cn n src_ip src dest_ip dest broadcast (before ++ [a]) l uncon
  end.

(** The callbacks, with the state of their owners; they may look at the
    globals of the packet (ip_current_input_netif and the like). *)
Context {T : Type}.
Variable recv : Z -> Z -> Z -> Z -> Z -> Z -> ip_globals -> ipst -> udp * T -> res (ipst * (udp * T)).

(** Nobody listens: "send ICMP destination port unreachable". *)
Definition udp_unreach (p : Z) (d : ip_globals) (broadcast : bool) (st : ipst) : res ipst :=
  let* st :=
    if negb broadcast && negb (ip4_addr_ismulticast (current_iphdr_dest d)) then
      let* (_, h) := pbuf_header_force p (current_ip_header_tot_len d + UDP_HLEN) (ip_heap st) in
      icmp_dest_unreach custom_free malloc bmos nf ip4_frag p ICMP_DUR_PORT (set_ip_heap h st)
    else Ret st in
  ip_free p st.

Definition udp_input (p inp : Z) (d : ip_globals) (st : ipst) (s : udp * T) : res (ipst * (udp * T)) :=
  lwip_assert (negb (p =? NULL)) (lwip_assert (negb (inp =? NULL)) (
  let* b := pget (ip_heap st) p in
  if p_len b <? UDP_HLEN then let* st := ip_free p st in Ret (st, s)
  else
    let m := pmem (ip_heap st) in
    let* nn := res_of_option (nf_at nf (current_netif d)) in
    let broadcast := ip4_addr_isbroadcast (current_iphdr_dest d) nn in
    let src := udph_src m (payload b) in
    let dest := udph_dest m (payload b) in
    let chksum := udph_chksum m (payload b) in
    let* cn := res_of_option (nf_at nf (current_input_netif d)) in
    let* n := res_of_option (nf_at nf inp) in
    let* (full, uncon, l) :=
      udp_scan s.1 cn n (current_iphdr_src d) src (current_iphdr_dest d) dest broadcast [] (udp_pcbs s.1) NULL in
    let u := set_udp_pcbs l s.1 in
    let s := (u, s.2) in
    let pcb := if full =? NULL then uncon else full in
    let for_us := if negb (pcb =? NULL) then true else if_ip n =? current_iphdr_dest d in
    if for_us then
      let* sum :=
        if negb (chksum =? 0)
        then ip_chksum_pseudo p IP_PROTO_UDP (p_tot_len b) (current_iphdr_src d) (current_iphdr_dest d) (ip_heap st)
        else Ret 0 in
      if negb (sum =? 0) then let* st := ip_free p st in Ret (st, s)
      else
        let* (failed, h) := pbuf_remove_header p UDP_HLEN (ip_heap st) in
        lwip_assert (failed =? 0) (
          let st := set_ip_heap h st in
          if negb (pcb =? NULL) then
            let* c := uget u pcb in
            if negb (u_recv c =? NULL) then recv (u_recv c) (u_recv_arg c) pcb p (current_iphdr_src d) src d st s
            else let* st := ip_free p st in Ret (st, s)
          else let* st := udp_unreach p d broadcast st in Ret (st, s))
    else let* st := ip_free p st in Ret (st, s))).

(** ** Sending *)

(** "calculate checksum"; [p] is the packet with its header. *)
Definition udp_chksum (c : udp_pcb) (p tot_len src_ip dst_ip : Z) (have_chksum : option Z) (h : pheap) : res (option Z) :=
  if negb (has_flag (u_flags c) UDP_FLAGS_NOCHKSUM) then
    let* udpchksum :=
      match have_chksum with
      | Some chksum =>
          let* sum := ip_chksum_pseudo_partial p IP_PROTO_UDP tot_len UDP_HLEN src_ip dst_ip h in
          Ret (u16 (FOLD_U32T (u32 (sum + u16 (Z.lnot chksum)))))
      | None => ip_chksum_pseudo p IP_PROTO_UDP tot_len src_ip dst_ip h
      end in
    Ret (Some (if udpchksum =? 0 then 0xffff else udpchksum))
  else Ret None.

(** The packet [q] with its UDP header, sent. *)
Definition udp_transmit (c : udp_pcb) (q dst_ip dst_port netif src_ip : Z) (have_chksum : option Z) (st : ipst) : res (Z * ipst) :=
  let* b := pget (ip_heap st) q in
  lwip_assert (p_len b >=? UDP_HLEN) (
    let m := mem_write (pmem (ip_heap st)) (payload b) (le_bytes 2 (lwip_htons (u_local_port c))) in
    let m := mem_write m (payload b + 2) (le_bytes 2 (lwip_htons dst_port)) in
    let m := mem_write m (payload b + 6) (le_bytes 2 0) in
    let m := mem_write m (payload b + 4) (le_bytes 2 (lwip_htons (p_tot_len b))) in
    let st := set_ip_mem m st in
    let* sum := udp_chksum c q (p_tot_len b) src_ip dst_ip have_chksum (ip_heap st) in
    let st := match sum with Some k => set_ip_mem (mem_write m (payload b + 6) (le_bytes 2 k)) st | None => st end in
    ip4_output_if_src custom_free malloc bmos nf ip4_frag q (Some src_ip) (Some dst_ip) (u_ttl c) (u_tos c) IP_PROTO_UDP netif st).

(** [have_chksum]: the checksum of the data, when the caller has it. *)
Definition udp_sendto_if_src_chksum (pcb p dst_ip dst_port netif : Z) (have_chksum : option Z) (src_ip : Z) (st : ipst) (u : udp) :
  res (Z * ipst * udp) :=
  if (pcb =? NULL) || (p =? NULL) || (netif =? NULL) then Ret (ERR_ARG, st, u)
  else
    let* c := uget u pcb in
    let* (err, u) := if u_local_port c =? 0 then udp_bind pcb (Some (u_local_ip c)) (u_local_port c) u else Ret (ERR_OK, u) in
    if negb (err =? ERR_OK) then Ret (err, st, u)
    else
      let* b := pget (ip_heap st) p in
      if u16 (p_tot_len b + UDP_HLEN) <? p_tot_len b then Ret (ERR_MEM, st, u)
      else
        let* c := uget u pcb in
        let* (failed, h) := pbuf_add_header p UDP_HLEN (ip_heap st) in
        let st := set_ip_heap h st in
        if negb (failed =? 0) then
          let* (q, st) := ip_alloc custom_free malloc PBUF_IP UDP_HLEN st in
          if q =? NULL then Ret (ERR_MEM, st, u)
          else
            let* h := if negb (p_tot_len b =? 0) then pbuf_chain q p (ip_heap st) else Ret (ip_heap st) in
            let* (err, st) := udp_transmit c q dst_ip dst_port netif src_ip have_chksum (set_ip_heap h st) in
            let* st := ip_free q st in Ret (err, st, u)
        else let* (err, st) := udp_transmit c p dst_ip dst_port netif src_ip have_chksum st in Ret (err, st, u).
Definition udp_sendto_if_src (pcb p dst_ip dst_port netif src_ip : Z) (st : ipst) (u : udp) : res (Z * ipst * udp) :=
  udp_sendto_if_src_chksum pcb p dst_ip dst_port netif None src_ip st u.

Definition udp_sendto_if_chksum (pcb p dst_ip dst_port netif : Z) (have_chksum : option Z) (st : ipst) (u : udp) : res (Z * ipst * udp) :=
  if (pcb =? NULL) || (p =? NULL) || (netif =? NULL) then Ret (ERR_ARG, st, u)
  else
    let* c := uget u pcb in
    let* n := res_of_option (nf_at nf netif) in
    if (u_local_ip c =? IPADDR_ANY) || ip4_addr_ismulticast (u_local_ip c)
    then udp_sendto_if_src_chksum pcb p dst_ip dst_port netif have_chksum (if_ip n) st u
    else if negb (u_local_ip c =? if_ip n) then Ret (ERR_RTE, st, u)
    else udp_sendto_if_src_chksum pcb p dst_ip dst_port netif have_chksum (u_local_ip c) st u.
Definition udp_sendto_if (pcb p dst_ip dst_port netif : Z) (st : ipst) (u : udp) : res (Z * ipst * udp) :=
  udp_sendto_if_chksum pcb p dst_ip dst_port netif None st u.

(** netif.c *)
Fixpoint index_in (idx : Z) (l : list Z) : res Z :=
  match l with
  | [] => Ret NULL
  | a :: l => let* n := res_of_option (nf_at nf a) in if idx =? netif_get_index n then Ret a else index_in idx l
  end.
Definition netif_get_by_index (idx : Z) : res Z := if negb (idx =? NETIF_NO_INDEX) then index_in idx (netif_list nf) else Ret NULL.

Definition udp_sendto_chksum (pcb p dst_ip dst_port : Z) (have_chksum : option Z) (st : ipst) (u : udp) : res (Z * ipst * udp) :=
  if (pcb =? NULL) || (p =? NULL) then Ret (ERR_ARG, st, u)
  else
    let* c := uget u pcb in
    let* netif := if negb (u_netif_idx c =? NETIF_NO_INDEX) then netif_get_by_index (u_netif_idx c) else ip4_route nf dst_ip in
    if netif =? NULL then Ret (ERR_RTE, st, u)
    else udp_sendto_if_chksum pcb p dst_ip dst_port netif have_chksum st u.
Definition udp_sendto (pcb p dst_ip dst_port : Z) (st : ipst) (u : udp) : res (Z * ipst * udp) :=
  udp_sendto_chksum pcb p dst_ip dst_port None st u.
Definition udp_send_chksum (pcb p : Z) (have_chksum : option Z) (st : ipst) (u : udp) : res (Z * ipst * udp) :=
  if (pcb =? NULL) || (p =? NULL) then Ret (ERR_ARG, st, u)
  else let* c := uget u pcb in udp_sendto_chksum pcb p (u_remote_ip c) (u_remote_port c) have_chksum st u.
Definition udp_send (pcb p : Z) (st : ipst) (u : udp) : res (Z * ipst * udp) := udp_send_chksum pcb p None st u.
End Udp.
