(* ===== verification/UdpInv.v ===== *)
(** * UDP: control blocks and ports

    The invariant of the list of control blocks, that every operation keeps it
    and returns, and how ports are given out. *)
From S2P Require Import Prelude NetShim Ip4Addr Link Etharp Checksum Pbuf NetGlue Ethernet Ip4 Icmp Ip4Input Udp.

(** The block [c] stands in the way of a binding to [port] at the address [ip]. *)
Definition holds (ip port : Z) (c : udp_pcb) : Prop :=
  u_local_port c = port /\ (u_local_ip c = ip \/ ip = IPADDR_ANY \/ u_local_ip c = IPADDR_ANY).
(** Two blocks that would get the same datagrams. *)
Definition clash (c c' : udp_pcb) : Prop := holds (u_local_ip c') (u_local_port c') c.

Record udp_ok (u : udp) : Prop := {
  uo_nodup : NoDup (udp_pcbs u);
  uo_null : u_pcbs u !! NULL = None;
  uo_live : forall a, a ∈ udp_pcbs u -> is_Some (u_pcbs u !! a);
  uo_bound : forall a c, u_pcbs u !! a = Some c -> 0 <= u_local_port c < 65536 /\ (a ∈ udp_pcbs u <-> u_local_port c <> 0);
  uo_bytes : forall a c, u_pcbs u !! a = Some c -> is_byte (u_ttl c) /\ is_byte (u_tos c);
  uo_range : UDP_LOCAL_PORT_RANGE_START <= udp_port u <= UDP_LOCAL_PORT_RANGE_END;
}.
(** No two blocks of the list clash. *)
Definition exclusive (u : udp) : Prop := forall a a' c c', a ∈ udp_pcbs u -> a' ∈ udp_pcbs u -> a <> a' ->
  u_pcbs u !! a = Some c -> u_pcbs u !! a' = Some c' -> ~ clash c c'.

Lemma uget_Some u a c : a <> NULL -> u_pcbs u !! a = Some c -> uget u a = Ret c.
Proof. intros Ha Hc. unfold uget. by rewrite (proj2 (Z.eqb_neq _ _) Ha), Hc. Qed.
Lemma ok_live u a : udp_ok u -> a ∈ udp_pcbs u -> a <> NULL /\ exists c, uget u a = Ret c /\ u_pcbs u !! a = Some c /\ u_local_port c <> 0.
Proof.
  intros Hu Ha. destruct (uo_live _ Hu a Ha) as [c Hc]. assert (a <> NULL) as Hn by (intros ->; by rewrite (uo_null _ Hu) in Hc).
  split; [done|]. exists c. split; [by apply uget_Some|]. split; [done|]. by apply (uo_bound _ Hu a c Hc).
Qed.
Lemma ok_pcb u a c : udp_ok u -> u_pcbs u !! a = Some c -> a <> NULL /\ uget u a = Ret c.
Proof. intros Hu Hc. assert (a <> NULL) as Hn by (intros ->; by rewrite (uo_null _ Hu) in Hc). split; [done|by apply uget_Some]. Qed.

Lemma udp_boot_ok : udp_ok udp_boot.
Proof.
  split; [apply NoDup_nil_2|done|by intros a ?%elem_of_nil|done|done|].
  cbn. unfold UDP_LOCAL_PORT_RANGE_START, UDP_LOCAL_PORT_RANGE_END. lia.
Qed.
Lemma udp_boot_exclusive : exclusive udp_boot.
Proof. by intros a a' c c' ?%elem_of_nil. Qed.

Lemma set_port_ok q u : udp_ok u -> UDP_LOCAL_PORT_RANGE_START <= q <= UDP_LOCAL_PORT_RANGE_END -> udp_ok (set_udp_port q u).
Proof. intros [H1 H2 H3 H4 H5 H6] Hq. by split. Qed.

Lemma udp_init_ok rand u : udp_ok u -> udp_ok (udp_init rand u).
Proof.
  intros Hu. apply set_port_ok; [done|]. unfold UDP_ENSURE_LOCAL_PORT_RANGE, UDP_LOCAL_PORT_RANGE_START, UDP_LOCAL_PORT_RANGE_END.
  change (u16 (Z.lnot 49152)) with (Z.ones 14). rewrite Z.land_ones by lia. change (2 ^ 14) with 16384.
  pose proof (Z.mod_pos_bound rand 16384 ltac:(lia)). rewrite u16_small by lia. lia.
Qed.

(** ** Ports *)
Definition used (u : udp) (port : Z) : Prop := exists a c, a ∈ udp_pcbs u /\ u_pcbs u !! a = Some c /\ u_local_port c = port.

Lemma port_used_spec u port : udp_ok u -> exists b, port_used u port (udp_pcbs u) = Ret b /\ (b = true <-> used u port).
Proof.
  intros Hu. assert (forall l, (forall a, a ∈ l -> a ∈ udp_pcbs u) -> exists b, port_used u port l = Ret b /\
    (b = true <-> exists a c, a ∈ l /\ u_pcbs u !! a = Some c /\ u_local_port c = port)) as H; [|by apply H].
  induction l as [|a l IH]; intros Hl; cbn [port_used].
  - exists false. split; [done|]. split; [done|]. by intros (a & c & ?%elem_of_nil & _).
  - destruct (ok_live u a Hu (Hl a ltac:(by left))) as (_ & c & -> & Hc & _). cbn [res_bind]. destruct (Z.eqb_spec (u_local_port c) port) as [E|E].
    + exists true. split; [done|]. split; [|done]. intros _. exists a, c. split; [by left|done].
    + destruct IH as (b & -> & Hb); [intros; apply Hl; by right|]. exists b. split; [done|]. rewrite Hb. split.
      * intros (a' & c' & ? & ?). exists a', c'. split; [by right|done].
      * intros (a' & c' & [->|Ha]%elem_of_cons & Hc' & Hp); [congruence|]. by exists a', c'.
Qed.

(** The [k]-th port after [o], counted round the range. *)
Definition nth_port (o k : Z) : Z := UDP_LOCAL_PORT_RANGE_START + (o + k) mod 16384.

Lemma next_port o k : let p := nth_port o k in
  (if p =? UDP_LOCAL_PORT_RANGE_END then UDP_LOCAL_PORT_RANGE_START else u16 (p + 1)) = nth_port o (k + 1).
Proof.
  cbv zeta. unfold nth_port, UDP_LOCAL_PORT_RANGE_END, UDP_LOCAL_PORT_RANGE_START. pose proof (Z.mod_pos_bound (o + k) 16384 ltac:(lia)).
  destruct (Z.eqb_spec (49152 + (o + k) mod 16384) 65535) as [E|E].
  - replace (o + (k + 1)) with (((o + k) / 16384 + 1) * 16384) by (pose proof (Z.div_mod (o + k) 16384 ltac:(lia)); lia).
    by rewrite Z.mod_mul.
  - rewrite u16_small by lia. replace (o + (k + 1)) with ((o + k) mod 16384 + 1 + (o + k) / 16384 * 16384) by (pose proof (Z.div_mod (o + k) 16384 ltac:(lia)); lia).
    rewrite Z.mod_add by lia. rewrite (Z.mod_small (_ + 1)) by lia. lia.
Qed.

(** In the range and in nobody's use. *)
Definition free_port (u : udp) (p : Z) : Prop := UDP_LOCAL_PORT_RANGE_START <= p <= UDP_LOCAL_PORT_RANGE_END /\ ~ used u p.
Definition no_free_port (u : udp) : Prop := forall p, ~ free_port u p.

Lemma new_port_loop_spec fuel u o : forall n q, udp_ok (set_udp_port q u) -> q = nth_port o n -> 0 <= n < 16384 ->
  16384 - n < Z.of_nat fuel -> (forall k, 0 < k <= n -> used u (nth_port o k)) ->
  exists p q', new_port_loop fuel n (set_udp_port q u) = Ret (p, set_udp_port q' u) /\ udp_ok (set_udp_port q' u) /\
    (p = q' /\ free_port u p \/ p = 0 /\ no_free_port u).
Proof.
  induction fuel as [|fuel IH]; intros n q Hu Eq Hn Hf Hk; [lia|]. cbn [new_port_loop udp_port set_udp_port].
  set (q1 := if q =? _ then _ else _). assert (q1 = nth_port o (n + 1)) as Eq1 by (unfold q1; rewrite Eq; apply next_port).
  assert (UDP_LOCAL_PORT_RANGE_START <= q1 <= UDP_LOCAL_PORT_RANGE_END) as Rq.
  { rewrite Eq1. unfold nth_port, UDP_LOCAL_PORT_RANGE_END, UDP_LOCAL_PORT_RANGE_START. pose proof (Z.mod_pos_bound (o + (n + 1)) 16384 ltac:(lia)). lia. }
  change (set_udp_port q1 (set_udp_port q u)) with (set_udp_port q1 u). assert (udp_ok (set_udp_port q1 u)) as Hu1 by (by apply (set_port_ok q1 _ Hu)).
  destruct (port_used_spec (set_udp_port q1 u) q1 Hu1) as (b & Eb & Hb). cbn [udp_pcbs set_udp_port] in *. rewrite Eb. cbn [res_bind].
  destruct b.
  - assert (used u q1) as Hq1 by (by apply Hb). rewrite u16_small by lia. rewrite Z.gtb_ltb.
    change (UDP_LOCAL_PORT_RANGE_END - UDP_LOCAL_PORT_RANGE_START) with 16383.
    assert (forall k, 0 < k <= n + 1 -> used u (nth_port o k)) as Hk1.
    { intros k Hkk. destruct (Z.eq_dec k (n + 1)) as [->|]; [by rewrite <- Eq1|apply Hk; lia]. }
    destruct (Z.ltb_spec 16383 (n + 1)) as [Hlt|Hge].
    + exists 0, q1. split; [done|]. split; [done|]. right. split; [done|]. intros p [[P1 P2] P3]. apply P3.
      unfold UDP_LOCAL_PORT_RANGE_START, UDP_LOCAL_PORT_RANGE_END in *. set (k := (p - 49152 - o - 1) mod 16384 + 1).
      assert (nth_port o k = p) as Ek; [|rewrite <- Ek; apply Hk1; unfold k; pose proof (Z.mod_pos_bound (p - 49152 - o - 1) 16384 ltac:(lia)); lia].
      unfold nth_port, UDP_LOCAL_PORT_RANGE_START, k. rewrite (Z.add_comm _ 1), Z.add_assoc, Z.add_mod_idemp_r by lia.
      rewrite Z.mod_small by lia. lia.
    + apply (IH (n + 1) q1); try done; lia.
  - exists q1, q1. split; [done|]. split; [done|]. left. split; [done|]. split; [done|]. intros Hq. by apply Hb in Hq.
Qed.

Lemma udp_new_port_spec u : udp_ok u -> exists p q, udp_new_port u = Ret (p, set_udp_port q u) /\ udp_ok (set_udp_port q u) /\
  (p = q /\ free_port u p \/ p = 0 /\ no_free_port u).
Proof.
  intros Hu. pose proof (uo_range _ Hu) as Hr. unfold UDP_LOCAL_PORT_RANGE_START, UDP_LOCAL_PORT_RANGE_END in Hr.
  assert (udp_ok (set_udp_port (udp_port u) u)) as Hu' by by destruct u. assert (udp_new_port u = udp_new_port (set_udp_port (udp_port u) u)) as -> by by destruct u.
  apply (new_port_loop_spec _ u (udp_port u - 49152) 0 (udp_port u)); try done; try lia.
  unfold nth_port, UDP_LOCAL_PORT_RANGE_START. rewrite Z.mod_small; lia.
Qed.

(** ** Updates of a block and of the list *)
Lemma uset_lookup u a c c' b : u_pcbs u !! a = Some c -> u_pcbs (uset a c' u) !! b = (if decide (b = a) then Some c' else u_pcbs u !! b).
Proof. intros Hc. cbn. destruct (decide (b = a)) as [->|]; [by rewrite lookup_insert_eq|by rewrite lookup_insert_ne]. Qed.

Lemma uset_ok u a c c' : udp_ok u -> u_pcbs u !! a = Some c -> u_local_port c' = u_local_port c -> u_ttl c' = u_ttl c -> u_tos c' = u_tos c ->
  udp_ok (uset a c' u).
Proof.
  intros Hu Hc Ep Et Eo. pose proof (ok_pcb u a c Hu Hc) as [Hn _]. split; try apply Hu.
  - rewrite (uset_lookup u a c c' NULL Hc). rewrite decide_False by congruence. apply Hu.
  - intros b Hb. rewrite (uset_lookup u a c c' b Hc). case_decide; [done|by apply (uo_live _ Hu)].
  - intros b cb. rewrite (uset_lookup u a c c' b Hc). case_decide as E; [|by apply (uo_bound _ Hu)].
    intros [= <-]. subst b. rewrite Ep. by apply (uo_bound _ Hu).
  - intros b cb. rewrite (uset_lookup u a c c' b Hc). case_decide as E; [|by apply (uo_bytes _ Hu)].
    intros [= <-]. rewrite Et, Eo. by apply (uo_bytes _ Hu a).
Qed.
Lemma uset_exclusive u a c c' : exclusive u -> u_pcbs u !! a = Some c -> u_local_port c' = u_local_port c -> u_local_ip c' = u_local_ip c ->
  exclusive (uset a c' u).
Proof.
  intros Hx Hc Ep Ei b b' d d' Hb Hb' Hne. rewrite !(uset_lookup u a c c' _ Hc). unfold clash, holds.
  case_decide as E; case_decide as E'; intros Hd Hd'; simplify_eq; rewrite ?Ep, ?Ei; by apply (Hx _ _ _ _ Hb Hb' Hne).
Qed.
Lemma perm_ok u l : udp_ok u -> Permutation l (udp_pcbs u) -> udp_ok (set_udp_pcbs l u).
Proof.
  intros [H1 H2 H3 H4 H5 H6] Hl. split; try done; cbn.
  - by rewrite Hl.
  - intros a. rewrite Hl. apply H3.
  - intros a c Hc. rewrite Hl. by apply H4.
Qed.
Lemma perm_exclusive u l : exclusive u -> Permutation l (udp_pcbs u) -> exclusive (set_udp_pcbs l u).
Proof. intros Hx Hl a a' c c'. cbn. rewrite !Hl. apply Hx. Qed.

Lemma in_list u a : existsb (Z.eqb a) (udp_pcbs u) = true <-> a ∈ udp_pcbs u.
Proof.
  rewrite existsb_exists. split; [|intros Ha; exists a; split; [by apply list_elem_of_In|apply Z.eqb_refl]].
  intros (b & Hb & ->%Z.eqb_eq). by apply list_elem_of_In.
Qed.
Lemma not_in_list u a : existsb (Z.eqb a) (udp_pcbs u) = false <-> a ∉ udp_pcbs u.
Proof. rewrite <- in_list. by destruct (existsb _ _). Qed.

(** ** udp_bind *)

(** Another block is in the way. *)
Definition in_way (u : udp) (pcb ip port : Z) : Prop := exists a c, a ∈ udp_pcbs u /\ a <> pcb /\ u_pcbs u !! a = Some c /\ holds ip port c.

Lemma holds_test ip port c :
  (u_local_port c =? port) && ((u_local_ip c =? ip) || (ip =? IPADDR_ANY) || (u_local_ip c =? IPADDR_ANY)) = true <-> holds ip port c.
Proof. unfold holds. rewrite andb_true_iff, !orb_true_iff, !Z.eqb_eq. tauto. Qed.

Lemma bind_clash_spec u pcb ip port : udp_ok u -> exists b, bind_clash u pcb ip port (udp_pcbs u) = Ret b /\ (b = true <-> in_way u pcb ip port).
Proof.
  intros Hu. assert (forall l, (forall a, a ∈ l -> a ∈ udp_pcbs u) -> exists b, bind_clash u pcb ip port l = Ret b /\
    (b = true <-> exists a c, a ∈ l /\ a <> pcb /\ u_pcbs u !! a = Some c /\ holds ip port c)) as H; [|by apply H].
  induction l as [|a l IH]; intros Hl; cbn [bind_clash].
  - exists false. split; [done|]. split; [done|]. by intros (a & c & ?%elem_of_nil & _).
  - destruct IH as (b & Eb & Hb); [intros; apply Hl; by right|].
    assert ((exists a' c, a' ∈ a :: l /\ a' <> pcb /\ u_pcbs u !! a' = Some c /\ holds ip port c) <->
      (exists c, a <> pcb /\ u_pcbs u !! a = Some c /\ holds ip port c) \/ b = true) as Hs.
    { rewrite Hb. split.
      - intros (a' & c & [->|Ha]%elem_of_cons & Hc); [left; by exists c|right; by exists a', c].
      - intros [(c & Hc)|(a' & c & Ha & Hc)]; [exists a, c; split; [by left|done]|exists a', c; split; [by right|done]]. }
    destruct (Z.eqb_spec pcb a) as [<-|Hne]; cbn [negb].
    + exists b. split; [done|]. rewrite Hs. split; [by right|]. by intros [(c & [] & _)|].
    + destruct (ok_live u a Hu (Hl a ltac:(by left))) as (_ & c & -> & Hc & _). cbn [res_bind].
      destruct (_ && _) eqn:Et.
      * exists true. split; [done|]. rewrite Hs. split; [|done]. intros _. left. exists c. split; [done|]. split; [done|]. by apply holds_test.
      * exists b. split; [done|]. rewrite Hs. split; [by right|]. intros [(c' & _ & Hc' & Hh)|]; [|done].
        apply holds_test in Hh. congruence.
Qed.

(** What udp_bind has to say: the block is bound, to the port that was asked
    for or to a free one, and nobody is in the way; or nothing has changed but
    the next port to try, and there was a reason. *)
Variant bound (u : udp) (pcb ip port : Z) (c : udp_pcb) (err : Z) (u' : udp) : Prop :=
  | bound_ok p : err = ERR_OK -> (port = 0 /\ free_port u p \/ port = p) -> 0 < p < 65536 -> ~ in_way u pcb ip p ->
      u_pcbs u' = <[pcb := set_local ip p c]> (u_pcbs u) -> pcb ∈ udp_pcbs u' -> (forall a, a <> pcb -> a ∈ udp_pcbs u' <-> a ∈ udp_pcbs u) ->
      bound u pcb ip port c err u'
  | bound_use : err = ERR_USE -> (port = 0 /\ no_free_port u \/ port <> 0 /\ in_way u pcb ip port) ->
      u_pcbs u' = u_pcbs u -> udp_pcbs u' = udp_pcbs u -> bound u pcb ip port c err u'.

(** The last step of udp_bind. *)
Lemma bind_end u pcb ip p c : udp_ok u -> u_pcbs u !! pcb = Some c -> 0 < p < 65536 ->
  let u1 := uset pcb (set_local ip p c) u in
  let u' := if existsb (Z.eqb pcb) (udp_pcbs u) then u1 else set_udp_pcbs (pcb :: udp_pcbs u) u1 in
  udp_ok u' /\ u_pcbs u' = <[pcb := set_local ip p c]> (u_pcbs u) /\ pcb ∈ udp_pcbs u' /\ (forall a, a <> pcb -> a ∈ udp_pcbs u' <-> a ∈ udp_pcbs u).
Proof.
  intros Hu Hc Hp u1 u'. pose proof (ok_pcb u pcb c Hu Hc) as [Hn _].
  assert (u_pcbs u' = <[pcb := set_local ip p c]> (u_pcbs u)) as E1 by (unfold u'; by destruct (existsb _ _)).
  assert (pcb ∈ udp_pcbs u' /\ (forall a, a <> pcb -> a ∈ udp_pcbs u' <-> a ∈ udp_pcbs u) /\ NoDup (udp_pcbs u') /\ udp_port u' = udp_port u) as (E2 & E3 & E4 & E5).
  { unfold u'. destruct (existsb _ _) eqn:E; cbn.
    - split; [by apply in_list|]. split; [done|]. split; [apply Hu|done].
    - apply not_in_list in E. split; [by left|]. split; [intros a Ha; rewrite elem_of_cons; tauto|]. split; [apply NoDup_cons; by split; [|apply Hu]|done]. }
  split; [|done]. split; rewrite ?E1, ?E5; try apply Hu; try done.
  - rewrite lookup_insert_ne by done. apply Hu.
  - intros a Ha. destruct (decide (a = pcb)) as [->|]; [by rewrite lookup_insert_eq|rewrite lookup_insert_ne by done]. by apply (uo_live _ Hu), E3.
  - intros a ca. destruct (decide (a = pcb)) as [->|].
    + rewrite lookup_insert_eq. intros [= <-]. cbn. split; [lia|]. split; [lia|done].
    + rewrite lookup_insert_ne, E3 by done. apply (uo_bound _ Hu).
  - intros a ca. destruct (decide (a = pcb)) as [->|]; [|rewrite lookup_insert_ne by done; apply (uo_bytes _ Hu)].
    rewrite lookup_insert_eq. intros [= <-]. by apply (uo_bytes _ Hu pcb c).
Qed.

Lemma udp_bind_spec u pcb ip port c : udp_ok u -> u_pcbs u !! pcb = Some c -> 0 <= port < 65536 ->
  exists err u', udp_bind pcb ip port u = Ret (err, u') /\ udp_ok u' /\ bound u pcb (default IPADDR_ANY ip) port c err u'.
Proof.
  intros Hu Hc Hp. pose proof (ok_pcb u pcb c Hu Hc) as [Hn _]. unfold udp_bind. set (i := default IPADDR_ANY ip).
  rewrite (proj2 (Z.eqb_neq _ _) Hn). destruct (Z.eqb_spec port 0) as [->|Hp0].
  - destruct (udp_new_port_spec u Hu) as (p & q & -> & Hu1 & [[-> Hf]|[-> Hf]]); cbn [res_bind].
    + pose proof (proj1 Hf) as Rq. unfold UDP_LOCAL_PORT_RANGE_START, UDP_LOCAL_PORT_RANGE_END in Rq.
      rewrite (proj2 (Z.eqb_neq q 0) ltac:(lia)). change (negb (ERR_OK =? ERR_OK)) with false. cbv iota.
      rewrite (proj2 (ok_pcb _ pcb c Hu1 Hc)). cbn [res_bind]. eexists _, _. split; [reflexivity|].
      destruct (bind_end (set_udp_port q u) pcb i q c Hu1 Hc ltac:(lia)) as (H1 & H2 & H3 & H4). split; [exact H1|].
      apply (bound_ok _ _ _ _ _ _ _ q); try done; [by left|lia|]. intros (a & ca & Ha & _ & Hca & [Hh _]). apply Hf. by exists a, ca.
    + exists ERR_USE, (set_udp_port q u). split; [done|]. split; [done|]. apply bound_use; try done. by left.
  - destruct (bind_clash_spec u pcb i port Hu) as (b & -> & Hb). cbn [res_bind]. destruct b.
    + exists ERR_USE, u. split; [done|]. split; [done|]. apply bound_use; try done. right. split; [done|]. by apply Hb.
    + change (negb (ERR_OK =? ERR_OK)) with false. cbv iota. rewrite (proj2 (ok_pcb _ pcb c Hu Hc)). cbn [res_bind].
      eexists _, _. split; [reflexivity|]. destruct (bind_end u pcb i port c Hu Hc ltac:(lia)) as (H1 & H2 & H3 & H4). split; [exact H1|].
      apply (bound_ok _ _ _ _ _ _ _ port); try done; [by right|lia|]. intros Hw. by apply Hb in Hw.
Qed.
Lemma bound_exclusive u pcb ip port c err u' : u_pcbs u !! pcb = Some c -> bound u pcb ip port c err u' -> exclusive u -> exclusive u'.
Proof.
  intros Hc [p -> Hp Rp Hw Eu Hin Hl| -> _ Eu El] Hx; [|intros a a' d d'; rewrite Eu, El; apply Hx].
  intros a a' d d' Ha Ha' Hne. rewrite Eu. destruct (decide (a = pcb)) as [->|Na], (decide (a' = pcb)) as [->|Na'];
    rewrite ?lookup_insert_eq, ?lookup_insert_ne by done; intros Hd Hd'; simplify_eq.
  - intros [E1 E2]. cbn in E1, E2. apply Hw. exists a', d'. apply Hl in Ha'; [|done]. split_and!; try done. split; [done|]. intuition congruence.
  - intros Hh. apply Hw. exists a, d. apply Hl in Ha; [|done]. by split_and!.
  - apply (Hx a a'); try done; by apply Hl.
Qed.

(** A block gets a port before it is first used. *)
Variant has_port (u : udp) (pcb : Z) (c : udp_pcb) (err : Z) (u' : udp) : Prop :=
  | has_port_ok c' : err = ERR_OK -> u_pcbs u' !! pcb = Some c' -> c' = set_local (u_local_ip c) (u_local_port c') c ->
      0 < u_local_port c' < 65536 ->
      (u_local_port c <> 0 /\ u' = u \/ u_local_port c = 0 /\ free_port u (u_local_port c')) -> has_port u pcb c err u'
  | has_port_use : err = ERR_USE -> u_local_port c = 0 -> no_free_port u -> u_pcbs u' = u_pcbs u -> udp_pcbs u' = udp_pcbs u ->
      has_port u pcb c err u'.

Lemma ensure_bound u pcb c : udp_ok u -> u_pcbs u !! pcb = Some c ->
  exists err u', (if u_local_port c =? 0 then udp_bind pcb (Some (u_local_ip c)) (u_local_port c) u else Ret (ERR_OK, u)) = Ret (err, u') /\
    udp_ok u' /\ (exclusive u -> exclusive u') /\ has_port u pcb c err u'.
Proof.
  intros Hu Hc. destruct (Z.eqb_spec (u_local_port c) 0) as [E0|E0].
  - rewrite E0. destruct (udp_bind_spec u pcb (Some (u_local_ip c)) 0 c Hu Hc ltac:(lia)) as (err & u1 & -> & Hu1 & Hb).
    pose proof (bound_exclusive _ _ _ _ _ _ _ Hc Hb) as Hx. exists err, u1. split; [done|]. split; [done|]. split; [done|].
    destruct Hb as [p -> Hp Rp _ Eu Hin _| -> Hp Eu El].
    + apply (has_port_ok _ _ _ _ _ (set_local (u_local_ip c) p c)); try done; [by rewrite Eu, lookup_insert_eq|]. right. split; [done|]. destruct Hp as [[_ Hp]|Hp]; [done|lia].
    + apply has_port_use; try done. by destruct Hp as [[_ Hp]|[Hp _]].
  - exists ERR_OK, u. split; [done|]. split; [done|]. split; [done|]. pose proof (proj1 (uo_bound _ Hu pcb c Hc)).
    apply (has_port_ok _ _ _ _ _ c); try done; [by destruct c|lia|by left].
Qed.

(** ** The other calls *)
Section Calls.
Variable pcb_malloc : nat -> gmap Z udp_pcb -> Z.

Inductive udp_call :=
  | UInit (rand : Z)
  | UNew
  | UBind (pcb : Z) (ip : option Z) (port : Z)
  | UBindNetif (pcb : Z) (n : option nif)
  | UConnect (pcb ip port : Z)
  | UDisconnect (pcb : Z)
  | URecv (pcb f arg : Z)
  | URemove (pcb : Z)
  | UAddrChanged (old_addr new_addr : Z).

Definition udp_do (k : udp_call) (u : udp) : res udp :=
  match k with
  | UInit rand => Ret (udp_init rand u)
  | UNew => Ret (udp_new pcb_malloc u).2
  | UBind pcb ip port => let* (_, u) := udp_bind pcb ip port u in Ret u
  | UBindNetif pcb n => udp_bind_netif pcb n u
  | UConnect pcb ip port => let* (_, u) := udp_connect pcb ip port u in Ret u
  | UDisconnect pcb => udp_disconnect pcb u
  | URecv pcb f arg => udp_recv pcb f arg u
  | URemove pcb => udp_remove pcb u
  | UAddrChanged old_addr new_addr => udp_netif_ip_addr_changed old_addr new_addr u
  end.
Definition udp_dos (ks : list udp_call) (u : udp) : res udp := foldl (fun r k => let* u := r in udp_do k u) (Ret u) ks.

(** What the caller owes: the block it names is one it got from udp_new and
    has not removed. *)
Definition call_ok (u : udp) (k : udp_call) : Prop :=
  match k with
  | UInit _ | UNew | UAddrChanged _ _ => True
  | UBind pcb _ port | UConnect pcb _ port => is_Some (u_pcbs u !! pcb) /\ 0 <= port < 65536
  | UBindNetif pcb _ | UDisconnect pcb | URecv pcb _ _ | URemove pcb => is_Some (u_pcbs u !! pcb)
  end.
Inductive calls_ok : udp -> list udp_call -> Prop :=
  | calls_nil u : calls_ok u []
  | calls_cons u k ks : call_ok u k -> (forall u', udp_do k u = Ret u' -> calls_ok u' ks) -> calls_ok u (k :: ks).

Definition moves (k : udp_call) : bool := match k with UAddrChanged _ _ => true | _ => false end.

(** memp_malloc returns NULL or a block that is not in use. *)
Hypothesis pcb_malloc_fresh : forall n m, pcb_malloc n m <> NULL -> m !! pcb_malloc n m = None.

Lemma udp_new_ok u : udp_ok u -> udp_ok (udp_new pcb_malloc u).2 /\ (exclusive u -> exclusive (udp_new pcb_malloc u).2).
Proof.
  intros Hu. unfold udp_new. set (a := pcb_malloc _ _). pose proof (pcb_malloc_fresh (u_allocs u) (u_pcbs u) : a <> NULL -> _ !! a = None) as Hf.
  destruct (Z.eqb_spec a NULL) as [_|Hn]; [split; [by destruct Hu; split|done]|]. specialize (Hf Hn). cbn [snd].
  assert (a ∉ udp_pcbs u) as Ha by (intros Ha; apply (uo_live _ Hu) in Ha; rewrite Hf in Ha; by destruct Ha).
  split.
  - split; cbn; try apply Hu.
    + rewrite lookup_insert_ne by done. apply Hu.
    + intros b Hb. rewrite lookup_insert_ne by congruence. by apply (uo_live _ Hu).
    + intros b cb. destruct (decide (b = a)) as [->|]; [rewrite lookup_insert_eq; intros [= <-]; cbn; split; [lia|done]|].
      rewrite lookup_insert_ne by done. apply (uo_bound _ Hu).
    + intros b cb. destruct (decide (b = a)) as [->|]; [rewrite lookup_insert_eq; intros [= <-]|rewrite lookup_insert_ne by done; apply (uo_bytes _ Hu)].
      cbn. unfold is_byte, UDP_TTL. lia.
  - intros Hx b b' cb cb'. cbn. intros Hb Hb' Hne. rewrite !lookup_insert_ne by congruence. by apply Hx.
Qed.
Lemma remove_elem pcb l : NoDup l -> NoDup (remove_pcb pcb l) /\ forall a, a ∈ remove_pcb pcb l <-> a ∈ l /\ a <> pcb.
Proof.
  induction 1 as [|x l Hx Hl [IH1 IH2]]; cbn [remove_pcb]; [split; [constructor|]; intros a; rewrite elem_of_nil; tauto|].
  destruct (Z.eqb_spec x pcb) as [->|Hne].
  - split; [done|]. intros a. rewrite elem_of_cons. intuition congruence.
  - split; [constructor; [rewrite IH2; tauto|done]|]. intros a. rewrite !elem_of_cons, IH2. intuition congruence.
Qed.
Lemma udp_remove_ok u pcb c : udp_ok u -> u_pcbs u !! pcb = Some c ->
  exists u', udp_remove pcb u = Ret u' /\ udp_ok u' /\ (exclusive u -> exclusive u') /\ u_pcbs u' = delete pcb (u_pcbs u) /\
    forall a, a ∈ udp_pcbs u' <-> a ∈ udp_pcbs u /\ a <> pcb.
Proof.
  intros Hu Hc. destruct (ok_pcb u pcb c Hu Hc) as [Hn Eg]. unfold udp_remove. rewrite (proj2 (Z.eqb_neq _ _) Hn), Eg. cbn [res_bind].
  destruct (remove_elem pcb (udp_pcbs u) (uo_nodup _ Hu)) as [Hd Hl]. eexists. split; [reflexivity|]. split.
  { split; cbn; try apply Hu; try done.
    - rewrite lookup_delete_ne by done. apply Hu.
    - intros a [Ha Hne]%Hl. rewrite lookup_delete_ne by done. by apply (uo_live _ Hu).
    - intros a ca [Hne Hca]%lookup_delete_Some. rewrite Hl. destruct (uo_bound _ Hu a ca Hca) as [H1 H2]. split; [done|]. rewrite <- H2. intuition.
    - intros a ca [Hne Hca]%lookup_delete_Some. by apply (uo_bytes _ Hu a). }
  split; [|done]. intros Hx a a' d d'. cbn. intros [Ha _]%Hl [Ha' _]%Hl Hne [_ Hd1]%lookup_delete_Some [_ Hd2]%lookup_delete_Some. by apply (Hx a a').
Qed.

(** A block changes, its binding stays. *)
Lemma uset_keeps u a c c' : udp_ok u -> u_pcbs u !! a = Some c -> u_local_port c' = u_local_port c -> u_local_ip c' = u_local_ip c ->
  u_ttl c' = u_ttl c -> u_tos c' = u_tos c -> udp_ok (uset a c' u) /\ (exclusive u -> exclusive (uset a c' u)).
Proof. intros. split; [by eapply uset_ok|intros; by eapply uset_exclusive]. Qed.

(** What udp_connect has to say. *)
Variant connected (u : udp) (pcb ip port : Z) (c : udp_pcb) (err : Z) (u' : udp) : Prop :=
  | connected_ok c' : err = ERR_OK -> u_pcbs u' !! pcb = Some c' -> u_remote_ip c' = ip -> u_remote_port c' = port ->
      u_flags c' = Z.lor (u_flags c) UDP_FLAGS_CONNECTED -> u_local_ip c' = u_local_ip c ->
      (u_local_port c <> 0 /\ u_local_port c' = u_local_port c \/ u_local_port c = 0 /\ free_port u (u_local_port c')) ->
      pcb ∈ udp_pcbs u' -> connected u pcb ip port c err u'
  | connected_use : err = ERR_USE -> u_local_port c = 0 -> no_free_port u -> u_pcbs u' = u_pcbs u -> udp_pcbs u' = udp_pcbs u ->
      connected u pcb ip port c err u'.

(** The last step of udp_connect: the block is in the list already. *)
Lemma connect_end u pcb ip port c : udp_ok u -> u_pcbs u !! pcb = Some c -> u_local_port c <> 0 ->
  let c' := set_uflags (Z.lor (u_flags c) UDP_FLAGS_CONNECTED) (set_remote ip port c) in
  (let* c := uget u pcb in
   let u := uset pcb (set_uflags (Z.lor (u_flags c) UDP_FLAGS_CONNECTED) (set_remote ip port c)) u in
   Ret (ERR_OK, if existsb (Z.eqb pcb) (udp_pcbs u) then u else set_udp_pcbs (pcb :: udp_pcbs u) u)) = Ret (ERR_OK, uset pcb c' u) /\
  udp_ok (uset pcb c' u) /\ (exclusive u -> exclusive (uset pcb c' u)) /\ u_pcbs (uset pcb c' u) !! pcb = Some c' /\ pcb ∈ udp_pcbs u.
Proof.
  intros Hu Hc Hp c'. rewrite (proj2 (ok_pcb u pcb c Hu Hc)). cbn [res_bind]. pose proof (proj2 (proj2 (uo_bound _ Hu pcb c Hc)) Hp) as Hin.
  cbn [uset udp_pcbs]. rewrite (proj2 (in_list u pcb) Hin). split; [done|].
  destruct (uset_keeps u pcb c c' Hu Hc) as [H1 H2]; try done. split; [done|]. split; [done|]. split; [cbn; by rewrite lookup_insert_eq|done].
Qed.

Lemma udp_connect_spec u pcb ip port c : udp_ok u -> u_pcbs u !! pcb = Some c ->
  exists err u', udp_connect pcb ip port u = Ret (err, u') /\ udp_ok u' /\ (exclusive u -> exclusive u') /\ connected u pcb ip port c err u'.
Proof.
  intros Hu Hc. destruct (ok_pcb u pcb c Hu Hc) as [Hn Eg]. unfold udp_connect. rewrite (proj2 (Z.eqb_neq _ _) Hn), Eg. cbn [res_bind].
  destruct (ensure_bound u pcb c Hu Hc) as (err & u1 & -> & Hu1 & Hx & [c1 -> Hc1 E1 R1 Hp| -> E0 Hno Eu El]); cbn [res_bind].
  - change (negb (ERR_OK =? ERR_OK)) with false. cbv iota.
    destruct (connect_end u1 pcb ip port c1 Hu1 Hc1 ltac:(lia)) as (E & H1 & H2 & H3 & H4). cbv zeta in E |- *. rewrite E. eexists _, _. split; [reflexivity|].
    split; [exact H1|]. split; [auto|]. eapply connected_ok; [done|exact H3|done|done|cbn; by rewrite E1|cbn; by rewrite E1| |done]. cbn. destruct Hp as [[Hp ->]|[Hp Hf]]; [left|by right].
    split; [done|]. congruence.
  - exists ERR_USE, u1. split; [done|]. split; [done|]. split; [done|]. by apply connected_use.
Qed.

Lemma move_pcbs_ok o n l : forall u, udp_ok u -> (forall a, a ∈ l -> a ∈ udp_pcbs u) ->
  exists u', move_pcbs o n l u = Ret u' /\ udp_ok u'.
Proof.
  induction l as [|a l IH]; intros u Hu Hl; cbn [move_pcbs]; [by exists u|].
  destruct (ok_live u a Hu (Hl a ltac:(by left))) as (_ & c & -> & Hc & _). cbn [res_bind]. apply IH.
  - destruct (_ =? _); [|done]. by apply (uset_ok u a c).
  - intros b Hb. destruct (_ =? _); apply Hl; by right.
Qed.

(** Every call returns and keeps the invariant. *)
Lemma udp_do_spec u k : udp_ok u -> call_ok u k ->
  exists u', udp_do k u = Ret u' /\ udp_ok u' /\ (moves k = false -> exclusive u -> exclusive u').
Proof.
  intros Hu Hk. destruct k; cbn [udp_do moves]; cbn in Hk.
  - eexists. split; [reflexivity|]. split; [by apply udp_init_ok|by intros _].
  - eexists. split; [reflexivity|]. destruct (udp_new_ok u Hu) as [H1 H2]. by split; [|intros _].
  - destruct Hk as [[c Hc] Hp]. destruct (udp_bind_spec u pcb ip port c Hu Hc Hp) as (err & u' & -> & Hu' & Hb). exists u'. split; [done|].
    split; [done|]. intros _. by eapply bound_exclusive.
  - destruct Hk as [c Hc]. unfold udp_bind_netif. rewrite (proj2 (ok_pcb u pcb c Hu Hc)). eexists. split; [reflexivity|].
    destruct (uset_keeps u pcb c (set_netif_idx (match n with Some n => netif_get_index n | None => NETIF_NO_INDEX end) c) Hu Hc); by try split.
  - destruct Hk as [[c Hc] Hp]. destruct (udp_connect_spec u pcb ip port c Hu Hc) as (err & u' & -> & Hu' & Hx & _). by exists u'.
  - destruct Hk as [c Hc]. destruct (ok_pcb u pcb c Hu Hc) as [Hn Eg]. unfold udp_disconnect. rewrite (proj2 (Z.eqb_neq _ _) Hn), Eg. eexists. split; [reflexivity|].
    split; [by eapply (uset_ok u pcb c)|intros _ Hx; by eapply (uset_exclusive u pcb c)].
  - destruct Hk as [c Hc]. destruct (ok_pcb u pcb c Hu Hc) as [Hn Eg]. unfold udp_recv. rewrite (proj2 (Z.eqb_neq _ _) Hn), Eg. eexists. split; [reflexivity|].
    split; [by eapply (uset_ok u pcb c)|intros _ Hx; by eapply (uset_exclusive u pcb c)].
  - destruct Hk as [c Hc]. destruct (udp_remove_ok u pcb c Hu Hc) as (u' & -> & Hu' & Hx & _). by exists u'.
  - unfold udp_netif_ip_addr_changed. destruct (_ && _); [|by exists u].
    destruct (move_pcbs_ok old_addr new_addr (udp_pcbs u) u Hu) as (u' & -> & Hu'); [done|]. by exists u'.
Qed.
Lemma udp_dos_cons k ks u u' : udp_do k u = Ret u' -> udp_dos (k :: ks) u = udp_dos ks u'.
Proof. intros E. unfold udp_dos. cbn [foldl res_bind]. by rewrite E. Qed.

Lemma udp_dos_spec ks : forall u, udp_ok u -> calls_ok u ks ->
  exists u', udp_dos ks u = Ret u' /\ udp_ok u' /\ (existsb moves ks = false -> exclusive u -> exclusive u').
Proof.
  induction ks as [|k ks IH]; intros u Hu Hk; [by exists u|]. inversion Hk as [|? ? ? Hk1 Hk2]; subst.
  destruct (udp_do_spec u k Hu Hk1) as (u1 & E1 & Hu1 & Hx1). rewrite (udp_dos_cons _ _ _ _ E1).
  destruct (IH u1 Hu1 (Hk2 u1 E1)) as (u' & E' & Hu' & Hx'). exists u'. split; [done|]. split; [done|].
  cbn [existsb]. intros [Hm Hms]%orb_false_iff Hx. auto.
Qed.
End Calls.
