(* ===== verification/UdpRx.v ===== *)
(** * UDP: which control block gets a datagram, and udp_input

    The loop of udp_input that looks for the receiver is compared with a
    definition that says which block it is; then udp_input as a whole, against
    what ip4_input asks of a transport protocol. *)
From S2P Require Import Prelude NetShim Ip4Addr Link Etharp EtharpInv Checksum Pbuf PbufChain PbufOps NetGlue PbufClone Ethernet EthernetInv EthernetRx Ip4 Icmp Ip4Input Ip4Inv IcmpInv Ip4Rx Udp UdpInv.

(** ** The receiver *)
Section Choice.
Variable u : udp.
Variable cn n : nif.
Variable src_ip src dest_ip dest : Z.
Variable broadcast : bool.

Definition on_pcb (f : udp_pcb -> bool) (a : Z) : bool := match u_pcbs u !! a with Some c => f c | None => false end.
(** Bound to the port, at an address the datagram is for. *)
Definition takes_local : Z -> bool := on_pcb (fun c => (u_local_port c =? dest) && udp_input_local_match c cn n dest_ip broadcast).
(** And its remote end is where the datagram comes from. *)
Definition takes_full (a : Z) : bool :=
  takes_local a && on_pcb (fun c => (u_remote_port c =? src) && ((u_remote_ip c =? IPADDR_ANY) || (u_remote_ip c =? src_ip))) a.
Definition takes_any (a : Z) : bool := takes_local a && on_pcb (fun c => negb (has_flag (u_flags c) UDP_FLAGS_CONNECTED)) a.
(** For 255.255.255.255: a block bound to the address of the interface. *)
Definition at_netif : Z -> bool := on_pcb (fun c => u_local_ip c =? if_ip n).

(** Of the unconnected blocks the first, but a block bound to the address of
    the interface goes first for the limited broadcast. *)
Definition pick (l : list Z) : Z :=
  match (if broadcast && (dest_ip =? IPADDR_BROADCAST) then List.find at_netif l else None) with
  | Some a => a
  | None => default NULL (head l)
  end.
(** The block that gets the datagram; NULL: none. *)
Definition receiver : Z :=
  match List.find takes_full (udp_pcbs u) with
  | Some a => a
  | None => pick (List.filter takes_any (udp_pcbs u))
  end.
(** The list afterwards: the block that matched fully in front. *)
Definition list_after : list Z :=
  match List.find takes_full (udp_pcbs u) with
  | Some a => a :: remove_pcb a (udp_pcbs u)
  | None => udp_pcbs u
  end.

Lemma remove_middle a (l l' : list Z) : ~ In a l -> l ++ l' = remove_pcb a (l ++ a :: l').
Proof.
  induction l as [|b l IH]; cbn; intros H; [by rewrite Z.eqb_refl|]. destruct (Z.eqb_spec b a) as [->|]; [exfalso; auto|]. f_equal. auto.
Qed.
Lemma find_app {A} (f : A -> bool) (l l' : list A) : List.find f (l ++ l') = match List.find f l with Some a => Some a | None => List.find f l' end.
Proof. induction l as [|b l IH]; cbn; [done|]. by destruct (f b). Qed.

Hypothesis u_ok : udp_ok u.

Lemma pick_in l : pick l = NULL \/ pick l ∈ l.
Proof.
  unfold pick. destruct (if broadcast && (dest_ip =? IPADDR_BROADCAST) then List.find at_netif l else None) as [a|] eqn:E.
  - right. destruct (_ && _); [|done]. apply find_some in E as [E _]. by apply list_elem_of_In.
  - destruct l as [|a l]; [by left|right; by left].
Qed.
Lemma pick_snoc l a : (forall b, b ∈ l -> b ∈ udp_pcbs u) -> a ∈ udp_pcbs u ->
  pick (l ++ [a]) = if pick l =? NULL then a
    else if broadcast && (dest_ip =? IPADDR_BROADCAST) && negb (at_netif (pick l)) && at_netif a then a else pick l.
Proof.
  intros Hl Ha. assert (forall b, b ∈ l -> (b =? NULL) = false) as Hn.
  { intros b Hb. apply Z.eqb_neq. exact (proj1 (ok_live u b u_ok (Hl b Hb))). }
  unfold pick. destruct (broadcast && _); cbn [andb].
  2:{ destruct l as [|b l]; cbn; [done|]. by rewrite (Hn b ltac:(by left)). }
  rewrite find_app. destruct (List.find at_netif l) as [b|] eqn:E.
  - apply find_some in E as [Hb Eb]. apply list_elem_of_In in Hb. by rewrite (Hn b Hb), Eb.
  - cbn [List.find]. destruct l as [|b l]; cbn; [by destruct (at_netif a)|]. rewrite (Hn b ltac:(by left)).
    cbn in E. destruct (at_netif b); [done|]. cbn [negb andb]. by destruct (at_netif a).
Qed.

Lemma note_uncon_spec a c l : a ∈ udp_pcbs u -> u_pcbs u !! a = Some c -> takes_local a = true -> (forall b, b ∈ l -> b ∈ udp_pcbs u) ->
  note_uncon u a c n dest_ip broadcast (pick (List.filter takes_any l)) = Ret (pick (List.filter takes_any (l ++ [a]))).
Proof.
  intros Ha Hc Ht Hl. unfold note_uncon. rewrite List.filter_app. cbn [List.filter].
  assert (takes_any a = negb (has_flag (u_flags c) UDP_FLAGS_CONNECTED)) as -> by (unfold takes_any, on_pcb; by rewrite Ht, Hc).
  destruct (negb (has_flag _ _)); [|by rewrite app_nil_r].
  assert (forall b, b ∈ List.filter takes_any l -> b ∈ udp_pcbs u) as Hf.
  { intros b Hb. apply list_elem_of_In, filter_In in Hb as [Hb _]. by apply Hl, list_elem_of_In. }
  rewrite pick_snoc by done. destruct (Z.eqb_spec (pick (List.filter takes_any l)) NULL) as [_|Hne]; [done|].
  destruct (broadcast && _); cbn [andb]; [|done]. destruct (pick_in (List.filter takes_any l)) as [|Hp]; [done|].
  destruct (ok_live u _ u_ok (Hf _ Hp)) as (_ & uc & -> & Huc & _). cbn [res_bind]. unfold at_netif, on_pcb. by rewrite Huc, Hc.
Qed.

Lemma udp_scan_spec l : forall before, before ++ l = udp_pcbs u -> List.find takes_full before = None ->
  exists full uncon,
    udp_scan u cn n src_ip src dest_ip dest broadcast before l (pick (List.filter takes_any before)) = Ret (full, uncon, list_after) /\
    (if full =? NULL then uncon else full) = receiver.
Proof.
  unfold receiver, list_after. induction l as [|a l IH]; intros before Eb Hf; cbn [udp_scan].
  - rewrite app_nil_r in Eb. subst before. rewrite Hf. by eexists _, _.
  - assert (forall b, b ∈ before ++ a :: l -> b ∈ udp_pcbs u) as Hl by (intros b; by rewrite Eb).
    destruct (ok_live u a u_ok (Hl a ltac:(apply elem_of_app; right; by left))) as (Hn & c & -> & Hc & _). cbn [res_bind].
    assert (takes_local a = (u_local_port c =? dest) && udp_input_local_match c cn n dest_ip broadcast) as Et by (unfold takes_local, on_pcb; by rewrite Hc).
    assert (takes_full a = takes_local a && ((u_remote_port c =? src) && ((u_remote_ip c =? IPADDR_ANY) || (u_remote_ip c =? src_ip)))) as Eu
      by (unfold takes_full, on_pcb; by rewrite Hc).
    rewrite <- Et. destruct (takes_local a) eqn:Hta.
    + rewrite note_uncon_spec; try done; [|apply Hl, elem_of_app; right; by left|intros b Hb; apply Hl, elem_of_app; by left]. cbn [res_bind].
      cbn [andb] in Eu. rewrite <- Eu. destruct (takes_full a) eqn:Hfa.
      * assert (List.find takes_full (udp_pcbs u) = Some a) as -> by (rewrite <- Eb, find_app, Hf; cbn; by rewrite Hfa).
        eexists _, _. split; [|by rewrite (proj2 (Z.eqb_neq _ _) Hn)]. repeat f_equal. rewrite <- Eb.
        apply remove_middle. intros Hin. pose proof (List.find_none takes_full before Hf a Hin). congruence.
      * apply IH; [by rewrite <- app_assoc|]. rewrite find_app, Hf. cbn. by rewrite Hfa.
    + cbn [andb] in Eu. assert (List.filter takes_any before = List.filter takes_any (before ++ [a])) as ->.
      { rewrite List.filter_app. cbn [List.filter]. assert (takes_any a = false) as -> by (unfold takes_any; by rewrite Hta). by rewrite app_nil_r. }
      apply IH; [by rewrite <- app_assoc|]. rewrite find_app, Hf. cbn. by rewrite Eu.
Qed.
End Choice.

(** The receiver accepts the datagram. *)
Lemma receiver_cases u cn n src_ip src dest_ip dest bc :
  let r := receiver u cn n src_ip src dest_ip dest bc in
  r = NULL \/ r ∈ udp_pcbs u /\ takes_any u cn n dest_ip dest bc r || takes_full u cn n src_ip src dest_ip dest bc r = true.
Proof.
  unfold receiver. destruct (List.find _ _) as [a|] eqn:E.
  - right. apply find_some in E as [E1 E2]. apply list_elem_of_In in E1. by rewrite E2, orb_true_r.
  - destruct (pick_in u n dest_ip bc (List.filter (takes_any u cn n dest_ip dest bc) (udp_pcbs u))) as [|H]; [by left|right].
    apply list_elem_of_In, filter_In in H as [H1 H2]. apply list_elem_of_In in H1. by rewrite H2.
Qed.
Lemma receiver_in u cn n src_ip src dest_ip dest bc :
  let r := receiver u cn n src_ip src dest_ip dest bc in r = NULL \/ r ∈ udp_pcbs u.
Proof. cbv zeta. destruct (receiver_cases u cn n src_ip src dest_ip dest bc) as [|[H _]]; auto. Qed.
Lemma receiver_takes u : udp_ok u -> forall cn n src_ip src dest_ip dest bc a, a ∈ udp_pcbs u ->
  (forall b, b ∈ udp_pcbs u -> takes_local u cn n dest_ip dest bc b = true -> b = a) ->
  takes_any u cn n dest_ip dest bc a || takes_full u cn n src_ip src dest_ip dest bc a = true ->
  receiver u cn n src_ip src dest_ip dest bc = a.
Proof.
  intros Hu cn n src_ip src dest_ip dest bc a Ha Hone Ht.
  assert (forall b, takes_any u cn n dest_ip dest bc b || takes_full u cn n src_ip src dest_ip dest bc b = true -> takes_local u cn n dest_ip dest bc b = true) as Hloc.
  { intros b. unfold takes_any, takes_full. destruct (takes_local _ _ _ _ _ _ b); [done|]. by cbn. }
  destruct (receiver_cases u cn n src_ip src dest_ip dest bc) as [Hr|[Hr Htr]]; [|by apply Hone, Hloc].
  exfalso. unfold receiver in Hr. destruct (List.find _ _) as [b|] eqn:E.
  - apply find_some in E as [E _]. apply list_elem_of_In in E. subst b. by destruct (ok_live u NULL Hu E).
  - pose proof (List.find_none _ _ E a (proj1 (list_elem_of_In _ _) Ha)) as Hf. rewrite Hf, orb_false_r in Ht.
    assert (a ∈ List.filter (takes_any u cn n dest_ip dest bc) (udp_pcbs u)) as Hin by (by apply list_elem_of_In, filter_In; split; [apply list_elem_of_In|]).
    assert (forall l, (forall b, b ∈ l -> b ∈ udp_pcbs u) -> a ∈ l -> pick u n dest_ip bc l <> NULL) as Hpick.
    { intros l Hl Hal. unfold pick. destruct (if bc && (dest_ip =? IPADDR_BROADCAST) then List.find (at_netif u n) l else None) as [b|] eqn:Ep.
      - destruct (bc && _); [|done]. apply find_some in Ep as [Ep _]. apply list_elem_of_In, Hl in Ep. by destruct (ok_live u b Hu Ep).
      - destruct l as [|b l]; [by apply elem_of_nil in Hal|]. cbn. by destruct (ok_live u b Hu (Hl b ltac:(by left))). }
    apply (Hpick _ ltac:(intros b Hb; apply list_elem_of_In, filter_In in Hb as [Hb _]; by apply list_elem_of_In) Hin Hr).
Qed.
(** Without clashes one block at most accepts a unicast datagram. *)
Lemma exclusive_takes u cn n dest_ip dest a b : exclusive u -> a ∈ udp_pcbs u -> b ∈ udp_pcbs u ->
  takes_local u cn n dest_ip dest false a = true -> takes_local u cn n dest_ip dest false b = true -> b = a.
Proof.
  intros Hx Ha Hb. unfold takes_local, on_pcb. destruct (u_pcbs u !! a) as [c|] eqn:Hc, (u_pcbs u !! b) as [c'|] eqn:Hc'; try done.
  assert (forall c, (u_local_port c =? dest) && udp_input_local_match c cn n dest_ip false = true ->
    u_local_port c = dest /\ (u_local_ip c = IPADDR_ANY \/ u_local_ip c = dest_ip)) as Hm.
  { intros k [E1 E2]%andb_true_iff. apply Z.eqb_eq in E1. split; [done|]. unfold udp_input_local_match in E2. destruct (_ && _); [done|].
    apply orb_true_iff in E2 as [E2|E2]; apply Z.eqb_eq in E2; auto. }
  intros [M1 M2]%Hm [N1 N2]%Hm. destruct (Z.eq_dec b a) as [|Hne]; [done|]. exfalso.
  apply (Hx b a c' c Hb Ha Hne Hc' Hc). split; [congruence|]. intuition congruence.
Qed.
Lemma remove_perm a l : a ∈ l -> Permutation (a :: remove_pcb a l) l.
Proof.
  induction l as [|b l IH]; [by intros ?%elem_of_nil|]. intros Ha. cbn [remove_pcb]. destruct (Z.eqb_spec b a) as [->|Hne]; [done|].
  apply elem_of_cons in Ha as [->|Ha]; [done|]. rewrite perm_swap. by rewrite IH.
Qed.
Lemma list_after_perm u cn n src_ip src dest_ip dest bc : Permutation (list_after u cn n src_ip src dest_ip dest bc) (udp_pcbs u).
Proof.
  unfold list_after. destruct (List.find _ _) as [a|] eqn:E; [|done]. apply find_some in E as [E _]. by apply remove_perm, list_elem_of_In.
Qed.

(** ** What becomes of a datagram *)

(** [valid]: the sender did without a checksum, or the sum over the pseudo
    header and the datagram is 0xffff. *)
Definition datagram_valid (m : memory) (ps : list (Z * pbuf)) (b : pbuf) (d : ip_globals) : bool :=
  (udph_chksum m (payload b) =? 0) ||
  (ones16 (pseudo_words IP_PROTO_UDP (p_tot_len b) (current_iphdr_src d) (current_iphdr_dest d) + wsum false (chain_data m ps)) =? 65535).

Inductive verdict :=
  | Dropped
  | Unreachable
  | Delivered (pcb : Z) (c : udp_pcb).

(** [r]: the receiver.  [local]: the datagram is for the address of the
    interface. *)
Definition judge (u : udp) (r : Z) (local valid : bool) : verdict :=
  if negb valid then Dropped
  else match (if r =? NULL then None else u_pcbs u !! r) with
       | Some c => if u_recv c =? NULL then Dropped else Delivered r c
       | None => if local then Unreachable else Dropped
       end.

Lemma judge_delivered u r local valid pcb c : judge u r local valid = Delivered pcb c -> u_pcbs u !! pcb = Some c /\ u_recv c <> NULL.
Proof.
  unfold judge. destruct valid; cbn [negb]; [|done]. destruct (r =? NULL); [by destruct local|]. destruct (u_pcbs u !! r) as [c'|] eqn:E; [|by destruct local].
  destruct (Z.eqb_spec (u_recv c') NULL); [done|]. intros [= <- <-]. done.
Qed.

Section Input.
Variable custom_free : Z -> pheap -> res pheap.
Variable malloc : nat -> gmap Z pbuf -> Z.
Variable bmos : netif.
Variable nf : netifs.
Variable ip4_frag : Z -> Z -> Z -> ipst -> res (Z * ipst).
Context {T : Type}.
Variable recv : Z -> Z -> Z -> Z -> Z -> Z -> ip_globals -> ipst -> udp * T -> res (ipst * (udp * T)).
Abbreviation input := (udp_input custom_free malloc bmos nf ip4_frag recv).

(** The datagram without its header. *)
Definition behind_header (p : Z) (b : pbuf) (st : ipst) : ipst := set_ip_heap (pset p (advance UDP_HLEN b) (ip_heap st)) st.

Lemma placed_advance k p b : placed p b -> 0 <= k <= p_len b -> placed p (advance k b).
Proof. intros (P1 & P2 & P3 & P4) Hk. unfold placed. cbn. split_and!; [lia..|]. intros Hf. specialize (P4 Hf). lia. Qed.

Lemma udp_input_short p inp d st u (v : T) b : pget (ip_heap st) p = Ret b -> inp <> NULL -> p_len b < UDP_HLEN ->
  input p inp d st (u, v) = (let* st := ip_free custom_free p st in Ret (st, (u, v))).
Proof.
  intros Hg Hinp Hl. pose proof Hg as [Hp _]%pget_lookup. unfold udp_input.
  rewrite (proj2 (Z.eqb_neq _ _) Hp), (proj2 (Z.eqb_neq _ _) Hinp), Hg. cbn [negb lwip_assert res_bind]. by rewrite (proj2 (Z.ltb_lt _ _) Hl).
Qed.

(** A datagram with a header, by its verdict. *)
Lemma udp_input_eq p inp d st u (v : T) b ps cn nn :
  udp_ok u -> chain_at (pbufs (ip_heap st)) p ((p, b) :: ps) -> wf_chain ((p, b) :: ps) -> one_packet ((p, b) :: ps) -> mem_ok (pmem (ip_heap st)) ->
  placed p b -> p_len b <= p_tot_len b < 65536 -> inp <> NULL -> UDP_HLEN <= p_len b ->
  0 <= current_iphdr_src d < 4294967296 -> 0 <= current_iphdr_dest d < 4294967296 ->
  nf_at nf inp = Some cn -> current_input_netif d = inp -> nf_at nf (current_netif d) = Some nn ->
  let m := pmem (ip_heap st) in
  let bc := ip4_addr_isbroadcast (current_iphdr_dest d) nn in
  let src := udph_src m (payload b) in
  let dest := udph_dest m (payload b) in
  let r := receiver u cn cn (current_iphdr_src d) src (current_iphdr_dest d) dest bc in
  let u' := set_udp_pcbs (list_after u cn cn (current_iphdr_src d) src (current_iphdr_dest d) dest bc) u in
  let local := if_ip cn =? current_iphdr_dest d in
  let valid := datagram_valid m ((p, b) :: ps) b d in
  let st1 := behind_header p b st in
  match judge u r local valid with
  | Delivered pcb c => input p inp d st (u, v) = recv (u_recv c) (u_recv_arg c) pcb p (current_iphdr_src d) src d st1 (u', v)
  | Unreachable => input p inp d st (u, v) = (let* st := udp_unreach custom_free malloc bmos nf ip4_frag p d bc st1 in Ret (st, (u', v)))
  | Dropped => exists st2, (st2 = st \/ st2 = st1) /\ input p inp d st (u, v) = (let* st := ip_free custom_free p st2 in Ret (st, (u', v)))
  end.
Proof.
  intros Hu Hch Hwf H1p Hm Hpl Ht Hinp Hl Rs Rd Hcn Ei Hnn m bc src dest r u' local valid st1.
  assert (pget (ip_heap st) p = Ret b) as Hg by (by eapply pget_chain). pose proof Hg as [Hp _]%pget_lookup.
  assert (input p inp d st (u, v) =
    if (if negb (r =? NULL) then true else local) then
      if valid then
        if negb (r =? NULL) then
          let* c := uget u' r in
          if negb (u_recv c =? NULL) then recv (u_recv c) (u_recv_arg c) r p (current_iphdr_src d) src d st1 (u', v)
          else let* st := ip_free custom_free p st1 in Ret (st, (u', v))
        else let* st := udp_unreach custom_free malloc bmos nf ip4_frag p d bc st1 in Ret (st, (u', v))
      else let* st := ip_free custom_free p st in Ret (st, (u', v))
    else let* st := ip_free custom_free p st in Ret (st, (u', v))) as ->.
  { unfold udp_input. rewrite (proj2 (Z.eqb_neq _ _) Hp), (proj2 (Z.eqb_neq _ _) Hinp). cbn [negb lwip_assert].
    rewrite Hg. cbn [res_bind]. rewrite (proj2 (Z.ltb_ge _ _) Hl), Hnn. cbn [res_of_option res_bind]. rewrite Ei, Hcn. cbn [res_of_option res_bind fst snd].
    fold m. fold src. fold dest. fold bc.
    destruct (udp_scan_spec u cn cn (current_iphdr_src d) src (current_iphdr_dest d) dest bc Hu (udp_pcbs u) [] eq_refl eq_refl) as (full & uncon & E & Er).
    cbn [List.filter] in E. assert (pick u cn (current_iphdr_dest d) bc [] = NULL) as E0 by (unfold pick; by destruct (_ && _)). rewrite E0 in E.
    rewrite E. cbn [res_bind fst snd]. rewrite Er. fold r u' local. destruct (if negb (r =? NULL) then true else local); [|done].
    rewrite (chksum_pseudo_correct (ip_heap st) p ((p, b) :: ps)); try done; [|unfold UDP_HLEN in *; lia].
    fold m. set (k := ones16 _). assert (valid = ((udph_chksum m (payload b) =? 0) || (k =? 65535))) as -> by done.
    assert ((let* sum := if negb (udph_chksum m (payload b) =? 0) then Ret (65535 - k) else Ret 0 in Ret (negb (sum =? 0)))
      = Ret (negb ((udph_chksum m (payload b) =? 0) || (k =? 65535)))) as Ek.
    { destruct (udph_chksum m (payload b) =? 0); cbn [negb orb res_bind]; [done|].
      destruct (Z.eqb_spec k 65535), (Z.eqb_spec (65535 - k) 0); try done; lia. }
    destruct (if negb (udph_chksum m (payload b) =? 0) then _ else _) as [sum| |]; try done. cbn [res_bind] in Ek |- *. injection Ek as ->.
    destruct (_ || _); cbn [negb]; [|done].
    rewrite (remove_header_gen p UDP_HLEN b _ Hg); [|unfold UDP_HLEN in *; lia|done]. destruct Hpl as (_ & P1 & P2 & _).
    cbn [Z.eqb negb res_bind lwip_assert]. rewrite (u64_small (payload b + UDP_HLEN)) by (unfold UDP_HLEN in *; lia). done. }
  unfold judge. destruct valid; cbn [negb]; [|exists st; split; [by left|by destruct (if negb (r =? NULL) then true else local)]].
  assert (r = NULL \/ r ∈ udp_pcbs u) as [Er|Hr] by apply receiver_in.
  - rewrite Er. cbn [Z.eqb NULL negb]. destruct local; [done|]. exists st. by split; [left|].
  - destruct (ok_live u r Hu Hr) as (Hn & c & _ & Hc & _). rewrite (proj2 (Z.eqb_neq _ _) Hn), Hc. cbn [negb].
    rewrite (uget_Some u' r c Hn Hc). cbn [res_bind]. destruct (_ =? NULL); cbn [negb]; [|done]. exists st1. by split; [right|].
Qed.
End Input.

(** ** udp_input returns and keeps the packets in order *)
Section Safe.
Variable custom_free : Z -> pheap -> res pheap.
Variable malloc : nat -> gmap Z pbuf -> Z.
Context (Hmalloc : malloc_ok malloc).
Variable bmos : netif.
Context (Hbmos : nif_hwaddr_len bmos = ETH_HWADDR_LEN).
#[local] Instance udp_ops : LinkOps nic := nic_link custom_free malloc bmos.
Variable known : Z -> Prop.
Context (known_null : ~ known 0).
Variable nf : netifs.
Context (Hnf : netifs_ok known nf).
Variable ip4_frag : Z -> Z -> Z -> ipst -> res (Z * ipst).
Context (Hfrag : forall F0, @frag_ok F0 custom_free malloc Hmalloc bmos Hbmos known nf ip4_frag).
Abbreviation okF F0 x st := (@arp_ok nic udp_ops (@nic_laws F0 custom_free malloc Hmalloc bmos Hbmos) known x (ip_arp st)).
Context {T : Type}.
Variable recv : Z -> Z -> Z -> Z -> Z -> Z -> ip_globals -> ipst -> udp * T -> res (ipst * (udp * T)).
Variable good : T -> Prop.

(** A callback gets the packet, which is its own, from a block that has the
    callback registered. *)
Definition recv_ok : Prop := forall F f arg pcb p addr port d st u v x c,
  udp_ok u -> good v -> okF F (p :: x) st -> sole p st -> u_pcbs u !! pcb = Some c -> u_recv c = f -> u_recv_arg c = arg -> f <> NULL ->
  is_Some (nf_at nf (current_input_netif d)) ->
  exists st' u' v' x', recv f arg pcb p addr port d st (u, v) = Ret (st', (u', v')) /\ udp_ok u' /\ good v' /\ okF F x' st'.
Context (Hrecv : recv_ok).

Lemma advance_links k b : same_links b (advance k b).
Proof. by repeat split. Qed.
Lemma advance_advance k j b : advance k (advance j b) = advance (j + k) b.
Proof. unfold advance, set_data. cbn. f_equal; lia. Qed.

Lemma ok_advance F p x b k st : okF F (p :: x) st -> pget (ip_heap st) p = Ret b -> 0 <= k <= p_len b ->
  okF F (p :: x) (set_ip_heap (pset p (advance k b) (ip_heap st)) st).
Proof.
  intros H Hg Hk. destruct (ok_pget (F := F) custom_free malloc Hmalloc bmos Hbmos known st p x H) as (b0 & Hg0 & _ & Hl & Ht).
  rewrite Hg in Hg0. injection Hg0 as <-.
  exact (ok_head_pset (F := F) custom_free malloc Hmalloc bmos Hbmos known st p x b (advance k b) H Hg (advance_links k b) ltac:(cbn; lia) ltac:(cbn; lia) ltac:(cbn; lia)).
Qed.

(** The header goes back over what was taken off. *)
Lemma header_force_over p k b h : pget h p = Ret (advance k b) -> placed p b -> 0 < k <= p_len b -> p_len b <= p_tot_len b < 65536 ->
  pbuf_header_force p k h = Ret (0, pset p b h).
Proof.
  intros Hg Hpl Hk Ht. apply pget_lookup in Hg as [Hp Hlk].
  destruct (header_force_back p k b (pset p b h) (pget_pset h p b Hp) Hpl Hk Ht) as (b1 & b2 & _ & E & _ & _ & _ & _ & -> & ->).
  assert (pset p (advance k b) (pset p b h) = h) as E0.
  { destruct h as [m me]. unfold pset. cbn in *. by rewrite insert_insert_eq, insert_id. }
  by rewrite E0 in E.
Qed.

Lemma udp_unreach_spec F p d b x bc st : okF F (p :: x) st -> pget (ip_heap st) p = Ret (advance (current_ip_header_tot_len d + UDP_HLEN) b) ->
  placed p b -> 20 <= current_ip_header_tot_len d -> current_ip_header_tot_len d + UDP_HLEN <= p_len b -> p_len b <= p_tot_len b < 65536 ->
  exists st', udp_unreach custom_free malloc bmos nf ip4_frag p d bc st = Ret st' /\ okF F x st'.
Proof.
  intros H Hg Hpl Hh Hl Ht. unfold udp_unreach. set (k := current_ip_header_tot_len d + UDP_HLEN) in *.
  assert (28 <= k) as Hk by (unfold k, UDP_HLEN; lia).
  assert (exists st2, (if negb bc && negb (ip4_addr_ismulticast (current_iphdr_dest d)) then
      let* (_, h) := pbuf_header_force p k (ip_heap st) in
      icmp_dest_unreach custom_free malloc bmos nf ip4_frag p ICMP_DUR_PORT (set_ip_heap h st) else Ret st) = Ret st2 /\ okF F (p :: x) st2)
    as (st2 & -> & H2).
  { destruct (_ && _); [|by exists st]. rewrite (header_force_over p k b _ Hg Hpl ltac:(lia) Ht). cbn [res_bind].
    assert (okF F (p :: x) (set_ip_heap (pset p b (ip_heap st)) st)) as H2.
    { refine (ok_head_pset (F := F) custom_free malloc Hmalloc bmos Hbmos known st p x _ b H Hg _ _ _ _); [by repeat split|lia|cbn; lia|lia]. }
    apply (send_response_spec (F := F) custom_free malloc Hmalloc bmos Hbmos known known_null nf Hnf ip4_frag (Hfrag F) p ICMP_DUR ICMP_DUR_PORT b (p :: x) _ H2); [|lia].
    eapply (ok_source (F := F) custom_free malloc Hmalloc bmos Hbmos known); [exact H2|]. apply pget_lookup in Hg as [Hp _]. by apply pget_pset. }
  cbn [res_bind]. destruct (ip_free_spec (F := F) custom_free malloc Hmalloc bmos Hbmos known _ p x H2) as (st' & -> & H' & _). by exists st'.
Qed.

(** What ip4_input asks of a transport protocol. *)
Lemma udp_input_spec F p inp d st u v x : udp_ok u -> good v -> okF F (p :: x) st -> (exists b, delivered p d st b) -> current_input_netif d = inp ->
  is_Some (nf_at nf inp) -> is_Some (nf_at nf (current_netif d)) ->
  exists st' u' v' x', udp_input custom_free malloc bmos nf ip4_frag recv p inp d st (u, v) = Ret (st', (u', v')) /\ udp_ok u' /\ good v' /\ okF F x' st'.
Proof.
  intros Hu Hv H (b & [D1 D2 D3 D4 D5 D6 D7 D8]) Ei [cn Hcn] [nn Hnn]. set (k := current_ip_header_tot_len d) in *.
  destruct (ok_source (F := F) custom_free malloc Hmalloc bmos Hbmos known p _ x st H D1) as (ps & S1 & S2 & S3).
  assert (inp <> NULL) as Hinp by (intros ->; apply known_null; by apply (no_nif _ _ Hnf NULL cn)).
  destruct (Z.ltb_spec (p_len (advance k b)) UDP_HLEN) as [Hlt|Hge].
  { destruct (ip_free_spec (F := F) custom_free malloc Hmalloc bmos Hbmos known st p x H) as (st' & E & H' & _). exists st', u, v, x. split; [|done].
    rewrite (udp_input_short _ _ _ _ _ _ p inp d st u v _ D1 Hinp Hlt), E. done. }
  assert (placed p (advance k b)) as Hpl by (apply placed_advance; [done|lia]).
  pose proof (udp_input_eq custom_free malloc bmos nf ip4_frag recv p inp d st u v (advance k b) ps cn nn Hu S1 S2 S3
    (ok_mem_ok (F := F) custom_free malloc Hmalloc bmos Hbmos known st _ H) Hpl ltac:(cbn; lia) Hinp Hge D7 D8 Hcn Ei Hnn) as E. cbv zeta in E.
  set (u' := set_udp_pcbs _ u) in E. assert (udp_ok u') as Hu' by (apply perm_ok; [done|apply list_after_perm]).
  set (st1 := behind_header p (advance k b) st) in E.
  assert (okF F (p :: x) st1) as H1 by (apply ok_advance; [done|done|unfold UDP_HLEN in *; lia]).
  assert (forall st2, okF F (p :: x) st2 -> exists st' u0 v' x', (let* st := ip_free custom_free p st2 in Ret (st, (u', v))) = Ret (st', (u0, v')) /\
    udp_ok u0 /\ good v' /\ okF F x' st') as Hfree.
  { intros st2 H2. destruct (ip_free_spec (F := F) custom_free malloc Hmalloc bmos Hbmos known st2 p x H2) as (st' & -> & H' & _). by exists st', u', v, x. }
  assert (pget (ip_heap st1) p = Ret (advance (k + UDP_HLEN) b)) as Hg1.
  { rewrite <- advance_advance. apply pget_lookup in D1 as [Hp _]. exact (pget_pset (ip_heap st) p _ Hp). }
  destruct (judge _ _ _ _) as [| |pcb c] eqn:J.
  - destruct E as (st2 & [-> | ->] & ->); by apply Hfree.
  - rewrite E. destruct (udp_unreach_spec F p d b x (ip4_addr_isbroadcast (current_iphdr_dest d) nn) st1 H1 Hg1 D3 ltac:(lia) ltac:(cbn in Hge; unfold k in *; lia) D6)
      as (st' & -> & H'). by exists st', u', v, x.
  - rewrite E. apply judge_delivered in J as (Hc & Hf). apply (Hrecv F _ _ _ _ _ _ _ _ _ _ x c); try done; [by exists (advance (k + UDP_HLEN) b)|by rewrite Ei, Hcn].
Qed.
End Safe.
