(* ===== verification/UdpSend.v ===== *)
(** * UDP: sending

    What udp_sendto puts on the wire, and that it returns and keeps the packets
    in order. *)
From S2P Require Import Prelude NetShim Ip4Addr Link Etharp EtharpInv Checksum Pbuf PbufChain PbufOps NetGlue PbufClone Ethernet EthernetInv EthernetRx Ip4 Icmp Ip4Input Ip4Inv IcmpInv Ip4Hdr Ip4Send Udp UdpInv.

(** ** The UDP header *)
Definition udphdr (src dst len c : Z) : list Z := be16 src ++ be16 dst ++ be16 len ++ le_bytes 2 c.

(** The four stores of udp_sendto_if_src. *)
Definition write_udphdr (m : memory) (a src dst len : Z) : memory :=
  let m := mem_write m a (le_bytes 2 (lwip_htons src)) in
  let m := mem_write m (a + 2) (le_bytes 2 (lwip_htons dst)) in
  let m := mem_write m (a + 6) (le_bytes 2 0) in
  mem_write m (a + 4) (le_bytes 2 (lwip_htons len)).

Lemma write_udphdr_read m a src dst len c :
  addr_ok a 8 -> 0 <= src < 65536 -> 0 <= dst < 65536 -> 0 <= len < 65536 ->
  mem_read (write_udphdr m a src dst len) a 8 = udphdr src dst len 0 /\
  mem_read (mem_write (write_udphdr m a src dst len) (a + 6) (le_bytes 2 c)) a 8 = udphdr src dst len c.
Proof.
  intros Ha Hs Hd Hl. unfold write_udphdr. rewrite !htons_bytes by lia.
  pose proof (length_mem_read m a 8) as HL. destruct (mem_read m a 8) as [|x0 l] eqn:E; [discriminate|].
  remember (x0 :: l) as L eqn:EL. clear EL x0 l. do 8 (destruct L as [|? L]; [discriminate HL|]). destruct L; [clear HL|discriminate HL].
  splice E Ha m a 0 (be16 src). rewrite Z.add_0_r in E. set (m1 := mem_write m _ _) in *.
  splice E Ha m1 a 2 (be16 dst). set (m2 := mem_write m1 _ _) in *.
  splice E Ha m2 a 6 (le_bytes 2 0). set (m3 := mem_write m2 _ _) in *.
  splice E Ha m3 a 4 (be16 len). set (m4 := mem_write m3 _ _) in *. split; [exact E|].
  splice E Ha m4 a 6 (le_bytes 2 c). exact E.
Qed.
Lemma write_udphdr_off m a src dst len : addr_ok a 8 -> unchanged_off a 8 m (write_udphdr m a src dst len).
Proof.
  intros Ha. unfold write_udphdr. assert (forall m bs, mem_write m a bs = mem_write m (a + 0) bs) as E0 by (intros; by rewrite Z.add_0_r).
  rewrite (E0 m). repeat (apply unchanged_write; [done|lia|rewrite length_le_bytes; lia|]). apply unchanged_refl.
Qed.
Lemma mem_ok_write_udphdr m a src dst len : mem_ok m -> mem_ok (write_udphdr m a src dst len).
Proof. intros H. unfold write_udphdr. by repeat apply mem_ok_mem_write. Qed.

(** ** The checksum *)

(** The sum that sender and receiver form over the pseudo header and the datagram. *)
Definition udp_sum (src dst : Z) (datagram : list Z) : Z :=
  pseudo_words IP_PROTO_UDP (Z.of_nat (length datagram)) src dst + wsum false datagram.
(** What the sender stores: never 0, which would mean "no checksum". *)
Definition udp_check (src dst : Z) (datagram : list Z) : Z :=
  let c := 65535 - ones16 (udp_sum src dst datagram) in if c =? 0 then 0xffff else c.

Lemma pseudo_pos proto len src dst : 0 < proto < 256 -> 0 <= len < 65536 -> 0 <= src -> 0 <= dst -> 0 < pseudo_words proto len src dst.
Proof.
  intros Hp Hl Hs Hd. unfold pseudo_words. rewrite !htons_eq by lia. pose proof (Z.div_pos src 65536 Hs ltac:(lia)). pose proof (Z.div_pos dst 65536 Hd ltac:(lia)).
  pose proof (Z.mod_pos_bound src 65536 ltac:(lia)). pose proof (Z.mod_pos_bound dst 65536 ltac:(lia)). zdiv.
Qed.
Lemma check_closes S : 0 < S -> let c := 65535 - ones16 S in let c := if c =? 0 then 65535 else c in
  0 < c <= 65535 /\ ones16 (S + c) = 65535.
Proof.
  intros HS. cbv zeta. unfold ones16. rewrite (proj2 (Z.eqb_neq S 0)) by lia.
  destruct (Z.eqb_spec (65535 - ((S - 1) mod 65535 + 1)) 0) as [E|E]; (split; [zdiv|]).
  - rewrite (proj2 (Z.eqb_neq (S + 65535) 0)) by lia. zdiv.
  - destruct (Z.eqb_spec (S + (65535 - ((S - 1) mod 65535 + 1))) 0); zdiv.
Qed.
Lemma udphdr_sum src dst len c data : 0 <= c <= 65535 ->
  wsum false (udphdr src dst len c ++ data) = wsum false (udphdr src dst len 0 ++ data) + c.
Proof.
  intros Hc. rewrite !wsum_app. change (Nat.odd (length (udphdr src dst len c))) with false. change (Nat.odd (length (udphdr src dst len 0))) with false.
  cbn [xorb]. unfold udphdr, be16. cbn [app le_bytes wsum negb]. pose proof (half_sum c Hc). change (u8 0) with 0. change (u8 (0 / 256)) with 0. lia.
Qed.
Lemma bytes_udphdr src dst len c : 0 <= src < 65536 -> 0 <= dst < 65536 -> 0 <= len < 65536 -> bytes (udphdr src dst len c).
Proof.
  intros Hs Hd Hl. unfold udphdr, be16. cbn [app le_bytes]. repeat (constructor; [first [apply u8_is_byte | done | unfold is_byte; zdiv]|]). constructor.
Qed.

(** The receiver's sum comes out as 0xffff. *)
Lemma udp_check_verifies src_ip dst_ip sport dport data :
  0 <= src_ip -> 0 <= dst_ip -> 0 <= sport < 65536 -> 0 <= dport < 65536 -> bytes data -> Z.of_nat (length data) + 8 < 65536 ->
  let hdr := udphdr sport dport (Z.of_nat (length data) + 8) in
  let c := udp_check src_ip dst_ip (hdr 0 ++ data) in
  0 < c <= 65535 /\ ones16 (udp_sum src_ip dst_ip (hdr c ++ data)) = 65535.
Proof.
  intros Hs Hd Hp Hq Hb Hl hdr c. assert (forall c, length (hdr c ++ data) = (8 + length data)%nat) as El by (intros; rewrite length_app; done).
  assert (0 < udp_sum src_ip dst_ip (hdr 0 ++ data)) as Hpos.
  { unfold udp_sum. rewrite El. pose proof (pseudo_pos IP_PROTO_UDP (Z.of_nat (8 + length data)) src_ip dst_ip ltac:(unfold IP_PROTO_UDP; lia) ltac:(lia) Hs Hd).
    assert (0 <= wsum false (hdr 0 ++ data)); [|lia]. apply wsum_nonneg, Forall_app_2; [apply bytes_udphdr; lia|done]. }
  destruct (check_closes _ Hpos) as [H1 H2]. fold (udp_check src_ip dst_ip (hdr 0 ++ data)) in H1, H2. fold c in H1, H2. split; [done|].
  rewrite <- H2. f_equal. unfold udp_sum. rewrite !El. unfold hdr. rewrite (udphdr_sum _ _ _ c) by lia. lia.
Qed.

(** ** Sending *)
Section Send.
Context {Fr : Frame}.
Variable custom_free : Z -> pheap -> res pheap.
Variable malloc : nat -> gmap Z pbuf -> Z.
Context (Hmalloc : malloc_ok malloc).
Variable bmos : netif.
Context (Hbmos : nif_hwaddr_len bmos = ETH_HWADDR_LEN).
#[local] Instance usend_ops : LinkOps nic := nic_link custom_free malloc bmos.
#[local] Instance usend_laws : LinkLaws nic := nic_laws custom_free malloc Hmalloc bmos Hbmos.
Variable known : Z -> Prop.
Context (known_null : ~ known 0).
Abbreviation ok x st := (arp_ok known x (ip_arp st)).
Variable nf : netifs.
Context (Hnf : netifs_ok known nf).
Variable ip4_frag : Z -> Z -> Z -> ipst -> res (Z * ipst).
Context (Hfrag : frag_ok custom_free malloc Hmalloc bmos Hbmos known nf ip4_frag).

(** The checksum field of a datagram of the block [c]. *)
Definition chksum_field (c : udp_pcb) (src dst : Z) (datagram : list Z) : Z :=
  if has_flag (u_flags c) UDP_FLAGS_NOCHKSUM then 0 else udp_check src dst datagram.

(** The datagram of the block [c] with the payload [data]. *)
Definition datagram_of (c : udp_pcb) (src_ip dst_ip dst_port : Z) (data : list Z) : list Z :=
  let hdr := udphdr (u_local_port c) dst_port (Z.of_nat (length data) + 8) in
  hdr (chksum_field c src_ip dst_ip (hdr 0 ++ data)) ++ data.

Lemma udp_chksum_eq c p ps src dst h : chain_at (pbufs h) p ps -> wf_chain ps -> mem_ok (pmem h) -> tot ps < 65536 ->
  0 <= src < 4294967296 -> 0 <= dst < 4294967296 ->
  udp_chksum c p (tot ps) src dst None h =
  Ret (if has_flag (u_flags c) UDP_FLAGS_NOCHKSUM then None else Some (udp_check src dst (chain_data (pmem h) ps))).
Proof.
  intros Hc Hw Hm Ht Hs Hd. unfold udp_chksum. destruct (has_flag _ _); cbn [negb]; [done|]. pose proof (tot_nonneg _ Hw) as Hn.
  rewrite (chksum_pseudo_correct h p ps); try done. cbn [res_bind]. unfold udp_check, udp_sum. by rewrite length_chain_data.
Qed.

(** udp_transmit for a packet with its header pushed, all of it in one frame. *)
Lemma transmit_datagram c p dst_ip dst_port netif src_ip n b r mac x st :
  ok (p :: x) st -> sendable (ip_heap st) p b r 42 -> nf_at nf netif = Some n -> bytes (if_hwaddr n) ->
  hop (arp_table (ip_arp st)) n netif dst_ip mac -> p_tot_len b + 28 <= if_mtu n -> p_tot_len b <= 1480 ->
  0 <= src_ip < 4294967296 -> 0 <= dst_ip < 4294967296 -> 0 <= ip_id st < 65536 -> is_byte (u_ttl c) -> is_byte (u_tos c) ->
  0 <= u_local_port c < 65536 -> 0 <= dst_port < 65536 ->
  let b' := set_data (payload b - 8) (p_len b + 8) (p_tot_len b + 8) b in
  let hdr := iphdr (p_tot_len b + 28) (ip_id st) src_ip dst_ip (u_ttl c) (u_tos c) IP_PROTO_UDP in
  exists st', udp_transmit custom_free malloc bmos nf ip4_frag c p dst_ip dst_port netif src_ip None (set_ip_heap (pset p b' (ip_heap st)) st) = Ret (ERR_OK, st') /\
    ok (p :: x) st' /\ ip_id st' = u16 (ip_id st + 1) /\ arp_table (ip_arp st') = arp_table (ip_arp st) /\
    nic_tx (lk (ip_arp st')) = nic_tx (lk (ip_arp st)) ++
      [frame_of n mac (hdr (rfc1071 (hdr 0)) ++ datagram_of c src_ip dst_ip dst_port (chain_data (pmem (ip_heap st)) ((p, b) :: r)))].
Proof.
  intros H Hs Hn Bh Hhop Hmtu Htx Rs Rd Ri B1 B2 Rl Rp b' hdr. pose proof (sendable_pget _ _ _ _ _ Hs) as Hg. pose proof Hg as [Hp _]%pget_lookup.
  pose proof (ok_mem_ok _ _ _ _ _ _ _ _ H) as Hm. pose proof (sd_wf _ _ _ _ _ Hs) as Wf. pose proof (tot_nonneg _ Wf) as Htn.
  assert (p_tot_len b = tot ((p, b) :: r)) as Et by apply Wf. pose proof (sd_payloads _ _ _ _ _ Hs) as (P1 & _). cbn [snd] in P1. unfold addr_ok in P1.
  pose proof (sd_room _ _ _ _ _ Hs) as Rm. pose proof (sd_addr _ _ _ _ _ Hs) as Ra. assert (0 <= p_len b) as Hl by apply Wf.
  pose proof (fun m => push_sendable (ip_heap st) p b r 34 8 m Hs ltac:(lia) ltac:(lia) ltac:(lia)) as Hs1. cbv zeta in Hs1. fold b' in Hs1.
  assert (ok (p :: x) (set_ip_heap (pset p b' (ip_heap st)) st)) as H1.
  { refine (ok_head_pset _ _ Hmalloc _ Hbmos known st p x b b' H Hg _ _ _ _); [by repeat split|cbn; lia..]. }
  set (st1 := set_ip_heap _ st) in *. unfold udp_transmit. change (pget (ip_heap st1) p) with (pget (pset p b' (ip_heap st)) p). rewrite pget_pset by done.
  cbn [res_bind]. rewrite Z.geb_leb, (proj2 (Z.leb_le _ _)) by (cbn; unfold UDP_HLEN; lia). cbn [lwip_assert].
  assert (addr_ok (payload b - 8) 8) as Ha by (unfold addr_ok; lia).
  set (m1 := write_udphdr (pmem (ip_heap st)) (payload b - 8) (u_local_port c) dst_port (p_tot_len b + 8)).
  pose proof (write_udphdr_off (pmem (ip_heap st)) (payload b - 8) (u_local_port c) dst_port (p_tot_len b + 8) Ha) as Hoff. fold m1 in Hoff.
  assert (mem_ok m1) as Hm1 by by apply mem_ok_write_udphdr.
  set (data := chain_data (pmem (ip_heap st)) ((p, b) :: r)). assert (Z.of_nat (length data) = p_tot_len b) as Ld by (unfold data; rewrite length_chain_data by done; lia).
  assert (chain_data m1 ((p, b') :: r) = udphdr (u_local_port c) dst_port (p_tot_len b + 8) 0 ++ data) as D1.
  { unfold b'. rewrite (push_data (ip_heap st) p b r 34 8 m1 Hs ltac:(lia) ltac:(lia) Hoff). f_equal.
    exact (proj1 (write_udphdr_read (pmem (ip_heap st)) (payload b - 8) (u_local_port c) dst_port (p_tot_len b + 8) 0 Ha Rl Rp ltac:(lia))). }
  pose proof (udp_chksum_eq c p ((p, b') :: r) src_ip dst_ip (ip_heap (set_ip_mem m1 st1)) (sd_chain _ _ _ _ _ (Hs1 m1)) (sd_wf _ _ _ _ _ (Hs1 m1)) Hm1) as E1.
  assert (tot ((p, b') :: r) = p_tot_len b + 8) as Et' by (symmetry; apply (sd_wf _ _ _ _ _ (Hs1 m1))).
  rewrite Et' in E1. specialize (E1 ltac:(lia) Rs Rd).
  set (dg := datagram_of c src_ip dst_ip dst_port data).
  assert (forall m2, mem_ok m2 -> chain_data m2 ((p, b') :: r) = dg -> forall st2, st2 = set_ip_mem m2 st1 ->
    exists st', ip4_output_if_src custom_free malloc bmos nf ip4_frag p (Some src_ip) (Some dst_ip) (u_ttl c) (u_tos c) IP_PROTO_UDP netif st2 = Ret (ERR_OK, st') /\
    ok (p :: x) st' /\ ip_id st' = u16 (ip_id st + 1) /\ arp_table (ip_arp st') = arp_table (ip_arp st) /\
    nic_tx (lk (ip_arp st')) = nic_tx (lk (ip_arp st)) ++ [frame_of n mac (hdr (rfc1071 (hdr 0)) ++ dg)]) as Hend.
  { intros m2 Hm2 D2 st2 ->. pose proof (ok_mem _ _ _ _ _ _ _ _ m2 H1 Hm2) as H2.
    destruct (output_frame custom_free malloc Hmalloc bmos Hbmos known known_null nf Hnf ip4_frag Hfrag p src_ip dst_ip (u_ttl c) (u_tos c) IP_PROTO_UDP netif n b' r mac x
      (set_ip_mem m2 st1) H2 (Hs1 m2) Hn Bh Hhop) as (st' & E & H' & F1 & F2 & F3); try done; [cbn; lia..|].
    exists st'. split; [done|]. split; [done|]. split; [done|]. split; [done|]. rewrite F3. cbn [pmem ip_heap set_ip_mem]. unfold hdr.
    change (pmem (ip_heap (set_ip_mem m2 st1))) with m2. rewrite D2. cbn [p_tot_len b' set_data]. by replace (p_tot_len b + 8 + 20) with (p_tot_len b + 28) by lia. }
  change (exists st', (let* sum := udp_chksum c p (p_tot_len b + 8) src_ip dst_ip None (ip_heap (set_ip_mem m1 st1)) in
    ip4_output_if_src custom_free malloc bmos nf ip4_frag p (Some src_ip) (Some dst_ip) (u_ttl c) (u_tos c) IP_PROTO_UDP netif
      (match sum with Some k => set_ip_mem (mem_write m1 (payload b - 8 + 6) (le_bytes 2 k)) (set_ip_mem m1 st1) | None => set_ip_mem m1 st1 end)) = Ret (ERR_OK, st') /\
    ok (p :: x) st' /\ ip_id st' = u16 (ip_id st + 1) /\ arp_table (ip_arp st') = arp_table (ip_arp st) /\
    nic_tx (lk (ip_arp st')) = nic_tx (lk (ip_arp st)) ++ [frame_of n mac (hdr (rfc1071 (hdr 0)) ++ dg)]).
  rewrite E1. cbn [res_bind]. change (pmem (ip_heap (set_ip_mem m1 st1))) with m1. rewrite D1. clear E1.
  assert (dg = udphdr (u_local_port c) dst_port (p_tot_len b + 8) (chksum_field c src_ip dst_ip (udphdr (u_local_port c) dst_port (p_tot_len b + 8) 0 ++ data)) ++ data) as Edg
    by (unfold dg, datagram_of; by rewrite Ld).
  clearbody dg. unfold chksum_field in Edg. destruct (has_flag _ _).
  - apply (Hend m1); [done|by rewrite Edg|done].
  - set (k := udp_check _ _ _) in *. apply (Hend (mem_write m1 (payload b - 8 + 6) (le_bytes 2 k))); [by apply mem_ok_mem_write| |reflexivity].
    rewrite Edg. unfold b'. rewrite (push_data (ip_heap st) p b r 34 8 _ Hs ltac:(lia) ltac:(lia) (unchanged_write _ _ _ _ 6 (le_bytes 2 k) Ha ltac:(lia) ltac:(cbn; lia) Hoff)). f_equal.
    exact (proj2 (write_udphdr_read (pmem (ip_heap st)) (payload b - 8) (u_local_port c) dst_port (p_tot_len b + 8) k Ha Rl Rp ltac:(lia))).
Qed.

(** The interface that udp_sendto uses, and the conditions on the source address. *)
Definition out_netif (c : udp_pcb) (dst_ip : Z) : res Z :=
  if negb (u_netif_idx c =? NETIF_NO_INDEX) then netif_get_by_index nf (u_netif_idx c) else ip4_route nf dst_ip.
Definition may_send_from (c : udp_pcb) (n : nif) : bool :=
  (u_local_ip c =? IPADDR_ANY) || ip4_addr_ismulticast (u_local_ip c) || (u_local_ip c =? if_ip n).

Lemma sendto_steps pcb p dst_ip dst_port netif n c st u :
  udp_ok u -> u_pcbs u !! pcb = Some c -> p <> NULL -> netif <> NULL -> out_netif c dst_ip = Ret netif -> nf_at nf netif = Some n ->
  udp_sendto custom_free malloc bmos nf ip4_frag pcb p dst_ip dst_port st u =
  if may_send_from c n then udp_sendto_if_src custom_free malloc bmos nf ip4_frag pcb p dst_ip dst_port netif (if_ip n) st u else Ret (ERR_RTE, st, u).
Proof.
  intros Hu Hc Hp Hni En Hn. destruct (ok_pcb u pcb c Hu Hc) as [Hpcb Eg]. unfold udp_sendto, udp_sendto_chksum, udp_sendto_if_chksum.
  rewrite (proj2 (Z.eqb_neq _ _) Hpcb), (proj2 (Z.eqb_neq _ _) Hp), Eg. cbn [orb res_bind]. fold (out_netif c dst_ip). rewrite En. cbn [res_bind].
  rewrite (proj2 (Z.eqb_neq _ _) Hni), Hn. cbn [res_of_option res_bind]. unfold may_send_from.
  destruct ((_ =? IPADDR_ANY) || _); [done|]. cbn [orb]. by destruct (Z.eqb_spec (u_local_ip c) (if_ip n)) as [->|].
Qed.

(** udp_sendto_if_src for a packet with room for the UDP header: a port first,
    then the header. *)
Lemma sendto_room pcb p dst_ip dst_port netif src_ip c b st u :
  udp_ok u -> u_pcbs u !! pcb = Some c -> netif <> NULL -> pget (ip_heap st) p = Ret b -> headroom p 8 b -> 8 <= payload b ->
  0 <= p_len b <= p_tot_len b -> p_tot_len b + 8 < 65536 ->
  exists err u1, udp_ok u1 /\ has_port u pcb c err u1 /\
    udp_sendto_if_src custom_free malloc bmos nf ip4_frag pcb p dst_ip dst_port netif src_ip st u =
    if err =? ERR_OK then
      let* c1 := uget u1 pcb in
      let* (err, st) := udp_transmit custom_free malloc bmos nf ip4_frag c1 p dst_ip dst_port netif src_ip None
        (set_ip_heap (pset p (set_data (payload b - 8) (p_len b + 8) (p_tot_len b + 8) b) (ip_heap st)) st) in
      Ret (err, st, u1)
    else Ret (err, st, u1).
Proof.
  intros Hu Hc Hni Hg Hr Ha Hl Ht. destruct (ok_pcb u pcb c Hu Hc) as [Hpcb Eg]. pose proof Hg as [Hp _]%pget_lookup.
  unfold udp_sendto_if_src, udp_sendto_if_src_chksum. rewrite (proj2 (Z.eqb_neq _ _) Hpcb), (proj2 (Z.eqb_neq _ _) Hp), (proj2 (Z.eqb_neq _ _) Hni), Eg. cbn [orb res_bind].
  destruct (ensure_bound u pcb c Hu Hc) as (err & u1 & -> & Hu1 & _ & Hb). exists err, u1. split; [done|]. split; [done|]. cbn [res_bind].
  destruct (err =? ERR_OK); cbn [negb]; [|done]. rewrite Hg. cbn [res_bind]. rewrite u16_small by (unfold UDP_HLEN; lia).
  rewrite (proj2 (Z.ltb_ge _ _)) by (unfold UDP_HLEN; lia). destruct (uget u1 pcb) as [c1| |]; cbn [res_bind]; try done.
  pose proof Hr as (_ & _ & _ & Hr4).
  destruct (add_header_gen p UDP_HLEN b (ip_heap st) Hg) as [[_ Hno]|[_ ->]]; [unfold UDP_HLEN; lia|done|lia|by exfalso; apply Hno|].
  cbn [res_bind Z.eqb negb]. unfold UDP_HLEN. by rewrite u64_small by lia.
Qed.

(** udp_transmit returns, whatever becomes of the packet. *)
Lemma udp_transmit_spec c p dst_ip dst_port netif src_ip n x st b :
  ok (p :: x) st -> pget (ip_heap st) p = Ret b -> p_ref b = 1 -> UDP_HLEN <= p_len b -> nf_at nf netif = Some n ->
  0 <= src_ip < 4294967296 -> 0 <= dst_ip < 4294967296 ->
  exists err st', udp_transmit custom_free malloc bmos nf ip4_frag c p dst_ip dst_port netif src_ip None st = Ret (err, st') /\ ok (p :: x) st'.
Proof.
  intros H Hg Hr Hl Hn Rs Rd. unfold udp_transmit. rewrite Hg. cbn [res_bind]. rewrite Z.geb_leb, (proj2 (Z.leb_le _ _)) by done. cbn [lwip_assert].
  set (m := mem_write (mem_write (mem_write _ _ _) _ _) _ _). pose proof (ok_mem_ok _ _ _ _ _ _ _ _ H) as Hm. assert (mem_ok m) as Hm1 by (by repeat apply mem_ok_mem_write).
  destruct (ok_source custom_free malloc Hmalloc bmos Hbmos known p b x st H Hg) as (ps & S1 & S2 & S3). pose proof (tot_nonneg _ S2) as Htn.
  destruct (ok_pget _ _ _ _ _ _ _ _ _ H) as (b0 & Hg0 & _ & _ & Ht). rewrite Hg in Hg0. injection Hg0 as <-.
  assert (p_tot_len b = tot ((p, b) :: ps)) as Et by apply S2.
  rewrite Et, (udp_chksum_eq c p ((p, b) :: ps) src_ip dst_ip (ip_heap (set_ip_mem m st)) S1 S2 Hm1) by (done || lia). cbn [res_bind].
  set (sum := if has_flag _ _ then None else Some _).
  assert (forall m2, mem_ok m2 -> exists err st', ip4_output_if_src custom_free malloc bmos nf ip4_frag p (Some src_ip) (Some dst_ip) (u_ttl c) (u_tos c) IP_PROTO_UDP netif
    (set_ip_mem m2 st) = Ret (err, st') /\ ok (p :: x) st') as Ho.
  { intros m2 Hm2. eapply output_if_src_spec; [done..|by apply ok_mem| |exact Hn]. exists b. by split. }
  destruct sum as [k|]; [|by apply Ho]. exact (Ho (mem_write m (payload b + 6) (le_bytes 2 k)) (mem_ok_mem_write _ _ _ Hm1)).
Qed.

(** Sending is safe for a packet with room for the header. *)
Lemma sendto_if_src_safe pcb p dst_ip dst_port netif src_ip n c b x st u :
  udp_ok u -> u_pcbs u !! pcb = Some c -> nf_at nf netif = Some n -> ok (p :: x) st -> pget (ip_heap st) p = Ret b -> p_ref b = 1 ->
  headroom p 8 b -> 8 <= payload b -> p_tot_len b + 8 < 65536 -> 0 <= src_ip < 4294967296 -> 0 <= dst_ip < 4294967296 ->
  exists err st' u', udp_sendto_if_src custom_free malloc bmos nf ip4_frag pcb p dst_ip dst_port netif src_ip st u = Ret (err, st', u') /\
    udp_ok u' /\ is_Some (u_pcbs u' !! pcb) /\ ok (p :: x) st'.
Proof.
  intros Hu Hc Hn H Hg Hr Hh Ha Ht Rs Rd. destruct (no_nif _ _ Hnf _ _ Hn) as (Hk & _). assert (netif <> NULL) as Hni by (intros ->; by apply known_null).
  destruct (ok_pget _ _ _ _ _ _ _ _ _ H) as (b0 & Hg0 & Hp & Hl & _). rewrite Hg in Hg0. injection Hg0 as <-.
  destruct (sendto_room pcb p dst_ip dst_port netif src_ip c b st u Hu Hc Hni Hg Hh Ha ltac:(lia) Ht) as (err & u1 & Hu1 & Hb & ->).
  destruct (Z.eqb_spec err ERR_OK) as [->|Herr].
  - destruct Hb as [c1 _ Hc1 _ _ _|E0 _ _ _ _]; [|discriminate E0]. rewrite (proj2 (ok_pcb u1 pcb c1 Hu1 Hc1)). cbn [res_bind].
    set (b' := set_data _ _ _ b).
    destruct (udp_transmit_spec c1 p dst_ip dst_port netif src_ip n x (set_ip_heap (pset p b' (ip_heap st)) st) b') as (e & st' & -> & H'); try done.
    + eapply ok_head_pset; try done; cbn; lia.
    + by apply (pget_pset (ip_heap st)).
    + cbn. unfold UDP_HLEN. lia.
    + cbn [res_bind]. exists e, st', u1. by rewrite Hc1.
  - exists err, st, u1. split; [done|]. split; [done|]. split; [|done]. destruct Hb as [c1 -> _ _ _ _|_ _ _ -> _]; [done|by rewrite Hc].
Qed.
Lemma sendto_if_safe pcb p dst_ip dst_port netif n c b x st u :
  udp_ok u -> u_pcbs u !! pcb = Some c -> nf_at nf netif = Some n -> ok (p :: x) st -> pget (ip_heap st) p = Ret b -> p_ref b = 1 ->
  headroom p 8 b -> 8 <= payload b -> p_tot_len b + 8 < 65536 -> 0 <= if_ip n < 4294967296 -> 0 <= dst_ip < 4294967296 ->
  exists err st' u', udp_sendto_if custom_free malloc bmos nf ip4_frag pcb p dst_ip dst_port netif st u = Ret (err, st', u') /\
    udp_ok u' /\ is_Some (u_pcbs u' !! pcb) /\ ok (p :: x) st'.
Proof.
  intros Hu Hc Hn H Hg Hr Hh Ha Ht Rs Rd. destruct (no_nif _ _ Hnf _ _ Hn) as (Hk & _). assert (netif <> NULL) as Hni by (intros ->; by apply known_null).
  destruct (ok_pcb u pcb c Hu Hc) as [Hpcb Eg]. pose proof Hg as [Hp _]%pget_lookup.
  pose proof (sendto_if_src_safe pcb p dst_ip dst_port netif (if_ip n) n c b x st u Hu Hc Hn H Hg Hr Hh Ha Ht Rs Rd) as Hs.
  unfold udp_sendto_if, udp_sendto_if_chksum. rewrite (proj2 (Z.eqb_neq _ _) Hpcb), (proj2 (Z.eqb_neq _ _) Hp), (proj2 (Z.eqb_neq _ _) Hni), Eg, Hn. cbn [orb res_bind res_of_option].
  destruct ((_ =? IPADDR_ANY) || _); [exact Hs|]. destruct (Z.eqb_spec (u_local_ip c) (if_ip n)) as [E|E]; cbn [negb]; [rewrite E; exact Hs|].
  exists ERR_RTE, st, u. by rewrite Hc.
Qed.

(** What udp_sendto has to say for a packet with room for the headers. *)
Variant sent (pcb : Z) (c : udp_pcb) (src_ip dst_ip dst_port : Z) (n : nif) (mac data : list Z) (x : list Z) (st : ipst) (u : udp) (err : Z) (st' : ipst) (u' : udp) : Prop :=
  | sent_ok c' : has_port u pcb c ERR_OK u' -> u_pcbs u' !! pcb = Some c' -> err = ERR_OK ->
      ok x st' -> ip_id st' = u16 (ip_id st + 1) -> arp_table (ip_arp st') = arp_table (ip_arp st) ->
      (let hdr := iphdr (Z.of_nat (length data) + 28) (ip_id st) src_ip dst_ip (u_ttl c) (u_tos c) IP_PROTO_UDP in
       nic_tx (lk (ip_arp st')) = nic_tx (lk (ip_arp st)) ++
         [frame_of n mac (hdr (rfc1071 (hdr 0)) ++ datagram_of c' src_ip dst_ip dst_port data)]) ->
      sent pcb c src_ip dst_ip dst_port n mac data x st u err st' u'
  | sent_use : has_port u pcb c ERR_USE u' -> err = ERR_USE -> st' = st -> sent pcb c src_ip dst_ip dst_port n mac data x st u err st' u'.

Lemma sendto_if_src_frame pcb p dst_ip dst_port netif src_ip n c b r mac x st u :
  udp_ok u -> u_pcbs u !! pcb = Some c -> nf_at nf netif = Some n ->
  ok (p :: x) st -> sendable (ip_heap st) p b r 42 -> bytes (if_hwaddr n) ->
  hop (arp_table (ip_arp st)) n netif dst_ip mac -> p_tot_len b + 28 <= if_mtu n -> p_tot_len b <= 1480 ->
  0 <= src_ip < 4294967296 -> 0 <= dst_ip < 4294967296 -> 0 <= ip_id st < 65536 -> 0 <= dst_port < 65536 ->
  exists err st' u', udp_sendto_if_src custom_free malloc bmos nf ip4_frag pcb p dst_ip dst_port netif src_ip st u = Ret (err, st', u') /\ udp_ok u' /\
    sent pcb c src_ip dst_ip dst_port n mac (chain_data (pmem (ip_heap st)) ((p, b) :: r)) (p :: x) st u err st' u'.
Proof.
  intros Hu Hc Hn H Hs Bh Hhop Hmtu Htx Rs Rd Ri Rp. pose proof (sendable_pget _ _ _ _ _ Hs) as Hg. destruct (no_nif _ _ Hnf _ _ Hn) as (Hk & _).
  assert (netif <> NULL) as Hni by (intros ->; by apply known_null).
  pose proof (sd_wf _ _ _ _ _ Hs) as Wf. pose proof (tot_nonneg _ Wf) as Htn. assert (p_tot_len b = tot ((p, b) :: r)) as Et by apply Wf.
  assert (0 <= p_len b <= p_tot_len b) as Hl by (destruct Wf as (W1 & W2 & W3 & W4); pose proof (tot_nonneg _ W4); cbn in *; lia).
  pose proof (sd_payloads _ _ _ _ _ Hs) as (P1 & _). cbn [snd] in P1. unfold addr_ok in P1. pose proof (sd_room _ _ _ _ _ Hs). pose proof (sd_addr _ _ _ _ _ Hs).
  destruct (sendto_room pcb p dst_ip dst_port netif src_ip c b st u Hu Hc Hni Hg) as (err & u1 & Hu1 & Hb & ->); [|lia..|].
  { unfold headroom. split; [apply Hs|lia]. }
  destruct (Z.eqb_spec err ERR_OK) as [->|Herr].
  2:{ exists err, st, u1. split; [done|]. split; [done|]. pose proof Hb as [c1 -> _ _ _ _| -> _ _ _ _]; [done|]. by apply sent_use. }
  pose proof Hb as [c1 _ Hc1 E1 R1 _|E0 _ _ _ _]; [|discriminate E0]. rewrite (proj2 (ok_pcb u1 pcb c1 Hu1 Hc1)). cbn [res_bind].
  assert (u_ttl c1 = u_ttl c /\ u_tos c1 = u_tos c) as [Ett Eto] by (rewrite E1; done). destruct (uo_bytes _ Hu pcb c Hc) as [B1 B2].
  destruct (transmit_datagram c1 p dst_ip dst_port netif src_ip n b r mac x st H Hs Hn Bh Hhop Hmtu Htx Rs Rd Ri) as (st' & E & H' & F1 & F2 & F3); [congruence..|lia|done|].
  cbv zeta in E. rewrite E. cbn [res_bind]. exists ERR_OK, st', u1. split; [done|]. split; [done|]. apply (sent_ok _ _ _ _ _ _ _ _ _ _ _ _ _ _ c1); try done.
  cbv zeta. rewrite F3, length_chain_data by done. by rewrite <- Et, Ett, Eto.
Qed.

Lemma udp_sendto_frame pcb p dst_ip dst_port netif n c b r mac x st u :
  udp_ok u -> u_pcbs u !! pcb = Some c -> out_netif c dst_ip = Ret netif -> nf_at nf netif = Some n -> may_send_from c n = true ->
  ok (p :: x) st -> sendable (ip_heap st) p b r 42 -> bytes (if_hwaddr n) ->
  hop (arp_table (ip_arp st)) n netif dst_ip mac -> p_tot_len b + 28 <= if_mtu n -> p_tot_len b <= 1480 ->
  0 <= if_ip n < 4294967296 -> 0 <= dst_ip < 4294967296 -> 0 <= ip_id st < 65536 -> 0 <= dst_port < 65536 ->
  exists err st' u', udp_sendto custom_free malloc bmos nf ip4_frag pcb p dst_ip dst_port st u = Ret (err, st', u') /\ udp_ok u' /\
    sent pcb c (if_ip n) dst_ip dst_port n mac (chain_data (pmem (ip_heap st)) ((p, b) :: r)) (p :: x) st u err st' u'.
Proof.
  intros Hu Hc En Hn Hmay H Hs Bh Hhop Hmtu Htx Rs Rd Ri Rp. pose proof (sendable_pget _ _ _ _ _ Hs) as Hg. pose proof Hg as [Hp _]%pget_lookup.
  destruct (no_nif _ _ Hnf _ _ Hn) as (Hk & _). assert (netif <> NULL) as Hni by (intros ->; by apply known_null).
  rewrite (sendto_steps pcb p dst_ip dst_port netif n c) by done. rewrite Hmay. by eapply sendto_if_src_frame.
Qed.
End Send.
