(* ===== verification/UdpTheorems.v ===== *)
(** * UDP: theorems *)
From S2P Require Import Prelude NetShim Ip4Addr Link Etharp EtharpInv EtharpOps EtharpSend EtharpTheorems Checksum Pbuf PbufChain PbufOps NetGlue PbufClone Ethernet EthernetInv EthernetRx EthernetTheorems Ip4 Icmp Ip4Input Ip4Inv IcmpInv Ip4Rx Ip4Hdr Ip4Send Ip4Theorems Reass ReassInv ReassOps ReassRun ReassTheorems Udp UdpInv UdpRx UdpSend.

(** ** Control blocks *)

(** C24. Any sequence of calls of the UDP interface by a caller that only names
    blocks it got and has not removed: every call returns, the list of bound
    blocks has no duplicates and holds exactly the allocated blocks that have a
    port, and (unless an address of an interface changes in between, which
    rewrites bindings unchecked) no two blocks in it would get the same
    datagrams. *)
Theorem udp_calls_safe pcb_malloc ks :
  (forall n m, pcb_malloc n m <> NULL -> m !! pcb_malloc n m = None) -> calls_ok pcb_malloc udp_boot ks ->
  exists u, udp_dos pcb_malloc ks udp_boot = Ret u /\ udp_ok u /\ (existsb moves ks = false -> exclusive u).
Proof.
  intros Hf Hk. destruct (udp_dos_spec pcb_malloc Hf ks udp_boot udp_boot_ok Hk) as (u & E & Hu & Hx).
  exists u. split; [done|]. split; [done|]. intros Hm. apply (Hx Hm), udp_boot_exclusive.
Qed.

(** C25. udp_bind returns for every block and address and either binds or
    changes nothing.  It binds to the port that was asked for, unless another
    block stands in the way (same port, and the same address or one of the two
    for any address), and then the error is ERR_USE.  For port 0 it takes a
    port of the range 49152 to 65535 that no block uses, and fails only when
    all 16384 are in use. *)
Theorem udp_bind_contract u pcb ip port c : udp_ok u -> u_pcbs u !! pcb = Some c -> 0 <= port < 65536 ->
  exists err u', udp_bind pcb ip port u = Ret (err, u') /\ udp_ok u' /\ (exclusive u -> exclusive u') /\
    bound u pcb (default IPADDR_ANY ip) port c err u'.
Proof.
  intros Hu Hc Hp. destruct (udp_bind_spec u pcb ip port c Hu Hc Hp) as (err & u' & E & Hu' & Hb). exists err, u'.
  split; [done|]. split; [done|]. split; [by eapply bound_exclusive|done].
Qed.

(** A datagram to a unicast address goes to the block that is bound to it,
    wherever the block is in the list: when the blocks do not clash, the block that accepts
    the destination and is not connected to someone else is the receiver,
    and there is no receiver when no such block exists. *)
Theorem udp_receiver_unique u cn n src_ip src dest_ip dest a :
  udp_ok u -> exclusive u ->
  let r := receiver u cn n src_ip src dest_ip dest false in
  let takes a := takes_any u cn n dest_ip dest false a || takes_full u cn n src_ip src dest_ip dest false a in
  (a ∈ udp_pcbs u -> takes a = true -> r = a) /\
  ((forall a, a ∈ udp_pcbs u -> takes a = false) -> r = NULL) /\
  Permutation (list_after u cn n src_ip src dest_ip dest false) (udp_pcbs u).
Proof.
  intros Hu Hx r takes. split; [|split; [|apply list_after_perm]].
  - intros Ha Ht. apply (receiver_takes u Hu); [done| |done]. intros b Hb Htb. apply (exclusive_takes u cn n dest_ip dest a b); try done.
    unfold takes, takes_any, takes_full in Ht. destruct (takes_local _ _ _ _ _ _ a); [done|by cbn in Ht].
  - intros Hno. destruct (receiver_cases u cn n src_ip src dest_ip dest false) as [?|[Hr Ht]]; [done|]. specialize (Hno _ Hr). unfold takes in Hno. congruence.
Qed.

Section Udp.
Variable custom_free : Z -> pheap -> res pheap.
Variable malloc : nat -> gmap Z pbuf -> Z.
Context (Hmalloc : malloc_ok malloc).
Variable bmos : netif.
Context (Hbmos : nif_hwaddr_len bmos = ETH_HWADDR_LEN).
#[local] Instance uth_ops : LinkOps nic := nic_link custom_free malloc bmos.
Variable known : Z -> Prop.
Context (known_null : ~ known 0).
Variable nf : netifs.
Context (Hnf : netifs_ok known nf).
Variable ip4_frag : Z -> Z -> Z -> ipst -> res (Z * ipst).
Context (Hfrag : forall F0, @frag_ok F0 custom_free malloc Hmalloc bmos Hbmos known nf ip4_frag).
Abbreviation okF F0 x st := (@arp_ok nic uth_ops (@nic_laws F0 custom_free malloc Hmalloc bmos Hbmos) known x (ip_arp st)).
Context {T : Type}.
Variable recv : Z -> Z -> Z -> Z -> Z -> Z -> ip_globals -> ipst -> udp * T -> res (ipst * (udp * T)).

(** ** Receiving *)

(** C26. What becomes of a datagram, in every case.  One that is shorter than a
    UDP header is dropped.  Otherwise the loop over the control blocks finds
    the receiver as [receiver] defines it, and puts a full match in front of
    the list.  If there is a receiver, or the datagram is for the address of
    the interface, the checksum decides: it may be absent, or the
    ones'-complement sum over the pseudo header and all bytes of the pbuf
    chain must be 0xffff.  A valid datagram goes to the callback of the receiver, behind its
    header; an ICMP message "port unreachable" is sent when
    there is no receiver; everything else is freed. *)
Theorem udp_input_verdict F p inp d st u (v : T) x b cn nn :
  udp_ok u -> okF F (p :: x) st -> delivered p d st b -> current_input_netif d = inp -> inp <> NULL ->
  nf_at nf inp = Some cn -> nf_at nf (current_netif d) = Some nn ->
  let b1 := advance (current_ip_header_tot_len d) b in
  let run := udp_input custom_free malloc bmos nf ip4_frag recv p inp d st (u, v) in
  let m := pmem (ip_heap st) in
  let bc := ip4_addr_isbroadcast (current_iphdr_dest d) nn in
  let src := udph_src m (payload b1) in
  let dest := udph_dest m (payload b1) in
  let r := receiver u cn cn (current_iphdr_src d) src (current_iphdr_dest d) dest bc in
  let u' := set_udp_pcbs (list_after u cn cn (current_iphdr_src d) src (current_iphdr_dest d) dest bc) u in
  let st1 := behind_header p b1 st in
  if p_len b1 <? UDP_HLEN then run = (let* st := ip_free custom_free p st in Ret (st, (u, v)))
  else exists ps, chain_at (pbufs (ip_heap st)) p ps /\
    match judge u r (if_ip cn =? current_iphdr_dest d) (datagram_valid m ps b1 d) with
    | Delivered pcb c => run = recv (u_recv c) (u_recv_arg c) pcb p (current_iphdr_src d) src d st1 (u', v)
    | Unreachable => run = (let* st := udp_unreach custom_free malloc bmos nf ip4_frag p d bc st1 in Ret (st, (u', v)))
    | Dropped => exists st2, (st2 = st \/ st2 = st1) /\ run = (let* st := ip_free custom_free p st2 in Ret (st, (u', v)))
    end.
Proof.
  intros Hu H [D1 D2 D3 D4 D5 D6 D7 D8] Ei Hinp Hcn Hnn b1 run m bc src dest r u' st1.
  destruct (ok_source (F := F) custom_free malloc Hmalloc bmos Hbmos known p _ x st H D1) as (ps & S1 & S2 & S3).
  destruct (Z.ltb_spec (p_len b1) UDP_HLEN) as [Hlt|Hge]; [by eapply udp_input_short|].
  exists ((p, b1) :: ps). split; [done|].
  apply (udp_input_eq custom_free malloc bmos nf ip4_frag recv p inp d st u v b1 ps cn nn); try done; [exact (ok_mem_ok (F := F) custom_free malloc Hmalloc bmos Hbmos known st _ H)|apply placed_advance; [done|lia]|cbn; lia].
Qed.

(** ** The whole receive path *)
Variable memp : nat -> bool.
Variable good : T -> Prop.
Context (Hrecv : recv_ok custom_free malloc Hmalloc bmos Hbmos known nf recv good).
Variable tcp_input : Z -> Z -> ip_globals -> ipst -> udp * T -> res (ipst * (udp * T)).
Definition stack_good (s : udp * T) : Prop := udp_ok s.1 /\ good s.2.
Context (Htcp : takes_packet custom_free malloc Hmalloc bmos Hbmos known nf stack_good tcp_input).
Abbreviation udp_in := (udp_input custom_free malloc bmos nf ip4_frag recv).

Lemma udp_takes : takes_packet custom_free malloc Hmalloc bmos Hbmos known nf stack_good udp_in.
Proof.
  intros F p inp d st [u v] x [G1 G2] H Hd Ei N1 N2. cbn in G1, G2.
  destruct (udp_input_spec custom_free malloc Hmalloc bmos Hbmos known known_null nf Hnf ip4_frag Hfrag recv good Hrecv F p inp d st u v x G1 G2 H Hd Ei N1 N2)
    as (st' & u' & v' & x' & -> & G1' & G2' & H'). by exists st', (u', v'), x'.
Qed.

End Udp.

(** ** Sending *)
Section Send.
Context {Fr : Frame}.
Variable custom_free : Z -> pheap -> res pheap.
Variable malloc : nat -> gmap Z pbuf -> Z.
Context (Hmalloc : malloc_ok malloc).
Variable bmos : netif.
Context (Hbmos : nif_hwaddr_len bmos = ETH_HWADDR_LEN).
#[local] Instance usth_ops : LinkOps nic := nic_link custom_free malloc bmos.
#[local] Instance usth_laws : LinkLaws nic := nic_laws custom_free malloc Hmalloc bmos Hbmos.
Variable known : Z -> Prop.
Context (known_null : ~ known 0).
Abbreviation ok x st := (arp_ok known x (ip_arp st)).
Variable nf : netifs.
Context (Hnf : netifs_ok known nf).
Variable ip4_frag : Z -> Z -> Z -> ipst -> res (Z * ipst).
Context (Hfrag : frag_ok custom_free malloc Hmalloc bmos Hbmos known nf ip4_frag).

(** C27. What udp_sendto sends, if the packet has 42 bytes of room for its headers
    and no other reference, fits unfragmented (with 28 bytes of headers in
    the MTU, at most 1480 bytes), and the destination has an interface and is a
    broadcast address or has a next hop with a stable ARP entry not due for
    another request (one of 270 s or more makes ARP send a request as well).
    Exactly one frame goes on the wire: Ethernet and IPv4 header (whose
    checksum verifies), the UDP header with the port of the block, the
    destination port and the length, and the bytes of the packet.  An unbound
    block first gets a free port; when there is none, ERR_USE is returned and
    nothing is sent.  The checksum, unless switched off, is never 0 (which
    would mean "none") and makes the receiver's sum 0xffff.  A block bound to
    the address of another interface sends nothing: ERR_RTE.  ip4_frag, which
    such a packet does not reach, is any function with the contract [frag_ok]. *)
Theorem udp_sendto_datagram pcb p dst_ip dst_port netif n c b r mac x st u :
  udp_ok u -> u_pcbs u !! pcb = Some c -> out_netif nf c dst_ip = Ret netif -> nf_at nf netif = Some n ->
  ok (p :: x) st -> sendable (ip_heap st) p b r 42 -> bytes (if_hwaddr n) ->
  hop (arp_table (ip_arp st)) n netif dst_ip mac -> p_tot_len b + 28 <= if_mtu n -> p_tot_len b <= 1480 ->
  0 <= if_ip n < 4294967296 -> 0 <= dst_ip < 4294967296 -> 0 <= ip_id st < 65536 -> 0 <= dst_port < 65536 ->
  let data := chain_data (pmem (ip_heap st)) ((p, b) :: r) in
  let run := udp_sendto custom_free malloc bmos nf ip4_frag pcb p dst_ip dst_port st u in
  if may_send_from c n then
    exists err st' u', run = Ret (err, st', u') /\ udp_ok u' /\
      sent custom_free malloc Hmalloc bmos Hbmos known pcb c (if_ip n) dst_ip dst_port n mac data (p :: x) st u err st' u' /\
      (forall c', u_pcbs u' !! pcb = Some c' -> has_flag (u_flags c') UDP_FLAGS_NOCHKSUM = false ->
       exists k, 0 < k <= 65535 /\ datagram_of c' (if_ip n) dst_ip dst_port data = udphdr (u_local_port c') dst_port (Z.of_nat (length data) + 8) k ++ data /\
         ones16 (udp_sum (if_ip n) dst_ip (datagram_of c' (if_ip n) dst_ip dst_port data)) = 65535)
  else run = Ret (ERR_RTE, st, u).
Proof.
  intros Hu Hc En Hn H Hs Bh Hhop Hmtu Htx Rs Rd Ri Rp data run. pose proof (sendable_pget _ _ _ _ _ Hs) as Hg. pose proof Hg as [Hp _]%pget_lookup.
  destruct (may_send_from c n) eqn:Hmay.
  - destruct (udp_sendto_frame custom_free malloc Hmalloc bmos Hbmos known known_null nf Hnf ip4_frag Hfrag pcb p dst_ip dst_port netif n c b r mac x st u
      Hu Hc En Hn Hmay H Hs Bh Hhop Hmtu Htx Rs Rd Ri Rp) as (err & st' & u' & E & Hu' & Hsent).
    exists err, st', u'. split; [done|]. split; [done|]. split; [done|]. intros c' Hc' Hck. unfold datagram_of, chksum_field. rewrite Hck.
    pose proof (sd_wf _ _ _ _ _ Hs) as Wf. assert (p_tot_len b = tot ((p, b) :: r)) as Et by apply Wf.
    assert (Z.of_nat (length data) = p_tot_len b) as Ld by (unfold data; rewrite length_chain_data by done; lia).
    destruct (udp_check_verifies (if_ip n) dst_ip (u_local_port c') dst_port data) as [K1 K2]; try lia.
    { by apply (uo_bound _ Hu' pcb c'). }
    { apply chain_data_bytes. exact (ok_mem_ok custom_free malloc Hmalloc bmos Hbmos known st _ H). }
    eexists. split; [exact K1|]. split; [reflexivity|exact K2].
  - unfold run. destruct (no_nif _ _ Hnf _ _ Hn) as (Hk & _). rewrite (sendto_steps _ _ _ _ _ pcb p dst_ip dst_port netif n c) by (done || (intros ->; by apply known_null)).
    by rewrite Hmay.
Qed.
End Send.

(** ** The theorems at work

    Block 1000 is a DHCP client (port 68, callback 1), block 1001 is connected
    to a name server and gets a port of the range. *)
#[local] Existing Instance no_frame.
Definition demo_pcb_malloc (n : nat) (m : gmap Z udp_pcb) : Z :=
  let a := 1000 + Z.of_nat n in match m !! a with Some _ => NULL | None => a end.
Lemma demo_pcb_fresh n m : demo_pcb_malloc n m <> NULL -> m !! demo_pcb_malloc n m = None.
Proof. unfold demo_pcb_malloc. destruct (m !! (1000 + Z.of_nat n)) eqn:E; [done|]. intros _. exact E. Qed.
Definition demo_calls : list udp_call :=
  [UInit 12345; UNew; UBind 1000 None 68; URecv 1000 1 77; UNew; UConnect 1001 (ip4 10 0 2 3) 53; UBind 1001 (Some (if_ip ip_nif)) 68].

Lemma demo_calls_ok : calls_ok demo_pcb_malloc udp_boot demo_calls.
Proof.
  repeat (apply calls_cons; [cbn; by try split; try lia; try (eexists; vm_compute; reflexivity)|]; intros ? E; vm_compute in E; injection E as <-). constructor.
Qed.
Lemma udp_calls_safe_witness : exists u, udp_dos demo_pcb_malloc demo_calls udp_boot = Ret u /\ exclusive u /\ udp_pcbs u = [1001; 1000].
Proof.
  destruct (udp_calls_safe demo_pcb_malloc demo_calls demo_pcb_fresh demo_calls_ok) as (u & E & _ & Hx).
  exists u. split; [exact E|]. split; [exact (Hx eq_refl)|]. vm_compute in E. injection E as <-. reflexivity.
Defined.

(** The state after these calls; the last one failed. *)
Definition demo_udp : udp := match udp_dos demo_pcb_malloc demo_calls udp_boot with Ret u => u | _ => udp_boot end.
Lemma demo_udp_ok : udp_ok demo_udp /\ exclusive demo_udp.
Proof.
  unfold demo_udp. destruct (udp_dos_spec demo_pcb_malloc demo_pcb_fresh demo_calls udp_boot udp_boot_ok demo_calls_ok) as (u & -> & Hu & Hx).
  split; [done|]. by apply Hx, udp_boot_exclusive.
Qed.
Definition demo_block : udp_pcb := mkUdpPcb 0 0 0 0 UDP_TTL 0 68 0 1 77.

Lemma udp_bind_contract_witness : exists err u', udp_bind 1000 None 0 demo_udp = Ret (err, u') /\ exclusive u'.
Proof.
  destruct (udp_bind_contract demo_udp 1000 None 0 demo_block) as (err & u' & E & _ & Hx & _).
  - apply demo_udp_ok.
  - vm_compute. reflexivity.
  - lia.
  - exists err, u'. split; [exact E|]. apply Hx, demo_udp_ok.
Defined.

Lemma udp_receiver_unique_witness : receiver demo_udp ip_nif ip_nif (ip4 10 0 2 2) 67 (if_ip ip_nif) 68 false = 1000.
Proof.
  apply (udp_receiver_unique demo_udp ip_nif ip_nif (ip4 10 0 2 2) 67 (if_ip ip_nif) 68 1000).
  - apply demo_udp_ok.
  - apply demo_udp_ok.
  - vm_compute. apply elem_of_cons. right. apply elem_of_cons. by left.
  - vm_compute. reflexivity.
Defined.

(** A datagram from port 67 of the gateway to port 68, in the pbuf at 4096
    behind its IP header; the callback frees what it gets. *)
Definition dg_data : list Z := [1; 2; 3; 4].
Definition dg_body : list Z := let h := udphdr 67 68 12 in h (udp_check (ip4 10 0 2 2) (if_ip ip_nif) (h 0 ++ dg_data)) ++ dg_data.
Definition dg_hdr : list Z := let h := iphdr 32 78 (ip4 10 0 2 2) (if_ip ip_nif) 64 0 IP_PROTO_UDP in h (rfc1071 (h 0)).
Definition dg_frame : list Z := if_hwaddr ip_nif ++ gw_mac ++ [8; 0] ++ dg_hdr ++ dg_body.
Definition dg_st (off n : Z) : ipst := set_ip_mem (mem_write ∅ 4160 dg_frame) (ping_st off n).
Lemma dg_ok off n : 0 <= n < 65536 -> demo_ip_ok [4096] (ip_arp (dg_st off n)).
Proof. intros Hn. apply ok_mem; [by apply ping_ok|]. apply mem_ok_mem_write, mem_ok_empty. Qed.
Definition demo_recv (f arg pcb p addr port : Z) (d : ip_globals) (st : ipst) (s : udp * list Z) : res (ipst * (udp * list Z)) :=
  let* st := ip_free demo_custom p st in Ret (st, (s.1, port :: s.2)).

Lemma udp_input_verdict_witness :
  udp_input demo_custom demo_malloc demo_bmos ip_nf demo_frag demo_recv 4096 7 ping_data (dg_st 34 12) (demo_udp, [])
  = demo_recv 1 77 1000 4096 (ip4 10 0 2 2) 67 ping_data (behind_header 4096 (ping_pbuf 34 12) (dg_st 34 12)) (demo_udp, []).
Proof.
  pose proof (udp_input_verdict demo_custom demo_malloc demo_malloc_ok demo_bmos eq_refl demo_known ip_nf demo_frag demo_recv
    no_frame 4096 7 ping_data (dg_st 34 12) demo_udp [] [] (ping_pbuf 14 32) ip_nif ip_nif) as H. cbv zeta in H.
  destruct H as (ps & Hc & H).
  - apply demo_udp_ok.
  - apply dg_ok. lia.
  - split; try reflexivity; try (vm_compute; split; congruence); [apply ping_placed; lia|cbn; lia..].
  - reflexivity.
  - discriminate.
  - reflexivity.
  - reflexivity.
  - assert (ps = [(4096, ping_pbuf 34 12)]) as ->.
    { destruct ps as [|[a c] ps]; [discriminate Hc|]. destruct Hc as (<- & _ & Ha & Hr). vm_compute in Ha. injection Ha as <-.
      destruct ps as [|[a' c'] ps]; [reflexivity|]. destruct Hr as (Ea & Hn & _).
      exfalso. apply Hn. exact (eq_sym Ea). }
    match type of H with match ?j with _ => _ end => let v := eval vm_compute in j in change j with v in H end. exact H.
Defined.

Lemma drops_take {U} (good : U -> Prop) : takes_packet demo_custom demo_malloc demo_malloc_ok demo_bmos eq_refl demo_known ip_nf good
  (fun p _ _ st u => let* st := ip_free demo_custom p st in Ret (st, u)).
Proof.
  intros F p inp d st u x G H _ _ _ _.
  destruct (ip_free_spec (F := F) demo_custom demo_malloc demo_malloc_ok demo_bmos eq_refl demo_known st p x H) as (st' & -> & H' & _).
  cbn [res_bind]. by exists st', u, x.
Qed.
Lemma demo_recv_ok : recv_ok demo_custom demo_malloc demo_malloc_ok demo_bmos eq_refl demo_known ip_nf demo_recv (fun _ => True).
Proof.
  intros F f arg pcb p addr port d st u v x c Hu _ H _ _ _ _ _ _. unfold demo_recv.
  destruct (ip_free_spec (F := F) demo_custom demo_malloc demo_malloc_ok demo_bmos eq_refl demo_known st p x H) as (st' & -> & H' & _).
  cbn [res_bind]. by exists st', u, (port :: v), x.
Qed.
Definition demo_stack := ip4_rx demo_custom demo_malloc demo_bmos ip_nf demo_frag
  (reass_layer demo_custom demo_malloc demo_bmos ip_nf demo_frag (fun _ => true))
  (transport_layer (udp_input demo_custom demo_malloc demo_bmos ip_nf demo_frag demo_recv))
  (transport_layer (fun p _ _ st u => let* st := ip_free demo_custom p st in Ret (st, u))).


Lemma udp_sendto_datagram_witness : exists st' u',
  udp_sendto demo_custom demo_malloc demo_bmos ip_nf demo_frag 1000 4096 (ip4 10 0 2 2) 67 (dg_st 42 4) demo_udp = Ret (ERR_OK, st', u') /\
  map (drop 42) (nic_tx (lk (ip_arp st'))) = [dg_data].
Proof.
  pose proof (udp_sendto_datagram demo_custom demo_malloc demo_malloc_ok demo_bmos eq_refl demo_known demo_null ip_nf ip_nf_ok demo_frag (demo_frag_ok _)
    1000 4096 (ip4 10 0 2 2) 67 7 ip_nif demo_block (ping_pbuf 42 4) [] gw_mac [] (dg_st 42 4) demo_udp) as H. cbv zeta in H.
  change (may_send_from demo_block ip_nif) with true in H.
  destruct H as (err & st' & u' & E & _).
  - apply demo_udp_ok.
  - vm_compute. reflexivity.
  - vm_compute. reflexivity.
  - reflexivity.
  - apply dg_ok. lia.
  - destruct (ping_sendable 42 42 4 ltac:(lia) ltac:(lia) ltac:(lia)). split; assumption.
  - by repeat constructor.
  - apply ping_hop.
  - cbn. lia.
  - cbn. lia.
  - vm_compute. split; congruence.
  - vm_compute. split; congruence.
  - cbn. lia.
  - lia.
  - exists st', u'. assert (err = ERR_OK /\ map (drop 42) (nic_tx (lk (ip_arp st'))) = [dg_data]) as [<- Hm]; [|split; [exact E|exact Hm]].
    vm_compute in E. injection E as <- <- <-. split; vm_compute; reflexivity.
Defined.
