(* ===== verification/Netif.v ===== *)
(** * lwip-2.2.0/src/core/netif.c: network interfaces

    Adding and removing interfaces, their addresses and their flags, on the
    stack below: IP with ARP and Ethernet, UDP, and TCP as a parameter.  The
    build has IPv4 only and no status callbacks.  The slot of an interface's
    client_data that DHCP uses holds a value of the type [D]. *)
From S2P Require Import Prelude NetShim Ip4Addr Link Etharp Pbuf NetGlue Ethernet Ip4 Icmp Ip4Input Udp.

Definition NETIF_REPORT_TYPE_IPV4 : Z := 0x01.
Definition NETIF_REPORT_TYPE_IPV6 : Z := 0x02.

Definition set_if_ip (a : Z) (n : nif) : nif :=
  mkNif a (if_netmask n) (if_gw n) (if_mtu n) (if_hwaddr n) (if_hwaddr_len n) (if_flags n) (if_num n).
Definition set_if_netmask (a : Z) (n : nif) : nif :=
  mkNif (if_ip n) a (if_gw n) (if_mtu n) (if_hwaddr n) (if_hwaddr_len n) (if_flags n) (if_num n).
Definition set_if_gw (a : Z) (n : nif) : nif :=
  mkNif (if_ip n) (if_netmask n) a (if_mtu n) (if_hwaddr n) (if_hwaddr_len n) (if_flags n) (if_num n).
Definition set_if_flags (f : Z) (n : nif) : nif :=
  mkNif (if_ip n) (if_netmask n) (if_gw n) (if_mtu n) (if_hwaddr n) (if_hwaddr_len n) f (if_num n).
Definition set_if_num (k : Z) (n : nif) : nif :=
  mkNif (if_ip n) (if_netmask n) (if_gw n) (if_mtu n) (if_hwaddr n) (if_hwaddr_len n) (if_flags n) k.
(** netif_set_flags and netif_clear_flags *)
Definition netif_set_flags (f : Z) (n : nif) : nif := set_if_flags (u8 (Z.lor (if_flags n) f)) n.
Definition netif_clear_flags (f : Z) (n : nif) : nif := set_if_flags (u8 (Z.land (if_flags n) (u8 (Z.land (Z.lnot f) 0xff)))) n.

Definition nf_set (netif : Z) (n : nif) (nf : netifs) : netifs :=
  mkNetifs (fun a => if a =? netif then Some n else nf_at nf a) (netif_list nf) (netif_default nf).

(** The stack: interfaces, IP, UDP, TCP, the client data of the interfaces, and
    the static variable netif_num. *)
Record stack (T D : Type) := mkStack {
  k_nf : netifs;
  k_ip : ipst;
  k_udp : udp;
  k_tcp : T;
  k_client : gmap Z D;
  netif_num : Z;
}.
Arguments mkStack {T D}.
Arguments k_nf {T D}.
Arguments k_ip {T D}.
Arguments k_udp {T D}.
Arguments k_tcp {T D}.
Arguments k_client {T D}.
Arguments netif_num {T D}.

Section Netif.
Variable custom_free : Z -> pheap -> res pheap.
Variable malloc : nat -> gmap Z pbuf -> Z.
Variable bmos : netif.
Context {T D : Type}.
(** tcp.c: closes the connections that use the old address. *)
Variable tcp_netif_ip_addr_changed : netifs -> Z -> Z -> ipst -> T -> res (ipst * T).
#[local] Instance netif_link : LinkOps nic := nic_link custom_free malloc bmos.
Implicit Types k : stack T D.

Definition set_k_nf (nf : netifs) k : stack T D := mkStack nf (k_ip k) (k_udp k) (k_tcp k) (k_client k) (netif_num k).
Definition set_k_ip (i : ipst) k : stack T D := mkStack (k_nf k) i (k_udp k) (k_tcp k) (k_client k) (netif_num k).
Definition set_k_udp (u : udp) k : stack T D := mkStack (k_nf k) (k_ip k) u (k_tcp k) (k_client k) (netif_num k).
Definition set_k_tcp (t : T) k : stack T D := mkStack (k_nf k) (k_ip k) (k_udp k) t (k_client k) (netif_num k).
Definition set_k_client (c : gmap Z D) k : stack T D := mkStack (k_nf k) (k_ip k) (k_udp k) (k_tcp k) c (netif_num k).
Definition set_netif_num (i : Z) k : stack T D := mkStack (k_nf k) (k_ip k) (k_udp k) (k_tcp k) (k_client k) i.
(** The members of the interface [netif]. *)
Definition kget k (netif : Z) : res nif := res_of_option (nf_at (k_nf k) netif).
Definition kset (netif : Z) (n : nif) k : stack T D := set_k_nf (nf_set netif n (k_nf k)) k.

(** ** Addresses *)

(** "send a gratuitous ARP" *)
Definition netif_issue_reports (netif report_type : Z) k : res (stack T D) :=
  lwip_assert (negb (netif =? NULL)) (
    let* n := kget k netif in
    if negb (netif_is_link_up n) || negb (netif_is_up n) then Ret k
    else if has_flag report_type NETIF_REPORT_TYPE_IPV4 && negb (if_ip n =? IPADDR_ANY) then
      if has_flag (if_flags n) NETIF_FLAG_ETHARP then
        let* (_, a) := etharp_request n (if_ip n) (ip_arp (k_ip k)) in Ret (set_k_ip (set_ip_arp a (k_ip k)) k)
      else Ret k
    else Ret k).

Definition netif_do_ip_addr_changed (old_addr new_addr : Z) k : res (stack T D) :=
  let* (i, t) := tcp_netif_ip_addr_changed (k_nf k) old_addr new_addr (k_ip k) (k_tcp k) in
  let k := set_k_tcp t (set_k_ip i k) in
  let* u := udp_netif_ip_addr_changed old_addr new_addr (k_udp k) in
  Ret (set_k_udp u k).

Definition netif_do_set_ipaddr (netif ipaddr : Z) k : res (bool * stack T D) :=
  let* n := kget k netif in
  if negb (ipaddr =? if_ip n) then
    let* k := netif_do_ip_addr_changed (if_ip n) ipaddr k in
    let* n := kget k netif in
    let* k := netif_issue_reports netif NETIF_REPORT_TYPE_IPV4 (kset netif (set_if_ip ipaddr n) k) in
    Ret (true, k)
  else Ret (false, k).
Definition netif_do_set_netmask (netif netmask : Z) k : res (bool * stack T D) :=
  let* n := kget k netif in
  if negb (netmask =? if_netmask n) then Ret (true, kset netif (set_if_netmask netmask n) k) else Ret (false, k).
Definition netif_do_set_gw (netif gw : Z) k : res (bool * stack T D) :=
  let* n := kget k netif in
  if negb (gw =? if_gw n) then Ret (true, kset netif (set_if_gw gw n) k) else Ret (false, k).

(** An address of [None] is NULL. *)
Definition netif_set_ipaddr (netif : Z) (ipaddr : option Z) k : res (stack T D) :=
  if netif =? NULL then Ret k else let* (_, k) := netif_do_set_ipaddr netif (default IPADDR_ANY ipaddr) k in Ret k.
Definition netif_set_netmask (netif : Z) (netmask : option Z) k : res (stack T D) :=
  if netif =? NULL then Ret k else let* (_, k) := netif_do_set_netmask netif (default IPADDR_ANY netmask) k in Ret k.
Definition netif_set_gw (netif : Z) (gw : option Z) k : res (stack T D) :=
  if netif =? NULL then Ret k else let* (_, k) := netif_do_set_gw netif (default IPADDR_ANY gw) k in Ret k.

(** "when removing an address, we have to remove it before changing netmask/gw" *)
Definition netif_set_addr (netif : Z) (ipaddr netmask gw : option Z) k : res (stack T D) :=
  let ipaddr := default IPADDR_ANY ipaddr in
  let netmask := default IPADDR_ANY netmask in
  let gw := default IPADDR_ANY gw in
  let remove := ipaddr =? IPADDR_ANY in
  let* (_, k) := if remove then netif_do_set_ipaddr netif ipaddr k else Ret (false, k) in
  let* (_, k) := netif_do_set_netmask netif netmask k in
  let* (_, k) := netif_do_set_gw netif gw k in
  let* (_, k) := if negb remove then netif_do_set_ipaddr netif ipaddr k else Ret (false, k) in
  Ret k.

(** ** Up and down *)
Definition netif_set_default (netif : Z) k : stack T D :=
  set_k_nf (mkNetifs (nf_at (k_nf k)) (netif_list (k_nf k)) netif) k.

Definition netif_set_up (netif : Z) k : res (stack T D) :=
  if netif =? NULL then Ret k
  else
    let* n := kget k netif in
    if negb (netif_is_up n) then
      netif_issue_reports netif (Z.lor NETIF_REPORT_TYPE_IPV4 NETIF_REPORT_TYPE_IPV6) (kset netif (netif_set_flags NETIF_FLAG_UP n) k)
    else Ret k.

Definition netif_set_down (netif : Z) k : res (stack T D) :=
  if netif =? NULL then Ret k
  else
    let* n := kget k netif in
    if netif_is_up n then
      let n := netif_clear_flags NETIF_FLAG_UP n in
      let k := kset netif n k in
      if has_flag (if_flags n) NETIF_FLAG_ETHARP then
        let* a := etharp_cleanup_netif netif (ip_arp (k_ip k)) in Ret (set_k_ip (set_ip_arp a (k_ip k)) k)
      else Ret k
    else Ret k.

(** ** Adding and removing *)

(** The loop over the interfaces: does one of them have the number? *)
Fixpoint num_taken (at_ : Z -> option nif) (netif num num_netifs : Z) (l : list Z) : res bool :=
  match l with
  | [] => Ret false
  | netif2 :: l =>
      lwip_assert (negb (netif2 =? netif)) (
        let num_netifs := num_netifs + 1 in
        lwip_assert (num_netifs <=? 255) (
          let* n := res_of_option (at_ netif2) in
          if if_num n =? num then Ret true else num_taken at_ netif num num_netifs l))
  end.

(** "Assign a unique netif number in the range [0..254]" *)
Fixpoint num_loop (fuel : nat) (nf : netifs) (netif num : Z) : res Z :=
  match fuel with
  | O => NoFuel
  | S fuel =>
      let num := if num =? 255 then 0 else num in
      let* taken := num_taken (nf_at nf) netif num 0 (netif_list nf) in
      if (taken : bool) then num_loop fuel nf netif (u8 (num + 1)) else Ret num
  end.

(** A struct netif that was never added is zero.  [init] gets the interface
    and returns its error and what it made of it. *)
Definition zero_nif : nif := mkNif 0 0 0 0 ethzero 0 0 0.
Definition netif_add (netif : Z) (ipaddr netmask gw : option Z) (init : nif -> Z * nif) k : res (Z * stack T D) :=
  if netif =? NULL then Ret (NULL, k)
  else
    let n0 := default zero_nif (nf_at (k_nf k) netif) in
    let n := mkNif IPADDR_ANY IPADDR_ANY IPADDR_ANY 0 (if_hwaddr n0) (if_hwaddr_len n0) 0 (netif_num k) in
    let k := set_k_client (delete netif (k_client k)) (kset netif n k) in
    let* k := netif_set_addr netif ipaddr netmask gw k in
    let* n := kget k netif in
    let (err, n) := init n in
    let k := kset netif n k in
    if negb (err =? ERR_OK) then Ret (NULL, k)
    else
      let* num := num_loop 256 (k_nf k) netif (if_num n) in
      let k := kset netif (set_if_num num n) k in
      let k := set_netif_num (if num =? 254 then 0 else u8 (num + 1)) k in
      let nf := k_nf k in
      Ret (netif, set_k_nf (mkNetifs (nf_at nf) (netif :: netif_list nf) (netif_default nf)) k).

(** A new address of NULL counts as the address any. *)
Definition netif_remove (netif : Z) k : res (stack T D) :=
  if netif =? NULL then Ret k
  else
    let* n := kget k netif in
    let* k := if negb (if_ip n =? IPADDR_ANY) then netif_do_ip_addr_changed (if_ip n) IPADDR_ANY k else Ret k in
    let* n := kget k netif in
    let* k := if netif_is_up n then netif_set_down netif k else Ret k in
    let k := if netif_default (k_nf k) =? netif then netif_set_default NULL k else k in
    let nf := k_nf k in
    Ret (set_k_nf (mkNetifs (nf_at nf) (remove_pcb netif (netif_list nf)) (netif_default nf)) k).
End Netif.
