(* ===== verification/NetifInv.v ===== *)
(** * Interfaces: every operation returns and keeps the stack in order

    The invariant of the stack, what netif_set_addr leaves, and the numbers
    that netif_add gives out. *)
From S2P Require Import Prelude NetShim Ip4Addr Link Etharp EtharpInv EtharpOps Pbuf PbufChain PbufOps NetGlue Ethernet EthernetInv EthernetRx Ip4 Icmp Ip4Input Ip4Inv Udp UdpInv Netif.

(** An interface whose members are in range. *)
Record nif_ok (n : nif) : Prop := {
  ni_ip : 0 <= if_ip n < 4294967296;
  ni_netmask : 0 <= if_netmask n < 4294967296;
  ni_gw : 0 <= if_gw n < 4294967296;
  ni_mtu : 0 <= if_mtu n < 65536;
  ni_hwaddr : bytes (if_hwaddr n);
}.
Definition set_if_addrs (ip netmask gw : Z) (n : nif) : nif := set_if_ip ip (set_if_gw gw (set_if_netmask netmask n)).
Lemma nif_ok_addrs ip netmask gw n : nif_ok n -> 0 <= ip < 4294967296 -> 0 <= netmask < 4294967296 -> 0 <= gw < 4294967296 -> nif_ok (set_if_addrs ip netmask gw n).
Proof. intros [N1 N2 N3 N4 N5] H1 H2 H3. by split. Qed.

(** UDP blocks are not lost when addresses change. *)
Definition pcbs_kept (u u' : udp) : Prop := forall a, is_Some (u_pcbs u !! a) -> is_Some (u_pcbs u' !! a).
Lemma move_pcbs_kept o n l : forall u u', move_pcbs o n l u = Ret u' -> pcbs_kept u u'.
Proof.
  induction l as [|a l IH]; intros u u' E; cbn [move_pcbs] in E; [injection E as <-; by intros b|].
  apply res_bind_Ret in E as (c & Ec & E). apply IH in E. intros b Hb. apply E. destruct (_ =? o); [|done]. cbn.
  destruct (decide (b = a)) as [->|]; [by rewrite lookup_insert_eq|by rewrite lookup_insert_ne].
Qed.
Lemma addr_changed_ok o n u : udp_ok u -> exists u', udp_netif_ip_addr_changed o n u = Ret u' /\ udp_ok u' /\ pcbs_kept u u'.
Proof.
  intros Hu. unfold udp_netif_ip_addr_changed. destruct (_ && _); [|by exists u; split; [|split; [|intros a]]].
  destruct (move_pcbs_ok o n (udp_pcbs u) u Hu) as (u' & E & Hu'); [done|]. exists u'. split; [done|]. split; [done|]. by eapply move_pcbs_kept.
Qed.

Section Stack.
Context {Fr : Frame}.
Variable custom_free : Z -> pheap -> res pheap.
Variable malloc : nat -> gmap Z pbuf -> Z.
Context (Hmalloc : malloc_ok malloc).
Variable bmos : netif.
Context (Hbmos : nif_hwaddr_len bmos = ETH_HWADDR_LEN).
#[local] Instance netif_ops : LinkOps nic := nic_link custom_free malloc bmos.
#[local] Instance netif_laws : LinkLaws nic := nic_laws custom_free malloc Hmalloc bmos Hbmos.
Variable known : Z -> Prop.
Context (known_null : ~ known 0).
Abbreviation ok x st := (arp_ok known x (ip_arp st)).
Context {T D : Type}.
Variable good : T -> Prop.
Variable tcp_netif_ip_addr_changed : netifs -> Z -> Z -> ipst -> T -> res (ipst * T).

(** What TCP owes: it returns, and holds on to no packet of others. *)
Definition tcp_ok : Prop := forall nf o n x i t, netifs_ok known nf -> ok x i -> good t ->
  exists i' t', tcp_netif_ip_addr_changed nf o n i t = Ret (i', t') /\ ok x i' /\ good t'.
Context (Htcp : tcp_ok).
Implicit Types k : stack T D.

Record stack_ok (x : list Z) k : Prop := {
  so_netifs : netifs_ok known (k_nf k);
  so_nif : forall a n, nf_at (k_nf k) a = Some n -> nif_ok n;
  so_ip : ok x (k_ip k);
  so_udp : udp_ok (k_udp k);
  so_tcp : good (k_tcp k);
}.

Lemma nf_set_ok nf netif n0 n : netifs_ok known nf -> nf_at nf netif = Some n0 -> if_hwaddr_len n = 6 -> length (if_hwaddr n) = 6%nat -> netifs_ok known (nf_set netif n nf).
Proof.
  intros [H1 H2 H3] Hn L1 L2. assert (forall a, is_Some (nf_at nf a) -> is_Some (nf_at (nf_set netif n nf) a)) as Hs by (intros a Ha; cbn; by destruct (a =? netif)).
  split.
  - intros a na. cbn. destruct (Z.eqb_spec a netif) as [->|]; [|apply H1]. intros [= <-]. split; [by eapply (H1 _ _ Hn)|done].
  - intros a Ha. by apply Hs, H2.
  - destruct H3 as [?|?]; [by left|right; by apply Hs].
Qed.
Lemma kset_ok x k netif n0 n : stack_ok x k -> nf_at (k_nf k) netif = Some n0 -> nif_ok n -> if_hwaddr_len n = if_hwaddr_len n0 -> if_hwaddr n = if_hwaddr n0 ->
  stack_ok x (kset netif n k).
Proof.
  intros [S1 S2 S3 S4 S5] Hn Ho E1 E2. destruct (no_nif _ _ S1 _ _ Hn) as (_ & L1 & L2). split; try done.
  - eapply nf_set_ok; try done; congruence.
  - intros a na. cbn. destruct (Z.eqb_spec a netif); [by intros [= <-]|apply S2].
Qed.

(** Reports change nothing but packets. *)
Lemma issue_reports_spec x k netif n ty : stack_ok x k -> nf_at (k_nf k) netif = Some n ->
  exists i, netif_issue_reports custom_free malloc bmos netif ty k = Ret (set_k_ip i k) /\ ok x i.
Proof.
  intros [S1 S2 S3 S4 S5] Hn. destruct (no_nif _ _ S1 _ _ Hn) as (Hk & L1 & L2). assert (netif <> NULL) as Hni by (intros ->; by apply known_null).
  unfold netif_issue_reports, kget. rewrite (proj2 (Z.eqb_neq _ _) Hni), Hn. cbn [negb lwip_assert res_of_option res_bind].
  assert (exists i, Ret k = Ret (set_k_ip i k) /\ ok x i) as Hsame by (exists (k_ip k); by destruct k).
  destruct (_ || _); [done|]. destruct (_ && _); [|done]. destruct (has_flag _ _); [|done].
  destruct (raw_spec known x (ip_arp (k_ip k)) n (if_hwaddr n) ethbroadcast (if_hwaddr n) (if_ip n) ethzero (if_ip n) ARP_REQUEST S3 L1 L2 eq_refl L2 eq_refl) as (r & w & E & H & _).
  unfold etharp_request, etharp_request_dst, netif_link. unfold netif_ops in E. rewrite E. cbn [res_bind]. eexists. split; [reflexivity|exact H].
Qed.

(** What stays when an interface is changed. *)
Record others_kept (netif : Z) k k' : Prop := {
  ok_list : netif_list (k_nf k') = netif_list (k_nf k);
  ok_default : netif_default (k_nf k') = netif_default (k_nf k);
  ok_at : forall a, a <> netif -> nf_at (k_nf k') a = nf_at (k_nf k) a;
  ok_client : k_client k' = k_client k;
  ok_pcbs : pcbs_kept (k_udp k) (k_udp k');
}.
Lemma others_kept_refl netif k : others_kept netif k k.
Proof. by split; try intros a. Qed.
Lemma others_kept_trans netif k k1 k2 : others_kept netif k k1 -> others_kept netif k1 k2 -> others_kept netif k k2.
Proof.
  intros [A1 A2 A3 A4 A5] [B1 B2 B3 B4 B5]. split; try congruence.
  - intros a Ha. by rewrite B3, A3.
  - intros a Ha. by apply B5, A5.
Qed.
Lemma others_kept_kset netif n k : others_kept netif k (kset netif n k).
Proof. split; try done; [|by intros a]. intros a Ha. cbn. by rewrite (proj2 (Z.eqb_neq _ _) Ha). Qed.

Lemma ip_addr_changed_spec x k netif o n : stack_ok x k ->
  exists k', netif_do_ip_addr_changed tcp_netif_ip_addr_changed o n k = Ret k' /\ stack_ok x k' /\ k_nf k' = k_nf k /\ others_kept netif k k'.
Proof.
  intros [S1 S2 S3 S4 S5]. unfold netif_do_ip_addr_changed. destruct (Htcp (k_nf k) o n x (k_ip k) (k_tcp k) S1 S3 S5) as (i & t & -> & Hi & Ht). cbn [res_bind k_udp set_k_tcp set_k_ip].
  destruct (addr_changed_ok o n (k_udp k) S4) as (u & -> & Hu & Hk). cbn [res_bind]. eexists. split; [reflexivity|]. by split; [|split; [|split]].
Qed.

(** The three steps of netif_set_addr. *)
Lemma do_set_ipaddr_spec x k netif n ip : stack_ok x k -> nf_at (k_nf k) netif = Some n -> 0 <= ip < 4294967296 ->
  exists b k', netif_do_set_ipaddr custom_free malloc bmos tcp_netif_ip_addr_changed netif ip k = Ret (b, k') /\ stack_ok x k' /\
    nf_at (k_nf k') netif = Some (set_if_ip ip n) /\ others_kept netif k k'.
Proof.
  intros S Hn Hip. unfold netif_do_set_ipaddr, kget. rewrite Hn. cbn [res_of_option res_bind]. destruct (Z.eqb_spec ip (if_ip n)) as [->|Hne]; cbn [negb].
  { exists false, k. split; [done|]. split; [done|]. split; [by destruct n|apply others_kept_refl]. }
  destruct (ip_addr_changed_spec x k netif (if_ip n) ip S) as (k1 & -> & S1 & E1 & K1). cbn [res_bind]. rewrite E1, Hn. cbn [res_of_option res_bind].
  assert (nf_at (k_nf k1) netif = Some n) as Hn1 by congruence.
  assert (stack_ok x (kset netif (set_if_ip ip n) k1)) as S2.
  { eapply kset_ok; try done. destruct (so_nif _ _ S1 _ _ Hn1) as [N1 N2 N3 N4 N5]. by split. }
  destruct (issue_reports_spec x (kset netif (set_if_ip ip n) k1) netif (set_if_ip ip n) NETIF_REPORT_TYPE_IPV4 S2) as (i & -> & Hi); [cbn; by rewrite Z.eqb_refl|].
  cbn [res_bind]. eexists _, _. split; [reflexivity|]. split; [|split; [cbn; by rewrite Z.eqb_refl|]].
  - destruct S2 as [T1 T2 T3 T4 T5]. by split.
  - eapply others_kept_trans; [exact K1|]. destruct (others_kept_kset netif (set_if_ip ip n) k1) as [B1 B2 B3 B4 B5]. by split.
Qed.
Lemma do_set_netmask_spec x k netif n mask : stack_ok x k -> nf_at (k_nf k) netif = Some n -> 0 <= mask < 4294967296 ->
  exists b k', netif_do_set_netmask netif mask k = Ret (b, k') /\ stack_ok x k' /\ nf_at (k_nf k') netif = Some (set_if_netmask mask n) /\ others_kept netif k k'.
Proof.
  intros S Hn Hm. unfold netif_do_set_netmask, kget. rewrite Hn. cbn [res_of_option res_bind]. destruct (Z.eqb_spec mask (if_netmask n)) as [->|Hne]; cbn [negb].
  - exists false, k. split; [done|]. split; [done|]. split; [by destruct n|apply others_kept_refl].
  - eexists _, _. split; [reflexivity|]. split; [|split; [cbn; by rewrite Z.eqb_refl|apply others_kept_kset]].
    eapply kset_ok; try done. destruct (so_nif _ _ S _ _ Hn) as [N1 N2 N3 N4 N5]. by split.
Qed.
Lemma do_set_gw_spec x k netif n gw : stack_ok x k -> nf_at (k_nf k) netif = Some n -> 0 <= gw < 4294967296 ->
  exists b k', netif_do_set_gw netif gw k = Ret (b, k') /\ stack_ok x k' /\ nf_at (k_nf k') netif = Some (set_if_gw gw n) /\ others_kept netif k k'.
Proof.
  intros S Hn Hm. unfold netif_do_set_gw, kget. rewrite Hn. cbn [res_of_option res_bind]. destruct (Z.eqb_spec gw (if_gw n)) as [->|Hne]; cbn [negb].
  - exists false, k. split; [done|]. split; [done|]. split; [by destruct n|apply others_kept_refl].
  - eexists _, _. split; [reflexivity|]. split; [|split; [cbn; by rewrite Z.eqb_refl|apply others_kept_kset]].
    eapply kset_ok; try done. destruct (so_nif _ _ S _ _ Hn) as [N1 N2 N3 N4 N5]. by split.
Qed.

(** netif_set_addr returns, and the interface has the three addresses, whatever
    the order in which they were set. *)
Lemma set_addr_spec x k netif n ip mask gw : stack_ok x k -> nf_at (k_nf k) netif = Some n ->
  0 <= ip < 4294967296 -> 0 <= mask < 4294967296 -> 0 <= gw < 4294967296 ->
  exists k', netif_set_addr custom_free malloc bmos tcp_netif_ip_addr_changed netif (Some ip) (Some mask) (Some gw) k = Ret k' /\ stack_ok x k' /\
    nf_at (k_nf k') netif = Some (set_if_addrs ip mask gw n) /\ others_kept netif k k'.
Proof.
  intros S Hn Hip Hm Hgw. unfold netif_set_addr. change (default IPADDR_ANY (Some ip)) with ip. change (default IPADDR_ANY (Some mask)) with mask. change (default IPADDR_ANY (Some gw)) with gw.
  cbv zeta. destruct (ip =? IPADDR_ANY); cbn [negb].
  - destruct (do_set_ipaddr_spec x k netif n ip S Hn Hip) as (b1 & k1 & -> & S1 & N1 & K1). cbn [res_bind].
    destruct (do_set_netmask_spec x k1 netif _ mask S1 N1 Hm) as (b2 & k2 & -> & S2 & N2 & K2). cbn [res_bind].
    destruct (do_set_gw_spec x k2 netif _ gw S2 N2 Hgw) as (b3 & k3 & -> & S3 & N3 & K3). cbn [res_bind].
    exists k3. split; [done|]. split; [done|]. split; [done|]. eauto using others_kept_trans.
  - cbn [res_bind]. destruct (do_set_netmask_spec x k netif _ mask S Hn Hm) as (b2 & k2 & -> & S2 & N2 & K2). cbn [res_bind].
    destruct (do_set_gw_spec x k2 netif _ gw S2 N2 Hgw) as (b3 & k3 & -> & S3 & N3 & K3). cbn [res_bind].
    destruct (do_set_ipaddr_spec x k3 netif _ ip S3 N3 Hip) as (b1 & k1 & -> & S1 & N1 & K1). cbn [res_bind].
    exists k1. split; [done|]. split; [done|]. split; [done|]. eauto using others_kept_trans.
Qed.
End Stack.
