(* ===== verification/NetifTheorems.v ===== *)
(** * Interfaces: theorems *)
From S2P Require Import Prelude NetShim Ip4Addr Link Etharp EtharpInv EtharpOps EtharpTheorems Pbuf PbufChain PbufOps NetGlue Ethernet EthernetInv EthernetRx EthernetTheorems Ip4 Icmp Ip4Input Ip4Inv Ip4Theorems Udp UdpInv UdpTheorems Netif NetifInv.

(** ** Numbers *)

(** The numbers of the interfaces in a list. *)
Definition nums (nf : netifs) (l : list Z) : list Z := (fun a => default 0 (if_num <$> nf_at nf a)) <$> l.

Lemma num_taken_spec nf netif num l : netif ∉ l -> (forall a, a ∈ l -> is_Some (nf_at nf a)) -> forall c, 0 <= c -> c + Z.of_nat (length l) <= 255 ->
  num_taken (nf_at nf) netif num c l = Ret (bool_decide (num ∈ nums nf l)).
Proof.
  induction l as [|a l IH]; intros Hnin Hat c Hc Hl; cbn [num_taken length] in *; [done|]. apply not_elem_of_cons in Hnin as [Hne Hnin].
  rewrite (proj2 (Z.eqb_neq a netif)) by done. rewrite (proj2 (Z.leb_le _ _)) by lia. cbn [negb lwip_assert].
  destruct (Hat a ltac:(by left)) as [n Hn]. rewrite Hn. cbn [res_of_option res_bind].
  assert (nums nf (a :: l) = if_num n :: nums nf l) as -> by (unfold nums; cbn; by rewrite Hn).
  rewrite IH by (done || lia || (intros b Hb; apply Hat; by right)). destruct (Z.eqb_spec (if_num n) num) as [->|Hnum].
  - by rewrite bool_decide_eq_true_2 by (by left).
  - f_equal. apply bool_decide_ext. rewrite elem_of_cons. split; [by right|]. by intros [?|?].
Qed.
(** The candidates, in the order in which they are tried. *)
Definition candidate (num : Z) (i : Z) : Z := ((if num =? 255 then 0 else num) + i) mod 255.
Lemma candidate_range num i : 0 <= candidate num i < 255.
Proof. apply Z.mod_pos_bound. lia. Qed.
Lemma candidate_next num i : 0 <= num <= 255 -> 0 <= i -> candidate (u8 ((if num =? 255 then 0 else num) + 1)) i = candidate num (i + 1).
Proof.
  intros Hn Hi. unfold candidate. set (m := if num =? 255 then 0 else num). assert (0 <= m < 255) as Hm by (unfold m; destruct (Z.eqb_spec num 255); lia).
  rewrite u8_small by (unfold is_byte; lia). destruct (Z.eqb_spec (m + 1) 255); [|f_equal; lia].
  replace (m + (i + 1)) with (0 + i + 1 * 255) by lia. by rewrite Z.mod_add.
Qed.
Lemma num_loop_spec nf netif : netif ∉ netif_list nf -> (forall a, a ∈ netif_list nf -> is_Some (nf_at nf a)) -> (length (netif_list nf) <= 254)%nat ->
  forall fuel num, 0 <= num <= 255 -> (exists i, 0 <= i < Z.of_nat fuel /\ candidate num i ∉ nums nf (netif_list nf)) ->
  exists r, num_loop fuel nf netif num = Ret r /\ 0 <= r <= 254 /\ r ∉ nums nf (netif_list nf).
Proof.
  intros Hnin Hat Hl. induction fuel as [|fuel IH]; intros num Hn (i & Hi & Hfree); [lia|]. cbn [num_loop].
  set (m := if num =? 255 then 0 else num). assert (0 <= m < 255) as Hm by (unfold m; destruct (Z.eqb_spec num 255); lia).
  rewrite num_taken_spec by (done || lia). cbn [res_bind]. destruct (bool_decide _) eqn:E; [apply bool_decide_eq_true in E|apply bool_decide_eq_false in E; exists m; by split; [|split; [lia|]]].
  assert (i <> 0) as Hi0.
  { intros ->. apply Hfree. unfold candidate. fold m. rewrite Z.add_0_r, Z.mod_small by lia. done. }
  pose proof (u8_range (m + 1)) as Hu. apply IH; [lia|]. exists (i - 1). split; [lia|]. unfold m. rewrite candidate_next by lia. by replace (i - 1 + 1) with i by lia.
Qed.
(** 255 candidates, and fewer interfaces. *)
Lemma candidate_free num l : 0 <= num <= 255 -> (length l <= 254)%nat -> exists i, 0 <= i < 255 /\ candidate num i ∉ l.
Proof.
  intros Hn Hl. destruct (decide (Forall (fun i => candidate num i ∈ l) (seqZ 0 255))) as [Hall|Hno].
  - exfalso. assert (candidate num <$> seqZ 0 255 ⊆+ l) as Hs.
    { apply NoDup_submseteq.
      - apply NoDup_fmap_2_strong; [|apply NoDup_seqZ]. intros i j Hi%elem_of_seqZ Hj%elem_of_seqZ. unfold candidate.
        set (m := if num =? 255 then 0 else num). assert (0 <= m < 255) as Hm by (unfold m; destruct (Z.eqb_spec num 255); lia). intros E.
        pose proof (Z.div_mod (m + i) 255) as Di. pose proof (Z.div_mod (m + j) 255) as Dj. nia.
      - intros a (i & -> & Hi)%list_elem_of_fmap. by eapply (proj1 (Forall_forall _ _) Hall). }
    apply submseteq_length in Hs. rewrite length_fmap, length_seqZ in Hs. lia.
  - apply not_Forall_Exists in Hno; [|apply _]. apply Exists_exists in Hno as (i & Hi%elem_of_seqZ & Hc). exists i. split; [lia|done].
Qed.

(** C22. netif_add finds a number: with at most 254 other interfaces, whatever
    their numbers are and wherever the search starts, the search ends (at the
    latest after 255 numbers), no assertion fails, and the number is below 255
    and belongs to no other interface. *)
Theorem netif_number_unique nf netif num :
  netif ∉ netif_list nf -> (forall a, a ∈ netif_list nf -> is_Some (nf_at nf a)) -> (length (netif_list nf) <= 254)%nat -> 0 <= num <= 255 ->
  exists r, num_loop 256 nf netif num = Ret r /\ 0 <= r <= 254 /\ (forall a n, a ∈ netif_list nf -> nf_at nf a = Some n -> if_num n <> r).
Proof.
  intros Hnin Hat Hl Hn. destruct (candidate_free num (nums nf (netif_list nf)) Hn) as (i & Hi & Hfree); [unfold nums; by rewrite length_fmap|].
  destruct (num_loop_spec nf netif Hnin Hat Hl 256 num Hn) as (r & E & Hr & Hnr); [exists i; split; [lia|done]|].
  exists r. split; [done|]. split; [done|]. intros a n Ha Hna <-. apply Hnr. unfold nums. apply list_elem_of_fmap. exists a. by rewrite Hna.
Qed.
Lemma netif_number_unique_witness : exists r, num_loop 256 ip_nf 8 0 = Ret r /\ 0 <= r <= 254.
Proof.
  destruct (netif_number_unique ip_nf 8 0) as (r & E & Hr & _).
  - intros H. apply list_elem_of_singleton in H. discriminate H.
  - intros a ->%list_elem_of_singleton. exists ip_nif. reflexivity.
  - cbn. lia.
  - lia.
  - exists r. split; [exact E|exact Hr].
Defined.

(** ** Addresses *)
Section Addr.
Context {Fr : Frame}.
Variable custom_free : Z -> pheap -> res pheap.
Variable malloc : nat -> gmap Z pbuf -> Z.
Context (Hmalloc : malloc_ok malloc).
Variable bmos : netif.
Context (Hbmos : nif_hwaddr_len bmos = ETH_HWADDR_LEN).
Variable known : Z -> Prop.
Context (known_null : ~ known 0).
Context {T D : Type}.
Variable good : T -> Prop.
Variable tcp_netif_ip_addr_changed : netifs -> Z -> Z -> ipst -> T -> res (ipst * T).
Context (Htcp : tcp_ok custom_free malloc Hmalloc bmos Hbmos known good tcp_netif_ip_addr_changed).

(** netif_set_addr returns, and the interface has exactly the three new
    addresses, whether it gets or loses its address (which decides the order of
    the steps) and with the gratuitous ARP it sends on the way.  The other
    interfaces, the list and the default, and the DHCP clients are as before;
    no UDP block is lost; packets, ARP table and reference counts are in
    order. *)
Theorem netif_set_addr_exact x (k : stack T D) netif n ip mask gw :
  stack_ok custom_free malloc Hmalloc bmos Hbmos known good x k -> nf_at (k_nf k) netif = Some n ->
  0 <= ip < 4294967296 -> 0 <= mask < 4294967296 -> 0 <= gw < 4294967296 ->
  exists k', netif_set_addr custom_free malloc bmos tcp_netif_ip_addr_changed netif (Some ip) (Some mask) (Some gw) k = Ret k' /\
    stack_ok custom_free malloc Hmalloc bmos Hbmos known good x k' /\ nf_at (k_nf k') netif = Some (set_if_addrs ip mask gw n) /\ others_kept netif k k'.
Proof. exact (set_addr_spec custom_free malloc Hmalloc bmos Hbmos known known_null good tcp_netif_ip_addr_changed Htcp x k netif n ip mask gw). Qed.
End Addr.

(** ** A stack after start-up

    The interface 7 of the other examples, no packets, an empty ARP table, and
    the UDP blocks [demo_udp]. *)
#[local] Existing Instance no_frame.
Definition boot_nic : nic := mkNic (mkPheap ∅ ∅) 0 (replicate 1522 0) [].
Definition boot_st : ipst := mkIpst (arp_boot boot_nic) 5.
Lemma boot_st_ok : demo_ip_ok [] (ip_arp boot_st).
Proof.
  apply (boot_ok (L := nic_link demo_custom demo_malloc demo_bmos) (LL := nic_laws demo_custom demo_malloc demo_malloc_ok demo_bmos eq_refl)).
  split_and!; [apply mem_ok_empty|apply length_replicate|]. exists (fun _ => []). split; [| |apply no_frame_sub|].
  - by intros p Hp%not_elem_of_nil.
  - by intros p q y Hp%not_elem_of_nil.
  - by intros p y Hp%not_elem_of_nil.
Qed.
Definition demo_tcp (nf : netifs) (o n : Z) (i : ipst) (t : unit) : res (ipst * unit) := Ret (i, t).
Lemma demo_tcp_ok : tcp_ok demo_custom demo_malloc demo_malloc_ok demo_bmos eq_refl demo_known (fun _ => True) demo_tcp.
Proof. intros nf o n x i t _ H _. by exists i, t. Qed.
Lemma ip_nif_ok : nif_ok ip_nif.
Proof.
  split; try by vm_compute. unfold ip_nif. cbn [if_hwaddr]. apply (bool_decide_unpack _). vm_compute. exact I.
Qed.
Definition boot_stack {D} : stack unit D := mkStack ip_nf boot_st demo_udp tt ∅ 1.
Lemma boot_stack_ok {D} : stack_ok demo_custom demo_malloc demo_malloc_ok demo_bmos eq_refl demo_known (fun _ => True) [] (@boot_stack D).
Proof.
  split; [apply ip_nf_ok| |apply boot_st_ok|apply demo_udp_ok|done].
  intros a n. cbn. destruct (a =? 7); [|done]. intros [= <-]. apply ip_nif_ok.
Qed.

Lemma netif_set_addr_exact_witness : exists k',
  netif_set_addr demo_custom demo_malloc demo_bmos demo_tcp 7 (Some (ip4 10 0 2 77)) (Some (ip4 255 255 0 0)) (Some (ip4 10 0 2 1)) (boot_stack (D := unit)) = Ret k' /\
  nf_at (k_nf k') 7 = Some (set_if_addrs (ip4 10 0 2 77) (ip4 255 255 0 0) (ip4 10 0 2 1) ip_nif).
Proof.
  destruct (netif_set_addr_exact demo_custom demo_malloc demo_malloc_ok demo_bmos eq_refl demo_known demo_null (fun _ => True) demo_tcp demo_tcp_ok
    [] (boot_stack (D := unit)) 7 ip_nif (ip4 10 0 2 77) (ip4 255 255 0 0) (ip4 10 0 2 1)) as (k' & E & _ & Hn & _).
  - apply boot_stack_ok.
  - reflexivity.
  - vm_compute. split; congruence.
  - vm_compute. split; congruence.
  - vm_compute. split; congruence.
  - exists k'. split; [exact E|exact Hn].
Defined.
