(* ===== verification/DhcpParse.v ===== *)
(** * lwip-2.2.0/src/core/ipv4/dhcp.c: the options of a DHCP reply

    dhcp_parse_reply over a chain of pbufs.  The options this build decodes are
    the ones without DNS and NTP servers.  A read behind the data of a pbuf is
    undefined. *)
From S2P Require Import Prelude NetShim Ip4Addr Pbuf NetGlue Ip4.

(** ** Constants *)
Definition DHCP_SNAME_OFS : Z := 44.
Definition DHCP_SNAME_LEN : Z := 64.
Definition DHCP_FILE_OFS : Z := 108.
Definition DHCP_FILE_LEN : Z := 128.
Definition DHCP_MSG_LEN : Z := 236.
Definition DHCP_OPTIONS_OFS : Z := DHCP_MSG_LEN + 4.

Definition DHCP_OPTION_PAD : Z := 0.
Definition DHCP_OPTION_SUBNET_MASK : Z := 1.
Definition DHCP_OPTION_ROUTER : Z := 3.
Definition DHCP_OPTION_BROADCAST : Z := 28.
Definition DHCP_OPTION_REQUESTED_IP : Z := 50.
Definition DHCP_OPTION_LEASE_TIME : Z := 51.
Definition DHCP_OPTION_OVERLOAD : Z := 52.
Definition DHCP_OPTION_MESSAGE_TYPE : Z := 53.
Definition DHCP_OPTION_SERVER_ID : Z := 54.
Definition DHCP_OPTION_PARAMETER_REQUEST_LIST : Z := 55.
Definition DHCP_OPTION_MAX_MSG_SIZE : Z := 57.
Definition DHCP_OPTION_T1 : Z := 58.
Definition DHCP_OPTION_T2 : Z := 59.
Definition DHCP_OPTION_END : Z := 255.

Definition DHCP_OVERLOAD_FILE : Z := 1.
Definition DHCP_OVERLOAD_SNAME : Z := 2.
Definition DHCP_OVERLOAD_SNAME_FILE : Z := 3.

Definition DHCP_OPTION_IDX_OVERLOAD : Z := 0.
Definition DHCP_OPTION_IDX_MSG_TYPE : Z := 1.
Definition DHCP_OPTION_IDX_SERVER_ID : Z := 2.
Definition DHCP_OPTION_IDX_LEASE_TIME : Z := 3.
Definition DHCP_OPTION_IDX_T1 : Z := 4.
Definition DHCP_OPTION_IDX_T2 : Z := 5.
Definition DHCP_OPTION_IDX_SUBNET_MASK : Z := 6.
Definition DHCP_OPTION_IDX_ROUTER : Z := 7.
Definition DHCP_OPTION_IDX_MAX : Z := 8.

(** ** dhcp_rx_options_given and dhcp_rx_options_val *)
Definition rx_options : Type := list (bool * Z).
Definition rx_boot : rx_options := replicate (Z.to_nat DHCP_OPTION_IDX_MAX) (false, 0).
Definition rx_at (rx : rx_options) (idx : Z) : bool * Z := default (false, 0) (rx !! Z.to_nat idx).
Definition dhcp_option_given (rx : rx_options) (idx : Z) : bool := (rx_at rx idx).1.
Definition dhcp_get_option_value (rx : rx_options) (idx : Z) : Z := (rx_at rx idx).2.
(** dhcp_got_option with dhcp_set_option_value. *)
Definition got_option (idx v : Z) (rx : rx_options) : rx_options := <[Z.to_nat idx := (true, v)]> rx.
Definition dhcp_clear_option (idx : Z) (rx : rx_options) : rx_options := <[Z.to_nat idx := (false, (rx_at rx idx).2)]> rx.
Definition dhcp_clear_all_options (rx : rx_options) : rx_options := (fun x => (false, x.2)) <$> rx.

(** ** Parsing *)

(** The byte at [offset] in the data of a pbuf. *)
Definition opt_at (b : pbuf) (offset : Z) (h : pheap) : res Z :=
  if offset <? p_len b then Ret (mload (pmem h) (payload b + offset)) else Undef.

(** From "again" to the pbuf the options are in. *)
Fixpoint skip_pbufs (fuel : nat) (q options_idx options_idx_max : Z) (h : pheap) : res (Z * Z * Z) :=
  match fuel with
  | O => NoFuel
  | S fuel =>
      if q =? NULL then Ret (q, options_idx, options_idx_max)
      else
        let* b := pget h q in
        if options_idx >=? p_len b
        then skip_pbufs fuel (next b) (u16 (options_idx - p_len b)) (u16 (options_idx_max - p_len b)) h
        else Ret (q, options_idx, options_idx_max)
  end.

(** The switch over the option code: the number of bytes to decode and the index
    of the value ([None]: nothing to decode); an error is [None]. *)
Definition option_decode (op len options_offset : Z) : option (Z * option Z) :=
  let exactly n idx := if len =? n then Some (n, Some idx) else None in
  if op =? DHCP_OPTION_PAD then Some (0, None)
  else if op =? DHCP_OPTION_SUBNET_MASK then exactly 4 DHCP_OPTION_IDX_SUBNET_MASK
  else if op =? DHCP_OPTION_ROUTER then if len >=? 4 then Some (4, Some DHCP_OPTION_IDX_ROUTER) else None
  else if op =? DHCP_OPTION_LEASE_TIME then exactly 4 DHCP_OPTION_IDX_LEASE_TIME
  else if op =? DHCP_OPTION_OVERLOAD then
    if len =? 1 then if options_offset =? DHCP_OPTIONS_OFS then Some (1, Some DHCP_OPTION_IDX_OVERLOAD) else None else None
  else if op =? DHCP_OPTION_MESSAGE_TYPE then exactly 1 DHCP_OPTION_IDX_MSG_TYPE
  else if op =? DHCP_OPTION_SERVER_ID then exactly 4 DHCP_OPTION_IDX_SERVER_ID
  else if op =? DHCP_OPTION_T1 then exactly 4 DHCP_OPTION_IDX_T1
  else if op =? DHCP_OPTION_T2 then exactly 4 DHCP_OPTION_IDX_T2
  else Some (0, None).

(** From "decode_next" on: the error (ERR_OK: none) and the values.  [decode_len]
    is a multiple of 4 or 1. *)
Fixpoint decode_next (fuel : nat) (q decode_idx decode_len val_offset : Z) (rx : rx_options) (h : pheap) : res (Z * rx_options) :=
  match fuel with
  | O => NoFuel
  | S fuel =>
      lwip_assert ((decode_idx >=? 0) && (decode_idx <? DHCP_OPTION_IDX_MAX)) (
        if dhcp_option_given rx decode_idx then Ret (ERR_OK, rx)
        else
          let copy_len := Z.min decode_len 4 in
          let* (n, bs) := pbuf_copy_partial q copy_len val_offset h in
          if negb (n =? copy_len) then Ret (ERR_BUF, rx)
          else
            let value := le_val bs in
            if decode_len >? 4 then
              if negb (decode_len mod 4 =? 0) then Ret (ERR_VAL, rx)
              else
                let rx := got_option decode_idx (lwip_htonl value) rx in
                let next_val_offset := u16 (val_offset + 4) in
                if next_val_offset <? val_offset then Ret (ERR_BUF, rx)
                else decode_next fuel q (decode_idx + 1) (u8 (decode_len - 4)) next_val_offset rx h
            else if decode_len =? 4 then Ret (ERR_OK, got_option decode_idx (lwip_htonl value) rx)
            else if decode_len =? 1 then Ret (ERR_OK, got_option decode_idx (u8 value) rx)
            else Ret (ERR_VAL, rx))
  end.

(** The while loop over the options. *)
Fixpoint parse_loop (fuel : nat) (q offset offset_max options_offset : Z) (rx : rx_options) (h : pheap) : res (Z * rx_options) :=
  match fuel with
  | O => NoFuel
  | S fuel =>
      if q =? NULL then Ret (ERR_OK, rx)
      else
        let* b := pget h q in
        if negb (offset <? offset_max) then Ret (ERR_OK, rx)
        else
          let* op := opt_at b offset h in
          if op =? DHCP_OPTION_END then Ret (ERR_OK, rx)
          else
            let val_offset := u16 (offset + 2) in
            if val_offset <? offset then Ret (ERR_BUF, rx)
            else
              let* len :=
                if offset + 1 <? p_len b then opt_at b (offset + 1) h
                else if negb (next b =? NULL) then let* nb := pget h (next b) in opt_at nb 0 h else Ret 0 in
              match option_decode op len options_offset with
              | None => Ret (ERR_VAL, rx)
              | Some (decode_len, decode_idx) =>
                  let* (err, offset, rx) :=
                    if op =? DHCP_OPTION_PAD then Ret (ERR_OK, u16 (offset + 1), rx)
                    else if offset + len + 2 >? 0xffff then Ret (ERR_BUF, offset, rx)
                    else
                      let* (err, rx) :=
                        match decode_idx with
                        | Some idx => decode_next 64 q idx decode_len val_offset rx h
                        | None => Ret (ERR_OK, rx)
                        end in
                      Ret (err, u16 (offset + len + 2), rx) in
                  if negb (err =? ERR_OK) then Ret (err, rx)
                  else if offset >=? p_len b then
                    let offset := u16 (offset - p_len b) in
                    let offset_max := u16 (offset_max - p_len b) in
                    if offset <? offset_max then
                      if next b =? NULL then Ret (ERR_VAL, rx) else parse_loop fuel (next b) offset offset_max options_offset rx h
                    else Ret (ERR_BUF, rx)
                  else parse_loop fuel q offset offset_max options_offset rx h
              end
  end.
(** An option of a message takes a byte or more. *)
Definition parse_fuel : nat := Z.to_nat 65537.

(** One pass: the options from [options_idx] to [options_idx_max]. *)
Definition parse_pass (p options_idx options_idx_max : Z) (rx : rx_options) (h : pheap) : res (Z * rx_options) :=
  let* (q, offset, offset_max) := skip_pbufs (chain_fuel h) p options_idx options_idx_max h in
  if q =? NULL then Ret (ERR_BUF, rx) else parse_loop parse_fuel q offset offset_max options_idx rx h.

(** "is this an overloaded message?": the fields to parse, file and sname. *)
Definition overloads (rx : rx_options) : bool * bool :=
  if dhcp_option_given rx DHCP_OPTION_IDX_OVERLOAD then
    let overload := dhcp_get_option_value rx DHCP_OPTION_IDX_OVERLOAD in
    if overload =? DHCP_OVERLOAD_FILE then (true, false)
    else if overload =? DHCP_OVERLOAD_SNAME then (false, true)
    else if overload =? DHCP_OVERLOAD_SNAME_FILE then (true, true)
    else (false, false)
  else (false, false).

(** The passes over the fields that hold options. *)
Fixpoint parse_fields (p : Z) (fields : list (Z * Z)) (rx : rx_options) (h : pheap) : res (Z * rx_options) :=
  match fields with
  | [] => Ret (ERR_OK, rx)
  | (ofs, len) :: fields =>
      let* (err, rx) := parse_pass p ofs (ofs + len) rx h in
      if negb (err =? ERR_OK) then Ret (err, rx) else parse_fields p fields rx h
  end.

(** "if both are overloaded, parse file first and then sname" *)
Definition overload_fields (o : bool * bool) : list (Z * Z) :=
  (if o.1 then [(DHCP_FILE_OFS, DHCP_FILE_LEN)] else []) ++ (if o.2 then [(DHCP_SNAME_OFS, DHCP_SNAME_LEN)] else []).

Definition dhcp_parse_reply (p : Z) (rx : rx_options) (h : pheap) : res (Z * rx_options) :=
  let rx := dhcp_clear_all_options rx in
  let* b := pget h p in
  if p_len b <? DHCP_SNAME_OFS then Ret (ERR_BUF, rx)
  else
    let* (err, rx) := parse_pass p DHCP_OPTIONS_OFS (p_tot_len b) rx h in
    if negb (err =? ERR_OK) then Ret (err, rx)
    else
      let o := overloads rx in
      let rx := if dhcp_option_given rx DHCP_OPTION_IDX_OVERLOAD then dhcp_clear_option DHCP_OPTION_IDX_OVERLOAD rx else rx in
      parse_fields p (overload_fields o) rx h.
