(* ===== verification/DhcpOptions.v ===== *)
(** * DHCP options: what dhcp_parse_reply reads

    For a message in one pbuf: it always returns, and for a list of options
    laid out as RFC 2132 says it delivers the first value of each kind. *)
From S2P Require Import Prelude NetShim Ip4Addr Pbuf PbufChain PbufOps NetGlue Ip4 Ip4Inv DhcpParse.

(** The message [data] in the single pbuf [p]. *)
Record single (h : pheap) (p : Z) (b : pbuf) (data : list Z) : Prop := {
  sg_pget : pget h p = Ret b;
  sg_next : next b = NULL;
  sg_tot : p_tot_len b = p_len b;
  sg_len : 0 <= p_len b < 65536;
  sg_data : data = mem_read (pmem h) (payload b) (p_len b);
  sg_mem : mem_ok (pmem h);
}.

(** ** Options on the wire *)
Inductive item :=
  | Pad
  | Opt (t : Z) (v : list Z).
Definition encode_item (i : item) : list Z := match i with Pad => [DHCP_OPTION_PAD] | Opt t v => t :: Z.of_nat (length v) :: v end.
Definition encode (l : list item) : list Z := concat (encode_item <$> l).
(** What RFC 2131 and 2132 say of the options a client needs: the place of the
    value, its bytes, and if more of them may follow (the router option lists
    routers in the order of preference). *)
Definition rfc_options : list (Z * (Z * Z * bool)) :=
  [(1, (DHCP_OPTION_IDX_SUBNET_MASK, 4, false)); (3, (DHCP_OPTION_IDX_ROUTER, 4, true)); (51, (DHCP_OPTION_IDX_LEASE_TIME, 4, false));
   (52, (DHCP_OPTION_IDX_OVERLOAD, 1, false)); (53, (DHCP_OPTION_IDX_MSG_TYPE, 1, false)); (54, (DHCP_OPTION_IDX_SERVER_ID, 4, false));
   (58, (DHCP_OPTION_IDX_T1, 4, false)); (59, (DHCP_OPTION_IDX_T2, 4, false))].
Definition rfc_option (t : Z) : option (Z * Z * bool) := snd <$> find (fun o => t =? o.1) rfc_options.
Definition rfc_length (t len : Z) : Prop :=
  match rfc_option t with
  | Some (_, n, more) => if more : bool then n <= len else len = n
  | None => True
  end.
(** An option of that form; overloading is announced in the options field. *)
Definition item_ok (ofs : Z) (i : item) : Prop :=
  match i with
  | Pad => True
  | Opt t v => 0 < t < 255 /\ bytes v /\ Z.of_nat (length v) <= 255 /\ rfc_length t (Z.of_nat (length v)) /\ (t = 52 -> ofs = 240)
  end.

(** The first option of a kind counts. *)
Definition note (rx : rx_options) (i : item) : rx_options :=
  match i with
  | Pad => rx
  | Opt t v =>
      match rfc_option t with
      | Some (idx, n, _) => if dhcp_option_given rx idx then rx else got_option idx (be_val (take (Z.to_nat n) v)) rx
      | None => rx
      end
  end.
Definition collect (rx : rx_options) (l : list item) : rx_options := foldl note rx l.

(** The switch of dhcp_parse_reply accepts these options and no other lengths. *)
Lemma option_decode_rfc t len ofs : 0 < t < 255 -> rfc_length t len -> (t = 52 -> ofs = 240) ->
  option_decode t len ofs = Some (match rfc_option t with Some (idx, n, _) => (n, Some idx) | None => (0, None) end).
Proof.
  intros Ht Hl Ho. unfold rfc_length, rfc_option, rfc_options, option_decode, DHCP_OPTION_PAD, DHCP_OPTION_SUBNET_MASK, DHCP_OPTION_ROUTER, DHCP_OPTION_LEASE_TIME,
    DHCP_OPTION_OVERLOAD, DHCP_OPTION_MESSAGE_TYPE, DHCP_OPTION_SERVER_ID, DHCP_OPTION_T1, DHCP_OPTION_T2 in *. cbn [find fst] in *.
  rewrite (proj2 (Z.eqb_neq t 0)) by lia.
  repeat match goal with |- context [t =? ?c] => destruct (Z.eqb_spec t c) as [-> |]; [cbn in Hl |- *|] end; try (by subst len); [|subst len; by rewrite (Ho eq_refl)|done].
  by rewrite Z.geb_leb, (proj2 (Z.leb_le _ _)) by done.
Qed.

(** Every option that is decoded has one or four bytes, and that many are there. *)
Lemma option_decode_cases op len ofs n oi : 0 <= len -> option_decode op len ofs = Some (n, oi) ->
  match oi with Some idx => (n = 1 \/ n = 4) /\ n <= len /\ 0 <= idx < 8 | None => True end.
Proof.
  intros Hl. unfold option_decode. repeat (case_match; try done); intros; simplify_eq; try done;
    repeat match goal with H : (_ =? _) = true |- _ => apply Z.eqb_eq in H; subst | H : (_ >=? _) = true |- _ => rewrite Z.geb_leb in H; apply Z.leb_le in H end;
    unfold DHCP_OPTION_IDX_SUBNET_MASK, DHCP_OPTION_IDX_ROUTER, DHCP_OPTION_IDX_LEASE_TIME, DHCP_OPTION_IDX_OVERLOAD, DHCP_OPTION_IDX_MSG_TYPE,
      DHCP_OPTION_IDX_SERVER_ID, DHCP_OPTION_IDX_T1, DHCP_OPTION_IDX_T2; lia.
Qed.
Lemma be_val_4 bs : bytes bs -> length bs = 4%nat -> lwip_htonl (le_val bs) = be_val bs.
Proof.
  intros Hb Hl. destruct bs as [|a [|c [|d [|e [|]]]]]; try done. repeat (apply Forall_cons in Hb as [? Hb]).
  unfold be_val. cbn [le_val foldl]. replace (a + 256 * (c + 256 * (d + 256 * (e + 256 * 0)))) with (a + 256 * c + 65536 * d + 16777216 * e) by lia.
  rewrite htonl_bytes by done. lia.
Qed.
Lemma be_val_1 bs : bytes bs -> length bs = 1%nat -> u8 (le_val bs) = be_val bs.
Proof.
  intros Hb Hl. destruct bs as [|a [|]]; try done. apply Forall_cons in Hb as [Ha _]. unfold be_val. cbn. unfold is_byte in Ha.
  rewrite u8_small by (unfold is_byte; lia). lia.
Qed.

(** The arrays of options and values: eight entries, the values have 32 bits. *)
Definition rx_ok (rx : rx_options) : Prop := length rx = Z.to_nat DHCP_OPTION_IDX_MAX /\ Forall (fun x => 0 <= x.2 < 4294967296) rx.
Lemma rx_boot_ok : rx_ok rx_boot.
Proof. split; [done|]. apply Forall_replicate. cbn. lia. Qed.
Lemma rx_at_range rx idx : rx_ok rx -> 0 <= (rx_at rx idx).2 < 4294967296.
Proof.
  intros [_ H]. unfold rx_at. destruct (rx !! _) as [x|] eqn:E; cbn; [|lia]. by eapply (Forall_lookup_1 _ _ _ _ H).
Qed.
Lemma rx_ok_insert rx i b v : rx_ok rx -> 0 <= v < 4294967296 -> rx_ok (<[i := (b, v)]> rx).
Proof. intros [H1 H2] Hv. split; [etransitivity; [apply length_insert|done]|]. by apply Forall_insert. Qed.
Lemma rx_ok_clear idx rx : rx_ok rx -> rx_ok (dhcp_clear_option idx rx).
Proof. intros H. apply rx_ok_insert; [done|by apply rx_at_range]. Qed.
Lemma rx_ok_clear_all rx : rx_ok rx -> rx_ok (dhcp_clear_all_options rx).
Proof. intros [H1 H2]. split; [by unfold dhcp_clear_all_options; rewrite length_fmap|]. by apply Forall_fmap. Qed.
Lemma be_val_range bs : bytes bs -> (length bs <= 4)%nat -> 0 <= be_val bs < 4294967296.
Proof.
  intros Hb Hl. unfold be_val, bytes, is_byte in *. destruct bs as [|a [|b [|c [|d [|]]]]]; cbn in Hl; try lia;
    repeat (apply Forall_cons in Hb as [? Hb]); cbn; lia.
Qed.

Section Single.
Variable h : pheap.
Variable p : Z.
Variable b : pbuf.
Variable data : list Z.
Context (Hs : single h p b data).

Lemma single_null : p <> NULL.
Proof. by destruct (proj1 (pget_lookup _ _ _) (sg_pget _ _ _ _ Hs)). Qed.
Lemma single_length : Z.of_nat (length data) = p_len b.
Proof. rewrite (sg_data _ _ _ _ Hs), length_mem_read. pose proof (sg_len _ _ _ _ Hs). lia. Qed.
Lemma single_bytes : bytes data.
Proof. rewrite (sg_data _ _ _ _ Hs). apply bytes_mem_read, (sg_mem _ _ _ _ Hs). Qed.

Lemma opt_at_data o : 0 <= o < p_len b -> exists v, opt_at b o h = Ret v /\ is_byte v /\ data !! Z.to_nat o = Some v.
Proof.
  intros Ho. unfold opt_at. rewrite (proj2 (Z.ltb_lt _ _)) by lia. eexists. split; [done|].
  assert (data !! Z.to_nat o = Some (mload (pmem h) (payload b + o))) as E.
  { rewrite (sg_data _ _ _ _ Hs). unfold mem_read. rewrite lookup_slice by lia. unfold mem_reader. do 2 f_equal. lia. }
  split; [|done]. pose proof single_bytes as Hb. unfold bytes in Hb. rewrite Forall_forall in Hb. apply Hb. by eapply list_elem_of_lookup_2.
Qed.
Lemma copy_data len off : 0 <= len < 65536 -> 0 <= off < 65536 ->
  pbuf_copy_partial p len off h = Ret (Z.of_nat (length (window len off data)), window len off data).
Proof.
  intros Hl Ho. pose proof (sg_pget _ _ _ _ Hs) as Hg. apply pget_lookup in Hg as [Hp Hlk]. pose proof (sg_len _ _ _ _ Hs).
  rewrite (pbuf_copy_partial_eq h p [(p, b)]); try done.
  - rewrite chain_data_cons. change (chain_data (pmem h) []) with (@nil Z). rewrite app_nil_r. by rewrite <- (sg_data _ _ _ _ Hs).
  - cbn. rewrite (sg_next _ _ _ _ Hs). by split_and!.
  - cbn. rewrite (sg_tot _ _ _ _ Hs). repeat split; try constructor; lia.
Qed.

Lemma bytes_window len off : bytes (window len off data).
Proof. unfold window. apply Forall_take, Forall_drop, single_bytes. Qed.

Lemma decode_next_single idx n off rx : 0 <= idx < 8 -> n = 1 \/ n = 4 -> 0 <= off < 65536 ->
  decode_next 64 p idx n off rx h =
  Ret (if dhcp_option_given rx idx then (ERR_OK, rx)
       else if Z.of_nat (length (window n off data)) =? n then (ERR_OK, got_option idx (be_val (window n off data)) rx) else (ERR_BUF, rx)).
Proof.
  intros Hi Hn Ho. change 64%nat with (S 63). generalize 63%nat. intros fuel. cbn [decode_next]. rewrite Z.geb_leb, (proj2 (Z.leb_le 0 idx)), (proj2 (Z.ltb_lt idx DHCP_OPTION_IDX_MAX)) by (unfold DHCP_OPTION_IDX_MAX; lia).
  cbn [andb lwip_assert]. destruct (dhcp_option_given rx idx); [done|]. rewrite Z.min_l by lia. rewrite copy_data by lia. cbn [res_bind].
  pose proof (bytes_window n off) as Hb. destruct (Z.eqb_spec (Z.of_nat (length (window n off data))) n) as [E|E]; cbn [negb]; [|done].
  rewrite Z.gtb_ltb, (proj2 (Z.ltb_ge 4 n)) by lia. destruct Hn as [-> | ->]; cbn [Z.eqb].
  - rewrite be_val_1 by (done || lia). done.
  - rewrite be_val_4 by (done || lia). done.
Qed.

(** The length byte behind the option code. *)
Lemma len_byte o : 0 <= o < p_len b -> exists len, is_byte len /\
  (if o + 1 <? p_len b then opt_at b (o + 1) h else if negb (next b =? NULL) then let* nb := pget h (next b) in opt_at nb 0 h else Ret 0) = Ret len /\
  (o + 1 < p_len b -> data !! Z.to_nat (o + 1) = Some len).
Proof.
  intros Ho. destruct (Z.ltb_spec (o + 1) (p_len b)) as [Hlt|Hge].
  - destruct (opt_at_data (o + 1) ltac:(lia)) as (v & E & Bv & Hv). by exists v.
  - exists 0. rewrite (sg_next _ _ _ _ Hs). split; [unfold is_byte; lia|]. split; [done|]. lia.
Qed.

Lemma decode_keeps idx n off rx : rx_ok rx -> 0 <= idx < 8 -> n = 1 \/ n = 4 -> 0 <= off < 65536 ->
  exists err rx', decode_next 64 p idx n off rx h = Ret (err, rx') /\ rx_ok rx'.
Proof.
  intros Hr Hi Hn Ho. rewrite (decode_next_single idx n off rx Hi Hn Ho). destruct (dhcp_option_given rx idx); [by eexists _, _|].
  destruct (Z.eqb_spec (Z.of_nat (length (window n off data))) n); eexists _, _; (split; [done|]); [|done].
  apply rx_ok_insert; [done|]. apply be_val_range; [apply bytes_window|lia].
Qed.

(** The loop always comes to an end, whatever the bytes are. *)
Lemma parse_loop_total max ofs fuel : forall o rx, rx_ok rx -> 0 <= o < p_len b -> p_len b - o < Z.of_nat fuel ->
  exists err rx', parse_loop fuel p o max ofs rx h = Ret (err, rx') /\ rx_ok rx'.
Proof.
  pose proof (sg_len _ _ _ _ Hs) as Hlen. induction fuel as [|fuel IH]; intros o rx Hrx Ho Hf; [lia|]. cbn [parse_loop].
  rewrite (proj2 (Z.eqb_neq _ _) single_null), (sg_pget _ _ _ _ Hs). cbn [res_bind]. destruct (Z.ltb_spec o max); cbn [negb]; [|by eexists _, _].
  destruct (opt_at_data o Ho) as (op & -> & Bop & _). cbn [res_bind]. destruct (op =? DHCP_OPTION_END); [by eexists _, _|].
  destruct (_ <? o); [by eexists _, _|]. destruct (len_byte o Ho) as (len & Bl & -> & _). unfold is_byte in Bl. cbn [res_bind].
  destruct (option_decode op len ofs) as [[n oi]|] eqn:Ed; [|by eexists _, _]. apply option_decode_cases in Ed; [|lia].
  assert (exists err o' rx', (if op =? DHCP_OPTION_PAD then Ret (ERR_OK, u16 (o + 1), rx)
     else if o + len + 2 >? 0xffff then Ret (ERR_BUF, o, rx)
     else let* (err, rx) := match oi with Some idx => decode_next 64 p idx n (u16 (o + 2)) rx h | None => Ret (ERR_OK, rx) end in
       Ret (err, u16 (o + len + 2), rx)) = Ret (err, o', rx') /\ rx_ok rx' /\ (err = ERR_OK -> o < o')) as (err & o' & rx' & -> & Hr & Ho').
  { destruct (op =? DHCP_OPTION_PAD); [eexists _, _, _; split; [done|]; split; [done|]; intros _; rewrite u16_small by lia; lia|].
    rewrite Z.gtb_ltb. destruct (Z.ltb_spec 65535 (o + len + 2)); [by eexists _, _, _|].
    destruct oi as [idx|].
    - destruct (decode_keeps idx n (u16 (o + 2)) rx Hrx) as (err & rx' & -> & Hr); [lia..|apply u16_range|]. cbn [res_bind].
      eexists _, _, _. split; [done|]. split; [done|]. rewrite u16_small by lia. lia.
    - cbn [res_bind]. eexists _, _, _. split; [done|]. split; [done|]. rewrite u16_small by lia. lia. }
  cbn [res_bind]. destruct (Z.eqb_spec err ERR_OK) as [->|]; cbn [negb]; [|by eexists _, _]. specialize (Ho' eq_refl).
  rewrite Z.geb_leb. destruct (Z.leb_spec (p_len b) o').
  - rewrite (sg_next _ _ _ _ Hs). destruct (_ <? _); by eexists _, _.
  - destruct (IH o' rx' Hr) as (err & rx2 & -> & H2); [lia..|]. by eexists _, _.
Qed.

(** Options that are laid out properly, and the end mark behind them. *)
Lemma parse_loop_items max ofs rest fuel : forall items pre rx,
  data = pre ++ encode items ++ DHCP_OPTION_END :: rest -> Forall (item_ok ofs) items ->
  Z.of_nat (length pre + length (encode items)) < max -> (length items < fuel)%nat ->
  parse_loop fuel p (Z.of_nat (length pre)) max ofs rx h = Ret (ERR_OK, collect rx items).
Proof.
  pose proof (sg_len _ _ _ _ Hs) as Hlen. pose proof single_length as Hdl.
  induction fuel as [|fuel IH]; intros items pre rx Hd Hi Hm Hf; [lia|]. set (o := Z.of_nat (length pre)).
  pose proof (f_equal length Hd) as Hd1. rewrite !length_app in Hd1. cbn [length] in Hd1.
  assert (0 <= o < p_len b) as Ho by (unfold o; lia). cbn [parse_loop].
  rewrite (proj2 (Z.eqb_neq _ _) single_null), (sg_pget _ _ _ _ Hs). cbn [res_bind]. rewrite (proj2 (Z.ltb_lt o max)) by (unfold o; lia). cbn [negb].
  destruct (opt_at_data o Ho) as (op & -> & Bop & Eop). cbn [res_bind]. unfold o in Eop. rewrite Nat2Z.id, Hd, lookup_app_r, Nat.sub_diag in Eop by lia.
  destruct items as [|it items].
  { cbn in Eop. injection Eop as <-. done. }
  apply Forall_cons in Hi as [Hit Hi]. destruct (len_byte o Ho) as (len & Bl & El & Elen). unfold is_byte in Bl.
  change (encode (it :: items)) with (encode_item it ++ encode items) in *. rewrite length_app in *.
  assert (1 <= length (encode_item it))%nat as Hne by (destruct it; cbn; lia).
  assert (is_Some (option_decode op len ofs) /\ op <> DHCP_OPTION_END /\
    (if op =? DHCP_OPTION_PAD then 1 else len + 2) = Z.of_nat (length (encode_item it)) /\
    match it with Pad => op = 0 | Opt t v => op = t /\ len = Z.of_nat (length v) end) as ([[n oi] Ed] & Hend & Hsz & Hop).
  { destruct it as [|t v]; cbn in Eop; injection Eop as <-.
    - split; [by eexists|]. by split.
    - destruct Hit as (Ht & Bv & Hv & Hdec). assert (len = Z.of_nat (length v)) as ->.
      { assert (o + 1 < p_len b) as Ho1 by (cbn in Hd1; unfold o; lia). specialize (Elen Ho1). rewrite Hd in Elen.
        replace (Z.to_nat (o + 1)) with (length pre + 1)%nat in Elen by (unfold o; lia). rewrite lookup_app_r in Elen by lia.
        replace (length pre + 1 - length pre)%nat with 1%nat in Elen by lia. by injection Elen. }
      split; [rewrite option_decode_rfc by (done || apply Hdec); destruct (rfc_option t) as [[[]]|]; by eexists|].
      unfold DHCP_OPTION_END, DHCP_OPTION_PAD. rewrite (proj2 (Z.eqb_neq t 0)) by lia. cbn [encode_item length]. split; [lia|]. split; [lia|done]. }
  rewrite (proj2 (Z.eqb_neq _ _) Hend). rewrite u16_small by (unfold o; lia). rewrite (proj2 (Z.ltb_ge (o + 2) o)) by lia. rewrite El. cbn [res_bind]. rewrite Ed.
  set (o' := o + Z.of_nat (length (encode_item it))).
  assert ((if op =? DHCP_OPTION_PAD then Ret (ERR_OK, u16 (o + 1), rx)
     else if o + len + 2 >? 0xffff then Ret (ERR_BUF, o, rx)
     else let* (err, rx) := match oi with Some idx => decode_next 64 p idx n (o + 2) rx h | None => Ret (ERR_OK, rx) end in
       Ret (err, u16 (o + len + 2), rx)) = Ret (ERR_OK, o', note rx it)) as ->.
  { unfold o'. rewrite <- Hsz. destruct it as [|t v].
    - subst op. rewrite Z.eqb_refl. by rewrite u16_small by lia.
    - destruct Hop as [-> ->], Hit as (Ht & Bv & Hv & Hr & Hof). unfold DHCP_OPTION_PAD. rewrite (proj2 (Z.eqb_neq t 0)) by lia.
      unfold o in *. cbn [encode_item length] in *. rewrite Z.gtb_ltb, (proj2 (Z.ltb_ge 65535 _)) by lia. rewrite u16_small by lia.
      pose proof (option_decode_cases _ _ _ _ _ (Zle_0_nat _) Ed) as Hc. rewrite (option_decode_rfc _ _ _ Ht Hr Hof) in Ed. rewrite <- Z.add_assoc. cbn [note].
      destruct (rfc_option t) as [[[idx n'] more]|]; injection Ed as <- <-; [|done]. destruct Hc as (Hn & Hnl & Hidx). rewrite (decode_next_single idx n' _ rx Hidx Hn) by lia.
      assert (window n' (Z.of_nat (length pre) + 2) data = take (Z.to_nat n') v) as ->.
      { unfold window. rewrite Hd. cbn [encode_item]. replace (Z.to_nat (Z.of_nat (length pre) + 2)) with (length pre + 2)%nat by lia.
        rewrite <- drop_drop, drop_app_length. cbn [app drop]. rewrite <- !app_assoc. apply take_app_le. lia. }
      rewrite length_take_le, Z2Nat.id, Z.eqb_refl by lia. by destruct (dhcp_option_given rx idx). }
  cbn [res_bind]. change (negb (ERR_OK =? ERR_OK)) with false. cbv iota. rewrite Z.geb_leb, (proj2 (Z.leb_gt _ _)) by (unfold o', o; lia).
  replace o' with (Z.of_nat (length (pre ++ encode_item it))) by (unfold o', o; rewrite length_app; lia).
  rewrite (IH items (pre ++ encode_item it)); [done|by rewrite Hd, <- !app_assoc|done|rewrite length_app; lia|cbn in Hf; lia].
Qed.

(** ** Passes *)
Lemma skip_single idx max : 0 <= idx ->
  skip_pbufs (chain_fuel h) p idx max h =
  Ret (if idx >=? p_len b then (NULL, u16 (idx - p_len b), u16 (max - p_len b)) else (p, idx, max)).
Proof.
  intros Hi. unfold chain_fuel. destruct (proj1 (pget_lookup _ _ _) (sg_pget _ _ _ _ Hs)) as [Hp Hlk].
  destruct (size (pbufs h)) as [|n] eqn:E; [apply map_size_empty_iff in E; by rewrite E in Hlk|].
  cbn [skip_pbufs]. rewrite (proj2 (Z.eqb_neq _ _) Hp), (sg_pget _ _ _ _ Hs). cbn [res_bind]. destruct (_ >=? _); [|done].
  by rewrite (sg_next _ _ _ _ Hs).
Qed.
Lemma parse_pass_total idx max rx : rx_ok rx -> 0 <= idx ->
  exists err rx', parse_pass p idx max rx h = Ret (err, rx') /\ rx_ok rx'.
Proof.
  intros Hr Hi. unfold parse_pass. rewrite skip_single by done. rewrite Z.geb_leb. destruct (Z.leb_spec (p_len b) idx); cbn [res_bind]; [by eexists _, _|].
  rewrite (proj2 (Z.eqb_neq _ _) single_null). pose proof (sg_len _ _ _ _ Hs). apply parse_loop_total; [done|lia|]. unfold parse_fuel. lia.
Qed.
Lemma parse_fields_total fields : Forall (fun f => 0 <= f.1) fields -> forall rx, rx_ok rx ->
  exists err rx', parse_fields p fields rx h = Ret (err, rx') /\ rx_ok rx'.
Proof.
  induction 1 as [|[ofs len] fields Hf _ IH]; intros rx Hr; cbn [parse_fields]; [by eexists _, _|].
  destruct (parse_pass_total ofs (ofs + len) rx Hr Hf) as (err & rx' & -> & H1). cbn [res_bind]. destruct (negb _); [by eexists _, _|].
  destruct (IH rx' H1) as (err' & rx2 & -> & H2). by eexists _, _.
Qed.
Lemma overload_fields_ofs o : Forall (fun f => 0 <= f.1) (overload_fields o).
Proof. destruct o as [[] []]; unfold overload_fields; cbn; repeat constructor; unfold DHCP_FILE_OFS, DHCP_SNAME_OFS; cbn; lia. Qed.
Lemma parse_reply_total rx : rx_ok rx -> exists err rx', dhcp_parse_reply p rx h = Ret (err, rx') /\ rx_ok rx'.
Proof.
  intros Hr. apply rx_ok_clear_all in Hr. unfold dhcp_parse_reply. rewrite (sg_pget _ _ _ _ Hs). cbn [res_bind]. destruct (_ <? _); [by eexists _, _|].
  destruct (parse_pass_total DHCP_OPTIONS_OFS (p_tot_len b) _ Hr) as (err & rx1 & -> & H1); [done|]. cbn [res_bind]. destruct (negb _); [by eexists _, _|].
  apply parse_fields_total; [apply overload_fields_ofs|]. destruct (dhcp_option_given _ _); [by apply rx_ok_clear|done].
Qed.

(** The field of [len] bytes at [ofs] holds the options [l] and an end mark. *)
Definition holds_options (ofs len : Z) (l : list item) : Prop :=
  exists pre rest, data = pre ++ encode l ++ DHCP_OPTION_END :: rest /\ Z.of_nat (length pre) = ofs /\
    Z.of_nat (length (encode l)) < len /\ Forall (item_ok ofs) l.

Lemma length_encode l : (length l <= length (encode l))%nat.
Proof.
  induction l as [|i l IH]; [done|]. change (encode (i :: l)) with (encode_item i ++ encode l). rewrite length_app. destruct i; cbn; lia.
Qed.
Lemma parse_pass_items ofs len l rx : holds_options ofs len l -> parse_pass p ofs (ofs + len) rx h = Ret (ERR_OK, collect rx l).
Proof.
  intros (pre & rest & Hd & Hp & Hl & Hi). pose proof (sg_len _ _ _ _ Hs). pose proof single_length as Hdl. pose proof (length_encode l).
  pose proof (f_equal length Hd) as Hd1. rewrite !length_app in Hd1. cbn [length] in Hd1. unfold parse_pass. rewrite skip_single by lia.
  rewrite Z.geb_leb, (proj2 (Z.leb_gt _ _)) by lia. cbn [res_bind]. rewrite (proj2 (Z.eqb_neq _ _) single_null). rewrite <- Hp at 1.
  apply (parse_loop_items _ _ rest); try done; [lia|]. unfold parse_fuel. lia.
Qed.
Lemma parse_fields_items (its : Z -> list item) fields : Forall (fun f => holds_options f.1 f.2 (its f.1)) fields -> forall rx,
  parse_fields p fields rx h = Ret (ERR_OK, foldl (fun rx f => collect rx (its f.1)) rx fields).
Proof.
  induction 1 as [|[ofs len] fields Hf _ IH]; intros rx; cbn [parse_fields]; [done|].
  rewrite (parse_pass_items ofs len (its ofs) rx Hf). cbn [res_bind]. apply IH.
Qed.
(** The fields that RFC 2132, section 9.3, reads as options: the file field (128
    bytes at 108) for 1 and 3, the sname field (64 bytes at 44) for 2 and 3. *)
Definition rfc_fields (rx : rx_options) : list (Z * Z) :=
  let v := if dhcp_option_given rx DHCP_OPTION_IDX_OVERLOAD then dhcp_get_option_value rx DHCP_OPTION_IDX_OVERLOAD else 0 in
  (if bool_decide (v = 1 \/ v = 3) then [(108, 128)] else []) ++ (if bool_decide (v = 2 \/ v = 3) then [(44, 64)] else []).
Lemma overload_fields_rfc rx : overload_fields (overloads rx) = rfc_fields rx.
Proof.
  unfold overloads, rfc_fields. destruct (dhcp_option_given _ _); [|done]. set (v := dhcp_get_option_value _ _).
  unfold DHCP_OVERLOAD_FILE, DHCP_OVERLOAD_SNAME, DHCP_OVERLOAD_SNAME_FILE. destruct (Z.eqb_spec v 1) as [-> |]; [done|].
  destruct (Z.eqb_spec v 2) as [-> |]; [done|]. destruct (Z.eqb_spec v 3) as [-> |]; [done|].
  by rewrite !bool_decide_eq_false_2 by lia.
Qed.

(** The values of a reply: the options, then the fields that are overloaded. *)
Definition reply_values (its : Z -> list item) (rx : rx_options) : rx_options :=
  let rx := collect (dhcp_clear_all_options rx) (its DHCP_OPTIONS_OFS) in
  let rx' := if dhcp_option_given rx DHCP_OPTION_IDX_OVERLOAD then dhcp_clear_option DHCP_OPTION_IDX_OVERLOAD rx else rx in
  foldl (fun rx f => collect rx (its f.1)) rx' (rfc_fields rx).

Lemma parse_reply_items its rx : holds_options DHCP_OPTIONS_OFS (p_len b - DHCP_OPTIONS_OFS) (its DHCP_OPTIONS_OFS) ->
  Forall (fun f => holds_options f.1 f.2 (its f.1)) (rfc_fields (collect (dhcp_clear_all_options rx) (its DHCP_OPTIONS_OFS))) ->
  dhcp_parse_reply p rx h = Ret (ERR_OK, reply_values its rx).
Proof.
  intros Ho Hf. unfold dhcp_parse_reply. rewrite (sg_pget _ _ _ _ Hs). cbn [res_bind].
  assert (DHCP_OPTIONS_OFS < p_len b) as Hl by (destruct Ho as (? & ? & _ & _ & ? & _); lia).
  rewrite (proj2 (Z.ltb_ge _ _)) by (unfold DHCP_OPTIONS_OFS, DHCP_MSG_LEN, DHCP_SNAME_OFS in *; lia). rewrite (sg_tot _ _ _ _ Hs).
  replace (p_len b) with (DHCP_OPTIONS_OFS + (p_len b - DHCP_OPTIONS_OFS)) by lia. rewrite (parse_pass_items _ _ _ _ Ho). cbn [res_bind].
  change (negb (ERR_OK =? ERR_OK)) with false. cbv iota. rewrite overload_fields_rfc. by apply parse_fields_items.
Qed.
End Single.
