(* ===== verification/Dhcp.v ===== *)
(** * lwip-2.2.0/src/core/ipv4/dhcp.c: the DHCP client

    The client's state machine on the stack of [Netif]: messages out, replies
    in, timers, link changes.  The build has no AutoIP, no address conflict
    detection, no host names and no DNS or NTP options.  [rand] and the memory
    for a struct dhcp are oracles, asked in order. *)
From S2P Require Import Prelude NetShim Ip4Addr Link Etharp Pbuf NetGlue Ethernet Ip4 Icmp Ip4Input Udp Netif DhcpParse.

(** ** Constants *)
Definition DHCP_CHADDR_LEN : Z := 16.
Definition NETIF_MAX_HWADDR_LEN : Z := 6.
Definition DHCP_MIN_OPTIONS_LEN : Z := 68.
Definition DHCP_OPTIONS_LEN : Z := DHCP_MIN_OPTIONS_LEN.
(** [sizeof(struct dhcp_msg)] *)
Definition SIZEOF_DHCP_MSG : Z := DHCP_OPTIONS_OFS + DHCP_OPTIONS_LEN.
Definition DHCP_BOOTREQUEST : Z := 1.
Definition DHCP_BOOTREPLY : Z := 2.
Definition DHCP_DISCOVER : Z := 1.
Definition DHCP_OFFER : Z := 2.
Definition DHCP_REQUEST : Z := 3.
Definition DHCP_DECLINE : Z := 4.
Definition DHCP_ACK : Z := 5.
Definition DHCP_NAK : Z := 6.
Definition DHCP_RELEASE : Z := 7.
Definition DHCP_INFORM : Z := 8.
Definition DHCP_MAGIC_COOKIE : Z := 0x63825363.
Definition DHCP_OPTION_MESSAGE_TYPE_LEN : Z := 1.
Definition DHCP_OPTION_MAX_MSG_SIZE_LEN : Z := 2.
Definition LWIP_IANA_HWTYPE_ETHERNET : Z := 1.
Definition LWIP_IANA_PORT_DHCP_SERVER : Z := 67.
Definition LWIP_IANA_PORT_DHCP_CLIENT : Z := 68.
Definition DHCP_COARSE_TIMER_SECS : Z := 60.
Definition DHCP_FINE_TIMER_MSECS : Z := 500.
Definition DHCP_MAX_MSG_LEN (n : nif) : Z := if_mtu n.
Definition DHCP_MAX_MSG_LEN_MIN_REQUIRED : Z := 576.
Definition DHCP_MIN_REPLY_LEN : Z := 44.
Definition REBOOT_TRIES : Z := 2.
Definition DHCP_FLAG_SUBNET_MASK_GIVEN : Z := 0x01.
Definition DHCP_FLAG_EXTERNAL_MEM : Z := 0x02.
Definition DHCP_NEXT_TIMEOUT_THRESHOLD : Z := (60 + DHCP_COARSE_TIMER_SECS / 2) / DHCP_COARSE_TIMER_SECS.
Definition dhcp_discover_request_options : list Z := [DHCP_OPTION_SUBNET_MASK; DHCP_OPTION_ROUTER; DHCP_OPTION_BROADCAST].

(** ** struct dhcp *)
Inductive dhcp_state_enum_t :=
  | DHCP_STATE_OFF | DHCP_STATE_REQUESTING | DHCP_STATE_INIT | DHCP_STATE_REBOOTING | DHCP_STATE_REBINDING | DHCP_STATE_RENEWING
  | DHCP_STATE_SELECTING | DHCP_STATE_INFORMING | DHCP_STATE_CHECKING | DHCP_STATE_PERMANENT | DHCP_STATE_BOUND | DHCP_STATE_RELEASING
  | DHCP_STATE_BACKING_OFF.
#[export] Instance dhcp_state_eq_dec : EqDecision dhcp_state_enum_t.
Proof. solve_decision. Defined.

Record dhcp := mkDhcp {
  d_xid : Z;
  d_pcb_allocated : bool;
  d_state : dhcp_state_enum_t;
  d_tries : Z;
  d_flags : Z;
  d_request_timeout : Z;
  d_t1_timeout : Z;
  d_t2_timeout : Z;
  d_t1_renew_time : Z;
  d_t2_rebind_time : Z;
  d_lease_used : Z;
  d_t0_timeout : Z;
  d_server_ip_addr : Z;
  d_offered_ip_addr : Z;
  d_offered_sn_mask : Z;
  d_offered_gw_addr : Z;
  d_offered_t0_lease : Z;
  d_offered_t1_renew : Z;
  d_offered_t2_rebind : Z;
}.
(** memset(dhcp, 0, sizeof(struct dhcp)) *)
Definition zero_dhcp : dhcp := mkDhcp 0 false DHCP_STATE_OFF 0 0 0 0 0 0 0 0 0 0 0 0 0 0 0 0.
Definition set_d_xid (x : Z) (d : dhcp) : dhcp :=
  mkDhcp x (d_pcb_allocated d) (d_state d) (d_tries d) (d_flags d) (d_request_timeout d) (d_t1_timeout d) (d_t2_timeout d) (d_t1_renew_time d)
    (d_t2_rebind_time d) (d_lease_used d) (d_t0_timeout d) (d_server_ip_addr d) (d_offered_ip_addr d) (d_offered_sn_mask d) (d_offered_gw_addr d)
    (d_offered_t0_lease d) (d_offered_t1_renew d) (d_offered_t2_rebind d).
Definition set_d_pcb_allocated (v : bool) (d : dhcp) : dhcp :=
  mkDhcp (d_xid d) v (d_state d) (d_tries d) (d_flags d) (d_request_timeout d) (d_t1_timeout d) (d_t2_timeout d) (d_t1_renew_time d)
    (d_t2_rebind_time d) (d_lease_used d) (d_t0_timeout d) (d_server_ip_addr d) (d_offered_ip_addr d) (d_offered_sn_mask d) (d_offered_gw_addr d)
    (d_offered_t0_lease d) (d_offered_t1_renew d) (d_offered_t2_rebind d).
(** state, tries and request_timeout *)
Definition set_d_neg (s : dhcp_state_enum_t) (tries timeout : Z) (d : dhcp) : dhcp :=
  mkDhcp (d_xid d) (d_pcb_allocated d) s tries (d_flags d) timeout (d_t1_timeout d) (d_t2_timeout d) (d_t1_renew_time d)
    (d_t2_rebind_time d) (d_lease_used d) (d_t0_timeout d) (d_server_ip_addr d) (d_offered_ip_addr d) (d_offered_sn_mask d) (d_offered_gw_addr d)
    (d_offered_t0_lease d) (d_offered_t1_renew d) (d_offered_t2_rebind d).
Definition set_d_flags (f : Z) (d : dhcp) : dhcp :=
  mkDhcp (d_xid d) (d_pcb_allocated d) (d_state d) (d_tries d) f (d_request_timeout d) (d_t1_timeout d) (d_t2_timeout d) (d_t1_renew_time d)
    (d_t2_rebind_time d) (d_lease_used d) (d_t0_timeout d) (d_server_ip_addr d) (d_offered_ip_addr d) (d_offered_sn_mask d) (d_offered_gw_addr d)
    (d_offered_t0_lease d) (d_offered_t1_renew d) (d_offered_t2_rebind d).
(** t1_timeout and t2_timeout *)
Definition set_d_timeouts (t1 t2 : Z) (d : dhcp) : dhcp :=
  mkDhcp (d_xid d) (d_pcb_allocated d) (d_state d) (d_tries d) (d_flags d) (d_request_timeout d) t1 t2 (d_t1_renew_time d)
    (d_t2_rebind_time d) (d_lease_used d) (d_t0_timeout d) (d_server_ip_addr d) (d_offered_ip_addr d) (d_offered_sn_mask d) (d_offered_gw_addr d)
    (d_offered_t0_lease d) (d_offered_t1_renew d) (d_offered_t2_rebind d).
(** t1_renew_time and t2_rebind_time *)
Definition set_d_times (t1 t2 : Z) (d : dhcp) : dhcp :=
  mkDhcp (d_xid d) (d_pcb_allocated d) (d_state d) (d_tries d) (d_flags d) (d_request_timeout d) (d_t1_timeout d) (d_t2_timeout d) t1
    t2 (d_lease_used d) (d_t0_timeout d) (d_server_ip_addr d) (d_offered_ip_addr d) (d_offered_sn_mask d) (d_offered_gw_addr d)
    (d_offered_t0_lease d) (d_offered_t1_renew d) (d_offered_t2_rebind d).
(** lease_used and t0_timeout *)
Definition set_d_lease (used t0 : Z) (d : dhcp) : dhcp :=
  mkDhcp (d_xid d) (d_pcb_allocated d) (d_state d) (d_tries d) (d_flags d) (d_request_timeout d) (d_t1_timeout d) (d_t2_timeout d) (d_t1_renew_time d)
    (d_t2_rebind_time d) used t0 (d_server_ip_addr d) (d_offered_ip_addr d) (d_offered_sn_mask d) (d_offered_gw_addr d)
    (d_offered_t0_lease d) (d_offered_t1_renew d) (d_offered_t2_rebind d).
(** server_ip_addr, offered_ip_addr, offered_sn_mask and offered_gw_addr *)
Definition set_d_addrs (server ip sn gw : Z) (d : dhcp) : dhcp :=
  mkDhcp (d_xid d) (d_pcb_allocated d) (d_state d) (d_tries d) (d_flags d) (d_request_timeout d) (d_t1_timeout d) (d_t2_timeout d) (d_t1_renew_time d)
    (d_t2_rebind_time d) (d_lease_used d) (d_t0_timeout d) server ip sn gw
    (d_offered_t0_lease d) (d_offered_t1_renew d) (d_offered_t2_rebind d).
(** offered_t0_lease, offered_t1_renew and offered_t2_rebind *)
Definition set_d_offered (t0 t1 t2 : Z) (d : dhcp) : dhcp :=
  mkDhcp (d_xid d) (d_pcb_allocated d) (d_state d) (d_tries d) (d_flags d) (d_request_timeout d) (d_t1_timeout d) (d_t2_timeout d) (d_t1_renew_time d)
    (d_t2_rebind_time d) (d_lease_used d) (d_t0_timeout d) (d_server_ip_addr d) (d_offered_ip_addr d) (d_offered_sn_mask d) (d_offered_gw_addr d)
    t0 t1 t2.

(** "If the state changed, reset the number of tries." *)
Definition dhcp_set_state (new_state : dhcp_state_enum_t) (d : dhcp) : dhcp :=
  if decide (new_state = d_state d) then d else set_d_neg new_state 0 0 d.

(** ** Timeouts *)
Definition SET_TIMEOUT_FROM_OFFERED (offered min max : Z) : Z :=
  let timeout := u32 (offered + DHCP_COARSE_TIMER_SECS / 2) / DHCP_COARSE_TIMER_SECS in
  let timeout := if timeout >? max then max else timeout in
  let timeout := if timeout =? min then 1 else timeout in
  u16 timeout.
Definition DHCP_REQUEST_BACKOFF_SEQUENCE (tries : Z) : Z := u16 ((if tries <? 6 then Z.shiftl 1 tries else 60) * 1000).

(** "if (dhcp->tries < 255) dhcp->tries++", and the request timeout for the
    milliseconds that [msecs] gives for the tries. *)
Definition dhcp_retry (msecs : Z -> Z) (d : dhcp) : dhcp :=
  let tries := if d_tries d <? 255 then d_tries d + 1 else d_tries d in
  set_d_neg (d_state d) tries (u16 ((msecs tries + DHCP_FINE_TIMER_MSECS - 1) / DHCP_FINE_TIMER_MSECS)) d.

(** ** Writing options *)

(** options[options_out_len++] = value *)
Definition put_option (options_out_len options value : Z) (m : memory) : Z * memory :=
  (u16 (options_out_len + 1), mem_write m (options + options_out_len) [u8 value]).
Definition dhcp_option (options_out_len options option_type option_len : Z) (m : memory) : res (Z * memory) :=
  lwip_assert (options_out_len + 2 + option_len <=? DHCP_OPTIONS_LEN) (
    let (len, m) := put_option options_out_len options option_type m in
    Ret (put_option len options option_len m)).
Definition dhcp_option_byte (options_out_len options value : Z) (m : memory) : res (Z * memory) :=
  lwip_assert (options_out_len <? DHCP_OPTIONS_LEN) (Ret (put_option options_out_len options value m)).
Definition dhcp_option_short (options_out_len options value : Z) (m : memory) : res (Z * memory) :=
  lwip_assert (options_out_len + 2 <=? DHCP_OPTIONS_LEN) (
    let (len, m) := put_option options_out_len options (Z.shiftr (Z.land value 0xff00) 8) m in
    Ret (put_option len options (Z.land value 0x00ff) m)).
Definition dhcp_option_long (options_out_len options value : Z) (m : memory) : res (Z * memory) :=
  lwip_assert (options_out_len + 4 <=? DHCP_OPTIONS_LEN) (
    let (len, m) := put_option options_out_len options (Z.shiftr (Z.land value 0xff000000) 24) m in
    let (len, m) := put_option len options (Z.shiftr (Z.land value 0x00ff0000) 16) m in
    let (len, m) := put_option len options (Z.shiftr (Z.land value 0x0000ff00) 8) m in
    Ret (put_option len options (Z.land value 0x000000ff) m)).
(** The loop over a list of bytes. *)
Fixpoint option_bytes (options_out_len options : Z) (l : list Z) (m : memory) : res (Z * memory) :=
  match l with
  | [] => Ret (options_out_len, m)
  | v :: l => let* (len, m) := dhcp_option_byte options_out_len options v m in option_bytes len options l m
  end.

(** "Adds the END option to the DHCP message, and if necessary, up to three
    padding bytes": the loop. *)
Fixpoint pad_options (fuel : nat) (options_out_len options : Z) (m : memory) : res (Z * memory) :=
  match fuel with
  | O => NoFuel
  | S fuel =>
      if ((options_out_len <? DHCP_MIN_OPTIONS_LEN) || truth (Z.land options_out_len 3)) && (options_out_len <? DHCP_OPTIONS_LEN) then
        let (len, m) := put_option options_out_len options 0 m in pad_options fuel len options m
      else Ret (options_out_len, m)
  end.

(** ** The client *)

(** The stack, the static variables, and the numbers of calls of rand and of
    mem_malloc so far. *)
Record dst (T : Type) := mkDst {
  dk : stack T dhcp;
  dhcp_pcb : Z;
  dhcp_pcb_refcount : Z;
  dhcp_xid : Z;
  dhcp_rx : rx_options;
  d_rands : nat;
  d_mallocs : nat;
}.
Arguments mkDst {T}.
Arguments dk {T}.
Arguments dhcp_pcb {T}.
Arguments dhcp_pcb_refcount {T}.
Arguments dhcp_xid {T}.
Arguments dhcp_rx {T}.
Arguments d_rands {T}.
Arguments d_mallocs {T}.

(** The callback of dhcp_pcb, as udp_recv gets it. *)
Definition DHCP_RECV : Z := 1.

Section Dhcp.
Variable custom_free : Z -> pheap -> res pheap.
Variable malloc : nat -> gmap Z pbuf -> Z.
Variable bmos : netif.
Variable ip4_frag : netifs -> Z -> Z -> Z -> ipst -> res (Z * ipst).
Context {T : Type}.
Variable tcp_netif_ip_addr_changed : netifs -> Z -> Z -> ipst -> T -> res (ipst * T).
Variable pcb_malloc : nat -> gmap Z udp_pcb -> Z.
(** LWIP_RAND, and whether mem_malloc finds memory for a struct dhcp. *)
Variable rand : nat -> Z.
Variable mem_malloc : nat -> bool.
Abbreviation netif_set_addr := (netif_set_addr custom_free malloc bmos tcp_netif_ip_addr_changed).
Implicit Types s : dst T.

Definition set_dk (k : stack T dhcp) s : dst T :=
  mkDst k (dhcp_pcb s) (dhcp_pcb_refcount s) (dhcp_xid s) (dhcp_rx s) (d_rands s) (d_mallocs s).
Definition set_pcb (pcb refcount : Z) s : dst T := mkDst (dk s) pcb refcount (dhcp_xid s) (dhcp_rx s) (d_rands s) (d_mallocs s).
Definition set_rx (rx : rx_options) s : dst T :=
  mkDst (dk s) (dhcp_pcb s) (dhcp_pcb_refcount s) (dhcp_xid s) rx (d_rands s) (d_mallocs s).
Definition s_ip s : ipst := k_ip (dk s).
Definition set_s_ip (i : ipst) s : dst T := set_dk (set_k_ip i (dk s)) s.
Definition set_s_udp (u : udp) s : dst T := set_dk (set_k_udp u (dk s)) s.
Definition netif_dhcp_data (netif : Z) s : option dhcp := k_client (dk s) !! netif.
(** The struct behind a pointer that is not NULL. *)
Definition dget (netif : Z) s : res dhcp := res_of_option (netif_dhcp_data netif s).
Definition dput (netif : Z) (d : dhcp) s : dst T := set_dk (set_k_client (<[netif := d]> (k_client (dk s))) (dk s)) s.
(** xid = LWIP_RAND() *)
Definition new_xid s : dst T :=
  mkDst (dk s) (dhcp_pcb s) (dhcp_pcb_refcount s) (u32 (rand (d_rands s))) (dhcp_rx s) (S (d_rands s)) (d_mallocs s).

Definition dhcp_supplied_address (netif : Z) s : bool :=
  if netif =? NULL then false
  else
    match netif_dhcp_data netif s with
    | Some d => bool_decide (d_state d = DHCP_STATE_BOUND) || bool_decide (d_state d = DHCP_STATE_RENEWING) || bool_decide (d_state d = DHCP_STATE_REBINDING)
    | None => false
    end.

(** ** The UDP control block *)

(** The option SOF_BROADCAST of the block is not looked at in this build. *)
Definition dhcp_inc_pcb_refcount s : res (Z * dst T) :=
  let* (err, s) :=
    if dhcp_pcb_refcount s =? 0 then
      lwip_assert (dhcp_pcb s =? NULL) (
        let (pcb, u) := udp_new pcb_malloc (k_udp (dk s)) in
        let s := set_s_udp u (set_pcb pcb (dhcp_pcb_refcount s) s) in
        if pcb =? NULL then Ret (ERR_MEM, s)
        else
          let* (_, u) := udp_bind pcb (Some IPADDR_ANY) LWIP_IANA_PORT_DHCP_CLIENT u in
          let* (_, u) := udp_connect pcb IPADDR_ANY LWIP_IANA_PORT_DHCP_SERVER u in
          let* u := udp_recv pcb DHCP_RECV NULL u in
          Ret (ERR_OK, set_s_udp u s))
    else Ret (ERR_OK, s) in
  if negb (err =? ERR_OK) then Ret (err, s) else Ret (ERR_OK, set_pcb (dhcp_pcb s) (u8 (dhcp_pcb_refcount s + 1)) s).

Definition dhcp_dec_pcb_refcount s : res (dst T) :=
  lwip_assert (dhcp_pcb_refcount s >? 0) (
    let s := set_pcb (dhcp_pcb s) (u8 (dhcp_pcb_refcount s - 1)) s in
    if dhcp_pcb_refcount s =? 0 then
      let* u := udp_remove (dhcp_pcb s) (k_udp (dk s)) in Ret (set_pcb NULL 0 (set_s_udp u s))
    else Ret s).

(** ** Messages *)

(** The stores of dhcp_create_msg, up to the cookie. *)
Definition write_msg (m : memory) (a : Z) (n : nif) (xid : Z) (ciaddr : option Z) : memory :=
  let m := mem_write m a (replicate (Z.to_nat SIZEOF_DHCP_MSG) 0) in
  let m := mem_write m a [DHCP_BOOTREQUEST] in
  let m := mem_write m (a + 1) [LWIP_IANA_HWTYPE_ETHERNET] in
  let m := mem_write m (a + 2) [u8 (if_hwaddr_len n)] in
  let m := mem_write m (a + 4) (le_bytes 4 (lwip_htonl xid)) in
  let m := match ciaddr with Some c => mem_write m (a + 12) (le_bytes 4 c) | None => m end in
  let m := mem_write m (a + 28) (take (Z.to_nat (Z.min DHCP_CHADDR_LEN NETIF_MAX_HWADDR_LEN)) (if_hwaddr n)) in
  mem_write m (a + 236) (le_bytes 4 (lwip_htonl DHCP_MAGIC_COOKIE)).

(** Is the interface's own address in the message? *)
Definition has_ciaddr (message_type : Z) (d : dhcp) : bool :=
  (message_type =? DHCP_INFORM) || (message_type =? DHCP_DECLINE) || (message_type =? DHCP_RELEASE) ||
  ((message_type =? DHCP_REQUEST) && (bool_decide (d_state d = DHCP_STATE_RENEWING) || bool_decide (d_state d = DHCP_STATE_REBINDING))).

(** "DHCP_REQUEST should reuse 'xid' from DHCPOFFER" *)
Definition with_xid (message_type : Z) (d : dhcp) s : dhcp * dst T :=
  if negb (message_type =? DHCP_REQUEST) || bool_decide (d_state d = DHCP_STATE_REBOOTING) then
    let s := if d_tries d =? 0 then new_xid s else s in (set_d_xid (dhcp_xid s) d, s)
  else (d, s).

(** The message (0: no memory), the length of its options, the client with its
    transaction identifier. *)
Definition dhcp_create_msg (netif : Z) (d : dhcp) (message_type : Z) s : res (Z * Z * dhcp * dst T) :=
  if netif =? NULL then Ret (NULL, 0, d, s)
  else
    let* (p_out, i) := ip_alloc custom_free malloc PBUF_TRANSPORT SIZEOF_DHCP_MSG (s_ip s) in
    let s := set_s_ip i s in
    if p_out =? NULL then Ret (NULL, 0, d, s)
    else
      let* b := pget (ip_heap i) p_out in
      lwip_assert (p_len b >=? SIZEOF_DHCP_MSG) (
        let (d, s) := with_xid message_type d s in
        let* n := kget (dk s) netif in
        let m := write_msg (pmem (ip_heap i)) (payload b) n (d_xid d) (if has_ciaddr message_type d then Some (if_ip n) else None) in
        let options := payload b + DHCP_OPTIONS_OFS in
        let* (len, m) := dhcp_option 0 options DHCP_OPTION_MESSAGE_TYPE DHCP_OPTION_MESSAGE_TYPE_LEN m in
        let* (len, m) := dhcp_option_byte len options message_type m in
        Ret (p_out, len, d, set_s_ip (set_ip_mem m i) s)).

Definition dhcp_option_trailer (options_out_len options p_out : Z) (i : ipst) : res ipst :=
  let (len, m) := put_option options_out_len options DHCP_OPTION_END (pmem (ip_heap i)) in
  let* (len, m) := pad_options 69 len options m in
  let i := set_ip_mem m i in
  let* h := pbuf_realloc custom_free p_out (u16 (SIZEOF_DHCP_MSG - DHCP_OPTIONS_LEN + len)) (ip_heap i) in
  Ret (set_ip_heap h i).

(** What the functions below have in common: make a message, add options to it,
    send it, free it. *)
Definition dhcp_message (netif : Z) (d : dhcp) (message_type : Z) (opts : nif -> Z -> Z -> memory -> res (Z * memory))
  (send : Z -> netifs -> ipst -> udp -> res (Z * ipst * udp)) s : res (Z * dhcp * dst T) :=
  let* (p_out, len, d, s) := dhcp_create_msg netif d message_type s in
  if p_out =? NULL then Ret (ERR_MEM, d, s)
  else
    let* b := pget (ip_heap (s_ip s)) p_out in
    let options := payload b + DHCP_OPTIONS_OFS in
    let* n := kget (dk s) netif in
    let* (len, m) := opts n len options (pmem (ip_heap (s_ip s))) in
    let* i := dhcp_option_trailer len options p_out (set_ip_mem m (s_ip s)) in
    let* (result, i, u) := send p_out (k_nf (dk s)) i (k_udp (dk s)) in
    let* i := ip_free custom_free p_out i in
    Ret (result, d, set_s_udp u (set_s_ip i s)).

(** The ways to send: udp_sendto_if_src to the broadcast address from the
    address any, and udp_sendto_if. *)
Definition broadcast_any (pcb netif : Z) (p : Z) (nf : netifs) (i : ipst) (u : udp) : res (Z * ipst * udp) :=
  udp_sendto_if_src custom_free malloc bmos nf (ip4_frag nf) pcb p IPADDR_BROADCAST LWIP_IANA_PORT_DHCP_SERVER netif IPADDR_ANY i u.
Definition send_to (pcb netif dst_ip : Z) (p : Z) (nf : netifs) (i : ipst) (u : udp) : res (Z * ipst * udp) :=
  udp_sendto_if custom_free malloc bmos nf (ip4_frag nf) pcb p dst_ip LWIP_IANA_PORT_DHCP_SERVER netif i u.

(** ** Options of the messages *)
Definition opt_max_size (size len options : Z) (m : memory) : res (Z * memory) :=
  let* (len, m) := dhcp_option len options DHCP_OPTION_MAX_MSG_SIZE DHCP_OPTION_MAX_MSG_SIZE_LEN m in
  dhcp_option_short len options size m.
Definition opt_addr (code addr len options : Z) (m : memory) : res (Z * memory) :=
  let* (len, m) := dhcp_option len options code 4 m in
  dhcp_option_long len options (lwip_htonl addr) m.
Definition opt_requests (len options : Z) (m : memory) : res (Z * memory) :=
  let* (len, m) := dhcp_option len options DHCP_OPTION_PARAMETER_REQUEST_LIST (Z.of_nat (length dhcp_discover_request_options)) m in
  option_bytes len options dhcp_discover_request_options m.

Definition discover_opts (n : nif) (len options : Z) (m : memory) : res (Z * memory) :=
  let* (len, m) := opt_max_size (DHCP_MAX_MSG_LEN n) len options m in
  opt_requests len options m.
Definition select_opts (d : dhcp) (n : nif) (len options : Z) (m : memory) : res (Z * memory) :=
  let* (len, m) := opt_max_size (DHCP_MAX_MSG_LEN n) len options m in
  let* (len, m) := opt_addr DHCP_OPTION_REQUESTED_IP (d_offered_ip_addr d) len options m in
  let* (len, m) := opt_addr DHCP_OPTION_SERVER_ID (d_server_ip_addr d) len options m in
  opt_requests len options m.
Definition reboot_opts (d : dhcp) (n : nif) (len options : Z) (m : memory) : res (Z * memory) :=
  let* (len, m) := opt_max_size DHCP_MAX_MSG_LEN_MIN_REQUIRED len options m in
  let* (len, m) := opt_addr DHCP_OPTION_REQUESTED_IP (d_offered_ip_addr d) len options m in
  opt_requests len options m.
Definition release_opts (server : Z) (n : nif) (len options : Z) (m : memory) : res (Z * memory) :=
  opt_addr DHCP_OPTION_SERVER_ID server len options m.
Definition inform_opts (n : nif) (len options : Z) (m : memory) : res (Z * memory) := opt_max_size (DHCP_MAX_MSG_LEN n) len options m.

(** ** Sending *)

(** dhcp_discover returns ERR_OK whatever happens. *)
Definition dhcp_discover (netif : Z) s : res (Z * dst T) :=
  let* d := dget netif s in
  let d := set_d_addrs (d_server_ip_addr d) IPADDR_ANY (d_offered_sn_mask d) (d_offered_gw_addr d) d in
  let d := dhcp_set_state DHCP_STATE_SELECTING d in
  let* (_, d, s) := dhcp_message netif d DHCP_DISCOVER discover_opts (broadcast_any (dhcp_pcb s) netif) s in
  Ret (ERR_OK, dput netif (dhcp_retry DHCP_REQUEST_BACKOFF_SEQUENCE d) s).

Definition dhcp_select (netif : Z) s : res (Z * dst T) :=
  if netif =? NULL then Ret (ERR_ARG, s)
  else
    match netif_dhcp_data netif s with
    | None => Ret (ERR_VAL, s)
    | Some d =>
        let d := dhcp_set_state DHCP_STATE_REQUESTING d in
        let* (result, d, s) := dhcp_message netif d DHCP_REQUEST (select_opts d) (broadcast_any (dhcp_pcb s) netif) s in
        Ret (result, dput netif (dhcp_retry (fun tries => u16 ((if tries <? 6 then Z.shiftl 1 tries else 60) * 1000)) d) s)
    end.

(** "back-off on retries, but to a maximum of 20 seconds" *)
Definition dhcp_renew (netif : Z) s : res (Z * dst T) :=
  let* d := dget netif s in
  let d := dhcp_set_state DHCP_STATE_RENEWING d in
  let* (result, d, s) := dhcp_message netif d DHCP_REQUEST discover_opts (send_to (dhcp_pcb s) netif (d_server_ip_addr d)) s in
  Ret (result, dput netif (dhcp_retry (fun tries => u16 (if tries <? 10 then tries * 2000 else 20 * 1000)) d) s).

Definition dhcp_rebind (netif : Z) s : res (Z * dst T) :=
  let* d := dget netif s in
  let d := dhcp_set_state DHCP_STATE_REBINDING d in
  let* (result, d, s) := dhcp_message netif d DHCP_REQUEST discover_opts (send_to (dhcp_pcb s) netif IPADDR_BROADCAST) s in
  Ret (result, dput netif (dhcp_retry (fun tries => u16 (if tries <? 10 then tries * 1000 else 10 * 1000)) d) s).

Definition dhcp_reboot (netif : Z) s : res (Z * dst T) :=
  let* d := dget netif s in
  let d := dhcp_set_state DHCP_STATE_REBOOTING d in
  let* (result, d, s) := dhcp_message netif d DHCP_REQUEST (reboot_opts d) (send_to (dhcp_pcb s) netif IPADDR_BROADCAST) s in
  Ret (result, dput netif (dhcp_retry (fun tries => u16 (if tries <? 10 then tries * 1000 else 10 * 1000)) d) s).

(** ** Starting and stopping *)

(** "clean old DHCP offer" *)
Definition clean_offer (d : dhcp) : dhcp :=
  set_d_times 0 0 (set_d_lease 0 0 (set_d_offered 0 0 0 (set_d_addrs 0 0 0 0 d))).

Definition dhcp_release_and_stop (netif : Z) s : res (dst T) :=
  match netif_dhcp_data netif s with
  | None => Ret s
  | Some d =>
      if decide (d_state d = DHCP_STATE_OFF) then Ret s
      else
        let server_ip_addr := d_server_ip_addr d in
        let supplied := dhcp_supplied_address netif s in
        let d := dhcp_set_state DHCP_STATE_OFF (clean_offer d) in
        let s := dput netif d s in
        let* s :=
          if supplied then
            let* (_, d, s) := dhcp_message netif d DHCP_RELEASE (release_opts server_ip_addr) (send_to (dhcp_pcb s) netif server_ip_addr) s in
            let s := dput netif d s in
            let* k := netif_set_addr netif (Some IPADDR_ANY) (Some IPADDR_ANY) (Some IPADDR_ANY) (dk s) in
            Ret (set_dk k s)
          else Ret s in
        let* d := dget netif s in
        if d_pcb_allocated d then
          let* s := dhcp_dec_pcb_refcount s in
          Ret (dput netif (set_d_pcb_allocated false d) s)
        else Ret s
  end.
Definition dhcp_release (netif : Z) s : res (Z * dst T) := let* s := dhcp_release_and_stop netif s in Ret (ERR_OK, s).
Definition dhcp_stop (netif : Z) s : res (dst T) := dhcp_release_and_stop netif s.

Definition dhcp_start (netif : Z) s : res (Z * dst T) :=
  if netif =? NULL then Ret (ERR_ARG, s)
  else
    let* n := kget (dk s) netif in
    if negb (netif_is_up n) then Ret (ERR_ARG, s)
    else if if_mtu n <? DHCP_MAX_MSG_LEN_MIN_REQUIRED then Ret (ERR_MEM, s)
    else
      let* (memory, s) :=
        match netif_dhcp_data netif s with
        | None =>
            let got := mem_malloc (d_mallocs s) in
            Ret (got, mkDst (dk s) (dhcp_pcb s) (dhcp_pcb_refcount s) (dhcp_xid s) (dhcp_rx s) (d_rands s) (S (d_mallocs s)))
        | Some d => let* s := if d_pcb_allocated d then dhcp_dec_pcb_refcount s else Ret s in Ret (true, s)
        end in
      if negb memory then Ret (ERR_MEM, s)
      else
        let s := dput netif zero_dhcp s in
        let* (err, s) := dhcp_inc_pcb_refcount s in
        if negb (err =? ERR_OK) then Ret (ERR_MEM, s)
        else
          let d := set_d_pcb_allocated true zero_dhcp in
          if negb (netif_is_link_up n) then Ret (ERR_OK, dput netif (dhcp_set_state DHCP_STATE_INIT d) s)
          else
            let* (result, s) := dhcp_discover netif (dput netif d s) in
            if negb (result =? ERR_OK) then let* s := dhcp_release_and_stop netif s in Ret (ERR_MEM, s)
            else Ret (result, s).

(** dhcp_inform has a client of its own, on the stack. *)
Definition dhcp_inform (netif : Z) s : res (dst T) :=
  if netif =? NULL then Ret s
  else
    let* (err, s) := dhcp_inc_pcb_refcount s in
    if negb (err =? ERR_OK) then Ret s
    else
      let d := dhcp_set_state DHCP_STATE_INFORMING zero_dhcp in
      let* (_, _, s) := dhcp_message netif d DHCP_INFORM inform_opts (send_to (dhcp_pcb s) netif IPADDR_BROADCAST) s in
      dhcp_dec_pcb_refcount s.

(** ** The memory of a client *)
Definition dhcp_set_struct (netif : Z) s : res (dst T) :=
  lwip_assert (negb (netif =? NULL)) (
    lwip_assert (match netif_dhcp_data netif s with None => true | Some _ => false end)
      (Ret (dput netif (set_d_flags (Z.lor 0 DHCP_FLAG_EXTERNAL_MEM) zero_dhcp) s))).
(** [true]: the struct goes back to the heap. *)
Definition dhcp_cleanup (netif : Z) s : res (bool * dst T) :=
  lwip_assert (negb (netif =? NULL)) (
    match netif_dhcp_data netif s with
    | Some d => Ret (negb (has_flag (d_flags d) DHCP_FLAG_EXTERNAL_MEM), set_dk (set_k_client (delete netif (k_client (dk s))) (dk s)) s)
    | None => Ret (false, s)
    end).

(** ** Replies *)

(** [yiaddr]: the member of the message, in network order. *)
Definition dhcp_handle_ack (rx : rx_options) (yiaddr : Z) (d : dhcp) : dhcp :=
  let t0 := if dhcp_option_given rx DHCP_OPTION_IDX_LEASE_TIME then dhcp_get_option_value rx DHCP_OPTION_IDX_LEASE_TIME else d_offered_t0_lease d in
  let t1 := if dhcp_option_given rx DHCP_OPTION_IDX_T1 then dhcp_get_option_value rx DHCP_OPTION_IDX_T1 else t0 / 2 in
  let t2 := if dhcp_option_given rx DHCP_OPTION_IDX_T2 then dhcp_get_option_value rx DHCP_OPTION_IDX_T2 else u32 (t0 * 7) / 8 in
  let mask := dhcp_option_given rx DHCP_OPTION_IDX_SUBNET_MASK in
  let sn := if mask then lwip_htonl (dhcp_get_option_value rx DHCP_OPTION_IDX_SUBNET_MASK) else 0 in
  let flags := if mask then u8 (Z.lor (d_flags d) DHCP_FLAG_SUBNET_MASK_GIVEN) else u8 (Z.land (d_flags d) (Z.lnot DHCP_FLAG_SUBNET_MASK_GIVEN)) in
  let gw := if dhcp_option_given rx DHCP_OPTION_IDX_ROUTER then lwip_htonl (dhcp_get_option_value rx DHCP_OPTION_IDX_ROUTER) else 0 in
  set_d_flags flags (set_d_addrs (d_server_ip_addr d) yiaddr sn gw (set_d_offered t0 t1 t2 d)).

(** The timers of a lease. *)
Definition bind_timers (d : dhcp) : dhcp :=
  let d := set_d_lease 0 (d_t0_timeout d) d in
  let d := if negb (d_offered_t0_lease d =? 0xffffffff)
           then set_d_lease (d_lease_used d) (SET_TIMEOUT_FROM_OFFERED (d_offered_t0_lease d) 0 0xffff) d else d in
  let d := if negb (d_offered_t1_renew d =? 0xffffffff) then
             let t1 := SET_TIMEOUT_FROM_OFFERED (d_offered_t1_renew d) 0 0xffff in
             set_d_times t1 (d_t2_rebind_time d) (set_d_timeouts t1 (d_t2_timeout d) d) else d in
  let d := if negb (d_offered_t2_rebind d =? 0xffffffff) then
             let t2 := SET_TIMEOUT_FROM_OFFERED (d_offered_t2_rebind d) 0 0xffff in
             set_d_times (d_t1_renew_time d) t2 (set_d_timeouts (d_t1_timeout d) t2 d) else d in
  if (d_t1_timeout d >=? d_t2_timeout d) && (d_t2_timeout d >? 0) then set_d_timeouts 0 (d_t2_timeout d) d else d.

(** "subnet mask not given, choose a safe subnet mask given the network class" *)
Definition bind_mask (d : dhcp) : Z :=
  if has_flag (d_flags d) DHCP_FLAG_SUBNET_MASK_GIVEN then d_offered_sn_mask d
  else
    let first_octet := ip4_addr_byte (d_offered_ip_addr d) 0 in
    if first_octet <=? 127 then lwip_htonl 0xff000000
    else if first_octet >=? 192 then lwip_htonl 0xffffff00
    else lwip_htonl 0xffff0000.

Definition dhcp_bind (netif : Z) s : res (dst T) :=
  if netif =? NULL then Ret s
  else
    match netif_dhcp_data netif s with
    | None => Ret s
    | Some d =>
        let d := bind_timers d in
        let sn_mask := bind_mask d in
        let gw_addr := d_offered_gw_addr d in
        let d := dhcp_set_state DHCP_STATE_BOUND d in
        let s := dput netif d s in
        let* k := netif_set_addr netif (Some (d_offered_ip_addr d)) (Some sn_mask) (Some gw_addr) (dk s) in
        Ret (set_dk k s)
    end.

Definition dhcp_handle_nak (netif : Z) s : res (dst T) :=
  let* d := dget netif s in
  let s := dput netif (dhcp_set_state DHCP_STATE_BACKING_OFF d) s in
  let* k := netif_set_addr netif (Some IPADDR_ANY) (Some IPADDR_ANY) (Some IPADDR_ANY) (dk s) in
  let* (_, s) := dhcp_discover netif (set_dk k s) in
  Ret s.

Definition dhcp_handle_offer (netif yiaddr : Z) s : res (dst T) :=
  let* d := dget netif s in
  if dhcp_option_given (dhcp_rx s) DHCP_OPTION_IDX_SERVER_ID then
    let d := set_d_neg (d_state d) (d_tries d) 0 d in
    let d := set_d_addrs (lwip_htonl (dhcp_get_option_value (dhcp_rx s) DHCP_OPTION_IDX_SERVER_ID)) yiaddr (d_offered_sn_mask d) (d_offered_gw_addr d) d in
    let* (_, s) := dhcp_select netif (dput netif d s) in
    Ret s
  else Ret s.

(** The loop over the hardware address. *)
Definition chaddr_matches (m : memory) (a : Z) (n : nif) : bool :=
  forallb (fun i => nth (Z.to_nat i) (if_hwaddr n) 0 =? field m a (28 + i) 1)
    (seqZ 0 (Z.min (if_hwaddr_len n) (Z.min DHCP_CHADDR_LEN NETIF_MAX_HWADDR_LEN))).

(** The reply in [p]; the last step is to free it. *)
Definition dhcp_recv (p : Z) (g : ip_globals) s : res (dst T) :=
  let free_pbuf_and_return s := let* i := ip_free custom_free p (s_ip s) in Ret (set_s_ip i s) in
  let netif := current_input_netif g in
  let* n := kget (dk s) netif in
  let* b := pget (ip_heap (s_ip s)) p in
  match netif_dhcp_data netif s with
  | None => free_pbuf_and_return s
  | Some d =>
      let m := pmem (ip_heap (s_ip s)) in
      let reply_msg := payload b in
      if negb (d_pcb_allocated d) then free_pbuf_and_return s
      else if p_len b <? DHCP_MIN_REPLY_LEN then free_pbuf_and_return s
      else if negb (field m reply_msg 0 1 =? DHCP_BOOTREPLY) then free_pbuf_and_return s
      else if negb (chaddr_matches m reply_msg n) then free_pbuf_and_return s
      else if negb (lwip_htonl (field m reply_msg 4 4) =? d_xid d) then free_pbuf_and_return s
      else
        let* (err, rx) := dhcp_parse_reply p (dhcp_rx s) (ip_heap (s_ip s)) in
        let s := set_rx rx s in
        if negb (err =? ERR_OK) then free_pbuf_and_return s
        else if negb (dhcp_option_given rx DHCP_OPTION_IDX_MSG_TYPE) then free_pbuf_and_return s
        else
          let msg_type := u8 (dhcp_get_option_value rx DHCP_OPTION_IDX_MSG_TYPE) in
          let yiaddr := field m reply_msg 16 4 in
          let in_state l := bool_decide (d_state d ∈ l) in
          let* s :=
            if msg_type =? DHCP_ACK then
              if in_state [DHCP_STATE_REQUESTING; DHCP_STATE_REBOOTING] || in_state [DHCP_STATE_REBINDING; DHCP_STATE_RENEWING]
              then dhcp_bind netif (dput netif (dhcp_handle_ack rx yiaddr d) s)
              else Ret s
            else if (msg_type =? DHCP_NAK) && in_state [DHCP_STATE_REBOOTING; DHCP_STATE_REQUESTING; DHCP_STATE_REBINDING; DHCP_STATE_RENEWING]
            then dhcp_handle_nak netif s
            else if (msg_type =? DHCP_OFFER) && in_state [DHCP_STATE_SELECTING] then dhcp_handle_offer netif yiaddr s
            else Ret s in
          free_pbuf_and_return s
  end.

(** dhcp_recv as the callback of a UDP control block. *)
Definition dhcp_callback (f arg pcb p addr port : Z) (g : ip_globals) (i : ipst) (us : udp * dst T) : res (ipst * (udp * dst T)) :=
  let* s := dhcp_recv p g (set_s_udp us.1 (set_s_ip i us.2)) in
  Ret (s_ip s, (k_udp (dk s), s)).

(** ** Timers *)
Definition dhcp_timeout (netif : Z) s : res (dst T) :=
  let* d := dget netif s in
  let restart := let* s := dhcp_release_and_stop netif s in let* (_, s) := dhcp_start netif s in Ret s in
  if bool_decide (d_state d = DHCP_STATE_BACKING_OFF) || bool_decide (d_state d = DHCP_STATE_SELECTING)
  then let* (_, s) := dhcp_discover netif s in Ret s
  else if decide (d_state d = DHCP_STATE_REQUESTING) then
    if d_tries d <=? 5 then let* (_, s) := dhcp_select netif s in Ret s else restart
  else if decide (d_state d = DHCP_STATE_REBOOTING) then
    if d_tries d <? REBOOT_TRIES then let* (_, s) := dhcp_reboot netif s in Ret s else let* (_, s) := dhcp_discover netif s in Ret s
  else Ret s.

(** The next timeout: half the time that is left (in C, an int). *)
Definition half_left (timeout used : Z) : Z := Z.quot (timeout - used) 2.

Definition dhcp_t1_timeout (netif : Z) s : res (dst T) :=
  let* d := dget netif s in
  if bool_decide (d_state d ∈ [DHCP_STATE_REQUESTING; DHCP_STATE_BOUND; DHCP_STATE_RENEWING]) then
    let* (_, s) := dhcp_renew netif s in
    let* d := dget netif s in
    let left := half_left (d_t2_timeout d) (d_lease_used d) in
    Ret (if left >=? DHCP_NEXT_TIMEOUT_THRESHOLD then dput netif (set_d_times (u16 left) (d_t2_rebind_time d) d) s else s)
  else Ret s.

Definition dhcp_t2_timeout (netif : Z) s : res (dst T) :=
  let* d := dget netif s in
  if bool_decide (d_state d ∈ [DHCP_STATE_REQUESTING; DHCP_STATE_BOUND; DHCP_STATE_RENEWING; DHCP_STATE_REBINDING]) then
    let* (_, s) := dhcp_rebind netif s in
    let* d := dget netif s in
    let left := half_left (d_t0_timeout d) (d_lease_used d) in
    Ret (if left >=? DHCP_NEXT_TIMEOUT_THRESHOLD then dput netif (set_d_times (d_t1_renew_time d) (u16 left) d) s else s)
  else Ret s.

(** One interface, once a minute. *)
Definition coarse_netif (netif : Z) s : res (dst T) :=
  match netif_dhcp_data netif s with
  | None => Ret s
  | Some d =>
      if decide (d_state d = DHCP_STATE_OFF) then Ret s
      else
        let d := if truth (d_t0_timeout d) then set_d_lease (u16 (d_lease_used d + 1)) (d_t0_timeout d) d else d in
        if truth (d_t0_timeout d) && (d_lease_used d =? d_t0_timeout d) then
          let* s := dhcp_release_and_stop netif (dput netif d s) in
          let* (_, s) := dhcp_start netif s in Ret s
        else
          let t2 := d_t2_rebind_time d in
          let d := if truth t2 then set_d_times (d_t1_renew_time d) (t2 - 1) d else d in
          if t2 =? 1 then dhcp_t2_timeout netif (dput netif d s)
          else
            let t1 := d_t1_renew_time d in
            let d := if truth t1 then set_d_times (t1 - 1) (d_t2_rebind_time d) d else d in
            let s := dput netif d s in
            if t1 =? 1 then dhcp_t1_timeout netif s else Ret s
  end.
(** One interface, every 500 ms. *)
Definition fine_netif (netif : Z) s : res (dst T) :=
  match netif_dhcp_data netif s with
  | None => Ret s
  | Some d =>
      let tick s := dput netif (set_d_neg (d_state d) (d_tries d) (d_request_timeout d - 1) d) s in
      if d_request_timeout d >? 1 then Ret (tick s)
      else if d_request_timeout d =? 1 then dhcp_timeout netif (tick s)
      else Ret s
  end.
(** NETIF_FOREACH *)
Fixpoint for_netifs (f : Z -> dst T -> res (dst T)) (l : list Z) s : res (dst T) :=
  match l with
  | [] => Ret s
  | netif :: l => let* s := f netif s in for_netifs f l s
  end.
Definition dhcp_coarse_tmr s : res (dst T) := for_netifs coarse_netif (netif_list (k_nf (dk s))) s.
Definition dhcp_fine_tmr s : res (dst T) := for_netifs fine_netif (netif_list (k_nf (dk s))) s.

(** ** The link *)
Definition dhcp_network_changed_link_up (netif : Z) s : res (dst T) :=
  match netif_dhcp_data netif s with
  | None => Ret s
  | Some d =>
      let s0 := dput netif (set_d_neg (d_state d) 0 (d_request_timeout d) d) s in
      if bool_decide (d_state d ∈ [DHCP_STATE_REBINDING; DHCP_STATE_RENEWING; DHCP_STATE_BOUND; DHCP_STATE_REBOOTING])
      then let* (_, s) := dhcp_reboot netif s0 in Ret s
      else if decide (d_state d = DHCP_STATE_OFF) then Ret s
      else let* (_, s) := dhcp_discover netif s0 in Ret s
  end.

(** netif.c *)
Definition netif_set_link_up (netif : Z) s : res (dst T) :=
  if netif =? NULL then Ret s
  else
    let* n := kget (dk s) netif in
    if negb (netif_is_link_up n) then
      let s := set_dk (kset netif (netif_set_flags NETIF_FLAG_LINK_UP n) (dk s)) s in
      let* s := dhcp_network_changed_link_up netif s in
      let* k := netif_issue_reports custom_free malloc bmos netif (Z.lor NETIF_REPORT_TYPE_IPV4 NETIF_REPORT_TYPE_IPV6) (dk s) in
      Ret (set_dk k s)
    else Ret s.
Definition netif_set_link_down (netif : Z) s : res (dst T) :=
  if netif =? NULL then Ret s
  else
    let* n := kget (dk s) netif in
    Ret (if netif_is_link_up n then set_dk (kset netif (netif_clear_flags NETIF_FLAG_LINK_UP n) (dk s)) s else s).
End Dhcp.
