(* ===== verification/DhcpMsg.v ===== *)
(** * DHCP messages: what the stores leave in memory

    The buffer of a message as a list of bytes, the writers of options, and the
    layout of a whole message. *)
From S2P Require Import Prelude NetShim Ip4Addr Link Etharp Pbuf PbufChain PbufOps PbufClone NetGlue Ethernet Ip4 Icmp Ip4Input Ip4Hdr Udp Netif DhcpParse DhcpOptions Dhcp.

(** The 308 bytes at [a] are [pre] and zeros behind it. *)
Record filled (m : memory) (a : Z) (pre : list Z) : Prop := {
  fl_addr : addr_ok a SIZEOF_DHCP_MSG;
  fl_len : Z.of_nat (length pre) <= SIZEOF_DHCP_MSG;
  fl_read : mem_read m a SIZEOF_DHCP_MSG = pre ++ replicate (Z.to_nat SIZEOF_DHCP_MSG - length pre) 0;
  fl_mem : mem_ok m;
}.

Lemma splice_zeros (pre bs : list Z) (o N : nat) : (length pre <= o)%nat -> (o + length bs <= N)%nat ->
  take o (pre ++ replicate (N - length pre) 0) ++ bs ++ drop (o + length bs) (pre ++ replicate (N - length pre) 0) =
  (pre ++ replicate (o - length pre) 0 ++ bs) ++ replicate (N - length (pre ++ replicate (o - length pre) 0 ++ bs)) 0.
Proof.
  intros H1 H2. rewrite take_app, take_ge, take_replicate by done. rewrite drop_app, (drop_ge pre), drop_replicate by lia. cbn [app].
  rewrite <- !app_assoc. do 2 f_equal; [f_equal; lia|]. f_equal. f_equal. rewrite !length_app, length_replicate. lia.
Qed.

Lemma filled_write m a pre o bs : filled m a pre -> Z.of_nat (length pre) <= o -> o + Z.of_nat (length bs) <= SIZEOF_DHCP_MSG -> bytes bs ->
  filled (mem_write m (a + o) bs) a (pre ++ replicate (Z.to_nat o - length pre) 0 ++ bs).
Proof.
  intros [F1 F2 F3 F4] Ho Hl Hb. split; try done.
  - rewrite !length_app, length_replicate. lia.
  - rewrite mem_read_splice by (done || lia). rewrite F3. apply splice_zeros; lia.
  - by apply mem_ok_mem_write.
Qed.
(** The same behind the prefix, with no gap. *)
Lemma filled_next m a pre o bs : filled m a pre -> o = Z.of_nat (length pre) -> o + Z.of_nat (length bs) <= SIZEOF_DHCP_MSG -> bytes bs ->
  filled (mem_write m (a + o) bs) a (pre ++ bs).
Proof.
  intros F Ho Hl Hb. pose proof (filled_write m a pre o bs F ltac:(lia) Hl Hb) as H.
  by replace (Z.to_nat o - length pre)%nat with 0%nat in H by lia.
Qed.

(** ** Writing options *)

(** [f] appends the bytes [l] to options of the length [len]. *)
Definition appends (f : Z -> Z -> memory -> res (Z * memory)) (l : list Z) : Prop :=
  forall m a pre len, filled m a pre -> Z.of_nat (length pre) = DHCP_OPTIONS_OFS + len -> 0 <= len -> len + Z.of_nat (length l) <= DHCP_OPTIONS_LEN ->
  exists m', f len (a + DHCP_OPTIONS_OFS) m = Ret (len + Z.of_nat (length l), m') /\ filled m' a (pre ++ l).

Lemma appends_bind f g l l' : appends f l -> appends g l' ->
  appends (fun len options m => let* (len, m) := f len options m in g len options m) (l ++ l').
Proof.
  intros Hf Hg m a pre len F Hp Hl Hb. rewrite length_app in Hb.
  destruct (Hf m a pre len F Hp Hl ltac:(lia)) as (m1 & -> & F1). cbn [res_bind].
  destruct (Hg m1 a (pre ++ l) (len + Z.of_nat (length l)) F1) as (m2 & -> & F2); [rewrite length_app; lia|lia..|].
  exists m2. rewrite length_app, app_assoc. split; [|done]. do 2 f_equal. lia.
Qed.

Lemma put_option_spec m a pre len v : filled m a pre -> Z.of_nat (length pre) = DHCP_OPTIONS_OFS + len -> 0 <= len < DHCP_OPTIONS_LEN ->
  exists m', put_option len (a + DHCP_OPTIONS_OFS) v m = (len + 1, m') /\ filled m' a (pre ++ [u8 v]).
Proof.
  intros F Hp Hl. unfold put_option. rewrite u16_small by (unfold DHCP_OPTIONS_LEN, DHCP_MIN_OPTIONS_LEN in *; lia). eexists. split; [done|].
  rewrite <- Z.add_assoc. apply filled_next; [done|lia| |].
  - unfold SIZEOF_DHCP_MSG. cbn [length]. lia.
  - constructor; [apply u8_is_byte|constructor].
Qed.
(** Peels off the stores of single bytes. *)
Ltac put_step F :=
  match goal with
  | |- context [put_option ?l (?a + DHCP_OPTIONS_OFS) ?v ?m] =>
      let m' := fresh "m" in let E := fresh "E" in let G := fresh "G" in
      destruct (put_option_spec m a _ l v F) as (m' & E & G); [rewrite ?length_app; cbn [length] in *; lia|lia|]; rewrite E; clear E F; rename G into F
  end.
Lemma appends_byte v : is_byte v -> appends (fun len options => dhcp_option_byte len options v) [v].
Proof.
  intros Bv m a pre len F Hp Hl Hb. unfold dhcp_option_byte. cbn [length] in Hb. rewrite (proj2 (Z.ltb_lt _ _)) by lia. cbn [lwip_assert].
  put_step F. rewrite u8_small in F by done. by eexists.
Qed.
Lemma appends_bytes l : bytes l -> appends (fun len options => option_bytes len options l) l.
Proof.
  induction 1 as [|v l Bv _ IH].
  - intros m a pre len F _ _ _. exists m. cbn. rewrite Z.add_0_r, app_nil_r. done.
  - apply (appends_bind _ _ [v] l); [by apply appends_byte|done].
Qed.

(** An option code and length, followed by its data. *)
Lemma appends_option code v f : is_byte code -> Z.of_nat (length v) < 256 -> appends f v ->
  appends (fun len options m => let* (len, m) := dhcp_option len options code (Z.of_nat (length v)) m in f len options m) (encode_item (Opt code v)).
Proof.
  intros Bc Hv Hf m a pre len F Hp Hl Hb. cbn [encode_item length] in *. unfold dhcp_option.
  rewrite (proj2 (Z.leb_le _ _)) by lia. cbn [lwip_assert]. put_step F. rewrite u8_small in F by done. put_step F.
  rewrite u8_small in F by (unfold is_byte; lia). cbn [res_bind].
  match type of F with filled ?mm _ _ => destruct (Hf mm a _ (len + 1 + 1) F) as (m' & -> & F') end; [rewrite !length_app; cbn [length]; lia|lia..|].
  exists m'. split; [do 2 f_equal; lia|]. by rewrite <- !app_assoc in F'.
Qed.

Lemma appends_short v : 0 <= v < 65536 -> appends (fun len options => dhcp_option_short len options v) (be16 v).
Proof.
  intros Hv m a pre len F Hp Hl Hb. unfold dhcp_option_short. cbn [length be16] in *. rewrite (proj2 (Z.leb_le _ _)) by lia. cbn [lwip_assert].
  put_step F. put_step F. eexists. split; [do 2 f_equal; lia|]. rewrite <- app_assoc in F. cbn [app] in F.
  assert (u8 (Z.shiftr (Z.land v 65280) 8) = v / 256) as E1.
  { rewrite Z.shiftr_land, Z.shiftr_div_pow2 by lia. change (Z.shiftr 65280 8) with (Z.ones 8). rewrite Z.land_ones by lia. unfold u8.
    change (2 ^ 8) with 256. zdiv. }
  assert (u8 (Z.land v 255) = v mod 256) as E2.
  { change 255 with (Z.ones 8). rewrite Z.land_ones by lia. unfold u8. change (2 ^ 8) with 256. zdiv. }
  by rewrite E1, E2 in F.
Qed.

(** The four bytes of a value, most significant first. *)
Lemma long_bytes a b c d : is_byte a -> is_byte b -> is_byte c -> is_byte d -> let v := a + 256 * b + 65536 * c + 16777216 * d in
  u8 (Z.shiftr (Z.land v 0xff000000) 24) = d /\ u8 (Z.shiftr (Z.land v 0x00ff0000) 16) = c /\
  u8 (Z.shiftr (Z.land v 0x0000ff00) 8) = b /\ u8 (Z.land v 0x000000ff) = a.
Proof.
  intros Ba Bb Bc Bd v. unfold is_byte in Ba, Bb, Bc, Bd. assert (forall k x, 0 <= k -> Z.shiftr (Z.land v x) k = Z.land (v / 2 ^ k) (Z.shiftr x k)) as E
    by (intros k x Hk; by rewrite Z.shiftr_land, Z.shiftr_div_pow2).
  rewrite !E by lia. change (Z.shiftr 0xff000000 24) with (Z.ones 8). change (Z.shiftr 0x00ff0000 16) with (Z.ones 8).
  change (Z.shiftr 0x0000ff00 8) with (Z.ones 8). change 0xff with (Z.ones 8). rewrite !Z.land_ones by lia.
  change (2 ^ 8) with 256. change (2 ^ 16) with 65536. change (2 ^ 24) with 16777216. unfold u8, v. rewrite !Zmod_mod.
  split_and!; zdiv.
Qed.
Lemma appends_long addr : 0 <= addr < 4294967296 -> appends (fun len options => dhcp_option_long len options (lwip_htonl addr)) (le_bytes 4 addr).
Proof.
  intros Ha. pose proof (le_bytes_bytes 4 addr) as Hb. pose proof (le_val_le_bytes 4 addr Ha) as Ev. pose proof (length_le_bytes 4 addr) as El.
  destruct (le_bytes 4 addr) as [|a [|b [|c [|d [|]]]]]; try discriminate El. rewrite <- Ev. clear Ev El Ha addr.
  repeat (apply Forall_cons in Hb as [? Hb]). cbn [le_val]. replace (a + 256 * (b + 256 * (c + 256 * (d + 256 * 0)))) with (a + 256 * b + 65536 * c + 16777216 * d) by lia.
  rewrite htonl_bytes by done.
  intros m x pre len F Hp Hl Hn. unfold dhcp_option_long. cbn [length] in *. rewrite (proj2 (Z.leb_le _ _)) by lia. cbn [lwip_assert].
  do 4 put_step F. eexists. split; [do 2 f_equal; lia|]. rewrite <- !app_assoc in F. cbn [app] in F.
  destruct (long_bytes d c b a) as (E1 & E2 & E3 & E4); [done..|]. by rewrite E1, E2, E3, E4 in F.
Qed.

(** ** The options of the messages *)
Definition max_size_item (size : Z) : item := Opt DHCP_OPTION_MAX_MSG_SIZE (be16 size).
Definition addr_item (code addr : Z) : item := Opt code (le_bytes 4 addr).
Definition requests_item : item := Opt DHCP_OPTION_PARAMETER_REQUEST_LIST dhcp_discover_request_options.

Lemma appends_max_size size : 0 <= size < 65536 -> appends (opt_max_size size) (encode_item (max_size_item size)).
Proof.
  intros Hs. refine (appends_option DHCP_OPTION_MAX_MSG_SIZE (be16 size) _ _ _ (appends_short size Hs)); [unfold is_byte, DHCP_OPTION_MAX_MSG_SIZE; lia|cbn; lia].
Qed.
Lemma appends_addr code addr : is_byte code -> 0 <= addr < 4294967296 -> appends (opt_addr code addr) (encode_item (addr_item code addr)).
Proof.
  intros Hc Ha. pose proof (appends_option code (le_bytes 4 addr) _ Hc ltac:(rewrite length_le_bytes; lia) (appends_long addr Ha)) as H.
  rewrite length_le_bytes in H. exact H.
Qed.
Lemma appends_requests : appends opt_requests (encode_item requests_item).
Proof.
  refine (appends_option DHCP_OPTION_PARAMETER_REQUEST_LIST dhcp_discover_request_options _ _ _ (appends_bytes _ _)); [|cbn; lia|].
  - unfold is_byte, DHCP_OPTION_PARAMETER_REQUEST_LIST. lia.
  - unfold dhcp_discover_request_options, DHCP_OPTION_SUBNET_MASK, DHCP_OPTION_ROUTER, DHCP_OPTION_BROADCAST.
    repeat (apply Forall_cons_2; [unfold is_byte; lia|]). by apply Forall_nil_2.
Qed.

(** ** The trailer *)
Lemma pad_spec a : forall fuel m pre len, filled m a pre -> Z.of_nat (length pre) = DHCP_OPTIONS_OFS + len -> 0 <= len <= DHCP_OPTIONS_LEN ->
  DHCP_OPTIONS_LEN - len < Z.of_nat fuel ->
  exists m', pad_options fuel len (a + DHCP_OPTIONS_OFS) m = Ret (DHCP_OPTIONS_LEN, m') /\ filled m' a (pre ++ replicate (Z.to_nat (DHCP_OPTIONS_LEN - len)) 0).
Proof.
  induction fuel as [|fuel IH]; intros m pre len F Hp Hl Hf; [lia|]. cbn [pad_options].
  destruct (Z.ltb_spec len DHCP_MIN_OPTIONS_LEN) as [Hlt|Hge]; cbn [orb andb].
  - rewrite (proj2 (Z.ltb_lt len DHCP_OPTIONS_LEN)) by (unfold DHCP_OPTIONS_LEN; lia). cbn [andb].
    assert (len < DHCP_OPTIONS_LEN) as Hlt' by done. put_step F. change (u8 0) with 0 in F.
    destruct (IH m0 (pre ++ [0]) (len + 1) F) as (m' & -> & F'); [rewrite length_app; cbn [length]; lia|lia..|].
    exists m'. split; [done|]. rewrite <- app_assoc in F'. cbn [app] in F'.
    by replace (Z.to_nat (DHCP_OPTIONS_LEN - len)) with (S (Z.to_nat (DHCP_OPTIONS_LEN - (len + 1)))) by lia.
  - assert (len = DHCP_OPTIONS_LEN) as -> by (unfold DHCP_OPTIONS_LEN in *; lia). rewrite Z.ltb_irrefl, andb_false_r.
    exists m. rewrite Z.sub_diag, app_nil_r. done.
Qed.
(** The end mark, and zeros up to the end of the message. *)
Lemma trailer_spec custom_free i q b m pre len : q <> NULL -> pget (ip_heap i) q = Ret b -> p_tot_len b = SIZEOF_DHCP_MSG ->
  filled m (payload b) pre -> Z.of_nat (length pre) = DHCP_OPTIONS_OFS + len -> 0 <= len < DHCP_OPTIONS_LEN ->
  exists m', dhcp_option_trailer custom_free len (payload b + DHCP_OPTIONS_OFS) q (set_ip_mem m i) = Ret (set_ip_mem m' i) /\ mem_ok m' /\
    mem_read m' (payload b) SIZEOF_DHCP_MSG = pre ++ DHCP_OPTION_END :: replicate (307 - length pre) 0.
Proof.
  intros Hq Hg Ht F Hp Hl. unfold dhcp_option_trailer. change (pmem (ip_heap (set_ip_mem m i))) with m.
  destruct (put_option_spec m (payload b) pre len DHCP_OPTION_END F Hp Hl) as (m1 & -> & F1). change (u8 DHCP_OPTION_END) with DHCP_OPTION_END in F1.
  assert (DHCP_OPTIONS_LEN = 68) as E68 by done.
  destruct (pad_spec (payload b) 69 m1 _ (len + 1) F1) as (m2 & -> & F2); [rewrite length_app; cbn [length]; lia|lia..|]. cbn [res_bind].
  change (u16 (SIZEOF_DHCP_MSG - DHCP_OPTIONS_LEN + DHCP_OPTIONS_LEN)) with SIZEOF_DHCP_MSG. exists m2.
  assert (pbuf_realloc custom_free q SIZEOF_DHCP_MSG (ip_heap (set_ip_mem m2 i)) = Ret (ip_heap (set_ip_mem m2 i))) as Er.
  { unfold pbuf_realloc. rewrite (proj2 (Z.eqb_neq _ _) Hq). cbn [negb lwip_assert]. change (pget (ip_heap (set_ip_mem m2 i)) q) with (pget (ip_heap i) q).
    rewrite Hg. cbn [res_bind]. by rewrite Ht, Z.geb_leb, Z.leb_refl. }
  change (set_ip_mem m2 (set_ip_mem m i)) with (set_ip_mem m2 i). rewrite Er. split; [by destruct i as [[? []]]|]. split; [apply F2|].
  rewrite (fl_read _ _ _ F2). assert (Z.to_nat SIZEOF_DHCP_MSG = 308%nat) as -> by done. assert (DHCP_OPTIONS_OFS = 240) as E240 by done.
  set (r1 := replicate _ 0). set (r2 := replicate _ 0). assert (r2 = []) as ->.
  { unfold r2, r1. rewrite !length_app, length_replicate. cbn [length]. replace (308 - _)%nat with 0%nat by lia. done. }
  rewrite app_nil_r. unfold r1. rewrite <- app_assoc. cbn [app]. do 3 f_equal. lia.
Qed.

(** ** The fixed part *)
Definition msg_header (n : nif) (xid ciaddr : Z) : list Z :=
  [DHCP_BOOTREQUEST; LWIP_IANA_HWTYPE_ETHERNET; 6; 0] ++ le_bytes 4 (lwip_htonl xid) ++ replicate 4 0 ++ le_bytes 4 ciaddr ++ replicate 12 0 ++
  if_hwaddr n ++ replicate 202 0 ++ [0x63; 0x82; 0x53; 0x63].

Lemma filled_zero m a : addr_ok a SIZEOF_DHCP_MSG -> mem_ok m -> filled (mem_write m a (replicate (Z.to_nat SIZEOF_DHCP_MSG) 0)) a [].
Proof.
  intros Ha Hm. split; [done|done| |by apply mem_ok_mem_write]. cbn [length app]. rewrite Nat.sub_0_r.
  apply mem_read_stored; [by rewrite length_replicate|done|]. apply Forall_replicate. unfold is_byte. lia.
Qed.
Lemma write_msg_filled m a n xid ciaddr : addr_ok a SIZEOF_DHCP_MSG -> mem_ok m -> if_hwaddr_len n = 6 -> length (if_hwaddr n) = 6%nat -> bytes (if_hwaddr n) ->
  filled (write_msg m a n xid ciaddr) a (msg_header n xid (default 0 ciaddr)) /\ Z.of_nat (length (msg_header n xid (default 0 ciaddr))) = DHCP_OPTIONS_OFS.
Proof.
  intros Ha Hm Hl Hh Bh. assert (forall v : Z, length (le_bytes 4 v) = 4%nat) as L4 by (intros; apply length_le_bytes).
  split; [|unfold msg_header; rewrite !length_app, !length_replicate, Hh, !L4; done].
  assert (forall c, 0 <= c < 256 -> bytes [c]) as B1 by (intros; apply Forall_cons_2; [done|apply Forall_nil_2]).
  unfold write_msg. rewrite Hl. change (u8 6) with 6. change (Z.min DHCP_CHADDR_LEN NETIF_MAX_HWADDR_LEN) with 6.
  rewrite (take_ge (if_hwaddr n)) by (rewrite Hh; done). pose proof (filled_zero m a Ha Hm) as F0. set (m0 := mem_write m a _) in *.
  pose proof (filled_next m0 a [] 0 [DHCP_BOOTREQUEST] F0 eq_refl ltac:(done) (B1 DHCP_BOOTREQUEST ltac:(done))) as F1. rewrite Z.add_0_r in F1.
  pose proof (filled_next _ a _ 1 [LWIP_IANA_HWTYPE_ETHERNET] F1 eq_refl ltac:(done) (B1 LWIP_IANA_HWTYPE_ETHERNET ltac:(done))) as F2.
  pose proof (filled_next _ a _ 2 [6] F2 eq_refl ltac:(done) (B1 6 ltac:(lia))) as F3.
  pose proof (filled_write _ a _ 4 (le_bytes 4 (lwip_htonl xid)) F3 ltac:(done) ltac:(done) (le_bytes_bytes _ _)) as F4. clear F0 F1 F2 F3.
  set (p4 := _ ++ _) in F4. set (m4 := mem_write _ (a + 4) _) in *. assert (length p4 = 8%nat) as L by (unfold p4; cbn; done).
  assert (filled (match ciaddr with Some c => mem_write m4 (a + 12) (le_bytes 4 c) | None => m4 end) a
    (match ciaddr with Some c => p4 ++ replicate 4 0 ++ le_bytes 4 c | None => p4 end)) as F5.
  { destruct ciaddr as [c|]; [|done]. pose proof (filled_write _ a _ 12 (le_bytes 4 c) F4 ltac:(rewrite L; lia) ltac:(done) (le_bytes_bytes _ _)) as F5.
    rewrite L in F5. exact F5. }
  set (m5 := match ciaddr with Some _ => _ | None => _ end) in *. set (p5 := match ciaddr with Some _ => _ | None => _ end) in F5.
  assert ((length p5 <= 16)%nat) as L5 by (unfold p5; destruct ciaddr; rewrite ?length_app, ?length_replicate, ?L4, L; lia).
  pose proof (filled_write _ a _ 28 (if_hwaddr n) F5 ltac:(lia) ltac:(rewrite Hh; done) Bh) as F6.
  assert (p5 ++ replicate (Z.to_nat 28 - length p5) 0 ++ if_hwaddr n = p4 ++ replicate 4 0 ++ le_bytes 4 (default 0 ciaddr) ++ replicate 12 0 ++ if_hwaddr n) as E6.
  { unfold p5. destruct ciaddr as [c|]; cbn [default]; [|rewrite L; by rewrite <- ?app_assoc].
    rewrite !length_app, length_replicate, L4, L. by rewrite <- !app_assoc. }
  rewrite E6 in F6. set (p6 := p4 ++ _) in F6. assert (length p6 = 34%nat) as L6 by (unfold p6; rewrite !length_app, !length_replicate, L4, Hh, L; done).
  pose proof (filled_write _ a _ 236 (le_bytes 4 (lwip_htonl DHCP_MAGIC_COOKIE)) F6 ltac:(rewrite L6; lia) ltac:(done) (le_bytes_bytes _ _)) as F7.
  rewrite L6 in F7. unfold msg_header. replace (le_bytes 4 (lwip_htonl DHCP_MAGIC_COOKIE)) with [99; 130; 83; 99] in F7 by reflexivity.
  unfold p6, p4 in F7. rewrite <- !app_assoc in F7. exact F7.
Qed.
