(* ===== verification/DhcpSend.v ===== *)
(** * DHCP messages: from dhcp_create_msg to the wire

    Every message is built in a new pbuf, fits in it, and is freed after it was
    sent; a broadcast is exactly one frame. *)
From S2P Require Import Prelude NetShim Ip4Addr Link Etharp EtharpInv Checksum Pbuf PbufChain PbufOps PbufClone NetGlue Ethernet EthernetInv EthernetRx Ip4 Icmp Ip4Input Ip4Inv IcmpInv Ip4Hdr Ip4Send Udp UdpInv UdpSend Netif NetifInv DhcpParse DhcpOptions Dhcp DhcpMsg.

(** A whole message: the fixed part, the message type, the options [l], the end
    mark and padding. *)
Definition dhcp_msg (n : nif) (xid ciaddr message_type : Z) (l : list item) : list Z :=
  let opts := encode (Opt DHCP_OPTION_MESSAGE_TYPE [message_type] :: l) ++ [DHCP_OPTION_END] in
  msg_header n xid ciaddr ++ opts ++ replicate (68 - length opts) 0.

Section Send.
Context {Fr : Frame}.
Variable custom_free : Z -> pheap -> res pheap.
Variable malloc : nat -> gmap Z pbuf -> Z.
Context (Hmalloc : malloc_ok malloc).
Variable bmos : netif.
Context (Hbmos : nif_hwaddr_len bmos = ETH_HWADDR_LEN).
#[local] Instance dsend_ops : LinkOps nic := nic_link custom_free malloc bmos.
#[local] Instance dsend_laws : LinkLaws nic := nic_laws custom_free malloc Hmalloc bmos Hbmos.
Variable known : Z -> Prop.
Context (known_null : ~ known 0).
Abbreviation ok x st := (arp_ok known x (ip_arp st)).
Variable ip4_frag : netifs -> Z -> Z -> Z -> ipst -> res (Z * ipst).
Context (Hfrag : forall nf, netifs_ok known nf -> frag_ok custom_free malloc Hmalloc bmos Hbmos known nf (ip4_frag nf)).
Context {T : Type}.
Variable rand : nat -> Z.
Implicit Types s : dst T.

(** What a step leaves of the frames and of the ARP table. *)
Definition same_net (i i' : ipst) : Prop :=
  nic_tx (lk (ip_arp i')) = nic_tx (lk (ip_arp i)) /\ arp_table (ip_arp i') = arp_table (ip_arp i) /\ ip_id i' = ip_id i.

Lemma ip_alloc_net layer len i q i' : ip_alloc custom_free malloc layer len i = Ret (q, i') -> same_net i i'.
Proof.
  unfold ip_alloc, with_malloc. intros ([p w] & E & E')%res_bind_Ret. injection E' as <- <-.
  apply res_bind_Ret in E as ([[a l] h] & _ & E). injection E as <- <-. by split.
Qed.

(** The address of the client in a message. *)
Definition msg_ciaddr (message_type : Z) (d : dhcp) (n : nif) : Z := if has_ciaddr message_type d then if_ip n else 0.

Lemma with_xid_stack message_type d s : dk (with_xid rand message_type d s).2 = dk s.
Proof. unfold with_xid. destruct (_ || _); [|done]. by destruct (_ =? 0). Qed.
Lemma with_xid_ip message_type d i s :
  with_xid rand message_type d (set_s_ip i s) = ((with_xid rand message_type d s).1, set_s_ip i (with_xid rand message_type d s).2).
Proof. unfold with_xid. destruct (_ || _); [|done]. by destruct (_ =? 0). Qed.

(** The pbuf of a message, from the time it is allocated. *)
Lemma message_sendable (h : pheap) q b m : new_pbuf q PBUF_TRANSPORT SIZEOF_DHCP_MSG b ->
  sendable (set_pmem m (pset q b h)) q b [] 42.
Proof.
  intros [N1 N2 N3 N4 N5 N6 N7]. unfold PBUF_TRANSPORT, SIZEOF_DHCP_MSG in *. change (DHCP_OPTIONS_OFS + DHCP_OPTIONS_LEN) with 308 in *.
  split; try done; try lia.
  - cbn. rewrite lookup_insert_eq, N2. unfold NULL. by split_and!; try lia.
  - cbn. rewrite N3, N4. by split_and!; lia.
  - cbn. rewrite N3. unfold addr_ok. by split_and!; try lia.
  - by apply Forall_nil_2.
  - by rewrite N7.
Qed.

Section Steps.
Variable netif : Z.
Variable n : nif.
Variable s : dst T.
Context (Hnf : netifs_ok known (k_nf (dk s))) (Hn : nf_at (k_nf (dk s)) netif = Some n) (Hnif : nif_ok n).

Lemma message_steps d message_type opts l send x :
  ok x (s_ip s) -> is_byte message_type -> appends (opts n) (encode l) -> (length (encode l) <= 64)%nat ->
  let run := dhcp_message custom_free malloc rand netif d message_type opts send s in
  let d' := (with_xid rand message_type d s).1 in
  let s' := (with_xid rand message_type d s).2 in
  (exists i, ip_alloc custom_free malloc PBUF_TRANSPORT SIZEOF_DHCP_MSG (s_ip s) = Ret (NULL, i) /\ ok x i /\ same_net (s_ip s) i /\ run = Ret (ERR_MEM, d, set_s_ip i s)) \/
  (exists p b i, ok (p :: x) i /\ same_net (s_ip s) i /\ sendable (ip_heap i) p b [] 42 /\ p_tot_len b = SIZEOF_DHCP_MSG /\
    chain_data (pmem (ip_heap i)) [(p, b)] = dhcp_msg n (d_xid d') (msg_ciaddr message_type d' n) message_type l /\
    run = let* (result, i, u) := send p (k_nf (dk s)) i (k_udp (dk s)) in
          let* i := ip_free custom_free p i in Ret (result, d', set_s_udp u (set_s_ip i s'))).
Proof.
  intros H Bt Ho Hl run d' s'. destruct (no_nif _ _ Hnf _ _ Hn) as (Hk & N1 & N2). assert (netif <> NULL) as Hni by (intros ->; by apply known_null).
  unfold run, dhcp_message, dhcp_create_msg. rewrite (proj2 (Z.eqb_neq _ _) Hni).
  destruct (ip_alloc_spec custom_free malloc Hmalloc bmos Hbmos known PBUF_TRANSPORT SIZEOF_DHCP_MSG x (s_ip s) H) as (q & i & Ea & _ & Hq); [done..|].
  pose proof (ip_alloc_net _ _ _ _ _ Ea) as Hsame. rewrite Ea. cbn [res_bind]. destruct Hq as [[-> Hi]|(Hq & Hi & b & Eh & _ & Hb)].
  { left. exists i. by split_and!. }
  clear Ea.
  right. exists q, b. rewrite (proj2 (Z.eqb_neq _ _) Hq). assert (pget (ip_heap i) q = Ret b) as Hg by (rewrite Eh; by apply pget_pset).
  rewrite Hg. cbn [res_bind]. rewrite Z.geb_leb, (proj2 (Z.leb_le _ _)) by (rewrite (nb_len _ _ _ _ Hb); lia). cbn [lwip_assert].
  rewrite with_xid_ip. fold d' s'.
  assert (dk s' = dk s) as Ek by apply with_xid_stack.
  assert (kget (dk (set_s_ip i s')) netif = Ret n) as En by (unfold kget; cbn; by rewrite Ek, Hn). rewrite En. cbn [res_bind].
  pose proof (nb_payload _ _ _ _ Hb) as Hpl. pose proof (nb_addr _ _ _ _ Hb) as Hadr. unfold PBUF_TRANSPORT in Hpl.
  assert (addr_ok (payload b) SIZEOF_DHCP_MSG) as Ha by (unfold addr_ok, SIZEOF_DHCP_MSG; change (DHCP_OPTIONS_OFS + DHCP_OPTIONS_LEN) with 308; lia).
  destruct (write_msg_filled (pmem (ip_heap i)) (payload b) n (d_xid d') (if has_ciaddr message_type d' then Some (if_ip n) else None) Ha) as [F0 L0];
    [by apply (ok_mem_ok custom_free malloc Hmalloc bmos Hbmos known i (q :: x))|done..|apply Hnif|].
  assert (default 0 (if has_ciaddr message_type d' then Some (if_ip n) else None) = msg_ciaddr message_type d' n) as Eci by (unfold msg_ciaddr; by destruct (has_ciaddr _ _)).
  rewrite Eci in F0, L0. set (hd := msg_header n (d_xid d') (msg_ciaddr message_type d' n)) in *. set (m0 := write_msg _ _ _ _ _) in *.
  destruct (appends_option DHCP_OPTION_MESSAGE_TYPE [message_type] _ ltac:(done) ltac:(done) (appends_byte message_type Bt) m0 (payload b) hd 0 F0) as (m1 & E1 & F1); [lia|done..|].
  change (Z.of_nat (length [message_type])) with DHCP_OPTION_MESSAGE_TYPE_LEN in E1. destruct (dhcp_option 0 _ _ _ m0) as [[len0 m0']| |]; try discriminate E1.
  cbn [res_bind] in E1 |- *. rewrite E1. cbn [res_bind]. clear E1 m0'. rewrite (proj2 (Z.eqb_neq _ _) Hq).
  change (pget (ip_heap (s_ip (set_s_ip (set_ip_mem m1 i) (set_s_ip i s')))) q) with (pget (ip_heap i) q). rewrite Hg. cbn [res_bind].
  change (kget (dk (set_s_ip (set_ip_mem m1 i) (set_s_ip i s'))) netif) with (kget (dk (set_s_ip i s')) netif). rewrite En. cbn [res_bind].
  change (pmem (ip_heap (s_ip (set_s_ip (set_ip_mem m1 i) (set_s_ip i s'))))) with m1.
  set (o1 := encode_item _) in *. assert (length o1 = 3%nat) as L1 by done. rewrite L1. change (0 + Z.of_nat 3) with 3.
  destruct (Ho m1 (payload b) (hd ++ o1) 3 F1) as (m2 & -> & F2); [rewrite length_app, L1; lia|lia|unfold DHCP_OPTIONS_LEN, DHCP_MIN_OPTIONS_LEN; lia|]. cbn [res_bind].
  assert (Z.of_nat (length (hd ++ o1 ++ encode l)) = DHCP_OPTIONS_OFS + (3 + Z.of_nat (length (encode l)))) as L2 by (rewrite !length_app, L1; lia).
  rewrite <- app_assoc in F2. change (set_ip_mem m2 _) with (set_ip_mem m2 i).
  destruct (trailer_spec custom_free i q b m2 _ _ Hq Hg (nb_tot _ _ _ _ Hb) F2 L2) as (m4 & -> & Bm4 & F4); [unfold DHCP_OPTIONS_LEN, DHCP_MIN_OPTIONS_LEN; lia|].
  cbn [res_bind]. set (i4 := set_ip_mem m4 i). exists i4. split_and!.
  - by apply ok_mem.
  - exact Hsame.
  - unfold i4. change (ip_heap (set_ip_mem m4 i)) with (set_pmem m4 (ip_heap i)). rewrite Eh. by apply message_sendable.
  - apply Hb.
  - change (pmem (ip_heap i4)) with m4. rewrite chain_data_cons, (nb_len _ _ _ _ Hb). change (chain_data m4 []) with (@nil Z). rewrite app_nil_r, F4.
    unfold dhcp_msg. fold hd. change (encode (Opt DHCP_OPTION_MESSAGE_TYPE [message_type] :: l)) with (o1 ++ encode l).
    assert (length hd = 240%nat) as Lh by (apply Nat2Z.inj; rewrite L0; done). rewrite <- !app_assoc. do 4 f_equal. rewrite !length_app, Lh, L1. cbn [length]. f_equal. lia.
  - assert (k_nf (dk (set_s_ip (set_ip_mem m1 i) (set_s_ip i s'))) = k_nf (dk s)) as -> by (cbn; by rewrite Ek).
    assert (k_udp (dk (set_s_ip (set_ip_mem m1 i) (set_s_ip i s'))) = k_udp (dk s)) as -> by (cbn; by rewrite Ek). done.
Qed.
End Steps.

(** ** Sending is safe *)
Definition safe_send (nf : netifs) (pcb : Z) (send : Z -> netifs -> ipst -> udp -> res (Z * ipst * udp)) : Prop :=
  forall p b x i u, udp_ok u -> is_Some (u_pcbs u !! pcb) -> ok (p :: x) i -> pget (ip_heap i) p = Ret b -> p_ref b = 1 ->
  headroom p 8 b -> 8 <= payload b -> p_tot_len b + 8 < 65536 ->
  exists err i' u', send p nf i u = Ret (err, i', u') /\ udp_ok u' /\ is_Some (u_pcbs u' !! pcb) /\ ok (p :: x) i'.

Lemma broadcast_any_safe nf pcb netif n : netifs_ok known nf -> nf_at nf netif = Some n -> safe_send nf pcb (broadcast_any custom_free malloc bmos ip4_frag pcb netif).
Proof.
  intros Hnf Hn p b x i u Hu [c Hc] H Hg Hr Hh Ha Ht. unfold broadcast_any.
  by eapply (sendto_if_src_safe custom_free malloc Hmalloc bmos Hbmos known known_null nf Hnf (ip4_frag nf) (Hfrag nf Hnf)).
Qed.
Lemma send_to_safe nf pcb netif n dst_ip : netifs_ok known nf -> nf_at nf netif = Some n -> nif_ok n -> 0 <= dst_ip < 4294967296 ->
  safe_send nf pcb (send_to custom_free malloc bmos ip4_frag pcb netif dst_ip).
Proof.
  intros Hnf Hn Ho Hd p b x i u Hu [c Hc] H Hg Hr Hh Ha Ht. unfold send_to.
  eapply (sendto_if_safe custom_free malloc Hmalloc bmos Hbmos known known_null nf Hnf (ip4_frag nf) (Hfrag nf Hnf)); try done. apply Ho.
Qed.

(** The part of the state that the client does not own is in order. *)
Record net_ok (x : list Z) (s : dst T) : Prop := {
  dn_netifs : netifs_ok known (k_nf (dk s));
  dn_nif : forall a n, nf_at (k_nf (dk s)) a = Some n -> nif_ok n;
  dn_ip : ok x (s_ip s);
  dn_udp : udp_ok (k_udp (dk s));
  dn_xid : 0 <= dhcp_xid s < 4294967296;
  dn_rx : rx_ok (dhcp_rx s);
}.
Definition pcb_live (s : dst T) : Prop := is_Some (u_pcbs (k_udp (dk s)) !! dhcp_pcb s).
(** Only packets, UDP blocks and the generator of identifiers have changed. *)
Record only_net (s s' : dst T) : Prop := {
  on_nf : k_nf (dk s') = k_nf (dk s);
  on_client : k_client (dk s') = k_client (dk s);
  on_tcp : k_tcp (dk s') = k_tcp (dk s);
  on_pcb : dhcp_pcb s' = dhcp_pcb s;
  on_refcount : dhcp_pcb_refcount s' = dhcp_pcb_refcount s;
  on_rx : dhcp_rx s' = dhcp_rx s;
}.

Lemma with_xid_same message_type d s : (forall x, net_ok x s -> net_ok x (with_xid rand message_type d s).2) /\ only_net s (with_xid rand message_type d s).2.
Proof.
  unfold with_xid. destruct (_ || _); cbn; [|by split; [|split]]. destruct (_ =? 0); [|by split; [|split]].
  split; [|done]. intros x [N1 N2 N3 N4 N5 N6]. split; try done. apply u32_range.
Qed.
Lemma with_xid_d message_type d s x : net_ok x s -> 0 <= d_xid d < 4294967296 ->
  exists y, (with_xid rand message_type d s).1 = set_d_xid y d /\ 0 <= y < 4294967296.
Proof.
  intros Hs Hx. unfold with_xid. destruct (_ || _); cbn; [|exists (d_xid d); by destruct d].
  eexists. split; [reflexivity|]. destruct (_ =? 0); [apply u32_range|apply Hs].
Qed.

Lemma message_safe netif n s d message_type opts l send x :
  net_ok x s -> pcb_live s -> nf_at (k_nf (dk s)) netif = Some n -> safe_send (k_nf (dk s)) (dhcp_pcb s) send ->
  is_byte message_type -> appends (opts n) (encode l) -> (length (encode l) <= 64)%nat -> 0 <= d_xid d < 4294967296 ->
  exists err y s', dhcp_message custom_free malloc rand netif d message_type opts send s = Ret (err, set_d_xid y d, s') /\
    0 <= y < 4294967296 /\ net_ok x s' /\ pcb_live s' /\ only_net s s'.
Proof.
  intros Hs Hp Hn Hsend Bt Ho Hl Hx. pose proof Hs as [N1 N2 N3 N4 N5 N6].
  destruct (message_steps netif n s N1 Hn (N2 _ _ Hn) d message_type opts l send x N3 Bt Ho Hl) as [(i & _ & Hi & _ & ->)|(p & b & i & Hi & _ & Hsd & Et & _ & ->)].
  - exists ERR_MEM, (d_xid d), (set_s_ip i s). split; [by destruct d|]. split; [done|]. split; [by split|]. by split; [|split].
  - pose proof (sendable_pget _ _ _ _ _ Hsd) as Hg. pose proof (sd_payloads _ _ _ _ _ Hsd) as (P1 & _). cbn [snd] in P1. unfold addr_ok in P1.
    pose proof (sd_room _ _ _ _ _ Hsd). pose proof (sd_addr _ _ _ _ _ Hsd). assert (0 <= p_len b) by apply (sd_wf _ _ _ _ _ Hsd).
    destruct (Hsend p b x i (k_udp (dk s)) N4 Hp Hi Hg (sd_ref _ _ _ _ _ Hsd)) as (err & i1 & u1 & -> & Hu1 & Hp1 & Hi1).
    + unfold headroom. split; [apply Hsd|lia].
    + lia.
    + rewrite Et. done.
    + cbn [res_bind]. destruct (ip_free_spec custom_free malloc Hmalloc bmos Hbmos known i1 p x Hi1) as (i2 & -> & Hi2 & _). cbn [res_bind].
      destruct (with_xid_d message_type d s x Hs Hx) as (y & -> & Hy). destruct (with_xid_same message_type d s) as [Hw1 [O1 O2 O3 O4 O5 O6]].
      specialize (Hw1 x Hs) as [M1 M2 M3 M4 M5 M6]. exists err, y, (set_s_udp u1 (set_s_ip i2 (with_xid rand message_type d s).2)).
      split; [done|]. split; [done|]. split; [by split|]. split; [unfold pcb_live; cbn; by rewrite O4|by split].
Qed.

(** ** A broadcast is one frame *)
Definition broadcast_frame (n : nif) (i : ipst) (c : udp_pcb) (msg : list Z) : list Z :=
  let hdr := iphdr (Z.of_nat (length msg) + 28) (ip_id i) IPADDR_ANY IPADDR_BROADCAST (u_ttl c) (u_tos c) IP_PROTO_UDP in
  frame_of n ethbroadcast (hdr (rfc1071 (hdr 0)) ++ datagram_of c IPADDR_ANY IPADDR_BROADCAST LWIP_IANA_PORT_DHCP_SERVER msg).

Lemma message_frame netif n s c d message_type opts l x :
  net_ok x s -> u_pcbs (k_udp (dk s)) !! dhcp_pcb s = Some c -> u_local_port c <> 0 -> nf_at (k_nf (dk s)) netif = Some n -> 336 <= if_mtu n -> 0 <= ip_id (s_ip s) < 65536 ->
  is_byte message_type -> appends (opts n) (encode l) -> (length (encode l) <= 64)%nat ->
  let d' := (with_xid rand message_type d s).1 in
  exists s', (dhcp_message custom_free malloc rand netif d message_type opts (broadcast_any custom_free malloc bmos ip4_frag (dhcp_pcb s) netif) s = Ret (ERR_MEM, d, s') /\
      (exists i, ip_alloc custom_free malloc PBUF_TRANSPORT SIZEOF_DHCP_MSG (s_ip s) = Ret (NULL, i)) /\ nic_tx (lk (ip_arp (s_ip s'))) = nic_tx (lk (ip_arp (s_ip s)))) \/
    (dhcp_message custom_free malloc rand netif d message_type opts (broadcast_any custom_free malloc bmos ip4_frag (dhcp_pcb s) netif) s = Ret (ERR_OK, d', s') /\
      nic_tx (lk (ip_arp (s_ip s'))) = nic_tx (lk (ip_arp (s_ip s))) ++
        [broadcast_frame n (s_ip s) c (dhcp_msg n (d_xid d') (msg_ciaddr message_type d' n) message_type l)]).
Proof.
  intros [N1 N2 N3 N4 N5 N6] Hc Hport Hn Hmtu Hid Bt Ho Hl d'. pose proof (N2 _ _ Hn) as Hnif.
  destruct (message_steps netif n s N1 Hn Hnif d message_type opts l (broadcast_any custom_free malloc bmos ip4_frag (dhcp_pcb s) netif) x N3 Bt Ho Hl)
    as [(i & Ea & Hi & [S1 _] & ->)|(p & b & i & Hi & (S1 & S2 & S3) & Hsd & Et & Ed & ->)].
  { exists (set_s_ip i s). left. split; [done|]. split; [by exists i|done]. }
  unfold broadcast_any.
  destruct (sendto_if_src_frame custom_free malloc Hmalloc bmos Hbmos known known_null (k_nf (dk s)) N1 (ip4_frag (k_nf (dk s))) (Hfrag _ N1)
    (dhcp_pcb s) p IPADDR_BROADCAST LWIP_IANA_PORT_DHCP_SERVER netif IPADDR_ANY n c b [] ethbroadcast x i (k_udp (dk s)) N4 Hc Hn Hi Hsd) as (err & i1 & u1 & -> & Hu1 & Hsent);
    try done; try (rewrite Et; unfold SIZEOF_DHCP_MSG; change (DHCP_OPTIONS_OFS + DHCP_OPTIONS_LEN) with 308; lia); [apply Hnif|by apply hop_broadcast|by rewrite S3|].
  destruct Hsent as [c1 Hhp Hc1 -> Hi1 _ _ Htx|Hhp _ _]; [|by destruct Hhp as [? E|_ E]; [|]]. cbn [res_bind].
  destruct (ip_free_spec custom_free malloc Hmalloc bmos Hbmos known i1 p x Hi1) as (i2 & -> & _ & _ & _ & _ & _ & Etx). cbn [res_bind].
  eexists. right. split; [reflexivity|]. cbn [s_ip set_s_udp set_dk dk set_k_udp set_s_ip set_k_ip k_ip]. rewrite Etx. cbv zeta in Htx. rewrite Htx, S1, S3, Ed.
  assert (c1 = c) as ->; [|done]. destruct Hhp as [c2 _ Hc2 _ _ [[_ ->]|[? _]]|E _ _ _ _]; [congruence|done|discriminate E].
Qed.
End Send.
