(* ===== verification/DhcpInv.v ===== *)
(** * The DHCP client: its invariant, and what each operation does to a client *)
From S2P Require Import Prelude NetShim Ip4Addr Link Etharp EtharpInv Pbuf PbufChain PbufOps NetGlue Ethernet EthernetInv EthernetRx Ip4 Icmp Ip4Input Ip4Inv IcmpInv Ip4Hdr Ip4Send Udp UdpInv UdpSend Netif NetifInv DhcpParse DhcpOptions Dhcp DhcpMsg DhcpSend.

(** ** Types: every member is in the range of its C type *)
Definition is_u16 (v : Z) : Prop := 0 <= v < 65536.
Definition is_u32 (v : Z) : Prop := 0 <= v < 4294967296.
Record client_ok (d : dhcp) : Prop := {
  co_xid : is_u32 (d_xid d);
  co_tries : is_byte (d_tries d);
  co_flags : is_byte (d_flags d);
  co_request : is_u16 (d_request_timeout d);
  co_t1 : is_u16 (d_t1_timeout d);
  co_t2 : is_u16 (d_t2_timeout d);
  co_renew : is_u16 (d_t1_renew_time d);
  co_rebind : is_u16 (d_t2_rebind_time d);
  co_used : is_u16 (d_lease_used d);
  co_t0 : is_u16 (d_t0_timeout d);
  co_server : is_u32 (d_server_ip_addr d);
  co_ip : is_u32 (d_offered_ip_addr d);
  co_sn : is_u32 (d_offered_sn_mask d);
  co_gw : is_u32 (d_offered_gw_addr d);
  co_lease : is_u32 (d_offered_t0_lease d);
  co_off1 : is_u32 (d_offered_t1_renew d);
  co_off2 : is_u32 (d_offered_t2_rebind d);
}.
(** For a client that differs in members that are in range by hypothesis. *)
Ltac client := match goal with H : client_ok _ |- client_ok _ => destruct H; split; cbn; try assumption; unfold IPADDR_ANY, is_u16, is_u32, is_byte in *; try lia end.

Lemma zero_client : client_ok zero_dhcp.
Proof. split; cbn; unfold is_u16, is_u32, is_byte; lia. Qed.
Lemma set_state_ok st d : client_ok d -> client_ok (dhcp_set_state st d).
Proof. intros H. unfold dhcp_set_state. destruct (decide _); [done|client]. Qed.
Lemma set_state_state st d : d_state (dhcp_set_state st d) = st.
Proof. unfold dhcp_set_state. by destruct (decide _) as [->|]. Qed.
Lemma set_state_pcb st d : d_pcb_allocated (dhcp_set_state st d) = d_pcb_allocated d.
Proof. unfold dhcp_set_state. by destruct (decide _). Qed.
Lemma set_state_server st d : d_server_ip_addr (dhcp_set_state st d) = d_server_ip_addr d.
Proof. unfold dhcp_set_state. by destruct (decide _). Qed.
Lemma set_state_offered st d : d_offered_ip_addr (dhcp_set_state st d) = d_offered_ip_addr d.
Proof. unfold dhcp_set_state. by destruct (decide _). Qed.
(** How much of the lease is over, and how long it is (0: for ever). *)
Definition d_lease (d : dhcp) : Z * Z := (d_lease_used d, d_t0_timeout d).
Lemma set_state_lease st d : d_lease (dhcp_set_state st d) = d_lease d.
Proof. unfold dhcp_set_state. by destruct (decide _). Qed.
Lemma set_xid_ok y d : client_ok d -> is_u32 y -> client_ok (set_d_xid y d).
Proof. intros H Hy. client. Qed.

(** The times between requests are positive and have 16 bits. *)
Definition backoff_ok (msecs : Z -> Z) : Prop := forall t, 1 <= t <= 255 -> 0 < msecs t < 65536.
Lemma retry_spec msecs d : backoff_ok msecs -> client_ok d ->
  client_ok (dhcp_retry msecs d) /\ 0 < d_request_timeout (dhcp_retry msecs d) /\ d_state (dhcp_retry msecs d) = d_state d /\
  d_pcb_allocated (dhcp_retry msecs d) = d_pcb_allocated d.
Proof.
  intros Hm H. pose proof (co_tries _ H) as Ht. unfold is_byte in Ht. unfold dhcp_retry. set (t := if _ <? 255 then _ else _).
  assert (1 <= t <= 255) as Rt by (unfold t; destruct (Z.ltb_spec (d_tries d) 255); lia). specialize (Hm t Rt). clearbody t.
  change DHCP_FINE_TIMER_MSECS with 500. assert (0 < (msecs t + 500 - 1) / 500 <= 132) as Hd by zdiv. rewrite u16_small by lia.
  split; [client|]. cbn. by split; [lia|].
Qed.
Lemma backoff_sequence : backoff_ok DHCP_REQUEST_BACKOFF_SEQUENCE.
Proof.
  intros t Ht. unfold DHCP_REQUEST_BACKOFF_SEQUENCE. destruct (Z.ltb_spec t 6); [|by vm_compute].
  assert (t = 1 \/ t = 2 \/ t = 3 \/ t = 4 \/ t = 5) as [-> |[-> |[-> |[-> | ->]]]] by lia; by vm_compute.
Qed.
Lemma backoff_linear step : 1000 <= step <= 2000 -> backoff_ok (fun tries => u16 (if tries <? 10 then tries * step else 10 * step)).
Proof.
  intros Hs t Ht. destruct (Z.ltb_spec t 10) as [Hlt|]; [|rewrite u16_small by lia; lia].
  assert (1000 <= t * step <= 18000) as Hb by nia. rewrite u16_small by lia. lia.
Qed.

Lemma htonl_range v : is_u32 v -> is_u32 (lwip_htonl v).
Proof.
  intros Hv. pose proof (le_bytes_bytes 4 v) as Hb. rewrite <- (le_val_le_bytes 4 v Hv). pose proof (length_le_bytes 4 v) as El.
  destruct (le_bytes 4 v) as [|a [|b [|c [|e [|]]]]]; try discriminate El. repeat (apply Forall_cons in Hb as [? Hb]). cbn [le_val].
  replace (a + 256 * (b + 256 * (c + 256 * (e + 256 * 0)))) with (a + 256 * b + 65536 * c + 16777216 * e) by lia.
  rewrite htonl_bytes by done. unfold is_byte, is_u32 in *. lia.
Qed.

(** ** The timers of a lease *)
Lemma timeout_u16 offered min max : 0 <= max < 65536 -> is_u16 (SET_TIMEOUT_FROM_OFFERED offered min max).
Proof. intros _. apply u16_range. Qed.
Lemma timeout_pos offered : is_u32 offered -> 1 <= SET_TIMEOUT_FROM_OFFERED offered 0 0xffff <= 65535.
Proof.
  intros Ho. unfold SET_TIMEOUT_FROM_OFFERED. change DHCP_COARSE_TIMER_SECS with 60. set (t := u32 _ / 60).
  assert (0 <= t) as Ht by (unfold t; pose proof (u32_range (offered + 60 / 2)); apply Z.div_pos; lia). clearbody t. rewrite Z.gtb_ltb.
  destruct (Z.ltb_spec 65535 t); [by vm_compute|]. destruct (Z.eqb_spec t 0); rewrite u16_small by lia; lia.
Qed.
Lemma handle_ack_ok rx yiaddr d : rx_ok rx -> is_u32 yiaddr -> client_ok d -> client_ok (dhcp_handle_ack rx yiaddr d).
Proof.
  intros Hrx Hy H. assert (forall idx, is_u32 (dhcp_get_option_value rx idx)) as Hv by (intros; by apply rx_at_range).
  assert (forall idx, is_u32 (lwip_htonl (dhcp_get_option_value rx idx))) as Hh by (intros; by apply htonl_range, rx_at_range).
  pose proof (co_lease _ H) as Hl. pose proof (co_flags _ H) as Hf. unfold dhcp_handle_ack.
  set (t0 := if dhcp_option_given rx DHCP_OPTION_IDX_LEASE_TIME then _ else _). assert (is_u32 t0) as H0 by (unfold t0; by destruct (dhcp_option_given _ _)).
  clearbody t0. set (t1 := if dhcp_option_given rx DHCP_OPTION_IDX_T1 then _ else _).
  assert (is_u32 t1) as H1 by (unfold t1; destruct (dhcp_option_given _ _); [apply Hv|]; unfold is_u32 in *; split; [apply Z.div_pos; lia|apply Z.div_lt_upper_bound; lia]).
  clearbody t1. set (t2 := if dhcp_option_given rx DHCP_OPTION_IDX_T2 then _ else _).
  assert (is_u32 t2) as H2 by (unfold t2; destruct (dhcp_option_given _ _); [apply Hv|]; pose proof (u32_range (t0 * 7)); unfold is_u32 in *; split; [apply Z.div_pos; lia|apply Z.div_lt_upper_bound; lia]).
  clearbody t2. set (fl := if dhcp_option_given rx DHCP_OPTION_IDX_SUBNET_MASK then u8 (Z.lor _ _) else _).
  assert (is_byte fl) as H3 by (unfold fl; destruct (dhcp_option_given _ _); apply u8_is_byte).
  clearbody fl. set (sn := if dhcp_option_given rx DHCP_OPTION_IDX_SUBNET_MASK then _ else 0). assert (is_u32 sn) as H4 by (unfold sn; by destruct (dhcp_option_given _ _)).
  clearbody sn. set (gw := if dhcp_option_given rx DHCP_OPTION_IDX_ROUTER then _ else 0). assert (is_u32 gw) as H5 by (unfold gw; by destruct (dhcp_option_given _ _)).
  clearbody gw. client.
Qed.
Lemma bind_timers_ok d : client_ok d -> client_ok (bind_timers d).
Proof.
  intros H. assert (forall o, is_u16 (SET_TIMEOUT_FROM_OFFERED o 0 0xffff)) as Hs by (intros; apply u16_range). unfold bind_timers.
  set (d1 := set_d_lease 0 _ d). assert (client_ok d1) as H1 by (unfold d1; client). clearbody d1.
  set (d2 := if negb (d_offered_t0_lease d1 =? _) then _ else d1). assert (client_ok d2) as H2.
  { unfold d2. destruct (negb _); [|done]. specialize (Hs (d_offered_t0_lease d1)). client. }
  clearbody d2. set (d3 := if negb (d_offered_t1_renew d2 =? _) then _ else d2). assert (client_ok d3) as H3.
  { unfold d3. destruct (negb _); [|done]. specialize (Hs (d_offered_t1_renew d2)). clear H1. client. }
  clearbody d3. set (d4 := if negb (d_offered_t2_rebind d3 =? _) then _ else d3). assert (client_ok d4) as H4.
  { unfold d4. destruct (negb _); [|done]. specialize (Hs (d_offered_t2_rebind d3)). clear H1 H2. client. }
  clearbody d4. destruct (_ && _); [|done]. clear H1 H2 H3 H. client.
Qed.
Lemma bind_mask_range d : client_ok d -> is_u32 (bind_mask d).
Proof. intros H. unfold bind_mask. destruct (has_flag _ _); [apply H|]. destruct (_ <=? 127); [done|]. by destruct (_ >=? 192). Qed.
