(* ===== verification/DhcpOps.v ===== *)
(** * The DHCP client: operations on one client

    For every function that acts on the client of an interface: it returns, the
    stack is in order again, and what became of the client. *)
From S2P Require Import Prelude NetShim Ip4Addr Link Etharp EtharpInv Pbuf PbufChain PbufOps NetGlue Ethernet EthernetInv EthernetRx Ip4 Icmp Ip4Input Ip4Inv IcmpInv Ip4Hdr Ip4Send Udp UdpInv UdpSend Netif NetifInv DhcpParse DhcpOptions Dhcp DhcpMsg DhcpSend DhcpInv.

Section Ops.
Context {Fr : Frame}.
Variable custom_free : Z -> pheap -> res pheap.
Variable malloc : nat -> gmap Z pbuf -> Z.
Context (Hmalloc : malloc_ok malloc).
Variable bmos : netif.
Context (Hbmos : nif_hwaddr_len bmos = ETH_HWADDR_LEN).
#[local] Instance dops_ops : LinkOps nic := nic_link custom_free malloc bmos.
#[local] Instance dops_laws : LinkLaws nic := nic_laws custom_free malloc Hmalloc bmos Hbmos.
Variable known : Z -> Prop.
Context (known_null : ~ known 0).
Variable ip4_frag : netifs -> Z -> Z -> Z -> ipst -> res (Z * ipst).
Context (Hfrag : forall nf, netifs_ok known nf -> frag_ok custom_free malloc Hmalloc bmos Hbmos known nf (ip4_frag nf)).
Context {T : Type}.
Variable good : T -> Prop.
Variable tcp_netif_ip_addr_changed : netifs -> Z -> Z -> ipst -> T -> res (ipst * T).
Context (Htcp : tcp_ok custom_free malloc Hmalloc bmos Hbmos known good tcp_netif_ip_addr_changed).
Variable rand : nat -> Z.
Implicit Types s : dst T.
Abbreviation net_ok := (net_ok custom_free malloc Hmalloc bmos Hbmos known).
Abbreviation safe_send := (safe_send custom_free malloc Hmalloc bmos Hbmos known).
Abbreviation discover := (dhcp_discover custom_free malloc bmos ip4_frag rand).
Abbreviation select := (dhcp_select custom_free malloc bmos ip4_frag rand).
Abbreviation renew := (dhcp_renew custom_free malloc bmos ip4_frag rand).
Abbreviation rebind := (dhcp_rebind custom_free malloc bmos ip4_frag rand).
Abbreviation reboot := (dhcp_reboot custom_free malloc bmos ip4_frag rand).
Abbreviation bind := (dhcp_bind custom_free malloc bmos tcp_netif_ip_addr_changed).
Abbreviation set_addr := (netif_set_addr custom_free malloc bmos tcp_netif_ip_addr_changed).

(** A state in which the client can act: the stack is in order. *)
Record ready (x : list Z) s : Prop := {
  rd_net : net_ok x s;
  rd_tcp : good (k_tcp (dk s));
}.
(** [s'] is [s] with the client [d] of [netif]; packets, UDP and TCP, and the
    addresses of this interface may have changed. *)
Record stepped (x : list Z) (netif : Z) (d : dhcp) s s' : Prop := {
  sp_ready : ready x s';
  sp_live : pcb_live s -> pcb_live s';
  sp_client : k_client (dk s') = <[netif := d]> (k_client (dk s));
  sp_list : netif_list (k_nf (dk s')) = netif_list (k_nf (dk s));
  sp_at : forall a, is_Some (nf_at (k_nf (dk s)) a) -> is_Some (nf_at (k_nf (dk s')) a);
  sp_pcb : dhcp_pcb s' = dhcp_pcb s;
  sp_refcount : dhcp_pcb_refcount s' = dhcp_pcb_refcount s;
}.

Lemma dput_ready x netif d s : ready x s -> ready x (dput netif d s).
Proof. intros [[N1 N2 N3 N4 N5 N6] Hg]. by split; [split|]. Qed.
Lemma stepped_dput x netif d s : ready x s -> stepped x netif d s (dput netif d s).
Proof. intros Hr. split; try done. by apply dput_ready. Qed.
Lemma stepped_trans x netif d d' s s1 s2 : stepped x netif d s s1 -> stepped x netif d' s1 s2 -> stepped x netif d' s s2.
Proof.
  intros [A1 A2 A3 A4 A5 A6 A7] [B1 B2 B3 B4 B5 B6 B7]. split; try congruence; [auto| |auto]. rewrite B3, A3. apply insert_insert_eq.
Qed.
Lemma stepped_data x netif d s s' : stepped x netif d s s' -> netif_dhcp_data netif s' = Some d.
Proof. intros S. unfold netif_dhcp_data. rewrite (sp_client _ _ _ _ _ S). apply lookup_insert_eq. Qed.
Lemma stepped_get x netif d s s' : stepped x netif d s s' -> dget netif s' = Ret d.
Proof. intros S. unfold dget. by rewrite (stepped_data _ _ _ _ _ S). Qed.
Lemma only_net_stepped x netif d s s' : ready x s -> net_ok x s' -> pcb_live s' -> only_net s s' -> stepped x netif d s (dput netif d s').
Proof.
  intros [_ Hg] [N1 N2 N3 N4 N5 N6] Hl [O1 O2 O3 O4 O5 O6]. split; try done.
  - split; [by split|]. cbn. by rewrite O3.
  - cbn. by rewrite O2.
  - cbn. by rewrite O1.
  - intros a. cbn. by rewrite O1.
Qed.

(** ** Requests *)

(** What the requests have in common: a message, one more try, a timeout. *)
Lemma request_spec x netif n s d message_type opts l send msecs :
  ready x s -> pcb_live s -> nf_at (k_nf (dk s)) netif = Some n -> safe_send (k_nf (dk s)) (dhcp_pcb s) send ->
  is_byte message_type -> appends (opts n) (encode l) -> (length (encode l) <= 64)%nat -> client_ok d -> backoff_ok msecs ->
  exists err d' s', dhcp_message custom_free malloc rand netif d message_type opts send s = Ret (err, d', s') /\
    let d1 := dhcp_retry msecs d' in
    stepped x netif d1 s (dput netif d1 s') /\ client_ok d1 /\ d_state d1 = d_state d /\ 0 < d_request_timeout d1 /\ d_pcb_allocated d1 = d_pcb_allocated d /\
    k_nf (dk s') = k_nf (dk s) /\ d_server_ip_addr d1 = d_server_ip_addr d /\ d_offered_ip_addr d1 = d_offered_ip_addr d /\
    d_lease d1 = d_lease d.
Proof.
  intros Hr Hl Hn Hsend Bt Ho Hle Hd Hb.
  destruct (message_safe custom_free malloc Hmalloc bmos Hbmos known known_null rand netif n s d message_type opts l send x (rd_net _ _ Hr) Hl Hn Hsend Bt Ho Hle (co_xid _ Hd))
    as (err & y & s1 & E & Hy & Hn1 & Hl1 & Ho1).
  destruct (retry_spec msecs (set_d_xid y d) Hb (set_xid_ok y d Hd Hy)) as (R1 & R2 & R3 & R4).
  exists err, (set_d_xid y d), s1. split; [done|]. split; [by apply only_net_stepped|]. split_and!; try done. apply Ho1.
Qed.

Lemma one_get netif s d : netif_dhcp_data netif s = Some d -> dget netif s = Ret d.
Proof. intros Hd. unfold dget. by rewrite Hd. Qed.
Lemma one_netifs x s : ready x s -> netifs_ok known (k_nf (dk s)).
Proof. intros Hr. apply Hr. Qed.
Lemma one_nif x s netif n : ready x s -> nf_at (k_nf (dk s)) netif = Some n -> nif_ok n.
Proof. intros Hr Hn. by eapply (rd_net _ _ Hr). Qed.
Lemma one_null x s netif n : ready x s -> nf_at (k_nf (dk s)) netif = Some n -> netif <> NULL.
Proof. intros Hr Hn ->. apply known_null. by apply (no_nif _ _ (one_netifs _ _ Hr) _ _ Hn). Qed.

Section One.
Variable x : list Z.
Variable netif : Z.
Variable n : nif.
Variable s : dst T.
Variable d : dhcp.
Context (Hr : ready x s) (Hl : pcb_live s) (Hn : nf_at (k_nf (dk s)) netif = Some n) (Hd : netif_dhcp_data netif s = Some d) (Hok : client_ok d).

(** The result of a request: the state is [st], and the timer runs. *)
Definition requested (st : dhcp_state_enum_t) (run : res (Z * dst T)) : Prop :=
  exists err d' s', run = Ret (err, s') /\ stepped x netif d' s s' /\ client_ok d' /\ d_state d' = st /\ 0 < d_request_timeout d' /\
    d_pcb_allocated d' = d_pcb_allocated d /\ k_nf (dk s') = k_nf (dk s) /\ d_server_ip_addr d' = d_server_ip_addr d /\
    d_offered_ip_addr d' = (if decide (st = DHCP_STATE_SELECTING) then IPADDR_ANY else d_offered_ip_addr d) /\ d_lease d' = d_lease d.

Lemma encode_cons i l : encode (i :: l) = encode_item i ++ encode l.
Proof. done. Qed.
Lemma discover_opts_spec : appends (discover_opts n) (encode [max_size_item (if_mtu n); requests_item]).
Proof.
  rewrite !encode_cons, app_nil_r. apply appends_bind; [by eapply appends_max_size, (one_nif x s)|apply appends_requests].
Qed.
Lemma select_opts_spec d0 : client_ok d0 -> appends (select_opts d0 n)
  (encode [max_size_item (if_mtu n); addr_item DHCP_OPTION_REQUESTED_IP (d_offered_ip_addr d0); addr_item DHCP_OPTION_SERVER_ID (d_server_ip_addr d0); requests_item]).
Proof.
  intros H. rewrite !encode_cons, app_nil_r. apply appends_bind; [by eapply appends_max_size, (one_nif x s)|].
  apply appends_bind; [apply appends_addr; [done|apply H]|]. apply appends_bind; [apply appends_addr; [done|apply H]|apply appends_requests].
Qed.
Lemma reboot_opts_spec d0 : client_ok d0 -> appends (reboot_opts d0 n)
  (encode [max_size_item DHCP_MAX_MSG_LEN_MIN_REQUIRED; addr_item DHCP_OPTION_REQUESTED_IP (d_offered_ip_addr d0); requests_item]).
Proof.
  intros H. rewrite !encode_cons, app_nil_r. apply appends_bind; [by apply appends_max_size|].
  apply appends_bind; [apply appends_addr; [done|apply H]|apply appends_requests].
Qed.
Lemma release_opts_spec server : is_u32 server -> appends (release_opts server n) (encode [addr_item DHCP_OPTION_SERVER_ID server]).
Proof. intros H. rewrite !encode_cons, app_nil_r. by apply appends_addr. Qed.
Lemma inform_opts_spec : appends (inform_opts n) (encode [max_size_item (if_mtu n)]).
Proof. rewrite !encode_cons, app_nil_r. by eapply appends_max_size, (one_nif x s). Qed.

Abbreviation bcast_safe := (broadcast_any_safe custom_free malloc Hmalloc bmos Hbmos known known_null ip4_frag Hfrag (k_nf (dk s)) (dhcp_pcb s) netif n (one_netifs x s Hr) Hn).
Abbreviation to_safe dst := (send_to_safe custom_free malloc Hmalloc bmos Hbmos known known_null ip4_frag Hfrag (k_nf (dk s)) (dhcp_pcb s) netif n dst (one_netifs x s Hr) Hn (one_nif x s netif n Hr Hn)).

Lemma discover_spec : requested DHCP_STATE_SELECTING (discover netif s).
Proof.
  unfold dhcp_discover. rewrite (one_get _ _ _ Hd). cbn [res_bind]. set (d0 := set_d_addrs _ _ _ _ d). assert (client_ok d0) as H0 by (unfold d0; client).
  destruct (request_spec x netif n s (dhcp_set_state DHCP_STATE_SELECTING d0) DHCP_DISCOVER _ _ _ _ Hr Hl Hn bcast_safe ltac:(done) discover_opts_spec ltac:(cbn; lia)
    (set_state_ok _ _ H0) backoff_sequence) as (err & d' & s' & -> & S & C1 & C2 & C3 & C4 & C5 & C6 & C7 & C8). cbn [res_bind].
  rewrite set_state_state in C2. rewrite set_state_pcb in C4. rewrite set_state_server in C6. rewrite set_state_offered in C7. rewrite set_state_lease in C8. by eexists _, _, _.
Qed.
Lemma select_spec : requested DHCP_STATE_REQUESTING (select netif s).
Proof.
  unfold dhcp_select. rewrite (proj2 (Z.eqb_neq _ _) (one_null _ _ _ _ Hr Hn)), Hd.
  pose proof (set_state_ok DHCP_STATE_REQUESTING d Hok) as H0.
  destruct (request_spec x netif n s (dhcp_set_state DHCP_STATE_REQUESTING d) DHCP_REQUEST _ _ _ _ Hr Hl Hn bcast_safe ltac:(done)
    (select_opts_spec _ H0) ltac:(cbn; lia) H0 backoff_sequence) as (err & d' & s' & -> & S & C1 & C2 & C3 & C4 & C5 & C6 & C7 & C8). cbn [res_bind].
  rewrite set_state_state in C2. rewrite set_state_pcb in C4. rewrite set_state_server in C6. rewrite set_state_offered in C7. rewrite set_state_lease in C8. by eexists _, _, _.
Qed.
Lemma renew_spec : requested DHCP_STATE_RENEWING (renew netif s).
Proof.
  unfold dhcp_renew. rewrite (one_get _ _ _ Hd). cbn [res_bind]. pose proof (set_state_ok DHCP_STATE_RENEWING d Hok) as H0.
  destruct (request_spec x netif n s (dhcp_set_state DHCP_STATE_RENEWING d) DHCP_REQUEST _ _ _ _ Hr Hl Hn (to_safe _ (co_server _ H0)) ltac:(done) discover_opts_spec ltac:(cbn; lia)
    H0 (backoff_linear 2000 ltac:(lia))) as (err & d' & s' & -> & S & C1 & C2 & C3 & C4 & C5 & C6 & C7 & C8). cbn [res_bind].
  rewrite set_state_state in C2. rewrite set_state_pcb in C4. rewrite set_state_server in C6. rewrite set_state_offered in C7. rewrite set_state_lease in C8. by eexists _, _, _.
Qed.
Lemma rebind_spec : requested DHCP_STATE_REBINDING (rebind netif s).
Proof.
  unfold dhcp_rebind. rewrite (one_get _ _ _ Hd). cbn [res_bind].
  destruct (request_spec x netif n s (dhcp_set_state DHCP_STATE_REBINDING d) DHCP_REQUEST _ _ _ _ Hr Hl Hn (to_safe IPADDR_BROADCAST ltac:(done)) ltac:(done) discover_opts_spec ltac:(cbn; lia)
    (set_state_ok _ _ Hok) (backoff_linear 1000 ltac:(lia))) as (err & d' & s' & -> & S & C1 & C2 & C3 & C4 & C5 & C6 & C7 & C8). cbn [res_bind].
  rewrite set_state_state in C2. rewrite set_state_pcb in C4. rewrite set_state_server in C6. rewrite set_state_offered in C7. rewrite set_state_lease in C8. by eexists _, _, _.
Qed.
Lemma reboot_spec : requested DHCP_STATE_REBOOTING (reboot netif s).
Proof.
  unfold dhcp_reboot. rewrite (one_get _ _ _ Hd). cbn [res_bind].
  pose proof (set_state_ok DHCP_STATE_REBOOTING d Hok) as H0.
  destruct (request_spec x netif n s (dhcp_set_state DHCP_STATE_REBOOTING d) DHCP_REQUEST _ _ _ _ Hr Hl Hn (to_safe IPADDR_BROADCAST ltac:(done)) ltac:(done)
    (reboot_opts_spec _ H0) ltac:(cbn; lia) H0 (backoff_linear 1000 ltac:(lia))) as (err & d' & s' & -> & S & C1 & C2 & C3 & C4 & C5 & C6 & C7 & C8). cbn [res_bind].
  rewrite set_state_state in C2. rewrite set_state_pcb in C4. rewrite set_state_server in C6. rewrite set_state_offered in C7. rewrite set_state_lease in C8. by eexists _, _, _.
Qed.

(** ** Addresses *)
Lemma ready_stack : stack_ok custom_free malloc Hmalloc bmos Hbmos known good x (dk s).
Proof. destruct Hr as [[N1 N2 N3 N4 N5 N6] Hg]. by split. Qed.
Lemma set_addr_step ip mask gw : is_u32 ip -> is_u32 mask -> is_u32 gw ->
  exists k, set_addr netif (Some ip) (Some mask) (Some gw) (dk s) = Ret k /\ stepped x netif d s (set_dk k s) /\
    nf_at (k_nf k) netif = Some (set_if_addrs ip mask gw n).
Proof.
  intros H1 H2 H3. destruct (set_addr_spec custom_free malloc Hmalloc bmos Hbmos known known_null good _ Htcp x (dk s) netif n ip mask gw ready_stack Hn H1 H2 H3)
    as (k & E & [K1 K2 K3 K4 K5] & Hat & [O1 O2 O3 O4 O5]).
  exists k. split; [done|]. split; [|done]. destruct Hr as [[N1 N2 N3 N4 N5 N6] Hg]. split; try done.
  - intros Hp. by apply O5.
  - cbn. rewrite O4. by rewrite insert_id.
  - intros a Ha. cbn. destruct (decide (a = netif)) as [->|Hne]; [by rewrite Hat|by rewrite O3].
Qed.
End One.

(** Binding: the timers of the lease, the state, the three addresses. *)
Lemma bind_spec x netif n s d : ready x s -> nf_at (k_nf (dk s)) netif = Some n -> netif_dhcp_data netif s = Some d -> client_ok d ->
  let d' := dhcp_set_state DHCP_STATE_BOUND (bind_timers d) in
  exists s', bind netif s = Ret s' /\ stepped x netif d' s s' /\ client_ok d' /\
    nf_at (k_nf (dk s')) netif = Some (set_if_addrs (d_offered_ip_addr d) (bind_mask (bind_timers d)) (d_offered_gw_addr d) n).
Proof.
  intros Hr Hn Hd Hok d'. pose proof (one_null x s netif n Hr Hn) as Hni. pose proof (bind_timers_ok d Hok) as Ht. pose proof (set_state_ok DHCP_STATE_BOUND _ Ht) as Hd'. fold d' in Hd'.
  assert (d_offered_ip_addr d' = d_offered_ip_addr d /\ d_offered_gw_addr (bind_timers d) = d_offered_gw_addr d) as [E1 E2].
  { split; unfold d', dhcp_set_state, bind_timers; repeat case_match; reflexivity. }
  unfold dhcp_bind. rewrite (proj2 (Z.eqb_neq _ _) Hni), Hd. fold d'. rewrite E1, E2.
  destruct (set_addr_step x netif n (dput netif d' s) d') with (ip := d_offered_ip_addr d) (mask := bind_mask (bind_timers d)) (gw := d_offered_gw_addr d)
    as (k & -> & S & Hat); [by apply dput_ready|done|by apply (stepped_data x netif d' s), stepped_dput|apply Hok|by apply bind_mask_range|apply Hok|].
  cbn [res_bind]. eexists. split; [reflexivity|]. split; [|done]. eapply stepped_trans; [by apply stepped_dput|exact S].
Qed.

(** After a NAK: no address, and discovery from the start. *)
Lemma handle_nak_spec x netif n s d : ready x s -> pcb_live s -> nf_at (k_nf (dk s)) netif = Some n -> netif_dhcp_data netif s = Some d -> client_ok d ->
  exists d' s', dhcp_handle_nak custom_free malloc bmos ip4_frag tcp_netif_ip_addr_changed rand netif s = Ret s' /\ stepped x netif d' s s' /\ client_ok d' /\
    d_state d' = DHCP_STATE_SELECTING /\ 0 < d_request_timeout d' /\ d_pcb_allocated d' = d_pcb_allocated d /\
    nf_at (k_nf (dk s')) netif = Some (set_if_addrs IPADDR_ANY IPADDR_ANY IPADDR_ANY n).
Proof.
  intros Hr Hl Hn Hd Hok. unfold dhcp_handle_nak. rewrite (one_get netif s d Hd). cbn [res_bind]. set (d0 := dhcp_set_state DHCP_STATE_BACKING_OFF d).
  pose proof (stepped_dput x netif d0 s Hr) as S0.
  destruct (set_addr_step x netif n (dput netif d0 s) d0) with (ip := IPADDR_ANY) (mask := IPADDR_ANY) (gw := IPADDR_ANY)
    as (k & -> & S & Hat); [by apply dput_ready|done|by eapply stepped_data|done..|]. cbn [res_bind].
  pose proof (stepped_trans _ _ _ _ _ _ _ S0 S) as S1.
  destruct (discover_spec x netif _ (set_dk k (dput netif d0 s)) d0 (sp_ready _ _ _ _ _ S1) (sp_live _ _ _ _ _ S1 Hl) Hat (stepped_data _ _ _ _ _ S1) (set_state_ok _ _ Hok))
    as (err & d' & s' & -> & S2 & C1 & C2 & C3 & C4 & C5 & _). cbn [res_bind]. exists d', s'. split; [done|]. split; [by eapply stepped_trans|].
  unfold d0 in C4. rewrite set_state_pcb in C4. split_and!; try done. by rewrite C5.
Qed.

Lemma handle_offer_spec x netif n s d yiaddr : ready x s -> pcb_live s -> nf_at (k_nf (dk s)) netif = Some n -> netif_dhcp_data netif s = Some d -> client_ok d -> is_u32 yiaddr ->
  exists s', dhcp_handle_offer custom_free malloc bmos ip4_frag rand netif yiaddr s = Ret s' /\
  (dhcp_option_given (dhcp_rx s) DHCP_OPTION_IDX_SERVER_ID = false /\ s' = s \/
   exists d', stepped x netif d' s s' /\ client_ok d' /\ d_state d' = DHCP_STATE_REQUESTING /\ 0 < d_request_timeout d' /\ d_pcb_allocated d' = d_pcb_allocated d /\
     dhcp_option_given (dhcp_rx s) DHCP_OPTION_IDX_SERVER_ID = true /\ k_nf (dk s') = k_nf (dk s) /\
     d_server_ip_addr d' = lwip_htonl (dhcp_get_option_value (dhcp_rx s) DHCP_OPTION_IDX_SERVER_ID) /\ d_offered_ip_addr d' = yiaddr).
Proof.
  intros Hr Hl Hn Hd Hok Hy. unfold dhcp_handle_offer. rewrite (one_get netif s d Hd). cbn [res_bind].
  destruct (dhcp_option_given _ _) eqn:Eg; [|exists s; split; [done|by left]].
  assert (is_u32 (lwip_htonl (dhcp_get_option_value (dhcp_rx s) DHCP_OPTION_IDX_SERVER_ID))) as Hsrv by (apply htonl_range, rx_at_range; apply Hr).
  set (srv := lwip_htonl _) in *. clearbody srv. set (d0 := set_d_addrs _ _ _ _ _). assert (client_ok d0) as H0 by (unfold d0; client).
  pose proof (stepped_dput x netif d0 s Hr) as S0.
  destruct (select_spec x netif n (dput netif d0 s) d0 (dput_ready _ _ _ _ Hr) Hl Hn (stepped_data _ _ _ _ _ S0) H0) as (err & d' & s' & -> & S & C1 & C2 & C3 & C4 & C5 & C6 & C7 & _).
  cbn [res_bind]. exists s'. split; [done|]. right. exists d'. split; [by eapply stepped_trans|]. done.
Qed.

(** ** The UDP control block *)
Variable pcb_malloc : nat -> gmap Z udp_pcb -> Z.
Context (Hpcb : forall n m, pcb_malloc n m <> NULL -> m !! pcb_malloc n m = None).

(** The block exists as long as it is counted. *)
Definition pcb_ok s : Prop := dhcp_pcb_refcount s = 0 /\ dhcp_pcb s = NULL \/ 0 < dhcp_pcb_refcount s <= 255 /\ pcb_live s.
(** Only the block changes. *)
Record only_pcb s s' : Prop := {
  op_nf : k_nf (dk s') = k_nf (dk s);
  op_client : k_client (dk s') = k_client (dk s);
  op_ip : k_ip (dk s') = k_ip (dk s);
}.

Lemma new_block_spec u pcb u1 : udp_ok u -> udp_new pcb_malloc u = (pcb, u1) ->
  udp_ok u1 /\ (pcb <> NULL -> exists u2 u3 e2 e3 u4, udp_bind pcb (Some IPADDR_ANY) LWIP_IANA_PORT_DHCP_CLIENT u1 = Ret (e2, u2) /\
    udp_connect pcb IPADDR_ANY LWIP_IANA_PORT_DHCP_SERVER u2 = Ret (e3, u3) /\ udp_recv pcb DHCP_RECV NULL u3 = Ret u4 /\ udp_ok u4 /\ is_Some (u_pcbs u4 !! pcb)).
Proof.
  intros Hu E. pose proof (proj1 (udp_new_ok pcb_malloc Hpcb u Hu)) as Hu1. rewrite E in Hu1. split; [done|]. intros Hn. cbn [snd] in Hu1.
  assert (exists c, u_pcbs u1 !! pcb = Some c) as [c Hc].
  { unfold udp_new in E. destruct (Z.eqb_spec (pcb_malloc (u_allocs u) (u_pcbs u)) NULL); injection E as <- <-; [done|]. cbn. eexists. apply lookup_insert_eq. }
  destruct (udp_bind_spec u1 pcb (Some IPADDR_ANY) LWIP_IANA_PORT_DHCP_CLIENT c Hu1 Hc ltac:(done)) as (e2 & u2 & E2 & Hu2 & Hb).
  assert (exists c, u_pcbs u2 !! pcb = Some c) as [c2 Hc2] by (destruct Hb as [p _ _ _ _ -> _ _|_ _ -> _]; [eexists; apply lookup_insert_eq|by exists c]).
  destruct (udp_connect_spec u2 pcb IPADDR_ANY LWIP_IANA_PORT_DHCP_SERVER c2 Hu2 Hc2) as (e3 & u3 & E3 & Hu3 & _ & Hcn).
  assert (exists c, u_pcbs u3 !! pcb = Some c) as [c3 Hc3] by (destruct Hcn as [c' _ Hc' _ _ _ _ _ _|_ _ _ -> _]; [by exists c'|by exists c2]).
  destruct (udp_do_spec pcb_malloc Hpcb u3 (URecv pcb DHCP_RECV NULL) Hu3) as (u4 & E4 & Hu4 & _); [cbn; by exists c3|]. cbn [udp_do] in E4.
  exists u2, u3, e2, e3, u4. split_and!; try done. unfold udp_recv in E4. destruct (ok_pcb u3 pcb c3 Hu3 Hc3) as [_ Eg].
  rewrite (proj2 (Z.eqb_neq _ _) Hn), Eg in E4. injection E4 as <-. cbn. by rewrite lookup_insert_eq.
Qed.

Lemma inc_spec x s : ready x s -> pcb_ok s -> dhcp_pcb_refcount s < 255 ->
  exists err s', dhcp_inc_pcb_refcount pcb_malloc s = Ret (err, s') /\ ready x s' /\ only_pcb s s' /\ pcb_ok s' /\
    (err = ERR_OK /\ dhcp_pcb_refcount s' = dhcp_pcb_refcount s + 1 \/ err = ERR_MEM /\ dhcp_pcb_refcount s' = dhcp_pcb_refcount s).
Proof.
  intros [[N1 N2 N3 N4 N5 N6] Hg] Hp Hlt. unfold dhcp_inc_pcb_refcount. destruct Hp as [[Er Ep]|[Hr Hl]].
  - rewrite Er, Ep. cbn [Z.eqb negb lwip_assert]. change (NULL =? NULL) with true. cbn [lwip_assert].
    destruct (udp_new pcb_malloc (k_udp (dk s))) as [pcb u1] eqn:En. destruct (new_block_spec _ _ _ N4 En) as [Hu1 Hrest].
    destruct (Z.eqb_spec pcb NULL) as [->|Hn].
    + cbn [res_bind]. eexists _, _. split; [reflexivity|]. split; [by split; [split|]|]. split; [done|]. split; [by left|]. by right.
    + destruct (Hrest Hn) as (u2 & u3 & e2 & e3 & u4 & -> & E3 & E4 & Hu4 & Hl4). cbn [res_bind]. rewrite E3. cbn [res_bind]. rewrite E4. cbn [res_bind].
      change (negb (ERR_OK =? ERR_OK)) with false. cbv iota. eexists _, _. split; [reflexivity|]. split; [by split; [split|]|]. split; [done|].
      split; [right; split; [cbn; done|exact Hl4]|]. left. by split.
  - rewrite (proj2 (Z.eqb_neq _ _)) by lia. cbn [res_bind]. change (negb (ERR_OK =? ERR_OK)) with false. cbv iota. rewrite u8_small by (unfold is_byte; lia).
    eexists _, _. split; [reflexivity|]. split; [by split; [split|]|]. split; [done|]. split; [right; split; [cbn; lia|exact Hl]|]. by left.
Qed.
Lemma dec_spec x s : ready x s -> pcb_ok s -> 0 < dhcp_pcb_refcount s ->
  exists s', dhcp_dec_pcb_refcount s = Ret s' /\ ready x s' /\ only_pcb s s' /\ pcb_ok s' /\ dhcp_pcb_refcount s' = dhcp_pcb_refcount s - 1.
Proof.
  intros [[N1 N2 N3 N4 N5 N6] Hg] [[Er _]|[Hr [c Hc]]] Hlt; [lia|]. unfold dhcp_dec_pcb_refcount. rewrite Z.gtb_ltb, (proj2 (Z.ltb_lt _ _)) by lia. cbn [lwip_assert].
  rewrite u8_small by (unfold is_byte; lia). cbn [dhcp_pcb_refcount set_pcb dhcp_pcb]. destruct (Z.eqb_spec (dhcp_pcb_refcount s - 1) 0) as [E|E].
  - change (k_udp (dk (set_pcb _ _ s))) with (k_udp (dk s)). destruct (udp_remove_ok (k_udp (dk s)) (dhcp_pcb s) c N4 Hc) as (u & -> & Hu & _). cbn [res_bind].
    eexists. split; [reflexivity|]. split; [by split; [split|]|]. split; [done|]. split; [by left|]. by rewrite E.
  - eexists. split; [reflexivity|]. split; [by split; [split|]|]. split; [done|]. split; [|done]. right. split; [cbn; lia|by exists c].
Qed.
End Ops.
Arguments rd_net {Fr custom_free malloc Hmalloc bmos Hbmos known T good x s} _.
Arguments rd_tcp {Fr custom_free malloc Hmalloc bmos Hbmos known T good x s} _.
Arguments sp_ready {Fr custom_free malloc Hmalloc bmos Hbmos known T good x netif d s s'} _.
Arguments sp_live {Fr custom_free malloc Hmalloc bmos Hbmos known T good x netif d s s'} _.
Arguments sp_client {Fr custom_free malloc Hmalloc bmos Hbmos known T good x netif d s s'} _.
Arguments sp_list {Fr custom_free malloc Hmalloc bmos Hbmos known T good x netif d s s'} _.
Arguments sp_at {Fr custom_free malloc Hmalloc bmos Hbmos known T good x netif d s s'} _.
Arguments sp_pcb {Fr custom_free malloc Hmalloc bmos Hbmos known T good x netif d s s'} _.
Arguments sp_refcount {Fr custom_free malloc Hmalloc bmos Hbmos known T good x netif d s s'} _.
Arguments stepped_data {Fr custom_free malloc Hmalloc bmos Hbmos known T good x netif d s s'} _.
Arguments stepped_get {Fr custom_free malloc Hmalloc bmos Hbmos known T good x netif d s s'} _.
Arguments stepped_trans {Fr custom_free malloc Hmalloc bmos Hbmos known T good x netif d d' s s1 s2} _ _.
Arguments one_netifs {Fr custom_free malloc Hmalloc bmos Hbmos known T good x s} _.
Arguments one_nif {Fr custom_free malloc Hmalloc bmos Hbmos known T good x s netif n} _ _.
