(* ===== verification/DhcpSafe.v ===== *)
(** * The DHCP client: the invariant holds after every event *)
From S2P Require Import Prelude NetShim Ip4Addr Link Etharp EtharpInv Pbuf PbufChain PbufOps NetGlue Ethernet EthernetInv EthernetRx Ip4 Icmp Ip4Input Ip4Inv IcmpInv Ip4Hdr Ip4Send Udp UdpInv UdpSend Netif NetifInv DhcpParse DhcpOptions Dhcp DhcpMsg DhcpSend DhcpInv DhcpOps.

(** ** A client between two events *)

(** States in which the client waits for an answer to a request. *)
Definition negotiating (st : dhcp_state_enum_t) : Prop := st ∈ [DHCP_STATE_SELECTING; DHCP_STATE_REQUESTING; DHCP_STATE_REBOOTING].
Definition at_rest (st : dhcp_state_enum_t) : Prop :=
  st ∈ [DHCP_STATE_OFF; DHCP_STATE_INIT; DHCP_STATE_SELECTING; DHCP_STATE_REQUESTING; DHCP_STATE_REBOOTING; DHCP_STATE_BOUND; DHCP_STATE_RENEWING; DHCP_STATE_REBINDING].
Record rest_ok (d : dhcp) : Prop := {
  ro_state : at_rest (d_state d);
  ro_pcb : d_pcb_allocated d = negb (bool_decide (d_state d = DHCP_STATE_OFF));
  ro_timer : negotiating (d_state d) -> 0 < d_request_timeout d;
}.
(** The number of clients that use the UDP control block. *)
Definition uses (kd : Z * dhcp) : Prop := d_pcb_allocated kd.2 = true.
#[export] Instance uses_dec kd : Decision (uses kd).
Proof. unfold uses. apply _. Defined.
Definition users (m : gmap Z dhcp) : Z := Z.of_nat (size (filter uses m)).

Lemma users_insert m a d : users (<[a := d]> m) = users (delete a m) + (if d_pcb_allocated d then 1 else 0).
Proof.
  unfold users. rewrite <- insert_delete_eq. assert (filter uses (delete a m) !! a = None) as E by (apply map_lookup_filter_None; left; apply lookup_delete_eq).
  destruct (d_pcb_allocated d) eqn:Ed.
  - rewrite map_filter_insert_True by done. rewrite map_size_insert_None by done. lia.
  - rewrite map_filter_insert_False by (unfold uses; cbn; congruence). rewrite delete_delete_eq. lia.
Qed.
Lemma users_lookup m a d : m !! a = Some d -> users m = users (delete a m) + (if d_pcb_allocated d then 1 else 0).
Proof. intros H. rewrite <- users_insert. by rewrite insert_id. Qed.
Lemma size_list_set (l : list Z) : (size (list_to_set (C := gset Z) l) <= length l)%nat.
Proof.
  induction l as [|a l IH]; [done|]. rewrite list_to_set_cons, size_union_alt, size_singleton. cbn [length].
  assert (size (list_to_set (C := gset Z) l ∖ {[a]}) <= size (list_to_set (C := gset Z) l))%nat as Hs
    by (apply subseteq_size; by intros b [? _]%elem_of_difference). lia.
Qed.
Lemma users_bound m l : (forall a d, m !! a = Some d -> a ∈ l) -> 0 <= users m <= Z.of_nat (length l).
Proof.
  intros H. unfold users. split; [lia|]. apply inj_le. transitivity (size m); [apply map_size_filter|].
  rewrite <- size_dom. transitivity (size (list_to_set (C := gset Z) l)); [|apply size_list_set].
  apply subseteq_size. intros a [d Hd]%elem_of_dom. apply elem_of_list_to_set. by eapply H.
Qed.

Section Safe.
Context {Fr : Frame}.
Variable custom_free : Z -> pheap -> res pheap.
Variable malloc : nat -> gmap Z pbuf -> Z.
Context (Hmalloc : malloc_ok malloc).
Variable bmos : netif.
Context (Hbmos : nif_hwaddr_len bmos = ETH_HWADDR_LEN).
#[local] Instance dsafe_ops : LinkOps nic := nic_link custom_free malloc bmos.
#[local] Instance dsafe_laws : LinkLaws nic := nic_laws custom_free malloc Hmalloc bmos Hbmos.
Variable known : Z -> Prop.
Context (known_null : ~ known 0).
Variable ip4_frag : netifs -> Z -> Z -> Z -> ipst -> res (Z * ipst).
Context (Hfrag : forall nf, netifs_ok known nf -> frag_ok custom_free malloc Hmalloc bmos Hbmos known nf (ip4_frag nf)).
Context {T : Type}.
Variable good : T -> Prop.
Variable tcp_netif_ip_addr_changed : netifs -> Z -> Z -> ipst -> T -> res (ipst * T).
Context (Htcp : tcp_ok custom_free malloc Hmalloc bmos Hbmos known good tcp_netif_ip_addr_changed).
Variable pcb_malloc : nat -> gmap Z udp_pcb -> Z.
Context (Hpcb : forall n m, pcb_malloc n m <> NULL -> m !! pcb_malloc n m = None).
Variable rand : nat -> Z.
Variable mem_malloc : nat -> bool.
Implicit Types s : dst T.
Abbreviation ready := (ready custom_free malloc Hmalloc bmos Hbmos known good).
Abbreviation stepped := (stepped custom_free malloc Hmalloc bmos Hbmos known good).
Abbreviation discover := (dhcp_discover custom_free malloc bmos ip4_frag rand).
Abbreviation release := (dhcp_release_and_stop custom_free malloc bmos ip4_frag tcp_netif_ip_addr_changed rand).
Abbreviation start := (dhcp_start custom_free malloc bmos ip4_frag tcp_netif_ip_addr_changed pcb_malloc rand mem_malloc).

(** The invariant, with the packets [x] held by others. *)
Record dhcp_inv (x : list Z) s : Prop := {
  di_ready : ready x s;
  di_pcb : pcb_ok s;
  di_users : dhcp_pcb_refcount s = users (k_client (dk s));
  di_client : forall a d, netif_dhcp_data a s = Some d -> client_ok d /\ rest_ok d /\ a ∈ netif_list (k_nf (dk s));
  di_netifs : (length (netif_list (k_nf (dk s))) <= 254)%nat;
}.

Lemma inv_at x s a : dhcp_inv x s -> a ∈ netif_list (k_nf (dk s)) -> exists n, nf_at (k_nf (dk s)) a = Some n.
Proof. intros H Ha. destruct (no_list _ _ (one_netifs (di_ready _ _ H)) a Ha) as [n Hn]. by exists n. Qed.
Lemma inv_live x s a d : dhcp_inv x s -> netif_dhcp_data a s = Some d -> d_pcb_allocated d = true -> pcb_live s.
Proof.
  intros H Hd Ha. destruct (di_pcb _ _ H) as [[Er _]|[_ Hl]]; [|done]. rewrite (di_users _ _ H), (users_lookup _ _ _ Hd), Ha in Er.
  pose proof (Zle_0_nat (size (filter uses (delete a (k_client (dk s)))))). unfold users in Er. lia.
Qed.
Lemma inv_few x s a : dhcp_inv x s -> users (delete a (k_client (dk s))) < 255.
Proof.
  intros H. pose proof (di_netifs _ _ H). pose proof (users_bound (delete a (k_client (dk s))) (netif_list (k_nf (dk s)))) as Hb.
  enough (0 <= users (delete a (k_client (dk s))) <= Z.of_nat (length (netif_list (k_nf (dk s))))) by lia. apply Hb.
  intros b d [_ Hd]%lookup_delete_Some. by eapply (di_client _ _ H).
Qed.

(** A step of one client keeps the invariant. *)
Lemma inv_step x s s' a d d' : dhcp_inv x s -> netif_dhcp_data a s = Some d -> stepped x a d' s s' -> client_ok d' -> rest_ok d' ->
  d_pcb_allocated d' = d_pcb_allocated d -> dhcp_inv x s'.
Proof.
  intros H Hd [S1 S2 S3 S4 S5 S6 S7] Hc Hr Hp. split; [done| | | |].
  - unfold pcb_ok. rewrite S6, S7. destruct (di_pcb _ _ H) as [?|[? Hl]]; [by left|right; auto].
  - rewrite S7, S3, users_insert, Hp, (di_users _ _ H). by apply users_lookup.
  - intros b e. unfold netif_dhcp_data. rewrite S3, S4. destruct (decide (b = a)) as [->|Hne].
    + rewrite lookup_insert_eq. intros [= <-]. split; [done|]. split; [done|]. by eapply (di_client _ _ H).
    + rewrite lookup_insert_ne by done. by apply (di_client _ _ H).
  - rewrite S4. apply H.
Qed.
(** The end of dhcp_start and dhcp_release_and_stop: the count follows. *)
Lemma inv_insert x s s' a d : dhcp_inv x s -> a ∈ netif_list (k_nf (dk s)) -> ready x s' -> pcb_ok s' -> netif_list (k_nf (dk s')) = netif_list (k_nf (dk s)) ->
  k_client (dk s') = <[a := d]> (k_client (dk s)) -> client_ok d -> rest_ok d ->
  dhcp_pcb_refcount s' = users (delete a (k_client (dk s))) + (if d_pcb_allocated d then 1 else 0) -> dhcp_inv x s'.
Proof.
  intros H Ha Hr Hp El Ec Hc Hro Hu. split; try done.
  - by rewrite Hu, Ec, users_insert.
  - intros b e. unfold netif_dhcp_data. rewrite Ec, El. destruct (decide (b = a)) as [->|Hne].
    + rewrite lookup_insert_eq. by intros [= <-].
    + rewrite lookup_insert_ne by done. by apply (di_client _ _ H).
  - rewrite El. apply H.
Qed.
Lemma rest_negotiating d st : d_state d = st -> negotiating st -> 0 < d_request_timeout d -> d_pcb_allocated d = true -> rest_ok d.
Proof.
  intros <- Hn Ht Hp. unfold negotiating in Hn. rewrite !elem_of_cons, elem_of_nil in Hn. split; [| |done].
  - unfold at_rest. rewrite !elem_of_cons. tauto.
  - rewrite Hp. destruct Hn as [E|[E|[E|[]]]]; by rewrite E.
Qed.

(** ** Starting and stopping *)
Lemma discover_err netif s err s' : discover netif s = Ret (err, s') -> err = ERR_OK.
Proof.
  unfold dhcp_discover. intros (d & _ & E)%res_bind_Ret. apply res_bind_Ret in E as ([[e d'] s1] & _ & E). by injection E as <- _.
Qed.
Lemma stepped_pcb_ok x a d s s' : pcb_ok s -> stepped x a d s s' -> pcb_ok s'.
Proof. intros Hp S. unfold pcb_ok. rewrite (sp_pcb S), (sp_refcount S). destruct Hp as [?|[? Hl]]; [by left|right; split; [done|by apply (sp_live S)]]. Qed.
Lemma clean_offer_ok d : client_ok d -> client_ok (clean_offer d).
Proof. intros H. unfold clean_offer. client. Qed.

(** The message and the address: the middle of dhcp_release_and_stop. *)
Lemma release_middle x netif n s d supplied server : ready x s -> pcb_live s -> nf_at (k_nf (dk s)) netif = Some n -> netif_dhcp_data netif s = Some d -> client_ok d -> is_u32 server ->
  exists d' s', (if (supplied : bool) then
      let* (_, d, s) := dhcp_message custom_free malloc rand netif d DHCP_RELEASE (release_opts server) (send_to custom_free malloc bmos ip4_frag (dhcp_pcb s) netif server) s in
      let s := dput netif d s in
      let* k := netif_set_addr custom_free malloc bmos tcp_netif_ip_addr_changed netif (Some IPADDR_ANY) (Some IPADDR_ANY) (Some IPADDR_ANY) (dk s) in
      Ret (set_dk k s)
    else Ret s) = Ret s' /\ stepped x netif d' s s' /\ client_ok d' /\ d_state d' = d_state d /\ d_pcb_allocated d' = d_pcb_allocated d /\
    (supplied = true -> nf_at (k_nf (dk s')) netif = Some (set_if_addrs IPADDR_ANY IPADDR_ANY IPADDR_ANY n)).
Proof.
  intros Hr Hl Hn Hd Hc Hsrv. destruct supplied.
  - pose proof (one_netifs Hr) as Hnfs. pose proof (one_nif Hr Hn) as Hnif.
    destruct (message_safe custom_free malloc Hmalloc bmos Hbmos known known_null rand netif n s d DHCP_RELEASE (release_opts server) [addr_item DHCP_OPTION_SERVER_ID server]
      (send_to custom_free malloc bmos ip4_frag (dhcp_pcb s) netif server) x (rd_net Hr) Hl Hn) as (err & y & s1 & -> & Hy & N1 & L1 & O1).
    + by apply (send_to_safe custom_free malloc Hmalloc bmos Hbmos known known_null ip4_frag Hfrag _ _ netif n).
    + done.
    + by apply release_opts_spec.
    + cbn; lia.
    + apply Hc.
    + cbn [res_bind]. pose proof (only_net_stepped custom_free malloc Hmalloc bmos Hbmos known good x netif (set_d_xid y d) s s1 Hr N1 L1 O1) as S1.
      assert (nf_at (k_nf (dk (dput netif (set_d_xid y d) s1))) netif = Some n) as Hn1 by (cbn; by rewrite (on_nf _ _ O1)).
      destruct (set_addr_step custom_free malloc Hmalloc bmos Hbmos known known_null good _ Htcp x netif n _ _ (sp_ready S1) Hn1 (stepped_data S1)
        IPADDR_ANY IPADDR_ANY IPADDR_ANY) as (k & -> & S2 & Hat); [done..|]. cbn [res_bind]. exists (set_d_xid y d). eexists. split; [reflexivity|].
      split; [by eapply stepped_trans|]. split; [by apply set_xid_ok|done].
  - exists d, s. split; [done|]. split; [|done]. split; try done. by rewrite insert_id.
Qed.

(** A client [d] that its own invariant may not fit for the moment (its request
    timer has just run out) can be stopped. *)
Lemma release_from x netif s0 s d0 d : dhcp_inv x s0 -> netif_dhcp_data netif s0 = Some d0 -> stepped x netif d s0 s -> client_ok d ->
  d_state d = d_state d0 -> d_pcb_allocated d = d_pcb_allocated d0 -> d_state d <> DHCP_STATE_OFF ->
  exists s', release netif s = Ret s' /\ dhcp_inv x s' /\ netif_list (k_nf (dk s')) = netif_list (k_nf (dk s0)) /\
    (exists d', netif_dhcp_data netif s' = Some d' /\ d_state d' = DHCP_STATE_OFF) /\
    (dhcp_supplied_address netif s = true -> exists n, nf_at (k_nf (dk s')) netif = Some n /\ if_ip n = IPADDR_ANY).
Proof.
  intros H Hd0 S Hc Es Ep Eo. unfold dhcp_release_and_stop. rewrite (stepped_data S), decide_False by done.
  destruct (di_client _ _ H _ _ Hd0) as (_ & Hro & Hin). destruct (inv_at _ _ _ H Hin) as (n0 & Hn0). destruct (sp_at S netif ltac:(by rewrite Hn0)) as [n Hn].
  assert (d_pcb_allocated d0 = true) as Ha by (rewrite (ro_pcb _ Hro), bool_decide_eq_false_2 by congruence; done). pose proof (sp_live S (inv_live _ _ _ _ H Hd0 Ha)) as Hl.
  set (d1 := dhcp_set_state DHCP_STATE_OFF (clean_offer d)). assert (client_ok d1) as Hc1 by (by apply set_state_ok, clean_offer_ok).
  pose proof (stepped_dput custom_free malloc Hmalloc bmos Hbmos known good x netif d1 s (sp_ready S)) as S0.
  destruct (release_middle x netif n (dput netif d1 s) d1 (dhcp_supplied_address netif s) (d_server_ip_addr d)) as (d2 & s1 & E0 & S1 & Hc2 & E1 & E2 & Hat);
    [apply S0|by apply (sp_live S0)|done|by eapply stepped_data|done|apply Hc|]. cbv zeta in E0 |- *. fold d1. rewrite E0. cbn [res_bind]. pose proof (stepped_trans (stepped_trans S S0) S1) as S2.
  rewrite (stepped_get S2). cbn [res_bind]. unfold d1 in E1, E2. rewrite set_state_state in E1. rewrite set_state_pcb in E2.
  change (d_pcb_allocated (clean_offer d)) with (d_pcb_allocated d) in E2. rewrite E2, Ep, Ha.
  pose proof (stepped_pcb_ok _ _ _ _ _ (di_pcb _ _ H) S2) as Hp2. pose proof (sp_refcount S2) as Er.
  pose proof (users_lookup _ _ _ Hd0) as Hu. rewrite Ha in Hu. rewrite (di_users _ _ H), Hu in Er. assert (0 <= users (delete netif (k_client (dk s0)))) as Hu0 by apply Zle_0_nat.
  destruct (dec_spec custom_free malloc Hmalloc bmos Hbmos known good x s1 (sp_ready S2) Hp2 ltac:(lia)) as (s3 & -> & R3 & [O1 O2 O3] & P3 & E3). cbn [res_bind].
  eexists. split; [reflexivity|]. split; [|split; [|split]].
  - eapply (inv_insert x s0 _ netif (set_d_pcb_allocated false d2) H Hin); [by apply dput_ready|exact P3| | | | |].
    + cbn. rewrite O1. apply S2.
    + cbn. rewrite O2, (sp_client S2). apply insert_insert_eq.
    + clear - Hc2. client.
    + split; cbn; rewrite E1; [by left|done|]. unfold negotiating. rewrite !elem_of_cons, elem_of_nil. intuition discriminate.
    + cbn. rewrite E3, Er. lia.
  - cbn. rewrite O1. apply S2.
  - exists (set_d_pcb_allocated false d2). split; [unfold netif_dhcp_data; cbn; apply lookup_insert_eq|done].
  - intros Hsup. cbn. rewrite O1, (Hat Hsup). by eexists.
Qed.
Lemma stepped_same x netif d s : ready x s -> netif_dhcp_data netif s = Some d -> stepped x netif d s s.
Proof. intros Hr Hd. split; try done. by rewrite insert_id. Qed.
Lemma release_spec x netif s : dhcp_inv x s -> exists s', release netif s = Ret s' /\ dhcp_inv x s' /\
  netif_list (k_nf (dk s')) = netif_list (k_nf (dk s)) /\ (forall d, netif_dhcp_data netif s' = Some d -> d_state d = DHCP_STATE_OFF).
Proof.
  intros H. destruct (netif_dhcp_data netif s) as [d|] eqn:Hd; [|exists s; unfold dhcp_release_and_stop; by rewrite Hd].
  destruct (decide (d_state d = DHCP_STATE_OFF)) as [Eo|Eo].
  - exists s. unfold dhcp_release_and_stop. rewrite Hd, decide_True by done. split_and!; try done. by intros ? [= <-].
  - destruct (release_from x netif s s d d H Hd (stepped_same _ _ _ _ (di_ready _ _ H) Hd)) as (s' & E & I & L & (d' & Hd' & Es) & _); [by eapply (di_client _ _ H)|done..|].
    exists s'. split_and!; try done. intros e He. congruence.
Qed.

(** The first part of dhcp_start: memory for the client, and the old client
    gives up the block. *)
Lemma start_memory x netif s : dhcp_inv x s ->
  exists got s1, match netif_dhcp_data netif s with
    | None => let got := mem_malloc (d_mallocs s) in
        Ret (got, mkDst (dk s) (dhcp_pcb s) (dhcp_pcb_refcount s) (dhcp_xid s) (dhcp_rx s) (d_rands s) (S (d_mallocs s)))
    | Some d => let* s := if d_pcb_allocated d then dhcp_dec_pcb_refcount s else Ret s in Ret (true, s)
    end = Ret (got, s1) /\ ready x s1 /\ pcb_ok s1 /\ k_nf (dk s1) = k_nf (dk s) /\ k_client (dk s1) = k_client (dk s) /\
    (got = false -> dhcp_inv x s1) /\ dhcp_pcb_refcount s1 = users (delete netif (k_client (dk s))).
Proof.
  intros H. pose proof (di_ready _ _ H) as Hr. destruct (netif_dhcp_data netif s) as [d|] eqn:Hd.
  - pose proof (users_lookup _ _ _ Hd) as Hu. rewrite <- (di_users _ _ H) in Hu. destruct (d_pcb_allocated d).
    + pose proof (Zle_0_nat (size (filter uses (delete netif (k_client (dk s)))))) as H0. fold (users (delete netif (k_client (dk s)))) in H0.
      destruct (dec_spec custom_free malloc Hmalloc bmos Hbmos known good x s Hr (di_pcb _ _ H) ltac:(lia)) as (s1 & -> & R1 & [O1 O2 O3] & P1 & E1). cbn [res_bind].
      exists true, s1. split_and!; try done. lia.
    + cbn [res_bind]. exists true, s. split_and!; try done; [apply H|lia].
  - set (s1 := mkDst _ _ _ _ _ _ _). exists (mem_malloc (d_mallocs s)), s1. assert (ready x s1) as R1 by (destruct Hr as [[N1 N2 N3 N4 N5 N6] Hg]; by split; [split|]).
    split_and!; try done; [apply H| |].
    + intros _. destruct H as [H1 H2 H3 H4 H5]. by split.
    + cbn. rewrite delete_id by done. apply H.
Qed.

Lemma start_spec x netif s : dhcp_inv x s -> netif ∈ netif_list (k_nf (dk s)) ->
  exists err s', start netif s = Ret (err, s') /\ dhcp_inv x s' /\ k_nf (dk s') = k_nf (dk s) /\
    (forall d, netif_dhcp_data netif s' = Some d -> netif_dhcp_data netif s = Some d \/ d_state d = DHCP_STATE_OFF \/
       exists n, nf_at (k_nf (dk s)) netif = Some n /\ d_state d = (if netif_is_link_up n then DHCP_STATE_SELECTING else DHCP_STATE_INIT)).
Proof.
  intros H Hin. destruct (inv_at _ _ _ H Hin) as (n & Hn). pose proof (di_ready _ _ H) as Hr.
  unfold dhcp_start. rewrite (proj2 (Z.eqb_neq _ _) (one_null custom_free malloc Hmalloc bmos Hbmos known known_null good x s netif n Hr Hn)).
  unfold kget. rewrite Hn. cbn [res_of_option res_bind]. destruct (negb _); [by exists ERR_ARG, s; split_and!; auto|]. destruct (_ <? _); [by exists ERR_MEM, s; split_and!; auto|].
  destruct (start_memory x netif s H) as (got & s1 & E & R1 & P1 & En1 & Ec1 & Hno & Er1). cbv zeta in E |- *. rewrite E. cbn [res_bind]. clear E.
  destruct got; cbn [negb]; [|exists ERR_MEM, s1; unfold netif_dhcp_data; rewrite Ec1; split_and!; auto].
  pose proof (inv_few _ _ netif H) as Hfew.
  destruct (inc_spec custom_free malloc Hmalloc bmos Hbmos known good pcb_malloc Hpcb x (dput netif zero_dhcp s1)) as (err & s2 & -> & R2 & [O1 O2 O3] & P2 & Herr);
    [by apply dput_ready|done|cbn; lia|]. cbn [res_bind]. cbn [dput set_dk dk set_k_client k_client k_nf dhcp_pcb_refcount] in O1, O2, Herr. rewrite Ec1 in O2. rewrite En1 in O1.
  destruct Herr as [[-> Er2]|[-> Er2]]; cbn [negb].
  2:{ change (negb (ERR_MEM =? ERR_OK)) with true. cbv iota. exists ERR_MEM, s2. split; [done|]. split; [|split; [done|]].
      2:{ unfold netif_dhcp_data. rewrite O2, lookup_insert_eq. intros d [= <-]. right. by left. }
      eapply (inv_insert x s s2 netif zero_dhcp H Hin R2 P2); [by rewrite O1|done|apply zero_client| |cbn; lia].
      split; cbn; [by left|done|]. unfold negotiating. rewrite !elem_of_cons, elem_of_nil. intuition discriminate. }
  change (negb (ERR_OK =? ERR_OK)) with false. cbv iota. set (d := set_d_pcb_allocated true zero_dhcp).
  assert (client_ok d) as Hd by (pose proof zero_client as Hz; unfold d; client).
  assert (forall e, client_ok e -> rest_ok e -> d_pcb_allocated e = true -> forall s3, ready x s3 -> pcb_ok s3 -> netif_list (k_nf (dk s3)) = netif_list (k_nf (dk s)) ->
    dhcp_pcb_refcount s3 = dhcp_pcb_refcount s2 -> k_client (dk s3) = <[netif := e]> (k_client (dk s2)) -> dhcp_inv x s3) as Hend.
  { intros e E1 E2 E3 s3 R3 P3 L3 C3 K3. eapply (inv_insert x s s3 netif e H Hin R3 P3 L3); try done; [rewrite K3, O2; apply insert_insert_eq|]. rewrite C3, E3. lia. }
  destruct (netif_is_link_up n) eqn:Elink; cbn [negb]; swap 1 2.
  { eexists ERR_OK, _. split; [reflexivity|]. split; [|split; [done|]].
    - eapply (Hend (dhcp_set_state DHCP_STATE_INIT d)); [by apply set_state_ok| |done|by apply dput_ready|done|cbn; by rewrite O1|done|done].
      split; cbn; [unfold at_rest; rewrite !elem_of_cons; auto|done|]. unfold negotiating. rewrite !elem_of_cons, elem_of_nil. intuition discriminate.
    - unfold netif_dhcp_data. cbn. rewrite lookup_insert_eq. intros e [= <-]. do 2 right. exists n. by rewrite Elink. }
  assert (0 <= users (delete netif (k_client (dk s)))) as Hu0 by apply Zle_0_nat.
  assert (pcb_live s2) as Hl2 by (destruct P2 as [[Ez _]|[_ Hz]]; [lia|exact Hz]).
  destruct (discover_spec custom_free malloc Hmalloc bmos Hbmos known known_null ip4_frag Hfrag good rand x netif n (dput netif d s2) d) as (err & d' & s3 & E & S3 & C1 & C2 & C3 & C4 & C5 & _);
    [by apply dput_ready|exact Hl2|cbn; by rewrite O1|unfold netif_dhcp_data; cbn; apply lookup_insert_eq|done|].
  rewrite E. cbn [res_bind]. apply discover_err in E as ->. change (negb (ERR_OK =? ERR_OK)) with false. cbv iota.
  exists ERR_OK, s3. split; [done|]. split; [|split].
  - eapply (Hend d'); [done| |done|apply S3| | |exact (sp_refcount S3)|rewrite (sp_client S3); cbn; apply insert_insert_eq].
    + eapply rest_negotiating; [done| |done|done]. unfold negotiating. rewrite !elem_of_cons. auto.
    + by apply (stepped_pcb_ok x netif d' (dput netif d s2)).
    + rewrite (sp_list S3). cbn. by rewrite O1.
  - by rewrite C5.
  - intros e He. rewrite (stepped_data S3) in He. injection He as <-. do 2 right. exists n. by rewrite Elink.
Qed.

(** dhcp_inform has no client that lasts. *)
Lemma inform_spec x netif s : dhcp_inv x s -> netif ∈ netif_list (k_nf (dk s)) ->
  exists s', dhcp_inform custom_free malloc bmos ip4_frag pcb_malloc rand netif s = Ret s' /\ dhcp_inv x s' /\ netif_list (k_nf (dk s')) = netif_list (k_nf (dk s)) /\ k_client (dk s') = k_client (dk s).
Proof.
  intros H Hin. destruct (inv_at _ _ _ H Hin) as (n & Hn). pose proof (di_ready _ _ H) as Hr.
  unfold dhcp_inform. rewrite (proj2 (Z.eqb_neq _ _) (one_null custom_free malloc Hmalloc bmos Hbmos known known_null good x s netif n Hr Hn)).
  pose proof (users_bound (k_client (dk s)) (netif_list (k_nf (dk s))) ltac:(intros a d Hd; by apply (di_client _ _ H _ _ Hd))) as Hub. pose proof (di_netifs _ _ H). rewrite <- (di_users _ _ H) in Hub.
  destruct (inc_spec custom_free malloc Hmalloc bmos Hbmos known good pcb_malloc Hpcb x s Hr (di_pcb _ _ H) ltac:(lia)) as (err & s1 & -> & R1 & [O1 O2 O3] & P1 & Herr). cbn [res_bind].
  assert (forall s2, ready x s2 -> pcb_ok s2 -> k_nf (dk s2) = k_nf (dk s) -> k_client (dk s2) = k_client (dk s) -> dhcp_pcb_refcount s2 = dhcp_pcb_refcount s -> dhcp_inv x s2) as Hsame.
  { intros s2 R2 P2 E1 E2 E3. destruct H as [H1 H2 H3 H4 H5]. split; try done; [by rewrite E3, E2| |by rewrite E1]. intros a d. unfold netif_dhcp_data. rewrite E1, E2. apply H4. }
  destruct Herr as [[-> Er]|[-> Er]].
  2:{ change (negb (ERR_MEM =? ERR_OK)) with true. cbv iota. exists s1. split; [done|]. split; [by apply Hsame|]. by rewrite O1. }
  change (negb (ERR_OK =? ERR_OK)) with false. cbv iota. assert (pcb_live s1) as Hl1 by (destruct P1 as [[? _]|[_ ?]]; [lia|done]).
  assert (nf_at (k_nf (dk s1)) netif = Some n) as Hn1 by (by rewrite O1).
  destruct (message_safe custom_free malloc Hmalloc bmos Hbmos known known_null rand netif n s1 (dhcp_set_state DHCP_STATE_INFORMING zero_dhcp) DHCP_INFORM inform_opts [max_size_item (if_mtu n)]
    (send_to custom_free malloc bmos ip4_frag (dhcp_pcb s1) netif IPADDR_BROADCAST) x (rd_net R1) Hl1 Hn1) as (err & y & s2 & -> & _ & N2 & L2 & [Q1 Q2 Q3 Q4 Q5 Q6]).
  - by apply (send_to_safe custom_free malloc Hmalloc bmos Hbmos known known_null ip4_frag Hfrag _ _ netif n); [apply (one_netifs R1)| |apply (one_nif R1 Hn1)|].
  - done.
  - eapply (inform_opts_spec custom_free malloc Hmalloc bmos Hbmos known good x netif n s1); done.
  - cbn; lia.
  - done.
  - cbn [res_bind]. assert (ready x s2) as R2 by (split; [done|rewrite Q3; apply R1]).
    destruct (dec_spec custom_free malloc Hmalloc bmos Hbmos known good x s2 R2) as (s3 & -> & R3 & [V1 V2 V3] & P3 & E3);
      [right; rewrite Q5, Er; split; [lia|done]|rewrite Q5, Er; lia|].
    exists s3. split; [done|]. assert (k_client (dk s3) = k_client (dk s)) as Ec by congruence. split; [apply Hsame; try done; [congruence|]; rewrite E3, Q5, Er; lia|]. split; [congruence|done].
Qed.
End Safe.
