(* ===== verification/DhcpEvents.v ===== *)
(** * The DHCP client: timers, link changes and replies

    Each event returns and keeps the invariant of [DhcpSafe]; so does every
    sequence of events. *)
From S2P Require Import Prelude NetShim Ip4Addr Link Etharp EtharpInv Pbuf PbufChain PbufOps NetGlue Ethernet EthernetInv EthernetRx Ip4 Icmp Ip4Input Ip4Inv IcmpInv Ip4Rx Ip4Hdr Ip4Send Udp UdpInv UdpSend Netif NetifInv DhcpParse DhcpOptions Dhcp DhcpMsg DhcpSend DhcpInv DhcpOps DhcpSafe.

(** What can happen to the clients.  A reply comes as the packet [p] that the
    layers below hand over, with the state [i] they leave. *)
Inductive dhcp_event :=
  | EStart (netif : Z) | ERenew (netif : Z) | EStop (netif : Z) | ERelease (netif : Z) | EInform (netif : Z) | ESetStruct (netif : Z) | ECleanup (netif : Z)
  | ECoarse | EFine | ELinkUp (netif : Z) | ELinkDown (netif : Z)
  | EReply (i : ipst) (p : Z) (g : ip_globals).

Section Events.
Context {Fr : Frame}.
Variable custom_free : Z -> pheap -> res pheap.
Variable malloc : nat -> gmap Z pbuf -> Z.
Context (Hmalloc : malloc_ok malloc).
Variable bmos : netif.
Context (Hbmos : nif_hwaddr_len bmos = ETH_HWADDR_LEN).
#[local] Instance dev_ops : LinkOps nic := nic_link custom_free malloc bmos.
#[local] Instance dev_laws : LinkLaws nic := nic_laws custom_free malloc Hmalloc bmos Hbmos.
Variable known : Z -> Prop.
Context (known_null : ~ known 0).
Variable ip4_frag : netifs -> Z -> Z -> Z -> ipst -> res (Z * ipst).
Context (Hfrag : forall nf, netifs_ok known nf -> frag_ok custom_free malloc Hmalloc bmos Hbmos known nf (ip4_frag nf)).
Context {T : Type}.
Variable good : T -> Prop.
Variable tcp_netif_ip_addr_changed : netifs -> Z -> Z -> ipst -> T -> res (ipst * T).
Context (Htcp : tcp_ok custom_free malloc Hmalloc bmos Hbmos known good tcp_netif_ip_addr_changed).
Variable pcb_malloc : nat -> gmap Z udp_pcb -> Z.
Context (Hpcb : forall n m, pcb_malloc n m <> NULL -> m !! pcb_malloc n m = None).
Variable rand : nat -> Z.
Variable mem_malloc : nat -> bool.
Implicit Types s : dst T.
Abbreviation ready := (ready custom_free malloc Hmalloc bmos Hbmos known good).
Abbreviation stepped := (stepped custom_free malloc Hmalloc bmos Hbmos known good).
Abbreviation requested := (requested custom_free malloc Hmalloc bmos Hbmos known good).
Abbreviation dhcp_inv := (dhcp_inv custom_free malloc Hmalloc bmos Hbmos known good).
Abbreviation release := (dhcp_release_and_stop custom_free malloc bmos ip4_frag tcp_netif_ip_addr_changed rand).
Abbreviation start := (dhcp_start custom_free malloc bmos ip4_frag tcp_netif_ip_addr_changed pcb_malloc rand mem_malloc).
Abbreviation timeout := (dhcp_timeout custom_free malloc bmos ip4_frag tcp_netif_ip_addr_changed pcb_malloc rand mem_malloc).
Abbreviation t1_timeout := (dhcp_t1_timeout custom_free malloc bmos ip4_frag rand).
Abbreviation t2_timeout := (dhcp_t2_timeout custom_free malloc bmos ip4_frag rand).
Abbreviation coarse := (coarse_netif custom_free malloc bmos ip4_frag tcp_netif_ip_addr_changed pcb_malloc rand mem_malloc).
Abbreviation fine := (fine_netif custom_free malloc bmos ip4_frag tcp_netif_ip_addr_changed pcb_malloc rand mem_malloc).

(** The state after an event: the invariant, and the same interfaces. *)
Definition served (x : list Z) s s' : Prop := dhcp_inv x s' /\ netif_list (k_nf (dk s')) = netif_list (k_nf (dk s)).
Lemma served_trans x s s1 s2 : served x s s1 -> served x s1 s2 -> served x s s2.
Proof. intros [_ E1] [H2 E2]. split; [done|congruence]. Qed.

(** A client that is about to act.  Since the last state that the invariant
    holds of, its timers may have moved. *)
Record acting (x : list Z) (netif : Z) s0 s (d : dhcp) : Prop := {
  ac_inv : dhcp_inv x s0;
  ac_client : exists d0, netif_dhcp_data netif s0 = Some d0 /\ d_state d = d_state d0 /\ d_pcb_allocated d = d_pcb_allocated d0;
  ac_step : stepped x netif d s0 s;
  ac_ok : client_ok d;
  ac_on : d_state d <> DHCP_STATE_OFF;
}.
Lemma acting_dput x netif s d0 d : dhcp_inv x s -> netif_dhcp_data netif s = Some d0 -> d_state d = d_state d0 -> d_pcb_allocated d = d_pcb_allocated d0 ->
  client_ok d -> d_state d0 <> DHCP_STATE_OFF -> acting x netif s (dput netif d s) d.
Proof. intros H Hd E1 E2 Hc Ho. split; try done; [by exists d0|apply stepped_dput, H|congruence]. Qed.
Lemma acting_here x netif s d : dhcp_inv x s -> netif_dhcp_data netif s = Some d -> d_state d <> DHCP_STATE_OFF -> acting x netif s s d.
Proof. intros H Hd Ho. split; try done; [by exists d|by apply stepped_same, Hd; apply H|by eapply (di_client _ _ _ _ _ _ _ _ _ H)]. Qed.

Section Act.
Variable x : list Z.
Variable netif : Z.
Variable s0 s : dst T.
Variable d : dhcp.
Context (A : acting x netif s0 s d).

Lemma acting_in : netif ∈ netif_list (k_nf (dk s0)).
Proof. destruct (ac_client _ _ _ _ _ A) as (d0 & Hd & _). by eapply (di_client _ _ _ _ _ _ _ _ _ (ac_inv _ _ _ _ _ A)). Qed.
Lemma acting_nif : exists n, nf_at (k_nf (dk s)) netif = Some n.
Proof.
  destruct (inv_at _ _ _ _ _ _ _ _ _ _ (ac_inv _ _ _ _ _ A) acting_in) as (n0 & Hn). destruct (sp_at (ac_step _ _ _ _ _ A) netif ltac:(by rewrite Hn)) as [n ?]. by exists n.
Qed.
Lemma acting_pcb : d_pcb_allocated d = true.
Proof.
  destruct (ac_client _ _ _ _ _ A) as (d0 & Hd & E1 & E2). destruct (di_client _ _ _ _ _ _ _ _ _ (ac_inv _ _ _ _ _ A) _ _ Hd) as (_ & Hro & _).
  rewrite E2, (ro_pcb _ Hro), bool_decide_eq_false_2; [done|]. rewrite <- E1. apply A.
Qed.
Lemma acting_live : pcb_live s.
Proof.
  destruct (ac_client _ _ _ _ _ A) as (d0 & Hd & E1 & E2). apply (sp_live (ac_step _ _ _ _ _ A)). eapply inv_live; [apply A|exact Hd|]. rewrite <- E2. apply acting_pcb.
Qed.
Lemma acting_rest : at_rest (d_state d).
Proof.
  destruct (ac_client _ _ _ _ _ A) as (d0 & Hd & -> & _). destruct (di_client _ _ _ _ _ _ _ _ _ (ac_inv _ _ _ _ _ A) _ _ Hd) as (_ & Hro & _). apply Hro.
Qed.
Lemma acting_to s' d' : stepped x netif d' s s' -> client_ok d' -> d_pcb_allocated d' = d_pcb_allocated d -> at_rest (d_state d') -> d_state d' <> DHCP_STATE_OFF ->
  (negotiating (d_state d') -> 0 < d_request_timeout d') -> served x s0 s'.
Proof.
  intros S Hc Hp Hr Ho Ht. destruct (ac_client _ _ _ _ _ A) as (d0 & Hd & E1 & E2). pose proof (stepped_trans (ac_step _ _ _ _ _ A) S) as S2.
  split; [|apply S2]. eapply inv_step; [apply A|exact Hd|exact S2|done| |congruence]. split; [done| |done]. by rewrite Hp, acting_pcb, bool_decide_eq_false_2.
Qed.
Lemma acting_request st run : requested x netif s d st run -> at_rest st -> st <> DHCP_STATE_OFF -> exists err s', run = Ret (err, s') /\ served x s0 s'.
Proof.
  intros (err & d' & s' & -> & S & C1 & C2 & C3 & C4 & _) Hr Ho. exists err, s'. split; [done|]. eapply acting_to; try done; by rewrite C2.
Qed.

Ltac requests L := destruct acting_nif as (n & Hn); eapply (L _ custom_free malloc Hmalloc bmos Hbmos known known_null ip4_frag Hfrag T good rand);
  [apply (sp_ready (ac_step _ _ _ _ _ A))|apply acting_live|exact Hn|exact (stepped_data (ac_step _ _ _ _ _ A))|apply A].
Lemma act_discover : exists err s', dhcp_discover custom_free malloc bmos ip4_frag rand netif s = Ret (err, s') /\ served x s0 s'.
Proof. eapply acting_request; [requests @discover_spec|by do 2 right; left|done]. Qed.
Lemma act_select : exists err s', dhcp_select custom_free malloc bmos ip4_frag rand netif s = Ret (err, s') /\ served x s0 s'.
Proof. eapply acting_request; [requests @select_spec|by do 3 right; left|done]. Qed.
Lemma act_reboot : exists err s', dhcp_reboot custom_free malloc bmos ip4_frag rand netif s = Ret (err, s') /\ served x s0 s'.
Proof. eapply acting_request; [requests @reboot_spec|by do 4 right; left|done]. Qed.
Lemma act_renew : requested x netif s d DHCP_STATE_RENEWING (dhcp_renew custom_free malloc bmos ip4_frag rand netif s).
Proof. requests @renew_spec. Qed.
Lemma act_rebind : requested x netif s d DHCP_STATE_REBINDING (dhcp_rebind custom_free malloc bmos ip4_frag rand netif s).
Proof. requests @rebind_spec. Qed.
(** The client has no address any more, and its interface has none either if the
    client had given it one. *)
Definition given_up s s' : Prop := dhcp_supplied_address netif s' = false /\
  (dhcp_supplied_address netif s = true -> exists n, nf_at (k_nf (dk s')) netif = Some n /\ if_ip n = IPADDR_ANY).
Lemma not_supplied s' : (forall e, netif_dhcp_data netif s' = Some e -> d_state e ∈ [DHCP_STATE_OFF; DHCP_STATE_INIT; DHCP_STATE_SELECTING]) -> dhcp_supplied_address netif s' = false.
Proof.
  intros He. unfold dhcp_supplied_address. destruct (_ =? _); [done|]. destruct (netif_dhcp_data netif s') as [e|]; [|done]. specialize (He e eq_refl).
  rewrite !elem_of_cons, elem_of_nil in He. destruct He as [E|[E|[E|[]]]]; by rewrite E.
Qed.
Lemma act_restart : exists s', (let* s := release netif s in let* (_, s) := start netif s in Ret s) = Ret s' /\ served x s0 s' /\ given_up s s'.
Proof.
  destruct (ac_client _ _ _ _ _ A) as (d0 & Hd & E1 & E2).
  destruct (release_from custom_free malloc Hmalloc bmos Hbmos known known_null ip4_frag Hfrag good _ Htcp rand x netif s0 s d0 d) as (s1 & -> & I1 & L1 & (e & He & Eo) & Hip); try done; try apply A.
  cbn [res_bind]. destruct (start_spec custom_free malloc Hmalloc bmos Hbmos known known_null ip4_frag Hfrag good tcp_netif_ip_addr_changed pcb_malloc Hpcb rand mem_malloc x netif s1 I1)
    as (err & s2 & -> & I2 & L2 & Hst); [rewrite L1; apply acting_in|]. cbn [res_bind]. exists s2. split; [done|]. split; [split; [done|congruence]|].
  split; [|by rewrite L2]. apply not_supplied. intros e2 [He2|[E|(n & _ & E)]]%Hst; [assert (e2 = e) as -> by congruence; rewrite Eo; by left|rewrite E; by left|].
  rewrite E. destruct (netif_is_link_up n); [by do 2 right; left|by right; left].
Qed.

(** A request's time is over. *)
Lemma act_timeout : exists s', timeout netif s = Ret s' /\ served x s0 s'.
Proof.
  unfold dhcp_timeout. rewrite (stepped_get (ac_step _ _ _ _ _ A)). cbn [res_bind]. pose proof (ac_on _ _ _ _ _ A) as Hon.
  destruct (_ || _) eqn:E0; [destruct act_discover as (err & s' & -> & Hs); by exists s'|]. apply orb_false_iff in E0 as [_ E0%bool_decide_eq_false].
  destruct (decide (d_state d = DHCP_STATE_REQUESTING)) as [E1|E1].
  { destruct (_ <=? 5); [destruct act_select as (err & s' & -> & Hs); by exists s'|destruct act_restart as (s' & E & Hs & _); by exists s']. }
  destruct (decide (d_state d = DHCP_STATE_REBOOTING)) as [E2|E2].
  { destruct (_ <? _); [destruct act_reboot as (err & s' & -> & Hs)|destruct act_discover as (err & s' & -> & Hs)]; by exists s'. }
  assert (~ negotiating (d_state d)) as Hn by (unfold negotiating; rewrite !elem_of_cons, elem_of_nil; tauto).
  exists s. split; [done|]. eapply acting_to; try done; [|apply A|apply acting_rest].
  apply stepped_same; [apply (sp_ready (ac_step _ _ _ _ _ A))|by eapply stepped_data, A].
Qed.

(** The timers T1 and T2. *)
Lemma act_times st run (after : dhcp -> bool) (t1 t2 : dhcp -> Z) : requested x netif s d st run -> at_rest st -> st <> DHCP_STATE_OFF ->
  (forall d, client_ok d -> client_ok (set_d_times (t1 d) (t2 d) d)) ->
  exists s', (let* (_, s) := run in let* d := dget netif s in Ret (if after d then dput netif (set_d_times (t1 d) (t2 d) d) s else s)) = Ret s' /\ served x s0 s' /\
    exists d', netif_dhcp_data netif s' = Some d' /\ d_lease d' = d_lease d /\ d_state d' = st.
Proof.
  intros (err & d' & s' & -> & S & C1 & C2 & C3 & C4 & _ & _ & _ & C8) Hr Ho Ht. cbn [res_bind]. rewrite (stepped_get S). cbn [res_bind]. eexists. split; [reflexivity|].
  destruct (after d'); split.
  - eapply (acting_to _ (set_d_times (t1 d') (t2 d') d')); [eapply stepped_trans; [exact S|apply stepped_dput, S]|by apply Ht|done|..]; cbn; by rewrite C2.
  - exists (set_d_times (t1 d') (t2 d') d'). split; [unfold netif_dhcp_data; cbn; apply lookup_insert_eq|done].
  - eapply acting_to; try done; by rewrite C2.
  - exists d'. split; [by eapply stepped_data|done].
Qed.
Lemma acting_idle : (negotiating (d_state d) -> 0 < d_request_timeout d) -> served x s0 s.
Proof.
  intros Ht. eapply acting_to; try done; [|apply A|apply acting_rest|apply A]. apply stepped_same; [apply (sp_ready (ac_step _ _ _ _ _ A))|by eapply stepped_data, A].
Qed.
Definition lease_kept (st : dhcp_state_enum_t) s' : Prop :=
  exists d', netif_dhcp_data netif s' = Some d' /\ d_lease d' = d_lease d /\ (d_state d' = st \/ d_state d' = d_state d).
Lemma lease_kept_idle st : lease_kept st s.
Proof. exists d. split; [by eapply stepped_data, A|auto]. Qed.
Lemma act_t1 : (negotiating (d_state d) -> 0 < d_request_timeout d) -> exists s', t1_timeout netif s = Ret s' /\ served x s0 s' /\ lease_kept DHCP_STATE_RENEWING s'.
Proof.
  intros Ht. unfold dhcp_t1_timeout. rewrite (stepped_get (ac_step _ _ _ _ _ A)). cbn [res_bind]. destruct (bool_decide _); [|exists s; split; [done|split; [by apply acting_idle|apply lease_kept_idle]]].
  destruct (act_times DHCP_STATE_RENEWING _ (fun d => half_left (d_t2_timeout d) (d_lease_used d) >=? DHCP_NEXT_TIMEOUT_THRESHOLD)
    (fun d => u16 (half_left (d_t2_timeout d) (d_lease_used d))) d_t2_rebind_time act_renew) as (s' & E & Hs & d' & Hd' & L & Es); [by do 6 right; left|done| |].
  2:{ exists s'. split; [exact E|]. split; [done|]. exists d'. auto. }
  intros e He. pose proof (u16_range (half_left (d_t2_timeout e) (d_lease_used e))). client.
Qed.
Lemma act_t2 : (negotiating (d_state d) -> 0 < d_request_timeout d) -> exists s', t2_timeout netif s = Ret s' /\ served x s0 s' /\ lease_kept DHCP_STATE_REBINDING s'.
Proof.
  intros Ht. unfold dhcp_t2_timeout. rewrite (stepped_get (ac_step _ _ _ _ _ A)). cbn [res_bind]. destruct (bool_decide _); [|exists s; split; [done|split; [by apply acting_idle|apply lease_kept_idle]]].
  destruct (act_times DHCP_STATE_REBINDING _ (fun d => half_left (d_t0_timeout d) (d_lease_used d) >=? DHCP_NEXT_TIMEOUT_THRESHOLD)
    d_t1_renew_time (fun d => u16 (half_left (d_t0_timeout d) (d_lease_used d))) act_rebind) as (s' & E & Hs & d' & Hd' & L & Es); [by do 7 right; left|done| |].
  2:{ exists s'. split; [exact E|]. split; [done|]. exists d'. auto. }
  intros e He. pose proof (u16_range (half_left (d_t0_timeout e) (d_lease_used e))). client.
Qed.
End Act.

(** ** The periodic timers *)
(** A minute of a lease with an end: it is over, or there is one minute less. *)
Definition lease_tick (netif : Z) s s' : Prop := forall d, netif_dhcp_data netif s = Some d -> dhcp_supplied_address netif s = true ->
  d_lease_used d < d_t0_timeout d ->
  if d_lease_used d + 1 =? d_t0_timeout d then given_up netif s s'
  else exists d', netif_dhcp_data netif s' = Some d' /\ d_lease d' = (d_lease_used d + 1, d_t0_timeout d) /\ dhcp_supplied_address netif s' = true.
Lemma supplied_state netif s s' d d' : netif_dhcp_data netif s = Some d -> netif_dhcp_data netif s' = Some d' ->
  d_state d' = DHCP_STATE_RENEWING \/ d_state d' = DHCP_STATE_REBINDING \/ d_state d' = d_state d ->
  dhcp_supplied_address netif s = true -> dhcp_supplied_address netif s' = true.
Proof.
  intros Hd Hd' Hst. unfold dhcp_supplied_address. rewrite Hd, Hd'. destruct (_ =? NULL); [done|]. destruct Hst as [E|[E|E]]; by rewrite E.
Qed.
Lemma minute_ok d : client_ok d -> let d1 := if truth (d_t0_timeout d) then set_d_lease (u16 (d_lease_used d + 1)) (d_t0_timeout d) d else d in
  client_ok d1 /\ d_state d1 = d_state d /\ d_pcb_allocated d1 = d_pcb_allocated d /\ d_request_timeout d1 = d_request_timeout d /\
  (d_lease_used d < d_t0_timeout d -> truth (d_t0_timeout d1) = true /\ d_lease d1 = (d_lease_used d + 1, d_t0_timeout d)).
Proof.
  intros Hc. pose proof (u16_range (d_lease_used d + 1)). pose proof (co_used _ Hc) as R1. pose proof (co_t0 _ Hc) as R2. unfold is_u16 in *. unfold truth.
  destruct (Z.eqb_spec (d_t0_timeout d) 0) as [E|E]; cbn [negb]; split_and!; try done; try lia; [client|]. intros Hlt. cbn.
  rewrite (proj2 (Z.eqb_neq _ _) E). split; [done|]. unfold d_lease. cbn. by rewrite u16_small by lia.
Qed.
(** The timers T1 and T2 count down. *)
Lemma count_ok d t1 t2 : client_ok d -> is_u16 t1 -> is_u16 t2 -> client_ok (set_d_times t1 t2 d) /\ d_lease (set_d_times t1 t2 d) = d_lease d.
Proof. intros H H1 H2. split; [client|done]. Qed.
Lemma count_down (c : Z) : is_u16 c -> truth c = true -> is_u16 (c - 1).
Proof. unfold truth, is_u16. destruct (Z.eqb_spec c 0); [done|lia]. Qed.

Lemma coarse_spec x netif s : dhcp_inv x s -> exists s', coarse netif s = Ret s' /\ served x s s' /\ lease_tick netif s s'.
Proof.
  intros H. unfold coarse_netif. destruct (netif_dhcp_data netif s) as [d|] eqn:Hd; [|exists s; split; [done|]; split; [done|]; intros d; congruence].
  destruct (di_client _ _ _ _ _ _ _ _ _ H _ _ Hd) as (Hc & Hro & _). assert (dhcp_supplied_address netif s = true -> d_state d <> DHCP_STATE_OFF) as Hso.
  { unfold dhcp_supplied_address. rewrite Hd. destruct (_ =? NULL); [done|]. intros Hs E. by rewrite E in Hs. }
  destruct (decide (d_state d = DHCP_STATE_OFF)) as [Eo|Eo]; [exists s; split; [done|]; split; [done|]; intros e He Hs; exfalso; by apply Hso|].
  destruct (minute_ok d Hc) as (Hc1 & E1 & E2 & E3 & El). set (d1 := if truth (d_t0_timeout d) then _ else d) in *. clearbody d1.
  assert (forall e, d_state e = d_state d1 -> d_pcb_allocated e = d_pcb_allocated d1 -> client_ok e -> acting x netif s (dput netif e s) e) as Hact.
  { intros e F1 F2 He. eapply (acting_dput _ _ _ d); try done; congruence. }
  assert (forall e, netif_dhcp_data netif (dput netif e s) = Some e) as Hput by (intros e; unfold netif_dhcp_data; cbn; apply lookup_insert_eq).
  assert (negotiating (d_state d1) -> 0 < d_request_timeout d1) as Ht1 by (rewrite E1, E3; apply Hro).
  destruct (truth (d_t0_timeout d1) && _) eqn:Eend.
  { destruct (act_restart x netif s (dput netif d1 s) d1) as (s' & E & Hs & [G1 G2]); [by apply Hact|]. exists s'. split; [done|]. split; [done|]. intros e He Hsup Hlt.
    assert (e = d) as -> by congruence. destruct (El Hlt) as [_ [= F1 F2]]. apply andb_true_iff in Eend as [_ Eend]. rewrite F1, F2 in Eend. rewrite Eend. split; [done|]. intros _. apply G2.
    eapply (supplied_state netif s _ d d1); auto. }
  assert (forall s' st e, d_lease e = d_lease d1 -> d_state e = d_state d1 -> st = DHCP_STATE_RENEWING \/ st = DHCP_STATE_REBINDING -> lease_kept netif e st s' -> lease_tick netif s s') as Hkeep.
  { intros s' st e L1 S1 Hst (d' & Hd' & L & S) e' He' Hsup Hlt. assert (e' = d) as -> by congruence. destruct (El Hlt) as [Et El']. rewrite Et in Eend. cbn [andb] in Eend.
    pose proof El' as [= F1 F2]. rewrite F1, F2 in Eend. rewrite Eend. exists d'. split; [done|]. split; [congruence|]. eapply (supplied_state netif s s' d d'); try done.
    destruct S as [S|S]; [destruct Hst as [Hst|Hst]; rewrite Hst in S; auto|]. right. right. congruence. }
  set (d2 := if truth (d_t2_rebind_time d1) then _ else d1). pose proof (co_rebind _ Hc1) as R2. pose proof (co_renew _ Hc1) as R1.
  assert (client_ok d2 /\ d_lease d2 = d_lease d1) as [Hc2 L2] by (unfold d2; destruct (truth (d_t2_rebind_time d1)) eqn:E; [by apply count_ok; [| |apply count_down]|done]).
  assert (d_state d2 = d_state d1 /\ d_pcb_allocated d2 = d_pcb_allocated d1 /\ d_request_timeout d2 = d_request_timeout d1) as (F1 & F2 & F3) by (unfold d2; by destruct (truth (d_t2_rebind_time d1))). clearbody d2.
  destruct (_ =? 1).
  { destruct (act_t2 x netif s (dput netif d2 s) d2) as (s' & E & Hs & Hk); [by apply Hact|by rewrite F1, F3|]. exists s'. split; [done|]. split; [done|]. eapply Hkeep; [exact L2|exact F1|by right|exact Hk]. }
  set (d3 := if truth (d_t1_renew_time d2) then _ else d2). pose proof (co_renew _ Hc2) as R3. pose proof (co_rebind _ Hc2) as R4.
  assert (client_ok d3 /\ d_lease d3 = d_lease d1) as [Hc3 L3] by (rewrite <- L2; unfold d3; destruct (truth (d_t1_renew_time d2)) eqn:E; [by apply count_ok; [|apply count_down|]|done]).
  assert (d_state d3 = d_state d1 /\ d_pcb_allocated d3 = d_pcb_allocated d1 /\ d_request_timeout d3 = d_request_timeout d1) as (G1 & G2 & G3) by (unfold d3; by destruct (truth (d_t1_renew_time d2))). clearbody d3.
  assert (acting x netif s (dput netif d3 s) d3) as A3 by (by apply Hact). rewrite <- G1, <- G3 in Ht1.
  destruct (_ =? 1).
  - destruct (act_t1 _ _ _ _ _ A3 Ht1) as (s' & E & Hs & Hk). exists s'. split; [done|]. split; [done|]. eapply Hkeep; [exact L3|exact G1|by left|exact Hk].
  - eexists. split; [reflexivity|]. split; [by apply (acting_idle _ _ _ _ _ A3)|]. eapply Hkeep; [exact L3|exact G1|by left|]. by eapply lease_kept_idle.
Qed.
Lemma fine_spec x netif s : dhcp_inv x s -> exists s', fine netif s = Ret s' /\ served x s s'.
Proof.
  intros H. unfold fine_netif. destruct (netif_dhcp_data netif s) as [d|] eqn:Hd; [|by exists s]. destruct (di_client _ _ _ _ _ _ _ _ _ H _ _ Hd) as (Hc & Hro & Hin).
  pose proof (co_request _ Hc) as Rr. unfold is_u16 in Rr. set (e := set_d_neg _ _ _ d).
  destruct (decide (d_request_timeout d = 0)) as [E0|E0]; [by rewrite E0; exists s|].
  assert (client_ok e) as He by (unfold e; client).
  rewrite Z.gtb_ltb. destruct (Z.ltb_spec 1 (d_request_timeout d)).
  - eexists. split; [reflexivity|]. split; [|done].
    eapply inv_step; [exact H|exact Hd|apply (stepped_dput _ _ _ _ _ _ _ _ _ e), H|done| |done]. destruct Hro as [R1 R2 R3]. split; try done. cbn. lia.
  - rewrite (proj2 (Z.eqb_eq _ _)) by lia. destruct (decide (d_state d = DHCP_STATE_OFF)) as [Eo|Eo].
    + unfold dhcp_timeout, dget, netif_dhcp_data. cbn. rewrite lookup_insert_eq. cbn. rewrite Eo. cbn. eexists. split; [reflexivity|]. split; [|done].
      eapply inv_step; [exact H|exact Hd|apply (stepped_dput _ _ _ _ _ _ _ _ _ e), H|done| |done]. destruct Hro as [R1 R2 R3]. split; try done.
      cbn. rewrite Eo. unfold negotiating. rewrite !elem_of_cons, elem_of_nil. intuition discriminate.
    + apply (act_timeout x netif s (dput netif e s) e). by eapply (acting_dput _ _ _ d).
Qed.
Lemma for_netifs_spec (f : Z -> dst T -> res (dst T)) x l : (forall netif s, dhcp_inv x s -> exists s', f netif s = Ret s' /\ served x s s') ->
  forall s, dhcp_inv x s -> exists s', for_netifs f l s = Ret s' /\ served x s s'.
Proof.
  intros Hf. induction l as [|netif l IH]; intros s H; cbn [for_netifs]; [by exists s|].
  destruct (Hf netif s H) as (s1 & -> & H1). cbn [res_bind]. destruct (IH s1 (proj1 H1)) as (s2 & -> & H2). exists s2. split; [done|]. by eapply served_trans.
Qed.
Lemma coarse_tmr_spec x s : dhcp_inv x s ->
  exists s', dhcp_coarse_tmr custom_free malloc bmos ip4_frag tcp_netif_ip_addr_changed pcb_malloc rand mem_malloc s = Ret s' /\ served x s s'.
Proof. intros H. apply for_netifs_spec; [|done]. intros netif s1 H1. destruct (coarse_spec x netif s1 H1) as (s2 & E & Hs & _). by exists s2. Qed.
Lemma fine_tmr_spec x s : dhcp_inv x s ->
  exists s', dhcp_fine_tmr custom_free malloc bmos ip4_frag tcp_netif_ip_addr_changed pcb_malloc rand mem_malloc s = Ret s' /\ served x s s'.
Proof. intros H. apply for_netifs_spec; [|done]. intros. by apply fine_spec. Qed.

(** ** The link *)
Lemma inv_stack x s k : dhcp_inv x s -> stack_ok custom_free malloc Hmalloc bmos Hbmos known good x k -> netif_list (k_nf k) = netif_list (k_nf (dk s)) ->
  k_client k = k_client (dk s) -> k_udp k = k_udp (dk s) -> served x s (set_dk k s).
Proof.
  intros H [S1 S2 S3 S4 S5] E1 E2 E3. split; [|done]. destruct H as [[[N1 N2 N3 N4 N5 N6] Hg] H2 H3 H4 H5]. split.
  - split; [by split|done].
  - unfold pcb_ok, pcb_live in *. cbn. by rewrite E3.
  - cbn. by rewrite E2.
  - intros a d. unfold netif_dhcp_data. cbn. rewrite E1, E2. apply H4.
  - cbn. by rewrite E1.
Qed.
Lemma inv_stack_ok x s : dhcp_inv x s -> stack_ok custom_free malloc Hmalloc bmos Hbmos known good x (dk s).
Proof. intros H. by apply ready_stack, H. Qed.
Lemma changed_link_up_spec x netif s : dhcp_inv x s ->
  exists s', dhcp_network_changed_link_up custom_free malloc bmos ip4_frag rand netif s = Ret s' /\ served x s s'.
Proof.
  intros H. unfold dhcp_network_changed_link_up. destruct (netif_dhcp_data netif s) as [d|] eqn:Hd; [|by exists s].
  destruct (di_client _ _ _ _ _ _ _ _ _ H _ _ Hd) as (Hc & Hro & Hin). set (e := set_d_neg _ _ _ d). assert (client_ok e) as He by (unfold e; client).
  assert (d_state d <> DHCP_STATE_OFF -> acting x netif s (dput netif e s) e) as A by (intros Ho; by eapply (acting_dput _ _ _ d)).
  destruct (bool_decide _) eqn:Eb.
  - destruct (act_reboot x netif s (dput netif e s) e) as (err & s' & -> & Hs); [|by exists s']. apply A. intros E. rewrite E in Eb. discriminate Eb.
  - destruct (decide (d_state d = DHCP_STATE_OFF)) as [Eo|Eo]; [by exists s|].
    destruct (act_discover x netif s (dput netif e s) e) as (err & s' & -> & Hs); [by apply A|by exists s'].
Qed.
Lemma flags_ok f n : nif_ok n -> nif_ok (netif_set_flags f n) /\ nif_ok (netif_clear_flags f n).
Proof. intros [N1 N2 N3 N4 N5]. split; by split. Qed.
Lemma link_up_spec x netif s : dhcp_inv x s -> netif ∈ netif_list (k_nf (dk s)) ->
  exists s', netif_set_link_up custom_free malloc bmos ip4_frag rand netif s = Ret s' /\ served x s s'.
Proof.
  intros H Hin. unfold netif_set_link_up. destruct (_ =? NULL); [by exists s|]. destruct (inv_at _ _ _ _ _ _ _ _ _ _ H Hin) as (n & Hn). unfold kget. rewrite Hn. cbn [res_of_option res_bind].
  destruct (negb _); [|by exists s]. pose proof (inv_stack_ok _ _ H) as Sk.
  assert (served x s (set_dk (kset netif (netif_set_flags NETIF_FLAG_LINK_UP n) (dk s)) s)) as H1.
  { apply inv_stack; try done. eapply kset_ok; try done. apply flags_ok. by eapply (so_nif _ _ _ _ _ _ _ _ _ Sk). }
  destruct (changed_link_up_spec x netif _ (proj1 H1)) as (s2 & -> & H2). cbn [res_bind]. pose proof (served_trans _ _ _ _ H1 H2) as H3.
  destruct (inv_at _ _ _ _ _ _ _ _ s2 netif (proj1 H3)) as (n2 & Hn2); [by rewrite (proj2 H3)|]. pose proof (inv_stack_ok _ _ (proj1 H3)) as Sk2.
  destruct (issue_reports_spec custom_free malloc Hmalloc bmos Hbmos known known_null good x (dk s2) netif n2 (Z.lor NETIF_REPORT_TYPE_IPV4 NETIF_REPORT_TYPE_IPV6) Sk2 Hn2) as (i & -> & Hi).
  cbn [res_bind]. eexists. split; [reflexivity|]. eapply served_trans; [exact H3|]. apply inv_stack; try done; [apply H3|]. destruct Sk2 as [S1 S2 S3 S4 S5]. by split.
Qed.
Lemma link_down_spec x netif s : dhcp_inv x s -> netif ∈ netif_list (k_nf (dk s)) -> exists s', netif_set_link_down netif s = Ret s' /\ served x s s'.
Proof.
  intros H Hin. unfold netif_set_link_down. destruct (_ =? NULL); [by exists s|]. destruct (inv_at _ _ _ _ _ _ _ _ _ _ H Hin) as (n & Hn). unfold kget. rewrite Hn. cbn [res_of_option res_bind].
  eexists. split; [reflexivity|]. destruct (netif_is_link_up n); [|done]. pose proof (inv_stack_ok _ _ H) as Sk.
  apply inv_stack; try done. eapply kset_ok; try done. apply flags_ok. by eapply (so_nif _ _ _ _ _ _ _ _ _ Sk).
Qed.

(** ** Replies *)
Abbreviation recv := (dhcp_recv custom_free malloc bmos ip4_frag tcp_netif_ip_addr_changed rand).
Lemma inv_ip x y s i : dhcp_inv x s -> arp_ok known y (ip_arp i) -> served y s (set_s_ip i s).
Proof. intros [[[N1 N2 N3 N4 N5 N6] Hg] H2 H3 H4 H5] Hi. split; [|done]. by split; [split; [split|]|..]. Qed.
Lemma inv_rx x s rx : dhcp_inv x s -> rx_ok rx -> served x s (set_rx rx s).
Proof. intros [[[N1 N2 N3 N4 N5 N6] Hg] H2 H3 H4 H5] Hi. split; [|done]. by split; [split; [split|]|..]. Qed.
(** The common end: the packet is freed. *)
Lemma freed x p s0 s : served (p :: x) s0 s -> exists s', (let* i := ip_free custom_free p (s_ip s) in Ret (set_s_ip i s)) = Ret s' /\ served x s0 s' /\
  k_nf (dk s') = k_nf (dk s) /\ k_client (dk s') = k_client (dk s).
Proof.
  intros [H E]. destruct (ip_free_spec custom_free malloc Hmalloc bmos Hbmos known (s_ip s) p x) as (i & -> & Hi & _); [apply H|]. cbn [res_bind].
  eexists. split; [reflexivity|]. split; [|done]. split; [by apply (inv_ip (p :: x) x s i H)|done].
Qed.
Lemma field_u32 m a o : mem_ok m -> is_u32 (field m a o 4).
Proof. apply u32_field. Qed.

(** The reply in [b] is for the client [d] of the interface [n]. *)
Definition addressed (m : memory) (b : pbuf) (n : nif) (d : dhcp) : Prop :=
  d_pcb_allocated d = true /\ DHCP_MIN_REPLY_LEN <= p_len b /\ field m (payload b) 0 1 = DHCP_BOOTREPLY /\ chaddr_matches m (payload b) n = true /\
  lwip_htonl (field m (payload b) 4 4) = d_xid d.
Definition awaits_ack (st : dhcp_state_enum_t) : Prop := st ∈ [DHCP_STATE_REQUESTING; DHCP_STATE_REBOOTING; DHCP_STATE_REBINDING; DHCP_STATE_RENEWING].
(** What a reply of type [msg_type] does to a client. *)
Inductive replied (msg_type : Z) (rx : rx_options) (yiaddr : Z) (n : nif) (d : dhcp) (n' : nif) (d' : dhcp) : Prop :=
  | reply_ack : msg_type = DHCP_ACK -> awaits_ack (d_state d) ->
      d' = dhcp_set_state DHCP_STATE_BOUND (bind_timers (dhcp_handle_ack rx yiaddr d)) ->
      n' = set_if_addrs yiaddr (bind_mask (dhcp_handle_ack rx yiaddr d)) (d_offered_gw_addr (dhcp_handle_ack rx yiaddr d)) n -> replied msg_type rx yiaddr n d n' d'
  | reply_nak : msg_type = DHCP_NAK -> awaits_ack (d_state d) ->
      d_state d' = DHCP_STATE_SELECTING -> n' = set_if_addrs IPADDR_ANY IPADDR_ANY IPADDR_ANY n -> replied msg_type rx yiaddr n d n' d'
  | reply_offer : msg_type = DHCP_OFFER -> d_state d = DHCP_STATE_SELECTING -> dhcp_option_given rx DHCP_OPTION_IDX_SERVER_ID = true ->
      d_state d' = DHCP_STATE_REQUESTING -> d_offered_ip_addr d' = yiaddr ->
      d_server_ip_addr d' = lwip_htonl (dhcp_get_option_value rx DHCP_OPTION_IDX_SERVER_ID) -> n' = n -> replied msg_type rx yiaddr n d n' d'
  | reply_ignored : d' = d -> n' = n -> (msg_type = DHCP_ACK \/ msg_type = DHCP_NAK -> ~ awaits_ack (d_state d)) ->
      (msg_type = DHCP_OFFER -> d_state d <> DHCP_STATE_SELECTING \/ dhcp_option_given rx DHCP_OPTION_IDX_SERVER_ID = false) -> replied msg_type rx yiaddr n d n' d'.

Lemma bind_timers_mask d : bind_mask (bind_timers d) = bind_mask d.
Proof. unfold bind_timers. by repeat case_match. Qed.

Section Reply.
Variable x : list Z.
Variable p : Z.
Variable g : ip_globals.
Variable n : nif.
Variable s : dst T.
Variable b : pbuf.
Variable d : dhcp.
Let netif := current_input_netif g.
Let m := pmem (ip_heap (s_ip s)).
Let yiaddr := field m (payload b) 16 4.
Context (H : dhcp_inv (p :: x) s) (Hn : nf_at (k_nf (dk s)) netif = Some n) (Hd : netif_dhcp_data netif s = Some d) (Hm : mem_ok m) (Ha : d_pcb_allocated d = true).

Lemma reply_on : d_state d <> DHCP_STATE_OFF.
Proof. intros E. destruct (di_client _ _ _ _ _ _ _ _ _ H _ _ Hd) as (_ & Hro & _). pose proof (ro_pcb _ Hro) as Hp. rewrite E, Ha in Hp. discriminate Hp. Qed.

(** What is done with the type and the options of a reply, before it is freed. *)
Lemma dispatch_spec rx : rx_ok rx -> let msg_type := u8 (dhcp_get_option_value rx DHCP_OPTION_IDX_MSG_TYPE) in
  let in_state l := bool_decide (d_state d ∈ l) in
  exists s', (if msg_type =? DHCP_ACK then
      if in_state [DHCP_STATE_REQUESTING; DHCP_STATE_REBOOTING] || in_state [DHCP_STATE_REBINDING; DHCP_STATE_RENEWING]
      then dhcp_bind custom_free malloc bmos tcp_netif_ip_addr_changed netif (dput netif (dhcp_handle_ack rx yiaddr d) (set_rx rx s))
      else Ret (set_rx rx s)
    else if (msg_type =? DHCP_NAK) && in_state [DHCP_STATE_REBOOTING; DHCP_STATE_REQUESTING; DHCP_STATE_REBINDING; DHCP_STATE_RENEWING]
    then dhcp_handle_nak custom_free malloc bmos ip4_frag tcp_netif_ip_addr_changed rand netif (set_rx rx s)
    else if (msg_type =? DHCP_OFFER) && in_state [DHCP_STATE_SELECTING] then dhcp_handle_offer custom_free malloc bmos ip4_frag rand netif yiaddr (set_rx rx s)
    else Ret (set_rx rx s)) = Ret s' /\ served (p :: x) s s' /\
    exists n' d', nf_at (k_nf (dk s')) netif = Some n' /\ netif_dhcp_data netif s' = Some d' /\ replied msg_type rx yiaddr n d n' d'.
Proof.
  intros Hrx msg_type in_state. pose proof (inv_rx (p :: x) s rx H Hrx) as Hs. pose proof (acting_here _ netif (set_rx rx s) d (proj1 Hs) Hd reply_on) as A.
  pose proof (sp_ready (ac_step _ _ _ _ _ A)) as Hr. pose proof (acting_live _ _ _ _ _ A) as Hl. pose proof (ac_ok _ _ _ _ _ A) as Hc.
  assert (is_u32 yiaddr) as Hy by (by apply field_u32).
  assert (in_state [DHCP_STATE_REQUESTING; DHCP_STATE_REBOOTING] || in_state [DHCP_STATE_REBINDING; DHCP_STATE_RENEWING] = bool_decide (awaits_ack (d_state d))) as -> by (unfold in_state; by destruct (d_state d)).
  assert (in_state [DHCP_STATE_REBOOTING; DHCP_STATE_REQUESTING; DHCP_STATE_REBINDING; DHCP_STATE_RENEWING] = bool_decide (awaits_ack (d_state d))) as -> by (unfold in_state; by destruct (d_state d)).
  assert (forall Q : Prop, Q -> served (p :: x) s (set_rx rx s) /\ Q) as Hidle by done. clearbody msg_type.
  destruct (Z.eqb_spec msg_type DHCP_ACK) as [E1|E1].
  { destruct (bool_decide _) eqn:Ew; [apply bool_decide_eq_true in Ew|apply bool_decide_eq_false in Ew].
    - pose proof (handle_ack_ok rx yiaddr d Hrx Hy Hc) as Hca. set (da := dhcp_handle_ack rx yiaddr d) in *.
      pose proof (stepped_dput custom_free malloc Hmalloc bmos Hbmos known good (p :: x) netif da _ Hr) as S0.
      destruct (bind_spec custom_free malloc Hmalloc bmos Hbmos known known_null good _ Htcp (p :: x) netif n (dput netif da (set_rx rx s)) da)
        as (s' & -> & S & C & Hat); [apply S0|done|by eapply stepped_data|done|].
      exists s'. split; [done|]. split.
      + eapply served_trans; [exact Hs|]. eapply (acting_to _ _ _ _ _ A); [by eapply stepped_trans|done| | | |]; rewrite ?set_state_state; try done.
        * rewrite set_state_pcb. unfold bind_timers. by repeat case_match.
        * by do 5 right; left.
        * unfold negotiating. rewrite !elem_of_cons, elem_of_nil. intuition discriminate.
      + eexists _, _. split; [exact Hat|]. split; [by eapply stepped_data|]. apply reply_ack; try done. by rewrite bind_timers_mask.
    - eexists. split; [reflexivity|]. split; [done|]. exists n, d. split; [done|]. split; [done|]. apply reply_ignored; try done. intros E. rewrite E1 in E. discriminate E. }
  destruct ((msg_type =? DHCP_NAK) && _) eqn:E2.
  { apply andb_true_iff in E2 as [E2%Z.eqb_eq Ew%bool_decide_eq_true].
    destruct (handle_nak_spec custom_free malloc Hmalloc bmos Hbmos known known_null ip4_frag Hfrag good _ Htcp rand (p :: x) netif n (set_rx rx s) d Hr Hl Hn Hd Hc)
      as (d' & s' & -> & S & C1 & C2 & C3 & C4 & C5). exists s'. split; [done|]. split.
    - eapply served_trans; [exact Hs|]. eapply (acting_to _ _ _ _ _ A); try done; rewrite C2; [by do 2 right; left|done].
    - eexists _, _. split; [exact C5|]. split; [by eapply stepped_data|]. by apply reply_nak. }
  destruct ((msg_type =? DHCP_OFFER) && _) eqn:E3.
  { apply andb_true_iff in E3 as [E3%Z.eqb_eq Ew%bool_decide_eq_true]. apply list_elem_of_singleton in Ew.
    destruct (handle_offer_spec custom_free malloc Hmalloc bmos Hbmos known known_null ip4_frag Hfrag good rand (p :: x) netif n (set_rx rx s) d yiaddr Hr Hl Hn Hd Hc Hy)
      as (s' & -> & [[Eg ->]|(d' & S & C1 & C2 & C3 & C4 & C5 & C6 & C7 & C8)]); eexists; (split; [reflexivity|]).
    - split; [done|]. exists n, d. split; [done|]. split; [done|]. apply reply_ignored; try done; [|by right]. by intros [-> | ->].
    - split.
      + eapply served_trans; [exact Hs|]. eapply (acting_to _ _ _ _ _ A); try done; rewrite C2; [by do 3 right; left|done].
      + exists n, d'. split; [by rewrite C6|]. split; [by eapply stepped_data|]. by apply reply_offer. }
  eexists. split; [reflexivity|]. split; [done|]. exists n, d. split; [done|]. split; [done|]. apply andb_false_iff in E2, E3. apply reply_ignored; try done.
  - intros [?|?]; [done|]. destruct E2 as [E2|E2]; [by apply Z.eqb_neq in E2|by apply bool_decide_eq_false in E2].
  - intros ?. left. destruct E3 as [E3|E3]; [by apply Z.eqb_neq in E3|]. apply bool_decide_eq_false in E3. intros Eq. apply E3. rewrite Eq. by left.
Qed.
End Reply.

(** A reply for the client, with a message type, is acted on. *)
Lemma recv_addressed x p g b data n s d rx : let netif := current_input_netif g in let m := pmem (ip_heap (s_ip s)) in
  dhcp_inv (p :: x) s -> single (ip_heap (s_ip s)) p b data -> nf_at (k_nf (dk s)) netif = Some n ->
  netif_dhcp_data netif s = Some d -> addressed m b n d -> dhcp_parse_reply p (dhcp_rx s) (ip_heap (s_ip s)) = Ret (ERR_OK, rx) ->
  dhcp_option_given rx DHCP_OPTION_IDX_MSG_TYPE = true ->
  exists s' d' n', recv p g s = Ret s' /\ served x s s' /\ nf_at (k_nf (dk s')) netif = Some n' /\ netif_dhcp_data netif s' = Some d' /\
    replied (u8 (dhcp_get_option_value rx DHCP_OPTION_IDX_MSG_TYPE)) rx (field m (payload b) 16 4) n d n' d'.
Proof.
  intros netif m H Hs Hn Hd (A1 & A2 & A3 & A4 & A5) Ep Et.
  assert (rx_ok rx) as Hrx.
  { destruct (parse_reply_total _ _ _ _ Hs (dhcp_rx s)) as (e & rx' & E & Hr); [apply H|]. rewrite Ep in E. by injection E as _ ->. }
  destruct (dispatch_spec x p g n s b d H Hn Hd (sg_mem _ _ _ _ Hs) A1 rx Hrx) as (s1 & E1 & S1 & n' & d' & Hn' & Hd' & R).
  destruct (freed x p s s1 S1) as (s' & E2 & S2 & F1 & F2). exists s', d', n'. split; [|split; [done|split; [by rewrite F1|split; [unfold netif_dhcp_data; by rewrite F2|done]]]].
  unfold dhcp_recv, kget. unfold netif, m in *. rewrite Hn, (sg_pget _ _ _ _ Hs). cbn [res_of_option res_bind]. rewrite Hd, A1, (proj2 (Z.ltb_ge _ _) A2), A3, A4, A5, !Z.eqb_refl. cbn [negb]. cbv iota. rewrite Ep. cbn [res_bind]. change (negb (ERR_OK =? ERR_OK)) with false. cbv iota. rewrite Et. cbn [negb].
  cbv zeta in E1 |- *. rewrite E1. cbn [res_bind]. exact E2.
Qed.
Lemma recv_spec x p g b data n s : let netif := current_input_netif g in let m := pmem (ip_heap (s_ip s)) in
  dhcp_inv (p :: x) s -> single (ip_heap (s_ip s)) p b data -> nf_at (k_nf (dk s)) netif = Some n ->
  exists s', recv p g s = Ret s' /\ served x s s' /\
    (k_nf (dk s') = k_nf (dk s) /\ k_client (dk s') = k_client (dk s) \/
     exists d d' n' rx, netif_dhcp_data netif s = Some d /\ addressed m b n d /\ dhcp_parse_reply p (dhcp_rx s) (ip_heap (s_ip s)) = Ret (ERR_OK, rx) /\
       dhcp_option_given rx DHCP_OPTION_IDX_MSG_TYPE = true /\ nf_at (k_nf (dk s')) netif = Some n' /\ netif_dhcp_data netif s' = Some d' /\
       replied (u8 (dhcp_get_option_value rx DHCP_OPTION_IDX_MSG_TYPE)) rx (field m (payload b) 16 4) n d n' d').
Proof.
  intros netif m H Hs Hn. assert (served (p :: x) s s) as H0 by done.
  assert (forall s1, served (p :: x) s s1 -> k_nf (dk s1) = k_nf (dk s) -> k_client (dk s1) = k_client (dk s) ->
    exists s', (let* i := ip_free custom_free p (s_ip s1) in Ret (set_s_ip i s1)) = Ret s' /\ served x s s' /\ k_nf (dk s') = k_nf (dk s) /\ k_client (dk s') = k_client (dk s)) as Hdrop.
  { intros s1 H1 E1 E2. destruct (freed x p s s1 H1) as (s' & E & F & F1 & F2). exists s'. split; [done|]. split; [done|]. split; congruence. }
  unfold dhcp_recv, kget. fold netif. rewrite Hn, (sg_pget _ _ _ _ Hs). cbn [res_of_option res_bind].
  destruct (Hdrop s H0 eq_refl eq_refl) as (sd & Ed & Sd & D1 & D2).
  assert (forall (C : bool) run Q, (C = false -> exists s', run = Ret s' /\ served x s s' /\ (k_nf (dk s') = k_nf (dk s) /\ k_client (dk s') = k_client (dk s) \/ Q s')) ->
    exists s', (if C then (let* i := ip_free custom_free p (s_ip s) in Ret (set_s_ip i s)) else run) = Ret s' /\ served x s s' /\
      (k_nf (dk s') = k_nf (dk s) /\ k_client (dk s') = k_client (dk s) \/ Q s')) as Hif.
  { intros [] run Q Hq; [|by apply Hq]. exists sd. split; [done|]. split; [done|]. by left. }
  destruct (netif_dhcp_data netif s) as [d|] eqn:Hd; [|exists sd; split; [done|]; split; [done|]; by left].
  apply Hif. intros C1%negb_false_iff. apply Hif. intros C2%Z.ltb_ge. apply Hif. intros C3%negb_false_iff%Z.eqb_eq.
  apply Hif. intros C4%negb_false_iff. apply Hif. intros C5%negb_false_iff%Z.eqb_eq.
  destruct (parse_reply_total _ _ _ _ Hs (dhcp_rx s)) as (err & rx & Ep & Hrx); [apply H|].
  destruct ((err =? ERR_OK) && dhcp_option_given rx DHCP_OPTION_IDX_MSG_TYPE) eqn:Eg.
  - apply andb_true_iff in Eg as [->%Z.eqb_eq Eg]. assert (addressed m b n d) as Had by done.
    destruct (recv_addressed x p g b data n s d rx H Hs Hn Hd Had Ep Eg) as (s' & d' & n' & E & S & Hn' & Hd' & R). exists s'. split.
    + rewrite <- E. unfold dhcp_recv, kget. fold netif. rewrite Hn, (sg_pget _ _ _ _ Hs). cbn [res_of_option res_bind]. rewrite Hd, C1, (proj2 (Z.ltb_ge _ _) C2), C3, C4, C5, !Z.eqb_refl. done.
    + split; [done|]. right. by exists d, d', n', rx.
  - rewrite Ep. cbn [res_bind]. destruct (Hdrop (set_rx rx s)) as (s' & E & S & F1 & F2); [by apply inv_rx|done..|]. exists s'.
    split; [|split; [done|by left]]. apply andb_false_iff in Eg as [Eg|Eg]; rewrite Eg; cbn [negb]; [done|]. by destruct (negb _).
Qed.

(** ** Sequences of events *)
Definition event_run (e : dhcp_event) s : res (dst T) :=
  match e with
  | EStart netif => let* (_, s) := start netif s in Ret s
  | ERenew netif => let* (_, s) := dhcp_renew custom_free malloc bmos ip4_frag rand netif s in Ret s
  | EStop netif => dhcp_stop custom_free malloc bmos ip4_frag tcp_netif_ip_addr_changed rand netif s
  | ERelease netif => let* (_, s) := dhcp_release custom_free malloc bmos ip4_frag tcp_netif_ip_addr_changed rand netif s in Ret s
  | EInform netif => dhcp_inform custom_free malloc bmos ip4_frag pcb_malloc rand netif s
  | ESetStruct netif => dhcp_set_struct netif s
  | ECleanup netif => let* (_, s) := dhcp_cleanup netif s in Ret s
  | ECoarse => dhcp_coarse_tmr custom_free malloc bmos ip4_frag tcp_netif_ip_addr_changed pcb_malloc rand mem_malloc s
  | EFine => dhcp_fine_tmr custom_free malloc bmos ip4_frag tcp_netif_ip_addr_changed pcb_malloc rand mem_malloc s
  | ELinkUp netif => netif_set_link_up custom_free malloc bmos ip4_frag rand netif s
  | ELinkDown netif => netif_set_link_down netif s
  | EReply i p g => recv p g (set_s_ip i s)
  end.
(** The interface is registered; a struct is set where there is none, and taken
    away when the client is stopped; a client that is asked to renew is not off;
    a reply is in one pbuf. *)
Definition event_ok (e : dhcp_event) s : Prop :=
  match e with
  | EStart netif | EInform netif | ELinkUp netif | ELinkDown netif => netif ∈ netif_list (k_nf (dk s))
  | ERenew netif => exists d, netif_dhcp_data netif s = Some d /\ d_state d <> DHCP_STATE_OFF
  | ESetStruct netif => netif ∈ netif_list (k_nf (dk s)) /\ netif_dhcp_data netif s = None
  | ECleanup netif => netif ∈ netif_list (k_nf (dk s)) /\ (forall d, netif_dhcp_data netif s = Some d -> d_state d = DHCP_STATE_OFF)
  | EStop _ | ERelease _ | ECoarse | EFine => True
  | EReply i p g => arp_ok known [p] (ip_arp i) /\ (exists b data, single (ip_heap i) p b data) /\ is_Some (nf_at (k_nf (dk s)) (current_input_netif g))
  end.
Fixpoint events_run (es : list dhcp_event) s : res (dst T) :=
  match es with
  | [] => Ret s
  | e :: es => let* s := event_run e s in events_run es s
  end.
Fixpoint events_ok (es : list dhcp_event) s : Prop :=
  match es with
  | [] => True
  | e :: es => event_ok e s /\ forall s', event_run e s = Ret s' -> events_ok es s'
  end.

Lemma inv_null x s netif : dhcp_inv x s -> netif ∈ netif_list (k_nf (dk s)) -> (netif =? NULL) = false.
Proof. intros H Hin. destruct (inv_at _ _ _ _ _ _ _ _ _ _ H Hin) as (n & Hn). apply Z.eqb_neq. by eapply one_null, Hn; [|apply H]. Qed.
Lemma set_struct_spec x netif s : dhcp_inv x s -> event_ok (ESetStruct netif) s -> exists s', dhcp_set_struct netif s = Ret s' /\ served x s s'.
Proof.
  intros H [Hin Hd]. unfold dhcp_set_struct. rewrite (inv_null _ _ _ H Hin), Hd. cbn [negb lwip_assert]. eexists. split; [reflexivity|]. split; [|done].
  eapply (inv_insert _ _ _ _ _ _ _ x s _ netif); [exact H|exact Hin|by apply dput_ready, H|apply H|done|done| |..].
  - pose proof zero_client as Hz. client. by vm_compute.
  - split; cbn; [by left|done|]. unfold negotiating. rewrite !elem_of_cons, elem_of_nil. intuition discriminate.
  - cbn. rewrite (di_users _ _ _ _ _ _ _ _ _ H). rewrite delete_id by done. lia.
Qed.
Lemma dhcp_cleanup_spec x netif s : dhcp_inv x s -> event_ok (ECleanup netif) s -> exists b s', dhcp_cleanup netif s = Ret (b, s') /\ served x s s'.
Proof.
  intros H [Hin Hd]. unfold dhcp_cleanup. rewrite (inv_null _ _ _ H Hin). cbn [negb lwip_assert]. destruct (netif_dhcp_data netif s) as [d|] eqn:Ed; [|by eexists _, _].
  eexists _, _. split; [reflexivity|]. split; [|done]. destruct (di_client _ _ _ _ _ _ _ _ _ H _ _ Ed) as (_ & Hro & _).
  destruct H as [[[N1 N2 N3 N4 N5 N6] Hg] H2 H3 H4 H5]. split; [by split; [split|]|done| | |done].
  - assert (d_pcb_allocated d = false) as Ea by (rewrite (ro_pcb _ Hro), (Hd d eq_refl); done).
    cbn. rewrite H3, (users_lookup _ _ _ Ed), Ea. apply Z.add_0_r.
  - intros a e. unfold netif_dhcp_data. cbn. intros [_ He]%lookup_delete_Some. by apply H4.
Qed.

Lemma event_spec e s : dhcp_inv [] s -> event_ok e s -> exists s', event_run e s = Ret s' /\ served [] s s'.
Proof.
  intros H Hok. destruct e as [netif|netif|netif|netif|netif|netif|netif| | |netif|netif|i p g]; cbn [event_run event_ok] in *.
  - destruct (start_spec custom_free malloc Hmalloc bmos Hbmos known known_null ip4_frag Hfrag good tcp_netif_ip_addr_changed pcb_malloc Hpcb rand mem_malloc [] netif s H Hok)
      as (err & s' & -> & I & L & _). exists s'. split; [done|]. split; [done|]. by rewrite L.
  - destruct Hok as (d & Hd & Ho). pose proof (acting_here [] netif s d H Hd Ho) as A.
    destruct (acting_request _ _ _ _ _ A _ _ (act_renew _ _ _ _ _ A)) as (err & s' & -> & S); [by do 6 right; left|done|]. by exists s'.
  - destruct (release_spec custom_free malloc Hmalloc bmos Hbmos known known_null ip4_frag Hfrag good _ Htcp rand [] netif s H) as (s' & E & I & L & _). by exists s'.
  - unfold dhcp_release. destruct (release_spec custom_free malloc Hmalloc bmos Hbmos known known_null ip4_frag Hfrag good _ Htcp rand [] netif s H) as (s' & -> & I & L & _). by exists s'.
  - destruct (inform_spec custom_free malloc Hmalloc bmos Hbmos known known_null ip4_frag Hfrag good pcb_malloc Hpcb rand [] netif s H Hok) as (s' & E & I & L & _). by exists s'.
  - by apply set_struct_spec.
  - destruct (dhcp_cleanup_spec [] netif s H Hok) as (b & s' & -> & I). by exists s'.
  - by apply coarse_tmr_spec.
  - by apply fine_tmr_spec.
  - by apply link_up_spec.
  - by apply link_down_spec.
  - destruct Hok as (Hi & (b & data & Hs) & [n Hn]). pose proof (inv_ip [] [p] s i H Hi) as H1.
    destruct (recv_spec [] p g b data n (set_s_ip i s) (proj1 H1) Hs Hn) as (s' & -> & S & _). exists s'. split; [done|]. split; [apply S|]. by rewrite (proj2 S), (proj2 H1).
Qed.
Lemma events_spec es : forall s, dhcp_inv [] s -> events_ok es s -> exists s', events_run es s = Ret s' /\ served [] s s'.
Proof.
  induction es as [|e es IH]; intros s H Hok; cbn [events_run]; [by exists s|]. destruct Hok as [H1 H2]. destruct (event_spec e s H H1) as (s1 & E & S1). rewrite E. cbn [res_bind].
  destruct (IH s1 (proj1 S1) (H2 _ E)) as (s2 & -> & S2). exists s2. split; [done|]. by eapply served_trans.
Qed.
End Events.
