(* ===== verification/DhcpTheorems.v ===== *)
(** * The DHCP client: theorems *)
From S2P Require Import Prelude NetShim Ip4Addr Link Etharp EtharpInv EtharpTheorems Pbuf PbufChain PbufOps NetGlue Ethernet EthernetInv EthernetRx EthernetTheorems Ip4 Icmp Ip4Input Ip4Inv IcmpInv Ip4Hdr Ip4Send Ip4Theorems Udp UdpInv UdpSend UdpTheorems Netif NetifInv NetifTheorems DhcpParse DhcpOptions Dhcp DhcpMsg DhcpSend DhcpInv DhcpOps DhcpSafe DhcpEvents.

(** ** Options *)

(** C19. Options survive the wire: for a reply in one pbuf whose options field,
    and whose file and sname fields if the overload option says so, hold
    encoded options and an end mark, dhcp_parse_reply returns ERR_OK, and the
    values are those of the first option of each kind, in the order options,
    file, sname, whatever other options and padding are in between. *)
Theorem dhcp_options_roundtrip h p b data its rx : single h p b data ->
  holds_options data DHCP_OPTIONS_OFS (p_len b - DHCP_OPTIONS_OFS) (its DHCP_OPTIONS_OFS) ->
  Forall (fun f => holds_options data f.1 f.2 (its f.1)) (rfc_fields (collect (dhcp_clear_all_options rx) (its DHCP_OPTIONS_OFS))) ->
  dhcp_parse_reply p rx h = Ret (ERR_OK, reply_values its rx).
Proof. exact (fun Hs => parse_reply_items h p b data Hs its rx). Qed.


(** ** Leases *)

(** Seconds as whole minutes, rounded, at least one and at most 65535. *)
Definition minutes_of (secs : Z) : Z := Z.max 1 (Z.min 65535 ((secs + 30) / 60)).
Lemma timeout_minutes v : 0 <= v < 0xffffffe2 -> SET_TIMEOUT_FROM_OFFERED v 0 0xffff = minutes_of v.
Proof.
  intros Hv. unfold SET_TIMEOUT_FROM_OFFERED, minutes_of. change DHCP_COARSE_TIMER_SECS with 60. change (60 / 2) with 30. rewrite u32_small by lia.
  set (t := (v + 30) / 60). assert (0 <= t) as Ht by (apply Z.div_pos; lia). clearbody t. rewrite Z.gtb_ltb.
  destruct (Z.ltb_spec 65535 t); [change (65535 =? 0) with false; cbv iota; rewrite u16_small by lia; lia|].
  destruct (Z.eqb_spec t 0); rewrite u16_small by lia; lia.
Qed.
Lemma timeout_wraps v : 0xffffffe2 <= v < 4294967296 -> SET_TIMEOUT_FROM_OFFERED v 0 0xffff = 1.
Proof.
  intros Hv. unfold SET_TIMEOUT_FROM_OFFERED. change DHCP_COARSE_TIMER_SECS with 60. change (60 / 2) with 30.
  assert (u32 (v + 30) = v + 30 - 4294967296) as ->.
  { rewrite <- (u32_small (v + 30 - 4294967296)) by lia. unfold u32. replace (v + 30) with (v + 30 - 4294967296 + 1 * 4294967296) at 1 by lia. by rewrite Z.mod_add. }
  rewrite Z.div_small by lia. done.
Qed.
Lemma minutes_mono a b : a <= b -> minutes_of a <= minutes_of b.
Proof. intros H. unfold minutes_of. pose proof (Z.div_le_mono (a + 30) (b + 30) 60). lia. Qed.
(** A minute apart, and before the cap: the minutes differ. *)
Lemma minutes_lt a b : a + 60 <= b -> 30 <= a < 3932070 -> minutes_of a < minutes_of b.
Proof.
  intros H Ha. unfold minutes_of. assert ((a + 30) / 60 + 1 <= (b + 30) / 60) as H1.
  { replace ((a + 30) / 60 + 1) with ((a + 30 + 1 * 60) / 60) by (apply Z.div_add; lia). apply Z.div_le_mono; lia. }
  assert (1 <= (a + 30) / 60 < 65535) as H2 by (split; [apply Z.div_le_lower_bound; lia|apply Z.div_lt_upper_bound; lia]). lia.
Qed.

Lemma bind_timers_times d : d_lease_used (bind_timers d) = 0 /\
  (d_offered_t0_lease d <> 0xffffffff -> d_t0_timeout (bind_timers d) = SET_TIMEOUT_FROM_OFFERED (d_offered_t0_lease d) 0 0xffff) /\
  (d_offered_t0_lease d = 0xffffffff -> d_t0_timeout (bind_timers d) = d_t0_timeout d) /\
  (d_offered_t1_renew d <> 0xffffffff -> d_t1_renew_time (bind_timers d) = SET_TIMEOUT_FROM_OFFERED (d_offered_t1_renew d) 0 0xffff) /\
  (d_offered_t2_rebind d <> 0xffffffff -> d_t2_rebind_time (bind_timers d) = SET_TIMEOUT_FROM_OFFERED (d_offered_t2_rebind d) 0 0xffff).
Proof.
  unfold bind_timers. set (d1 := set_d_lease 0 _ d).
  assert (d_lease_used d1 = 0 /\ d_offered_t0_lease d1 = d_offered_t0_lease d /\ d_offered_t1_renew d1 = d_offered_t1_renew d /\ d_offered_t2_rebind d1 = d_offered_t2_rebind d /\
    d_t0_timeout d1 = d_t0_timeout d) as (A1 & <- & <- & <- & <-) by done. clearbody d1.
  set (d2 := if negb (d_offered_t0_lease d1 =? _) then _ else d1).
  assert (d_lease_used d2 = 0 /\ (d_offered_t0_lease d1 <> 0xffffffff -> d_t0_timeout d2 = SET_TIMEOUT_FROM_OFFERED (d_offered_t0_lease d1) 0 0xffff) /\
    (d_offered_t0_lease d1 = 0xffffffff -> d_t0_timeout d2 = d_t0_timeout d1) /\
    d_offered_t1_renew d2 = d_offered_t1_renew d1 /\ d_offered_t2_rebind d2 = d_offered_t2_rebind d1) as (B1 & B2 & B3 & <- & <-).
  { unfold d2. destruct (Z.eqb_spec (d_offered_t0_lease d1) 0xffffffff); cbn [negb]; by split_and!. }
  clearbody d2. set (d3 := if negb (d_offered_t1_renew d2 =? _) then _ else d2).
  assert (d_lease_used d3 = 0 /\ d_t0_timeout d3 = d_t0_timeout d2 /\ (d_offered_t1_renew d2 <> 0xffffffff -> d_t1_renew_time d3 = SET_TIMEOUT_FROM_OFFERED (d_offered_t1_renew d2) 0 0xffff) /\
    d_offered_t2_rebind d3 = d_offered_t2_rebind d2) as (C1 & C2 & C3 & <-).
  { unfold d3. destruct (Z.eqb_spec (d_offered_t1_renew d2) 0xffffffff); cbn [negb]; by split_and!. }
  clearbody d3. set (d4 := if negb (d_offered_t2_rebind d3 =? _) then _ else d3).
  assert (d_lease_used d4 = 0 /\ d_t0_timeout d4 = d_t0_timeout d3 /\ d_t1_renew_time d4 = d_t1_renew_time d3 /\
    (d_offered_t2_rebind d3 <> 0xffffffff -> d_t2_rebind_time d4 = SET_TIMEOUT_FROM_OFFERED (d_offered_t2_rebind d3) 0 0xffff)) as (D1 & D2 & D3 & D4).
  { unfold d4. destruct (Z.eqb_spec (d_offered_t2_rebind d3) 0xffffffff); cbn [negb]; by split_and!. }
  clearbody d4. rewrite <- C2, <- D2 in B2, B3. rewrite <- D3 in C3. by destruct (_ && _).
Qed.

(** C20. The timers of a lease of [l] seconds, when the server gives no times of
    its own: they start at zero minutes used; the lease has [l] seconds rounded
    to minutes, at least one and at most 65535 of them; T1 has half of that time and T2 seven
    eighths, rounded and limited in the same way.  T1 is not after T2 and T2 not after the end up to
    613566756 seconds: beyond that, seven times the lease does not fit in 32 bits.  They are strictly
    in this order for leases from 8 minutes to 52 days (480 to 4493759 seconds): shorter ones can round to the same
    minute, longer ones reach the limit of 65535.  A lease
    of 0xffffffe2 seconds or more that is not infinite ends after a minute.
    An infinite lease (0xffffffff) leaves the end as it was: none for a new client, but
    that of the old lease when a lease is renewed. *)
Theorem dhcp_lease_timers rx yiaddr d l :
  dhcp_option_given rx DHCP_OPTION_IDX_LEASE_TIME = true -> dhcp_get_option_value rx DHCP_OPTION_IDX_LEASE_TIME = l -> is_u32 l ->
  dhcp_option_given rx DHCP_OPTION_IDX_T1 = false -> dhcp_option_given rx DHCP_OPTION_IDX_T2 = false ->
  let d' := bind_timers (dhcp_handle_ack rx yiaddr d) in
  d_lease_used d' = 0 /\ d_t1_renew_time d' = minutes_of (l / 2) /\
  (l < 0xffffffe2 -> d_t0_timeout d' = minutes_of l) /\ (0xffffffe2 <= l < 0xffffffff -> d_t0_timeout d' = 1) /\
  (l = 0xffffffff -> d_t0_timeout d' = d_t0_timeout d) /\
  (l <= 613566756 -> d_t2_rebind_time d' = minutes_of (l * 7 / 8) /\ d_t1_renew_time d' <= d_t2_rebind_time d' <= d_t0_timeout d') /\
  (480 <= l < 4493760 -> d_t1_renew_time d' < d_t2_rebind_time d' < d_t0_timeout d').
Proof.
  intros G0 V0 Hl G1 G2 d'. unfold is_u32 in Hl.
  assert (0 <= l / 2 <= 2147483647) as R1 by (split; [apply Z.div_pos; lia|apply Z.lt_succ_r, Z.div_lt_upper_bound; lia]).
  pose proof (u32_range (l * 7)) as Ru. assert (0 <= u32 (l * 7) / 8 < 536870912) as R2 by (split; [apply Z.div_pos; lia|apply Z.div_lt_upper_bound; lia]).
  assert (d_lease_used d' = 0 /\ d_t1_renew_time d' = SET_TIMEOUT_FROM_OFFERED (l / 2) 0 65535 /\ d_t2_rebind_time d' = SET_TIMEOUT_FROM_OFFERED (u32 (l * 7) / 8) 0 65535 /\
    (l <> 0xffffffff -> d_t0_timeout d' = SET_TIMEOUT_FROM_OFFERED l 0 65535) /\ (l = 0xffffffff -> d_t0_timeout d' = d_t0_timeout d)) as (E1 & E2 & E3 & E4 & E5).
  { set (a := dhcp_handle_ack rx yiaddr d) in *. assert (d_offered_t0_lease a = l /\ d_offered_t1_renew a = l / 2 /\ d_offered_t2_rebind a = u32 (l * 7) / 8 /\ d_t0_timeout a = d_t0_timeout d) as (A0 & A1 & A2 & A3).
    { unfold a, dhcp_handle_ack. rewrite G0, G1, G2, V0. done. }
    destruct (bind_timers_times a) as (B1 & B2 & B5 & B3 & B4). rewrite A0, A1, A2, A3 in *. split_and!; [done|apply B3; lia|apply B4; lia|done|done]. }
  rewrite E1, E2, timeout_minutes by lia. split; [done|]. split; [done|]. split; [intros Hlt; rewrite E4 by lia; by rewrite timeout_minutes by lia|].
  split; [intros Hge; rewrite E4 by lia; apply timeout_wraps; lia|]. split; [done|]. split; intros Hs; rewrite E3, E4, !timeout_minutes by lia; rewrite u32_small by lia.
  - split; [done|]. split; apply minutes_mono; [apply Z.div_le_lower_bound; [lia|]; pose proof (Z.mul_div_le l 2); lia|apply Z.div_le_upper_bound; lia].
  - split; apply minutes_lt; Z.div_mod_to_equations; lia.
Qed.

(** ** The client *)
(** The static variables of dhcp.c at start-up. *)
Definition dhcp_boot {T} (k : stack T dhcp) : dst T := mkDst k NULL 0 0 rx_boot 0 0.

(** ** Leases *)

(** The mask and the router of a lease, in network order: those of the options;
    without them the mask of the class of the address, and none. *)
Definition leased_mask (rx : rx_options) (addr : Z) : Z :=
  match rx_at rx DHCP_OPTION_IDX_SUBNET_MASK with
  | (true, v) => lwip_htonl v
  | (false, _) => if addr mod 256 <? 128 then 0x000000ff else if addr mod 256 <? 192 then 0x0000ffff else 0x00ffffff
  end.
Definition leased_router (rx : rx_options) : Z :=
  match rx_at rx DHCP_OPTION_IDX_ROUTER with (true, v) => lwip_htonl v | (false, _) => 0 end.

Lemma mask_flag f : has_flag (u8 (Z.lor f DHCP_FLAG_SUBNET_MASK_GIVEN)) DHCP_FLAG_SUBNET_MASK_GIVEN = true /\
  has_flag (u8 (Z.land f (Z.lnot DHCP_FLAG_SUBNET_MASK_GIVEN))) DHCP_FLAG_SUBNET_MASK_GIVEN = false.
Proof.
  unfold has_flag, truth, DHCP_FLAG_SUBNET_MASK_GIVEN, u8. change 1 with (Z.ones 1) at 2 4. rewrite !Z.land_ones by lia. change (2 ^ 1) with 2.
  assert (forall x, (x mod 256) mod 2 = Z.b2z (Z.testbit x 0)) as E by (intros x; rewrite Z.bit0_mod; Z.div_mod_to_equations; lia).
  by rewrite !E, Z.lor_spec, Z.land_spec, Z.lnot_spec, orb_true_r, andb_false_r by lia.
Qed.
Lemma bind_mask_leased rx addr d : bind_mask (dhcp_handle_ack rx addr d) = leased_mask rx addr.
Proof.
  unfold bind_mask, dhcp_handle_ack, leased_mask, dhcp_option_given, dhcp_get_option_value. destruct (rx_at rx DHCP_OPTION_IDX_SUBNET_MASK) as [[] v]; cbn -[has_flag u8 Z.lor Z.land Z.lnot].
  - by rewrite (proj1 (mask_flag _)).
  - rewrite (proj2 (mask_flag _)). unfold ip4_addr_byte. cbn [le_bytes nth]. unfold u8. rewrite Z.geb_leb.
    destruct (Z.ltb_spec (addr mod 256) 128), (Z.leb_spec (addr mod 256) 127); try lia; [done|].
    destruct (Z.ltb_spec (addr mod 256) 192), (Z.leb_spec 192 (addr mod 256)); try lia; done.
Qed.
Lemma ack_router_leased rx addr d : d_offered_gw_addr (dhcp_handle_ack rx addr d) = leased_router rx.
Proof. unfold dhcp_handle_ack, leased_router, dhcp_option_given, dhcp_get_option_value. by destruct (rx_at rx DHCP_OPTION_IDX_ROUTER) as [[] v]. Qed.

Section Client.
Context {Fr : Frame}.
Variable custom_free : Z -> pheap -> res pheap.
Variable malloc : nat -> gmap Z pbuf -> Z.
Context (Hmalloc : malloc_ok malloc).
Variable bmos : netif.
Context (Hbmos : nif_hwaddr_len bmos = ETH_HWADDR_LEN).
#[local] Instance dth_ops : LinkOps nic := nic_link custom_free malloc bmos.
#[local] Instance dth_laws : LinkLaws nic := nic_laws custom_free malloc Hmalloc bmos Hbmos.
Variable known : Z -> Prop.
Context (known_null : ~ known 0).
Variable ip4_frag : netifs -> Z -> Z -> Z -> ipst -> res (Z * ipst).
Context (Hfrag : forall nf, netifs_ok known nf -> frag_ok custom_free malloc Hmalloc bmos Hbmos known nf (ip4_frag nf)).
Context {T : Type}.
Variable good : T -> Prop.
Variable tcp_netif_ip_addr_changed : netifs -> Z -> Z -> ipst -> T -> res (ipst * T).
Context (Htcp : tcp_ok custom_free malloc Hmalloc bmos Hbmos known good tcp_netif_ip_addr_changed).
Variable pcb_malloc : nat -> gmap Z udp_pcb -> Z.
Context (Hpcb : forall n m, pcb_malloc n m <> NULL -> m !! pcb_malloc n m = None).
Variable rand : nat -> Z.
Variable mem_malloc : nat -> bool.
Implicit Types s : dst T.
Abbreviation dhcp_inv := (dhcp_inv custom_free malloc Hmalloc bmos Hbmos known good).
Abbreviation stack_ok := (stack_ok custom_free malloc Hmalloc bmos Hbmos known good).
Abbreviation events_run := (events_run custom_free malloc bmos ip4_frag tcp_netif_ip_addr_changed pcb_malloc rand mem_malloc).
Abbreviation events_ok := (events_ok custom_free malloc Hmalloc bmos Hbmos known ip4_frag tcp_netif_ip_addr_changed pcb_malloc rand mem_malloc).
Abbreviation recv := (dhcp_recv custom_free malloc bmos ip4_frag tcp_netif_ip_addr_changed rand).
Abbreviation coarse_tmr := (dhcp_coarse_tmr custom_free malloc bmos ip4_frag tcp_netif_ip_addr_changed pcb_malloc rand mem_malloc).

Lemma dhcp_boot_inv (k : stack T dhcp) : stack_ok [] k -> k_client k = ∅ -> (length (netif_list (k_nf k)) <= 254)%nat -> dhcp_inv [] (dhcp_boot k).
Proof.
  intros [S1 S2 S3 S4 S5] Ec Hl. split; try done.
  - split; [|done]. split; try done. apply rx_boot_ok.
  - by left.
  - cbn. by rewrite Ec.
  - intros a d. unfold netif_dhcp_data. cbn. by rewrite Ec, lookup_empty.
Qed.

(** C13. From start-up, every sequence of calls of the DHCP interface (start,
    renew, stop, release, inform, set_struct, cleanup), timer ticks, link
    changes and replies that [events_ok] allows is worked off: no assertion
    fails and no packet is lost or freed twice.  After it, dhcp_pcb_refcount
    counts the clients that use the UDP block, which is there exactly if
    there are any; a client uses it exactly if it is not off, and while it
    selects, requests or reboots its request timer runs.  [events_ok] asks
    for a registered interface; in dhcp_renew for a client that is not off,
    in dhcp_set_struct for an interface without a client (its assertion), in
    dhcp_cleanup for a client that is off; and a reply may have any bytes but
    is in one pbuf.  Stop, release and the timers are allowed always.  There
    are at most 254 interfaces; ip4_frag and tcp_netif_ip_addr_changed are
    any functions with the contracts [frag_ok] and [tcp_ok]. *)
Theorem dhcp_events_safe k es : stack_ok [] k -> k_client k = ∅ -> (length (netif_list (k_nf k)) <= 254)%nat -> events_ok es (dhcp_boot k) ->
  exists s, events_run es (dhcp_boot k) = Ret s /\ dhcp_inv [] s.
Proof.
  intros Hk Hc Hl He.
  destruct (events_spec custom_free malloc Hmalloc bmos Hbmos known known_null ip4_frag Hfrag good _ Htcp pcb_malloc Hpcb rand mem_malloc es _ (dhcp_boot_inv k Hk Hc Hl) He)
    as (s & E & Hs & _). by exists s.
Qed.

(** The reply in [b] is for the client [d], it parses with the values [rx], and
    has a message type. *)
Definition concerns (netif p : Z) (b : pbuf) (n : nif) s (d : dhcp) (rx : rx_options) : Prop :=
  netif_dhcp_data netif s = Some d /\ addressed (pmem (ip_heap (s_ip s))) b n d /\
  dhcp_parse_reply p (dhcp_rx s) (ip_heap (s_ip s)) = Ret (ERR_OK, rx) /\ dhcp_option_given rx DHCP_OPTION_IDX_MSG_TYPE = true.

(** C14. What a reply does, in every case.  A reply that is not addressed to the
    client (too short, no BOOTREPLY, another hardware address, another
    transaction), that does not parse or has no message type changes no client and no interface.  Of
    the others, an ACK in a state that waits for one binds: the client has the timers of the
    lease, the interface the three addresses.  A NAK takes the address away and
    starts again.  An OFFER with a server, while selecting, is requested from
    that server.  Everything else is ignored.  The packet is freed in all cases. *)
Theorem dhcp_reply_effect x p g b data n s : let netif := current_input_netif g in let m := pmem (ip_heap (s_ip s)) in
  dhcp_inv (p :: x) s -> single (ip_heap (s_ip s)) p b data -> nf_at (k_nf (dk s)) netif = Some n ->
  exists s', recv p g s = Ret s' /\ dhcp_inv x s' /\
    (forall d rx, concerns netif p b n s d rx -> exists n' d', nf_at (k_nf (dk s')) netif = Some n' /\ netif_dhcp_data netif s' = Some d' /\
       replied (u8 (dhcp_get_option_value rx DHCP_OPTION_IDX_MSG_TYPE)) rx (field m (payload b) 16 4) n d n' d') /\
    ((forall d rx, ~ concerns netif p b n s d rx) -> k_nf (dk s') = k_nf (dk s) /\ k_client (dk s') = k_client (dk s)).
Proof.
  intros netif m H Hs Hn.
  destruct (recv_spec custom_free malloc Hmalloc bmos Hbmos known known_null ip4_frag Hfrag good _ Htcp rand x p g b data n s H Hs Hn)
    as (s' & E & [I _] & R). exists s'. split; [done|]. split; [done|]. split.
  - intros d rx (Hd & Ha & Ep & Et).
    destruct (recv_addressed custom_free malloc Hmalloc bmos Hbmos known known_null ip4_frag Hfrag good _ Htcp rand x p g b data n s d rx H Hs Hn Hd Ha Ep Et)
      as (s2 & d' & n' & E2 & _ & Hn' & Hd' & Hr). rewrite E in E2. injection E2 as <-. by exists n', d'.
  - intros Hno. destruct R as [?|(d & d' & n' & rx & Hd & Ha & Ep & Et & _)]; [done|]. by destruct (Hno d rx).
Qed.

(** C15. A client gets its address: an ACK for the transaction of a client that
    waits for one, with the options [l] in its options field (a message type and
    no overload among them), makes the client bound and gives the
    interface the address in yiaddr, the subnet mask and the router of the
    options (without a mask option, the one of the address class). *)
Theorem dhcp_ack_binds x p g b data n s d l : let netif := current_input_netif g in let m := pmem (ip_heap (s_ip s)) in
  dhcp_inv (p :: x) s -> single (ip_heap (s_ip s)) p b data -> nf_at (k_nf (dk s)) netif = Some n -> netif_dhcp_data netif s = Some d ->
  addressed m b n d -> awaits_ack (d_state d) -> holds_options data DHCP_OPTIONS_OFS (p_len b - DHCP_OPTIONS_OFS) l ->
  let rx := collect (dhcp_clear_all_options (dhcp_rx s)) l in
  rx_at rx DHCP_OPTION_IDX_MSG_TYPE = (true, DHCP_ACK) -> dhcp_option_given rx DHCP_OPTION_IDX_OVERLOAD = false ->
  let yiaddr := field m (payload b) 16 4 in
  exists s' d', recv p g s = Ret s' /\ dhcp_inv x s' /\ netif_dhcp_data netif s' = Some d' /\ d_state d' = DHCP_STATE_BOUND /\
    nf_at (k_nf (dk s')) netif = Some (set_if_addrs yiaddr (leased_mask rx yiaddr) (leased_router rx) n).
Proof.
  intros netif m H Hs Hn Hd Ha Hw Ho rx Et Eo yiaddr.
  assert (dhcp_parse_reply p (dhcp_rx s) (ip_heap (s_ip s)) = Ret (ERR_OK, rx)) as Ep.
  { rewrite (parse_reply_items _ _ _ _ Hs (fun _ => l)); [|done|].
    - unfold reply_values. fold rx. unfold rfc_fields. by rewrite Eo.
    - fold rx. unfold rfc_fields. rewrite Eo. by apply Forall_nil_2. }
  destruct (recv_addressed custom_free malloc Hmalloc bmos Hbmos known known_null ip4_frag Hfrag good _ Htcp rand x p g b data n s d rx H Hs Hn Hd Ha Ep)
    as (s' & d' & n' & E & [I _] & Hn' & Hd' & R); [unfold dhcp_option_given; by rewrite Et|].
  exists s', d'. split; [done|]. split; [done|]. split; [done|]. unfold dhcp_get_option_value in R. rewrite Et in R. change (u8 (true, DHCP_ACK).2) with DHCP_ACK in R.
  destruct R as [_ _ E1 E2|?|?|_ _ Hno _]; [|done..|].
  - rewrite E1, set_state_state. split; [done|]. by rewrite E2, bind_mask_leased, ack_router_leased in Hn'.
  - exfalso. apply Hno; auto.
Qed.

(** A client that discovers. *)
Lemma discover_sends x netif n s c d :
  net_ok custom_free malloc Hmalloc bmos Hbmos known x s -> u_pcbs (k_udp (dk s)) !! dhcp_pcb s = Some c -> u_local_port c <> 0 -> nf_at (k_nf (dk s)) netif = Some n ->
  336 <= if_mtu n -> 0 <= ip_id (s_ip s) < 65536 -> netif_dhcp_data netif s = Some d -> client_ok d ->
  exists s' d', dhcp_discover custom_free malloc bmos ip4_frag rand netif s = Ret (ERR_OK, s') /\
    netif_dhcp_data netif s' = Some d' /\ d_state d' = DHCP_STATE_SELECTING /\ 0 < d_request_timeout d' /\
    ((exists i, ip_alloc custom_free malloc PBUF_TRANSPORT SIZEOF_DHCP_MSG (s_ip s) = Ret (NULL, i)) /\ nic_tx (lk (ip_arp (s_ip s'))) = nic_tx (lk (ip_arp (s_ip s))) \/
     nic_tx (lk (ip_arp (s_ip s'))) = nic_tx (lk (ip_arp (s_ip s))) ++
       [broadcast_frame n (s_ip s) c (dhcp_msg n (d_xid d') 0 DHCP_DISCOVER [max_size_item (if_mtu n); requests_item])]).
Proof.
  intros Hnet Hc Hport Hn Hmtu Hid Hd Hok. unfold dhcp_discover, dget. rewrite Hd. cbn [res_of_option res_bind]. set (d0 := dhcp_set_state _ _).
  assert (client_ok d0) as H0 by (apply set_state_ok; client).
  assert (d_state d0 = DHCP_STATE_SELECTING) as Es by apply set_state_state.
  assert (appends (discover_opts n) (encode [max_size_item (if_mtu n); requests_item])) as Ho.
  { cbn [encode]. unfold encode. cbn [fmap list_fmap concat]. rewrite app_nil_r. apply appends_bind; [eapply appends_max_size, (dn_nif _ _ _ _ _ _ _ _ Hnet); exact Hn|apply appends_requests]. }
  destruct (message_frame custom_free malloc Hmalloc bmos Hbmos known known_null ip4_frag Hfrag rand netif n s c d0 DHCP_DISCOVER discover_opts _ x
    Hnet Hc Hport Hn Hmtu Hid ltac:(done) Ho ltac:(cbn; lia)) as (s' & [(E & Hi & Etx)|(E & Etx)]); rewrite E; cbn [res_bind].
  - destruct (retry_spec DHCP_REQUEST_BACKOFF_SEQUENCE d0 backoff_sequence H0) as (_ & R2 & R3 & _). eexists _, _. split; [reflexivity|].
    split; [unfold netif_dhcp_data; cbn; apply lookup_insert_eq|]. split; [by rewrite R3|]. split; [done|]. by left.
  - destruct (with_xid_d custom_free malloc Hmalloc bmos Hbmos known rand DHCP_DISCOVER d0 s x Hnet (co_xid _ H0)) as (y & Ey & Hy). rewrite Ey in *.
    destruct (retry_spec DHCP_REQUEST_BACKOFF_SEQUENCE (set_d_xid y d0) backoff_sequence (set_xid_ok _ _ H0 Hy)) as (_ & R2 & R3 & _). eexists _, _. split; [reflexivity|].
    split; [unfold netif_dhcp_data; cbn; apply lookup_insert_eq|]. split; [by rewrite R3|]. split; [done|]. right. exact Etx.
Qed.

(** C18. dhcp_discover puts exactly one frame on the wire (none if there is no
    memory for it): an Ethernet and IPv4 broadcast from address 0.0.0.0, UDP
    port of the block to port 67, with a BOOTREQUEST that has the hardware address, the transaction
    number, the magic cookie, the message type, the maximum message size, the
    requested parameters, the end mark, and zeros up to 308 bytes.  The client
    is selecting and its timer runs. *)
Theorem dhcp_discover_frame x netif n s c d :
  net_ok custom_free malloc Hmalloc bmos Hbmos known x s -> u_pcbs (k_udp (dk s)) !! dhcp_pcb s = Some c -> u_local_port c <> 0 -> nf_at (k_nf (dk s)) netif = Some n ->
  336 <= if_mtu n -> 0 <= ip_id (s_ip s) < 65536 -> netif_dhcp_data netif s = Some d -> client_ok d ->
  exists s' d', dhcp_discover custom_free malloc bmos ip4_frag rand netif s = Ret (ERR_OK, s') /\
    netif_dhcp_data netif s' = Some d' /\ d_state d' = DHCP_STATE_SELECTING /\ 0 < d_request_timeout d' /\
    ((exists i, ip_alloc custom_free malloc PBUF_TRANSPORT SIZEOF_DHCP_MSG (s_ip s) = Ret (NULL, i)) /\ nic_tx (lk (ip_arp (s_ip s'))) = nic_tx (lk (ip_arp (s_ip s))) \/
     nic_tx (lk (ip_arp (s_ip s'))) = nic_tx (lk (ip_arp (s_ip s))) ++
       [broadcast_frame n (s_ip s) c (dhcp_msg n (d_xid d') 0 DHCP_DISCOVER [max_size_item (if_mtu n); requests_item])]).
Proof. exact (discover_sends x netif n s c d). Qed.

(** [k] ticks of the coarse timer. *)
Fixpoint ticks (k : nat) s : res (dst T) := match k with O => Ret s | S k => let* s := coarse_tmr s in ticks k s end.

(** C16. A lease ends: with one interface and no reply from any server, after as
    many minutes as are left of the lease the client no longer has an address
    and neither has the interface, whatever renewals it has tried in between;
    before that the address stays. *)
Theorem dhcp_lease_expires netif k : forall s d, dhcp_inv [] s -> netif_list (k_nf (dk s)) = [netif] -> netif_dhcp_data netif s = Some d ->
  dhcp_supplied_address netif s = true -> d_lease_used d + Z.of_nat (S k) = d_t0_timeout d ->
  exists s1 s2, ticks k s = Ret s1 /\ dhcp_supplied_address netif s1 = true /\ coarse_tmr s1 = Ret s2 /\ dhcp_inv [] s2 /\
    dhcp_supplied_address netif s2 = false /\ exists n, nf_at (k_nf (dk s2)) netif = Some n /\ if_ip n = IPADDR_ANY.
Proof.
  induction k as [|k IH]; intros s d H Hl Hd Hsup Ht; cbn [ticks].
  all: destruct (coarse_spec custom_free malloc Hmalloc bmos Hbmos known known_null ip4_frag Hfrag good _ Htcp pcb_malloc Hpcb rand mem_malloc [] netif s H) as (s1 & E & [I1 L1] & Hk).
  all: specialize (Hk d Hd Hsup ltac:(lia)).
  all: assert (coarse_tmr s = Ret s1) as Ec by (unfold dhcp_coarse_tmr; rewrite Hl; cbn [for_netifs]; by rewrite E).
  - rewrite (proj2 (Z.eqb_eq _ _)) in Hk by lia. destruct Hk as [K1 K2]. exists s, s1. split; [done|]. split; [done|]. split; [done|]. split; [done|]. split; [done|]. by apply K2.
  - rewrite (proj2 (Z.eqb_neq _ _)) in Hk by lia. destruct Hk as (d' & Hd' & [= F1 F2] & Hs1). rewrite Ec. cbn [res_bind]. apply (IH s1 d'); try done; [by rewrite L1|lia].
Qed.
End Client.

(** ** A client at work

    The interface 7 has no address.  The server 10.0.2.2 offers 10.0.2.15 for
    two minutes, and acknowledges it. *)
#[local] Existing Instance no_frame.
Definition bare_nif : nif := set_if_addrs 0 0 0 ip_nif.
Definition bare_nf : netifs := nf_set 7 bare_nif ip_nf.
Definition dhcp_k : stack unit dhcp := mkStack bare_nf boot_st udp_boot tt ∅ 1.
Lemma dhcp_k_ok : stack_ok demo_custom demo_malloc demo_malloc_ok demo_bmos eq_refl demo_known (fun _ => True) [] dhcp_k.
Proof.
  split; [by apply (nf_set_ok demo_known ip_nf 7 ip_nif bare_nif ip_nf_ok)| |apply boot_st_ok|apply udp_boot_ok|done].
  intros a n. cbn. destruct (a =? 7); [|done]. intros [= <-]. by apply nif_ok_addrs; [apply ip_nif_ok|..].
Qed.
Definition demo_rand (n : nat) : Z := 0x12345678 + Z.of_nat n.
Definition demo_mem (n : nat) : bool := true.
Lemma demo_frags nf : netifs_ok demo_known nf -> frag_ok demo_custom demo_malloc demo_malloc_ok demo_bmos eq_refl demo_known nf demo_frag.
Proof. intros _ p netif dest st x n H _ _. by exists ERR_RTE, st. Qed.

(** A reply of the server, in the pbuf at 4096. *)
Definition reply_opts (message_type : Z) : list item :=
  [Opt DHCP_OPTION_MESSAGE_TYPE [message_type]; Opt DHCP_OPTION_SERVER_ID [10; 0; 2; 2]; Pad; Opt DHCP_OPTION_LEASE_TIME [0; 0; 0; 120];
   Opt DHCP_OPTION_SUBNET_MASK [255; 255; 255; 0]; Opt 12 [98; 109]; Opt DHCP_OPTION_ROUTER [10; 0; 2; 2]].
Definition reply_bytes (message_type : Z) : list Z :=
  [2; 1; 6; 0; 0x12; 0x34; 0x56; 0x78] ++ replicate 8 0 ++ [10; 0; 2; 15] ++ replicate 8 0 ++ if_hwaddr ip_nif ++ replicate 202 0 ++ [0x63; 0x82; 0x53; 0x63]
  ++ encode (reply_opts message_type) ++ [DHCP_OPTION_END].
Definition reply_len : Z := 273.
Definition reply_st (message_type : Z) : ipst := set_ip_mem (mem_write ∅ 4160 (reply_bytes message_type)) (ping_st 0 reply_len).
Definition reply_in (message_type : Z) : list Z := mem_read (mem_write ∅ 4160 (reply_bytes message_type)) 4160 reply_len.
Lemma reply_ok message_type : demo_ip_ok [4096] (ip_arp (reply_st message_type)).
Proof. apply ok_mem; [by apply ping_ok|]. apply mem_ok_mem_write, mem_ok_empty. Qed.
Lemma reply_single message_type : single (ip_heap (reply_st message_type)) 4096 (ping_pbuf 0 reply_len) (reply_in message_type).
Proof. split; try done. apply mem_ok_mem_write, mem_ok_empty. Qed.
Lemma reply_holds message_type : is_byte message_type -> message_type = DHCP_OFFER \/ message_type = DHCP_ACK ->
  holds_options (reply_in message_type) DHCP_OPTIONS_OFS (reply_len - DHCP_OPTIONS_OFS) (reply_opts message_type).
Proof.
  intros Hb Ht. exists (take 240 (reply_bytes message_type)), []. split_and!; [destruct Ht as [-> | ->]; by vm_compute|destruct Ht as [-> | ->]; by vm_compute|by vm_compute|].
  repeat (apply Forall_cons_2; [cbn [item_ok]; split_and?; try done; try (apply (bool_decide_unpack _); by vm_compute)|]); by apply Forall_nil_2.
Qed.

Abbreviation demo_dhcp_inv := (dhcp_inv demo_custom demo_malloc demo_malloc_ok demo_bmos eq_refl demo_known (fun _ : unit => True)).
Abbreviation demo_run := (events_run demo_custom demo_malloc demo_bmos (fun _ => demo_frag) demo_tcp demo_pcb_malloc demo_rand demo_mem).
Abbreviation demo_events_ok := (events_ok demo_custom demo_malloc demo_malloc_ok demo_bmos eq_refl demo_known (fun _ => demo_frag) demo_tcp demo_pcb_malloc demo_rand demo_mem).
Lemma dhcp_k_inv : demo_dhcp_inv [] (dhcp_boot dhcp_k).
Proof. apply dhcp_boot_inv; [apply dhcp_k_ok|done|]. cbn. lia. Qed.

(** Events that are in order whatever the clients are doing. *)
Definition plain_event (e : dhcp_event) : bool :=
  match e with
  | EStart netif | EInform netif | ELinkUp netif | ELinkDown netif => netif =? 7
  | EStop _ | ERelease _ | ECoarse | EFine => true
  | _ => false
  end.
Definition server_event (e : dhcp_event) : Prop := plain_event e = true \/ exists t, e = EReply (reply_st t) 4096 ping_data.
Lemma server_events_ok es : Forall server_event es -> forall s, demo_dhcp_inv [] s -> netif_list (k_nf (dk s)) = [7] -> demo_events_ok es s.
Proof.
  induction 1 as [|e es He _ IH]; intros s H Hl; [done|].
  assert (event_ok demo_custom demo_malloc demo_malloc_ok demo_bmos eq_refl demo_known e s) as Hok.
  { destruct He as [Hp|[t ->]].
    - destruct e; cbn [event_ok plain_event] in *; try done; rewrite Hl; apply Z.eqb_eq in Hp; subst; by left.
    - split; [apply reply_ok|]. split; [eexists _, _; apply reply_single|].
      destruct (inv_at _ _ _ _ _ _ _ _ _ 7 H) as [n Hn]; [rewrite Hl; by left|]. cbn. by rewrite Hn. }
  split; [done|]. intros s' E.
  destruct (event_spec demo_custom demo_malloc demo_malloc_ok demo_bmos eq_refl demo_known demo_null (fun _ => demo_frag) demo_frags (fun _ => True) demo_tcp demo_tcp_ok
    demo_pcb_malloc demo_pcb_fresh demo_rand demo_mem e s H Hok) as (s2 & E2 & [I L]). rewrite E in E2. injection E2 as <-. apply IH; [done|]. by rewrite L.
Qed.

(** The state after [es] from start-up. *)
Definition after (es : list dhcp_event) : dst unit := match demo_run es (dhcp_boot dhcp_k) with Ret s => s | _ => dhcp_boot dhcp_k end.
Lemma after_spec es : Forall server_event es -> demo_run es (dhcp_boot dhcp_k) = Ret (after es) /\ demo_dhcp_inv [] (after es) /\ netif_list (k_nf (dk (after es))) = [7].
Proof.
  intros He. unfold after.
  destruct (events_spec demo_custom demo_malloc demo_malloc_ok demo_bmos eq_refl demo_known demo_null (fun _ => demo_frag) demo_frags (fun _ => True) demo_tcp demo_tcp_ok
    demo_pcb_malloc demo_pcb_fresh demo_rand demo_mem es _ dhcp_k_inv (server_events_ok es He _ dhcp_k_inv eq_refl)) as (s & -> & [I L]). done.
Qed.
Definition offered : list dhcp_event := [EStart 7; EReply (reply_st DHCP_OFFER) 4096 ping_data].
Definition bound_events : list dhcp_event := offered ++ [EReply (reply_st DHCP_ACK) 4096 ping_data].
Definition long_day : list dhcp_event := bound_events ++ [ECoarse; EFine; ELinkDown 7; ELinkUp 7; EFine; EStop 7; EInform 7; ERelease 7].
Lemma long_day_ok : Forall server_event long_day.
Proof. repeat (apply Forall_cons_2; [first [by left|right; by eexists]|]). by apply Forall_nil_2. Qed.
Lemma offered_ok : Forall server_event offered.
Proof. repeat (apply Forall_cons_2; [first [by left|right; by eexists]|]). by apply Forall_nil_2. Qed.
Lemma bound_ok : Forall server_event bound_events.
Proof. repeat (apply Forall_cons_2; [first [by left|right; by eexists]|]). by apply Forall_nil_2. Qed.

Lemma dhcp_events_safe_witness : exists s, demo_run long_day (dhcp_boot dhcp_k) = Ret s /\ demo_dhcp_inv [] s.
Proof.
  apply (dhcp_events_safe demo_custom demo_malloc demo_malloc_ok demo_bmos eq_refl demo_known demo_null (fun _ => demo_frag) demo_frags (fun _ => True) demo_tcp demo_tcp_ok
    demo_pcb_malloc demo_pcb_fresh demo_rand demo_mem dhcp_k long_day).
  - apply dhcp_k_ok.
  - reflexivity.
  - cbn. lia.
  - apply server_events_ok; [apply long_day_ok|apply dhcp_k_inv|reflexivity].
Defined.


(** The client of interface 7 after the offer, and the ACK in the pbuf. *)
Definition asking : dst unit := set_s_ip (reply_st DHCP_ACK) (after offered).
Lemma asking_inv : demo_dhcp_inv [4096] asking.
Proof. apply (inv_ip _ _ _ _ _ _ _ [] [4096]); [apply after_spec, offered_ok|apply reply_ok]. Qed.
Definition asking_client : dhcp := default zero_dhcp (netif_dhcp_data 7 asking).
Lemma asking_client_at : netif_dhcp_data 7 asking = Some asking_client.
Proof. vm_compute. reflexivity. Qed.
Lemma asking_nif : nf_at (k_nf (dk asking)) 7 = Some bare_nif.
Proof. vm_compute. reflexivity. Qed.
Lemma asking_addressed : addressed (pmem (ip_heap (s_ip asking))) (ping_pbuf 0 reply_len) bare_nif asking_client.
Proof. split_and!; by vm_compute. Qed.

Lemma dhcp_reply_effect_witness : exists s',
  dhcp_recv demo_custom demo_malloc demo_bmos (fun _ => demo_frag) demo_tcp demo_rand 4096 ping_data asking = Ret s' /\ demo_dhcp_inv [] s'.
Proof.
  destruct (dhcp_reply_effect demo_custom demo_malloc demo_malloc_ok demo_bmos eq_refl demo_known demo_null (fun _ => demo_frag) demo_frags (fun _ => True) demo_tcp demo_tcp_ok
    demo_rand [] 4096 ping_data (ping_pbuf 0 reply_len) (reply_in DHCP_ACK) bare_nif asking) as (s' & E & I & _).
  - apply asking_inv.
  - apply reply_single.
  - apply asking_nif.
  - exists s'. split; [exact E|exact I].
Defined.

Lemma dhcp_ack_binds_witness : exists s' d',
  dhcp_recv demo_custom demo_malloc demo_bmos (fun _ => demo_frag) demo_tcp demo_rand 4096 ping_data asking = Ret s' /\
  netif_dhcp_data 7 s' = Some d' /\ d_state d' = DHCP_STATE_BOUND /\
  nf_at (k_nf (dk s')) 7 = Some (set_if_addrs (ip4 10 0 2 15) (ip4 255 255 255 0) (ip4 10 0 2 2) bare_nif).
Proof.
  pose proof (dhcp_ack_binds demo_custom demo_malloc demo_malloc_ok demo_bmos eq_refl demo_known demo_null (fun _ => demo_frag) demo_frags (fun _ => True) demo_tcp demo_tcp_ok
    demo_rand [] 4096 ping_data (ping_pbuf 0 reply_len) (reply_in DHCP_ACK) bare_nif asking asking_client (reply_opts DHCP_ACK)) as H.
  destruct H as (s' & d' & E & _ & Hd & Hst & Hn).
  - apply asking_inv.
  - apply reply_single.
  - apply asking_nif.
  - apply asking_client_at.
  - apply asking_addressed.
  - apply (bool_decide_unpack _). vm_compute. exact I.
  - apply reply_holds; [by vm_compute|by right].
  - vm_compute. reflexivity.
  - vm_compute. reflexivity.
  - exists s', d'. split; [exact E|]. split; [exact Hd|]. split; [exact Hst|].
    match type of Hn with _ = Some ?v => let w := eval vm_compute in v in change v with w in Hn end.
    match goal with |- _ = Some ?v => let w := eval vm_compute in v in change v with w end. exact Hn.
Defined.

Lemma dhcp_discover_frame_witness : exists s' d', dhcp_discover demo_custom demo_malloc demo_bmos (fun _ => demo_frag) demo_rand 7 (after [EStart 7]) = Ret (ERR_OK, s') /\
  netif_dhcp_data 7 s' = Some d' /\ d_state d' = DHCP_STATE_SELECTING.
Proof.
  destruct (after_spec [EStart 7]) as (_ & I & _); [apply Forall_cons_2; [by left|by apply Forall_nil_2]|].
  destruct (dhcp_discover_frame demo_custom demo_malloc demo_malloc_ok demo_bmos eq_refl demo_known demo_null (fun _ => demo_frag) demo_frags
    demo_rand [] 7 bare_nif (after [EStart 7]) (default demo_block (u_pcbs (k_udp (dk (after [EStart 7]))) !! 1000)) (default zero_dhcp (netif_dhcp_data 7 (after [EStart 7]))))
    as (s' & d' & E & Hd & Hs & _).
  - apply (rd_net (di_ready _ _ _ _ _ _ _ _ _ I)).
  - vm_compute. reflexivity.
  - vm_compute. discriminate.
  - vm_compute. reflexivity.
  - vm_compute. discriminate.
  - vm_compute. split; congruence.
  - vm_compute. reflexivity.
  - eapply (di_client _ _ _ _ _ _ _ _ _ I 7). vm_compute. reflexivity.
  - exists s', d'. split; [exact E|]. split; [exact Hd|exact Hs].
Defined.

Lemma dhcp_lease_expires_witness : exists s1 s2,
  ticks demo_custom demo_malloc demo_bmos (fun _ => demo_frag) demo_tcp demo_pcb_malloc demo_rand demo_mem 1 (after bound_events) = Ret s1 /\
  dhcp_coarse_tmr demo_custom demo_malloc demo_bmos (fun _ => demo_frag) demo_tcp demo_pcb_malloc demo_rand demo_mem s1 = Ret s2 /\ dhcp_supplied_address 7 s2 = false.
Proof.
  destruct (after_spec bound_events bound_ok) as (_ & I & L).
  destruct (dhcp_lease_expires demo_custom demo_malloc demo_malloc_ok demo_bmos eq_refl demo_known demo_null (fun _ => demo_frag) demo_frags (fun _ => True) demo_tcp demo_tcp_ok
    demo_pcb_malloc demo_pcb_fresh demo_rand demo_mem 7 1 (after bound_events) (default zero_dhcp (netif_dhcp_data 7 (after bound_events)))) as (s1 & s2 & E1 & _ & E2 & _ & H & _).
  - exact I.
  - exact L.
  - vm_compute. reflexivity.
  - vm_compute. reflexivity.
  - vm_compute. reflexivity.
  - exists s1, s2. split; [exact E1|]. split; [exact E2|exact H].
Defined.

Lemma dhcp_options_roundtrip_witness :
  dhcp_parse_reply 4096 rx_boot (ip_heap (reply_st DHCP_ACK)) = Ret (ERR_OK, reply_values (fun _ => reply_opts DHCP_ACK) rx_boot).
Proof.
  apply (dhcp_options_roundtrip (ip_heap (reply_st DHCP_ACK)) 4096 (ping_pbuf 0 reply_len) (reply_in DHCP_ACK) (fun _ => reply_opts DHCP_ACK) rx_boot).
  - apply reply_single.
  - apply reply_holds; [by vm_compute|by right].
  - match goal with |- Forall _ ?l => let w := eval vm_compute in l in change l with w end. apply Forall_nil_2.
Defined.

Lemma dhcp_lease_timers_witness : let d := bind_timers (dhcp_handle_ack (got_option DHCP_OPTION_IDX_LEASE_TIME 86400 rx_boot) 0 zero_dhcp) in
  d_t0_timeout d = 1440 /\ d_t1_renew_time d < d_t2_rebind_time d < d_t0_timeout d.
Proof.
  destruct (dhcp_lease_timers (got_option DHCP_OPTION_IDX_LEASE_TIME 86400 rx_boot) 0 zero_dhcp 86400) as (_ & _ & H & _ & _ & _ & Ho).
  - reflexivity.
  - reflexivity.
  - unfold is_u32. lia.
  - reflexivity.
  - reflexivity.
  - split; [rewrite H by lia; vm_compute; reflexivity|]. apply Ho. lia.
Defined.

(** Three pbufs: the host name of 10 bytes starts at the end of the first one. *)
Definition split_heap : pheap := mkPheap
  {[ 4096 := mkPbuf 5000 4160 268 242 0x80 0 1 0; 5000 := mkPbuf 6000 5064 26 4 0x80 0 1 0; 6000 := mkPbuf NULL 6064 22 22 0x80 0 1 0 ]}
  (mem_write ∅ 4160 (take 240 (reply_bytes DHCP_ACK) ++ [12; 10])).
