(* ===== verification/NetStart.v ===== *)
(** * net_glue.c: the network comes up

    What net_init does after lwip_init: register the one interface, make it the
    default, bring it up and start DHCP on it; and that this leaves the whole
    stack in order. *)
From S2P Require Import Prelude NetShim Ip4Addr Link Etharp EtharpInv EtharpTheorems Checksum Pbuf PbufChain PbufOps NetGlue Ethernet EthernetInv EthernetRx EthernetTheorems Ip4 Icmp Ip4Input Ip4Inv IcmpInv Ip4Rx Ip4Hdr Ip4Send Ip4Theorems Reass ReassInv ReassOps ReassRun ReassTheorems Udp UdpInv UdpSend UdpTheorems Netif NetifInv NetifTheorems DhcpParse DhcpOptions Dhcp DhcpMsg DhcpSend DhcpInv DhcpOps DhcpSafe DhcpEvents DhcpTheorems.

(** bmos_netif_init as the init function of netif_add. *)
Definition bmos_init (mac : Z) (n : nif) : Z * nif :=
  let b := bmos_netif_init mac in
  (ERR_OK, mkNif (if_ip n) (if_netmask n) (if_gw n) (nif_mtu b) (nif_hwaddr b) (nif_hwaddr_len b) (nif_flags b) (if_num n)).
(** No interface yet. *)
Definition no_netifs : netifs := mkNetifs (fun _ => None) [] NULL.

Section Start.
Variable custom_free : Z -> pheap -> res pheap.
Variable malloc : nat -> gmap Z pbuf -> Z.
Variable mac : Z.
Let bmos : netif := bmos_netif_init mac.
Variable ip4_frag : netifs -> Z -> Z -> Z -> ipst -> res (Z * ipst).
Context {T : Type}.
Variable tcp_netif_ip_addr_changed : netifs -> Z -> Z -> ipst -> T -> res (ipst * T).
Variable pcb_malloc : nat -> gmap Z udp_pcb -> Z.
Variable rand : nat -> Z.
Variable mem_malloc : nat -> bool.

(** [netif] is the address of bmos_netif. *)
Definition net_up (netif : Z) (s : dst T) : res (dst T) :=
  let* (_, k) := netif_add custom_free malloc bmos tcp_netif_ip_addr_changed netif (Some IPADDR_ANY) (Some IPADDR_ANY) (Some IPADDR_ANY) (bmos_init mac) (dk s) in
  let k := netif_set_default netif k in
  let* k := netif_set_up custom_free malloc bmos netif k in
  let* (_, s) := dhcp_start custom_free malloc bmos ip4_frag tcp_netif_ip_addr_changed pcb_malloc rand mem_malloc netif (set_dk k s) in
  Ret s.

(** The interface as net_init makes it. *)
Definition bmos_nif (num : Z) : nif := mkNif 0 0 0 1500 (nif_hwaddr bmos) 6 14 num.

Lemma num_loop_free fuel nf netif num : netif_list nf = [] -> 0 <= num <= 254 -> num_loop (S fuel) nf netif num = Ret num.
Proof. intros El Hn. cbn [num_loop]. rewrite El, (proj2 (Z.eqb_neq num 255)) by lia. done. Qed.

(** The interface is added, whatever is in the rest of the stack. *)
Lemma add_first netif (k : stack T dhcp) : netif <> NULL -> k_nf k = no_netifs -> 0 <= netif_num k <= 254 ->
  exists k', netif_add custom_free malloc bmos tcp_netif_ip_addr_changed netif (Some IPADDR_ANY) (Some IPADDR_ANY) (Some IPADDR_ANY) (bmos_init mac) k = Ret (netif, k') /\
    netif_list (k_nf k') = [netif] /\ netif_default (k_nf k') = NULL /\
    (forall a, nf_at (k_nf k') a = if a =? netif then Some (bmos_nif (netif_num k)) else None) /\
    k_ip k' = k_ip k /\ k_udp k' = k_udp k /\ k_tcp k' = k_tcp k /\ k_client k' = delete netif (k_client k).
Proof.
  intros Hn Hk Hnum. unfold netif_add. rewrite (proj2 (Z.eqb_neq _ _) Hn), Hk. cbn [nf_at no_netifs].
  change (default zero_nif None) with zero_nif. set (n0 := mkNif _ _ _ _ _ _ _ _). set (k1 := set_k_client _ _).
  assert (kget k1 netif = Ret n0) as Hg by (unfold kget; cbn; by rewrite Z.eqb_refl).
  assert (netif_set_addr custom_free malloc bmos tcp_netif_ip_addr_changed netif (Some IPADDR_ANY) (Some IPADDR_ANY) (Some IPADDR_ANY) k1 = Ret k1) as ->.
  { unfold netif_set_addr, netif_do_set_ipaddr, netif_do_set_netmask, netif_do_set_gw. change (default IPADDR_ANY (Some IPADDR_ANY)) with IPADDR_ANY.
    cbn [Z.eqb]. change (IPADDR_ANY =? IPADDR_ANY) with true. cbn [negb]. cbv iota. rewrite Hg. cbn [res_bind]. change (negb (IPADDR_ANY =? if_ip n0)) with false. cbv iota. cbn [res_bind].
    rewrite Hg. cbn [res_bind]. change (negb (IPADDR_ANY =? if_netmask n0)) with false. cbv iota. cbn [res_bind].
    rewrite Hg. cbn [res_bind]. change (negb (IPADDR_ANY =? if_gw n0)) with false. cbv iota. by cbn [res_bind]. }
  cbn [res_bind]. rewrite Hg. cbn [res_bind]. unfold bmos_init. cbn [fst snd]. change (negb (ERR_OK =? ERR_OK)) with false. cbv iota.
  set (n1 := mkNif _ _ _ _ _ _ _ _). change (if_num n1) with (netif_num k). set (k2 := kset netif n1 k1).
  assert (num_loop 256 (k_nf k2) netif (netif_num k) = Ret (netif_num k)) as ->.
  { apply (num_loop_free 255); [cbn; by rewrite Hk|done]. }
  cbn [res_bind]. eexists. split; [reflexivity|]. cbn. rewrite Hk. split_and!; try done.
  intros a. destruct (a =? netif); done.
Qed.

Context {Fr : Frame}.
Context (Hmalloc : malloc_ok malloc).
Variable known : Z -> Prop.
Context (known_null : ~ known 0).
Context (Hfrag : forall nf, netifs_ok known nf -> frag_ok custom_free malloc Hmalloc bmos eq_refl known nf (ip4_frag nf)).
Variable good : T -> Prop.
Context (Hpcb : forall n m, pcb_malloc n m <> NULL -> m !! pcb_malloc n m = None).
Abbreviation dhcp_inv := (dhcp_inv custom_free malloc Hmalloc bmos eq_refl known good).
Abbreviation stack_ok := (stack_ok custom_free malloc Hmalloc bmos eq_refl known good).

Lemma bmos_nif_ok num : 0 <= mac < 18446744073709551616 -> nif_ok (bmos_nif num).
Proof.
  intros Hm. destruct (netif_init_mac mac (proj1 Hm)) as (_ & Hb & _). split; try done; cbn; lia.
Qed.
(** The state before dhcp_start: the interface is the default and up, and no
    ARP request was sent for it. *)
Lemma up_first netif (k : stack T dhcp) : netif <> NULL -> k_nf k = no_netifs -> 0 <= netif_num k <= 254 -> k_client k = ∅ ->
  exists k', (let* (_, k) := netif_add custom_free malloc bmos tcp_netif_ip_addr_changed netif (Some IPADDR_ANY) (Some IPADDR_ANY) (Some IPADDR_ANY) (bmos_init mac) k in
      netif_set_up custom_free malloc bmos netif (netif_set_default netif k)) = Ret k' /\
    netif_list (k_nf k') = [netif] /\ netif_default (k_nf k') = netif /\
    (forall a, nf_at (k_nf k') a = if a =? netif then Some (netif_set_flags NETIF_FLAG_UP (bmos_nif (netif_num k))) else None) /\
    k_ip k' = k_ip k /\ k_udp k' = k_udp k /\ k_tcp k' = k_tcp k /\ k_client k' = ∅.
Proof.
  intros Hn Hk Hnum Hc. destruct (add_first netif k Hn Hk Hnum) as (k1 & -> & E1 & E2 & E3 & E4 & E5 & E6 & E7). cbn [res_bind].
  unfold netif_set_up, kget. rewrite (proj2 (Z.eqb_neq _ _) Hn). cbn [netif_set_default set_k_nf k_nf nf_at]. rewrite E3, Z.eqb_refl. cbn [res_of_option res_bind].
  change (negb (netif_is_up (bmos_nif (netif_num k)))) with true. cbv iota. unfold netif_issue_reports, kget. rewrite (proj2 (Z.eqb_neq _ _) Hn). cbn [negb lwip_assert].
  cbn [kset set_k_nf k_nf nf_set nf_at]. rewrite Z.eqb_refl. cbn [res_of_option res_bind].
  eexists. split; [reflexivity|]. cbn. rewrite E1, E4, E5, E6, E7, Hc. split_and!; try done.
  intros a. rewrite E3. by destruct (a =? netif).
Qed.

(** The UDP block of the clients: port 68 of any address, connected to port 67. *)
Definition client_block : udp_pcb :=
  mkUdpPcb IPADDR_ANY IPADDR_ANY 0 0 UDP_TTL UDP_FLAGS_CONNECTED LWIP_IANA_PORT_DHCP_CLIENT LWIP_IANA_PORT_DHCP_SERVER DHCP_RECV NULL.

Definition fresh_block : udp_pcb := mkUdpPcb 0 0 0 0 UDP_TTL 0 0 0 NULL NULL.

(** The first client makes the block, if there is memory for it. *)
Lemma inc_first (s : dst T) : dhcp_pcb s = NULL -> dhcp_pcb_refcount s = 0 -> udp_pcbs (k_udp (dk s)) = [] ->
  let pcb := pcb_malloc (u_allocs (k_udp (dk s))) (u_pcbs (k_udp (dk s))) in
  exists u, dhcp_inc_pcb_refcount pcb_malloc s =
      (if pcb =? NULL then Ret (ERR_MEM, set_s_udp u (set_pcb NULL 0 s)) else Ret (ERR_OK, set_pcb pcb 1 (set_s_udp u (set_pcb pcb 0 s)))) /\
    (pcb <> NULL -> u_pcbs u !! pcb = Some client_block).
Proof.
  intros Ep Er El pcb. unfold dhcp_inc_pcb_refcount, udp_new. rewrite Ep, Er. change (0 =? 0) with true. change (NULL =? NULL) with true. cbn [lwip_assert]. cbv iota.
  fold pcb. destruct (Z.eqb_spec pcb NULL) as [E|Hn].
  { change (NULL =? NULL) with true. cbv iota. cbn [res_bind]. eexists. split; [reflexivity|done]. }
  pose proof (proj2 (Z.eqb_neq _ _) Hn) as En. cbv beta iota zeta. rewrite En.
  set (u1 := uset pcb _ _). assert (udp_pcbs u1 = []) as E1 by exact El.
  assert (udp_bind pcb (Some IPADDR_ANY) LWIP_IANA_PORT_DHCP_CLIENT u1 = Ret (ERR_OK, set_udp_pcbs [pcb] (uset pcb (set_local IPADDR_ANY LWIP_IANA_PORT_DHCP_CLIENT fresh_block) u1))) as ->.
  { unfold udp_bind, uget. rewrite En, E1. cbn. rewrite lookup_insert_eq. cbn. by rewrite El. }
  cbn [res_bind]. set (u2 := set_udp_pcbs _ _).
  assert (udp_connect pcb IPADDR_ANY LWIP_IANA_PORT_DHCP_SERVER u2 = Ret (ERR_OK, uset pcb (set_recv NULL NULL client_block) u2)) as ->.
  { unfold udp_connect, uget. rewrite En. unfold u2. cbn. rewrite lookup_insert_eq. cbn. rewrite lookup_insert_eq. cbn. by rewrite Z.eqb_refl. }
  cbn [res_bind]. unfold udp_recv, uget. rewrite En. cbn [u_pcbs uset]. rewrite lookup_insert_eq. cbn [res_of_option res_bind].
  eexists. split; [reflexivity|]. intros _. cbn [u_pcbs uset]. by rewrite lookup_insert_eq.
Qed.

(** What dhcp_start leaves for an interface that is up and had no client: no
    client without memory for it; one that is off without memory for the UDP
    block; and otherwise one that is selecting, whose request has been
    sent unless there was no memory for that. *)
Definition started (netif : Z) (n : nif) (s s' : dst T) : Prop :=
  let u := k_udp (dk s) in
  let tx := nic_tx (lk (ip_arp (s_ip s))) in
  let tx' := nic_tx (lk (ip_arp (s_ip s'))) in
  if negb (mem_malloc (d_mallocs s)) then netif_dhcp_data netif s' = None /\ tx' = tx
  else if pcb_malloc (u_allocs u) (u_pcbs u) =? NULL then netif_dhcp_data netif s' = Some zero_dhcp /\ tx' = tx
  else exists d, netif_dhcp_data netif s' = Some d /\ d_state d = DHCP_STATE_SELECTING /\ 0 < d_request_timeout d /\
    ((exists i, ip_alloc custom_free malloc PBUF_TRANSPORT SIZEOF_DHCP_MSG (s_ip s) = Ret (NULL, i)) /\ tx' = tx \/
     tx' = tx ++ [broadcast_frame n (s_ip s) client_block (dhcp_msg n (d_xid d) 0 DHCP_DISCOVER [max_size_item (if_mtu n); requests_item])]).

Lemma start_first x netif n s err s' : dhcp_inv x s -> nf_at (k_nf (dk s)) netif = Some n -> netif_is_up n = true -> netif_is_link_up n = true -> 576 <= if_mtu n ->
  netif_dhcp_data netif s = None -> dhcp_pcb s = NULL -> dhcp_pcb_refcount s = 0 -> udp_pcbs (k_udp (dk s)) = [] -> 0 <= ip_id (s_ip s) < 65536 ->
  dhcp_start custom_free malloc bmos ip4_frag tcp_netif_ip_addr_changed pcb_malloc rand mem_malloc netif s = Ret (err, s') -> started netif n s s'.
Proof.
  intros H Hn Hup Hlink Hmtu Hno Ep Er El Hid. pose proof (di_ready _ _ _ _ _ _ _ _ _ H) as Hr.
  unfold dhcp_start, started. rewrite (proj2 (Z.eqb_neq _ _) (one_null custom_free malloc Hmalloc bmos eq_refl known known_null good x s netif n Hr Hn)).
  unfold kget. rewrite Hn. cbn [res_of_option res_bind]. change DHCP_MAX_MSG_LEN_MIN_REQUIRED with 576. rewrite Hup, Hlink, (proj2 (Z.ltb_ge _ _) Hmtu), Hno. cbn [negb res_bind]. cbv iota zeta.
  destruct (mem_malloc (d_mallocs s)); cbn [negb]; [|by intros [= <- <-]].
  set (s1 := mkDst _ _ _ _ _ _ _). assert (ready custom_free malloc Hmalloc bmos eq_refl known good x (dput netif zero_dhcp s1)) as R1 by (apply dput_ready; by destruct Hr as [[] ?]; split; [split|]).
  destruct (inc_first (dput netif zero_dhcp s1) Ep Er El) as (u & E & Hu). cbv zeta in E, Hu. cbn [dput set_dk dk set_k_client k_udp s1] in E, Hu.
  set (pcb := pcb_malloc _ _) in *.
  destruct (inc_spec custom_free malloc Hmalloc bmos eq_refl known good pcb_malloc Hpcb x (dput netif zero_dhcp s1) R1) as (err2 & s2 & E2 & R2 & _);
    [by left|cbn; rewrite Er; lia|].
  change (dput netif zero_dhcp s1) with (mkDst (set_k_client (<[netif := zero_dhcp]> (k_client (dk s))) (dk s)) (dhcp_pcb s) (dhcp_pcb_refcount s) (dhcp_xid s) (dhcp_rx s) (d_rands s) (S (d_mallocs s))) in *.
  rewrite E in E2 |- *. destruct (Z.eqb_spec pcb NULL) as [Ez|Hz].
  - cbn [res_bind]. change (negb (ERR_MEM =? ERR_OK)) with true. cbv iota. intros [= <- <-]. unfold netif_dhcp_data. cbn. by rewrite lookup_insert_eq.
  - cbn [res_bind]. change (negb (ERR_OK =? ERR_OK)) with false. cbv iota. injection E2 as <- Es2. rewrite Es2.
    set (d := set_d_pcb_allocated true zero_dhcp). assert (client_ok d) as Hd by (pose proof zero_client as Hz'; unfold d; client).
    destruct (discover_sends custom_free malloc Hmalloc bmos eq_refl known known_null ip4_frag Hfrag rand x netif n (dput netif d s2) client_block d)
      as (s3 & d3 & -> & D1 & D2 & D3 & D4); try done; [eapply rd_net, dput_ready, R2|rewrite <- Es2; by apply Hu|by rewrite <- Es2|lia|by rewrite <- Es2|unfold netif_dhcp_data; cbn; by rewrite lookup_insert_eq|].
    cbn [res_bind]. change (negb (ERR_OK =? ERR_OK)) with false. cbv iota. intros [= <- <-]. exists d3. rewrite <- Es2 in D4. done.
Qed.

(** C17. Start-up: from a stack without interfaces, UDP blocks and clients, net_init (after lwip_init)
    returns; the one interface is registered, the default, up, with the MAC
    address of the NIC and without an IP address; the invariants of
    interfaces, packets, ARP, UDP and the DHCP client hold.  The client is selecting, its request timer runs, and exactly one frame
    was sent, the DISCOVER broadcast from port 68 with this interface's hardware address, with these exceptions, in
    which nothing was sent: without memory for the client there is none; without memory for its
    UDP block it is off; without memory for the message it is selecting all the same.  ip4_frag is any function with the contract [frag_ok]. *)
Theorem net_up_starts netif s : known netif -> 0 <= mac < 18446744073709551616 ->
  stack_ok [] (dk s) -> s = dhcp_boot (dk s) -> k_nf (dk s) = no_netifs -> 0 <= netif_num (dk s) <= 254 -> k_client (dk s) = ∅ ->
  udp_pcbs (k_udp (dk s)) = [] -> 0 <= ip_id (s_ip s) < 65536 ->
  let n := netif_set_flags NETIF_FLAG_UP (bmos_nif (netif_num (dk s))) in
  exists s', net_up netif s = Ret s' /\ dhcp_inv [] s' /\ netif_list (k_nf (dk s')) = [netif] /\ netif_default (k_nf (dk s')) = netif /\
    nf_at (k_nf (dk s')) netif = Some n /\ started netif n s s'.
Proof.
  intros Hkn Hm [S1 S2 S3 S4 S5] Es Hk Hnum Hc Hu Hid n. assert (netif <> NULL) as Hn by (intros ->; by apply known_null).
  destruct (up_first netif (dk s) Hn Hk Hnum Hc) as (k1 & E & E1 & E2 & E3 & E4 & E5 & E6 & E7).
  apply res_bind_Ret in E as ([a k0] & Ea & Eu). unfold net_up. rewrite Ea. cbn [res_bind]. rewrite Eu. cbn [res_bind]. fold n in E3.
  assert (nif_ok n) as Hok by (apply flags_ok, bmos_nif_ok, Hm).
  assert (stack_ok [] k1) as Sk.
  { split; [split| | | |].
    - intros b m. rewrite E3. destruct (Z.eqb_spec b netif) as [->|]; [|done]. intros [= <-]. done.
    - intros b. rewrite E1, E3. intros ->%list_elem_of_singleton. by rewrite Z.eqb_refl.
    - right. rewrite E2, E3, Z.eqb_refl. done.
    - intros b m. rewrite E3. destruct (b =? netif); [|done]. by intros [= <-].
    - by rewrite E4.
    - by rewrite E5.
    - by rewrite E6. }
  assert (set_dk k1 s = dhcp_boot k1) as -> by (by rewrite Es).
  assert (dhcp_inv [] (dhcp_boot k1)) as H by (apply dhcp_boot_inv; [done|done|rewrite E1; cbn; lia]).
  assert (nf_at (k_nf (dk (dhcp_boot k1))) netif = Some n) as Hat by (cbn; by rewrite E3, Z.eqb_refl).
  destruct (start_spec custom_free malloc Hmalloc bmos eq_refl known known_null ip4_frag Hfrag good tcp_netif_ip_addr_changed pcb_malloc Hpcb rand mem_malloc [] netif _ H)
    as (err & s' & Est & I & En & _); [cbn; rewrite E1; by left|]. rewrite Est. cbn [res_bind]. exists s'. rewrite En. cbn. split_and!; try done.
  assert (started netif n (dhcp_boot k1) s') as Hst.
  { apply (start_first [] netif n _ err s' H Hat); try done; [unfold netif_dhcp_data; cbn; by rewrite E7|cbn; by rewrite E5|unfold s_ip in *; cbn; by rewrite E4]. }
  unfold started, s_ip in Hst |- *. rewrite Es. cbn in Hst |- *. by rewrite E4, E5 in Hst.
Qed.
End Start.

(** ** The theorem at work *)
#[local] Existing Instance no_frame.
Definition cold_stack : stack unit dhcp := mkStack no_netifs boot_st udp_boot tt ∅ 0.
Lemma cold_stack_ok : stack_ok demo_custom demo_malloc demo_malloc_ok (bmos_netif_init 0x525400123456) eq_refl demo_known (fun _ => True) [] cold_stack.
Proof.
  split; [split; [done| |by left]|done|apply boot_st_ok|apply udp_boot_ok|done]. by intros a Ha%not_elem_of_nil.
Qed.
Lemma net_up_starts_witness : exists s' d,
  net_up demo_custom demo_malloc 0x525400123456 (fun _ => demo_frag) demo_tcp demo_pcb_malloc demo_rand demo_mem 7 (dhcp_boot cold_stack) = Ret s' /\
  netif_dhcp_data 7 s' = Some d /\ d_state d = DHCP_STATE_SELECTING.
Proof.
  destruct (net_up_starts demo_custom demo_malloc 0x525400123456 (fun _ => demo_frag) demo_tcp demo_pcb_malloc demo_rand demo_mem demo_malloc_ok demo_known demo_null demo_frags (fun _ => True)
    demo_pcb_fresh 7 (dhcp_boot cold_stack)) as (s' & E & _ & _ & _ & _ & St).
  - reflexivity.
  - lia.
  - apply cold_stack_ok.
  - reflexivity.
  - reflexivity.
  - cbn. lia.
  - reflexivity.
  - reflexivity.
  - cbn. lia.
  - destruct St as (d & Hd & Hs & _). exists s', d. split; [exact E|]. split; [exact Hd|exact Hs].
Defined.
(** With memory for the message, too, the DISCOVER is on the wire. *)
Example net_up_discovers :
  (let* s := net_up demo_custom demo_malloc 0x525400123456 (fun _ => demo_frag) demo_tcp demo_pcb_malloc demo_rand demo_mem 7 (dhcp_boot cold_stack) in
   Ret (length <$> nic_tx (lk (ip_arp (s_ip s))))) = Ret [350%nat].
Proof. vm_compute. reflexivity. Qed.

(** ** From the wire to the client

    The frames of the server, through Ethernet, IP, reassembly and UDP to
    dhcp_recv: the interface gets its address. *)
Definition client_layer (nf : netifs) := ip4_rx demo_custom demo_malloc demo_bmos nf demo_frag
  (reass_layer demo_custom demo_malloc demo_bmos nf demo_frag (fun _ => true))
  (transport_layer (udp_input demo_custom demo_malloc demo_bmos nf demo_frag (dhcp_callback demo_custom demo_malloc demo_bmos (fun _ => demo_frag) demo_tcp demo_rand)))
  (transport_layer (fun p _ _ st u => let* st := ip_free demo_custom p st in Ret (st, u))).
Definition server_frame (message_type : Z) : list Z :=
  let msg := reply_bytes message_type in
  let h := udphdr 67 68 (Z.of_nat (length msg) + 8) in
  let body := h (udp_check (ip4 10 0 2 2) IPADDR_BROADCAST (h 0 ++ msg)) ++ msg in
  let ih := iphdr (Z.of_nat (length body) + 20) 78 (ip4 10 0 2 2) IPADDR_BROADCAST 64 0 IP_PROTO_UDP in
  ethbroadcast ++ gw_mac ++ [8; 0] ++ ih (rfc1071 (ih 0)) ++ body.
(** The frame [f] arrives in a fresh pbuf; the state of the clients after it. *)
Definition frame_in (f : list Z) (s : dst unit) : res (dst unit) :=
  let n := Z.of_nat (length f) in
  let w := lk (ip_arp (s_ip s)) in
  let h := mkPheap (<[4096 := mkPbuf NULL 4160 n n 0x80 0 1 0]> (pbufs (nic_heap w))) (mem_write (pmem (nic_heap w)) 4160 f) in
  let a := set_lk (mkNic h (nic_mallocs w) (nic_txbuf w) (nic_tx w)) (ip_arp (s_ip s)) in
  let* (_, _, (_, (_, (_, s)))) := ethernet_input demo_custom demo_malloc (client_layer (k_nf (dk s))) demo_bmos (nf_at (k_nf (dk s))) 4096 7 a
    (ip_id (s_ip s), (reass_boot, (k_udp (dk s), s))) in
  Ret s.
Example client_gets_address :
  (let* s := net_up demo_custom demo_malloc 0x525400123456 (fun _ => demo_frag) demo_tcp demo_pcb_malloc demo_rand demo_mem 7 (dhcp_boot cold_stack) in
   let* s := frame_in (server_frame DHCP_OFFER) s in
   let* s := frame_in (server_frame DHCP_ACK) s in
   Ret (option_map d_state (netif_dhcp_data 7 s), option_map (fun n => (if_ip n, if_netmask n, if_gw n)) (nf_at (k_nf (dk s)) 7)))
  = Ret (Some DHCP_STATE_BOUND, Some (ip4 10 0 2 15, ip4 255 255 255 0, ip4 10 0 2 2)).
Proof. vm_compute. reflexivity. Qed.
